(* ===== verification/_CoqProject ===== *)
-Q . S2P
Prelude.v
Text.v
TextOps.v
Platform.v
DocumentModel.v
DocumentProjection.v
DocumentReducer.v
DocumentFacts.v
DocumentSpec.v
DocumentStore.v
ContextCoordinate.v
ContextModel.v
ContextProjection.v
ContextReducer.v
ContextFacts.v
ContextSpec.v
ContextStore.v
ContextProgress.v
ViewModel.v
ViewMutation.v
ViewContract.v
ViewReference.v
ViewObject.v
ViewCommand.v
ViewState.v
ViewProjection.v
ViewFacts.v
ViewSpec.v
ViewHistory.v
ViewErrors.v
ViewProgress.v
Reference.v
DocumentHistory.v
DocumentTheorems.v
ContextTheorems.v
ViewTheorems.v
Maintenance.v
MaintenanceTheorems.v
AuditLog.v
AuditChain.v
AuditTamper.v
AuditTheorems.v
GitPerms.v
GitFacts.v
GitPolicy.v
GitHook.v
GitTheorems.v
Conformance.v
ConformanceTheorems.v
CrossDomain.v
CrossTheorems.v
RoleGovernance.v
RoleModel.v
RoleCommand.v
RoleState.v
RoleReducer.v
RoleFacts.v
RoleEdits.v
RoleHistory.v
RoleSteps.v
RoleMoves.v
RoleReach.v
RoleAuth.v
RoleOutcome.v
RoleRecovery.v
RoleTheorems.v
Ordering.v
SemanticModel.v
SemanticResult.v
SemanticVerify.v
SemanticFrontier.v
SemanticScoreFacts.v
SemanticRootFacts.v
SemanticPathFacts.v
SemanticRequestFacts.v
SemanticTraversal.v
SemanticEngine.v
SemanticEngineFacts.v
SemanticTheorems.v
