(* ===== verification/Prelude.v ===== *)
(** * Carryforth: the Project domain, semantic search, git policy and the audit log

    Carryforth is a Rust workspace ([crates/]) around a relay on which people
    and agents share projects.  Its rules live in pure crates that load a
    canonical state, check a signed command against it and return the next
    state; the relay and the PostgreSQL adapters run them under a lock and store
    what they return.  This development models those crates and proves what
    the rest of the system relies on.

    ** The parts and how they interact

    - Project Documents ([buzz-project-document]): versioned texts of a
      project.  A command creates, updates or deletes one Document at an
      expected revision.
    - Project Context ([buzz-project-context]): a hyperedge between Project
      coordinates (objects, Roles, Documents) with bound Context Documents,
      which a command attaches or detaches.
    - Project View, schema 3 ([buzz-project-view], [v3/]): the typed objects of
      a project (Profile, Goals, Roles, Plans, Resources, ...) with their
      relations and their references to Documents.
    - Role continuity ([buzz-project-view], [v2.rs], [v2/role_continuity.rs],
      [v3/role_continuity.rs]): who holds a Role of the project.  A member is
      proposed for a Role, an Assignment starts with two consents, its holder
      commits to Work, leaves Checkpoints and Handoffs, and is revoked, replaced
      or, when its runtime is lost, ended by the system.
    - Maintenance ([buzz-project-view], [v3/maintenance.rs]): the state machine
      around the cutover to schema 3 and its repair plans.
    - The audit log ([buzz-audit]): a hash chain of entries per community.
    - Git permissions ([buzz-core/src/git_perms.rs], [channel.rs] and the
      pre-receive hook of [buzz-relay/src/api/git/policy.rs]): who may push what.
    - Trace conformance ([buzz-conformance]): the replay checker of the
      multi-tenant traces.
    - Semantic query ([buzz-semantic-query], [buzz-semantic/src/model.rs] and
      [buzz-relay/src/semantic_graph_traversal.rs]): the search of the Context
      hyperedges for a question.  Roots are selected by score, an engine follows
      relation Documents from Coordinate to Coordinate under a budget and a
      deadline, and a verifier checks the resulting forest of paths against the
      request.

    A Context binding names a Document and deleting a Document asks whether a
    binding protects it: [CrossDomain] composes both stores under the lock they
    share.  A Project View command proves the Documents it newly names against
    the Document domain ([ViewReference], [ViewProgress]).  The semantic search
    walks the edges of the Context domain: its hops carry edge keys
    ([EdgeKey_derive]) and Coordinates of [ContextModel], and what the engine
    returns is the input of the verifier; the samples of [SemanticTheorems] run
    one through the other.

    ** Files

    Shared: [Prelude] (results and their notation, tactics, hint databases,
    lists and finite maps), [Text] and [TextOps] (Rust strings, UTF-8 and
    [serde_json::Value]),
    [Platform] (third-party types and their laws, ordered maps, the runtime
    fence of [buzz-core/src/runtime.rs] and the object kinds), [Reference] (a
    concrete platform where the laws hold and the samples run), [Ordering]
    (comparison functions, sorting and deduplication).

    For a component X the definitions come first, in files named after the
    Rust modules, and the theory after them:
    - [DocumentModel] ([error.rs], [validation.rs], [model.rs], [command.rs]),
      [DocumentProjection], [DocumentReducer] (the module of that name);
      [DocumentFacts] and [DocumentSpec] (what the validators and the reducer
      decide), [DocumentStore] and [DocumentHistory] (the store over time),
      [DocumentTheorems].
    - [ContextCoordinate] ([error.rs], [validation.rs], [coordinate.rs]),
      [ContextModel] ([model.rs], [command.rs]), [ContextProjection],
      [ContextReducer];
      [ContextFacts], [ContextSpec], [ContextStore], [ContextProgress],
      [ContextTheorems].
    - [ViewModel] ([model.rs], [error.rs], [patch.rs]), [ViewMutation]
      ([mutation.rs], [validation.rs]), [ViewContract] ([v3/contract.rs]),
      [ViewReference] ([v3/context_reference.rs]), [ViewObject]
      ([v3/model.rs]), [ViewCommand] and [ViewState] ([v3/project_object.rs],
      [v3/validation.rs]), [ViewProjection] ([v3/projection.rs]); [ViewFacts],
      [ViewSpec], [ViewHistory], [ViewErrors], [ViewProgress] (introduced
      Documents, publication, snapshots and deletions), [ViewTheorems].
    - [RoleGovernance] ([v2.rs]), [RoleModel] (rows and errors), [RoleCommand]
      (commands and their submission rules), [RoleState] (lookups, fences and
      authorization), [RoleReducer] (edits, the aggregate check, snapshots and
      the reducers); [RoleFacts] (what the aggregate check decides),
      [RoleEdits] (closed forms of the edits), [RoleHistory], [RoleSteps],
      [RoleMoves] and [RoleReach] (how rows move, edit by edit and command by
      command), [RoleAuth] (who decides), [RoleOutcome] (what is written),
      [RoleRecovery] (the system end and its limit), [RoleTheorems].
    - [Maintenance], [MaintenanceTheorems].
    - [AuditLog] ([action.rs], [entry.rs], [error.rs], [hash.rs],
      [service.rs]); [AuditChain], [AuditTamper], [AuditTheorems].
    - [GitPerms] ([channel.rs], [git_perms.rs]), [GitPolicy] ([policy.rs]);
      [GitFacts] (patterns and policies), [GitHook] (the signed payload and the
      conditions of a grant), [GitTheorems].
    - [Conformance] ([lib.rs], [transitions.rs], [checker.rs]),
      [ConformanceTheorems].
    - [CrossDomain], [CrossTheorems]: Documents and Context together.
    - [SemanticModel] ([score.rs], [contract.rs], [buzz-semantic/src/model.rs]),
      [SemanticResult] (the types of [result.rs]), [SemanticVerify] (its
      validators), [SemanticFrontier] ([root.rs], [frontier.rs]),
      [SemanticTraversal] (data and pure functions of the traversal),
      [SemanticEngine] (its engine); [SemanticScoreFacts], [SemanticRootFacts]
      (evidence and the selection loops), [SemanticPathFacts] (simple paths,
      prefixes and the beam), [SemanticRequestFacts] (canonical requests and
      forests), [SemanticEngineFacts] (the invariant of the engine, its
      clock and its slices of known targets), [SemanticTheorems].

    A Rust struct is a [Record] and an enum an [Inductive] with the source's
    names; a function that returns [Result] returns [result], with [let?] for
    the [?] operator and one [reject_if] per early return, in the order of the
    code, so that an error theorem is about the error the code reports.  A
    [BTreeMap] or a table is a [gmap]; where the code iterates over one, the
    model iterates over its keys in their order.

    ** Theorems

    - Refinement: the Document and Context reducers accept exactly under a
      stated condition and return exactly a stated transition, so the checks
      they run on their own output never fail; the Project View reducer equals
      the one without its self-checks on valid projects.
    - Invariants of every reachable store: catalog counters equal what they
      count, revision histories are complete and immutable, bindings are unique
      and never dangle, relations of the project graph resolve, ids and Role
      levels are never reused, tombstones are final.
    - Concurrency: two commands based on the same revision are never both
      accepted, and replaying an event changes nothing.
    - Errors: a refused command gets the first error in a fixed order; on a
      reachable store no reducer reports its internal inconsistency errors.
    - Round trips and normal forms: attach and detach, edge keys and their
      hexadecimal form, coordinate sets, snapshots, repair envelopes, canonical
      JSON.
    - Liveness: which updates and deletions are accepted; Resume stays reachable
      after the cutover.
    - Role continuity: one holder per Role and one Role per Member in every
      reachable state, the holder an eligible member whose Community role is Owner
      or that of the Role; an Assignment starts only with the candidate's and a
      governor's consent and ends only by an authorized hand; rows are
      append-only or end once; the outcome tells the store exactly what changed;
      the system end of an Assignment succeeds, up to the bound that
      [role_handoff_limit] states; change identifiers separate their sources.
    - The audit log: what appends write verifies, appends to one community
      do not affect another, and two verified ranges of well-typed rows with the
      same start and the same last hash agree row by row or exhibit a SHA-256
      collision.  They agree on the object id and the detail as one text only:
      [audit_detail_ambiguous] shows that the preimage does not mark the boundary.
    - Git: patterns match the language of their text, a push is allowed exactly
      when the default and every applying rule allow it, rules only restrict,
      the signature of a hook callback covers all its fields, and the hook
      grants exactly under its stated conditions.
    - Conformance: the checker accepts exactly the confined traces.
    - Semantic query: scores neither overflow nor leave their range; requests
      have a normal form; the root selection ends, is maximal and does not depend
      on the order of its input; the beam is the best prefix; the verifier
      accepts exactly the forests of a reference definition, and an accepted
      result answers its request.  The traversal ends by its deadline and, for
      any answers of the database, returns simple paths of checked hops within
      the budget.  [known_slice_drops_target] states when it gives up a Hyperedge
      with targets unread, and [sample_search_misses_path] what that costs a run.

    ** Parameters, bounds and fuel

    [Platform] has UUIDs, public keys, event ids, SHA-256, hexadecimal and URL
    parsing; [UuidLaws], [HexLaws] and [Sha256Laws] are their documented facts
    (collision freedom is never assumed: the theorems that would need it
    conclude with an explicit collision).  [AuditDeps] has the timestamp and
    JSON printers of the audit log, [GitDeps] has HMAC and [Uuid::parse_str] (the
    database queries of the hook are fields of its [AppState]), [Maintenance] takes its serde and postcard
    functions as arguments, and serde parsers of commands are arguments of
    the operations that call them.  [Postcard] has the serializations that the
    semantic query hashes, and [TraversalBackend] the database and the clock of
    the traversal; [DeadlineClock] says that the clock reaches the deadline.
    [Reference] and the theorem files instantiate all of them.

    Every model function is total.  Fuel occurs in two places: the loops of
    [select_automatic_roots] get [max_semantic_roots] iterations, which
    [root_selection] proves to be enough because each lengthens a list that the
    condition bounds; the loops of the traversal end only by their deadline, and
    [search_terminates] proves that two iterations more than the clock can be
    read before it are enough, and that more do not change the answer.  Integers are [N] or [Z] with
    the width written out where the code depends on it: revisions are checked
    against the safe-integer limit, checked additions report their error, and
    the sequence of the audit log is an [i64].

    ** Not modelled

    Asynchronous I/O, SQL text, network handlers, signing and the user
    interfaces: they have no pure content beyond the contracts stated here.  The
    adapters' transactions ([buzz-db]) are modelled only as those contracts.
    Of the pure crates, these are not modelled: the runtime supervision and the schema 2 objects
    of [buzz-project-view/src/v2], the schema 1 state ([state.rs]), the migration manifests
    ([v3/migration.rs], [v3/manifest_envelope.rs]), the event filters of
    [buzz-core], the workflow engine.  Of the semantic query, the conversion of
    floating-point distances, the texts given to the encoder, and the
    coordinate and one-hop searches are left out. *)

From Stdlib Require Import Permutation Sorted.
From stdpp Require Import prelude strings pretty gmap fin_maps.

(** ** Results

    Rust's [Result<T, E>], with the [?] operator written as [let?] (binding)
    and [?;] (sequencing).  A guard [if c { return Err(e); }] is
    [reject_if c e ?; ...]. *)

Inductive result (A E : Type) : Type :=
| Ok (a : A)
| Err (e : E).

Arguments Ok {A E} a.
Arguments Err {A E} e.

#[global] Instance result_eq_dec {A E} `{EqDecision A, EqDecision E} : EqDecision (result A E).
Proof. solve_decision. Defined.

Definition rbind {A B E} (c : result A E) (k : A → result B E) : result B E :=
  match c with
  | Ok a => k a
  | Err e => Err e
  end.

Definition map_err {A E F} (f : E → F) (c : result A E) : result A F :=
  match c with
  | Ok a => Ok a
  | Err e => Err (f e)
  end.

Definition ok_or {A E} (o : option A) (e : E) : result A E :=
  match o with
  | Some a => Ok a
  | None => Err e
  end.

Definition reject_if {E} (c : bool) (e : E) : result unit E :=
  if c then Err e else Ok tt.

Definition is_Ok {A E} (c : result A E) : Prop := ∃ a, c = Ok a.

Declare Scope result_scope.
Delimit Scope result_scope with result.
Open Scope result_scope.

Notation "'let?' x ':=' c 'in' k" := (rbind c (λ x, k))
  (at level 10, x pattern, c at level 200, k at level 200)
  : result_scope.
Notation "c '?;' k" := (rbind c (λ _, k))
  (at level 90, right associativity) : result_scope.

(** [for x in xs { f(x)?; }] *)
Fixpoint for_each {A E} (f : A → result unit E) (xs : list A) : result unit E :=
  match xs with
  | [] => Ok tt
  | x :: rest => f x ?; for_each f rest
  end.

(** [for x in xs { .. }] that updates local variables and may return early. *)
Fixpoint try_fold {A B E} (f : B → A → result B E) (acc : B) (xs : list A) : result B E :=
  match xs with
  | [] => Ok acc
  | x :: rest => let? acc := f acc x in try_fold f acc rest
  end.

(** [iter.map(f).collect::<Result<Vec<_>, _>>()] *)
Fixpoint collect_results {A B E} (f : A → result B E) (xs : list A) : result (list B) E :=
  match xs with
  | [] => Ok []
  | x :: xs =>
      let? y := f x in
      let? ys := collect_results f xs in
      Ok (y :: ys)
  end.

(** ** Unsigned machine integers

    [u64], [u16], [u8] and [usize] values are [N]; the width shows in the
    checked operations. *)

Definition u64_max : N := 18446744073709551615%N.

Definition u64_checked_add (a b : N) : option N :=
  if (a + b <=? u64_max)%N then Some (a + b)%N else None.

Definition u64_checked_sub (a b : N) : option N :=
  if (b <=? a)%N then Some (a - b)%N else None.

Definition u64_saturating_add (a b : N) : N := N.min (a + b) u64_max.

(** [u32::try_from(n).ok()] of a [usize] *)
Definition u32_try_from (n : N) : option N :=
  if (n <=? 4294967295)%N then Some n else None.

(** [u32::to_be_bytes] *)
Definition u32_to_be_bytes (n : N) : list N :=
  [n / 16777216 mod 256; n / 65536 mod 256; n / 256 mod 256; n mod 256]%N.

(** [Option::filter] *)
Definition option_filter {A} (p : A → bool) (o : option A) : option A :=
  match o with
  | Some a => if p a then Some a else None
  | None => None
  end.

(** [Option::is_some_and] *)
Definition is_some_and {A} (p : A → bool) (o : option A) : bool :=
  match o with
  | Some a => p a
  | None => false
  end.

(** [Option::is_some] *)
Definition opt_is_some {A} (o : option A) : bool :=
  match o with Some _ => true | None => false end.

(** [slice::is_empty] *)
Definition is_empty {A} (l : list A) : bool :=
  match l with [] => true | _ => false end.

(** [slice::len] as a [usize] *)
Definition len {A} (l : list A) : N := N.of_nat (length l).

(** ** Comparison and sorting *)

(** Lexicographic comparison of byte slices, as [<[u8] as Ord>::cmp]. *)
Fixpoint slice_cmp (a b : list N) : comparison :=
  match a, b with
  | [], [] => Eq
  | [], _ :: _ => Lt
  | _ :: _, [] => Gt
  | x :: a', y :: b' =>
      match N.compare x y with
      | Eq => slice_cmp a' b'
      | c => c
      end
  end.

(** [Ordering::then_with] *)
Definition then_with (c d : comparison) : comparison :=
  match c with Eq => d | _ => c end.

(** [slice::sort_by]: stable, so the first of two equal elements stays first. *)
Fixpoint sort_insert {A} (cmp : A → A → comparison) (x : A) (l : list A) : list A :=
  match l with
  | [] => [x]
  | y :: l' =>
      match cmp x y with
      | Gt => y :: sort_insert cmp x l'
      | _ => x :: l
      end
  end.

Definition sort_by {A} (cmp : A → A → comparison) (l : list A) : list A :=
  foldr (sort_insert cmp) [] l.

(** [Iterator::max_by]: the last of the greatest elements. *)
Definition max_by {A} (cmp : A → A → comparison) (l : list A) : option A :=
  foldl (λ best x, match best with
                   | Some b => match cmp b x with Gt => Some b | _ => Some x end
                   | None => Some x
                   end) None l.

(** [Vec::dedup_by]: an element is dropped when it is the same as the last one
    kept. *)
Fixpoint dedup_after {A} (same : A → A → bool) (kept : A) (l : list A) : list A :=
  match l with
  | [] => []
  | x :: l => if same x kept then dedup_after same kept l else x :: dedup_after same x l
  end.

Definition dedup_by {A} (same : A → A → bool) (l : list A) : list A :=
  match l with
  | [] => []
  | x :: l => x :: dedup_after same x l
  end.

(** [slice.windows(2).any(|pair| p(pair[0], pair[1]))] *)
Fixpoint windows2_any {A} (p : A → A → bool) (l : list A) : bool :=
  match l with
  | x :: ((y :: _) as l') => p x y || windows2_any p l'
  | _ => false
  end.

(** A total order given by its comparison function. *)
Class TotalCmp {A} (cmp : A → A → comparison) : Prop := {
  cmp_eq : ∀ a b, cmp a b = Eq ↔ a = b;
  cmp_sym : ∀ a b, cmp b a = CompOpp (cmp a b);
  cmp_lt_trans : ∀ a b c, cmp a b = Lt → cmp b c = Lt → cmp a c = Lt;
}.

Arguments cmp_eq {A} cmp {_}.
Arguments cmp_sym {A} cmp {_}.
Arguments cmp_lt_trans {A} cmp {_}.

(** Strictly increasing for a comparison function. *)
Abbreviation StrictlySorted cmp := (StronglySorted (λ a b, cmp a b = Lt)).

(** ** Lemmas on results *)

Lemma rbind_Ok {A B E} (c : result A E) (k : A → result B E) b :
  rbind c k = Ok b ↔ ∃ a, c = Ok a ∧ k a = Ok b.
Proof. destruct c; simpl; naive_solver. Qed.

(** A step that returns nothing. *)
Lemma seq_Ok {B E} (c : result unit E) (k : result B E) b :
  (c ?; k) = Ok b ↔ c = Ok tt ∧ k = Ok b.
Proof. destruct c as [[]|]; simpl; naive_solver. Qed.

Lemma rbind_Err {A B E} (c : result A E) (k : A → result B E) e :
  rbind c k = Err e ↔ c = Err e ∨ ∃ a, c = Ok a ∧ k a = Err e.
Proof. destruct c; simpl; naive_solver. Qed.

Lemma map_err_Err {A E F} (f : E → F) (c : result A E) e :
  map_err f c = Err e ↔ ∃ e', c = Err e' ∧ e = f e'.
Proof. destruct c; simpl; naive_solver. Qed.

Lemma ok_or_Err {A E} (o : option A) (e e' : E) : ok_or o e = Err e' ↔ o = None ∧ e = e'.
Proof. destruct o; simpl; naive_solver. Qed.

Lemma reject_if_Ok {E} c (e : E) u : reject_if c e = Ok u ↔ c = false.
Proof. destruct c, u; simpl; naive_solver. Qed.

Lemma reject_if_Err {E} c (e e' : E) : reject_if c e = Err e' ↔ c = true ∧ e = e'.
Proof. destruct c; simpl; naive_solver. Qed.

Lemma map_err_Ok {A E F} (f : E → F) (c : result A E) a :
  map_err f c = Ok a ↔ c = Ok a.
Proof. destruct c; simpl; naive_solver. Qed.

Lemma ok_or_Ok {A E} (o : option A) (e : E) a : ok_or o e = Ok a ↔ o = Some a.
Proof. destruct o; simpl; naive_solver. Qed.

Lemma for_each_Ok {A E} (f : A → result unit E) xs u :
  for_each f xs = Ok u ↔ Forall (λ x, f x = Ok tt) xs.
Proof.
  destruct u. induction xs as [|x xs IH]; simpl; [naive_solver|].
  rewrite Forall_cons, <- IH. destruct (f x) as [[]|]; simpl; naive_solver.
Qed.

Lemma for_each_Err {A E} (f : A → result unit E) xs e :
  for_each f xs = Err e → ∃ x, x ∈ xs ∧ f x = Err e.
Proof.
  induction xs as [|x xs IH]; simpl; [done|].
  destruct (f x) as [u|e'] eqn:Hf; simpl.
  - intros (y & Hy & He)%IH. exists y. split; [by constructor 2|done].
  - intros [= <-]. exists x. split; [by constructor|done].
Qed.

Lemma collect_results_Ok {A B E} (f : A → result B E) xs ys :
  collect_results f xs = Ok ys ↔ Forall2 (λ x y, f x = Ok y) xs ys.
Proof.
  revert ys. induction xs as [|x xs IH]; intros ys; simpl.
  - split; [by intros [= <-]|by inversion 1].
  - rewrite rbind_Ok. setoid_rewrite rbind_Ok. setoid_rewrite IH. split.
    + intros (y & Hy & ys' & Hys & [= <-]). by constructor.
    + inversion 1; subst. eauto.
Qed.

(** A loop whose body checks the element and updates the accumulator. *)
Lemma try_fold_Ok {A B E} (f : B → A → result B E) (check : A → Prop) (update : B → A → B) :
  (∀ acc x acc', f acc x = Ok acc' ↔ check x ∧ acc' = update acc x) →
  ∀ xs acc acc', try_fold f acc xs = Ok acc' ↔ Forall check xs ∧ acc' = foldl update acc xs.
Proof.
  intros Hf xs. induction xs as [|x xs IH]; intros acc acc'; simpl.
  - split; [by intros [= <-]|by intros [_ ->]].
  - rewrite rbind_Ok, Forall_cons. setoid_rewrite Hf. setoid_rewrite IH. naive_solver.
Qed.

(** Take a successful computation apart: every [?] before the result
    succeeded and every guard let it pass. *)
Ltac ok_inv :=
  repeat match goal with
  | H : rbind _ _ = Ok _ |- _ => apply rbind_Ok in H as (? & ? & ?)
  | H : reject_if _ _ = Ok _ |- _ => apply reject_if_Ok in H
  | H : map_err _ _ = Ok _ |- _ => apply map_err_Ok in H
  | H : ok_or _ _ = Ok _ |- _ => apply ok_or_Ok in H
  | H : Ok _ = Ok _ |- _ => injection H as H
  | H : Err _ = Ok _ |- _ => discriminate H
  | u : unit |- _ => destruct u
  end.

(** ** Lemmas on integers and options *)

Lemma option_filter_Some {A} (p : A → bool) o a :
  option_filter p o = Some a ↔ o = Some a ∧ p a = true.
Proof.
  destruct o as [x|]; simpl; [|naive_solver].
  destruct (p x) eqn:Hp; split; [by intros [= <-]|by intros [[= <-] ?]|done|].
  intros [[= <-] ?]; congruence.
Qed.

Lemma u64_checked_add_Some a b c :
  u64_checked_add a b = Some c ↔ (c = a + b ∧ a + b ≤ u64_max)%N.
Proof. unfold u64_checked_add. destruct (N.leb_spec (a + b) u64_max); split; [by intros [= <-]|by intros [-> ?]|done|lia]. Qed.

Lemma u64_checked_sub_Some a b c :
  u64_checked_sub a b = Some c ↔ (c = a - b ∧ b ≤ a)%N.
Proof. unfold u64_checked_sub. destruct (N.leb_spec b a); split; [by intros [= <-]|by intros [-> ?]|done|lia]. Qed.

Lemma u64_checked_sub_room a b : (b ≤ a)%N → u64_checked_sub a b = Some (a - b)%N.
Proof. intros H. by apply u64_checked_sub_Some. Qed.

Lemma u64_checked_add_room a b : (a + b ≤ u64_max)%N → u64_checked_add a b = Some (a + b)%N.
Proof. intros H. by apply u64_checked_add_Some. Qed.

Lemma bool_decide_negb_false (P : Prop) `{Decision P} :
  negb (bool_decide P) = false ↔ P.
Proof. rewrite negb_false_iff. apply bool_decide_eq_true. Qed.

(** ** Lemmas on comparison and sorting *)

Section total_cmp.
Context {A} (cmp : A → A → comparison) `{!TotalCmp cmp}.

Lemma cmp_refl a : cmp a a = Eq.
Proof. by apply (cmp_eq cmp). Qed.

Lemma cmp_gt_lt a b : cmp a b = Gt ↔ cmp b a = Lt.
Proof. rewrite (cmp_sym cmp a b). destruct (cmp a b); naive_solver. Qed.

Lemma sort_insert_perm x l : Permutation (sort_insert cmp x l) (x :: l).
Proof.
  induction l as [|y l IH]; simpl; [done|].
  destruct (cmp x y); [done|done|]. rewrite IH. apply perm_swap.
Qed.

Lemma sort_by_perm l : Permutation (sort_by cmp l) l.
Proof.
  induction l as [|x l IH]; [done|]. change (sort_by cmp (x :: l)) with (sort_insert cmp x (sort_by cmp l)).
  by rewrite sort_insert_perm, IH.
Qed.

Lemma sort_insert_sorted x l :
  x ∉ l → StrictlySorted cmp l → StrictlySorted cmp (sort_insert cmp x l).
Proof.
  induction l as [|y l IH]; simpl; intros Hx Hl.
  - repeat constructor.
  - apply StronglySorted_inv in Hl as [Hl Hy]. apply not_elem_of_cons in Hx as [Hne Hx].
    destruct (cmp x y) eqn:Hc.
    + by apply (cmp_eq cmp) in Hc.
    + constructor; [by constructor|]. constructor; [done|].
      eapply Forall_impl; [exact Hy|]. intros z Hz; simpl in *. by eapply (cmp_lt_trans cmp).
    + constructor; [by apply IH|]. rewrite sort_insert_perm.
      constructor; [by apply cmp_gt_lt|done].
Qed.

Lemma sort_by_sorted l : NoDup l → StrictlySorted cmp (sort_by cmp l).
Proof.
  induction l as [|x l IH]; intros Hd; [constructor|].
  apply NoDup_cons in Hd as [Hx Hd].
  apply sort_insert_sorted; [|by apply IH]. by rewrite sort_by_perm.
Qed.

Lemma StrictlySorted_NoDup l : StrictlySorted cmp l → NoDup l.
Proof.
  induction 1 as [|x l _ IH Hx]; constructor; [|done].
  intros Hin. rewrite Forall_forall in Hx. specialize (Hx x Hin).
  by rewrite cmp_refl in Hx.
Qed.

(** A strictly sorted list is determined by its elements. *)
Lemma StrictlySorted_unique l1 l2 :
  StrictlySorted cmp l1 → StrictlySorted cmp l2 → Permutation l1 l2 → l1 = l2.
Proof.
  intros H1 H2 Hp. revert l2 H2 Hp. induction H1 as [|x l1 H1 IH Hx]; intros l2 H2 Hp.
  - by apply Permutation_nil in Hp.
  - destruct H2 as [|y l2 H2 Hy]; [by apply Permutation_sym, Permutation_nil in Hp|].
    assert (x = y) as ->.
    { rewrite Forall_forall in Hx, Hy.
      assert (Hxin : x ∈ y :: l2) by (rewrite <- Hp; constructor).
      assert (Hyin : y ∈ x :: l1) by (rewrite Hp; constructor).
      apply elem_of_cons in Hxin as [->|Hxin]; [done|].
      apply elem_of_cons in Hyin as [->|Hyin]; [done|].
      pose proof (Hx _ Hyin) as Hxy. pose proof (Hy _ Hxin) as Hyx. simpl in *.
      rewrite (cmp_sym cmp x y), Hxy in Hyx. done. }
    f_equal. apply IH; [done|]. by apply Permutation_cons_inv in Hp.
Qed.

Lemma sort_by_id l : StrictlySorted cmp l → sort_by cmp l = l.
Proof.
  intros Hl. apply StrictlySorted_unique; [|done|apply sort_by_perm].
  by apply sort_by_sorted, StrictlySorted_NoDup.
Qed.

Lemma sort_by_Permutation l1 l2 :
  NoDup l1 → Permutation l1 l2 → sort_by cmp l1 = sort_by cmp l2.
Proof.
  intros Hd Hp. apply StrictlySorted_unique.
  - by apply sort_by_sorted.
  - apply sort_by_sorted. by rewrite <- Hp.
  - by rewrite !sort_by_perm.
Qed.

(** Checking neighbours suffices for a transitive order. *)
Lemma windows2_any_sorted p l :
  (∀ a b, p a b = false ↔ cmp a b = Lt) →
  windows2_any p l = false ↔ StrictlySorted cmp l.
Proof.
  intros Hp. induction l as [|x l IH]; [split; [constructor|done]|].
  destruct l as [|y l]; [split; [repeat constructor|done]|].
  change (windows2_any p (x :: y :: l)) with (p x y || windows2_any p (y :: l)).
  rewrite orb_false_iff, IH, Hp. split.
  - intros [Hxy Hl]. constructor; [done|]. constructor; [done|].
    apply StronglySorted_inv in Hl as [_ Hl].
    eapply Forall_impl; [exact Hl|]. intros z Hz; simpl in *. by eapply (cmp_lt_trans cmp).
  - intros [Hl Hx]%StronglySorted_inv. apply Forall_cons in Hx as [Hx _]. done.
Qed.

End total_cmp.

#[export] Instance slice_cmp_total : TotalCmp slice_cmp.
Proof.
  split.
  - intros a. induction a as [|x a IH]; intros [|y b]; simpl; try naive_solver.
    destruct (N.compare_spec x y) as [->|Hlt|Hlt].
    + rewrite IH. naive_solver.
    + split; [done|]. intros [= -> ->]. lia.
    + split; [done|]. intros [= -> ->]. lia.
  - intros a. induction a as [|x a IH]; intros [|y b]; simpl; try done.
    rewrite (N.compare_antisym x y). destruct (N.compare x y); simpl; auto.
  - intros a. induction a as [|x a IH]; intros [|y b] [|z c]; simpl; try done.
    destruct (N.compare_spec x y) as [->|Hxy|Hxy]; [|intros _|done].
    + destruct (N.compare_spec y z); [apply IH|done|done].
    + destruct (N.compare_spec y z) as [->|Hyz|Hyz]; [intros _|intros _|done].
      * by rewrite (proj2 (N.compare_lt_iff x z)).
      * by rewrite (proj2 (N.compare_lt_iff x z)) by lia.
Qed.

(** Adjacent duplicates of a sorted list are all its duplicates. *)
Lemma windows2_any_eq_sort {A} (cmp : A → A → comparison) `{!TotalCmp cmp, !EqDecision A} l :
  windows2_any (λ a b, bool_decide (a = b)) (sort_by cmp l) = false ↔ NoDup l.
Proof.
  split; intros H.
  - rewrite <- (sort_by_perm cmp l). revert H.
    assert (Hle : StronglySorted (λ a b, cmp a b ≠ Gt) (sort_by cmp l)).
    { induction l as [|x l IH]; [constructor|].
      change (sort_by cmp (x :: l)) with (sort_insert cmp x (sort_by cmp l)).
      revert IH. generalize (sort_by cmp l) as s. clear l.
      intros s Hs. induction Hs as [|y s Hs IH Hy]; simpl; [repeat constructor|].
      destruct (cmp x y) eqn:Hc.
      - apply (cmp_eq cmp) in Hc as ->. constructor; [by constructor|].
        constructor; [by rewrite (cmp_refl cmp)|done].
      - constructor; [by constructor|]. constructor; [by rewrite Hc|].
        eapply Forall_impl; [exact Hy|]. intros z Hz Hg; simpl in *.
        destruct (cmp y z) eqn:Hyz; [|by rewrite (cmp_lt_trans cmp _ _ _ Hc Hyz) in Hg|done].
        apply (cmp_eq cmp) in Hyz as ->. by rewrite Hc in Hg.
      - constructor; [done|]. rewrite (sort_insert_perm cmp).
        constructor; [|done]. apply (cmp_gt_lt cmp) in Hc. by rewrite Hc. }
    induction Hle as [|x s Hs IH Hx]; [constructor|]. intros H.
    destruct s as [|y s]; [repeat constructor; set_solver|].
    change (bool_decide (x = y) || windows2_any (λ a b, bool_decide (a = b)) (y :: s) = false) in H.
    apply orb_false_iff in H as [Hxy H]. apply bool_decide_eq_false in Hxy.
    specialize (IH H). constructor; [|done]. intros Hin.
    apply elem_of_cons in Hin as [->|Hin]; [done|].
    apply StronglySorted_inv in Hs as [_ Hy]. apply Forall_cons in Hx as [Hx _].
    rewrite Forall_forall in Hy. specialize (Hy _ Hin). simpl in *.
    destruct (cmp x y) eqn:Hc; [by apply (cmp_eq cmp) in Hc| |done].
    rewrite (cmp_sym cmp x y), Hc in Hy. done.
  - assert (Hs : StrictlySorted cmp (sort_by cmp l)) by (by apply sort_by_sorted).
    induction Hs as [|x s Hs IH Hx]; [done|]. destruct s as [|y s]; [done|].
    change (bool_decide (x = y) || windows2_any (λ a b, bool_decide (a = b)) (y :: s) = false).
    rewrite IH, orb_false_r. apply bool_decide_eq_false. intros ->.
    apply Forall_cons in Hx as [Hx _]. simpl in Hx. by rewrite (cmp_refl cmp) in Hx.
Qed.

(** ** Sorting by a key *)

Section sort_key.
Context {A B} (key : A → B) (cmp : B → B → comparison) `{!TotalCmp cmp}.

Lemma sort_by_key (l : list A) :
  key <$> sort_by (λ a b, cmp (key a) (key b)) l = sort_by cmp (key <$> l).
Proof.
  assert (Hi : ∀ x k, key <$> sort_insert (λ a b, cmp (key a) (key b)) x k
                      = sort_insert cmp (key x) (key <$> k)).
  { intros x k. induction k as [|y k IH]; [done|]. simpl.
    destruct (cmp (key x) (key y)); [done|done|]. csimpl. by rewrite IH. }
  induction l as [|x l IH]; [done|]. cbn. rewrite Hi. f_equal. apply IH.
Qed.

Context (valid : A → Prop) (key_inj : ∀ a b, valid a → valid b → key a = key b → a = b).

(** On valid elements a list is determined by its keys. *)
Lemma keys_inj l k : Forall valid l → Forall valid k → key <$> l = key <$> k → l = k.
Proof using key_inj.
  revert k. induction l as [|a l IH]; intros [|b k] Hl Hk E; try done.
  apply Forall_cons in Hl as [? ?], Hk as [? ?]. injection E as ? ?. f_equal; auto.
Qed.

Lemma keys_NoDup l : Forall valid l → NoDup (key <$> l) ↔ NoDup l.
Proof using key_inj.
  intros Hv. split; [apply NoDup_fmap_1|]. intros Hd.
  induction Hd as [|a l Ha Hd IH]; [constructor|]. apply Forall_cons in Hv as [Hva Hv].
  constructor; [|auto]. intros (b & Hb & Hin)%list_elem_of_fmap.
  assert (a = b) as ->; [|done]. apply key_inj; auto. rewrite Forall_forall in Hv. auto.
Qed.

Lemma windows2_any_keys `{EqDecision A, EqDecision B} l :
  Forall valid l →
  windows2_any (λ a b, bool_decide (a = b)) l
  = windows2_any (λ a b, bool_decide (a = b)) (key <$> l).
Proof using key_inj.
  induction l as [|a l IH]; intros Hv; [done|]. destruct l as [|b l]; [done|].
  apply Forall_cons in Hv as [Ha Hv]. pose proof Hv as [Hb _]%Forall_cons.
  change (bool_decide (a = b) || windows2_any (λ a b, bool_decide (a = b)) (b :: l)
          = bool_decide (key a = key b)
            || windows2_any (λ a b, bool_decide (a = b)) (key <$> b :: l)).
  rewrite IH by done. f_equal. apply bool_decide_ext. split; [by intros ->|auto].
Qed.

(** Sorting valid elements by an injective key: a sorted list is a fixpoint,
    and the order of the input does not matter. *)
Lemma sort_by_key_perm l k :
  Forall valid l → NoDup l → Permutation l k →
  sort_by (λ a b, cmp (key a) (key b)) l = sort_by (λ a b, cmp (key a) (key b)) k.
Proof using key_inj TotalCmp0.
  intros Hv Hd Hp. apply keys_inj.
  - by rewrite (sort_by_perm (λ a b, cmp (key a) (key b))).
  - by rewrite (sort_by_perm (λ a b, cmp (key a) (key b))), <- Hp.
  - rewrite !sort_by_key. apply sort_by_Permutation; [done|by apply keys_NoDup|].
    by apply fmap_Permutation.
Qed.

Lemma sort_by_key_idemp l :
  Forall valid l → NoDup l →
  sort_by (λ a b, cmp (key a) (key b)) (sort_by (λ a b, cmp (key a) (key b)) l)
  = sort_by (λ a b, cmp (key a) (key b)) l.
Proof using key_inj TotalCmp0.
  intros Hv Hd. symmetry. apply sort_by_key_perm; [done..|]. by rewrite sort_by_perm.
Qed.

End sort_key.

(** ** Filtered lists *)

Lemma Forall_list_filter {A} (Q R : A → Prop) `{∀ x, Decision (R x)} (l : list A) :
  Forall Q l → Forall Q (filter R l).
Proof. rewrite !Forall_forall. intros HQ x [_ ?]%list_elem_of_filter. auto. Qed.

Lemma StronglySorted_filter {A} (R : A → A → Prop) (Q : A → Prop) `{∀ x, Decision (Q x)} (l : list A) :
  StronglySorted R l → StronglySorted R (filter Q l).
Proof.
  induction 1 as [|x l Hs IH Hx]; [constructor|]. rewrite filter_cons.
  case_decide; [|done]. constructor; [done|]. by apply Forall_list_filter.
Qed.

Lemma filter_ne_notin {A} `{EqDecision A} (x : A) (l : list A) :
  x ∉ l → filter (λ y, y ≠ x) l = l.
Proof.
  induction l as [|y l IH]; [done|]. rewrite not_elem_of_cons, filter_cons. intros [? ?].
  case_decide; [f_equal; auto|naive_solver].
Qed.

(** Removing a member of a duplicate-free list removes one element. *)
Lemma length_filter_ne {A} `{EqDecision A} (x : A) (l : list A) :
  NoDup l → x ∈ l → S (length (filter (λ y, y ≠ x) l)) = length l.
Proof.
  induction 1 as [|y l Hy Hd IH]; [by intros ?%elem_of_nil|]. rewrite filter_cons.
  intros [->|Hx]%elem_of_cons.
  - rewrite decide_False by naive_solver. by rewrite filter_ne_notin.
  - rewrite decide_True by (intros ->; done). simpl. by rewrite IH.
Qed.

(** ** Sums and counts over finite maps *)

Definition map_sum `{Countable K} {V} (f : V → N) (m : gmap K V) : N :=
  map_fold (λ _ v n, f v + n)%N 0%N m.

(** The number of entries that satisfy [p]. *)
Definition map_count `{Countable K} {V} (p : V → bool) (m : gmap K V) : N :=
  map_sum (λ v, if p v then 1%N else 0%N) m.

Section map_sum.
Context `{Countable K} {V : Type} (f : V → N).
Implicit Types m : gmap K V.

Lemma map_sum_empty : map_sum f (∅ : gmap K V) = 0%N.
Proof. apply map_fold_empty. Qed.

Lemma map_sum_insert_None m k v :
  m !! k = None → map_sum f (<[k:=v]> m) = (f v + map_sum f m)%N.
Proof.
  intros Hk. apply (map_fold_insert_L (λ (_ : K) v n, f v + n)%N 0%N); [intros; lia|done].
Qed.

Lemma map_sum_delete m k v :
  m !! k = Some v → map_sum f m = (f v + map_sum f (delete k m))%N.
Proof.
  intros Hk. rewrite <- (insert_delete_id m k v) at 1 by done.
  apply map_sum_insert_None, lookup_delete_eq.
Qed.

Lemma map_sum_insert_Some m k v w :
  m !! k = Some v → (map_sum f (<[k:=w]> m) + f v = map_sum f m + f w)%N.
Proof.
  intros Hk. rewrite (map_sum_delete m k v) by done.
  rewrite <- insert_delete_eq, map_sum_insert_None by apply lookup_delete_eq. lia.
Qed.

Lemma map_sum_lookup_le m k v : m !! k = Some v → (f v ≤ map_sum f m)%N.
Proof. intros Hk. rewrite (map_sum_delete m k v) by done. lia. Qed.

End map_sum.

Lemma map_count_size `{Countable K} {V} (p : V → bool) (m : gmap K V) :
  map_count p m = N.of_nat (size (filter (λ kv, p kv.2 = true) m)).
Proof.
  unfold map_count. induction m as [|k v m Hk IH] using map_ind.
  - by rewrite map_sum_empty, map_filter_empty, map_size_empty.
  - rewrite map_sum_insert_None, IH by done. destruct (p v) eqn:Hp.
    + rewrite map_filter_insert_True by done.
      rewrite map_size_insert_None; [lia|]. rewrite map_lookup_filter_None. by left.
    + rewrite map_filter_insert_False by (simpl; congruence).
      by rewrite delete_id.
Qed.

(** ** Automation shared by the components *)

Create HintDb carryforth discriminated.
#[export] Hint Resolve -> reject_if_Ok : carryforth.
#[export] Hint Resolve <- reject_if_Ok : carryforth.

Lemma existsb_false {A} (p : A → bool) l : existsb p l = false ↔ Forall (λ x, p x = false) l.
Proof.
  induction l as [|x l IH]; simpl; [by split|]. by rewrite orb_false_iff, IH, Forall_cons.
Qed.

(** Turn the boolean tests of the code into the propositions they decide. *)
Ltac bool_props :=
  repeat match goal with
  | H : (_ || _) = false |- _ => apply orb_false_iff in H as [? ?]
  | H : (_ && _) = true |- _ => apply andb_true_iff in H as [? ?]
  | H : negb _ = false |- _ => apply negb_false_iff in H
  | H : negb _ = true |- _ => apply negb_true_iff in H
  | H : bool_decide _ = true |- _ => apply bool_decide_eq_true in H
  | H : bool_decide _ = false |- _ => apply bool_decide_eq_false in H
  | H : (_ =? _)%N = true |- _ => apply N.eqb_eq in H
  | H : (_ =? _)%N = false |- _ => apply N.eqb_neq in H
  | H : (_ <? _)%N = true |- _ => apply N.ltb_lt in H
  | H : (_ <? _)%N = false |- _ => apply N.ltb_ge in H
  | H : (_ <=? _)%N = true |- _ => apply N.leb_le in H
  | H : (_ <=? _)%N = false |- _ => apply N.leb_gt in H
  | H : (_ =? _)%Z = true |- _ => apply Z.eqb_eq in H
  | H : (_ =? _)%Z = false |- _ => apply Z.eqb_neq in H
  | H : (_ <? _)%Z = true |- _ => apply Z.ltb_lt in H
  | H : (_ <? _)%Z = false |- _ => apply Z.ltb_ge in H
  | H : (_ <=? _)%Z = true |- _ => apply Z.leb_le in H
  | H : (_ <=? _)%Z = false |- _ => apply Z.leb_gt in H
  end.

(** Close a decidable goal on concrete data by evaluating its decision
    procedure. *)
Ltac by_evaluation := apply (bool_decide_unpack _); vm_compute; exact I.
