(* ===== verification/Text.v ===== *)
(** * Rust strings and JSON values

    A Rust [String] or [&str] is a sequence of Unicode scalar values; here it
    is the list of their code points.  [str_len] is the UTF-8 byte length that
    [str::len] returns, [trim] drops leading and trailing [White_Space]
    characters as [str::trim] does, and [lit] is a source literal. *)

From S2P Require Import Prelude.
From Stdlib Require Import Ascii.
From stdpp Require Import prelude strings pretty.

Abbreviation Text := (list N).

(** A string literal of the source (ASCII). *)
Definition lit (s : string) : Text :=
  N_of_ascii <$> String.list_ascii_of_string s.

(** [format!("{n}")] of an unsigned integer. *)
Definition fmt_u64 (n : N) : Text := lit (pretty n).

(** [char::len_utf8] *)
Definition len_utf8 (c : N) : N :=
  (if c <? 128 then 1 else if c <? 2048 then 2 else if c <? 65536 then 3 else 4)%N.

(** [str::len]: the number of UTF-8 bytes. *)
Definition str_len (s : Text) : N := foldr (λ c n, len_utf8 c + n)%N 0%N s.

(** [char::encode_utf8] *)
Definition encode_utf8 (c : N) : list N :=
  (if c <? 128 then [c]
   else if c <? 2048 then [192 + c / 64; 128 + c mod 64]
   else if c <? 65536 then [224 + c / 4096; 128 + c / 64 mod 64; 128 + c mod 64]
   else [240 + c / 262144; 128 + c / 4096 mod 64; 128 + c / 64 mod 64; 128 + c mod 64])%N.

(** [str::as_bytes] *)
Definition str_as_bytes (s : Text) : list N := s ≫= encode_utf8.

(** [char::is_whitespace]: the Unicode property [White_Space]. *)
Definition is_whitespace (c : N) : bool :=
  ((9 <=? c) && (c <=? 13) || (c =? 32) || (c =? 133) || (c =? 160) || (c =? 5760)
   || ((8192 <=? c) && (c <=? 8202)) || (c =? 8232) || (c =? 8233) || (c =? 8239)
   || (c =? 8287) || (c =? 12288))%N.

(** [char::is_control]: the Unicode general category [Cc]. *)
Definition is_control (c : N) : bool :=
  ((c <=? 31) || ((127 <=? c) && (c <=? 159)))%N.

(** [str::trim_start] *)
Fixpoint trim_start (s : Text) : Text :=
  match s with
  | [] => []
  | c :: s' => if is_whitespace c then trim_start s' else s
  end.

(** [str::trim] *)
Definition trim (s : Text) : Text := reverse (trim_start (reverse (trim_start s))).

(** [str::contains] of one character. *)
Definition contains_char (c : N) (s : Text) : bool := existsb (N.eqb c) s.

(** ** JSON values ([serde_json::Value]) *)

#[warnings="-register-all"]
Inductive Value : Type :=
| Null
| Bool (b : bool)
| Number (repr : Text)
| VString (s : Text)
| Array (values : list Value)
| Object (members : list (Text * Value)).

(** [iter.max().unwrap_or(0)] *)
Definition max_or_zero (l : list N) : N := foldr N.max 0%N l.

(** ** Lemmas *)

(** A string is its own trimming exactly when neither end is white space. *)
Definition ends_clean (s : Text) : Prop :=
  is_some_and is_whitespace (head s) = false ∧ is_some_and is_whitespace (last s) = false.

Lemma trim_start_id s : trim_start s = s ↔ is_some_and is_whitespace (head s) = false.
Proof.
  destruct s as [|c s]; simpl; [done|]. destruct (is_whitespace c) eqn:Hc; [|done].
  split; [|done]. intros H. exfalso.
  assert (Hl : ∀ t, length (trim_start t) ≤ length t).
  { induction t as [|d t IH]; simpl; [done|]. destruct (is_whitespace d); simpl; lia. }
  specialize (Hl s). rewrite H in Hl. simpl in Hl. lia.
Qed.

Lemma trim_start_suffix s : ∃ p, s = p ++ trim_start s ∧ Forall (λ c, is_whitespace c = true) p.
Proof.
  induction s as [|c s [p [Hp Hw]]]; simpl; [by exists []|].
  destruct (is_whitespace c) eqn:Hc; [|by exists []].
  exists (c :: p). split; [by rewrite Hp at 1|by constructor].
Qed.

Lemma length_trim_start s : length (trim_start s) ≤ length s.
Proof. destruct (trim_start_suffix s) as (p & Hp & _). rewrite Hp at 2. rewrite length_app. lia. Qed.

Lemma trim_id s : trim s = s ↔ ends_clean s.
Proof.
  unfold trim, ends_clean. split.
  - intros H. assert (Hs : trim_start s = s).
    { destruct (trim_start_suffix s) as (p & Hp & _). destruct p as [|c p]; [done|].
      apply (f_equal length) in H. rewrite length_reverse in H.
      pose proof (length_trim_start (reverse (trim_start s))) as Hl. rewrite length_reverse in Hl.
      apply (f_equal length) in Hp. rewrite length_app in Hp. simpl in Hp. lia. }
    rewrite Hs in H. apply (f_equal reverse) in H. rewrite reverse_involutive in H.
    apply trim_start_id in Hs, H. by rewrite head_reverse in H.
  - intros [Hh Hl]. apply trim_start_id in Hh as ->.
    rewrite <- head_reverse in Hl. apply trim_start_id in Hl as ->.
    apply reverse_involutive.
Qed.

Lemma contains_char_false c s : contains_char c s = false ↔ c ∉ s.
Proof.
  unfold contains_char. induction s as [|d s IH]; simpl; [set_solver|].
  rewrite orb_false_iff, IH, N.eqb_neq, not_elem_of_cons. done.
Qed.

Lemma lit_inj s t : lit s = lit t → s = t.
Proof.
  unfold lit. intros H.
  assert (Hl : String.list_ascii_of_string s = String.list_ascii_of_string t).
  { revert H. generalize (String.list_ascii_of_string s) as l, (String.list_ascii_of_string t) as k.
    induction l as [|a l IH]; intros [|b k] H; simplify_eq/=; [done|].
    f_equal; [|by apply IH]. apply (f_equal ascii_of_N) in H. by rewrite !ascii_N_embedding in H. }
  apply (f_equal String.string_of_list_ascii) in Hl. by rewrite !String.string_of_list_ascii_of_string in Hl.
Qed.

Lemma fmt_u64_inj m n : fmt_u64 m = fmt_u64 n → m = n.
Proof. intros H%lit_inj. by apply pretty_N_inj in H. Qed.
