(* ===== verification/TextOps.v ===== *)
(** * More of Rust's strings

    Splitting, prefixes and ASCII classes of [str], and the facts about UTF-8
    that byte encodings rely on: the encoding is a prefix code. *)

From S2P Require Import Prelude Text.
From stdpp Require Import prelude strings pretty.

(** A Unicode code point. *)
Definition is_code_point (c : N) : Prop := (c < 1114112)%N.

Abbreviation valid_str := (Forall is_code_point).

(** [char::is_ascii_digit], [is_ascii_hexdigit], [is_ascii_uppercase] and
    [is_ascii_alphanumeric] *)
Definition is_ascii_digit (c : N) : bool := ((48 <=? c) && (c <=? 57))%N.
Definition is_ascii_uppercase (c : N) : bool := ((65 <=? c) && (c <=? 90))%N.
Definition is_ascii_lowercase (c : N) : bool := ((97 <=? c) && (c <=? 122))%N.
Definition is_ascii_hexdigit (c : N) : bool :=
  is_ascii_digit c || ((65 <=? c) && (c <=? 70))%N || ((97 <=? c) && (c <=? 102))%N.
Definition is_ascii_alphanumeric (c : N) : bool :=
  is_ascii_digit c || is_ascii_uppercase c || is_ascii_lowercase c.

(** [str::split] at one character: always at least one part. *)
Fixpoint split_char (sep : N) (s : Text) : list Text :=
  match s with
  | [] => [[]]
  | c :: s' =>
      if (c =? sep)%N then [] :: split_char sep s'
      else match split_char sep s' with
           | [] => [[c]]
           | part :: parts => (c :: part) :: parts
           end
  end.

(** [parts.join(sep)] *)
Fixpoint join_char (sep : N) (parts : list Text) : Text :=
  match parts with
  | [] => []
  | [part] => part
  | part :: parts => part ++ sep :: join_char sep parts
  end.

(** [str::strip_prefix] and [str::starts_with] *)
Fixpoint str_strip_prefix (p s : Text) : option Text :=
  match p, s with
  | [], _ => Some s
  | c :: p', d :: s' => if (c =? d)%N then str_strip_prefix p' s' else None
  | _ :: _, [] => None
  end.

Definition starts_with (p s : Text) : bool := opt_is_some (str_strip_prefix p s).

(** [str::contains] of a string *)
Fixpoint contains_str (p s : Text) : bool :=
  starts_with p s || match s with [] => false | _ :: s' => contains_str p s' end.

(** [str::trim_start_matches] of a predicate and [str::trim_end] *)
Fixpoint trim_start_matches (p : N → bool) (s : Text) : Text :=
  match s with
  | [] => []
  | c :: s' => if p c then trim_start_matches p s' else s
  end.

Definition trim_end (s : Text) : Text := reverse (trim_start (reverse s)).

(** ** Splitting *)

Lemma split_char_nil sep s : split_char sep s ≠ [].
Proof.
  induction s as [|c s IH]; simpl; [done|].
  destruct (c =? sep)%N; [done|]. by destruct (split_char sep s).
Qed.

Lemma join_split sep s : join_char sep (split_char sep s) = s.
Proof.
  induction s as [|c s IH]; [done|]. cbn [split_char].
  destruct (N.eqb_spec c sep) as [->|Hc].
  - pose proof (split_char_nil sep s). destruct (split_char sep s) eqn:Hs; [done|].
    cbn [join_char app]. by rewrite <- IH.
  - pose proof (split_char_nil sep s). destruct (split_char sep s) as [|p ps]; [done|].
    destruct ps; cbn in IH |- *; by rewrite IH.
Qed.

Lemma split_char_inj sep s t : split_char sep s = split_char sep t → s = t.
Proof. intros H. by rewrite <- (join_split sep s), <- (join_split sep t), H. Qed.

Lemma str_strip_prefix_Some p s t : str_strip_prefix p s = Some t ↔ s = p ++ t.
Proof.
  revert s. induction p as [|c p IH]; intros s; simpl; [naive_solver|].
  destruct s as [|d s]; [done|]. destruct (N.eqb_spec c d) as [->|Hc].
  - rewrite IH. naive_solver.
  - naive_solver.
Qed.

Lemma starts_with_true p s : starts_with p s = true ↔ p `prefix_of` s.
Proof.
  unfold starts_with, opt_is_some. destruct (str_strip_prefix p s) as [t|] eqn:H.
  - split; [|done]. intros _. apply str_strip_prefix_Some in H as ->. by exists t.
  - split; [done|]. intros [t Ht]. apply str_strip_prefix_Some in Ht. congruence.
Qed.

(** ** UTF-8 *)

(** Encoded text has a marked byte only where the text has it. *)
Lemma encode_utf8_ascii m c : (m < 128)%N → m ∈ encode_utf8 c → c = m.
Proof.
  intros Hm. unfold encode_utf8.
  assert (Hno : ∀ k x, (128 ≤ k)%N → m ≠ (k + x)%N) by lia.
  destruct (N.ltb_spec c 128); [set_solver|].
  destruct (N.ltb_spec c 2048); [|destruct (N.ltb_spec c 65536)];
    rewrite ?elem_of_cons, ?elem_of_nil; intros H'; exfalso;
    repeat destruct H' as [H'|H']; try done; by eapply Hno in H'.
Qed.

Lemma elem_of_bytes_ascii m s : (m < 128)%N → m ∈ str_as_bytes s → m ∈ s.
Proof.
  intros Hm (c & Hc & Hin)%list_elem_of_bind. by rewrite <- (encode_utf8_ascii m c).
Qed.

Lemma str_as_bytes_app s t : str_as_bytes (s ++ t) = str_as_bytes s ++ str_as_bytes t.
Proof. apply bind_app. Qed.

Lemma length_encode_utf8 c : N.of_nat (length (encode_utf8 c)) = len_utf8 c.
Proof.
  unfold encode_utf8, len_utf8.
  by repeat match goal with |- context [if ?b then _ else _] => destruct b end.
Qed.

(** [str::len] is the number of bytes. *)
Lemma length_str_as_bytes s : N.of_nat (length (str_as_bytes s)) = str_len s.
Proof.
  induction s as [|c s IH]; [done|]. cbn [str_len foldr]. fold (str_len s).
  unfold str_as_bytes in *. cbn [mbind list_bind].
  rewrite length_app, Nat2N.inj_add, IH, length_encode_utf8. done.
Qed.

(** The base-64 digits of a code point. *)
Lemma base64_digits c :
  ∃ q1 q2 q3 r1 r2 r3 : N,
    (c / 64 = q1 ∧ c / 4096 = q2 ∧ c / 262144 = q3
     ∧ c mod 64 = r1 ∧ (c / 64) mod 64 = r2 ∧ (c / 4096) mod 64 = r3
     ∧ c = 64 * q1 + r1 ∧ q1 = 64 * q2 + r2 ∧ q2 = 64 * q3 + r3
     ∧ r1 < 64 ∧ r2 < 64 ∧ r3 < 64)%N.
Proof.
  exists (c / 64)%N, (c / 4096)%N, (c / 262144)%N, (c mod 64)%N, ((c / 64) mod 64)%N,
    ((c / 4096) mod 64)%N.
  assert (E1 : (c / 64 / 64 = c / 4096)%N) by (by rewrite N.Div0.div_div).
  assert (E2 : (c / 4096 / 64 = c / 262144)%N) by (by rewrite N.Div0.div_div).
  pose proof (N.Div0.div_mod c 64). pose proof (N.Div0.div_mod (c / 64) 64).
  pose proof (N.Div0.div_mod (c / 4096) 64). rewrite E1, E2 in *.
  repeat split; try done; by apply N.mod_lt.
Qed.

(** No encoding of a code point is a proper prefix of another. *)
Lemma encode_utf8_prefix c d a b :
  is_code_point c → is_code_point d →
  encode_utf8 c ++ a = encode_utf8 d ++ b → c = d ∧ a = b.
Proof.
  unfold is_code_point, encode_utf8. intros Hc Hd.
  destruct (base64_digits c) as (q1 & q2 & q3 & r1 & r2 & r3 & -> & -> & -> & -> & -> & -> & ?).
  destruct (base64_digits d) as (p1 & p2 & p3 & s1 & s2 & s3 & -> & -> & -> & -> & -> & -> & ?).
  destruct (N.ltb_spec c 128), (N.ltb_spec d 128), (N.ltb_spec c 2048), (N.ltb_spec d 2048),
    (N.ltb_spec c 65536), (N.ltb_spec d 65536); try (exfalso; lia); cbn [app];
    intros Heq; injection Heq; clear Heq; intros; split; first [assumption|lia|exfalso; lia].
Qed.

Lemma str_as_bytes_cons c s : str_as_bytes (c :: s) = encode_utf8 c ++ str_as_bytes s.
Proof. done. Qed.

Lemma encode_utf8_nil c : encode_utf8 c ≠ [].
Proof. unfold encode_utf8. by repeat case_match. Qed.

Lemma str_as_bytes_inj s t :
  valid_str s → valid_str t → str_as_bytes s = str_as_bytes t → s = t.
Proof.
  intros Hs. revert t.
  induction Hs as [|c s Hc Hs IH]; intros t Ht; destruct Ht as [|d t Hd Ht];
    rewrite ?str_as_bytes_cons; [done|..].
  - intros H. symmetry in H. by apply app_nil in H as [?%encode_utf8_nil _].
  - by intros [?%encode_utf8_nil _]%app_nil.
  - intros [-> H]%encode_utf8_prefix; [|done..]. f_equal. by apply IH.
Qed.

(** Text of ASCII characters is its own encoding. *)
Lemma str_as_bytes_ascii s : Forall (λ c, c < 128)%N s → str_as_bytes s = s.
Proof.
  induction 1 as [|c s Hc _ IH]; [done|].
  rewrite str_as_bytes_cons, IH.
  unfold encode_utf8. by rewrite (proj2 (N.ltb_lt c 128)).
Qed.

Lemma is_ascii_hexdigit_lt c : is_ascii_hexdigit c = true → (c < 128)%N.
Proof.
  unfold is_ascii_hexdigit, is_ascii_digit. rewrite !orb_true_iff. intros [[H|H]|H]; bool_props; lia.
Qed.

(** ** Self-delimiting fields *)

(** The parts before the first marked byte are equal. *)
Lemma split_first (mark : N → bool) a b x y r s :
  Forall (λ c, mark c = false) a → Forall (λ c, mark c = false) b →
  mark x = true → mark y = true →
  a ++ x :: r = b ++ y :: s → a = b ∧ x = y ∧ r = s.
Proof.
  intros Ha. revert b. induction Ha as [|c a Hc _ IH]; intros [|d b] Hb Hx Hy H; simpl in H.
  - by simplify_eq.
  - apply Forall_cons in Hb as [Hd _]. simplify_eq. congruence.
  - simplify_eq. congruence.
  - apply Forall_cons in Hb as [_ Hb]. injection H as -> H.
    destruct (IH b Hb Hx Hy H) as (-> & -> & ->). done.
Qed.


(** A decimal rendering has only digits. *)
Lemma fmt_u64_digits n : Forall (λ c, is_ascii_digit c = true) (fmt_u64 n).
Proof.
  unfold fmt_u64, pretty, pretty_N. destruct (decide (n = 0)%N); [by repeat constructor|].
  assert (H : ∀ s, Forall (λ c, is_ascii_digit c = true) (lit s) →
    Forall (λ c, is_ascii_digit c = true) (lit (pretty_N_go n s))); [|by apply H].
  clear. induction (N.lt_wf_0 n) as [x _ IH]. intros s Hs.
  destruct (decide (0 < x)%N) as [Hx|Hx].
  - rewrite pretty_N_go_step by done. apply IH; [by apply N.div_lt|].
    constructor; [|done]. unfold pretty_N_char. by repeat case_match.
  - assert (x = 0%N) as -> by lia. by rewrite pretty_N_go_0.
Qed.

Lemma fmt_u64_no c n : is_ascii_digit c = false → Forall (λ d, N.eqb c d = false) (fmt_u64 n).
Proof.
  intros Hc. eapply Forall_impl; [apply fmt_u64_digits|]. intros d Hd. simpl.
  apply N.eqb_neq. intros <-. congruence.
Qed.

Lemma is_ascii_digit_lt c : is_ascii_digit c = true → (c < 128)%N.
Proof. unfold is_ascii_digit. intros H. bool_props. lia. Qed.

Lemma fmt_u64_bytes n : str_as_bytes (fmt_u64 n) = fmt_u64 n.
Proof.
  apply str_as_bytes_ascii. eapply Forall_impl; [apply fmt_u64_digits|].
  apply is_ascii_digit_lt.
Qed.

(** [len:text] tells where the text ends. *)
Definition len_prefixed (s : Text) : list N :=
  str_as_bytes (fmt_u64 (str_len s)) ++ 58%N :: str_as_bytes s.

Lemma len_prefixed_inj s t a b :
  valid_str s → valid_str t →
  len_prefixed s ++ a = len_prefixed t ++ b → s = t ∧ a = b.
Proof.
  unfold len_prefixed. rewrite !fmt_u64_bytes, <- !(assoc_L (++)). cbn [app].
  intros Hs Ht H. eapply (split_first (N.eqb 58)) in H as (Hl & _ & H); [|by apply fmt_u64_no..|done|done].
  apply fmt_u64_inj in Hl. apply app_inj_1 in H as [H ->].
  - split; [by apply str_as_bytes_inj|done].
  - rewrite <- !length_str_as_bytes in Hl. lia.
Qed.

(** ** Big-endian integers *)

(** Two's complement, [k] bytes, most significant first. *)
Fixpoint be_bytes (k : nat) (z : Z) : list N :=
  match k with
  | O => []
  | S k => be_bytes k (z / 256) ++ [Z.to_N (z mod 256)]
  end.

(** [i64::to_be_bytes] *)
Definition i64_to_be_bytes (z : Z) : list N := be_bytes 8 z.

Lemma length_be_bytes k z : length (be_bytes k z) = k.
Proof. revert z. induction k as [|k IH]; intros z; simpl; [done|]. rewrite length_app, IH. simpl. lia. Qed.

Lemma be_bytes_inj k a b : be_bytes k a = be_bytes k b → (a mod 256 ^ Z.of_nat k = b mod 256 ^ Z.of_nat k)%Z.
Proof.
  revert a b. induction k as [|k IH]; intros a b H; [by rewrite !Z.mod_1_r|]. cbn [be_bytes] in H.
  apply app_inj_2 in H as [H Hm]; [|done]. apply IH in H. injection Hm as Hm.
  assert (Hb : (a mod 256 = b mod 256)%Z).
  { apply (f_equal Z.of_N) in Hm. rewrite !Z2N.id in Hm by (apply Z.mod_pos_bound; lia). done. }
  rewrite Nat2Z.inj_succ, Z.pow_succ_r by lia.
  rewrite !(Z.rem_mul_r _ 256 (256 ^ Z.of_nat k)) by lia. by rewrite Hb, H.
Qed.

Lemma i64_bytes_inj a b :
  (-9223372036854775808 ≤ a < 9223372036854775808)%Z →
  (-9223372036854775808 ≤ b < 9223372036854775808)%Z →
  i64_to_be_bytes a = i64_to_be_bytes b → a = b.
Proof.
  intros Ha Hb H%be_bytes_inj. change (256 ^ Z.of_nat 8)%Z with 18446744073709551616%Z in H.
  Z.div_mod_to_equations. lia.
Qed.
