(* ===== verification/Platform.v ===== *)
(** * Third-party types and functions

    The domain crates use types and functions of libraries whose code is not
    part of the repository: [uuid::Uuid], [nostr::PublicKey],
    [nostr::EventId], [sha2::Sha256], [hex] and [url::Url].  They are the parameters of
    the development: a class of carriers and operations, and a class of the
    documented facts the code relies on.  [chrono::DateTime<Utc>] is used only
    as an instant on a totally ordered time line and is an integer here. *)

From stdpp Require Import prelude countable gmap fin_maps strings.
From S2P Require Import Prelude Text.

(** Instants, ordered as [DateTime<Utc>] orders them. *)
Abbreviation DateTime := Z.

Class Platform : Type := {
  (** [uuid::Uuid] *)
  Uuid : Type;
  Uuid_eq_dec :: EqDecision Uuid;
  Uuid_countable :: Countable Uuid;
  Uuid_as_bytes : Uuid → list N;
  Uuid_from_bytes : list N → Uuid;
  Uuid_is_nil : Uuid → bool;
  Uuid_get_version_num : Uuid → N;
  Uuid_variant_is_rfc4122 : Uuid → bool;
  Uuid_display : Uuid → Text;
  (** [nostr::PublicKey] *)
  PublicKey : Type;
  PublicKey_eq_dec :: EqDecision PublicKey;
  PublicKey_countable :: Countable PublicKey;
  (** [nostr::EventId] *)
  EventId : Type;
  EventId_eq_dec :: EqDecision EventId;
  EventId_countable :: Countable EventId;
  EventId_to_bytes : EventId → list N;
  (** [sha2::Sha256] over the concatenation of the updates *)
  sha256 : list N → list N;
  (** [hex::encode] and [hex::decode] *)
  hex_encode : list N → Text;
  hex_decode : Text → result (list N) Text;
  (** [url::Url::parse]: the [username] and [password] of the parsed URL *)
  Url_parse : Text → result (Text * option Text) Text;
}.

(** Documented behaviour of [uuid]: a UUID is its sixteen bytes, which
    [from_bytes] and [as_bytes] convert, its
    [Display] form is the 36-character hyphenated rendering of them, and the nil
    UUID, all of whose bits are zero, has version number zero. *)
Class UuidLaws `{P : Platform} : Prop := {
  Uuid_as_bytes_length : ∀ u, length (Uuid_as_bytes u) = 16;
  Uuid_as_bytes_inj : ∀ u v, Uuid_as_bytes u = Uuid_as_bytes v → u = v;
  Uuid_display_length : ∀ u, length (Uuid_display u) = 36;
  Uuid_display_inj : ∀ u v, Uuid_display u = Uuid_display v → u = v;
  Uuid_nil_version : ∀ u, Uuid_is_nil u = true → Uuid_get_version_num u = 0%N;
  Uuid_as_from_bytes : ∀ b, length b = 16 → Forall (λ x, x < 256)%N b →
    Uuid_as_bytes (Uuid_from_bytes b) = b;
  Uuid_as_bytes_small : ∀ u, Forall (λ x, x < 256)%N (Uuid_as_bytes u);
}.

(** A lowercase hexadecimal digit character. *)
Definition is_lower_hex (c : N) : bool :=
  (((48 <=? c) && (c <=? 57)) || ((97 <=? c) && (c <=? 102)))%N.

(** Hexadecimal text is ASCII. *)
Lemma lower_hex_len s :
  Forall (λ c, is_lower_hex c = true) s → str_len s = N.of_nat (length s).
Proof.
  induction 1 as [|c s Hc _ IH]; [done|]. cbn [str_len foldr length].
  fold (str_len s). rewrite IH. unfold len_utf8, is_lower_hex in *.
  rewrite (proj2 (N.ltb_lt c 128)); [lia|].
  destruct (N.leb_spec c 57), (N.leb_spec c 102); lia.
Qed.

(** Documented behaviour of [hex]: [encode] writes two lowercase digits per
    byte, and [decode] inverts it on lowercase input of even length. *)
Class HexLaws `{P : Platform} : Prop := {
  hex_encode_length : ∀ b, length (hex_encode b) = 2 * length b;
  hex_encode_lower : ∀ b, Forall (λ c, is_lower_hex c = true) (hex_encode b);
  hex_decode_encode : ∀ b, Forall (λ x, x < 256)%N b → hex_decode (hex_encode b) = Ok b;
  hex_encode_decode : ∀ s b, Forall (λ c, is_lower_hex c = true) s →
    hex_decode s = Ok b → hex_encode b = s;
}.

(** SHA-256 yields 32 bytes. *)
Class Sha256Laws `{P : Platform} : Prop := {
  sha256_length : ∀ m, length (sha256 m) = 32;
  sha256_bytes : ∀ m, Forall (λ x, x < 256)%N (sha256 m);
}.

Section uuid.
Context `{P : Platform}.

(** [left.as_bytes().cmp(right.as_bytes())] *)
Definition Uuid_cmp (a b : Uuid) : comparison := slice_cmp (Uuid_as_bytes a) (Uuid_as_bytes b).

(** [id.is_nil() || id.get_version_num() != 4 || id.get_variant() != Variant::RFC4122] *)
Definition not_uuid_v4 (id : Uuid) : bool :=
  Uuid_is_nil id || negb (Uuid_get_version_num id =? 4)%N || negb (Uuid_variant_is_rfc4122 id).

#[export] Instance Uuid_cmp_total `{!UuidLaws} : TotalCmp Uuid_cmp.
Proof.
  unfold Uuid_cmp. split.
  - intros a b. rewrite (cmp_eq slice_cmp). split; [apply Uuid_as_bytes_inj|by intros ->].
  - intros a b. apply (cmp_sym slice_cmp).
  - intros a b c. apply (cmp_lt_trans slice_cmp).
Qed.

End uuid.

(** * Ordered maps

    A [BTreeMap] keyed by [Uuid] is a finite map that is iterated in the byte
    order of its keys. *)


Section btree.
Context `{P : Platform}.

(** [BTreeMap::iter] *)
Definition btree_iter {V} (m : gmap Uuid V) : list (Uuid * V) :=
  sort_by (λ a b, Uuid_cmp a.1 b.1) (map_to_list m).

(** [BTreeMap::values] *)
Definition btree_values {V} (m : gmap Uuid V) : list V := (btree_iter m).*2.

Lemma btree_iter_perm {V} (m : gmap Uuid V) : Permutation (btree_iter m) (map_to_list m).
Proof. apply sort_by_perm. Qed.

Lemma elem_of_btree_values {V} (m : gmap Uuid V) v : v ∈ btree_values m ↔ ∃ k, m !! k = Some v.
Proof.
  unfold btree_values. rewrite list_elem_of_fmap. setoid_rewrite btree_iter_perm. split.
  - intros ([k w] & -> & H%elem_of_map_to_list). eauto.
  - intros [k H]. exists (k, v). by rewrite elem_of_map_to_list.
Qed.

Lemma Forall_btree_iter {V} (Q : Uuid * V → Prop) (m : gmap Uuid V) :
  Forall Q (btree_iter m) ↔ ∀ k v, m !! k = Some v → Q (k, v).
Proof.
  rewrite btree_iter_perm, Forall_forall. setoid_rewrite <- elem_of_map_to_list. split.
  - intros H k v. apply H.
  - intros H [k v]. apply H.
Qed.

Lemma btree_filter_perm {V} (Q : Uuid * V → Prop) `{∀ row, Decision (Q row)} (m : gmap Uuid V) :
  Permutation (filter Q (btree_iter m)) (map_to_list (filter Q m)).
Proof.
  rewrite btree_iter_perm. apply NoDup_Permutation.
  - apply NoDup_filter, NoDup_map_to_list.
  - apply NoDup_map_to_list.
  - intros [k e]. rewrite list_elem_of_filter, !elem_of_map_to_list, map_lookup_filter_Some.
    naive_solver.
Qed.

End btree.

(** * Runtime fences ([buzz-core/src/runtime.rs]) *)


(** [MAX_SAFE_RUNTIME_EPOCH] *)
Definition MAX_SAFE_RUNTIME_EPOCH : N := 9007199254740991%N.

Section runtime_fence.
Context `{P : Platform}.

Record RuntimeFence : Type := {
  runtime_id : Uuid;
  runtime_epoch : N;
}.

#[global] Instance RuntimeFence_eq_dec : EqDecision RuntimeFence.
Proof. solve_decision. Defined.

(** [RuntimeFence::validate] *)
Definition RuntimeFence_validate (self : RuntimeFence) : result unit Text :=
  reject_if (Uuid_is_nil self.(runtime_id)) (lit "runtime_id cannot be nil") ?;
  reject_if
    (negb ((1 <=? self.(runtime_epoch)) && (self.(runtime_epoch) <=? MAX_SAFE_RUNTIME_EPOCH)))%N
    (lit "runtime_epoch must be in the JavaScript-safe positive range") ?;
  Ok tt.

End runtime_fence.

(** * Project View object kinds

    The closed vocabulary of Project View objects
    ([buzz-project-view/src/model.rs]), shared by Project View and by the
    coordinates of Project Context. *)


Module ProjectViewObjectType.
Inductive ProjectViewObjectType : Type :=
| ProjectProfile
| Goal
| Role
| Plan
| Stage
| Requirement
| Issue
| Work
| Resource.

#[global] Instance ProjectViewObjectType_eq_dec : EqDecision ProjectViewObjectType.
Proof. solve_decision. Defined.
End ProjectViewObjectType.
Abbreviation ProjectViewObjectType := ProjectViewObjectType.ProjectViewObjectType.

(** [ProjectViewObjectType::as_str] *)
Definition ProjectViewObjectType_as_str (self : ProjectViewObjectType) : string :=
  match self with
  | ProjectViewObjectType.ProjectProfile => "project_profile"
  | ProjectViewObjectType.Goal => "goal"
  | ProjectViewObjectType.Role => "role"
  | ProjectViewObjectType.Plan => "plan"
  | ProjectViewObjectType.Stage => "stage"
  | ProjectViewObjectType.Requirement => "requirement"
  | ProjectViewObjectType.Issue => "issue"
  | ProjectViewObjectType.Work => "work"
  | ProjectViewObjectType.Resource => "resource"
  end.

#[export] Instance ProjectViewObjectType_as_str_inj : Inj (=) (=) ProjectViewObjectType_as_str.
Proof. intros [] []; naive_solver. Qed.
