(* ===== verification/DocumentModel.v ===== *)
(** * Project Documents: errors, limits, lifecycle types and canonical rows

    Models [buzz-project-document/src/{error,validation,model}.rs]. *)

From stdpp Require Import prelude strings.
From S2P Require Import Prelude Text Platform.

(** ** Constants ([lib.rs], [validation.rs]) *)

Definition PROJECT_DOCUMENT_SCHEMA_VERSION : N := 1%N.
Definition MAX_COMMAND_CONTENT_BYTES : N := 65536%N.
Definition MAX_COMMAND_JSON_DEPTH : N := 16%N.
Definition MAX_TITLE_BYTES : N := 256%N.
Definition MAX_SUMMARY_BYTES : N := 4096%N.
Definition MAX_CONTENT_MARKDOWN_BYTES : N := 49152%N.
Definition MAX_SAFE_REVISION : N := 9007199254740991%N.

(** ** Errors ([error.rs]) *)

Module DocumentError.
Section document_error.
Context `{P : Platform}.

Inductive DocumentError : Type :=
| InvalidJson (reason : Text)
| ContentTooLarge (max actual : N)
| JsonTooDeep (max actual : N)
| UnsupportedSchemaVersion (got supported : N)
| InvalidDocumentId (document_id : Uuid)
| InvalidRevisionTarget (reason : Text)
| InvalidRuntimeFence (reason : Text)
| InvalidSnapshot (reason : Text)
| InvalidProjection (reason : Text)
| RevisionConflict (expected : N) (actual : option N)
| DocumentIdAlreadyExists (document_id : Uuid)
| DocumentNotFound (document_id : Uuid)
| DocumentDeleted (document_id : Uuid)
| NoChange
| StillReferenced (document_id : Uuid)
| RevisionExhausted
| InvalidCanonicalState (reason : Text).

#[global] Instance DocumentError_eq_dec : EqDecision DocumentError.
Proof. solve_decision. Defined.

End document_error.
End DocumentError.

(** ** Closed vocabularies ([model.rs]) *)

Module DocumentState.
Inductive DocumentState : Type :=
| Active
| Deleted.

#[global] Instance DocumentState_eq_dec : EqDecision DocumentState.
Proof. solve_decision. Defined.
End DocumentState.

Module DocumentOperation.
Inductive DocumentOperation : Type :=
| Create
| Update
| Delete.

#[global] Instance DocumentOperation_eq_dec : EqDecision DocumentOperation.
Proof. solve_decision. Defined.
End DocumentOperation.

Abbreviation DocumentError := DocumentError.DocumentError.
Abbreviation DocumentState := DocumentState.DocumentState.
Abbreviation DocumentOperation := DocumentOperation.DocumentOperation.
Abbreviation DocumentResult T := (result T DocumentError).

(** [DocumentState::as_str] *)
Definition DocumentState_as_str (self : DocumentState) : string :=
  match self with
  | DocumentState.Active => "active"
  | DocumentState.Deleted => "deleted"
  end.

(** [DocumentOperation::as_str] *)
Definition DocumentOperation_as_str (self : DocumentOperation) : string :=
  match self with
  | DocumentOperation.Create => "create"
  | DocumentOperation.Update => "update"
  | DocumentOperation.Delete => "delete"
  end.

Section error_code.
Context `{P : Platform}.

(** [DocumentError::code] *)
Definition DocumentError_code (self : DocumentError) : string :=
  match self with
  | DocumentError.InvalidJson _ => "invalid_json"
  | DocumentError.ContentTooLarge _ _ => "content_too_large"
  | DocumentError.JsonTooDeep _ _ => "invalid_json"
  | DocumentError.UnsupportedSchemaVersion _ _ => "schema"
  | DocumentError.InvalidDocumentId _ => "invalid_document_id"
  | DocumentError.InvalidRevisionTarget _ => "revision_target"
  | DocumentError.InvalidRuntimeFence _ => "runtime_fence"
  | DocumentError.InvalidSnapshot _ => "invalid_snapshot"
  | DocumentError.InvalidProjection _ => "invalid_snapshot"
  | DocumentError.RevisionConflict _ _ => "revision"
  | DocumentError.DocumentIdAlreadyExists _ => "id_exists"
  | DocumentError.DocumentNotFound _ | DocumentError.DocumentDeleted _ => "revision_target"
  | DocumentError.NoChange => "no_change"
  | DocumentError.StillReferenced _ => "still_referenced"
  | DocumentError.RevisionExhausted => "revision_target"
  | DocumentError.InvalidCanonicalState _ => "invalid_snapshot"
  end.

End error_code.

(** ** Value validation ([validation.rs]) *)

(** [json_depth] *)
Fixpoint json_depth (value : Value) : N :=
  match value with
  | Array values => (1 + max_or_zero (json_depth <$> values))%N
  | Object members => (1 + max_or_zero ((λ m, json_depth m.2) <$> members))%N
  | _ => 1%N
  end.

Section validation.
Context `{P : Platform}.

Definition validate_document_id (document_id : Uuid) : DocumentResult unit :=
  reject_if (not_uuid_v4 document_id) (DocumentError.InvalidDocumentId document_id) ?;
  Ok tt.

Definition validate_positive_revision (value : N) (field : string) : DocumentResult unit :=
  reject_if (negb ((1 <=? value) && (value <=? MAX_SAFE_REVISION)))%N
    (DocumentError.InvalidRevisionTarget
       (lit field ++ lit " must be in 1..=" ++ fmt_u64 MAX_SAFE_REVISION)) ?;
  Ok tt.

Definition validate_nonnegative_revision (value : N) (field : string) : DocumentResult unit :=
  reject_if (MAX_SAFE_REVISION <? value)%N
    (DocumentError.InvalidRevisionTarget
       (lit field ++ lit " must be in 0..=" ++ fmt_u64 MAX_SAFE_REVISION)) ?;
  Ok tt.

Definition validate_no_nul (field : string) (value : Text) : DocumentResult unit :=
  reject_if (contains_char 0 value)
    (DocumentError.InvalidSnapshot (lit field ++ lit " must not contain NUL")) ?;
  Ok tt.

Definition validate_len (field : string) (value : Text) (max : N) : DocumentResult unit :=
  reject_if (max <? str_len value)%N
    (DocumentError.InvalidSnapshot
       (lit field ++ lit " exceeds " ++ fmt_u64 max ++ lit " UTF-8 bytes (got "
        ++ fmt_u64 (str_len value) ++ lit ")")) ?;
  Ok tt.

Definition validate_snapshot (title : Text) (summary : option Text) (content_markdown : Text)
    : DocumentResult unit :=
  validate_no_nul "title" title ?;
  reject_if (is_empty title || negb (bool_decide (trim title = title)))
    (DocumentError.InvalidSnapshot
       (lit "title must be non-empty and have no leading or trailing whitespace")) ?;
  validate_len "title" title MAX_TITLE_BYTES ?;
  (match summary with
   | Some summary =>
       validate_no_nul "summary" summary ?;
       reject_if (is_empty summary)
         (DocumentError.InvalidSnapshot
            (lit "an empty summary is non-canonical; omit the field")) ?;
       validate_len "summary" summary MAX_SUMMARY_BYTES
   | None => Ok tt
   end) ?;
  validate_no_nul "content_markdown" content_markdown ?;
  validate_len "content_markdown" content_markdown MAX_CONTENT_MARKDOWN_BYTES.

End validation.

(** ** Snapshots, revisions and canonical rows ([model.rs]) *)

Section snapshot.
Context `{P : Platform}.

Record DocumentSnapshot : Type := {
  title : Text;
  summary : option Text;
  content_markdown : Text;
}.

#[global] Instance DocumentSnapshot_eq_dec : EqDecision DocumentSnapshot.
Proof. solve_decision. Defined.

(** [DocumentSnapshot::validate] *)
Definition DocumentSnapshot_validate (self : DocumentSnapshot) : DocumentResult unit :=
  validate_snapshot self.(title) self.(summary) self.(content_markdown).

End snapshot.

Module DocumentRevision.
Section document_revision.
Context `{P : Platform}.

Inductive DocumentRevision : Type :=
| Active (schema_version : N) (document_id : Uuid) (document_revision : N)
    (snapshot : DocumentSnapshot) (actor : PublicKey) (canonical_at : DateTime)
| Deleted (schema_version : N) (document_id : Uuid) (document_revision : N)
    (actor : PublicKey) (canonical_at : DateTime).

#[global] Instance DocumentRevision_eq_dec : EqDecision DocumentRevision.
Proof. solve_decision. Defined.

End document_revision.
End DocumentRevision.
Abbreviation DocumentRevision := DocumentRevision.DocumentRevision.

Section revision_methods.
Context `{P : Platform}.

(** [DocumentRevision::validate] *)
Definition DocumentRevision_validate (self : DocumentRevision) : DocumentResult unit :=
  let? (schema_version, document_id, document_revision) :=
    match self with
    | DocumentRevision.Active schema_version document_id document_revision snapshot _ _ =>
        DocumentSnapshot_validate snapshot ?;
        Ok (schema_version, document_id, document_revision)
    | DocumentRevision.Deleted schema_version document_id document_revision _ _ =>
        Ok (schema_version, document_id, document_revision)
    end in
  reject_if (negb (schema_version =? PROJECT_DOCUMENT_SCHEMA_VERSION)%N)
    (DocumentError.UnsupportedSchemaVersion schema_version PROJECT_DOCUMENT_SCHEMA_VERSION) ?;
  validate_document_id document_id ?;
  validate_positive_revision document_revision "document_revision".

(** [DocumentRevision::document_id] *)
Definition DocumentRevision_document_id (self : DocumentRevision) : Uuid :=
  match self with
  | DocumentRevision.Active _ document_id _ _ _ _ | DocumentRevision.Deleted _ document_id _ _ _ => document_id
  end.

(** [DocumentRevision::document_revision] *)
Definition DocumentRevision_document_revision (self : DocumentRevision) : N :=
  match self with
  | DocumentRevision.Active _ _ document_revision _ _ _ | DocumentRevision.Deleted _ _ document_revision _ _ => document_revision
  end.

(** [DocumentRevision::state] *)
Definition DocumentRevision_state (self : DocumentRevision) : DocumentState :=
  match self with
  | DocumentRevision.Active _ _ _ _ _ _ => DocumentState.Active
  | DocumentRevision.Deleted _ _ _ _ _ => DocumentState.Deleted
  end.

(** [DocumentRevision::snapshot] *)
Definition DocumentRevision_snapshot (self : DocumentRevision) : option DocumentSnapshot :=
  match self with
  | DocumentRevision.Active _ _ _ snapshot _ _ => Some snapshot
  | DocumentRevision.Deleted _ _ _ _ _ => None
  end.

(** [DocumentRevision::actor] *)
Definition DocumentRevision_actor (self : DocumentRevision) : PublicKey :=
  match self with
  | DocumentRevision.Active _ _ _ _ actor _ | DocumentRevision.Deleted _ _ _ actor _ => actor
  end.

(** [DocumentRevision::canonical_at] *)
Definition DocumentRevision_canonical_at (self : DocumentRevision) : DateTime :=
  match self with
  | DocumentRevision.Active _ _ _ _ _ canonical_at | DocumentRevision.Deleted _ _ _ _ canonical_at => canonical_at
  end.

End revision_methods.

Section rows.
Context `{P : Platform}.

Record DocumentAttribution : Type := {
  at_ : DateTime;
  by_ : PublicKey;
}.

#[global] Instance DocumentAttribution_eq_dec : EqDecision DocumentAttribution.
Proof. solve_decision. Defined.

Record ProjectDocument : Type := {
  document_id : Uuid;
  current_revision : N;
  state : DocumentState;
  created : DocumentAttribution;
  updated : DocumentAttribution;
}.

#[global] Instance ProjectDocument_eq_dec : EqDecision ProjectDocument.
Proof. solve_decision. Defined.

(** [ProjectDocument::validate] *)
Definition ProjectDocument_validate (self : ProjectDocument) : DocumentResult unit :=
  validate_document_id self.(document_id) ?;
  validate_positive_revision self.(current_revision) "current_revision" ?;
  reject_if (self.(updated).(at_) <? self.(created).(at_))%Z
    (DocumentError.InvalidCanonicalState (lit "Document updated_at precedes created_at")) ?;
  Ok tt.

(** [ProjectDocument::from_snapshot] *)
Definition ProjectDocument_from_snapshot (document_id : Uuid) (current_revision : N)
    (state : DocumentState) (created updated : DocumentAttribution)
    : DocumentResult ProjectDocument :=
  let document := {|
    document_id := document_id;
    current_revision := current_revision;
    state := state;
    created := created;
    updated := updated;
  |} in
  ProjectDocument_validate document ?;
  Ok document.

Record CurrentDocument : Type := {
  document : ProjectDocument;
  revision : DocumentRevision;
}.

#[global] Instance CurrentDocument_eq_dec : EqDecision CurrentDocument.
Proof. solve_decision. Defined.

(** [CurrentDocument::new] *)
Definition CurrentDocument_new (document : ProjectDocument) (revision : DocumentRevision)
    : DocumentResult CurrentDocument :=
  ProjectDocument_validate document ?;
  DocumentRevision_validate revision ?;
  reject_if
    (negb (bool_decide (document.(document_id) = DocumentRevision_document_id revision))
     || negb (document.(current_revision) =? DocumentRevision_document_revision revision)%N
     || negb (bool_decide (document.(state) = DocumentRevision_state revision))
     || negb (bool_decide (document.(updated).(by_) = DocumentRevision_actor revision))
     || negb (document.(updated).(at_) =? DocumentRevision_canonical_at revision)%Z)
    (DocumentError.InvalidCanonicalState
       (lit "current Document row does not match its immutable revision")) ?;
  reject_if
    ((document.(current_revision) =? 1)%N
     && (negb (bool_decide (document.(created).(by_) = DocumentRevision_actor revision))
         || negb (document.(created).(at_) =? DocumentRevision_canonical_at revision)%Z))
    (DocumentError.InvalidCanonicalState
       (lit "revision one does not match Document creation provenance")) ?;
  Ok {| document := document; revision := revision |}.

(** [CurrentDocument::validate] *)
Definition CurrentDocument_validate (self : CurrentDocument) : DocumentResult unit :=
  let? _ := CurrentDocument_new self.(document) self.(revision) in Ok tt.

Record DocumentCatalog : Type := {
  project_id : Uuid;
  catalog_revision : N;
  active_document_count : N;
  projection_generation : N;
  initialized_at : DateTime;
  updated_at : DateTime;
}.

#[global] Instance DocumentCatalog_eq_dec : EqDecision DocumentCatalog.
Proof. solve_decision. Defined.

(** [DocumentCatalog::validate] *)
Definition DocumentCatalog_validate (self : DocumentCatalog) : DocumentResult unit :=
  reject_if (Uuid_is_nil self.(project_id))
    (DocumentError.InvalidCanonicalState (lit "project_id cannot be nil")) ?;
  validate_nonnegative_revision self.(catalog_revision) "catalog_revision" ?;
  validate_nonnegative_revision self.(active_document_count) "active_document_count" ?;
  validate_positive_revision self.(projection_generation) "projection_generation" ?;
  reject_if ((self.(catalog_revision) =? 0) && negb (self.(active_document_count) =? 0))%N
    (DocumentError.InvalidCanonicalState
       (lit "catalog revision zero must have no active Documents")) ?;
  reject_if (self.(updated_at) <? self.(initialized_at))%Z
    (DocumentError.InvalidCanonicalState (lit "catalog updated_at precedes initialized_at")) ?;
  Ok tt.

(** [DocumentCatalog::from_snapshot] *)
Definition DocumentCatalog_from_snapshot (project_id : Uuid)
    (catalog_revision active_document_count projection_generation : N)
    (initialized_at updated_at : DateTime) : DocumentResult DocumentCatalog :=
  let catalog := {|
    project_id := project_id;
    catalog_revision := catalog_revision;
    active_document_count := active_document_count;
    projection_generation := projection_generation;
    initialized_at := initialized_at;
    updated_at := updated_at;
  |} in
  DocumentCatalog_validate catalog ?;
  Ok catalog.

(** [DocumentCatalog::empty] *)
Definition DocumentCatalog_empty (project_id : Uuid) (projection_generation : N)
    (initialized_at : DateTime) : DocumentResult DocumentCatalog :=
  DocumentCatalog_from_snapshot project_id 0 0 projection_generation initialized_at initialized_at.

End rows.

(** * Project Documents: member-signed commands

    Models [buzz-project-document/src/command.rs]. *)


Module DocumentCommandRequest.
Section document_command_request.
Context `{P : Platform}.

Inductive DocumentCommandRequest : Type :=
| Create (document_id : Uuid) (title : Text) (summary : option Text) (content_markdown : Text)
| Update (document_id : Uuid) (title : Text) (summary : option Text) (content_markdown : Text)
| Delete (document_id : Uuid).

#[global] Instance DocumentCommandRequest_eq_dec : EqDecision DocumentCommandRequest.
Proof. solve_decision. Defined.

End document_command_request.
End DocumentCommandRequest.
Abbreviation DocumentCommandRequest := DocumentCommandRequest.DocumentCommandRequest.

Section request_methods.
Context `{P : Platform}.

(** [DocumentCommandRequest::operation] *)
Definition DocumentCommandRequest_operation (self : DocumentCommandRequest) : DocumentOperation :=
  match self with
  | DocumentCommandRequest.Create _ _ _ _ => DocumentOperation.Create
  | DocumentCommandRequest.Update _ _ _ _ => DocumentOperation.Update
  | DocumentCommandRequest.Delete _ => DocumentOperation.Delete
  end.

(** [DocumentCommandRequest::document_id] *)
Definition DocumentCommandRequest_document_id (self : DocumentCommandRequest) : Uuid :=
  match self with
  | DocumentCommandRequest.Create document_id _ _ _
  | DocumentCommandRequest.Update document_id _ _ _
  | DocumentCommandRequest.Delete document_id => document_id
  end.

(** [DocumentCommandRequest::snapshot] *)
Definition DocumentCommandRequest_snapshot (self : DocumentCommandRequest)
    : option DocumentSnapshot :=
  match self with
  | DocumentCommandRequest.Create _ title summary content_markdown
  | DocumentCommandRequest.Update _ title summary content_markdown =>
      Some {| title := title; summary := summary; content_markdown := content_markdown |}
  | DocumentCommandRequest.Delete _ => None
  end.

(** [DocumentCommandRequest::validate] *)
Definition DocumentCommandRequest_validate (self : DocumentCommandRequest) : DocumentResult unit :=
  validate_document_id (DocumentCommandRequest_document_id self) ?;
  match self with
  | DocumentCommandRequest.Create _ title summary content_markdown
  | DocumentCommandRequest.Update _ title summary content_markdown =>
      validate_snapshot title summary content_markdown
  | DocumentCommandRequest.Delete _ => Ok tt
  end.

End request_methods.

Section command.
Context `{P : Platform}.

Record ProjectDocumentCommand : Type := {
  schema_version : N;
  expected_document_revision : N;
  acting_assignment_id : option Uuid;
  runtime_fence : option RuntimeFence;
  request : DocumentCommandRequest;
}.

#[global] Instance ProjectDocumentCommand_eq_dec : EqDecision ProjectDocumentCommand.
Proof. solve_decision. Defined.

(** [ProjectDocumentCommand::new] *)
Definition ProjectDocumentCommand_new (expected_document_revision : N)
    (request : DocumentCommandRequest) : ProjectDocumentCommand := {|
  schema_version := PROJECT_DOCUMENT_SCHEMA_VERSION;
  expected_document_revision := expected_document_revision;
  acting_assignment_id := None;
  runtime_fence := None;
  request := request;
|}.

(** [ProjectDocumentCommand::with_runtime_fence] *)
Definition ProjectDocumentCommand_with_runtime_fence (self : ProjectDocumentCommand)
    (acting_assignment_id : Uuid) (runtime_fence : RuntimeFence) : ProjectDocumentCommand := {|
  schema_version := self.(schema_version);
  expected_document_revision := self.(expected_document_revision);
  acting_assignment_id := Some acting_assignment_id;
  runtime_fence := Some runtime_fence;
  request := self.(request);
|}.

(** [ProjectDocumentCommand::operation] *)
Definition ProjectDocumentCommand_operation (self : ProjectDocumentCommand) : DocumentOperation :=
  DocumentCommandRequest_operation self.(request).

(** [ProjectDocumentCommand::document_id] *)
Definition ProjectDocumentCommand_document_id (self : ProjectDocumentCommand) : Uuid :=
  DocumentCommandRequest_document_id self.(request).

(** [ProjectDocumentCommand::validate_for_submission] *)
Definition ProjectDocumentCommand_validate_for_submission (self : ProjectDocumentCommand)
    : DocumentResult unit :=
  reject_if (negb (self.(schema_version) =? PROJECT_DOCUMENT_SCHEMA_VERSION)%N)
    (DocumentError.UnsupportedSchemaVersion self.(schema_version)
       PROJECT_DOCUMENT_SCHEMA_VERSION) ?;
  validate_nonnegative_revision self.(expected_document_revision) "expected_document_revision" ?;
  (match DocumentCommandRequest_operation self.(request) with
   | DocumentOperation.Create =>
       reject_if (negb (self.(expected_document_revision) =? 0)%N)
         (DocumentError.InvalidRevisionTarget
            (lit "create requires expected_document_revision = 0"))
   | DocumentOperation.Update | DocumentOperation.Delete =>
       validate_positive_revision self.(expected_document_revision) "expected_document_revision"
   end) ?;
  (match self.(acting_assignment_id), self.(runtime_fence) with
   | None, None => Ok tt
   | Some assignment_id, Some runtime_fence =>
       reject_if (Uuid_is_nil assignment_id)
         (DocumentError.InvalidRuntimeFence (lit "acting_assignment_id cannot be nil")) ?;
       map_err DocumentError.InvalidRuntimeFence (RuntimeFence_validate runtime_fence)
   | _, _ =>
       Err (DocumentError.InvalidRuntimeFence
              (lit "acting_assignment_id and runtime_fence must both be omitted or both be present"))
   end) ?;
  DocumentCommandRequest_validate self.(request).

(** [ProjectDocumentCommand::from_json], over the [serde_json] parser and the
    derived deserializer of the command. *)
Definition ProjectDocumentCommand_from_json
    (from_str : Text → result Value Text)
    (from_value : Value → result ProjectDocumentCommand Text)
    (content : Text) : DocumentResult ProjectDocumentCommand :=
  reject_if (MAX_COMMAND_CONTENT_BYTES <? str_len content)%N
    (DocumentError.ContentTooLarge MAX_COMMAND_CONTENT_BYTES (str_len content)) ?;
  let? value := map_err DocumentError.InvalidJson (from_str content) in
  let depth := json_depth value in
  reject_if (MAX_COMMAND_JSON_DEPTH <? depth)%N
    (DocumentError.JsonTooDeep MAX_COMMAND_JSON_DEPTH depth) ?;
  let? command := map_err DocumentError.InvalidJson (from_value value) in
  ProjectDocumentCommand_validate_for_submission command ?;
  Ok command.

End command.
