(* ===== verification/DocumentProjection.v ===== *)
(** * Project Documents: projections, projection plans and receipts

    Models [buzz-project-document/src/projection.rs]. *)

From S2P Require Import Prelude Text Platform DocumentModel.
From stdpp Require Import prelude strings.

Module DocumentProjectionType.
Inductive DocumentProjectionType : Type :=
| DocumentHead
| DocumentRevision
| DocumentMeta.

#[global] Instance DocumentProjectionType_eq_dec : EqDecision DocumentProjectionType.
Proof. solve_decision. Defined.
End DocumentProjectionType.
Abbreviation DocumentProjectionType := DocumentProjectionType.DocumentProjectionType.

Section coordinates.
Context `{P : Platform}.

Definition document_head_coordinate (project_id document_id : Uuid) : Text :=
  lit "project-document:" ++ Uuid_display project_id ++ lit ":" ++ Uuid_display document_id.

Definition document_revision_coordinate (project_id document_id : Uuid) (document_revision : N)
    : Text :=
  lit "project-document:" ++ Uuid_display project_id ++ lit ":" ++ Uuid_display document_id
  ++ lit ":revision:" ++ fmt_u64 document_revision.

Definition document_meta_coordinate (project_id : Uuid) : Text :=
  lit "project-document:" ++ Uuid_display project_id ++ lit ":meta".

(** The error that [invalid_projection] returns. *)
Definition invalid_projection (reason : string) : DocumentError :=
  DocumentError.InvalidProjection (lit reason).

Definition validate_projection_common (schema_version : N)
    (projection_type expected_type : DocumentProjectionType) (project_id : Uuid)
    (projection_generation catalog_revision : N) : DocumentResult unit :=
  reject_if (negb (schema_version =? PROJECT_DOCUMENT_SCHEMA_VERSION)%N)
    (DocumentError.UnsupportedSchemaVersion schema_version PROJECT_DOCUMENT_SCHEMA_VERSION) ?;
  reject_if (negb (bool_decide (projection_type = expected_type)))
    (invalid_projection "projection_type does not match event kind") ?;
  reject_if (Uuid_is_nil project_id)
    (invalid_projection "project_id cannot be nil") ?;
  validate_positive_revision projection_generation "projection_generation" ?;
  validate_nonnegative_revision catalog_revision "catalog_revision".

End coordinates.

(** ** Head projections *)

Module DocumentHeadProjection.
Section document_head_projection.
Context `{P : Platform}.

Inductive DocumentHeadProjection : Type :=
| Active (schema_version : N) (projection_type : DocumentProjectionType) (project_id : Uuid)
    (projection_generation catalog_revision : N) (document_id : Uuid) (document_revision : N)
    (title : Text) (summary : option Text) (created_at : DateTime) (created_by : PublicKey)
    (updated_at : DateTime) (updated_by : PublicKey) (revision_coordinate : Text)
    (revision_event_id source_event_id : EventId)
| Deleted (schema_version : N) (projection_type : DocumentProjectionType) (project_id : Uuid)
    (projection_generation catalog_revision : N) (document_id : Uuid) (document_revision : N)
    (created_at : DateTime) (created_by : PublicKey) (deleted_at : DateTime)
    (deleted_by : PublicKey) (revision_coordinate : Text)
    (revision_event_id source_event_id : EventId).

End document_head_projection.
End DocumentHeadProjection.
Abbreviation DocumentHeadProjection := DocumentHeadProjection.DocumentHeadProjection.

(** ** Revision projections *)

Module DocumentRevisionProjection.
Section document_revision_projection.
Context `{P : Platform}.

Inductive DocumentRevisionProjection : Type :=
| Active (schema_version : N) (projection_type : DocumentProjectionType) (project_id : Uuid)
    (projection_generation catalog_revision : N) (document_id : Uuid) (document_revision : N)
    (title : Text) (summary : option Text) (content_markdown : Text) (created_at : DateTime)
    (created_by : PublicKey) (revision_at : DateTime) (revision_by : PublicKey)
    (source_event_id : EventId)
| Deleted (schema_version : N) (projection_type : DocumentProjectionType) (project_id : Uuid)
    (projection_generation catalog_revision : N) (document_id : Uuid) (document_revision : N)
    (created_at : DateTime) (created_by : PublicKey) (revision_at : DateTime)
    (revision_by : PublicKey) (source_event_id : EventId).

End document_revision_projection.
End DocumentRevisionProjection.
Abbreviation DocumentRevisionProjection := DocumentRevisionProjection.DocumentRevisionProjection.

Section projection_methods.
Context `{P : Platform}.

(** [DocumentHeadProjection::validate] *)
Definition DocumentHeadProjection_validate (self : DocumentHeadProjection) : DocumentResult unit :=
  let? (schema_version, projection_type, project_id, projection_generation, catalog_revision,
        document_id, document_revision, revision_coordinate) :=
    match self with
    | DocumentHeadProjection.Active schema_version projection_type project_id
        projection_generation catalog_revision document_id document_revision title summary
        created_at _ updated_at _ revision_coordinate _ _ =>
        validate_snapshot title summary [] ?;
        reject_if (updated_at <? created_at)%Z
          (invalid_projection "updated_at precedes created_at") ?;
        Ok (schema_version, projection_type, project_id, projection_generation,
            catalog_revision, document_id, document_revision, revision_coordinate)
    | DocumentHeadProjection.Deleted schema_version projection_type project_id
        projection_generation catalog_revision document_id document_revision
        created_at _ deleted_at _ revision_coordinate _ _ =>
        reject_if (deleted_at <? created_at)%Z
          (invalid_projection "deleted_at precedes created_at") ?;
        Ok (schema_version, projection_type, project_id, projection_generation,
            catalog_revision, document_id, document_revision, revision_coordinate)
    end in
  validate_projection_common schema_version projection_type DocumentProjectionType.DocumentHead
    project_id projection_generation catalog_revision ?;
  validate_positive_revision catalog_revision "catalog_revision" ?;
  validate_document_id document_id ?;
  validate_positive_revision document_revision "document_revision" ?;
  let expected := document_revision_coordinate project_id document_id document_revision in
  reject_if (negb (bool_decide (revision_coordinate = expected)))
    (invalid_projection "revision_coordinate does not match projection identity") ?;
  Ok tt.

(** [DocumentHeadProjection::state] *)
Definition DocumentHeadProjection_state (self : DocumentHeadProjection) : DocumentState :=
  match self with
  | DocumentHeadProjection.Active _ _ _ _ _ _ _ _ _ _ _ _ _ _ _ _ => DocumentState.Active
  | DocumentHeadProjection.Deleted _ _ _ _ _ _ _ _ _ _ _ _ _ _ => DocumentState.Deleted
  end.

(** [DocumentRevisionProjection::validate] *)
Definition DocumentRevisionProjection_validate (self : DocumentRevisionProjection)
    : DocumentResult unit :=
  let? (schema_version, projection_type, project_id, projection_generation, catalog_revision,
        document_id, document_revision) :=
    match self with
    | DocumentRevisionProjection.Active schema_version projection_type project_id
        projection_generation catalog_revision document_id document_revision title summary
        content_markdown created_at _ revision_at _ _ =>
        validate_snapshot title summary content_markdown ?;
        reject_if (revision_at <? created_at)%Z
          (invalid_projection "revision_at precedes created_at") ?;
        Ok (schema_version, projection_type, project_id, projection_generation,
            catalog_revision, document_id, document_revision)
    | DocumentRevisionProjection.Deleted schema_version projection_type project_id
        projection_generation catalog_revision document_id document_revision
        created_at _ revision_at _ _ =>
        reject_if (revision_at <? created_at)%Z
          (invalid_projection "revision_at precedes created_at") ?;
        Ok (schema_version, projection_type, project_id, projection_generation,
            catalog_revision, document_id, document_revision)
    end in
  validate_projection_common schema_version projection_type
    DocumentProjectionType.DocumentRevision project_id projection_generation catalog_revision ?;
  validate_positive_revision catalog_revision "catalog_revision" ?;
  validate_document_id document_id ?;
  validate_positive_revision document_revision "document_revision".

(** [DocumentRevisionProjection::state] *)
Definition DocumentRevisionProjection_state (self : DocumentRevisionProjection)
    : DocumentState :=
  match self with
  | DocumentRevisionProjection.Active _ _ _ _ _ _ _ _ _ _ _ _ _ _ _ => DocumentState.Active
  | DocumentRevisionProjection.Deleted _ _ _ _ _ _ _ _ _ _ _ _ => DocumentState.Deleted
  end.

End projection_methods.

(** ** Catalog metadata projections *)

Section meta.
Context `{P : Platform}.

Record ChangedDocumentHead : Type := {
  head_coordinate : Text;
  head_event_id : EventId;
  changed_document_id : Uuid;
  changed_document_revision : N;
  changed_revision_event_id : EventId;
  deleted : bool;
}.

Record DocumentMetaProjection : Type := {
  meta_schema_version : N;
  meta_projection_type : DocumentProjectionType;
  meta_project_id : Uuid;
  meta_initialized : bool;
  meta_projection_generation : N;
  meta_catalog_revision : N;
  meta_active_document_count : N;
  meta_reset : bool;
  meta_changed_heads : list ChangedDocumentHead;
  meta_source_event_id : option EventId;
  meta_updated_at : DateTime;
}.

(** [DocumentMetaProjection::validate] *)
Definition DocumentMetaProjection_validate (self : DocumentMetaProjection) : DocumentResult unit :=
  validate_projection_common self.(meta_schema_version) self.(meta_projection_type)
    DocumentProjectionType.DocumentMeta self.(meta_project_id)
    self.(meta_projection_generation) self.(meta_catalog_revision) ?;
  validate_nonnegative_revision self.(meta_active_document_count) "active_document_count" ?;
  reject_if (negb self.(meta_initialized))
    (invalid_projection "an emitted document_meta must be initialized") ?;
  (if self.(meta_reset) then
     reject_if (negb (is_empty self.(meta_changed_heads)) || opt_is_some self.(meta_source_event_id))
       (invalid_projection "reset metadata must omit source_event_id and changed_heads")
   else
     reject_if (negb (len self.(meta_changed_heads) =? 1)%N
                || negb (opt_is_some self.(meta_source_event_id)))
       (invalid_projection "incremental metadata requires one changed head and source_event_id")) ?;
  reject_if ((self.(meta_catalog_revision) =? 0)%N
             && (negb self.(meta_reset) || negb (self.(meta_active_document_count) =? 0)%N))
    (invalid_projection "catalog revision zero must be an empty reset bootstrap") ?;
  for_each (λ changed,
    validate_document_id changed.(changed_document_id) ?;
    validate_positive_revision changed.(changed_document_revision) "document_revision" ?;
    let expected :=
      document_head_coordinate self.(meta_project_id) changed.(changed_document_id) in
    reject_if (negb (bool_decide (changed.(head_coordinate) = expected)))
      (invalid_projection "changed head coordinate does not match its identity") ?;
    Ok tt) self.(meta_changed_heads) ?;
  Ok tt.

(** ** Projection plans *)

Record DocumentProjectionPlan : Type := {
  plan_catalog : DocumentCatalog;
  plan_current : option CurrentDocument;
  plan_source_event_id : option EventId;
  plan_reset : bool;
}.

#[global] Instance DocumentProjectionPlan_eq_dec : EqDecision DocumentProjectionPlan.
Proof. solve_decision. Defined.

(** [DocumentProjectionPlan::for_bootstrap] *)
Definition DocumentProjectionPlan_for_bootstrap (catalog : DocumentCatalog)
    : DocumentResult DocumentProjectionPlan :=
  DocumentCatalog_validate catalog ?;
  reject_if (negb (catalog.(catalog_revision) =? 0)%N
             || negb (catalog.(active_document_count) =? 0)%N)
    (invalid_projection "bootstrap projection requires revision zero and an empty catalog") ?;
  Ok {|
    plan_catalog := catalog;
    plan_current := None;
    plan_source_event_id := None;
    plan_reset := true;
  |}.

(** [DocumentProjectionPlan::for_reprojection] *)
Definition DocumentProjectionPlan_for_reprojection (catalog : DocumentCatalog)
    : DocumentResult DocumentProjectionPlan :=
  DocumentCatalog_validate catalog ?;
  Ok {|
    plan_catalog := catalog;
    plan_current := None;
    plan_source_event_id := None;
    plan_reset := true;
  |}.

(** [DocumentProjectionPlan::for_transition] *)
Definition DocumentProjectionPlan_for_transition (catalog : DocumentCatalog)
    (current : CurrentDocument) (source_event_id : EventId)
    : DocumentResult DocumentProjectionPlan :=
  DocumentCatalog_validate catalog ?;
  CurrentDocument_validate current ?;
  reject_if (catalog.(catalog_revision) =? 0)%N
    (invalid_projection "a mutation projection requires a positive catalog revision") ?;
  reject_if (negb (catalog.(updated_at) =? current.(document).(updated).(at_))%Z)
    (invalid_projection "catalog and current Document must share one canonical transition time") ?;
  Ok {|
    plan_catalog := catalog;
    plan_current := Some current;
    plan_source_event_id := Some source_event_id;
    plan_reset := false;
  |}.

(** ** Receipts *)

Record ProjectDocumentReceipt : Type := {
  receipt_schema_version : N;
  receipt_change_id : EventId;
  receipt_actor : PublicKey;
  receipt_acting_assignment_id : option Uuid;
  receipt_operation : DocumentOperation;
  receipt_document_id : Uuid;
  receipt_expected_document_revision : N;
  receipt_document_revision : N;
  receipt_catalog_revision : N;
  receipt_state : DocumentState;
  receipt_accepted_at : DateTime;
}.

#[global] Instance ProjectDocumentReceipt_eq_dec : EqDecision ProjectDocumentReceipt.
Proof. solve_decision. Defined.

(** [ProjectDocumentReceipt::validate] *)
Definition ProjectDocumentReceipt_validate (self : ProjectDocumentReceipt) : DocumentResult unit :=
  reject_if (negb (self.(receipt_schema_version) =? PROJECT_DOCUMENT_SCHEMA_VERSION)%N)
    (DocumentError.UnsupportedSchemaVersion self.(receipt_schema_version)
       PROJECT_DOCUMENT_SCHEMA_VERSION) ?;
  validate_document_id self.(receipt_document_id) ?;
  validate_nonnegative_revision self.(receipt_expected_document_revision)
    "expected_document_revision" ?;
  validate_positive_revision self.(receipt_document_revision) "document_revision" ?;
  validate_positive_revision self.(receipt_catalog_revision) "catalog_revision" ?;
  reject_if (is_some_and Uuid_is_nil self.(receipt_acting_assignment_id))
    (invalid_projection "acting_assignment_id cannot be nil") ?;
  let expected_state :=
    match self.(receipt_operation) with
    | DocumentOperation.Create | DocumentOperation.Update => DocumentState.Active
    | DocumentOperation.Delete => DocumentState.Deleted
    end in
  reject_if (negb (bool_decide (self.(receipt_state) = expected_state)))
    (invalid_projection "receipt operation and lifecycle state disagree") ?;
  let? committed_revision :=
    ok_or (u64_checked_add self.(receipt_expected_document_revision) 1)
      (invalid_projection "receipt revision overflow") in
  reject_if (negb (committed_revision =? self.(receipt_document_revision))%N)
    (invalid_projection "document_revision must be exactly expected_document_revision + 1") ?;
  reject_if (bool_decide (self.(receipt_operation) = DocumentOperation.Create)
             && negb (self.(receipt_expected_document_revision) =? 0)%N)
    (invalid_projection "create receipt must start from revision zero") ?;
  reject_if (negb (bool_decide (self.(receipt_operation) = DocumentOperation.Create))
             && (self.(receipt_expected_document_revision) =? 0)%N)
    (invalid_projection "update/delete receipt requires a positive base revision") ?;
  Ok tt.

End meta.
