(* ===== verification/DocumentReducer.v ===== *)
(** * Project Documents: the create, update and delete reducer

    Models [buzz-project-document/src/reducer.rs]. *)

From S2P Require Import Prelude Text Platform DocumentModel.
From S2P Require Import DocumentProjection.
From stdpp Require Import prelude strings.

Section reducer.
Context `{P : Platform}.

Record DocumentChangeContext : Type := {
  actor : PublicKey;
  change_id : EventId;
  canonical_at : DateTime;
  deletion_blocked : bool;
}.

(** [DocumentChangeContext::new] *)
Definition DocumentChangeContext_new (actor : PublicKey) (change_id : EventId)
    (canonical_at : DateTime) : DocumentChangeContext := {|
  actor := actor;
  change_id := change_id;
  canonical_at := canonical_at;
  deletion_blocked := false;
|}.

(** [DocumentChangeContext::with_deletion_blocked] *)
Definition DocumentChangeContext_with_deletion_blocked (self : DocumentChangeContext)
    (deletion_blocked : bool) : DocumentChangeContext := {|
  actor := self.(actor);
  change_id := self.(change_id);
  canonical_at := self.(canonical_at);
  deletion_blocked := deletion_blocked;
|}.

Record DocumentTransition : Type := {
  transition_catalog : DocumentCatalog;
  transition_current : CurrentDocument;
  transition_receipt : ProjectDocumentReceipt;
  transition_projection_plan : DocumentProjectionPlan;
}.

(** [DocumentTransition::validate] *)
Definition DocumentTransition_validate (self : DocumentTransition) : DocumentResult unit :=
  DocumentCatalog_validate self.(transition_catalog) ?;
  CurrentDocument_validate self.(transition_current) ?;
  ProjectDocumentReceipt_validate self.(transition_receipt) ?;
  reject_if
    (negb (bool_decide (self.(transition_receipt).(receipt_document_id)
                        = self.(transition_current).(document).(document_id)))
     || negb (self.(transition_receipt).(receipt_document_revision)
              =? self.(transition_current).(document).(current_revision))%N
     || negb (self.(transition_receipt).(receipt_catalog_revision)
              =? self.(transition_catalog).(catalog_revision))%N
     || negb (bool_decide (self.(transition_receipt).(receipt_state)
                           = self.(transition_current).(document).(state)))
     || negb (self.(transition_receipt).(receipt_accepted_at)
              =? self.(transition_catalog).(updated_at))%Z
     || negb (bool_decide (self.(transition_projection_plan).(plan_catalog)
                           = self.(transition_catalog)))
     || negb (bool_decide (self.(transition_projection_plan).(plan_current)
                           = Some self.(transition_current)))
     || negb (bool_decide (self.(transition_projection_plan).(plan_source_event_id)
                           = Some self.(transition_receipt).(receipt_change_id)))
     || self.(transition_projection_plan).(plan_reset))
    (DocumentError.InvalidCanonicalState
       (lit "transition receipt, state, and projection plan disagree")) ?;
  Ok tt.

Definition require_active_current (current : option CurrentDocument)
    (command : ProjectDocumentCommand) : DocumentResult CurrentDocument :=
  let? current :=
    ok_or current
      (DocumentError.DocumentNotFound (ProjectDocumentCommand_document_id command)) in
  let actual := current.(document).(current_revision) in
  reject_if (negb (actual =? command.(expected_document_revision))%N)
    (DocumentError.RevisionConflict command.(expected_document_revision) (Some actual)) ?;
  reject_if (bool_decide (current.(document).(state) = DocumentState.Deleted))
    (DocumentError.DocumentDeleted (ProjectDocumentCommand_document_id command)) ?;
  Ok current.

Definition require_increasing_time (current : CurrentDocument) (canonical_at : DateTime)
    : DocumentResult unit :=
  reject_if (canonical_at <=? current.(document).(updated).(at_))%Z
    (DocumentError.InvalidCanonicalState
       (lit "canonical transition time must increase past Document updated_at")) ?;
  Ok tt.

Definition next_revision (current : N) : DocumentResult N :=
  ok_or (option_filter (λ next, next <=? MAX_SAFE_REVISION)%N (u64_checked_add current 1))
    DocumentError.RevisionExhausted.

Definition next_catalog (catalog : DocumentCatalog) (operation : DocumentOperation)
    (canonical_at : DateTime) : DocumentResult DocumentCatalog :=
  let? catalog_revision := next_revision catalog.(catalog_revision) in
  let? active_document_count :=
    match operation with
    | DocumentOperation.Create =>
        ok_or (option_filter (λ count, count <=? MAX_SAFE_REVISION)%N
                 (u64_checked_add catalog.(active_document_count) 1))
          DocumentError.RevisionExhausted
    | DocumentOperation.Update => Ok catalog.(active_document_count)
    | DocumentOperation.Delete =>
        ok_or (u64_checked_sub catalog.(active_document_count) 1)
          (DocumentError.InvalidCanonicalState
             (lit "cannot delete from a catalog with no active Documents"))
    end in
  DocumentCatalog_from_snapshot catalog.(project_id) catalog_revision active_document_count
    catalog.(projection_generation) catalog.(initialized_at) canonical_at.

(** The match of [reduce_document] on the request: the next current row and
    its immutable revision. *)
Definition reduce_request (current : option CurrentDocument) (command : ProjectDocumentCommand)
    (context : DocumentChangeContext) (next_revision : N)
    : DocumentResult (ProjectDocument * DocumentRevision) :=
  match command.(request) with
  | DocumentCommandRequest.Create document_id title summary content_markdown =>
      reject_if (opt_is_some current) (DocumentError.DocumentIdAlreadyExists document_id) ?;
      let attribution := {| at_ := context.(canonical_at); by_ := context.(actor) |} in
      let? document :=
        ProjectDocument_from_snapshot document_id next_revision DocumentState.Active
          attribution attribution in
      let revision :=
        DocumentRevision.Active PROJECT_DOCUMENT_SCHEMA_VERSION document_id next_revision
          {| title := title; summary := summary; content_markdown := content_markdown |}
          context.(actor) context.(canonical_at) in
      Ok (document, revision)
  | DocumentCommandRequest.Update document_id title summary content_markdown =>
      let? current := require_active_current current command in
      let next_snapshot :=
        {| title := title; summary := summary; content_markdown := content_markdown |} in
      reject_if
        (bool_decide (DocumentRevision_snapshot current.(revision) = Some next_snapshot))
        DocumentError.NoChange ?;
      require_increasing_time current context.(canonical_at) ?;
      let? document :=
        ProjectDocument_from_snapshot document_id next_revision DocumentState.Active
          current.(document).(created)
          {| at_ := context.(canonical_at); by_ := context.(actor) |} in
      let revision :=
        DocumentRevision.Active PROJECT_DOCUMENT_SCHEMA_VERSION document_id next_revision
          next_snapshot context.(actor) context.(canonical_at) in
      Ok (document, revision)
  | DocumentCommandRequest.Delete document_id =>
      let? current := require_active_current current command in
      reject_if context.(deletion_blocked) (DocumentError.StillReferenced document_id) ?;
      require_increasing_time current context.(canonical_at) ?;
      let? document :=
        ProjectDocument_from_snapshot document_id next_revision DocumentState.Deleted
          current.(document).(created)
          {| at_ := context.(canonical_at); by_ := context.(actor) |} in
      let revision :=
        DocumentRevision.Deleted PROJECT_DOCUMENT_SCHEMA_VERSION document_id next_revision
          context.(actor) context.(canonical_at) in
      Ok (document, revision)
  end.

Definition reduce_document (catalog : DocumentCatalog) (current : option CurrentDocument)
    (command : ProjectDocumentCommand) (context : DocumentChangeContext)
    : DocumentResult DocumentTransition :=
  DocumentCatalog_validate catalog ?;
  ProjectDocumentCommand_validate_for_submission command ?;
  reject_if (context.(canonical_at) <=? catalog.(updated_at))%Z
    (DocumentError.InvalidCanonicalState
       (lit "canonical transition time must increase past catalog updated_at")) ?;
  (match current with
   | Some current =>
       CurrentDocument_validate current ?;
       reject_if
         (negb (bool_decide (current.(document).(document_id)
                             = ProjectDocumentCommand_document_id command)))
         (DocumentError.InvalidCanonicalState
            (lit "loaded current Document does not match the command target"))
   | None => Ok tt
   end) ?;
  let operation := ProjectDocumentCommand_operation command in
  let? next_revision := next_revision command.(expected_document_revision) in
  let? (document, revision) := reduce_request current command context next_revision in
  let? current := CurrentDocument_new document revision in
  let? catalog := next_catalog catalog operation context.(canonical_at) in
  let receipt := {|
    receipt_schema_version := PROJECT_DOCUMENT_SCHEMA_VERSION;
    receipt_change_id := context.(change_id);
    receipt_actor := context.(actor);
    receipt_acting_assignment_id := command.(acting_assignment_id);
    receipt_operation := operation;
    receipt_document_id := ProjectDocumentCommand_document_id command;
    receipt_expected_document_revision := command.(expected_document_revision);
    receipt_document_revision := next_revision;
    receipt_catalog_revision := catalog.(catalog_revision);
    receipt_state := current.(DocumentModel.document).(state);
    receipt_accepted_at := context.(canonical_at);
  |} in
  let? projection_plan :=
    DocumentProjectionPlan_for_transition catalog current context.(change_id) in
  let transition := {|
    transition_catalog := catalog;
    transition_current := current;
    transition_receipt := receipt;
    transition_projection_plan := projection_plan;
  |} in
  DocumentTransition_validate transition ?;
  Ok transition.

End reducer.
