(* ===== verification/DocumentFacts.v ===== *)
(** * Project Documents: what acceptance means

    Each validator is characterised by the proposition it decides, and
    [reduce_document] by the exact condition under which it accepts a command
    ([accepts]) and the transition it then returns ([next_transition]). *)

From S2P Require Import Prelude Text Platform DocumentModel.
From S2P Require Import DocumentProjection DocumentReducer.
From stdpp Require Import prelude strings.

Section facts.
Context `{P : Platform}.

(** ** Specifications *)

Definition is_positive_revision (n : N) : Prop := (1 ≤ n ≤ MAX_SAFE_REVISION)%N.

(** A text field without NUL and within its byte limit. *)
Definition text_within (max : N) (s : Text) : Prop :=
  (0%N ∉ s) ∧ (str_len s ≤ max)%N.

Record snapshot_canonical (title : Text) (summary : option Text) (content : Text) : Prop := {
  canonical_title : (text_within MAX_TITLE_BYTES title ∧ title ≠ [] ∧ ends_clean title);
  canonical_summary : ∀ s, summary = Some s → text_within MAX_SUMMARY_BYTES s ∧ s ≠ [];
  canonical_content : text_within MAX_CONTENT_MARKDOWN_BYTES content;
}.

Record catalog_valid (c : DocumentCatalog) : Prop := {
  catalog_valid_id : Uuid_is_nil c.(project_id) = false;
  catalog_valid_revision : (c.(catalog_revision) ≤ MAX_SAFE_REVISION)%N;
  catalog_valid_count : (c.(active_document_count) ≤ MAX_SAFE_REVISION)%N;
  catalog_valid_generation : is_positive_revision c.(projection_generation);
  catalog_valid_zero : c.(catalog_revision) = 0%N → c.(active_document_count) = 0%N;
  catalog_valid_time : (c.(initialized_at) ≤ c.(updated_at))%Z;
}.

(** The row and the revision it names agree. *)
Record current_valid (c : CurrentDocument) : Prop := {
  current_valid_id : not_uuid_v4 c.(document).(document_id) = false;
  current_valid_revision : is_positive_revision c.(document).(current_revision);
  current_valid_time : (c.(document).(created).(at_) ≤ c.(document).(updated).(at_))%Z;
  current_valid_body : DocumentRevision_validate c.(revision) = Ok tt;
  current_match_id : DocumentRevision_document_id c.(revision) = c.(document).(document_id);
  current_match_revision :
    DocumentRevision_document_revision c.(revision) = c.(document).(current_revision);
  current_match_state : DocumentRevision_state c.(revision) = c.(document).(state);
  current_match_actor : DocumentRevision_actor c.(revision) = c.(document).(updated).(by_);
  current_match_time : DocumentRevision_canonical_at c.(revision) = c.(document).(updated).(at_);
  current_first : c.(document).(current_revision) = 1%N →
    c.(document).(created) = c.(document).(updated);
}.

(** ** Validators decide their specifications *)

Lemma validate_document_id_Ok id u : validate_document_id id = Ok u ↔ not_uuid_v4 id = false.
Proof. unfold validate_document_id. destruct u, (not_uuid_v4 id); naive_solver. Qed.

Lemma validate_positive_revision_Ok v f u :
  validate_positive_revision v f = Ok u ↔ is_positive_revision v.
Proof.
  unfold validate_positive_revision, is_positive_revision. rewrite rbind_Ok. destruct u. split.
  - intros ([] & H & _). ok_inv. bool_props. lia.
  - intros H. exists tt. split; [|done]. apply reject_if_Ok.
    rewrite negb_false_iff, andb_true_iff, !N.leb_le. lia.
Qed.

Lemma validate_nonnegative_revision_Ok v f u :
  validate_nonnegative_revision v f = Ok u ↔ (v ≤ MAX_SAFE_REVISION)%N.
Proof.
  unfold validate_nonnegative_revision. rewrite rbind_Ok. destruct u. split.
  - intros ([] & H & _). ok_inv. by bool_props.
  - intros H. exists tt. split; [|done]. by apply reject_if_Ok, N.ltb_ge.
Qed.

Lemma validate_text_Ok field max s u :
  (validate_no_nul field s ?; validate_len field s max) = Ok u ↔ text_within max s.
Proof.
  unfold validate_no_nul, validate_len, text_within. destruct u.
  rewrite <- contains_char_false, <- N.ltb_ge.
  destruct (contains_char 0 s), (max <? str_len s)%N; naive_solver.
Qed.

Lemma validate_snapshot_Ok title summary content u :
  validate_snapshot title summary content = Ok u ↔ snapshot_canonical title summary content.
Proof.
  unfold validate_snapshot. destruct u. split.
  - intros H. ok_inv. split.
    + bool_props. split; [|split; [by destruct title|by apply trim_id]].
      eapply (validate_text_Ok "title" _ _ tt), rbind_Ok; eauto.
    + intros s ->. ok_inv. split; [|by destruct s].
      eapply (validate_text_Ok "summary" _ _ tt), rbind_Ok; eauto.
    + eapply (validate_text_Ok "content_markdown" _ _ tt), rbind_Ok; eauto.
  - intros [(Ht & Hne & Hc) Hs Hb].
    apply (validate_text_Ok "title" _ _ tt), rbind_Ok in Ht as ([] & -> & Hl). simpl.
    apply (validate_text_Ok "content_markdown" _ _ tt) in Hb.
    apply trim_id in Hc. rewrite bool_decide_true by done.
    destruct title as [|c title]; [done|]. simpl. rewrite Hl. simpl.
    destruct summary as [s|]; simpl; [|done].
    destruct (Hs s eq_refl) as [Hsum Hsne].
    apply (validate_text_Ok "summary" _ _ tt), rbind_Ok in Hsum as ([] & -> & Hsl). simpl.
    destruct s; [done|]. simpl. rewrite Hsl. done.
Qed.

Lemma DocumentCatalog_validate_Ok c u : DocumentCatalog_validate c = Ok u ↔ catalog_valid c.
Proof.
  unfold DocumentCatalog_validate. destruct u. split.
  - intros H. ok_inv. apply validate_positive_revision_Ok in H2.
    apply validate_nonnegative_revision_Ok in H0, H1.
    split; try done; [|by bool_props].
    intros Hz. rewrite Hz in H3. simpl in H3. by bool_props.
  - intros [Hid Hr Hc Hg Hz Ht].
    apply (validate_nonnegative_revision_Ok _ "catalog_revision" tt) in Hr.
    apply (validate_nonnegative_revision_Ok _ "active_document_count" tt) in Hc.
    apply (validate_positive_revision_Ok _ "projection_generation" tt) in Hg.
    rewrite Hid, Hr, Hc, Hg. simpl.
    destruct (N.eqb_spec (catalog_revision c) 0) as [E|E]; simpl.
    + rewrite (Hz E). simpl. by rewrite (proj2 (Z.ltb_ge _ _) Ht).
    + by rewrite (proj2 (Z.ltb_ge _ _) Ht).
Qed.

Lemma ProjectDocument_validate_Ok d u :
  ProjectDocument_validate d = Ok u ↔
  not_uuid_v4 d.(document_id) = false ∧ is_positive_revision d.(current_revision)
  ∧ (d.(created).(at_) ≤ d.(updated).(at_))%Z.
Proof.
  unfold ProjectDocument_validate. destruct u. split.
  - intros H. ok_inv. apply validate_document_id_Ok in H.
    apply validate_positive_revision_Ok in H0. by bool_props.
  - intros (Hid & Hr & Ht).
    apply (validate_document_id_Ok _ tt) in Hid.
    apply (validate_positive_revision_Ok _ "current_revision" tt) in Hr.
    rewrite Hid, Hr. simpl. by rewrite (proj2 (Z.ltb_ge _ _) Ht).
Qed.

Lemma CurrentDocument_new_Ok d r c :
  CurrentDocument_new d r = Ok c ↔ c = {| document := d; revision := r |} ∧ current_valid c.
Proof.
  unfold CurrentDocument_new. split.
  - intros H. apply rbind_Ok in H as ([] & (Hid & Hr & Ht)%ProjectDocument_validate_Ok & H).
    apply rbind_Ok in H as ([] & Hb & H).
    apply rbind_Ok in H as ([] & Hm%reject_if_Ok & H).
    apply rbind_Ok in H as ([] & Hf%reject_if_Ok & H). injection H as <-.
    bool_props. split; [done|]. split; simpl; try done. intros Hone. rewrite Hone in Hf.
    simpl in Hf. bool_props. destruct (created d), (updated d); simpl in *. congruence.
  - intros [-> [Hid Hr Ht Hb Mid Mr Ms Ma Mt Hf]]. simpl in *.
    rewrite (proj2 (ProjectDocument_validate_Ok _ tt)) by done. rewrite Hb. simpl.
    rewrite !bool_decide_true by done.
    rewrite (proj2 (N.eqb_eq _ _)) by done. rewrite (proj2 (Z.eqb_eq _ _)) by done. simpl.
    destruct (N.eqb_spec (current_revision d) 1) as [E|E]; simpl; [|done].
    specialize (Hf E). rewrite Hf, Ma, Mt, Z.eqb_refl. by rewrite bool_decide_true.
Qed.

Lemma CurrentDocument_validate_Ok c u : CurrentDocument_validate c = Ok u ↔ current_valid c.
Proof.
  unfold CurrentDocument_validate. rewrite rbind_Ok. destruct u, c as [d r]. split.
  - intros (c & [-> Hv]%CurrentDocument_new_Ok & _). done.
  - intros Hv. eexists. split; [|done]. by apply CurrentDocument_new_Ok.
Qed.

Lemma next_revision_Ok n m :
  next_revision n = Ok m ↔ m = (n + 1)%N ∧ (n < MAX_SAFE_REVISION)%N.
Proof.
  unfold next_revision. rewrite ok_or_Ok, option_filter_Some, u64_checked_add_Some, N.leb_le.
  unfold MAX_SAFE_REVISION, u64_max. lia.
Qed.

(** A command that may be submitted. *)
Record command_wf (c : ProjectDocumentCommand) : Prop := {
  wf_schema : c.(schema_version) = PROJECT_DOCUMENT_SCHEMA_VERSION;
  wf_expected :
    match ProjectDocumentCommand_operation c with
    | DocumentOperation.Create => c.(expected_document_revision) = 0%N
    | _ => is_positive_revision c.(expected_document_revision)
    end;
  wf_fence :
    match c.(acting_assignment_id), c.(runtime_fence) with
    | None, None => True
    | Some assignment, Some fence =>
        Uuid_is_nil assignment = false ∧ RuntimeFence_validate fence = Ok tt
    | _, _ => False
    end;
  wf_id : not_uuid_v4 (ProjectDocumentCommand_document_id c) = false;
  wf_snapshot : ∀ s, DocumentCommandRequest_snapshot c.(request) = Some s →
    snapshot_canonical s.(title) s.(summary) s.(content_markdown);
}.

Lemma request_validate_Ok r u :
  DocumentCommandRequest_validate r = Ok u ↔
  not_uuid_v4 (DocumentCommandRequest_document_id r) = false ∧
  (∀ s, DocumentCommandRequest_snapshot r = Some s →
    snapshot_canonical s.(title) s.(summary) s.(content_markdown)).
Proof.
  unfold DocumentCommandRequest_validate. rewrite rbind_Ok, <- (validate_document_id_Ok _ tt).
  destruct u, r; simpl.
  all: rewrite ?validate_snapshot_Ok; split.
  all: try (intros ([] & ? & ?%validate_snapshot_Ok); split; [done|]; by intros s [= <-]).
  all: try (intros [? Hs]; exists tt; split; [done|]; apply validate_snapshot_Ok, (Hs _ eq_refl)).
  - intros ([] & ? & _). done.
  - intros [? _]. by exists tt.
Qed.

Lemma command_validate_Ok c u :
  ProjectDocumentCommand_validate_for_submission c = Ok u ↔ command_wf c.
Proof.
  unfold ProjectDocumentCommand_validate_for_submission. destruct u. split.
  - intros H. apply rbind_Ok in H as ([] & Hs%reject_if_Ok & H).
    apply rbind_Ok in H as ([] & _ & H). apply rbind_Ok in H as ([] & He & H).
    apply rbind_Ok in H as ([] & Hf & [Hid Hsnap]%request_validate_Ok). bool_props.
    split; try done; unfold ProjectDocumentCommand_operation.
    + destruct (DocumentCommandRequest_operation _); [ok_inv; by bool_props|..];
        by apply validate_positive_revision_Ok in He.
    + destruct (acting_assignment_id c), (runtime_fence c); ok_inv; eauto.
  - intros [Hs He Hf Hid Hsnap]. rewrite Hs. simpl.
    rewrite (proj2 (request_validate_Ok _ tt)) by done.
    unfold ProjectDocumentCommand_operation in He.
    assert (Hn : (c.(expected_document_revision) ≤ MAX_SAFE_REVISION)%N).
    { unfold is_positive_revision in He.
      destruct (DocumentCommandRequest_operation _); [rewrite He; done|lia..]. }
    rewrite (proj2 (validate_nonnegative_revision_Ok _ _ tt) Hn). simpl.
    rewrite (proj2 (rbind_Ok _ _ tt)); [done|]. exists tt. split.
    + destruct (DocumentCommandRequest_operation _);
        [by rewrite He|by apply validate_positive_revision_Ok..].
    + destruct (acting_assignment_id c), (runtime_fence c); try done.
      destruct Hf as [-> ->]. done.
Qed.

End facts.

#[export] Hint Resolve -> DocumentCatalog_validate_Ok CurrentDocument_validate_Ok
  validate_document_id_Ok validate_positive_revision_Ok : carryforth.
#[export] Hint Resolve <- DocumentCatalog_validate_Ok CurrentDocument_validate_Ok
  validate_document_id_Ok validate_positive_revision_Ok : carryforth.
