(* ===== verification/DocumentSpec.v ===== *)
(** * Project Documents: the reducer meets its specification

    [reduce_document] accepts a command exactly when [accepts] holds, and then
    returns [next_transition]; so the self-checks it runs on its own output
    never reject, and every other command is an error that changes nothing. *)

From S2P Require Import Prelude Text Platform DocumentModel.
From S2P Require Import DocumentProjection DocumentReducer DocumentFacts.
From stdpp Require Import prelude strings.

Section spec.
Context `{P : Platform}.

(** ** The specification of the reducer

    [accepts] is the condition under which a command changes the store and
    [next_transition] what it then changes it to; neither mentions the code's
    order of checks. *)

Definition targets (c : CurrentDocument) (command : ProjectDocumentCommand) : Prop :=
  c.(document).(document_id) = ProjectDocumentCommand_document_id command
  ∧ c.(document).(current_revision) = command.(expected_document_revision).

Definition accepts_request (current : option CurrentDocument) (command : ProjectDocumentCommand)
    (context : DocumentChangeContext) : Prop :=
  match command.(request) with
  | DocumentCommandRequest.Create _ _ _ _ => current = None
  | DocumentCommandRequest.Update _ title summary content =>
      ∃ c, current = Some c ∧ current_valid c ∧ targets c command
      ∧ c.(document).(state) = DocumentState.Active
      ∧ DocumentRevision_snapshot c.(revision)
        ≠ Some {| title := title; summary := summary; content_markdown := content |}
      ∧ (c.(document).(updated).(at_) < context.(canonical_at))%Z
  | DocumentCommandRequest.Delete _ =>
      ∃ c, current = Some c ∧ current_valid c ∧ targets c command
      ∧ c.(document).(state) = DocumentState.Active
      ∧ context.(deletion_blocked) = false
      ∧ (c.(document).(updated).(at_) < context.(canonical_at))%Z
  end.

(** The active-Document counter has room for the operation. *)
Definition count_admits (operation : DocumentOperation) (count : N) : Prop :=
  match operation with
  | DocumentOperation.Create => (count < MAX_SAFE_REVISION)%N
  | DocumentOperation.Update => True
  | DocumentOperation.Delete => (1 ≤ count)%N
  end.

Definition next_count (operation : DocumentOperation) (count : N) : N :=
  match operation with
  | DocumentOperation.Create => count + 1
  | DocumentOperation.Update => count
  | DocumentOperation.Delete => count - 1
  end.

Record accepts (catalog : DocumentCatalog) (current : option CurrentDocument)
    (command : ProjectDocumentCommand) (context : DocumentChangeContext) : Prop := {
  accepts_catalog : catalog_valid catalog;
  accepts_command : ProjectDocumentCommand_validate_for_submission command = Ok tt;
  accepts_time : (catalog.(updated_at) < context.(canonical_at))%Z;
  accepts_revision : (command.(expected_document_revision) < MAX_SAFE_REVISION)%N;
  accepts_target : accepts_request current command context;
  accepts_catalog_revision : (catalog.(catalog_revision) < MAX_SAFE_REVISION)%N;
  accepts_count :
    count_admits (ProjectDocumentCommand_operation command) catalog.(active_document_count);
}.

Definition operation_state (operation : DocumentOperation) : DocumentState :=
  match operation with
  | DocumentOperation.Delete => DocumentState.Deleted
  | _ => DocumentState.Active
  end.

Definition context_attribution (context : DocumentChangeContext) : DocumentAttribution :=
  {| at_ := context.(canonical_at); by_ := context.(actor) |}.

Definition next_current (current : option CurrentDocument) (command : ProjectDocumentCommand)
    (context : DocumentChangeContext) : CurrentDocument :=
  let id := ProjectDocumentCommand_document_id command in
  let next := (command.(expected_document_revision) + 1)%N in {|
  document := {|
    document_id := id;
    current_revision := next;
    state := operation_state (ProjectDocumentCommand_operation command);
    created :=
      match current with
      | Some c => c.(document).(created)
      | None => context_attribution context
      end;
    updated := context_attribution context;
  |};
  revision :=
    match DocumentCommandRequest_snapshot command.(request) with
    | Some snapshot =>
        DocumentRevision.Active PROJECT_DOCUMENT_SCHEMA_VERSION id next snapshot
          context.(actor) context.(canonical_at)
    | None =>
        DocumentRevision.Deleted PROJECT_DOCUMENT_SCHEMA_VERSION id next
          context.(actor) context.(canonical_at)
    end;
|}.

Definition catalog_after (catalog : DocumentCatalog) (operation : DocumentOperation)
    (at' : DateTime) : DocumentCatalog := {|
  project_id := catalog.(project_id);
  catalog_revision := catalog.(catalog_revision) + 1;
  active_document_count := next_count operation catalog.(active_document_count);
  projection_generation := catalog.(projection_generation);
  initialized_at := catalog.(initialized_at);
  updated_at := at';
|}.

Definition next_transition (catalog : DocumentCatalog) (current : option CurrentDocument)
    (command : ProjectDocumentCommand) (context : DocumentChangeContext) : DocumentTransition :=
  let operation := ProjectDocumentCommand_operation command in
  let catalog' := catalog_after catalog operation context.(canonical_at) in
  let current' := next_current current command context in {|
  transition_catalog := catalog';
  transition_current := current';
  transition_receipt := {|
    receipt_schema_version := PROJECT_DOCUMENT_SCHEMA_VERSION;
    receipt_change_id := context.(change_id);
    receipt_actor := context.(actor);
    receipt_acting_assignment_id := command.(acting_assignment_id);
    receipt_operation := operation;
    receipt_document_id := ProjectDocumentCommand_document_id command;
    receipt_expected_document_revision := command.(expected_document_revision);
    receipt_document_revision := command.(expected_document_revision) + 1;
    receipt_catalog_revision := catalog.(catalog_revision) + 1;
    receipt_state := operation_state operation;
    receipt_accepted_at := context.(canonical_at);
  |};
  transition_projection_plan := {|
    plan_catalog := catalog';
    plan_current := Some current';
    plan_source_event_id := Some context.(change_id);
    plan_reset := false;
  |};
|}.

(** ** Helper lemmas *)

Lemma catalog_after_valid catalog operation at' :
  catalog_valid catalog → (catalog.(updated_at) < at')%Z →
  (catalog.(catalog_revision) < MAX_SAFE_REVISION)%N →
  count_admits operation catalog.(active_document_count) →
  catalog_valid (catalog_after catalog operation at').
Proof.
  intros [] ? ? ?. split; simpl; try done; [lia| |lia|lia].
  destruct operation; simpl in *; lia.
Qed.

Lemma next_catalog_Ok catalog operation at' c' :
  catalog_valid catalog → (catalog.(updated_at) < at')%Z →
  next_catalog catalog operation at' = Ok c' ↔
  c' = catalog_after catalog operation at'
  ∧ (catalog.(catalog_revision) < MAX_SAFE_REVISION)%N
  ∧ count_admits operation catalog.(active_document_count).
Proof.
  intros Hv Ht. unfold next_catalog, DocumentCatalog_from_snapshot.
  set (count := match operation with
    | DocumentOperation.Create => _ | DocumentOperation.Update => _
    | DocumentOperation.Delete => _ end).
  assert (Hcount : ∀ n, count = Ok n ↔ n = next_count operation catalog.(active_document_count)
      ∧ count_admits operation catalog.(active_document_count)).
  { intros n. unfold count. destruct operation; simpl.
    - rewrite ok_or_Ok, option_filter_Some, u64_checked_add_Some, N.leb_le.
      unfold MAX_SAFE_REVISION, u64_max. lia.
    - naive_solver.
    - rewrite ok_or_Ok, u64_checked_sub_Some. done. }
  split.
  - intros H. apply rbind_Ok in H as (r & [-> Hr]%next_revision_Ok & H).
    apply rbind_Ok in H as (n & [-> Hn]%Hcount & H). by ok_inv.
  - intros (-> & Hr & Hn). rewrite (proj2 (next_revision_Ok _ _) (conj eq_refl Hr)). simpl.
    rewrite (proj2 (Hcount _) (conj eq_refl Hn)). simpl.
    change {| project_id := _ |} with (catalog_after catalog operation at').
    by rewrite (proj2 (DocumentCatalog_validate_Ok _ tt) (catalog_after_valid _ _ _ Hv Ht Hr Hn)).
Qed.

Lemma successor_revision_Ok v field :
  validate_positive_revision (v + 1) field = Ok tt ↔ (v < MAX_SAFE_REVISION)%N.
Proof. rewrite validate_positive_revision_Ok. unfold is_positive_revision. lia. Qed.

Lemma next_revision_valid current command context :
  command_wf command → (command.(expected_document_revision) < MAX_SAFE_REVISION)%N →
  DocumentRevision_validate (next_current current command context).(revision) = Ok tt.
Proof.
  intros Hwf Hlt. unfold next_current; simpl. unfold DocumentRevision_validate.
  pose proof (proj2 (successor_revision_Ok _ "document_revision") Hlt) as Hr.
  pose proof (proj2 (validate_document_id_Ok _ tt) (wf_id _ Hwf)) as Hid.
  pose proof (wf_snapshot _ Hwf) as Hs.
  destruct (DocumentCommandRequest_snapshot _) as [s|]; simpl.
  - unfold DocumentSnapshot_validate.
    rewrite (proj2 (validate_snapshot_Ok _ _ _ tt) (Hs s eq_refl)). simpl. by rewrite Hid.
  - by rewrite Hid.
Qed.

Lemma accepts_created catalog current command context :
  accepts catalog current command context →
  ((next_current current command context).(document).(created).(at_) ≤ context.(canonical_at))%Z
  ∧ (command.(expected_document_revision) = 0%N →
     (next_current current command context).(document).(created) = context_attribution context).
Proof.
  intros [_ Hwf%command_validate_Ok _ _ Ht _ _]. unfold next_current; simpl.
  pose proof (wf_expected _ Hwf) as He. unfold is_positive_revision in He.
  unfold accepts_request, ProjectDocumentCommand_operation in *.
  destruct (request command); simpl in *;
    [by subst|destruct Ht as (c & -> & Hv & _ & _ & _ & Ht)..];
    (split; [|lia]); apply current_valid_time in Hv; lia.
Qed.

Lemma next_current_valid catalog current command context :
  accepts catalog current command context →
  current_valid (next_current current command context).
Proof.
  intros Ha. destruct (accepts_created _ _ _ _ Ha) as [Hc Hone].
  pose proof Ha as [_ Hwf%command_validate_Ok _ Hr _ _ _].
  pose proof (next_revision_valid current command context Hwf Hr) as Hb.
  split; try done.
  - apply (wf_id _ Hwf).
  - unfold is_positive_revision; simpl; lia.
  - unfold next_current; simpl. by destruct (DocumentCommandRequest_snapshot _).
  - unfold next_current; simpl. by destruct (DocumentCommandRequest_snapshot _).
  - unfold next_current, ProjectDocumentCommand_operation; simpl. by destruct (request command).
  - unfold next_current; simpl. by destruct (DocumentCommandRequest_snapshot _).
  - unfold next_current; simpl. by destruct (DocumentCommandRequest_snapshot _).
  - simpl. intros H1. apply Hone. lia.
Qed.

Lemma next_receipt_valid catalog current command context :
  accepts catalog current command context →
  ProjectDocumentReceipt_validate
    (next_transition catalog current command context).(transition_receipt) = Ok tt.
Proof.
  intros [_ Hwf%command_validate_Ok _ Hr _ Hc _]. unfold ProjectDocumentReceipt_validate; simpl.
  rewrite (proj2 (validate_document_id_Ok _ tt) (wf_id _ Hwf)). simpl.
  rewrite (proj2 (validate_nonnegative_revision_Ok _ _ tt)) by lia. simpl.
  rewrite (proj2 (successor_revision_Ok _ _) Hr). simpl.
  rewrite (proj2 (validate_positive_revision_Ok _ _ tt)) by (unfold is_positive_revision; lia). simpl.
  assert (Hnil : is_some_and Uuid_is_nil (acting_assignment_id command) = false).
  { pose proof (wf_fence _ Hwf) as Hf.
    destruct (acting_assignment_id command), (runtime_fence command); naive_solver. }
  rewrite Hnil. simpl.
  rewrite u64_checked_add_room by (unfold u64_max, MAX_SAFE_REVISION in *; lia).
  pose proof (wf_expected _ Hwf) as He. unfold is_positive_revision in He.
  destruct (ProjectDocumentCommand_operation command); simpl; rewrite N.eqb_refl; simpl.
  - by rewrite He.
  - by rewrite (proj2 (N.eqb_neq _ _)) by lia.
  - by rewrite (proj2 (N.eqb_neq _ _)) by lia.
Qed.

Lemma require_active_current_Ok current command c :
  require_active_current current command = Ok c ↔
  current = Some c
  ∧ c.(document).(current_revision) = command.(expected_document_revision)
  ∧ c.(document).(state) = DocumentState.Active.
Proof.
  unfold require_active_current. split.
  - intros H. apply rbind_Ok in H as (c' & ->%ok_or_Ok & H). ok_inv. bool_props. subst.
    by destruct (state (document c)).
  - intros (-> & Hr & Hs). simpl. rewrite Hr, N.eqb_refl, Hs. done.
Qed.

Lemma require_increasing_time_Ok c at' u :
  require_increasing_time c at' = Ok u ↔ (c.(document).(updated).(at_) < at')%Z.
Proof.
  unfold require_increasing_time. destruct u. rewrite <- Z.leb_gt.
  destruct (at' <=? _)%Z; naive_solver.
Qed.

(** Accepting the request yields the next row and its revision. *)
Lemma reduce_request_accepts catalog current command context :
  accepts catalog current command context →
  reduce_request current command context (command.(expected_document_revision) + 1)
  = Ok ((next_current current command context).(document),
        (next_current current command context).(revision)).
Proof.
  intros Ha. pose proof (next_current_valid _ _ _ _ Ha) as [Hid Hr Ht _ _ _ _ _ _ _].
  pose proof (proj2 (ProjectDocument_validate_Ok _ tt) (conj Hid (conj Hr Ht))) as Hv.
  pose proof (accepts_target _ _ _ _ Ha) as Hreq.
  unfold reduce_request, ProjectDocument_from_snapshot, accepts_request, next_current,
    ProjectDocumentCommand_operation, ProjectDocumentCommand_document_id in *.
  destruct (request command) as [id t sm ct|id t sm ct|id] eqn:Hq; simpl in *.
  - subst. simpl. unfold context_attribution in *. by rewrite Hv.
  - destruct Hreq as (c & -> & _ & (_ & He) & Hs & Hne & Hlt).
    rewrite (proj2 (require_active_current_Ok _ _ c)) by done. simpl.
    rewrite bool_decide_false by done. simpl.
    rewrite (proj2 (require_increasing_time_Ok _ _ tt) Hlt). simpl.
    unfold context_attribution in *. by rewrite Hv.
  - destruct Hreq as (c & -> & _ & (_ & He) & Hs & Hb & Hlt).
    rewrite (proj2 (require_active_current_Ok _ _ c)) by done. simpl. rewrite Hb. simpl.
    rewrite (proj2 (require_increasing_time_Ok _ _ tt) Hlt). simpl.
    unfold context_attribution in *. by rewrite Hv.
Qed.

(** The transition the reducer builds passes its own consistency check. *)
Lemma next_transition_valid catalog current command context :
  accepts catalog current command context →
  DocumentTransition_validate (next_transition catalog current command context) = Ok tt.
Proof.
  intros Ha. pose proof Ha as [Hcat _ Ht _ _ Hcr Hcount].
  unfold DocumentTransition_validate.
  rewrite (proj2 (DocumentCatalog_validate_Ok _ tt)) by (by apply catalog_after_valid).
  rewrite (proj2 (CurrentDocument_validate_Ok _ tt)) by (by eapply next_current_valid).
  rewrite (next_receipt_valid _ _ _ _ Ha). simpl.
  rewrite !bool_decide_true by done. by rewrite !N.eqb_refl, Z.eqb_refl.
Qed.

Lemma reduce_document_complete catalog current command context :
  accepts catalog current command context →
  reduce_document catalog current command context
  = Ok (next_transition catalog current command context).
Proof.
  intros Ha. pose proof Ha as [Hcat Hcmd Ht Hr Hreq Hcr Hcount]. unfold reduce_document.
  rewrite (proj2 (DocumentCatalog_validate_Ok _ tt) Hcat), Hcmd. simpl.
  rewrite (proj2 (Z.leb_gt _ _) Ht). simpl.
  rewrite (proj2 (rbind_Ok _ _ (next_transition catalog current command context))); [done|].
  exists tt. split.
  { destruct current as [c|]; [|done].
    assert (Hc : current_valid c ∧ targets c command).
    { unfold accepts_request in Hreq. destruct (request command); naive_solver. }
    rewrite (proj2 (CurrentDocument_validate_Ok _ tt)) by apply Hc. simpl.
    rewrite bool_decide_true by apply Hc. done. }
  rewrite (proj2 (next_revision_Ok _ _) (conj eq_refl Hr)). simpl.
  rewrite (reduce_request_accepts _ _ _ _ Ha). simpl.
  rewrite (proj2 (CurrentDocument_new_Ok _ _ (next_current current command context)))
    by (split; [reflexivity|by eapply next_current_valid]). simpl.
  rewrite (proj2 (next_catalog_Ok _ _ _ _ Hcat Ht) (conj eq_refl (conj Hcr Hcount))). simpl.
  unfold DocumentProjectionPlan_for_transition.
  rewrite (proj2 (DocumentCatalog_validate_Ok _ tt)) by (by apply catalog_after_valid).
  rewrite (proj2 (CurrentDocument_validate_Ok _ tt)) by (by eapply next_current_valid). simpl.
  rewrite (proj2 (N.eqb_neq _ _)) by lia. rewrite Z.eqb_refl. simpl.
  match goal with |- rbind (DocumentTransition_validate ?t) _ = _ =>
    change t with (next_transition catalog current command context) end.
  by rewrite (next_transition_valid _ _ _ _ Ha).
Qed.

Lemma reduce_document_accepted catalog current command context t :
  reduce_document catalog current command context = Ok t →
  accepts catalog current command context.
Proof.
  unfold reduce_document. intros H.
  apply rbind_Ok in H as ([] & Hcat%DocumentCatalog_validate_Ok & H).
  apply rbind_Ok in H as ([] & Hcmd & H).
  apply rbind_Ok in H as ([] & Ht%reject_if_Ok%Z.leb_gt & H).
  apply rbind_Ok in H as ([] & Hcur & H).
  apply rbind_Ok in H as (next & [-> Hr]%next_revision_Ok & H).
  apply rbind_Ok in H as ([d r] & Hreq & H).
  apply rbind_Ok in H as (c' & _ & H).
  apply rbind_Ok in H as (k' & (_ & Hcr & Hcount)%next_catalog_Ok & _); [|done..].
  split; try done. clear Hcount.
  unfold accepts_request, reduce_request in *. destruct (request command) eqn:Hq.
  - ok_inv. by destruct current.
  - apply rbind_Ok in Hreq as (c & (-> & He & Hs)%require_active_current_Ok & Hreq).
    apply rbind_Ok in Hcur as ([] & Hv%CurrentDocument_validate_Ok & Hid%reject_if_Ok).
    apply rbind_Ok in Hreq as ([] & Hg%reject_if_Ok & Hreq).
    apply rbind_Ok in Hreq as ([] & Hinc%require_increasing_time_Ok & _).
    bool_props. exists c. unfold targets. by split_and!.
  - apply rbind_Ok in Hreq as (c & (-> & He & Hs)%require_active_current_Ok & Hreq).
    apply rbind_Ok in Hcur as ([] & Hv%CurrentDocument_validate_Ok & Hid%reject_if_Ok).
    apply rbind_Ok in Hreq as ([] & Hg%reject_if_Ok & Hreq).
    apply rbind_Ok in Hreq as ([] & Hinc%require_increasing_time_Ok & _).
    bool_props. exists c. unfold targets. by split_and!.
Qed.

Lemma reduce_document_Ok catalog current command context t :
  reduce_document catalog current command context = Ok t ↔
  accepts catalog current command context ∧ t = next_transition catalog current command context.
Proof.
  split.
  - intros H. pose proof (reduce_document_accepted _ _ _ _ _ H) as Ha. split; [done|].
    rewrite (reduce_document_complete _ _ _ _ Ha) in H. by injection H as <-.
  - intros [Ha ->]. by apply reduce_document_complete.
Qed.

End spec.
