(* ===== verification/DocumentStore.v ===== *)
(** * Project Documents: the canonical store over time

    The adapter applies one accepted transition per transaction, under the
    Community lock: it returns the stored receipt of a replayed event, and
    otherwise loads the catalog and the target row, takes a canonical time past
    the catalog's, runs [reduce_document] and writes the catalog, the current
    row, the new immutable revision and the receipt
    ([buzz-db/src/project_document.rs], [load_current] and [commit]).  [submit]
    is that contract over finite maps; the theorems are about every store
    reachable from the bootstrap catalog by any sequence of submissions. *)

From S2P Require Import Prelude Text Platform DocumentModel.
From S2P Require Import DocumentProjection DocumentReducer DocumentFacts.
From S2P Require Import DocumentSpec.
From stdpp Require Import prelude strings gmap fin_maps relations.

Section store.
Context `{P : Platform}.

Record DocStore : Type := {
  store_catalog : DocumentCatalog;
  store_documents : gmap Uuid CurrentDocument;
  store_revisions : gmap (Uuid * N) DocumentRevision;
  store_receipts : gmap EventId ProjectDocumentReceipt;
}.

(** One signed command event and what the transaction reads beside the store:
    the database clock and whether a cross-domain reference blocks deletion. *)
Record Submission : Type := {
  sub_actor : PublicKey;
  sub_event : EventId;
  sub_command : ProjectDocumentCommand;
  sub_clock : DateTime;
  sub_blocked : bool;
}.

(** [GREATEST(clock_timestamp(), updated_at + interval '1 microsecond')] *)
Definition canonical_time (s : DocStore) (clock : DateTime) : DateTime :=
  Z.max clock (s.(store_catalog).(updated_at) + 1).

Definition submission_context (s : DocStore) (x : Submission) : DocumentChangeContext :=
  DocumentChangeContext_with_deletion_blocked
    (DocumentChangeContext_new x.(sub_actor) x.(sub_event) (canonical_time s x.(sub_clock)))
    x.(sub_blocked).

Definition sub_target (x : Submission) : Uuid :=
  ProjectDocumentCommand_document_id x.(sub_command).

Definition write_transition (s : DocStore) (t : DocumentTransition) : DocStore :=
  let row := t.(transition_current) in
  let id := row.(document).(document_id) in {|
  store_catalog := t.(transition_catalog);
  store_documents := <[id := row]> s.(store_documents);
  store_revisions :=
    <[(id, row.(document).(current_revision)) := row.(revision)]> s.(store_revisions);
  store_receipts :=
    <[t.(transition_receipt).(receipt_change_id) := t.(transition_receipt)]> s.(store_receipts);
|}.

Definition submit (s : DocStore) (x : Submission)
    : DocumentResult (DocStore * ProjectDocumentReceipt) :=
  match s.(store_receipts) !! x.(sub_event) with
  | Some receipt => Ok (s, receipt)
  | None =>
      let? t := reduce_document s.(store_catalog) (s.(store_documents) !! sub_target x)
                  x.(sub_command) (submission_context s x) in
      Ok (write_transition s t, t.(transition_receipt))
  end.

(** The bootstrap row of an empty catalog. *)
Definition bootstrap (catalog : DocumentCatalog) : DocStore := {|
  store_catalog := catalog;
  store_documents := ∅;
  store_revisions := ∅;
  store_receipts := ∅;
|}.

Inductive doc_step (s s' : DocStore) : Prop :=
| doc_step_submit x receipt : submit s x = Ok (s', receipt) → doc_step s s'.

Definition doc_reachable (s : DocStore) : Prop :=
  ∃ project generation at0 catalog,
    DocumentCatalog_empty project generation at0 = Ok catalog
    ∧ rtc doc_step (bootstrap catalog) s.

(** ** The invariant *)

Definition is_active (c : CurrentDocument) : bool :=
  bool_decide (c.(document).(state) = DocumentState.Active).

Definition rev_of (c : CurrentDocument) : N := c.(document).(current_revision).

Record store_inv (s : DocStore) : Prop := {
  inv_catalog : catalog_valid s.(store_catalog);
  inv_row : ∀ id c, s.(store_documents) !! id = Some c →
    current_valid c ∧ c.(document).(document_id) = id
    ∧ (c.(document).(updated).(at_) ≤ s.(store_catalog).(updated_at))%Z;
  inv_count :
    s.(store_catalog).(active_document_count) = map_count is_active s.(store_documents);
  inv_sum : s.(store_catalog).(catalog_revision) = map_sum rev_of s.(store_documents);
  inv_receipts : s.(store_catalog).(catalog_revision) = N.of_nat (size s.(store_receipts));
  inv_history : ∀ id n r, s.(store_revisions) !! (id, n) = Some r →
    ∃ c, s.(store_documents) !! id = Some c ∧ (1 ≤ n ≤ rev_of c)%N
    ∧ DocumentRevision_document_id r = id ∧ DocumentRevision_document_revision r = n
    ∧ DocumentRevision_validate r = Ok tt
    ∧ ((n < rev_of c)%N → DocumentRevision_state r = DocumentState.Active);
  inv_contiguous : ∀ id c n, s.(store_documents) !! id = Some c →
    (1 ≤ n ≤ rev_of c)%N → is_Some (s.(store_revisions) !! (id, n));
  inv_head : ∀ id c, s.(store_documents) !! id = Some c →
    s.(store_revisions) !! (id, rev_of c) = Some c.(revision);
  inv_first : ∀ id c r, s.(store_documents) !! id = Some c →
    s.(store_revisions) !! (id, 1%N) = Some r →
    c.(document).(created)
    = {| at_ := DocumentRevision_canonical_at r; by_ := DocumentRevision_actor r |};
  inv_ordered : ∀ id n m r r', s.(store_revisions) !! (id, n) = Some r →
    s.(store_revisions) !! (id, m) = Some r' → (n < m)%N →
    (DocumentRevision_canonical_at r < DocumentRevision_canonical_at r')%Z;
}.

(** ** One accepted row change *)

Record row_step (id : Uuid) (old : option CurrentDocument) (c : CurrentDocument) : Prop := {
  row_valid : current_valid c;
  row_id : c.(document).(document_id) = id;
  row_rev : rev_of c = from_option (λ o, rev_of o + 1)%N 1%N old;
  row_created : c.(document).(created)
    = from_option (λ o, o.(document).(created)) c.(document).(updated) old;
  row_active : ∀ o, old = Some o → is_active o = true;
  row_time : ∀ o, old = Some o →
    (o.(document).(updated).(at_) < c.(document).(updated).(at_))%Z;
}.

(** What an accepted request says about the target row. *)
Lemma accepts_shape catalog current command context :
  accepts catalog current command context →
  (current = None ∧ ProjectDocumentCommand_operation command = DocumentOperation.Create
   ∧ command.(expected_document_revision) = 0%N)
  ∨ ∃ c, current = Some c ∧ targets c command
      ∧ ProjectDocumentCommand_operation command ≠ DocumentOperation.Create
      ∧ c.(document).(state) = DocumentState.Active
      ∧ (c.(document).(updated).(at_) < context.(canonical_at))%Z.
Proof.
  intros [_ Hwf%command_validate_Ok _ _ Ht _ _]. pose proof (wf_expected _ Hwf) as He.
  unfold accepts_request, ProjectDocumentCommand_operation in *.
  destruct (request command); simpl in *; [by left|right..]; naive_solver.
Qed.

Lemma accepts_row_step catalog current command context :
  accepts catalog current command context →
  row_step (ProjectDocumentCommand_document_id command) current
    (next_current current command context).
Proof.
  intros Ha. pose proof (next_current_valid _ _ _ _ Ha) as Hv.
  destruct (accepts_shape _ _ _ _ Ha) as [(-> & _ & He)|(c & -> & (_ & He) & _ & Hs & Ht)].
  - split; try done. unfold rev_of; simpl. by rewrite He.
  - split; try done; unfold rev_of, is_active; simpl.
    + by rewrite He.
    + intros o [= <-]. by rewrite bool_decide_true.
    + by intros o [= <-].
Qed.

(** The outcome of a submission: a replay, or one accepted transition. *)
Lemma submit_Ok s x s' receipt :
  submit s x = Ok (s', receipt) ↔
  (s.(store_receipts) !! x.(sub_event) = Some receipt ∧ s' = s)
  ∨ (s.(store_receipts) !! x.(sub_event) = None
     ∧ let current := s.(store_documents) !! sub_target x in
       let t := next_transition s.(store_catalog) current x.(sub_command)
                  (submission_context s x) in
       accepts s.(store_catalog) current x.(sub_command) (submission_context s x)
       ∧ s' = write_transition s t ∧ receipt = t.(transition_receipt)).
Proof.
  unfold submit. destruct (store_receipts s !! sub_event x); simpl; [naive_solver|].
  rewrite rbind_Ok. setoid_rewrite reduce_document_Ok. naive_solver.
Qed.

(** ** The invariant is preserved *)

Section write.
Context (s : DocStore) (id : Uuid) (c : CurrentDocument).
Context (Hinv : store_inv s) (Hrow : row_step id (s.(store_documents) !! id) c).
Abbreviation docs' := (<[id := c]> s.(store_documents)).
Abbreviation revs' := (<[(id, rev_of c) := c.(revision)]> s.(store_revisions)).

Lemma write_rev_fresh : s.(store_revisions) !! (id, rev_of c) = None.
Proof.
  destruct (store_revisions s !! (id, rev_of c)) as [r|] eqn:Hr; [exfalso|done].
  destruct (inv_history _ Hinv _ _ _ Hr) as (o & Ho & Hn & _).
  pose proof (row_rev _ _ _ Hrow) as Hrev. rewrite Ho in Hrev. simpl in Hrev. lia.
Qed.

Lemma write_lookup_old i n r :
  s.(store_revisions) !! (i, n) = Some r → revs' !! (i, n) = Some r.
Proof.
  intros Hr. rewrite lookup_insert_ne; [done|]. intros [= <- <-].
  by rewrite write_rev_fresh in Hr.
Qed.

Lemma write_history i n r : revs' !! (i, n) = Some r →
  ∃ o, docs' !! i = Some o ∧ (1 ≤ n ≤ rev_of o)%N
  ∧ DocumentRevision_document_id r = i ∧ DocumentRevision_document_revision r = n
  ∧ DocumentRevision_validate r = Ok tt
  ∧ ((n < rev_of o)%N → DocumentRevision_state r = DocumentState.Active).
Proof.
  destruct Hrow as [[] Hid Hrev _ Hact _]. intros Hr.
  apply lookup_insert_Some in Hr as [[[= <- <-] <-]|[Hne Hr]].
  - exists c. rewrite lookup_insert_eq. unfold is_positive_revision, rev_of in *.
    split_and!; try done; try lia. by rewrite <- Hid.
  - destruct (inv_history _ Hinv _ _ _ Hr) as (o & Ho & Hn & Hi & Hm & Hv & Hp).
    destruct (decide (i = id)) as [->|Hi'].
    + exists c. rewrite lookup_insert_eq. rewrite Ho in Hrev; simpl in Hrev.
      split_and!; try done; try lia. intros _.
      destruct (decide (n = rev_of o)) as [->|Hlt]; [|apply Hp; lia].
      pose proof (inv_head _ Hinv _ _ Ho) as Hh. rewrite Hr in Hh. injection Hh as ->.
      destruct (inv_row _ Hinv _ _ Ho) as ([] & _). specialize (Hact _ Ho).
      unfold is_active in Hact. bool_props. congruence.
    + exists o. rewrite lookup_insert_ne by done. split_and!; try done; lia.
Qed.

Lemma write_contiguous i o n :
  docs' !! i = Some o → (1 ≤ n ≤ rev_of o)%N → is_Some (revs' !! (i, n)).
Proof.
  intros Ho Hn. apply lookup_insert_Some in Ho as [[<- <-]|[Hne Ho]].
  - destruct (decide (n = rev_of c)) as [->|Hlt]; [rewrite lookup_insert_eq; eauto|].
    pose proof (row_rev _ _ _ Hrow) as Hrev.
    destruct (store_documents s !! id) as [o|] eqn:Ho in Hrev; simpl in Hrev; [|lia].
    destruct (inv_contiguous _ Hinv _ _ n Ho) as [r Hr]; [lia|].
    exists r. by apply write_lookup_old.
  - destruct (inv_contiguous _ Hinv _ _ n Ho) as [r Hr]; [done|].
    exists r. by apply write_lookup_old.
Qed.

Lemma write_head i o : docs' !! i = Some o → revs' !! (i, rev_of o) = Some o.(revision).
Proof.
  intros Ho. apply lookup_insert_Some in Ho as [[<- <-]|[Hne Ho]].
  - apply lookup_insert_eq.
  - rewrite lookup_insert_ne by congruence. by apply (inv_head _ Hinv).
Qed.

Lemma write_first i o r : docs' !! i = Some o → revs' !! (i, 1%N) = Some r →
  o.(document).(created)
  = {| at_ := DocumentRevision_canonical_at r; by_ := DocumentRevision_actor r |}.
Proof.
  destruct Hrow as [[] Hid Hrev Hcr _ _]. intros Ho Hr.
  apply lookup_insert_Some in Ho as [[<- <-]|[Hne Ho]].
  - destruct (store_documents s !! id) as [o|] eqn:Ho; simpl in *.
    + rewrite lookup_insert_ne in Hr.
      * rewrite Hcr. by apply (inv_first _ Hinv id).
      * intros [= Hn]. destruct (inv_row _ Hinv _ _ Ho) as ([] & _).
        unfold is_positive_revision, rev_of in *. lia.
    + rewrite <- Hrev, lookup_insert_eq in Hr. injection Hr as <-. rewrite Hcr.
      rewrite current_match_actor, current_match_time. by destruct (updated (document c)).
  - rewrite lookup_insert_ne in Hr by congruence. by apply (inv_first _ Hinv i).
Qed.

Lemma old_revision_before i o n r : s.(store_documents) !! i = Some o →
  s.(store_revisions) !! (i, n) = Some r →
  (DocumentRevision_canonical_at r ≤ o.(document).(updated).(at_))%Z.
Proof.
  intros Ho Hr. destruct (inv_history _ Hinv _ _ _ Hr) as (o' & Ho' & Hn & _).
  rewrite Ho in Ho'. injection Ho' as <-. pose proof (inv_head _ Hinv _ _ Ho) as Hh.
  destruct (inv_row _ Hinv _ _ Ho) as ([] & _).
  destruct (decide (n = rev_of o)) as [->|Hlt].
  - rewrite Hh in Hr. injection Hr as <-. lia.
  - assert (Hl : (n < rev_of o)%N) by lia.
    pose proof (inv_ordered _ Hinv _ _ _ _ _ Hr Hh Hl). lia.
Qed.

Lemma write_ordered i n m r r' :
  revs' !! (i, n) = Some r → revs' !! (i, m) = Some r' → (n < m)%N →
  (DocumentRevision_canonical_at r < DocumentRevision_canonical_at r')%Z.
Proof.
  destruct Hrow as [[] Hid Hrev _ _ Ht]. intros Hr Hr' Hnm.
  apply lookup_insert_Some in Hr as [[Heq <-]|[Hne Hr]];
  apply lookup_insert_Some in Hr' as [[Heq' <-]|[Hne' Hr']]; simplify_eq; [lia|..].
  - destruct (inv_history _ Hinv _ _ _ Hr') as (o & Ho & Hm & _).
    rewrite Ho in Hrev; simpl in Hrev. lia.
  - destruct (inv_history _ Hinv _ _ _ Hr) as (o & Ho & Hm & _).
    pose proof (old_revision_before _ _ _ _ Ho Hr). specialize (Ht _ Ho). lia.
  - by eapply (inv_ordered _ Hinv).
Qed.

End write.

(** The counters move with the row. *)
Lemma next_count_spec (docs : gmap Uuid CurrentDocument) id operation c :
  is_active c = bool_decide (operation_state operation = DocumentState.Active) →
  match docs !! id with
  | None => operation = DocumentOperation.Create
  | Some o => is_active o = true ∧ operation ≠ DocumentOperation.Create
  end →
  map_count is_active (<[id := c]> docs) = next_count operation (map_count is_active docs).
Proof.
  unfold map_count. intros Hc Hold. destruct (docs !! id) as [o|] eqn:Ho.
  - pose proof (map_sum_insert_Some (λ v, if is_active v then 1%N else 0%N) docs id o c Ho) as Hs.
    destruct Hold as [Ha Hop]. simpl in Hs. rewrite Ha, Hc in Hs.
    destruct operation; simpl in *; [done|lia..].
  - rewrite map_sum_insert_None, Hc by done. subst. simpl. lia.
Qed.

Lemma write_inv s x :
  store_inv s → s.(store_receipts) !! x.(sub_event) = None →
  let current := s.(store_documents) !! sub_target x in
  let context := submission_context s x in
  accepts s.(store_catalog) current x.(sub_command) context →
  store_inv (write_transition s
    (next_transition s.(store_catalog) current x.(sub_command) context)).
Proof.
  intros Hinv Hnew current context Ha.
  pose proof (accepts_row_step _ _ _ _ Ha) as Hrow. pose proof Ha as [Hcat _ Ht _ _ Hcr Hcount].
  set (c := next_current current (sub_command x) context) in *.
  fold (sub_target x) in Hrow.
  split; simpl; change (ProjectDocumentCommand_document_id (sub_command x)) with (sub_target x);
    fold current context c; try fold (rev_of c).
  - by apply catalog_after_valid.
  - intros id o Ho. apply lookup_insert_Some in Ho as [[<- <-]|[Hne Ho]].
    + split_and!; [apply Hrow|apply Hrow|done].
    + destruct (inv_row _ Hinv _ _ Ho) as (Hv & Hi & Hle). split_and!; [done..|].
      etrans; [exact Hle|]. apply Z.lt_le_incl, Ht.
  - rewrite (inv_count _ Hinv). symmetry. apply next_count_spec; [done|].
    destruct (accepts_shape _ _ _ _ Ha) as [(Hn & Hop & _)|(o & Hn & _ & Hop & Hs & _)];
      unfold current in Hn; rewrite Hn; [done|]. split; [|done]. unfold is_active. by rewrite Hs.
  - pose proof (row_rev _ _ _ Hrow) as Hrev. rewrite (inv_sum _ Hinv).
    unfold current in Hrev. destruct (store_documents s !! sub_target x) as [o|] eqn:Ho;
      simpl in Hrev.
    + pose proof (map_sum_insert_Some rev_of _ _ _ c Ho). lia.
    + rewrite map_sum_insert_None by done. lia.
  - rewrite map_size_insert_None by done. rewrite (inv_receipts _ Hinv). lia.
  - exact (write_history s (sub_target x) c Hinv Hrow).
  - exact (write_contiguous s (sub_target x) c Hinv Hrow).
  - exact (write_head s (sub_target x) c Hinv).
  - exact (write_first s (sub_target x) c Hinv Hrow).
  - exact (write_ordered s (sub_target x) c Hinv Hrow).
Qed.

Lemma submit_inv s x s' receipt : store_inv s → submit s x = Ok (s', receipt) → store_inv s'.
Proof.
  intros Hinv [[_ ->]|(Hnew & Ha & -> & _)]%submit_Ok; [done|]. by apply write_inv.
Qed.

Lemma bootstrap_inv project generation at0 catalog :
  DocumentCatalog_empty project generation at0 = Ok catalog → store_inv (bootstrap catalog).
Proof.
  unfold DocumentCatalog_empty, DocumentCatalog_from_snapshot. intros H.
  apply rbind_Ok in H as ([] & Hv%DocumentCatalog_validate_Ok & H). injection H as <-.
  split; simpl; try done.
Qed.

Lemma doc_reachable_inv s : doc_reachable s → store_inv s.
Proof.
  intros (project & generation & at0 & catalog & He & Hr).
  assert (Hinv : store_inv (bootstrap catalog)) by (by eapply bootstrap_inv).
  induction Hr as [|s1 s2 s3 [x receipt Hs] _ IH]; [done|]. eapply IH, submit_inv; eauto.
Qed.

End store.
