(* ===== verification/ContextCoordinate.v ===== *)
(** * Project Context: errors, limits and edge coordinates

    Models [buzz-project-context/src/{error,validation,coordinate}.rs] and the
    carrier of [EdgeKey] ([model.rs]). *)

From S2P Require Import Prelude Text Platform.
From stdpp Require Import prelude strings countable.

(** ** Constants ([lib.rs], [validation.rs]) *)

Definition PROJECT_CONTEXT_SCHEMA_VERSION : N := 2%N.
Definition MIN_EDGE_COORDINATES : N := 2%N.
Definition MAX_COMMAND_CONTENT_BYTES : N := 65536%N.
Definition MAX_PROJECTION_CONTENT_BYTES : N := 65536%N.
Definition MAX_COMMAND_JSON_DEPTH : N := 16%N.
Definition MAX_SAFE_REVISION : N := 9007199254740991%N.

(** The 32 bytes of a SHA-256 edge identity. *)
Record EdgeKey : Type := { edge_key_bytes : list N }.

#[global] Instance EdgeKey_eq_dec : EqDecision EdgeKey.
Proof. solve_decision. Defined.

#[global] Instance EdgeKey_countable : Countable EdgeKey.
Proof. by apply (inj_countable' edge_key_bytes (λ b, {| edge_key_bytes := b |})); intros []. Defined.

(** ** Errors ([error.rs]) *)

Module ProjectContextError.
Section project_context_error.
Context `{P : Platform}.

Inductive ProjectContextError : Type :=
| InvalidJson (reason : Text)
| ContentTooLarge (max actual : N)
| JsonTooDeep (max actual : N)
| UnsupportedSchemaVersion (got supported : N)
| InvalidCoordinate (reason : Text)
| DuplicateCoordinate
| TooFewCoordinates (minimum actual : N)
| NonCanonicalCoordinates
| InvalidDocumentId (document_id : Uuid)
| InvalidEdgeKey (reason : Text)
| InvalidRevision (reason : Text)
| InvalidRuntimeFence (reason : Text)
| InvalidProjection (reason : Text)
| ProjectionTooLarge (max actual : N)
| RevisionConflict (expected actual : N)
| InactiveCoordinate
| InactiveContextDocument (document_id : Uuid)
| DocumentAlreadyBound (document_id : Uuid) (edge_key : EdgeKey)
| NoChange
| BindingNotFound (document_id : Uuid)
| BindingEdgeMismatch (document_id : Uuid) (actual_edge_key : EdgeKey)
| RevisionExhausted
| InvalidCanonicalState (reason : Text).

#[global] Instance ProjectContextError_eq_dec : EqDecision ProjectContextError.
Proof. solve_decision. Defined.

End project_context_error.
End ProjectContextError.
Abbreviation ProjectContextError := ProjectContextError.ProjectContextError.
Abbreviation ProjectContextResult T := (result T ProjectContextError).

Section error_code.
Context `{P : Platform}.

(** [ProjectContextError::code] *)
Definition ProjectContextError_code (self : ProjectContextError) : string :=
  match self with
  | ProjectContextError.InvalidJson _ | ProjectContextError.JsonTooDeep _ _ => "invalid_json"
  | ProjectContextError.ContentTooLarge _ _ => "content_too_large"
  | ProjectContextError.UnsupportedSchemaVersion _ _ => "schema"
  | ProjectContextError.InvalidCoordinate _
  | ProjectContextError.DuplicateCoordinate
  | ProjectContextError.TooFewCoordinates _ _
  | ProjectContextError.NonCanonicalCoordinates => "coordinates"
  | ProjectContextError.InvalidDocumentId _ => "invalid_document_id"
  | ProjectContextError.InvalidEdgeKey _ => "edge_key"
  | ProjectContextError.InvalidRevision _ | ProjectContextError.RevisionExhausted => "revision"
  | ProjectContextError.InvalidRuntimeFence _ => "runtime_fence"
  | ProjectContextError.InvalidProjection _
  | ProjectContextError.ProjectionTooLarge _ _ => "projection"
  | ProjectContextError.RevisionConflict _ _ => "revision"
  | ProjectContextError.InactiveCoordinate => "inactive_coordinate"
  | ProjectContextError.InactiveContextDocument _ => "inactive_document"
  | ProjectContextError.DocumentAlreadyBound _ _ => "already_bound"
  | ProjectContextError.NoChange => "no_change"
  | ProjectContextError.BindingNotFound _ => "binding_not_found"
  | ProjectContextError.BindingEdgeMismatch _ _ => "edge_mismatch"
  | ProjectContextError.InvalidCanonicalState _ => "canonical_state"
  end.

End error_code.

(** ** Value validation ([validation.rs]) *)

(** [json_depth] *)
Fixpoint json_depth (value : Value) : N :=
  match value with
  | Array values => (1 + max_or_zero (json_depth <$> values))%N
  | Object members => (1 + max_or_zero ((λ m, json_depth m.2) <$> members))%N
  | _ => 1%N
  end.

Section validation.
Context `{P : Platform}.

Definition validate_uuid_v4 (id : Uuid) (field : string) : ProjectContextResult unit :=
  reject_if (not_uuid_v4 id)
    (ProjectContextError.InvalidCoordinate (lit field ++ lit " must be an RFC 4122 UUID v4")) ?;
  Ok tt.

Definition validate_document_id (document_id : Uuid) : ProjectContextResult unit :=
  reject_if (not_uuid_v4 document_id) (ProjectContextError.InvalidDocumentId document_id) ?;
  Ok tt.

Definition validate_nonnegative (value : N) (field : string) : ProjectContextResult unit :=
  reject_if (MAX_SAFE_REVISION <? value)%N
    (ProjectContextError.InvalidRevision
       (lit field ++ lit " must be in 0..=" ++ fmt_u64 MAX_SAFE_REVISION)) ?;
  Ok tt.

Definition validate_positive (value : N) (field : string) : ProjectContextResult unit :=
  reject_if (negb ((1 <=? value) && (value <=? MAX_SAFE_REVISION)))%N
    (ProjectContextError.InvalidRevision
       (lit field ++ lit " must be in 1..=" ++ fmt_u64 MAX_SAFE_REVISION)) ?;
  Ok tt.

(** [validate_projection_size], over the serializer [serde_json::to_vec]. *)
Definition validate_projection_size {T} (to_vec : T → result (list N) Text) (value : T)
    : ProjectContextResult unit :=
  let? bytes := map_err ProjectContextError.InvalidProjection (to_vec value) in
  reject_if (MAX_PROJECTION_CONTENT_BYTES <? len bytes)%N
    (ProjectContextError.ProjectionTooLarge MAX_PROJECTION_CONTENT_BYTES (len bytes)) ?;
  Ok tt.

End validation.

(** ** Coordinates ([coordinate.rs]) *)

Module ProjectContextCoordinate.
Section project_context_coordinate.
Context `{P : Platform}.

Inductive ProjectContextCoordinate : Type :=
| ProjectViewObject (object_type : ProjectViewObjectType) (object_id : Uuid)
| Document (document_id : Uuid)
| Meeting (meeting_id : Uuid).

#[global] Instance ProjectContextCoordinate_eq_dec : EqDecision ProjectContextCoordinate.
Proof. solve_decision. Defined.

End project_context_coordinate.
End ProjectContextCoordinate.
Abbreviation ProjectContextCoordinate := ProjectContextCoordinate.ProjectContextCoordinate.

Section coordinate.
Context `{P : Platform}.

(** [ProjectContextCoordinate::validate] *)
Definition ProjectContextCoordinate_validate (self : ProjectContextCoordinate)
    : ProjectContextResult unit :=
  match self with
  | ProjectContextCoordinate.ProjectViewObject _ object_id =>
      validate_uuid_v4 object_id "object_id"
  | ProjectContextCoordinate.Document document_id => validate_uuid_v4 document_id "document_id"
  | ProjectContextCoordinate.Meeting meeting_id => validate_uuid_v4 meeting_id "meeting_id"
  end.

(** [ProjectContextCoordinate::validate_for_project] *)
Definition ProjectContextCoordinate_validate_for_project (self : ProjectContextCoordinate)
    (project_id : Uuid) : ProjectContextResult unit :=
  ProjectContextCoordinate_validate self ?;
  (match self with
   | ProjectContextCoordinate.ProjectViewObject ProjectViewObjectType.ProjectProfile object_id =>
       reject_if (negb (bool_decide (object_id = project_id)))
         (ProjectContextError.InvalidCoordinate
            (lit "project_profile object_id must equal the host-derived project_id"))
   | _ => Ok tt
   end) ?;
  Ok tt.

(** [ProjectContextCoordinate::tag_value] *)
Definition ProjectContextCoordinate_tag_value (self : ProjectContextCoordinate)
    (project_id : Uuid) : Text :=
  match self with
  | ProjectContextCoordinate.ProjectViewObject object_type object_id =>
      lit "pv:" ++ Uuid_display project_id ++ lit ":"
      ++ lit (ProjectViewObjectType_as_str object_type) ++ lit ":" ++ Uuid_display object_id
  | ProjectContextCoordinate.Document document_id =>
      lit "document:" ++ Uuid_display project_id ++ lit ":" ++ Uuid_display document_id
  | ProjectContextCoordinate.Meeting meeting_id =>
      lit "meeting:" ++ Uuid_display project_id ++ lit ":" ++ Uuid_display meeting_id
  end.

(** [ProjectContextCoordinate::family_rank] *)
Definition family_rank (self : ProjectContextCoordinate) : N :=
  match self with
  | ProjectContextCoordinate.ProjectViewObject _ _ => 0
  | ProjectContextCoordinate.Document _ => 1
  | ProjectContextCoordinate.Meeting _ => 2
  end.

(** [ProjectContextCoordinate::object_type_rank] *)
Definition object_type_rank (object_type : ProjectViewObjectType) : N :=
  match object_type with
  | ProjectViewObjectType.ProjectProfile => 0
  | ProjectViewObjectType.Goal => 1
  | ProjectViewObjectType.Role => 2
  | ProjectViewObjectType.Plan => 3
  | ProjectViewObjectType.Stage => 4
  | ProjectViewObjectType.Requirement => 5
  | ProjectViewObjectType.Issue => 6
  | ProjectViewObjectType.Work => 7
  | ProjectViewObjectType.Resource => 8
  end.

(** [ProjectContextCoordinate::append_identity_bytes] *)
Definition append_identity_bytes (self : ProjectContextCoordinate) (output : list N) : list N :=
  let output := output ++ [family_rank self] in
  match self with
  | ProjectContextCoordinate.ProjectViewObject object_type object_id =>
      let output := output ++ [object_type_rank object_type] in
      output ++ Uuid_as_bytes object_id
  | ProjectContextCoordinate.Document document_id => output ++ Uuid_as_bytes document_id
  | ProjectContextCoordinate.Meeting meeting_id => output ++ Uuid_as_bytes meeting_id
  end.

(** [<ProjectContextCoordinate as Ord>::cmp] *)
Definition ProjectContextCoordinate_cmp (self other : ProjectContextCoordinate) : comparison :=
  then_with (N.compare (family_rank self) (family_rank other))
    match self, other with
    | ProjectContextCoordinate.ProjectViewObject left_type left_id,
      ProjectContextCoordinate.ProjectViewObject right_type right_id =>
        then_with (N.compare (object_type_rank left_type) (object_type_rank right_type))
          (slice_cmp (Uuid_as_bytes left_id) (Uuid_as_bytes right_id))
    | ProjectContextCoordinate.Document left_id, ProjectContextCoordinate.Document right_id =>
        slice_cmp (Uuid_as_bytes left_id) (Uuid_as_bytes right_id)
    | ProjectContextCoordinate.Meeting left_id, ProjectContextCoordinate.Meeting right_id =>
        slice_cmp (Uuid_as_bytes left_id) (Uuid_as_bytes right_id)
    | _, _ => Eq
    end.

Definition canonicalize_coordinates (coordinates : list ProjectContextCoordinate)
    : ProjectContextResult (list ProjectContextCoordinate) :=
  reject_if (len coordinates <? MIN_EDGE_COORDINATES)%N
    (ProjectContextError.TooFewCoordinates MIN_EDGE_COORDINATES (len coordinates)) ?;
  for_each ProjectContextCoordinate_validate coordinates ?;
  let coordinates := sort_by ProjectContextCoordinate_cmp coordinates in
  reject_if (windows2_any (λ a b, bool_decide (a = b)) coordinates)
    ProjectContextError.DuplicateCoordinate ?;
  Ok coordinates.

Definition validate_canonical_coordinates (coordinates : list ProjectContextCoordinate)
    : ProjectContextResult unit :=
  let? canonical := canonicalize_coordinates coordinates in
  reject_if (negb (bool_decide (canonical = coordinates)))
    ProjectContextError.NonCanonicalCoordinates ?;
  Ok tt.

End coordinate.
