(* ===== verification/ContextModel.v ===== *)
(** * Project Context: edge keys, edges, bindings and the catalog

    Models [buzz-project-context/src/model.rs]. *)

From stdpp Require Import prelude strings.
From S2P Require Import Prelude Text Platform ContextCoordinate.

(** ** Edge keys *)

Section edge_key.
Context `{P : Platform}.

(** [b"buzz-project-context-edge-v1\0"] *)
Definition EDGE_KEY_DOMAIN : list N := lit "buzz-project-context-edge-v1" ++ [0%N].

#[global] Arguments EDGE_KEY_DOMAIN : simpl never.

(** [EdgeKey::derive] *)
Definition EdgeKey_derive (project_id : Uuid) (coordinates : list ProjectContextCoordinate)
    : ProjectContextResult EdgeKey :=
  validate_uuid_v4 project_id "project_id" ?;
  validate_canonical_coordinates coordinates ?;
  let? count :=
    ok_or (u32_try_from (len coordinates))
      (ProjectContextError.InvalidCoordinate
         (lit "coordinate count exceeds the edge-key-v1 u32 identity encoding")) in
  let hasher := EDGE_KEY_DOMAIN in
  let hasher := hasher ++ Uuid_as_bytes project_id in
  let hasher := hasher ++ u32_to_be_bytes count in
  let hasher :=
    foldl (λ hasher coordinate, hasher ++ append_identity_bytes coordinate []) hasher
      coordinates in
  Ok {| edge_key_bytes := sha256 hasher |}.

(** [u8::is_ascii_hexdigit] *)
Definition is_ascii_hexdigit (c : N) : bool :=
  ((48 <=? c) && (c <=? 57) || ((65 <=? c) && (c <=? 70)) || ((97 <=? c) && (c <=? 102)))%N.

(** [u8::is_ascii_uppercase] *)
Definition is_ascii_uppercase (c : N) : bool := ((65 <=? c) && (c <=? 90))%N.

(** [EdgeKey::from_hex] *)
Definition EdgeKey_from_hex (value : Text) : ProjectContextResult EdgeKey :=
  reject_if
    (negb (str_len value =? 64)%N || existsb (λ byte, negb (is_ascii_hexdigit byte)) value)
    (ProjectContextError.InvalidEdgeKey
       (lit "edge key must contain exactly 64 hexadecimal characters")) ?;
  reject_if (existsb is_ascii_uppercase value)
    (ProjectContextError.InvalidEdgeKey (lit "edge key hexadecimal must be lowercase")) ?;
  let? decoded := map_err ProjectContextError.InvalidEdgeKey (hex_decode value) in
  reject_if (negb (len decoded =? 32)%N)
    (ProjectContextError.InvalidEdgeKey (lit "edge key must decode to 32 bytes")) ?;
  Ok {| edge_key_bytes := decoded |}.

(** [EdgeKey::to_hex], which is also its [Display] form. *)
Definition EdgeKey_to_hex (self : EdgeKey) : Text := hex_encode self.(edge_key_bytes).

End edge_key.

(** ** Closed vocabularies *)

Module ProjectContextOperation.
Inductive ProjectContextOperation : Type :=
| Attach
| Detach.

#[global] Instance ProjectContextOperation_eq_dec : EqDecision ProjectContextOperation.
Proof. solve_decision. Defined.
End ProjectContextOperation.
Abbreviation ProjectContextOperation := ProjectContextOperation.ProjectContextOperation.

(** [ProjectContextOperation::as_str] *)
Definition ProjectContextOperation_as_str (self : ProjectContextOperation) : string :=
  match self with
  | ProjectContextOperation.Attach => "attach"
  | ProjectContextOperation.Detach => "detach"
  end.

Module ProjectContextBindingState.
Inductive ProjectContextBindingState : Type :=
| Active
| Deleted.

#[global] Instance ProjectContextBindingState_eq_dec : EqDecision ProjectContextBindingState.
Proof. solve_decision. Defined.
End ProjectContextBindingState.
Abbreviation ProjectContextBindingState := ProjectContextBindingState.ProjectContextBindingState.

(** [ProjectContextBindingState::as_str] *)
Definition ProjectContextBindingState_as_str (self : ProjectContextBindingState) : string :=
  match self with
  | ProjectContextBindingState.Active => "active"
  | ProjectContextBindingState.Deleted => "deleted"
  end.

(** ** Edges *)

Section edge.
Context `{P : Platform}.

Record ProjectContextEdge : Type := {
  key : EdgeKey;
  coordinates : list ProjectContextCoordinate;
  context_document_ids : list Uuid;
}.

#[global] Instance ProjectContextEdge_eq_dec : EqDecision ProjectContextEdge.
Proof. solve_decision. Defined.

(** [ProjectContextEdge::validate] *)
Definition ProjectContextEdge_validate (self : ProjectContextEdge) (project_id : Uuid)
    : ProjectContextResult unit :=
  validate_canonical_coordinates self.(coordinates) ?;
  for_each (λ coordinate, ProjectContextCoordinate_validate_for_project coordinate project_id)
    self.(coordinates) ?;
  let? derived := EdgeKey_derive project_id self.(coordinates) in
  reject_if (negb (bool_decide (self.(key) = derived)))
    (ProjectContextError.InvalidCanonicalState
       (lit "edge key does not match project and coordinates")) ?;
  reject_if (is_empty self.(context_document_ids))
    (ProjectContextError.InvalidCanonicalState
       (lit "an active edge must contain at least one Context Document")) ?;
  for_each validate_document_id self.(context_document_ids) ?;
  reject_if
    (windows2_any
       (λ a b, match slice_cmp (Uuid_as_bytes a) (Uuid_as_bytes b) with Lt => false | _ => true end)
       self.(context_document_ids))
    (ProjectContextError.InvalidCanonicalState
       (lit "edge Context Document ids must be strictly sorted")) ?;
  Ok tt.

(** [ProjectContextEdge::from_snapshot] *)
Definition ProjectContextEdge_from_snapshot (project_id : Uuid)
    (coordinates : list ProjectContextCoordinate) (context_document_ids : list Uuid)
    : ProjectContextResult ProjectContextEdge :=
  let? key := EdgeKey_derive project_id coordinates in
  let edge := {|
    key := key;
    coordinates := coordinates;
    context_document_ids := context_document_ids;
  |} in
  ProjectContextEdge_validate edge project_id ?;
  Ok edge.

End edge.

(** ** The catalog *)

Section catalog.
Context `{P : Platform}.

Record ProjectContextCatalog : Type := {
  project_id : Uuid;
  context_revision : N;
  active_edge_count : N;
  bound_document_count : N;
  projection_generation : N;
  initialized_at : DateTime;
  updated_at : DateTime;
}.

#[global] Instance ProjectContextCatalog_eq_dec : EqDecision ProjectContextCatalog.
Proof. solve_decision. Defined.

(** The error that [invalid_catalog] returns. *)
Definition invalid_catalog (reason : string) : ProjectContextError :=
  ProjectContextError.InvalidCanonicalState (lit reason).

(** [ProjectContextCatalog::validate] *)
Definition ProjectContextCatalog_validate (self : ProjectContextCatalog)
    : ProjectContextResult unit :=
  validate_uuid_v4 self.(project_id) "project_id" ?;
  validate_nonnegative self.(context_revision) "context_revision" ?;
  validate_nonnegative self.(active_edge_count) "active_edge_count" ?;
  validate_nonnegative self.(bound_document_count) "bound_document_count" ?;
  validate_positive self.(projection_generation) "projection_generation" ?;
  reject_if (self.(updated_at) <? self.(initialized_at))%Z
    (invalid_catalog "updated_at precedes initialized_at") ?;
  reject_if
    ((self.(context_revision) =? 0)%N
     && (negb (self.(active_edge_count) =? 0)%N || negb (self.(bound_document_count) =? 0)%N
         || negb (self.(updated_at) =? self.(initialized_at))%Z))
    (invalid_catalog "revision zero is reserved for the untouched empty catalog") ?;
  reject_if (self.(bound_document_count) <? self.(active_edge_count))%N
    (invalid_catalog "active_edge_count exceeds bound_document_count") ?;
  reject_if
    (negb (Bool.eqb (self.(active_edge_count) =? 0)%N (self.(bound_document_count) =? 0)%N))
    (invalid_catalog "edge and binding emptiness must agree") ?;
  Ok tt.

(** [ProjectContextCatalog::from_snapshot] *)
Definition ProjectContextCatalog_from_snapshot (project_id : Uuid)
    (context_revision active_edge_count bound_document_count projection_generation : N)
    (initialized_at updated_at : DateTime) : ProjectContextResult ProjectContextCatalog :=
  let catalog := {|
    project_id := project_id;
    context_revision := context_revision;
    active_edge_count := active_edge_count;
    bound_document_count := bound_document_count;
    projection_generation := projection_generation;
    initialized_at := initialized_at;
    updated_at := updated_at;
  |} in
  ProjectContextCatalog_validate catalog ?;
  Ok catalog.

(** [ProjectContextCatalog::empty] *)
Definition ProjectContextCatalog_empty (project_id : Uuid) (projection_generation : N)
    (initialized_at : DateTime) : ProjectContextResult ProjectContextCatalog :=
  ProjectContextCatalog_from_snapshot project_id 0 0 0 projection_generation initialized_at
    initialized_at.

Definition checked_next (value : N) : ProjectContextResult N :=
  ok_or (option_filter (λ next, next <=? MAX_SAFE_REVISION)%N (u64_checked_add value 1))
    ProjectContextError.RevisionExhausted.

End catalog.

(** ** Bindings *)

Section binding.
Context `{P : Platform}.

Record ProjectContextBinding : Type := {
  binding_edge_key : EdgeKey;
  binding_coordinates : list ProjectContextCoordinate;
  binding_context_document_id : Uuid;
  binding_state : ProjectContextBindingState;
  binding_context_revision : N;
  binding_updated_at : DateTime;
}.

#[global] Instance ProjectContextBinding_eq_dec : EqDecision ProjectContextBinding.
Proof. solve_decision. Defined.

(** [ProjectContextBinding::validate] *)
Definition ProjectContextBinding_validate (self : ProjectContextBinding) (project_id : Uuid)
    : ProjectContextResult unit :=
  validate_canonical_coordinates self.(binding_coordinates) ?;
  for_each (λ coordinate, ProjectContextCoordinate_validate_for_project coordinate project_id)
    self.(binding_coordinates) ?;
  validate_document_id self.(binding_context_document_id) ?;
  validate_positive self.(binding_context_revision) "context_revision" ?;
  let? derived := EdgeKey_derive project_id self.(binding_coordinates) in
  reject_if (negb (bool_decide (self.(binding_edge_key) = derived)))
    (ProjectContextError.InvalidCanonicalState
       (lit "binding edge key does not match coordinates")) ?;
  Ok tt.

End binding.

(** * Project Context: member-signed commands

    Models [buzz-project-context/src/command.rs]. *)


Module ProjectContextCommandRequest.
Section project_context_command_request.
Context `{P : Platform}.

Inductive ProjectContextCommandRequest : Type :=
| Attach (coordinates : list ProjectContextCoordinate) (context_document_id : Uuid)
| Detach (coordinates : list ProjectContextCoordinate) (context_document_id : Uuid).

#[global] Instance ProjectContextCommandRequest_eq_dec : EqDecision ProjectContextCommandRequest.
Proof. solve_decision. Defined.

End project_context_command_request.
End ProjectContextCommandRequest.
Abbreviation ProjectContextCommandRequest :=
  ProjectContextCommandRequest.ProjectContextCommandRequest.

Section request_methods.
Context `{P : Platform}.

(** [ProjectContextCommandRequest::operation] *)
Definition ProjectContextCommandRequest_operation (self : ProjectContextCommandRequest)
    : ProjectContextOperation :=
  match self with
  | ProjectContextCommandRequest.Attach _ _ => ProjectContextOperation.Attach
  | ProjectContextCommandRequest.Detach _ _ => ProjectContextOperation.Detach
  end.

(** [ProjectContextCommandRequest::coordinates] *)
Definition ProjectContextCommandRequest_coordinates (self : ProjectContextCommandRequest)
    : list ProjectContextCoordinate :=
  match self with
  | ProjectContextCommandRequest.Attach coordinates _
  | ProjectContextCommandRequest.Detach coordinates _ => coordinates
  end.

(** [ProjectContextCommandRequest::context_document_id] *)
Definition ProjectContextCommandRequest_context_document_id (self : ProjectContextCommandRequest)
    : Uuid :=
  match self with
  | ProjectContextCommandRequest.Attach _ context_document_id
  | ProjectContextCommandRequest.Detach _ context_document_id => context_document_id
  end.

(** [ProjectContextCommandRequest::validate] *)
Definition ProjectContextCommandRequest_validate (self : ProjectContextCommandRequest)
    : ProjectContextResult unit :=
  validate_canonical_coordinates (ProjectContextCommandRequest_coordinates self) ?;
  validate_document_id (ProjectContextCommandRequest_context_document_id self).

End request_methods.

Section command.
Context `{P : Platform}.

Record ProjectContextCommand : Type := {
  schema_version : N;
  expected_context_revision : N;
  acting_assignment_id : option Uuid;
  runtime_fence : option RuntimeFence;
  request : ProjectContextCommandRequest;
}.

#[global] Instance ProjectContextCommand_eq_dec : EqDecision ProjectContextCommand.
Proof. solve_decision. Defined.

(** [ProjectContextCommand::validate_for_submission] *)
Definition ProjectContextCommand_validate_for_submission (self : ProjectContextCommand)
    : ProjectContextResult unit :=
  reject_if (negb (self.(schema_version) =? PROJECT_CONTEXT_SCHEMA_VERSION)%N)
    (ProjectContextError.UnsupportedSchemaVersion self.(schema_version)
       PROJECT_CONTEXT_SCHEMA_VERSION) ?;
  validate_nonnegative self.(expected_context_revision) "expected_context_revision" ?;
  (match self.(acting_assignment_id), self.(runtime_fence) with
   | None, None => Ok tt
   | Some assignment_id, Some runtime_fence =>
       reject_if (Uuid_is_nil assignment_id)
         (ProjectContextError.InvalidRuntimeFence (lit "acting_assignment_id cannot be nil")) ?;
       map_err ProjectContextError.InvalidRuntimeFence (RuntimeFence_validate runtime_fence)
   | _, _ =>
       Err (ProjectContextError.InvalidRuntimeFence
              (lit "acting_assignment_id and runtime_fence must both be omitted or both be present"))
   end) ?;
  ProjectContextCommandRequest_validate self.(request).

(** [ProjectContextCommand::new] *)
Definition ProjectContextCommand_new (expected_context_revision : N)
    (operation : ProjectContextOperation) (coordinates : list ProjectContextCoordinate)
    (context_document_id : Uuid) : ProjectContextResult ProjectContextCommand :=
  let? coordinates := canonicalize_coordinates coordinates in
  let request :=
    match operation with
    | ProjectContextOperation.Attach =>
        ProjectContextCommandRequest.Attach coordinates context_document_id
    | ProjectContextOperation.Detach =>
        ProjectContextCommandRequest.Detach coordinates context_document_id
    end in
  let command := {|
    schema_version := PROJECT_CONTEXT_SCHEMA_VERSION;
    expected_context_revision := expected_context_revision;
    acting_assignment_id := None;
    runtime_fence := None;
    request := request;
  |} in
  ProjectContextCommand_validate_for_submission command ?;
  Ok command.

(** [ProjectContextCommand::with_runtime_fence] *)
Definition ProjectContextCommand_with_runtime_fence (self : ProjectContextCommand)
    (acting_assignment_id : Uuid) (runtime_fence : RuntimeFence) : ProjectContextCommand := {|
  schema_version := self.(schema_version);
  expected_context_revision := self.(expected_context_revision);
  acting_assignment_id := Some acting_assignment_id;
  runtime_fence := Some runtime_fence;
  request := self.(request);
|}.

(** [ProjectContextCommand::from_json], over the [serde_json] parser and the
    derived deserializer of the command. *)
Definition ProjectContextCommand_from_json
    (from_str : Text → result Value Text)
    (from_value : Value → result ProjectContextCommand Text)
    (content : Text) : ProjectContextResult ProjectContextCommand :=
  reject_if (MAX_COMMAND_CONTENT_BYTES <? str_len content)%N
    (ProjectContextError.ContentTooLarge MAX_COMMAND_CONTENT_BYTES (str_len content)) ?;
  let? value := map_err ProjectContextError.InvalidJson (from_str content) in
  let depth := json_depth value in
  reject_if (MAX_COMMAND_JSON_DEPTH <? depth)%N
    (ProjectContextError.JsonTooDeep MAX_COMMAND_JSON_DEPTH depth) ?;
  let? command := map_err ProjectContextError.InvalidJson (from_value value) in
  ProjectContextCommand_validate_for_submission command ?;
  Ok command.

(** [ProjectContextCommand::operation] *)
Definition ProjectContextCommand_operation (self : ProjectContextCommand)
    : ProjectContextOperation :=
  ProjectContextCommandRequest_operation self.(request).

(** [ProjectContextCommand::coordinates] *)
Definition ProjectContextCommand_coordinates (self : ProjectContextCommand)
    : list ProjectContextCoordinate :=
  ProjectContextCommandRequest_coordinates self.(request).

(** [ProjectContextCommand::context_document_id] *)
Definition ProjectContextCommand_context_document_id (self : ProjectContextCommand) : Uuid :=
  ProjectContextCommandRequest_context_document_id self.(request).

(** [ProjectContextCommand::validate_for_project] *)
Definition ProjectContextCommand_validate_for_project (self : ProjectContextCommand)
    (project_id : Uuid) : ProjectContextResult unit :=
  ProjectContextCommand_validate_for_submission self ?;
  for_each (λ coordinate, ProjectContextCoordinate_validate_for_project coordinate project_id)
    (ProjectContextCommand_coordinates self) ?;
  Ok tt.

End command.
