(* ===== verification/ContextProjection.v ===== *)
(** * Project Context: projections, projection plans and receipts

    Models [buzz-project-context/src/projection.rs]. *)

From S2P Require Import Prelude Text Platform ContextCoordinate ContextModel.
From stdpp Require Import prelude strings.

Module ProjectContextProjectionType.
Inductive ProjectContextProjectionType : Type :=
| ContextEdgeBinding
| ContextMeta.

#[global] Instance ProjectContextProjectionType_eq_dec : EqDecision ProjectContextProjectionType.
Proof. solve_decision. Defined.
End ProjectContextProjectionType.
Abbreviation ProjectContextProjectionType :=
  ProjectContextProjectionType.ProjectContextProjectionType.

Section coordinates.
Context `{P : Platform}.

Definition context_binding_coordinate (project_id context_document_id : Uuid) : Text :=
  lit "project-context-edge:" ++ Uuid_display project_id ++ lit ":binding:"
  ++ Uuid_display context_document_id.

Definition context_edge_coordinate (project_id : Uuid) (edge_key : EdgeKey) : Text :=
  lit "project-context-edge:" ++ Uuid_display project_id ++ lit ":" ++ EdgeKey_to_hex edge_key.

Definition context_meta_coordinate (project_id : Uuid) : Text :=
  lit "project-context-edge:" ++ Uuid_display project_id ++ lit ":meta".

(** The error that [invalid_projection] returns. *)
Definition invalid_projection (reason : string) : ProjectContextError :=
  ProjectContextError.InvalidProjection (lit reason).

Definition validate_projection_common (schema_version : N)
    (actual_type expected_type : ProjectContextProjectionType) (project_id : Uuid)
    (projection_generation context_revision : N) : ProjectContextResult unit :=
  reject_if (negb (schema_version =? PROJECT_CONTEXT_SCHEMA_VERSION)%N)
    (ProjectContextError.UnsupportedSchemaVersion schema_version
       PROJECT_CONTEXT_SCHEMA_VERSION) ?;
  reject_if (negb (bool_decide (actual_type = expected_type)))
    (invalid_projection "projection_type does not match event kind") ?;
  validate_uuid_v4 project_id "project_id" ?;
  validate_positive projection_generation "projection_generation" ?;
  validate_nonnegative context_revision "context_revision".

End coordinates.

(** ** Wire projections *)

Section projections.
Context `{P : Platform}.

Record ProjectContextBindingProjection : Type := {
  bp_schema_version : N;
  bp_projection_type : ProjectContextProjectionType;
  bp_project_id : Uuid;
  bp_projection_generation : N;
  bp_context_revision : N;
  bp_edge_key : EdgeKey;
  bp_coordinates : list ProjectContextCoordinate;
  bp_context_document_id : Uuid;
  bp_state : ProjectContextBindingState;
  bp_source_event_id : EventId;
  bp_updated_at : DateTime;
}.

(** [ProjectContextBindingProjection::validate] *)
Definition ProjectContextBindingProjection_validate
    (to_vec : ProjectContextBindingProjection → result (list N) Text)
    (self : ProjectContextBindingProjection) : ProjectContextResult unit :=
  validate_projection_common self.(bp_schema_version) self.(bp_projection_type)
    ProjectContextProjectionType.ContextEdgeBinding self.(bp_project_id)
    self.(bp_projection_generation) self.(bp_context_revision) ?;
  validate_positive self.(bp_context_revision) "context_revision" ?;
  validate_canonical_coordinates self.(bp_coordinates) ?;
  for_each (λ coordinate,
    ProjectContextCoordinate_validate_for_project coordinate self.(bp_project_id))
    self.(bp_coordinates) ?;
  validate_document_id self.(bp_context_document_id) ?;
  let? derived := EdgeKey_derive self.(bp_project_id) self.(bp_coordinates) in
  reject_if (negb (bool_decide (self.(bp_edge_key) = derived)))
    (invalid_projection "edge_key does not match project and coordinates") ?;
  validate_projection_size to_vec self.

(** [ProjectContextBindingProjection::binding_coordinate] *)
Definition ProjectContextBindingProjection_binding_coordinate
    (self : ProjectContextBindingProjection) : Text :=
  context_binding_coordinate self.(bp_project_id) self.(bp_context_document_id).

(** [ProjectContextBindingProjection::edge_coordinate] *)
Definition ProjectContextBindingProjection_edge_coordinate
    (self : ProjectContextBindingProjection) : Text :=
  context_edge_coordinate self.(bp_project_id) self.(bp_edge_key).

Record ChangedContextBinding : Type := {
  changed_context_document_id : Uuid;
  changed_edge_key : EdgeKey;
  changed_binding_coordinate : Text;
  changed_binding_event_id : EventId;
  changed_state : ProjectContextBindingState;
}.

(** [ChangedContextBinding::validate] *)
Definition ChangedContextBinding_validate (self : ChangedContextBinding) (project_id : Uuid)
    : ProjectContextResult unit :=
  validate_document_id self.(changed_context_document_id) ?;
  reject_if
    (negb (bool_decide (self.(changed_binding_coordinate)
       = context_binding_coordinate project_id self.(changed_context_document_id))))
    (invalid_projection "changed binding coordinate is not canonical") ?;
  Ok tt.

Record ProjectContextMetaProjection : Type := {
  meta_schema_version : N;
  meta_projection_type : ProjectContextProjectionType;
  meta_project_id : Uuid;
  meta_projection_generation : N;
  meta_context_revision : N;
  meta_active_edge_count : N;
  meta_bound_document_count : N;
  meta_reset : bool;
  meta_changed_bindings : list ChangedContextBinding;
  meta_source_event_id : option EventId;
  meta_updated_at : DateTime;
}.

(** [ProjectContextMetaProjection::validate] *)
Definition ProjectContextMetaProjection_validate
    (to_vec : ProjectContextMetaProjection → result (list N) Text)
    (self : ProjectContextMetaProjection) : ProjectContextResult unit :=
  validate_projection_common self.(meta_schema_version) self.(meta_projection_type)
    ProjectContextProjectionType.ContextMeta self.(meta_project_id)
    self.(meta_projection_generation) self.(meta_context_revision) ?;
  validate_nonnegative self.(meta_context_revision) "context_revision" ?;
  validate_nonnegative self.(meta_active_edge_count) "active_edge_count" ?;
  validate_nonnegative self.(meta_bound_document_count) "bound_document_count" ?;
  reject_if (self.(meta_bound_document_count) <? self.(meta_active_edge_count))%N
    (invalid_projection "active_edge_count exceeds bound_document_count") ?;
  reject_if
    (negb (Bool.eqb (self.(meta_active_edge_count) =? 0)%N
             (self.(meta_bound_document_count) =? 0)%N))
    (invalid_projection "edge and binding emptiness must agree") ?;
  reject_if
    ((self.(meta_context_revision) =? 0)%N
     && (negb (self.(meta_active_edge_count) =? 0)%N
         || negb (self.(meta_bound_document_count) =? 0)%N))
    (invalid_projection "revision zero must describe an empty catalog") ?;
  (if self.(meta_reset) then
     reject_if
       (negb (is_empty self.(meta_changed_bindings)) || opt_is_some self.(meta_source_event_id))
       (invalid_projection "reset metadata must omit source_event_id and changed bindings")
   else
     validate_positive self.(meta_context_revision) "context_revision" ?;
     match self.(meta_changed_bindings), self.(meta_source_event_id) with
     | [changed], Some _ => ChangedContextBinding_validate changed self.(meta_project_id)
     | _, _ =>
         Err (invalid_projection
                "ordinary metadata requires one changed binding and source_event_id")
     end) ?;
  validate_projection_size to_vec self.

End projections.

(** ** Receipts and projection plans *)

Section plans.
Context `{P : Platform}.

Record ProjectContextReceipt : Type := {
  receipt_schema_version : N;
  receipt_change_id : EventId;
  receipt_actor : PublicKey;
  receipt_acting_assignment_id : option Uuid;
  receipt_operation : ProjectContextOperation;
  receipt_expected_context_revision : N;
  receipt_context_revision : N;
  receipt_edge_key : EdgeKey;
  receipt_edge_state : ProjectContextBindingState;
  receipt_edge_document_count : N;
  receipt_context_document_id : Uuid;
  receipt_accepted_at : DateTime;
}.

#[global] Instance ProjectContextReceipt_eq_dec : EqDecision ProjectContextReceipt.
Proof. solve_decision. Defined.

(** [ProjectContextReceipt::validate] *)
Definition ProjectContextReceipt_validate (self : ProjectContextReceipt)
    : ProjectContextResult unit :=
  reject_if (negb (self.(receipt_schema_version) =? PROJECT_CONTEXT_SCHEMA_VERSION)%N)
    (ProjectContextError.UnsupportedSchemaVersion self.(receipt_schema_version)
       PROJECT_CONTEXT_SCHEMA_VERSION) ?;
  validate_nonnegative self.(receipt_expected_context_revision) "expected_context_revision" ?;
  validate_positive self.(receipt_context_revision) "context_revision" ?;
  reject_if
    (negb (bool_decide (u64_checked_add self.(receipt_expected_context_revision) 1
                        = Some self.(receipt_context_revision))))
    (invalid_projection
       "receipt context_revision must immediately follow expected_context_revision") ?;
  validate_document_id self.(receipt_context_document_id) ?;
  reject_if (is_some_and Uuid_is_nil self.(receipt_acting_assignment_id))
    (invalid_projection "receipt acting_assignment_id cannot be nil") ?;
  validate_nonnegative self.(receipt_edge_document_count) "edge_document_count" ?;
  (match self.(receipt_edge_state) with
   | ProjectContextBindingState.Active =>
       reject_if (self.(receipt_edge_document_count) =? 0)%N
         (invalid_projection "active receipt edge has no Documents")
   | ProjectContextBindingState.Deleted =>
       reject_if (negb (self.(receipt_edge_document_count) =? 0)%N)
         (invalid_projection "deleted receipt edge retains Documents")
   end) ?;
  Ok tt.

Record ProjectContextProjectionPlan : Type := {
  plan_catalog : ProjectContextCatalog;
  plan_binding : option ProjectContextBinding;
  plan_source_event_id : option EventId;
  plan_reset : bool;
}.

#[global] Instance ProjectContextProjectionPlan_eq_dec : EqDecision ProjectContextProjectionPlan.
Proof. solve_decision. Defined.

(** [ProjectContextProjectionPlan::validate] *)
Definition ProjectContextProjectionPlan_validate (self : ProjectContextProjectionPlan)
    : ProjectContextResult unit :=
  ProjectContextCatalog_validate self.(plan_catalog) ?;
  match self.(plan_reset), self.(plan_binding), self.(plan_source_event_id) with
  | true, None, None => Ok tt
  | false, Some binding, Some _ =>
      ProjectContextBinding_validate binding self.(plan_catalog).(project_id) ?;
      reject_if
        (negb (binding.(binding_context_revision) =? self.(plan_catalog).(context_revision))%N
         || negb (binding.(binding_updated_at) =? self.(plan_catalog).(updated_at))%Z)
        (invalid_projection "binding and catalog observations disagree") ?;
      Ok tt
  | _, _, _ => Err (invalid_projection "projection plan has a mixed reset/ordinary shape")
  end.

(** [ProjectContextProjectionPlan::for_transition] *)
Definition ProjectContextProjectionPlan_for_transition (catalog : ProjectContextCatalog)
    (binding : ProjectContextBinding) (source_event_id : EventId)
    : ProjectContextResult ProjectContextProjectionPlan :=
  let plan := {|
    plan_catalog := catalog;
    plan_binding := Some binding;
    plan_source_event_id := Some source_event_id;
    plan_reset := false;
  |} in
  ProjectContextProjectionPlan_validate plan ?;
  Ok plan.

(** [ProjectContextProjectionPlan::for_reset] *)
Definition ProjectContextProjectionPlan_for_reset (catalog : ProjectContextCatalog)
    : ProjectContextResult ProjectContextProjectionPlan :=
  let plan := {|
    plan_catalog := catalog;
    plan_binding := None;
    plan_source_event_id := None;
    plan_reset := true;
  |} in
  ProjectContextProjectionPlan_validate plan ?;
  Ok plan.

End plans.
