(* ===== verification/ContextReducer.v ===== *)
(** * Project Context: the attach and detach reducer

    Models [buzz-project-context/src/reducer.rs]. *)

From S2P Require Import Prelude Text Platform ContextCoordinate ContextModel.
From S2P Require Import ContextProjection.
From stdpp Require Import prelude strings.

Section reducer.
Context `{P : Platform}.

Record ProjectContextChangeContext : Type := {
  actor : PublicKey;
  change_id : EventId;
  canonical_at : DateTime;
  all_coordinates_active : bool;
  context_document_active : bool;
}.

(** [ProjectContextChangeContext::active] *)
Definition ProjectContextChangeContext_active (actor : PublicKey) (change_id : EventId)
    (canonical_at : DateTime) : ProjectContextChangeContext := {|
  actor := actor;
  change_id := change_id;
  canonical_at := canonical_at;
  all_coordinates_active := true;
  context_document_active := true;
|}.

(** [ProjectContextChangeContext::with_coordinates_active] *)
Definition ProjectContextChangeContext_with_coordinates_active
    (self : ProjectContextChangeContext) (active : bool) : ProjectContextChangeContext := {|
  actor := self.(actor);
  change_id := self.(change_id);
  canonical_at := self.(canonical_at);
  all_coordinates_active := active;
  context_document_active := self.(context_document_active);
|}.

(** [ProjectContextChangeContext::with_context_document_active] *)
Definition ProjectContextChangeContext_with_context_document_active
    (self : ProjectContextChangeContext) (active : bool) : ProjectContextChangeContext := {|
  actor := self.(actor);
  change_id := self.(change_id);
  canonical_at := self.(canonical_at);
  all_coordinates_active := self.(all_coordinates_active);
  context_document_active := active;
|}.

Record ProjectContextTransition : Type := {
  transition_catalog : ProjectContextCatalog;
  transition_edge : option ProjectContextEdge;
  transition_binding : ProjectContextBinding;
  transition_receipt : ProjectContextReceipt;
  transition_projection_plan : ProjectContextProjectionPlan;
}.

(** The error that [invalid_state] returns. *)
Definition invalid_state (reason : string) : ProjectContextError :=
  ProjectContextError.InvalidCanonicalState (lit reason).

(** [edge.as_ref().map_or(0, |edge| edge.context_document_ids().len() as u64)] *)
Definition edge_document_count_of (edge : option ProjectContextEdge) : N :=
  match edge with
  | Some edge => len edge.(context_document_ids)
  | None => 0
  end.

(** [if edge.is_some() { Active } else { Deleted }] *)
Definition edge_state_of (edge : option ProjectContextEdge) : ProjectContextBindingState :=
  if opt_is_some edge
  then ProjectContextBindingState.Active
  else ProjectContextBindingState.Deleted.

(** [ProjectContextTransition::validate] *)
Definition ProjectContextTransition_validate (self : ProjectContextTransition)
    : ProjectContextResult unit :=
  let project := self.(transition_catalog).(project_id) in
  ProjectContextCatalog_validate self.(transition_catalog) ?;
  ProjectContextBinding_validate self.(transition_binding) project ?;
  (match self.(transition_edge) with
   | Some edge =>
       ProjectContextEdge_validate edge project ?;
       reject_if
         (negb (bool_decide (edge.(key) = self.(transition_binding).(binding_edge_key))))
         (invalid_state "updated edge and binding use different keys")
   | None => Ok tt
   end) ?;
  ProjectContextReceipt_validate self.(transition_receipt) ?;
  ProjectContextProjectionPlan_validate self.(transition_projection_plan) ?;
  let edge_document_count := edge_document_count_of self.(transition_edge) in
  let edge_state := edge_state_of self.(transition_edge) in
  reject_if
    (negb (self.(transition_receipt).(receipt_context_revision)
           =? self.(transition_catalog).(context_revision))%N
     || negb (bool_decide (self.(transition_receipt).(receipt_edge_key)
                           = self.(transition_binding).(binding_edge_key)))
     || negb (bool_decide (self.(transition_receipt).(receipt_context_document_id)
                           = self.(transition_binding).(binding_context_document_id)))
     || negb (self.(transition_receipt).(receipt_edge_document_count) =? edge_document_count)%N
     || negb (bool_decide (self.(transition_receipt).(receipt_edge_state) = edge_state))
     || negb (self.(transition_receipt).(receipt_accepted_at)
              =? self.(transition_catalog).(updated_at))%Z
     || negb (bool_decide (self.(transition_projection_plan).(plan_catalog)
                           = self.(transition_catalog)))
     || negb (bool_decide (self.(transition_projection_plan).(plan_binding)
                           = Some self.(transition_binding)))
     || negb (bool_decide (self.(transition_projection_plan).(plan_source_event_id)
                           = Some self.(transition_receipt).(receipt_change_id)))
     || self.(transition_projection_plan).(plan_reset))
    (invalid_state "transition receipt, state, and projection plan disagree") ?;
  Ok tt.

(** [current_edge.context_document_ids().contains(&document_id)] *)
Definition contains_document (edge : ProjectContextEdge) (document_id : Uuid) : bool :=
  existsb (λ id, bool_decide (id = document_id)) edge.(context_document_ids).

(** The match of [reduce_project_context] on the operation: the updated edge,
    the binding state and the two counters. *)
Definition reduce_operation (catalog : ProjectContextCatalog)
    (current_edge : option ProjectContextEdge) (active_document_edge : option EdgeKey)
    (command : ProjectContextCommand) (context : ProjectContextChangeContext)
    (edge_key : EdgeKey)
    : ProjectContextResult (option ProjectContextEdge * ProjectContextBindingState * N * N) :=
  let document_id := ProjectContextCommand_context_document_id command in
  match ProjectContextCommand_operation command with
  | ProjectContextOperation.Attach =>
      reject_if (negb context.(all_coordinates_active)) ProjectContextError.InactiveCoordinate ?;
      reject_if (negb context.(context_document_active))
        (ProjectContextError.InactiveContextDocument document_id) ?;
      (match active_document_edge with
       | Some existing_key =>
           if bool_decide (existing_key = edge_key) then
             reject_if (is_some_and (λ edge, contains_document edge document_id) current_edge)
               ProjectContextError.NoChange ?;
             Err (invalid_state "active Document binding is absent from its active edge")
           else Err (ProjectContextError.DocumentAlreadyBound document_id existing_key)
       | None => Ok tt
       end) ?;
      let document_ids :=
        match current_edge with
        | Some edge => edge.(context_document_ids)
        | None => []
        end in
      let document_ids := document_ids ++ [document_id] in
      let document_ids := sort_by Uuid_cmp document_ids in
      let? edge :=
        ProjectContextEdge_from_snapshot catalog.(project_id)
          (ProjectContextCommand_coordinates command) document_ids in
      let? active_edge_count :=
        if opt_is_some current_edge then Ok catalog.(active_edge_count)
        else checked_next catalog.(active_edge_count) in
      let? bound_document_count := checked_next catalog.(bound_document_count) in
      Ok (Some edge, ProjectContextBindingState.Active, active_edge_count, bound_document_count)
  | ProjectContextOperation.Detach =>
      let? existing_key :=
        ok_or active_document_edge (ProjectContextError.BindingNotFound document_id) in
      reject_if (negb (bool_decide (existing_key = edge_key)))
        (ProjectContextError.BindingEdgeMismatch document_id existing_key) ?;
      let? current_edge :=
        ok_or current_edge (invalid_state "active Document binding has no active edge") in
      reject_if (negb (contains_document current_edge document_id))
        (invalid_state "active edge does not contain the bound Document") ?;
      let document_ids := filter (λ id, id ≠ document_id) current_edge.(context_document_ids) in
      let? edge :=
        if is_empty document_ids then Ok None
        else
          let? edge :=
            ProjectContextEdge_from_snapshot catalog.(project_id)
              (ProjectContextCommand_coordinates command) document_ids in
          Ok (Some edge) in
      let? active_edge_count :=
        if opt_is_some edge then Ok catalog.(active_edge_count)
        else
          ok_or (u64_checked_sub catalog.(active_edge_count) 1)
            (ProjectContextError.InvalidCanonicalState
               (lit "cannot remove the last binding from an empty catalog")) in
      let? bound_document_count :=
        ok_or (u64_checked_sub catalog.(bound_document_count) 1)
          (ProjectContextError.InvalidCanonicalState
             (lit "cannot detach from a catalog with no bound Documents")) in
      Ok (edge, ProjectContextBindingState.Deleted, active_edge_count, bound_document_count)
  end.

Definition reduce_project_context (catalog : ProjectContextCatalog)
    (current_edge : option ProjectContextEdge) (active_document_edge : option EdgeKey)
    (command : ProjectContextCommand) (context : ProjectContextChangeContext)
    : ProjectContextResult ProjectContextTransition :=
  ProjectContextCatalog_validate catalog ?;
  ProjectContextCommand_validate_for_project command catalog.(project_id) ?;
  reject_if (negb (command.(expected_context_revision) =? catalog.(context_revision))%N)
    (ProjectContextError.RevisionConflict command.(expected_context_revision)
       catalog.(context_revision)) ?;
  reject_if (context.(canonical_at) <=? catalog.(updated_at))%Z
    (invalid_state "canonical transition time must increase past catalog updated_at") ?;
  let? edge_key :=
    EdgeKey_derive catalog.(project_id) (ProjectContextCommand_coordinates command) in
  (match current_edge with
   | Some edge =>
       ProjectContextEdge_validate edge catalog.(project_id) ?;
       reject_if
         (negb (bool_decide (edge.(key) = edge_key))
          || negb (bool_decide (edge.(coordinates) = ProjectContextCommand_coordinates command)))
         (invalid_state
            "loaded active edge key or canonical coordinates do not match the command")
   | None => Ok tt
   end) ?;
  let? next_revision := checked_next catalog.(context_revision) in
  let document_id := ProjectContextCommand_context_document_id command in
  let? (edge, binding_state, active_edge_count, bound_document_count) :=
    reduce_operation catalog current_edge active_document_edge command context edge_key in
  let? catalog :=
    ProjectContextCatalog_from_snapshot catalog.(project_id) next_revision active_edge_count
      bound_document_count catalog.(projection_generation) catalog.(initialized_at)
      context.(canonical_at) in
  let binding := {|
    binding_edge_key := edge_key;
    binding_coordinates := ProjectContextCommand_coordinates command;
    binding_context_document_id := document_id;
    ContextModel.binding_state := binding_state;
    binding_context_revision := next_revision;
    binding_updated_at := context.(canonical_at);
  |} in
  ProjectContextBinding_validate binding catalog.(project_id) ?;
  let edge_document_count := edge_document_count_of edge in
  let receipt := {|
    receipt_schema_version := PROJECT_CONTEXT_SCHEMA_VERSION;
    receipt_change_id := context.(change_id);
    receipt_actor := context.(actor);
    receipt_acting_assignment_id := command.(acting_assignment_id);
    receipt_operation := ProjectContextCommand_operation command;
    receipt_expected_context_revision := command.(expected_context_revision);
    receipt_context_revision := next_revision;
    receipt_edge_key := edge_key;
    receipt_edge_state := edge_state_of edge;
    receipt_edge_document_count := edge_document_count;
    receipt_context_document_id := document_id;
    receipt_accepted_at := context.(canonical_at);
  |} in
  let? projection_plan :=
    ProjectContextProjectionPlan_for_transition catalog binding context.(change_id) in
  let transition := {|
    transition_catalog := catalog;
    transition_edge := edge;
    transition_binding := binding;
    transition_receipt := receipt;
    transition_projection_plan := projection_plan;
  |} in
  ProjectContextTransition_validate transition ?;
  Ok transition.

End reducer.
