(* ===== verification/ContextFacts.v ===== *)
(** * Project Context: what its validators decide

    The coordinate order is a total order, and is the lexicographic order of
    the identity bytes; canonicalisation is sorting of a duplicate-free set;
    each validator is characterised by the proposition it decides. *)

From S2P Require Import Prelude Text Platform ContextCoordinate.
From S2P Require Import ContextModel ContextProjection.
From stdpp Require Import prelude strings.

Section order.
Context `{P : Platform}.

Definition identity_bytes (c : ProjectContextCoordinate) : list N := append_identity_bytes c [].

Lemma object_type_rank_inj a b : object_type_rank a = object_type_rank b → a = b.
Proof. destruct a, b; naive_solver. Qed.

Lemma then_with_slice a b x y :
  then_with (N.compare a b) (slice_cmp x y) = slice_cmp (a :: x) (b :: y).
Proof. simpl. by destruct (N.compare a b). Qed.

(** The order on coordinates is the byte order of their identities. *)
Lemma coordinate_cmp_bytes a b :
  ProjectContextCoordinate_cmp a b = slice_cmp (identity_bytes a) (identity_bytes b).
Proof. by destruct a, b; unfold ProjectContextCoordinate_cmp; simpl; rewrite ?then_with_slice. Qed.

Context `{HU : !UuidLaws}.

Lemma identity_bytes_inj a b : identity_bytes a = identity_bytes b → a = b.
Proof.
  unfold identity_bytes. destruct a as [ta ia|ia|ia], b as [tb ib|ib|ib]; simpl; try done;
    intros [=]; f_equal; auto using object_type_rank_inj, Uuid_as_bytes_inj.
Qed.

#[export] Instance coordinate_cmp_total : TotalCmp ProjectContextCoordinate_cmp.
Proof.
  split; intros a b; rewrite !coordinate_cmp_bytes.
  - rewrite (cmp_eq slice_cmp). split; [apply identity_bytes_inj|by intros ->].
  - apply (cmp_sym slice_cmp).
  - intros c. rewrite !coordinate_cmp_bytes. apply (cmp_lt_trans slice_cmp).
Qed.

(** Identities are self-delimiting: a concatenation of them determines the
    sequence of coordinates. *)
Lemma identity_bytes_app a b x y :
  identity_bytes a ++ x = identity_bytes b ++ y → a = b ∧ x = y.
Proof.
  intros H.
  assert (Hl : length (identity_bytes a) = length (identity_bytes b)).
  { destruct a, b; simpl in *; try discriminate H; by rewrite !Uuid_as_bytes_length. }
  apply app_inj_1 in H as [H ->]; [|done]. split; [by apply identity_bytes_inj|done].
Qed.

Lemma identity_concat_inj xs ys :
  concat (identity_bytes <$> xs) = concat (identity_bytes <$> ys) → xs = ys.
Proof.
  revert ys. induction xs as [|x xs IH]; intros [|y ys]; simpl; intros H.
  - done.
  - by destruct y.
  - by destruct x.
  - apply identity_bytes_app in H as [-> H]. f_equal. by apply IH.
Qed.

End order.

Section facts.
Context `{P : Platform}.

(** ** Specifications *)

Definition is_positive (n : N) : Prop := (1 ≤ n ≤ MAX_SAFE_REVISION)%N.

Definition coordinate_id (c : ProjectContextCoordinate) : Uuid :=
  match c with
  | ProjectContextCoordinate.ProjectViewObject _ id
  | ProjectContextCoordinate.Document id
  | ProjectContextCoordinate.Meeting id => id
  end.

(** A coordinate names a v4 UUID. *)
Definition coordinate_v4 (c : ProjectContextCoordinate) : Prop :=
  not_uuid_v4 (coordinate_id c) = false.

(** A Project Profile coordinate can only name the project itself. *)
Definition coordinate_in (project : Uuid) (c : ProjectContextCoordinate) : Prop :=
  coordinate_v4 c ∧
  ∀ id, c = ProjectContextCoordinate.ProjectViewObject ProjectViewObjectType.ProjectProfile id →
    id = project.

Record coordinates_canonical (cs : list ProjectContextCoordinate) : Prop := {
  canonical_size : 2 ≤ length cs;
  canonical_v4 : Forall coordinate_v4 cs;
  canonical_sorted : StrictlySorted ProjectContextCoordinate_cmp cs;
}.

Definition edge_preimage (project : Uuid) (cs : list ProjectContextCoordinate) : list N :=
  EDGE_KEY_DOMAIN ++ Uuid_as_bytes project ++ u32_to_be_bytes (len cs)
  ++ concat (identity_bytes <$> cs).

Definition edge_key_of (project : Uuid) (cs : list ProjectContextCoordinate) : EdgeKey :=
  {| edge_key_bytes := sha256 (edge_preimage project cs) |}.

Definition u32_max : N := 4294967295%N.

Record edge_valid (project : Uuid) (e : ProjectContextEdge) : Prop := {
  edge_valid_project : not_uuid_v4 project = false;
  edge_valid_coordinates : coordinates_canonical e.(coordinates);
  edge_valid_size : (len e.(coordinates) ≤ u32_max)%N;
  edge_valid_in : Forall (coordinate_in project) e.(coordinates);
  edge_valid_key : e.(key) = edge_key_of project e.(coordinates);
  edge_valid_nonempty : e.(context_document_ids) ≠ [];
  edge_valid_ids : Forall (λ id, not_uuid_v4 id = false) e.(context_document_ids);
  edge_valid_sorted : StrictlySorted Uuid_cmp e.(context_document_ids);
}.

Record ctx_catalog_valid (c : ProjectContextCatalog) : Prop := {
  ctx_valid_project : not_uuid_v4 c.(project_id) = false;
  ctx_valid_revision : (c.(context_revision) ≤ MAX_SAFE_REVISION)%N;
  ctx_valid_bound : (c.(bound_document_count) ≤ MAX_SAFE_REVISION)%N;
  ctx_valid_generation : is_positive c.(projection_generation);
  ctx_valid_time : (c.(initialized_at) ≤ c.(updated_at))%Z;
  ctx_valid_zero : c.(context_revision) = 0%N →
    c.(bound_document_count) = 0%N ∧ c.(updated_at) = c.(initialized_at);
  ctx_valid_counts : (c.(active_edge_count) ≤ c.(bound_document_count))%N;
  ctx_valid_empty : c.(active_edge_count) = 0%N → c.(bound_document_count) = 0%N;
}.

(** ** Validators decide their specifications *)

Lemma validate_uuid_v4_Ok id field u : validate_uuid_v4 id field = Ok u ↔ not_uuid_v4 id = false.
Proof. unfold validate_uuid_v4. destruct u, (not_uuid_v4 id); naive_solver. Qed.

Lemma ctx_document_id_Ok id u : validate_document_id id = Ok u ↔ not_uuid_v4 id = false.
Proof. unfold validate_document_id. destruct u, (not_uuid_v4 id); naive_solver. Qed.

Lemma validate_positive_Ok v f u : validate_positive v f = Ok u ↔ is_positive v.
Proof.
  unfold validate_positive, is_positive. rewrite rbind_Ok. destruct u. split.
  - intros ([] & H & _). ok_inv. bool_props. lia.
  - intros H. exists tt. split; [|done]. apply reject_if_Ok.
    rewrite negb_false_iff, andb_true_iff, !N.leb_le. lia.
Qed.

Lemma validate_nonnegative_Ok v f u :
  validate_nonnegative v f = Ok u ↔ (v ≤ MAX_SAFE_REVISION)%N.
Proof.
  unfold validate_nonnegative. rewrite rbind_Ok. destruct u. split.
  - intros ([] & H & _). ok_inv. by bool_props.
  - intros H. exists tt. split; [|done]. by apply reject_if_Ok, N.ltb_ge.
Qed.

Lemma coordinate_validate_Ok c u :
  ProjectContextCoordinate_validate c = Ok u ↔ coordinate_v4 c.
Proof. destruct c; apply validate_uuid_v4_Ok. Qed.

Lemma coordinate_validate_for_project_Ok c project u :
  ProjectContextCoordinate_validate_for_project c project = Ok u ↔ coordinate_in project c.
Proof.
  unfold ProjectContextCoordinate_validate_for_project, coordinate_in.
  rewrite rbind_Ok, <- (coordinate_validate_Ok c tt). destruct u. split.
  - intros ([] & Hv & H). split; [done|]. intros id ->. ok_inv. by bool_props.
  - intros [Hv Hp]. exists tt. split; [done|].
    destruct c as [[] id|id|id]; try done. by rewrite (Hp id eq_refl), bool_decide_true.
Qed.

Lemma checked_next_Ok n m :
  checked_next n = Ok m ↔ m = (n + 1)%N ∧ (n < MAX_SAFE_REVISION)%N.
Proof.
  unfold checked_next. rewrite ok_or_Ok, option_filter_Some, u64_checked_add_Some, N.leb_le.
  unfold MAX_SAFE_REVISION, u64_max. lia.
Qed.

Lemma checked_next_room n : (n < MAX_SAFE_REVISION)%N → checked_next n = Ok (n + 1)%N.
Proof. intros Hn. by apply checked_next_Ok. Qed.

Lemma ctx_catalog_validate_Ok c u :
  ProjectContextCatalog_validate c = Ok u ↔ ctx_catalog_valid c.
Proof.
  unfold ProjectContextCatalog_validate. destruct u. split.
  - intros H. apply rbind_Ok in H as ([] & Hp%validate_uuid_v4_Ok & H).
    apply rbind_Ok in H as ([] & Hr%validate_nonnegative_Ok & H).
    apply rbind_Ok in H as ([] & _ & H).
    apply rbind_Ok in H as ([] & Hb%validate_nonnegative_Ok & H).
    apply rbind_Ok in H as ([] & Hg%validate_positive_Ok & H).
    apply rbind_Ok in H as ([] & Ht%reject_if_Ok & H).
    apply rbind_Ok in H as ([] & Hz%reject_if_Ok & H).
    apply rbind_Ok in H as ([] & Hc%reject_if_Ok & H).
    apply rbind_Ok in H as ([] & He%reject_if_Ok & _).
    bool_props. apply eqb_prop in He. split; try done.
    + intros E. rewrite E in Hz. simpl in Hz. by bool_props.
    + intros E. rewrite E in He. symmetry in He. by apply N.eqb_eq.
  - intros [Hp Hr Hb Hg Ht Hz Hc He].
    rewrite (proj2 (validate_uuid_v4_Ok _ _ tt) Hp). simpl.
    rewrite (proj2 (validate_nonnegative_Ok _ _ tt) Hr). simpl.
    rewrite (proj2 (validate_nonnegative_Ok (active_edge_count c) _ tt)) by lia. simpl.
    rewrite (proj2 (validate_nonnegative_Ok _ _ tt) Hb). simpl.
    rewrite (proj2 (validate_positive_Ok _ _ tt) Hg). simpl.
    rewrite (proj2 (Z.ltb_ge _ _) Ht), (proj2 (N.ltb_ge _ _) Hc). simpl.
    assert (Hq : Bool.eqb (active_edge_count c =? 0)%N (bound_document_count c =? 0)%N = true).
    { destruct (N.eqb_spec (active_edge_count c) 0) as [E|E].
      - by rewrite (He E).
      - by rewrite (proj2 (N.eqb_neq _ _)) by lia. }
    rewrite Hq. destruct (N.eqb_spec (context_revision c) 0) as [E|E]; simpl; [|done].
    destruct (Hz E) as [Hb0 Hu]. rewrite Hb0, Hu, Z.eqb_refl.
    by rewrite (proj2 (N.eqb_eq _ _)) by lia.
Qed.

End facts.

(** ** Canonical coordinate sets and edge keys *)

Section canonical.
Context `{P : Platform} `{HU : !UuidLaws}.

Lemma canonicalize_Ok cs cs' :
  canonicalize_coordinates cs = Ok cs' ↔
  cs' = sort_by ProjectContextCoordinate_cmp cs
  ∧ 2 ≤ length cs ∧ Forall coordinate_v4 cs ∧ NoDup cs.
Proof.
  unfold canonicalize_coordinates.
  rewrite <- (windows2_any_eq_sort ProjectContextCoordinate_cmp cs).
  assert (Hlen : (len cs <? MIN_EDGE_COORDINATES)%N = false ↔ 2 ≤ length cs).
  { rewrite N.ltb_ge. unfold len, MIN_EDGE_COORDINATES. lia. }
  rewrite <- Hlen.
  assert (Hv : for_each ProjectContextCoordinate_validate cs = Ok tt ↔ Forall coordinate_v4 cs).
  { rewrite for_each_Ok. apply Forall_iff. intros c. apply coordinate_validate_Ok. }
  rewrite <- Hv. split.
  - intros H. ok_inv. by subst.
  - intros (-> & -> & -> & ->). done.
Qed.

Lemma validate_canonical_coordinates_Ok cs u :
  validate_canonical_coordinates cs = Ok u ↔ coordinates_canonical cs.
Proof.
  unfold validate_canonical_coordinates. rewrite rbind_Ok. destruct u. split.
  - intros (cs' & (-> & Hl & Hv & Hd)%canonicalize_Ok & H).
    apply rbind_Ok in H as ([] & He%reject_if_Ok & _). bool_props.
    split; [done..|]. pose proof (sort_by_sorted ProjectContextCoordinate_cmp cs Hd) as Hs.
    by rewrite He in Hs.
  - intros [Hl Hv Hs]. exists cs. split.
    + apply canonicalize_Ok. rewrite (sort_by_id ProjectContextCoordinate_cmp cs Hs).
      split_and!; try done. by apply (StrictlySorted_NoDup ProjectContextCoordinate_cmp).
    + by rewrite bool_decide_true by done.
Qed.

Lemma canonicalize_canonical cs cs' :
  canonicalize_coordinates cs = Ok cs' → coordinates_canonical cs'.
Proof.
  intros (-> & Hl & Hv & Hd)%canonicalize_Ok. split.
  - by rewrite (sort_by_perm ProjectContextCoordinate_cmp).
  - by rewrite (sort_by_perm ProjectContextCoordinate_cmp).
  - exact (sort_by_sorted ProjectContextCoordinate_cmp cs Hd).
Qed.

Lemma derive_hasher (h : list N) (cs : list ProjectContextCoordinate) :
  foldl (λ hasher coordinate, hasher ++ append_identity_bytes coordinate []) h cs
  = h ++ concat (identity_bytes <$> cs).
Proof.
  revert h. induction cs as [|c cs IH]; intros h; simpl; [by rewrite app_nil_r|].
  by rewrite IH, <- app_assoc.
Qed.

Lemma EdgeKey_derive_Ok project cs k :
  EdgeKey_derive project cs = Ok k ↔
  k = edge_key_of project cs ∧ not_uuid_v4 project = false
  ∧ coordinates_canonical cs ∧ (len cs ≤ u32_max)%N.
Proof.
  unfold EdgeKey_derive.
  rewrite <- (validate_uuid_v4_Ok project "project_id" tt).
  rewrite <- (validate_canonical_coordinates_Ok cs tt).
  assert (Hu : u32_try_from (len cs) = Some (len cs) ↔ (len cs ≤ u32_max)%N).
  { unfold u32_try_from, u32_max. destruct (N.leb_spec (len cs) 4294967295); naive_solver lia. }
  rewrite <- Hu. unfold edge_key_of, edge_preimage. split.
  - intros H. apply rbind_Ok in H as ([] & Hp & H). apply rbind_Ok in H as ([] & Hc & H).
    apply rbind_Ok in H as (n & Hn%ok_or_Ok & H).
    assert (n = len cs) as ->.
    { unfold u32_try_from in Hn. by destruct (len cs <=? 4294967295)%N; simplify_eq. }
    assert (k = {| edge_key_bytes := sha256 (EDGE_KEY_DOMAIN ++ Uuid_as_bytes project ++
      u32_to_be_bytes (len cs) ++ concat (identity_bytes <$> cs)) |}) as ->; [|done].
    rewrite derive_hasher, <- !app_assoc in H. congruence.
  - intros (-> & -> & -> & ->). cbn [rbind ok_or]. by rewrite derive_hasher, <- !app_assoc.
Qed.

Lemma edge_validate_Ok e project u :
  ProjectContextEdge_validate e project = Ok u ↔ edge_valid project e.
Proof.
  unfold ProjectContextEdge_validate. destruct u.
  assert (Hin : for_each (λ c, ProjectContextCoordinate_validate_for_project c project)
      e.(coordinates) = Ok tt ↔ Forall (coordinate_in project) e.(coordinates)).
  { rewrite for_each_Ok. apply Forall_iff. intros c. apply coordinate_validate_for_project_Ok. }
  assert (Hid : for_each validate_document_id e.(context_document_ids) = Ok tt ↔
      Forall (λ id, not_uuid_v4 id = false) e.(context_document_ids)).
  { rewrite for_each_Ok. apply Forall_iff. intros c. apply ctx_document_id_Ok. }
  set (unsorted := λ a b, match slice_cmp (Uuid_as_bytes a) (Uuid_as_bytes b) with
    | Lt => false | _ => true end).
  assert (Hw : windows2_any unsorted e.(context_document_ids) = false ↔
      StrictlySorted Uuid_cmp e.(context_document_ids)).
  { apply windows2_any_sorted; [apply _|]. intros a b. unfold unsorted, Uuid_cmp.
    destruct (slice_cmp _ _); naive_solver. }
  split.
  - intros H. apply rbind_Ok in H as ([] & _ & H). apply rbind_Ok in H as ([] & Hi%Hin & H).
    apply rbind_Ok in H as (k & (-> & Hp & Hc & Hl)%EdgeKey_derive_Ok & H).
    apply rbind_Ok in H as ([] & Hk%reject_if_Ok & H).
    apply rbind_Ok in H as ([] & Hn%reject_if_Ok & H).
    apply rbind_Ok in H as ([] & Hd%Hid & H).
    apply rbind_Ok in H as ([] & Hs%reject_if_Ok%Hw & _).
    bool_props. split; try done. intros E. by rewrite E in Hn.
  - intros [Hp Hc Hl Hi Hk Hn Hd Hs].
    rewrite (proj2 (validate_canonical_coordinates_Ok _ tt) Hc). simpl.
    rewrite (proj2 Hin Hi). simpl.
    rewrite (proj2 (EdgeKey_derive_Ok _ _ (edge_key_of project (coordinates e)))) by done. simpl.
    rewrite bool_decide_true by done. simpl.
    rewrite (proj2 Hid Hd), (proj2 Hw Hs). by destruct (context_document_ids e).
Qed.

Lemma edge_from_snapshot_Ok project cs ids e :
  ProjectContextEdge_from_snapshot project cs ids = Ok e ↔
  e = {| key := edge_key_of project cs; coordinates := cs; context_document_ids := ids |}
  ∧ edge_valid project e.
Proof.
  unfold ProjectContextEdge_from_snapshot. split.
  - intros H. apply rbind_Ok in H as (k & (-> & _)%EdgeKey_derive_Ok & H).
    apply rbind_Ok in H as ([] & Hv%edge_validate_Ok & H). injection H as <-. done.
  - intros [-> Hv]. pose proof Hv as [Hp Hc Hl _ _ _ _ _].
    rewrite (proj2 (EdgeKey_derive_Ok _ _ (edge_key_of project cs))) by done. simpl.
    by rewrite (proj2 (edge_validate_Ok _ _ tt) Hv).
Qed.

(** The hashed preimage determines the project and the coordinate set. *)
Lemma edge_preimage_inj project project' cs cs' :
  edge_preimage project cs = edge_preimage project' cs' → project = project' ∧ cs = cs'.
Proof.
  unfold edge_preimage. intros H. apply app_inv_head in H.
  apply app_inj_1 in H as [Hp H]; [|by rewrite !Uuid_as_bytes_length].
  apply app_inj_1 in H as [_ H]; [|done].
  split; [by apply Uuid_as_bytes_inj|by apply identity_concat_inj].
Qed.

End canonical.

(** ** The hexadecimal form of edge keys *)

Section hex.
Context `{P : Platform} `{HH : !HexLaws}.

Lemma lower_hex_hexdigit c :
  is_lower_hex c = true ↔ is_ascii_hexdigit c = true ∧ is_ascii_uppercase c = false.
Proof.
  unfold is_lower_hex, is_ascii_hexdigit, is_ascii_uppercase.
  destruct (N.leb_spec 48 c), (N.leb_spec c 57), (N.leb_spec 65 c), (N.leb_spec c 70),
    (N.leb_spec 97 c), (N.leb_spec c 102), (N.leb_spec c 90); simpl; naive_solver lia.
Qed.

Lemma from_hex_encode b :
  length b = 32 → Forall (λ x, x < 256)%N b →
  length (hex_encode b) = 64
  ∧ EdgeKey_from_hex (hex_encode b) = Ok {| edge_key_bytes := b |}.
Proof.
  intros Hl Hb. pose proof (hex_encode_lower b) as Hlow.
  assert (Hlen : length (hex_encode b) = 64) by (rewrite hex_encode_length; lia).
  split; [done|]. unfold EdgeKey_from_hex. rewrite (lower_hex_len _ Hlow), Hlen.
  rewrite (proj2 (existsb_false (λ byte, negb (is_ascii_hexdigit byte)) _)).
  2: { eapply Forall_impl; [exact Hlow|]. intros c Hc%lower_hex_hexdigit; simpl.
       by destruct Hc as [-> _]. }
  rewrite (proj2 (existsb_false is_ascii_uppercase _)).
  2: { eapply Forall_impl; [exact Hlow|]. intros c Hc%lower_hex_hexdigit. apply Hc. }
  simpl. rewrite hex_decode_encode by done. simpl. unfold len. by rewrite Hl.
Qed.

Lemma from_hex_to_hex s k : EdgeKey_from_hex s = Ok k → EdgeKey_to_hex k = s.
Proof.
  unfold EdgeKey_from_hex. intros H.
  apply rbind_Ok in H as ([] & Hd%reject_if_Ok & H).
  apply rbind_Ok in H as ([] & Hu%reject_if_Ok & H).
  apply rbind_Ok in H as (b & Hb%map_err_Ok & H).
  apply rbind_Ok in H as ([] & _ & H). injection H as <-.
  apply orb_false_iff in Hd as [_ Hd]. apply existsb_false in Hd, Hu.
  apply hex_encode_decode; [|done]. rewrite Forall_forall in *. intros c Hc.
  apply lower_hex_hexdigit. specialize (Hd c Hc). specialize (Hu c Hc). by bool_props.
Qed.

End hex.
