(* ===== verification/ContextSpec.v ===== *)
(** * Project Context: the reducer meets its specification

    [reduce_project_context] accepts a command exactly when [ctx_accepts]
    holds, and then returns [ctx_next]. *)

From S2P Require Import Prelude Text Platform ContextCoordinate.
From S2P Require Import ContextModel ContextProjection ContextReducer.
From S2P Require Import ContextFacts.
From stdpp Require Import prelude strings.

Section spec.
Context `{P : Platform}.

(** ** Specification *)

Record ctx_command_wf (project : Uuid) (c : ProjectContextCommand) : Prop := {
  ctx_wf_schema : c.(schema_version) = PROJECT_CONTEXT_SCHEMA_VERSION;
  ctx_wf_expected : (c.(expected_context_revision) ≤ MAX_SAFE_REVISION)%N;
  ctx_wf_fence :
    match c.(acting_assignment_id), c.(runtime_fence) with
    | None, None => True
    | Some assignment, Some fence =>
        Uuid_is_nil assignment = false ∧ RuntimeFence_validate fence = Ok tt
    | _, _ => False
    end;
  ctx_wf_coordinates : coordinates_canonical (ProjectContextCommand_coordinates c);
  ctx_wf_document : not_uuid_v4 (ProjectContextCommand_context_document_id c) = false;
  ctx_wf_in : Forall (coordinate_in project) (ProjectContextCommand_coordinates c);
}.

Definition edge_documents (e : option ProjectContextEdge) : list Uuid :=
  match e with
  | Some e => e.(context_document_ids)
  | None => []
  end.

(** The membership of the edge after the command. *)
Definition next_documents (e : option ProjectContextEdge) (command : ProjectContextCommand)
    : list Uuid :=
  let d := ProjectContextCommand_context_document_id command in
  match ProjectContextCommand_operation command with
  | ProjectContextOperation.Attach => sort_by Uuid_cmp (edge_documents e ++ [d])
  | ProjectContextOperation.Detach => filter (λ id, id ≠ d) (edge_documents e)
  end.

Definition edge_of (project : Uuid) (cs : list ProjectContextCoordinate) (ids : list Uuid)
    : ProjectContextEdge :=
  {| key := edge_key_of project cs; coordinates := cs; context_document_ids := ids |}.

(** An edge exists exactly while it has a member. *)
Definition next_edge (project : Uuid) (e : option ProjectContextEdge)
    (command : ProjectContextCommand) : option ProjectContextEdge :=
  match next_documents e command with
  | [] => None
  | ids => Some (edge_of project (ProjectContextCommand_coordinates command) ids)
  end.

Definition ctx_catalog_after (catalog : ProjectContextCatalog) (e : option ProjectContextEdge)
    (command : ProjectContextCommand) (at' : DateTime) : ProjectContextCatalog := {|
  project_id := catalog.(project_id);
  context_revision := catalog.(context_revision) + 1;
  active_edge_count :=
    match e, next_edge catalog.(project_id) e command with
    | None, Some _ => catalog.(active_edge_count) + 1
    | Some _, None => catalog.(active_edge_count) - 1
    | _, _ => catalog.(active_edge_count)
    end;
  bound_document_count :=
    match ProjectContextCommand_operation command with
    | ProjectContextOperation.Attach => catalog.(bound_document_count) + 1
    | ProjectContextOperation.Detach => catalog.(bound_document_count) - 1
    end;
  projection_generation := catalog.(projection_generation);
  initialized_at := catalog.(initialized_at);
  updated_at := at';
|}.

Definition ctx_accepts_operation (e : option ProjectContextEdge) (owner : option EdgeKey)
    (command : ProjectContextCommand) (context : ProjectContextChangeContext) : Prop :=
  let d := ProjectContextCommand_context_document_id command in
  match ProjectContextCommand_operation command with
  | ProjectContextOperation.Attach =>
      context.(all_coordinates_active) = true ∧ context.(context_document_active) = true
      ∧ owner = None ∧ d ∉ edge_documents e
  | ProjectContextOperation.Detach =>
      ∃ edge, e = Some edge ∧ owner = Some edge.(key) ∧ d ∈ edge.(context_document_ids)
  end.

Record ctx_accepts (catalog : ProjectContextCatalog) (e : option ProjectContextEdge)
    (owner : option EdgeKey) (command : ProjectContextCommand)
    (context : ProjectContextChangeContext) : Prop := {
  ctx_acc_catalog : ctx_catalog_valid catalog;
  ctx_acc_command : ctx_command_wf catalog.(project_id) command;
  ctx_acc_revision : command.(expected_context_revision) = catalog.(context_revision);
  ctx_acc_time : (catalog.(updated_at) < context.(canonical_at))%Z;
  ctx_acc_size : (len (ProjectContextCommand_coordinates command) ≤ u32_max)%N;
  ctx_acc_edge : ∀ edge, e = Some edge →
    edge_valid catalog.(project_id) edge
    ∧ edge.(coordinates) = ProjectContextCommand_coordinates command;
  ctx_acc_operation : ctx_accepts_operation e owner command context;
  ctx_acc_count : ProjectContextCommand_operation command = ProjectContextOperation.Detach →
    (1 ≤ catalog.(bound_document_count))%N;
  ctx_acc_room : (catalog.(context_revision) < MAX_SAFE_REVISION)%N;
  ctx_acc_after :
    ctx_catalog_valid (ctx_catalog_after catalog e command context.(canonical_at));
  ctx_acc_documents : (len (next_documents e command) ≤ MAX_SAFE_REVISION)%N;
}.

Definition ctx_next (catalog : ProjectContextCatalog) (e : option ProjectContextEdge)
    (command : ProjectContextCommand) (context : ProjectContextChangeContext)
    : ProjectContextTransition :=
  let project := catalog.(project_id) in
  let cs := ProjectContextCommand_coordinates command in
  let catalog' := ctx_catalog_after catalog e command context.(canonical_at) in
  let edge' := next_edge project e command in
  let binding := {|
    binding_edge_key := edge_key_of project cs;
    binding_coordinates := cs;
    binding_context_document_id := ProjectContextCommand_context_document_id command;
    binding_state :=
      match ProjectContextCommand_operation command with
      | ProjectContextOperation.Attach => ProjectContextBindingState.Active
      | ProjectContextOperation.Detach => ProjectContextBindingState.Deleted
      end;
    binding_context_revision := catalog.(context_revision) + 1;
    binding_updated_at := context.(canonical_at);
  |} in {|
  transition_catalog := catalog';
  transition_edge := edge';
  transition_binding := binding;
  transition_receipt := {|
    receipt_schema_version := PROJECT_CONTEXT_SCHEMA_VERSION;
    receipt_change_id := context.(change_id);
    receipt_actor := context.(actor);
    receipt_acting_assignment_id := command.(acting_assignment_id);
    receipt_operation := ProjectContextCommand_operation command;
    receipt_expected_context_revision := command.(expected_context_revision);
    receipt_context_revision := catalog.(context_revision) + 1;
    receipt_edge_key := edge_key_of project cs;
    receipt_edge_state := edge_state_of edge';
    receipt_edge_document_count := len (next_documents e command);
    receipt_context_document_id := ProjectContextCommand_context_document_id command;
    receipt_accepted_at := context.(canonical_at);
  |};
  transition_projection_plan := {|
    plan_catalog := catalog';
    plan_binding := Some binding;
    plan_source_event_id := Some context.(change_id);
    plan_reset := false;
  |};
|}.

End spec.

#[global] Arguments next_documents : simpl never.
#[global] Arguments next_edge : simpl never.

Section proofs.
Context `{P : Platform} `{HU : !UuidLaws}.

Lemma ctx_command_validate_Ok c project u :
  ProjectContextCommand_validate_for_project c project = Ok u ↔ ctx_command_wf project c.
Proof.
  unfold ProjectContextCommand_validate_for_project,
    ProjectContextCommand_validate_for_submission, ProjectContextCommandRequest_validate.
  fold (ProjectContextCommand_coordinates c) (ProjectContextCommand_context_document_id c).
  assert (Hin : for_each (λ x, ProjectContextCoordinate_validate_for_project x project)
      (ProjectContextCommand_coordinates c) = Ok tt
      ↔ Forall (coordinate_in project) (ProjectContextCommand_coordinates c)).
  { rewrite for_each_Ok. apply Forall_iff. intros x. apply coordinate_validate_for_project_Ok. }
  destruct u. split.
  - intros H. apply rbind_Ok in H as ([] & H & Hi).
    apply rbind_Ok in Hi as ([] & Hi%Hin & _).
    apply rbind_Ok in H as ([] & Hs%reject_if_Ok & H).
    apply rbind_Ok in H as ([] & He%validate_nonnegative_Ok & H).
    apply rbind_Ok in H as ([] & Hf & H).
    apply rbind_Ok in H as ([] & Hc%validate_canonical_coordinates_Ok & Hd%ctx_document_id_Ok).
    bool_props. split; try done.
    destruct (acting_assignment_id c), (runtime_fence c); ok_inv; eauto.
  - intros [Hs He Hf Hc Hd Hi]. rewrite Hs. simpl.
    rewrite (proj2 (validate_nonnegative_Ok _ _ tt) He). simpl.
    rewrite (proj2 (validate_canonical_coordinates_Ok _ tt) Hc). simpl.
    rewrite (proj2 (ctx_document_id_Ok _ tt) Hd). rewrite (proj2 Hin Hi).
    destruct (acting_assignment_id c), (runtime_fence c); try done.
    by destruct Hf as [-> ->].
Qed.

(** The next membership is strictly sorted and made of v4 identities. *)
Lemma next_documents_sorted project e owner command context :
  ctx_command_wf project command →
  (∀ edge, e = Some edge → edge_valid project edge) →
  ctx_accepts_operation e owner command context →
  StrictlySorted Uuid_cmp (next_documents e command)
  ∧ Forall (λ id, not_uuid_v4 id = false) (next_documents e command).
Proof.
  intros Hwf He Hop.
  assert (Hold : StrictlySorted Uuid_cmp (edge_documents e)
      ∧ Forall (λ id, not_uuid_v4 id = false) (edge_documents e)).
  { destruct e as [edge|]; simpl; [|repeat constructor].
    destruct (He edge eq_refl) as []. done. }
  destruct Hold as [Hs Hf]. unfold next_documents, ctx_accepts_operation in *.
  destruct (ProjectContextCommand_operation command).
  - destruct Hop as (_ & _ & _ & Hd). split.
    + apply (sort_by_sorted Uuid_cmp). apply NoDup_app. split_and!.
      * by apply (StrictlySorted_NoDup Uuid_cmp).
      * set_solver.
      * apply NoDup_singleton.
    + rewrite (sort_by_perm Uuid_cmp). apply Forall_app. split; [done|].
      constructor; [apply Hwf|constructor].
  - split; [by apply StronglySorted_filter|by apply Forall_list_filter].
Qed.

(** Building the edge from its snapshot succeeds whenever it has members. *)
Lemma next_edge_from_snapshot project e owner command context :
  not_uuid_v4 project = false →
  ctx_command_wf project command →
  (len (ProjectContextCommand_coordinates command) ≤ u32_max)%N →
  (∀ edge, e = Some edge → edge_valid project edge) →
  ctx_accepts_operation e owner command context →
  next_documents e command ≠ [] →
  let edge := edge_of project (ProjectContextCommand_coordinates command)
                (next_documents e command) in
  edge_valid project edge
  ∧ ProjectContextEdge_from_snapshot project (ProjectContextCommand_coordinates command)
      (next_documents e command) = Ok edge
  ∧ next_edge project e command = Some edge.
Proof.
  intros Hp Hwf Hsz He Hop Hne edge.
  destruct (next_documents_sorted _ _ _ _ _ Hwf He Hop) as [Hs Hf].
  assert (Hv : edge_valid project edge) by (by split; simpl; try apply Hwf).
  split_and!; [done| |].
  - by apply edge_from_snapshot_Ok.
  - unfold next_edge, edge. by destruct (next_documents e command).
Qed.

Lemma next_edge_snapshot catalog e owner command context :
  ctx_accepts catalog e owner command context →
  next_documents e command ≠ [] →
  let edge := edge_of catalog.(project_id) (ProjectContextCommand_coordinates command)
                (next_documents e command) in
  edge_valid catalog.(project_id) edge
  ∧ ProjectContextEdge_from_snapshot catalog.(project_id)
      (ProjectContextCommand_coordinates command) (next_documents e command) = Ok edge
  ∧ next_edge catalog.(project_id) e command = Some edge.
Proof.
  intros [[Hp _ _ _ _ _ _ _] Hwf _ _ Hsz He Hop _ _ _ _].
  eapply next_edge_from_snapshot; eauto. intros edge Hedge. by apply He.
Qed.

Lemma next_edge_valid catalog e owner command context edge :
  ctx_accepts catalog e owner command context →
  next_edge catalog.(project_id) e command = Some edge →
  edge_valid catalog.(project_id) edge
  ∧ edge = edge_of catalog.(project_id) (ProjectContextCommand_coordinates command)
             (next_documents e command).
Proof.
  intros Ha Hn. destruct (next_edge_snapshot _ _ _ _ _ Ha) as (Hv & _ & Hn').
  - intros H0. unfold next_edge in Hn. by rewrite H0 in Hn.
  - rewrite Hn in Hn'. by injection Hn' as ->.
Qed.

Lemma attach_documents_ne e command :
  ProjectContextCommand_operation command = ProjectContextOperation.Attach →
  next_documents e command ≠ [].
Proof.
  intros Hop H0. unfold next_documents in H0. rewrite Hop in H0. apply (f_equal length) in H0.
  rewrite (Permutation_length (sort_by_perm Uuid_cmp _)), length_app in H0. simpl in H0. lia.
Qed.

Lemma contains_document_true edge d :
  contains_document edge d = true ↔ d ∈ edge.(context_document_ids).
Proof.
  unfold contains_document. rewrite existsb_exists. setoid_rewrite <- list_elem_of_In. split.
  - intros (x & Hx & Hd). bool_props. by subst.
  - intros Hd. exists d. split; [done|]. by rewrite bool_decide_true.
Qed.

Lemma reduce_attach catalog e owner command context :
  ctx_accepts catalog e owner command context →
  ProjectContextCommand_operation command = ProjectContextOperation.Attach →
  reduce_operation catalog e owner command context
    (edge_key_of catalog.(project_id) (ProjectContextCommand_coordinates command))
  = Ok (next_edge catalog.(project_id) e command, ProjectContextBindingState.Active,
        (ctx_catalog_after catalog e command context.(canonical_at)).(active_edge_count),
        (ctx_catalog_after catalog e command context.(canonical_at)).(bound_document_count)).
Proof.
  intros Ha Hop.
  assert (Hd : next_documents e command = sort_by Uuid_cmp
      (edge_documents e ++ [ProjectContextCommand_context_document_id command])).
  { unfold next_documents. by rewrite Hop. }
  destruct (next_edge_snapshot _ _ _ _ _ Ha (attach_documents_ne _ _ Hop)) as (_ & Hsnap & Hnext).
  destruct Ha as [_ _ _ _ _ _ Hacc _ _ [_ _ Hb _ _ _ Hc _] _].
  unfold ctx_accepts_operation in Hacc. rewrite Hop in Hacc.
  destruct Hacc as (Hca & Hda & -> & _). simpl in Hb, Hc. rewrite Hop in Hb, Hc.
  unfold reduce_operation. rewrite Hop, Hca, Hda. simpl. fold (edge_documents e).
  rewrite <- Hd, Hsnap. simpl. rewrite Hop. destruct e as [edge|]; rewrite Hnext in *; simpl.
  - by rewrite checked_next_room by lia.
  - rewrite checked_next_room by lia. simpl. by rewrite checked_next_room by lia.
Qed.

Lemma reduce_detach catalog e owner command context :
  ctx_accepts catalog e owner command context →
  ProjectContextCommand_operation command = ProjectContextOperation.Detach →
  reduce_operation catalog e owner command context
    (edge_key_of catalog.(project_id) (ProjectContextCommand_coordinates command))
  = Ok (next_edge catalog.(project_id) e command, ProjectContextBindingState.Deleted,
        (ctx_catalog_after catalog e command context.(canonical_at)).(active_edge_count),
        (ctx_catalog_after catalog e command context.(canonical_at)).(bound_document_count)).
Proof.
  intros Ha Hop. pose proof (next_edge_snapshot _ _ _ _ _ Ha) as Hsnap.
  assert (Hd : next_documents e command = filter
      (λ id, id ≠ ProjectContextCommand_context_document_id command) (edge_documents e)).
  { unfold next_documents. by rewrite Hop. }
  destruct Ha as [[_ _ _ _ _ _ _ Hempty] _ _ _ _ He Hacc Hone _ _ _].
  specialize (Hone Hop).
  unfold ctx_accepts_operation in Hacc. rewrite Hop in Hacc.
  destruct Hacc as (edge & -> & -> & Hin). destruct (He edge eq_refl) as [Hv Hcs].
  unfold reduce_operation. rewrite Hop. simpl.
  rewrite (edge_valid_key _ _ Hv), Hcs, bool_decide_true by done. simpl.
  rewrite (proj2 (contains_document_true _ _) Hin). simpl in *.
  rewrite <- Hd.
  unfold next_edge in *. rewrite Hop. destruct (next_documents (Some edge) command) as [|x l].
  - assert (Hactive : (1 ≤ active_edge_count catalog)%N).
    { destruct (active_edge_count catalog); [by rewrite Hempty in Hone|lia]. }
    simpl. rewrite u64_checked_sub_room by done. simpl. by rewrite u64_checked_sub_room.
  - destruct Hsnap as (_ & -> & _); [done|]. simpl. by rewrite u64_checked_sub_room.
Qed.

Lemma ctx_receipt_valid catalog e owner command context :
  ctx_accepts catalog e owner command context →
  ProjectContextReceipt_validate (ctx_next catalog e command context).(transition_receipt) = Ok tt.
Proof.
  intros [_ Hwf Hrev _ _ _ _ _ Hroom _ Hdocs]. unfold ProjectContextReceipt_validate. simpl.
  rewrite (proj2 (validate_nonnegative_Ok _ _ tt) (ctx_wf_expected _ _ Hwf)). simpl.
  rewrite (proj2 (validate_positive_Ok _ _ tt)) by (unfold is_positive; lia). simpl.
  rewrite Hrev, u64_checked_add_room, bool_decide_true
    by (try done; unfold MAX_SAFE_REVISION, u64_max in *; lia). simpl.
  rewrite (proj2 (ctx_document_id_Ok _ tt) (ctx_wf_document _ _ Hwf)). simpl.
  assert (Hnil : is_some_and Uuid_is_nil (acting_assignment_id command) = false).
  { pose proof (ctx_wf_fence _ _ Hwf) as Hf.
    destruct (acting_assignment_id command), (runtime_fence command); naive_solver. }
  rewrite Hnil. simpl. rewrite (proj2 (validate_nonnegative_Ok _ _ tt) Hdocs). simpl.
  unfold edge_state_of, next_edge. by destruct (next_documents e command).
Qed.

Lemma ctx_binding_valid catalog e owner command context :
  ctx_accepts catalog e owner command context →
  ProjectContextBinding_validate (ctx_next catalog e command context).(transition_binding)
    catalog.(project_id) = Ok tt.
Proof.
  intros [[Hp _ _ _ _ _ _ _] Hwf _ _ Hsz _ _ _ Hroom _ _].
  unfold ProjectContextBinding_validate. simpl.
  rewrite (proj2 (validate_canonical_coordinates_Ok _ tt) (ctx_wf_coordinates _ _ Hwf)). simpl.
  rewrite (proj2 (for_each_Ok _ _ tt)).
  2: { eapply Forall_impl; [apply (ctx_wf_in _ _ Hwf)|]. intros c Hc.
       by apply coordinate_validate_for_project_Ok. }
  simpl. rewrite (proj2 (ctx_document_id_Ok _ tt) (ctx_wf_document _ _ Hwf)). simpl.
  rewrite (proj2 (validate_positive_Ok _ _ tt)) by (unfold is_positive; lia). simpl.
  rewrite (proj2 (EdgeKey_derive_Ok _ _ (edge_key_of (project_id catalog) _)))
    by (split_and!; [done|done|apply Hwf|done]). simpl.
  by rewrite bool_decide_true.
Qed.

Lemma ctx_plan_valid catalog e owner command context :
  ctx_accepts catalog e owner command context →
  ProjectContextProjectionPlan_validate
    (ctx_next catalog e command context).(transition_projection_plan) = Ok tt.
Proof.
  intros Ha. pose proof (ctx_binding_valid _ _ _ _ _ Ha) as Hb.
  unfold ProjectContextProjectionPlan_validate.
  rewrite (proj2 (ctx_catalog_validate_Ok _ tt)) by apply Ha.
  cbn [rbind plan_reset plan_binding plan_source_event_id plan_catalog ctx_next
    transition_projection_plan].
  cbn [ctx_next transition_binding] in Hb. cbn [ctx_catalog_after project_id]. rewrite Hb.
  cbn [rbind binding_context_revision binding_updated_at context_revision updated_at].
  by rewrite N.eqb_refl, Z.eqb_refl.
Qed.

Lemma edge_document_count_next project e command :
  edge_document_count_of (next_edge project e command) = len (next_documents e command).
Proof. unfold next_edge. by destruct (next_documents e command). Qed.

Lemma ctx_transition_valid catalog e owner command context :
  ctx_accepts catalog e owner command context →
  ProjectContextTransition_validate (ctx_next catalog e command context) = Ok tt.
Proof.
  intros Ha. pose proof (ctx_binding_valid _ _ _ _ _ Ha) as Hb.
  pose proof (ctx_receipt_valid _ _ _ _ _ Ha) as Hr.
  pose proof (ctx_plan_valid _ _ _ _ _ Ha) as Hpl.
  unfold ProjectContextTransition_validate.
  rewrite (proj2 (ctx_catalog_validate_Ok _ tt)) by apply Ha.
  change (project_id (transition_catalog (ctx_next catalog e command context)))
    with (project_id catalog).
  rewrite Hb, Hr, Hpl. cbn [rbind].
  assert (He : match transition_edge (ctx_next catalog e command context) with
     | Some edge => ProjectContextEdge_validate edge (project_id catalog) ?;
         reject_if (negb (bool_decide (key edge
           = binding_edge_key (transition_binding (ctx_next catalog e command context)))))
         (invalid_state "updated edge and binding use different keys")
     | None => Ok tt end = Ok tt).
  { simpl. destruct (next_edge (project_id catalog) e command) as [edge|] eqn:Hn; [|done].
    destruct (next_edge_valid _ _ _ _ _ _ Ha Hn) as [Hv ->].
    rewrite (proj2 (edge_validate_Ok _ _ tt) Hv). simpl. by rewrite bool_decide_true. }
  rewrite He. cbn [rbind].
  simpl. rewrite edge_document_count_next, !bool_decide_true, !N.eqb_refl, Z.eqb_refl by done. done.
Qed.

(** The outcome of the operation match under acceptance. *)
Lemma reduce_operation_accepts catalog e owner command context :
  ctx_accepts catalog e owner command context →
  reduce_operation catalog e owner command context
    (edge_key_of catalog.(project_id) (ProjectContextCommand_coordinates command))
  = Ok (next_edge catalog.(project_id) e command,
        (ctx_next catalog e command context).(transition_binding).(binding_state),
        (ctx_catalog_after catalog e command context.(canonical_at)).(active_edge_count),
        (ctx_catalog_after catalog e command context.(canonical_at)).(bound_document_count)).
Proof.
  intros Ha. cbn [ctx_next transition_binding binding_state].
  destruct (ProjectContextCommand_operation command) eqn:Hop;
    [by apply reduce_attach|by apply reduce_detach].
Qed.

Lemma reduce_context_complete catalog e owner command context :
  ctx_accepts catalog e owner command context →
  reduce_project_context catalog e owner command context
  = Ok (ctx_next catalog e command context).
Proof.
  intros Ha. pose proof Ha as [Hcat Hwf Hrev Ht Hsz He _ _ Hroom Hafter _].
  unfold reduce_project_context.
  rewrite (proj2 (ctx_catalog_validate_Ok _ tt) Hcat). cbn [rbind].
  rewrite (proj2 (ctx_command_validate_Ok _ _ tt) Hwf). cbn [rbind].
  rewrite (proj2 (N.eqb_eq _ _) Hrev), (proj2 (Z.leb_gt _ _) Ht). cbn [rbind reject_if negb].
  rewrite (proj2 (EdgeKey_derive_Ok _ _ (edge_key_of (project_id catalog) _)))
    by (split_and!; [done|apply Hcat|apply Hwf|done]). cbn [rbind].
  rewrite (proj2 (rbind_Ok _ _ (ctx_next catalog e command context))); [done|].
  exists tt. split.
  { destruct e as [edge|]; [|done]. destruct (He edge eq_refl) as [Hv Hcs].
    rewrite (proj2 (edge_validate_Ok _ _ tt) Hv). cbn [rbind].
    by rewrite (edge_valid_key _ _ Hv), Hcs, !bool_decide_true. }
  rewrite checked_next_room by done. cbn [rbind].
  rewrite (reduce_operation_accepts _ _ _ _ _ Ha). cbn [rbind].
  unfold ProjectContextCatalog_from_snapshot.
  change {| project_id := _ |} with (ctx_catalog_after catalog e command (canonical_at context)).
  rewrite (proj2 (ctx_catalog_validate_Ok _ tt) Hafter). cbn [rbind].
  change {| binding_edge_key := _ |}
    with (transition_binding (ctx_next catalog e command context)).
  change (project_id (ctx_catalog_after _ _ _ _)) with (project_id catalog).
  rewrite (ctx_binding_valid _ _ _ _ _ Ha). cbn [rbind].
  unfold ProjectContextProjectionPlan_for_transition.
  change {| plan_catalog := _ |}
    with (transition_projection_plan (ctx_next catalog e command context)).
  rewrite (ctx_plan_valid _ _ _ _ _ Ha), edge_document_count_next. cbn [rbind].
  change {| transition_catalog := _ |} with (ctx_next catalog e command context).
  by rewrite (ctx_transition_valid _ _ _ _ _ Ha).
Qed.

(** What a successful operation match establishes. *)
Definition operation_spec (catalog : ProjectContextCatalog) (e : option ProjectContextEdge)
    (owner : option EdgeKey) (command : ProjectContextCommand)
    (context : ProjectContextChangeContext) (edge' : option ProjectContextEdge)
    (active bound : N) : Prop :=
  ctx_accepts_operation e owner command context
  ∧ (ProjectContextCommand_operation command = ProjectContextOperation.Detach →
     (1 ≤ catalog.(bound_document_count))%N)
  ∧ (ProjectContextCommand_operation command = ProjectContextOperation.Attach →
     (catalog.(bound_document_count) < MAX_SAFE_REVISION)%N)
  ∧ edge' = next_edge catalog.(project_id) e command
  ∧ active = (ctx_catalog_after catalog e command context.(canonical_at)).(active_edge_count)
  ∧ bound = (ctx_catalog_after catalog e command context.(canonical_at)).(bound_document_count).

Lemma attach_Ok catalog e owner command context k edge' st active bound :
  ProjectContextCommand_operation command = ProjectContextOperation.Attach →
  reduce_operation catalog e owner command context k = Ok (edge', st, active, bound) →
  operation_spec catalog e owner command context edge' active bound.
Proof.
  intros Hop. unfold reduce_operation. rewrite Hop. intros H.
  apply rbind_Ok in H as ([] & Hca%reject_if_Ok & H).
  apply rbind_Ok in H as ([] & Hda%reject_if_Ok & H).
  apply rbind_Ok in H as ([] & Ho & H). bool_props.
  assert (owner = None) as ->.
  { destruct owner as [k'|]; [exfalso|done]. destruct (bool_decide (k' = k)); [|done].
    by apply rbind_Ok in Ho as ([] & _ & ?). }
  apply rbind_Ok in H as (edge & [-> Hv]%edge_from_snapshot_Ok & H).
  apply rbind_Ok in H as (n & Hn & H).
  apply rbind_Ok in H as (m & [-> Hm]%checked_next_Ok & H). injection H as <- <- <- <-.
  pose proof (edge_valid_sorted _ _ Hv) as Hs. simpl in Hs. fold (edge_documents e) in *.
  assert (Hnd : NoDup (edge_documents e ++ [ProjectContextCommand_context_document_id command])).
  { rewrite <- (sort_by_perm Uuid_cmp). by apply (StrictlySorted_NoDup Uuid_cmp). }
  apply NoDup_app in Hnd as (_ & Hnd & _).
  assert (Hnext : next_edge (project_id catalog) e command
      = Some (edge_of (project_id catalog) (ProjectContextCommand_coordinates command)
          (sort_by Uuid_cmp
             (edge_documents e ++ [ProjectContextCommand_context_document_id command])))).
  { pose proof (edge_valid_nonempty _ _ Hv) as Hne. unfold next_edge, next_documents.
    rewrite Hop. simpl in Hne. by destruct (sort_by _ _). }
  unfold operation_spec, ctx_accepts_operation. cbn [ctx_catalog_after active_edge_count
    bound_document_count]. rewrite Hop, Hnext. split_and!; try done.
  - intros Hin. apply (Hnd _ Hin). set_solver.
  - destruct e; rewrite Hnext; simpl in Hn; [congruence|]. by apply checked_next_Ok in Hn as [-> _].
Qed.

Lemma detach_Ok catalog e owner command context k edge' st active bound :
  ProjectContextCommand_operation command = ProjectContextOperation.Detach →
  (∀ edge, e = Some edge → edge.(key) = k) →
  reduce_operation catalog e owner command context k = Ok (edge', st, active, bound) →
  operation_spec catalog e owner command context edge' active bound.
Proof.
  intros Hop Hk. unfold reduce_operation. rewrite Hop. intros H.
  apply rbind_Ok in H as (k' & ->%ok_or_Ok & H).
  apply rbind_Ok in H as ([] & Hkk%reject_if_Ok & H).
  apply rbind_Ok in H as (edge & ->%ok_or_Ok & H).
  apply rbind_Ok in H as ([] & Hin%reject_if_Ok & H). bool_props. subst k'.
  apply contains_document_true in Hin. rewrite <- (Hk edge eq_refl).
  apply rbind_Ok in H as (next & Hnext & H).
  apply rbind_Ok in H as (n & Hn & H).
  apply rbind_Ok in H as (m & (-> & Hm)%ok_or_Ok%u64_checked_sub_Some & H).
  injection H as <- <- <- <-.
  assert (Hd : next = next_edge (project_id catalog) (Some edge) command).
  { unfold next_edge, next_documents. rewrite Hop. simpl.
    destruct (filter _ _) as [|x l]; simpl in Hnext; [congruence|].
    apply rbind_Ok in Hnext as (edge2 & [-> _]%edge_from_snapshot_Ok & Hnext).
    injection Hnext as <-. done. }
  unfold operation_spec, ctx_accepts_operation. cbn [ctx_catalog_after active_edge_count
    bound_document_count]. rewrite Hop, <- Hd. split_and!; try done; [naive_solver|].
  destruct next; simpl in Hn; [congruence|]. by apply ok_or_Ok, u64_checked_sub_Some in Hn as [-> _].
Qed.

Lemma reduce_context_accepted catalog e owner command context t :
  reduce_project_context catalog e owner command context = Ok t →
  ctx_accepts catalog e owner command context.
Proof.
  unfold reduce_project_context. intros H.
  apply rbind_Ok in H as ([] & Hcat%ctx_catalog_validate_Ok & H).
  apply rbind_Ok in H as ([] & Hwf%ctx_command_validate_Ok & H).
  apply rbind_Ok in H as ([] & Hrev%reject_if_Ok & H).
  apply rbind_Ok in H as ([] & Ht%reject_if_Ok%Z.leb_gt & H).
  apply rbind_Ok in H as (k & (-> & _ & _ & Hsz)%EdgeKey_derive_Ok & H).
  apply rbind_Ok in H as ([] & He & H).
  apply rbind_Ok in H as (n & [-> Hroom]%checked_next_Ok & H).
  apply rbind_Ok in H as ([[[edge' st] active] bound] & Hop & H).
  apply rbind_Ok in H as (c' & Hc' & H). apply rbind_Ok in H as ([] & _ & H).
  apply rbind_Ok in H as (plan & _ & H).
  apply rbind_Ok in H as ([] & Hval & _). bool_props.
  assert (Hedge : ∀ edge, e = Some edge → edge_valid catalog.(project_id) edge
      ∧ edge.(coordinates) = ProjectContextCommand_coordinates command
      ∧ edge.(key) = edge_key_of (project_id catalog) (ProjectContextCommand_coordinates command)).
  { intros edge ->. apply rbind_Ok in He as ([] & Hv%edge_validate_Ok & Hm%reject_if_Ok).
    by bool_props. }
  assert (Hspec : operation_spec catalog e owner command context edge' active bound).
  { destruct (ProjectContextCommand_operation command) eqn:Ho; [by eapply attach_Ok|].
    eapply detach_Ok; [done| |done]. naive_solver. }
  destruct Hspec as (Hacc & Hone & _ & -> & -> & ->).
  apply rbind_Ok in Hc' as ([] & Hafter%ctx_catalog_validate_Ok & _).
  split; try done; [naive_solver|].
  unfold ProjectContextTransition_validate in Hval.
  apply rbind_Ok in Hval as ([] & _ & Hval). apply rbind_Ok in Hval as ([] & _ & Hval).
  apply rbind_Ok in Hval as ([] & _ & Hval). apply rbind_Ok in Hval as ([] & Hr & _).
  unfold ProjectContextReceipt_validate in Hr. ok_inv.
  cbn [transition_receipt receipt_edge_document_count] in *.
  match goal with H : validate_nonnegative (edge_document_count_of _) _ = _ |- _ =>
    apply validate_nonnegative_Ok in H; by rewrite edge_document_count_next in H end.
Qed.

Lemma reduce_context_Ok catalog e owner command context t :
  reduce_project_context catalog e owner command context = Ok t ↔
  ctx_accepts catalog e owner command context ∧ t = ctx_next catalog e command context.
Proof.
  split.
  - intros H. pose proof (reduce_context_accepted _ _ _ _ _ _ H) as Ha. split; [done|].
    rewrite (reduce_context_complete _ _ _ _ _ Ha) in H. by injection H as <-.
  - intros [Ha ->]. by apply reduce_context_complete.
Qed.

End proofs.
