(* ===== verification/ContextStore.v ===== *)
(** * Project Context: the canonical store over time

    The adapter keeps the active edges by key and the active binding of each
    Context Document, and applies one accepted transition per transaction
    ([buzz-db/src/project_context.rs], [load_current] and [commit]).
    [ctx_submit] is that contract over finite maps: the edge is loaded by the
    derived key, the owner by the Document, and both are rewritten from the
    transition. *)

From S2P Require Import Prelude Text Platform ContextCoordinate.
From S2P Require Import ContextModel ContextProjection ContextReducer.
From S2P Require Import ContextFacts ContextSpec.
From stdpp Require Import prelude strings gmap fin_maps relations.

Section store.
Context `{P : Platform}.

Record CtxStore : Type := {
  ctx_catalog : ProjectContextCatalog;
  ctx_edges : gmap EdgeKey ProjectContextEdge;
  ctx_owners : gmap Uuid EdgeKey;
  ctx_receipts : gmap EventId ProjectContextReceipt;
}.

(** One signed command event with the facts the transaction reads beside the
    store: the clock and the liveness of the coordinates and the Document. *)
Record CtxSubmission : Type := {
  csub_actor : PublicKey;
  csub_event : EventId;
  csub_command : ProjectContextCommand;
  csub_clock : DateTime;
  csub_coordinates_active : bool;
  csub_document_active : bool;
}.

Definition csub_context (s : CtxStore) (x : CtxSubmission) : ProjectContextChangeContext :=
  ProjectContextChangeContext_with_context_document_active
    (ProjectContextChangeContext_with_coordinates_active
       (ProjectContextChangeContext_active x.(csub_actor) x.(csub_event)
          (Z.max x.(csub_clock) (s.(ctx_catalog).(updated_at) + 1)))
       x.(csub_coordinates_active))
    x.(csub_document_active).

Definition csub_document (x : CtxSubmission) : Uuid :=
  ProjectContextCommand_context_document_id x.(csub_command).

Definition csub_key (s : CtxStore) (x : CtxSubmission) : EdgeKey :=
  edge_key_of s.(ctx_catalog).(project_id) (ProjectContextCommand_coordinates x.(csub_command)).

Definition loaded_edge (s : CtxStore) (x : CtxSubmission) : option ProjectContextEdge :=
  s.(ctx_edges) !! csub_key s x.

Definition loaded_owner (s : CtxStore) (x : CtxSubmission) : option EdgeKey :=
  s.(ctx_owners) !! csub_document x.

Definition ctx_write (s : CtxStore) (t : ProjectContextTransition) : CtxStore :=
  let binding := t.(transition_binding) in {|
  ctx_catalog := t.(transition_catalog);
  ctx_edges :=
    match t.(transition_edge) with
    | Some edge => <[binding.(binding_edge_key) := edge]> s.(ctx_edges)
    | None => delete binding.(binding_edge_key) s.(ctx_edges)
    end;
  ctx_owners :=
    match binding.(binding_state) with
    | ProjectContextBindingState.Active =>
        <[binding.(binding_context_document_id) := binding.(binding_edge_key)]> s.(ctx_owners)
    | ProjectContextBindingState.Deleted =>
        delete binding.(binding_context_document_id) s.(ctx_owners)
    end;
  ctx_receipts :=
    <[t.(transition_receipt).(receipt_change_id) := t.(transition_receipt)]> s.(ctx_receipts);
|}.

Definition ctx_reduce (s : CtxStore) (x : CtxSubmission)
    : ProjectContextResult ProjectContextTransition :=
  reduce_project_context s.(ctx_catalog) (loaded_edge s x) (loaded_owner s x)
    x.(csub_command) (csub_context s x).

Definition ctx_submit (s : CtxStore) (x : CtxSubmission)
    : ProjectContextResult (CtxStore * ProjectContextReceipt) :=
  match s.(ctx_receipts) !! x.(csub_event) with
  | Some receipt => Ok (s, receipt)
  | None =>
      let? t := ctx_reduce s x in
      Ok (ctx_write s t, t.(transition_receipt))
  end.

Definition ctx_bootstrap (catalog : ProjectContextCatalog) : CtxStore := {|
  ctx_catalog := catalog;
  ctx_edges := ∅;
  ctx_owners := ∅;
  ctx_receipts := ∅;
|}.

Inductive ctx_step (s s' : CtxStore) : Prop :=
| ctx_step_submit x receipt : ctx_submit s x = Ok (s', receipt) → ctx_step s s'.

Definition ctx_reachable (s : CtxStore) : Prop :=
  ∃ project generation at0 catalog,
    ProjectContextCatalog_empty project generation at0 = Ok catalog
    ∧ rtc ctx_step (ctx_bootstrap catalog) s.

(** ** The invariant *)

Definition edge_size (e : ProjectContextEdge) : N := len e.(context_document_ids).

Record ctx_inv (s : CtxStore) : Prop := {
  cinv_catalog : ctx_catalog_valid s.(ctx_catalog);
  cinv_edge : ∀ k e, s.(ctx_edges) !! k = Some e →
    edge_valid s.(ctx_catalog).(project_id) e ∧ e.(key) = k;
  cinv_owner : ∀ d k, s.(ctx_owners) !! d = Some k ↔
    ∃ e, s.(ctx_edges) !! k = Some e ∧ d ∈ e.(context_document_ids);
  cinv_edges : s.(ctx_catalog).(active_edge_count) = N.of_nat (size s.(ctx_edges));
  cinv_owners : s.(ctx_catalog).(bound_document_count) = N.of_nat (size s.(ctx_owners));
  cinv_sum : s.(ctx_catalog).(bound_document_count) = map_sum edge_size s.(ctx_edges);
  cinv_receipts : s.(ctx_catalog).(context_revision) = N.of_nat (size s.(ctx_receipts));
}.

End store.

Section preservation.
Context `{P : Platform} `{HU : !UuidLaws}.

Lemma ctx_reduce_Ok s x t :
  ctx_reduce s x = Ok t ↔
  ctx_accepts s.(ctx_catalog) (loaded_edge s x) (loaded_owner s x) x.(csub_command)
    (csub_context s x)
  ∧ t = ctx_next s.(ctx_catalog) (loaded_edge s x) x.(csub_command) (csub_context s x).
Proof. apply reduce_context_Ok. Qed.

(** Membership of the updated edge: the old members and the attached one, or
    all but the detached one. *)
Lemma elem_of_next_documents e command d :
  d ∈ next_documents e command ↔
  match ProjectContextCommand_operation command with
  | ProjectContextOperation.Attach =>
      d = ProjectContextCommand_context_document_id command ∨ d ∈ edge_documents e
  | ProjectContextOperation.Detach =>
      d ≠ ProjectContextCommand_context_document_id command ∧ d ∈ edge_documents e
  end.
Proof.
  unfold next_documents. destruct (ProjectContextCommand_operation command).
  - rewrite (sort_by_perm Uuid_cmp). set_solver.
  - rewrite list_elem_of_filter. done.
Qed.

Lemma next_documents_len e owner command context :
  StrictlySorted Uuid_cmp (edge_documents e) →
  ctx_accepts_operation e owner command context →
  match ProjectContextCommand_operation command with
  | ProjectContextOperation.Attach => len (next_documents e command) = len (edge_documents e) + 1
  | ProjectContextOperation.Detach => len (next_documents e command) + 1 = len (edge_documents e)
  end%N.
Proof.
  intros Hs Hop. unfold ctx_accepts_operation, next_documents, len in *.
  destruct (ProjectContextCommand_operation command).
  - rewrite (Permutation_length (sort_by_perm Uuid_cmp _)), length_app. simpl. lia.
  - destruct Hop as (edge & -> & _ & Hin). simpl.
    rewrite <- (length_filter_ne (ProjectContextCommand_context_document_id command)
      (context_document_ids edge)); [lia| |done].
    by apply (StrictlySorted_NoDup Uuid_cmp).
Qed.

Lemma loaded_edge_sorted s x : ctx_inv s → StrictlySorted Uuid_cmp (edge_documents (loaded_edge s x)).
Proof.
  intros Hinv. destruct (loaded_edge s x) as [edge|] eqn:He; simpl; [|constructor].
  eapply edge_valid_sorted. by apply (cinv_edge _ Hinv _ _ He).
Qed.

Lemma next_edge_documents project e command :
  edge_documents (next_edge project e command) = next_documents e command.
Proof. unfold next_edge. by destruct (next_documents e command). Qed.

Lemma edge_documents_sum (m : gmap EdgeKey ProjectContextEdge) k e' :
  (map_sum edge_size (match e' with Some e => <[k := e]> m | None => delete k m end)
   + len (edge_documents (m !! k)) = map_sum edge_size m + len (edge_documents e'))%N.
Proof.
  destruct (m !! k) as [e|] eqn:He, e' as [e'|]; simpl.
  - pose proof (map_sum_insert_Some edge_size m k e e' He). unfold edge_size in *. lia.
  - rewrite (map_sum_delete edge_size m k e He). unfold edge_size, len. simpl. lia.
  - rewrite map_sum_insert_None by done. unfold edge_size, len. simpl. lia.
  - rewrite delete_id by done. lia.
Qed.

Lemma edge_count_change (m : gmap EdgeKey ProjectContextEdge) k e' n :
  n = N.of_nat (size m) →
  N.of_nat (size (match e' with Some e => <[k := e]> m | None => delete k m end))
  = match m !! k, e' with
    | None, Some _ => n + 1
    | Some _, None => n - 1
    | _, _ => n
    end%N.
Proof.
  intros ->. destruct (m !! k) as [e|] eqn:He, e' as [e'|].
  - rewrite map_size_insert_Some by done. done.
  - rewrite map_size_delete_Some by done. lia.
  - rewrite map_size_insert_None by done. lia.
  - by rewrite delete_id.
Qed.

Lemma elem_of_edge_documents (m : gmap EdgeKey ProjectContextEdge) k d :
  d ∈ edge_documents (m !! k) ↔ ∃ e, m !! k = Some e ∧ d ∈ e.(context_document_ids).
Proof. destruct (m !! k) as [e|]; simpl; set_solver. Qed.

(** One accepted command at a store that satisfies the invariant. *)
Section write.
Context (s : CtxStore) (x : CtxSubmission) (Hinv : ctx_inv s).
Abbreviation command := x.(csub_command).
Abbreviation project := s.(ctx_catalog).(project_id).
Abbreviation k := (csub_key s x).
Abbreviation d := (csub_document x).
Abbreviation e := (loaded_edge s x).
Context (Ha : ctx_accepts s.(ctx_catalog) e (loaded_owner s x) command (csub_context s x)).
Abbreviation edges' :=
  (match next_edge project e command with
   | Some edge => <[k := edge]> s.(ctx_edges)
   | None => delete k s.(ctx_edges)
   end).
Abbreviation owners' :=
  (match ProjectContextCommand_operation command with
   | ProjectContextOperation.Attach => <[d := k]> s.(ctx_owners)
   | ProjectContextOperation.Detach => delete d s.(ctx_owners)
   end).

Lemma lookup_edges' i :
  edges' !! i = if decide (i = k) then next_edge project e command else s.(ctx_edges) !! i.
Proof.
  case_decide as Hi.
  - subst i. destruct (next_edge project e command);
      [by rewrite lookup_insert_eq|by rewrite lookup_delete_eq].
  - destruct (next_edge project e command);
      [by rewrite lookup_insert_ne|by rewrite lookup_delete_ne].
Qed.

(** The owner the command was checked against. *)
Lemma accepted_owner :
  match ProjectContextCommand_operation command with
  | ProjectContextOperation.Attach => s.(ctx_owners) !! d = None
  | ProjectContextOperation.Detach => s.(ctx_owners) !! d = Some k
  end.
Proof.
  pose proof (ctx_acc_operation _ _ _ _ _ Ha) as Hop. unfold ctx_accepts_operation in Hop.
  destruct (ProjectContextCommand_operation command); [by destruct Hop as (_ & _ & ? & _)|].
  destruct Hop as (edge & He & Ho & _). fold (loaded_owner s x). rewrite Ho.
  by destruct (cinv_edge _ Hinv _ _ He) as [_ ->].
Qed.

Lemma write_owner d' k' :
  owners' !! d' = Some k' ↔ d' ∈ edge_documents (edges' !! k').
Proof.
  rewrite lookup_edges'.
  assert (Hold : ∀ i j, s.(ctx_owners) !! i = Some j ↔ i ∈ edge_documents (s.(ctx_edges) !! j)).
  { intros i j. rewrite elem_of_edge_documents. apply (cinv_owner _ Hinv). }
  pose proof accepted_owner as Hown.
  pose proof (Hold d' k) as Hk. fold e in Hk.
  assert (Hnext : d' ∈ edge_documents (next_edge project e command) ↔
    match ProjectContextCommand_operation command with
    | ProjectContextOperation.Attach => d' = d ∨ d' ∈ edge_documents e
    | ProjectContextOperation.Detach => d' ≠ d ∧ d' ∈ edge_documents e
    end) by (rewrite next_edge_documents; apply elem_of_next_documents).
  destruct (ProjectContextCommand_operation command).
  - rewrite lookup_insert_Some. case_decide as Hi; [subst k'|].
    + rewrite Hnext, <- Hk. naive_solver.
    + rewrite <- Hold. naive_solver.
  - rewrite lookup_delete_Some. case_decide as Hi; [subst k'|].
    + rewrite Hnext, <- Hk. naive_solver.
    + rewrite <- Hold. naive_solver.
Qed.

Lemma write_owners_size :
  N.of_nat (size owners')
  = (ctx_catalog_after s.(ctx_catalog) e command (csub_context s x).(canonical_at))
      .(bound_document_count).
Proof.
  pose proof accepted_owner as Hown. simpl. rewrite (cinv_owners _ Hinv).
  destruct (ProjectContextCommand_operation command).
  - rewrite map_size_insert_None by done. lia.
  - rewrite map_size_delete_Some by (by eexists). lia.
Qed.

Lemma write_sum :
  map_sum edge_size edges'
  = (ctx_catalog_after s.(ctx_catalog) e command (csub_context s x).(canonical_at))
      .(bound_document_count).
Proof.
  pose proof (edge_documents_sum s.(ctx_edges) k (next_edge project e command)) as Hs.
  fold e in Hs. rewrite next_edge_documents in Hs. simpl.
  pose proof (next_documents_len _ _ _ _ (loaded_edge_sorted s x Hinv)
    (ctx_acc_operation _ _ _ _ _ Ha)) as Hl. rewrite (cinv_sum _ Hinv).
  destruct (ProjectContextCommand_operation command); lia.
Qed.

End write.

Lemma ctx_write_inv s x :
  ctx_inv s → s.(ctx_receipts) !! x.(csub_event) = None →
  ctx_accepts s.(ctx_catalog) (loaded_edge s x) (loaded_owner s x) x.(csub_command)
    (csub_context s x) →
  ctx_inv (ctx_write s
    (ctx_next s.(ctx_catalog) (loaded_edge s x) x.(csub_command) (csub_context s x))).
Proof.
  intros Hinv Hnew Ha.
  assert (Hst : ∀ A (a b : A), match binding_state (transition_binding
      (ctx_next s.(ctx_catalog) (loaded_edge s x) x.(csub_command) (csub_context s x))) with
    | ProjectContextBindingState.Active => a | ProjectContextBindingState.Deleted => b end
    = match ProjectContextCommand_operation x.(csub_command) with
      | ProjectContextOperation.Attach => a | ProjectContextOperation.Detach => b end).
  { intros A a b. simpl. by destruct (ProjectContextCommand_operation _). }
  unfold ctx_write. rewrite Hst. split; simpl; fold (csub_key s x) (csub_document x).
  - apply Ha.
  - intros k' e'. rewrite lookup_edges'. case_decide as Hk; [subst k'|apply (cinv_edge _ Hinv)].
    intros Hn. destruct (next_edge_valid _ _ _ _ _ _ Ha Hn) as [Hv ->]. done.
  - intros d' k'. rewrite <- elem_of_edge_documents. by apply write_owner.
  - rewrite (edge_count_change _ _ _ _ (cinv_edges _ Hinv)). fold (loaded_edge s x).
    by destruct (loaded_edge s x).
  - symmetry. by apply write_owners_size.
  - symmetry. by apply write_sum.
  - rewrite map_size_insert_None by done. rewrite (cinv_receipts _ Hinv). lia.
Qed.

Lemma ctx_submit_Ok s x s' receipt :
  ctx_submit s x = Ok (s', receipt) ↔
  (s.(ctx_receipts) !! x.(csub_event) = Some receipt ∧ s' = s)
  ∨ (s.(ctx_receipts) !! x.(csub_event) = None
     ∧ let t := ctx_next s.(ctx_catalog) (loaded_edge s x) x.(csub_command) (csub_context s x) in
       ctx_accepts s.(ctx_catalog) (loaded_edge s x) (loaded_owner s x) x.(csub_command)
         (csub_context s x)
       ∧ s' = ctx_write s t ∧ receipt = t.(transition_receipt)).
Proof.
  unfold ctx_submit. destruct (ctx_receipts s !! csub_event x); simpl; [naive_solver|].
  rewrite rbind_Ok. setoid_rewrite ctx_reduce_Ok. naive_solver.
Qed.

Lemma ctx_submit_inv s x s' receipt : ctx_inv s → ctx_submit s x = Ok (s', receipt) → ctx_inv s'.
Proof.
  intros Hinv [[_ ->]|(Hnew & Ha & -> & _)]%ctx_submit_Ok; [done|]. by apply ctx_write_inv.
Qed.

Lemma ctx_bootstrap_inv project generation at0 catalog :
  ProjectContextCatalog_empty project generation at0 = Ok catalog →
  ctx_inv (ctx_bootstrap catalog).
Proof.
  unfold ProjectContextCatalog_empty, ProjectContextCatalog_from_snapshot. intros H.
  apply rbind_Ok in H as ([] & Hv%ctx_catalog_validate_Ok & H). injection H as <-.
  split; simpl; try done. intros d k. rewrite lookup_empty. naive_solver.
Qed.

Lemma ctx_reachable_inv s : ctx_reachable s → ctx_inv s.
Proof.
  intros (project & generation & at0 & catalog & He & Hr).
  assert (Hinv : ctx_inv (ctx_bootstrap catalog)) by (by eapply ctx_bootstrap_inv).
  induction Hr as [|s1 s2 s3 [x receipt Hs] _ IH]; [done|]. eapply IH, ctx_submit_inv; eauto.
Qed.

Lemma ctx_write_edges s x :
  (ctx_write s (ctx_next s.(ctx_catalog) (loaded_edge s x) x.(csub_command)
     (csub_context s x))).(ctx_edges)
  = match next_edge s.(ctx_catalog).(project_id) (loaded_edge s x) x.(csub_command) with
    | Some edge => <[csub_key s x := edge]> s.(ctx_edges)
    | None => delete (csub_key s x) s.(ctx_edges)
    end.
Proof. reflexivity. Qed.

Lemma ctx_write_owners s x :
  (ctx_write s (ctx_next s.(ctx_catalog) (loaded_edge s x) x.(csub_command)
     (csub_context s x))).(ctx_owners)
  = match ProjectContextCommand_operation x.(csub_command) with
    | ProjectContextOperation.Attach => <[csub_document x := csub_key s x]> s.(ctx_owners)
    | ProjectContextOperation.Detach => delete (csub_document x) s.(ctx_owners)
    end.
Proof. simpl. by destruct (ProjectContextCommand_operation _). Qed.

(** ** Stores across submissions *)

Record ctx_after (s s' : CtxStore) : Prop := {
  cafter_receipts : s.(ctx_receipts) ⊆ s'.(ctx_receipts);
  cafter_revision :
    (s.(ctx_catalog).(context_revision) ≤ s'.(ctx_catalog).(context_revision))%N;
  cafter_project : s'.(ctx_catalog).(project_id) = s.(ctx_catalog).(project_id);
}.

#[global] Instance ctx_after_preorder : PreOrder ctx_after.
Proof.
  split; [by split|].
  intros a b c [R1 V1 P1] [R2 V2 P2]. split; [by etrans|lia|congruence].
Qed.

Lemma ctx_submit_after s x s' receipt : ctx_submit s x = Ok (s', receipt) → ctx_after s s'.
Proof.
  intros [[_ ->]|(Hnew & Ha & -> & _)]%ctx_submit_Ok; [done|].
  split; simpl; [by apply insert_subseteq|lia|done].
Qed.

Lemma ctx_rtc_after s s' : ctx_inv s → rtc ctx_step s s' → ctx_after s s' ∧ ctx_inv s'.
Proof.
  intros Hinv Hr. induction Hr as [s|s s1 s2 [x receipt Hs] _ IH]; [done|].
  destruct IH as [Ha Hi]; [by eapply ctx_submit_inv|]. split; [|done].
  etrans; [by eapply ctx_submit_after|done].
Qed.

Lemma ctx_submit_new s x s' receipt :
  s.(ctx_receipts) !! x.(csub_event) = None → ctx_submit s x = Ok (s', receipt) →
  s'.(ctx_receipts) !! x.(csub_event) = Some receipt
  ∧ s'.(ctx_catalog).(context_revision)
    = (x.(csub_command).(expected_context_revision) + 1)%N.
Proof.
  intros Hnew [[Hr _]|(_ & Ha & -> & ->)]%ctx_submit_Ok; [congruence|]. simpl.
  rewrite lookup_insert_eq, (ctx_acc_revision _ _ _ _ _ Ha). done.
Qed.

(** Removing the attached Document again restores the membership. *)
Lemma detach_attached d docs :
  StrictlySorted Uuid_cmp docs → d ∉ docs →
  filter (λ id, id ≠ d) (sort_by Uuid_cmp (docs ++ [d])) = docs.
Proof.
  intros Hs Hd. apply (StrictlySorted_unique Uuid_cmp).
  - apply StronglySorted_filter, (sort_by_sorted Uuid_cmp). apply NoDup_app. split_and!.
    + by apply (StrictlySorted_NoDup Uuid_cmp).
    + set_solver.
    + apply NoDup_singleton.
  - done.
  - rewrite (sort_by_perm Uuid_cmp), filter_app, (filter_ne_notin d docs) by done.
    rewrite filter_cons_False, filter_nil, app_nil_r by naive_solver. done.
Qed.

End preservation.
