(* ===== verification/ContextProgress.v ===== *)
(** * Project Context: no internal failure on a reachable store

    The reducer re-checks its inputs and its own output and reports
    [InvalidCanonicalState] when they are inconsistent.  On a store that
    satisfies the invariant none of those checks fails: a command is accepted
    or rejected for a reason of its own. *)

From S2P Require Import Prelude Text Platform ContextCoordinate.
From S2P Require Import ContextModel ContextProjection ContextReducer.
From S2P Require Import ContextFacts ContextSpec ContextStore.
From stdpp Require Import prelude strings gmap fin_maps.

Section progress.
Context `{P : Platform} `{HU : !UuidLaws}.

(** ** The counters stay consistent *)

Lemma edges_sum_ge (m : gmap EdgeKey ProjectContextEdge) :
  (∀ k e, m !! k = Some e → e.(context_document_ids) ≠ []) →
  (N.of_nat (size m) ≤ map_sum edge_size m)%N.
Proof.
  induction m as [|k e m Hk IH] using map_ind; intros Hne; [done|].
  rewrite map_size_insert_None, map_sum_insert_None by done.
  assert (1 ≤ edge_size e)%N.
  { specialize (Hne k e (lookup_insert_eq _ _ _)). unfold edge_size, len.
    destruct (context_document_ids e); simpl; [done|lia]. }
  assert (N.of_nat (size m) ≤ map_sum edge_size m)%N; [|lia].
  apply IH. intros k' e' He. apply (Hne k'). rewrite lookup_insert_ne; [done|congruence].
Qed.

Lemma edges_sum_delete s k e :
  ctx_inv s → s.(ctx_edges) !! k = Some e →
  (1 ≤ s.(ctx_catalog).(active_edge_count)
   ∧ edge_size e + (s.(ctx_catalog).(active_edge_count) - 1) ≤ s.(ctx_catalog).(bound_document_count)
   ∧ (s.(ctx_catalog).(active_edge_count) = 1 →
      s.(ctx_catalog).(bound_document_count) = edge_size e))%N.
Proof.
  intros Hinv Hk. rewrite (cinv_edges _ Hinv), (cinv_sum _ Hinv).
  rewrite (map_sum_delete edge_size _ k e Hk).
  assert (Hsz : size (ctx_edges s) = S (size (delete k (ctx_edges s)))).
  { rewrite map_size_delete_Some by done. assert (size (ctx_edges s) ≠ 0); [|lia].
    intros H0. apply map_size_empty_iff in H0. by rewrite H0, lookup_empty in Hk. }
  assert (Hge : (N.of_nat (size (delete k (ctx_edges s)))
      ≤ map_sum edge_size (delete k (ctx_edges s)))%N).
  { apply edges_sum_ge. intros k' e' [_ He]%lookup_delete_Some.
    eapply edge_valid_nonempty. by apply (cinv_edge _ Hinv _ _ He). }
  split_and!; [lia|lia|]. intros H1.
  assert (H0 : size (delete k (ctx_edges s)) = 0) by lia.
  apply map_size_empty_iff in H0. rewrite H0, map_sum_empty. lia.
Qed.

Lemma after_valid s x :
  ctx_inv s →
  let c := s.(ctx_catalog) in let e := loaded_edge s x in let command := x.(csub_command) in
  let context := csub_context s x in
  (c.(context_revision) < MAX_SAFE_REVISION)%N →
  (ProjectContextCommand_operation command = ProjectContextOperation.Attach →
   (c.(bound_document_count) < MAX_SAFE_REVISION)%N) →
  ctx_accepts_operation e (loaded_owner s x) command context →
  ctx_catalog_valid (ctx_catalog_after c e command context.(canonical_at))
  ∧ (len (next_documents e command) ≤ MAX_SAFE_REVISION)%N
  ∧ (ProjectContextCommand_operation command = ProjectContextOperation.Detach →
     (1 ≤ c.(bound_document_count))%N).
Proof.
  intros Hinv c e command context Hroom Hbound Hop.
  pose proof (cinv_catalog _ Hinv : ctx_catalog_valid c) as [? ? Hb ? ? ? Hle Hz].
  pose proof (next_documents_len _ _ _ _ (loaded_edge_sorted s x Hinv) Hop) as Hlen.
  fold e command in Hlen.
  assert (Hnext : next_edge (project_id c) e command = None ↔ len (next_documents e command) = 0%N).
  { unfold next_edge, len. by destruct (next_documents e command). }
  assert (Hsize : ∀ edge, e = Some edge →
    (1 ≤ c.(active_edge_count)
     ∧ len (edge_documents e) + (c.(active_edge_count) - 1) ≤ c.(bound_document_count)
     ∧ (c.(active_edge_count) = 1 → c.(bound_document_count) = len (edge_documents e)))%N).
  { intros edge He. rewrite He. by apply (edges_sum_delete s (csub_key s x) edge). }
  assert (Hcounts : let a := ctx_catalog_after c e command context.(canonical_at) in
    (a.(bound_document_count) ≤ MAX_SAFE_REVISION ∧ a.(active_edge_count) ≤ a.(bound_document_count)
     ∧ (a.(active_edge_count) = 0 → a.(bound_document_count) = 0)
     ∧ len (next_documents e command) ≤ MAX_SAFE_REVISION)%N
    ∧ (ProjectContextCommand_operation command = ProjectContextOperation.Detach →
       1 ≤ c.(bound_document_count))%N).
  { unfold ctx_accepts_operation in Hop. cbn [ctx_catalog_after active_edge_count
      bound_document_count]. fold e command in Hop.
    clearbody e. destruct (ProjectContextCommand_operation command).
    - specialize (Hbound eq_refl). split; [|done]. destruct e as [edge|].
      + specialize (Hsize edge eq_refl). destruct (next_edge _ _ _); [lia|].
        assert (len (next_documents (Some edge) command) = 0%N) by naive_solver. lia.
      + simpl in Hlen. unfold len in Hlen at 2. simpl in Hlen.
        destruct (next_edge _ _ _); [lia|].
        assert (len (next_documents None command) = 0%N) by naive_solver. lia.
    - destruct Hop as (edge & -> & _). specialize (Hsize edge eq_refl).
      destruct (next_edge _ _ _) as [edge'|].
      + assert (len (next_documents (Some edge) command) ≠ 0%N) by naive_solver. lia.
      + assert (len (next_documents (Some edge) command) = 0%N) by naive_solver. lia. }
  destruct Hcounts as [(? & ? & ? & ?) ?]. split_and!; try done.
  split; try done; simpl; fold c; lia.
Qed.

(** ** No internal failure *)

(** No stored edge shares the derived key of another coordinate set. *)
Definition no_collision (s : CtxStore) (x : CtxSubmission) : Prop :=
  ∀ e, loaded_edge s x = Some e →
    e.(coordinates) = ProjectContextCommand_coordinates x.(csub_command).

Lemma ctx_ready s x :
  ctx_inv s → no_collision s x →
  let c := s.(ctx_catalog) in let command := x.(csub_command) in
  ctx_command_wf c.(project_id) command →
  command.(expected_context_revision) = c.(context_revision) →
  (len (ProjectContextCommand_coordinates command) ≤ u32_max)%N →
  (c.(context_revision) < MAX_SAFE_REVISION)%N →
  (ProjectContextCommand_operation command = ProjectContextOperation.Attach →
   (c.(bound_document_count) < MAX_SAFE_REVISION)%N) →
  ctx_accepts_operation (loaded_edge s x) (loaded_owner s x) command (csub_context s x) →
  ctx_accepts c (loaded_edge s x) (loaded_owner s x) command (csub_context s x).
Proof.
  intros Hinv Hcol c command Hwf Hrev Hsz Hroom Hbound Hop.
  destruct (after_valid s x Hinv Hroom Hbound Hop) as (Hafter & Hdocs & Hone).
  split; try done; [apply (cinv_catalog _ Hinv)|simpl; fold c; lia|].
  intros e He. split; [|by apply Hcol]. by apply (cinv_edge _ Hinv _ _ He).
Qed.

Definition internal_failure (e : ProjectContextError) : Prop :=
  ∃ reason, e = ProjectContextError.InvalidCanonicalState reason.

Lemma coordinate_validate_Err c e :
  ProjectContextCoordinate_validate c = Err e → ¬ internal_failure e.
Proof.
  intros H [r ->]. destruct c; simpl in H; unfold validate_uuid_v4 in H;
    destruct (not_uuid_v4 _); done.
Qed.

Lemma canonical_coordinates_Err cs e :
  validate_canonical_coordinates cs = Err e → ¬ internal_failure e.
Proof.
  unfold validate_canonical_coordinates, canonicalize_coordinates. intros H [r ->].
  apply rbind_Err in H as [H|(cs' & _ & H)].
  - apply rbind_Err in H as [H|([] & _ & H)]; [by apply reject_if_Err in H as [_ ?]|].
    apply rbind_Err in H as [H|([] & _ & H)].
    + apply for_each_Err in H as (c & _ & H). by apply (coordinate_validate_Err _ _ H); eexists.
    + apply rbind_Err in H as [H|([] & _ & H)]; [by apply reject_if_Err in H as [_ ?]|done].
  - apply rbind_Err in H as [H|([] & _ & H)]; [by apply reject_if_Err in H as [_ ?]|done].
Qed.

Lemma derive_Err project cs e : EdgeKey_derive project cs = Err e → ¬ internal_failure e.
Proof.
  unfold EdgeKey_derive. intros H. apply rbind_Err in H as [H|([] & _ & H)].
  { intros [r ->]. unfold validate_uuid_v4 in H. by destruct (not_uuid_v4 _). }
  apply rbind_Err in H as [H|([] & _ & H)]; [by eapply canonical_coordinates_Err|].
  intros [r ->]. apply rbind_Err in H as [H|(n & _ & H)]; [|done].
  by apply ok_or_Err in H as [_ ?].
Qed.

Lemma ctx_command_validate_Err command project e :
  ProjectContextCommand_validate_for_project command project = Err e → ¬ internal_failure e.
Proof.
  unfold ProjectContextCommand_validate_for_project,
    ProjectContextCommand_validate_for_submission, ProjectContextCommandRequest_validate.
  intros H. apply rbind_Err in H as [H|([] & _ & H)].
  - apply rbind_Err in H as [H|([] & _ & H)].
    { intros [r ->]. by apply reject_if_Err in H as [_ ?]. }
    apply rbind_Err in H as [H|([] & _ & H)].
    { intros [r ->]. unfold validate_nonnegative in H. by destruct (_ <? _)%N. }
    apply rbind_Err in H as [H|([] & _ & H)].
    { intros [r ->]. destruct (acting_assignment_id command) as [a|], (runtime_fence command);
        try done. destruct (Uuid_is_nil a); [done|].
      by apply map_err_Err in H as (e' & _ & ?). }
    apply rbind_Err in H as [H|([] & _ & H)]; [by eapply canonical_coordinates_Err|].
    intros [r ->]. unfold validate_document_id in H. by destruct (not_uuid_v4 _).
  - apply rbind_Err in H as [H|([] & _ & H)]; [|done].
    apply for_each_Err in H as (c & _ & H). unfold ProjectContextCoordinate_validate_for_project in H.
    apply rbind_Err in H as [H|([] & _ & H)]; [by eapply coordinate_validate_Err|].
    intros [r ->]. apply rbind_Err in H as [H|([] & _ & H)]; [|done].
    destruct c as [[] id|id|id]; try done. by destruct (bool_decide _).
Qed.

Lemma checked_next_Err n e : checked_next n = Err e → e = ProjectContextError.RevisionExhausted.
Proof. unfold checked_next. by intros [_ <-]%ok_or_Err. Qed.

(** The business conditions of the operation match hold, or its error is one
    of them. *)
Lemma attach_Err s x e :
  ctx_inv s →
  ctx_command_wf s.(ctx_catalog).(project_id) x.(csub_command) →
  (len (ProjectContextCommand_coordinates x.(csub_command)) ≤ u32_max)%N →
  ProjectContextCommand_operation x.(csub_command) = ProjectContextOperation.Attach →
  reduce_operation s.(ctx_catalog) (loaded_edge s x) (loaded_owner s x) x.(csub_command)
    (csub_context s x) (csub_key s x) = Err e →
  ¬ internal_failure e.
Proof.
  intros Hinv Hwf Hsz Hop. unfold reduce_operation. rewrite Hop. intros H.
  apply rbind_Err in H as [H|([] & Hca%reject_if_Ok & H)].
  { intros [r ->]. by apply reject_if_Err in H as [_ ?]. }
  apply rbind_Err in H as [H|([] & Hda%reject_if_Ok & H)].
  { intros [r ->]. by apply reject_if_Err in H as [_ ?]. }
  fold (csub_document x) in *. bool_props.
  destruct (loaded_owner s x) as [k'|] eqn:Hown.
  - apply (cinv_owner _ Hinv) in Hown as (edge & Hedge & Hin).
    apply rbind_Err in H as [H|(u & H & _)].
    + case_bool_decide as Hk; [subst k'|intros [r ->]; done].
      unfold loaded_edge in H. rewrite Hedge in H. simpl in H.
      rewrite (proj2 (contains_document_true _ _) Hin) in H. by injection H as <-; intros [r ?].
    + case_bool_decide; ok_inv.
  - assert (Hfree : csub_document x ∉ edge_documents (loaded_edge s x)).
    { intros Hin. apply elem_of_edge_documents, (cinv_owner _ Hinv) in Hin.
      unfold loaded_owner in Hown. by rewrite Hown in Hin. }
    destruct (next_edge_from_snapshot (project_id (ctx_catalog s)) (loaded_edge s x) None
      (csub_command x) (csub_context s x)) as (_ & Hsnap & _); try done.
    { apply (cinv_catalog _ Hinv). }
    { intros edge He. by apply (cinv_edge _ Hinv _ _ He). }
    { unfold ctx_accepts_operation. by rewrite Hop. }
    { by apply attach_documents_ne. }
    unfold next_documents in Hsnap. rewrite Hop in Hsnap. unfold edge_documents in Hsnap.
    cbn [rbind] in H. fold (csub_document x) in Hsnap. rewrite Hsnap in H. cbn [rbind] in H.
    apply rbind_Err in H as [H|(n & _ & H)].
    { destruct (opt_is_some (loaded_edge s x)); [done|]. apply checked_next_Err in H as ->.
      by intros [r ?]. }
    apply rbind_Err in H as [->%checked_next_Err|(m & _ & H)]; [by intros [r ?]|done].
Qed.

Lemma detach_Err s x e :
  ctx_inv s →
  ctx_command_wf s.(ctx_catalog).(project_id) x.(csub_command) →
  (len (ProjectContextCommand_coordinates x.(csub_command)) ≤ u32_max)%N →
  ProjectContextCommand_operation x.(csub_command) = ProjectContextOperation.Detach →
  reduce_operation s.(ctx_catalog) (loaded_edge s x) (loaded_owner s x) x.(csub_command)
    (csub_context s x) (csub_key s x) = Err e →
  (∃ edge, loaded_edge s x = Some edge ∧ loaded_owner s x = Some edge.(key)
   ∧ csub_document x ∈ edge.(context_document_ids))
  ∨ ¬ internal_failure e.
Proof.
  intros Hinv Hwf Hsz Hop. unfold reduce_operation. rewrite Hop. fold (csub_document x). intros H.
  apply rbind_Err in H as [H|(k' & Hown%ok_or_Ok & H)].
  { right. intros [r ->]. by apply ok_or_Err in H as [_ ?]. }
  apply rbind_Err in H as [H|([] & Hk%reject_if_Ok & H)].
  { right. intros [r ->]. by apply reject_if_Err in H as [_ ?]. }
  bool_props. subst k'. left. apply (cinv_owner _ Hinv) in Hown as Hx.
  destruct Hx as (edge & Hedge & Hin). exists edge.
  destruct (cinv_edge _ Hinv _ _ Hedge) as [_ Hkey]. rewrite Hkey. done.
Qed.

(** On a store that satisfies the invariant, and without a hash collision, the
    reducer never reports an inconsistent canonical state. *)
Lemma ctx_no_internal_failure s x e :
  ctx_inv s → no_collision s x → ctx_reduce s x = Err e → ¬ internal_failure e.
Proof.
  intros Hinv Hcol Hred. pose proof Hred as H. unfold ctx_reduce, reduce_project_context in H.
  pose proof (cinv_catalog _ Hinv) as Hcat.
  rewrite (proj2 (ctx_catalog_validate_Ok _ tt) Hcat) in H. cbn [rbind] in H.
  apply rbind_Err in H as [H|([] & Hwf%ctx_command_validate_Ok & H)];
    [by eapply ctx_command_validate_Err|].
  apply rbind_Err in H as [H|([] & Hrev%reject_if_Ok & H)].
  { intros [r ->]. by apply reject_if_Err in H as [_ ?]. }
  apply rbind_Err in H as [H|([] & _ & H)].
  { apply reject_if_Err in H as [Ht _]. simpl in Ht. bool_props. lia. }
  apply rbind_Err in H as [H|(k & (-> & _ & _ & Hsz)%EdgeKey_derive_Ok & H)];
    [by eapply derive_Err|].
  apply rbind_Err in H as [H|([] & _ & H)].
  { exfalso. destruct (loaded_edge s x) as [edge|] eqn:He; [|done].
    destruct (cinv_edge _ Hinv _ _ He) as [Hv Hk].
    rewrite (proj2 (edge_validate_Ok _ _ tt) Hv) in H. cbn [rbind] in H.
    by rewrite Hk, (Hcol _ He), !bool_decide_true in H. }
  apply rbind_Err in H as [->%checked_next_Err|(n & [-> Hroom]%checked_next_Ok & H)];
    [by intros [r ?]|].
  fold (csub_key s x) in H. bool_props.
  assert (Hacc : ctx_accepts_operation (loaded_edge s x) (loaded_owner s x) (csub_command x)
      (csub_context s x) → (ProjectContextCommand_operation (csub_command x)
        = ProjectContextOperation.Attach →
        (s.(ctx_catalog).(bound_document_count) < MAX_SAFE_REVISION)%N) → False).
  { intros Hop Hb. pose proof (ctx_ready s x Hinv Hcol Hwf Hrev Hsz Hroom Hb Hop) as Ha.
    by rewrite (proj2 (ctx_reduce_Ok s x _) (conj Ha eq_refl)) in Hred. }
  apply rbind_Err in H as [H|([[[edge' st] n] m] & Hout & _)].
  - destruct (ProjectContextCommand_operation (csub_command x)) eqn:Hop; [by eapply attach_Err|].
    destruct (detach_Err s x e) as [Hd|Hd]; try done. exfalso. apply Hacc; [|done].
    unfold ctx_accepts_operation. by rewrite Hop.
  - exfalso. assert (Hspec : operation_spec s.(ctx_catalog) (loaded_edge s x) (loaded_owner s x)
      (csub_command x) (csub_context s x) edge' n m).
    { destruct (ProjectContextCommand_operation (csub_command x)) eqn:Hop;
        [by eapply attach_Ok|]. eapply detach_Ok; [done| |done].
      intros edge He. by apply (cinv_edge _ Hinv _ _ He). }
    destruct Hspec as (Hop & _ & Hb & _). by apply Hacc.
Qed.

(** ** Attach, then detach *)

Section attached.
Context (s : CtxStore) (x : CtxSubmission) (Hinv : ctx_inv s).
Context (Hop : ProjectContextCommand_operation x.(csub_command) = ProjectContextOperation.Attach).
Context (Ha : ctx_accepts s.(ctx_catalog) (loaded_edge s x) (loaded_owner s x) x.(csub_command)
  (csub_context s x)).
Abbreviation cs := (ProjectContextCommand_coordinates x.(csub_command)).
Abbreviation d := (csub_document x).
Abbreviation project := s.(ctx_catalog).(project_id).
Abbreviation s1 := (ctx_write s
  (ctx_next s.(ctx_catalog) (loaded_edge s x) x.(csub_command) (csub_context s x))).
Abbreviation attached :=
  (edge_of project cs (sort_by Uuid_cmp (edge_documents (loaded_edge s x) ++ [d]))).

Lemma attached_edge : next_edge project (loaded_edge s x) x.(csub_command) = Some attached.
Proof.
  destruct (next_edge_snapshot _ _ _ _ _ Ha (attach_documents_ne _ _ Hop)) as (_ & _ & ->).
  unfold next_documents. by rewrite Hop.
Qed.

Lemma attached_edges : s1.(ctx_edges) = <[csub_key s x := attached]> s.(ctx_edges).
Proof. simpl. by rewrite attached_edge. Qed.

Lemma attached_owners : s1.(ctx_owners) = <[d := csub_key s x]> s.(ctx_owners).
Proof. simpl. by rewrite Hop. Qed.

Lemma attached_fresh :
  s.(ctx_owners) !! d = None ∧ d ∉ edge_documents (loaded_edge s x).
Proof.
  pose proof (ctx_acc_operation _ _ _ _ _ Ha) as H. unfold ctx_accepts_operation in H.
  rewrite Hop in H. by destruct H as (_ & _ & ? & ?).
Qed.

(** The edge the attach started from, rebuilt from its membership. *)
Lemma reattach_edge edge :
  loaded_edge s x = Some edge → edge = edge_of project cs edge.(context_document_ids).
Proof.
  intros He. destruct (cinv_edge _ Hinv _ _ He) as [Hv _].
  destruct (ctx_acc_edge _ _ _ _ _ Ha edge He) as [_ Hcs].
  pose proof (edge_valid_key _ _ Hv) as Hk. rewrite Hcs in Hk.
  destruct edge as [k' c' ids]; simpl in *. by subst.
Qed.

Lemma detach_edges y :
  y.(csub_command).(request) = ProjectContextCommandRequest.Detach cs d →
  match next_edge project (s1.(ctx_edges) !! csub_key s x) y.(csub_command) with
  | Some edge => <[csub_key s x := edge]> s1.(ctx_edges)
  | None => delete (csub_key s x) s1.(ctx_edges)
  end = s.(ctx_edges).
Proof.
  intros Hy. rewrite attached_edges, lookup_insert_eq. destruct attached_fresh as [_ Hd].
  unfold next_edge, next_documents, ProjectContextCommand_operation,
    ProjectContextCommand_context_document_id. rewrite Hy.
  cbn [ProjectContextCommandRequest_operation ProjectContextCommandRequest_context_document_id
    edge_documents edge_of context_document_ids].
  rewrite detach_attached; [|by apply loaded_edge_sorted|done].
  pose proof reattach_edge as Hre. clear Ha.
  destruct (loaded_edge s x) as [edge|] eqn:He; simpl.
  - pose proof (Hre edge eq_refl) as Heq. destruct (context_document_ids edge) as [|i ids] eqn:Hids.
    + destruct (cinv_edge _ Hinv _ _ He) as [Hv _]. by destruct (edge_valid_nonempty _ _ Hv).
    + rewrite insert_insert_eq. apply insert_id. unfold loaded_edge in He. rewrite He, Heq.
      unfold ProjectContextCommand_coordinates at 2. by rewrite Hy.
  - apply delete_insert_id. exact He.
Qed.

End attached.

End progress.
