(* ===== verification/ViewModel.v ===== *)
(** * Project View: objects, errors and patches

    Models [buzz-project-view/src/{model,error,patch}.rs] and the constants of
    [lib.rs]: the closed vocabularies, the body of every object type, the
    relation slots and the domain errors.  The object types themselves are in
    [ViewKinds]. *)

From S2P Require Import Prelude Text Platform.
From stdpp Require Import prelude strings.

(** ** Constants ([lib.rs]) *)

Definition MAX_SAFE_REVISION : N := 9007199254740991%N.
Definition MAX_INITIAL_GOALS : N := 32%N.

(** ** Closed vocabularies ([model.rs]) *)

Module Priority.
Inductive Priority : Type :=
| Low
| Normal
| High
| Urgent.

#[global] Instance Priority_eq_dec : EqDecision Priority.
Proof. solve_decision. Defined.
End Priority.
Abbreviation Priority := Priority.Priority.

Module PlanStatus.
Inductive PlanStatus : Type :=
| Draft
| Active
| Paused
| Completed
| Cancelled.

#[global] Instance PlanStatus_eq_dec : EqDecision PlanStatus.
Proof. solve_decision. Defined.
End PlanStatus.
Abbreviation PlanStatus := PlanStatus.PlanStatus.

Module StageStatus.
Inductive StageStatus : Type :=
| Planned
| Active
| Paused
| Completed
| Cancelled.

#[global] Instance StageStatus_eq_dec : EqDecision StageStatus.
Proof. solve_decision. Defined.
End StageStatus.
Abbreviation StageStatus := StageStatus.StageStatus.

Module RequirementStatus.
Inductive RequirementStatus : Type :=
| Proposed
| Ready
| InProgress
| Satisfied
| Withdrawn.

#[global] Instance RequirementStatus_eq_dec : EqDecision RequirementStatus.
Proof. solve_decision. Defined.
End RequirementStatus.
Abbreviation RequirementStatus := RequirementStatus.RequirementStatus.

Module IssueStatus.
Inductive IssueStatus : Type :=
| Open
| InProgress
| Resolved
| Closed.

#[global] Instance IssueStatus_eq_dec : EqDecision IssueStatus.
Proof. solve_decision. Defined.
End IssueStatus.
Abbreviation IssueStatus := IssueStatus.IssueStatus.

Module WorkStatus.
Inductive WorkStatus : Type :=
| Pending
| InProgress
| Paused
| Submitted
| Completed
| Cancelled.

#[global] Instance WorkStatus_eq_dec : EqDecision WorkStatus.
Proof. solve_decision. Defined.
End WorkStatus.
Abbreviation WorkStatus := WorkStatus.WorkStatus.

Module ResourceType.
Inductive ResourceType : Type :=
| Repository
| Document
| Design
| Service
| Environment
| Artifact
| Url.

#[global] Instance ResourceType_eq_dec : EqDecision ResourceType.
Proof. solve_decision. Defined.
End ResourceType.
Abbreviation ResourceType := ResourceType.ResourceType.

Module LocatorType.
Inductive LocatorType : Type :=
| Url
| NostrAddress
| NostrEvent
| BuzzDeepLink.

#[global] Instance LocatorType_eq_dec : EqDecision LocatorType.
Proof. solve_decision. Defined.
End LocatorType.
Abbreviation LocatorType := LocatorType.LocatorType.

(** [Priority::as_str] *)
Definition Priority_as_str (self : Priority) : string :=
  match self with
  | Priority.Low => "low"
  | Priority.Normal => "normal"
  | Priority.High => "high"
  | Priority.Urgent => "urgent"
  end.

(** [PlanStatus::as_str] *)
Definition PlanStatus_as_str (self : PlanStatus) : string :=
  match self with
  | PlanStatus.Draft => "draft"
  | PlanStatus.Active => "active"
  | PlanStatus.Paused => "paused"
  | PlanStatus.Completed => "completed"
  | PlanStatus.Cancelled => "cancelled"
  end.

(** [StageStatus::as_str] *)
Definition StageStatus_as_str (self : StageStatus) : string :=
  match self with
  | StageStatus.Planned => "planned"
  | StageStatus.Active => "active"
  | StageStatus.Paused => "paused"
  | StageStatus.Completed => "completed"
  | StageStatus.Cancelled => "cancelled"
  end.

(** [RequirementStatus::as_str] *)
Definition RequirementStatus_as_str (self : RequirementStatus) : string :=
  match self with
  | RequirementStatus.Proposed => "proposed"
  | RequirementStatus.Ready => "ready"
  | RequirementStatus.InProgress => "in_progress"
  | RequirementStatus.Satisfied => "satisfied"
  | RequirementStatus.Withdrawn => "withdrawn"
  end.

(** [IssueStatus::as_str] *)
Definition IssueStatus_as_str (self : IssueStatus) : string :=
  match self with
  | IssueStatus.Open => "open"
  | IssueStatus.InProgress => "in_progress"
  | IssueStatus.Resolved => "resolved"
  | IssueStatus.Closed => "closed"
  end.

(** [WorkStatus::as_str] *)
Definition WorkStatus_as_str (self : WorkStatus) : string :=
  match self with
  | WorkStatus.Pending => "pending"
  | WorkStatus.InProgress => "in_progress"
  | WorkStatus.Paused => "paused"
  | WorkStatus.Submitted => "submitted"
  | WorkStatus.Completed => "completed"
  | WorkStatus.Cancelled => "cancelled"
  end.

(** [ResourceType::as_str] *)
Definition ResourceType_as_str (self : ResourceType) : string :=
  match self with
  | ResourceType.Repository => "repository"
  | ResourceType.Document => "document"
  | ResourceType.Design => "design"
  | ResourceType.Service => "service"
  | ResourceType.Environment => "environment"
  | ResourceType.Artifact => "artifact"
  | ResourceType.Url => "url"
  end.

(** [LocatorType::as_str] *)
Definition LocatorType_as_str (self : LocatorType) : string :=
  match self with
  | LocatorType.Url => "url"
  | LocatorType.NostrAddress => "nostr_address"
  | LocatorType.NostrEvent => "nostr_event"
  | LocatorType.BuzzDeepLink => "buzz_deep_link"
  end.

(** ** Object bodies ([model.rs]) *)

Module ResourceLocator.
Record ResourceLocator : Type := {
  locator_type : LocatorType;
  value : Text;
}.

#[global] Instance ResourceLocator_eq_dec : EqDecision ResourceLocator.
Proof. solve_decision. Defined.
End ResourceLocator.
Abbreviation ResourceLocator := ResourceLocator.ResourceLocator.

Module ProjectProfile.
Record ProjectProfile : Type := {
  name : Text;
  positioning : Text;
  purpose : Text;
  problem : Text;
  scope : Text;
  summary : option Text;
}.

#[global] Instance ProjectProfile_eq_dec : EqDecision ProjectProfile.
Proof. solve_decision. Defined.
End ProjectProfile.
Abbreviation ProjectProfile := ProjectProfile.ProjectProfile.

Module Goal.
Record Goal : Type := {
  title : Text;
  desired_outcome : Text;
  directions : list Text;
  summary : option Text;
}.

#[global] Instance Goal_eq_dec : EqDecision Goal.
Proof. solve_decision. Defined.
End Goal.
Abbreviation Goal := Goal.Goal.

Module ProjectRole.
Record ProjectRole : Type := {
  name : Text;
  purpose : Text;
  responsibilities : list Text;
  boundaries : list Text;
  active : bool;
  summary : option Text;
}.

#[global] Instance ProjectRole_eq_dec : EqDecision ProjectRole.
Proof. solve_decision. Defined.
End ProjectRole.
Abbreviation ProjectRole := ProjectRole.ProjectRole.

Module ProjectPlan.
Record ProjectPlan : Type := {
  title : Text;
  description : Text;
  status : PlanStatus;
  summary : option Text;
}.

#[global] Instance ProjectPlan_eq_dec : EqDecision ProjectPlan.
Proof. solve_decision. Defined.
End ProjectPlan.
Abbreviation ProjectPlan := ProjectPlan.ProjectPlan.

Module ProjectStage.
Record ProjectStage : Type := {
  title : Text;
  description : Text;
  status : StageStatus;
  summary : option Text;
}.

#[global] Instance ProjectStage_eq_dec : EqDecision ProjectStage.
Proof. solve_decision. Defined.
End ProjectStage.
Abbreviation ProjectStage := ProjectStage.ProjectStage.

Module Requirement.
Record Requirement : Type := {
  title : Text;
  description : Text;
  status : RequirementStatus;
  priority : Priority;
  summary : option Text;
}.

#[global] Instance Requirement_eq_dec : EqDecision Requirement.
Proof. solve_decision. Defined.
End Requirement.
Abbreviation Requirement := Requirement.Requirement.

Module ProjectIssue.
Record ProjectIssue : Type := {
  title : Text;
  description : Text;
  status : IssueStatus;
  priority : Priority;
  summary : option Text;
}.

#[global] Instance ProjectIssue_eq_dec : EqDecision ProjectIssue.
Proof. solve_decision. Defined.
End ProjectIssue.
Abbreviation ProjectIssue := ProjectIssue.ProjectIssue.

Module ProjectWork.
Record ProjectWork : Type := {
  title : Text;
  description : Text;
  status : WorkStatus;
  priority : Priority;
  summary : option Text;
}.

#[global] Instance ProjectWork_eq_dec : EqDecision ProjectWork.
Proof. solve_decision. Defined.
End ProjectWork.
Abbreviation ProjectWork := ProjectWork.ProjectWork.

Module ProjectResource.
Record ProjectResource : Type := {
  name : Text;
  resource_type : ResourceType;
  locator : ResourceLocator;
  description : Text;
}.

#[global] Instance ProjectResource_eq_dec : EqDecision ProjectResource.
Proof. solve_decision. Defined.
End ProjectResource.
Abbreviation ProjectResource := ProjectResource.ProjectResource.

Module ProjectViewObjectData.
Inductive ProjectViewObjectData : Type :=
| ProjectProfile (value : ProjectProfile)
| Goal (value : Goal)
| Role (value : ProjectRole)
| Plan (value : ProjectPlan)
| Stage (value : ProjectStage)
| Requirement (value : Requirement)
| Issue (value : ProjectIssue)
| Work (value : ProjectWork)
| Resource (value : ProjectResource).

#[global] Instance ProjectViewObjectData_eq_dec : EqDecision ProjectViewObjectData.
Proof. solve_decision. Defined.
End ProjectViewObjectData.
Abbreviation ProjectViewObjectData := ProjectViewObjectData.ProjectViewObjectData.

(** [ProjectViewObjectData::object_type] *)
Definition ProjectViewObjectData_object_type (self : ProjectViewObjectData)
    : ProjectViewObjectType :=
  match self with
  | ProjectViewObjectData.ProjectProfile _ => ProjectViewObjectType.ProjectProfile
  | ProjectViewObjectData.Goal _ => ProjectViewObjectType.Goal
  | ProjectViewObjectData.Role _ => ProjectViewObjectType.Role
  | ProjectViewObjectData.Plan _ => ProjectViewObjectType.Plan
  | ProjectViewObjectData.Stage _ => ProjectViewObjectType.Stage
  | ProjectViewObjectData.Requirement _ => ProjectViewObjectType.Requirement
  | ProjectViewObjectData.Issue _ => ProjectViewObjectType.Issue
  | ProjectViewObjectData.Work _ => ProjectViewObjectType.Work
  | ProjectViewObjectData.Resource _ => ProjectViewObjectType.Resource
  end.

(** ** References and relation slots ([model.rs]) *)

Module ObjectRef.
Section object_ref.
Context `{P : Platform}.

Record ObjectRef : Type := {
  object_type : ProjectViewObjectType;
  object_id : Uuid;
}.

#[global] Instance ObjectRef_eq_dec : EqDecision ObjectRef.
Proof. solve_decision. Defined.
End object_ref.
End ObjectRef.
Abbreviation ObjectRef := ObjectRef.ObjectRef.

Module ProjectViewRelations.
Section relations.
Context `{P : Platform}.

Record ProjectViewRelations : Type := {
  under_goal_id : option Uuid;
  under_plan_id : option Uuid;
  planned_in_stage_id : option Uuid;
  about : option ObjectRef;
  handles : option ObjectRef;
}.

#[global] Instance ProjectViewRelations_eq_dec : EqDecision ProjectViewRelations.
Proof. solve_decision. Defined.
End relations.
End ProjectViewRelations.
Abbreviation ProjectViewRelations := ProjectViewRelations.ProjectViewRelations.

Section relations_methods.
Context `{P : Platform}.

(** [ProjectViewRelations::default] *)
Definition ProjectViewRelations_default : ProjectViewRelations := {|
  ProjectViewRelations.under_goal_id := None;
  ProjectViewRelations.under_plan_id := None;
  ProjectViewRelations.planned_in_stage_id := None;
  ProjectViewRelations.about := None;
  ProjectViewRelations.handles := None;
|}.

(** [ProjectViewRelations::is_empty] *)
Definition ProjectViewRelations_is_empty (self : ProjectViewRelations) : bool :=
  negb (opt_is_some (ProjectViewRelations.under_goal_id self))
  && negb (opt_is_some (ProjectViewRelations.under_plan_id self))
  && negb (opt_is_some (ProjectViewRelations.planned_in_stage_id self))
  && negb (opt_is_some (ProjectViewRelations.about self))
  && negb (opt_is_some (ProjectViewRelations.handles self)).

End relations_methods.

(** ** Patch fields ([patch.rs]) *)

Module Patch.
Inductive Patch (T : Type) : Type :=
| Unchanged
| Clear
| Set_ (value : T).
Arguments Unchanged {T}.
Arguments Clear {T}.
Arguments Set_ {T} value.

#[global] Instance Patch_eq_dec T `{EqDecision T} : EqDecision (Patch T).
Proof. solve_decision. Defined.
End Patch.
Abbreviation Patch := Patch.Patch.

(** [Patch::is_unchanged] *)
Definition Patch_is_unchanged {T} (self : Patch T) : bool :=
  match self with Patch.Unchanged => true | _ => false end.

(** [Patch::is_clear] *)
Definition Patch_is_clear {T} (self : Patch T) : bool :=
  match self with Patch.Clear => true | _ => false end.

(** [Patch::map] *)
Definition Patch_map {T U} (self : Patch T) (map : T → U) : Patch U :=
  match self with
  | Patch.Unchanged => Patch.Unchanged
  | Patch.Clear => Patch.Clear
  | Patch.Set_ value => Patch.Set_ (map value)
  end.

(** ** Domain errors ([error.rs]) *)

Module DomainError.
Section domain_error.
Context `{P : Platform}.

Inductive DomainError : Type :=
| InvalidMutationJson (reason : Text)
| MutationContentTooLarge (max actual : N)
| MutationJsonTooDeep (max actual : N)
| UnsupportedSchemaVersion (got supported : N)
| NotInitialized
| AlreadyInitialized
| RevisionOutOfRange (revision max : N)
| RevisionConflict (expected actual : N)
| RevisionExhausted
| InvalidInitialGoalCount (min max actual : N)
| InvalidObjectId (object_id : Uuid)
| ReservedProfileId (object_id : Uuid)
| ObjectIdAlreadyUsed (object_id : Uuid)
| ObjectNotFound (object_id : Uuid)
| ObjectDeleted (object_id : Uuid)
| ObjectTypeMismatch (object_id : Uuid) (expected actual : ProjectViewObjectType)
| DataTypeMismatch (declared actual : ProjectViewObjectType)
| ProfileCreateForbidden
| ImmutableField (field : string)
| InvalidField (field : string) (reason : Text)
| RequiredField (field : string)
| FieldTooLong (field : string) (max actual : N)
| TooManyItems (field : string) (max actual : N)
| InvalidLocator (reason : Text)
| InvalidRelation (relation : string) (reason : Text)
| MissingRequiredRelation (relation : string)
| RelationNotAllowed (relation : string) (object_type : ProjectViewObjectType)
| RelationTargetNotFound (relation : string) (target_id : Uuid)
| RelationTargetDeleted (relation : string) (target_id : Uuid)
| RelationTargetTypeMismatch (relation : string) (target_id : Uuid)
    (declared actual : ProjectViewObjectType)
| SelfReference (relation : string) (object_id : Uuid)
| InvalidWorkTarget (actual : ProjectViewObjectType)
| ObjectStillReferenced (object_id : Uuid) (relation : string)
| ProfileDeletionForbidden
| LastGoalDeletionForbidden
| NoChanges
| InvalidFinalState (reason : Text).

#[global] Instance DomainError_eq_dec : EqDecision DomainError.
Proof. solve_decision. Defined.
End domain_error.
End DomainError.
Abbreviation DomainError := DomainError.DomainError.
Abbreviation DomainResult T := (result T DomainError).

Section error_methods.
Context `{P : Platform}.

(** [DomainError::code] *)
Definition DomainError_code (self : DomainError) : string :=
  match self with
  | DomainError.InvalidMutationJson _ => "invalid_json"
  | DomainError.MutationContentTooLarge _ _ => "content_too_large"
  | DomainError.MutationJsonTooDeep _ _ => "json_too_deep"
  | DomainError.UnsupportedSchemaVersion _ _ => "schema_version"
  | DomainError.NotInitialized => "not_initialized"
  | DomainError.AlreadyInitialized => "already_initialized"
  | DomainError.RevisionOutOfRange _ _ => "revision_out_of_range"
  | DomainError.RevisionConflict _ _ => "revision"
  | DomainError.RevisionExhausted => "revision_exhausted"
  | DomainError.InvalidInitialGoalCount _ _ _ => "initial_goal_count"
  | DomainError.InvalidObjectId _ => "invalid_object_id"
  | DomainError.ReservedProfileId _ => "reserved_profile_id"
  | DomainError.ObjectIdAlreadyUsed _ => "object_id_used"
  | DomainError.ObjectNotFound _ => "object_not_found"
  | DomainError.ObjectDeleted _ => "object_deleted"
  | DomainError.ObjectTypeMismatch _ _ _ => "object_type"
  | DomainError.DataTypeMismatch _ _ => "data_type"
  | DomainError.ProfileCreateForbidden => "profile_create_forbidden"
  | DomainError.ImmutableField _ => "immutable_field"
  | DomainError.InvalidField _ _ => "invalid_field"
  | DomainError.RequiredField _ => "required_field"
  | DomainError.FieldTooLong _ _ _ => "field_too_long"
  | DomainError.TooManyItems _ _ _ => "too_many_items"
  | DomainError.InvalidLocator _ => "invalid_locator"
  | DomainError.InvalidRelation _ _ => "invalid_relation"
  | DomainError.MissingRequiredRelation _ => "missing_relation"
  | DomainError.RelationNotAllowed _ _ => "relation_not_allowed"
  | DomainError.RelationTargetNotFound _ _ => "relation_target_not_found"
  | DomainError.RelationTargetDeleted _ _ => "relation_target_deleted"
  | DomainError.RelationTargetTypeMismatch _ _ _ _ => "relation_target_type"
  | DomainError.SelfReference _ _ => "self_reference"
  | DomainError.InvalidWorkTarget _ => "invalid_work_target"
  | DomainError.ObjectStillReferenced _ _ => "object_referenced"
  | DomainError.ProfileDeletionForbidden => "profile_delete_forbidden"
  | DomainError.LastGoalDeletionForbidden => "last_goal_delete_forbidden"
  | DomainError.NoChanges => "no_changes"
  | DomainError.InvalidFinalState _ => "invalid_final_state"
  end.

(** The [Display] text of a domain error ([thiserror]). *)
Definition DomainError_to_string (self : DomainError) : Text :=
  match self with
  | DomainError.InvalidMutationJson reason =>
      lit "invalid Project View mutation JSON: " ++ reason
  | DomainError.MutationContentTooLarge max actual =>
      lit "mutation content exceeds " ++ fmt_u64 max ++ lit " UTF-8 bytes (got "
      ++ fmt_u64 actual ++ lit ")"
  | DomainError.MutationJsonTooDeep max actual =>
      lit "mutation JSON nesting depth exceeds " ++ fmt_u64 max ++ lit " (got "
      ++ fmt_u64 actual ++ lit ")"
  | DomainError.UnsupportedSchemaVersion got supported =>
      lit "unsupported Project View schema version " ++ fmt_u64 got
      ++ lit "; supported version is " ++ fmt_u64 supported
  | DomainError.NotInitialized =>
      lit "Project View is not initialized"
  | DomainError.AlreadyInitialized =>
      lit "Project View is already initialized"
  | DomainError.RevisionOutOfRange revision max =>
      lit "revision " ++ fmt_u64 revision ++ lit " exceeds the maximum supported value "
      ++ fmt_u64 max
  | DomainError.RevisionConflict expected actual =>
      lit "project revision conflict: expected " ++ fmt_u64 expected ++ lit ", current "
      ++ fmt_u64 actual
  | DomainError.RevisionExhausted =>
      lit "Project View revision space is exhausted"
  | DomainError.InvalidInitialGoalCount min max actual =>
      lit "initial goal count " ++ fmt_u64 actual ++ lit " is outside the allowed range "
      ++ fmt_u64 min ++ lit "..=" ++ fmt_u64 max
  | DomainError.InvalidObjectId object_id =>
      lit "object id " ++ Uuid_display object_id ++ lit " must be a UUID v4"
  | DomainError.ReservedProfileId object_id =>
      lit "object id " ++ Uuid_display object_id ++ lit " is reserved for the project profile"
  | DomainError.ObjectIdAlreadyUsed object_id =>
      lit "object id " ++ Uuid_display object_id ++ lit " has already been used"
  | DomainError.ObjectNotFound object_id =>
      lit "object " ++ Uuid_display object_id ++ lit " was not found"
  | DomainError.ObjectDeleted object_id =>
      lit "object " ++ Uuid_display object_id ++ lit " has been deleted"
  | DomainError.ObjectTypeMismatch object_id expected actual =>
      lit "object " ++ Uuid_display object_id ++ lit " has type "
      ++ lit (ProjectViewObjectType_as_str actual) ++ lit ", not "
      ++ lit (ProjectViewObjectType_as_str expected)
  | DomainError.DataTypeMismatch declared actual =>
      lit "object data has type " ++ lit (ProjectViewObjectType_as_str actual)
      ++ lit ", not declared type " ++ lit (ProjectViewObjectType_as_str declared)
  | DomainError.ProfileCreateForbidden =>
      lit "the project profile can only be created by initialization"
  | DomainError.ImmutableField field =>
      lit "field " ++ lit field ++ lit " is immutable"
  | DomainError.InvalidField field reason =>
      lit "invalid field " ++ lit field ++ lit ": " ++ reason
  | DomainError.RequiredField field =>
      lit "field " ++ lit field ++ lit " is required"
  | DomainError.FieldTooLong field max actual =>
      lit "field " ++ lit field ++ lit " exceeds " ++ fmt_u64 max ++ lit " UTF-8 bytes (got "
      ++ fmt_u64 actual ++ lit ")"
  | DomainError.TooManyItems field max actual =>
      lit "field " ++ lit field ++ lit " has too many items: maximum " ++ fmt_u64 max
      ++ lit ", got " ++ fmt_u64 actual
  | DomainError.InvalidLocator reason =>
      lit "invalid resource locator: " ++ reason
  | DomainError.InvalidRelation relation reason =>
      lit "invalid relation " ++ lit relation ++ lit ": " ++ reason
  | DomainError.MissingRequiredRelation relation =>
      lit "required relation " ++ lit relation ++ lit " is missing"
  | DomainError.RelationNotAllowed relation object_type =>
      lit "relation " ++ lit relation ++ lit " is not allowed on "
      ++ lit (ProjectViewObjectType_as_str object_type)
  | DomainError.RelationTargetNotFound relation target_id =>
      lit "relation " ++ lit relation ++ lit " target " ++ Uuid_display target_id
      ++ lit " was not found"
  | DomainError.RelationTargetDeleted relation target_id =>
      lit "relation " ++ lit relation ++ lit " target " ++ Uuid_display target_id
      ++ lit " has been deleted"
  | DomainError.RelationTargetTypeMismatch relation target_id declared actual =>
      lit "relation " ++ lit relation ++ lit " target " ++ Uuid_display target_id
      ++ lit " has type " ++ lit (ProjectViewObjectType_as_str actual)
      ++ lit ", not declared type " ++ lit (ProjectViewObjectType_as_str declared)
  | DomainError.SelfReference relation object_id =>
      lit "relation " ++ lit relation ++ lit " cannot reference its source object "
      ++ Uuid_display object_id
  | DomainError.InvalidWorkTarget actual =>
      lit "work handles target must be a requirement or issue, got "
      ++ lit (ProjectViewObjectType_as_str actual)
  | DomainError.ObjectStillReferenced object_id relation =>
      lit "object " ++ Uuid_display object_id ++ lit " is still referenced through "
      ++ lit relation
  | DomainError.ProfileDeletionForbidden =>
      lit "the project profile cannot be deleted"
  | DomainError.LastGoalDeletionForbidden =>
      lit "the last active goal cannot be deleted"
  | DomainError.NoChanges =>
      lit "mutation would not change Project View state"
  | DomainError.InvalidFinalState reason =>
      lit "invalid final Project View state: " ++ reason
  end.

End error_methods.
