(* ===== verification/ViewMutation.v ===== *)
(** * Project View: typed mutations and field validation

    Models [buzz-project-view/src/mutation.rs] and the field, patch and
    relation-shape rules of [validation.rs], which schema 3 reuses for every
    object body except its own Resource. *)

From S2P Require Import Prelude Text Platform ViewModel.
From stdpp Require Import prelude strings.

(** ** Mutations ([mutation.rs]) *)

Definition MUTATION_SCHEMA_VERSION : N := 1%N.
Definition MAX_MUTATION_CONTENT_BYTES : N := 65536%N.
Definition MAX_MUTATION_JSON_DEPTH : N := 16%N.

Module InitializeGoal.
Section initialize_goal.
Context `{P : Platform}.

Record InitializeGoal : Type := {
  id : Uuid;
  title : Text;
  desired_outcome : Text;
  directions : list Text;
  summary : option Text;
}.

#[global] Instance InitializeGoal_eq_dec : EqDecision InitializeGoal.
Proof. solve_decision. Defined.
End initialize_goal.
End InitializeGoal.
Abbreviation InitializeGoal := InitializeGoal.InitializeGoal.

Module NewProjectViewObject.
Section new_object.
Context `{P : Platform}.

Inductive NewProjectViewObject : Type :=
| Goal (id : Uuid) (title desired_outcome : Text) (directions : list Text)
| Role (id : Uuid) (name purpose : Text) (responsibilities boundaries : list Text) (active : bool)
| Plan (id : Uuid) (title description : Text) (status : PlanStatus) (under_goal_id : option Uuid)
| Stage (id : Uuid) (title description : Text) (status : StageStatus) (under_plan_id : Uuid)
| Requirement (id : Uuid) (title description : Text) (status : RequirementStatus)
    (priority : Priority) (planned_in_stage_id : option Uuid)
| Issue (id : Uuid) (title description : Text) (status : IssueStatus) (priority : Priority)
    (planned_in_stage_id : option Uuid) (about : option ObjectRef)
| Work (id : Uuid) (title description : Text) (status : WorkStatus) (priority : Priority)
    (handles : ObjectRef)
| Resource (id : Uuid) (name : Text) (resource_type : ResourceType) (locator : ResourceLocator)
    (description : Text).

#[global] Instance NewProjectViewObject_eq_dec : EqDecision NewProjectViewObject.
Proof. solve_decision. Defined.
End new_object.
End NewProjectViewObject.
Abbreviation NewProjectViewObject := NewProjectViewObject.NewProjectViewObject.

Module ProfilePatch.
Record ProfilePatch : Type := {
  name : Patch Text;
  positioning : Patch Text;
  purpose : Patch Text;
  problem : Patch Text;
  scope : Patch Text;
}.
End ProfilePatch.
Abbreviation ProfilePatch := ProfilePatch.ProfilePatch.

Module GoalPatch.
Record GoalPatch : Type := {
  title : Patch Text;
  desired_outcome : Patch Text;
  directions : Patch (list Text);
}.
End GoalPatch.
Abbreviation GoalPatch := GoalPatch.GoalPatch.

Module RolePatch.
Record RolePatch : Type := {
  name : Patch Text;
  purpose : Patch Text;
  responsibilities : Patch (list Text);
  boundaries : Patch (list Text);
  active : Patch bool;
}.
End RolePatch.
Abbreviation RolePatch := RolePatch.RolePatch.

Module PlanPatch.
Section plan_patch.
Context `{P : Platform}.
Record PlanPatch : Type := {
  title : Patch Text;
  description : Patch Text;
  status : Patch PlanStatus;
  under_goal_id : Patch Uuid;
}.
End plan_patch.
End PlanPatch.
Abbreviation PlanPatch := PlanPatch.PlanPatch.

Module StagePatch.
Section stage_patch.
Context `{P : Platform}.
Record StagePatch : Type := {
  title : Patch Text;
  description : Patch Text;
  status : Patch StageStatus;
  under_plan_id : Patch Uuid;
}.
End stage_patch.
End StagePatch.
Abbreviation StagePatch := StagePatch.StagePatch.

Module RequirementPatch.
Section requirement_patch.
Context `{P : Platform}.
Record RequirementPatch : Type := {
  title : Patch Text;
  description : Patch Text;
  status : Patch RequirementStatus;
  priority : Patch Priority;
  planned_in_stage_id : Patch Uuid;
}.
End requirement_patch.
End RequirementPatch.
Abbreviation RequirementPatch := RequirementPatch.RequirementPatch.

Module IssuePatch.
Section issue_patch.
Context `{P : Platform}.
Record IssuePatch : Type := {
  title : Patch Text;
  description : Patch Text;
  status : Patch IssueStatus;
  priority : Patch Priority;
  planned_in_stage_id : Patch Uuid;
  about : Patch ObjectRef;
}.
End issue_patch.
End IssuePatch.
Abbreviation IssuePatch := IssuePatch.IssuePatch.

Module WorkPatch.
Section work_patch.
Context `{P : Platform}.
Record WorkPatch : Type := {
  title : Patch Text;
  description : Patch Text;
  status : Patch WorkStatus;
  priority : Patch Priority;
  handles : Patch ObjectRef;
}.
End work_patch.
End WorkPatch.
Abbreviation WorkPatch := WorkPatch.WorkPatch.

Module ResourcePatch.
Record ResourcePatch : Type := {
  name : Patch Text;
  resource_type : Patch ResourceType;
  locator : Patch ResourceLocator;
  description : Patch Text;
}.
End ResourcePatch.
Abbreviation ResourcePatch := ResourcePatch.ResourcePatch.

Module UpdateMutation.
Section update_mutation.
Context `{P : Platform}.

Inductive UpdateMutation : Type :=
| ProjectProfile (object_id : Uuid) (patch : ProfilePatch)
| Goal (object_id : Uuid) (patch : GoalPatch)
| Role (object_id : Uuid) (patch : RolePatch)
| Plan (object_id : Uuid) (patch : PlanPatch)
| Stage (object_id : Uuid) (patch : StagePatch)
| Requirement (object_id : Uuid) (patch : RequirementPatch)
| Issue (object_id : Uuid) (patch : IssuePatch)
| Work (object_id : Uuid) (patch : WorkPatch)
| Resource (object_id : Uuid) (patch : ResourcePatch).
End update_mutation.
End UpdateMutation.
Abbreviation UpdateMutation := UpdateMutation.UpdateMutation.

Section mutation.
Context `{P : Platform}.

Record InitializeMutation : Type := {
  profile : ProjectProfile;
  goals : list InitializeGoal;
}.

Record CreateMutation : Type := {
  object : NewProjectViewObject;
}.

Record DeleteMutation : Type := {
  object_type : ProjectViewObjectType;
  object_id : Uuid;
}.
End mutation.

Module MutationRequest.
Section mutation_request.
Context `{P : Platform}.

Inductive MutationRequest : Type :=
| Initialize (initialize : InitializeMutation)
| Create (create : CreateMutation)
| Update (update : UpdateMutation)
| Delete (delete : DeleteMutation).
End mutation_request.
End MutationRequest.
Abbreviation MutationRequest := MutationRequest.MutationRequest.

Section mutation_methods.
Context `{P : Platform}.

(** [InitializeGoal::into_goal] *)
Definition InitializeGoal_into_goal (self : InitializeGoal) : Goal := {|
  Goal.title := InitializeGoal.title self;
  Goal.desired_outcome := InitializeGoal.desired_outcome self;
  Goal.directions := InitializeGoal.directions self;
  Goal.summary := InitializeGoal.summary self;
|}.

(** [NewProjectViewObject::id] *)
Definition NewProjectViewObject_id (self : NewProjectViewObject) : Uuid :=
  match self with
  | NewProjectViewObject.Goal id _ _ _
  | NewProjectViewObject.Role id _ _ _ _ _
  | NewProjectViewObject.Plan id _ _ _ _
  | NewProjectViewObject.Stage id _ _ _ _
  | NewProjectViewObject.Requirement id _ _ _ _ _
  | NewProjectViewObject.Issue id _ _ _ _ _ _
  | NewProjectViewObject.Work id _ _ _ _ _
  | NewProjectViewObject.Resource id _ _ _ _ => id
  end.

(** [NewProjectViewObject::object_type] *)
Definition NewProjectViewObject_object_type (self : NewProjectViewObject)
    : ProjectViewObjectType :=
  match self with
  | NewProjectViewObject.Goal _ _ _ _ => ProjectViewObjectType.Goal
  | NewProjectViewObject.Role _ _ _ _ _ _ => ProjectViewObjectType.Role
  | NewProjectViewObject.Plan _ _ _ _ _ => ProjectViewObjectType.Plan
  | NewProjectViewObject.Stage _ _ _ _ _ => ProjectViewObjectType.Stage
  | NewProjectViewObject.Requirement _ _ _ _ _ _ => ProjectViewObjectType.Requirement
  | NewProjectViewObject.Issue _ _ _ _ _ _ _ => ProjectViewObjectType.Issue
  | NewProjectViewObject.Work _ _ _ _ _ _ => ProjectViewObjectType.Work
  | NewProjectViewObject.Resource _ _ _ _ _ => ProjectViewObjectType.Resource
  end.

(** The relation slots that a creation payload can fill, over the default. *)
Definition relations_of (under_goal_id under_plan_id planned_in_stage_id : option Uuid)
    (about handles : option ObjectRef) : ProjectViewRelations := {|
  ProjectViewRelations.under_goal_id := under_goal_id;
  ProjectViewRelations.under_plan_id := under_plan_id;
  ProjectViewRelations.planned_in_stage_id := planned_in_stage_id;
  ProjectViewRelations.about := about;
  ProjectViewRelations.handles := handles;
|}.

(** [NewProjectViewObject::into_parts] *)
Definition NewProjectViewObject_into_parts (self : NewProjectViewObject)
    : Uuid * ProjectViewObjectData * ProjectViewRelations :=
  match self with
  | NewProjectViewObject.Goal id title desired_outcome directions =>
      (id,
       ProjectViewObjectData.Goal
         {| Goal.title := title; Goal.desired_outcome := desired_outcome;
            Goal.directions := directions; Goal.summary := None |},
       ProjectViewRelations_default)
  | NewProjectViewObject.Role id name purpose responsibilities boundaries active =>
      (id,
       ProjectViewObjectData.Role
         {| ProjectRole.name := name; ProjectRole.purpose := purpose;
            ProjectRole.responsibilities := responsibilities;
            ProjectRole.boundaries := boundaries; ProjectRole.active := active;
            ProjectRole.summary := None |},
       ProjectViewRelations_default)
  | NewProjectViewObject.Plan id title description status under_goal_id =>
      (id,
       ProjectViewObjectData.Plan
         {| ProjectPlan.title := title; ProjectPlan.description := description;
            ProjectPlan.status := status; ProjectPlan.summary := None |},
       relations_of under_goal_id None None None None)
  | NewProjectViewObject.Stage id title description status under_plan_id =>
      (id,
       ProjectViewObjectData.Stage
         {| ProjectStage.title := title; ProjectStage.description := description;
            ProjectStage.status := status; ProjectStage.summary := None |},
       relations_of None (Some under_plan_id) None None None)
  | NewProjectViewObject.Requirement id title description status priority planned_in_stage_id =>
      (id,
       ProjectViewObjectData.Requirement
         {| Requirement.title := title; Requirement.description := description;
            Requirement.status := status; Requirement.priority := priority;
            Requirement.summary := None |},
       relations_of None None planned_in_stage_id None None)
  | NewProjectViewObject.Issue id title description status priority planned_in_stage_id about =>
      (id,
       ProjectViewObjectData.Issue
         {| ProjectIssue.title := title; ProjectIssue.description := description;
            ProjectIssue.status := status; ProjectIssue.priority := priority;
            ProjectIssue.summary := None |},
       relations_of None None planned_in_stage_id about None)
  | NewProjectViewObject.Work id title description status priority handles =>
      (id,
       ProjectViewObjectData.Work
         {| ProjectWork.title := title; ProjectWork.description := description;
            ProjectWork.status := status; ProjectWork.priority := priority;
            ProjectWork.summary := None |},
       relations_of None None None None (Some handles))
  | NewProjectViewObject.Resource id name resource_type locator description =>
      (id,
       ProjectViewObjectData.Resource
         {| ProjectResource.name := name; ProjectResource.resource_type := resource_type;
            ProjectResource.locator := locator; ProjectResource.description := description |},
       ProjectViewRelations_default)
  end.

(** [UpdateMutation::object_id] *)
Definition UpdateMutation_object_id (self : UpdateMutation) : Uuid :=
  match self with
  | UpdateMutation.ProjectProfile object_id _
  | UpdateMutation.Goal object_id _
  | UpdateMutation.Role object_id _
  | UpdateMutation.Plan object_id _
  | UpdateMutation.Stage object_id _
  | UpdateMutation.Requirement object_id _
  | UpdateMutation.Issue object_id _
  | UpdateMutation.Work object_id _
  | UpdateMutation.Resource object_id _ => object_id
  end.

(** [UpdateMutation::object_type] *)
Definition UpdateMutation_object_type (self : UpdateMutation) : ProjectViewObjectType :=
  match self with
  | UpdateMutation.ProjectProfile _ _ => ProjectViewObjectType.ProjectProfile
  | UpdateMutation.Goal _ _ => ProjectViewObjectType.Goal
  | UpdateMutation.Role _ _ => ProjectViewObjectType.Role
  | UpdateMutation.Plan _ _ => ProjectViewObjectType.Plan
  | UpdateMutation.Stage _ _ => ProjectViewObjectType.Stage
  | UpdateMutation.Requirement _ _ => ProjectViewObjectType.Requirement
  | UpdateMutation.Issue _ _ => ProjectViewObjectType.Issue
  | UpdateMutation.Work _ _ => ProjectViewObjectType.Work
  | UpdateMutation.Resource _ _ => ProjectViewObjectType.Resource
  end.

End mutation_methods.

(** ** Field rules ([validation.rs]) *)

Definition SHORT_TEXT_MAX_BYTES : N := 256%N.
Definition LONG_TEXT_MAX_BYTES : N := 32768%N.
Definition LIST_MAX_ITEMS : N := 64%N.
Definition LIST_ITEM_MAX_BYTES : N := 512%N.
Definition LOCATOR_MAX_BYTES : N := 4096%N.

Section field_rules.
Context `{P : Platform}.

Definition validate_client_object_id (project_id object_id : Uuid) : DomainResult unit :=
  reject_if (bool_decide (object_id = project_id)) (DomainError.ReservedProfileId object_id) ?;
  reject_if (negb (Uuid_get_version_num object_id =? 4)%N || negb (Uuid_variant_is_rfc4122 object_id))
    (DomainError.InvalidObjectId object_id) ?;
  Ok tt.

Definition validate_client_generated_id (object_id : Uuid) : DomainResult unit :=
  reject_if (negb (Uuid_get_version_num object_id =? 4)%N || negb (Uuid_variant_is_rfc4122 object_id))
    (DomainError.InvalidObjectId object_id) ?;
  Ok tt.

Definition validate_revision (revision : N) : DomainResult unit :=
  reject_if (MAX_SAFE_REVISION <? revision)%N
    (DomainError.RevisionOutOfRange revision MAX_SAFE_REVISION) ?;
  Ok tt.

Definition validate_required_text (field : string) (value : Text) (max_bytes : N)
    : DomainResult unit :=
  reject_if (is_empty (trim value)) (DomainError.RequiredField field) ?;
  reject_if (max_bytes <? str_len value)%N
    (DomainError.FieldTooLong field max_bytes (str_len value)) ?;
  Ok tt.

Definition validate_required_short (field : string) (value : Text) : DomainResult unit :=
  validate_required_text field value SHORT_TEXT_MAX_BYTES.

Definition validate_required_long (field : string) (value : Text) : DomainResult unit :=
  validate_required_text field value LONG_TEXT_MAX_BYTES.

Definition validate_string_list (field : string) (values : list Text) : DomainResult unit :=
  reject_if (LIST_MAX_ITEMS <? len values)%N
    (DomainError.TooManyItems field LIST_MAX_ITEMS (len values)) ?;
  for_each (λ value, validate_required_text field value LIST_ITEM_MAX_BYTES) values ?;
  Ok tt.

Definition validate_locator (locator : ResourceLocator) : DomainResult unit :=
  let value := ResourceLocator.value locator in
  reject_if (is_empty (trim value)) (DomainError.RequiredField "locator") ?;
  reject_if (LOCATOR_MAX_BYTES <? str_len value)%N
    (DomainError.FieldTooLong "locator" LOCATOR_MAX_BYTES (str_len value)) ?;
  reject_if (existsb is_control value)
    (DomainError.InvalidLocator (lit "control characters are not allowed")) ?;
  (if bool_decide (ResourceLocator.locator_type locator = LocatorType.Url) then
     let? parsed :=
       map_err (λ error, DomainError.InvalidLocator (lit "URL cannot be parsed: " ++ error))
         (Url_parse value) in
     reject_if (negb (is_empty parsed.1) || opt_is_some parsed.2)
       (DomainError.InvalidLocator (lit "URL user information is not allowed"))
   else Ok tt) ?;
  Ok tt.

Definition validate_summary (summary : option Text) : DomainResult unit :=
  match summary with
  | None => Ok tt
  | Some summary =>
      reject_if (is_empty summary)
        (DomainError.InvalidField "summary" (lit "must be omitted or contain non-empty text")) ?;
      reject_if (contains_char 0%N summary)
        (DomainError.InvalidField "summary" (lit "must not contain NUL")) ?;
      Ok tt
  end.

Definition validate_data (data : ProjectViewObjectData) : DomainResult unit :=
  match data with
  | ProjectViewObjectData.ProjectProfile profile =>
      validate_required_short "name" (ProjectProfile.name profile) ?;
      validate_required_long "positioning" (ProjectProfile.positioning profile) ?;
      validate_required_long "purpose" (ProjectProfile.purpose profile) ?;
      validate_required_long "problem" (ProjectProfile.problem profile) ?;
      validate_required_long "scope" (ProjectProfile.scope profile) ?;
      validate_summary (ProjectProfile.summary profile)
  | ProjectViewObjectData.Goal goal =>
      validate_required_short "title" (Goal.title goal) ?;
      validate_required_long "desired_outcome" (Goal.desired_outcome goal) ?;
      validate_string_list "directions" (Goal.directions goal) ?;
      validate_summary (Goal.summary goal)
  | ProjectViewObjectData.Role role =>
      validate_required_short "name" (ProjectRole.name role) ?;
      validate_required_long "purpose" (ProjectRole.purpose role) ?;
      validate_string_list "responsibilities" (ProjectRole.responsibilities role) ?;
      validate_string_list "boundaries" (ProjectRole.boundaries role) ?;
      validate_summary (ProjectRole.summary role)
  | ProjectViewObjectData.Plan plan =>
      validate_required_short "title" (ProjectPlan.title plan) ?;
      validate_required_long "description" (ProjectPlan.description plan) ?;
      validate_summary (ProjectPlan.summary plan)
  | ProjectViewObjectData.Stage stage =>
      validate_required_short "title" (ProjectStage.title stage) ?;
      validate_required_long "description" (ProjectStage.description stage) ?;
      validate_summary (ProjectStage.summary stage)
  | ProjectViewObjectData.Requirement requirement =>
      validate_required_short "title" (Requirement.title requirement) ?;
      validate_required_long "description" (Requirement.description requirement) ?;
      validate_summary (Requirement.summary requirement)
  | ProjectViewObjectData.Issue issue =>
      validate_required_short "title" (ProjectIssue.title issue) ?;
      validate_required_long "description" (ProjectIssue.description issue) ?;
      validate_summary (ProjectIssue.summary issue)
  | ProjectViewObjectData.Work work =>
      validate_required_short "title" (ProjectWork.title work) ?;
      validate_required_long "description" (ProjectWork.description work) ?;
      validate_summary (ProjectWork.summary work)
  | ProjectViewObjectData.Resource resource =>
      validate_required_short "name" (ProjectResource.name resource) ?;
      validate_locator (ProjectResource.locator resource) ?;
      validate_required_long "description" (ProjectResource.description resource)
  end.

Definition validate_relation_shape (object_type : ProjectViewObjectType)
    (relations : ProjectViewRelations) : DomainResult unit :=
  let allowed :=
    match object_type with
    | ProjectViewObjectType.ProjectProfile
    | ProjectViewObjectType.Goal
    | ProjectViewObjectType.Role
    | ProjectViewObjectType.Resource => []
    | ProjectViewObjectType.Plan => ["under_goal_id"]
    | ProjectViewObjectType.Stage => ["under_plan_id"]
    | ProjectViewObjectType.Requirement => ["planned_in_stage_id"]
    | ProjectViewObjectType.Issue => ["planned_in_stage_id"; "about"]
    | ProjectViewObjectType.Work => ["handles"]
    end%string in
  for_each
    (λ slot : string * bool,
       reject_if (slot.2 && negb (bool_decide (slot.1 ∈ allowed)))
         (DomainError.RelationNotAllowed slot.1 object_type))
    [("under_goal_id"%string, opt_is_some (ProjectViewRelations.under_goal_id relations));
     ("under_plan_id"%string, opt_is_some (ProjectViewRelations.under_plan_id relations));
     ("planned_in_stage_id"%string,
      opt_is_some (ProjectViewRelations.planned_in_stage_id relations));
     ("about"%string, opt_is_some (ProjectViewRelations.about relations));
     ("handles"%string, opt_is_some (ProjectViewRelations.handles relations))] ?;
  match object_type with
  | ProjectViewObjectType.Stage =>
      reject_if (negb (opt_is_some (ProjectViewRelations.under_plan_id relations)))
        (DomainError.MissingRequiredRelation "under_plan_id")
  | ProjectViewObjectType.Work =>
      reject_if (negb (opt_is_some (ProjectViewRelations.handles relations)))
        (DomainError.MissingRequiredRelation "handles")
  | _ => Ok tt
  end.

(** ** Patch rules ([validation.rs]) *)

Definition validate_short_patch (patch : Patch Text) (field : string) : DomainResult unit :=
  match patch with
  | Patch.Unchanged => Ok tt
  | Patch.Clear => Err (DomainError.RequiredField field)
  | Patch.Set_ value => validate_required_short field value
  end.

Definition validate_long_patch (patch : Patch Text) (field : string) : DomainResult unit :=
  match patch with
  | Patch.Unchanged => Ok tt
  | Patch.Clear => Err (DomainError.RequiredField field)
  | Patch.Set_ value => validate_required_long field value
  end.

Definition validate_list_patch (patch : Patch (list Text)) (field : string) : DomainResult unit :=
  match patch with
  | Patch.Unchanged => Ok tt
  | Patch.Clear => Err (DomainError.RequiredField field)
  | Patch.Set_ values => validate_string_list field values
  end.

Definition validate_required_patch {T} (patch : Patch T) (field : string) : DomainResult unit :=
  if Patch_is_clear patch then Err (DomainError.RequiredField field) else Ok tt.

Definition validate_required_relation_patch {T} (patch : Patch T) (relation : string)
    : DomainResult unit :=
  if Patch_is_clear patch then Err (DomainError.MissingRequiredRelation relation) else Ok tt.

Definition validate_work_target (actual : ProjectViewObjectType) : DomainResult unit :=
  match actual with
  | ProjectViewObjectType.Requirement | ProjectViewObjectType.Issue => Ok tt
  | _ => Err (DomainError.InvalidWorkTarget actual)
  end.

Definition validate_update_input (update : UpdateMutation) : DomainResult unit :=
  (if negb (bool_decide (UpdateMutation_object_type update = ProjectViewObjectType.ProjectProfile))
   then validate_client_generated_id (UpdateMutation_object_id update)
   else Ok tt) ?;
  let? changed :=
    match update with
    | UpdateMutation.ProjectProfile _ patch =>
        validate_short_patch (ProfilePatch.name patch) "name" ?;
        validate_long_patch (ProfilePatch.positioning patch) "positioning" ?;
        validate_long_patch (ProfilePatch.purpose patch) "purpose" ?;
        validate_long_patch (ProfilePatch.problem patch) "problem" ?;
        validate_long_patch (ProfilePatch.scope patch) "scope" ?;
        Ok (negb (Patch_is_unchanged (ProfilePatch.name patch))
            || negb (Patch_is_unchanged (ProfilePatch.positioning patch))
            || negb (Patch_is_unchanged (ProfilePatch.purpose patch))
            || negb (Patch_is_unchanged (ProfilePatch.problem patch))
            || negb (Patch_is_unchanged (ProfilePatch.scope patch)))
    | UpdateMutation.Goal _ patch =>
        validate_short_patch (GoalPatch.title patch) "title" ?;
        validate_long_patch (GoalPatch.desired_outcome patch) "desired_outcome" ?;
        validate_list_patch (GoalPatch.directions patch) "directions" ?;
        Ok (negb (Patch_is_unchanged (GoalPatch.title patch))
            || negb (Patch_is_unchanged (GoalPatch.desired_outcome patch))
            || negb (Patch_is_unchanged (GoalPatch.directions patch)))
    | UpdateMutation.Role _ patch =>
        validate_short_patch (RolePatch.name patch) "name" ?;
        validate_long_patch (RolePatch.purpose patch) "purpose" ?;
        validate_list_patch (RolePatch.responsibilities patch) "responsibilities" ?;
        validate_list_patch (RolePatch.boundaries patch) "boundaries" ?;
        validate_required_patch (RolePatch.active patch) "active" ?;
        Ok (negb (Patch_is_unchanged (RolePatch.name patch))
            || negb (Patch_is_unchanged (RolePatch.purpose patch))
            || negb (Patch_is_unchanged (RolePatch.responsibilities patch))
            || negb (Patch_is_unchanged (RolePatch.boundaries patch))
            || negb (Patch_is_unchanged (RolePatch.active patch)))
    | UpdateMutation.Plan _ patch =>
        validate_short_patch (PlanPatch.title patch) "title" ?;
        validate_long_patch (PlanPatch.description patch) "description" ?;
        validate_required_patch (PlanPatch.status patch) "status" ?;
        Ok (negb (Patch_is_unchanged (PlanPatch.title patch))
            || negb (Patch_is_unchanged (PlanPatch.description patch))
            || negb (Patch_is_unchanged (PlanPatch.status patch))
            || negb (Patch_is_unchanged (PlanPatch.under_goal_id patch)))
    | UpdateMutation.Stage _ patch =>
        validate_short_patch (StagePatch.title patch) "title" ?;
        validate_long_patch (StagePatch.description patch) "description" ?;
        validate_required_patch (StagePatch.status patch) "status" ?;
        validate_required_relation_patch (StagePatch.under_plan_id patch) "under_plan_id" ?;
        Ok (negb (Patch_is_unchanged (StagePatch.title patch))
            || negb (Patch_is_unchanged (StagePatch.description patch))
            || negb (Patch_is_unchanged (StagePatch.status patch))
            || negb (Patch_is_unchanged (StagePatch.under_plan_id patch)))
    | UpdateMutation.Requirement _ patch =>
        validate_short_patch (RequirementPatch.title patch) "title" ?;
        validate_long_patch (RequirementPatch.description patch) "description" ?;
        validate_required_patch (RequirementPatch.status patch) "status" ?;
        validate_required_patch (RequirementPatch.priority patch) "priority" ?;
        Ok (negb (Patch_is_unchanged (RequirementPatch.title patch))
            || negb (Patch_is_unchanged (RequirementPatch.description patch))
            || negb (Patch_is_unchanged (RequirementPatch.status patch))
            || negb (Patch_is_unchanged (RequirementPatch.priority patch))
            || negb (Patch_is_unchanged (RequirementPatch.planned_in_stage_id patch)))
    | UpdateMutation.Issue object_id patch =>
        validate_short_patch (IssuePatch.title patch) "title" ?;
        validate_long_patch (IssuePatch.description patch) "description" ?;
        validate_required_patch (IssuePatch.status patch) "status" ?;
        validate_required_patch (IssuePatch.priority patch) "priority" ?;
        (match IssuePatch.about patch with
         | Patch.Set_ reference =>
             reject_if (bool_decide (ObjectRef.object_id reference = object_id))
               (DomainError.SelfReference "about" object_id)
         | _ => Ok tt
         end) ?;
        Ok (negb (Patch_is_unchanged (IssuePatch.title patch))
            || negb (Patch_is_unchanged (IssuePatch.description patch))
            || negb (Patch_is_unchanged (IssuePatch.status patch))
            || negb (Patch_is_unchanged (IssuePatch.priority patch))
            || negb (Patch_is_unchanged (IssuePatch.planned_in_stage_id patch))
            || negb (Patch_is_unchanged (IssuePatch.about patch)))
    | UpdateMutation.Work _ patch =>
        validate_short_patch (WorkPatch.title patch) "title" ?;
        validate_long_patch (WorkPatch.description patch) "description" ?;
        validate_required_patch (WorkPatch.status patch) "status" ?;
        validate_required_patch (WorkPatch.priority patch) "priority" ?;
        validate_required_relation_patch (WorkPatch.handles patch) "handles" ?;
        (match WorkPatch.handles patch with
         | Patch.Set_ reference => validate_work_target (ObjectRef.object_type reference)
         | _ => Ok tt
         end) ?;
        Ok (negb (Patch_is_unchanged (WorkPatch.title patch))
            || negb (Patch_is_unchanged (WorkPatch.description patch))
            || negb (Patch_is_unchanged (WorkPatch.status patch))
            || negb (Patch_is_unchanged (WorkPatch.priority patch))
            || negb (Patch_is_unchanged (WorkPatch.handles patch)))
    | UpdateMutation.Resource _ patch =>
        validate_short_patch (ResourcePatch.name patch) "name" ?;
        validate_required_patch (ResourcePatch.resource_type patch) "resource_type" ?;
        (match ResourcePatch.locator patch with
         | Patch.Clear => Err (DomainError.RequiredField "locator")
         | Patch.Set_ locator => validate_locator locator
         | Patch.Unchanged => Ok tt
         end) ?;
        validate_long_patch (ResourcePatch.description patch) "description" ?;
        Ok (negb (Patch_is_unchanged (ResourcePatch.name patch))
            || negb (Patch_is_unchanged (ResourcePatch.resource_type patch))
            || negb (Patch_is_unchanged (ResourcePatch.locator patch))
            || negb (Patch_is_unchanged (ResourcePatch.description patch)))
    end in
  if changed : bool then Ok tt else Err DomainError.NoChanges.

(** [for goal in &initialize.goals], with the ids seen so far. *)
Fixpoint validate_initial_goals (ids : list Uuid) (goals : list InitializeGoal)
    : DomainResult unit :=
  match goals with
  | [] => Ok tt
  | goal :: rest =>
      validate_client_generated_id (InitializeGoal.id goal) ?;
      reject_if (bool_decide (InitializeGoal.id goal ∈ ids))
        (DomainError.ObjectIdAlreadyUsed (InitializeGoal.id goal)) ?;
      validate_data (ProjectViewObjectData.Goal (InitializeGoal_into_goal goal)) ?;
      validate_initial_goals (InitializeGoal.id goal :: ids) rest
  end.

Definition validate_mutation_input (request : MutationRequest) : DomainResult unit :=
  match request with
  | MutationRequest.Initialize initialize =>
      reject_if (negb ((1 <=? len initialize.(goals)) && (len initialize.(goals) <=? MAX_INITIAL_GOALS)))%N
        (DomainError.InvalidInitialGoalCount 1 MAX_INITIAL_GOALS (len initialize.(goals))) ?;
      validate_data (ProjectViewObjectData.ProjectProfile initialize.(profile)) ?;
      validate_initial_goals [] initialize.(goals)
  | MutationRequest.Create create =>
      validate_client_generated_id (NewProjectViewObject_id create.(object)) ?;
      let '(object_id, data, relations) := NewProjectViewObject_into_parts create.(object) in
      validate_data data ?;
      validate_relation_shape (ProjectViewObjectData_object_type data) relations ?;
      match data with
      | ProjectViewObjectData.Issue _ =>
          reject_if
            (is_some_and (λ reference, bool_decide (ObjectRef.object_id reference = object_id))
               (ProjectViewRelations.about relations))
            (DomainError.SelfReference "about" object_id)
      | ProjectViewObjectData.Work _ =>
          match ProjectViewRelations.handles relations with
          | Some reference => validate_work_target (ObjectRef.object_type reference)
          | None => Ok tt
          end
      | _ => Ok tt
      end
  | MutationRequest.Update update => validate_update_input update
  | MutationRequest.Delete delete =>
      reject_if (bool_decide (delete.(object_type) = ProjectViewObjectType.ProjectProfile))
        DomainError.ProfileDeletionForbidden ?;
      validate_client_generated_id delete.(object_id)
  end.

End field_rules.
