(* ===== verification/ViewContract.v ===== *)
(** * Project View schema 3: Resources, Context References and Roles

    Models [buzz-project-view/src/v3/contract.rs] (the Resource body, the
    Context Reference union and its canonical order, Role definitions and the
    initialization command) with [RoleLevel] of [v2.rs]. *)

From S2P Require Import Prelude Text Platform ViewModel ViewMutation.
From stdpp Require Import prelude strings gmap.

Definition PROJECT_VIEW_V3_SCHEMA_VERSION : N := 3%N.
Definition MAX_CONTEXT_REFERENCES : N := 64%N.
Definition MAX_RESOURCE_NAME_BYTES : N := 256%N.
Definition MAX_RESOURCE_KIND_BYTES : N := 64%N.

Module RoleLevel.
Inductive RoleLevel : Type :=
| Admin
| Member.

#[global] Instance RoleLevel_eq_dec : EqDecision RoleLevel.
Proof. solve_decision. Defined.
End RoleLevel.
Abbreviation RoleLevel := RoleLevel.RoleLevel.

Module V3ContractError.
Inductive V3ContractError : Type :=
| InvalidWire (reason : Text)
| InvalidResource (reason : Text)
| InvalidContext (reason : Text)
| InvalidInitialization (reason : Text).

#[global] Instance V3ContractError_eq_dec : EqDecision V3ContractError.
Proof. solve_decision. Defined.
End V3ContractError.
Abbreviation V3ContractError := V3ContractError.V3ContractError.
Abbreviation V3ContractResult T := (result T V3ContractError).

(** ** Text rules *)

Section text_rules.
Context `{P : Platform}.

(** A byte of [value.bytes()] that is not ASCII is rejected, as is the whole
    code point; [index] counts code points, all of one byte up to there. *)
Definition resource_kind_char (index : nat) (byte : N) : bool :=
  if ((97 <=? byte) && (byte <=? 122) || (48 <=? byte) && (byte <=? 57))%N then true
  else if ((byte =? 46) || (byte =? 95) || (byte =? 45))%N then bool_decide (0 < index)
  else false.

Definition validate_resource_kind (value : Text) : V3ContractResult unit :=
  reject_if
    (is_empty value || (MAX_RESOURCE_KIND_BYTES <? str_len value)%N || contains_char 0%N value
     || negb (forallb (λ p, resource_kind_char p.1 p.2) (imap pair value)))
    (V3ContractError.InvalidResource
       (lit "resource_kind must match [a-z0-9][a-z0-9._-]{0,63}")) ?;
  Ok tt.

Definition validate_nonempty_text (field : string) (value : Text) (max : N)
    (error : Text → V3ContractError) : V3ContractResult unit :=
  reject_if
    (is_empty value || negb (bool_decide (trim value = value)) || contains_char 0%N value
     || (max <? str_len value)%N)
    (error (lit field ++ lit " must be canonical non-empty text of at most " ++ fmt_u64 max
            ++ lit " UTF-8 bytes")) ?;
  Ok tt.

(** [validate_string_list] of [v3/contract.rs] *)
Definition validate_string_list_v3 (field : string) (values : list Text)
    : V3ContractResult unit :=
  for_each (λ value, validate_nonempty_text field value 32768%N V3ContractError.InvalidWire)
    values ?;
  Ok tt.

Definition validate_positive_safe (value : N) (field : string) : V3ContractResult unit :=
  reject_if (negb ((1 <=? value) && (value <=? MAX_SAFE_REVISION)))%N
    (V3ContractError.InvalidWire
       (lit field ++ lit " must be JavaScript-safe and positive")) ?;
  Ok tt.

(** [require_uuid_v4] of [v3/contract.rs] *)
Definition require_uuid_v4_contract (value : Uuid) (field : string) : result unit Text :=
  reject_if (not_uuid_v4 value) (lit field ++ lit " must be an RFC 4122 UUID v4") ?;
  Ok tt.

End text_rules.

(** ** Resources *)

Module ProjectResourceV3.
Section resource.
Context `{P : Platform}.

Record ProjectResourceV3 : Type := {
  name : Text;
  resource_kind : Text;
  summary : option Text;
  guide_document_id : Uuid;
}.

#[global] Instance ProjectResourceV3_eq_dec : EqDecision ProjectResourceV3.
Proof. solve_decision. Defined.
End resource.
End ProjectResourceV3.
Abbreviation ProjectResourceV3 := ProjectResourceV3.ProjectResourceV3.

(** ** Context References *)

Module DocumentReferenceMode.
Inductive DocumentReferenceMode : Type :=
| Live
| Pinned.

#[global] Instance DocumentReferenceMode_eq_dec : EqDecision DocumentReferenceMode.
Proof. solve_decision. Defined.
End DocumentReferenceMode.
Abbreviation DocumentReferenceMode := DocumentReferenceMode.DocumentReferenceMode.

Module ProjectContextReference.
Section reference.
Context `{P : Platform}.

Inductive ProjectContextReference : Type :=
| Resource (resource_id : Uuid)
| Document (document_id : Uuid) (mode : DocumentReferenceMode) (document_revision : option N).

#[global] Instance ProjectContextReference_eq_dec : EqDecision ProjectContextReference.
Proof. solve_decision. Defined.
End reference.
End ProjectContextReference.
Abbreviation ProjectContextReference := ProjectContextReference.ProjectContextReference.

Section references.
Context `{P : Platform}.

(** [ProjectResourceV3::validate] *)
Definition ProjectResourceV3_validate (self : ProjectResourceV3) : V3ContractResult unit :=
  validate_nonempty_text "name" (ProjectResourceV3.name self) MAX_RESOURCE_NAME_BYTES
    V3ContractError.InvalidResource ?;
  validate_resource_kind (ProjectResourceV3.resource_kind self) ?;
  map_err (λ error, V3ContractError.InvalidResource (DomainError_to_string error))
    (validate_summary (ProjectResourceV3.summary self)) ?;
  map_err V3ContractError.InvalidResource
    (require_uuid_v4_contract (ProjectResourceV3.guide_document_id self) "guide_document_id").

(** [ProjectContextReference::validate] *)
Definition ProjectContextReference_validate (self : ProjectContextReference)
    : V3ContractResult unit :=
  match self with
  | ProjectContextReference.Resource resource_id =>
      map_err V3ContractError.InvalidContext (require_uuid_v4_contract resource_id "resource_id")
  | ProjectContextReference.Document document_id mode document_revision =>
      map_err V3ContractError.InvalidContext
        (require_uuid_v4_contract document_id "document_id") ?;
      match mode, document_revision with
      | DocumentReferenceMode.Live, None => Ok tt
      | DocumentReferenceMode.Live, Some _ =>
          Err (V3ContractError.InvalidContext
                 (lit "live Document reference must omit document_revision"))
      | DocumentReferenceMode.Pinned, None =>
          Err (V3ContractError.InvalidContext
                 (lit "pinned Document reference requires document_revision"))
      | DocumentReferenceMode.Pinned, Some revision =>
          if ((1 <=? revision) && (revision <=? MAX_SAFE_REVISION))%N then Ok tt
          else Err (V3ContractError.InvalidContext
                 (lit "pinned document_revision must be JavaScript-safe and positive"))
      end
  end.

(** [context_key] *)
Definition context_key (reference : ProjectContextReference) : N * list N * N * N :=
  match reference with
  | ProjectContextReference.Resource resource_id => (0, Uuid_as_bytes resource_id, 0, 0)%N
  | ProjectContextReference.Document document_id DocumentReferenceMode.Live _ =>
      (1, Uuid_as_bytes document_id, 0, 0)%N
  | ProjectContextReference.Document document_id DocumentReferenceMode.Pinned document_revision =>
      (1, Uuid_as_bytes document_id, 1, default 0 document_revision)%N
  end.

(** The derived order of [(u8, [u8; 16], u8, u64)]. *)
Definition context_key_cmp (a b : N * list N * N * N) : comparison :=
  let '(a1, a2, a3, a4) := a in
  let '(b1, b2, b3, b4) := b in
  then_with (N.compare a1 b1)
    (then_with (slice_cmp a2 b2) (then_with (N.compare a3 b3) (N.compare a4 b4))).

(** [ProjectContextReference::canonical_cmp] *)
Definition canonical_cmp (self other : ProjectContextReference) : comparison :=
  context_key_cmp (context_key self) (context_key other).

Definition canonicalize_context_references (references : list ProjectContextReference)
    : V3ContractResult (list ProjectContextReference) :=
  reject_if (MAX_CONTEXT_REFERENCES <? len references)%N
    (V3ContractError.InvalidContext
       (lit "at most " ++ fmt_u64 MAX_CONTEXT_REFERENCES ++ lit " references are allowed")) ?;
  for_each ProjectContextReference_validate references ?;
  let references := sort_by canonical_cmp references in
  reject_if (windows2_any (λ a b, bool_decide (a = b)) references)
    (V3ContractError.InvalidContext (lit "duplicate Context Reference coordinate")) ?;
  Ok references.

Definition require_canonical_context (references : list ProjectContextReference)
    : V3ContractResult unit :=
  let? canonical := canonicalize_context_references references in
  reject_if (negb (bool_decide (canonical = references)))
    (V3ContractError.InvalidContext (lit "Context References are not in canonical order")) ?;
  Ok tt.

End references.

(** ** Role definitions *)

Module RoleDefinitionV3.
Section role_definition.
Context `{P : Platform}.

Record RoleDefinitionV3 : Type := {
  role_id : Uuid;
  name : Text;
  purpose : Text;
  responsibilities : list Text;
  boundaries : list Text;
  level : RoleLevel;
  active : bool;
  summary : option Text;
  context_references : list ProjectContextReference;
  object_revision : N;
  project_revision : N;
  created_at : DateTime;
  updated_at : DateTime;
  created_by : PublicKey;
  updated_by : PublicKey;
}.

#[global] Instance RoleDefinitionV3_eq_dec : EqDecision RoleDefinitionV3.
Proof. solve_decision. Defined.
End role_definition.
End RoleDefinitionV3.
Abbreviation RoleDefinitionV3 := RoleDefinitionV3.RoleDefinitionV3.

Module InitialRoleDefinitionV3.
Section initial_role.
Context `{P : Platform}.

Record InitialRoleDefinitionV3 : Type := {
  role_id : Uuid;
  name : Text;
  purpose : Text;
  responsibilities : list Text;
  boundaries : list Text;
  level : RoleLevel;
  active : bool;
  summary : option Text;
  context_references : list ProjectContextReference;
}.
End initial_role.
End InitialRoleDefinitionV3.
Abbreviation InitialRoleDefinitionV3 := InitialRoleDefinitionV3.InitialRoleDefinitionV3.

Module InitialGovernanceAssignmentV3.
Section initial_assignment.
Context `{P : Platform}.

Record InitialGovernanceAssignmentV3 : Type := {
  member_pubkey : PublicKey;
  role_id : Uuid;
  proposal_id : Uuid;
  assignment_id : Uuid;
}.
End initial_assignment.
End InitialGovernanceAssignmentV3.
Abbreviation InitialGovernanceAssignmentV3 :=
  InitialGovernanceAssignmentV3.InitialGovernanceAssignmentV3.

Module ProjectViewInitializeV3Request.
Section initialize_request.
Context `{P : Platform}.

Inductive ProjectViewInitializeV3Request : Type :=
| Initialize (preparation_operation_id : Uuid) (profile : ProjectProfile)
    (goals : list InitializeGoal) (initial_roles : list InitialRoleDefinitionV3)
    (initial_governance_assignments : list InitialGovernanceAssignmentV3).
End initialize_request.
End ProjectViewInitializeV3Request.
Abbreviation ProjectViewInitializeV3Request :=
  ProjectViewInitializeV3Request.ProjectViewInitializeV3Request.

Module ProjectViewInitializeV3.
Section initialize.
Context `{P : Platform}.

Record ProjectViewInitializeV3 : Type := {
  schema_version : N;
  expected_project_revision : N;
  request : ProjectViewInitializeV3Request;
}.
End initialize.
End ProjectViewInitializeV3.
Abbreviation ProjectViewInitializeV3 := ProjectViewInitializeV3.ProjectViewInitializeV3.

Section roles.
Context `{P : Platform}.

(** [RoleDefinitionV3::validate] *)
Definition RoleDefinitionV3_validate (self : RoleDefinitionV3) : V3ContractResult unit :=
  map_err V3ContractError.InvalidWire
    (require_uuid_v4_contract (RoleDefinitionV3.role_id self) "role_id") ?;
  validate_nonempty_text "name" (RoleDefinitionV3.name self) 256%N V3ContractError.InvalidWire ?;
  validate_nonempty_text "purpose" (RoleDefinitionV3.purpose self) 32768%N
    V3ContractError.InvalidWire ?;
  validate_string_list_v3 "responsibilities" (RoleDefinitionV3.responsibilities self) ?;
  validate_string_list_v3 "boundaries" (RoleDefinitionV3.boundaries self) ?;
  map_err (λ error, V3ContractError.InvalidWire (DomainError_to_string error))
    (validate_summary (RoleDefinitionV3.summary self)) ?;
  validate_positive_safe (RoleDefinitionV3.object_revision self) "object_revision" ?;
  validate_positive_safe (RoleDefinitionV3.project_revision self) "project_revision" ?;
  reject_if (RoleDefinitionV3.updated_at self <? RoleDefinitionV3.created_at self)%Z
    (V3ContractError.InvalidWire (lit "updated_at precedes created_at")) ?;
  require_canonical_context (RoleDefinitionV3.context_references self).

Definition validate_initial_role (role : InitialRoleDefinitionV3) : V3ContractResult unit :=
  map_err V3ContractError.InvalidInitialization
    (require_uuid_v4_contract (InitialRoleDefinitionV3.role_id role) "role_id") ?;
  validate_nonempty_text "name" (InitialRoleDefinitionV3.name role) 256%N
    V3ContractError.InvalidInitialization ?;
  validate_nonempty_text "purpose" (InitialRoleDefinitionV3.purpose role) 32768%N
    V3ContractError.InvalidInitialization ?;
  validate_string_list_v3 "responsibilities" (InitialRoleDefinitionV3.responsibilities role) ?;
  validate_string_list_v3 "boundaries" (InitialRoleDefinitionV3.boundaries role) ?;
  map_err (λ error, V3ContractError.InvalidInitialization (DomainError_to_string error))
    (validate_summary (InitialRoleDefinitionV3.summary role)) ?;
  reject_if
    (negb (bool_decide (InitialRoleDefinitionV3.level role = RoleLevel.Admin))
     || negb (InitialRoleDefinitionV3.active role)
     || negb (is_empty (InitialRoleDefinitionV3.context_references role)))
    (V3ContractError.InvalidInitialization
       (lit "initial governance Roles must be active admin Roles with empty Context")) ?;
  Ok tt.

(** [for goal in goals], with the object ids inserted so far. *)
Fixpoint validate_initialize_goals (object_ids : gset Uuid) (goals : list InitializeGoal)
    : V3ContractResult (gset Uuid) :=
  match goals with
  | [] => Ok object_ids
  | goal :: rest =>
      map_err V3ContractError.InvalidInitialization
        (require_uuid_v4_contract (InitializeGoal.id goal) "goal.id") ?;
      reject_if (bool_decide (InitializeGoal.id goal ∈ object_ids))
        (V3ContractError.InvalidInitialization
           (lit "initial Goal and Role IDs must be globally unique")) ?;
      map_err (λ error, V3ContractError.InvalidInitialization (DomainError_to_string error))
        (validate_data (ProjectViewObjectData.Goal (InitializeGoal_into_goal goal))) ?;
      validate_initialize_goals ({[InitializeGoal.id goal]} ∪ object_ids) rest
  end.

(** [for role in initial_roles], with the Role and object ids inserted so far. *)
Fixpoint validate_initialize_roles (role_ids object_ids : gset Uuid)
    (initial_roles : list InitialRoleDefinitionV3) : V3ContractResult (gset Uuid) :=
  match initial_roles with
  | [] => Ok role_ids
  | role :: rest =>
      let id := InitialRoleDefinitionV3.role_id role in
      validate_initial_role role ?;
      reject_if (bool_decide (id ∈ role_ids) || bool_decide (id ∈ object_ids))
        (V3ContractError.InvalidInitialization
           (lit "initial Goal and Role IDs must be globally unique")) ?;
      validate_initialize_roles ({[id]} ∪ role_ids) ({[id]} ∪ object_ids) rest
  end.

(** [for assignment in initial_governance_assignments], with the members,
    Roles, Proposals and Assignments inserted so far. *)
Fixpoint validate_initialize_assignments (role_ids : gset Uuid) (members : list PublicKey)
    (assigned_roles proposals assignments : gset Uuid)
    (governance : list InitialGovernanceAssignmentV3) : V3ContractResult (gset Uuid) :=
  match governance with
  | [] => Ok assigned_roles
  | assignment :: rest =>
      let member_pubkey := InitialGovernanceAssignmentV3.member_pubkey assignment in
      let role_id := InitialGovernanceAssignmentV3.role_id assignment in
      let proposal_id := InitialGovernanceAssignmentV3.proposal_id assignment in
      let assignment_id := InitialGovernanceAssignmentV3.assignment_id assignment in
      for_each
        (λ field : Uuid * string,
           map_err V3ContractError.InvalidInitialization
             (require_uuid_v4_contract field.1 field.2))
        [(role_id, "role_id"%string); (proposal_id, "proposal_id"%string);
         (assignment_id, "assignment_id"%string)] ?;
      reject_if (negb (bool_decide (role_id ∈ role_ids)))
        (V3ContractError.InvalidInitialization
           (lit "every governance assignment must target an initial Role")) ?;
      reject_if
        (bool_decide (member_pubkey ∈ members) || bool_decide (role_id ∈ assigned_roles)
         || bool_decide (proposal_id ∈ proposals) || bool_decide (assignment_id ∈ assignments))
        (V3ContractError.InvalidInitialization
           (lit "members, Roles, Proposals, and Assignments must each be unique")) ?;
      validate_initialize_assignments role_ids (member_pubkey :: members)
        ({[role_id]} ∪ assigned_roles) ({[proposal_id]} ∪ proposals)
        ({[assignment_id]} ∪ assignments) rest
  end.

(** [ProjectViewInitializeV3::validate] *)
Definition ProjectViewInitializeV3_validate (self : ProjectViewInitializeV3)
    : V3ContractResult unit :=
  reject_if (negb (ProjectViewInitializeV3.schema_version self =? PROJECT_VIEW_V3_SCHEMA_VERSION)%N)
    (V3ContractError.InvalidInitialization
       (lit "schema_version must be " ++ fmt_u64 PROJECT_VIEW_V3_SCHEMA_VERSION)) ?;
  reject_if (negb (ProjectViewInitializeV3.expected_project_revision self =? 0)%N)
    (V3ContractError.InvalidInitialization
       (lit "expected_project_revision must be zero")) ?;
  let '(ProjectViewInitializeV3Request.Initialize preparation_operation_id profile goals
          initial_roles initial_governance_assignments) := ProjectViewInitializeV3.request self in
  map_err V3ContractError.InvalidInitialization
    (require_uuid_v4_contract preparation_operation_id "preparation_operation_id") ?;
  map_err (λ error, V3ContractError.InvalidInitialization (DomainError_to_string error))
    (validate_data (ProjectViewObjectData.ProjectProfile profile)) ?;
  reject_if (MAX_INITIAL_GOALS <? len goals)%N
    (V3ContractError.InvalidInitialization
       (lit "at most " ++ fmt_u64 MAX_INITIAL_GOALS ++ lit " initial Goals are allowed")) ?;
  let? object_ids := validate_initialize_goals ∅ goals in
  reject_if (is_empty initial_roles || is_empty initial_governance_assignments)
    (V3ContractError.InvalidInitialization
       (lit "initial_roles and initial_governance_assignments must be non-empty")) ?;
  let? role_ids := validate_initialize_roles ∅ object_ids initial_roles in
  let? assigned_roles :=
    validate_initialize_assignments role_ids [] ∅ ∅ ∅ initial_governance_assignments in
  reject_if (negb (bool_decide (assigned_roles = role_ids)))
    (V3ContractError.InvalidInitialization
       (lit "every initial governance Role must be assigned exactly once")) ?;
  Ok tt.

End roles.
