(* ===== verification/ViewReference.v ===== *)
(** * Project View schema 3: Context gates and Document target proofs

    Models [buzz-project-view/src/v3/context_reference.rs].  [BTreeMap] and
    [BTreeSet] are finite maps and sets; where the code iterates, it does so in
    the order of the keys. *)

From S2P Require Import Prelude Text Platform ViewModel ViewMutation ViewContract.
From stdpp Require Import prelude strings gmap fin_sets.

Module DocumentCoordinate.
Section coordinate.
Context `{P : Platform}.

Record DocumentCoordinate : Type := {
  document_id : Uuid;
  mode : DocumentReferenceMode;
  document_revision : option N;
}.

#[global] Instance DocumentCoordinate_eq_dec : EqDecision DocumentCoordinate.
Proof. solve_decision. Defined.

#[global] Instance DocumentCoordinate_countable : Countable DocumentCoordinate.
Proof.
  apply (inj_countable'
    (λ c, (document_id c, bool_decide (mode c = DocumentReferenceMode.Live), document_revision c))
    (λ t, {| document_id := t.1.1;
             mode := if t.1.2 : bool then DocumentReferenceMode.Live
                     else DocumentReferenceMode.Pinned;
             document_revision := t.2 |})).
  by intros [? [] ?].
Defined.
End coordinate.
End DocumentCoordinate.
Abbreviation DocumentCoordinate := DocumentCoordinate.DocumentCoordinate.

Module DocumentTargetState.
Inductive DocumentTargetState : Type :=
| CurrentActive (current_revision : N)
| CurrentTombstone
| ActiveContentRevision
| TombstoneRevision.

#[global] Instance DocumentTargetState_eq_dec : EqDecision DocumentTargetState.
Proof. solve_decision. Defined.
End DocumentTargetState.
Abbreviation DocumentTargetState := DocumentTargetState.DocumentTargetState.

Module V3ReferenceError.
Section reference_error.
Context `{P : Platform}.

Inductive V3ReferenceError : Type :=
| Contract (error : V3ContractError)
| ContextCapabilityUnavailable
| DocumentCapabilityUnavailable
| MissingDocumentProof (coordinate : DocumentCoordinate)
| InactiveDocumentTarget (coordinate : DocumentCoordinate) (state : DocumentTargetState)
| DuplicateProof (coordinate : DocumentCoordinate).

#[global] Instance V3ReferenceError_eq_dec : EqDecision V3ReferenceError.
Proof. solve_decision. Defined.
End reference_error.
End V3ReferenceError.
Abbreviation V3ReferenceError := V3ReferenceError.V3ReferenceError.
Abbreviation V3ReferenceResult T := (result T V3ReferenceError).

Section coordinates.
Context `{P : Platform}.

(** [DocumentCoordinate::live] *)
Definition DocumentCoordinate_live (document_id : Uuid) : DocumentCoordinate := {|
  DocumentCoordinate.document_id := document_id;
  DocumentCoordinate.mode := DocumentReferenceMode.Live;
  DocumentCoordinate.document_revision := None;
|}.

(** [DocumentCoordinate::from_context] *)
Definition DocumentCoordinate_from_context (reference : ProjectContextReference)
    : option DocumentCoordinate :=
  match reference with
  | ProjectContextReference.Resource _ => None
  | ProjectContextReference.Document document_id mode document_revision =>
      Some {| DocumentCoordinate.document_id := document_id;
              DocumentCoordinate.mode := mode;
              DocumentCoordinate.document_revision := document_revision |}
  end.

(** [DocumentCoordinate::validate] *)
Definition DocumentCoordinate_validate (self : DocumentCoordinate) : V3ReferenceResult unit :=
  let reference :=
    ProjectContextReference.Document (DocumentCoordinate.document_id self)
      (DocumentCoordinate.mode self) (DocumentCoordinate.document_revision self) in
  map_err V3ReferenceError.Contract (ProjectContextReference_validate reference).

Definition mode_rank (mode : DocumentReferenceMode) : N :=
  match mode with DocumentReferenceMode.Live => 0 | DocumentReferenceMode.Pinned => 1 end.

(** [Option<u64>] in its derived order: [None] first. *)
Definition option_cmp (a b : option N) : comparison :=
  match a, b with
  | None, None => Eq
  | None, Some _ => Lt
  | Some _, None => Gt
  | Some a, Some b => N.compare a b
  end.

(** The derived order of [DocumentCoordinate]. *)
Definition DocumentCoordinate_cmp (a b : DocumentCoordinate) : comparison :=
  then_with (Uuid_cmp (DocumentCoordinate.document_id a) (DocumentCoordinate.document_id b))
    (then_with (N.compare (mode_rank (DocumentCoordinate.mode a))
                  (mode_rank (DocumentCoordinate.mode b)))
       (option_cmp (DocumentCoordinate.document_revision a)
          (DocumentCoordinate.document_revision b))).

End coordinates.

(** ** Sparse proofs *)

Section proofs.
Context `{P : Platform}.

Record ReferenceTargetProof : Type := {
  documents : gmap DocumentCoordinate DocumentTargetState;
}.

Record DocumentTargetDelta : Type := {
  context_documents : gset DocumentCoordinate;
  guide_document : option DocumentCoordinate;
}.

#[global] Instance DocumentTargetDelta_eq_dec : EqDecision DocumentTargetDelta.
Proof. solve_decision. Defined.

(** [ReferenceTargetProof::new] *)
Definition ReferenceTargetProof_new : ReferenceTargetProof := {| documents := ∅ |}.

(** The loop of [ReferenceTargetProof::from_documents]. *)
Fixpoint insert_documents (proof : ReferenceTargetProof)
    (rows : list (DocumentCoordinate * DocumentTargetState))
    : V3ReferenceResult ReferenceTargetProof :=
  match rows with
  | [] => Ok proof
  | (coordinate, state) :: rest =>
      DocumentCoordinate_validate coordinate ?;
      reject_if (opt_is_some (proof.(documents) !! coordinate))
        (V3ReferenceError.DuplicateProof coordinate) ?;
      insert_documents {| documents := <[coordinate := state]> proof.(documents) |} rest
  end.

(** [ReferenceTargetProof::from_documents] *)
Definition ReferenceTargetProof_from_documents
    (rows : list (DocumentCoordinate * DocumentTargetState))
    : V3ReferenceResult ReferenceTargetProof :=
  insert_documents ReferenceTargetProof_new rows.

(** The facts that make a coordinate valid for its mode. *)
Definition target_valid (mode : DocumentReferenceMode) (state : DocumentTargetState) : bool :=
  match mode, state with
  | DocumentReferenceMode.Live, DocumentTargetState.CurrentActive current_revision =>
      (1 <=? current_revision)%N
  | DocumentReferenceMode.Pinned, DocumentTargetState.ActiveContentRevision => true
  | _, _ => false
  end.

(** [ReferenceTargetProof::validate_required] *)
Definition ReferenceTargetProof_validate_required (self : ReferenceTargetProof)
    (required : gset DocumentCoordinate) : V3ReferenceResult unit :=
  for_each
    (λ coordinate,
       DocumentCoordinate_validate coordinate ?;
       let? state :=
         ok_or (self.(documents) !! coordinate)
           (V3ReferenceError.MissingDocumentProof coordinate) in
       let valid := target_valid (DocumentCoordinate.mode coordinate) state in
       reject_if (negb valid) (V3ReferenceError.InactiveDocumentTarget coordinate state))
    (sort_by DocumentCoordinate_cmp (elements required)) ?;
  Ok tt.

(** [DocumentTargetDelta::default] *)
Definition DocumentTargetDelta_default : DocumentTargetDelta := {|
  context_documents := ∅;
  guide_document := None;
|}.

(** [DocumentTargetDelta::required_coordinates] *)
Definition DocumentTargetDelta_required_coordinates (self : DocumentTargetDelta)
    : gset DocumentCoordinate :=
  match self.(guide_document) with
  | Some guide => {[guide]} ∪ self.(context_documents)
  | None => self.(context_documents)
  end.

(** [DocumentTargetDelta::is_empty] *)
Definition DocumentTargetDelta_is_empty (self : DocumentTargetDelta) : bool :=
  bool_decide (self.(context_documents) = ∅) && negb (opt_is_some self.(guide_document)).

Definition validate_context_replacement (current replacement : list ProjectContextReference)
    (project_context_enabled : bool) : V3ReferenceResult (list ProjectContextReference) :=
  let? replacement :=
    map_err V3ReferenceError.Contract (canonicalize_context_references replacement) in
  if project_context_enabled then Ok replacement
  else
    let? current := map_err V3ReferenceError.Contract (canonicalize_context_references current) in
    if forallb (λ reference, bool_decide (reference ∈ current)) replacement then Ok replacement
    else Err V3ReferenceError.ContextCapabilityUnavailable.

Definition introduced_document_targets (current_context next_context : list ProjectContextReference)
    (current_guide_document_id next_guide_document_id : option Uuid) : DocumentTargetDelta :=
  let current_documents : gset DocumentCoordinate :=
    list_to_set (omap DocumentCoordinate_from_context current_context) in
  let context_documents : gset DocumentCoordinate :=
    list_to_set
      (filter (λ coordinate, coordinate ∉ current_documents)
         (omap DocumentCoordinate_from_context next_context)) in
  let guide_document :=
    DocumentCoordinate_live
    <$> option_filter (λ next, negb (bool_decide (Some next = current_guide_document_id)))
          next_guide_document_id in
  {| context_documents := context_documents; guide_document := guide_document |}.

Definition validate_document_target_delta (delta : DocumentTargetDelta)
    (document_capability_available : bool) (proof : ReferenceTargetProof)
    : V3ReferenceResult unit :=
  if DocumentTargetDelta_is_empty delta then Ok tt
  else
    reject_if (negb document_capability_available)
      V3ReferenceError.DocumentCapabilityUnavailable ?;
    ReferenceTargetProof_validate_required proof
      (DocumentTargetDelta_required_coordinates delta).

End proofs.
