(* ===== verification/ViewObject.v ===== *)
(** * Project View schema 3: canonical objects

    Models [buzz-project-view/src/v3/model.rs] and the error type of
    [v3/project_object.rs]. *)

From S2P Require Import Prelude Text Platform ViewModel ViewMutation ViewContract.
From S2P Require Import ViewReference.
From stdpp Require Import prelude strings.

Module V3ProjectObjectError.
Section object_error.
Context `{P : Platform}.

Inductive V3ProjectObjectError : Type :=
| Object (error : DomainError)
| Contract (error : V3ContractError)
| Reference (error : V3ReferenceError)
| ResourceSourceReferenceForbidden
| InvalidResourceTarget (resource_id : Uuid)
| ResourceStillContextReferenced (resource_id source_object_id : Uuid)
| InvalidRoleLevels (reason : Text).

#[global] Instance V3ProjectObjectError_eq_dec : EqDecision V3ProjectObjectError.
Proof. solve_decision. Defined.
End object_error.
End V3ProjectObjectError.
Abbreviation V3ProjectObjectError := V3ProjectObjectError.V3ProjectObjectError.
Abbreviation V3Result T := (result T V3ProjectObjectError).

(** [.into()] of the three wrapped error types. *)
Abbreviation from_domain := (map_err V3ProjectObjectError.Object).
Abbreviation from_contract := (map_err V3ProjectObjectError.Contract).
Abbreviation from_reference := (map_err V3ProjectObjectError.Reference).

Module ProjectViewObjectDataV3.
Section object_data.
Context `{P : Platform}.

Inductive ProjectViewObjectDataV3 : Type :=
| ProjectProfile (value : ProjectProfile)
| Goal (value : Goal)
| Role (value : ProjectRole)
| Plan (value : ProjectPlan)
| Stage (value : ProjectStage)
| Requirement (value : Requirement)
| Issue (value : ProjectIssue)
| Work (value : ProjectWork)
| Resource (value : ProjectResourceV3).

#[global] Instance ProjectViewObjectDataV3_eq_dec : EqDecision ProjectViewObjectDataV3.
Proof. solve_decision. Defined.
End object_data.
End ProjectViewObjectDataV3.
Abbreviation ProjectViewObjectDataV3 := ProjectViewObjectDataV3.ProjectViewObjectDataV3.

Module ProjectViewObjectV3.
Section object.
Context `{P : Platform}.

Record ProjectViewObjectV3 : Type := {
  id : Uuid;
  object_type : ProjectViewObjectType;
  object_revision : N;
  project_revision : N;
  created_at : DateTime;
  updated_at : DateTime;
  created_by : PublicKey;
  updated_by : PublicKey;
  data : ProjectViewObjectDataV3;
  relations : ProjectViewRelations;
  context_references : list ProjectContextReference;
}.

#[global] Instance ProjectViewObjectV3_eq_dec : EqDecision ProjectViewObjectV3.
Proof. solve_decision. Defined.
End object.
End ProjectViewObjectV3.
Abbreviation ProjectViewObjectV3 := ProjectViewObjectV3.ProjectViewObjectV3.

Module ProjectViewTombstoneV3.
Section tombstone.
Context `{P : Platform}.

Record ProjectViewTombstoneV3 : Type := {
  id : Uuid;
  object_type : ProjectViewObjectType;
  object_revision : N;
  project_revision : N;
  created_at : DateTime;
  deleted_at : DateTime;
  created_by : PublicKey;
  deleted_by : PublicKey;
}.

#[global] Instance ProjectViewTombstoneV3_eq_dec : EqDecision ProjectViewTombstoneV3.
Proof. solve_decision. Defined.
End tombstone.
End ProjectViewTombstoneV3.
Abbreviation ProjectViewTombstoneV3 := ProjectViewTombstoneV3.ProjectViewTombstoneV3.

Module ProjectViewEntryV3.
Section entry.
Context `{P : Platform}.

Inductive ProjectViewEntryV3 : Type :=
| Active (object : ProjectViewObjectV3)
| Tombstone (tombstone : ProjectViewTombstoneV3).

#[global] Instance ProjectViewEntryV3_eq_dec : EqDecision ProjectViewEntryV3.
Proof. solve_decision. Defined.
End entry.
End ProjectViewEntryV3.
Abbreviation ProjectViewEntryV3 := ProjectViewEntryV3.ProjectViewEntryV3.

Section object_methods.
Context `{P : Platform}.

(** [ProjectViewObjectDataV3::object_type] *)
Definition ProjectViewObjectDataV3_object_type (self : ProjectViewObjectDataV3)
    : ProjectViewObjectType :=
  match self with
  | ProjectViewObjectDataV3.ProjectProfile _ => ProjectViewObjectType.ProjectProfile
  | ProjectViewObjectDataV3.Goal _ => ProjectViewObjectType.Goal
  | ProjectViewObjectDataV3.Role _ => ProjectViewObjectType.Role
  | ProjectViewObjectDataV3.Plan _ => ProjectViewObjectType.Plan
  | ProjectViewObjectDataV3.Stage _ => ProjectViewObjectType.Stage
  | ProjectViewObjectDataV3.Requirement _ => ProjectViewObjectType.Requirement
  | ProjectViewObjectDataV3.Issue _ => ProjectViewObjectType.Issue
  | ProjectViewObjectDataV3.Work _ => ProjectViewObjectType.Work
  | ProjectViewObjectDataV3.Resource _ => ProjectViewObjectType.Resource
  end.

(** [ProjectViewObjectDataV3::summary] *)
Definition ProjectViewObjectDataV3_summary (self : ProjectViewObjectDataV3) : option Text :=
  match self with
  | ProjectViewObjectDataV3.ProjectProfile value => ProjectProfile.summary value
  | ProjectViewObjectDataV3.Goal value => Goal.summary value
  | ProjectViewObjectDataV3.Role value => ProjectRole.summary value
  | ProjectViewObjectDataV3.Plan value => ProjectPlan.summary value
  | ProjectViewObjectDataV3.Stage value => ProjectStage.summary value
  | ProjectViewObjectDataV3.Requirement value => Requirement.summary value
  | ProjectViewObjectDataV3.Issue value => ProjectIssue.summary value
  | ProjectViewObjectDataV3.Work value => ProjectWork.summary value
  | ProjectViewObjectDataV3.Resource value => ProjectResourceV3.summary value
  end.

(** [ProjectViewObjectDataV3::title] *)
Definition ProjectViewObjectDataV3_title (self : ProjectViewObjectDataV3) : Text :=
  match self with
  | ProjectViewObjectDataV3.ProjectProfile value => ProjectProfile.name value
  | ProjectViewObjectDataV3.Goal value => Goal.title value
  | ProjectViewObjectDataV3.Role value => ProjectRole.name value
  | ProjectViewObjectDataV3.Plan value => ProjectPlan.title value
  | ProjectViewObjectDataV3.Stage value => ProjectStage.title value
  | ProjectViewObjectDataV3.Requirement value => Requirement.title value
  | ProjectViewObjectDataV3.Issue value => ProjectIssue.title value
  | ProjectViewObjectDataV3.Work value => ProjectWork.title value
  | ProjectViewObjectDataV3.Resource value => ProjectResourceV3.name value
  end.

(** [ProjectViewObjectDataV3::source_status] *)
Definition ProjectViewObjectDataV3_source_status (self : ProjectViewObjectDataV3)
    : option string :=
  match self with
  | ProjectViewObjectDataV3.Role value =>
      Some (if ProjectRole.active value then "active" else "inactive")%string
  | ProjectViewObjectDataV3.Plan value => Some (PlanStatus_as_str (ProjectPlan.status value))
  | ProjectViewObjectDataV3.Stage value => Some (StageStatus_as_str (ProjectStage.status value))
  | ProjectViewObjectDataV3.Requirement value =>
      Some (RequirementStatus_as_str (Requirement.status value))
  | ProjectViewObjectDataV3.Issue value => Some (IssueStatus_as_str (ProjectIssue.status value))
  | ProjectViewObjectDataV3.Work value => Some (WorkStatus_as_str (ProjectWork.status value))
  | ProjectViewObjectDataV3.ProjectProfile _
  | ProjectViewObjectDataV3.Goal _
  | ProjectViewObjectDataV3.Resource _ => None
  end.

(** [ProjectViewObjectV3::role_definition] *)
Definition ProjectViewObjectV3_role_definition (self : ProjectViewObjectV3) (level : RoleLevel)
    : V3ContractResult RoleDefinitionV3 :=
  match ProjectViewObjectV3.data self with
  | ProjectViewObjectDataV3.Role role =>
      let definition := {|
        RoleDefinitionV3.role_id := ProjectViewObjectV3.id self;
        RoleDefinitionV3.name := ProjectRole.name role;
        RoleDefinitionV3.purpose := ProjectRole.purpose role;
        RoleDefinitionV3.responsibilities := ProjectRole.responsibilities role;
        RoleDefinitionV3.boundaries := ProjectRole.boundaries role;
        RoleDefinitionV3.level := level;
        RoleDefinitionV3.active := ProjectRole.active role;
        RoleDefinitionV3.summary := ProjectRole.summary role;
        RoleDefinitionV3.context_references := ProjectViewObjectV3.context_references self;
        RoleDefinitionV3.object_revision := ProjectViewObjectV3.object_revision self;
        RoleDefinitionV3.project_revision := ProjectViewObjectV3.project_revision self;
        RoleDefinitionV3.created_at := ProjectViewObjectV3.created_at self;
        RoleDefinitionV3.updated_at := ProjectViewObjectV3.updated_at self;
        RoleDefinitionV3.created_by := ProjectViewObjectV3.created_by self;
        RoleDefinitionV3.updated_by := ProjectViewObjectV3.updated_by self;
      |} in
      RoleDefinitionV3_validate definition ?;
      Ok definition
  | _ => Err (V3ContractError.InvalidWire (lit "RoleDefinitionV3 requires a Role object"))
  end.

(** [ProjectViewEntryV3::id] *)
Definition ProjectViewEntryV3_id (self : ProjectViewEntryV3) : Uuid :=
  match self with
  | ProjectViewEntryV3.Active object => ProjectViewObjectV3.id object
  | ProjectViewEntryV3.Tombstone tombstone => ProjectViewTombstoneV3.id tombstone
  end.

(** [ProjectViewEntryV3::object_type] *)
Definition ProjectViewEntryV3_object_type (self : ProjectViewEntryV3) : ProjectViewObjectType :=
  match self with
  | ProjectViewEntryV3.Active object => ProjectViewObjectV3.object_type object
  | ProjectViewEntryV3.Tombstone tombstone => ProjectViewTombstoneV3.object_type tombstone
  end.

(** [ProjectViewEntryV3::object_revision] *)
Definition ProjectViewEntryV3_object_revision (self : ProjectViewEntryV3) : N :=
  match self with
  | ProjectViewEntryV3.Active object => ProjectViewObjectV3.object_revision object
  | ProjectViewEntryV3.Tombstone tombstone => ProjectViewTombstoneV3.object_revision tombstone
  end.

(** [ProjectViewEntryV3::project_revision] *)
Definition ProjectViewEntryV3_project_revision (self : ProjectViewEntryV3) : N :=
  match self with
  | ProjectViewEntryV3.Active object => ProjectViewObjectV3.project_revision object
  | ProjectViewEntryV3.Tombstone tombstone => ProjectViewTombstoneV3.project_revision tombstone
  end.

(** [ProjectViewEntryV3::context_references] *)
Definition ProjectViewEntryV3_context_references (self : ProjectViewEntryV3)
    : list ProjectContextReference :=
  match self with
  | ProjectViewEntryV3.Active object => ProjectViewObjectV3.context_references object
  | ProjectViewEntryV3.Tombstone _ => []
  end.

End object_methods.
