(* ===== verification/ViewCommand.v ===== *)
(** * Project View schema 3: commands

    Models the command half of [buzz-project-view/src/v3/project_object.rs]
    (create, update and delete payloads, their patches and their submission
    rules) and the body and patch rules of [v3/validation.rs]. *)

From S2P Require Import Prelude Text Platform ViewModel ViewMutation.
From S2P Require Import ViewContract ViewReference ViewObject.
From stdpp Require Import prelude strings.

(** ** Creation payloads *)

Module NewProjectViewObjectV3.
Section new_object.
Context `{P : Platform}.

Inductive NewProjectViewObjectV3 : Type :=
| Goal (id : Uuid) (title desired_outcome : Text) (directions : list Text)
    (summary : option Text) (context_references : list ProjectContextReference)
| Role (id : Uuid) (name purpose : Text) (responsibilities boundaries : list Text) (active : bool)
    (summary : option Text) (context_references : list ProjectContextReference)
| Plan (id : Uuid) (title description : Text) (status : PlanStatus) (summary : option Text)
    (under_goal_id : option Uuid) (context_references : list ProjectContextReference)
| Stage (id : Uuid) (title description : Text) (status : StageStatus) (summary : option Text)
    (under_plan_id : Uuid) (context_references : list ProjectContextReference)
| Requirement (id : Uuid) (title description : Text) (status : RequirementStatus)
    (priority : Priority) (summary : option Text) (planned_in_stage_id : option Uuid)
    (context_references : list ProjectContextReference)
| Issue (id : Uuid) (title description : Text) (status : IssueStatus) (priority : Priority)
    (summary : option Text) (planned_in_stage_id : option Uuid) (about : option ObjectRef)
    (context_references : list ProjectContextReference)
| Work (id : Uuid) (title description : Text) (status : WorkStatus) (priority : Priority)
    (summary : option Text) (handles : ObjectRef)
    (context_references : list ProjectContextReference)
| Resource (id : Uuid) (name resource_kind : Text) (summary : option Text)
    (guide_document_id : Uuid) (context_references : list ProjectContextReference).
End new_object.
End NewProjectViewObjectV3.
Abbreviation NewProjectViewObjectV3 := NewProjectViewObjectV3.NewProjectViewObjectV3.

Section new_object_methods.
Context `{P : Platform}.

(** [NewProjectViewObjectV3::id] *)
Definition NewProjectViewObjectV3_id (self : NewProjectViewObjectV3) : Uuid :=
  match self with
  | NewProjectViewObjectV3.Goal id _ _ _ _ _
  | NewProjectViewObjectV3.Role id _ _ _ _ _ _ _
  | NewProjectViewObjectV3.Plan id _ _ _ _ _ _
  | NewProjectViewObjectV3.Stage id _ _ _ _ _ _
  | NewProjectViewObjectV3.Requirement id _ _ _ _ _ _ _
  | NewProjectViewObjectV3.Issue id _ _ _ _ _ _ _ _
  | NewProjectViewObjectV3.Work id _ _ _ _ _ _ _
  | NewProjectViewObjectV3.Resource id _ _ _ _ _ => id
  end.

(** [NewProjectViewObjectV3::object_type] *)
Definition NewProjectViewObjectV3_object_type (self : NewProjectViewObjectV3)
    : ProjectViewObjectType :=
  match self with
  | NewProjectViewObjectV3.Goal _ _ _ _ _ _ => ProjectViewObjectType.Goal
  | NewProjectViewObjectV3.Role _ _ _ _ _ _ _ _ => ProjectViewObjectType.Role
  | NewProjectViewObjectV3.Plan _ _ _ _ _ _ _ => ProjectViewObjectType.Plan
  | NewProjectViewObjectV3.Stage _ _ _ _ _ _ _ => ProjectViewObjectType.Stage
  | NewProjectViewObjectV3.Requirement _ _ _ _ _ _ _ _ => ProjectViewObjectType.Requirement
  | NewProjectViewObjectV3.Issue _ _ _ _ _ _ _ _ _ => ProjectViewObjectType.Issue
  | NewProjectViewObjectV3.Work _ _ _ _ _ _ _ _ => ProjectViewObjectType.Work
  | NewProjectViewObjectV3.Resource _ _ _ _ _ _ => ProjectViewObjectType.Resource
  end.

(** [NewProjectViewObjectV3::summary] *)
Definition NewProjectViewObjectV3_summary (self : NewProjectViewObjectV3) : option Text :=
  match self with
  | NewProjectViewObjectV3.Goal _ _ _ _ summary _
  | NewProjectViewObjectV3.Role _ _ _ _ _ _ summary _
  | NewProjectViewObjectV3.Plan _ _ _ _ summary _ _
  | NewProjectViewObjectV3.Stage _ _ _ _ summary _ _
  | NewProjectViewObjectV3.Requirement _ _ _ _ _ summary _ _
  | NewProjectViewObjectV3.Issue _ _ _ _ _ summary _ _ _
  | NewProjectViewObjectV3.Work _ _ _ _ _ summary _ _
  | NewProjectViewObjectV3.Resource _ _ _ summary _ _ => summary
  end.

(** [NewProjectViewObjectV3::into_parts] *)
Definition NewProjectViewObjectV3_into_parts (self : NewProjectViewObjectV3)
    : Uuid * ProjectViewObjectDataV3 * ProjectViewRelations * list ProjectContextReference :=
  match self with
  | NewProjectViewObjectV3.Goal id title desired_outcome directions summary context_references =>
      (id,
       ProjectViewObjectDataV3.Goal
         {| Goal.title := title; Goal.desired_outcome := desired_outcome;
            Goal.directions := directions; Goal.summary := summary |},
       ProjectViewRelations_default,
       context_references)
  | NewProjectViewObjectV3.Role id name purpose responsibilities boundaries active summary
      context_references =>
      (id,
       ProjectViewObjectDataV3.Role
         {| ProjectRole.name := name; ProjectRole.purpose := purpose;
            ProjectRole.responsibilities := responsibilities;
            ProjectRole.boundaries := boundaries; ProjectRole.active := active;
            ProjectRole.summary := summary |},
       ProjectViewRelations_default,
       context_references)
  | NewProjectViewObjectV3.Plan id title description status summary under_goal_id
      context_references =>
      (id,
       ProjectViewObjectDataV3.Plan
         {| ProjectPlan.title := title; ProjectPlan.description := description;
            ProjectPlan.status := status; ProjectPlan.summary := summary |},
       relations_of under_goal_id None None None None,
       context_references)
  | NewProjectViewObjectV3.Stage id title description status summary under_plan_id
      context_references =>
      (id,
       ProjectViewObjectDataV3.Stage
         {| ProjectStage.title := title; ProjectStage.description := description;
            ProjectStage.status := status; ProjectStage.summary := summary |},
       relations_of None (Some under_plan_id) None None None,
       context_references)
  | NewProjectViewObjectV3.Requirement id title description status priority summary
      planned_in_stage_id context_references =>
      (id,
       ProjectViewObjectDataV3.Requirement
         {| Requirement.title := title; Requirement.description := description;
            Requirement.status := status; Requirement.priority := priority;
            Requirement.summary := summary |},
       relations_of None None planned_in_stage_id None None,
       context_references)
  | NewProjectViewObjectV3.Issue id title description status priority summary
      planned_in_stage_id about context_references =>
      (id,
       ProjectViewObjectDataV3.Issue
         {| ProjectIssue.title := title; ProjectIssue.description := description;
            ProjectIssue.status := status; ProjectIssue.priority := priority;
            ProjectIssue.summary := summary |},
       relations_of None None planned_in_stage_id about None,
       context_references)
  | NewProjectViewObjectV3.Work id title description status priority summary handles
      context_references =>
      (id,
       ProjectViewObjectDataV3.Work
         {| ProjectWork.title := title; ProjectWork.description := description;
            ProjectWork.status := status; ProjectWork.priority := priority;
            ProjectWork.summary := summary |},
       relations_of None None None None (Some handles),
       context_references)
  | NewProjectViewObjectV3.Resource id name resource_kind summary guide_document_id
      context_references =>
      (id,
       ProjectViewObjectDataV3.Resource
         {| ProjectResourceV3.name := name; ProjectResourceV3.resource_kind := resource_kind;
            ProjectResourceV3.summary := summary;
            ProjectResourceV3.guide_document_id := guide_document_id |},
       ProjectViewRelations_default,
       context_references)
  end.

End new_object_methods.

(** ** Patches and updates *)

Module ProfilePatchV3.
Section patch.
Context `{P : Platform}.

Record ProfilePatchV3 : Type := {
  name : Patch Text;
  positioning : Patch Text;
  purpose : Patch Text;
  problem : Patch Text;
  scope : Patch Text;
  summary : Patch Text;
  context_references : option (list ProjectContextReference);
}.

(** [ProfilePatchV3::default] *)
Definition default : ProfilePatchV3 := {|
  name := Patch.Unchanged;
  positioning := Patch.Unchanged;
  purpose := Patch.Unchanged;
  problem := Patch.Unchanged;
  scope := Patch.Unchanged;
  summary := Patch.Unchanged;
  context_references := None;
|}.
End patch.
End ProfilePatchV3.
Abbreviation ProfilePatchV3 := ProfilePatchV3.ProfilePatchV3.

Module GoalPatchV3.
Section patch.
Context `{P : Platform}.

Record GoalPatchV3 : Type := {
  title : Patch Text;
  desired_outcome : Patch Text;
  directions : Patch (list Text);
  summary : Patch Text;
  context_references : option (list ProjectContextReference);
}.

(** [GoalPatchV3::default] *)
Definition default : GoalPatchV3 := {|
  title := Patch.Unchanged;
  desired_outcome := Patch.Unchanged;
  directions := Patch.Unchanged;
  summary := Patch.Unchanged;
  context_references := None;
|}.
End patch.
End GoalPatchV3.
Abbreviation GoalPatchV3 := GoalPatchV3.GoalPatchV3.

Module RolePatchV3.
Section patch.
Context `{P : Platform}.

Record RolePatchV3 : Type := {
  name : Patch Text;
  purpose : Patch Text;
  responsibilities : Patch (list Text);
  boundaries : Patch (list Text);
  active : Patch bool;
  summary : Patch Text;
  context_references : option (list ProjectContextReference);
}.

(** [RolePatchV3::default] *)
Definition default : RolePatchV3 := {|
  name := Patch.Unchanged;
  purpose := Patch.Unchanged;
  responsibilities := Patch.Unchanged;
  boundaries := Patch.Unchanged;
  active := Patch.Unchanged;
  summary := Patch.Unchanged;
  context_references := None;
|}.
End patch.
End RolePatchV3.
Abbreviation RolePatchV3 := RolePatchV3.RolePatchV3.

Module PlanPatchV3.
Section patch.
Context `{P : Platform}.

Record PlanPatchV3 : Type := {
  title : Patch Text;
  description : Patch Text;
  status : Patch PlanStatus;
  under_goal_id : Patch Uuid;
  summary : Patch Text;
  context_references : option (list ProjectContextReference);
}.

(** [PlanPatchV3::default] *)
Definition default : PlanPatchV3 := {|
  title := Patch.Unchanged;
  description := Patch.Unchanged;
  status := Patch.Unchanged;
  under_goal_id := Patch.Unchanged;
  summary := Patch.Unchanged;
  context_references := None;
|}.
End patch.
End PlanPatchV3.
Abbreviation PlanPatchV3 := PlanPatchV3.PlanPatchV3.

Module StagePatchV3.
Section patch.
Context `{P : Platform}.

Record StagePatchV3 : Type := {
  title : Patch Text;
  description : Patch Text;
  status : Patch StageStatus;
  under_plan_id : Patch Uuid;
  summary : Patch Text;
  context_references : option (list ProjectContextReference);
}.

(** [StagePatchV3::default] *)
Definition default : StagePatchV3 := {|
  title := Patch.Unchanged;
  description := Patch.Unchanged;
  status := Patch.Unchanged;
  under_plan_id := Patch.Unchanged;
  summary := Patch.Unchanged;
  context_references := None;
|}.
End patch.
End StagePatchV3.
Abbreviation StagePatchV3 := StagePatchV3.StagePatchV3.

Module RequirementPatchV3.
Section patch.
Context `{P : Platform}.

Record RequirementPatchV3 : Type := {
  title : Patch Text;
  description : Patch Text;
  status : Patch RequirementStatus;
  priority : Patch Priority;
  planned_in_stage_id : Patch Uuid;
  summary : Patch Text;
  context_references : option (list ProjectContextReference);
}.

(** [RequirementPatchV3::default] *)
Definition default : RequirementPatchV3 := {|
  title := Patch.Unchanged;
  description := Patch.Unchanged;
  status := Patch.Unchanged;
  priority := Patch.Unchanged;
  planned_in_stage_id := Patch.Unchanged;
  summary := Patch.Unchanged;
  context_references := None;
|}.
End patch.
End RequirementPatchV3.
Abbreviation RequirementPatchV3 := RequirementPatchV3.RequirementPatchV3.

Module IssuePatchV3.
Section patch.
Context `{P : Platform}.

Record IssuePatchV3 : Type := {
  title : Patch Text;
  description : Patch Text;
  status : Patch IssueStatus;
  priority : Patch Priority;
  planned_in_stage_id : Patch Uuid;
  about : Patch ObjectRef;
  summary : Patch Text;
  context_references : option (list ProjectContextReference);
}.

(** [IssuePatchV3::default] *)
Definition default : IssuePatchV3 := {|
  title := Patch.Unchanged;
  description := Patch.Unchanged;
  status := Patch.Unchanged;
  priority := Patch.Unchanged;
  planned_in_stage_id := Patch.Unchanged;
  about := Patch.Unchanged;
  summary := Patch.Unchanged;
  context_references := None;
|}.
End patch.
End IssuePatchV3.
Abbreviation IssuePatchV3 := IssuePatchV3.IssuePatchV3.

Module WorkPatchV3.
Section patch.
Context `{P : Platform}.

Record WorkPatchV3 : Type := {
  title : Patch Text;
  description : Patch Text;
  status : Patch WorkStatus;
  priority : Patch Priority;
  handles : Patch ObjectRef;
  summary : Patch Text;
  context_references : option (list ProjectContextReference);
}.

(** [WorkPatchV3::default] *)
Definition default : WorkPatchV3 := {|
  title := Patch.Unchanged;
  description := Patch.Unchanged;
  status := Patch.Unchanged;
  priority := Patch.Unchanged;
  handles := Patch.Unchanged;
  summary := Patch.Unchanged;
  context_references := None;
|}.
End patch.
End WorkPatchV3.
Abbreviation WorkPatchV3 := WorkPatchV3.WorkPatchV3.

Module ResourcePatchV3.
Section patch.
Context `{P : Platform}.

Record ResourcePatchV3 : Type := {
  name : Patch Text;
  resource_kind : Patch Text;
  guide_document_id : Patch Uuid;
  summary : Patch Text;
  context_references : option (list ProjectContextReference);
}.

(** [ResourcePatchV3::default] *)
Definition default : ResourcePatchV3 := {|
  name := Patch.Unchanged;
  resource_kind := Patch.Unchanged;
  guide_document_id := Patch.Unchanged;
  summary := Patch.Unchanged;
  context_references := None;
|}.
End patch.
End ResourcePatchV3.
Abbreviation ResourcePatchV3 := ResourcePatchV3.ResourcePatchV3.

Module UpdateProjectObjectV3.
Section update.
Context `{P : Platform}.

Inductive UpdateProjectObjectV3 : Type :=
| ProjectProfile (object_id : Uuid) (patch : ProfilePatchV3)
| Goal (object_id : Uuid) (patch : GoalPatchV3)
| Role (object_id : Uuid) (patch : RolePatchV3)
| Plan (object_id : Uuid) (patch : PlanPatchV3)
| Stage (object_id : Uuid) (patch : StagePatchV3)
| Requirement (object_id : Uuid) (patch : RequirementPatchV3)
| Issue (object_id : Uuid) (patch : IssuePatchV3)
| Work (object_id : Uuid) (patch : WorkPatchV3)
| Resource (object_id : Uuid) (patch : ResourcePatchV3).
End update.
End UpdateProjectObjectV3.
Abbreviation UpdateProjectObjectV3 := UpdateProjectObjectV3.UpdateProjectObjectV3.

Section update_methods.
Context `{P : Platform}.

(** [UpdateProjectObjectV3::object_id] *)
Definition UpdateProjectObjectV3_object_id (self : UpdateProjectObjectV3) : Uuid :=
  match self with
  | UpdateProjectObjectV3.ProjectProfile object_id _
  | UpdateProjectObjectV3.Goal object_id _
  | UpdateProjectObjectV3.Role object_id _
  | UpdateProjectObjectV3.Plan object_id _
  | UpdateProjectObjectV3.Stage object_id _
  | UpdateProjectObjectV3.Requirement object_id _
  | UpdateProjectObjectV3.Issue object_id _
  | UpdateProjectObjectV3.Work object_id _
  | UpdateProjectObjectV3.Resource object_id _ => object_id
  end.

(** [UpdateProjectObjectV3::object_type] *)
Definition UpdateProjectObjectV3_object_type (self : UpdateProjectObjectV3) : ProjectViewObjectType :=
  match self with
  | UpdateProjectObjectV3.ProjectProfile _ _ => ProjectViewObjectType.ProjectProfile
  | UpdateProjectObjectV3.Goal _ _ => ProjectViewObjectType.Goal
  | UpdateProjectObjectV3.Role _ _ => ProjectViewObjectType.Role
  | UpdateProjectObjectV3.Plan _ _ => ProjectViewObjectType.Plan
  | UpdateProjectObjectV3.Stage _ _ => ProjectViewObjectType.Stage
  | UpdateProjectObjectV3.Requirement _ _ => ProjectViewObjectType.Requirement
  | UpdateProjectObjectV3.Issue _ _ => ProjectViewObjectType.Issue
  | UpdateProjectObjectV3.Work _ _ => ProjectViewObjectType.Work
  | UpdateProjectObjectV3.Resource _ _ => ProjectViewObjectType.Resource
  end.

(** [UpdateProjectObjectV3::context_references] *)
Definition UpdateProjectObjectV3_context_references (self : UpdateProjectObjectV3)
    : option (list ProjectContextReference) :=
  match self with
  | UpdateProjectObjectV3.ProjectProfile _ patch => ProfilePatchV3.context_references patch
  | UpdateProjectObjectV3.Goal _ patch => GoalPatchV3.context_references patch
  | UpdateProjectObjectV3.Role _ patch => RolePatchV3.context_references patch
  | UpdateProjectObjectV3.Plan _ patch => PlanPatchV3.context_references patch
  | UpdateProjectObjectV3.Stage _ patch => StagePatchV3.context_references patch
  | UpdateProjectObjectV3.Requirement _ patch => RequirementPatchV3.context_references patch
  | UpdateProjectObjectV3.Issue _ patch => IssuePatchV3.context_references patch
  | UpdateProjectObjectV3.Work _ patch => WorkPatchV3.context_references patch
  | UpdateProjectObjectV3.Resource _ patch => ResourcePatchV3.context_references patch
  end.

(** [UpdateProjectObjectV3::summary_patch] *)
Definition UpdateProjectObjectV3_summary_patch (self : UpdateProjectObjectV3) : Patch Text :=
  match self with
  | UpdateProjectObjectV3.ProjectProfile _ patch => ProfilePatchV3.summary patch
  | UpdateProjectObjectV3.Goal _ patch => GoalPatchV3.summary patch
  | UpdateProjectObjectV3.Role _ patch => RolePatchV3.summary patch
  | UpdateProjectObjectV3.Plan _ patch => PlanPatchV3.summary patch
  | UpdateProjectObjectV3.Stage _ patch => StagePatchV3.summary patch
  | UpdateProjectObjectV3.Requirement _ patch => RequirementPatchV3.summary patch
  | UpdateProjectObjectV3.Issue _ patch => IssuePatchV3.summary patch
  | UpdateProjectObjectV3.Work _ patch => WorkPatchV3.summary patch
  | UpdateProjectObjectV3.Resource _ patch => ResourcePatchV3.summary patch
  end.

End update_methods.

(** ** Body and patch rules ([v3/validation.rs]) *)

Section body_rules.
Context `{P : Platform}.

Definition legacy_data (data : ProjectViewObjectDataV3) : V3Result ProjectViewObjectData :=
  match data with
  | ProjectViewObjectDataV3.ProjectProfile value => Ok (ProjectViewObjectData.ProjectProfile value)
  | ProjectViewObjectDataV3.Goal value => Ok (ProjectViewObjectData.Goal value)
  | ProjectViewObjectDataV3.Role value => Ok (ProjectViewObjectData.Role value)
  | ProjectViewObjectDataV3.Plan value => Ok (ProjectViewObjectData.Plan value)
  | ProjectViewObjectDataV3.Stage value => Ok (ProjectViewObjectData.Stage value)
  | ProjectViewObjectDataV3.Requirement value => Ok (ProjectViewObjectData.Requirement value)
  | ProjectViewObjectDataV3.Issue value => Ok (ProjectViewObjectData.Issue value)
  | ProjectViewObjectDataV3.Work value => Ok (ProjectViewObjectData.Work value)
  | ProjectViewObjectDataV3.Resource _ =>
      Err (V3ProjectObjectError.Contract
             (V3ContractError.InvalidWire
                (lit "legacy conversion cannot represent a v3 Resource")))
  end.

Definition validate_object_data (data : ProjectViewObjectDataV3) : V3Result unit :=
  match data with
  | ProjectViewObjectDataV3.Resource resource =>
      from_contract (ProjectResourceV3_validate resource)
  | _ => let? legacy := legacy_data data in from_domain (validate_data legacy)
  end.

(** [validate_relation_shape] of [v3/validation.rs] *)
Definition validate_relation_shape_v3 (object_type : ProjectViewObjectType)
    (relations : ProjectViewRelations) : V3Result unit :=
  from_domain (validate_relation_shape object_type relations).

(** A field of [validate_resource_patch] that may be set but not cleared: the
    [changed] flag and the value to validate. *)
Definition patch_required_field {T} (patch : Patch T) (changed : bool) (current : T)
    (field : string) : V3Result (bool * T) :=
  match patch with
  | Patch.Unchanged => Ok (changed, current)
  | Patch.Clear => Err (V3ProjectObjectError.Object (DomainError.RequiredField field))
  | Patch.Set_ value => Ok (true, value)
  end.

Definition validate_resource_patch (patch : ResourcePatchV3) (context_changed : bool)
    : V3Result unit :=
  let changed := context_changed in
  let? (changed, name) :=
    patch_required_field (ResourcePatchV3.name patch) changed (lit "resource") "name" in
  let? (changed, resource_kind) :=
    patch_required_field (ResourcePatchV3.resource_kind patch) changed (lit "resource")
      "resource_kind" in
  let '(changed, summary) :=
    match ResourcePatchV3.summary patch with
    | Patch.Unchanged => (changed, None)
    | Patch.Clear => (true, None)
    | Patch.Set_ value => (true, Some value)
    end in
  let? (changed, guide_document_id) :=
    patch_required_field (ResourcePatchV3.guide_document_id patch) changed
      (Uuid_from_bytes [0; 0; 0; 0; 0; 0; 64; 0; 128; 0; 0; 0; 0; 0; 0; 1]%N)
      "guide_document_id" in
  reject_if (negb changed) (V3ProjectObjectError.Object DomainError.NoChanges) ?;
  from_contract
    (ProjectResourceV3_validate
       {| ProjectResourceV3.name := name; ProjectResourceV3.resource_kind := resource_kind;
          ProjectResourceV3.summary := summary;
          ProjectResourceV3.guide_document_id := guide_document_id |}).

(** The schema-1 update whose field rules a schema-3 update reuses; a Resource
    has none. *)
Definition legacy_update (update : UpdateProjectObjectV3) : option UpdateMutation :=
  match update with
  | UpdateProjectObjectV3.ProjectProfile object_id patch =>
      Some (UpdateMutation.ProjectProfile object_id {|
        ProfilePatch.name := ProfilePatchV3.name patch;
        ProfilePatch.positioning := ProfilePatchV3.positioning patch;
        ProfilePatch.purpose := ProfilePatchV3.purpose patch;
        ProfilePatch.problem := ProfilePatchV3.problem patch;
        ProfilePatch.scope := ProfilePatchV3.scope patch;
      |})
  | UpdateProjectObjectV3.Goal object_id patch =>
      Some (UpdateMutation.Goal object_id {|
        GoalPatch.title := GoalPatchV3.title patch;
        GoalPatch.desired_outcome := GoalPatchV3.desired_outcome patch;
        GoalPatch.directions := GoalPatchV3.directions patch;
      |})
  | UpdateProjectObjectV3.Role object_id patch =>
      Some (UpdateMutation.Role object_id {|
        RolePatch.name := RolePatchV3.name patch;
        RolePatch.purpose := RolePatchV3.purpose patch;
        RolePatch.responsibilities := RolePatchV3.responsibilities patch;
        RolePatch.boundaries := RolePatchV3.boundaries patch;
        RolePatch.active := RolePatchV3.active patch;
      |})
  | UpdateProjectObjectV3.Plan object_id patch =>
      Some (UpdateMutation.Plan object_id {|
        PlanPatch.title := PlanPatchV3.title patch;
        PlanPatch.description := PlanPatchV3.description patch;
        PlanPatch.status := PlanPatchV3.status patch;
        PlanPatch.under_goal_id := PlanPatchV3.under_goal_id patch;
      |})
  | UpdateProjectObjectV3.Stage object_id patch =>
      Some (UpdateMutation.Stage object_id {|
        StagePatch.title := StagePatchV3.title patch;
        StagePatch.description := StagePatchV3.description patch;
        StagePatch.status := StagePatchV3.status patch;
        StagePatch.under_plan_id := StagePatchV3.under_plan_id patch;
      |})
  | UpdateProjectObjectV3.Requirement object_id patch =>
      Some (UpdateMutation.Requirement object_id {|
        RequirementPatch.title := RequirementPatchV3.title patch;
        RequirementPatch.description := RequirementPatchV3.description patch;
        RequirementPatch.status := RequirementPatchV3.status patch;
        RequirementPatch.priority := RequirementPatchV3.priority patch;
        RequirementPatch.planned_in_stage_id := RequirementPatchV3.planned_in_stage_id patch;
      |})
  | UpdateProjectObjectV3.Issue object_id patch =>
      Some (UpdateMutation.Issue object_id {|
        IssuePatch.title := IssuePatchV3.title patch;
        IssuePatch.description := IssuePatchV3.description patch;
        IssuePatch.status := IssuePatchV3.status patch;
        IssuePatch.priority := IssuePatchV3.priority patch;
        IssuePatch.planned_in_stage_id := IssuePatchV3.planned_in_stage_id patch;
        IssuePatch.about := IssuePatchV3.about patch;
      |})
  | UpdateProjectObjectV3.Work object_id patch =>
      Some (UpdateMutation.Work object_id {|
        WorkPatch.title := WorkPatchV3.title patch;
        WorkPatch.description := WorkPatchV3.description patch;
        WorkPatch.status := WorkPatchV3.status patch;
        WorkPatch.priority := WorkPatchV3.priority patch;
        WorkPatch.handles := WorkPatchV3.handles patch;
      |})
  | UpdateProjectObjectV3.Resource _ _ => None
  end.

Definition validate_update (update : UpdateProjectObjectV3) : V3Result unit :=
  let context_changed := opt_is_some (UpdateProjectObjectV3_context_references update) in
  let summary_changed := negb (Patch_is_unchanged (UpdateProjectObjectV3_summary_patch update)) in
  (match UpdateProjectObjectV3_summary_patch update with
   | Patch.Set_ summary => from_domain (validate_summary (Some summary))
   | _ => Ok tt
   end) ?;
  match update with
  | UpdateProjectObjectV3.Resource _ patch => validate_resource_patch patch context_changed
  | _ =>
      match legacy_update update with
      | None => Ok tt
      | Some legacy =>
          match validate_mutation_input (MutationRequest.Update legacy) with
          | Err DomainError.NoChanges =>
              if context_changed || summary_changed then Ok tt
              else Err (V3ProjectObjectError.Object DomainError.NoChanges)
          | result => from_domain result
          end
      end
  end.

End body_rules.

(** ** Commands *)

Section commands.
Context `{P : Platform}.

Record CreateProjectObjectV3 : Type := {
  create_object : NewProjectViewObjectV3;
}.

Record DeleteProjectObjectV3 : Type := {
  delete_object_type : ProjectViewObjectType;
  delete_object_id : Uuid;
}.
End commands.

Module ProjectObjectRequestV3.
Section request.
Context `{P : Platform}.

Inductive ProjectObjectRequestV3 : Type :=
| Create (create : CreateProjectObjectV3)
| Update (update : UpdateProjectObjectV3)
| Delete (delete : DeleteProjectObjectV3).
End request.
End ProjectObjectRequestV3.
Abbreviation ProjectObjectRequestV3 := ProjectObjectRequestV3.ProjectObjectRequestV3.

Section command_methods.
Context `{P : Platform}.

Record ProjectObjectCommandV3 : Type := {
  schema_version : N;
  expected_project_revision : N;
  acting_assignment_id : option Uuid;
  runtime_fence : option RuntimeFence;
  initial_role_level : option RoleLevel;
  request : ProjectObjectRequestV3;
}.

Definition validate_context_source (object_type : ProjectViewObjectType)
    (references : list ProjectContextReference) : V3Result unit :=
  reject_if
    (bool_decide (object_type = ProjectViewObjectType.Resource)
     && existsb (λ reference,
          match reference with ProjectContextReference.Resource _ => true | _ => false end)
          references)
    V3ProjectObjectError.ResourceSourceReferenceForbidden ?;
  Ok tt.

Definition require_revision (revision : N) : DomainResult unit :=
  if (MAX_SAFE_REVISION <? revision)%N
  then Err (DomainError.RevisionOutOfRange revision MAX_SAFE_REVISION)
  else Ok tt.

Definition require_uuid_v4 (object_id : Uuid) : DomainResult unit :=
  if ((Uuid_get_version_num object_id =? 4)%N && Uuid_variant_is_rfc4122 object_id)
  then Ok tt
  else Err (DomainError.InvalidObjectId object_id).

(** The order check shared by creation and update payloads. *)
Definition require_canonical_order (references : list ProjectContextReference) : V3Result unit :=
  let? canonical := from_contract (canonicalize_context_references references) in
  reject_if (negb (bool_decide (canonical = references)))
    (V3ProjectObjectError.Contract
       (V3ContractError.InvalidContext (lit "Context References are not in canonical order"))).

(** [NewProjectViewObjectV3::validate_for_submission] *)
Definition NewProjectViewObjectV3_validate_for_submission (self : NewProjectViewObjectV3)
    : V3Result unit :=
  from_domain (require_uuid_v4 (NewProjectViewObjectV3_id self)) ?;
  let '(_, data, relations, context) := NewProjectViewObjectV3_into_parts self in
  validate_object_data data ?;
  validate_relation_shape_v3 (ProjectViewObjectDataV3_object_type data) relations ?;
  require_canonical_order context ?;
  validate_context_source (ProjectViewObjectDataV3_object_type data) context ?;
  (match data with
   | ProjectViewObjectDataV3.Issue _ =>
       reject_if
         (is_some_and
            (λ reference,
               bool_decide (ObjectRef.object_id reference = NewProjectViewObjectV3_id self))
            (ProjectViewRelations.about relations))
         (V3ProjectObjectError.Object
            (DomainError.SelfReference "about" (NewProjectViewObjectV3_id self)))
   | _ => Ok tt
   end) ?;
  Ok tt.

(** [UpdateProjectObjectV3::validate_for_submission] *)
Definition UpdateProjectObjectV3_validate_for_submission (self : UpdateProjectObjectV3)
    : V3Result unit :=
  (if negb (bool_decide
              (UpdateProjectObjectV3_object_type self = ProjectViewObjectType.ProjectProfile))
   then from_domain (require_uuid_v4 (UpdateProjectObjectV3_object_id self))
   else Ok tt) ?;
  (match UpdateProjectObjectV3_context_references self with
   | Some references =>
       require_canonical_order references ?;
       validate_context_source (UpdateProjectObjectV3_object_type self) references
   | None => Ok tt
   end) ?;
  validate_update self.

(** [ProjectObjectRequestV3::validate_for_submission] *)
Definition ProjectObjectRequestV3_validate_for_submission (self : ProjectObjectRequestV3)
    : V3Result unit :=
  match self with
  | ProjectObjectRequestV3.Create create =>
      NewProjectViewObjectV3_validate_for_submission create.(create_object)
  | ProjectObjectRequestV3.Update update => UpdateProjectObjectV3_validate_for_submission update
  | ProjectObjectRequestV3.Delete delete =>
      reject_if (bool_decide (delete.(delete_object_type) = ProjectViewObjectType.ProjectProfile))
        (V3ProjectObjectError.Object DomainError.ProfileDeletionForbidden) ?;
      from_domain (require_uuid_v4 delete.(delete_object_id)) ?;
      Ok tt
  end.

(** [ProjectObjectCommandV3::new] *)
Definition ProjectObjectCommandV3_new (expected_project_revision : N)
    (acting_assignment_id : option Uuid) (request : ProjectObjectRequestV3)
    : ProjectObjectCommandV3 := {|
  schema_version := PROJECT_VIEW_V3_SCHEMA_VERSION;
  expected_project_revision := expected_project_revision;
  acting_assignment_id := acting_assignment_id;
  runtime_fence := None;
  initial_role_level := None;
  request := request;
|}.

(** [ProjectObjectCommandV3::with_runtime_fence] *)
Definition ProjectObjectCommandV3_with_runtime_fence (self : ProjectObjectCommandV3)
    (fence : RuntimeFence) : ProjectObjectCommandV3 := {|
  schema_version := self.(schema_version);
  expected_project_revision := self.(expected_project_revision);
  acting_assignment_id := self.(acting_assignment_id);
  runtime_fence := Some fence;
  initial_role_level := self.(initial_role_level);
  request := self.(request);
|}.

(** [ProjectObjectCommandV3::with_initial_role_level] *)
Definition ProjectObjectCommandV3_with_initial_role_level (self : ProjectObjectCommandV3)
    (level : RoleLevel) : ProjectObjectCommandV3 := {|
  schema_version := self.(schema_version);
  expected_project_revision := self.(expected_project_revision);
  acting_assignment_id := self.(acting_assignment_id);
  runtime_fence := self.(runtime_fence);
  initial_role_level := Some level;
  request := self.(request);
|}.

(** [ProjectObjectCommandV3::creates_role] *)
Definition ProjectObjectCommandV3_creates_role (self : ProjectObjectCommandV3) : bool :=
  match self.(request) with
  | ProjectObjectRequestV3.Create
      {| create_object := NewProjectViewObjectV3.Role _ _ _ _ _ _ _ _ |} => true
  | _ => false
  end.

(** [ProjectObjectCommandV3::created_role_level] *)
Definition ProjectObjectCommandV3_created_role_level (self : ProjectObjectCommandV3)
    : option RoleLevel :=
  if ProjectObjectCommandV3_creates_role self
  then Some match self.(initial_role_level) with
            | Some level => level
            | None => RoleLevel.Member
            end
  else None.

(** [ProjectObjectCommandV3::operation] *)
Definition ProjectObjectCommandV3_operation (self : ProjectObjectCommandV3) : string :=
  match self.(request) with
  | ProjectObjectRequestV3.Create _ => "create"
  | ProjectObjectRequestV3.Update _ => "update"
  | ProjectObjectRequestV3.Delete _ => "delete"
  end.

(** [ProjectObjectCommandV3::validate_for_submission] *)
Definition ProjectObjectCommandV3_validate_for_submission (self : ProjectObjectCommandV3)
    : V3Result unit :=
  reject_if (negb (self.(schema_version) =? PROJECT_VIEW_V3_SCHEMA_VERSION)%N)
    (V3ProjectObjectError.Object
       (DomainError.UnsupportedSchemaVersion self.(schema_version)
          PROJECT_VIEW_V3_SCHEMA_VERSION)) ?;
  from_domain (require_revision self.(expected_project_revision)) ?;
  reject_if (self.(expected_project_revision) =? 0)%N
    (V3ProjectObjectError.Object
       (DomainError.InvalidField "expected_project_revision"
          (lit "ordinary v3 commands require an initialized positive revision"))) ?;
  reject_if (is_some_and Uuid_is_nil self.(acting_assignment_id))
    (V3ProjectObjectError.Object
       (DomainError.InvalidField "acting_assignment_id" (lit "must not be nil"))) ?;
  (match self.(runtime_fence) with
   | Some fence =>
       map_err (λ reason, V3ProjectObjectError.Object
                            (DomainError.InvalidField "runtime_fence" reason))
         (RuntimeFence_validate fence) ?;
       reject_if (negb (opt_is_some self.(acting_assignment_id)))
         (V3ProjectObjectError.Object
            (DomainError.InvalidField "runtime_fence" (lit "requires acting_assignment_id")))
   | None => Ok tt
   end) ?;
  reject_if
    (opt_is_some self.(initial_role_level) && negb (ProjectObjectCommandV3_creates_role self))
    (V3ProjectObjectError.Object
       (DomainError.InvalidField "initial_role_level"
          (lit "is valid only when creating a Role"))) ?;
  ProjectObjectRequestV3_validate_for_submission self.(request).

End command_methods.

(** [json_depth] *)
Fixpoint json_depth (value : Value) : N :=
  match value with
  | Array values => (1 + max_or_zero (json_depth <$> values))%N
  | Object members => (1 + max_or_zero ((λ m, json_depth m.2) <$> members))%N
  | _ => 1%N
  end.

Section parsing.
Context `{P : Platform}.

(** [ProjectObjectCommandV3::from_json], over the [serde_json] parser and the
    derived deserializer of the command. *)
Definition ProjectObjectCommandV3_from_json
    (from_str : Text → result Value Text)
    (from_value : Value → result ProjectObjectCommandV3 Text)
    (content : Text) : V3Result ProjectObjectCommandV3 :=
  reject_if (MAX_MUTATION_CONTENT_BYTES <? str_len content)%N
    (V3ProjectObjectError.Object
       (DomainError.MutationContentTooLarge MAX_MUTATION_CONTENT_BYTES (str_len content))) ?;
  let? value :=
    map_err (λ error, V3ProjectObjectError.Object (DomainError.InvalidMutationJson error))
      (from_str content) in
  let depth := json_depth value in
  reject_if (MAX_MUTATION_JSON_DEPTH <? depth)%N
    (V3ProjectObjectError.Object
       (DomainError.MutationJsonTooDeep MAX_MUTATION_JSON_DEPTH depth)) ?;
  let? command :=
    map_err (λ error, V3ProjectObjectError.Object (DomainError.InvalidMutationJson error))
      (from_value value) in
  ProjectObjectCommandV3_validate_for_submission command ?;
  Ok command.

End parsing.
