(* ===== verification/ViewState.v ===== *)
(** * Project View schema 3: canonical state and reducer

    Models the state half of [buzz-project-view/src/v3/project_object.rs]
    ([ProjectViewStateV3], its reducer and the checks it makes) and the
    aggregate validation of [v3/validation.rs].  A [BTreeMap] keyed by [Uuid]
    is a finite map that is iterated in the byte order of its keys. *)

From S2P Require Import Prelude Text Platform ViewModel ViewMutation.
From S2P Require Import ViewContract ViewReference ViewObject ViewCommand.
From stdpp Require Import prelude strings gmap fin_maps.

Section state.
Context `{P : Platform}.

Record V3ReducerCapabilities : Type := {
  project_context_enabled : bool;
  document_capability_available : bool;
}.

(** [V3ReducerCapabilities::stage4] *)
Definition V3ReducerCapabilities_stage4 (document_capability_available : bool)
    : V3ReducerCapabilities := {|
  project_context_enabled := false;
  document_capability_available := document_capability_available;
|}.

Record ProjectObjectOutcomeV3 : Type := {
  outcome_project_revision : N;
  changed_entries : list ProjectViewEntryV3;
  outcome_document_target_delta : DocumentTargetDelta;
}.

#[global] Instance ProjectObjectOutcomeV3_eq_dec : EqDecision ProjectObjectOutcomeV3.
Proof. solve_decision. Defined.

(** [CommunityId] is its [Uuid]. *)
Record ProjectViewStateV3 : Type := {
  project_id : Uuid;
  project_revision : N;
  initialized_at : option DateTime;
  updated_at : option DateTime;
  entries : gmap Uuid ProjectViewEntryV3;
  role_levels : gmap Uuid RoleLevel;
}.

#[global] Instance ProjectViewStateV3_eq_dec : EqDecision ProjectViewStateV3.
Proof. solve_decision. Defined.

(** [ProjectViewStateV3::new] *)
Definition ProjectViewStateV3_new (project_id : Uuid) : ProjectViewStateV3 := {|
  project_id := project_id;
  project_revision := 0;
  initialized_at := None;
  updated_at := None;
  entries := ∅;
  role_levels := ∅;
|}.

(** [ProjectViewStateV3::is_initialized] *)
Definition is_initialized (self : ProjectViewStateV3) : bool := opt_is_some self.(initialized_at).

(** [ProjectViewStateV3::entry] *)
Definition entry (self : ProjectViewStateV3) (object_id : Uuid) : option ProjectViewEntryV3 :=
  self.(entries) !! object_id.

(** [ProjectViewStateV3::role_level] *)
Definition role_level (self : ProjectViewStateV3) (role_id : Uuid) : option RoleLevel :=
  self.(role_levels) !! role_id.

Definition entry_active (entry : ProjectViewEntryV3) : option ProjectViewObjectV3 :=
  match entry with
  | ProjectViewEntryV3.Active object => Some object
  | ProjectViewEntryV3.Tombstone _ => None
  end.

(** [ProjectViewStateV3::active_objects] *)
Definition active_objects (self : ProjectViewStateV3) : list ProjectViewObjectV3 :=
  omap entry_active (btree_values self.(entries)).

End state.

(** ** Aggregate validation ([v3/validation.rs]) *)

Section validation.
Context `{P : Platform}.

(** [validate_object] of [v3/validation.rs] *)
Definition validate_object_v3 (object : ProjectViewObjectV3) : V3Result unit :=
  let data_type := ProjectViewObjectDataV3_object_type (ProjectViewObjectV3.data object) in
  reject_if (negb (bool_decide (ProjectViewObjectV3.object_type object = data_type)))
    (V3ProjectObjectError.Object
       (DomainError.DataTypeMismatch (ProjectViewObjectV3.object_type object) data_type)) ?;
  reject_if
    ((ProjectViewObjectV3.object_revision object =? 0)
     || (ProjectViewObjectV3.project_revision object =? 0))%N
    (V3ProjectObjectError.Object
       (DomainError.InvalidFinalState
          (lit "active object " ++ Uuid_display (ProjectViewObjectV3.id object)
           ++ lit " must have positive revisions"))) ?;
  reject_if
    ((MAX_SAFE_REVISION <? ProjectViewObjectV3.object_revision object)
     || (MAX_SAFE_REVISION <? ProjectViewObjectV3.project_revision object))%N
    (V3ProjectObjectError.Object
       (DomainError.RevisionOutOfRange
          (N.max (ProjectViewObjectV3.object_revision object)
             (ProjectViewObjectV3.project_revision object))
          MAX_SAFE_REVISION)) ?;
  reject_if (ProjectViewObjectV3.updated_at object <? ProjectViewObjectV3.created_at object)%Z
    (V3ProjectObjectError.Object
       (DomainError.InvalidFinalState
          (lit "object " ++ Uuid_display (ProjectViewObjectV3.id object)
           ++ lit " was updated before creation"))) ?;
  validate_object_data (ProjectViewObjectV3.data object) ?;
  validate_relation_shape_v3 (ProjectViewObjectV3.object_type object)
    (ProjectViewObjectV3.relations object) ?;
  let? canonical :=
    from_contract
      (canonicalize_context_references (ProjectViewObjectV3.context_references object)) in
  reject_if (negb (bool_decide (canonical = ProjectViewObjectV3.context_references object)))
    (V3ProjectObjectError.Contract
       (V3ContractError.InvalidContext (lit "Context References are not in canonical order"))) ?;
  Ok tt.

Definition active_target (state : ProjectViewStateV3) (relation : string) (target_id : Uuid)
    : V3Result ProjectViewObjectV3 :=
  match entry state target_id with
  | Some (ProjectViewEntryV3.Active object) => Ok object
  | Some (ProjectViewEntryV3.Tombstone _) =>
      Err (V3ProjectObjectError.Object (DomainError.RelationTargetDeleted relation target_id))
  | None =>
      Err (V3ProjectObjectError.Object (DomainError.RelationTargetNotFound relation target_id))
  end.

Definition validate_typed_target (state : ProjectViewStateV3) (relation : string)
    (target_id : Uuid) (expected : ProjectViewObjectType) : V3Result unit :=
  let? actual := active_target state relation target_id in
  reject_if (negb (bool_decide (ProjectViewObjectV3.object_type actual = expected)))
    (V3ProjectObjectError.Object
       (DomainError.RelationTargetTypeMismatch relation target_id expected
          (ProjectViewObjectV3.object_type actual))) ?;
  Ok tt.

Definition validate_declared_target (state : ProjectViewStateV3) (relation : string)
    (target : ObjectRef) : V3Result unit :=
  let? actual := active_target state relation (ObjectRef.object_id target) in
  reject_if
    (negb (bool_decide (ProjectViewObjectV3.object_type actual = ObjectRef.object_type target)))
    (V3ProjectObjectError.Object
       (DomainError.RelationTargetTypeMismatch relation (ObjectRef.object_id target)
          (ObjectRef.object_type target) (ProjectViewObjectV3.object_type actual))) ?;
  Ok tt.

(** [if let Some(x) = slot { f(x)?; }] *)
Definition if_some {A E} (slot : option A) (f : A → result unit E) : result unit E :=
  match slot with
  | Some x => f x
  | None => Ok tt
  end.

Definition validate_relation_targets (state : ProjectViewStateV3) (object : ProjectViewObjectV3)
    : V3Result unit :=
  let relations := ProjectViewObjectV3.relations object in
  if_some (ProjectViewRelations.under_goal_id relations)
    (λ target_id,
       validate_typed_target state "under_goal_id" target_id ProjectViewObjectType.Goal) ?;
  if_some (ProjectViewRelations.under_plan_id relations)
    (λ target_id,
       validate_typed_target state "under_plan_id" target_id ProjectViewObjectType.Plan) ?;
  if_some (ProjectViewRelations.planned_in_stage_id relations)
    (λ target_id,
       validate_typed_target state "planned_in_stage_id" target_id
         ProjectViewObjectType.Stage) ?;
  if_some (ProjectViewRelations.about relations)
    (λ target,
       reject_if (bool_decide (ObjectRef.object_id target = ProjectViewObjectV3.id object))
         (V3ProjectObjectError.Object
            (DomainError.SelfReference "about" (ProjectViewObjectV3.id object))) ?;
       validate_declared_target state "about" target) ?;
  if_some (ProjectViewRelations.handles relations)
    (λ target,
       (match ObjectRef.object_type target with
        | ProjectViewObjectType.Requirement | ProjectViewObjectType.Issue => Ok tt
        | actual => Err (V3ProjectObjectError.Object (DomainError.InvalidWorkTarget actual))
        end) ?;
       validate_declared_target state "handles" target) ?;
  Ok tt.

(** [ProjectViewStateV3::validate_relation_targets_and_context] *)
Definition validate_relation_targets_and_context (self : ProjectViewStateV3) : V3Result unit :=
  for_each
    (λ object,
       validate_relation_targets self object ?;
       validate_context_source (ProjectViewObjectV3.object_type object)
         (ProjectViewObjectV3.context_references object) ?;
       for_each
         (λ reference,
            match reference with
            | ProjectContextReference.Resource resource_id =>
                let invalid := Err (V3ProjectObjectError.InvalidResourceTarget resource_id) in
                match self.(entries) !! resource_id with
                | Some (ProjectViewEntryV3.Active target) =>
                    if bool_decide
                         (ProjectViewObjectV3.object_type target = ProjectViewObjectType.Resource)
                    then Ok tt else invalid
                | _ => invalid
                end
            | _ => Ok tt
            end)
         (ProjectViewObjectV3.context_references object))
    (active_objects self) ?;
  Ok tt.

(** The body of the loop over [state.entries()]: the Profiles counted and the
    Role ids collected so far, updated with one more entry. *)
Definition validate_entry (state : ProjectViewStateV3) (state_updated_at : DateTime)
    (acc : N * gset Uuid) (row : Uuid * ProjectViewEntryV3) : V3Result (N * gset Uuid) :=
  let '(profile_count, role_ids) := acc in
  let '(entry_id, entry) := row in
  let project_uuid := state.(project_id) in
  reject_if (negb (bool_decide (entry_id = ProjectViewEntryV3_id entry)))
    (V3ProjectObjectError.Object
       (DomainError.InvalidFinalState
          (lit "entry map key " ++ Uuid_display entry_id ++ lit " does not match canonical object "
           ++ Uuid_display (ProjectViewEntryV3_id entry)))) ?;
  let role_ids :=
    if bool_decide (ProjectViewEntryV3_object_type entry = ProjectViewObjectType.Role)
    then {[ProjectViewEntryV3_id entry]} ∪ role_ids else role_ids in
  match entry with
  | ProjectViewEntryV3.Active object =>
      validate_object_v3 object ?;
      reject_if (state.(project_revision) <? ProjectViewObjectV3.project_revision object)%N
        (V3ProjectObjectError.Object
           (DomainError.InvalidFinalState
              (lit "object " ++ Uuid_display (ProjectViewObjectV3.id object)
               ++ lit " has a future Project revision"))) ?;
      reject_if (state_updated_at <? ProjectViewObjectV3.updated_at object)%Z
        (V3ProjectObjectError.Object
           (DomainError.InvalidFinalState
              (lit "object " ++ Uuid_display (ProjectViewObjectV3.id object)
               ++ lit " was updated after aggregate state"))) ?;
      if bool_decide (ProjectViewObjectV3.object_type object = ProjectViewObjectType.ProjectProfile)
      then
        reject_if (negb (bool_decide (ProjectViewObjectV3.id object = project_uuid)))
          (V3ProjectObjectError.Object
             (DomainError.InvalidFinalState
                (lit "Profile ID must equal the server-resolved Community ID"))) ?;
        Ok ((profile_count + 1)%N, role_ids)
      else
        from_domain (validate_client_object_id project_uuid (ProjectViewObjectV3.id object)) ?;
        Ok (profile_count, role_ids)
  | ProjectViewEntryV3.Tombstone tombstone =>
      from_domain (validate_revision (ProjectViewTombstoneV3.object_revision tombstone)) ?;
      from_domain (validate_revision (ProjectViewTombstoneV3.project_revision tombstone)) ?;
      reject_if
        ((ProjectViewTombstoneV3.object_revision tombstone =? 0)%N
         || (ProjectViewTombstoneV3.project_revision tombstone =? 0)%N
         || (state.(project_revision) <? ProjectViewTombstoneV3.project_revision tombstone)%N
         || (ProjectViewTombstoneV3.deleted_at tombstone
             <? ProjectViewTombstoneV3.created_at tombstone)%Z
         || (state_updated_at <? ProjectViewTombstoneV3.deleted_at tombstone)%Z)
        (V3ProjectObjectError.Object
           (DomainError.InvalidFinalState
              (lit "invalid v3 tombstone " ++ Uuid_display (ProjectViewTombstoneV3.id tombstone)
               ++ lit " lifecycle"))) ?;
      reject_if
        (bool_decide (ProjectViewTombstoneV3.object_type tombstone
                      = ProjectViewObjectType.ProjectProfile))
        (V3ProjectObjectError.Object
           (DomainError.InvalidFinalState (lit "the Project Profile cannot be tombstoned"))) ?;
      from_domain (validate_client_object_id project_uuid (ProjectViewTombstoneV3.id tombstone)) ?;
      Ok (profile_count, role_ids)
  end.

(** [validate_state] of [v3/validation.rs]: [ProjectViewStateV3::validate] *)
Definition validate_state (state : ProjectViewStateV3) : V3Result unit :=
  let invalid reason := V3ProjectObjectError.Object (DomainError.InvalidFinalState reason) in
  from_domain (validate_revision state.(project_revision)) ?;
  if negb (is_initialized state) then
    if (state.(project_revision) =? 0)%N && bool_decide (state.(entries) = ∅)
       && negb (opt_is_some state.(updated_at)) && bool_decide (state.(role_levels) = ∅)
    then Ok tt
    else Err (invalid
      (lit "an uninitialized v3 state must have revision zero and no canonical rows"))
  else
    reject_if (state.(project_revision) =? 0)%N
      (invalid (lit "an initialized v3 state must have a positive revision")) ?;
    let? state_updated_at :=
      ok_or state.(updated_at)
        (invalid (lit "an initialized v3 state must have an update time")) in
    reject_if
      (is_some_and (λ initialized_at, state_updated_at <? initialized_at)%Z
         state.(initialized_at))
      (invalid (lit "Project initialization time cannot follow its update time")) ?;
    let? (profile_count, role_ids) :=
      try_fold (validate_entry state state_updated_at) (0%N, ∅) (btree_iter state.(entries)) in
    reject_if (negb (profile_count =? 1)%N)
      (invalid (lit "expected exactly one active Profile, found " ++ fmt_u64 profile_count)) ?;
    let level_ids : gset Uuid := dom state.(role_levels) in
    reject_if (negb (bool_decide (role_ids = level_ids)))
      (V3ProjectObjectError.InvalidRoleLevels
         (lit "every Role identity, including tombstones, must have exactly one level")) ?;
    validate_relation_targets_and_context state.

End validation.

(** ** Updates in place *)

Section update.
Context `{P : Platform}.

Definition apply_required {T} (current : T) (patch : Patch T) (field : string) : DomainResult T :=
  match patch with
  | Patch.Unchanged => Ok current
  | Patch.Clear => Err (DomainError.RequiredField field)
  | Patch.Set_ value => Ok value
  end.

Definition apply_optional {T} (current : option T) (patch : Patch T) : option T :=
  match patch with
  | Patch.Unchanged => current
  | Patch.Clear => None
  | Patch.Set_ value => Some value
  end.

Definition apply_required_relation {T} (current : option T) (patch : Patch T) (relation : string)
    : DomainResult (option T) :=
  match patch with
  | Patch.Unchanged => Ok current
  | Patch.Clear => Err (DomainError.MissingRequiredRelation relation)
  | Patch.Set_ value => Ok (Some value)
  end.

(** The object with another body and other relations. *)
Definition with_body (object : ProjectViewObjectV3) (data : ProjectViewObjectDataV3)
    (relations : ProjectViewRelations) : ProjectViewObjectV3 := {|
  ProjectViewObjectV3.id := ProjectViewObjectV3.id object;
  ProjectViewObjectV3.object_type := ProjectViewObjectV3.object_type object;
  ProjectViewObjectV3.object_revision := ProjectViewObjectV3.object_revision object;
  ProjectViewObjectV3.project_revision := ProjectViewObjectV3.project_revision object;
  ProjectViewObjectV3.created_at := ProjectViewObjectV3.created_at object;
  ProjectViewObjectV3.updated_at := ProjectViewObjectV3.updated_at object;
  ProjectViewObjectV3.created_by := ProjectViewObjectV3.created_by object;
  ProjectViewObjectV3.updated_by := ProjectViewObjectV3.updated_by object;
  ProjectViewObjectV3.data := data;
  ProjectViewObjectV3.relations := relations;
  ProjectViewObjectV3.context_references := ProjectViewObjectV3.context_references object;
|}.

Definition apply_update (object : ProjectViewObjectV3) (update : UpdateProjectObjectV3)
    : V3Result ProjectViewObjectV3 :=
  let relations := ProjectViewObjectV3.relations object in
  let? (data, relations) :=
    match update, ProjectViewObjectV3.data object with
    | UpdateProjectObjectV3.ProjectProfile _ patch, ProjectViewObjectDataV3.ProjectProfile profile =>
        let? name :=
          from_domain (apply_required (ProjectProfile.name profile) (ProfilePatchV3.name patch) "name") in
        let? positioning :=
          from_domain (apply_required (ProjectProfile.positioning profile) (ProfilePatchV3.positioning patch) "positioning") in
        let? purpose :=
          from_domain (apply_required (ProjectProfile.purpose profile) (ProfilePatchV3.purpose patch) "purpose") in
        let? problem :=
          from_domain (apply_required (ProjectProfile.problem profile) (ProfilePatchV3.problem patch) "problem") in
        let? scope :=
          from_domain (apply_required (ProjectProfile.scope profile) (ProfilePatchV3.scope patch) "scope") in
        let summary := apply_optional (ProjectProfile.summary profile) (ProfilePatchV3.summary patch) in
        Ok (ProjectViewObjectDataV3.ProjectProfile
              {| ProjectProfile.name := name;
                 ProjectProfile.positioning := positioning;
                 ProjectProfile.purpose := purpose;
                 ProjectProfile.problem := problem;
                 ProjectProfile.scope := scope;
                 ProjectProfile.summary := summary |},
            relations)
    | UpdateProjectObjectV3.Goal _ patch, ProjectViewObjectDataV3.Goal goal =>
        let? title :=
          from_domain (apply_required (Goal.title goal) (GoalPatchV3.title patch) "title") in
        let? desired_outcome :=
          from_domain (apply_required (Goal.desired_outcome goal) (GoalPatchV3.desired_outcome patch) "desired_outcome") in
        let? directions :=
          from_domain (apply_required (Goal.directions goal) (GoalPatchV3.directions patch) "directions") in
        let summary := apply_optional (Goal.summary goal) (GoalPatchV3.summary patch) in
        Ok (ProjectViewObjectDataV3.Goal
              {| Goal.title := title;
                 Goal.desired_outcome := desired_outcome;
                 Goal.directions := directions;
                 Goal.summary := summary |},
            relations)
    | UpdateProjectObjectV3.Role _ patch, ProjectViewObjectDataV3.Role role =>
        let? name :=
          from_domain (apply_required (ProjectRole.name role) (RolePatchV3.name patch) "name") in
        let? purpose :=
          from_domain (apply_required (ProjectRole.purpose role) (RolePatchV3.purpose patch) "purpose") in
        let? responsibilities :=
          from_domain (apply_required (ProjectRole.responsibilities role) (RolePatchV3.responsibilities patch) "responsibilities") in
        let? boundaries :=
          from_domain (apply_required (ProjectRole.boundaries role) (RolePatchV3.boundaries patch) "boundaries") in
        let? active :=
          from_domain (apply_required (ProjectRole.active role) (RolePatchV3.active patch) "active") in
        let summary := apply_optional (ProjectRole.summary role) (RolePatchV3.summary patch) in
        Ok (ProjectViewObjectDataV3.Role
              {| ProjectRole.name := name;
                 ProjectRole.purpose := purpose;
                 ProjectRole.responsibilities := responsibilities;
                 ProjectRole.boundaries := boundaries;
                 ProjectRole.active := active;
                 ProjectRole.summary := summary |},
            relations)
    | UpdateProjectObjectV3.Plan _ patch, ProjectViewObjectDataV3.Plan plan =>
        let? title :=
          from_domain (apply_required (ProjectPlan.title plan) (PlanPatchV3.title patch) "title") in
        let? description :=
          from_domain (apply_required (ProjectPlan.description plan) (PlanPatchV3.description patch) "description") in
        let? status :=
          from_domain (apply_required (ProjectPlan.status plan) (PlanPatchV3.status patch) "status") in
        let summary := apply_optional (ProjectPlan.summary plan) (PlanPatchV3.summary patch) in
        let under_goal_id :=
          apply_optional (ProjectViewRelations.under_goal_id relations) (PlanPatchV3.under_goal_id patch) in
        Ok (ProjectViewObjectDataV3.Plan
              {| ProjectPlan.title := title;
                 ProjectPlan.description := description;
                 ProjectPlan.status := status;
                 ProjectPlan.summary := summary |},
            relations_of under_goal_id
              (ProjectViewRelations.under_plan_id relations)
              (ProjectViewRelations.planned_in_stage_id relations)
              (ProjectViewRelations.about relations)
              (ProjectViewRelations.handles relations))
    | UpdateProjectObjectV3.Stage _ patch, ProjectViewObjectDataV3.Stage stage =>
        let? title :=
          from_domain (apply_required (ProjectStage.title stage) (StagePatchV3.title patch) "title") in
        let? description :=
          from_domain (apply_required (ProjectStage.description stage) (StagePatchV3.description patch) "description") in
        let? status :=
          from_domain (apply_required (ProjectStage.status stage) (StagePatchV3.status patch) "status") in
        let summary := apply_optional (ProjectStage.summary stage) (StagePatchV3.summary patch) in
        let? under_plan_id :=
          from_domain
            (apply_required_relation (ProjectViewRelations.under_plan_id relations)
               (StagePatchV3.under_plan_id patch) "under_plan_id") in
        Ok (ProjectViewObjectDataV3.Stage
              {| ProjectStage.title := title;
                 ProjectStage.description := description;
                 ProjectStage.status := status;
                 ProjectStage.summary := summary |},
            relations_of (ProjectViewRelations.under_goal_id relations)
              under_plan_id
              (ProjectViewRelations.planned_in_stage_id relations)
              (ProjectViewRelations.about relations)
              (ProjectViewRelations.handles relations))
    | UpdateProjectObjectV3.Requirement _ patch, ProjectViewObjectDataV3.Requirement requirement =>
        let? title :=
          from_domain (apply_required (Requirement.title requirement) (RequirementPatchV3.title patch) "title") in
        let? description :=
          from_domain (apply_required (Requirement.description requirement) (RequirementPatchV3.description patch) "description") in
        let? status :=
          from_domain (apply_required (Requirement.status requirement) (RequirementPatchV3.status patch) "status") in
        let? priority :=
          from_domain (apply_required (Requirement.priority requirement) (RequirementPatchV3.priority patch) "priority") in
        let summary := apply_optional (Requirement.summary requirement) (RequirementPatchV3.summary patch) in
        let planned_in_stage_id :=
          apply_optional (ProjectViewRelations.planned_in_stage_id relations) (RequirementPatchV3.planned_in_stage_id patch) in
        Ok (ProjectViewObjectDataV3.Requirement
              {| Requirement.title := title;
                 Requirement.description := description;
                 Requirement.status := status;
                 Requirement.priority := priority;
                 Requirement.summary := summary |},
            relations_of (ProjectViewRelations.under_goal_id relations)
              (ProjectViewRelations.under_plan_id relations)
              planned_in_stage_id
              (ProjectViewRelations.about relations)
              (ProjectViewRelations.handles relations))
    | UpdateProjectObjectV3.Issue _ patch, ProjectViewObjectDataV3.Issue issue =>
        let? title :=
          from_domain (apply_required (ProjectIssue.title issue) (IssuePatchV3.title patch) "title") in
        let? description :=
          from_domain (apply_required (ProjectIssue.description issue) (IssuePatchV3.description patch) "description") in
        let? status :=
          from_domain (apply_required (ProjectIssue.status issue) (IssuePatchV3.status patch) "status") in
        let? priority :=
          from_domain (apply_required (ProjectIssue.priority issue) (IssuePatchV3.priority patch) "priority") in
        let summary := apply_optional (ProjectIssue.summary issue) (IssuePatchV3.summary patch) in
        let planned_in_stage_id :=
          apply_optional (ProjectViewRelations.planned_in_stage_id relations) (IssuePatchV3.planned_in_stage_id patch) in
        let about :=
          apply_optional (ProjectViewRelations.about relations) (IssuePatchV3.about patch) in
        Ok (ProjectViewObjectDataV3.Issue
              {| ProjectIssue.title := title;
                 ProjectIssue.description := description;
                 ProjectIssue.status := status;
                 ProjectIssue.priority := priority;
                 ProjectIssue.summary := summary |},
            relations_of (ProjectViewRelations.under_goal_id relations)
              (ProjectViewRelations.under_plan_id relations)
              planned_in_stage_id
              about
              (ProjectViewRelations.handles relations))
    | UpdateProjectObjectV3.Work _ patch, ProjectViewObjectDataV3.Work work =>
        let? title :=
          from_domain (apply_required (ProjectWork.title work) (WorkPatchV3.title patch) "title") in
        let? description :=
          from_domain (apply_required (ProjectWork.description work) (WorkPatchV3.description patch) "description") in
        let? status :=
          from_domain (apply_required (ProjectWork.status work) (WorkPatchV3.status patch) "status") in
        let? priority :=
          from_domain (apply_required (ProjectWork.priority work) (WorkPatchV3.priority patch) "priority") in
        let summary := apply_optional (ProjectWork.summary work) (WorkPatchV3.summary patch) in
        let? handles :=
          from_domain
            (apply_required_relation (ProjectViewRelations.handles relations)
               (WorkPatchV3.handles patch) "handles") in
        Ok (ProjectViewObjectDataV3.Work
              {| ProjectWork.title := title;
                 ProjectWork.description := description;
                 ProjectWork.status := status;
                 ProjectWork.priority := priority;
                 ProjectWork.summary := summary |},
            relations_of (ProjectViewRelations.under_goal_id relations)
              (ProjectViewRelations.under_plan_id relations)
              (ProjectViewRelations.planned_in_stage_id relations)
              (ProjectViewRelations.about relations)
              handles)
    | UpdateProjectObjectV3.Resource _ patch, ProjectViewObjectDataV3.Resource resource =>
        let? name :=
          from_domain (apply_required (ProjectResourceV3.name resource) (ResourcePatchV3.name patch) "name") in
        let? resource_kind :=
          from_domain (apply_required (ProjectResourceV3.resource_kind resource) (ResourcePatchV3.resource_kind patch) "resource_kind") in
        let summary := apply_optional (ProjectResourceV3.summary resource) (ResourcePatchV3.summary patch) in
        let? guide_document_id :=
          from_domain (apply_required (ProjectResourceV3.guide_document_id resource) (ResourcePatchV3.guide_document_id patch) "guide_document_id") in
        Ok (ProjectViewObjectDataV3.Resource
              {| ProjectResourceV3.name := name;
                 ProjectResourceV3.resource_kind := resource_kind;
                 ProjectResourceV3.summary := summary;
                 ProjectResourceV3.guide_document_id := guide_document_id |},
            relations)
    | _, data =>
        Err (V3ProjectObjectError.Object
               (DomainError.DataTypeMismatch (ProjectViewObjectV3.object_type object)
                  (ProjectViewObjectDataV3_object_type data)))
    end in
  validate_object_data data ?;
  Ok (with_body object data relations).

End update.

(** ** The reducer *)

Module PreparedEntryV3.
Section prepared.
Context `{P : Platform}.

Inductive PreparedEntryV3 : Type :=
| Create (object_id : Uuid) (data : ProjectViewObjectDataV3) (relations : ProjectViewRelations)
    (context_references : list ProjectContextReference)
| Update (object : ProjectViewObjectV3)
| Delete (object : ProjectViewObjectV3).
End prepared.
End PreparedEntryV3.
Abbreviation PreparedEntryV3 := PreparedEntryV3.PreparedEntryV3.

Section reducer.
Context `{P : Platform}.

Definition next_revision (current : N) : DomainResult N :=
  ok_or (option_filter (λ revision, revision <=? MAX_SAFE_REVISION)%N (u64_checked_add current 1))
    DomainError.RevisionExhausted.

Definition guide_document_id (data : ProjectViewObjectDataV3) : option Uuid :=
  match data with
  | ProjectViewObjectDataV3.Resource resource => Some (ProjectResourceV3.guide_document_id resource)
  | _ => None
  end.

(** [ProjectViewStateV3::active_object] *)
Definition active_object (self : ProjectViewStateV3) (object_id : Uuid)
    : DomainResult ProjectViewObjectV3 :=
  match self.(entries) !! object_id with
  | Some (ProjectViewEntryV3.Active object) => Ok object
  | Some (ProjectViewEntryV3.Tombstone _) => Err (DomainError.ObjectDeleted object_id)
  | None => Err (DomainError.ObjectNotFound object_id)
  end.

(** The first relation slot of [source] that points at [target_id]. *)
Definition incoming_relation (target_id : Uuid) (source : ProjectViewObjectV3) : option string :=
  let relations := ProjectViewObjectV3.relations source in
  if bool_decide (ProjectViewRelations.under_goal_id relations = Some target_id)
  then Some "under_goal_id"
  else if bool_decide (ProjectViewRelations.under_plan_id relations = Some target_id)
  then Some "under_plan_id"
  else if bool_decide (ProjectViewRelations.planned_in_stage_id relations = Some target_id)
  then Some "planned_in_stage_id"
  else if is_some_and (λ reference, bool_decide (ObjectRef.object_id reference = target_id))
            (ProjectViewRelations.about relations)
  then Some "about"
  else if is_some_and (λ reference, bool_decide (ObjectRef.object_id reference = target_id))
            (ProjectViewRelations.handles relations)
  then Some "handles"
  else None%string.

(** [ProjectViewStateV3::first_incoming_structural_relation] *)
Definition first_incoming_structural_relation (self : ProjectViewStateV3) (target_id : Uuid)
    : option string :=
  head (omap (incoming_relation target_id) (active_objects self)).

(** [ProjectViewStateV3::first_incoming_resource_context] *)
Definition first_incoming_resource_context (self : ProjectViewStateV3) (resource_id : Uuid)
    : option Uuid :=
  head
    (omap
       (λ source,
          head
            (omap
               (λ reference,
                  match reference with
                  | ProjectContextReference.Resource target =>
                      if bool_decide (target = resource_id)
                      then Some (ProjectViewObjectV3.id source) else None
                  | _ => None
                  end)
               (ProjectViewObjectV3.context_references source)))
       (active_objects self)).

(** The state with other entries and Role levels. *)
Definition with_entries (self : ProjectViewStateV3) (entries : gmap Uuid ProjectViewEntryV3)
    (role_levels : gmap Uuid RoleLevel) : ProjectViewStateV3 := {|
  project_id := self.(project_id);
  project_revision := self.(project_revision);
  initialized_at := self.(initialized_at);
  updated_at := self.(updated_at);
  entries := entries;
  role_levels := role_levels;
|}.

(** [ProjectViewStateV3::validate_candidate] *)
Definition validate_candidate (self : ProjectViewStateV3) (prepared : PreparedEntryV3)
    : V3Result unit :=
  let? exemplar :=
    ok_or (head (active_objects self))
      (V3ProjectObjectError.Object
         (DomainError.InvalidFinalState (lit "initialized v3 state has no active Profile"))) in
  let entry :=
    match prepared with
    | PreparedEntryV3.Create object_id data relations context_references =>
        Some (ProjectViewEntryV3.Active {|
          ProjectViewObjectV3.id := object_id;
          ProjectViewObjectV3.object_type := ProjectViewObjectDataV3_object_type data;
          ProjectViewObjectV3.object_revision := 1;
          ProjectViewObjectV3.project_revision := u64_saturating_add self.(project_revision) 1;
          ProjectViewObjectV3.created_at := ProjectViewObjectV3.created_at exemplar;
          ProjectViewObjectV3.updated_at := ProjectViewObjectV3.updated_at exemplar;
          ProjectViewObjectV3.created_by := ProjectViewObjectV3.created_by exemplar;
          ProjectViewObjectV3.updated_by := ProjectViewObjectV3.updated_by exemplar;
          ProjectViewObjectV3.data := data;
          ProjectViewObjectV3.relations := relations;
          ProjectViewObjectV3.context_references := context_references;
        |})
    | PreparedEntryV3.Update object => Some (ProjectViewEntryV3.Active object)
    | PreparedEntryV3.Delete _ => None
    end in
  match entry with
  | None => Ok tt
  | Some entry =>
      let role_levels :=
        if bool_decide (ProjectViewEntryV3_object_type entry = ProjectViewObjectType.Role)
        then match self.(role_levels) !! ProjectViewEntryV3_id entry with
             | Some _ => self.(role_levels)
             | None => <[ProjectViewEntryV3_id entry := RoleLevel.Member]> self.(role_levels)
             end
        else self.(role_levels) in
      let candidate :=
        with_entries self (<[ProjectViewEntryV3_id entry := entry]> self.(entries)) role_levels in
      validate_relation_targets_and_context candidate
  end.

(** The object with another Context set. *)
Definition with_context (object : ProjectViewObjectV3)
    (context_references : list ProjectContextReference) : ProjectViewObjectV3 := {|
  ProjectViewObjectV3.id := ProjectViewObjectV3.id object;
  ProjectViewObjectV3.object_type := ProjectViewObjectV3.object_type object;
  ProjectViewObjectV3.object_revision := ProjectViewObjectV3.object_revision object;
  ProjectViewObjectV3.project_revision := ProjectViewObjectV3.project_revision object;
  ProjectViewObjectV3.created_at := ProjectViewObjectV3.created_at object;
  ProjectViewObjectV3.updated_at := ProjectViewObjectV3.updated_at object;
  ProjectViewObjectV3.created_by := ProjectViewObjectV3.created_by object;
  ProjectViewObjectV3.updated_by := ProjectViewObjectV3.updated_by object;
  ProjectViewObjectV3.data := ProjectViewObjectV3.data object;
  ProjectViewObjectV3.relations := ProjectViewObjectV3.relations object;
  ProjectViewObjectV3.context_references := context_references;
|}.

(** The [Create] branch of [prepare_next_entry]. *)
Definition prepare_create (self : ProjectViewStateV3) (create : CreateProjectObjectV3)
    (capabilities : V3ReducerCapabilities) : V3Result (PreparedEntryV3 * DocumentTargetDelta) :=
  let '(object_id, data, relations, context_references) :=
    NewProjectViewObjectV3_into_parts create.(create_object) in
  reject_if (bool_decide (object_id = self.(project_id)))
    (V3ProjectObjectError.Object (DomainError.ReservedProfileId object_id)) ?;
  reject_if (opt_is_some (self.(entries) !! object_id))
    (V3ProjectObjectError.Object (DomainError.ObjectIdAlreadyUsed object_id)) ?;
  let? context_references :=
    from_reference
      (validate_context_replacement [] context_references
         capabilities.(project_context_enabled)) in
  validate_context_source (ProjectViewObjectDataV3_object_type data) context_references ?;
  let next_guide := guide_document_id data in
  let delta := introduced_document_targets [] context_references None next_guide in
  let prepared := PreparedEntryV3.Create object_id data relations context_references in
  validate_candidate self prepared ?;
  Ok (prepared, delta).

(** The [Update] branch of [prepare_next_entry]. *)
Definition prepare_update (self : ProjectViewStateV3) (update : UpdateProjectObjectV3)
    (capabilities : V3ReducerCapabilities) : V3Result (PreparedEntryV3 * DocumentTargetDelta) :=
  let object_id := UpdateProjectObjectV3_object_id update in
  let? current := from_domain (active_object self object_id) in
  reject_if
    (negb (bool_decide (ProjectViewObjectV3.object_type current
                        = UpdateProjectObjectV3_object_type update)))
    (V3ProjectObjectError.Object
       (DomainError.ObjectTypeMismatch object_id (UpdateProjectObjectV3_object_type update)
          (ProjectViewObjectV3.object_type current))) ?;
  let? updated := apply_update current update in
  let? updated :=
    match UpdateProjectObjectV3_context_references update with
    | Some replacement =>
        let? context_references :=
          from_reference
            (validate_context_replacement (ProjectViewObjectV3.context_references current)
               replacement capabilities.(project_context_enabled)) in
        Ok (with_context updated context_references)
    | None => Ok updated
    end in
  validate_context_source (ProjectViewObjectV3.object_type updated)
    (ProjectViewObjectV3.context_references updated) ?;
  reject_if
    (bool_decide (ProjectViewObjectV3.data updated = ProjectViewObjectV3.data current)
     && bool_decide (ProjectViewObjectV3.relations updated = ProjectViewObjectV3.relations current)
     && bool_decide (ProjectViewObjectV3.context_references updated
                     = ProjectViewObjectV3.context_references current))
    (V3ProjectObjectError.Object DomainError.NoChanges) ?;
  let delta :=
    introduced_document_targets (ProjectViewObjectV3.context_references current)
      (ProjectViewObjectV3.context_references updated)
      (guide_document_id (ProjectViewObjectV3.data current))
      (guide_document_id (ProjectViewObjectV3.data updated)) in
  let prepared := PreparedEntryV3.Update updated in
  validate_candidate self prepared ?;
  Ok (prepared, delta).

(** The number of active Goals. *)
Definition active_goal_count (self : ProjectViewStateV3) : N :=
  len (filter (λ object, ProjectViewObjectV3.object_type object = ProjectViewObjectType.Goal)
         (active_objects self)).

(** The [Delete] branch of [prepare_next_entry]. *)
Definition prepare_delete (self : ProjectViewStateV3) (delete : DeleteProjectObjectV3)
    : V3Result (PreparedEntryV3 * DocumentTargetDelta) :=
  let? current := from_domain (active_object self delete.(delete_object_id)) in
  let object_type := ProjectViewObjectV3.object_type current in
  let id := ProjectViewObjectV3.id current in
  reject_if (negb (bool_decide (object_type = delete.(delete_object_type))))
    (V3ProjectObjectError.Object
       (DomainError.ObjectTypeMismatch delete.(delete_object_id) delete.(delete_object_type)
          object_type)) ?;
  reject_if (bool_decide (object_type = ProjectViewObjectType.ProjectProfile))
    (V3ProjectObjectError.Object DomainError.ProfileDeletionForbidden) ?;
  reject_if
    (bool_decide (object_type = ProjectViewObjectType.Goal) && (active_goal_count self =? 1)%N)
    (V3ProjectObjectError.Object DomainError.LastGoalDeletionForbidden) ?;
  if_some (first_incoming_structural_relation self id)
    (λ relation,
       Err (V3ProjectObjectError.Object (DomainError.ObjectStillReferenced id relation))) ?;
  (if bool_decide (object_type = ProjectViewObjectType.Resource) then
     if_some (first_incoming_resource_context self id)
       (λ source_object_id,
          Err (V3ProjectObjectError.ResourceStillContextReferenced id source_object_id))
   else Ok tt) ?;
  Ok (PreparedEntryV3.Delete current, DocumentTargetDelta_default).

(** [ProjectViewStateV3::prepare_next_entry] *)
Definition prepare_next_entry (self : ProjectViewStateV3) (command : ProjectObjectCommandV3)
    (capabilities : V3ReducerCapabilities) : V3Result (PreparedEntryV3 * DocumentTargetDelta) :=
  match command.(request) with
  | ProjectObjectRequestV3.Create create => prepare_create self create capabilities
  | ProjectObjectRequestV3.Update update => prepare_update self update capabilities
  | ProjectObjectRequestV3.Delete delete => prepare_delete self delete
  end.

(** [ProjectViewStateV3::document_target_delta] *)
Definition document_target_delta (self : ProjectViewStateV3) (command : ProjectObjectCommandV3)
    (capabilities : V3ReducerCapabilities) : V3Result DocumentTargetDelta :=
  let? (_, delta) := prepare_next_entry self command capabilities in
  Ok delta.

(** The [match prepared] of [reduce]: the changed entry and the Role levels of
    the next state. *)
Definition commit_prepared (self : ProjectViewStateV3) (command : ProjectObjectCommandV3)
    (actor : PublicKey) (now : DateTime) (project_revision : N) (prepared : PreparedEntryV3)
    : V3Result (ProjectViewEntryV3 * gmap Uuid RoleLevel) :=
  match prepared with
  | PreparedEntryV3.Create object_id data relations context_references =>
      let object := {|
        ProjectViewObjectV3.id := object_id;
        ProjectViewObjectV3.object_type := ProjectViewObjectDataV3_object_type data;
        ProjectViewObjectV3.object_revision := 1;
        ProjectViewObjectV3.project_revision := project_revision;
        ProjectViewObjectV3.created_at := now;
        ProjectViewObjectV3.updated_at := now;
        ProjectViewObjectV3.created_by := actor;
        ProjectViewObjectV3.updated_by := actor;
        ProjectViewObjectV3.data := data;
        ProjectViewObjectV3.relations := relations;
        ProjectViewObjectV3.context_references := context_references;
      |} in
      let? role_levels :=
        if bool_decide (ProjectViewObjectV3.object_type object = ProjectViewObjectType.Role) then
          let? level :=
            ok_or (ProjectObjectCommandV3_created_role_level command)
              (V3ProjectObjectError.InvalidRoleLevels
                 (lit "Role create has no initial governance level")) in
          Ok (<[ProjectViewObjectV3.id object := level]> self.(role_levels))
        else Ok self.(role_levels) in
      Ok (ProjectViewEntryV3.Active object, role_levels)
  | PreparedEntryV3.Update object =>
      let? object_revision :=
        from_domain (next_revision (ProjectViewObjectV3.object_revision object)) in
      Ok (ProjectViewEntryV3.Active {|
            ProjectViewObjectV3.id := ProjectViewObjectV3.id object;
            ProjectViewObjectV3.object_type := ProjectViewObjectV3.object_type object;
            ProjectViewObjectV3.object_revision := object_revision;
            ProjectViewObjectV3.project_revision := project_revision;
            ProjectViewObjectV3.created_at := ProjectViewObjectV3.created_at object;
            ProjectViewObjectV3.updated_at := now;
            ProjectViewObjectV3.created_by := ProjectViewObjectV3.created_by object;
            ProjectViewObjectV3.updated_by := actor;
            ProjectViewObjectV3.data := ProjectViewObjectV3.data object;
            ProjectViewObjectV3.relations := ProjectViewObjectV3.relations object;
            ProjectViewObjectV3.context_references :=
              ProjectViewObjectV3.context_references object;
          |}, self.(role_levels))
  | PreparedEntryV3.Delete current =>
      let? object_revision :=
        from_domain (next_revision (ProjectViewObjectV3.object_revision current)) in
      Ok (ProjectViewEntryV3.Tombstone {|
            ProjectViewTombstoneV3.id := ProjectViewObjectV3.id current;
            ProjectViewTombstoneV3.object_type := ProjectViewObjectV3.object_type current;
            ProjectViewTombstoneV3.object_revision := object_revision;
            ProjectViewTombstoneV3.project_revision := project_revision;
            ProjectViewTombstoneV3.created_at := ProjectViewObjectV3.created_at current;
            ProjectViewTombstoneV3.deleted_at := now;
            ProjectViewTombstoneV3.created_by := ProjectViewObjectV3.created_by current;
            ProjectViewTombstoneV3.deleted_by := actor;
          |}, self.(role_levels))
  end.

(** [ProjectViewStateV3::reduce] *)
Definition reduce (self : ProjectViewStateV3) (command : ProjectObjectCommandV3)
    (actor : PublicKey) (now : DateTime) (capabilities : V3ReducerCapabilities)
    (proof : ReferenceTargetProof) : V3Result (ProjectViewStateV3 * ProjectObjectOutcomeV3) :=
  validate_state self ?;
  ProjectObjectCommandV3_validate_for_submission command ?;
  reject_if (negb (is_initialized self)) (V3ProjectObjectError.Object DomainError.NotInitialized) ?;
  reject_if (negb (command.(expected_project_revision) =? self.(project_revision))%N)
    (V3ProjectObjectError.Object
       (DomainError.RevisionConflict command.(expected_project_revision)
          self.(project_revision))) ?;
  let? (prepared, delta) := prepare_next_entry self command capabilities in
  from_reference
    (validate_document_target_delta delta capabilities.(document_capability_available) proof) ?;
  let? project_revision := from_domain (next_revision self.(project_revision)) in
  let? (changed, role_levels) :=
    commit_prepared self command actor now project_revision prepared in
  let next := {|
    project_id := self.(project_id);
    project_revision := project_revision;
    initialized_at := self.(initialized_at);
    updated_at := Some now;
    entries := <[ProjectViewEntryV3_id changed := changed]> self.(entries);
    role_levels := role_levels;
  |} in
  validate_state next ?;
  Ok (next,
      {| outcome_project_revision := project_revision;
         changed_entries := [changed];
         outcome_document_target_delta := delta |}).

(** [ProjectViewStateV3::apply]: the state afterwards and the result. *)
Definition apply (self : ProjectViewStateV3) (command : ProjectObjectCommandV3)
    (actor : PublicKey) (now : DateTime) (capabilities : V3ReducerCapabilities)
    (proof : ReferenceTargetProof)
    : ProjectViewStateV3 * V3Result ProjectObjectOutcomeV3 :=
  match reduce self command actor now capabilities proof with
  | Ok (next, outcome) => (next, Ok outcome)
  | Err e => (self, Err e)
  end.

(** The loops of [ProjectViewStateV3::from_snapshot]. *)
Fixpoint collect_entries (by_id : gmap Uuid ProjectViewEntryV3) (rows : list ProjectViewEntryV3)
    : V3Result (gmap Uuid ProjectViewEntryV3) :=
  match rows with
  | [] => Ok by_id
  | entry :: rest =>
      let object_id := ProjectViewEntryV3_id entry in
      reject_if (opt_is_some (by_id !! object_id))
        (V3ProjectObjectError.Object (DomainError.ObjectIdAlreadyUsed object_id)) ?;
      collect_entries (<[object_id := entry]> by_id) rest
  end.

Fixpoint collect_levels (levels : gmap Uuid RoleLevel) (rows : list (Uuid * RoleLevel))
    : V3Result (gmap Uuid RoleLevel) :=
  match rows with
  | [] => Ok levels
  | (role_id, level) :: rest =>
      reject_if (opt_is_some (levels !! role_id))
        (V3ProjectObjectError.InvalidRoleLevels
           (lit "duplicate Role level for " ++ Uuid_display role_id)) ?;
      collect_levels (<[role_id := level]> levels) rest
  end.

(** [ProjectViewStateV3::from_snapshot] *)
Definition ProjectViewStateV3_from_snapshot (project_id : Uuid) (project_revision : N)
    (initialized_at updated_at : option DateTime) (entries : list ProjectViewEntryV3)
    (role_levels : list (Uuid * RoleLevel)) : V3Result ProjectViewStateV3 :=
  let? by_id := collect_entries ∅ entries in
  let? levels := collect_levels ∅ role_levels in
  let state := {|
    project_id := project_id;
    project_revision := project_revision;
    initialized_at := initialized_at;
    updated_at := updated_at;
    entries := by_id;
    role_levels := levels;
  |} in
  validate_state state ?;
  Ok state.

End reducer.
