(* ===== verification/ViewProjection.v ===== *)
(** * Project View schema 3: projection plans

    Models [buzz-project-view/src/v3/projection.rs]: the changed heads that one
    accepted object change publishes. *)

From S2P Require Import Prelude Text Platform ViewModel ViewMutation.
From S2P Require Import ViewContract ViewReference ViewObject ViewCommand ViewState.
From stdpp Require Import prelude strings gmap.

Module ProjectedHeadV3.
Section head.
Context `{P : Platform}.

Inductive ProjectedHeadV3 : Type :=
| Role (role : RoleDefinitionV3)
| Object (entry : ProjectViewEntryV3).

#[global] Instance ProjectedHeadV3_eq_dec : EqDecision ProjectedHeadV3.
Proof. solve_decision. Defined.
End head.
End ProjectedHeadV3.
Abbreviation ProjectedHeadV3 := ProjectedHeadV3.ProjectedHeadV3.

Section plan.
Context `{P : Platform}.

Record ProjectionPlanV3 : Type := {
  plan_project_revision : N;
  heads : list ProjectedHeadV3;
}.

(** [ProjectedHeadV3::object_id] *)
Definition ProjectedHeadV3_object_id (self : ProjectedHeadV3) : Uuid :=
  match self with
  | ProjectedHeadV3.Role role => RoleDefinitionV3.role_id role
  | ProjectedHeadV3.Object entry => ProjectViewEntryV3_id entry
  end.

(** [ProjectedHeadV3::object_revision] *)
Definition ProjectedHeadV3_object_revision (self : ProjectedHeadV3) : N :=
  match self with
  | ProjectedHeadV3.Role role => RoleDefinitionV3.object_revision role
  | ProjectedHeadV3.Object entry => ProjectViewEntryV3_object_revision entry
  end.

(** [ProjectedHeadV3::is_role_definition] *)
Definition ProjectedHeadV3_is_role_definition (self : ProjectedHeadV3) : bool :=
  match self with ProjectedHeadV3.Role _ => true | _ => false end.

(** The head of one changed entry. *)
Definition head_of (role_level : Uuid → option RoleLevel) (entry : ProjectViewEntryV3)
    : V3Result ProjectedHeadV3 :=
  match entry with
  | ProjectViewEntryV3.Active object =>
      if bool_decide (ProjectViewObjectV3.object_type object = ProjectViewObjectType.Role) then
        let? level :=
          ok_or (role_level (ProjectViewObjectV3.id object))
            (V3ProjectObjectError.InvalidRoleLevels
               (lit "active Role " ++ Uuid_display (ProjectViewObjectV3.id object)
                ++ lit " has no governance level")) in
        let? role := from_contract (ProjectViewObjectV3_role_definition object level) in
        Ok (ProjectedHeadV3.Role role)
      else Ok (ProjectedHeadV3.Object entry)
  | _ => Ok (ProjectedHeadV3.Object entry)
  end.

(** The loop of [ProjectionPlanV3::for_object_outcome]. *)
Fixpoint collect_heads (role_level : Uuid → option RoleLevel) (seen : gset Uuid)
    (heads : list ProjectedHeadV3) (entries : list ProjectViewEntryV3)
    : V3Result (list ProjectedHeadV3) :=
  match entries with
  | [] => Ok heads
  | entry :: rest =>
      reject_if (bool_decide (ProjectViewEntryV3_id entry ∈ seen))
        (V3ProjectObjectError.InvalidRoleLevels
           (lit "duplicate changed head for object "
            ++ Uuid_display (ProjectViewEntryV3_id entry))) ?;
      let? head := head_of role_level entry in
      collect_heads role_level ({[ProjectViewEntryV3_id entry]} ∪ seen) (heads ++ [head]) rest
  end.

(** [ProjectionPlanV3::for_object_outcome] *)
Definition ProjectionPlanV3_for_object_outcome (outcome : ProjectObjectOutcomeV3)
    (role_level : Uuid → option RoleLevel) : V3Result ProjectionPlanV3 :=
  let? heads := collect_heads role_level ∅ [] outcome.(changed_entries) in
  let heads :=
    sort_by (λ a b, Uuid_cmp (ProjectedHeadV3_object_id a) (ProjectedHeadV3_object_id b)) heads in
  Ok {| plan_project_revision := outcome.(outcome_project_revision); heads := heads |}.

(** The loop of [ProjectionPlanV3::validate_single_head_per_object]. *)
Fixpoint validate_heads (seen : gset Uuid) (heads : list ProjectedHeadV3) : V3Result unit :=
  match heads with
  | [] => Ok tt
  | head :: rest =>
      reject_if (bool_decide (ProjectedHeadV3_object_id head ∈ seen))
        (V3ProjectObjectError.InvalidRoleLevels
           (lit "duplicate v3 projection head for "
            ++ Uuid_display (ProjectedHeadV3_object_id head))) ?;
      (match head with
       | ProjectedHeadV3.Object (ProjectViewEntryV3.Active object) =>
           reject_if
             (bool_decide (ProjectViewObjectV3.object_type object = ProjectViewObjectType.Role))
             (V3ProjectObjectError.InvalidRoleLevels
                (lit "active Role must project only as RoleDefinitionV3"))
       | _ => Ok tt
       end) ?;
      validate_heads ({[ProjectedHeadV3_object_id head]} ∪ seen) rest
  end.

(** [ProjectionPlanV3::validate_single_head_per_object] *)
Definition ProjectionPlanV3_validate_single_head_per_object (self : ProjectionPlanV3)
    : V3Result unit :=
  validate_heads ∅ self.(heads).

End plan.
