(* ===== verification/ViewFacts.v ===== *)
(** * Project View schema 3: what its validators decide

    Context Reference sets have a canonical form; the aggregate validation of a
    snapshot decides the invariant [view_ok]: rows agree with their keys, every
    active object is well formed, there is one Profile, Role levels cover
    exactly the Role identities, and no relation or Resource reference dangles. *)

From S2P Require Import Prelude Text Platform ViewModel ViewMutation.
From S2P Require Import ViewContract ViewReference ViewObject ViewCommand ViewState.
From Stdlib Require Import Sorted.
From stdpp Require Import prelude strings gmap fin_maps.

(** ** Context References *)

Section references.
Context `{P : Platform} `{HU : !UuidLaws}.

Definition reference_valid (r : ProjectContextReference) : Prop :=
  match r with
  | ProjectContextReference.Resource id => not_uuid_v4 id = false
  | ProjectContextReference.Document id mode revision =>
      not_uuid_v4 id = false
      ∧ match mode with
        | DocumentReferenceMode.Live => revision = None
        | DocumentReferenceMode.Pinned => ∃ n, revision = Some n ∧ (1 ≤ n ≤ MAX_SAFE_REVISION)%N
        end
  end.

Lemma require_uuid_v4_contract_Ok id field u :
  require_uuid_v4_contract id field = Ok u ↔ not_uuid_v4 id = false.
Proof. unfold require_uuid_v4_contract. destruct u, (not_uuid_v4 id); naive_solver. Qed.

Lemma reference_validate_Ok r u : ProjectContextReference_validate r = Ok u ↔ reference_valid r.
Proof.
  destruct u, r as [id|id mode revision]; simpl.
  - by rewrite map_err_Ok, require_uuid_v4_contract_Ok.
  - rewrite seq_Ok, map_err_Ok, require_uuid_v4_contract_Ok.
    destruct mode, revision as [n|]; try naive_solver.
    destruct ((1 <=? n) && (n <=? MAX_SAFE_REVISION))%N eqn:Hn; bool_props.
    + naive_solver.
    + split; [naive_solver|]. intros (_ & m & [= <-] & Hm).
      rewrite (proj2 (N.leb_le 1 n)), (proj2 (N.leb_le n _)) in Hn by lia. done.
Qed.

#[export] Instance context_key_cmp_total : TotalCmp context_key_cmp.
Proof.
  split.
  - intros [[[a1 a2] a3] a4] [[[b1 b2] b3] b4]. simpl.
    destruct (N.compare_spec a1 b1) as [->|?|?]; simpl; [|naive_solver lia..].
    destruct (slice_cmp a2 b2) eqn:H2; simpl.
    + apply (cmp_eq slice_cmp) in H2 as ->.
      destruct (N.compare_spec a3 b3) as [->|?|?]; simpl; [|naive_solver lia..].
      rewrite N.compare_eq_iff. naive_solver.
    + split; [done|]. intros [= -> _ _]. by rewrite (cmp_refl slice_cmp) in H2.
    + split; [done|]. intros [= -> _ _]. by rewrite (cmp_refl slice_cmp) in H2.
  - intros [[[a1 a2] a3] a4] [[[b1 b2] b3] b4]. simpl.
    rewrite (N.compare_antisym a1), (cmp_sym slice_cmp a2), (N.compare_antisym a3),
      (N.compare_antisym a4).
    by destruct (N.compare a1 b1), (slice_cmp a2 b2), (N.compare a3 b3).
  - intros [[[a1 a2] a3] a4] [[[b1 b2] b3] b4] [[[c1 c2] c3] c4]. simpl.
    assert (Htrans : ∀ x y z : N, N.compare x y = Lt → N.compare y z = Lt → N.compare x z = Lt).
    { intros x y z. rewrite !N.compare_lt_iff. lia. }
    destruct (N.compare_spec a1 b1) as [->|H1|H1]; simpl; [|intros _|done].
    2: { apply N.compare_lt_iff in H1.
         destruct (N.compare_spec b1 c1) as [->|H1'|H1']; simpl; [by rewrite H1| |done].
         apply N.compare_lt_iff in H1'. by rewrite (Htrans _ _ _ H1 H1'). }
    destruct (N.compare b1 c1); simpl; [|done|done].
    destruct (slice_cmp a2 b2) eqn:H2; simpl; [|intros _|done].
    2: { destruct (slice_cmp b2 c2) eqn:H2'; simpl; [| |done]; intros _.
         - apply (cmp_eq slice_cmp) in H2' as ->. by rewrite H2.
         - by rewrite (cmp_lt_trans slice_cmp _ _ _ H2 H2'). }
    apply (cmp_eq slice_cmp) in H2 as ->. destruct (slice_cmp b2 c2); simpl; [|done|done].
    destruct (N.compare_spec a3 b3) as [->|H3|H3]; simpl; [|intros _|done].
    2: { apply N.compare_lt_iff in H3.
         destruct (N.compare_spec b3 c3) as [->|H3'|H3']; simpl; [by rewrite H3| |done].
         apply N.compare_lt_iff in H3'. by rewrite (Htrans _ _ _ H3 H3'). }
    destruct (N.compare b3 c3); simpl; [|done|done]. apply Htrans.
Qed.

(** Valid references with the same key are the same reference. *)
Lemma context_key_inj a b :
  reference_valid a → reference_valid b → context_key a = context_key b → a = b.
Proof.
  destruct a as [a|a [] ra], b as [b|b [] rb]; simpl; try done.
  - intros _ _ [= H]. f_equal. by apply Uuid_as_bytes_inj.
  - intros [_ ->] [_ ->] [= H]. f_equal. by apply Uuid_as_bytes_inj.
  - intros (_ & n & -> & _) (_ & m & -> & _) [= H Hr]. simpl in Hr.
    apply Uuid_as_bytes_inj in H. congruence.
Qed.

(** A canonical Context set: bounded, valid, duplicate free and sorted. *)
Definition references_ok (rs : list ProjectContextReference) : Prop :=
  (len rs ≤ MAX_CONTEXT_REFERENCES)%N ∧ Forall reference_valid rs ∧ NoDup rs.

Lemma canonicalize_references_Ok rs out :
  canonicalize_context_references rs = Ok out ↔
  out = sort_by canonical_cmp rs ∧ references_ok rs.
Proof.
  unfold canonicalize_context_references, references_ok.
  rewrite !seq_Ok, !reject_if_Ok, for_each_Ok, N.ltb_ge.
  assert (Hv : Forall (λ r, ProjectContextReference_validate r = Ok tt) rs
               ↔ Forall reference_valid rs).
  { apply Forall_iff. intros r. apply reference_validate_Ok. }
  rewrite Hv.
  assert (Hd : Forall reference_valid rs →
    windows2_any (λ a b, bool_decide (a = b)) (sort_by canonical_cmp rs) = false ↔ NoDup rs).
  { intros Hrs. assert (Hs : Forall reference_valid (sort_by canonical_cmp rs))
      by (by rewrite (sort_by_perm canonical_cmp)).
    rewrite (windows2_any_keys context_key reference_valid context_key_inj _ Hs).
    change canonical_cmp with (λ a b, context_key_cmp (context_key a) (context_key b)).
    rewrite (sort_by_key context_key context_key_cmp), (windows2_any_eq_sort context_key_cmp).
    by apply (keys_NoDup _ _ context_key_inj). }
  naive_solver.
Qed.

(** Canonicalisation is a normal form of reference sets. *)
Lemma canonicalize_references_stable rs out :
  canonicalize_context_references rs = Ok out →
  canonicalize_context_references out = Ok out ∧ Permutation out rs.
Proof.
  intros (-> & Hl & Hv & Hd)%canonicalize_references_Ok.
  pose proof (sort_by_perm canonical_cmp rs) as Hp. split; [|done].
  apply canonicalize_references_Ok. split.
  - symmetry. by apply (sort_by_key_idemp context_key context_key_cmp _ context_key_inj).
  - split_and!; [|by rewrite Hp..]. unfold len in *. by rewrite Hp.
Qed.

End references.

(** ** Iteration *)

Section iteration.
Context `{P : Platform}.

Lemma elem_of_active_objects s o :
  o ∈ active_objects s ↔ ∃ k, s.(entries) !! k = Some (ProjectViewEntryV3.Active o).
Proof.
  unfold active_objects. rewrite list_elem_of_omap. setoid_rewrite elem_of_btree_values. split.
  - intros ([?|?] & [k Hk] & [= <-]). eauto.
  - intros [k Hk]. exists (ProjectViewEntryV3.Active o). eauto.
Qed.

End iteration.

(** ** The relation graph *)

Section graph.
Context `{P : Platform}.
Implicit Types m : gmap Uuid ProjectViewEntryV3.

(** [k] is an active object of type [ty]. *)
Definition active_of m (k : Uuid) (ty : ProjectViewObjectType) : Prop :=
  ∃ o, m !! k = Some (ProjectViewEntryV3.Active o) ∧ ProjectViewObjectV3.object_type o = ty.

(** Every relation slot of an object resolves to an active object of the right type. *)
Record relations_ok m (id : Uuid) (r : ProjectViewRelations) : Prop := {
  goal_ok : ∀ g, ProjectViewRelations.under_goal_id r = Some g →
    active_of m g ProjectViewObjectType.Goal;
  plan_ok : ∀ p, ProjectViewRelations.under_plan_id r = Some p →
    active_of m p ProjectViewObjectType.Plan;
  stage_ok : ∀ t, ProjectViewRelations.planned_in_stage_id r = Some t →
    active_of m t ProjectViewObjectType.Stage;
  about_ok : ∀ t, ProjectViewRelations.about r = Some t →
    ObjectRef.object_id t ≠ id ∧ active_of m (ObjectRef.object_id t) (ObjectRef.object_type t);
  handles_ok : ∀ t, ProjectViewRelations.handles r = Some t →
    (ObjectRef.object_type t = ProjectViewObjectType.Requirement
     ∨ ObjectRef.object_type t = ProjectViewObjectType.Issue)
    ∧ active_of m (ObjectRef.object_id t) (ObjectRef.object_type t);
}.

(** A Resource references no Resource, and every Resource reference resolves. *)
Definition context_ok m (ty : ProjectViewObjectType) (rs : list ProjectContextReference) : Prop :=
  ∀ r, ProjectContextReference.Resource r ∈ rs →
    ty ≠ ProjectViewObjectType.Resource ∧ active_of m r ProjectViewObjectType.Resource.

Definition graph_ok m : Prop :=
  ∀ k o, m !! k = Some (ProjectViewEntryV3.Active o) →
    relations_ok m (ProjectViewObjectV3.id o) (ProjectViewObjectV3.relations o)
    ∧ context_ok m (ProjectViewObjectV3.object_type o) (ProjectViewObjectV3.context_references o).

Lemma if_some_Ok {A E} (slot : option A) (f : A → result unit E) u :
  if_some slot f = Ok u ↔ ∀ x, slot = Some x → f x = Ok tt.
Proof. destruct u, slot; simpl; naive_solver. Qed.

Lemma active_target_Ok s relation k o :
  active_target s relation k = Ok o ↔ s.(entries) !! k = Some (ProjectViewEntryV3.Active o).
Proof.
  unfold active_target, entry. destruct (entries s !! k) as [[?|?]|]; naive_solver.
Qed.

Lemma validate_typed_target_Ok s relation k ty u :
  validate_typed_target s relation k ty = Ok u ↔ active_of s.(entries) k ty.
Proof.
  unfold validate_typed_target, active_of. destruct u. rewrite rbind_Ok.
  setoid_rewrite active_target_Ok. setoid_rewrite seq_Ok. setoid_rewrite reject_if_Ok.
  setoid_rewrite bool_decide_negb_false. naive_solver.
Qed.

Lemma validate_declared_target_Ok s relation t u :
  validate_declared_target s relation t = Ok u
  ↔ active_of s.(entries) (ObjectRef.object_id t) (ObjectRef.object_type t).
Proof.
  unfold validate_declared_target, active_of. destruct u. rewrite rbind_Ok.
  setoid_rewrite active_target_Ok. setoid_rewrite seq_Ok. setoid_rewrite reject_if_Ok.
  setoid_rewrite bool_decide_negb_false. naive_solver.
Qed.

Lemma validate_relation_targets_Ok s o u :
  validate_relation_targets s o = Ok u
  ↔ relations_ok s.(entries) (ProjectViewObjectV3.id o) (ProjectViewObjectV3.relations o).
Proof.
  unfold validate_relation_targets. destruct u. rewrite !seq_Ok, !if_some_Ok.
  setoid_rewrite validate_typed_target_Ok. setoid_rewrite seq_Ok.
  setoid_rewrite reject_if_Ok. setoid_rewrite bool_decide_eq_false.
  setoid_rewrite validate_declared_target_Ok.
  assert (Hw : ∀ t : ObjectRef, match ObjectRef.object_type t with
      | ProjectViewObjectType.Requirement | ProjectViewObjectType.Issue => Ok tt
      | actual => Err (V3ProjectObjectError.Object (DomainError.InvalidWorkTarget actual))
      end = Ok tt ↔ ObjectRef.object_type t = ProjectViewObjectType.Requirement
                    ∨ ObjectRef.object_type t = ProjectViewObjectType.Issue).
  { intros t. destruct (ObjectRef.object_type t); naive_solver. }
  setoid_rewrite Hw. split; [intros (?&?&?&?&?&_); by constructor|]. by intros [].
Qed.

Lemma validate_context_source_Ok ty rs u :
  validate_context_source ty rs = Ok u
  ↔ ∀ r, ProjectContextReference.Resource r ∈ rs → ty ≠ ProjectViewObjectType.Resource.
Proof.
  unfold validate_context_source. destruct u. rewrite seq_Ok, reject_if_Ok, andb_false_iff,
    bool_decide_eq_false. split.
  - intros [[H|H] _] r Hr; [done|]. intros ->. apply not_true_iff_false in H. apply H.
    apply existsb_exists. eexists. split; [by apply list_elem_of_In|done].
  - intros H. split; [|done].
    destruct (decide (ty = ProjectViewObjectType.Resource)) as [->|]; [right|by left].
    apply not_true_iff_false. intros ([r|] & Hr & Hm)%existsb_exists; [|done].
    by apply (H r); [apply list_elem_of_In|].
Qed.

Lemma validate_graph_Ok s u :
  validate_relation_targets_and_context s = Ok u ↔ graph_ok s.(entries).
Proof.
  unfold validate_relation_targets_and_context, graph_ok. destruct u.
  rewrite seq_Ok, for_each_Ok, Forall_forall. unfold context_ok. split.
  - intros [H _] k o Hk. specialize (H o (proj2 (elem_of_active_objects s o) (ex_intro _ k Hk))).
    cbv beta in H. rewrite !seq_Ok, validate_relation_targets_Ok, validate_context_source_Ok,
      for_each_Ok, Forall_forall in H. destruct H as (Hr & Hs & Hc).
    split; [done|]. intros r Hin. split; [by eapply Hs|]. specialize (Hc _ Hin). simpl in Hc.
    destruct (entries s !! r) as [[t|]|] eqn:Hr'; [|done|done].
    case_bool_decide; [|done]. by exists t.
  - intros H. split; [|done]. intros o [k Hk]%elem_of_active_objects.
    destruct (H k o Hk) as [Hr Hc].
    rewrite !seq_Ok, validate_relation_targets_Ok, validate_context_source_Ok, for_each_Ok,
      Forall_forall.
    split_and!; [done|naive_solver|]. intros [r|] Hin; [|done].
    destruct (Hc r Hin) as [_ (t & Ht & Hty)]. by rewrite Ht, bool_decide_true.
Qed.

End graph.

(** ** The invariant of a snapshot *)

Section view_ok.
Context `{P : Platform}.

#[local] Opaque validate_relation_shape canonicalize_context_references validate_object_data.

(** A client-generated id: a version 4 UUID that is not the Profile's. *)
Definition client_id (project id : Uuid) : Prop :=
  id ≠ project ∧ Uuid_get_version_num id = 4%N ∧ Uuid_variant_is_rfc4122 id = true.

Record object_ok (o : ProjectViewObjectV3) : Prop := {
  object_ok_type : ProjectViewObjectV3.object_type o
    = ProjectViewObjectDataV3_object_type (ProjectViewObjectV3.data o);
  object_ok_revision : (1 ≤ ProjectViewObjectV3.object_revision o ≤ MAX_SAFE_REVISION)%N;
  object_ok_project : (1 ≤ ProjectViewObjectV3.project_revision o ≤ MAX_SAFE_REVISION)%N;
  object_ok_time : (ProjectViewObjectV3.created_at o ≤ ProjectViewObjectV3.updated_at o)%Z;
  object_ok_data : validate_object_data (ProjectViewObjectV3.data o) = Ok tt;
  object_ok_shape : validate_relation_shape (ProjectViewObjectV3.object_type o)
    (ProjectViewObjectV3.relations o) = Ok tt;
  object_ok_references :
    canonicalize_context_references (ProjectViewObjectV3.context_references o)
    = Ok (ProjectViewObjectV3.context_references o);
}.

Record tombstone_ok (d : ProjectViewTombstoneV3) : Prop := {
  tombstone_ok_revision : (1 ≤ ProjectViewTombstoneV3.object_revision d ≤ MAX_SAFE_REVISION)%N;
  tombstone_ok_project : (1 ≤ ProjectViewTombstoneV3.project_revision d ≤ MAX_SAFE_REVISION)%N;
  tombstone_ok_time :
    (ProjectViewTombstoneV3.created_at d ≤ ProjectViewTombstoneV3.deleted_at d)%Z;
  tombstone_ok_type : ProjectViewTombstoneV3.object_type d ≠ ProjectViewObjectType.ProjectProfile;
}.

(** What one row must satisfy in a project at a revision and a time. *)
Definition entry_ok (project : Uuid) (revision : N) (time : DateTime) (k : Uuid)
    (e : ProjectViewEntryV3) : Prop :=
  k = ProjectViewEntryV3_id e
  ∧ match e with
    | ProjectViewEntryV3.Active o =>
        object_ok o ∧ (ProjectViewObjectV3.project_revision o ≤ revision)%N
        ∧ (ProjectViewObjectV3.updated_at o ≤ time)%Z
        ∧ if bool_decide (ProjectViewObjectV3.object_type o = ProjectViewObjectType.ProjectProfile)
          then ProjectViewObjectV3.id o = project
          else client_id project (ProjectViewObjectV3.id o)
    | ProjectViewEntryV3.Tombstone d =>
        tombstone_ok d ∧ (ProjectViewTombstoneV3.project_revision d ≤ revision)%N
        ∧ (ProjectViewTombstoneV3.deleted_at d ≤ time)%Z
        ∧ client_id project (ProjectViewTombstoneV3.id d)
    end.

(** The invariant of an initialized project. *)
Record view_ok (s : ProjectViewStateV3) (time : DateTime) : Prop := {
  view_ok_revision : (1 ≤ s.(project_revision) ≤ MAX_SAFE_REVISION)%N;
  view_ok_updated : s.(updated_at) = Some time;
  view_ok_initialized : ∃ start, s.(initialized_at) = Some start ∧ (start ≤ time)%Z;
  view_ok_entries : ∀ k e, s.(entries) !! k = Some e →
    entry_ok s.(project_id) s.(project_revision) time k e;
  view_ok_profile :
    active_of s.(entries) s.(project_id) ProjectViewObjectType.ProjectProfile;
  view_ok_roles : ∀ k, is_Some (s.(role_levels) !! k) ↔
    ∃ e, s.(entries) !! k = Some e
         ∧ ProjectViewEntryV3_object_type e = ProjectViewObjectType.Role;
  view_ok_graph : graph_ok s.(entries);
}.

(** The uninitialized project has no rows. *)
Definition view_empty (s : ProjectViewStateV3) : Prop :=
  s = ProjectViewStateV3_new s.(project_id).

Lemma validate_client_object_id_Ok project id u :
  validate_client_object_id project id = Ok u ↔ client_id project id.
Proof.
  unfold validate_client_object_id, client_id. destruct u.
  rewrite !seq_Ok, !reject_if_Ok, bool_decide_eq_false, orb_false_iff, !negb_false_iff, N.eqb_eq.
  naive_solver.
Qed.

Lemma validate_revision_Ok n u : validate_revision n = Ok u ↔ (n ≤ MAX_SAFE_REVISION)%N.
Proof. unfold validate_revision. destruct u. rewrite seq_Ok, reject_if_Ok, N.ltb_ge. naive_solver. Qed.

Lemma validate_object_Ok o u : validate_object_v3 o = Ok u ↔ object_ok o.
Proof.
  unfold validate_object_v3, validate_relation_shape_v3. destruct u.
  rewrite !seq_Ok, !reject_if_Ok, bool_decide_negb_false, !orb_false_iff, !N.eqb_neq, !N.ltb_ge,
    Z.ltb_ge, map_err_Ok, rbind_Ok.
  setoid_rewrite map_err_Ok. setoid_rewrite seq_Ok. setoid_rewrite reject_if_Ok.
  setoid_rewrite bool_decide_negb_false. split.
  - intros (? & ? & ? & ? & ? & ? & rs & ? & -> & _). constructor; [done|lia|lia|done..].
  - intros []. split_and!; try done; try lia. eauto.
Qed.

Definition is_profile (e : ProjectViewEntryV3) : Prop :=
  match e with
  | ProjectViewEntryV3.Active o =>
      ProjectViewObjectV3.object_type o = ProjectViewObjectType.ProjectProfile
  | _ => False
  end.

#[local] Instance is_profile_dec e : Decision (is_profile e).
Proof. destruct e; apply _. Defined.

Definition count_entry (acc : N * gset Uuid) (row : Uuid * ProjectViewEntryV3) : N * gset Uuid :=
  ((if decide (is_profile row.2) then acc.1 + 1 else acc.1)%N,
   if bool_decide (ProjectViewEntryV3_object_type row.2 = ProjectViewObjectType.Role)
   then {[ProjectViewEntryV3_id row.2]} ∪ acc.2 else acc.2).

Lemma validate_entry_Ok s time acc row acc' :
  validate_entry s time acc row = Ok acc'
  ↔ entry_ok s.(project_id) s.(project_revision) time row.1 row.2 ∧ acc' = count_entry acc row.
Proof.
  destruct acc as [n ids], row as [k [o|d]]; unfold validate_entry, entry_ok, count_entry; simpl.
  - rewrite seq_Ok, reject_if_Ok, bool_decide_negb_false, seq_Ok, validate_object_Ok.
    rewrite seq_Ok, reject_if_Ok, N.ltb_ge, seq_Ok, reject_if_Ok, Z.ltb_ge.
    rewrite (bool_decide_decide (_ = ProjectViewObjectType.ProjectProfile)).
    destruct (decide _) as [Hp|Hp]; rewrite seq_Ok.
    + rewrite reject_if_Ok, bool_decide_negb_false. naive_solver.
    + rewrite map_err_Ok, validate_client_object_id_Ok. naive_solver.
  - rewrite !seq_Ok, !map_err_Ok, !reject_if_Ok, bool_decide_negb_false, !orb_false_iff,
      !validate_revision_Ok, !N.eqb_neq, N.ltb_ge, !Z.ltb_ge, bool_decide_eq_false,
      validate_client_object_id_Ok.
    split.
    + intros (? & ? & ? & [[[[? ?] ?] ?] ?] & ? & ? & [= <-]).
      split_and!; try done. constructor; [lia|lia|done|done].
    + intros [(? & [] & ? & ? & ?) ->]. split_and!; try done; lia.
Qed.

Lemma count_entries rows n ids :
  foldl count_entry (n, ids) rows
  = ((n + N.of_nat (length (filter (λ row, is_profile row.2) rows)))%N,
     list_to_set (omap (λ row,
       if bool_decide (ProjectViewEntryV3_object_type row.2 = ProjectViewObjectType.Role)
       then Some (ProjectViewEntryV3_id row.2) else None) rows) ∪ ids).
Proof.
  revert n ids. induction rows as [|row rows IH]; intros n ids; simpl.
  - f_equal; [lia|set_solver].
  - change (count_entry (n, ids) row) with
      ((if decide (is_profile row.2) then n + 1 else n)%N,
       if bool_decide (ProjectViewEntryV3_object_type row.2 = ProjectViewObjectType.Role)
       then {[ProjectViewEntryV3_id row.2]} ∪ ids else ids).
    rewrite IH, filter_cons. f_equal.
    + destruct (decide (is_profile row.2)); simpl; lia.
    + case_bool_decide; csimpl; set_solver.
Qed.

(** With every Profile row at the project's own id, one row is a Profile exactly
    when that row is. *)
Lemma profile_count (m : gmap Uuid ProjectViewEntryV3) project :
  (∀ k e, m !! k = Some e → is_profile e → k = project) →
  length (filter (λ row, is_profile row.2) (btree_iter m)) = 1
  ↔ active_of m project ProjectViewObjectType.ProjectProfile.
Proof.
  intros Hm.
  rewrite btree_filter_perm, length_map_to_list. split.
  - intros Hs. destruct (map_choose (filter (λ row, is_profile row.2) m)) as (k & e & Hk).
    { intros E. by rewrite E, map_size_empty in Hs. }
    apply map_lookup_filter_Some in Hk as [Hk Hpr]. simpl in Hpr.
    rewrite <- (Hm k e Hk Hpr). destruct e as [o|]; [|done]. by exists o.
  - intros (o & Ho & Ht).
    assert (filter (λ row, is_profile row.2) m = {[project := ProjectViewEntryV3.Active o]})
      as ->; [|by rewrite map_size_singleton].
    apply map_eq. intros k. destruct (decide (k = project)) as [->|Hk].
    + rewrite lookup_singleton_eq. apply map_lookup_filter_Some. done.
    + rewrite lookup_singleton_ne by done. apply map_lookup_filter_None. right.
      intros e He Hpr. apply Hk. eauto.
Qed.

Lemma role_ids_spec (m : gmap Uuid ProjectViewEntryV3) (levels : gmap Uuid RoleLevel) :
  (∀ k e, m !! k = Some e → k = ProjectViewEntryV3_id e) →
  list_to_set (omap (λ row,
    if bool_decide (ProjectViewEntryV3_object_type row.2 = ProjectViewObjectType.Role)
    then Some (ProjectViewEntryV3_id row.2) else None) (btree_iter m)) ∪ ∅ = dom levels
  ↔ ∀ k, is_Some (levels !! k) ↔
      ∃ e, m !! k = Some e ∧ ProjectViewEntryV3_object_type e = ProjectViewObjectType.Role.
Proof.
  intros Hm. rewrite set_eq. apply forall_proper. intros k.
  rewrite elem_of_union, elem_of_dom, elem_of_list_to_set, list_elem_of_omap, elem_of_empty.
  setoid_rewrite btree_iter_perm.
  assert (Hk : (∃ row, row ∈ map_to_list m ∧
      (if bool_decide (ProjectViewEntryV3_object_type row.2 = ProjectViewObjectType.Role)
       then Some (ProjectViewEntryV3_id row.2) else None) = Some k)
    ↔ ∃ e, m !! k = Some e ∧ ProjectViewEntryV3_object_type e = ProjectViewObjectType.Role).
  { split.
    - intros ([j e] & Hj%elem_of_map_to_list & He). simpl in He. case_bool_decide; [|done].
      injection He as <-. rewrite <- (Hm _ _ Hj). eauto.
    - intros (e & He & Ht). exists (k, e). rewrite elem_of_map_to_list. split; [done|]. simpl.
      rewrite bool_decide_true by done. f_equal. symmetry. auto. }
  rewrite Hk. tauto.
Qed.

(** Aggregate validation decides the invariant. *)
Lemma validate_state_Ok s u :
  validate_state s = Ok u ↔ view_empty s ∨ ∃ time, view_ok s time.
Proof.
  unfold validate_state. destruct u. rewrite seq_Ok, map_err_Ok, validate_revision_Ok.
  unfold is_initialized. destruct (initialized_at s) as [start|] eqn:Hi; cbn [opt_is_some negb].
  - rewrite seq_Ok, reject_if_Ok, N.eqb_neq, rbind_Ok. split.
    + intros (Hr & Hz & time & Ht%ok_or_Ok & H). apply seq_Ok in H as [Hst%reject_if_Ok H].
      simpl in Hst. bool_props. apply rbind_Ok in H as ([n ids] & Hf & H).
      apply (try_fold_Ok _ _ _ (validate_entry_Ok s time)) in Hf as [Hf Hc].
      rewrite count_entries in Hc. injection Hc as -> ->.
      apply seq_Ok in H as [Hn%reject_if_Ok H].
      apply seq_Ok in H as [Hids%reject_if_Ok H]. bool_props. apply validate_graph_Ok in H.
      rewrite Forall_btree_iter in Hf. simpl in Hf.
      right. exists time. constructor; [lia|done|by eexists|done| | |done].
      * apply profile_count; [|lia]. intros k [o|] Hk Hp; [|done].
        destruct (Hf k _ Hk) as [-> (_ & _ & _ & Hid)]. by rewrite bool_decide_true in Hid.
      * apply role_ids_spec; [|done]. intros k e Hk. apply (Hf k e Hk).
    + intros [He|(time & [Hr Hu (start' & Hi' & Hst) He Hp Hl Hg])].
      { by rewrite He in Hi. }
      rewrite Hi in Hi'. injection Hi' as <-.
      split_and!; [lia|lia|]. exists time. rewrite Hu. split; [done|].
      apply seq_Ok. split; [simpl; by apply reject_if_Ok, Z.ltb_ge|]. apply rbind_Ok.
      eexists. split.
      { apply (try_fold_Ok _ _ _ (validate_entry_Ok s time)). split; [|done].
        apply Forall_btree_iter. exact He. }
      rewrite count_entries. rewrite !seq_Ok, !reject_if_Ok, negb_false_iff, N.eqb_eq,
        bool_decide_negb_false, validate_graph_Ok.
      split_and!; [|by apply role_ids_spec; [intros k e Hk; apply (He k e Hk)|]|done].
      assert (length (filter (λ row, is_profile row.2) (btree_iter (entries s))) = 1) as ->;
        [|done].
      apply (profile_count _ s.(project_id)); [|done]. intros k [o|] Hk Ho; [|done].
      destruct (He k _ Hk) as [-> (_ & _ & _ & Hid)]. by rewrite bool_decide_true in Hid.
  - unfold view_empty. split.
    + intros [_ H]. left. destruct (_ && _) eqn:Hb; [|done]. bool_props.
      destruct s; simpl in *. destruct updated_at; simplify_eq/=. done.
    + intros [->|(time & [_ _ (? & H & _) _ _ _ _])]; [|congruence]. by split.
Qed.

End view_ok.
