(* ===== verification/ViewSpec.v ===== *)
(** * Project View schema 3: the reducer keeps the invariant

    A command that passes the checks before the commit yields a state that
    satisfies [view_ok]; so the validation of the next state that [reduce] ends
    with never fails on a valid project whose clock does not run backwards. *)

From S2P Require Import Prelude Text Platform ViewModel ViewMutation.
From S2P Require Import ViewContract ViewReference ViewObject ViewCommand ViewState ViewFacts.
From stdpp Require Import prelude strings gmap fin_maps.

(** ** Relation shapes *)

Section shape.
Context `{P : Platform}.

(** Which slots an object type may and must fill. *)
Record relation_shape (ty : ProjectViewObjectType) (r : ProjectViewRelations) : Prop := {
  shape_goal : is_Some (ProjectViewRelations.under_goal_id r) → ty = ProjectViewObjectType.Plan;
  shape_plan : is_Some (ProjectViewRelations.under_plan_id r) ↔ ty = ProjectViewObjectType.Stage;
  shape_stage : is_Some (ProjectViewRelations.planned_in_stage_id r) →
    ty = ProjectViewObjectType.Requirement ∨ ty = ProjectViewObjectType.Issue;
  shape_about : is_Some (ProjectViewRelations.about r) → ty = ProjectViewObjectType.Issue;
  shape_handles : is_Some (ProjectViewRelations.handles r) ↔ ty = ProjectViewObjectType.Work;
}.

Lemma opt_is_some_spec {A} (o : option A) : opt_is_some o = true ↔ is_Some o.
Proof. destruct o; simpl; [split; [by eexists|done]|split; [done|by intros [? ?]]]. Qed.

(** An empty slot is allowed; a filled one fixes the type. *)
#[local] Ltac slot o tac :=
  destruct o; [right; tac (); set_solver|left; by intros [? ?]].

Lemma validate_relation_shape_Ok ty r u :
  validate_relation_shape ty r = Ok u ↔ relation_shape ty r.
Proof.
  unfold validate_relation_shape. destruct u. rewrite seq_Ok, for_each_Ok, !Forall_cons.
  rewrite !reject_if_Ok. cbn [fst snd]. rewrite !andb_false_iff, !bool_decide_negb_false.
  rewrite <- !not_true_iff_false, !opt_is_some_spec.
  split.
  - intros ([H1 [H2 [H3 [H4 [H5 _]]]]] & H).
    destruct ty; constructor; set_unfold; try naive_solver.
    all: split; try naive_solver; intros _.
    all: apply reject_if_Ok, negb_false_iff, opt_is_some_spec in H; done.
  - intros [H1 H2 H3 H4 H5]. split; [split_and!|].
    6: constructor.
    1: slot (ProjectViewRelations.under_goal_id r) ltac:(fun _ => rewrite H1 by (by eexists)).
    1: slot (ProjectViewRelations.under_plan_id r)
         ltac:(fun _ => rewrite (proj1 H2) by (by eexists)).
    1: slot (ProjectViewRelations.planned_in_stage_id r)
         ltac:(fun _ => destruct H3 as [->| ->]; [by eexists|..]).
    1: slot (ProjectViewRelations.about r) ltac:(fun _ => rewrite H4 by (by eexists)).
    1: slot (ProjectViewRelations.handles r) ltac:(fun _ => rewrite (proj1 H5) by (by eexists)).
    destruct ty; try done; apply reject_if_Ok, negb_false_iff, opt_is_some_spec; naive_solver.
Qed.

End shape.

(** ** The graph under one change *)

Section graph_change.
Context `{P : Platform}.
Implicit Types m : gmap Uuid ProjectViewEntryV3.

Lemma relations_ok_mono m m' id r :
  (∀ k ty, active_of m k ty → active_of m' k ty) → relations_ok m id r → relations_ok m' id r.
Proof. intros Hm []. constructor; naive_solver. Qed.

Lemma context_ok_mono m m' ty rs :
  (∀ k ty, active_of m k ty → active_of m' k ty) → context_ok m ty rs → context_ok m' ty rs.
Proof. intros Hm H r Hr. destruct (H r Hr). auto. Qed.

(** What the graph sees of an active object. *)
Definition same_node (o o' : ProjectViewObjectV3) : Prop :=
  ProjectViewObjectV3.id o = ProjectViewObjectV3.id o'
  ∧ ProjectViewObjectV3.object_type o = ProjectViewObjectV3.object_type o'
  ∧ ProjectViewObjectV3.relations o = ProjectViewObjectV3.relations o'
  ∧ ProjectViewObjectV3.context_references o = ProjectViewObjectV3.context_references o'.

Lemma active_of_insert m k o j ty :
  active_of (<[k := ProjectViewEntryV3.Active o]> m) j ty
  ↔ (k = j ∧ ProjectViewObjectV3.object_type o = ty) ∨ (k ≠ j ∧ active_of m j ty).
Proof.
  unfold active_of. destruct (decide (k = j)) as [->|Hk].
  - rewrite lookup_insert_eq. naive_solver.
  - rewrite lookup_insert_ne by done. naive_solver.
Qed.

(** Metadata outside the node does not matter to the graph. *)
Lemma graph_ok_same_node m k o o' :
  same_node o o' →
  graph_ok (<[k := ProjectViewEntryV3.Active o]> m) →
  graph_ok (<[k := ProjectViewEntryV3.Active o']> m).
Proof.
  intros (Hid & Hty & Hr & Hc) Hg.
  assert (Hm : ∀ j ty, active_of (<[k := ProjectViewEntryV3.Active o]> m) j ty →
                       active_of (<[k := ProjectViewEntryV3.Active o']> m) j ty).
  { intros j ty. rewrite !active_of_insert. by rewrite Hty. }
  intros j x Hj. destruct (decide (k = j)) as [->|Hk].
  - rewrite lookup_insert_eq in Hj. simplify_eq.
    destruct (Hg j o) as [Hr' Hc']; [apply lookup_insert_eq|].
    rewrite <- Hid, <- Hty, <- Hr, <- Hc.
    split; [by eapply relations_ok_mono|by eapply context_ok_mono].
  - rewrite lookup_insert_ne in Hj by done.
    destruct (Hg j x) as [Hr' Hc']; [by rewrite lookup_insert_ne|].
    split; [by eapply relations_ok_mono|by eapply context_ok_mono].
Qed.

(** An object points at [k] through one of its relation slots. *)
Definition refers (o : ProjectViewObjectV3) (k : Uuid) : Prop :=
  let r := ProjectViewObjectV3.relations o in
  ProjectViewRelations.under_goal_id r = Some k
  ∨ ProjectViewRelations.under_plan_id r = Some k
  ∨ ProjectViewRelations.planned_in_stage_id r = Some k
  ∨ (∃ t, ProjectViewRelations.about r = Some t ∧ ObjectRef.object_id t = k)
  ∨ (∃ t, ProjectViewRelations.handles r = Some t ∧ ObjectRef.object_id t = k).

Lemma incoming_relation_None k o : incoming_relation k o = None ↔ ¬ refers o k.
Proof.
  unfold incoming_relation, refers.
  destruct (ProjectViewObjectV3.relations o) as [g p t [a|] [h|]]; simpl;
    repeat case_bool_decide; naive_solver.
Qed.

Lemma first_incoming_None s k :
  first_incoming_structural_relation s k = None
  ↔ ∀ j o, s.(entries) !! j = Some (ProjectViewEntryV3.Active o) → ¬ refers o k.
Proof.
  unfold first_incoming_structural_relation.
  assert (Hh : ∀ l : list string, head l = None ↔ ∀ x, x ∉ l).
  { intros [|x l]; simpl; [set_solver|]. split; [done|]. intros H. destruct (H x). set_solver. }
  rewrite Hh. setoid_rewrite list_elem_of_omap. setoid_rewrite elem_of_active_objects. split.
  - intros H j o Hj. apply incoming_relation_None. apply eq_None_not_Some. intros [x Hx].
    apply (H x). eauto.
  - intros H x (o & [j Hj] & Hx). apply H in Hj. apply incoming_relation_None in Hj. congruence.
Qed.

Lemma first_resource_None s k :
  first_incoming_resource_context s k = None
  ↔ ∀ j o, s.(entries) !! j = Some (ProjectViewEntryV3.Active o) →
      ProjectContextReference.Resource k ∉ ProjectViewObjectV3.context_references o.
Proof.
  unfold first_incoming_resource_context.
  assert (Hh : ∀ l : list Uuid, head l = None ↔ ∀ x, x ∉ l).
  { intros [|x l]; simpl; [set_solver|]. split; [done|]. intros H. destruct (H x). set_solver. }
  rewrite Hh. setoid_rewrite list_elem_of_omap. setoid_rewrite elem_of_active_objects. split.
  - intros H j o Hj Hin. set (f := λ reference, match reference with
      | ProjectContextReference.Resource target =>
          if bool_decide (target = k) then Some (ProjectViewObjectV3.id o) else None
      | _ => None end).
    destruct (head (omap f (ProjectViewObjectV3.context_references o))) as [x|] eqn:Hx.
    + apply (H x). exists o. eauto.
    + apply (proj1 (Hh _) Hx (ProjectViewObjectV3.id o)). apply list_elem_of_omap.
      exists (ProjectContextReference.Resource k). split; [done|]. simpl.
      by rewrite bool_decide_true.
  - intros H x (o & [j Hj] & Hx). specialize (H j o Hj).
    apply head_Some_elem_of, list_elem_of_omap in Hx as ([r|] & Hr & Hrx); [|done].
    case_bool_decide; [|done]. by subst.
Qed.

(** Removing an unreferenced object leaves no dangling edge. *)
Lemma graph_ok_delete m k cur d :
  graph_ok m →
  m !! k = Some (ProjectViewEntryV3.Active cur) →
  (∀ j o, m !! j = Some (ProjectViewEntryV3.Active o) → ¬ refers o k) →
  (ProjectViewObjectV3.object_type cur = ProjectViewObjectType.Resource →
    ∀ j o, m !! j = Some (ProjectViewEntryV3.Active o) →
      ProjectContextReference.Resource k ∉ ProjectViewObjectV3.context_references o) →
  graph_ok (<[k := ProjectViewEntryV3.Tombstone d]> m).
Proof.
  intros Hg Hk Href Hres j o Hj. destruct (decide (k = j)) as [->|Hkj].
  { by rewrite lookup_insert_eq in Hj. }
  rewrite lookup_insert_ne in Hj by done. destruct (Hg j o Hj) as [Hr Hc].
  assert (Hm : ∀ t ty, t ≠ k → active_of m t ty →
    active_of (<[k := ProjectViewEntryV3.Tombstone d]> m) t ty).
  { intros t ty Ht (x & Hx & Hty). exists x. by rewrite lookup_insert_ne by done. }
  specialize (Href j o Hj). split.
  - destruct Hr as [H1 H2 H3 H4 H5]. unfold refers in Href.
    constructor; intros t Ht; [apply Hm; [naive_solver|auto]..| |].
    + destruct (H4 t Ht). split; [done|]. apply Hm; [naive_solver|done].
    + destruct (H5 t Ht). split; [done|]. apply Hm; [naive_solver|done].
  - intros r Hr'. destruct (Hc r Hr') as [Hty Ha]. split; [done|]. apply Hm; [|done].
    intros ->. destruct Ha as (x & Hx & Hxt). rewrite Hk in Hx. simplify_eq.
    by apply (Hres Hxt j o Hj).
Qed.

End graph_change.

(** ** What preparation guarantees *)

Section prepared.
Context `{P : Platform} `{HU : !UuidLaws}.

#[local] Opaque validate_relation_shape canonicalize_context_references validate_object_data.

Lemma view_next_revision_Ok n m :
  next_revision n = Ok m ↔ m = (n + 1)%N ∧ (n < MAX_SAFE_REVISION)%N.
Proof.
  unfold next_revision. rewrite ok_or_Ok, option_filter_Some, u64_checked_add_Some, N.leb_le.
  unfold MAX_SAFE_REVISION, u64_max. lia.
Qed.

Lemma require_uuid_v4_Ok id u :
  require_uuid_v4 id = Ok u
  ↔ Uuid_get_version_num id = 4%N ∧ Uuid_variant_is_rfc4122 id = true.
Proof.
  unfold require_uuid_v4. destruct u, (N.eqb_spec (Uuid_get_version_num id) 4),
    (Uuid_variant_is_rfc4122 id); naive_solver.
Qed.

Lemma require_canonical_order_Ok rs u :
  require_canonical_order rs = Ok u ↔ canonicalize_context_references rs = Ok rs.
Proof.
  unfold require_canonical_order. destruct u. rewrite rbind_Ok. setoid_rewrite map_err_Ok.
  setoid_rewrite reject_if_Ok. setoid_rewrite bool_decide_negb_false. naive_solver.
Qed.

Lemma active_object_Ok s k o :
  active_object s k = Ok o ↔ s.(entries) !! k = Some (ProjectViewEntryV3.Active o).
Proof. unfold active_object. destruct (entries s !! k) as [[?|?]|]; naive_solver. Qed.

(** A replaced Context set is the canonical form of the replacement, and
    without the capability it adds nothing. *)
Lemma validate_context_replacement_Ok cur rs enabled out :
  validate_context_replacement cur rs enabled = Ok out →
  canonicalize_context_references rs = Ok out
  ∧ canonicalize_context_references out = Ok out
  ∧ (enabled = false → ∀ r, r ∈ out → r ∈ cur).
Proof.
  unfold validate_context_replacement. intros (rs' & Hrs%map_err_Ok & H)%rbind_Ok.
  destruct (canonicalize_references_stable rs rs' Hrs) as [Hst _].
  destruct enabled.
  - injection H as <-. done.
  - apply rbind_Ok in H as (cur' & Hcur%map_err_Ok & H).
    destruct (forallb _ rs') eqn:Hf; [|done]. injection H as <-. split_and!; [done..|].
    intros _ r Hr. destruct (canonicalize_references_stable _ _ Hcur) as [_ Hp]. rewrite <- Hp.
    apply list_elem_of_In in Hr. rewrite forallb_forall in Hf. apply Hf in Hr. by bool_props.
Qed.

(** The candidate of [validate_candidate] and the committed entry are the same
    node, so the graph of the next state is the one that was checked. *)
Lemma validate_candidate_create s id data r rs u o :
  validate_candidate s (PreparedEntryV3.Create id data r rs) = Ok u →
  ProjectViewObjectV3.id o = id →
  ProjectViewObjectV3.object_type o = ProjectViewObjectDataV3_object_type data →
  ProjectViewObjectV3.relations o = r → ProjectViewObjectV3.context_references o = rs →
  graph_ok (<[id := ProjectViewEntryV3.Active o]> s.(entries)).
Proof.
  unfold validate_candidate. intros (x & _ & H)%rbind_Ok Hid Hty Hr Hrs. cbn zeta in H.
  apply validate_graph_Ok in H. eapply graph_ok_same_node; [|exact H]. done.
Qed.

Lemma validate_candidate_update s o u o' :
  validate_candidate s (PreparedEntryV3.Update o) = Ok u → same_node o o' →
  graph_ok (<[ProjectViewObjectV3.id o := ProjectViewEntryV3.Active o']> s.(entries)).
Proof.
  unfold validate_candidate. intros (x & _ & H)%rbind_Ok Ho. cbn zeta in H.
  apply validate_graph_Ok in H. by eapply graph_ok_same_node.
Qed.

(** An update keeps the type of the body and fills only slots of that type. *)
Lemma apply_update_Ok o update o' :
  apply_update o update = Ok o' →
  ∃ data r, o' = with_body o data r
    ∧ ProjectViewObjectDataV3_object_type data
      = ProjectViewObjectDataV3_object_type (ProjectViewObjectV3.data o)
    ∧ validate_object_data data = Ok tt
    ∧ (relation_shape (ProjectViewObjectDataV3_object_type data) (ProjectViewObjectV3.relations o)
       → relation_shape (ProjectViewObjectDataV3_object_type data) r).
Proof.
  unfold apply_update. intros ([data r] & H & Hv)%rbind_Ok.
  apply seq_Ok in Hv as [Hv [= <-]]. exists data, r. split; [done|].
  destruct update, (ProjectViewObjectV3.data o); try done; ok_inv; simplify_eq;
    (split; [done|]; split; [done|]); cbn [ProjectViewObjectDataV3_object_type]; try done;
    intros [Hsh1 Hsh2 Hsh3 Hsh4 Hsh5]; constructor; cbn [relations_of ProjectViewRelations.under_goal_id
      ProjectViewRelations.under_plan_id ProjectViewRelations.planned_in_stage_id
      ProjectViewRelations.about ProjectViewRelations.handles]; try done; try naive_solver.
  all: split; [done|intros _].
  all: match goal with H : apply_required_relation _ ?p _ = Ok _ |- _ =>
         destruct p; simplify_eq/=; [naive_solver|by eexists] end.
Qed.

(** A creation payload that was submitted has a well-formed body and slots, and
    is not a Profile. *)
Lemma new_object_submission obj id data r rs u :
  NewProjectViewObjectV3_validate_for_submission obj = Ok u →
  NewProjectViewObjectV3_into_parts obj = (id, data, r, rs) →
  Uuid_get_version_num id = 4%N ∧ Uuid_variant_is_rfc4122 id = true
  ∧ validate_object_data data = Ok tt
  ∧ validate_relation_shape (ProjectViewObjectDataV3_object_type data) r = Ok tt
  ∧ canonicalize_context_references rs = Ok rs
  ∧ ProjectViewObjectDataV3_object_type data ≠ ProjectViewObjectType.ProjectProfile.
Proof.
  unfold NewProjectViewObjectV3_validate_for_submission. intros H Hp.
  apply seq_Ok in H as [Hid%map_err_Ok%require_uuid_v4_Ok H]. rewrite Hp in H.
  apply seq_Ok in H as [Hd H]. apply seq_Ok in H as [Hs%map_err_Ok H].
  apply seq_Ok in H as [Hc%require_canonical_order_Ok _].
  assert (NewProjectViewObjectV3_id obj = id ∧
    ProjectViewObjectDataV3_object_type data ≠ ProjectViewObjectType.ProjectProfile)
    as [<- Hty] by (destruct obj; simplify_eq/=; done).
  naive_solver.
Qed.

End prepared.

(** ** The invariant is preserved *)

Section preserved.
Context `{P : Platform} `{HU : !UuidLaws}.

#[local] Opaque validate_relation_shape canonicalize_context_references validate_object_data.

(** The state that [reduce] commits. *)
Definition committed (s : ProjectViewStateV3) (revision : N) (now : DateTime)
    (changed : ProjectViewEntryV3) (levels : gmap Uuid RoleLevel) : ProjectViewStateV3 := {|
  project_id := s.(project_id);
  project_revision := revision;
  initialized_at := s.(initialized_at);
  updated_at := Some now;
  entries := <[ProjectViewEntryV3_id changed := changed]> s.(entries);
  role_levels := levels;
|}.

Lemma entry_ok_later project n n' t t' k e :
  (n ≤ n')%N → (t ≤ t')%Z → entry_ok project n t k e → entry_ok project n' t' k e.
Proof.
  intros Hn Ht [Hk He]. split; [done|]. destruct e as [o|d].
  - destruct He as (? & ? & ? & ?). split_and!; [done|lia|lia|done].
  - destruct He as (? & ? & ? & ?). split_and!; [done|lia|lia|done].
Qed.

Lemma committed_view_ok s time now changed levels :
  view_ok s time → (time ≤ now)%Z → (s.(project_revision) < MAX_SAFE_REVISION)%N →
  let m := <[ProjectViewEntryV3_id changed := changed]> s.(entries) in
  entry_ok s.(project_id) (s.(project_revision) + 1) now (ProjectViewEntryV3_id changed) changed →
  active_of m s.(project_id) ProjectViewObjectType.ProjectProfile →
  (∀ k, is_Some (levels !! k) ↔
     ∃ e, m !! k = Some e ∧ ProjectViewEntryV3_object_type e = ProjectViewObjectType.Role) →
  graph_ok m →
  view_ok (committed s (s.(project_revision) + 1) now changed levels) now.
Proof.
  intros [Hr Hu (start & Hi & Hst) He Hp Hl Hg] Ht Hmax m Hc Hp' Hl' Hg'.
  constructor; simpl; [lia|done|exists start; split; [done|lia]| |done..].
  intros k e Hk. destruct (decide (ProjectViewEntryV3_id changed = k)) as [<-|Hne].
  - rewrite lookup_insert_eq in Hk. by simplify_eq.
  - rewrite lookup_insert_ne in Hk by done. eapply entry_ok_later; [| |by apply He]; lia.
Qed.

(** Rewriting a row with one of the same type keeps the Role identities. *)
Lemma roles_same_type s time k e e' :
  view_ok s time → s.(entries) !! k = Some e →
  ProjectViewEntryV3_object_type e' = ProjectViewEntryV3_object_type e →
  ∀ j, is_Some (s.(role_levels) !! j) ↔
    ∃ x, <[k := e']> s.(entries) !! j = Some x
         ∧ ProjectViewEntryV3_object_type x = ProjectViewObjectType.Role.
Proof.
  intros Hs Hk Ht j. rewrite (view_ok_roles s time Hs). destruct (decide (k = j)) as [->|Hne].
  - rewrite lookup_insert_eq, Hk. naive_solver congruence.
  - by rewrite lookup_insert_ne by done.
Qed.

Lemma create_view_ok s time now create caps id data r rs delta command actor changed levels u :
  view_ok s time → (time ≤ now)%Z → (s.(project_revision) < MAX_SAFE_REVISION)%N →
  command.(request) = ProjectObjectRequestV3.Create create →
  NewProjectViewObjectV3_validate_for_submission create.(create_object) = Ok u →
  prepare_create s create caps = Ok (PreparedEntryV3.Create id data r rs, delta) →
  commit_prepared s command actor now (s.(project_revision) + 1)
    (PreparedEntryV3.Create id data r rs) = Ok (changed, levels) →
  view_ok (committed s (s.(project_revision) + 1) now changed levels) now.
Proof.
  intros Hs Ht Hmax Hreq Hsub Hprep Hcommit. unfold prepare_create in Hprep.
  destruct (NewProjectViewObjectV3_into_parts _) as [[[id0 data0] r0] rs0] eqn:Hparts.
  apply seq_Ok in Hprep as [Hres%reject_if_Ok Hprep].
  apply seq_Ok in Hprep as [Hnew%reject_if_Ok Hprep].
  apply rbind_Ok in Hprep as (rs1 & Hrs%map_err_Ok & Hprep).
  apply seq_Ok in Hprep as [_ Hprep]. apply seq_Ok in Hprep as [Hcand [= -> -> -> -> _]].
  destruct (new_object_submission _ _ _ _ _ _ Hsub Hparts)
    as (Hv & Hrfc & Hd & Hsh & Hcan & Hty).
  apply validate_context_replacement_Ok in Hrs as (Hrs & Hrs' & _).
  bool_props. destruct (entries s !! id) eqn:Hid; [done|].
  pose proof (view_ok_revision s time Hs) as Hrev.
  pose proof (view_ok_roles s time Hs) as Hroles.
  cbn [commit_prepared] in Hcommit.
  apply rbind_Ok in Hcommit as (levels' & Hlev & [= <- <-]).
  apply (committed_view_ok s time); try done; cbn [ProjectViewEntryV3_id ProjectViewObjectV3.id].
  - split; [done|]. split_and!; try done; simpl; [|by rewrite bool_decide_false].
    constructor; simpl; try done; unfold MAX_SAFE_REVISION in *; lia.
  - apply active_of_insert. right. split; [done|]. apply (view_ok_profile s time Hs).
  - intros k. simpl in Hlev. case_bool_decide as Hrole.
    + apply rbind_Ok in Hlev as (level & _ & [= <-]).
      destruct (decide (id = k)) as [->|Hne].
      * rewrite !lookup_insert_eq. naive_solver.
      * rewrite !lookup_insert_ne by done. apply Hroles.
    + injection Hlev as <-. destruct (decide (id = k)) as [->|Hne].
      * rewrite lookup_insert_eq, Hroles, Hid. naive_solver.
      * rewrite lookup_insert_ne by done. apply Hroles.
  - by eapply validate_candidate_create.
Qed.

(** The object an update prepares: the same identity and type, a valid body,
    allowed slots and a canonical Context set. *)
Lemma prepare_update_Ok s time update caps prepared delta :
  view_ok s time → prepare_update s update caps = Ok (prepared, delta) →
  ∃ cur o, prepared = PreparedEntryV3.Update o
    ∧ s.(entries) !! UpdateProjectObjectV3_object_id update = Some (ProjectViewEntryV3.Active cur)
    ∧ o = with_context (with_body cur (ProjectViewObjectV3.data o) (ProjectViewObjectV3.relations o))
            (ProjectViewObjectV3.context_references o)
    ∧ object_ok o
    ∧ validate_candidate s (PreparedEntryV3.Update o) = Ok tt.
Proof.
  intros Hs H. unfold prepare_update in H.
  apply rbind_Ok in H as (cur & Hcur%map_err_Ok%active_object_Ok & H).
  apply seq_Ok in H as [_ H]. apply rbind_Ok in H as (o1 & Ho1 & H).
  apply rbind_Ok in H as (o & Ho & H). apply seq_Ok in H as [_ H]. apply seq_Ok in H as [_ H].
  apply seq_Ok in H as [Hcand [= <- _]]. exists cur, o. split; [done|]. split; [done|].
  apply apply_update_Ok in Ho1 as (data & r & -> & Hty & Hd & Hsh).
  destruct (view_ok_entries s time Hs _ _ Hcur) as [_ ([Hot H1 H2 H3 _ Hshape Hrefs] & _)].
  apply (validate_relation_shape_Ok _ _ tt) in Hshape. rewrite Hot, <- Hty in Hshape.
  apply Hsh, (validate_relation_shape_Ok _ _ tt) in Hshape.
  assert (Hbody : ∀ rs, canonicalize_context_references rs = Ok rs →
    object_ok (with_context (with_body cur data r) rs)).
  { intros rs Hrs. constructor; simpl; try done; [congruence|].
    by rewrite Hot, <- Hty. }
  destruct (UpdateProjectObjectV3_context_references update) as [rs|].
  - apply rbind_Ok in Ho as (rs' & Hrs%map_err_Ok%validate_context_replacement_Ok & [= <-]).
    split; [done|]. split; [|done]. apply Hbody, Hrs.
  - injection Ho as <-. split; [done|]. split; [|done]. by apply Hbody.
Qed.

Lemma update_view_ok s time now update caps prepared delta command actor changed levels :
  view_ok s time → (time ≤ now)%Z → (s.(project_revision) < MAX_SAFE_REVISION)%N →
  prepare_update s update caps = Ok (prepared, delta) →
  commit_prepared s command actor now (s.(project_revision) + 1) prepared = Ok (changed, levels) →
  view_ok (committed s (s.(project_revision) + 1) now changed levels) now.
Proof.
  intros Hs Ht Hmax Hprep Hcommit.
  destruct (prepare_update_Ok _ _ _ _ _ _ Hs Hprep) as (cur & o & -> & Hcur & Ho & Hok & Hcand).
  cbn [commit_prepared] in Hcommit.
  apply rbind_Ok in Hcommit as (n & [-> Hn]%map_err_Ok%view_next_revision_Ok & [= <- <-]).
  destruct (view_ok_entries s time Hs _ _ Hcur) as [Hid (_ & Hrev & Hupd & Hwho)].
  pose proof (view_ok_revision s time Hs). simpl in Hid.
  assert (Hoid : ProjectViewObjectV3.id o = ProjectViewObjectV3.id cur) by (by rewrite Ho).
  assert (Hoty : ProjectViewObjectV3.object_type o = ProjectViewObjectV3.object_type cur)
    by (by rewrite Ho).
  assert (Hoc : ProjectViewObjectV3.created_at o = ProjectViewObjectV3.created_at cur)
    by (by rewrite Ho).
  assert (Hou : ProjectViewObjectV3.updated_at o = ProjectViewObjectV3.updated_at cur)
    by (by rewrite Ho).
  clear Ho. destruct Hok as [H1 H2 H3 H4 H5 H6 H7].
  apply (committed_view_ok s time); try done; cbn [ProjectViewEntryV3_id ProjectViewObjectV3.id].
  - split; [done|]. split_and!; simpl; [|lia|lia|by rewrite Hoid, Hoty].
    constructor; simpl; try done; unfold MAX_SAFE_REVISION in *; lia.
  - apply active_of_insert. simpl. rewrite Hoid, Hoty, <- Hid.
    destruct (view_ok_profile s time Hs) as (p & Hp & Hpt).
    destruct (decide (UpdateProjectObjectV3_object_id update = project_id s)) as [E|E].
    + left. split; [done|]. rewrite E, Hp in Hcur. by simplify_eq.
    + right. split; [done|]. by exists p.
  - rewrite Hoid, <- Hid. eapply roles_same_type; [done|exact Hcur|]. simpl. done.
  - by eapply validate_candidate_update.
Qed.

Lemma delete_view_ok s time now delete prepared delta command actor changed levels :
  view_ok s time → (time ≤ now)%Z → (s.(project_revision) < MAX_SAFE_REVISION)%N →
  prepare_delete s delete = Ok (prepared, delta) →
  commit_prepared s command actor now (s.(project_revision) + 1) prepared = Ok (changed, levels) →
  view_ok (committed s (s.(project_revision) + 1) now changed levels) now.
Proof.
  intros Hs Ht Hmax Hprep Hcommit. unfold prepare_delete in Hprep.
  apply rbind_Ok in Hprep as (cur & Hcur%map_err_Ok%active_object_Ok & H).
  apply seq_Ok in H as [_ H]. apply seq_Ok in H as [Hnp%reject_if_Ok H].
  apply seq_Ok in H as [_ H]. apply seq_Ok in H as [Hrel H]. apply seq_Ok in H as [Hctx H].
  injection H as <- _. bool_props. cbn [commit_prepared] in Hcommit.
  apply rbind_Ok in Hcommit as (n & [-> Hn]%map_err_Ok%view_next_revision_Ok & [= <- <-]).
  destruct (view_ok_entries s time Hs _ _ Hcur) as [Hid ([H1 H2 H3 H4 H5 H6 H7] & Hrev & Hupd & Hwho)].
  simpl in Hid. rewrite Hid in *. rewrite bool_decide_false in Hwho by done.
  pose proof (view_ok_revision s time Hs).
  apply (committed_view_ok s time); try done; cbn [ProjectViewEntryV3_id ProjectViewTombstoneV3.id].
  - split; [done|]. split_and!; simpl; [|lia|lia|done].
    constructor; simpl; try done; unfold MAX_SAFE_REVISION in *; lia.
  - destruct (view_ok_profile s time Hs) as (p & Hp & Hpt). exists p.
    split; [|done]. rewrite lookup_insert_ne; [done|]. apply Hwho.
  - eapply roles_same_type; [done|exact Hcur|done].
  - eapply graph_ok_delete; [apply (view_ok_graph s time Hs)|done| |].
    + apply first_incoming_None. by destruct (first_incoming_structural_relation _ _).
    + intros Hr. apply first_resource_None. rewrite bool_decide_true in Hctx by done.
      by destruct (first_incoming_resource_context _ _).
Qed.

End preserved.

(** ** The reducer without its self-checks *)

Section reduce.
Context `{P : Platform} `{HU : !UuidLaws}.

(** [reduce] without the validation of the current and of the next state. *)
Definition reduce_unchecked (self : ProjectViewStateV3) (command : ProjectObjectCommandV3)
    (actor : PublicKey) (now : DateTime) (capabilities : V3ReducerCapabilities)
    (proof : ReferenceTargetProof) : V3Result (ProjectViewStateV3 * ProjectObjectOutcomeV3) :=
  ProjectObjectCommandV3_validate_for_submission command ?;
  reject_if (negb (command.(expected_project_revision) =? self.(project_revision))%N)
    (V3ProjectObjectError.Object
       (DomainError.RevisionConflict command.(expected_project_revision)
          self.(project_revision))) ?;
  let? (prepared, delta) := prepare_next_entry self command capabilities in
  from_reference
    (validate_document_target_delta delta capabilities.(document_capability_available) proof) ?;
  let? project_revision := from_domain (next_revision self.(project_revision)) in
  let? (changed, role_levels) :=
    commit_prepared self command actor now project_revision prepared in
  Ok (committed self project_revision now changed role_levels,
      {| outcome_project_revision := project_revision;
         changed_entries := [changed];
         outcome_document_target_delta := delta |}).

(** Everything an accepted command went through. *)
Record accepted (s : ProjectViewStateV3) (command : ProjectObjectCommandV3) (actor : PublicKey)
    (now : DateTime) (caps : V3ReducerCapabilities) (proof : ReferenceTargetProof)
    (prepared : PreparedEntryV3) (delta : DocumentTargetDelta) (changed : ProjectViewEntryV3)
    (levels : gmap Uuid RoleLevel) : Prop := {
  accepted_command : ProjectObjectCommandV3_validate_for_submission command = Ok tt;
  accepted_revision : command.(expected_project_revision) = s.(project_revision);
  accepted_prepared : prepare_next_entry s command caps = Ok (prepared, delta);
  accepted_proof :
    validate_document_target_delta delta caps.(document_capability_available) proof = Ok tt;
  accepted_room : (s.(project_revision) < MAX_SAFE_REVISION)%N;
  accepted_commit :
    commit_prepared s command actor now (s.(project_revision) + 1) prepared = Ok (changed, levels);
}.

Lemma reduce_unchecked_Ok s command actor now caps proof next outcome :
  reduce_unchecked s command actor now caps proof = Ok (next, outcome) ↔
  ∃ prepared delta changed levels,
    accepted s command actor now caps proof prepared delta changed levels
    ∧ next = committed s (s.(project_revision) + 1) now changed levels
    ∧ outcome = {| outcome_project_revision := s.(project_revision) + 1;
                   changed_entries := [changed];
                   outcome_document_target_delta := delta |}.
Proof.
  unfold reduce_unchecked. split.
  - intros H. apply seq_Ok in H as [Hc H]. apply seq_Ok in H as [Hr%reject_if_Ok H]. bool_props.
    apply rbind_Ok in H as ([prepared delta] & Hp & H).
    apply seq_Ok in H as [Hd%map_err_Ok H].
    apply rbind_Ok in H as (n & [-> Hn]%map_err_Ok%view_next_revision_Ok & H).
    apply rbind_Ok in H as ([changed levels] & Hcm & [= <- <-]).
    exists prepared, delta, changed, levels. done.
  - intros (prepared & delta & changed & levels & [Hc Hr Hp Hd Hn Hcm] & -> & ->).
    rewrite Hc. cbn [rbind]. rewrite Hr, N.eqb_refl. cbn [negb reject_if rbind].
    rewrite Hp. cbn [rbind]. rewrite Hd. cbn [map_err rbind].
    rewrite (proj2 (view_next_revision_Ok _ (s.(project_revision) + 1)%N)) by done.
    cbn [map_err rbind]. rewrite Hcm. done.
Qed.

(** A valid project stays valid. *)
Lemma accepted_view_ok s time command actor now caps proof prepared delta changed levels :
  view_ok s time → (time ≤ now)%Z →
  accepted s command actor now caps proof prepared delta changed levels →
  view_ok (committed s (s.(project_revision) + 1) now changed levels) now.
Proof.
  intros Hs Ht [Hc _ Hp _ Hn Hcm].
  unfold ProjectObjectCommandV3_validate_for_submission in Hc. rewrite !seq_Ok in Hc.
  destruct Hc as (_ & _ & _ & _ & _ & _ & Hreq). unfold prepare_next_entry in Hp.
  destruct (request command) as [create|update|delete] eqn:Hrq.
  - assert (∃ id data r rs, prepared = PreparedEntryV3.Create id data r rs)
      as (id & data & r & rs & ->).
    { unfold prepare_create in Hp. destruct (NewProjectViewObjectV3_into_parts _) as [[[??]?]?].
      ok_inv. simplify_eq. eauto. }
    by eapply create_view_ok.
  - by eapply update_view_ok.
  - by eapply delete_view_ok.
Qed.

Lemma view_ok_valid s time : view_ok s time → validate_state s = Ok tt.
Proof. intros Hs. apply validate_state_Ok. eauto. Qed.

Lemma view_ok_is_initialized s time : view_ok s time → is_initialized s = true.
Proof. intros [_ _ (start & Hi & _) _ _ _ _]. unfold is_initialized. by rewrite Hi. Qed.

(** On a valid project whose clock does not run backwards, the two aggregate
    validations that [reduce] makes change nothing. *)
Lemma reduce_unchecked_eq s time command actor now caps proof :
  view_ok s time → (time ≤ now)%Z →
  reduce s command actor now caps proof = reduce_unchecked s command actor now caps proof.
Proof.
  intros Hs Ht. unfold reduce. rewrite (view_ok_valid s time Hs), (view_ok_is_initialized s time Hs).
  cbn [rbind negb reject_if].
  destruct (reduce_unchecked s command actor now caps proof) as [[next outcome]|e] eqn:Hu.
  - apply reduce_unchecked_Ok in Hu as (prepared & delta & changed & levels & Ha & -> & ->).
    pose proof (accepted_view_ok _ _ _ _ _ _ _ _ _ _ _ Hs Ht Ha) as Hnext%view_ok_valid.
    destruct Ha as [Hc Hr Hp Hd Hn Hcm].
    rewrite Hc. cbn [rbind]. rewrite Hr, N.eqb_refl. cbn [negb reject_if rbind].
    rewrite Hp. cbn [rbind]. rewrite Hd. cbn [map_err rbind].
    rewrite (proj2 (view_next_revision_Ok _ (s.(project_revision) + 1)%N)) by done.
    cbn [map_err rbind]. rewrite Hcm. cbn [rbind]. unfold committed in Hnext. by rewrite Hnext.
  - revert Hu. unfold reduce_unchecked.
    destruct (ProjectObjectCommandV3_validate_for_submission command); cbn [rbind]; [|congruence].
    destruct (reject_if _ _); cbn [rbind]; [|congruence].
    destruct (prepare_next_entry s command caps) as [[prepared delta]|]; cbn [rbind]; [|congruence].
    destruct (validate_document_target_delta _ _ _); cbn [map_err rbind]; [|congruence].
    destruct (next_revision _); cbn [map_err rbind]; [|congruence].
    destruct (commit_prepared _ _ _ _ _ _) as [[changed levels]|]; cbn [rbind]; congruence.
Qed.

(** What an accepted [reduce] did, whatever the clock. *)
Lemma reduce_Ok s command actor now caps proof next outcome :
  reduce s command actor now caps proof = Ok (next, outcome) →
  ∃ time prepared delta changed levels,
    view_ok s time
    ∧ accepted s command actor now caps proof prepared delta changed levels
    ∧ next = committed s (s.(project_revision) + 1) now changed levels
    ∧ outcome = {| outcome_project_revision := s.(project_revision) + 1;
                   changed_entries := [changed];
                   outcome_document_target_delta := delta |}
    ∧ view_ok next now.
Proof.
  unfold reduce. intros H. apply seq_Ok in H as [Hv H]. apply seq_Ok in H as [Hc H].
  apply seq_Ok in H as [Hi%reject_if_Ok H]. apply negb_false_iff in Hi.
  apply seq_Ok in H as [Hr%reject_if_Ok H]. bool_props.
  apply rbind_Ok in H as ([prepared delta] & Hp & H). apply seq_Ok in H as [Hd%map_err_Ok H].
  apply rbind_Ok in H as (n & [-> Hn]%map_err_Ok%view_next_revision_Ok & H).
  apply rbind_Ok in H as ([changed levels] & Hcm & H). apply seq_Ok in H as [Hnext [= <- <-]].
  apply validate_state_Ok in Hv as [He|[time Hs]].
  { unfold is_initialized in Hi. rewrite He in Hi. done. }
  exists time, prepared, delta, changed, levels. split_and!; try done.
  apply validate_state_Ok in Hnext as [He|[time' Hs']].
  { apply (f_equal initialized_at) in He. unfold is_initialized in Hi. simpl in He.
    by rewrite He in Hi. }
  pose proof (view_ok_updated _ _ Hs') as [= <-]. done.
Qed.

End reduce.
