(* ===== verification/ViewHistory.v ===== *)
(** * Project View schema 3: projects over time

    One accepted command changes one entry.  [view_step] is that transition,
    and the lemmas relate a project to the projects reached from it: rows move
    forward, tombstones stay, Role levels and goals persist. *)

From S2P Require Import Prelude Text Platform ViewModel ViewMutation.
From S2P Require Import ViewContract ViewReference ViewObject ViewCommand ViewState ViewFacts.
From S2P Require Import ViewSpec.
From stdpp Require Import prelude strings gmap fin_maps relations.

Section history.
Context `{P : Platform} `{HU : !UuidLaws}.

(** Who created an entry, and when. *)
Definition entry_created (e : ProjectViewEntryV3) : DateTime * PublicKey :=
  match e with
  | ProjectViewEntryV3.Active o => (ProjectViewObjectV3.created_at o, ProjectViewObjectV3.created_by o)
  | ProjectViewEntryV3.Tombstone d =>
      (ProjectViewTombstoneV3.created_at d, ProjectViewTombstoneV3.created_by d)
  end.

(** Who changed an entry last, and when. *)
Definition entry_changed (e : ProjectViewEntryV3) : DateTime * PublicKey :=
  match e with
  | ProjectViewEntryV3.Active o => (ProjectViewObjectV3.updated_at o, ProjectViewObjectV3.updated_by o)
  | ProjectViewEntryV3.Tombstone d =>
      (ProjectViewTombstoneV3.deleted_at d, ProjectViewTombstoneV3.deleted_by d)
  end.

(** The three ways in which one command rewrites its row: a fresh id, or an
    active object that becomes a later version or a tombstone of itself. *)
Inductive row_change (command : ProjectObjectCommandV3) (now : DateTime) (actor : PublicKey)
    : option ProjectViewEntryV3 → ProjectViewEntryV3 → Prop :=
| row_created create o :
    command.(request) = ProjectObjectRequestV3.Create create →
    ProjectViewObjectV3.id o = NewProjectViewObjectV3_id create.(create_object) →
    ProjectViewObjectV3.object_type o = NewProjectViewObjectV3_object_type create.(create_object) →
    ProjectViewObjectV3.object_revision o = 1%N →
    entry_created (ProjectViewEntryV3.Active o) = (now, actor) →
    row_change command now actor None (ProjectViewEntryV3.Active o)
| row_updated update cur o :
    command.(request) = ProjectObjectRequestV3.Update update →
    ProjectViewObjectV3.id o = UpdateProjectObjectV3_object_id update →
    ProjectViewObjectV3.object_type o = ProjectViewObjectV3.object_type cur →
    ProjectViewObjectV3.object_revision o = (ProjectViewObjectV3.object_revision cur + 1)%N →
    entry_created (ProjectViewEntryV3.Active o) = entry_created (ProjectViewEntryV3.Active cur) →
    row_change command now actor (Some (ProjectViewEntryV3.Active cur))
      (ProjectViewEntryV3.Active o)
| row_deleted delete cur d :
    command.(request) = ProjectObjectRequestV3.Delete delete →
    ProjectViewTombstoneV3.id d = delete.(delete_object_id) →
    ProjectViewTombstoneV3.object_type d = ProjectViewObjectV3.object_type cur →
    ProjectViewTombstoneV3.object_revision d = (ProjectViewObjectV3.object_revision cur + 1)%N →
    entry_created (ProjectViewEntryV3.Tombstone d) = entry_created (ProjectViewEntryV3.Active cur) →
    row_change command now actor (Some (ProjectViewEntryV3.Active cur))
      (ProjectViewEntryV3.Tombstone d).

(** The Role levels after a change: a created Role gets the level the command
    asked for, and no other level moves. *)
Definition next_levels (command : ProjectObjectCommandV3) (s : ProjectViewStateV3)
    (changed : ProjectViewEntryV3) : gmap Uuid RoleLevel :=
  match ProjectObjectCommandV3_created_role_level command with
  | Some level => <[ProjectViewEntryV3_id changed := level]> s.(role_levels)
  | None => s.(role_levels)
  end.

Lemma into_parts_spec obj id data r rs :
  NewProjectViewObjectV3_into_parts obj = (id, data, r, rs) →
  id = NewProjectViewObjectV3_id obj
  ∧ ProjectViewObjectDataV3_object_type data = NewProjectViewObjectV3_object_type obj.
Proof. destruct obj; intros [= <- <- <- <-]; done. Qed.

Lemma created_level_role command create :
  command.(request) = ProjectObjectRequestV3.Create create →
  is_Some (ProjectObjectCommandV3_created_role_level command)
  ↔ NewProjectViewObjectV3_object_type create.(create_object) = ProjectViewObjectType.Role.
Proof.
  unfold ProjectObjectCommandV3_created_role_level, ProjectObjectCommandV3_creates_role.
  intros ->. destruct create as [[]]; simpl;
    (split; [by intros [? ?]|intros H; first [done|by eexists]]).
Qed.

(** What an accepted command does to its row and to the Role levels. *)
Lemma accepted_change s time command actor now caps proof prepared delta changed levels :
  view_ok s time →
  accepted s command actor now caps proof prepared delta changed levels →
  row_change command now actor (s.(entries) !! ProjectViewEntryV3_id changed) changed
  ∧ levels = next_levels command s changed
  ∧ ProjectViewEntryV3_project_revision changed = (s.(project_revision) + 1)%N
  ∧ entry_changed changed = (now, actor).
Proof.
  intros Hs [_ _ Hp _ _ Hc]. unfold prepare_next_entry in Hp.
  destruct (request command) as [create|update|delete] eqn:Hrq.
  - unfold prepare_create in Hp. destruct (NewProjectViewObjectV3_into_parts _)
      as [[[id data] r] rs] eqn:Hparts. apply into_parts_spec in Hparts as [Hid Hty].
    apply seq_Ok in Hp as [_ Hp]. apply seq_Ok in Hp as [Hnew%reject_if_Ok Hp].
    apply rbind_Ok in Hp as (rs' & _ & Hp). apply seq_Ok in Hp as [_ Hp].
    apply seq_Ok in Hp as [_ [= <- _]]. cbn [commit_prepared] in Hc.
    apply rbind_Ok in Hc as (levels' & Hl & [= <- <-]). simpl.
    destruct (entries s !! id) eqn:He; [done|]. split_and!; [by econstructor| |done..].
    unfold next_levels. pose proof (created_level_role command create Hrq) as Hlev.
    simpl in Hl. case_bool_decide as Hr.
    + apply rbind_Ok in Hl as (level & ->%ok_or_Ok & [= <-]). done.
    + injection Hl as <-.
      destruct (ProjectObjectCommandV3_created_role_level command); [|done].
      destruct Hr. rewrite Hty. by apply Hlev.
  - destruct (prepare_update_Ok _ _ _ _ _ _ Hs Hp) as (cur & o & -> & Hcur & Ho & _ & _).
    cbn [commit_prepared] in Hc.
    apply rbind_Ok in Hc as (n & [-> _]%map_err_Ok%view_next_revision_Ok & [= <- <-]). simpl.
    destruct (view_ok_entries s time Hs _ _ Hcur) as [Hid _]. simpl in Hid.
    assert (Hoid : ProjectViewObjectV3.id o = UpdateProjectObjectV3_object_id update)
      by (rewrite Ho; simpl; congruence).
    rewrite Hoid, Hcur. split_and!; [|by unfold next_levels,
      ProjectObjectCommandV3_created_role_level, ProjectObjectCommandV3_creates_role; rewrite Hrq
      |done..].
    eapply row_updated; try done; simpl; by rewrite Ho.
  - unfold prepare_delete in Hp.
    apply rbind_Ok in Hp as (cur & Hcur%map_err_Ok%active_object_Ok & H).
    apply seq_Ok in H as [_ H]. apply seq_Ok in H as [_ H]. apply seq_Ok in H as [_ H].
    apply seq_Ok in H as [_ H]. apply seq_Ok in H as [_ [= <- _]]. cbn [commit_prepared] in Hc.
    apply rbind_Ok in Hc as (n & [-> _]%map_err_Ok%view_next_revision_Ok & [= <- <-]). simpl.
    destruct (view_ok_entries s time Hs _ _ Hcur) as [Hid _]. simpl in Hid.
    rewrite <- Hid, Hcur. split_and!; [|by unfold next_levels,
      ProjectObjectCommandV3_created_role_level, ProjectObjectCommandV3_creates_role; rewrite Hrq
      |done..].
    eapply row_deleted; try done.
Qed.

(** ** Steps and reachable projects *)

Inductive view_step (s next : ProjectViewStateV3) : Prop :=
| view_step_reduce command actor now caps proof outcome :
    reduce s command actor now caps proof = Ok (next, outcome) → view_step s next.

Lemma view_step_inv s next :
  view_step s next →
  ∃ time now command actor changed,
    view_ok s time ∧ view_ok next now
    ∧ row_change command now actor (s.(entries) !! ProjectViewEntryV3_id changed) changed
    ∧ next = committed s (s.(project_revision) + 1) now changed (next_levels command s changed).
Proof.
  intros [command actor now caps proof outcome
    (time & prepared & delta & changed & levels & Hs & Ha & -> & _ & Hn)%reduce_Ok].
  pose proof (accepted_change _ _ _ _ _ _ _ _ _ _ _ Hs Ha) as (Hc & -> & _).
  exists time, now, command, actor, changed. done.
Qed.

Lemma view_reachable_ok s s' :
  rtc view_step s s' → (∃ time, view_ok s time) → ∃ time, view_ok s' time.
Proof.
  intros Hr. induction Hr as [|s t s' Hst _ IH]; [done|]. intros _. apply IH.
  apply view_step_inv in Hst as (time & now & command & actor & changed & _ & Hn & _). eauto.
Qed.

(** A row that has moved forward: the same identity, type and creation, a
    greater revision, and never back from a tombstone. *)
Definition row_after (e e' : ProjectViewEntryV3) : Prop :=
  e' = e
  ∨ ∃ o, e = ProjectViewEntryV3.Active o
      ∧ ProjectViewEntryV3_id e' = ProjectViewEntryV3_id e
      ∧ ProjectViewEntryV3_object_type e' = ProjectViewEntryV3_object_type e
      ∧ entry_created e' = entry_created e
      ∧ (ProjectViewEntryV3_object_revision e < ProjectViewEntryV3_object_revision e')%N.

#[export] Instance row_after_preorder : PreOrder row_after.
Proof.
  split; [by left|]. intros x y z [->|(o & -> & Hi & Ht & Hc & Hr)] Hyz; [done|].
  destruct Hyz as [->|(o' & -> & Hi' & Ht' & Hc' & Hr')]; [right; exists o; naive_solver|].
  right. exists o. split_and!; [done|congruence..|lia].
Qed.

Lemma view_step_row s next k e :
  view_step s next → s.(entries) !! k = Some e →
  ∃ e', next.(entries) !! k = Some e' ∧ row_after e e'.
Proof.
  intros (time & now & command & actor & changed & Hs & _ & Hc & ->)%view_step_inv Hk. simpl.
  destruct (decide (ProjectViewEntryV3_id changed = k)) as [Hid|Hne].
  - rewrite Hid, lookup_insert_eq. exists changed. split; [done|]. rewrite Hid, Hk in Hc.
    destruct (view_ok_entries s time Hs k e Hk) as [Hke _].
    inversion Hc; subst; right; eexists; split_and!; try done; simpl; lia.
  - rewrite lookup_insert_ne by done. exists e. split; [done|by left].
Qed.

Lemma view_reachable_row s s' k e :
  rtc view_step s s' → s.(entries) !! k = Some e →
  ∃ e', s'.(entries) !! k = Some e' ∧ row_after e e'.
Proof.
  intros Hr. revert e. induction Hr as [s|s t s' Hst _ IH]; intros e Hk.
  - exists e. split; [done|by left].
  - destruct (view_step_row _ _ _ _ Hst Hk) as (e1 & Hk1 & H1).
    destruct (IH _ Hk1) as (e2 & Hk2 & H2). exists e2. split; [done|]. by etrans.
Qed.

(** Levels, once given, never move. *)
Lemma view_step_level s next k level :
  view_step s next → s.(role_levels) !! k = Some level → next.(role_levels) !! k = Some level.
Proof.
  intros (time & now & command & actor & changed & Hs & _ & Hc & ->)%view_step_inv Hk. simpl.
  unfold next_levels.
  destruct (ProjectObjectCommandV3_created_role_level command) as [l|] eqn:Hl; [|done].
  rewrite lookup_insert_ne; [done|]. intros Hid.
  destruct (proj1 (view_ok_roles s time Hs k)) as (e & He & _); [by eexists|].
  rewrite Hid, He in Hc. unfold ProjectObjectCommandV3_created_role_level,
    ProjectObjectCommandV3_creates_role in Hl. inversion Hc; subst.
  all: match goal with Hr : request _ = _ |- _ => by rewrite Hr in Hl end.
Qed.

Lemma view_reachable_level s s' k level :
  rtc view_step s s' → s.(role_levels) !! k = Some level → s'.(role_levels) !! k = Some level.
Proof. induction 1; eauto using view_step_level. Qed.

(** ** Goals *)

Definition has_goal (s : ProjectViewStateV3) : Prop :=
  ∃ k, active_of s.(entries) k ProjectViewObjectType.Goal.

Definition is_goal (e : ProjectViewEntryV3) : Prop :=
  match e with
  | ProjectViewEntryV3.Active o =>
      ProjectViewObjectV3.object_type o = ProjectViewObjectType.Goal
  | _ => False
  end.

#[local] Instance is_goal_dec e : Decision (is_goal e).
Proof. destruct e; apply _. Defined.

Lemma active_goal_count_size s :
  active_goal_count s = N.of_nat (size (filter (λ row, is_goal row.2) s.(entries))).
Proof.
  rewrite <- length_map_to_list, <- btree_filter_perm.
  unfold active_goal_count, len, active_objects, btree_values. f_equal.
  induction (btree_iter (entries s)) as [|[k [o|d]] l IH]; [done| |];
    rewrite filter_cons; csimpl.
  - rewrite filter_cons. cbn [snd].
    destruct (decide (ProjectViewObjectV3.object_type o = ProjectViewObjectType.Goal));
      [csimpl; by rewrite IH|exact IH].
  - exact IH.
Qed.

(** Unless it is the last one, deleting a Goal leaves another. *)
Lemma active_goal_count_other s k o :
  active_goal_count s ≠ 1%N →
  s.(entries) !! k = Some (ProjectViewEntryV3.Active o) →
  ProjectViewObjectV3.object_type o = ProjectViewObjectType.Goal →
  ∃ j, j ≠ k ∧ active_of s.(entries) j ProjectViewObjectType.Goal.
Proof.
  rewrite active_goal_count_size. intros Hn Hk Ht.
  set (m := filter (λ row, is_goal row.2) s.(entries)) in *.
  assert (Hm : m !! k = Some (ProjectViewEntryV3.Active o)) by (by apply map_lookup_filter_Some).
  destruct (map_choose (delete k m)) as (j & e & Hj).
  { intros E. pose proof (map_size_delete k m) as Hs. rewrite E, Hm, map_size_empty in Hs.
    assert (size m ≠ 0) by (apply map_size_ne_0_lookup; eauto). lia. }
  apply lookup_delete_Some in Hj as [Hjk Hj]. apply map_lookup_filter_Some in Hj as [Hj Hg].
  exists j. split; [done|]. destruct e as [x|]; [|done]. by exists x.
Qed.

Lemma view_step_has_goal s next : view_step s next → has_goal s → has_goal next.
Proof.
  intros [command actor now caps proof outcome
    (time & prepared & delta & changed & levels & Hs & Ha & -> & _ & _)%reduce_Ok] (k & o & Hk & Ht).
  pose proof (accepted_change _ _ _ _ _ _ _ _ _ _ _ Hs Ha) as (Hc & _ & _).
  unfold has_goal. simpl. destruct (view_ok_entries s time Hs k _ Hk) as [Hkid _].
  destruct (decide (ProjectViewEntryV3_id changed = k)) as [Hid|Hne].
  2: { exists k, o. by rewrite lookup_insert_ne by done. }
  rewrite Hid, Hk in Hc. inversion Hc as [|update cur o' Hrq Hoid Hty|delete cur d Hrq Hdid Hty];
    subst.
  - exists (ProjectViewObjectV3.id o'), o'. simpl. rewrite lookup_insert_eq. split; congruence.
  - destruct Ha as [_ _ Hp _ _ _]. unfold prepare_next_entry in Hp. rewrite Hrq in Hp.
    unfold prepare_delete in Hp.
    apply rbind_Ok in Hp as (cur & Hcur%map_err_Ok%active_object_Ok & Hp).
    assert (cur = o) as -> by (simpl in *; congruence).
    apply seq_Ok in Hp as [_ Hp]. apply seq_Ok in Hp as [_ Hp].
    apply seq_Ok in Hp as [Hg%reject_if_Ok _]. rewrite bool_decide_true in Hg by done.
    simpl in Hg. bool_props.
    destruct (active_goal_count_other s _ _ Hg Hk Ht) as (j & Hj & x & Hx & Hxt).
    exists j, x. split; [|done]. rewrite lookup_insert_ne; [done|]. simpl in *. congruence.
Qed.

Lemma view_reachable_has_goal s s' : rtc view_step s s' → has_goal s → has_goal s'.
Proof. induction 1; eauto using view_step_has_goal. Qed.

End history.
