(* ===== verification/ViewErrors.v ===== *)
(** * Project View schema 3: which errors a command can meet

    [InvalidFinalState] and [InvalidRoleLevels] report a damaged project, every
    other error is about the command.  On a valid project the reducer only
    reports errors of the second kind. *)

From S2P Require Import Prelude Text Platform ViewModel ViewMutation.
From S2P Require Import ViewContract ViewReference ViewObject ViewCommand ViewState ViewFacts.
From S2P Require Import ViewSpec ViewHistory.
From stdpp Require Import prelude strings gmap fin_maps.

(** The computation does not fail with an error of the class [bad]. *)
Definition no_err {A E} (bad : E → bool) (r : result A E) : Prop :=
  match r with
  | Ok _ => True
  | Err e => bad e = false
  end.

Section no_err.
Context {E F : Type} (bad : E → bool) (bad' : F → bool).

Lemma no_err_bind {A B} (c : result A E) (k : A → result B E) :
  no_err bad c → (∀ a, c = Ok a → no_err bad (k a)) → no_err bad (rbind c k).
Proof. destruct c; simpl; auto. Qed.

Lemma no_err_for_each {A} (f : A → result unit E) xs :
  (∀ x, x ∈ xs → no_err bad (f x)) → no_err bad (for_each f xs).
Proof.
  induction xs as [|x xs IH]; intros H; [done|]. simpl. apply no_err_bind; [apply H; left|].
  intros _ _. apply IH. intros y Hy. apply H. by right.
Qed.

Lemma no_err_map_err {A} (f : F → E) (c : result A F) :
  (∀ e, bad (f e) = bad' e) → no_err bad' c → no_err bad (map_err f c).
Proof. destruct c; simpl; [done|]. by intros ->. Qed.

Lemma no_err_map_good {A} (f : F → E) (c : result A F) :
  (∀ e, bad (f e) = false) → no_err bad (map_err f c).
Proof. destruct c; simpl; auto. Qed.

Lemma no_err_reject c (e : E) : bad e = false → no_err bad (reject_if c e).
Proof. by destruct c. Qed.

Lemma no_err_ok_or {A} (o : option A) (e : E) :
  (o = None → bad e = false) → no_err bad (ok_or o e).
Proof. destruct o; simpl; auto. Qed.

Lemma no_err_Err {A} (c : result A E) e : no_err bad c → c = Err e → bad e = false.
Proof. by intros H ->. Qed.
End no_err.

Create HintDb clean discriminated.

(** Walk through a computation: every error it can raise is looked at. *)
Ltac clean :=
  repeat match goal with
  | |- no_err _ (Ok _) => exact I
  | |- no_err _ (Err _) => reflexivity
  | |- no_err _ (reject_if _ _) => apply no_err_reject; reflexivity
  | |- no_err _ (rbind _ _) => apply no_err_bind; [|intros ? ?]
  | |- no_err _ (for_each _ _) => apply no_err_for_each; intros ? ?
  | |- no_err _ (if_some ?o _) => destruct o; cbn [if_some]
  | |- no_err _ (map_err _ _) => apply no_err_map_good; reflexivity
  | |- no_err _ (map_err V3ProjectObjectError.Object _) =>
      eapply no_err_map_err; [reflexivity|]
  | |- no_err _ _ => solve [auto with clean]
  | |- no_err _ (let '(_, _) := ?x in _) => destruct x
  | |- no_err _ (match ?x with _ => _ end) => destruct x
  | |- no_err _ (ok_or _ _) => apply no_err_ok_or; reflexivity
  end.

Section errors.
Context `{P : Platform}.

Definition damaged_domain (e : DomainError) : bool :=
  match e with DomainError.InvalidFinalState _ => true | _ => false end.

Definition damaged (e : V3ProjectObjectError) : bool :=
  match e with
  | V3ProjectObjectError.Object e => damaged_domain e
  | V3ProjectObjectError.InvalidRoleLevels _ => true
  | _ => false
  end.

Lemma clean_text field value max : no_err damaged_domain (validate_required_text field value max).
Proof. unfold validate_required_text. clean. Qed.
#[local] Hint Resolve clean_text : clean.

Lemma clean_short field value : no_err damaged_domain (validate_required_short field value).
Proof. apply clean_text. Qed.
#[local] Hint Resolve clean_short : clean.

Lemma clean_long field value : no_err damaged_domain (validate_required_long field value).
Proof. apply clean_text. Qed.
#[local] Hint Resolve clean_long : clean.

Lemma clean_list field values : no_err damaged_domain (validate_string_list field values).
Proof. unfold validate_string_list. clean. Qed.
#[local] Hint Resolve clean_list : clean.

Lemma clean_summary s : no_err damaged_domain (validate_summary s).
Proof. unfold validate_summary. clean. Qed.
#[local] Hint Resolve clean_summary : clean.

Lemma clean_locator l : no_err damaged_domain (validate_locator l).
Proof. unfold validate_locator. cbn zeta. clean. Qed.
#[local] Hint Resolve clean_locator : clean.

Lemma clean_data data : no_err damaged_domain (validate_data data).
Proof. unfold validate_data. clean. Qed.
#[local] Hint Resolve clean_data : clean.

Lemma clean_shape ty r : no_err damaged_domain (validate_relation_shape ty r).
Proof. unfold validate_relation_shape. cbn zeta. clean. Qed.
#[local] Hint Resolve clean_shape : clean.

Lemma clean_short_patch patch field : no_err damaged_domain (validate_short_patch patch field).
Proof. unfold validate_short_patch. clean. Qed.
#[local] Hint Resolve clean_short_patch : clean.

Lemma clean_long_patch patch field : no_err damaged_domain (validate_long_patch patch field).
Proof. unfold validate_long_patch. clean. Qed.
#[local] Hint Resolve clean_long_patch : clean.

Lemma clean_list_patch patch field : no_err damaged_domain (validate_list_patch patch field).
Proof. unfold validate_list_patch. clean. Qed.
#[local] Hint Resolve clean_list_patch : clean.

Lemma clean_required_patch {T} (patch : Patch T) field :
  no_err damaged_domain (validate_required_patch patch field).
Proof. unfold validate_required_patch. clean. Qed.
#[local] Hint Resolve clean_required_patch : clean.

Lemma clean_relation_patch {T} (patch : Patch T) field :
  no_err damaged_domain (validate_required_relation_patch patch field).
Proof. unfold validate_required_relation_patch. clean. Qed.
#[local] Hint Resolve clean_relation_patch : clean.

Lemma clean_work_target ty : no_err damaged_domain (validate_work_target ty).
Proof. unfold validate_work_target. clean. Qed.
#[local] Hint Resolve clean_work_target : clean.

Lemma clean_generated_id id : no_err damaged_domain (validate_client_generated_id id).
Proof. unfold validate_client_generated_id. clean. Qed.
#[local] Hint Resolve clean_generated_id : clean.

Lemma clean_update_input update : no_err damaged_domain (validate_update_input update).
Proof. unfold validate_update_input. clean. Qed.
#[local] Hint Resolve clean_update_input : clean.

Lemma clean_object_data data : no_err damaged (validate_object_data data).
Proof.
  unfold validate_object_data. destruct data; cbn [legacy_data rbind]; clean.
  all: eapply no_err_map_err; [reflexivity|]; clean.
Qed.
#[local] Hint Resolve clean_object_data : clean.

Lemma clean_required_field {T} (patch : Patch T) changed current field :
  no_err damaged (patch_required_field patch changed current field).
Proof. unfold patch_required_field. clean. Qed.
#[local] Hint Resolve clean_required_field : clean.

Lemma clean_resource_patch patch changed : no_err damaged (validate_resource_patch patch changed).
Proof. unfold validate_resource_patch. cbn zeta. clean. Qed.
#[local] Hint Resolve clean_resource_patch : clean.

Lemma clean_update update : no_err damaged (validate_update update).
Proof.
  unfold validate_update. cbn zeta. apply no_err_bind; [clean|intros _ _].
  destruct update; [..|apply clean_resource_patch].
  all: cbn [legacy_update]; unfold validate_mutation_input.
  all: match goal with |- context [validate_update_input ?u] =>
         pose proof (clean_update_input u); destruct (validate_update_input u) as [|[]] end.
  all: try done; destruct (_ || _); done.
Qed.
#[local] Hint Resolve clean_update : clean.

Lemma clean_uuid_v4 id : no_err damaged_domain (require_uuid_v4 id).
Proof. unfold require_uuid_v4. clean. Qed.
#[local] Hint Resolve clean_uuid_v4 : clean.

Lemma clean_revision n : no_err damaged_domain (require_revision n).
Proof. unfold require_revision. clean. Qed.
#[local] Hint Resolve clean_revision : clean.

Lemma clean_context_source ty rs : no_err damaged (validate_context_source ty rs).
Proof. unfold validate_context_source. clean. Qed.
#[local] Hint Resolve clean_context_source : clean.

Lemma clean_canonical_order rs : no_err damaged (require_canonical_order rs).
Proof. unfold require_canonical_order. clean. Qed.
#[local] Hint Resolve clean_canonical_order : clean.

Lemma clean_command command :
  no_err damaged (ProjectObjectCommandV3_validate_for_submission command).
Proof.
  unfold ProjectObjectCommandV3_validate_for_submission,
    ProjectObjectRequestV3_validate_for_submission, NewProjectViewObjectV3_validate_for_submission,
    UpdateProjectObjectV3_validate_for_submission, validate_relation_shape_v3. clean.
Qed.

(** ** Against a project *)

Lemma clean_active_target s relation id : no_err damaged (active_target s relation id).
Proof. unfold active_target. clean. Qed.
#[local] Hint Resolve clean_active_target : clean.

Lemma clean_typed_target s relation id ty : no_err damaged (validate_typed_target s relation id ty).
Proof. unfold validate_typed_target. clean. Qed.
#[local] Hint Resolve clean_typed_target : clean.

Lemma clean_declared_target s relation t : no_err damaged (validate_declared_target s relation t).
Proof. unfold validate_declared_target. clean. Qed.
#[local] Hint Resolve clean_declared_target : clean.

Lemma clean_relation_targets s o : no_err damaged (validate_relation_targets s o).
Proof. unfold validate_relation_targets. cbn zeta. clean. Qed.
#[local] Hint Resolve clean_relation_targets : clean.

Lemma clean_graph s : no_err damaged (validate_relation_targets_and_context s).
Proof. unfold validate_relation_targets_and_context. cbn zeta. clean. Qed.
#[local] Hint Resolve clean_graph : clean.

(** [validate_candidate] copies metadata from some active object, and an
    initialized project has one. *)
Lemma clean_candidate s time prepared :
  view_ok s time → no_err damaged (validate_candidate s prepared).
Proof.
  intros Hs. unfold validate_candidate. apply no_err_bind; [|intros o _; cbn zeta; clean].
  apply no_err_ok_or. intros Hn. destruct (view_ok_profile s time Hs) as (p & Hp & _).
  assert (p ∈ active_objects s) as Hin by (apply elem_of_active_objects; eauto).
  destruct (active_objects s); [by apply elem_of_nil in Hin|done].
Qed.

Lemma clean_required {T} (current : T) patch field :
  no_err damaged_domain (apply_required current patch field).
Proof. unfold apply_required. clean. Qed.
#[local] Hint Resolve clean_required : clean.

Lemma clean_required_relation {T} (current : option T) patch field :
  no_err damaged_domain (apply_required_relation current patch field).
Proof. unfold apply_required_relation. clean. Qed.
#[local] Hint Resolve clean_required_relation : clean.

Lemma clean_apply_update o update : no_err damaged (apply_update o update).
Proof.
  unfold apply_update. cbn zeta. apply no_err_bind; [|intros [data r] _; clean].
  destruct update, (ProjectViewObjectV3.data o); clean.
Qed.
#[local] Hint Resolve clean_apply_update : clean.

Lemma clean_active_object s id : no_err damaged_domain (active_object s id).
Proof. unfold active_object. clean. Qed.
#[local] Hint Resolve clean_active_object : clean.

Lemma clean_prepare s time command caps :
  view_ok s time → no_err damaged (prepare_next_entry s command caps).
Proof.
  intros Hs. pose proof (λ p, clean_candidate s time p Hs) as Hc. unfold prepare_next_entry.
  unfold prepare_create, prepare_update, prepare_delete. cbn zeta. clean.
Qed.

Lemma clean_commit s time command actor now caps n prepared delta :
  view_ok s time → prepare_next_entry s command caps = Ok (prepared, delta) →
  no_err damaged (commit_prepared s command actor now n prepared).
Proof.
  intros Hs Hp.
  assert (Hnext : ∀ m, no_err damaged_domain (next_revision m)).
  { intros m. unfold next_revision. by apply no_err_ok_or. }
  destruct prepared as [id data r rs|o|o]; cbn [commit_prepared]; [|clean..].
  unfold prepare_next_entry in Hp. destruct (request command) as [create|update|delete] eqn:Hrq.
  - unfold prepare_create in Hp. destruct (NewProjectViewObjectV3_into_parts _)
      as [[[id' data'] r'] rs'] eqn:Hparts. apply into_parts_spec in Hparts as [_ Hty].
    ok_inv. simplify_eq. cbn [ProjectViewObjectV3.object_type].
    pose proof (created_level_role command create Hrq) as Hl. rewrite <- Hty in Hl.
    destruct (decide (ProjectViewObjectDataV3_object_type data = ProjectViewObjectType.Role)) as [Hr|Hr].
    + rewrite bool_decide_true by done. apply Hl in Hr as [level ->]. exact I.
    + rewrite bool_decide_false by done. exact I.
  - unfold prepare_update in Hp. ok_inv. done.
  - unfold prepare_delete in Hp. ok_inv. done.
Qed.

(** On a valid project the reducer never reports damage. *)
Lemma reduce_not_damaged `{HU : !UuidLaws} s time command actor now caps proof :
  view_ok s time → (time ≤ now)%Z → no_err damaged (reduce s command actor now caps proof).
Proof.
  intros Hs Ht. rewrite (reduce_unchecked_eq s time) by done. unfold reduce_unchecked.
  apply no_err_bind; [apply clean_command|intros _ _]. apply no_err_bind; [clean|intros _ _].
  apply no_err_bind; [by eapply clean_prepare|intros [prepared delta] Hp].
  apply no_err_bind; [clean|intros _ _].
  apply no_err_bind; [|intros n _].
  { eapply no_err_map_err; [reflexivity|]. unfold next_revision. by apply no_err_ok_or. }
  apply no_err_bind; [by eapply clean_commit|intros [changed levels] _]. exact I.
Qed.

End errors.
