(* ===== verification/ViewProgress.v ===== *)
(** * Project View schema 3: which Document targets a command introduces

    The delta that [reduce] proves against the Document domain is exactly the
    difference between the row before and the row after, and with the Context
    capability off a Context set only shrinks. *)

From stdpp Require Import prelude strings gmap fin_maps fin_sets.
From S2P Require Import Prelude Text Platform ViewModel ViewMutation ViewContract.
From S2P Require Import ViewReference ViewObject ViewCommand ViewState ViewFacts ViewSpec.
From S2P Require Import ViewHistory ViewProjection.

Section delta.
Context `{P : Platform} `{HU : !UuidLaws}.

(** The Documents that a Context set names. *)
Definition context_targets (rs : list ProjectContextReference) : list DocumentCoordinate :=
  omap DocumentCoordinate_from_context rs.

(** A coordinate that the Document domain vouches for. *)
Definition proved (proof : ReferenceTargetProof) (c : DocumentCoordinate) : Prop :=
  ∃ state, proof.(documents) !! c = Some state
    ∧ target_valid (DocumentCoordinate.mode c) state = true.

Lemma elem_of_required cur next cur_guide next_guide c :
  c ∈ DocumentTargetDelta_required_coordinates
        (introduced_document_targets cur next cur_guide next_guide)
  ↔ (c ∈ context_targets next ∧ c ∉ context_targets cur)
    ∨ ∃ g, next_guide = Some g ∧ cur_guide ≠ Some g ∧ c = DocumentCoordinate_live g.
Proof.
  unfold DocumentTargetDelta_required_coordinates, introduced_document_targets, context_targets.
  cbn [guide_document context_documents].
  assert (Hc : ∀ d, d ∈@{gset DocumentCoordinate} list_to_set
      (filter (λ x, x ∉ (list_to_set (omap DocumentCoordinate_from_context cur)
                         : gset DocumentCoordinate))
         (omap DocumentCoordinate_from_context next))
    ↔ d ∈ omap DocumentCoordinate_from_context next
      ∧ d ∉ omap DocumentCoordinate_from_context cur).
  { intros d. rewrite elem_of_list_to_set, list_elem_of_filter, elem_of_list_to_set. tauto. }
  destruct next_guide as [g|]; cbn [option_filter].
  2: { cbn [fmap option_fmap option_map]. rewrite Hc. naive_solver. }
  destruct (bool_decide (Some g = cur_guide)) eqn:Hg; cbn [negb fmap option_fmap option_map];
    bool_props.
  - rewrite Hc. naive_solver.
  - rewrite elem_of_union, elem_of_singleton, Hc. naive_solver.
Qed.

Lemma is_empty_required delta :
  DocumentTargetDelta_is_empty delta = true
  ↔ DocumentTargetDelta_required_coordinates delta = ∅.
Proof.
  unfold DocumentTargetDelta_is_empty, DocumentTargetDelta_required_coordinates.
  destruct delta as [ds [g|]]; simpl.
  - rewrite andb_false_r. split; [done|]. intros H. exfalso. set_solver.
  - by rewrite andb_true_r, bool_decide_eq_true.
Qed.

Lemma validate_delta_proved delta available proof u c :
  validate_document_target_delta delta available proof = Ok u →
  c ∈ DocumentTargetDelta_required_coordinates delta →
  available = true ∧ proved proof c.
Proof.
  unfold validate_document_target_delta. intros H Hc.
  destruct (DocumentTargetDelta_is_empty delta) eqn:He.
  { apply is_empty_required in He. rewrite He in Hc. set_solver. }
  apply seq_Ok in H as [Ha%reject_if_Ok%negb_false_iff H]. split; [done|].
  unfold ReferenceTargetProof_validate_required in H. apply seq_Ok in H as [H _].
  rewrite for_each_Ok, Forall_forall in H. specialize (H c). rewrite sort_by_perm in H.
  specialize (H (proj2 (elem_of_elements _ _) Hc)). cbv beta zeta in H.
  apply seq_Ok in H as [_ H]. apply rbind_Ok in H as (state & Hs%ok_or_Ok & H).
  apply reject_if_Ok, negb_false_iff in H. by exists state.
Qed.

(** What a row contributed before the command. *)
Definition row_context (e : option ProjectViewEntryV3) : list ProjectContextReference :=
  default [] (ProjectViewEntryV3_context_references <$> e).

Definition entry_guide (e : ProjectViewEntryV3) : option Uuid :=
  match e with
  | ProjectViewEntryV3.Active o => guide_document_id (ProjectViewObjectV3.data o)
  | ProjectViewEntryV3.Tombstone _ => None
  end.

Definition row_guide (e : option ProjectViewEntryV3) : option Uuid := e ≫= entry_guide.

(** The delta of an accepted command is the difference of its row, and without
    the Context capability the row names no new reference. *)
Lemma accepted_delta s time command actor now caps proof prepared delta changed levels :
  view_ok s time →
  accepted s command actor now caps proof prepared delta changed levels →
  let old := s.(entries) !! ProjectViewEntryV3_id changed in
  delta = introduced_document_targets (row_context old)
            (ProjectViewEntryV3_context_references changed) (row_guide old) (entry_guide changed)
  ∧ (caps.(project_context_enabled) = false →
     ∀ r, r ∈ ProjectViewEntryV3_context_references changed → r ∈ row_context old).
Proof.
  intros Hs [_ _ Hp _ _ Hc]. unfold prepare_next_entry in Hp.
  destruct (request command) as [create|update|delete] eqn:Hrq.
  - unfold prepare_create in Hp. destruct (NewProjectViewObjectV3_into_parts _)
      as [[[id data] r] rs] eqn:Hparts.
    apply seq_Ok in Hp as [_ Hp]. apply seq_Ok in Hp as [Hnew%reject_if_Ok Hp].
    apply rbind_Ok in Hp as (rs' & Hrs%map_err_Ok%validate_context_replacement_Ok & Hp).
    apply seq_Ok in Hp as [_ Hp]. apply seq_Ok in Hp as [_ [= <- <-]]. cbn [commit_prepared] in Hc.
    apply rbind_Ok in Hc as (levels' & _ & [= <- <-]). simpl.
    destruct (entries s !! id) eqn:He; [done|]. split; [done|apply Hrs].
  - unfold prepare_update in Hp.
    apply rbind_Ok in Hp as (cur & Hcur%map_err_Ok%active_object_Ok & H).
    apply seq_Ok in H as [_ H]. apply rbind_Ok in H as (o1 & Ho1 & H).
    apply rbind_Ok in H as (o & Ho & H). apply seq_Ok in H as [_ H]. apply seq_Ok in H as [_ H].
    apply seq_Ok in H as [_ [= <- <-]]. cbn [commit_prepared] in Hc.
    apply rbind_Ok in Hc as (n & _ & [= <- <-]). simpl.
    apply apply_update_Ok in Ho1 as (data & r & -> & _).
    destruct (view_ok_entries s time Hs _ _ Hcur) as [Hid _]. simpl in Hid.
    assert (ProjectViewObjectV3.id o = UpdateProjectObjectV3_object_id update
      ∧ (project_context_enabled caps = false → ∀ r, r ∈ ProjectViewObjectV3.context_references o →
         r ∈ ProjectViewObjectV3.context_references cur)) as [-> Hgate].
    { destruct (UpdateProjectObjectV3_context_references update) as [rs|].
      - apply rbind_Ok in Ho as (rs' & Hrs%map_err_Ok%validate_context_replacement_Ok & [= <-]).
        split; [done|apply Hrs].
      - injection Ho as <-. done. }
    rewrite Hcur. done.
  - unfold prepare_delete in Hp.
    apply rbind_Ok in Hp as (cur & Hcur%map_err_Ok%active_object_Ok & H).
    apply seq_Ok in H as [_ H]. apply seq_Ok in H as [_ H]. apply seq_Ok in H as [_ H].
    apply seq_Ok in H as [_ H]. apply seq_Ok in H as [_ [= <- <-]]. cbn [commit_prepared] in Hc.
    apply rbind_Ok in Hc as (n & _ & [= <- <-]). simpl. split; [done|]. intros _ r Hr.
    by apply elem_of_nil in Hr.
Qed.

(** Rows of the next state name no Document that is neither in the row before
    nor proved. *)
Lemma accepted_targets s time command actor now caps proof prepared delta changed levels k e c :
  view_ok s time →
  accepted s command actor now caps proof prepared delta changed levels →
  <[ProjectViewEntryV3_id changed := changed]> s.(entries) !! k = Some e →
  (c ∈ context_targets (ProjectViewEntryV3_context_references e)
   ∧ c ∉ context_targets (row_context (s.(entries) !! k)))
  ∨ (∃ g, entry_guide e = Some g ∧ row_guide (s.(entries) !! k) ≠ Some g
       ∧ c = DocumentCoordinate_live g) →
  caps.(document_capability_available) = true ∧ proved proof c.
Proof.
  intros Hs Ha Hk Hnew.
  pose proof (accepted_delta _ _ _ _ _ _ _ _ _ _ _ Hs Ha) as [-> _].
  destruct Ha as [_ _ _ Hd _ _]. destruct (decide (ProjectViewEntryV3_id changed = k)) as [<-|Hne].
  - rewrite lookup_insert_eq in Hk. simplify_eq.
    eapply validate_delta_proved; [exact Hd|]. by apply elem_of_required.
  - rewrite lookup_insert_ne in Hk by done. unfold row_context, row_guide in Hnew.
    rewrite Hk in Hnew. simpl in Hnew. naive_solver.
Qed.

Lemma accepted_context_gate s time command actor now caps proof prepared delta changed levels k e r :
  view_ok s time →
  accepted s command actor now caps proof prepared delta changed levels →
  caps.(project_context_enabled) = false →
  <[ProjectViewEntryV3_id changed := changed]> s.(entries) !! k = Some e →
  r ∈ ProjectViewEntryV3_context_references e → r ∈ row_context (s.(entries) !! k).
Proof.
  intros Hs Ha Hoff Hk Hr.
  pose proof (accepted_delta _ _ _ _ _ _ _ _ _ _ _ Hs Ha) as [_ Hg].
  destruct (decide (ProjectViewEntryV3_id changed = k)) as [<-|Hne].
  - rewrite lookup_insert_eq in Hk. simplify_eq. by apply Hg.
  - rewrite lookup_insert_ne in Hk by done. unfold row_context. by rewrite Hk.
Qed.

End delta.

(** * Project View schema 3: publishing an accepted change

    The plan of an accepted command has exactly one head, the changed entry; an
    active Role is published as its [RoleDefinitionV3], whose text rules are
    stricter than those of the reducer. *)


Section publish.
Context `{P : Platform} `{HU : !UuidLaws}.

(** Text that the published Role contract accepts beyond what the reducer
    requires: no surrounding white space and no NUL. *)
Definition text_publishable (t : Text) : Prop := trim t = t ∧ contains_char 0 t = false.

Definition role_publishable (role : ProjectRole) : Prop :=
  Forall text_publishable
    (ProjectRole.name role :: ProjectRole.purpose role
     :: ProjectRole.responsibilities role ++ ProjectRole.boundaries role).

Lemma validate_nonempty_text_Ok field t max error u :
  validate_nonempty_text field t max error = Ok u
  ↔ t ≠ [] ∧ text_publishable t ∧ (str_len t ≤ max)%N.
Proof.
  unfold validate_nonempty_text, text_publishable. destruct u.
  rewrite seq_Ok, reject_if_Ok, !orb_false_iff, negb_false_iff, bool_decide_eq_true, N.ltb_ge.
  destruct t; simpl; naive_solver.
Qed.

Lemma validate_required_text_Ok field t max u :
  validate_required_text field t max = Ok u ↔ trim t ≠ [] ∧ (str_len t ≤ max)%N.
Proof.
  unfold validate_required_text. destruct u. rewrite !seq_Ok, !reject_if_Ok, N.ltb_ge.
  destruct (trim t); simpl; naive_solver.
Qed.

(** Text that passed the reducer is published exactly when it is canonical. *)
Lemma required_text_publishes field t max field' max' error u :
  validate_required_text field t max = Ok u → (max ≤ max')%N →
  validate_nonempty_text field' t max' error = Ok tt ↔ text_publishable t.
Proof.
  rewrite validate_required_text_Ok, validate_nonempty_text_Ok. intros [Hne Hl] Hm.
  split; [naive_solver|]. intros Ht. split_and!; [by intros ->|done|lia].
Qed.

Lemma string_list_publishes field ts field' u :
  validate_string_list field ts = Ok u →
  validate_string_list_v3 field' ts = Ok tt ↔ Forall text_publishable ts.
Proof.
  unfold validate_string_list, validate_string_list_v3. intros [_ [H _]%seq_Ok]%seq_Ok.
  rewrite seq_Ok. rewrite for_each_Ok, Forall_forall in H. rewrite for_each_Ok, !Forall_forall.
  split.
  - intros [Hf _] t Ht. eapply (required_text_publishes _ t); [by apply H| |by apply Hf]. done.
  - intros Hf. split; [|done]. intros t Ht.
    eapply (required_text_publishes _ t); [by apply H| |by apply Hf]. done.
Qed.

(** The Role definition of a valid Role object exists exactly when its text is
    canonical. *)
Lemma role_definition_Ok project revision time o role level :
  entry_ok project revision time (ProjectViewObjectV3.id o) (ProjectViewEntryV3.Active o) →
  ProjectViewObjectV3.data o = ProjectViewObjectDataV3.Role role →
  is_Ok (ProjectViewObjectV3_role_definition o level) ↔ role_publishable role.
Proof.
  intros [_ ([Hty Hr Hp Ht Hd Hsh Hrs] & _ & _ & Hid)] Hrole. rewrite Hrole in Hty, Hd.
  rewrite Hty in Hid. simpl in Hid. destruct Hid as (Hne & Hv & Hrfc).
  unfold validate_object_data in Hd. cbn [legacy_data rbind] in Hd.
  apply map_err_Ok in Hd. cbn [validate_data] in Hd.
  apply seq_Ok in Hd as [Hname Hd]. apply seq_Ok in Hd as [Hpur Hd].
  apply seq_Ok in Hd as [Hres Hd]. apply seq_Ok in Hd as [Hbou Hsum].
  unfold role_publishable. rewrite !Forall_cons, Forall_app.
  rewrite <- (required_text_publishes _ _ _ "name" 256%N V3ContractError.InvalidWire _ Hname),
    <- (required_text_publishes _ _ _ "purpose" 32768%N V3ContractError.InvalidWire _ Hpur),
    <- (string_list_publishes _ _ "responsibilities" _ Hres),
    <- (string_list_publishes _ _ "boundaries" _ Hbou) by done.
  assert (Huuid : require_uuid_v4_contract (ProjectViewObjectV3.id o) "role_id" = Ok tt).
  { unfold require_uuid_v4_contract, not_uuid_v4. rewrite Hv, Hrfc.
    destruct (Uuid_is_nil (ProjectViewObjectV3.id o)) eqn:Hnil; [|done].
    apply Uuid_nil_version in Hnil. congruence. }
  assert (Hpos : ∀ n field, (1 ≤ n ≤ MAX_SAFE_REVISION)%N → validate_positive_safe n field = Ok tt).
  { intros n field Hn. unfold validate_positive_safe.
    destruct (N.leb_spec 1 n), (N.leb_spec n MAX_SAFE_REVISION); simpl; try lia. done. }
  unfold ProjectViewObjectV3_role_definition. rewrite Hrole. cbn zeta.
  unfold RoleDefinitionV3_validate. cbn [RoleDefinitionV3.role_id RoleDefinitionV3.name
    RoleDefinitionV3.purpose RoleDefinitionV3.responsibilities RoleDefinitionV3.boundaries
    RoleDefinitionV3.summary RoleDefinitionV3.object_revision RoleDefinitionV3.project_revision
    RoleDefinitionV3.created_at RoleDefinitionV3.updated_at RoleDefinitionV3.context_references].
  rewrite Huuid, Hsum, !Hpos by done. unfold require_canonical_context. rewrite Hrs.
  rewrite (proj2 (Z.ltb_ge _ _)) by done.
  cbn [map_err rbind reject_if]. rewrite bool_decide_true by done. cbn [negb reject_if rbind].
  unfold is_Ok. split.
  - intros [d H]. apply seq_Ok in H as [H _]. rewrite !seq_Ok in H. naive_solver.
  - intros (H1 & H2 & H3 & H4). rewrite H1, H2, H3, H4. cbn [rbind]. eauto.
Qed.

(** The plan of one changed entry is its head. *)
Lemma plan_single outcome changed level :
  outcome.(changed_entries) = [changed] →
  ProjectionPlanV3_for_object_outcome outcome level =
  (let? head := head_of level changed in
   Ok {| plan_project_revision := outcome.(outcome_project_revision); heads := [head] |}).
Proof.
  intros Hc. unfold ProjectionPlanV3_for_object_outcome. rewrite Hc. cbn [collect_heads].
  rewrite bool_decide_false by set_solver. cbn [reject_if rbind].
  destruct (head_of level changed); reflexivity.
Qed.

(** A head is about its entry, and an active Role has a Role head. *)
Lemma head_of_spec level changed head :
  head_of level changed = Ok head →
  ProjectedHeadV3_object_id head = ProjectViewEntryV3_id changed
  ∧ ProjectedHeadV3_object_revision head = ProjectViewEntryV3_object_revision changed
  ∧ (ProjectedHeadV3_is_role_definition head = true
     ↔ ∃ o, changed = ProjectViewEntryV3.Active o
        ∧ ProjectViewObjectV3.object_type o = ProjectViewObjectType.Role)
  ∧ validate_heads ∅ [head] = Ok tt.
Proof.
  unfold head_of. destruct changed as [o|d].
  - case_bool_decide as Hr.
    + intros (l & _ & (role & Hd%map_err_Ok & [= <-])%rbind_Ok)%rbind_Ok.
      unfold ProjectViewObjectV3_role_definition in Hd.
      destruct (ProjectViewObjectV3.data o); try done.
      apply seq_Ok in Hd as [_ [= <-]]. simpl. rewrite bool_decide_false by set_solver. simpl.
      naive_solver.
    + intros [= <-]. simpl. rewrite bool_decide_false by set_solver. simpl.
      rewrite bool_decide_false by done. simpl. naive_solver.
  - intros [= <-]. simpl. rewrite bool_decide_false by set_solver. simpl. naive_solver.
Qed.

(** A row of a valid project has a head unless it is a Role with text that the
    Role contract refuses. *)
Lemma plan_head_Ok s time changed :
  view_ok s time → s.(entries) !! ProjectViewEntryV3_id changed = Some changed →
  is_Ok (head_of (role_level s) changed) ↔
  ∀ o role, changed = ProjectViewEntryV3.Active o →
    ProjectViewObjectV3.data o = ProjectViewObjectDataV3.Role role → role_publishable role.
Proof.
  intros Hs Hk. pose proof (view_ok_entries s time Hs _ _ Hk) as He.
  unfold head_of. destruct changed as [o|d]; [|split; [naive_solver|by eexists]].
  destruct He as [_ He]. pose proof He as [Ho _]. pose proof (object_ok_type o Ho) as Hty.
  destruct (decide (ProjectViewObjectV3.object_type o = ProjectViewObjectType.Role)) as [Hr|Hr];
    [rewrite (bool_decide_true _ Hr)|rewrite (bool_decide_false _ Hr)].
  - destruct (proj2 (view_ok_roles s time Hs (ProjectViewObjectV3.id o))) as [level Hl].
    { exists (ProjectViewEntryV3.Active o). done. }
    unfold role_level. rewrite Hl. cbn [ok_or rbind]. rewrite Hty in Hr.
    destruct (ProjectViewObjectV3.data o) as [| |role| | | | | |] eqn:Hdata; try done.
    assert (Hd : is_Ok (ProjectViewObjectV3_role_definition o level) ↔ role_publishable role)
      by (eapply role_definition_Ok; [split; [done|exact He]|done]).
    split.
    + intros [h (d & Hd'%map_err_Ok & _)%rbind_Ok] o' role' [= <-] Hrole.
      rewrite Hdata in Hrole. injection Hrole as <-. apply Hd. by eexists.
    + intros H. destruct (proj2 Hd (H o role eq_refl Hdata)) as [d ->]. by eexists.
  - split; [|by eexists]. intros _ o' role [= <-] Hd. destruct Hr. by rewrite Hty, Hd.
Qed.

End publish.

(** * Project View schema 3: loading a snapshot

    [from_snapshot] rebuilds a state from its rows, in whatever order the rows
    are read, and accepts nothing else. *)


Section snapshot.
Context `{P : Platform}.

(** A keyed list is the content of a map. *)
Lemma list_to_map_iff {V} (rows : list (Uuid * V)) (m : gmap Uuid V) :
  NoDup rows.*1 ∧ m = list_to_map rows ↔ Permutation rows (map_to_list m).
Proof.
  split.
  - intros [Hd ->]. by rewrite map_to_list_to_map.
  - intros Hp. assert (NoDup rows.*1) by (rewrite Hp; apply NoDup_fst_map_to_list).
    split; [done|]. rewrite <- (list_to_map_to_list m). symmetry. by apply list_to_map_proper.
Qed.

(** Both loops of [from_snapshot]: collect rows, refusing a key twice. *)
Fixpoint collect {V E} (duplicate : Uuid → E) (acc : gmap Uuid V) (rows : list (Uuid * V))
    : result (gmap Uuid V) E :=
  match rows with
  | [] => Ok acc
  | (k, v) :: rest =>
      reject_if (opt_is_some (acc !! k)) (duplicate k) ?;
      collect duplicate (<[k := v]> acc) rest
  end.

Lemma collect_acc_Ok {V E} (duplicate : Uuid → E) (acc : gmap Uuid V) rows out :
  collect duplicate acc rows = Ok out ↔
  NoDup rows.*1 ∧ (∀ k, k ∈ rows.*1 → acc !! k = None) ∧ out = list_to_map rows ∪ acc.
Proof.
  revert acc. induction rows as [|[k v] rows IH]; intros acc; cbn [collect].
  { rewrite list_to_map_nil, (left_id_L ∅ (∪)). split; [|naive_solver].
    intros [= <-]. split_and!; [constructor|set_solver|done]. }
  rewrite seq_Ok, reject_if_Ok, IH, list_to_map_cons. csimpl. rewrite NoDup_cons.
  assert (Hout : k ∉ rows.*1 →
    list_to_map rows ∪ <[k:=v]> acc = <[k:=v]> (list_to_map rows : gmap Uuid V) ∪ acc).
  { intros Hk%(not_elem_of_list_to_map_1 (M:=gmap Uuid)).
    by rewrite <- insert_union_r, insert_union_l. }
  split.
  - intros (Hk & Hd & Hacc & ->). destruct (acc !! k) eqn:Hak; [done|].
    assert (k ∉ rows.*1) as Hkr.
    { intros Hin. specialize (Hacc k Hin). by rewrite lookup_insert_eq in Hacc. }
    split_and!; [done|done| |by apply Hout].
    intros j [->|Hj]%elem_of_cons; [done|]. specialize (Hacc j Hj).
    rewrite lookup_insert_ne in Hacc; [done|]. by intros ->.
  - intros ([Hkr Hd] & Hacc & ->). rewrite (Hacc k) by set_solver. split_and!; [done|done| |].
    + intros j Hj. rewrite lookup_insert_ne by set_solver. apply Hacc. set_solver.
    + by rewrite Hout.
Qed.

Lemma collect_Ok {V E} (duplicate : Uuid → E) (rows : list (Uuid * V)) out :
  collect duplicate ∅ rows = Ok out ↔ Permutation rows (btree_iter out).
Proof.
  rewrite collect_acc_Ok, btree_iter_perm, <- list_to_map_iff, (right_id_L ∅ (∪)).
  setoid_rewrite lookup_empty. naive_solver.
Qed.

Lemma collect_levels_eq acc rows :
  collect_levels acc rows =
  collect (λ role_id, V3ProjectObjectError.InvalidRoleLevels
             (lit "duplicate Role level for " ++ Uuid_display role_id)) acc rows.
Proof.
  revert acc. induction rows as [|[k v] rows IH]; intros acc; simpl; [done|]. by rewrite IH.
Qed.

(** Entries are keyed by their own id. *)
Definition keyed (e : ProjectViewEntryV3) : Uuid * ProjectViewEntryV3 :=
  (ProjectViewEntryV3_id e, e).

Lemma collect_entries_eq acc rows :
  collect_entries acc rows =
  collect (λ id, V3ProjectObjectError.Object (DomainError.ObjectIdAlreadyUsed id)) acc
    (keyed <$> rows).
Proof. revert acc. induction rows as [|e rows IH]; intros acc; simpl; [done|]. by rewrite IH. Qed.

(** In a map whose keys are the ids, the rows are the keyed values. *)
Lemma keyed_values m :
  (∀ k e, m !! k = Some e → k = ProjectViewEntryV3_id e) →
  keyed <$> btree_values m = btree_iter m.
Proof.
  intros Hm. unfold btree_values. rewrite <- list_fmap_compose.
  rewrite <- (list_fmap_id (btree_iter m)) at 2. apply list_fmap_ext. intros i [k e] Hi. simpl.
  apply list_elem_of_lookup_2 in Hi. rewrite btree_iter_perm, elem_of_map_to_list in Hi.
  unfold keyed. by rewrite <- (Hm k e Hi).
Qed.

Lemma valid_keys s k e :
  validate_state s = Ok tt → s.(entries) !! k = Some e → k = ProjectViewEntryV3_id e.
Proof.
  intros [Hs|[time Hs]]%validate_state_Ok.
  - rewrite Hs. simpl. by rewrite lookup_empty.
  - intros Hk. apply (view_ok_entries s time Hs k e Hk).
Qed.

Lemma from_snapshot_Ok project revision initialized updated rows levels s :
  ProjectViewStateV3_from_snapshot project revision initialized updated rows levels = Ok s ↔
  validate_state s = Ok tt
  ∧ s.(project_id) = project ∧ s.(project_revision) = revision
  ∧ s.(initialized_at) = initialized ∧ s.(updated_at) = updated
  ∧ Permutation rows (btree_values s.(entries))
  ∧ Permutation levels (btree_iter s.(role_levels)).
Proof.
  unfold ProjectViewStateV3_from_snapshot. rewrite collect_entries_eq, collect_levels_eq. split.
  - intros (m & Hm%collect_Ok & H)%rbind_Ok.
    apply rbind_Ok in H as (l & Hl%collect_Ok & H). cbn zeta in H.
    apply seq_Ok in H as [Hv [= <-]]. split_and!; try done. simpl.
    assert (Hrows : Permutation (keyed <$> rows) (keyed <$> btree_values m)).
    { rewrite keyed_values; [done|]. intros k e. apply (valid_keys _ _ _ Hv). }
    apply (fmap_Permutation snd) in Hrows. rewrite <- !list_fmap_compose in Hrows.
    unfold compose in Hrows. simpl in Hrows. by rewrite !list_fmap_id in Hrows.
  - intros (Hv & <- & <- & <- & <- & Hrows & Hl).
    assert (Hm : Permutation (keyed <$> rows) (btree_iter (entries s))).
    { rewrite Hrows, keyed_values; [done|]. intros k e. by apply valid_keys. }
    apply rbind_Ok. exists (entries s). split; [by apply collect_Ok|].
    apply rbind_Ok. exists (role_levels s). split; [by apply collect_Ok|].
    destruct s. simpl in *. by rewrite Hv.
Qed.

End snapshot.

(** * Project View schema 3: when a deletion is accepted *)


Section progress.
Context `{P : Platform} `{HU : !UuidLaws}.

(** Nothing in the project needs the object. *)
Record deletable (s : ProjectViewStateV3) (cur : ProjectViewObjectV3) : Prop := {
  deletable_profile : ProjectViewObjectV3.object_type cur ≠ ProjectViewObjectType.ProjectProfile;
  deletable_goal : ProjectViewObjectV3.object_type cur = ProjectViewObjectType.Goal →
    ∃ j, j ≠ ProjectViewObjectV3.id cur ∧ active_of s.(entries) j ProjectViewObjectType.Goal;
  deletable_relations : ∀ j o, s.(entries) !! j = Some (ProjectViewEntryV3.Active o) →
    ¬ refers o (ProjectViewObjectV3.id cur);
  deletable_context : ProjectViewObjectV3.object_type cur = ProjectViewObjectType.Resource →
    ∀ j o, s.(entries) !! j = Some (ProjectViewEntryV3.Active o) →
      ProjectContextReference.Resource (ProjectViewObjectV3.id cur)
        ∉ ProjectViewObjectV3.context_references o;
}.

(** The last-goal guard: a Goal is not the only one exactly when there is another. *)
Lemma goal_count_other s k o :
  s.(entries) !! k = Some (ProjectViewEntryV3.Active o) →
  ProjectViewObjectV3.object_type o = ProjectViewObjectType.Goal →
  active_goal_count s ≠ 1%N ↔ ∃ j, j ≠ k ∧ active_of s.(entries) j ProjectViewObjectType.Goal.
Proof.
  intros Hk Ht. split; [intros Hn; by eapply active_goal_count_other|].
  intros (j & Hj & x & Hx & Hxt). rewrite active_goal_count_size.
  set (m := filter (λ row, is_goal row.2) s.(entries)).
  assert (Hm : m !! k = Some (ProjectViewEntryV3.Active o)) by (by apply map_lookup_filter_Some).
  assert (Hmj : m !! j = Some (ProjectViewEntryV3.Active x)) by (by apply map_lookup_filter_Some).
  pose proof (map_size_delete k m) as Hs. rewrite Hm in Hs.
  assert (size (delete k m) ≠ 0).
  { apply map_size_ne_0_lookup. exists j. rewrite lookup_delete_ne by done. eauto. }
  lia.
Qed.

Lemma prepare_delete_Ok s time delete prepared delta :
  view_ok s time →
  prepare_delete s delete = Ok (prepared, delta) ↔
  ∃ cur, s.(entries) !! delete.(delete_object_id) = Some (ProjectViewEntryV3.Active cur)
    ∧ ProjectViewObjectV3.object_type cur = delete.(delete_object_type)
    ∧ deletable s cur
    ∧ prepared = PreparedEntryV3.Delete cur ∧ delta = DocumentTargetDelta_default.
Proof.
  intros Hs. unfold prepare_delete. rewrite rbind_Ok. apply exist_proper. intros cur.
  rewrite map_err_Ok, active_object_Ok.
  assert (Hguard : s.(entries) !! delete.(delete_object_id) = Some (ProjectViewEntryV3.Active cur) →
    bool_decide (ProjectViewObjectV3.object_type cur = ProjectViewObjectType.Goal)
      && (active_goal_count s =? 1)%N = false
    ↔ (ProjectViewObjectV3.object_type cur = ProjectViewObjectType.Goal →
       ∃ j, j ≠ ProjectViewObjectV3.id cur ∧ active_of s.(entries) j ProjectViewObjectType.Goal)).
  { intros Hk. destruct (view_ok_entries s time Hs _ _ Hk) as [Hid _]. simpl in Hid.
    rewrite andb_false_iff, bool_decide_eq_false, N.eqb_neq, <- Hid.
    destruct (decide (ProjectViewObjectV3.object_type cur = ProjectViewObjectType.Goal)) as [Hg|];
      [|naive_solver].
    rewrite (goal_count_other s _ _ Hk Hg). naive_solver. }
  split.
  - intros [Hk H]. split; [done|]. cbn zeta in H. apply seq_Ok in H as [Ht%reject_if_Ok H].
    apply seq_Ok in H as [Hp%reject_if_Ok H]. apply seq_Ok in H as [Hg%reject_if_Ok H].
    apply seq_Ok in H as [Hrel H]. apply seq_Ok in H as [Hctx [= <- <-]]. bool_props.
    split_and!; [done| |done..]. constructor; [done|by apply Hguard| |].
    + apply first_incoming_None. by destruct (first_incoming_structural_relation _ _).
    + intros Hr. apply first_resource_None. rewrite bool_decide_true in Hctx by done.
      by destruct (first_incoming_resource_context _ _).
  - intros (Hk & Ht & [Hp Hg Hrel%first_incoming_None Hctx] & -> & ->). split; [done|]. cbn zeta.
    rewrite (bool_decide_true _ Ht). cbn [negb reject_if rbind].
    rewrite (bool_decide_false _ Hp). cbn [reject_if rbind].
    rewrite (proj2 (Hguard Hk) Hg). cbn [reject_if rbind]. rewrite Hrel. cbn [if_some rbind].
    clear Hguard. case_bool_decide as Hr; [|done].
    specialize (Hctx Hr). apply first_resource_None in Hctx. by rewrite Hctx.
Qed.

(** A deletion is accepted exactly when the object is active, of the declared
    type and not needed. *)
Lemma reduce_delete_Ok s time command delete actor now caps proof :
  view_ok s time → (time ≤ now)%Z →
  ProjectObjectCommandV3_validate_for_submission command = Ok tt →
  command.(request) = ProjectObjectRequestV3.Delete delete →
  command.(expected_project_revision) = s.(project_revision) →
  (s.(project_revision) < MAX_SAFE_REVISION)%N →
  is_Ok (reduce s command actor now caps proof) ↔
  ∃ cur, s.(entries) !! delete.(delete_object_id) = Some (ProjectViewEntryV3.Active cur)
    ∧ ProjectViewObjectV3.object_type cur = delete.(delete_object_type)
    ∧ (ProjectViewObjectV3.object_revision cur < MAX_SAFE_REVISION)%N
    ∧ deletable s cur.
Proof.
  intros Hs Ht Hv Hrq Hrev Hroom. rewrite (reduce_unchecked_eq s time) by done. unfold is_Ok. split.
  - intros [[next outcome] (prepared & delta & changed & levels & Ha & _)%reduce_unchecked_Ok].
    destruct Ha as [_ _ Hp _ _ Hc]. unfold prepare_next_entry in Hp. rewrite Hrq in Hp.
    apply (prepare_delete_Ok s time) in Hp as (cur & Hk & Hty & Hd & -> & ->); [|done].
    cbn [commit_prepared] in Hc. apply rbind_Ok in Hc as (n & [_ Hn]%map_err_Ok%view_next_revision_Ok & _).
    exists cur. done.
  - intros (cur & Hk & Hty & Hn & Hd).
    assert (Hc : next_revision (ProjectViewObjectV3.object_revision cur)
      = Ok (ProjectViewObjectV3.object_revision cur + 1)%N) by (by apply view_next_revision_Ok).
    eexists (_, _). apply reduce_unchecked_Ok.
    exists (PreparedEntryV3.Delete cur), DocumentTargetDelta_default. do 2 eexists.
    split; [|split; reflexivity]. constructor; [done|done| |done|done|].
    + unfold prepare_next_entry. rewrite Hrq. apply (prepare_delete_Ok s time); [done|]. by exists cur.
    + cbn [commit_prepared]. rewrite Hc. reflexivity.
Qed.

End progress.
