(* ===== verification/Reference.v ===== *)
(** * A concrete platform

    Instances of the third-party interface: UUIDs as sixteen bytes with their
    hyphenated rendering, lowercase hexadecimal, and a digest, which is SHA-256
    in [sha_platform] and a cheap one in [reference_platform], where the sample
    runs are evaluated.  The laws of [Platform] hold of them, so every theorem
    that assumes the laws can be applied. *)

From S2P Require Import Prelude Text Platform.
From stdpp Require Import prelude countable list strings.

(** ** Byte strings of a fixed length *)

Definition bytes_ok (n : nat) (l : list N) : bool :=
  bool_decide (length l = n) && forallb (λ b, b <? 256)%N l.

Record Bytes (n : nat) : Type := mkBytes {
  bytes : list N;
  bytes_wf : bytes_ok n bytes = true;
}.
Arguments mkBytes {n} bytes bytes_wf.
Arguments bytes {n} b.

Lemma Bytes_inj n (a b : Bytes n) : bytes a = bytes b → a = b.
Proof.
  destruct a as [a Ha], b as [b Hb]. simpl. intros ->. f_equal.
  apply (Eqdep_dec.UIP_dec Bool.bool_dec).
Qed.

#[global] Instance Bytes_eq_dec n : EqDecision (Bytes n).
Proof.
  intros a b. destruct (decide (bytes a = bytes b)) as [H|H].
  - left. by apply Bytes_inj.
  - right. by intros ->.
Defined.

Definition Bytes_of (n : nat) (l : list N) : option (Bytes n) :=
  match Bool.bool_dec (bytes_ok n l) true with
  | left H => Some (mkBytes l H)
  | right _ => None
  end.

#[global] Instance Bytes_countable n : Countable (Bytes n).
Proof.
  apply (inj_countable bytes (Bytes_of n)). intros [l Hl]. unfold Bytes_of. simpl.
  destruct (Bool.bool_dec (bytes_ok n l) true); [|done]. f_equal. by apply Bytes_inj.
Defined.

Lemma bytes_length n (b : Bytes n) : length (bytes b) = n.
Proof.
  destruct b as [l Hl]. simpl. unfold bytes_ok in Hl. by bool_props.
Qed.

Lemma bytes_small n (b : Bytes n) : Forall (λ x, x < 256)%N (bytes b).
Proof.
  destruct b as [l Hl]. simpl. unfold bytes_ok in Hl. bool_props.
  apply Forall_forall. intros x Hx. apply list_elem_of_In in Hx.
  rewrite forallb_forall in H0. apply N.ltb_lt. auto.
Qed.

(** ** Hexadecimal *)

Definition hex_digit (d : N) : N := (if d <? 10 then 48 + d else 87 + d)%N.

Definition hex_value (c : N) : option N :=
  if ((48 <=? c) && (c <=? 57))%N then Some (c - 48)%N
  else if ((97 <=? c) && (c <=? 102))%N then Some (c - 87)%N
  else if ((65 <=? c) && (c <=? 70))%N then Some (c - 55)%N
  else None.

Fixpoint ref_hex_encode (b : list N) : Text :=
  match b with
  | [] => []
  | x :: b' => hex_digit (x / 16 mod 16) :: hex_digit (x mod 16) :: ref_hex_encode b'
  end.

Fixpoint ref_hex_decode (s : Text) : result (list N) Text :=
  match s with
  | [] => Ok []
  | [_] => Err (lit "Odd number of digits")
  | c :: d :: s' =>
      match hex_value c, hex_value d with
      | Some x, Some y => let? b := ref_hex_decode s' in Ok ((16 * x + y)%N :: b)
      | _, _ => Err (lit "Invalid character")
      end
  end.

(** ** UUIDs *)

Definition ref_uuid_display (u : Bytes 16) : Text :=
  let part i n := ref_hex_encode (take n (drop i (bytes u))) in
  part 0 4 ++ lit "-" ++ part 4 2 ++ lit "-" ++ part 6 2 ++ lit "-" ++ part 8 2 ++ lit "-"
  ++ part 10 6.

Definition ref_uuid_version (u : Bytes 16) : N := (nth 6 (bytes u) 0 / 16)%N.

Definition ref_uuid_rfc4122 (u : Bytes 16) : bool := (nth 8 (bytes u) 0 / 64 =? 2)%N.

Definition ref_uuid_nil : Bytes 16 := @mkBytes 16 (replicate 16 0%N) eq_refl.

Definition ref_uuid_from_bytes (b : list N) : Bytes 16 := default ref_uuid_nil (Bytes_of 16 b).

(** ** URLs

    A parser of [scheme:rest] that reports what stands before an at sign as the
    user name. *)

Fixpoint split_at_char (c : N) (s : Text) : option (Text * Text) :=
  match s with
  | [] => None
  | d :: s' =>
      if (c =? d)%N then Some ([], s')
      else (λ p, (d :: p.1, p.2)) <$> split_at_char c s'
  end.

Definition ref_url_parse (s : Text) : result (Text * option Text) Text :=
  match split_at_char 58%N s with
  | Some (_ :: _, rest) => Ok (default [] (fst <$> split_at_char 64%N rest), None)
  | _ => Err (lit "relative URL without a base")
  end.

(** ** SHA-256 *)

Definition w32 (n : N) : N := (n mod 4294967296)%N.
Definition rotr (x n : N) : N := N.lor (N.shiftr x n) (w32 (N.shiftl x (32 - n))).

(** The words of a number, most significant first. *)
Fixpoint words_of (count : nat) (n : N) (acc : list N) : list N :=
  match count with
  | O => acc
  | S count' => words_of count' (N.shiftr n 32) (w32 n :: acc)
  end.

(** The round constants and the initial state, each packed into one number. *)
Definition sha_k : list N := words_of 64
  8399870144517823301722239222130927227141849779511242471197906795369846673996008864786532278482947930035050432913372875699354429524650716672308175015812472005008943341011247634627600705591103756174659437448007297240981034636327441933849465611186184660803773840414514428031635770391245199770927811112653141372483794982516161135727373084047811483050876080270389320947077305721183235613169389468744126235534648516788175255292025668825020963291224099932572215580391753777671218957634024159536228058522778003881673030597872562207069818177476920296259993961459554031943090626293016819766823808480230688357231269177224952050%N [].

Definition sha_init : list N := words_of 8
  47962653771679561900652889051773562940742041696833059450490514104358170316057%N [].

Fixpoint be_words (l : list N) : list N :=
  match l with
  | a :: b :: c :: d :: l' => (((a * 256 + b) * 256 + c) * 256 + d)%N :: be_words l'
  | _ => []
  end.

Definition be_bytes4 (w : N) : list N :=
  [w / 16777216 mod 256; w / 65536 mod 256; w / 256 mod 256; w mod 256]%N.

Definition sha_pad (m : list N) : list N :=
  let n := length m in
  let z := (119 - n mod 64) mod 64 in
  m ++ [128%N] ++ repeat 0%N z
  ++ repeat 0%N 4 ++ be_bytes4 (8 * N.of_nat n).

(** The message schedule, most recent word first. *)
Fixpoint sha_extend (fuel : nat) (w : list N) : list N :=
  match fuel with
  | O => w
  | S fuel' =>
      let x15 := nth 14 w 0%N in
      let x2 := nth 1 w 0%N in
      let s0 := N.lxor (N.lxor (rotr x15 7) (rotr x15 18)) (N.shiftr x15 3) in
      let s1 := N.lxor (N.lxor (rotr x2 17) (rotr x2 19)) (N.shiftr x2 10) in
      sha_extend fuel' (w32 (nth 15 w 0 + s0 + nth 6 w 0 + s1)%N :: w)
  end.

Definition sha_round (st : list N) (kw : N * N) : list N :=
  match st with
  | [a; b; c; d; e; f; g; h] =>
      let S1 := N.lxor (N.lxor (rotr e 6) (rotr e 11)) (rotr e 25) in
      let ch := N.lxor (N.land e f) (N.land (N.lxor e 0xffffffff) g) in
      let t1 := w32 (h + S1 + ch + kw.1 + kw.2)%N in
      let S0 := N.lxor (N.lxor (rotr a 2) (rotr a 13)) (rotr a 22) in
      let maj := N.lxor (N.lxor (N.land a b) (N.land a c)) (N.land b c) in
      let t2 := w32 (S0 + maj)%N in
      [w32 (t1 + t2)%N; a; b; c; w32 (d + t1)%N; e; f; g]
  | _ => st
  end.

Definition sha_block (st : list N) (block : list N) : list N :=
  let w := reverse (sha_extend 48 (reverse (be_words block))) in
  zip_with (λ x y, w32 (x + y)%N) st (foldl sha_round st (zip sha_k w)).

Fixpoint sha_blocks (fuel : nat) (st : list N) (m : list N) : list N :=
  match fuel with
  | O => st
  | S fuel' => sha_blocks fuel' (sha_block st (take 64 m)) (drop 64 m)
  end.

(** The digest, cut to thirty-two bytes. *)
Definition ref_sha256 (m : list N) : list N :=
  let padded := sha_pad m in
  let digest := sha_blocks (length padded / 64) sha_init padded in
  resize 32 0%N (concat (be_bytes4 <$> digest)).

Example sha256_abc :
  ref_hex_encode (ref_sha256 (lit "abc"))
  = lit "ba7816bf8f01cfea414140de5dae2223b00361a396177a9cb410ff61f20015ad".
Proof. vm_compute. reflexivity. Qed.

(** ** The instance *)

(** A platform for each digest function. *)
Definition platform_of (digest : list N → list N) : Platform := {|
  Uuid := Bytes 16;
  Uuid_as_bytes := bytes;
  Uuid_from_bytes := ref_uuid_from_bytes;
  Uuid_is_nil := λ u, forallb (λ b, b =? 0)%N (bytes u);
  Uuid_get_version_num := ref_uuid_version;
  Uuid_variant_is_rfc4122 := ref_uuid_rfc4122;
  Uuid_display := ref_uuid_display;
  PublicKey := N;
  EventId := N;
  EventId_to_bytes := λ e, replicate 28 0%N ++ be_bytes4 e;
  sha256 := digest;
  hex_encode := ref_hex_encode;
  hex_decode := ref_hex_decode;
  Url_parse := ref_url_parse;
|}.

(** The platform with the real digest. *)
Definition sha_platform : Platform := platform_of ref_sha256.

(** A digest that is cheap to evaluate: Fletcher's two running sums, in the
    first six bytes. *)
Fixpoint digest_bytes (k : nat) (h : N) : list N :=
  match k with
  | O => []
  | S k => (h mod 256)%N :: digest_bytes k (h / 256)
  end.

Fixpoint fletcher (a b : N) (m : list N) : list N :=
  match m with
  | [] => digest_bytes 2 a ++ digest_bytes 4 b
  | x :: m => fletcher (a + x) (b + a + x) m
  end.

Definition cheap_digest (m : list N) : list N := fletcher 1 0 m ++ replicate 26 0%N.

Lemma length_digest_bytes k h : length (digest_bytes k h) = k.
Proof. revert h. induction k as [|k IH]; intros h; simpl; [done|]. by rewrite IH. Qed.

Lemma digest_bytes_small k h : Forall (λ x, x < 256)%N (digest_bytes k h).
Proof.
  revert h. induction k as [|k IH]; intros h; constructor; [by apply N.mod_lt|apply IH].
Qed.

Lemma length_cheap_digest m : length (cheap_digest m) = 32.
Proof.
  unfold cheap_digest. rewrite length_app, length_replicate.
  enough (∀ a b, length (fletcher a b m) = 6) as H by by rewrite H.
  induction m as [|x m IH]; intros a b; cbn [fletcher]; [|apply IH].
  by rewrite length_app, !length_digest_bytes.
Qed.

Lemma cheap_digest_small m : Forall (λ x, x < 256)%N (cheap_digest m).
Proof.
  unfold cheap_digest. apply Forall_app. split; [|by apply Forall_replicate].
  generalize 1%N, 0%N. induction m as [|x m IH]; intros a b; cbn [fletcher]; [|apply IH].
  apply Forall_app. split; apply digest_bytes_small.
Qed.

(** The platform of the sample runs. *)
#[global] Instance reference_platform : Platform := platform_of cheap_digest.

(** ** The laws hold *)

Lemma hex_digit_lower d : (d < 16)%N → is_lower_hex (hex_digit d) = true.
Proof.
  unfold hex_digit, is_lower_hex. intros Hd.
  destruct (N.ltb_spec d 10); apply orb_true_iff; rewrite !andb_true_iff, !N.leb_le; lia.
Qed.

Lemma hex_value_digit d : (d < 16)%N → hex_value (hex_digit d) = Some d.
Proof.
  unfold hex_digit, hex_value. intros Hd. destruct (N.ltb_spec d 10).
  - rewrite (proj2 (N.leb_le _ _)), (proj2 (N.leb_le _ _)) by lia. simpl. f_equal. lia.
  - rewrite (proj2 (N.leb_gt (87 + d) 57)), andb_false_r by lia.
    rewrite (proj2 (N.leb_le _ _)), (proj2 (N.leb_le _ _)) by lia. simpl. f_equal. lia.
Qed.

Lemma hex_digit_value c d :
  is_lower_hex c = true → hex_value c = Some d → hex_digit d = c ∧ (d < 16)%N.
Proof.
  unfold is_lower_hex, hex_value, hex_digit.
  destruct (N.leb_spec 48 c), (N.leb_spec c 57), (N.leb_spec 97 c), (N.leb_spec c 102);
    simpl; try done; intros _ [= <-].
  all: match goal with |- context [(?a <? 10)%N] => destruct (N.ltb_spec a 10) end; lia.
Qed.

Lemma ref_hex_length b : length (ref_hex_encode b) = 2 * length b.
Proof. induction b as [|x b IH]; simpl; [done|]. rewrite IH. lia. Qed.

Lemma mod16_lt x : (x mod 16 < 16)%N.
Proof. by apply N.mod_lt. Qed.

Lemma ref_hex_lower b : Forall (λ c, is_lower_hex c = true) (ref_hex_encode b).
Proof.
  induction b as [|x b IH]; simpl; repeat constructor; auto using hex_digit_lower, mod16_lt.
Qed.

Lemma ref_decode_encode b :
  Forall (λ x, x < 256)%N b → ref_hex_decode (ref_hex_encode b) = Ok b.
Proof.
  induction 1 as [|x b Hx _ IH]; [done|]. cbn [ref_hex_encode ref_hex_decode].
  rewrite !hex_value_digit by apply mod16_lt. rewrite IH. simpl. do 2 f_equal.
  assert (x / 16 < 16)%N by (apply N.Div0.div_lt_upper_bound; lia).
  rewrite (N.mod_small (x / 16)) by done. pose proof (N.div_mod x 16). lia.
Qed.

Lemma ref_encode_decode s b :
  Forall (λ c, is_lower_hex c = true) s → ref_hex_decode s = Ok b → ref_hex_encode b = s.
Proof.
  revert b. induction s as [s IH] using (induction_ltof1 _ length). unfold ltof in IH.
  intros b Hs. destruct s as [|c [|d s]]; cbn [ref_hex_decode]; [by intros [= <-]|done|].
  apply Forall_cons in Hs as [Hc Hs]. apply Forall_cons in Hs as [Hd Hs].
  destruct (hex_value c) as [x|] eqn:Hx; [|done]. destruct (hex_value d) as [y|] eqn:Hy; [|done].
  intros (b' & Hb & [= <-])%rbind_Ok. cbn [ref_hex_encode].
  destruct (hex_digit_value _ _ Hc Hx) as [<- ?]. destruct (hex_digit_value _ _ Hd Hy) as [<- ?].
  assert (Hq : ((16 * x + y) / 16 = x)%N).
  { rewrite (N.mul_comm 16), N.div_add_l by done. rewrite N.div_small by done. lia. }
  assert (Hr : ((16 * x + y) mod 16 = y)%N).
  { rewrite N.add_comm, N.mul_comm, N.Div0.mod_add. by apply N.mod_small. }
  rewrite Hq, Hr, (N.mod_small x) by done. do 2 f_equal. apply IH; [simpl; lia|done..].
Qed.

Lemma ref_hex_inj a b :
  Forall (λ x, x < 256)%N a → Forall (λ x, x < 256)%N b →
  ref_hex_encode a = ref_hex_encode b → a = b.
Proof.
  intros Ha Hb He. apply ref_decode_encode in Ha, Hb. rewrite He, Hb in Ha. by injection Ha.
Qed.

#[global] Instance reference_hex : HexLaws.
Proof.
  split; [apply ref_hex_length|apply ref_hex_lower|apply ref_decode_encode|apply ref_encode_decode].
Qed.

Lemma ref_display_inj (u v : Bytes 16) : ref_uuid_display u = ref_uuid_display v → u = v.
Proof.
  intros H. apply Bytes_inj. unfold ref_uuid_display in H.
  pose proof (bytes_length _ u) as Lu. pose proof (bytes_length _ v) as Lv.
  pose proof (bytes_small _ u) as Su. pose proof (bytes_small _ v) as Sv.
  assert (Hpart : ∀ i n (x y : Text), i + n ≤ 16 →
    ref_hex_encode (take n (drop i (bytes u))) ++ x
    = ref_hex_encode (take n (drop i (bytes v))) ++ y →
    take n (drop i (bytes u)) = take n (drop i (bytes v)) ∧ x = y).
  { intros i n x y Hin Heq. apply app_inj_1 in Heq as [He ->].
    - split; [|done]. apply ref_hex_inj; [by apply Forall_take, Forall_drop..|done].
    - rewrite !ref_hex_length, !length_take, !length_drop. lia. }
  apply Hpart in H as [H1 H]; [|lia]. apply app_inv_head in H.
  apply Hpart in H as [H2 H]; [|lia]. apply app_inv_head in H.
  apply Hpart in H as [H3 H]; [|lia]. apply app_inv_head in H.
  apply Hpart in H as [H4 H]; [|lia]. apply app_inv_head in H.
  rewrite <- (app_nil_r (ref_hex_encode (take 6 (drop 10 (bytes u))))) in H.
  rewrite <- (app_nil_r (ref_hex_encode (take 6 (drop 10 (bytes v))))) in H.
  apply Hpart in H as [H5 _]; [|lia].
  assert (Hsplit : ∀ w : Bytes 16, bytes w = take 4 (drop 0 (bytes w)) ++ take 2 (drop 4 (bytes w))
    ++ take 2 (drop 6 (bytes w)) ++ take 2 (drop 8 (bytes w)) ++ take 6 (drop 10 (bytes w))).
  { intros w. pose proof (bytes_length _ w) as Lw. revert Lw. generalize (bytes w). intros l Hl.
    do 16 (destruct l as [|? l]; [done|]). by destruct l. }
  rewrite (Hsplit u), (Hsplit v). congruence.
Qed.

Lemma ref_display_length u : length (ref_uuid_display u) = 36.
Proof.
  unfold ref_uuid_display. rewrite !length_app, !ref_hex_length, !length_take, !length_drop.
  rewrite bytes_length. done.
Qed.

Lemma ref_nil_version (u : Bytes 16) :
  forallb (λ b, b =? 0)%N (bytes u) = true → ref_uuid_version u = 0%N.
Proof.
  unfold ref_uuid_version. rewrite forallb_forall. intros H.
  destruct (nth_in_or_default 6 (bytes u) 0%N) as [Hin| ->]; [|done].
  apply H, N.eqb_eq in Hin as ->. done.
Qed.

Lemma ref_from_bytes b :
  length b = 16 → Forall (λ x, x < 256)%N b → bytes (ref_uuid_from_bytes b) = b.
Proof.
  intros Hl Hb. unfold ref_uuid_from_bytes, Bytes_of.
  destruct (Bool.bool_dec (bytes_ok 16 b) true) as [|H]; [done|]. destruct H. unfold bytes_ok.
  rewrite bool_decide_true by done. apply forallb_forall. intros x Hx. apply N.ltb_lt.
  rewrite Forall_forall in Hb. apply Hb. by apply list_elem_of_In.
Qed.

#[global] Instance reference_uuid : UuidLaws.
Proof.
  split; [apply (bytes_length 16)|apply (Bytes_inj 16)|apply ref_display_length|apply ref_display_inj
    |apply ref_nil_version|apply ref_from_bytes|apply (bytes_small 16)].
Qed.

#[global] Instance reference_sha : Sha256Laws.
Proof. split; intros m; [apply length_cheap_digest|apply cheap_digest_small]. Qed.

Lemma be_bytes4_small w : Forall (λ x, x < 256)%N (be_bytes4 w).
Proof. repeat constructor; by apply N.mod_lt. Qed.

Lemma sha_platform_laws : @Sha256Laws sha_platform.
Proof.
  split; intros m; simpl; unfold ref_sha256.
  - apply length_resize.
  - apply Forall_resize; [done|]. apply Forall_concat, Forall_fmap.
    apply Forall_true. apply be_bytes4_small.
Qed.

(** ** Sample values *)

Lemma ref_uuid_wf seed : bytes_ok 16
  [0; 0; 0; 0; 0; 0; 64; 0; 128; 0; 0; 0; 0; 0; 0; seed mod 256]%N = true.
Proof.
  unfold bytes_ok. rewrite bool_decide_true by done. simpl.
  assert ((seed mod 256 <? 256)%N = true) as -> by (apply N.ltb_lt, N.mod_lt; done). done.
Qed.

(** The v4 UUID with the given last byte. *)
Definition ref_uuid (seed : N) : Bytes 16 :=
  mkBytes [0; 0; 0; 0; 0; 0; 64; 0; 128; 0; 0; 0; 0; 0; 0; seed mod 256]%N (ref_uuid_wf seed).
