(* ===== verification/DocumentHistory.v ===== *)
(** * Project Documents: stores across submissions

    Lemmas that relate a store to the stores reached from it: rows only move
    forward, history only grows, receipts persist, and the reducer never
    reports an inconsistent canonical state. *)

From S2P Require Import Prelude Text Platform DocumentModel.
From S2P Require Import DocumentProjection DocumentReducer DocumentFacts.
From S2P Require Import DocumentSpec DocumentStore.
From stdpp Require Import prelude strings gmap fin_maps relations.

Section history.
Context `{P : Platform}.

(** How one row may change over any number of submissions. *)
Record row_after (c c' : CurrentDocument) : Prop := {
  after_created : c'.(document).(created) = c.(document).(created);
  after_id : c'.(document).(document_id) = c.(document).(document_id);
  after_rev : (rev_of c ≤ rev_of c')%N;
  after_deleted : c.(document).(state) = DocumentState.Deleted → c' = c;
  after_same : rev_of c' = rev_of c → c' = c;
}.

#[global] Instance row_after_preorder : PreOrder row_after.
Proof.
  split; [by intros c|].
  intros a b c [Hc1 Hi1 Hr1 Hd1 Hs1] [Hc2 Hi2 Hr2 Hd2 Hs2]. split.
  - congruence.
  - congruence.
  - lia.
  - intros Hd. specialize (Hd1 Hd) as ->. by apply Hd2.
  - intros Hr. assert (b = a) as -> by (apply Hs1; lia). by apply Hs2.
Qed.

Lemma row_step_after id o c : row_step id (Some o) c → o.(document).(document_id) = id → row_after o c.
Proof.
  intros [_ Hid Hrev Hcr Hact _] Ho. simpl in *. split; try congruence; try lia.
  intros Hd. specialize (Hact o eq_refl). unfold is_active in Hact. bool_props. congruence.
Qed.

(** A store precedes another when every row, revision and receipt of it is
    still there. *)
Record store_after (s s' : DocStore) : Prop := {
  after_rows : ∀ id c, s.(store_documents) !! id = Some c →
    ∃ c', s'.(store_documents) !! id = Some c' ∧ row_after c c';
  after_revisions : s.(store_revisions) ⊆ s'.(store_revisions);
  after_receipts : s.(store_receipts) ⊆ s'.(store_receipts);
  after_catalog : (s.(store_catalog).(catalog_revision) ≤ s'.(store_catalog).(catalog_revision))%N;
  after_time : (s.(store_catalog).(updated_at) ≤ s'.(store_catalog).(updated_at))%Z;
}.

#[global] Instance store_after_preorder : PreOrder store_after.
Proof.
  split.
  - intros s. split; try done. intros id c Hc. by exists c.
  - intros a b c [R1 H1 P1 C1 T1] [R2 H2 P2 C2 T2]. split; try (by etrans); try lia.
    intros id r Hr. destruct (R1 _ _ Hr) as (r1 & Hr1 & A1).
    destruct (R2 _ _ Hr1) as (r2 & Hr2 & A2). exists r2. split; [done|]. by etrans.
Qed.

Lemma submit_after s x s' receipt :
  store_inv s → submit s x = Ok (s', receipt) → store_after s s'.
Proof.
  intros Hinv [[_ ->]|(Hnew & Ha & -> & _)]%submit_Ok; [done|].
  pose proof (accepts_row_step _ _ _ _ Ha) as Hrow.
  set (c := next_current (store_documents s !! sub_target x) (sub_command x)
    (submission_context s x)) in *. fold (sub_target x) in Hrow.
  split; simpl; fold (sub_target x).
  - intros id o Ho. destruct (decide (id = sub_target x)) as [->|Hne].
    + exists c. rewrite lookup_insert_eq. split; [done|]. rewrite Ho in Hrow.
      eapply row_step_after; [done|]. by apply (inv_row _ Hinv _ _ Ho).
    + exists o. by rewrite lookup_insert_ne.
  - apply insert_subseteq. exact (write_rev_fresh s _ c Hinv Hrow).
  - by apply insert_subseteq.
  - lia.
  - unfold canonical_time. lia.
Qed.

Lemma rtc_after s s' : store_inv s → rtc doc_step s s' → store_after s s' ∧ store_inv s'.
Proof.
  intros Hinv Hr. induction Hr as [s|s s1 s2 [x receipt Hs] _ IH]; [done|].
  destruct IH as [Ha Hi]; [by eapply submit_inv|]. split; [|done].
  etrans; [by eapply submit_after|done].
Qed.

(** What an accepted submission leaves behind. *)
Lemma submit_target s x s' receipt :
  s.(store_receipts) !! x.(sub_event) = None → submit s x = Ok (s', receipt) →
  s'.(store_receipts) !! x.(sub_event) = Some receipt
  ∧ ∃ c, s'.(store_documents) !! sub_target x = Some c
    ∧ rev_of c = (x.(sub_command).(expected_document_revision) + 1)%N.
Proof.
  intros Hnew [[Hr _]|(_ & Ha & -> & ->)]%submit_Ok; [congruence|]. simpl.
  split; [by rewrite lookup_insert_eq|]. fold (sub_target x).
  eexists. by rewrite lookup_insert_eq.
Qed.

(** The first reason to refuse a well-formed command on a loaded row. *)
Definition refusal (current : option CurrentDocument) (command : ProjectDocumentCommand)
    (context : DocumentChangeContext) : option DocumentError :=
  let id := ProjectDocumentCommand_document_id command in
  match command.(request), current with
  | DocumentCommandRequest.Create _ _ _ _, Some _ => Some (DocumentError.DocumentIdAlreadyExists id)
  | DocumentCommandRequest.Create _ _ _ _, None => None
  | _, None => Some (DocumentError.DocumentNotFound id)
  | request, Some c =>
      if negb (rev_of c =? command.(expected_document_revision))%N then
        Some (DocumentError.RevisionConflict command.(expected_document_revision) (Some (rev_of c)))
      else if negb (is_active c) then Some (DocumentError.DocumentDeleted id)
      else match request with
           | DocumentCommandRequest.Delete _ =>
               if context.(deletion_blocked) then Some (DocumentError.StillReferenced id) else None
           | _ =>
               if bool_decide (DocumentRevision_snapshot c.(revision)
                               = DocumentCommandRequest_snapshot request)
               then Some DocumentError.NoChange else None
           end
  end.

Lemma reduce_refusal catalog current command context e :
  catalog_valid catalog → command_wf command →
  (catalog.(updated_at) < context.(canonical_at))%Z →
  (command.(expected_document_revision) < MAX_SAFE_REVISION)%N →
  (∀ c, current = Some c →
     current_valid c
     ∧ c.(document).(document_id) = ProjectDocumentCommand_document_id command) →
  refusal current command context = Some e →
  reduce_document catalog current command context = Err e.
Proof.
  intros Hcat Hwf Ht Hr Hcur Href. unfold reduce_document.
  rewrite (proj2 (DocumentCatalog_validate_Ok _ tt) Hcat). cbn [rbind].
  rewrite (proj2 (command_validate_Ok _ tt) Hwf). cbn [rbind].
  rewrite (proj2 (Z.leb_gt _ _) Ht). cbn [rbind reject_if].
  apply rbind_Err. right. exists tt. split.
  { destruct current as [c|]; [|done]. destruct (Hcur c eq_refl) as [Hv Hid].
    rewrite (proj2 (CurrentDocument_validate_Ok _ tt) Hv). cbn [rbind]. by rewrite bool_decide_true. }
  rewrite (proj2 (next_revision_Ok _ _) (conj eq_refl Hr)). cbn [rbind].
  apply rbind_Err. left. clear Hcur.
  unfold refusal, reduce_request, require_active_current, is_active, rev_of,
    ProjectDocumentCommand_document_id in *.
  destruct (request command) as [id t sm ct|id t sm ct|id], current as [c|]; simpl in *; try congruence.
  - destruct (_ =? _)%N; simpl in *; [|congruence].
    destruct (state (document c)); simpl in *; [|congruence].
    case_bool_decide; simpl; congruence.
  - destruct (_ =? _)%N; simpl in *; [|congruence].
    destruct (state (document c)); simpl in *; [|congruence].
    destruct (deletion_blocked context); simpl; congruence.
Qed.

(** ** No internal failure *)

Definition doc_internal_failure (e : DocumentError) : Prop :=
  ∃ reason, e = DocumentError.InvalidCanonicalState reason.

Lemma validate_snapshot_Err t sm ct e :
  validate_snapshot t sm ct = Err e → ∃ reason, e = DocumentError.InvalidSnapshot reason.
Proof.
  unfold validate_snapshot, validate_no_nul, validate_len. intros H.
  repeat match goal with
  | H : rbind _ _ = Err _ |- _ => apply rbind_Err in H as [H|(? & _ & H)]
  | H : reject_if _ _ = Err _ |- _ => apply reject_if_Err in H as [_ <-]
  | H : Ok _ = Err _ |- _ => discriminate H
  | H : match ?o with Some _ => _ | None => _ end = Err _ |- _ => destruct o
  | |- _ => by eexists
  end.
Qed.

Lemma doc_command_validate_Err c e :
  ProjectDocumentCommand_validate_for_submission c = Err e → ¬ doc_internal_failure e.
Proof.
  unfold ProjectDocumentCommand_validate_for_submission, DocumentCommandRequest_validate.
  intros H [r ->]. apply rbind_Err in H as [H|([] & _ & H)]; [by apply reject_if_Err in H as [_ ?]|].
  apply rbind_Err in H as [H|([] & _ & H)].
  { unfold validate_nonnegative_revision in H. by destruct (_ <? _)%N. }
  apply rbind_Err in H as [H|([] & _ & H)].
  { unfold validate_positive_revision in H. destruct (DocumentCommandRequest_operation _);
      [by apply reject_if_Err in H as [_ ?]|..]; by destruct (negb _). }
  apply rbind_Err in H as [H|([] & _ & H)].
  { destruct (acting_assignment_id c) as [a|], (runtime_fence c); try done.
    destruct (Uuid_is_nil a); [done|]. by apply map_err_Err in H as (e' & _ & ?). }
  apply rbind_Err in H as [H|([] & _ & H)].
  { unfold validate_document_id in H. by destruct (not_uuid_v4 _). }
  destruct (request c); try done; by apply validate_snapshot_Err in H as [? ?].
Qed.

(** A catalog with room, to accept a request for its own sake. *)
Definition roomy_catalog (catalog : DocumentCatalog) : DocumentCatalog := {|
  project_id := catalog.(project_id);
  catalog_revision := 1;
  active_document_count := 1;
  projection_generation := catalog.(projection_generation);
  initialized_at := catalog.(initialized_at);
  updated_at := catalog.(updated_at);
|}.

(** An accepted request is reduced whatever the counters say. *)
Lemma roomy_accepts catalog current command context :
  catalog_valid catalog → command_wf command →
  (catalog.(updated_at) < context.(canonical_at))%Z →
  (command.(expected_document_revision) < MAX_SAFE_REVISION)%N →
  accepts_request current command context →
  accepts (roomy_catalog catalog) current command context.
Proof.
  intros Hcat Hwf Ht Hr Hreq. destruct Hcat. split; try done; [by apply command_validate_Ok|].
  by destruct (ProjectDocumentCommand_operation command).
Qed.

Lemma require_active_current_Err current command e :
  require_active_current current command = Err e → ¬ doc_internal_failure e.
Proof.
  unfold require_active_current. intros H [r ->].
  apply rbind_Err in H as [[_ ?]%ok_or_Err|(c & _ & H)]; [done|].
  apply rbind_Err in H as [[_ ?]%reject_if_Err|([] & _ & H)]; [done|].
  by apply rbind_Err in H as [[_ ?]%reject_if_Err|([] & _ & H)].
Qed.

Section submission.
Context (s : DocStore) (x : Submission) (Hinv : store_inv s).
Abbreviation current := (s.(store_documents) !! sub_target x).
Abbreviation command := x.(sub_command).
Abbreviation context := (submission_context s x).

Lemma target_row c : current = Some c →
  current_valid c ∧ c.(document).(document_id) = sub_target x
  ∧ (c.(document).(updated).(at_) < context.(canonical_at))%Z.
Proof.
  intros Hc. destruct (inv_row _ Hinv _ _ Hc) as (Hv & Hid & Hle).
  split_and!; [done..|]. simpl. unfold canonical_time. lia.
Qed.

Lemma context_time : (s.(store_catalog).(updated_at) < context.(canonical_at))%Z.
Proof. simpl. unfold canonical_time. lia. Qed.

Lemma reduce_request_Err e :
  command_wf command → (command.(expected_document_revision) < MAX_SAFE_REVISION)%N →
  reduce_request current command context (command.(expected_document_revision) + 1) = Err e →
  ¬ doc_internal_failure e.
Proof.
  intros Hwf Hr H.
  assert (Hno : ¬ accepts_request current command context).
  { intros Hreq. rewrite (reduce_request_accepts _ _ _ _
      (roomy_accepts _ _ _ _ (inv_catalog _ Hinv) Hwf context_time Hr Hreq)) in H. done. }
  unfold reduce_request, accepts_request in *. destruct (request command) eqn:Hq.
  - apply rbind_Err in H as [[_ <-]%reject_if_Err|([] & Hn%reject_if_Ok & _)]; [by intros [r ?]|].
    exfalso. apply Hno. by destruct current.
  - apply rbind_Err in H as [H|(c & (Hc & He & Hs)%require_active_current_Ok & H)];
      [by eapply require_active_current_Err|].
    apply rbind_Err in H as [[_ <-]%reject_if_Err|([] & Hn%reject_if_Ok & _)]; [by intros [r ?]|].
    exfalso. apply Hno. destruct (target_row c Hc) as (Hv & Hid & Ht). bool_props.
    exists c. unfold targets. by split_and!.
  - apply rbind_Err in H as [H|(c & (Hc & He & Hs)%require_active_current_Ok & H)];
      [by eapply require_active_current_Err|].
    apply rbind_Err in H as [[_ <-]%reject_if_Err|([] & Hn%reject_if_Ok & _)]; [by intros [r ?]|].
    exfalso. apply Hno. destruct (target_row c Hc) as (Hv & Hid & Ht).
    exists c. unfold targets. by split_and!.
Qed.

Lemma reduce_request_target out :
  reduce_request current command context (command.(expected_document_revision) + 1) = Ok out →
  accepts_request current command context.
Proof.
  unfold reduce_request, accepts_request. intros H. destruct (request command) eqn:Hq.
  - apply rbind_Ok in H as ([] & Hn%reject_if_Ok & _). by destruct current.
  - apply rbind_Ok in H as (c & (Hc & He & Hs)%require_active_current_Ok & H).
    apply rbind_Ok in H as ([] & Hn%reject_if_Ok & _). bool_props.
    destruct (target_row c Hc) as (Hv & Hid & Ht). exists c. unfold targets. by split_and!.
  - apply rbind_Ok in H as (c & (Hc & He & Hs)%require_active_current_Ok & H).
    apply rbind_Ok in H as ([] & Hn%reject_if_Ok & _).
    destruct (target_row c Hc) as (Hv & Hid & Ht). exists c. unfold targets. by split_and!.
Qed.

(** Deleting an active Document finds a positive counter. *)
Lemma delete_count :
  accepts_request current command context →
  ProjectDocumentCommand_operation command = DocumentOperation.Delete →
  (1 ≤ s.(store_catalog).(active_document_count))%N.
Proof.
  intros Hreq Hop. unfold accepts_request, ProjectDocumentCommand_operation in *.
  destruct (request command); try done. destruct Hreq as (c & Hc & _ & _ & Hs & _).
  rewrite (inv_count _ Hinv). unfold map_count.
  pose proof (map_sum_lookup_le (λ v, if is_active v then 1%N else 0%N) _ _ _ Hc) as Hle.
  simpl in Hle. unfold is_active in Hle at 1. by rewrite Hs in Hle.
Qed.

Lemma next_catalog_Err e :
  accepts_request current command context →
  next_catalog s.(store_catalog) (ProjectDocumentCommand_operation command)
    context.(canonical_at) = Err e →
  e = DocumentError.RevisionExhausted.
Proof.
  intros Hreq H. pose proof (inv_catalog _ Hinv) as Hcat.
  pose proof (next_catalog_Ok _ (ProjectDocumentCommand_operation command) _
    (catalog_after s.(store_catalog) (ProjectDocumentCommand_operation command)
       context.(canonical_at)) Hcat context_time) as Hiff.
  unfold next_catalog in *.
  apply rbind_Err in H as [[_ <-]%ok_or_Err|(r & [-> Hr]%next_revision_Ok & H)]; [done|].
  rewrite (proj2 (next_revision_Ok _ _) (conj eq_refl Hr)) in Hiff. cbn [rbind] in Hiff.
  destruct (ProjectDocumentCommand_operation command) eqn:Hop.
  - apply rbind_Err in H as [[_ <-]%ok_or_Err|(n & Hn & H)]; [done|]. exfalso.
    rewrite Hn in Hiff. cbn [rbind] in Hiff. rewrite H in Hiff.
    apply ok_or_Ok, option_filter_Some in Hn as [Hn Hm].
    apply u64_checked_add_Some in Hn as [-> _]. bool_props.
    assert (Hc : count_admits DocumentOperation.Create
      (active_document_count (store_catalog s))) by (simpl; lia).
    discriminate (proj2 Hiff (conj eq_refl (conj Hr Hc))).
  - rewrite H in Hiff. discriminate (proj2 Hiff (conj eq_refl (conj Hr I))).
  - rewrite H in Hiff.
    discriminate (proj2 Hiff (conj eq_refl (conj Hr (delete_count Hreq Hop)))).
Qed.

(** On a store that satisfies the invariant the reducer never reports an
    inconsistent canonical state. *)
Lemma doc_no_internal_failure e : submit s x = Err e → ¬ doc_internal_failure e.
Proof.
  unfold submit. destruct (store_receipts s !! sub_event x); [done|].
  intros [Hred|(t & _ & ?)]%rbind_Err; [|done]. pose proof Hred as H. unfold reduce_document in H.
  rewrite (proj2 (DocumentCatalog_validate_Ok _ tt) (inv_catalog _ Hinv)) in H. cbn [rbind] in H.
  apply rbind_Err in H as [H|([] & Hwf%command_validate_Ok & H)]; [by eapply doc_command_validate_Err|].
  rewrite (proj2 (Z.leb_gt _ _) context_time) in H. cbn [rbind reject_if] in H.
  apply rbind_Err in H as [H|([] & _ & H)].
  { exfalso. destruct current as [c|] eqn:Hc; [|done]. destruct (target_row c Hc) as (Hv & Hid & _).
    rewrite (proj2 (CurrentDocument_validate_Ok _ tt) Hv) in H. cbn [rbind] in H.
    by rewrite bool_decide_true in H. }
  apply rbind_Err in H as [[_ <-]%ok_or_Err|(n & [-> Hr]%next_revision_Ok & H)]; [by intros [r ?]|].
  apply rbind_Err in H as [H|([d r] & Hreq & H)]; [by eapply reduce_request_Err|].
  assert (Hacc : accepts_request current command context) by (by eapply reduce_request_target).
  pose proof (roomy_accepts _ _ _ _ (inv_catalog _ Hinv) Hwf context_time Hr Hacc) as Hroomy.
  rewrite (reduce_request_accepts _ _ _ _ Hroomy) in Hreq. injection Hreq as <- <-.
  rewrite (proj2 (CurrentDocument_new_Ok _ _ (next_current current command context))) in H
    by (split; [reflexivity|by eapply next_current_valid]). cbn [rbind] in H.
  destruct (next_catalog (store_catalog s) _ _) as [k|e'] eqn:Hn.
  - apply next_catalog_Ok in Hn as (_ & Hcr & Hcount); [|apply Hinv|apply context_time].
    exfalso. rewrite reduce_document_complete in Hred; [done|].
    split; try done; [apply Hinv|by apply command_validate_Ok|apply context_time].
  - apply next_catalog_Err in Hn as ->; [|done]. injection H as <-. by intros [r ?].
Qed.

End submission.

End history.
