(* ===== verification/DocumentTheorems.v ===== *)
(** * Project Documents: the properties

    The theorems about the Document component, each followed by an application
    at a concrete input. *)

From S2P Require Import Prelude Text Platform Reference DocumentModel.
From S2P Require Import DocumentProjection DocumentReducer DocumentFacts.
From S2P Require Import DocumentSpec DocumentStore DocumentHistory.
From stdpp Require Import prelude strings gmap fin_maps relations.

(** ** A sample run *)

Definition sample_id : Uuid := ref_uuid 7.

Definition sample_catalog : DocumentCatalog := {|
  project_id := ref_uuid 1;
  catalog_revision := 0;
  active_document_count := 0;
  projection_generation := 1;
  initialized_at := 100;
  updated_at := 100;
|}.

Definition sample (event : N) (expected : N) (request : DocumentCommandRequest) : Submission := {|
  sub_actor := 5%N;
  sub_event := event;
  sub_command := ProjectDocumentCommand_new expected request;
  sub_clock := 90;
  sub_blocked := false;
|}.

Definition sample_create : Submission :=
  sample 1 0 (DocumentCommandRequest.Create sample_id (lit "Charter") None (lit "first")).
Definition sample_update : Submission :=
  sample 2 1 (DocumentCommandRequest.Update sample_id (lit "Charter") (Some (lit "v2")) (lit "second")).
Definition sample_rival : Submission :=
  sample 3 1 (DocumentCommandRequest.Update sample_id (lit "Charter") None (lit "rival")).
Definition sample_delete : Submission := sample 4 2 (DocumentCommandRequest.Delete sample_id).

Definition after_submit (s : DocStore) (x : Submission) : DocStore :=
  match submit s x with
  | Ok (s', _) => s'
  | Err _ => s
  end.

Definition receipt_of (s : DocStore) (x : Submission) : option ProjectDocumentReceipt :=
  match submit s x with
  | Ok (_, receipt) => Some receipt
  | Err _ => None
  end.

Definition sample_s0 : DocStore := bootstrap sample_catalog.
Definition sample_s1 : DocStore := after_submit sample_s0 sample_create.
Definition sample_s2 : DocStore := after_submit sample_s1 sample_update.
Definition sample_s3 : DocStore := after_submit sample_s2 sample_delete.

Lemma after_submit_Ok s x r :
  receipt_of s x = Some r → submit s x = Ok (after_submit s x, r).
Proof. unfold receipt_of, after_submit. destruct (submit s x) as [[s' r']|]; naive_solver. Qed.

Lemma after_submit_step s x :
  opt_is_some (receipt_of s x) = true → doc_step s (after_submit s x).
Proof.
  destruct (receipt_of s x) as [r|] eqn:Hr; [intros _|done].
  econstructor. by apply after_submit_Ok.
Qed.

Lemma sample_reachable0 : doc_reachable sample_s0.
Proof.
  exists (ref_uuid 1), 1%N, 100%Z, sample_catalog. split; [by_evaluation|done].
Qed.

Lemma reachable_step s x :
  doc_reachable s → opt_is_some (receipt_of s x) = true → doc_reachable (after_submit s x).
Proof.
  intros (p & g & t & c & He & Hr) Hs. exists p, g, t, c. split; [done|].
  eapply rtc_r; [done|]. by apply after_submit_step.
Qed.

Lemma sample_reachable1 : doc_reachable sample_s1.
Proof. apply reachable_step; [apply sample_reachable0|vm_compute; reflexivity]. Qed.

Lemma sample_reachable2 : doc_reachable sample_s2.
Proof. apply reachable_step; [apply sample_reachable1|vm_compute; reflexivity]. Qed.

Lemma sample_reachable3 : doc_reachable sample_s3.
Proof. apply reachable_step; [apply sample_reachable2|vm_compute; reflexivity]. Qed.

Example sample_s3_revision : catalog_revision (store_catalog sample_s3) = 3%N.
Proof. vm_compute. reflexivity. Qed.

(** ** The reducer *)

Section reducer_theorems.
Context `{P : Platform}.

(** C1. [reduce_document] accepts a command exactly when the catalog is valid,
    the command is well-formed, canonical time advances, the target row is the
    one the operation needs (absent for a create; valid, active and at the
    expected revision for an update or an unblocked delete; a changed snapshot
    for an update) and the counters have room; it then returns exactly the
    specified next row, catalog, receipt and projection plan.  In particular
    the checks it runs on its own output never reject. *)
Theorem reduce_document_spec catalog current command context t :
  reduce_document catalog current command context = Ok t ↔
  accepts catalog current command context ∧ t = next_transition catalog current command context.
Proof. apply reduce_document_Ok. Qed.

(** The error a refused command gets is determined by the loaded row, in
    this order: an existing id for a create; a missing Document; a stale
    revision, reported with the current one; a tombstone; then an unchanged
    snapshot, or a blocked deletion. *)
Theorem reduce_document_refusal catalog current command context e :
  catalog_valid catalog → command_wf command →
  (catalog.(updated_at) < context.(canonical_at))%Z →
  (command.(expected_document_revision) < MAX_SAFE_REVISION)%N →
  (∀ c, current = Some c →
     current_valid c
     ∧ c.(document).(document_id) = ProjectDocumentCommand_document_id command) →
  refusal current command context = Some e →
  reduce_document catalog current command context = Err e.
Proof. apply reduce_refusal. Qed.

(** A snapshot passes validation exactly when its title is non-empty, has
    no surrounding white space, and every field is free of NUL and within its
    UTF-8 byte limit; an empty summary is never accepted. *)
Theorem validate_snapshot_spec title summary content :
  validate_snapshot title summary content = Ok tt ↔
  (0%N ∉ title) ∧ (str_len title ≤ 256)%N ∧ title ≠ [] ∧ trim title = title
  ∧ (∀ s, summary = Some s → (0%N ∉ s) ∧ (str_len s ≤ 4096)%N ∧ s ≠ [])
  ∧ (0%N ∉ content) ∧ (str_len content ≤ 49152)%N.
Proof.
  rewrite validate_snapshot_Ok. split.
  - intros [([? ?] & ? & ?%trim_id) Hs [? ?]]. split_and!; try done.
    intros s Hsum. by destruct (Hs s Hsum) as [[? ?] ?].
  - intros (? & ? & ? & ?%trim_id & Hs & ? & ?). split; [done| |done].
    intros s Hsum. by destruct (Hs s Hsum) as (? & ? & ?).
Qed.

(** Parsing a command succeeds exactly when the content is within the byte
    limit, is JSON within the nesting limit, deserialises, and the command is
    well-formed: create expects revision zero, update and delete a positive
    one, and an assignment and a runtime fence come together or not at all. *)
Theorem document_from_json_spec from_str from_value content command :
  ProjectDocumentCommand_from_json from_str from_value content = Ok command ↔
  (str_len content ≤ MAX_COMMAND_CONTENT_BYTES)%N
  ∧ ∃ value, from_str content = Ok value ∧ (json_depth value ≤ MAX_COMMAND_JSON_DEPTH)%N
    ∧ from_value value = Ok command ∧ command_wf command.
Proof.
  unfold ProjectDocumentCommand_from_json. split.
  - intros H. apply rbind_Ok in H as ([] & Hl%reject_if_Ok & H).
    apply rbind_Ok in H as (value & Hv%map_err_Ok & H).
    apply rbind_Ok in H as ([] & Hd%reject_if_Ok & H).
    apply rbind_Ok in H as (c & Hc%map_err_Ok & H).
    apply rbind_Ok in H as ([] & Hwf%command_validate_Ok & H). injection H as ->.
    bool_props. eauto 6.
  - intros (Hl & value & Hv & Hd & Hc & Hwf).
    rewrite (proj2 (N.ltb_ge _ _) Hl), Hv. cbn [rbind reject_if map_err].
    rewrite (proj2 (N.ltb_ge _ _) Hd), Hc. cbn [rbind reject_if map_err].
    by rewrite (proj2 (command_validate_Ok _ tt) Hwf).
Qed.

End reducer_theorems.

Definition sample_context : DocumentChangeContext := submission_context sample_s2 sample_rival.

Definition sample_row (s : DocStore) : option CurrentDocument := s.(store_documents) !! sample_id.

(** A stale update of revision 1 against a Document at revision 2 conflicts. *)
Lemma reduce_document_refusal_witness :
  reduce_document sample_s2.(store_catalog) (sample_row sample_s2) sample_rival.(sub_command)
    sample_context
  = Err (DocumentError.RevisionConflict 1 (Some 2%N)).
Proof.
  pose proof (doc_reachable_inv _ sample_reachable2) as Hinv.
  apply reduce_document_refusal.
  - apply Hinv.
  - apply (command_validate_Ok _ tt). by_evaluation.
  - apply context_time.
  - by_evaluation.
  - intros c Hc. destruct (inv_row _ Hinv _ _ Hc) as (Hv & Hid & _). exact (conj Hv Hid).
  - by_evaluation.
Defined.

(** ** The store over time *)

Section store_theorems.
Context `{P : Platform}.

(** C16. In every reachable store the catalog counts its Documents: the active
    count is the number of active rows, the catalog revision is both the number
    of accepted commands and the sum of the Documents' revisions, no counter
    leaves the JavaScript-safe range, and every row is valid and stored under
    its own id. *)
Theorem doc_store_consistent s :
  doc_reachable s →
  s.(store_catalog).(active_document_count)
    = N.of_nat (size (filter (λ kv, is_active kv.2 = true) s.(store_documents)))
  ∧ s.(store_catalog).(catalog_revision) = map_sum rev_of s.(store_documents)
  ∧ s.(store_catalog).(catalog_revision) = N.of_nat (size s.(store_receipts))
  ∧ (s.(store_catalog).(catalog_revision) ≤ MAX_SAFE_REVISION)%N
  ∧ DocumentCatalog_validate s.(store_catalog) = Ok tt
  ∧ ∀ id c, s.(store_documents) !! id = Some c →
      CurrentDocument_validate c = Ok tt ∧ c.(document).(document_id) = id.
Proof.
  intros Hr%doc_reachable_inv. split_and!.
  - rewrite <- map_count_size. apply Hr.
  - apply (inv_sum _ Hr).
  - apply (inv_receipts _ Hr).
  - apply (inv_catalog _ Hr).
  - apply DocumentCatalog_validate_Ok, Hr.
  - intros id c Hc. destruct (inv_row _ Hr _ _ Hc) as (Hv & Hid & _).
    split; [by apply CurrentDocument_validate_Ok|done].
Qed.

(** C29. The history of a Document is complete: exactly the revisions from one
    to the current one are stored, the last is the current body, every earlier
    one is active, canonical times strictly increase along it, and revision one
    carries the creation attribution. *)
Theorem doc_history_complete s id c :
  doc_reachable s → s.(store_documents) !! id = Some c →
  (∀ n, is_Some (s.(store_revisions) !! (id, n)) ↔ (1 ≤ n ≤ rev_of c)%N)
  ∧ s.(store_revisions) !! (id, rev_of c) = Some c.(revision)
  ∧ (∀ n r, s.(store_revisions) !! (id, n) = Some r → (n < rev_of c)%N →
       DocumentRevision_state r = DocumentState.Active)
  ∧ (∀ n m r r', s.(store_revisions) !! (id, n) = Some r →
       s.(store_revisions) !! (id, m) = Some r' → (n < m)%N →
       (DocumentRevision_canonical_at r < DocumentRevision_canonical_at r')%Z)
  ∧ (∀ r, s.(store_revisions) !! (id, 1%N) = Some r →
       c.(document).(created)
       = {| at_ := DocumentRevision_canonical_at r; by_ := DocumentRevision_actor r |}).
Proof.
  intros Hr%doc_reachable_inv Hc. split_and!.
  - intros n. split; [|by apply (inv_contiguous _ Hr)].
    intros [r Hn]. destruct (inv_history _ Hr _ _ _ Hn) as (c' & Hc' & Hle & _). congruence.
  - by apply (inv_head _ Hr).
  - intros n r Hn Hlt. destruct (inv_history _ Hr _ _ _ Hn) as (c' & Hc' & _ & _ & _ & _ & Ha).
    apply Ha. congruence.
  - intros n m r r'. apply (inv_ordered _ Hr).
  - intros r. by apply (inv_first _ Hr id).
Qed.

(** Nothing is rewritten: from a reachable store, any further submissions
    keep every revision and receipt, and a row keeps its id and its creation
    attribution while its revision never decreases. *)
Theorem doc_history_immutable s s' :
  doc_reachable s → rtc doc_step s s' →
  s.(store_revisions) ⊆ s'.(store_revisions)
  ∧ s.(store_receipts) ⊆ s'.(store_receipts)
  ∧ ∀ id c, s.(store_documents) !! id = Some c →
      ∃ c', s'.(store_documents) !! id = Some c'
        ∧ c'.(document).(created) = c.(document).(created)
        ∧ c'.(document).(document_id) = c.(document).(document_id)
        ∧ (rev_of c ≤ rev_of c')%N.
Proof.
  intros Hr%doc_reachable_inv Hs. destruct (rtc_after _ _ Hr Hs) as [[Hrow Hrev Hrec _ _] _].
  split_and!; [done..|]. intros id c Hc. destruct (Hrow _ _ Hc) as (c' & Hc' & []). eauto 6.
Qed.

(** Deletion is final: the tombstone of a Document never changes, and every
    later command on its id is refused, including one that would create it
    again. *)
Theorem doc_tombstone_final s s' id c y :
  doc_reachable s → s.(store_documents) !! id = Some c →
  c.(document).(state) = DocumentState.Deleted →
  rtc doc_step s s' →
  s'.(store_documents) !! id = Some c
  ∧ (sub_target y = id → s'.(store_receipts) !! y.(sub_event) = None →
     ∃ e, submit s' y = Err e).
Proof.
  intros Hr%doc_reachable_inv Hc Hd Hs. destruct (rtc_after _ _ Hr Hs) as [[Hrow _ _ _ _] Hinv'].
  destruct (Hrow _ _ Hc) as (c' & Hc' & Ha). rewrite (after_deleted _ _ Ha Hd) in Hc'.
  split; [done|]. intros Ht Hnew. destruct (submit s' y) as [[s2 r]|e] eqn:Hsub; [exfalso|eauto].
  apply submit_Ok in Hsub as [[? _]|(_ & Hacc & _)]; [congruence|].
  rewrite Ht, Hc' in Hacc.
  destruct (accepts_shape _ _ _ _ Hacc) as [(? & _)|(o & [= <-] & _ & _ & Ho & _)]; congruence.
Qed.

(** C24. Optimistic concurrency: once a command based on some revision of a
    Document is accepted, no other command based on the same revision is, no
    matter how many submissions come between. *)
Theorem doc_single_writer s x y s1 s2 receipt :
  doc_reachable s → s.(store_receipts) !! x.(sub_event) = None →
  submit s x = Ok (s1, receipt) → rtc doc_step s1 s2 →
  sub_target y = sub_target x →
  y.(sub_command).(expected_document_revision) = x.(sub_command).(expected_document_revision) →
  s2.(store_receipts) !! y.(sub_event) = None →
  ∃ e, submit s2 y = Err e.
Proof.
  intros Hr%doc_reachable_inv Hnew Hx Hs Ht He Hnew2.
  destruct (submit_target _ _ _ _ Hnew Hx) as [_ (c & Hc & Hrev)].
  destruct (rtc_after _ _ (submit_inv _ _ _ _ Hr Hx) Hs) as [[Hrow _ _ _ _] _].
  destruct (Hrow _ _ Hc) as (c' & Hc' & Ha). pose proof (after_rev _ _ Ha) as Hle.
  destruct (submit s2 y) as [[s3 r]|e] eqn:Hsub; [exfalso|eauto].
  apply submit_Ok in Hsub as [[? _]|(_ & Hacc & _)]; [congruence|]. rewrite Ht, Hc' in Hacc.
  destruct (accepts_shape _ _ _ _ Hacc) as [(? & _)|(o & [= <-] & (_ & Ho) & _)]; [done|].
  unfold rev_of in *. lia.
Qed.

(** Replay is idempotent: resubmitting an accepted event, at any later
    time and whatever has happened since, returns the receipt of the first
    acceptance and changes nothing. *)
Theorem doc_replay_idempotent s x s1 s2 receipt y :
  doc_reachable s → submit s x = Ok (s1, receipt) → rtc doc_step s1 s2 →
  y.(sub_event) = x.(sub_event) →
  submit s2 y = Ok (s2, receipt).
Proof.
  intros Hr%doc_reachable_inv Hx Hs Hy.
  assert (Hrec : s1.(store_receipts) !! x.(sub_event) = Some receipt).
  { destruct (store_receipts s !! sub_event x) eqn:Hnew.
    - apply submit_Ok in Hx as [[Hold ->]|[? _]]; congruence.
    - by apply (submit_target _ _ _ _ Hnew Hx). }
  destruct (rtc_after _ _ (submit_inv _ _ _ _ Hr Hx) Hs) as [[_ _ Hsub _ _] _].
  apply submit_Ok. left. split; [|done]. rewrite Hy. by eapply lookup_weaken.
Qed.

(** On a reachable store the reducer never reports an inconsistent
    canonical state: every refusal is about the command. *)
Theorem doc_no_inconsistency s x e :
  doc_reachable s → submit s x = Err e →
  ∀ reason, e ≠ DocumentError.InvalidCanonicalState reason.
Proof.
  intros Hr%doc_reachable_inv He reason ->.
  eapply (doc_no_internal_failure s x Hr); [done|]. by eexists.
Qed.

(** An update that is based on the current revision of an active Document
    and changes its snapshot is accepted; afterwards the Document holds the
    requested snapshot at the next revision, and every other row is as it
    was. *)
Theorem doc_update_accepted s x id t sm ct c :
  doc_reachable s →
  s.(store_receipts) !! x.(sub_event) = None →
  s.(store_documents) !! id = Some c →
  c.(document).(state) = DocumentState.Active →
  command_wf x.(sub_command) →
  x.(sub_command).(request) = DocumentCommandRequest.Update id t sm ct →
  x.(sub_command).(expected_document_revision) = rev_of c →
  DocumentRevision_snapshot c.(revision)
    ≠ Some {| title := t; summary := sm; content_markdown := ct |} →
  (s.(store_catalog).(catalog_revision) < MAX_SAFE_REVISION)%N →
  ∃ s' receipt c', submit s x = Ok (s', receipt)
    ∧ s'.(store_documents) = <[id := c']> s.(store_documents)
    ∧ rev_of c' = (rev_of c + 1)%N
    ∧ DocumentRevision_snapshot c'.(revision)
      = Some {| title := t; summary := sm; content_markdown := ct |}.
Proof.
  intros Hr%doc_reachable_inv Hnew Hc Hact Hwf Hreq Hexp Hne Hroom.
  assert (Ht : sub_target x = id).
  { unfold sub_target, ProjectDocumentCommand_document_id. by rewrite Hreq. }
  assert (Hle : (rev_of c < MAX_SAFE_REVISION)%N).
  { pose proof (map_sum_lookup_le rev_of _ _ _ Hc). rewrite (inv_sum _ Hr) in Hroom. lia. }
  assert (Ha : accepts s.(store_catalog) (s.(store_documents) !! sub_target x) x.(sub_command)
    (submission_context s x)).
  { split; try apply Hr; try done.
    - by apply command_validate_Ok.
    - apply context_time.
    - by rewrite Hexp.
    - unfold accepts_request. rewrite Hreq, Ht. exists c.
      destruct (target_row s x Hr c) as (Hv & Hid & Htime); [by rewrite Ht|].
      unfold targets. split_and!; try done.
    - unfold ProjectDocumentCommand_operation. by rewrite Hreq. }
  eexists _, _, _. split_and!.
  - apply submit_Ok. right. split; [done|]. cbv zeta. split; [exact Ha|by split].
  - simpl. fold (sub_target x). rewrite Ht. reflexivity.
  - unfold rev_of. simpl. by rewrite Hexp.
  - simpl. by rewrite Hreq.
Qed.

(** Canonical coordinates never collide: heads, revisions and the catalog
    metadata of all projects have distinct coordinates. *)
Theorem document_coordinates_distinct `{HU : !UuidLaws} p d n p' d' n' :
  (document_head_coordinate p d = document_head_coordinate p' d' → p = p' ∧ d = d')
  ∧ (document_revision_coordinate p d n = document_revision_coordinate p' d' n' →
     p = p' ∧ d = d' ∧ n = n')
  ∧ (document_meta_coordinate p = document_meta_coordinate p' → p = p')
  ∧ document_head_coordinate p d ≠ document_revision_coordinate p' d' n'
  ∧ document_head_coordinate p d ≠ document_meta_coordinate p'
  ∧ document_revision_coordinate p d n ≠ document_meta_coordinate p'.
Proof.
  unfold document_head_coordinate, document_revision_coordinate, document_meta_coordinate.
  assert (Hdisp : ∀ (u v : Uuid) x y,
    Uuid_display u ++ x = Uuid_display v ++ y → u = v ∧ x = y).
  { intros u v x y H. apply app_inj_1 in H as [H ->]; [|by rewrite !Uuid_display_length].
    split; [by apply Uuid_display_inj|done]. }
  split_and!; intros H; apply app_inv_head in H.
  - apply Hdisp in H as [-> H]. apply app_inv_head, Uuid_display_inj in H. done.
  - apply Hdisp in H as [-> H]. apply app_inv_head, Hdisp in H as [-> H].
    apply app_inv_head, fmt_u64_inj in H. done.
  - by apply Hdisp in H as [-> _].
  - apply Hdisp in H as [-> H]. apply app_inv_head in H. rewrite <- (app_nil_r (Uuid_display d)) in H.
    by apply Hdisp in H as [_ H].
  - apply Hdisp in H as [-> H]. apply (f_equal length) in H. rewrite !length_app in H.
    rewrite Uuid_display_length in H. done.
  - apply Hdisp in H as [-> H]. apply (f_equal length) in H. rewrite !length_app in H.
    rewrite Uuid_display_length in H. simpl in H. lia.
Qed.

End store_theorems.

(** ** Applications to the sample run *)

Definition sample_current (s : DocStore) : CurrentDocument :=
  default
    {| document := {| document_id := sample_id; current_revision := 0; state := DocumentState.Active;
         created := {| at_ := 0; by_ := 0%N |}; updated := {| at_ := 0; by_ := 0%N |} |};
       revision := DocumentRevision.Deleted 0 sample_id 0 0%N 0 |}
    (sample_row s).

Lemma sample_lookup s :
  opt_is_some (sample_row s) = true → s.(store_documents) !! sample_id = Some (sample_current s).
Proof. unfold sample_current, sample_row. by destruct (store_documents s !! sample_id). Qed.

Lemma sample_fresh s x :
  opt_is_some (s.(store_receipts) !! x.(sub_event)) = false →
  s.(store_receipts) !! x.(sub_event) = None.
Proof. by destruct (store_receipts s !! sub_event x). Qed.

Definition sample_receipt (s : DocStore) (x : Submission) : ProjectDocumentReceipt :=
  default
    {| receipt_schema_version := 0; receipt_change_id := 0%N; receipt_actor := 0%N;
       receipt_acting_assignment_id := None; receipt_operation := DocumentOperation.Create;
       receipt_document_id := sample_id; receipt_expected_document_revision := 0;
       receipt_document_revision := 0; receipt_catalog_revision := 0;
       receipt_state := DocumentState.Active; receipt_accepted_at := 0 |}
    (receipt_of s x).

Lemma sample_submit s x :
  opt_is_some (receipt_of s x) = true → submit s x = Ok (after_submit s x, sample_receipt s x).
Proof.
  intros H. apply after_submit_Ok. unfold sample_receipt. by destruct (receipt_of s x).
Qed.

(** After create, update and delete the catalog is at revision three. *)
Lemma doc_store_consistent_witness :
  catalog_revision (store_catalog sample_s3) = 3%N
  ∧ catalog_revision (store_catalog sample_s3) = N.of_nat (size (store_receipts sample_s3)).
Proof.
  split; [by_evaluation|].
  destruct (doc_store_consistent sample_s3 sample_reachable3) as (_ & _ & H & _). exact H.
Defined.

(** The updated Document has exactly two revisions. *)
Lemma doc_history_complete_witness :
  rev_of (sample_current sample_s2) = 2%N
  ∧ (∀ n, is_Some (store_revisions sample_s2 !! (sample_id, n))
       ↔ (1 ≤ n ≤ rev_of (sample_current sample_s2))%N).
Proof.
  split; [by_evaluation|].
  destruct (doc_history_complete sample_s2 sample_id (sample_current sample_s2)
    sample_reachable2) as (H & _); [|exact H].
  apply sample_lookup. vm_compute. reflexivity.
Defined.

Lemma doc_history_immutable_witness :
  store_revisions sample_s1 ⊆ store_revisions sample_s3.
Proof.
  refine (proj1 (doc_history_immutable sample_s1 sample_s3 sample_reachable1 _)).
  apply (rtc_l _ _ sample_s2); [|apply rtc_once]; apply after_submit_step; vm_compute; reflexivity.
Defined.

(** Creating the deleted Document again is refused. *)
Lemma doc_tombstone_final_witness : ∃ e, submit sample_s3
  (sample 9 0 (DocumentCommandRequest.Create sample_id (lit "Again") None (lit "x"))) = Err e.
Proof.
  refine (proj2 (doc_tombstone_final sample_s3 sample_s3 sample_id (sample_current sample_s3)
    (sample 9 0 (DocumentCommandRequest.Create sample_id (lit "Again") None (lit "x")))
    sample_reachable3 _ _ (rtc_refl _ _)) _ _).
  - apply sample_lookup. vm_compute. reflexivity.
  - by_evaluation.
  - reflexivity.
  - apply sample_fresh. vm_compute. reflexivity.
Defined.

(** Two updates of revision one: the second writer loses. *)
Lemma doc_single_writer_witness : ∃ e, submit sample_s3 sample_rival = Err e.
Proof.
  apply (doc_single_writer sample_s1 sample_update sample_rival sample_s2 sample_s3
    (sample_receipt sample_s1 sample_update)).
  - exact sample_reachable1.
  - apply sample_fresh. vm_compute. reflexivity.
  - apply sample_submit. vm_compute. reflexivity.
  - apply rtc_once, after_submit_step. vm_compute. reflexivity.
  - reflexivity.
  - reflexivity.
  - apply sample_fresh. vm_compute. reflexivity.
Defined.

Lemma doc_replay_idempotent_witness :
  submit sample_s3 sample_update = Ok (sample_s3, sample_receipt sample_s1 sample_update).
Proof.
  apply (doc_replay_idempotent sample_s1 sample_update sample_s2 sample_s3).
  - exact sample_reachable1.
  - apply sample_submit. vm_compute. reflexivity.
  - apply rtc_once, after_submit_step. vm_compute. reflexivity.
  - reflexivity.
Defined.

(** The error of a submission, if any. *)
Definition submit_error (s : DocStore) (x : Submission) : option DocumentError :=
  match submit s x with
  | Ok _ => None
  | Err e => Some e
  end.

Lemma submit_error_Some s x e : submit_error s x = Some e → submit s x = Err e.
Proof. unfold submit_error. destruct (submit s x); naive_solver. Qed.

Lemma doc_no_inconsistency_witness :
  submit sample_s2 sample_rival = Err (DocumentError.RevisionConflict 1 (Some 2%N))
  ∧ DocumentError.RevisionConflict 1 (Some 2%N) ≠ DocumentError.InvalidCanonicalState [].
Proof.
  assert (He : submit sample_s2 sample_rival = Err (DocumentError.RevisionConflict 1 (Some 2%N))).
  { apply submit_error_Some. by_evaluation. }
  split; [exact He|].
  exact (doc_no_inconsistency sample_s2 sample_rival _ sample_reachable2 He []).
Defined.

Lemma doc_update_accepted_witness :
  ∃ s' receipt c', submit sample_s1 sample_update = Ok (s', receipt)
    ∧ s'.(store_documents) = <[sample_id := c']> sample_s1.(store_documents)
    ∧ rev_of c' = (rev_of (sample_current sample_s1) + 1)%N
    ∧ DocumentRevision_snapshot c'.(revision)
      = Some {| title := lit "Charter"; summary := Some (lit "v2");
                content_markdown := lit "second" |}.
Proof.
  apply (doc_update_accepted sample_s1 sample_update sample_id (lit "Charter") (Some (lit "v2"))
    (lit "second") (sample_current sample_s1)).
  - exact sample_reachable1.
  - apply sample_fresh. vm_compute. reflexivity.
  - apply sample_lookup. vm_compute. reflexivity.
  - by_evaluation.
  - apply (command_validate_Ok _ tt). by_evaluation.
  - reflexivity.
  - by_evaluation.
  - refine (proj1 (bool_decide_eq_false _) _). vm_compute. reflexivity.
  - by_evaluation.
Defined.

Lemma document_coordinates_distinct_witness :
  document_head_coordinate (ref_uuid 1) (ref_uuid 2)
  ≠ document_revision_coordinate (ref_uuid 1) (ref_uuid 2) 3.
Proof.
  exact (proj1 (proj2 (proj2 (proj2 (document_coordinates_distinct (ref_uuid 1) (ref_uuid 2) 3
    (ref_uuid 1) (ref_uuid 2) 3))))).
Defined.
