(* ===== verification/ContextTheorems.v ===== *)
(** * Project Context: the properties

    The theorems about the Context component, each followed by an application
    at a concrete input. *)

From S2P Require Import Prelude Text Platform Reference.
From S2P Require Import ContextCoordinate ContextModel ContextProjection.
From S2P Require Import ContextReducer ContextFacts ContextSpec ContextStore ContextProgress.
From stdpp Require Import prelude strings gmap fin_maps relations.

(** ** Coordinates and edge keys *)

Section coordinate_theorems.
Context `{P : Platform} `{HU : !UuidLaws}.

(** The order on coordinates is a total order, and it is the byte order of
    the identities that are hashed into an edge key. *)
Theorem coordinate_order_total a b c :
  ProjectContextCoordinate_cmp a b
    = slice_cmp (append_identity_bytes a []) (append_identity_bytes b [])
  ∧ (ProjectContextCoordinate_cmp a b = Eq ↔ a = b)
  ∧ ProjectContextCoordinate_cmp b a = CompOpp (ProjectContextCoordinate_cmp a b)
  ∧ (ProjectContextCoordinate_cmp a b = Lt → ProjectContextCoordinate_cmp b c = Lt →
     ProjectContextCoordinate_cmp a c = Lt).
Proof.
  split_and!.
  - apply coordinate_cmp_bytes.
  - apply (cmp_eq ProjectContextCoordinate_cmp).
  - apply (cmp_sym ProjectContextCoordinate_cmp).
  - apply (cmp_lt_trans ProjectContextCoordinate_cmp).
Qed.

(** Canonicalisation is a normal form of coordinate sets: its result is a
    strictly sorted rearrangement of the input, rearranging the input does not
    change it, and it is its own canonical form. *)
Theorem canonicalize_normal_form cs cs' cs2 :
  canonicalize_coordinates cs = Ok cs' →
  Permutation cs' cs
  ∧ StrictlySorted ProjectContextCoordinate_cmp cs'
  ∧ (Permutation cs cs2 → canonicalize_coordinates cs2 = Ok cs')
  ∧ canonicalize_coordinates cs' = Ok cs'
  ∧ validate_canonical_coordinates cs' = Ok tt.
Proof.
  intros H. pose proof (canonicalize_canonical _ _ H) as Hc.
  apply canonicalize_Ok in H as (-> & Hl & Hv & Hd).
  assert (Hp : Permutation (sort_by ProjectContextCoordinate_cmp cs) cs) by apply sort_by_perm.
  split_and!; [done|apply Hc| | |by apply validate_canonical_coordinates_Ok].
  - intros Hp2. apply canonicalize_Ok. split; [|by rewrite <- Hp2].
    by apply (sort_by_Permutation ProjectContextCoordinate_cmp).
  - apply canonicalize_Ok. split; [|by rewrite Hp].
    symmetry. apply (sort_by_id ProjectContextCoordinate_cmp), Hc.
Qed.

(** A coordinate list is refused exactly when it is too short, names a
    non-v4 identity, or repeats a coordinate; duplicates are reported, not
    collapsed. *)
Theorem canonicalize_rejects cs :
  (length cs < 2 →
   canonicalize_coordinates cs = Err (ProjectContextError.TooFewCoordinates 2 (len cs)))
  ∧ (2 ≤ length cs → Forall coordinate_v4 cs → ¬ NoDup cs →
     canonicalize_coordinates cs = Err ProjectContextError.DuplicateCoordinate)
  ∧ (is_Ok (canonicalize_coordinates cs) ↔
     2 ≤ length cs ∧ Forall coordinate_v4 cs ∧ NoDup cs).
Proof.
  split_and!.
  - intros Hl. unfold canonicalize_coordinates. rewrite (proj2 (N.ltb_lt _ _)); [done|].
    unfold len, MIN_EDGE_COORDINATES. lia.
  - intros Hl Hv Hd. unfold canonicalize_coordinates. rewrite (proj2 (N.ltb_ge _ _)).
    2: { unfold len, MIN_EDGE_COORDINATES. lia. }
    cbn [rbind reject_if]. rewrite (proj2 (for_each_Ok _ _ tt)).
    2: { eapply Forall_impl; [exact Hv|]. intros c Hc. by apply coordinate_validate_Ok. }
    cbn [rbind]. destruct (windows2_any _ _) eqn:Hw; [done|].
    by apply (windows2_any_eq_sort ProjectContextCoordinate_cmp cs) in Hw.
  - unfold is_Ok. setoid_rewrite canonicalize_Ok. naive_solver.
Qed.

(** C39. Edge keys identify coordinate sets up to SHA-256 collisions: equal
    keys come from the same project and the same coordinates, or exhibit two
    different inputs with the same digest. *)
Theorem edge_key_identity project cs project' cs' k :
  EdgeKey_derive project cs = Ok k → EdgeKey_derive project' cs' = Ok k →
  (project = project' ∧ cs = cs') ∨ ∃ m m', m ≠ m' ∧ sha256 m = sha256 m'.
Proof.
  intros (-> & _)%EdgeKey_derive_Ok (Hk & _)%EdgeKey_derive_Ok. injection Hk as Hk.
  destruct (decide (edge_preimage project cs = edge_preimage project' cs')) as [He|He].
  - left. by apply edge_preimage_inj.
  - right. eauto.
Qed.

(** The wire form of an edge key is 64 lowercase hexadecimal digits, and
    reading it back yields the key; conversely, any text that is accepted as a
    key is the wire form of the key it denotes, so no key has two spellings. *)
Theorem edge_key_roundtrip `{!HexLaws} `{!Sha256Laws} project cs k s k' :
  (EdgeKey_derive project cs = Ok k →
   length (EdgeKey_to_hex k) = 64 ∧ EdgeKey_from_hex (EdgeKey_to_hex k) = Ok k)
  ∧ (EdgeKey_from_hex s = Ok k' → EdgeKey_to_hex k' = s).
Proof.
  split.
  - intros (-> & _)%EdgeKey_derive_Ok. unfold EdgeKey_to_hex, edge_key_of; simpl.
    apply from_hex_encode; [apply sha256_length|apply sha256_bytes].
  - apply from_hex_to_hex.
Qed.

End coordinate_theorems.

(** ** The reducer *)

Section reducer_theorems.
Context `{P : Platform} `{HU : !UuidLaws}.

(** C10. [reduce_project_context] accepts a command exactly when catalog and
    command are valid for the project, the expected revision is the current
    one, canonical time advances, the loaded edge is valid and has the command's
    coordinates, and the operation is admissible (attach: everything active and
    the Document unbound; detach: the Document is bound to exactly this edge);
    it then returns the specified edge, binding, catalog, receipt and plan. *)
Theorem reduce_context_spec catalog e owner command context t :
  reduce_project_context catalog e owner command context = Ok t ↔
  ctx_accepts catalog e owner command context ∧ t = ctx_next catalog e command context.
Proof. apply reduce_context_Ok. Qed.

End reducer_theorems.

(** ** The store over time *)

Section store_theorems.
Context `{P : Platform} `{HU : !UuidLaws}.

(** C33. In every reachable store the catalog counts its edges and bindings:
    the active edge count is the number of edges, the bound Document count is
    both the number of bindings and the total membership of the edges, and the
    context revision is the number of accepted commands; every edge is valid,
    non-empty and stored under its derived key. *)
Theorem ctx_store_consistent s :
  ctx_reachable s →
  s.(ctx_catalog).(active_edge_count) = N.of_nat (size s.(ctx_edges))
  ∧ s.(ctx_catalog).(bound_document_count) = N.of_nat (size s.(ctx_owners))
  ∧ s.(ctx_catalog).(bound_document_count) = map_sum edge_size s.(ctx_edges)
  ∧ s.(ctx_catalog).(context_revision) = N.of_nat (size s.(ctx_receipts))
  ∧ ProjectContextCatalog_validate s.(ctx_catalog) = Ok tt
  ∧ ∀ k e, s.(ctx_edges) !! k = Some e →
      ProjectContextEdge_validate e s.(ctx_catalog).(project_id) = Ok tt
      ∧ e.(key) = k ∧ EdgeKey_derive s.(ctx_catalog).(project_id) e.(coordinates) = Ok k
      ∧ e.(context_document_ids) ≠ [].
Proof.
  intros Hr%ctx_reachable_inv. split_and!.
  - apply (cinv_edges _ Hr).
  - apply (cinv_owners _ Hr).
  - apply (cinv_sum _ Hr).
  - apply (cinv_receipts _ Hr).
  - apply ctx_catalog_validate_Ok, Hr.
  - intros k e He. destruct (cinv_edge _ Hr _ _ He) as [Hv Hk].
    split_and!; [by apply edge_validate_Ok|done| |apply Hv].
    apply EdgeKey_derive_Ok. destruct Hv. split_and!; try done. by rewrite <- Hk.
Qed.

(** A Context Document belongs to at most one edge, and the binding table
    is exactly the membership relation of the edges. *)
Theorem ctx_binding_unique s d k k' e e' :
  ctx_reachable s →
  s.(ctx_edges) !! k = Some e → d ∈ e.(context_document_ids) →
  s.(ctx_edges) !! k' = Some e' → d ∈ e'.(context_document_ids) →
  k = k' ∧ e = e' ∧ s.(ctx_owners) !! d = Some k.
Proof.
  intros Hr%ctx_reachable_inv He Hd He' Hd'.
  assert (Hk : s.(ctx_owners) !! d = Some k) by (apply (cinv_owner _ Hr); eauto).
  assert (Hk' : s.(ctx_owners) !! d = Some k') by (apply (cinv_owner _ Hr); eauto).
  rewrite Hk in Hk'. injection Hk' as <-. rewrite He in He'. by injection He' as <-.
Qed.

(** On a reachable store, and unless the derived key collides with the key
    of another coordinate set, the reducer never reports an inconsistent
    canonical state: every refusal is about the command. *)
Theorem ctx_no_inconsistency s x e :
  ctx_reachable s →
  (∀ edge, s.(ctx_edges) !! csub_key s x = Some edge →
     edge.(coordinates) = ProjectContextCommand_coordinates x.(csub_command)) →
  ctx_submit s x = Err e →
  ∀ reason, e ≠ ProjectContextError.InvalidCanonicalState reason.
Proof.
  intros Hr%ctx_reachable_inv Hcol He reason ->. unfold ctx_submit in He.
  destruct (ctx_receipts s !! csub_event x); [done|].
  apply rbind_Err in He as [He|(t & _ & ?)]; [|done].
  eapply ctx_no_internal_failure; eauto. by eexists.
Qed.

(** The context revision is a compare-and-swap: once a command based on
    some revision is accepted, no other command based on that revision is, no
    matter how many submissions come between. *)
Theorem ctx_single_writer s x y s1 s2 receipt :
  ctx_reachable s → s.(ctx_receipts) !! x.(csub_event) = None →
  ctx_submit s x = Ok (s1, receipt) → rtc ctx_step s1 s2 →
  y.(csub_command).(expected_context_revision) = x.(csub_command).(expected_context_revision) →
  s2.(ctx_receipts) !! y.(csub_event) = None →
  ∃ e, ctx_submit s2 y = Err e.
Proof.
  intros Hr%ctx_reachable_inv Hnew Hx Hs He Hnew2.
  destruct (ctx_submit_new _ _ _ _ Hnew Hx) as [_ Hrev].
  destruct (ctx_rtc_after _ _ (ctx_submit_inv _ _ _ _ Hr Hx) Hs) as [[_ Hle _] _].
  destruct (ctx_submit s2 y) as [[s3 r]|e] eqn:Hsub; [exfalso|eauto].
  apply ctx_submit_Ok in Hsub as [[? _]|(_ & Hacc & _)]; [congruence|].
  pose proof (ctx_acc_revision _ _ _ _ _ Hacc). lia.
Qed.

(** Replay is idempotent: resubmitting an accepted event at any later time
    returns the receipt of the first acceptance and changes nothing. *)
Theorem ctx_replay_idempotent s x s1 s2 receipt y :
  ctx_reachable s → ctx_submit s x = Ok (s1, receipt) → rtc ctx_step s1 s2 →
  y.(csub_event) = x.(csub_event) →
  ctx_submit s2 y = Ok (s2, receipt).
Proof.
  intros Hr%ctx_reachable_inv Hx Hs Hy.
  assert (Hrec : s1.(ctx_receipts) !! x.(csub_event) = Some receipt).
  { destruct (ctx_receipts s !! csub_event x) eqn:Hnew.
    - apply ctx_submit_Ok in Hx as [[Hold ->]|[? _]]; congruence.
    - by apply (ctx_submit_new _ _ _ _ Hnew Hx). }
  destruct (ctx_rtc_after _ _ (ctx_submit_inv _ _ _ _ Hr Hx) Hs) as [[Hsub _ _] _].
  apply ctx_submit_Ok. left. split; [|done]. rewrite Hy. by eapply lookup_weaken.
Qed.

(** C35. Detaching what was attached undoes it: after an accepted attach, the
    detach of the same Document from the same coordinates, based on the new
    revision, is accepted and restores the edges, the bindings and both
    counters of the store before the attach. *)
Theorem attach_detach_roundtrip s x y s1 receipt :
  ctx_reachable s →
  s.(ctx_receipts) !! x.(csub_event) = None →
  ProjectContextCommand_operation x.(csub_command) = ProjectContextOperation.Attach →
  ctx_submit s x = Ok (s1, receipt) →
  y.(csub_command) = {|
    schema_version := PROJECT_CONTEXT_SCHEMA_VERSION;
    expected_context_revision := s1.(ctx_catalog).(context_revision);
    acting_assignment_id := None;
    runtime_fence := None;
    request := ProjectContextCommandRequest.Detach
      (ProjectContextCommand_coordinates x.(csub_command)) (csub_document x);
  |} →
  s1.(ctx_receipts) !! y.(csub_event) = None →
  (s1.(ctx_catalog).(context_revision) < MAX_SAFE_REVISION)%N →
  ∃ s2 receipt2, ctx_submit s1 y = Ok (s2, receipt2)
    ∧ s2.(ctx_edges) = s.(ctx_edges) ∧ s2.(ctx_owners) = s.(ctx_owners)
    ∧ s2.(ctx_catalog).(active_edge_count) = s.(ctx_catalog).(active_edge_count)
    ∧ s2.(ctx_catalog).(bound_document_count) = s.(ctx_catalog).(bound_document_count).
Proof.
  intros Hr%ctx_reachable_inv Hnew Hop Hx Hy Hnew1 Hroom.
  pose proof (ctx_submit_inv _ _ _ _ Hr Hx) as Hinv1.
  apply ctx_submit_Ok in Hx as [[? _]|(_ & Ha & -> & _)]; [congruence|].
  match type of Hinv1 with ctx_inv ?w => set (s1 := w) in * end.
  assert (Hkey : csub_key s1 y = csub_key s x).
  { unfold csub_key, ProjectContextCommand_coordinates at 1. by rewrite Hy. }
  assert (Hdoc : csub_document y = csub_document x).
  { unfold csub_document at 1, ProjectContextCommand_context_document_id. by rewrite Hy. }
  pose proof (attached_edges s x Hop Ha) as Hedges. fold s1 in Hedges.
  pose proof (attached_owners s x Hop) as Howners. fold s1 in Howners.
  assert (Hready : ctx_accepts s1.(ctx_catalog) (loaded_edge s1 y) (loaded_owner s1 y)
    y.(csub_command) (csub_context s1 y)).
  { apply ctx_ready; try done.
    - intros e. unfold loaded_edge. rewrite Hkey, Hedges, lookup_insert_eq. intros [= <-].
      unfold ProjectContextCommand_coordinates at 2. by rewrite Hy.
    - destruct (ctx_acc_command _ _ _ _ _ Ha). rewrite Hy. split; try done. by apply N.lt_le_incl.
    - by rewrite Hy.
    - rewrite Hy. apply (ctx_acc_size _ _ _ _ _ Ha).
    - by rewrite Hy.
    - unfold ctx_accepts_operation, loaded_edge, loaded_owner.
      rewrite Hkey, Hdoc, Hedges, Howners, !lookup_insert_eq, Hy. simpl.
      eexists. split_and!; [done|done|]. simpl. rewrite (sort_by_perm Uuid_cmp). set_solver. }
  assert (Hback := detach_edges s x Hr Hop Ha y ltac:(by rewrite Hy)).
  assert (Hinv2 : ctx_inv (ctx_write s1 (ctx_next s1.(ctx_catalog) (loaded_edge s1 y)
    y.(csub_command) (csub_context s1 y)))) by (by apply ctx_write_inv).
  assert (He2 : (ctx_write s1 (ctx_next s1.(ctx_catalog) (loaded_edge s1 y)
    y.(csub_command) (csub_context s1 y))).(ctx_edges) = s.(ctx_edges)).
  { rewrite ctx_write_edges. unfold loaded_edge at 1. rewrite Hkey. exact Hback. }
  assert (Ho2 : (ctx_write s1 (ctx_next s1.(ctx_catalog) (loaded_edge s1 y)
    y.(csub_command) (csub_context s1 y))).(ctx_owners) = s.(ctx_owners)).
  { rewrite ctx_write_owners, Hdoc, Howners, Hy. apply delete_insert_id.
    apply (attached_fresh s x Hop Ha). }
  eexists _, _. split_and!.
  - apply ctx_submit_Ok. right. split; [done|]. cbv zeta. split; [exact Hready|by split].
  - exact He2.
  - exact Ho2.
  - rewrite (cinv_edges _ Hinv2), He2. symmetry. apply (cinv_edges _ Hr).
  - rewrite (cinv_owners _ Hinv2), Ho2. symmetry. apply (cinv_owners _ Hr).
Qed.

End store_theorems.

(** ** A sample run *)

Definition requirement (id : Uuid) : ProjectContextCoordinate :=
  ProjectContextCoordinate.ProjectViewObject ProjectViewObjectType.Requirement id.
Definition resource (id : Uuid) : ProjectContextCoordinate :=
  ProjectContextCoordinate.ProjectViewObject ProjectViewObjectType.Resource id.

Lemma golden_project_wf : bytes_ok 16
  [0x3f; 0x2b; 0x2e; 0x8f; 0x3f; 0x1d; 0x4e; 0x91; 0x91; 0xac; 0x5e; 0x5f; 0x1f; 0x0a; 0x2d; 0x77]%N
  = true.
Proof. reflexivity. Qed.

(** The project of the repository's own tests. *)
Definition golden_project : Uuid := mkBytes
  [0x3f; 0x2b; 0x2e; 0x8f; 0x3f; 0x1d; 0x4e; 0x91; 0x91; 0xac; 0x5e; 0x5f; 0x1f; 0x0a; 0x2d; 0x77]%N
  golden_project_wf.

Definition golden_coordinates : list ProjectContextCoordinate :=
  [requirement (ref_uuid 1); resource (ref_uuid 2)].

(** With SHA-256 the coordinates have the key that [tests/domain.rs] expects. *)
Example edge_key_golden :
  match @EdgeKey_derive sha_platform golden_project
          [@ProjectContextCoordinate.ProjectViewObject sha_platform
             ProjectViewObjectType.Requirement (ref_uuid 1);
           @ProjectContextCoordinate.ProjectViewObject sha_platform
             ProjectViewObjectType.Resource (ref_uuid 2)] with
  | Ok k => @EdgeKey_to_hex sha_platform k
  | Err _ => []
  end = lit "95998c5b78b6fa4efda616f85841aa001fce244775aa2ea4c5ae5ab9ec566c34".
Proof. vm_compute. reflexivity. Qed.

Definition golden_key : EdgeKey := edge_key_of golden_project golden_coordinates.

Lemma golden_derive : EdgeKey_derive golden_project golden_coordinates = Ok golden_key.
Proof. by_evaluation. Qed.

Definition csample_catalog : ProjectContextCatalog := {|
  project_id := golden_project;
  context_revision := 0;
  active_edge_count := 0;
  bound_document_count := 0;
  projection_generation := 1;
  initialized_at := 100;
  updated_at := 100;
|}.

Definition csample (event expected : N) (request : ProjectContextCommandRequest) : CtxSubmission := {|
  csub_actor := 5%N;
  csub_event := event;
  csub_command := {|
    schema_version := PROJECT_CONTEXT_SCHEMA_VERSION;
    expected_context_revision := expected;
    acting_assignment_id := None;
    runtime_fence := None;
    request := request;
  |};
  csub_clock := 90;
  csub_coordinates_active := true;
  csub_document_active := true;
|}.

Definition csample_attach : CtxSubmission :=
  csample 1 0 (ProjectContextCommandRequest.Attach golden_coordinates (ref_uuid 9)).
Definition csample_rival : CtxSubmission :=
  csample 2 0 (ProjectContextCommandRequest.Attach golden_coordinates (ref_uuid 8)).
Definition csample_detach : CtxSubmission :=
  csample 3 1 (ProjectContextCommandRequest.Detach golden_coordinates (ref_uuid 9)).

Definition cafter (s : CtxStore) (x : CtxSubmission) : CtxStore :=
  match ctx_submit s x with Ok (s', _) => s' | Err _ => s end.
Definition creceipt_of (s : CtxStore) (x : CtxSubmission) : option ProjectContextReceipt :=
  match ctx_submit s x with Ok (_, r) => Some r | Err _ => None end.
Definition cerror_of (s : CtxStore) (x : CtxSubmission) : option ProjectContextError :=
  match ctx_submit s x with Ok _ => None | Err e => Some e end.

Definition csample_s0 : CtxStore := ctx_bootstrap csample_catalog.
Definition csample_s1 : CtxStore := cafter csample_s0 csample_attach.

Definition csample_receipt (s : CtxStore) (x : CtxSubmission) : ProjectContextReceipt :=
  default
    {| receipt_schema_version := 0; receipt_change_id := 0%N; receipt_actor := 0%N;
       receipt_acting_assignment_id := None; receipt_operation := ProjectContextOperation.Attach;
       receipt_expected_context_revision := 0; receipt_context_revision := 0;
       receipt_edge_key := golden_key; receipt_edge_state := ProjectContextBindingState.Active;
       receipt_edge_document_count := 0; receipt_context_document_id := ref_uuid 0;
       receipt_accepted_at := 0 |}
    (creceipt_of s x).

Lemma csample_submit s x :
  opt_is_some (creceipt_of s x) = true → ctx_submit s x = Ok (cafter s x, csample_receipt s x).
Proof.
  unfold csample_receipt, creceipt_of, cafter. by destruct (ctx_submit s x) as [[s' r]|].
Qed.

Lemma csample_fresh s x :
  opt_is_some (s.(ctx_receipts) !! x.(csub_event)) = false →
  s.(ctx_receipts) !! x.(csub_event) = None.
Proof. by destruct (ctx_receipts s !! csub_event x). Qed.

Lemma cerror_Some s x e : cerror_of s x = Some e → ctx_submit s x = Err e.
Proof. unfold cerror_of. destruct (ctx_submit s x); naive_solver. Qed.

Lemma csample_reachable0 : ctx_reachable csample_s0.
Proof. exists golden_project, 1%N, 100%Z, csample_catalog. split; [by_evaluation|done]. Qed.

Lemma csample_step1 : ctx_step csample_s0 csample_s1.
Proof.
  apply (ctx_step_submit csample_s0 csample_s1 csample_attach
    (csample_receipt csample_s0 csample_attach)).
  apply (csample_submit csample_s0 csample_attach). vm_compute. reflexivity.
Qed.

Lemma csample_reachable1 : ctx_reachable csample_s1.
Proof.
  exists golden_project, 1%N, 100%Z, csample_catalog. split; [by_evaluation|].
  apply rtc_once, csample_step1.
Qed.

Lemma csample_reduce : ∃ t,
  reduce_project_context csample_s0.(ctx_catalog) (loaded_edge csample_s0 csample_attach)
    (loaded_owner csample_s0 csample_attach) csample_attach.(csub_command)
    (csub_context csample_s0 csample_attach) = Ok t.
Proof.
  set (r := reduce_project_context _ _ _ _ _).
  assert (H : match r with Ok _ => true | Err _ => false end = true) by (vm_compute; reflexivity).
  destruct r as [t|]; [by exists t|discriminate H].
Qed.

(** ** Applications *)

Lemma coordinate_order_total_witness :
  ProjectContextCoordinate_cmp (requirement (ref_uuid 1)) (resource (ref_uuid 2)) = Lt
  ∧ ProjectContextCoordinate_cmp (resource (ref_uuid 2)) (requirement (ref_uuid 1))
    = CompOpp (ProjectContextCoordinate_cmp (requirement (ref_uuid 1)) (resource (ref_uuid 2))).
Proof.
  split; [vm_compute; reflexivity|].
  exact (proj1 (proj2 (proj2 (coordinate_order_total (requirement (ref_uuid 1))
    (resource (ref_uuid 2)) (resource (ref_uuid 2)))))).
Defined.

Lemma canonicalize_normal_form_witness :
  canonicalize_coordinates (reverse golden_coordinates) = Ok golden_coordinates.
Proof.
  refine (proj1 (proj2 (proj2 (canonicalize_normal_form golden_coordinates golden_coordinates
    (reverse golden_coordinates) _))) _).
  - by_evaluation.
  - symmetry. apply reverse_Permutation.
Defined.

Lemma canonicalize_rejects_witness :
  canonicalize_coordinates [requirement (ref_uuid 1)]
  = Err (ProjectContextError.TooFewCoordinates 2 (len [requirement (ref_uuid 1)])).
Proof. apply (proj1 (canonicalize_rejects [requirement (ref_uuid 1)])). simpl. lia. Defined.

Lemma edge_key_identity_witness :
  (golden_project = golden_project ∧ golden_coordinates = golden_coordinates)
  ∨ ∃ m m', m ≠ m' ∧ sha256 m = sha256 m'.
Proof. exact (edge_key_identity _ _ _ _ golden_key golden_derive golden_derive). Defined.

Lemma edge_key_roundtrip_witness :
  EdgeKey_from_hex (EdgeKey_to_hex golden_key) = Ok golden_key.
Proof.
  exact (proj2 (proj1 (edge_key_roundtrip golden_project golden_coordinates golden_key [] golden_key)
    golden_derive)).
Defined.

Lemma reduce_context_spec_witness :
  ctx_accepts csample_s0.(ctx_catalog) (loaded_edge csample_s0 csample_attach)
    (loaded_owner csample_s0 csample_attach) csample_attach.(csub_command)
    (csub_context csample_s0 csample_attach).
Proof.
  destruct csample_reduce as [t Ht].
  exact (proj1 (proj1 (reduce_context_spec _ _ _ _ _ t) Ht)).
Defined.

Lemma ctx_store_consistent_witness :
  context_revision (ctx_catalog csample_s1) = 1%N
  ∧ context_revision (ctx_catalog csample_s1) = N.of_nat (size (ctx_receipts csample_s1)).
Proof.
  split; [by_evaluation|].
  destruct (ctx_store_consistent csample_s1 csample_reachable1) as (_ & _ & _ & H & _). exact H.
Defined.

Definition csample_edge : ProjectContextEdge :=
  default (edge_of golden_project [] []) (ctx_edges csample_s1 !! golden_key).

Lemma ctx_binding_unique_witness : ctx_owners csample_s1 !! (ref_uuid 9 : Uuid) = Some golden_key.
Proof.
  assert (He : ctx_edges csample_s1 !! golden_key = Some csample_edge).
  { assert (H : opt_is_some (ctx_edges csample_s1 !! golden_key) = true)
      by (vm_compute; reflexivity).
    unfold csample_edge. destruct (ctx_edges csample_s1 !! golden_key); [reflexivity|discriminate H]. }
  assert (Hd : (ref_uuid 9 : Uuid) ∈ context_document_ids csample_edge) by by_evaluation.
  exact (proj2 (proj2 (ctx_binding_unique csample_s1 (ref_uuid 9) golden_key golden_key csample_edge
    csample_edge csample_reachable1 He Hd He Hd))).
Defined.

Lemma ctx_no_inconsistency_witness :
  ctx_submit csample_s1 csample_rival = Err (ProjectContextError.RevisionConflict 0 1)
  ∧ ProjectContextError.RevisionConflict 0 1 ≠ ProjectContextError.InvalidCanonicalState [].
Proof.
  assert (He : ctx_submit csample_s1 csample_rival = Err (ProjectContextError.RevisionConflict 0 1)).
  { apply cerror_Some. by_evaluation. }
  split; [exact He|]. apply (ctx_no_inconsistency csample_s1 csample_rival).
  - exact csample_reachable1.
  - intros edge Hedge.
    assert (H : (coordinates <$> (ctx_edges csample_s1 !! csub_key csample_s1 csample_rival))
      = Some golden_coordinates) by by_evaluation.
    rewrite Hedge in H. injection H as H. exact H.
  - exact He.
Defined.

Lemma ctx_single_writer_witness : ∃ e, ctx_submit csample_s1 csample_rival = Err e.
Proof.
  apply (ctx_single_writer csample_s0 csample_attach csample_rival csample_s1 csample_s1
    (csample_receipt csample_s0 csample_attach)).
  - exact csample_reachable0.
  - apply csample_fresh. vm_compute. reflexivity.
  - apply csample_submit. vm_compute. reflexivity.
  - exact (rtc_refl _ _).
  - reflexivity.
  - apply csample_fresh. vm_compute. reflexivity.
Defined.

Lemma ctx_replay_idempotent_witness :
  ctx_submit csample_s1 csample_attach
  = Ok (csample_s1, csample_receipt csample_s0 csample_attach).
Proof.
  apply (ctx_replay_idempotent csample_s0 csample_attach csample_s1 csample_s1).
  - exact csample_reachable0.
  - apply csample_submit. vm_compute. reflexivity.
  - exact (rtc_refl _ _).
  - reflexivity.
Defined.

Lemma attach_detach_roundtrip_witness :
  ∃ s2 receipt2, ctx_submit csample_s1 csample_detach = Ok (s2, receipt2)
    ∧ s2.(ctx_edges) = csample_s0.(ctx_edges) ∧ s2.(ctx_owners) = csample_s0.(ctx_owners)
    ∧ s2.(ctx_catalog).(active_edge_count) = csample_s0.(ctx_catalog).(active_edge_count)
    ∧ s2.(ctx_catalog).(bound_document_count) = csample_s0.(ctx_catalog).(bound_document_count).
Proof.
  apply (attach_detach_roundtrip csample_s0 csample_attach csample_detach csample_s1
    (csample_receipt csample_s0 csample_attach)).
  - exact csample_reachable0.
  - apply csample_fresh. vm_compute. reflexivity.
  - reflexivity.
  - apply csample_submit. vm_compute. reflexivity.
  - by_evaluation.
  - apply csample_fresh. vm_compute. reflexivity.
  - by_evaluation.
Defined.
