(* ===== verification/ViewTheorems.v ===== *)
(** * Project View schema 3: the properties

    The theorems about the object reducer, each with an application to a small
    project on the reference platform. *)

From S2P Require Import Prelude Text Platform Reference ViewModel.
From S2P Require Import ViewMutation ViewContract ViewReference ViewObject ViewCommand ViewState.
From S2P Require Import ViewProjection ViewFacts ViewSpec ViewHistory ViewErrors ViewProgress.
From stdpp Require Import prelude strings gmap fin_maps relations.

Section theorems.
Context `{P : Platform} `{HU : !UuidLaws}.

(** A project that validates and has an update time is initialized. *)
Lemma valid_view_ok s time :
  validate_state s = Ok tt → s.(updated_at) = Some time → view_ok s time.
Proof.
  intros [Hs|[t Hs]]%validate_state_Ok Ht; [rewrite Hs in Ht; done|].
  rewrite (view_ok_updated s t Hs) in Ht. by injection Ht as ->.
Qed.

(** C30. [validate_state] decides the snapshot invariant: it accepts exactly the
    empty project and the projects in which the revision is positive and safe,
    every row is keyed by its id and well formed, the one active Profile has
    the project's id, exactly the Role identities have a level, and every
    relation and Resource reference of an active object resolves to an active
    object of the right type. *)
Theorem validate_state_decides s :
  validate_state s = Ok tt ↔ view_empty s ∨ ∃ time, view_ok s time.
Proof. apply validate_state_Ok. Qed.

(** C11. The two aggregate validations that [reduce] makes are redundant: on a
    valid project and with a clock that does not run backwards, [reduce] is the
    reducer without them, on every input and with the same errors. *)
Theorem reduce_self_checks_redundant s time command actor now caps proof :
  validate_state s = Ok tt → s.(updated_at) = Some time → (time ≤ now)%Z →
  reduce s command actor now caps proof = reduce_unchecked s command actor now caps proof.
Proof. intros Hv Ht Hn. apply (reduce_unchecked_eq s time); [by apply valid_view_ok|done]. Qed.

(** C34. On a valid project the reducer blames the command, never the project:
    it does not report [InvalidFinalState] or [InvalidRoleLevels]. *)
Theorem view_never_damaged s time command actor now caps proof e :
  validate_state s = Ok tt → s.(updated_at) = Some time → (time ≤ now)%Z →
  reduce s command actor now caps proof = Err e → damaged e = false.
Proof.
  intros Hv Ht Hn. apply no_err_Err.
  apply (reduce_not_damaged s time); [by apply valid_view_ok|done].
Qed.

(** A command moves the project by one row: the outcome lists one changed
    entry, which is a fresh active object at revision 1, the next revision of an
    active object, or the tombstone of one, stamped with the actor, the time
    and the new project revision; every other row is untouched, and the only
    Role level that changes is that of a Role being created. *)
Theorem view_frame s command actor now caps proof next outcome :
  reduce s command actor now caps proof = Ok (next, outcome) →
  ∃ changed,
    outcome.(changed_entries) = [changed]
    ∧ row_change command now actor (s.(entries) !! ProjectViewEntryV3_id changed) changed
    ∧ ProjectViewEntryV3_project_revision changed = (s.(project_revision) + 1)%N
    ∧ entry_changed changed = (now, actor)
    ∧ next.(entries) = <[ProjectViewEntryV3_id changed := changed]> s.(entries)
    ∧ next.(role_levels) = next_levels command s changed
    ∧ next.(project_revision) = (s.(project_revision) + 1)%N
    ∧ next.(project_id) = s.(project_id) ∧ next.(initialized_at) = s.(initialized_at)
    ∧ next.(updated_at) = Some now ∧ validate_state next = Ok tt.
Proof.
  intros (time & prepared & delta & changed & levels & Hs & Ha & -> & -> & Hn)%reduce_Ok.
  pose proof (accepted_change _ _ _ _ _ _ _ _ _ _ _ Hs Ha) as (Hc & -> & Hr & Hw).
  exists changed. split_and!; try done. by eapply view_ok_valid.
Qed.

(** C3. The relation graph is closed in every project reached from a valid one:
    every Stage is under an active Plan, every Work handles an active
    Requirement or Issue, every other filled slot names an active object of the
    slot's type, no Issue is about itself, and every Resource named in a Context
    set is active. *)
Theorem view_graph_closed s s' k o :
  rtc view_step s s' → validate_state s = Ok tt → is_initialized s = true →
  s'.(entries) !! k = Some (ProjectViewEntryV3.Active o) →
  ProjectViewObjectV3.id o = k
  ∧ relations_ok s'.(entries) k (ProjectViewObjectV3.relations o)
  ∧ relation_shape (ProjectViewObjectV3.object_type o) (ProjectViewObjectV3.relations o)
  ∧ context_ok s'.(entries) (ProjectViewObjectV3.object_type o)
      (ProjectViewObjectV3.context_references o).
Proof.
  intros Hr Hv Hi Hk.
  assert (∃ time, view_ok s' time) as [time Hs].
  { apply (view_reachable_ok s s' Hr). apply validate_state_Ok in Hv as [He|Hs]; [|done].
    rewrite He in Hi. done. }
  destruct (view_ok_entries s' time Hs k _ Hk) as [-> (Ho & _)]. simpl.
  destruct (view_ok_graph s' time Hs _ o Hk) as [Hrel Hctx].
  split_and!; [done..| |done].
  eapply validate_relation_shape_Ok. exact (object_ok_shape o Ho).
Qed.

(** C26. Rows only move forward: an id is never reused, an object keeps its
    type, creator and creation time, its revision never decreases, a tombstone
    is final, and the governance level of a Role never changes. *)
Theorem view_rows_forward s s' k e :
  rtc view_step s s' → s.(entries) !! k = Some e →
  ∃ e', s'.(entries) !! k = Some e'
    ∧ ProjectViewEntryV3_object_type e' = ProjectViewEntryV3_object_type e
    ∧ entry_created e' = entry_created e
    ∧ (ProjectViewEntryV3_object_revision e ≤ ProjectViewEntryV3_object_revision e')%N
    ∧ (ProjectViewEntryV3_object_revision e = ProjectViewEntryV3_object_revision e' → e' = e)
    ∧ (∀ d, e = ProjectViewEntryV3.Tombstone d → e' = e)
    ∧ (∀ level, s.(role_levels) !! k = Some level → s'.(role_levels) !! k = Some level).
Proof.
  intros Hr Hk. pose proof (λ level, view_reachable_level s s' k level Hr) as Hl. destruct (view_reachable_row s s' k e Hr Hk) as (e' & Hk' & Ha).
  exists e'. split; [done|]. destruct Ha as [->|(o & -> & _ & Ht & Hc & Hlt)]; [done|].
  split_and!; [done|done|lia|lia|done|done].
Qed.

(** A project keeps a Goal: if it has an active Goal, so has every project
    reached from it. *)
Theorem view_goal_persists s s' :
  rtc view_step s s' → has_goal s → has_goal s'.
Proof. apply view_reachable_has_goal. Qed.

Lemma view_reachable_revision s s' :
  rtc view_step s s' → (s.(project_revision) ≤ s'.(project_revision))%N.
Proof.
  induction 1 as [|s t s' Hst _ IH]; [done|].
  apply view_step_inv in Hst as (time & now & command & actor & changed & _ & _ & _ & ->).
  simpl in IH. lia.
Qed.

(** Commands are serialised by the project revision: once a command based
    on a revision is accepted, every command based on the same revision is
    refused, however many other commands come between. *)
Theorem view_single_writer s command actor now caps proof next outcome s' command' actor' now'
    caps' proof' :
  reduce s command actor now caps proof = Ok (next, outcome) →
  rtc view_step next s' →
  command'.(expected_project_revision) = command.(expected_project_revision) →
  ∃ e, reduce s' command' actor' now' caps' proof' = Err e.
Proof.
  intros (time & prepared & delta & changed & levels & _ & Ha & -> & _ & _)%reduce_Ok Hr He.
  destruct (reduce s' command' actor' now' caps' proof') as [[n o]|e] eqn:Hred; [|by eexists].
  apply reduce_Ok in Hred as (time' & prepared' & delta' & changed' & levels' & _ & Ha' & _).
  apply view_reachable_revision in Hr. simpl in Hr.
  pose proof (accepted_revision _ _ _ _ _ _ _ _ _ _ Ha).
  pose proof (accepted_revision _ _ _ _ _ _ _ _ _ _ Ha'). exfalso. lia.
Qed.

(** C19. On a valid project a well-formed deletion that expects the current
    revision is accepted exactly when the object is active, has the declared
    type, is not the Profile and not the last Goal, and nothing refers to it. *)
Theorem view_delete_decided s time command delete actor now caps proof :
  validate_state s = Ok tt → s.(updated_at) = Some time → (time ≤ now)%Z →
  ProjectObjectCommandV3_validate_for_submission command = Ok tt →
  command.(request) = ProjectObjectRequestV3.Delete delete →
  command.(expected_project_revision) = s.(project_revision) →
  (s.(project_revision) < MAX_SAFE_REVISION)%N →
  is_Ok (reduce s command actor now caps proof) ↔
  ∃ cur, s.(entries) !! delete.(delete_object_id) = Some (ProjectViewEntryV3.Active cur)
    ∧ ProjectViewObjectV3.object_type cur = delete.(delete_object_type)
    ∧ (ProjectViewObjectV3.object_revision cur < MAX_SAFE_REVISION)%N
    ∧ deletable s cur.
Proof. intros Hv Ht. apply reduce_delete_Ok. by apply valid_view_ok. Qed.

(** C32. No unproved Document: every Document that a row of the next state names,
    in its Context set or as a Resource guide, was named there before, or the
    Document capability was on and the proof supplied shows the Document in the
    state its mode asks for.  With the Context capability off no row gains a
    Context reference at all. *)
Theorem view_documents_proved s command actor now caps proof next outcome k e :
  reduce s command actor now caps proof = Ok (next, outcome) →
  next.(entries) !! k = Some e →
  (∀ c, c ∈ context_targets (ProjectViewEntryV3_context_references e) →
     c ∈ context_targets (row_context (s.(entries) !! k))
     ∨ (caps.(document_capability_available) = true ∧ proved proof c))
  ∧ (∀ g, entry_guide e = Some g →
     row_guide (s.(entries) !! k) = Some g
     ∨ (caps.(document_capability_available) = true ∧ proved proof (DocumentCoordinate_live g)))
  ∧ (caps.(project_context_enabled) = false →
     ∀ r, r ∈ ProjectViewEntryV3_context_references e → r ∈ row_context (s.(entries) !! k)).
Proof.
  intros (time & prepared & delta & changed & levels & Hs & Ha & -> & _ & _)%reduce_Ok Hk.
  simpl in Hk. split_and!.
  - intros c Hc. destruct (decide (c ∈ context_targets (row_context (s.(entries) !! k))));
      [by left|right]. eapply accepted_targets; [done..|]. by left.
  - intros g Hg. destruct (decide (row_guide (s.(entries) !! k) = Some g)); [by left|right].
    eapply accepted_targets; [done..|]. right. eauto.
  - intros Hoff r. by eapply accepted_context_gate.
Qed.

(** Context sets have a normal form: a set is accepted exactly when it is
    within the size limit, valid and without duplicates; its canonical form is
    a rearrangement of it, does not depend on the order given, and is its own
    canonical form. *)
Theorem context_references_normal_form rs rs' out :
  (is_Ok (canonicalize_context_references rs) ↔ references_ok rs)
  ∧ (canonicalize_context_references rs = Ok out →
     Permutation out rs
     ∧ canonicalize_context_references out = Ok out
     ∧ (Permutation rs rs' → canonicalize_context_references rs' = Ok out)).
Proof.
  unfold is_Ok. setoid_rewrite canonicalize_references_Ok. split; [naive_solver|].
  intros H. pose proof (proj2 (canonicalize_references_Ok _ _) H) as H'.
  apply canonicalize_references_stable in H' as [Hst Hp].
  apply canonicalize_references_Ok in Hst. destruct H as [-> (Hl & Hv & Hd)].
  split_and!; [done|apply Hst|apply Hst|].
  intros Hp'. split; [|by unfold references_ok, len; rewrite <- Hp'].
  by apply (sort_by_key_perm context_key context_key_cmp reference_valid context_key_inj).
Qed.

(** Publication: the plan of an accepted command has exactly one head, for
    the changed entry at its new revision, a Role definition exactly when that
    entry is an active Role, and it passes the single-head check; it fails only
    for a Role whose text the Role contract does not accept, that is, text with
    surrounding white space or a NUL. *)
Theorem view_plan_single_head s command actor now caps proof next outcome :
  reduce s command actor now caps proof = Ok (next, outcome) →
  ∃ changed,
    outcome.(changed_entries) = [changed]
    ∧ (∀ plan, ProjectionPlanV3_for_object_outcome outcome (role_level next) = Ok plan →
       ∃ head, plan = {| plan_project_revision := next.(project_revision); heads := [head] |}
         ∧ ProjectedHeadV3_object_id head = ProjectViewEntryV3_id changed
         ∧ ProjectedHeadV3_object_revision head = ProjectViewEntryV3_object_revision changed
         ∧ (ProjectedHeadV3_is_role_definition head = true
            ↔ ∃ o, changed = ProjectViewEntryV3.Active o
               ∧ ProjectViewObjectV3.object_type o = ProjectViewObjectType.Role)
         ∧ ProjectionPlanV3_validate_single_head_per_object plan = Ok tt)
    ∧ (is_Ok (ProjectionPlanV3_for_object_outcome outcome (role_level next)) ↔
       ∀ o role, changed = ProjectViewEntryV3.Active o →
         ProjectViewObjectV3.data o = ProjectViewObjectDataV3.Role role → role_publishable role).
Proof.
  intros (time & prepared & delta & changed & levels & Hs & Ha & -> & -> & Hn)%reduce_Ok.
  exists changed. split; [done|]. erewrite plan_single by done. cbn [outcome_project_revision].
  assert (Hrow : entries (committed s (project_revision s + 1) now changed levels)
    !! ProjectViewEntryV3_id changed = Some changed) by apply lookup_insert_eq.
  split.
  - intros plan (head & Hh & [= <-])%rbind_Ok. exists head. split; [done|].
    by apply (head_of_spec (role_level (committed s (project_revision s + 1) now changed levels))).
  - pose proof (plan_head_Ok _ _ _ Hn Hrow) as Hhead. rewrite <- Hhead. unfold is_Ok.
    setoid_rewrite rbind_Ok. naive_solver.
Qed.

(** C37. Loading a snapshot inverts storing one: [from_snapshot] returns a state
    exactly when the state is valid, has the given header, and the rows and
    levels are its entries and levels in some order; in particular a stored
    valid state loads as itself, and duplicate rows are refused. *)
Theorem view_snapshot_roundtrip project revision initialized updated rows levels s :
  ProjectViewStateV3_from_snapshot project revision initialized updated rows levels = Ok s ↔
  validate_state s = Ok tt
  ∧ s.(project_id) = project ∧ s.(project_revision) = revision
  ∧ s.(initialized_at) = initialized ∧ s.(updated_at) = updated
  ∧ Permutation rows (btree_values s.(entries))
  ∧ Permutation levels (btree_iter s.(role_levels)).
Proof. apply from_snapshot_Ok. Qed.

End theorems.

(** ** A small project

    A Profile, a Goal, a Plan under it and a Role; a Resource is created with a
    proved guide Document, then the Plan is deleted. *)

Definition view_time : DateTime := 100%Z.

Definition vid (seed : N) : @Uuid reference_platform := ref_uuid seed.

Definition view_object (seed : N) (data : ProjectViewObjectDataV3)
    (relations : ProjectViewRelations) : Uuid * ProjectViewEntryV3 :=
  (vid seed, ProjectViewEntryV3.Active {|
    ProjectViewObjectV3.id := vid seed;
    ProjectViewObjectV3.object_type := ProjectViewObjectDataV3_object_type data;
    ProjectViewObjectV3.object_revision := 1;
    ProjectViewObjectV3.project_revision := 1;
    ProjectViewObjectV3.created_at := view_time;
    ProjectViewObjectV3.updated_at := view_time;
    ProjectViewObjectV3.created_by := 7%N : PublicKey;
    ProjectViewObjectV3.updated_by := 7%N : PublicKey;
    ProjectViewObjectV3.data := data;
    ProjectViewObjectV3.relations := relations;
    ProjectViewObjectV3.context_references := [];
  |}).

Definition view_s0 : ProjectViewStateV3 := {|
  project_id := vid 1;
  project_revision := 4;
  initialized_at := Some view_time;
  updated_at := Some view_time;
  entries := list_to_map [
    view_object 1 (ProjectViewObjectDataV3.ProjectProfile {|
      ProjectProfile.name := lit "Carryforth"; ProjectProfile.positioning := lit "continuity";
      ProjectProfile.purpose := lit "carry work forward"; ProjectProfile.problem := lit "context loss";
      ProjectProfile.scope := lit "projects"; ProjectProfile.summary := None |})
      ProjectViewRelations_default;
    view_object 2 (ProjectViewObjectDataV3.Goal {|
      Goal.title := lit "Ship"; Goal.desired_outcome := lit "a release"; Goal.directions := [];
      Goal.summary := None |}) ProjectViewRelations_default;
    view_object 3 (ProjectViewObjectDataV3.Plan {|
      ProjectPlan.title := lit "Plan"; ProjectPlan.description := lit "steps";
      ProjectPlan.status := PlanStatus.Draft; ProjectPlan.summary := None |})
      (relations_of (Some (vid 2)) None None None None);
    view_object 4 (ProjectViewObjectDataV3.Role {|
      ProjectRole.name := lit "Maintainer"; ProjectRole.purpose := lit "maintain";
      ProjectRole.responsibilities := [lit "review"]; ProjectRole.boundaries := [];
      ProjectRole.active := true; ProjectRole.summary := None |}) ProjectViewRelations_default
  ];
  role_levels := {[ (vid 4) := RoleLevel.Admin ]};
|}.

Definition view_actor : @PublicKey reference_platform := 8%N.

Definition view_caps : V3ReducerCapabilities := V3ReducerCapabilities_stage4 true.

Definition view_proof : ReferenceTargetProof := {|
  documents := {[ DocumentCoordinate_live (vid 9) := DocumentTargetState.CurrentActive 2 ]};
|}.

Definition view_create : ProjectObjectCommandV3 :=
  ProjectObjectCommandV3_new 4 None (ProjectObjectRequestV3.Create {|
    create_object := NewProjectViewObjectV3.Resource (vid 5) (lit "Handbook")
      (lit "guide") None (vid 9) [] |}).

Definition view_plan_deletion : DeleteProjectObjectV3 := {|
  delete_object_type := ProjectViewObjectType.Plan;
  delete_object_id := vid 3;
|}.

Definition view_delete (revision : N) : ProjectObjectCommandV3 :=
  ProjectObjectCommandV3_new revision None (ProjectObjectRequestV3.Delete view_plan_deletion).

Definition view_run (s : ProjectViewStateV3) (command : ProjectObjectCommandV3) (now : DateTime) :=
  reduce s command view_actor now view_caps view_proof.

Definition view_after (s : ProjectViewStateV3) command now : ProjectViewStateV3 :=
  match view_run s command now with Ok (next, _) => next | Err _ => s end.

Definition view_outcome (s : ProjectViewStateV3) command now : ProjectObjectOutcomeV3 :=
  match view_run s command now with
  | Ok (_, outcome) => outcome
  | Err _ => {| outcome_project_revision := 0; changed_entries := [];
                outcome_document_target_delta := DocumentTargetDelta_default |}
  end.

Definition view_ok_run (s : ProjectViewStateV3) command now : bool :=
  match view_run s command now with Ok _ => true | Err _ => false end.

Lemma view_run_Ok s command now :
  view_ok_run s command now = true →
  view_run s command now = Ok (view_after s command now, view_outcome s command now).
Proof.
  unfold view_ok_run, view_after, view_outcome. by destruct (view_run s command now) as [[]|].
Qed.

Lemma view_run_step s command now :
  view_ok_run s command now = true → view_step s (view_after s command now).
Proof. intros H%view_run_Ok. econstructor. exact H. Qed.

Definition view_s1 : ProjectViewStateV3 := view_after view_s0 view_create 101%Z.
Definition view_s2 : ProjectViewStateV3 := view_after view_s1 (view_delete 5) 102%Z.

Lemma view_run1 : view_ok_run view_s0 view_create 101%Z = true.
Proof. vm_compute. reflexivity. Qed.
Lemma view_run2 : view_ok_run view_s1 (view_delete 5) 102%Z = true.
Proof. vm_compute. reflexivity. Qed.

Lemma view_reach2 : rtc view_step view_s0 view_s2.
Proof.
  eapply rtc_l; [exact (view_run_step _ _ _ view_run1)|].
  exact (rtc_once _ _ (view_run_step _ _ _ view_run2)).
Qed.

Lemma view_valid0 : validate_state view_s0 = Ok tt.
Proof. by_evaluation. Qed.
Lemma view_valid1 : validate_state view_s1 = Ok tt.
Proof. by_evaluation. Qed.

(** ** Applications *)

Lemma reduce_self_checks_redundant_witness :
  reduce_unchecked view_s0 view_create view_actor 101%Z view_caps view_proof
  = Ok (view_s1, view_outcome view_s0 view_create 101%Z).
Proof.
  rewrite <- (reduce_self_checks_redundant view_s0 view_time view_create view_actor 101%Z
    view_caps view_proof view_valid0 eq_refl ltac:(vm_compute; discriminate)).
  exact (view_run_Ok _ _ _ view_run1).
Defined.

Definition view_error (s : ProjectViewStateV3) command now : option V3ProjectObjectError :=
  match view_run s command now with Ok _ => None | Err e => Some e end.

Lemma view_error_Some s command now e :
  view_error s command now = Some e → view_run s command now = Err e.
Proof. unfold view_error. by destruct (view_run s command now) as [|?]; intros [= ->]. Qed.

Definition view_conflict : V3ProjectObjectError :=
  V3ProjectObjectError.Object (DomainError.RevisionConflict 4 5).

Lemma view_never_damaged_witness :
  view_run view_s1 (view_delete 4) 102%Z = Err view_conflict ∧ damaged view_conflict = false.
Proof.
  assert (H : view_run view_s1 (view_delete 4) 102%Z = Err view_conflict).
  { apply view_error_Some. by_evaluation. }
  split; [exact H|].
  refine (view_never_damaged view_s1 101%Z (view_delete 4) view_actor 102%Z view_caps
    view_proof view_conflict view_valid1 _ _ H).
  - by_evaluation.
  - vm_compute. discriminate.
Defined.

Lemma view_frame_witness :
  project_revision view_s1 = 5%N ∧ validate_state view_s1 = Ok tt.
Proof.
  destruct (view_frame _ _ _ _ _ _ _ _ (view_run_Ok _ _ _ view_run1))
    as (changed & _ & _ & _ & _ & _ & _ & Hrev & _ & _ & _ & Hv).
  split; [exact Hrev|exact Hv].
Defined.

Definition view_row (s : ProjectViewStateV3) (seed : N) : ProjectViewEntryV3 :=
  default (view_object seed (ProjectViewObjectDataV3.Goal {|
    Goal.title := []; Goal.desired_outcome := []; Goal.directions := []; Goal.summary := None |})
    ProjectViewRelations_default).2 (s.(entries) !! (vid seed)).

Lemma view_row_Some s seed :
  opt_is_some (s.(entries) !! (vid seed)) = true →
  s.(entries) !! (vid seed) = Some (view_row s seed).
Proof. unfold view_row. by destruct (entries s !! (vid seed)). Qed.

Definition view_active (s : ProjectViewStateV3) (seed : N) : option ProjectViewObjectV3 :=
  entry_active (view_row s seed).

Lemma view_graph_closed_witness :
  ∃ o, entries view_s1 !! (vid 3) = Some (ProjectViewEntryV3.Active o)
    ∧ relations_ok view_s1.(entries) (vid 3) (ProjectViewObjectV3.relations o).
Proof.
  assert (Hk : entries view_s1 !! (vid 3) = Some (view_row view_s1 3))
    by (apply view_row_Some; vm_compute; reflexivity).
  assert (Ha : opt_is_some (view_active view_s1 3) = true) by (vm_compute; reflexivity).
  unfold view_active in Ha. destruct (view_row view_s1 3) as [o|d]; [|discriminate Ha].
  exists o. split; [exact Hk|].
  refine (proj1 (proj2 (view_graph_closed view_s0 view_s1 (vid 3) o _ view_valid0 _ Hk))).
  - exact (rtc_once _ _ (view_run_step _ _ _ view_run1)).
  - vm_compute. reflexivity.
Defined.

Lemma view_rows_forward_witness :
  ∃ e', entries view_s2 !! (vid 3) = Some e'
    ∧ entry_created e' = entry_created (view_row view_s0 3).
Proof.
  assert (Hk : entries view_s0 !! (vid 3) = Some (view_row view_s0 3))
    by (apply view_row_Some; vm_compute; reflexivity).
  destruct (view_rows_forward view_s0 view_s2 (vid 3) _ view_reach2 Hk)
    as (e' & Hk' & _ & Hc & _).
  exists e'. split; [exact Hk'|exact Hc].
Defined.

Lemma view_goal_persists_witness : has_goal view_s2.
Proof.
  apply (view_goal_persists view_s0 view_s2 view_reach2).
  assert (Hk : entries view_s0 !! (vid 2) = Some (view_row view_s0 2))
    by (apply view_row_Some; vm_compute; reflexivity).
  assert (Ha : (ProjectViewObjectV3.object_type <$> view_active view_s0 2)
    = Some ProjectViewObjectType.Goal) by (vm_compute; reflexivity).
  unfold view_active in Ha. destruct (view_row view_s0 2) as [o|d]; [|discriminate Ha].
  injection Ha as Ha. exists (vid 2), o. split; [exact Hk|exact Ha].
Defined.

Lemma view_single_writer_witness :
  ∃ e, view_run view_s2 (view_delete 4) 103%Z = Err e.
Proof.
  exact (view_single_writer _ _ _ _ _ _ _ _ view_s2 (view_delete 4) view_actor 103%Z
    view_caps view_proof (view_run_Ok _ _ _ view_run1)
    (rtc_once _ _ (view_run_step _ _ _ view_run2)) eq_refl).
Defined.

Lemma view_delete_decided_witness :
  ∃ cur, entries view_s1 !! (vid 3) = Some (ProjectViewEntryV3.Active cur)
    ∧ deletable view_s1 cur.
Proof.
  destruct (proj1 (view_delete_decided view_s1 101%Z (view_delete 5) view_plan_deletion
    view_actor 102%Z view_caps view_proof view_valid1
    ltac:(by_evaluation) ltac:(vm_compute; discriminate) ltac:(by_evaluation) eq_refl
    ltac:(by_evaluation) ltac:(vm_compute; reflexivity))) as (cur & Hk & _ & _ & Hd).
  - exists (view_s2, view_outcome view_s1 (view_delete 5) 102%Z). exact (view_run_Ok _ _ _ view_run2).
  - exists cur. split; [exact Hk|exact Hd].
Defined.

Lemma view_documents_proved_witness :
  proved view_proof (DocumentCoordinate_live (vid 9)).
Proof.
  assert (Hk : entries view_s1 !! (vid 5) = Some (view_row view_s1 5))
    by (apply view_row_Some; vm_compute; reflexivity).
  destruct (view_documents_proved _ _ _ _ _ _ _ _ (vid 5) _
    (view_run_Ok _ _ _ view_run1) Hk) as (_ & Hg & _).
  destruct (Hg (vid 9) ltac:(by_evaluation)) as [Hold|[_ Hp]]; [|exact Hp].
  assert (Hn : row_guide (entries view_s0 !! (vid 5)) = None) by by_evaluation.
  rewrite Hn in Hold. discriminate Hold.
Defined.

Definition view_references : list ProjectContextReference := [
  ProjectContextReference.Resource (vid 5);
  ProjectContextReference.Document (vid 9) DocumentReferenceMode.Live None
].

Lemma context_references_normal_form_witness :
  canonicalize_context_references (reverse view_references) = Ok view_references.
Proof.
  destruct (context_references_normal_form view_references (reverse view_references)
    view_references) as [_ H].
  refine (proj2 (proj2 (H _)) _); [by_evaluation|]. symmetry. apply reverse_Permutation.
Defined.

Lemma view_plan_single_head_witness :
  is_Ok (ProjectionPlanV3_for_object_outcome (view_outcome view_s0 view_create 101%Z)
           (role_level view_s1)).
Proof.
  destruct (view_plan_single_head _ _ _ _ _ _ _ _ (view_run_Ok _ _ _ view_run1))
    as (changed & Hc & _ & Hok).
  apply Hok. intros o role -> Hd.
  assert (Ht : (ProjectViewEntryV3_object_type <$> changed_entries (view_outcome view_s0 view_create 101%Z))
    = [ProjectViewObjectType.Resource]) by (vm_compute; reflexivity).
  rewrite Hc in Ht. injection Ht as Ht.
  assert (Hty : forallb (λ e, match e with
      | ProjectViewEntryV3.Active o =>
          bool_decide (ProjectViewObjectV3.object_type o
            = ProjectViewObjectDataV3_object_type (ProjectViewObjectV3.data o))
      | _ => true end) (changed_entries (view_outcome view_s0 view_create 101%Z)) = true)
    by (vm_compute; reflexivity).
  rewrite Hc in Hty. simpl in Hty. rewrite Hd, Ht in Hty. discriminate Hty.
Defined.
