(* ===== verification/Maintenance.v ===== *)
(** * Project View schema 3: maintenance

    Models [buzz-project-view/src/v3/maintenance.rs]: the maintenance state
    machine around the schema-3 cutover, the acknowledgements of runtime
    supervisors and the repair plans with their readable envelope.  The arrays
    [[u8; 16]] and [[u8; 32]] are lists of bytes; [serde_json] and [postcard]
    are parameters. *)

From S2P Require Import Prelude Text Platform ViewModel.
From stdpp Require Import prelude strings.

Definition PROJECT_VIEW_MAINTENANCE_ACK_SCHEMA_VERSION : N := 1%N.
Definition PROJECT_VIEW_MAINTENANCE_REPAIR_SCHEMA_VERSION : N := 1%N.
Definition MAX_MAINTENANCE_REPAIR_ACTIONS : N := 4096%N.
Definition MAX_MAINTENANCE_REPAIR_PLAN_JSON_BYTES : N := (2 * 1024 * 1024)%N.
Definition MAINTENANCE_REPAIR_PLAN_DIGEST_DOMAIN : list N :=
  lit "buzz-pv3-maintenance-repair-plan-v1" ++ [0%N].

Module MaintenanceState.
Inductive MaintenanceState : Type :=
| Normal
| Draining
| Frozen.

#[global] Instance MaintenanceState_eq_dec : EqDecision MaintenanceState.
Proof. solve_decision. Defined.
End MaintenanceState.
Abbreviation MaintenanceState := MaintenanceState.MaintenanceState.

Module MaintenanceAction.
Inductive MaintenanceAction : Type :=
| Begin
| Freeze
| Abort
| Resume.

#[global] Instance MaintenanceAction_eq_dec : EqDecision MaintenanceAction.
Proof. solve_decision. Defined.
End MaintenanceAction.
Abbreviation MaintenanceAction := MaintenanceAction.MaintenanceAction.

Module MaintenanceContractError.
Inductive MaintenanceContractError : Type :=
| InvalidAck (reason : Text)
| InvalidRepairPlan (reason : Text)
| InvalidTransition (state : MaintenanceState) (action : MaintenanceAction)
| CutoverAlreadyCommitted
| V3NotVerified.

#[global] Instance MaintenanceContractError_eq_dec : EqDecision MaintenanceContractError.
Proof. solve_decision. Defined.
End MaintenanceContractError.
Abbreviation MaintenanceContractError := MaintenanceContractError.MaintenanceContractError.
Abbreviation MaintenanceResult T := (result T MaintenanceContractError).

(** ** The state machine *)

Definition transition_maintenance (state : MaintenanceState) (action : MaintenanceAction)
    (cutover_committed v3_verified : bool) : MaintenanceResult MaintenanceState :=
  match state, action with
  | MaintenanceState.Normal, MaintenanceAction.Begin => Ok MaintenanceState.Draining
  | MaintenanceState.Draining, MaintenanceAction.Freeze => Ok MaintenanceState.Frozen
  | (MaintenanceState.Draining | MaintenanceState.Frozen), MaintenanceAction.Abort =>
      if negb cutover_committed then Ok MaintenanceState.Normal
      else Err MaintenanceContractError.CutoverAlreadyCommitted
  | MaintenanceState.Frozen, MaintenanceAction.Resume =>
      if cutover_committed && v3_verified then Ok MaintenanceState.Normal
      else Err MaintenanceContractError.V3NotVerified
  | state, action => Err (MaintenanceContractError.InvalidTransition state action)
  end.

(** ** Acknowledgements *)

Module MaintenanceRuntimeAckStatus.
Inductive MaintenanceRuntimeAckStatus : Type :=
| Suspended
| Terminal.
End MaintenanceRuntimeAckStatus.
Abbreviation MaintenanceRuntimeAckStatus :=
  MaintenanceRuntimeAckStatus.MaintenanceRuntimeAckStatus.

(** [MaintenanceRuntimeAckStatus::as_str] *)
Definition MaintenanceRuntimeAckStatus_as_str (self : MaintenanceRuntimeAckStatus) : string :=
  match self with
  | MaintenanceRuntimeAckStatus.Suspended => "suspended"
  | MaintenanceRuntimeAckStatus.Terminal => "terminal"
  end.

Module MaintenanceAckRequest.
Section request.
Context `{P : Platform}.

Inductive MaintenanceAckRequest : Type :=
| AssignmentQuiesced (maintenance_epoch : N) (binding_id assignment_id : Uuid)
    (client_protocol_version : N) (client_build : Text) (idempotency_key : Uuid)
| RuntimeSuspendedOrTerminal (maintenance_epoch : N) (binding_id assignment_id runtime_id : Uuid)
    (runtime_epoch : N) (status : MaintenanceRuntimeAckStatus) (idempotency_key : Uuid).
End request.
End MaintenanceAckRequest.
Abbreviation MaintenanceAckRequest := MaintenanceAckRequest.MaintenanceAckRequest.

Section acknowledgements.
Context `{P : Platform}.

Record MaintenanceAckCommand : Type := {
  ack_schema_version : N;
  ack_request : MaintenanceAckRequest;
}.

Definition validate_coordinate (value : N) (field : string) : MaintenanceResult unit :=
  if ((1 <=? value) && (value <=? MAX_SAFE_REVISION))%N then Ok tt
  else Err (MaintenanceContractError.InvalidAck
              (lit field ++ lit " must be JavaScript-safe and positive")).

Definition validate_uuid (value : Uuid) (field : string) : MaintenanceResult unit :=
  if Uuid_is_nil value
  then Err (MaintenanceContractError.InvalidAck (lit field ++ lit " cannot be nil"))
  else Ok tt.

(** [MaintenanceAckCommand::validate] *)
Definition MaintenanceAckCommand_validate (self : MaintenanceAckCommand)
    : MaintenanceResult unit :=
  reject_if
    (negb (self.(ack_schema_version) =? PROJECT_VIEW_MAINTENANCE_ACK_SCHEMA_VERSION)%N)
    (MaintenanceContractError.InvalidAck
       (lit "schema_version must be " ++ fmt_u64 PROJECT_VIEW_MAINTENANCE_ACK_SCHEMA_VERSION)) ?;
  match self.(ack_request) with
  | MaintenanceAckRequest.AssignmentQuiesced maintenance_epoch binding_id assignment_id
      client_protocol_version client_build idempotency_key =>
      validate_coordinate maintenance_epoch "maintenance_epoch" ?;
      validate_coordinate client_protocol_version "client_protocol_version" ?;
      validate_uuid binding_id "binding_id" ?;
      validate_uuid assignment_id "assignment_id" ?;
      validate_uuid idempotency_key "idempotency_key" ?;
      reject_if
        (is_empty client_build || contains_char 0 client_build || (256 <? str_len client_build)%N)
        (MaintenanceContractError.InvalidAck
           (lit "client_build must contain 1..=256 non-NUL UTF-8 bytes"))
  | MaintenanceAckRequest.RuntimeSuspendedOrTerminal maintenance_epoch binding_id assignment_id
      runtime_id runtime_epoch _ idempotency_key =>
      validate_coordinate maintenance_epoch "maintenance_epoch" ?;
      validate_coordinate runtime_epoch "runtime_epoch" ?;
      for_each (λ '(value, field), validate_uuid value field)
        [(binding_id, "binding_id"); (assignment_id, "assignment_id");
         (runtime_id, "runtime_id"); (idempotency_key, "idempotency_key")]%string
  end ?;
  Ok tt.

(** [MaintenanceAckCommand::from_json], over the derived deserializer. *)
Definition MaintenanceAckCommand_from_json (from_str : Text → result MaintenanceAckCommand Text)
    (content : Text) : MaintenanceResult MaintenanceAckCommand :=
  let? command := map_err MaintenanceContractError.InvalidAck (from_str content) in
  MaintenanceAckCommand_validate command ?;
  Ok command.

(** [MaintenanceAckCommand::maintenance_epoch] *)
Definition MaintenanceAckCommand_maintenance_epoch (self : MaintenanceAckCommand) : N :=
  match self.(ack_request) with
  | MaintenanceAckRequest.AssignmentQuiesced maintenance_epoch _ _ _ _ _
  | MaintenanceAckRequest.RuntimeSuspendedOrTerminal maintenance_epoch _ _ _ _ _ _ =>
      maintenance_epoch
  end.

(** [MaintenanceAckCommand::idempotency_key] *)
Definition MaintenanceAckCommand_idempotency_key (self : MaintenanceAckCommand) : Uuid :=
  match self.(ack_request) with
  | MaintenanceAckRequest.AssignmentQuiesced _ _ _ _ _ idempotency_key
  | MaintenanceAckRequest.RuntimeSuspendedOrTerminal _ _ _ _ _ _ idempotency_key =>
      idempotency_key
  end.

(** [MaintenanceAckCommand::ack_type] *)
Definition MaintenanceAckCommand_ack_type (self : MaintenanceAckCommand) : string :=
  match self.(ack_request) with
  | MaintenanceAckRequest.AssignmentQuiesced _ _ _ _ _ _ => "assignment"
  | MaintenanceAckRequest.RuntimeSuspendedOrTerminal _ _ _ _ _ _ _ => "runtime"
  end.

End acknowledgements.

(** ** Repair plans *)

Module RepairActionV1.
Inductive RepairActionV1 : Type :=
| ReapplyCommittedResource (resource_id mapping_entry_digest : list N)
| RebuildObjectProvenance (object_id expected_business_body_digest expected_source_digest : list N)
| RebuildNormalizedContext (object_id expected_business_body_digest : list N).

#[global] Instance RepairActionV1_eq_dec : EqDecision RepairActionV1.
Proof. solve_decision. Defined.
End RepairActionV1.
Abbreviation RepairActionV1 := RepairActionV1.RepairActionV1.

Module CanonicalMaintenanceRepairPlanV1.
Record CanonicalMaintenanceRepairPlanV1 : Type := {
  schema_version : N;
  community_id : list N;
  maintenance_epoch : N;
  cutover_change_id : list N;
  expected_project_revision : N;
  expected_projection_generation : N;
  actions : list RepairActionV1;
}.

#[global] Instance CanonicalMaintenanceRepairPlanV1_eq_dec :
  EqDecision CanonicalMaintenanceRepairPlanV1.
Proof. solve_decision. Defined.
End CanonicalMaintenanceRepairPlanV1.
Abbreviation CanonicalMaintenanceRepairPlanV1 :=
  CanonicalMaintenanceRepairPlanV1.CanonicalMaintenanceRepairPlanV1.

Module RepairActionEnvelopeV1.
Section action.
Context `{P : Platform}.

Inductive RepairActionEnvelopeV1 : Type :=
| ReapplyCommittedResource (resource_id : Uuid) (mapping_entry_digest : Text)
| RebuildObjectProvenance (object_id : Uuid)
    (expected_business_body_digest expected_source_digest : Text)
| RebuildNormalizedContext (object_id : Uuid) (expected_business_body_digest : Text).
End action.
End RepairActionEnvelopeV1.
Abbreviation RepairActionEnvelopeV1 := RepairActionEnvelopeV1.RepairActionEnvelopeV1.

Module CanonicalMaintenanceRepairPlanEnvelopeV1.
Section envelope.
Context `{P : Platform}.

Record CanonicalMaintenanceRepairPlanEnvelopeV1 : Type := {
  schema_version : N;
  community_id : Uuid;
  maintenance_epoch : N;
  cutover_change_id : Text;
  expected_project_revision : N;
  expected_projection_generation : N;
  actions : list RepairActionEnvelopeV1;
}.
End envelope.
End CanonicalMaintenanceRepairPlanEnvelopeV1.
Abbreviation CanonicalMaintenanceRepairPlanEnvelopeV1 :=
  CanonicalMaintenanceRepairPlanEnvelopeV1.CanonicalMaintenanceRepairPlanEnvelopeV1.

(** [RepairActionV1::sort_key] *)
Definition RepairActionV1_sort_key (self : RepairActionV1) : N * list N :=
  match self with
  | RepairActionV1.ReapplyCommittedResource resource_id _ => (0%N, resource_id)
  | RepairActionV1.RebuildObjectProvenance object_id _ _ => (1%N, object_id)
  | RepairActionV1.RebuildNormalizedContext object_id _ => (2%N, object_id)
  end.

(** The order of [(u8, [u8; 16])]. *)
Definition sort_key_cmp (a b : N * list N) : comparison :=
  then_with (N.compare a.1 b.1) (slice_cmp a.2 b.2).

Section repair.
Context `{P : Platform}.

Definition validate_repair_coordinate (value : N) (field : string) : MaintenanceResult unit :=
  if ((1 <=? value) && (value <=? MAX_SAFE_REVISION))%N then Ok tt
  else Err (MaintenanceContractError.InvalidRepairPlan
              (lit field ++ lit " must be JavaScript-safe and positive")).

Definition decode_lower_hex_32 (value : Text) (field : string) : MaintenanceResult (list N) :=
  reject_if
    (negb (str_len value =? 64)%N || existsb (λ byte, negb (is_lower_hex byte)) value)
    (MaintenanceContractError.InvalidRepairPlan
       (lit field ++ lit " must be exactly 64 lowercase hex characters")) ?;
  let? decoded := map_err MaintenanceContractError.InvalidRepairPlan (hex_decode value) in
  reject_if (negb (len decoded =? 32)%N)
    (MaintenanceContractError.InvalidRepairPlan
       (lit field ++ lit " decoded to " ++ fmt_u64 (len decoded) ++ lit " bytes instead of 32")) ?;
  Ok decoded.

(** [RepairActionEnvelopeV1::into_canonical] *)
Definition RepairActionEnvelopeV1_into_canonical (self : RepairActionEnvelopeV1)
    : MaintenanceResult RepairActionV1 :=
  match self with
  | RepairActionEnvelopeV1.ReapplyCommittedResource resource_id mapping_entry_digest =>
      let? mapping_entry_digest :=
        decode_lower_hex_32 mapping_entry_digest "mapping_entry_digest" in
      Ok (RepairActionV1.ReapplyCommittedResource (Uuid_as_bytes resource_id) mapping_entry_digest)
  | RepairActionEnvelopeV1.RebuildObjectProvenance object_id expected_business_body_digest
      expected_source_digest =>
      let? expected_business_body_digest :=
        decode_lower_hex_32 expected_business_body_digest "expected_business_body_digest" in
      let? expected_source_digest :=
        decode_lower_hex_32 expected_source_digest "expected_source_digest" in
      Ok (RepairActionV1.RebuildObjectProvenance (Uuid_as_bytes object_id)
            expected_business_body_digest expected_source_digest)
  | RepairActionEnvelopeV1.RebuildNormalizedContext object_id expected_business_body_digest =>
      let? expected_business_body_digest :=
        decode_lower_hex_32 expected_business_body_digest "expected_business_body_digest" in
      Ok (RepairActionV1.RebuildNormalizedContext (Uuid_as_bytes object_id)
            expected_business_body_digest)
  end.

(** [RepairActionEnvelopeV1::from_canonical] *)
Definition RepairActionEnvelopeV1_from_canonical (action : RepairActionV1)
    : RepairActionEnvelopeV1 :=
  match action with
  | RepairActionV1.ReapplyCommittedResource resource_id mapping_entry_digest =>
      RepairActionEnvelopeV1.ReapplyCommittedResource (Uuid_from_bytes resource_id)
        (hex_encode mapping_entry_digest)
  | RepairActionV1.RebuildObjectProvenance object_id expected_business_body_digest
      expected_source_digest =>
      RepairActionEnvelopeV1.RebuildObjectProvenance (Uuid_from_bytes object_id)
        (hex_encode expected_business_body_digest) (hex_encode expected_source_digest)
  | RepairActionV1.RebuildNormalizedContext object_id expected_business_body_digest =>
      RepairActionEnvelopeV1.RebuildNormalizedContext (Uuid_from_bytes object_id)
        (hex_encode expected_business_body_digest)
  end.

(** [CanonicalMaintenanceRepairPlanV1::validate] *)
Definition CanonicalMaintenanceRepairPlanV1_validate (self : CanonicalMaintenanceRepairPlanV1)
    : MaintenanceResult unit :=
  let invalid := MaintenanceContractError.InvalidRepairPlan in
  reject_if
    (negb (CanonicalMaintenanceRepairPlanV1.schema_version self
           =? PROJECT_VIEW_MAINTENANCE_REPAIR_SCHEMA_VERSION)%N)
    (invalid
       (lit "schema_version must be " ++ fmt_u64 PROJECT_VIEW_MAINTENANCE_REPAIR_SCHEMA_VERSION)) ?;
  reject_if
    (Uuid_is_nil (Uuid_from_bytes (CanonicalMaintenanceRepairPlanV1.community_id self)))
    (invalid (lit "community_id cannot be nil")) ?;
  validate_repair_coordinate (CanonicalMaintenanceRepairPlanV1.maintenance_epoch self)
    "maintenance_epoch" ?;
  validate_repair_coordinate (CanonicalMaintenanceRepairPlanV1.expected_project_revision self)
    "expected_project_revision" ?;
  validate_repair_coordinate
    (CanonicalMaintenanceRepairPlanV1.expected_projection_generation self)
    "expected_projection_generation" ?;
  let actions := CanonicalMaintenanceRepairPlanV1.actions self in
  reject_if (is_empty actions || (MAX_MAINTENANCE_REPAIR_ACTIONS <? len actions)%N)
    (invalid
       (lit "actions must contain 1..=" ++ fmt_u64 MAX_MAINTENANCE_REPAIR_ACTIONS
        ++ lit " entries")) ?;
  let keys := RepairActionV1_sort_key <$> actions in
  reject_if (existsb (λ key, Uuid_is_nil (Uuid_from_bytes key.2)) keys)
    (invalid (lit "repair object IDs cannot be nil")) ?;
  reject_if
    (windows2_any (λ previous current, negb (bool_decide (sort_key_cmp previous current = Lt)))
       keys)
    (invalid (lit "actions must be unique and sorted by action type and object UUID bytes")) ?;
  Ok tt.

(** [CanonicalMaintenanceRepairPlanEnvelopeV1::into_canonical] *)
Definition Envelope_into_canonical (self : CanonicalMaintenanceRepairPlanEnvelopeV1)
    : MaintenanceResult CanonicalMaintenanceRepairPlanV1 :=
  let? cutover_change_id :=
    decode_lower_hex_32 (CanonicalMaintenanceRepairPlanEnvelopeV1.cutover_change_id self)
      "cutover_change_id" in
  let? actions :=
    collect_results RepairActionEnvelopeV1_into_canonical
      (CanonicalMaintenanceRepairPlanEnvelopeV1.actions self) in
  let plan := {|
    CanonicalMaintenanceRepairPlanV1.schema_version :=
      CanonicalMaintenanceRepairPlanEnvelopeV1.schema_version self;
    CanonicalMaintenanceRepairPlanV1.community_id :=
      Uuid_as_bytes (CanonicalMaintenanceRepairPlanEnvelopeV1.community_id self);
    CanonicalMaintenanceRepairPlanV1.maintenance_epoch :=
      CanonicalMaintenanceRepairPlanEnvelopeV1.maintenance_epoch self;
    CanonicalMaintenanceRepairPlanV1.cutover_change_id := cutover_change_id;
    CanonicalMaintenanceRepairPlanV1.expected_project_revision :=
      CanonicalMaintenanceRepairPlanEnvelopeV1.expected_project_revision self;
    CanonicalMaintenanceRepairPlanV1.expected_projection_generation :=
      CanonicalMaintenanceRepairPlanEnvelopeV1.expected_projection_generation self;
    CanonicalMaintenanceRepairPlanV1.actions := actions;
  |} in
  CanonicalMaintenanceRepairPlanV1_validate plan ?;
  Ok plan.

(** [CanonicalMaintenanceRepairPlanEnvelopeV1::parse_json] *)
Definition Envelope_parse_json
    (from_slice : list N → result CanonicalMaintenanceRepairPlanEnvelopeV1 Text)
    (bytes : list N) : MaintenanceResult CanonicalMaintenanceRepairPlanV1 :=
  reject_if (MAX_MAINTENANCE_REPAIR_PLAN_JSON_BYTES <? len bytes)%N
    (MaintenanceContractError.InvalidRepairPlan
       (lit "repair-plan JSON exceeds " ++ fmt_u64 MAX_MAINTENANCE_REPAIR_PLAN_JSON_BYTES
        ++ lit " bytes")) ?;
  let? envelope := map_err MaintenanceContractError.InvalidRepairPlan (from_slice bytes) in
  Envelope_into_canonical envelope.

(** The envelope that [to_pretty_json] writes. *)
Definition envelope_of (plan : CanonicalMaintenanceRepairPlanV1)
    : CanonicalMaintenanceRepairPlanEnvelopeV1 := {|
  CanonicalMaintenanceRepairPlanEnvelopeV1.schema_version :=
    CanonicalMaintenanceRepairPlanV1.schema_version plan;
  CanonicalMaintenanceRepairPlanEnvelopeV1.community_id :=
    Uuid_from_bytes (CanonicalMaintenanceRepairPlanV1.community_id plan);
  CanonicalMaintenanceRepairPlanEnvelopeV1.maintenance_epoch :=
    CanonicalMaintenanceRepairPlanV1.maintenance_epoch plan;
  CanonicalMaintenanceRepairPlanEnvelopeV1.cutover_change_id :=
    hex_encode (CanonicalMaintenanceRepairPlanV1.cutover_change_id plan);
  CanonicalMaintenanceRepairPlanEnvelopeV1.expected_project_revision :=
    CanonicalMaintenanceRepairPlanV1.expected_project_revision plan;
  CanonicalMaintenanceRepairPlanEnvelopeV1.expected_projection_generation :=
    CanonicalMaintenanceRepairPlanV1.expected_projection_generation plan;
  CanonicalMaintenanceRepairPlanEnvelopeV1.actions :=
    RepairActionEnvelopeV1_from_canonical <$> CanonicalMaintenanceRepairPlanV1.actions plan;
|}.

(** [CanonicalMaintenanceRepairPlanEnvelopeV1::to_pretty_json] *)
Definition Envelope_to_pretty_json
    (to_vec_pretty : CanonicalMaintenanceRepairPlanEnvelopeV1 → result (list N) Text)
    (plan : CanonicalMaintenanceRepairPlanV1) : MaintenanceResult (list N) :=
  CanonicalMaintenanceRepairPlanV1_validate plan ?;
  map_err MaintenanceContractError.InvalidRepairPlan (to_vec_pretty (envelope_of plan)).

Definition maintenance_repair_plan_digest
    (to_stdvec : CanonicalMaintenanceRepairPlanV1 → result (list N) Text)
    (plan : CanonicalMaintenanceRepairPlanV1) : MaintenanceResult (list N) :=
  CanonicalMaintenanceRepairPlanV1_validate plan ?;
  let? bytes :=
    map_err (λ error, MaintenanceContractError.InvalidRepairPlan
                        (lit "cannot encode canonical repair plan: " ++ error))
      (to_stdvec plan) in
  Ok (sha256 (MAINTENANCE_REPAIR_PLAN_DIGEST_DOMAIN ++ bytes)).

End repair.
