(* ===== verification/MaintenanceTheorems.v ===== *)
(** * Maintenance: the properties

    The cutover cannot be undone by the maintenance state machine, and repair
    plans correspond one to one to the envelopes that are accepted for them. *)

From S2P Require Import Prelude Text Platform Reference ViewModel Maintenance.
From stdpp Require Import prelude strings.

(** ** The state machine with its cutover flag *)

(** What happens to a Community: the operator acts, with the outcome of the
    structural verification, or the cutover receipt is committed. *)
Inductive maintenance_event : Type :=
| Operate (action : MaintenanceAction) (v3_verified : bool)
| Cutover.

Inductive maintenance_step
    : MaintenanceState * bool → maintenance_event → MaintenanceState * bool → Prop :=
| step_operate state committed action verified next :
    transition_maintenance state action committed verified = Ok next →
    maintenance_step (state, committed) (Operate action verified) (next, committed)
| step_cutover state committed :
    maintenance_step (state, committed) Cutover (state, true).

Inductive maintenance_run
    : MaintenanceState * bool → list maintenance_event → MaintenanceState * bool → Prop :=
| run_nil s : maintenance_run s [] s
| run_cons s e t es u :
    maintenance_step s e t → maintenance_run t es u → maintenance_run s (e :: es) u.

Lemma maintenance_committed_step s e t :
  maintenance_step s e t → s.2 = true → t.2 = true.
Proof. by intros []. Qed.

(** One step out of maintenance after the cutover is a verified Resume. *)
Lemma maintenance_exit_step state e t :
  maintenance_step (state, true) e t → state ≠ MaintenanceState.Normal →
  t.1 = MaintenanceState.Normal → e = Operate MaintenanceAction.Resume true.
Proof.
  intros H Hs Ht. inversion H as [? ? action verified next Htr|]; subst; [|done].
  destruct state, action; simpl in Htr; simplify_eq/=; try done.
  by destruct verified.
Qed.

(** C31. The cutover is irreversible: once its receipt is committed, no Abort is
    ever accepted, and a Community that is in maintenance gets back to normal
    operation only through a Resume of a verified schema-3 state, which it can
    always reach. *)
Theorem maintenance_cutover_irreversible state es final :
  maintenance_run (state, true) es final →
  (∀ verified, Operate MaintenanceAction.Abort verified ∉ es)
  ∧ final.2 = true
  ∧ (state ≠ MaintenanceState.Normal → final.1 = MaintenanceState.Normal →
     Operate MaintenanceAction.Resume true ∈ es)
  ∧ ∃ es', maintenance_run final es' (MaintenanceState.Normal, true).
Proof.
  intros Hr. remember (state, true) as s eqn:Hs. revert state Hs.
  induction Hr as [s|s e t es u Hst Hr IH]; intros state ->.
  - split_and!; [set_solver|done|done|]. destruct state; simpl.
    + exists []. constructor.
    + exists [Operate MaintenanceAction.Freeze false; Operate MaintenanceAction.Resume true].
      repeat (econstructor; [by constructor|]). constructor.
    + exists [Operate MaintenanceAction.Resume true]. econstructor; [by constructor|constructor].
  - pose proof (maintenance_committed_step _ _ _ Hst eq_refl) as Ht.
    destruct t as [next committed]. simpl in Ht. subst committed.
    destruct (IH next eq_refl) as (Hno & Hc & Hex & Hlive). split_and!; [|done| |done].
    + intros verified [<-|Hin]%elem_of_cons; [|by eapply Hno].
      inversion Hst as [? ? ? ? ? Htr|]; subst. destruct state; simpl in Htr; done.
    + intros Hs Hu. destruct (decide (next = MaintenanceState.Normal)) as [->|Hn].
      * rewrite (maintenance_exit_step state e _ Hst) by done. left.
      * right. by apply Hex.
Qed.

Lemma maintenance_cutover_irreversible_witness :
  Operate MaintenanceAction.Resume true
    ∈ [Operate MaintenanceAction.Freeze false; Operate MaintenanceAction.Resume true].
Proof.
  refine (proj1 (proj2 (proj2 (maintenance_cutover_irreversible MaintenanceState.Draining _
    (MaintenanceState.Normal, true) _))) _ _); [|discriminate|reflexivity].
  eapply run_cons; [apply step_operate; reflexivity|].
  eapply run_cons; [apply step_operate; reflexivity|apply run_nil].
Defined.

(** ** Envelopes *)

Section envelope.
Context `{P : Platform} `{HU : !UuidLaws} `{HH : !HexLaws}.

(** A value of the type [[u8; n]]. *)
Definition u8_array (n : nat) (b : list N) : Prop := length b = n ∧ Forall (λ x, x < 256)%N b.

Definition action_typed (a : RepairActionV1) : Prop :=
  match a with
  | RepairActionV1.ReapplyCommittedResource id d
  | RepairActionV1.RebuildNormalizedContext id d => u8_array 16 id ∧ u8_array 32 d
  | RepairActionV1.RebuildObjectProvenance id d e =>
      u8_array 16 id ∧ u8_array 32 d ∧ u8_array 32 e
  end.

Definition plan_typed (plan : CanonicalMaintenanceRepairPlanV1) : Prop :=
  u8_array 16 (CanonicalMaintenanceRepairPlanV1.community_id plan)
  ∧ u8_array 32 (CanonicalMaintenanceRepairPlanV1.cutover_change_id plan)
  ∧ Forall action_typed (CanonicalMaintenanceRepairPlanV1.actions plan).

Lemma decode_lower_hex_32_Ok value field b :
  decode_lower_hex_32 value field = Ok b → hex_encode b = value.
Proof.
  unfold decode_lower_hex_32. intros [Hv%reject_if_Ok H]%seq_Ok.
  apply rbind_Ok in H as (d & Hd%map_err_Ok & H). apply seq_Ok in H as [_ [= <-]].
  apply hex_encode_decode; [|done]. apply orb_false_iff in Hv as [_ Hv].
  apply existsb_false in Hv. eapply Forall_impl; [exact Hv|]. intros c Hc. by apply negb_false_iff.
Qed.

Lemma decode_lower_hex_32_encode b field :
  u8_array 32 b → decode_lower_hex_32 (hex_encode b) field = Ok b.
Proof.
  intros [Hl Hb]. pose proof (hex_encode_lower b) as Hlow. unfold decode_lower_hex_32.
  rewrite (lower_hex_len _ Hlow), hex_encode_length, Hl.
  rewrite (proj2 (existsb_false (λ byte, negb (is_lower_hex byte)) _)).
  2: { eapply Forall_impl; [exact Hlow|]. intros c Hc. simpl. by rewrite Hc. }
  cbn [negb orb reject_if rbind N.eqb]. rewrite hex_decode_encode by done.
  cbn [map_err rbind]. unfold len. by rewrite Hl.
Qed.

Lemma Uuid_from_as_bytes u : Uuid_from_bytes (Uuid_as_bytes u) = u.
Proof.
  apply Uuid_as_bytes_inj. apply Uuid_as_from_bytes;
    [apply Uuid_as_bytes_length|apply Uuid_as_bytes_small].
Qed.

Lemma action_into_from a :
  action_typed a →
  RepairActionEnvelopeV1_into_canonical (RepairActionEnvelopeV1_from_canonical a) = Ok a.
Proof.
  destruct a; simpl; intros ([Hl Hb] & H).
  2: destruct H.
  all: rewrite !decode_lower_hex_32_encode by done; cbn [rbind]; by rewrite Uuid_as_from_bytes.
Qed.

Lemma action_from_into e a :
  RepairActionEnvelopeV1_into_canonical e = Ok a → RepairActionEnvelopeV1_from_canonical a = e.
Proof.
  destruct e; simpl; intros H; ok_inv; subst; simpl; rewrite Uuid_from_as_bytes;
    f_equal; by eapply decode_lower_hex_32_Ok.
Qed.

(** Repair plans and the envelopes accepted for them correspond one to one:
    the envelope written for a valid plan is read back as that plan, and an
    accepted envelope is the one that is written for the plan it denotes, so a
    plan has one spelling and its digest does not depend on the JSON text. *)
Theorem repair_envelope_roundtrip plan envelope :
  (plan_typed plan → CanonicalMaintenanceRepairPlanV1_validate plan = Ok tt →
   Envelope_into_canonical (envelope_of plan) = Ok plan)
  ∧ (Envelope_into_canonical envelope = Ok plan →
     envelope_of plan = envelope ∧ CanonicalMaintenanceRepairPlanV1_validate plan = Ok tt).
Proof.
  split.
  - intros (Hc & Hd & Ha) Hv. unfold Envelope_into_canonical, envelope_of.
    cbn [CanonicalMaintenanceRepairPlanEnvelopeV1.schema_version
      CanonicalMaintenanceRepairPlanEnvelopeV1.community_id
      CanonicalMaintenanceRepairPlanEnvelopeV1.maintenance_epoch
      CanonicalMaintenanceRepairPlanEnvelopeV1.cutover_change_id
      CanonicalMaintenanceRepairPlanEnvelopeV1.expected_project_revision
      CanonicalMaintenanceRepairPlanEnvelopeV1.expected_projection_generation
      CanonicalMaintenanceRepairPlanEnvelopeV1.actions].
    rewrite decode_lower_hex_32_encode by done. cbn [rbind].
    rewrite (proj2 (collect_results_Ok _ _ (CanonicalMaintenanceRepairPlanV1.actions plan))).
    2: { induction Ha as [|a as_ Ha _ IH]; constructor; [by apply action_into_from|done]. }
    cbn [rbind]. destruct Hc as [Hcl Hcb]. rewrite Uuid_as_from_bytes by done.
    destruct plan. simpl in *. by rewrite Hv.
  - unfold Envelope_into_canonical. intros (d & Hd%decode_lower_hex_32_Ok & H)%rbind_Ok.
    apply rbind_Ok in H as (acts & Ha%collect_results_Ok & H). apply seq_Ok in H as [Hv [= <-]].
    split; [|done]. unfold envelope_of. destruct envelope as [v c e k r g a]. simpl in *. f_equal.
    + apply Uuid_from_as_bytes.
    + done.
    + clear -Ha HU HH. induction Ha as [|x y xs ys Hx _ IH]; [done|]. csimpl.
      by rewrite IH, (action_from_into x y).
Qed.

End envelope.

Definition sample_plan : CanonicalMaintenanceRepairPlanV1 := {|
  CanonicalMaintenanceRepairPlanV1.schema_version := 1;
  CanonicalMaintenanceRepairPlanV1.community_id := bytes (ref_uuid 1);
  CanonicalMaintenanceRepairPlanV1.maintenance_epoch := 4;
  CanonicalMaintenanceRepairPlanV1.cutover_change_id := replicate 32 171%N;
  CanonicalMaintenanceRepairPlanV1.expected_project_revision := 11;
  CanonicalMaintenanceRepairPlanV1.expected_projection_generation := 2;
  CanonicalMaintenanceRepairPlanV1.actions := [
    RepairActionV1.ReapplyCommittedResource (bytes (ref_uuid 2)) (replicate 32 9%N);
    RepairActionV1.RebuildNormalizedContext (bytes (ref_uuid 1)) (replicate 32 7%N)
  ];
|}.

Lemma repair_envelope_roundtrip_witness :
  Envelope_into_canonical (envelope_of sample_plan) = Ok sample_plan.
Proof.
  apply (proj1 (repair_envelope_roundtrip sample_plan (envelope_of sample_plan))).
  - unfold plan_typed, u8_array. split; [|split].
    + split; by_evaluation.
    + split; by_evaluation.
    + apply Forall_cons. split; [split; split; by_evaluation|].
      apply Forall_cons. split; [split; split; by_evaluation|]. apply Forall_nil. exact I.
  - by_evaluation.
Defined.
