(* ===== verification/AuditLog.v ===== *)
(** * The audit log

    Models [buzz-audit/src]: the closed vocabulary of actions ([action.rs]), the
    hash of an entry ([hash.rs]), and the per-community hash chain of
    [service.rs] over its table.  The table [audit_log] is a finite map from
    its primary key; the advisory lock of [log] and [append_in_transaction]
    makes one append atomic for its community, so an append is one function on
    the table.  [chrono], [serde_json] and the PostgreSQL column types are the
    parameters of [AuditDeps]. *)

From S2P Require Import Prelude Text TextOps Platform.
From stdpp Require Import prelude strings gmap fin_maps.

(** ** Actions *)

Module AuditAction.
Inductive AuditAction : Type :=
| EventCreated
| EventDeleted
| ChannelCreated
| ChannelUpdated
| ChannelDeleted
| MemberAdded
| MemberRemoved
| AuthSuccess
| AuthFailure
| RateLimitExceeded
| MediaUploaded
| ProjectViewCutover
| ProjectViewMaintenance
| ProjectViewProvisioning
| ProjectViewSecurityInvalidation
| ProjectContextControl
| ProjectContextEdgeControl
| ProjectDocumentControl
| RuntimeSupervisorRegistered
| RuntimeSupervisorRevoked
| RuntimeAssignmentUnrecoverable.

#[global] Instance AuditAction_eq_dec : EqDecision AuditAction.
Proof. solve_decision. Defined.

(** [AuditAction::ALL] *)
Definition ALL : list AuditAction := [
  EventCreated; EventDeleted; ChannelCreated; ChannelUpdated; ChannelDeleted; MemberAdded;
  MemberRemoved; AuthSuccess; AuthFailure; RateLimitExceeded; MediaUploaded; ProjectViewCutover;
  ProjectViewMaintenance; ProjectViewProvisioning; ProjectViewSecurityInvalidation;
  ProjectContextControl; ProjectContextEdgeControl; ProjectDocumentControl;
  RuntimeSupervisorRegistered; RuntimeSupervisorRevoked; RuntimeAssignmentUnrecoverable
].
End AuditAction.
Abbreviation AuditAction := AuditAction.AuditAction.

(** [AuditAction::as_str] *)
Definition AuditAction_as_str (self : AuditAction) : string :=
  match self with
  | AuditAction.EventCreated => "event_created"
  | AuditAction.EventDeleted => "event_deleted"
  | AuditAction.ChannelCreated => "channel_created"
  | AuditAction.ChannelUpdated => "channel_updated"
  | AuditAction.ChannelDeleted => "channel_deleted"
  | AuditAction.MemberAdded => "member_added"
  | AuditAction.MemberRemoved => "member_removed"
  | AuditAction.AuthSuccess => "auth_success"
  | AuditAction.AuthFailure => "auth_failure"
  | AuditAction.RateLimitExceeded => "rate_limit_exceeded"
  | AuditAction.MediaUploaded => "media_uploaded"
  | AuditAction.ProjectViewCutover => "project_view_cutover"
  | AuditAction.ProjectViewMaintenance => "project_view_maintenance"
  | AuditAction.ProjectViewProvisioning => "project_view_provisioning"
  | AuditAction.ProjectViewSecurityInvalidation => "project_view_security_invalidation"
  | AuditAction.ProjectContextControl => "project_context_control"
  | AuditAction.ProjectContextEdgeControl => "project_context_edge_control"
  | AuditAction.ProjectDocumentControl => "project_document_control"
  | AuditAction.RuntimeSupervisorRegistered => "runtime_supervisor_registered"
  | AuditAction.RuntimeSupervisorRevoked => "runtime_supervisor_revoked"
  | AuditAction.RuntimeAssignmentUnrecoverable => "runtime_assignment_unrecoverable"
  end.

(** [AuditAction::from_str]; its error text is not used. *)
Definition AuditAction_from_str (s : Text) : option AuditAction :=
  head (filter (λ a, lit (AuditAction_as_str a) = s) AuditAction.ALL).

Module AuditError.
Inductive AuditError : Type :=
| Database (reason : Text)
| ChainViolation (seq : Z)
| HashMismatch (seq : Z)
| UnknownAction
| Serialization (reason : Text).

#[global] Instance AuditError_eq_dec : EqDecision AuditError.
Proof. solve_decision. Defined.
End AuditError.
Abbreviation AuditError := AuditError.AuditError.
Abbreviation AuditResult T := (result T AuditError).

(** ** Library functions *)

Class AuditDeps `{P : Platform} : Type := {
  (** [chrono::SubsecRound::trunc_subsecs] *)
  trunc_subsecs : DateTime → N → DateTime;
  (** [chrono::DateTime::to_rfc3339] of a UTC instant *)
  to_rfc3339 : DateTime → Text;
  (** [serde_json::to_string] of a string and of a scalar value *)
  str_to_json : Text → result Text Text;
  scalar_to_json : Value → result Text Text;
  (** What a [TIMESTAMPTZ] and a [JSONB] column give back *)
  timestamptz : DateTime → DateTime;
  jsonb : Value → Value;
}.

(** ** Entries and their hash *)

(** [i64] addition in release builds. *)
Definition i64_wrapping_add (a b : Z) : Z :=
  ((a + b + 9223372036854775808) mod 18446744073709551616 - 9223372036854775808)%Z.

(** [BTreeMap::from_iter] over string keys: the rows in key order (the byte order
    of UTF-8 is the order of the code points), a later row replacing an earlier
    one with the same key. *)
Fixpoint last_wins {A} (rows : list (Text * A)) : list (Text * A) :=
  match rows with
  | [] => []
  | (k, v) :: rest =>
      if bool_decide (k ∈ rest.*1) then last_wins rest else (k, v) :: last_wins rest
  end.

Definition btree_from_iter {A} (rows : list (Text * A)) : list (Text * A) :=
  sort_by (λ a b, slice_cmp a.1 b.1) (last_wins rows).

Section hash.
Context `{P : Platform} `{D : !AuditDeps}.

Record AuditEntry : Type := {
  community_id : Uuid;
  seq : Z;
  hash : list N;
  prev_hash : option (list N);
  action : AuditAction;
  actor_pubkey : option (list N);
  object_id : option Text;
  detail : Value;
  created_at : DateTime;
}.

Record NewAuditEntry : Type := {
  new_community_id : Uuid;
  new_action : AuditAction;
  new_actor_pubkey : option (list N);
  new_object_id : option Text;
  new_detail : Value;
}.

Definition GENESIS_HASH : list N := replicate 32 0%N.

Definition to_storage_precision (created_at : DateTime) : DateTime := trunc_subsecs created_at 6.

(** The members of an object, or the elements of an array, as [canonical_json]
    pushes them: separated by commas. *)
Fixpoint push_all {A} (push : A → result Text Text) (out : Text) (first : bool) (rows : list A)
    : result Text Text :=
  match rows with
  | [] => Ok out
  | row :: rest =>
      let out := if first then out else out ++ lit "," in
      let? text := push row in
      push_all push (out ++ text) false rest
  end.

(** [canonical_json].  The members are rendered lazily, in key order. *)
Fixpoint canonical_json (value : Value) : result Text Text :=
  match value with
  | Object members =>
      let sorted := btree_from_iter ((λ m, (m.1, canonical_json m.2)) <$> members) in
      let? out :=
        push_all
          (λ m,
             let? key := str_to_json m.1 in
             let? text := m.2 in
             Ok (key ++ lit ":" ++ text))
          (lit "{") true sorted in
      Ok (out ++ lit "}")
  | Array values =>
      let? out := push_all id (lit "[") true (canonical_json <$> values) in
      Ok (out ++ lit "]")
  | other => scalar_to_json other
  end.

(** The bytes that [compute_hash] feeds to the hasher. *)
Definition preimage (entry : AuditEntry) (detail : Text) : list N :=
  Uuid_as_bytes entry.(community_id)
  ++ i64_to_be_bytes entry.(seq)
  ++ str_as_bytes (to_rfc3339 (to_storage_precision entry.(created_at)))
  ++ str_as_bytes (lit (AuditAction_as_str entry.(action)))
  ++ match entry.(actor_pubkey) with
     | Some pk => 1%N :: pk
     | None => [0%N]
     end
  ++ match entry.(object_id) with
     | Some id => 1%N :: str_as_bytes id
     | None => [0%N]
     end
  ++ str_as_bytes detail
  ++ match entry.(prev_hash) with
     | Some h => h
     | None => GENESIS_HASH
     end.

(** [compute_hash] *)
Definition compute_hash (entry : AuditEntry) : AuditResult (list N) :=
  let? detail := map_err AuditError.Serialization (canonical_json entry.(detail)) in
  Ok (sha256 (preimage entry detail)).

End hash.

(** ** The service *)

Section service.
Context `{P : Platform} `{D : !AuditDeps}.

(** A row of [audit_log] without its key. *)
Record AuditRow : Type := {
  row_hash : list N;
  row_prev_hash : option (list N);
  row_action : Text;
  row_actor_pubkey : option (list N);
  row_object_id : option Text;
  row_detail : Value;
  row_created_at : DateTime;
}.

(** The table, by its primary key [(community_id, seq)]. *)
Abbreviation AuditTable := (gmap (Uuid * Z) AuditRow).

(** [INSERT INTO audit_log]: the stored form of an entry. *)
Definition stored (entry : AuditEntry) : AuditRow := {|
  row_hash := entry.(hash);
  row_prev_hash := entry.(prev_hash);
  row_action := lit (AuditAction_as_str entry.(action));
  row_actor_pubkey := entry.(actor_pubkey);
  row_object_id := entry.(object_id);
  row_detail := jsonb entry.(detail);
  row_created_at := timestamptz entry.(created_at);
|}.

(** [row_to_audit_entry] *)
Definition row_to_audit_entry (community : Uuid) (seq : Z) (row : AuditRow)
    : AuditResult AuditEntry :=
  let? action := ok_or (AuditAction_from_str row.(row_action)) AuditError.UnknownAction in
  Ok {| community_id := community;
        seq := seq;
        hash := row.(row_hash);
        prev_hash := row.(row_prev_hash);
        action := action;
        actor_pubkey := row.(row_actor_pubkey);
        object_id := row.(row_object_id);
        detail := row.(row_detail);
        created_at := row.(row_created_at) |}.

(** [SELECT .. WHERE community_id = $1 AND <range> ORDER BY seq ASC] *)
Definition select_rows (log : AuditTable) (community : Uuid) (range : Z → bool)
    : list (Z * AuditRow) :=
  sort_by (λ a b, Z.compare a.1 b.1)
    (omap (λ kv, if bool_decide (kv.1.1 = community) && range kv.1.2
                 then Some (kv.1.2, kv.2) else None)
       (map_to_list log)).

(** [append_locked], at the time [now]; an [INSERT] that violates the primary
    key or the unique index on [(community_id, hash)] fails. *)
Definition append_locked (log : AuditTable) (entry : NewAuditEntry) (now : DateTime)
    : AuditResult (AuditEntry * AuditTable) :=
  let community := entry.(new_community_id) in
  let rows := select_rows log community (λ _, true) in
  let '(prev_seq, prev_hash) :=
    match last rows with
    | Some (seq, row) => (seq, Some row.(row_hash))
    | None => (0%Z, None)
    end in
  let seq := i64_wrapping_add prev_seq 1 in
  let audit_entry hash := {|
    community_id := community;
    seq := seq;
    hash := hash;
    prev_hash := prev_hash;
    action := entry.(new_action);
    actor_pubkey := entry.(new_actor_pubkey);
    object_id := entry.(new_object_id);
    detail := entry.(new_detail);
    created_at := to_storage_precision now;
  |} in
  let? computed := compute_hash (audit_entry []) in
  reject_if
    (opt_is_some (log !! (community, seq))
     || existsb (λ row, bool_decide (row.2.(row_hash) = computed)) rows)
    (AuditError.Database (lit "unique violation")) ?;
  Ok (audit_entry computed, <[(community, seq) := stored (audit_entry computed)]> log).

(** The loop of [verify_chain] with the hash expected by the next row. *)
Fixpoint verify_rows (community : Uuid) (expected_prev : option (list N))
    (rows : list (Z * AuditRow)) : AuditResult bool :=
  match rows with
  | [] => Ok true
  | (seq, row) :: rest =>
      let? entry := row_to_audit_entry community seq row in
      reject_if
        (is_some_and (λ expected, negb (bool_decide (entry.(prev_hash) = Some expected)))
           expected_prev)
        (AuditError.ChainViolation seq) ?;
      let? computed := compute_hash entry in
      reject_if (negb (bool_decide (computed = entry.(hash)))) (AuditError.HashMismatch seq) ?;
      verify_rows community (Some entry.(hash)) rest
  end.

(** [AuditService::verify_chain] *)
Definition verify_chain (log : AuditTable) (community : Uuid) (from_seq to_seq : Z)
    : AuditResult bool :=
  let rows := select_rows log community (λ seq, (from_seq <=? seq)%Z && (seq <=? to_seq)%Z) in
  if is_empty rows then Ok false else verify_rows community None rows.

(** [AuditService::get_entries]; PostgreSQL refuses a negative [LIMIT]. *)
Definition get_entries (log : AuditTable) (community : Uuid) (from_seq limit : Z)
    : AuditResult (list AuditEntry) :=
  reject_if (limit <? 0)%Z (AuditError.Database (lit "LIMIT must not be negative")) ?;
  let rows := take (Z.to_nat limit) (select_rows log community (λ seq, from_seq <=? seq)%Z) in
  collect_results (λ row, row_to_audit_entry community row.1 row.2) rows.

End service.
