(* ===== verification/AuditChain.v ===== *)
(** * The audit log: JSON, bytes and rows

    Canonical JSON does not depend on the order of members, the pieces of a hash
    preimage can be told apart, and a range of the table is a sorted list. *)

From stdpp Require Import prelude strings gmap fin_maps.
From S2P Require Import Prelude Text Platform AuditLog.

From Stdlib Require Import Sorting.Sorted.

(** ** JSON values up to the order of members *)

(** Two values with the same members at every level, in any order; the keys of
    an object are distinct. *)
#[warnings="-register-all"]
Inductive json_equiv : Value → Value → Prop :=
| json_equiv_refl v : json_equiv v v
| json_equiv_array xs ys : Forall2 json_equiv xs ys → json_equiv (Array xs) (Array ys)
| json_equiv_object ms ms' ns :
    NoDup ms.*1 →
    Forall2 (λ a b, a.1 = b.1 ∧ json_equiv a.2 b.2) ms ms' →
    Permutation ms' ns →
    json_equiv (Object ms) (Object ns).

Lemma last_wins_NoDup {A} (rows : list (Text * A)) : NoDup rows.*1 → last_wins rows = rows.
Proof.
  induction rows as [|[k v] rows IH]; intros Hd; [done|]. csimpl in Hd.
  apply NoDup_cons in Hd as [Hk Hd]. simpl. rewrite bool_decide_false by done. by rewrite IH.
Qed.

(** With distinct keys, the order in which a map is filled does not matter. *)
Lemma btree_from_iter_perm {A} (rows rows' : list (Text * A)) :
  NoDup rows.*1 → Permutation rows rows' → btree_from_iter rows = btree_from_iter rows'.
Proof.
  intros Hd Hp. unfold btree_from_iter.
  rewrite !last_wins_NoDup by (try rewrite <- Hp; done).
  apply (sort_by_key_perm fst slice_cmp (λ r, r ∈ rows)).
  - intros [k v] [k' v'] Hr Hr' Hk. simpl in Hk. subst k'. f_equal.
    apply list_elem_of_lookup in Hr as [i Hi], Hr' as [j Hj].
    assert (i = j) as ->; [|congruence].
    eapply NoDup_lookup; [exact Hd|..]; rewrite list_lookup_fmap; [by rewrite Hi|by rewrite Hj].
  - by apply Forall_forall.
  - by apply NoDup_fmap_1 in Hd.
  - done.
Qed.

Section canonical.
Context `{P : Platform} `{D : !AuditDeps}.

Lemma canonical_json_equiv : ∀ v w, json_equiv v w → canonical_json v = canonical_json w.
Proof.
  fix IH 3. intros v w [u|xs ys Hxy|ms ms' ns Hd Hm Hp]; [done|..].
  - assert (Hmap : canonical_json <$> xs = canonical_json <$> ys).
    { induction Hxy as [|x y xs ys Hxy _ IHl]; [done|]. csimpl. by rewrite (IH x y Hxy), IHl. }
    cbn [canonical_json]. by rewrite Hmap.
  - set (render := λ m : Text * Value, (m.1, canonical_json m.2)).
    assert (Hmap : render <$> ms = render <$> ms').
    { clear Hd Hp. unfold render. induction Hm as [|a b ms ms' [Hk Hv] _ IHl]; [done|]. csimpl.
      by rewrite Hk, (IH a.2 b.2 Hv), IHl. }
    assert (Hkeys : ms'.*1 = ms.*1).
    { clear -Hm. induction Hm as [|a b ms ms' [Hk _] _ IHl]; [done|]. csimpl. congruence. }
    cbn [canonical_json]. fold render.
    rewrite Hmap, (btree_from_iter_perm (render <$> ms') (render <$> ns)); [done| |].
    + rewrite <- list_fmap_compose. change (NoDup ms'.*1). by rewrite Hkeys.
    + by rewrite Hp.
Qed.

#[export] Instance canonical_json_Proper : Proper (json_equiv ==> eq) canonical_json.
Proof. exact canonical_json_equiv. Qed.

End canonical.

(** ** Rows of a range *)

#[export] Instance Z_compare_total : TotalCmp Z.compare.
Proof.
  split.
  - intros a b. apply Z.compare_eq_iff.
  - intros a b. apply Z.compare_antisym.
  - intros a b c. rewrite !Z.compare_lt_iff. lia.
Qed.

Section rows.
Context `{P : Platform} `{D : !AuditDeps}.
Implicit Types (log : gmap (Uuid * Z) AuditRow) (rows : list (Z * AuditRow)).

Lemma elem_of_select log c range n row :
  (n, row) ∈ select_rows log c range ↔ log !! (c, n) = Some row ∧ range n = true.
Proof.
  unfold select_rows. rewrite sort_by_perm, list_elem_of_omap. split.
  - intros ([[c' n'] row'] & Hin%elem_of_map_to_list & H). simpl in H.
    destruct (bool_decide (c' = c)) eqn:Hc; [|done]. destruct (range n') eqn:Hr; [|done].
    bool_props. simpl in H. naive_solver.
  - intros [Hl Hr]. exists ((c, n), row). rewrite elem_of_map_to_list. simpl.
    by rewrite bool_decide_true, Hr.
Qed.

Lemma select_sorted log c range : StrictlySorted Z.compare (select_rows log c range).*1.
Proof.
  unfold select_rows. rewrite (sort_by_key fst Z.compare). apply (sort_by_sorted Z.compare).
  pose proof (NoDup_fst_map_to_list log) as Hd.
  induction (map_to_list log) as [|[[c' n] row] l IH]; [constructor|]. csimpl in *.
  apply NoDup_cons in Hd as [Hn Hd]. specialize (IH Hd).
  destruct (bool_decide (c' = c) && range n) eqn:Hb; [|done]. bool_props. subst c'. csimpl.
  constructor; [|done]. intros ([n' row'] & Hn' & Hin)%list_elem_of_fmap. simpl in Hn'. subst n'.
  apply list_elem_of_omap in Hin as ([[c' n'] row''] & Hin & H). simpl in H.
  destruct (bool_decide (c' = c)) eqn:Hc; [|done]. destruct (range n') eqn:Hr; [|done].
  bool_props. subst c'. simpl in H. simplify_eq. apply Hn. apply list_elem_of_fmap.
  by exists ((c, n), row').
Qed.

(** A range depends only on the rows that it selects. *)
Lemma select_ext log log' c range :
  (∀ n, range n = true → log !! (c, n) = log' !! (c, n)) →
  select_rows log c range = select_rows log' c range.
Proof.
  intros Heq.
  assert (Hin : ∀ x, x ∈ select_rows log c range ↔ x ∈ select_rows log' c range).
  { intros [n row]. rewrite !elem_of_select. split; intros [Hn Hr]; by rewrite Heq in *. }
  assert (Hsorted : ∀ l : list (Z * AuditRow), StrictlySorted Z.compare l.*1 → NoDup l).
  { intros l Hl. by eapply NoDup_fmap_1, (StrictlySorted_NoDup Z.compare). }
  pose proof (select_sorted log c range) as Hs. pose proof (select_sorted log' c range) as Hs'.
  apply (keys_inj fst (λ x, x ∈ select_rows log c range)).
  - intros [n row] [n' row'] H H' Hn. simpl in Hn. subst n'.
    apply elem_of_select in H as [H _], H' as [H' _]. congruence.
  - by apply Forall_forall.
  - apply Forall_forall. intros x Hx. by apply Hin.
  - apply (StrictlySorted_unique Z.compare); [done..|]. apply fmap_Permutation.
    apply NoDup_Permutation; auto.
Qed.

(** Positions follow the sequence numbers. *)
Lemma sorted_lookup rows i j a b :
  StrictlySorted Z.compare rows.*1 → rows !! i = Some a → rows !! j = Some b →
  i < j ↔ (a.1 < b.1)%Z.
Proof.
  assert (Hlt : ∀ rows i j a b, StrictlySorted Z.compare rows.*1 →
    rows !! i = Some a → rows !! j = Some b → i < j → (a.1 < b.1)%Z).
  { clear. induction rows as [|x rows IH]; intros i j a b Hs Ha Hb Hij; [done|]. csimpl in Hs.
    apply StronglySorted_inv in Hs as [Hs Hx]. destruct j as [|j]; [lia|]. simpl in Hb.
    destruct i as [|i]; simpl in Ha.
    - simplify_eq. apply list_elem_of_lookup_2 in Hb. rewrite Forall_forall in Hx.
      apply Z.compare_lt_iff. apply (Hx b.1), list_elem_of_fmap. by exists b.
    - apply (IH i j); [done..|lia]. }
  intros Hs Ha Hb. split; [by eapply Hlt|]. intros H.
  destruct (Nat.lt_trichotomy i j) as [|[->|Hji]]; [done| |].
  - simplify_eq. lia.
  - pose proof (Hlt _ _ _ _ _ Hs Hb Ha Hji). lia.
Qed.

(** Nothing of a range comes before its first number. *)
Lemma range_first log c from to pre suf x :
  select_rows log c (λ seq, (from <=? seq)%Z && (seq <=? to)%Z) = pre ++ suf →
  x ∈ suf → x.1 = from → pre = [].
Proof.
  intros Hl Hx Hn. destruct pre as [|[n r] pre]; [done|]. exfalso.
  pose proof (select_sorted log c (λ seq, (from <=? seq)%Z && (seq <=? to)%Z)) as Hs.
  assert (Hin : (n, r) ∈ select_rows log c (λ seq, (from <=? seq)%Z && (seq <=? to)%Z))
    by (rewrite Hl; left).
  apply elem_of_select in Hin as [_ Hin]. bool_props. rewrite Hl in Hs.
  apply list_elem_of_lookup in Hx as [i Hi].
  assert (Hj : (((n, r) :: pre) ++ suf) !! (length ((n, r) :: pre) + i) = Some x)
    by (by rewrite lookup_app_r, Nat.add_comm, Nat.add_sub by lia).
  pose proof (proj1 (sorted_lookup _ 0 _ (n, r) x Hs eq_refl Hj) ltac:(simpl; lia)) as Hlt.
  simpl in Hlt. lia.
Qed.

Lemma range_start log c from to :
  select_rows log c (λ seq, (from <=? seq)%Z && (seq <=? to)%Z) ≠ [] →
  is_Some (log !! (c, from)) →
  ∃ x, x ∈ select_rows log c (λ seq, (from <=? seq)%Z && (seq <=? to)%Z) ∧ x.1 = from.
Proof.
  intros Hne [row Hrow]. exists (from, row). split; [|done]. apply elem_of_select. split; [done|].
  destruct (select_rows log c _) as [|[n r] l] eqn:E; [done|].
  assert (Hin : (n, r) ∈ select_rows log c (λ seq, (from <=? seq)%Z && (seq <=? to)%Z))
    by (rewrite E; left).
  apply elem_of_select in Hin as [_ Hin]. bool_props. apply andb_true_iff. rewrite !Z.leb_le. lia.
Qed.

End rows.

(** * The audit log: the chain

    When [verify_chain] accepts a range, what every log written by
    [append_locked] satisfies, and what equal hashes say about two entries. *)


(** ** Verification *)

Section verify.
Context `{P : Platform} `{D : !AuditDeps}.
Implicit Types (log : gmap (Uuid * Z) AuditRow) (rows : list (Z * AuditRow)).

(** The stored hash of a row is the hash of its content. *)
Definition row_valid (c : Uuid) (r : Z * AuditRow) : Prop :=
  ∃ entry, row_to_audit_entry c r.1 r.2 = Ok entry ∧ compute_hash entry = Ok (r.2.(row_hash)).

(** A row points at the row before it. *)
Definition row_linked (a b : Z * AuditRow) : Prop :=
  b.2.(row_prev_hash) = Some a.2.(row_hash).

(** Every row points at its predecessor in the list. *)
Fixpoint chained (rows : list (Z * AuditRow)) : Prop :=
  match rows with
  | a :: ((b :: _) as rest) => row_linked a b ∧ chained rest
  | _ => True
  end.

Lemma row_to_audit_entry_Ok c n row entry :
  row_to_audit_entry c n row = Ok entry →
  entry.(community_id) = c ∧ entry.(seq) = n ∧ entry.(hash) = row.(row_hash)
  ∧ entry.(prev_hash) = row.(row_prev_hash) ∧ entry.(actor_pubkey) = row.(row_actor_pubkey)
  ∧ entry.(object_id) = row.(row_object_id) ∧ entry.(created_at) = row.(row_created_at)
  ∧ AuditAction_from_str row.(row_action) = Some entry.(action)
  ∧ entry.(detail) = row.(row_detail).
Proof. unfold row_to_audit_entry. intros (a & Ha%ok_or_Ok & [= <-])%rbind_Ok. done. Qed.

Lemma verify_rows_Ok c expected rows b :
  verify_rows c expected rows = Ok b ↔
  b = true ∧ Forall (row_valid c) rows
  ∧ (∀ h r, expected = Some h → head rows = Some r → r.2.(row_prev_hash) = Some h)
  ∧ chained rows.
Proof.
  revert expected. induction rows as [|[n row] rows IH]; intros expected; cbn [verify_rows].
  { split; [intros [= <-]|naive_solver]. by split_and!. }
  rewrite Forall_cons. split.
  - intros (entry & He & H)%rbind_Ok. apply seq_Ok in H as [Hp%reject_if_Ok H].
    apply rbind_Ok in H as (h & Hh & H). apply seq_Ok in H as [Hm%reject_if_Ok H].
    pose proof (row_to_audit_entry_Ok _ _ _ _ He) as (_ & _ & Hhash & Hprev & _).
    bool_props. subst h. rewrite Hhash in *. apply IH in H as (-> & Hv & Hnext & Hc).
    split_and!; [done|by exists entry|done| |].
    + intros h r -> [= <-]. simpl in *. bool_props. by rewrite <- Hprev.
    + destruct rows as [|r rows]; [done|]. split; [|done]. by apply (Hnext (row_hash row) r).
  - intros (-> & [(entry & He & Hh) Hv] & Hp & Hc). simpl in He, Hh. rewrite He. cbn [rbind].
    pose proof (row_to_audit_entry_Ok _ _ _ _ He) as (_ & _ & Hhash & Hprev & _).
    rewrite Hh, Hhash, Hprev. cbn [rbind].
    assert (is_some_and (λ e, negb (bool_decide (row_prev_hash row = Some e))) expected = false) as ->.
    { destruct expected as [h|]; [|done]. simpl.
      rewrite bool_decide_true; [done|]. by apply (Hp h (n, row)). }
    cbn [reject_if rbind]. rewrite bool_decide_true by done. cbn [negb reject_if rbind].
    apply IH. split_and!; [done|done| |].
    + intros h r [= <-] Hr. destruct rows as [|x rows]; [done|]. simpl in Hr. simplify_eq. apply Hc.
    + destruct rows; [done|]. apply Hc.
Qed.

Lemma verify_chain_true log c from to :
  verify_chain log c from to = Ok true ↔
  let rows := select_rows log c (λ seq, (from <=? seq)%Z && (seq <=? to)%Z) in
  rows ≠ [] ∧ Forall (row_valid c) rows ∧ chained rows.
Proof.
  unfold verify_chain. cbn zeta. destruct (select_rows log c _) as [|r rows] eqn:Hr; [naive_solver|].
  cbn [is_empty]. rewrite verify_rows_Ok. naive_solver.
Qed.

End verify.

(** ** Logs written by the service *)

(** What the chain relies on in its libraries: truncation to microseconds is
    idempotent and a timestamp column keeps microseconds; a [JSONB] column gives
    back a well-formed value up to the order of members. *)
Class AuditDepsLaws `{D : AuditDeps} (json_wf : Value → Prop) : Prop := {
  trunc_idemp : ∀ t, trunc_subsecs (trunc_subsecs t 6) 6 = trunc_subsecs t 6;
  timestamptz_micros : ∀ t, timestamptz (trunc_subsecs t 6) = trunc_subsecs t 6;
  jsonb_equiv : ∀ v, json_wf v → json_equiv v (jsonb v);
}.

Lemma AuditAction_roundtrip a : AuditAction_from_str (lit (AuditAction_as_str a)) = Some a.
Proof. destruct a; vm_compute; reflexivity. Qed.

Section written.
Context `{P : Platform} `{D : !AuditDeps} (json_wf : Value → Prop) `{L : !AuditDepsLaws json_wf}.
Implicit Types (log : gmap (Uuid * Z) AuditRow).

(** Logs written by appends for any communities in any order, as long as no
    [i64] sequence has wrapped around. *)
Inductive audit_reachable : gmap (Uuid * Z) AuditRow → Prop :=
| audit_empty : audit_reachable ∅
| audit_append log new now entry log' :
    audit_reachable log → json_wf new.(new_detail) →
    append_locked log new now = Ok (entry, log') → (0 < entry.(seq))%Z →
    audit_reachable log'.

(** Every row is valid, sequences start at one without a predecessor and have
    no gaps, and every later row points at the row before it. *)
Definition log_ok log : Prop :=
  ∀ c n row, log !! (c, n) = Some row →
    (1 ≤ n < 9223372036854775808)%Z ∧ row_valid c (n, row)
    ∧ (n = 1%Z → row.(row_prev_hash) = None)
    ∧ (n ≠ 1%Z → ∃ prev, log !! (c, n - 1)%Z = Some prev
         ∧ row.(row_prev_hash) = Some prev.(row_hash)).

(** The head of a community's chain. *)
Lemma last_select log c n row :
  last (select_rows log c (λ _, true)) = Some (n, row) →
  log !! (c, n) = Some row ∧ ∀ m row', log !! (c, m) = Some row' → (m ≤ n)%Z.
Proof.
  intros Hl. pose proof Hl as Hin%last_Some_elem_of. apply elem_of_select in Hin as [Hn _].
  split; [done|]. intros m row' Hm.
  assert (Hin : (m, row') ∈ select_rows log c (λ _, true)) by (by apply elem_of_select).
  apply list_elem_of_lookup in Hin as [i Hi]. rewrite last_lookup in Hl.
  pose proof (sorted_lookup _ _ _ _ _ (select_sorted log c (λ _, true)) Hl Hi) as Hs.
  simpl in Hs. apply lookup_lt_Some in Hi. destruct (decide (n < m)%Z); [|lia].
  exfalso. apply Hs in l. lia.
Qed.

Lemma last_select_None log c n :
  last (select_rows log c (λ _, true)) = None → log !! (c, n) = None.
Proof.
  intros Hl%last_None. destruct (log !! (c, n)) as [row|] eqn:Hn; [|done].
  assert (Hin : (n, row) ∈ select_rows log c (λ _, true)) by (by apply elem_of_select).
  rewrite Hl in Hin. by apply elem_of_nil in Hin.
Qed.

(** The stored form of an entry hashes like the entry. *)
Lemma stored_valid c n prev action actor object detail now h :
  json_wf detail →
  let entry hash := {| community_id := c; seq := n; hash := hash; prev_hash := prev;
    action := action; actor_pubkey := actor; object_id := object; detail := detail;
    created_at := to_storage_precision now |} in
  compute_hash (entry []) = Ok h → row_valid c (n, stored (entry h)).
Proof.
  intros Hwf entry Hh. unfold row_valid, row_to_audit_entry. cbn [fst snd stored row_action].
  rewrite AuditAction_roundtrip. cbn [ok_or rbind]. eexists. split; [done|].
  unfold compute_hash in *. cbn [AuditLog.detail] in *.
  cbn [stored row_detail]. rewrite <- (canonical_json_equiv _ _ (jsonb_equiv detail Hwf)).
  apply rbind_Ok in Hh as (d & Hd & Hh). cbn [AuditLog.detail entry] in Hd. rewrite Hd. cbn [rbind].
  change (row_hash (stored (entry h))) with h. rewrite <- Hh. unfold preimage, entry. simpl.
  unfold to_storage_precision. by rewrite timestamptz_micros, trunc_idemp.
Qed.

Lemma i64_next n :
  (0 ≤ n < 9223372036854775808)%Z → (0 < i64_wrapping_add n 1)%Z →
  i64_wrapping_add n 1 = (n + 1)%Z ∧ (n + 1 < 9223372036854775808)%Z.
Proof.
  unfold i64_wrapping_add. intros Hn H.
  destruct (Z.eq_dec n 9223372036854775807%Z) as [->|]; [by vm_compute in H|].
  rewrite Z.mod_small by lia. lia.
Qed.

(** One append adds the next row of its community's chain and nothing else. *)
Lemma append_Ok log new now entry log' :
  log_ok log → json_wf new.(new_detail) →
  append_locked log new now = Ok (entry, log') → (0 < entry.(seq))%Z →
  let c := new.(new_community_id) in
  ∃ row, log' = <[(c, entry.(seq)) := row]> log ∧ log !! (c, entry.(seq)) = None
    ∧ (entry.(seq) < 9223372036854775808)%Z ∧ row_valid c (entry.(seq), row)
    ∧ ((entry.(seq) = 1%Z ∧ row.(row_prev_hash) = None)
       ∨ (1 < entry.(seq))%Z ∧ ∃ prev, log !! (c, entry.(seq) - 1)%Z = Some prev
            ∧ row.(row_prev_hash) = Some prev.(row_hash)).
Proof using L.
  intros Hlog Hwf Ha Hpos c. unfold append_locked in Ha. fold c in Ha.
  destruct (last (select_rows log c (λ _, true))) as [[m prow]|] eqn:Hlast.
  - apply last_select in Hlast as [Hm _]. destruct (Hlog c m prow Hm) as (Hrange & _ & _ & _).
    apply rbind_Ok in Ha as (h & Hh & Ha). apply seq_Ok in Ha as [Hu%reject_if_Ok Ha].
    injection Ha as <- <-. cbn [AuditLog.seq] in *. bool_props.
    destruct (i64_next m) as [Hnext Hmax]; [lia|done|]. rewrite Hnext in *.
    eexists. split; [done|]. split_and!; [by destruct (log !! (c, m + 1)%Z)|lia| |].
    + by apply stored_valid.
    + right. split; [lia|]. exists prow. replace (m + 1 - 1)%Z with m by lia. done.
  - apply rbind_Ok in Ha as (h & Hh & Ha). apply seq_Ok in Ha as [Hu%reject_if_Ok Ha].
    injection Ha as <- <-. cbn [AuditLog.seq] in *. bool_props.
    change (i64_wrapping_add 0 1) with 1%Z in *.
    eexists. split; [done|]. split_and!; [by destruct (log !! (c, 1)%Z)|lia| |by left].
    by apply stored_valid.
Qed.

Lemma append_log_ok log new now entry log' :
  log_ok log → json_wf new.(new_detail) →
  append_locked log new now = Ok (entry, log') → (0 < entry.(seq))%Z → log_ok log'.
Proof using L.
  intros Hlog Hwf Ha Hpos.
  destruct (append_Ok _ _ _ _ _ Hlog Hwf Ha Hpos) as (row & -> & Hnone & Hmax & Hv & Hprev).
  set (c := new_community_id new) in *. intros d n row' Hn.
  destruct (decide ((c, seq entry) = (d, n))) as [[= <- <-]|Hne].
  - rewrite lookup_insert_eq in Hn. injection Hn as <-. split_and!; [lia|lia|done|naive_solver lia|].
    intros Hn1. destruct Hprev as [[Hp _]|(_ & prev & Hp & Hh)]; [done|].
    exists prev. rewrite lookup_insert_ne; [done|]. intros [= Hs]. lia.
  - rewrite lookup_insert_ne in Hn by done. destruct (Hlog d n row' Hn) as (Hr & Hv' & H1 & Hp).
    split_and!; [lia|lia|done|done|]. intros Hn1. destruct (Hp Hn1) as (prev & Hprev' & Hh).
    exists prev. rewrite lookup_insert_ne; [done|]. intros [= <- Hs].
    rewrite Hs, Hprev' in Hnone. done.
Qed.

Lemma reachable_log_ok log : audit_reachable log → log_ok log.
Proof using L.
  induction 1 as [|log new now entry log' _ IH Hwf Ha Hpos]; [|by eapply append_log_ok].
  intros c n row Hn. by rewrite lookup_empty in Hn.
Qed.

(** Neighbours in a range have consecutive numbers. *)
Lemma log_ok_chained log c from to :
  log_ok log → chained (select_rows log c (λ seq, (from <=? seq)%Z && (seq <=? to)%Z)).
Proof using Type.
  intros Hlog. set (rows := select_rows log c _).
  assert (Hall : ∀ i a b, rows !! i = Some a → rows !! S i = Some b → row_linked a b).
  { intros i [n row] [n' row'] Ha Hb.
    pose proof (select_sorted log c (λ seq, (from <=? seq)%Z && (seq <=? to)%Z)) as Hs. fold rows in Hs.
    pose proof (list_elem_of_lookup_2 _ _ _ Ha) as [Hn Hr]%elem_of_select.
    pose proof (list_elem_of_lookup_2 _ _ _ Hb) as [Hn' Hr']%elem_of_select.
    pose proof (proj1 (sorted_lookup _ _ _ _ _ Hs Ha Hb) ltac:(lia)) as Hlt. simpl in Hlt.
    destruct (Hlog c n row Hn) as (Hrange & _). destruct (Hlog c n' row' Hn') as (_ & _ & _ & Hp).
    destruct Hp as (prev & Hprev & Hlink); [lia|].
    assert (Hin : (n' - 1, prev)%Z ∈ rows).
    { apply elem_of_select. split; [done|]. bool_props. apply andb_true_iff.
      rewrite !Z.leb_le. lia. }
    apply list_elem_of_lookup in Hin as [j Hj].
    pose proof (proj2 (sorted_lookup _ _ _ _ _ Hs Hj Hb)) as Hjb. simpl in Hjb.
    pose proof (proj1 (sorted_lookup _ _ _ _ _ Hs Hj Ha)) as Hja. simpl in Hja.
    assert (j = i) as -> by lia. rewrite Ha in Hj. injection Hj as Hn1 ->.
    unfold row_linked. simpl. done. }
  clearbody rows. clear -Hall. induction rows as [|a rows IH]; [done|]. destruct rows as [|b rows]; [done|].
  split; [by apply (Hall 0)|]. apply IH. intros i x y Hx Hy. by apply (Hall (S i)).
Qed.

Lemma log_ok_verify log c from to :
  log_ok log →
  verify_chain log c from to
  = Ok (negb (is_empty (select_rows log c (λ seq, (from <=? seq)%Z && (seq <=? to)%Z)))).
Proof using Type.
  intros Hlog. destruct (is_empty (select_rows log c _)) eqn:He.
  - unfold verify_chain. by rewrite He.
  - apply verify_chain_true. cbn zeta. split; [by intros Hn; rewrite Hn in He|].
    split; [|by apply log_ok_chained].
    apply Forall_forall. intros [n row] [Hn _]%elem_of_select. by apply Hlog.
Qed.

End written.
