(* ===== verification/AuditTamper.v ===== *)
(** * The audit log: what a hash fixes

    Equal hashes mean equal content, up to a SHA-256 collision and up to the
    boundary between the object id and the detail, which the preimage does not
    mark; so two verified chains with the same head agree to the same extent. *)

From stdpp Require Import prelude strings gmap fin_maps.
From S2P Require Import Prelude Text TextOps Platform AuditLog AuditChain.

(** ** Preimages *)

(** RFC 3339 renders a UTC instant of a four-digit year with the offset
    ["+00:00"] and no other plus sign. *)
Class Rfc3339Laws `{D : AuditDeps} (four_digit_year : DateTime → Prop) : Prop := {
  rfc3339_offset : ∀ t, four_digit_year t →
    ∃ body, to_rfc3339 t = body ++ lit "+00:00" ∧ 43%N ∉ body;
}.

Section preimage.
Context `{P : Platform} `{HU : !UuidLaws} `{D : !AuditDeps}.
Context (four_digit_year : DateTime → Prop) `{HR : !Rfc3339Laws four_digit_year}.

(** An entry as the service writes it: a 32-byte key, a 32-byte link, an [i64]
    sequence number and a date that RFC 3339 can express. *)
Record entry_typed (e : AuditEntry) : Prop := {
  typed_seq : (-9223372036854775808 ≤ e.(seq) < 9223372036854775808)%Z;
  typed_actor : ∀ pk, e.(actor_pubkey) = Some pk → length pk = 32;
  typed_prev : ∀ h, e.(prev_hash) = Some h → length h = 32;
  typed_time : four_digit_year (to_storage_precision e.(created_at));
}.

(** The text after the presence tag of the object id: the id and the detail run
    together. *)
Definition tail_bytes (e : AuditEntry) (detail : Text) : list N :=
  default [] (str_as_bytes <$> e.(object_id)) ++ str_as_bytes detail.

Definition link_bytes (e : AuditEntry) : list N := default GENESIS_HASH e.(prev_hash).

(** What equal preimages have in common.  The object id and the detail are run
    together in the preimage: they agree as one text, and separately only when
    one of the two agrees.  An absent link counts as the genesis hash. *)
Record same_content (e : AuditEntry) (d : Text) (e' : AuditEntry) (d' : Text) : Prop := {
  same_community : e.(community_id) = e'.(community_id);
  same_seq : e.(seq) = e'.(seq);
  same_time : str_as_bytes (to_rfc3339 (to_storage_precision e.(created_at)))
    = str_as_bytes (to_rfc3339 (to_storage_precision e'.(created_at)));
  same_action : e.(action) = e'.(action);
  same_actor : e.(actor_pubkey) = e'.(actor_pubkey);
  same_presence : is_Some e.(object_id) ↔ is_Some e'.(object_id);
  same_tail : tail_bytes e d = tail_bytes e' d';
  same_detail : e.(object_id) = e'.(object_id) → str_as_bytes d = str_as_bytes d';
  same_object : str_as_bytes d = str_as_bytes d' →
    str_as_bytes <$> e.(object_id) = str_as_bytes <$> e'.(object_id);
  same_link : link_bytes e = link_bytes e';
}.

Lemma link_length e : entry_typed e → length (link_bytes e) = 32.
Proof.
  intros He. unfold link_bytes. destruct (prev_hash e) as [h|] eqn:Hh; [|done].
  by apply (typed_prev e He).
Qed.

(** The preimage in the order of its fields. *)
Lemma preimage_eq e d :
  preimage e d =
  Uuid_as_bytes e.(community_id) ++ i64_to_be_bytes e.(seq)
  ++ str_as_bytes (to_rfc3339 (to_storage_precision e.(created_at)))
  ++ str_as_bytes (lit (AuditAction_as_str e.(action)))
  ++ (if opt_is_some e.(actor_pubkey) then 1%N else 0%N) :: default [] e.(actor_pubkey)
  ++ (if opt_is_some e.(object_id) then 1%N else 0%N) :: tail_bytes e d ++ link_bytes e.
Proof.
  unfold preimage, tail_bytes, link_bytes. do 4 f_equal.
  destruct (actor_pubkey e), (object_id e), (prev_hash e); simpl; by rewrite <- ?(assoc_L (++)).
Qed.

Lemma action_bytes_marked a :
  Forall (λ c, (c <? 2)%N = false) (str_as_bytes (lit (AuditAction_as_str a))).
Proof. destruct a; vm_compute; repeat constructor. Qed.

Lemma action_bytes_inj a b :
  str_as_bytes (lit (AuditAction_as_str a)) = str_as_bytes (lit (AuditAction_as_str b)) → a = b.
Proof.
  assert (Hl : ∀ x, str_as_bytes (lit (AuditAction_as_str x)) = lit (AuditAction_as_str x))
    by (intros []; vm_compute; reflexivity).
  rewrite !Hl. intros H. apply (f_equal AuditAction_from_str) in H.
  rewrite !AuditAction_roundtrip in H. by injection H.
Qed.

Lemma tag_presence {A B} (o : option A) (o' : option B) :
  (if opt_is_some o then 1%N else 0%N) = (if opt_is_some o' then 1%N else 0%N) →
  is_Some o ↔ is_Some o'.
Proof.
  destruct o, o'; simpl; intros H; try done; split; intros [? ?]; try done; by eexists.
Qed.

Lemma tail_detail e d e' d' :
  tail_bytes e d = tail_bytes e' d' → object_id e = object_id e' → str_as_bytes d = str_as_bytes d'.
Proof. unfold tail_bytes. intros H Ho. rewrite Ho in H. by apply app_inv_head in H. Qed.

Lemma tail_object e d e' d' :
  (is_Some (object_id e) ↔ is_Some (object_id e')) → tail_bytes e d = tail_bytes e' d' →
  str_as_bytes d = str_as_bytes d' → str_as_bytes <$> object_id e = str_as_bytes <$> object_id e'.
Proof.
  unfold tail_bytes. intros Hp H Hd. rewrite Hd in H. apply app_inv_tail in H.
  destruct (object_id e), (object_id e'); simpl in *; try by f_equal.
  - by destruct (proj1 Hp) as [? ?]; [eexists|].
  - by destruct (proj2 Hp) as [? ?]; [eexists|].
Qed.

Lemma preimage_inj e d e' d' :
  entry_typed e → entry_typed e' → preimage e d = preimage e' d' → same_content e d e' d'.
Proof.
  intros He He'. rewrite !preimage_eq. intros H.
  apply app_inj_1 in H as [Hc H]; [|by rewrite !Uuid_as_bytes_length].
  apply app_inj_1 in H as [Hs H]; [|unfold i64_to_be_bytes; by rewrite !length_be_bytes].
  destruct (rfc3339_offset _ (typed_time e He)) as (body & Hb & Hp).
  destruct (rfc3339_offset _ (typed_time e' He')) as (body' & Hb' & Hp').
  assert (Htime : str_as_bytes (to_rfc3339 (to_storage_precision (created_at e)))
    = str_as_bytes (to_rfc3339 (to_storage_precision (created_at e')))).
  { rewrite Hb, Hb', !str_as_bytes_app in *. rewrite <- !(assoc_L (++)) in H.
    change (str_as_bytes (lit "+00:00")) with (43%N :: str_as_bytes (lit "00:00")) in *.
    cbn [app] in H.
    assert (Hno : ∀ t, 43%N ∉ t → Forall (λ c, N.eqb 43 c = false) (str_as_bytes t)).
    { intros t Ht. apply Forall_forall. intros c Hc'. apply N.eqb_neq. intros <-.
      by apply elem_of_bytes_ascii in Hc'. }
    by apply (split_first (N.eqb 43)) in H as (-> & _ & _); auto. }
  rewrite Htime in H. apply app_inv_head in H.
  apply (split_first (λ c, c <? 2)%N) in H as (Ha & Ht & Hr);
    [|apply action_bytes_marked|apply action_bytes_marked|by destruct (actor_pubkey e)
     |by destruct (actor_pubkey e')].
  pose proof (tag_presence _ _ Ht) as Hpk.
  assert (Hlen : length (default [] (actor_pubkey e)) = length (default [] (actor_pubkey e'))).
  { destruct (actor_pubkey e) as [pk|] eqn:E, (actor_pubkey e') as [pk'|] eqn:E'; simpl; try done.
    by rewrite (typed_actor e He pk), (typed_actor e' He' pk'). }
  apply app_inj_1 in Hr as [Hk Hr]; [|done]. injection Hr as Hot Hr.
  apply app_inj_2 in Hr as [Htail Hlink]; [|by rewrite !link_length].
  constructor; [by apply Uuid_as_bytes_inj| |done|by apply action_bytes_inj| |
    by apply tag_presence|done|..|done].
  - apply i64_bytes_inj; [apply He|apply He'|done].
  - destruct (actor_pubkey e), (actor_pubkey e'); simpl in *; by simplify_eq.
  - by apply tail_detail.
  - apply tail_object; [by apply tag_presence|done].
Qed.

End preimage.

(** ** Chains *)

Section chains.
Context `{P : Platform} `{HU : !UuidLaws} `{D : !AuditDeps}.
Context (four_digit_year : DateTime → Prop) `{HR : !Rfc3339Laws four_digit_year}.
Implicit Types rows : list (Z * AuditRow).

(** Two messages with the same digest. *)
Definition sha256_collision : Prop := ∃ m m', m ≠ m' ∧ sha256 m = sha256 m'.

(** A row that reads as a typed entry. *)
Definition row_typed (c : Uuid) (r : Z * AuditRow) : Prop :=
  ∀ e, row_to_audit_entry c r.1 r.2 = Ok e → entry_typed four_digit_year e.

(** Two rows with the same hash that read as entries of the same content, in the
    sense of [same_content]. *)
Definition same_row (c c' : Uuid) (a b : Z * AuditRow) : Prop :=
  a.2.(row_hash) = b.2.(row_hash) ∧
  ∃ e d e' d', row_to_audit_entry c a.1 a.2 = Ok e ∧ canonical_json e.(detail) = Ok d
    ∧ row_to_audit_entry c' b.1 b.2 = Ok e' ∧ canonical_json e'.(detail) = Ok d'
    ∧ same_content e d e' d'.

Lemma row_valid_hash c r :
  row_valid c r →
  ∃ e d, row_to_audit_entry c r.1 r.2 = Ok e ∧ canonical_json e.(detail) = Ok d
    ∧ r.2.(row_hash) = sha256 (preimage e d).
Proof.
  intros (e & He & Hh). unfold compute_hash in Hh.
  apply rbind_Ok in Hh as (d & Hd%map_err_Ok & [= Hh]). eauto 10.
Qed.

Lemma same_hash_same_row c c' a b :
  row_valid c a → row_valid c' b → row_typed c a → row_typed c' b →
  a.2.(row_hash) = b.2.(row_hash) → same_row c c' a b ∨ sha256_collision.
Proof using HU HR.
  intros Ha Hb Hta Htb Hh.
  destruct (row_valid_hash c a Ha) as (e & d & He & Hd & Hha).
  destruct (row_valid_hash c' b Hb) as (e' & d' & He' & Hd' & Hhb).
  destruct (decide (preimage e d = preimage e' d')) as [Hp|Hp].
  - left. split; [done|]. exists e, d, e', d'. split_and!; try done.
    eapply preimage_inj; [apply HR|by apply Hta|by apply Htb|done].
  - right. exists (preimage e d), (preimage e' d'). split; [done|]. congruence.
Qed.

Lemma same_row_seq c c' a b : same_row c c' a b → c = c' ∧ a.1 = b.1.
Proof.
  intros (_ & e & d & e' & d' & He & _ & He' & _ & Hs).
  apply row_to_audit_entry_Ok in He as (Hc & Hn & _), He' as (Hc' & Hn' & _).
  split; [rewrite <- Hc, <- Hc'; apply Hs|rewrite <- Hn, <- Hn'; apply Hs].
Qed.

Lemma same_rows_seq c c' suf suf' :
  Forall2 (same_row c c') suf suf' →
  (∀ x, x ∈ suf → ∃ y, y ∈ suf' ∧ y.1 = x.1) ∧ (∀ y, y ∈ suf' → ∃ x, x ∈ suf ∧ x.1 = y.1).
Proof.
  intros H. split.
  - intros x [i Hi]%list_elem_of_lookup. destruct (Forall2_lookup_l _ _ _ _ _ H Hi) as (y & Hy & Hxy).
    exists y. split; [by eapply list_elem_of_lookup_2|]. symmetry. by eapply same_row_seq.
  - intros y [i Hi]%list_elem_of_lookup. destruct (Forall2_lookup_r _ _ _ _ _ H Hi) as (x & Hx & Hxy).
    exists x. split; [by eapply list_elem_of_lookup_2|]. by eapply same_row_seq.
Qed.

Lemma same_row_link c c' a b h h' :
  same_row c c' a b → a.2.(row_prev_hash) = Some h → b.2.(row_prev_hash) = Some h' → h = h'.
Proof.
  intros (_ & e & d & e' & d' & He & _ & He' & _ & Hs) Ha Hb.
  apply row_to_audit_entry_Ok in He as (_ & _ & _ & Hp & _), He' as (_ & _ & _ & Hp' & _).
  pose proof (same_link _ _ _ _ Hs) as Hl. unfold link_bytes in Hl.
  rewrite Hp, Hp', Ha, Hb in Hl. done.
Qed.

Lemma chained_snoc rows a b : chained (rows ++ [a; b]) ↔ chained (rows ++ [a]) ∧ row_linked a b.
Proof.
  induction rows as [|x rows IH]; simpl; [tauto|].
  destruct rows as [|y rows]; simpl in *; tauto.
Qed.

Definition chain_ok (c : Uuid) rows : Prop :=
  Forall (row_valid c) rows ∧ Forall (row_typed c) rows ∧ chained rows.

(** Two chains with the same head hash agree, from the head back to the end of
    the shorter one. *)
Lemma chains_agree c c' rows rows' a b :
  chain_ok c (rows ++ [a]) → chain_ok c' (rows' ++ [b]) → a.2.(row_hash) = b.2.(row_hash) →
  sha256_collision ∨
  ∃ pre pre' suf suf', rows ++ [a] = pre ++ suf ∧ rows' ++ [b] = pre' ++ suf'
    ∧ (pre = [] ∨ pre' = []) ∧ Forall2 (same_row c c') suf suf' ∧ suf ≠ [].
Proof using HU HR.
  revert rows' a b. induction rows as [|y rows IH] using rev_ind; intros rows' a b Hl Hl' Hh.
  all: pose proof Hl as (Hv & Ht & Hc); pose proof Hl' as (Hv' & Ht' & Hc').
  all: apply Forall_app in Hv as [Hv Hva], Ht as [Ht Hta], Hv' as [Hv' Hvb], Ht' as [Ht' Htb].
  all: apply Forall_cons in Hva as [Hva _], Hta as [Hta _], Hvb as [Hvb _], Htb as [Htb _].
  all: destruct (same_hash_same_row c c' a b Hva Hvb Hta Htb Hh) as [Hs|]; [|by left].
  - right. exists [], rows', [a], [b]. split_and!; [done|done|by left|constructor; [exact Hs|constructor]|done].
  - destruct rows' as [|z rows' _] using rev_ind.
    { right. exists (rows ++ [y]), [], [a], [b].
      split_and!; [done|done|by right|constructor; [exact Hs|constructor]|done]. }
    rewrite <- (assoc_L (++)) in Hc, Hc'. apply chained_snoc in Hc as [Hc Hya], Hc' as [Hc' Hzb].
    assert (Hyz : y.2.(row_hash) = z.2.(row_hash)) by (by eapply same_row_link).
    destruct (IH rows' y z) as [|(pre & pre' & suf & suf' & E & E' & Hpre & Hsuf & Hne)];
      [done..|by left|].
    right. exists pre, pre', (suf ++ [a]), (suf' ++ [b]). rewrite E, E', <- !(assoc_L (++)).
    split_and!; [done|done|done| |by destruct suf]. apply Forall2_app; [done|constructor; [exact Hs|constructor]].
Qed.

End chains.
