(* ===== verification/AuditTheorems.v ===== *)
(** * The audit log: the properties *)

From stdpp Require Import prelude strings pretty gmap fin_maps.
From S2P Require Import Prelude Text TextOps Platform Reference AuditLog AuditChain AuditTamper.

Section theorems.
Context `{P : Platform} `{D : !AuditDeps}.
Implicit Types (log : gmap (Uuid * Z) AuditRow).

(** Canonical JSON does not depend on the order of object members, at any
    depth, so a value that a [JSONB] column has reordered hashes as before. *)
Theorem canonical_json_order v w :
  json_equiv v w → canonical_json v = canonical_json w.
Proof. apply canonical_json_equiv. Qed.

(** C25. Every log written by the service verifies: for any community and any
    range [verify_chain] returns [true] when the range has an entry and [false]
    when it has none, and never an error, whatever other communities wrote in
    between; numbering starts at one and has no gaps. *)
Theorem audit_log_verifies json_wf `{!AuditDepsLaws json_wf} log c from to :
  audit_reachable json_wf log →
  ∃ b, verify_chain log c from to = Ok b
    ∧ (b = true ↔ ∃ n row, log !! (c, n) = Some row ∧ (from ≤ n ≤ to)%Z)
    ∧ ∀ n row, log !! (c, n) = Some row → (1 ≤ n)%Z ∧ ∀ m, (1 ≤ m ≤ n)%Z → is_Some (log !! (c, m)).
Proof.
  intros Hr%(reachable_log_ok json_wf). eexists. split; [by apply log_ok_verify|]. split.
  - set (rows := select_rows log c _).
    assert (Hin : ∀ n row, (n, row) ∈ rows ↔ log !! (c, n) = Some row ∧ (from ≤ n ≤ to)%Z).
    { intros n row. unfold rows. rewrite elem_of_select, andb_true_iff, !Z.leb_le. done. }
    setoid_rewrite <- Hin. destruct rows as [|[n row] rows]; simpl.
    + split; [done|]. intros (n & row & H). by apply elem_of_nil in H.
    + split; [|done]. intros _. exists n, row. by left.
  - intros n row Hn. split; [apply (Hr c n row Hn)|]. intros m Hm.
    assert (Hback : ∀ k : nat, (Z.of_nat k ≤ n - 1)%Z → is_Some (log !! (c, n - Z.of_nat k)%Z)).
    { induction k as [|k IH]; intros Hk; [by replace (n - Z.of_nat 0)%Z with n by lia; eexists|].
      destruct IH as [row' Hrow']; [lia|].
      destruct (Hr c _ row' Hrow') as (_ & _ & _ & Hp).
      destruct Hp as (prev & Hprev & _); [lia|].
      replace (n - Z.of_nat (S k))%Z with (n - Z.of_nat k - 1)%Z by lia. by eexists. }
    specialize (Hback (Z.to_nat (n - m)) ltac:(lia)).
    by replace (n - Z.of_nat (Z.to_nat (n - m)))%Z with m in Hback by lia.
Qed.

(** Chains are isolated per community: an append adds one row of its own
    community, which it links to that community's head, and verification and
    reads of every other community give what they gave before. *)
Theorem audit_append_isolated log new now entry log' c from to limit :
  append_locked log new now = Ok (entry, log') →
  entry.(community_id) = new.(new_community_id)
  ∧ log' = <[(entry.(community_id), entry.(seq)) := stored entry]> log
  ∧ log !! (entry.(community_id), entry.(seq)) = None
  ∧ (∀ prev, entry.(prev_hash) = Some prev →
     ∃ n row, log !! (entry.(community_id), n) = Some row ∧ row.(row_hash) = prev
       ∧ ∀ m, is_Some (log !! (entry.(community_id), m)) → (m ≤ n)%Z)
  ∧ (c ≠ new.(new_community_id) →
     verify_chain log' c from to = verify_chain log c from to
     ∧ get_entries log' c from limit = get_entries log c from limit).
Proof.
  intros Ha. unfold append_locked in Ha.
  set (community := new_community_id new) in *.
  assert (Hiso : ∀ n row range, c ≠ community →
    select_rows (<[(community, n) := row]> log) c range = select_rows log c range).
  { intros n row range Hc. apply select_ext. intros m _. apply lookup_insert_ne. congruence. }
  destruct (last (select_rows log community (λ _, true))) as [[m prow]|] eqn:Hlast.
  all: apply rbind_Ok in Ha as (h & Hh & Ha); apply seq_Ok in Ha as [Hu%reject_if_Ok Ha].
  all: injection Ha as <- <-; cbn [AuditLog.community_id AuditLog.seq AuditLog.prev_hash].
  all: apply orb_false_iff in Hu as [Hnone _].
  all: split_and!; [done|done|by destruct (log !! (community, _))| |].
  all: try (intros Hc; unfold verify_chain, get_entries; by rewrite !Hiso).
  - intros prev [= <-]. apply last_select in Hlast as [Hm Hmax]. exists m, prow.
    split_and!; [done|done|]. intros k [row Hk]. by eapply Hmax.
  - done.
Qed.

(** C5. Tampering shows, up to the boundary between object id and detail.  Take
    two logs that both verify a range of a community, both hold a row at the
    first number of the range, and whose rows of the range are well typed (keys
    and links of 32 bytes, [i64] numbers, four-digit years).  If the last rows of
    the range carry the same hash, then the two ranges have the same length and
    agree row by row in number, time, action, actor, presence of an object id,
    link (an absent link counting as the genesis hash), and in the text that the
    object id and the canonical detail form together; where one of these two is
    the same, so is the other.  Otherwise two different messages with the same
    SHA-256 digest are at hand. *)
Theorem audit_tamper_evident `{!UuidLaws} four_digit_year `{!Rfc3339Laws four_digit_year}
    log log' c from to rows rows' a b :
  select_rows log c (λ seq, (from <=? seq)%Z && (seq <=? to)%Z) = rows ++ [a] →
  select_rows log' c (λ seq, (from <=? seq)%Z && (seq <=? to)%Z) = rows' ++ [b] →
  verify_chain log c from to = Ok true → verify_chain log' c from to = Ok true →
  Forall (row_typed four_digit_year c) (rows ++ [a]) →
  Forall (row_typed four_digit_year c) (rows' ++ [b]) →
  is_Some (log !! (c, from)) → is_Some (log' !! (c, from)) →
  a.2.(row_hash) = b.2.(row_hash) →
  Forall2 (same_row c c) (rows ++ [a]) (rows' ++ [b]) ∨ sha256_collision.
Proof.
  intros Hrows Hrows' Hv Hv' Ht Ht' Hf Hf' Hh.
  apply verify_chain_true in Hv as (_ & Hv & Hc), Hv' as (_ & Hv' & Hc').
  pose proof (range_start log c from to) as Hs. pose proof (range_start log' c from to) as Hs'.
  rewrite Hrows in Hv, Hc, Hs. rewrite Hrows' in Hv', Hc', Hs'.
  destruct (chains_agree four_digit_year c c rows rows' a b) as
    [|(pre & pre' & suf & suf' & E & E' & Hpre & Hsuf & Hne)]; [done..|by right|left].
  destruct (same_rows_seq _ _ _ _ Hsuf) as [Hsame Hsame'].
  assert (pre = [] ∧ pre' = []) as [-> ->]; [|by rewrite E, E'].
  destruct Hpre as [->| ->].
  - destruct Hs as (x & Hx & Hxf); [by destruct rows|done|]. rewrite E in Hx.
    destruct (Hsame x Hx) as (y & Hy & Hyx). split; [done|].
    rewrite E' in Hrows'. eapply range_first; [exact Hrows'|exact Hy|congruence].
  - destruct Hs' as (y & Hy & Hyf); [by destruct rows'|done|]. rewrite E' in Hy.
    destruct (Hsame' y Hy) as (x & Hx & Hxy). split; [|done].
    rewrite E in Hrows. eapply range_first; [exact Hrows|exact Hx|congruence].
Qed.

(** The hash does not separate the object id from the detail: with numbers
    rendered as their digits, an entry about object ["a"] with detail [12] and
    one about object ["a1"] with detail [2] have the same hash. *)
Theorem audit_detail_ambiguous c n prev act actor now h :
  (∀ digits, scalar_to_json (Number digits) = Ok digits) →
  let entry object number := {| community_id := c; seq := n; hash := h; prev_hash := prev;
    action := act; actor_pubkey := actor; object_id := Some (lit object);
    detail := Number (lit number); created_at := now |} in
  entry "a" "12" ≠ entry "a1" "2"
  ∧ compute_hash (entry "a" "12") = compute_hash (entry "a1" "2").
Proof.
  intros Hn entry. split; [by intros [=]|].
  unfold compute_hash, entry, preimage. cbn [AuditLog.detail AuditLog.community_id AuditLog.seq AuditLog.created_at
    AuditLog.action AuditLog.actor_pubkey AuditLog.object_id AuditLog.prev_hash canonical_json].
  rewrite !Hn. cbn [map_err rbind]. do 7 f_equal.
Qed.

End theorems.

(** ** A concrete log

    Instances of the library functions, and a log of two communities. *)

#[global] Instance reference_audit : AuditDeps := {|
  trunc_subsecs := λ t _, (t - t mod 1000)%Z;
  to_rfc3339 := λ t, hex_encode (be_bytes 8 t) ++ lit "+00:00";
  str_to_json := λ s, Ok ([34%N] ++ s ++ [34%N]);
  scalar_to_json := λ v,
    match v with
    | Null => Ok (lit "null")
    | Bool b => Ok (lit (if b then "true" else "false"))
    | Number repr => Ok repr
    | VString s => Ok ([34%N] ++ s ++ [34%N])
    | _ => Err (lit "not a scalar")
    end;
  timestamptz := id;
  jsonb := id;
|}.

#[global] Instance reference_audit_laws : AuditDepsLaws (λ _, True).
Proof.
  split.
  - intros t. simpl. rewrite (Z.mod_eq t 1000) by lia.
    replace (t - (t - 1000 * (t / 1000)))%Z with (t / 1000 * 1000)%Z by lia.
    rewrite Z.mod_mul by lia. lia.
  - done.
  - intros v _. apply json_equiv_refl.
Qed.

#[global] Instance reference_rfc3339 : Rfc3339Laws (λ _, True).
Proof.
  split. intros t _. eexists. split; [reflexivity|]. intros Hin.
  pose proof (hex_encode_lower (be_bytes 8 t)) as Hlow. rewrite Forall_forall in Hlow.
  specialize (Hlow _ Hin). vm_compute in Hlow. discriminate Hlow.
Qed.

Definition audit_new (seed : N) (act : AuditAction) (value : Value) : NewAuditEntry := {|
  new_community_id := ref_uuid seed : @Uuid reference_platform;
  new_action := act;
  new_actor_pubkey := Some (replicate 32 171%N);
  new_object_id := Some (lit "object");
  new_detail := value;
|}.

Definition audit_value : Value := Object [(lit "z", Number (lit "1")); (lit "a", Null)].
Definition audit_value' : Value := Object [(lit "a", Null); (lit "z", Number (lit "1"))].

Abbreviation SampleLog := (gmap (@Uuid reference_platform * Z) AuditRow).

Definition audit_after (log : SampleLog) (new : NewAuditEntry) (now : DateTime) : SampleLog :=
  match append_locked log new now with Ok (_, log') => log' | Err _ => log end.

Definition audit_entry_of (log : SampleLog) (new : NewAuditEntry) (now : DateTime)
    : option AuditEntry :=
  match append_locked log new now with Ok (e, _) => Some e | Err _ => None end.

Lemma audit_append_step (log : SampleLog) new now :
  (AuditLog.seq <$> audit_entry_of log new now) ≫= (λ n, Some (0 <? n)%Z) = Some true →
  audit_reachable (λ _, True) log → audit_reachable (λ _, True) (audit_after log new now).
Proof.
  unfold audit_entry_of, audit_after. destruct (append_locked log new now) as [[e log']|] eqn:Ha; [|done].
  simpl. intros [= Hs] Hr. eapply audit_append; [exact Hr|done|exact Ha|]. by apply Z.ltb_lt.
Qed.

Definition audit_log1 : SampleLog := audit_after ∅ (audit_new 1 AuditAction.EventCreated audit_value) 1000%Z.
Definition audit_log2 : SampleLog :=
  audit_after audit_log1 (audit_new 2 AuditAction.AuthSuccess Null) 2000%Z.
Definition audit_log3 : SampleLog :=
  audit_after audit_log2 (audit_new 1 AuditAction.EventDeleted audit_value') 3000%Z.

Definition community1 : @Uuid reference_platform := ref_uuid 1.

Lemma audit_reachable3 : audit_reachable (λ _, True) audit_log3.
Proof.
  apply audit_append_step; [vm_compute; reflexivity|].
  apply audit_append_step; [vm_compute; reflexivity|].
  apply audit_append_step; [vm_compute; reflexivity|]. apply audit_empty.
Qed.

(** ** Applications *)

Lemma canonical_json_order_witness : canonical_json audit_value = canonical_json audit_value'.
Proof.
  apply canonical_json_order.
  apply (json_equiv_object _ [(lit "z", Number (lit "1")); (lit "a", Null)]).
  - by_evaluation.
  - repeat (constructor; [split; [reflexivity|apply json_equiv_refl]|]). constructor.
  - apply Permutation_swap.
Defined.

Lemma audit_log_verifies_witness :
  ∃ b, verify_chain audit_log3 community1 1 2 = Ok b
    ∧ (b = true ↔ ∃ n row, audit_log3 !! (community1, n) = Some row ∧ (1 ≤ n ≤ 2)%Z).
Proof.
  destruct (audit_log_verifies (λ _, True) audit_log3 community1 1 2 audit_reachable3)
    as (b & Hb & Hiff & _).
  exists b. split; [exact Hb|exact Hiff].
Defined.

Lemma audit_append_isolated_witness :
  verify_chain audit_log2 community1 1 9 = verify_chain audit_log1 community1 1 9.
Proof.
  assert (Ha : opt_is_some (audit_entry_of audit_log1 (audit_new 2 AuditAction.AuthSuccess Null) 2000%Z) = true)
    by (vm_compute; reflexivity).
  unfold audit_log2. unfold audit_entry_of, audit_after in *.
  destruct (append_locked audit_log1 (audit_new 2 AuditAction.AuthSuccess Null) 2000%Z)
    as [[e log']|] eqn:E; [|discriminate Ha].
  destruct (audit_append_isolated _ _ _ _ _ community1 1 9 9 E) as (_ & _ & _ & _ & H).
  refine (proj1 (H _)). by_evaluation.
Defined.

Definition audit_rows (to : Z) : list (Z * AuditRow) :=
  select_rows audit_log3 community1 (λ seq, (1 <=? seq)%Z && (seq <=? to)%Z).

Definition audit_row (n : Z) : Z * AuditRow :=
  (n, default (stored {| community_id := community1; AuditLog.seq := 0; hash := []; prev_hash := None;
    action := AuditAction.EventCreated; actor_pubkey := None; object_id := None; detail := Null;
    created_at := 0%Z |}) (audit_log3 !! (community1, n))).

Lemma audit_tamper_evident_witness :
  Forall2 (same_row community1 community1) ([audit_row 1] ++ [audit_row 2])
    ([audit_row 1] ++ [audit_row 2]) ∨ sha256_collision.
Proof.
  assert (Hsel : select_rows audit_log3 community1 (λ seq, (1 <=? seq)%Z && (seq <=? 2)%Z)
    = [audit_row 1] ++ [audit_row 2]) by (vm_compute; reflexivity).
  assert (Hv : verify_chain audit_log3 community1 1 2 = Ok true) by (vm_compute; reflexivity).
  assert (Hf : is_Some (audit_log3 !! (community1, 1%Z))) by (vm_compute; eexists; reflexivity).
  assert (Ht : Forall (row_typed (λ _, True) community1) ([audit_row 1] ++ [audit_row 2])).
  { apply Forall_cons. split; [|apply Forall_cons; split; [|apply Forall_nil; exact I]].
    all: intros e He; apply row_to_audit_entry_Ok in He as (_ & Hs & _ & Hp & Hk & _).
    all: constructor; [rewrite Hs; cbn [audit_row fst]; lia| | |exact I].
    all: intros x Hx.
    all: first [rewrite Hk in Hx|rewrite Hp in Hx]; vm_compute in Hx; try discriminate Hx.
    all: injection Hx as <-; reflexivity. }
  exact (audit_tamper_evident (λ _, True) audit_log3 audit_log3 community1 1 2 _ _ _ _ Hsel Hsel Hv Hv
    Ht Ht Hf Hf eq_refl).
Defined.

Lemma audit_detail_ambiguous_witness :
  compute_hash {| community_id := community1; AuditLog.seq := 1; hash := []; prev_hash := None;
    action := AuditAction.EventCreated; actor_pubkey := None; object_id := Some (lit "a");
    detail := Number (lit "12"); created_at := 0%Z |}
  = compute_hash {| community_id := community1; AuditLog.seq := 1; hash := []; prev_hash := None;
    action := AuditAction.EventCreated; actor_pubkey := None; object_id := Some (lit "a1");
    detail := Number (lit "2"); created_at := 0%Z |}.
Proof.
  apply (audit_detail_ambiguous community1 1 None AuditAction.EventCreated None 0 []).
  intros digits. reflexivity.
Defined.
