(* ===== verification/GitPerms.v ===== *)
(** * Git permissions: roles, ref patterns, protection rules and push policy

    Models [buzz-core/src/channel.rs] and [buzz-core/src/git_perms.rs].  A call
    that can reach [unreachable!()] returns an [option]: [None] is the panic. *)

From S2P Require Import Prelude Text TextOps.
From stdpp Require Import prelude strings.

(** ** Channels and members ([channel.rs]) *)

Definition canonical_channel_name (name : Text) : Text :=
  trim_end (trim_start_matches (λ c, (c =? 35)%N || is_whitespace c) name).

Inductive ChannelVisibility : Type :=
| Open
| Private.

Definition ChannelVisibility_as_str (v : ChannelVisibility) : Text :=
  match v with
  | Open => lit "open"
  | Private => lit "private"
  end.

(** The error of a [FromStr] instance: the text that is not a name; the message
    built from it is not kept. *)
Inductive UnknownName : Type :=
| Unknown (other : Text).

Definition ChannelVisibility_from_str (s : Text) : result ChannelVisibility UnknownName :=
  if decide (s = lit "open") then Ok Open
  else if decide (s = lit "private") then Ok Private
  else Err (Unknown s).

Inductive ChannelType : Type :=
| Stream
| Forum
| Dm
| Workflow.

Definition ChannelType_as_str (t : ChannelType) : Text :=
  match t with
  | Stream => lit "stream"
  | Forum => lit "forum"
  | Dm => lit "dm"
  | Workflow => lit "workflow"
  end.

Definition ChannelType_from_str (s : Text) : result ChannelType UnknownName :=
  if decide (s = lit "stream") then Ok Stream
  else if decide (s = lit "forum") then Ok Forum
  else if decide (s = lit "dm") then Ok Dm
  else if decide (s = lit "workflow") then Ok Workflow
  else Err (Unknown s).

Inductive MemberRole : Type :=
| Owner
| Admin
| Member
| Guest
| Bot.

#[global] Instance MemberRole_eq_dec : EqDecision MemberRole.
Proof. solve_decision. Defined.

Definition MemberRole_as_str (r : MemberRole) : Text :=
  match r with
  | Owner => lit "owner"
  | Admin => lit "admin"
  | Member => lit "member"
  | Guest => lit "guest"
  | Bot => lit "bot"
  end.

Definition is_elevated (r : MemberRole) : bool :=
  match r with
  | Owner | Admin => true
  | _ => false
  end.

Definition permission_level (r : MemberRole) : N :=
  match r with
  | Owner => 4
  | Admin => 3
  | Member => 2
  | Guest => 1
  | Bot => 0
  end%N.

Definition has_at_least (r required : MemberRole) : bool :=
  (permission_level required <=? permission_level r)%N.

Definition MemberRole_from_str (s : Text) : result MemberRole UnknownName :=
  if decide (s = lit "owner") then Ok Owner
  else if decide (s = lit "admin") then Ok Admin
  else if decide (s = lit "member") then Ok Member
  else if decide (s = lit "guest") then Ok Guest
  else if decide (s = lit "bot") then Ok Bot
  else Err (Unknown s).

(** ** Ref patterns *)

Definition MAX_PROTECTION_RULES : N := 50.
Definition MAX_PATTERN_LENGTH : N := 256.
Definition MAX_WILDCARDS_PER_PATTERN : N := 3.

Inductive PatternSegment : Type :=
| Literal (lit : Text)
| Wildcard
| RecursiveWildcard.

Record RefPattern : Type := mkRefPattern {
  raw : Text;
  segments : list PatternSegment;
}.

Inductive PatternError : Type :=
| Empty
| TooLong
| MissingRefsPrefix
| InvalidSegment (segment : Text)
| TooManyWildcards.

(** The character [/]. *)
Definition slash : N := 47.

Definition is_pattern_char (c : N) : bool :=
  is_ascii_alphanumeric c || (c =? 46)%N || (c =? 95)%N || (c =? 45)%N.

(** The loop of [RefPattern::parse]; the last part is the one at
    [parts.len() - 1]. *)
Fixpoint parse_parts (wildcard_count : N) (parts : list Text)
  : result (list PatternSegment) PatternError :=
  match parts with
  | [] => Ok []
  | part :: rest =>
      if decide (part = lit "**") then
        reject_if (negb (is_empty rest)) (InvalidSegment (lit "** must be the last segment")) ?;
        let wildcard_count := (wildcard_count + 1)%N in
        reject_if (MAX_WILDCARDS_PER_PATTERN <? wildcard_count)%N TooManyWildcards ?;
        let? segments := parse_parts wildcard_count rest in
        Ok (RecursiveWildcard :: segments)
      else if decide (part = lit "*") then
        let wildcard_count := (wildcard_count + 1)%N in
        reject_if (MAX_WILDCARDS_PER_PATTERN <? wildcard_count)%N TooManyWildcards ?;
        let? segments := parse_parts wildcard_count rest in
        Ok (Wildcard :: segments)
      else
        reject_if (is_empty part) (InvalidSegment []) ?;
        reject_if (contains_char 42 part || contains_char 63 part
                   || contains_char 91 part || contains_char 93 part) (InvalidSegment part) ?;
        reject_if (negb (forallb is_pattern_char part)) (InvalidSegment part) ?;
        let? segments := parse_parts wildcard_count rest in
        Ok (Literal part :: segments)
  end.

Definition RefPattern_parse (pattern : Text) : result RefPattern PatternError :=
  reject_if (is_empty pattern) Empty ?;
  reject_if (MAX_PATTERN_LENGTH <? str_len pattern)%N TooLong ?;
  reject_if (negb (starts_with (lit "refs/") pattern)) MissingRefsPrefix ?;
  let? segments := parse_parts 0 (split_char slash pattern) in
  Ok {| raw := pattern; segments := segments |}.

(** [zip(..).all(..)], which stops at the first segment that differs. *)
Fixpoint all_match (pats : list PatternSegment) (segs : list Text) : option bool :=
  match pats, segs with
  | pat :: pats, seg :: segs =>
      match pat with
      | Wildcard => all_match pats segs
      | Literal l => if decide (l = seg) then all_match pats segs else Some false
      | RecursiveWildcard => None
      end
  | _, _ => Some true
  end.

Definition RefPattern_matches (p : RefPattern) (ref_name : Text) : option bool :=
  let ref_segments := split_char slash ref_name in
  match last p.(segments) with
  | Some RecursiveWildcard =>
      let prefix_len := pred (length p.(segments)) in
      if decide (length ref_segments ≤ prefix_len) then Some false
      else all_match (take prefix_len p.(segments)) (take prefix_len ref_segments)
  | _ =>
      if decide (length ref_segments ≠ length p.(segments)) then Some false
      else all_match p.(segments) ref_segments
  end.

(** ** Ref updates *)

Inductive UpdateKind : Type :=
| Create
| FastForward
| NonFastForward
| Delete.

#[global] Instance UpdateKind_eq_dec : EqDecision UpdateKind.
Proof. solve_decision. Defined.

Definition ZERO_OID : Text := lit "0000000000000000000000000000000000000000".

Definition classify (old_oid new_oid : Text) (is_ancestor : bool) : UpdateKind :=
  if decide (old_oid = ZERO_OID) then Create
  else if decide (new_oid = ZERO_OID) then Delete
  else if is_ancestor then FastForward
  else NonFastForward.

Record RefUpdate : Type := mkRefUpdate {
  ref_name : Text;
  kind : UpdateKind;
  old_oid : Text;
  new_oid : Text;
}.

(** ** Protection rules *)

Record ProtectionRule : Type := mkProtectionRule {
  pattern : RefPattern;
  push_role : option MemberRole;
  no_force_push : bool;
  no_delete : bool;
  require_patch : bool;
}.

Inductive RuleParseError : Type :=
| TooFewValues
| TooManyRules
| InvalidPattern (e : PatternError)
| UnknownRule (rule : Text)
| InvalidRole (role : Text).

(** [match push_role { None => role, Some(existing) => .. }]: the strictest. *)
Definition strictest (push_role : option MemberRole) (role : MemberRole) : option MemberRole :=
  Some (match push_role with
        | None => role
        | Some existing =>
            if (permission_level existing <? permission_level role)%N then role else existing
        end).

(** One iteration over the rule strings of a tag. *)
Definition parse_rule (acc : ProtectionRule * list Text) (rule_str : Text)
  : result (ProtectionRule * list Text) RuleParseError :=
  let '(rule, unknown_rules) := acc in
  match str_strip_prefix (lit "push:") rule_str with
  | Some role_str =>
      let? role := map_err (λ _, InvalidRole role_str) (MemberRole_from_str role_str) in
      reject_if (match role with Bot | Guest => true | _ => false end) (InvalidRole role_str) ?;
      Ok ({| pattern := rule.(pattern); push_role := strictest rule.(push_role) role;
             no_force_push := rule.(no_force_push); no_delete := rule.(no_delete);
             require_patch := rule.(require_patch) |}, unknown_rules)
  | None =>
      if decide (rule_str = lit "no-force-push") then
        Ok ({| pattern := rule.(pattern); push_role := rule.(push_role); no_force_push := true;
               no_delete := rule.(no_delete); require_patch := rule.(require_patch) |},
            unknown_rules)
      else if decide (rule_str = lit "no-delete") then
        Ok ({| pattern := rule.(pattern); push_role := rule.(push_role);
               no_force_push := rule.(no_force_push); no_delete := true;
               require_patch := rule.(require_patch) |}, unknown_rules)
      else if decide (rule_str = lit "require-patch") then
        Ok ({| pattern := rule.(pattern); push_role := rule.(push_role);
               no_force_push := rule.(no_force_push); no_delete := rule.(no_delete);
               require_patch := true |}, unknown_rules)
      else Ok (rule, unknown_rules ++ [rule_str])
  end.

Definition parse_protection_tag_with_warnings (values : list Text)
  : result (ProtectionRule * list Text) RuleParseError :=
  match values with
  | value0 :: value1 :: more =>
      let? pattern := map_err InvalidPattern (RefPattern_parse value0) in
      try_fold parse_rule
        ({| pattern := pattern; push_role := None; no_force_push := false; no_delete := false;
            require_patch := false |}, []) (value1 :: more)
  | _ => Err TooFewValues
  end.

Definition parse_protection_tag (values : list Text) : result ProtectionRule RuleParseError :=
  let? parsed := parse_protection_tag_with_warnings values in
  Ok parsed.1.

Record ParsedProtection : Type := mkParsedProtection {
  rules : list ProtectionRule;
  unknown_rules : list Text;
}.

(** One iteration over the tags of the event. *)
Definition parse_tag (acc : ParsedProtection) (tag : list Text)
  : result ParsedProtection RuleParseError :=
  if decide (head tag ≠ Some (lit "buzz-protect")) then Ok acc
  else
    reject_if (MAX_PROTECTION_RULES <=? len acc.(rules))%N TooManyRules ?;
    let? parsed := parse_protection_tag_with_warnings (tail tag) in
    let '(rule, unknowns) := parsed in
    Ok {| rules := acc.(rules) ++ [rule]; unknown_rules := acc.(unknown_rules) ++ unknowns |}.

Definition parse_protection_tags (tags : list (list Text))
  : result ParsedProtection RuleParseError :=
  try_fold parse_tag {| rules := []; unknown_rules := [] |} tags.

(** ** The policy *)

Definition default_min_role (ref_name : Text) (kind : UpdateKind) : MemberRole :=
  let is_branch := starts_with (lit "refs/heads/") ref_name in
  let is_tag := starts_with (lit "refs/tags/") ref_name in
  match kind with
  | Create => if is_branch || is_tag then Member else Admin
  | FastForward => if is_branch then Member else if is_tag then Admin else Admin
  | NonFastForward => Admin
  | Delete => Admin
  end.

Record EffectiveRules : Type := mkEffectiveRules {
  eff_push_role : option MemberRole;
  eff_no_force_push : bool;
  eff_no_delete : bool;
  eff_require_patch : bool;
  has_explicit_match : bool;
}.

(** One iteration of [EffectiveRules::for_ref]. *)
Definition union_rule (acc : EffectiveRules) (rule : ProtectionRule) : EffectiveRules := {|
  eff_push_role := match rule.(push_role) with
                   | Some role => strictest acc.(eff_push_role) role
                   | None => acc.(eff_push_role)
                   end;
  eff_no_force_push := acc.(eff_no_force_push) || rule.(no_force_push);
  eff_no_delete := acc.(eff_no_delete) || rule.(no_delete);
  eff_require_patch := acc.(eff_require_patch) || rule.(require_patch);
  has_explicit_match := true;
|}.

Fixpoint for_ref_loop (ref_name : Text) (acc : EffectiveRules) (rules : list ProtectionRule)
  : option EffectiveRules :=
  match rules with
  | [] => Some acc
  | rule :: rules =>
      matched ← RefPattern_matches rule.(pattern) ref_name;
      for_ref_loop ref_name (if matched : bool then union_rule acc rule else acc) rules
  end.

Definition EffectiveRules_for_ref (ref_name : Text) (rules : list ProtectionRule)
  : option EffectiveRules :=
  for_ref_loop ref_name
    {| eff_push_role := None; eff_no_force_push := false; eff_no_delete := false;
       eff_require_patch := false; has_explicit_match := false |} rules.

Record Denial : Type := mkDenial {
  denial_ref_name : Text;
  denial_reason : Text;
}.

(** [if .. { return Err(Denial { .. }) }] *)
Definition deny_if (c : bool) (update : RefUpdate) (reason : Text) : result unit Denial :=
  reject_if c {| denial_ref_name := update.(ref_name); denial_reason := reason |}.

Definition evaluate_ref_update (update : RefUpdate) (role : MemberRole)
    (rules : list ProtectionRule) : option (result unit Denial) :=
  effective ← EffectiveRules_for_ref update.(ref_name) rules;
  Some (
    if negb effective.(has_explicit_match) then
      let min_role := default_min_role update.(ref_name) update.(kind) in
      deny_if (negb (has_at_least role min_role)) update
        (lit "requires " ++ MemberRole_as_str min_role ++ lit " role (you have "
         ++ MemberRole_as_str role ++ lit "), using built-in defaults") ?;
      Ok tt
    else
      deny_if effective.(eff_require_patch) update
        (lit "direct push denied: require-patch is set, submit a NIP-34 patch") ?;
      let default_role := default_min_role update.(ref_name) update.(kind) in
      let min_role :=
        match effective.(eff_push_role) with
        | Some explicit =>
            if (permission_level default_role <=? permission_level explicit)%N
            then explicit else default_role
        | None => default_role
        end in
      deny_if (negb (has_at_least role min_role)) update
        (lit "requires " ++ MemberRole_as_str min_role ++ lit " role (you have "
         ++ MemberRole_as_str role ++ lit ")") ?;
      deny_if (effective.(eff_no_force_push) && bool_decide (update.(kind) = NonFastForward))
        update (lit "non-fast-forward update denied: no-force-push is set") ?;
      deny_if (effective.(eff_no_delete) && bool_decide (update.(kind) = Delete))
        update (lit "ref deletion denied: no-delete is set") ?;
      Ok tt).

(** [updates.iter().filter_map(|update| evaluate_ref_update(..).err()).collect()] *)
Fixpoint collect_denials (updates : list RefUpdate) (role : MemberRole)
    (rules : list ProtectionRule) : option (list Denial) :=
  match updates with
  | [] => Some []
  | update :: updates =>
      verdict ← evaluate_ref_update update role rules;
      denials ← collect_denials updates role rules;
      Some (match verdict with Ok _ => denials | Err d => d :: denials end)
  end.

Definition evaluate_push (updates : list RefUpdate) (role : MemberRole)
    (rules : list ProtectionRule) : option (result unit (list Denial)) :=
  denials ← collect_denials updates role rules;
  Some (if is_empty denials then Ok tt else Err denials).
