(* ===== verification/GitFacts.v ===== *)
(** * Git permissions: what patterns and policies decide

    A parsed pattern matches exactly the refs of the language its text denotes
    ([glob]), and a push is allowed exactly when the built-in default and every
    rule that applies allow it on their own ([update_allowed]). *)

From stdpp Require Import prelude strings.
From S2P Require Import Prelude Text TextOps GitPerms.

(** ** The language of a pattern *)

(** The segments of a pattern text against those of a ref: [*] stands for one
    segment and a final [**] for one or more. *)
Fixpoint glob (parts segs : list Text) : bool :=
  match parts, segs with
  | [], [] => true
  | p :: ps, s :: ss =>
      if decide (p = lit "**" ∧ ps = []) then true
      else if decide (p = lit "*") then glob ps ss
      else bool_decide (p = s) && glob ps ss
  | _, _ => false
  end.

(** The same on parsed segments. *)
Fixpoint seg_glob (pats : list PatternSegment) (segs : list Text) : bool :=
  match pats, segs with
  | [], [] => true
  | [RecursiveWildcard], _ :: _ => true
  | Wildcard :: ps, _ :: ss => seg_glob ps ss
  | Literal l :: ps, s :: ss => bool_decide (l = s) && seg_glob ps ss
  | _, _ => false
  end.

Definition seg_of (part : Text) : PatternSegment :=
  if decide (part = lit "**") then RecursiveWildcard
  else if decide (part = lit "*") then Wildcard
  else Literal part.

(** [**] is at most the last segment. *)
Fixpoint rec_last (pats : list PatternSegment) : Prop :=
  match pats with
  | [] => True
  | RecursiveWildcard :: rest => rest = []
  | _ :: rest => rec_last rest
  end.

Definition is_wildcard (seg : PatternSegment) : bool :=
  match seg with Literal _ => false | _ => true end.

Definition wildcards (pats : list PatternSegment) : N := len (List.filter is_wildcard pats).

Lemma parse_parts_Ok n parts pats :
  (n ≤ MAX_WILDCARDS_PER_PATTERN)%N → parse_parts n parts = Ok pats →
  pats = seg_of <$> parts ∧ rec_last pats ∧ (n + wildcards pats ≤ MAX_WILDCARDS_PER_PATTERN)%N.
Proof.
  revert n pats. induction parts as [|part rest IH]; intros n pats Hn; simpl.
  { intros [= <-]. repeat split. unfold wildcards, len. simpl. lia. }
  unfold seg_of at 1. destruct (decide (part = lit "**")); [|destruct (decide (part = lit "*"))];
    intros H; ok_inv; subst; bool_props;
    match goal with H : parse_parts _ _ = _ |- _ =>
      apply IH in H as (-> & Hr & Hw); [|done] end;
    unfold wildcards, len in *; cbn [List.filter is_wildcard length rec_last];
    (split; [done|split; [done || by destruct rest|lia]]).
Qed.

Lemma RefPattern_parse_Ok t p :
  RefPattern_parse t = Ok p →
  p.(raw) = t ∧ p.(segments) = seg_of <$> split_char slash t ∧ rec_last p.(segments)
  ∧ (wildcards p.(segments) ≤ MAX_WILDCARDS_PER_PATTERN)%N
  ∧ (str_len t ≤ MAX_PATTERN_LENGTH)%N ∧ lit "refs/" `prefix_of` t.
Proof.
  unfold RefPattern_parse. intros H. ok_inv. subst. simpl. bool_props.
  match goal with H : parse_parts _ _ = _ |- _ => apply parse_parts_Ok in H as (? & ? & ?); [|done] end.
  repeat split; try done. by apply starts_with_true.
Qed.

Lemma glob_seg_of parts segs :
  rec_last (seg_of <$> parts) → seg_glob (seg_of <$> parts) segs = glob parts segs.
Proof.
  revert segs. induction parts as [|p ps IH]; intros segs; [by destruct segs|].
  cbn [fmap list_fmap]. unfold seg_of at 1 3. cbn [glob].
  destruct (decide (p = lit "**")) as [->|H2].
  - intros ->%fmap_nil_inv. destruct segs; [done|]. by rewrite decide_True by done.
  - destruct segs as [|s ss].
    { intros _. by destruct (decide (p = lit "*")). }
    rewrite (decide_False (P := p = lit "**" ∧ ps = [])) by naive_solver.
    destruct (decide (p = lit "*")); cbn [rec_last seg_glob]; intros H; by rewrite IH.
Qed.

(** A prefix without [**] is compared segment by segment. *)
Lemma all_match_plain pats segs :
  RecursiveWildcard ∉ pats → length segs = length pats →
  all_match pats segs = Some (seg_glob pats segs).
Proof.
  revert segs. induction pats as [|[l| |] ps IH]; intros [|s ss] Hn Hl;
    try (exfalso; set_solver); simplify_eq/=; try done.
  - destruct (decide (l = s)) as [->|Hs].
    + rewrite bool_decide_true by done. apply IH; set_solver.
    + by rewrite bool_decide_false.
  - apply IH; set_solver.
Qed.

Lemma all_match_rec pats segs :
  RecursiveWildcard ∉ pats → length pats < length segs →
  all_match pats (take (length pats) segs) = Some (seg_glob (pats ++ [RecursiveWildcard]) segs).
Proof.
  revert segs. induction pats as [|[l| |] ps IH]; intros [|s ss] Hn Hl;
    try (exfalso; set_solver); simplify_eq/=; try done; try lia.
  - destruct (decide (l = s)) as [->|Hs].
    + rewrite bool_decide_true by done. apply IH; [set_solver|lia].
    + by rewrite bool_decide_false.
  - apply IH; [set_solver|lia].
Qed.

Lemma seg_glob_length pats segs :
  RecursiveWildcard ∉ pats → length segs ≠ length pats → seg_glob pats segs = false.
Proof.
  revert segs. induction pats as [|[l| |] ps IH]; intros [|s ss] Hn Hl;
    try (exfalso; set_solver); simplify_eq/=; try done.
  - rewrite IH; [apply andb_false_r|set_solver|lia].
  - rewrite IH; [done|set_solver|lia].
Qed.

Lemma seg_glob_short pats segs :
  RecursiveWildcard ∉ pats → length segs ≤ length pats →
  seg_glob (pats ++ [RecursiveWildcard]) segs = false.
Proof.
  revert segs. induction pats as [|[l| |] ps IH]; intros [|s ss] Hn Hl;
    try (exfalso; set_solver); simplify_eq/=; try done; try lia.
  - rewrite IH; [apply andb_false_r|set_solver|lia].
  - rewrite IH; [done|set_solver|lia].
Qed.

(** The shape of a parsed pattern. *)
Lemma rec_last_shape pats :
  rec_last pats →
  RecursiveWildcard ∉ pats ∨ ∃ pre, pats = pre ++ [RecursiveWildcard] ∧ RecursiveWildcard ∉ pre.
Proof.
  induction pats as [|[l| |] ps IH]; simpl.
  - left. set_solver.
  - intros [H|(pre & -> & H)]%IH; [left; set_solver|right].
    exists (Literal l :: pre). split; [done|set_solver].
  - intros [H|(pre & -> & H)]%IH; [left; set_solver|right].
    exists (Wildcard :: pre). split; [done|set_solver].
  - intros ->. right. exists []. split; [done|set_solver].
Qed.

(** [unreachable!()] is not reached, and the verdict is that of the reference. *)
Lemma matches_seg_glob p r :
  rec_last p.(segments) →
  RefPattern_matches p r = Some (seg_glob p.(segments) (split_char slash r)).
Proof.
  unfold RefPattern_matches. destruct p as [t pats]. cbn [segments].
  intros [H|(pre & -> & H)]%rec_last_shape.
  - assert (Hl : last pats ≠ Some RecursiveWildcard)
      by (intros Hl%last_Some_elem_of; done).
    destruct (decide (length (split_char slash r) = length pats)) as [E|E].
    + rewrite <- all_match_plain by done.
      destruct (last pats) as [[]|]; by rewrite ?decide_False by (by intros E2).
    + rewrite seg_glob_length by done.
      destruct (last pats) as [[]|]; by rewrite ?decide_True by done.
  - rewrite last_snoc, length_app, Nat.add_1_r. simpl pred. rewrite take_app_length.
    destruct (decide (length (split_char slash r) ≤ length pre)) as [E|E].
    + by rewrite seg_glob_short.
    + apply all_match_rec; [done|lia].
Qed.

Lemma parsed_matches t p r :
  RefPattern_parse t = Ok p →
  RefPattern_matches p r = Some (glob (split_char slash t) (split_char slash r)).
Proof.
  intros (_ & Hs & Hr & _)%RefPattern_parse_Ok.
  rewrite matches_seg_glob, Hs by done. rewrite glob_seg_of; [done|by rewrite <- Hs].
Qed.

(** ** Rules *)

(** A rule as the parser builds it. *)
Definition rule_wf (rule : ProtectionRule) : Prop :=
  RefPattern_parse rule.(pattern).(raw) = Ok rule.(pattern)
  ∧ ∀ r, rule.(push_role) = Some r → r ∈ [Owner; Admin; Member].

(** The rule applies to the ref. *)
Definition applies (rule : ProtectionRule) (ref_name : Text) : bool :=
  glob (split_char slash rule.(pattern).(raw)) (split_char slash ref_name).

Lemma rule_matches rule r :
  rule_wf rule → RefPattern_matches rule.(pattern) r = Some (applies rule r).
Proof. intros [H _]. by apply parsed_matches. Qed.

Lemma parse_raw t p : RefPattern_parse t = Ok p → RefPattern_parse p.(raw) = Ok p.
Proof. intros H. by destruct (RefPattern_parse_Ok t p H) as [-> _]. Qed.

Lemma strictest_in (P : MemberRole → Prop) o r r' :
  (∀ r', o = Some r' → P r') → P r → strictest o r = Some r' → P r'.
Proof.
  unfold strictest. destruct o as [e|]; [|by intros _ ? [= <-]].
  intros He Hr. destruct (_ <? _)%N; intros [= <-]; auto.
Qed.

Lemma parse_rule_wf acc t acc' :
  parse_rule acc t = Ok acc' → rule_wf acc.1 → rule_wf acc'.1 ∧ acc'.1.(pattern) = acc.1.(pattern).
Proof.
  destruct acc as [rule unknowns]. unfold parse_rule, rule_wf. intros H [Hp Hr].
  destruct (str_strip_prefix (lit "push:") t) as [role_str|].
  - ok_inv. subst. simpl in *. split; [split; [done|]|done].
    intros r. apply (strictest_in (λ r, r ∈ [Owner; Admin; Member])); [done|]. destruct x; simplify_eq; set_solver.
  - repeat case_decide; ok_inv; by subst.
Qed.

Lemma try_fold_inv {A B E} (f : B → A → result B E) (I : B → Prop) acc xs acc' :
  (∀ acc x acc', f acc x = Ok acc' → I acc → I acc') →
  try_fold f acc xs = Ok acc' → I acc → I acc'.
Proof.
  intros Hf. revert acc. induction xs as [|x xs IH]; intros acc; simpl; [by intros [= <-]|].
  intros (b & Hb & H)%rbind_Ok Hacc. eauto.
Qed.

Lemma parse_tag_wf values parsed :
  parse_protection_tag_with_warnings values = Ok parsed → rule_wf parsed.1.
Proof.
  unfold parse_protection_tag_with_warnings. destruct values as [|v0 [|v1 vs]]; [done..|].
  intros H. apply rbind_Ok in H as (p & Hp%map_err_Ok & H).
  eapply (try_fold_inv _ (λ acc, rule_wf acc.1)); [|exact H|].
  - intros acc t acc' Ha Hw. by apply (parse_rule_wf acc t).
  - by split; [eapply parse_raw|].
Qed.

Definition parsed_ok (parsed : ParsedProtection) : Prop :=
  Forall rule_wf parsed.(rules) ∧ (len parsed.(rules) ≤ MAX_PROTECTION_RULES)%N.

Lemma parse_protection_tags_ok tags parsed :
  parse_protection_tags tags = Ok parsed → parsed_ok parsed.
Proof.
  intros H. eapply (try_fold_inv _ parsed_ok); [|exact H|].
  - intros acc tag acc' Ha [Hw Hl]. unfold parse_tag in Ha. case_decide; [by simplify_eq|].
    ok_inv. destruct x0 as [rule unknowns]. ok_inv. subst. bool_props. split; simpl.
    + apply Forall_app. split; [done|]. constructor; [|done]. by apply parse_tag_wf in H2.
    + unfold len in *. rewrite length_app. simpl. lia.
  - split; [constructor|done].
Qed.

(** ** The policy on one ref *)

(** What one applying rule asks of an update. *)
Definition rule_allows (u : RefUpdate) (role : MemberRole) (rule : ProtectionRule) : Prop :=
  rule.(require_patch) = false
  ∧ (∀ r, rule.(push_role) = Some r → has_at_least role r = true)
  ∧ (rule.(no_force_push) = true → u.(kind) ≠ NonFastForward)
  ∧ (rule.(no_delete) = true → u.(kind) ≠ Delete).

(** The built-in default and every applying rule allow the update. *)
Definition update_allowed (u : RefUpdate) (role : MemberRole) (rules : list ProtectionRule) : Prop :=
  has_at_least role (default_min_role u.(ref_name) u.(kind)) = true
  ∧ ∀ rule, rule ∈ rules → applies rule u.(ref_name) = true → rule_allows u role rule.

Definition no_rules : EffectiveRules := {|
  eff_push_role := None; eff_no_force_push := false; eff_no_delete := false;
  eff_require_patch := false; has_explicit_match := false;
|}.

Lemma for_ref_fold r acc rules :
  Forall rule_wf rules →
  for_ref_loop r acc rules = Some (foldl union_rule acc (List.filter (λ x, applies x r) rules)).
Proof.
  intros H. revert acc. induction H as [|rule rules Hw _ IH]; intros acc; [done|]. cbn [for_ref_loop].
  rewrite rule_matches by done. cbn [mbind option_bind List.filter]. rewrite IH.
  by destruct (applies rule r).
Qed.

(** What the union of the rules asks of an update. *)
Definition effective_allows (u : RefUpdate) (role : MemberRole) (e : EffectiveRules) : Prop :=
  e.(eff_require_patch) = false
  ∧ (∀ r, e.(eff_push_role) = Some r → has_at_least role r = true)
  ∧ (e.(eff_no_force_push) = true → u.(kind) ≠ NonFastForward)
  ∧ (e.(eff_no_delete) = true → u.(kind) ≠ Delete).

Lemma strictest_at_least role o r :
  (∀ r', strictest o r = Some r' → has_at_least role r' = true) ↔
  has_at_least role r = true ∧ ∀ r', o = Some r' → has_at_least role r' = true.
Proof.
  unfold strictest, has_at_least. setoid_rewrite N.leb_le. destruct o as [e|].
  - destruct (N.ltb_spec (permission_level e) (permission_level r)).
    + split; [intros Hs; specialize (Hs _ eq_refl)|intros [Hr _] r' [= <-]; done].
      split; [done|]. intros r' [= <-]. lia.
    + split; [intros Hs; specialize (Hs _ eq_refl)|intros [_ He] r' [= <-]; by apply He].
      split; [lia|]. by intros r' [= <-].
  - split; [intros Hs; split; [by apply Hs|done]|]. by intros [Hr _] r' [= <-].
Qed.

Lemma union_rule_allows u role e rule :
  effective_allows u role (union_rule e rule) ↔
  effective_allows u role e ∧ rule_allows u role rule.
Proof.
  unfold effective_allows, rule_allows, union_rule. cbn.
  rewrite orb_false_iff, !orb_true_iff.
  assert ((∀ r, match push_role rule with
                | Some role0 => strictest (eff_push_role e) role0
                | None => eff_push_role e end = Some r → has_at_least role r = true) ↔
          (∀ r, eff_push_role e = Some r → has_at_least role r = true)
          ∧ ∀ r, push_role rule = Some r → has_at_least role r = true) as ->.
  { destruct (push_role rule) as [r0|].
    - rewrite strictest_at_least. naive_solver.
    - naive_solver. }
  tauto.
Qed.

Lemma fold_allows u role e rules :
  effective_allows u role (foldl union_rule e rules) ↔
  effective_allows u role e ∧ Forall (rule_allows u role) rules.
Proof.
  revert e. induction rules as [|rule rules IH]; intros e; simpl; [naive_solver|].
  rewrite IH, union_rule_allows, Forall_cons. tauto.
Qed.

Lemma fold_explicit e rules :
  (foldl union_rule e rules).(has_explicit_match) = e.(has_explicit_match) || negb (is_empty rules).
Proof.
  revert e. induction rules as [|rule rules IH]; intros e; simpl; [by rewrite orb_false_r|].
  rewrite IH. simpl. by rewrite orb_true_r.
Qed.

Lemma Forall_bool_filter {A} (P : A → Prop) (p : A → bool) l :
  Forall P (List.filter p l) ↔ ∀ x, x ∈ l → p x = true → P x.
Proof.
  rewrite Forall_forall. setoid_rewrite list_elem_of_In. setoid_rewrite filter_In. naive_solver.
Qed.

Lemma default_or_explicit role d o :
  has_at_least role (match o with
                     | Some e => if (permission_level d <=? permission_level e)%N then e else d
                     | None => d
                     end) = true ↔
  has_at_least role d = true ∧ ∀ r, o = Some r → has_at_least role r = true.
Proof.
  unfold has_at_least. setoid_rewrite N.leb_le. destruct o as [e|]; [|naive_solver].
  destruct (N.leb_spec (permission_level d) (permission_level e)); split.
  - intros ?. split; [lia|]. by intros r [= <-].
  - intros [_ H']. by apply H'.
  - intros ?. split; [done|]. intros r [= <-]. lia.
  - by intros [? _].
Qed.

Lemma deny_if_Ok c u reason x : deny_if c u reason = Ok x ↔ c = false.
Proof. apply reject_if_Ok. Qed.

(** The verdict on one update, and the ref a denial names. *)
Definition verdict_for (u : RefUpdate) (role : MemberRole) (rules : list ProtectionRule)
    (v : result unit Denial) : Prop :=
  (v = Ok tt ↔ update_allowed u role rules) ∧ ∀ d, v = Err d → d.(denial_ref_name) = u.(ref_name).

Lemma andb_bool_decide_false b (P : Prop) `{Decision P} :
  b && bool_decide P = false ↔ (b = true → ¬ P).
Proof. destruct b; simpl; [rewrite bool_decide_eq_false|]; naive_solver. Qed.

Lemma evaluate_ref_update_verdict u role rules :
  Forall rule_wf rules →
  ∃ v, evaluate_ref_update u role rules = Some v ∧ verdict_for u role rules v.
Proof.
  intros Hw. unfold evaluate_ref_update, EffectiveRules_for_ref. rewrite for_ref_fold by done.
  fold no_rules. cbn [mbind option_bind]. eexists. split; [done|].
  pose proof (fold_allows u role no_rules (List.filter (λ x, applies x (ref_name u)) rules)) as Hf.
  rewrite Forall_bool_filter in Hf.
  pose proof (fold_explicit no_rules (List.filter (λ x, applies x (ref_name u)) rules)) as He.
  destruct (has_explicit_match _); simpl in He; cbn [negb]; split.
  - rewrite !seq_Ok, !deny_if_Ok, !negb_false_iff, default_or_explicit, !andb_bool_decide_false.
    unfold update_allowed. transitivity
      (has_at_least role (default_min_role (ref_name u) (kind u)) = true
       ∧ effective_allows u role
           (foldl union_rule no_rules (List.filter (λ x, applies x (ref_name u)) rules))).
    { unfold effective_allows. tauto. }
    rewrite Hf. unfold effective_allows at 1. simpl. naive_solver.
  - intros d Hd. repeat (apply rbind_Err in Hd as [[_ <-]%reject_if_Err|(? & _ & Hd)]; [done|]). done.
  - rewrite seq_Ok, deny_if_Ok, negb_false_iff. unfold update_allowed. split; [|naive_solver].
    intros [Hd _]. split; [done|]. intros rule Hr Ha. exfalso.
    destruct (List.filter _ rules) eqn:E; [|done].
    assert (Hin : rule ∈ List.filter (λ x, applies x (ref_name u)) rules)
      by (by apply list_elem_of_In, filter_In; rewrite <- list_elem_of_In).
    rewrite E in Hin. set_solver.
  - intros d Hd. repeat (apply rbind_Err in Hd as [[_ <-]%reject_if_Err|(? & _ & Hd)]; [done|]). done.
Qed.

(** ** The policy on a push *)

(** The denials are those of the refused updates, in their order. *)
Inductive denials_for (role : MemberRole) (rules : list ProtectionRule)
  : list RefUpdate → list Denial → Prop :=
| denials_nil : denials_for role rules [] []
| denials_pass u us ds :
    update_allowed u role rules → denials_for role rules us ds → denials_for role rules (u :: us) ds
| denials_deny u us d ds :
    ¬ update_allowed u role rules → d.(denial_ref_name) = u.(ref_name) →
    denials_for role rules us ds → denials_for role rules (u :: us) (d :: ds).

Lemma collect_denials_spec us role rules :
  Forall rule_wf rules →
  ∃ ds, collect_denials us role rules = Some ds ∧ denials_for role rules us ds.
Proof.
  intros Hw. induction us as [|u us (ds & Hds & Hd)]; [eexists; by repeat constructor|].
  destruct (evaluate_ref_update_verdict u role rules Hw) as (v & Hv & Ha & He).
  cbn [collect_denials]. rewrite Hv, Hds. cbn [mbind option_bind]. eexists. split; [done|].
  destruct v as [[]|d]; [constructor; tauto|].
  constructor; [|by apply He|done]. intros H%Ha. done.
Qed.

Lemma denials_for_nil role rules us ds :
  denials_for role rules us ds → ds = [] ↔ Forall (λ u, update_allowed u role rules) us.
Proof.
  induction 1 as [|u us ds Ha _ IH|u us d ds Ha _ _ IH]; rewrite ?Forall_cons; naive_solver.
Qed.

Lemma evaluate_push_Ok us role rules :
  Forall rule_wf rules →
  evaluate_push us role rules = Some (Ok tt) ↔ Forall (λ u, update_allowed u role rules) us.
Proof.
  intros Hw. destruct (collect_denials_spec us role rules Hw) as (ds & Hds & Hd).
  unfold evaluate_push. rewrite Hds. cbn [mbind option_bind].
  rewrite <- (denials_for_nil _ _ _ _ Hd). by destruct ds.
Qed.

Lemma evaluate_push_Err us role rules ds :
  Forall rule_wf rules → evaluate_push us role rules = Some (Err ds) →
  denials_for role rules us ds ∧ ds ≠ [].
Proof.
  intros Hw. destruct (collect_denials_spec us role rules Hw) as (ds' & Hds & Hd).
  unfold evaluate_push. rewrite Hds. cbn [mbind option_bind].
  destruct ds' as [|d ds']; [done|]. intros [= <-]. done.
Qed.

Lemma evaluate_push_total us role rules :
  Forall rule_wf rules → ∃ v, evaluate_push us role rules = Some v.
Proof.
  intros Hw. destruct (collect_denials_spec us role rules Hw) as (ds & Hds & _).
  unfold evaluate_push. rewrite Hds. eauto.
Qed.

(** ** Stricter rules and higher roles *)

Lemma update_allowed_mono u role role' rules rules' :
  (permission_level role ≤ permission_level role')%N → rules' ⊆ rules →
  update_allowed u role rules → update_allowed u role' rules'.
Proof.
  intros Hr Hs [Hd Ha].
  assert (Hm : ∀ r, has_at_least role r = true → has_at_least role' r = true)
    by (intros r; unfold has_at_least; rewrite !N.leb_le; lia).
  split; [auto|]. intros rule Hin Happ.
  destruct (Ha rule (Hs _ Hin) Happ) as (? & ? & ? & ?). repeat split; auto.
Qed.

Lemma parse_protection_tags_app tags more parsed parsed' :
  parse_protection_tags tags = Ok parsed →
  parse_protection_tags (tags ++ more) = Ok parsed' →
  parsed.(rules) `prefix_of` parsed'.(rules).
Proof.
  unfold parse_protection_tags. generalize (mkParsedProtection [] []). intros acc.
  revert acc. induction tags as [|tag tags IH]; intros acc; simpl.
  - intros [= <-]. intros H. eapply (try_fold_inv _ (λ p, acc.(rules) `prefix_of` p.(rules)));
      [|exact H|done].
    intros p t p' Hp Hpre. unfold parse_tag in Hp. case_decide; [by simplify_eq|].
    ok_inv. destruct x0. ok_inv. subst. simpl. by apply prefix_app_r.
  - intros (b & Hb & H1)%rbind_Ok (b' & Hb' & H2)%rbind_Ok.
    rewrite Hb in Hb'. injection Hb' as <-. by apply (IH b).
Qed.
