(* ===== verification/GitPolicy.v ===== *)
(** * Git permissions: the pre-receive hook callback

    Models [buzz-relay/src/api/git/policy.rs]: the signed payload of the
    callback and the whole handler [hook_policy_check].  The clock, the secret
    and the four database queries of the handler, each of which is asked at
    most once per request, are the fields of [AppState]; HMAC-SHA256 and
    [Uuid::parse_str] are parameters.  Logging is left out. *)

From stdpp Require Import prelude strings.
From S2P Require Import Prelude Text TextOps Platform GitPerms.

Definition MAX_CALLBACK_AGE_SECS : N := 30.

(** Third-party functions of the endpoint. *)
Class GitDeps `{P : Platform} : Type := {
  (** [Hmac::<Sha256>::new_from_slice(key)], fed the message, then [finalize] *)
  hmac_sha256 : list N → list N → list N;
  (** [uuid::Uuid::parse_str] *)
  Uuid_parse_str : Text → option Uuid;
}.

Record HookRefUpdate : Type := mkHookRefUpdate {
  hook_old_oid : Text;
  hook_new_oid : Text;
  hook_ref_name : Text;
  hook_is_ancestor : bool;
}.

#[global] Instance HookRefUpdate_eq_dec : EqDecision HookRefUpdate.
Proof. solve_decision. Defined.

Record HookCallbackRequest : Type := mkHookCallbackRequest {
  repo_id : Text;
  repo_owner : Text;
  community_id : Text;
  pusher_pubkey : Text;
  ref_updates : list HookRefUpdate;
  timestamp : N;
  signature : Text;
}.

Record DenialResponse : Type := mkDenialResponse {
  response_ref_name : Text;
  response_reason : Text;
}.

Record HookCallbackResponse : Type := mkHookCallbackResponse {
  allowed : bool;
  denials : list DenialResponse;
}.

Definition DenialResponse_from (d : Denial) : DenialResponse := {|
  response_ref_name := d.(denial_ref_name);
  response_reason := d.(denial_reason);
|}.

(** The body of the HTTP response. *)
Inductive Body : Type :=
| Plain (text : Text)
| Json (response : HookCallbackResponse).

Record Response : Type := mkResponse {
  status : N;
  body : Body;
}.

Definition OK : N := 200.
Definition FORBIDDEN : N := 403.

(** ** The signed payload *)

(** The character [|]. *)
Definition bar : N := 124.

(** [String::cmp] of the ref names *)
Definition ref_name_cmp (a b : HookRefUpdate) : comparison :=
  slice_cmp (str_as_bytes a.(hook_ref_name)) (str_as_bytes b.(hook_ref_name)).

Definition ref_bytes (r : HookRefUpdate) : list N :=
  str_as_bytes r.(hook_old_oid)
  ++ str_as_bytes r.(hook_new_oid)
  ++ len_prefixed r.(hook_ref_name)
  ++ (if r.(hook_is_ancestor) then lit "1" else lit "0").

(** The concatenation of the updates of [compute_hmac]. *)
Definition hook_payload (req : HookCallbackRequest) : list N :=
  len_prefixed req.(repo_id) ++ bar ::
  str_as_bytes req.(repo_owner) ++ bar ::
  str_as_bytes req.(community_id) ++ bar ::
  str_as_bytes req.(pusher_pubkey) ++ bar ::
  (sort_by ref_name_cmp req.(ref_updates) ≫= ref_bytes) ++ bar ::
  str_as_bytes (fmt_u64 req.(timestamp)).

Section handler.
Context `{P : Platform} `{D : !GitDeps}.

Definition compute_hmac (secret : list N) (req : HookCallbackRequest) : list N :=
  hmac_sha256 secret (hook_payload req).

Definition verify_hmac (secret : list N) (req : HookCallbackRequest) : bool :=
  let expected := compute_hmac secret req in
  match hex_decode req.(signature) with
  | Ok provided => bool_decide (expected = provided)
  | Err _ => false
  end.

Definition generate_hook_hmac (secret : list N)
    (repo_id repo_owner community_id pusher_pubkey : Text)
    (ref_updates : list HookRefUpdate) (timestamp : N) : Text :=
  hex_encode (compute_hmac secret
    {| repo_id := repo_id; repo_owner := repo_owner; community_id := community_id;
       pusher_pubkey := pusher_pubkey; ref_updates := ref_updates;
       timestamp := timestamp; signature := [] |}).

(** ** The state the handler reads *)

(** The fields of [EventQuery] that the handler sets. *)
Record EventQuery : Type := mkEventQuery {
  query_community : Uuid;
  query_kinds : list N;
  query_pubkey : list N;
  query_d_tag : Text;
  query_global_only : bool;
  query_limit : N;
}.

(** What the handler reads of a stored event and of a channel. *)
Record StoredEvent : Type := mkStoredEvent {
  event_pubkey : list N;
  event_tags : list (list Text);
}.

Record Channel : Type := mkChannel {
  archived_at : option DateTime;
}.

Record AppState : Type := mkAppState {
  git_hook_hmac_secret : list N;
  now : N;
  query_events : EventQuery → result (list StoredEvent) Text;
  get_channel : Uuid → Uuid → result Channel Text;
  is_agent_owner : Uuid → list N → list N → result bool Text;
  get_member_role : Uuid → Uuid → list N → result (option Text) Text;
}.

(** [return (StatusCode::FORBIDDEN, text).into_response()] *)
Definition forbid (text : string) : Response := {|
  status := FORBIDDEN;
  body := Plain (lit text);
|}.

(** ** The steps of the handler *)

Definition lower_hex_text (s : Text) : bool :=
  forallb (λ c, is_ascii_hexdigit c && negb (is_ascii_uppercase c)) s.

(** The checks on one ref update (step 1). *)
Definition check_ref_update (r : HookRefUpdate) : result unit Response :=
  reject_if (negb (str_len r.(hook_old_oid) =? 40)%N
             || negb (forallb is_ascii_hexdigit r.(hook_old_oid))) (forbid "invalid old_oid") ?;
  reject_if (negb (str_len r.(hook_new_oid) =? 40)%N
             || negb (forallb is_ascii_hexdigit r.(hook_new_oid))) (forbid "invalid new_oid") ?;
  reject_if (is_empty r.(hook_ref_name)
             || (256 <? str_len r.(hook_ref_name))%N
             || negb (starts_with (lit "refs/") r.(hook_ref_name))
             || contains_str (lit "..") r.(hook_ref_name)
             || existsb (λ b, (b <=? 32) || (b =? 127))%N (str_as_bytes r.(hook_ref_name)))
    (forbid "invalid ref_name") ?;
  Ok tt.

(** The structural checks (step 1). *)
Definition check_structure (req : HookCallbackRequest) : result Uuid Response :=
  reject_if (is_empty req.(repo_id) || (64 <? str_len req.(repo_id))%N)
    (forbid "invalid repo_id") ?;
  reject_if (negb (str_len req.(repo_owner) =? 64)%N || negb (lower_hex_text req.(repo_owner)))
    (forbid "invalid repo_owner") ?;
  reject_if (negb (str_len req.(pusher_pubkey) =? 64)%N || negb (lower_hex_text req.(pusher_pubkey)))
    (forbid "invalid pusher_pubkey") ?;
  let? community := ok_or (Uuid_parse_str req.(community_id)) (forbid "invalid community_id") in
  reject_if (is_empty req.(ref_updates) || (500 <? len req.(ref_updates))%N)
    (forbid "invalid ref_updates count") ?;
  for_each check_ref_update req.(ref_updates) ?;
  Ok community.

(** The age of the callback (step 3). *)
Definition check_timestamp (now : N) (req : HookCallbackRequest) : result unit Response :=
  reject_if (MAX_CALLBACK_AGE_SECS <? now - req.(timestamp))%N (forbid "callback expired") ?;
  reject_if (5 <? req.(timestamp) - now)%N (forbid "callback timestamp invalid") ?;
  Ok tt.

(** [match hex::decode(..) { Ok(b) if b.len() == 32 => b, _ => return .. }] *)
Definition decode_key (text : Text) (message : string) : result (list N) Response :=
  match hex_decode text with
  | Ok b => if (len b =? 32)%N then Ok b else Err (forbid message)
  | Err _ => Err (forbid message)
  end.

(** The repository announcement (step 4). *)
Definition find_repo (state : AppState) (community : Uuid) (owner_bytes : list N)
    (req : HookCallbackRequest) : result StoredEvent Response :=
  let query := {| query_community := community; query_kinds := [30617%N];
                  query_pubkey := owner_bytes; query_d_tag := req.(repo_id);
                  query_global_only := true; query_limit := 1 |} in
  match state.(query_events) query with
  | Ok events =>
      match last events with
      | Some event => Ok event
      | None => Err (forbid "repository not found")
      end
  | Err _ => Err (forbid "internal error")
  end.

(** The channel the repository is bound to (step 6). *)
Definition bound_channel (tags : list (list Text)) : option Uuid :=
  tag ← List.find (λ t, bool_decide (head t = Some (lit "buzz-channel"))) tags;
  id ← tag !! 1;
  Uuid_parse_str id.

Definition check_archived (state : AppState) (community : Uuid) (channel_id : option Uuid)
  : result unit Response :=
  match channel_id with
  | Some ch_id =>
      match state.(get_channel) community ch_id with
      | Ok ch => if opt_is_some ch.(archived_at) then Err (forbid "channel is archived (read-only)")
                 else Ok tt
      | Err _ => Err (forbid "internal error")
      end
  | None => Ok tt
  end.

(** The role of the pusher (step 7). *)
Definition resolve_role (state : AppState) (community : Uuid) (channel_id : option Uuid)
    (owner_bytes : list N) (repo_event : StoredEvent) (req : HookCallbackRequest)
  : result MemberRole Response :=
  let repo_owner_hex := hex_encode repo_event.(event_pubkey) in
  let? pusher_bytes := decode_key req.(pusher_pubkey) "invalid pusher pubkey" in
  let is_repo_owner := bool_decide (req.(pusher_pubkey) = repo_owner_hex) in
  let? is_managed_agent_owner :=
    if is_repo_owner then Ok false
    else map_err (λ _, forbid "internal error")
           (state.(is_agent_owner) community owner_bytes pusher_bytes) in
  if is_repo_owner || is_managed_agent_owner then Ok Owner
  else
    match channel_id with
    | None => Err (forbid "no channel binding")
    | Some ch_id =>
        match state.(get_member_role) community ch_id pusher_bytes with
        | Ok (Some role_str) =>
            map_err (λ _, forbid "internal error") (MemberRole_from_str role_str)
        | Ok None => Err (forbid "not a channel member")
        | Err _ => Err (forbid "internal error")
        end
    end.

(** The effective git role (step 8). *)
Definition git_role (role : MemberRole) : MemberRole :=
  match role with
  | Bot => Member
  | other => other
  end.

(** The classified updates (step 9). *)
Definition classified (r : HookRefUpdate) : RefUpdate := {|
  ref_name := r.(hook_ref_name);
  kind := classify r.(hook_old_oid) r.(hook_new_oid) r.(hook_is_ancestor);
  old_oid := r.(hook_old_oid);
  new_oid := r.(hook_new_oid);
|}.

(** [match evaluate_push(..) { .. }] (step 9). *)
Definition push_response (verdict : result unit (list Denial)) : Response :=
  match verdict with
  | Ok _ => {| status := OK; body := Json {| allowed := true; denials := [] |} |}
  | Err ds => {| status := FORBIDDEN;
                 body := Json {| allowed := false; denials := DenialResponse_from <$> ds |} |}
  end.

(** Steps 1 to 8: the rules and the role the push is judged by. *)
Definition hook_context (state : AppState) (req : HookCallbackRequest)
  : result (list ProtectionRule * MemberRole) Response :=
  let? community := check_structure req in
  reject_if (negb (verify_hmac state.(git_hook_hmac_secret) req))
    (forbid "signature verification failed") ?;
  check_timestamp state.(now) req ?;
  let? owner_bytes := decode_key req.(repo_owner) "invalid repo owner" in
  let? repo_event := find_repo state community owner_bytes req in
  let tags := repo_event.(event_tags) in
  let? parsed := map_err (λ _, forbid "malformed protection rules") (parse_protection_tags tags) in
  let channel_id := bound_channel tags in
  check_archived state community channel_id ?;
  let? role := resolve_role state community channel_id owner_bytes repo_event req in
  Ok (parsed.(rules), git_role role).

(** [None] is a panic of the handler. *)
Definition hook_policy_check (state : AppState) (req : HookCallbackRequest) : option Response :=
  match hook_context state req with
  | Ok (rules, role) => push_response <$> evaluate_push (classified <$> req.(ref_updates)) role rules
  | Err response => Some response
  end.

End handler.
