(* ===== verification/GitHook.v ===== *)
(** * Git permissions: what the hook callback signs and grants

    The payload of a structurally valid callback determines its fields, and the
    handler answers 200 exactly when the conditions of [grant] hold. *)

From stdpp Require Import prelude strings.
From S2P Require Import Prelude Text TextOps Platform GitPerms GitFacts GitPolicy.

(** Documented behaviour of [Uuid::parse_str]: the accepted spellings are
    hexadecimal digits, hyphens, braces and the prefix ["urn:uuid:"]. *)
Definition is_uuid_char (c : N) : bool :=
  is_ascii_hexdigit c || contains_char c (lit "-{}urnid:").

Class GitDepsLaws `{D : GitDeps} : Prop := {
  Uuid_parse_chars : ∀ t u, Uuid_parse_str t = Some u → Forall (λ c, is_uuid_char c = true) t;
}.

Lemma is_uuid_char_spec c : is_uuid_char c = true → (c < 128)%N ∧ N.eqb bar c = false.
Proof.
  unfold is_uuid_char. rewrite orb_true_iff. intros [H|H].
  - split; [by apply is_ascii_hexdigit_lt|]. apply N.eqb_neq. intros <-. done.
  - assert (Hin : c ∈ lit "-{}urnid:").
    { destruct (decide (c ∈ lit "-{}urnid:")) as [|Hn]; [done|].
      apply contains_char_false in Hn. congruence. }
    clear H. revert c Hin. apply Forall_forall. repeat constructor.
Qed.

(** The Rust strings of a request are valid UTF-8. *)
Definition request_valid (req : HookCallbackRequest) : Prop :=
  valid_str req.(repo_id) ∧ Forall (λ r, valid_str r.(hook_ref_name)) req.(ref_updates).

Section hook.
Context `{P : Platform} `{D : !GitDeps}.
Implicit Types (req : HookCallbackRequest) (r : HookRefUpdate).

(** ** The payload *)

(** What the payload fixes of one ref update. *)
Definition ref_ok r : Prop :=
  check_ref_update r = Ok tt ∧ valid_str r.(hook_ref_name).

Lemma hex_text s :
  forallb is_ascii_hexdigit s = true →
  str_as_bytes s = s ∧ str_len s = len s ∧ Forall (λ c, N.eqb bar c = false) s.
Proof.
  intros H. assert (Hs : Forall (λ c, is_ascii_hexdigit c = true) s)
    by (by apply Forall_forall; intros x Hx%list_elem_of_In; rewrite forallb_forall in H; auto).
  assert (Hb : str_as_bytes s = s)
    by (apply str_as_bytes_ascii; eapply Forall_impl; [exact Hs|apply is_ascii_hexdigit_lt]).
  split; [done|]. split; [by rewrite <- length_str_as_bytes, Hb|].
  eapply Forall_impl; [exact Hs|]. intros c Hc. apply N.eqb_neq. by intros <-.
Qed.

Lemma lower_hex_text_hex s : lower_hex_text s = true → forallb is_ascii_hexdigit s = true.
Proof. unfold lower_hex_text. rewrite !forallb_forall. intros H x Hx. by specialize (H x Hx); bool_props. Qed.

Lemma oid_bytes s :
  (negb (str_len s =? 40)%N || negb (forallb is_ascii_hexdigit s)) = false →
  length s = 40 ∧ str_as_bytes s = s ∧ Forall (λ c, N.eqb bar c = false) s.
Proof.
  intros H. bool_props. match goal with H : forallb _ _ = true |- _ => apply hex_text in H as (? & Hl & ?) end.
  split; [|done]. unfold len in Hl. lia.
Qed.

Lemma ref_ok_oids r :
  ref_ok r →
  length r.(hook_old_oid) = 40 ∧ length r.(hook_new_oid) = 40
  ∧ str_as_bytes r.(hook_old_oid) = r.(hook_old_oid)
  ∧ str_as_bytes r.(hook_new_oid) = r.(hook_new_oid)
  ∧ Forall (λ c, N.eqb bar c = false) r.(hook_old_oid).
Proof.
  intros [H _]. unfold check_ref_update in H. ok_inv.
  apply oid_bytes in H as (? & ? & ?), H0 as (? & ? & ?). done.
Qed.

Lemma ref_bytes_inj r r' a b :
  ref_ok r → ref_ok r' → ref_bytes r ++ a = ref_bytes r' ++ b → r = r' ∧ a = b.
Proof.
  intros Hr Hr'. pose proof (ref_ok_oids r Hr) as (L1 & L2 & E1 & E2 & _).
  pose proof (ref_ok_oids r' Hr') as (L1' & L2' & E1' & E2' & _).
  destruct Hr as [_ Hv], Hr' as [_ Hv']. unfold ref_bytes. rewrite E1, E2, E1', E2', <- !(assoc_L (++)).
  intros H. apply app_inj_1 in H as [H1 H]; [|congruence].
  apply app_inj_1 in H as [H2 H]; [|congruence].
  apply len_prefixed_inj in H as [H3 H]; [|done..].
  assert (hook_is_ancestor r = hook_is_ancestor r' ∧ a = b) as [H4 ->]
    by (destruct (hook_is_ancestor r), (hook_is_ancestor r'); by injection H).
  split; [|done]. destruct r, r'. simpl in *. by subst.
Qed.

(** A ref update does not begin with the separator. *)
Lemma ref_bytes_head r a b : ref_ok r → ref_bytes r ++ a ≠ bar :: b.
Proof.
  intros Hr. pose proof (ref_ok_oids r Hr) as (L & _ & E & _ & Hb).
  unfold ref_bytes. rewrite E. destruct (hook_old_oid r) as [|c s]; [done|].
  inversion Hb as [|? ? Hc]; subst. intros [= -> _]. done.
Qed.

Lemma refs_bytes_inj rs rs' a b :
  Forall ref_ok rs → Forall ref_ok rs' →
  (rs ≫= ref_bytes) ++ bar :: a = (rs' ≫= ref_bytes) ++ bar :: b → rs = rs' ∧ a = b.
Proof.
  intros H. revert rs'. induction H as [|r rs Hr _ IH]; intros [|r' rs'] Hrs'; cbn [mbind list_bind];
    rewrite <- ?(assoc_L (++)).
  - by intros [= ->].
  - intros Heq. symmetry in Heq. apply Forall_cons in Hrs' as [Hr' _].
    by apply ref_bytes_head in Heq.
  - intros Heq. by apply ref_bytes_head in Heq.
  - apply Forall_cons in Hrs' as [Hr' Hrs']. intros [-> Heq]%ref_bytes_inj; [|done..].
    destruct (IH rs' Hrs' Heq) as [-> ->]. done.
Qed.

(** ** Structurally valid requests *)

Record structure_ok (community : Uuid) req : Prop := {
  so_repo : req.(repo_id) ≠ [];
  so_owner : length req.(repo_owner) = 64 ∧ str_as_bytes req.(repo_owner) = req.(repo_owner)
             ∧ Forall (λ c, N.eqb bar c = false) req.(repo_owner);
  so_pusher : length req.(pusher_pubkey) = 64 ∧ str_as_bytes req.(pusher_pubkey) = req.(pusher_pubkey)
             ∧ Forall (λ c, N.eqb bar c = false) req.(pusher_pubkey);
  so_community : Uuid_parse_str req.(community_id) = Some community;
  so_refs : Forall (λ r, check_ref_update r = Ok tt) req.(ref_updates);
}.

Lemma key_text s :
  (negb (str_len s =? 64)%N || negb (lower_hex_text s)) = false →
  length s = 64 ∧ str_as_bytes s = s ∧ Forall (λ c, N.eqb bar c = false) s.
Proof.
  intros H. bool_props. match goal with H : lower_hex_text _ = true |- _ =>
    apply lower_hex_text_hex, hex_text in H as (? & Hl & ?) end.
  split; [|done]. unfold len in Hl. lia.
Qed.

Lemma check_structure_ok req community :
  check_structure req = Ok community → structure_ok community req.
Proof.
  unfold check_structure. intros H. ok_inv. subst. split.
  - bool_props. by destruct (repo_id req).
  - by apply key_text.
  - by apply key_text.
  - done.
  - by eapply for_each_Ok.
Qed.

(** The fields the signature covers agree, the refs up to their order. *)
Definition same_request req req' : Prop :=
  req.(repo_id) = req'.(repo_id) ∧ req.(repo_owner) = req'.(repo_owner)
  ∧ req.(community_id) = req'.(community_id) ∧ req.(pusher_pubkey) = req'.(pusher_pubkey)
  ∧ req.(timestamp) = req'.(timestamp)
  ∧ Permutation req.(ref_updates) req'.(ref_updates).

Lemma sorted_refs_ok req community :
  structure_ok community req → request_valid req →
  Forall ref_ok (sort_by ref_name_cmp req.(ref_updates)).
Proof.
  intros Hs [_ Hv]. rewrite sort_by_perm. pose proof (so_refs _ _ Hs) as Hr.
  rewrite Forall_forall in *. intros r Hin. split; auto.
Qed.

Lemma hook_payload_inj `{L : !GitDepsLaws} c c' req req' :
  structure_ok c req → structure_ok c' req' → request_valid req → request_valid req' →
  hook_payload req = hook_payload req' → same_request req req'.
Proof.
  intros Hs Hs' Hv Hv' H.
  pose proof (sorted_refs_ok _ _ Hs Hv) as Hrs. pose proof (sorted_refs_ok _ _ Hs' Hv') as Hrs'.
  destruct Hs as [_ (Lo & Bo & Mo) (Lp & Bp & Mp) Hc _], Hs' as [_ (Lo' & Bo' & Mo') (Lp' & Bp' & Mp') Hc' _].
  unfold hook_payload in H. rewrite Bo, Bo', Bp, Bp' in H.
  apply len_prefixed_inj in H as [H1 H]; [|apply Hv|apply Hv']. injection H as H.
  apply (split_first (N.eqb bar)) in H as (H2 & _ & H); [|done..].
  assert (Hct : ∀ t u, Uuid_parse_str t = Some u →
    str_as_bytes t = t ∧ Forall (λ x, N.eqb bar x = false) t).
  { intros t u Ht. apply Uuid_parse_chars in Ht. split.
    - apply str_as_bytes_ascii. eapply Forall_impl; [exact Ht|]. intros x Hx. by apply is_uuid_char_spec.
    - eapply Forall_impl; [exact Ht|]. intros x Hx. by apply is_uuid_char_spec. }
  destruct (Hct _ _ Hc) as [Bc Mc], (Hct _ _ Hc') as [Bc' Mc']. rewrite Bc, Bc' in H.
  apply (split_first (N.eqb bar)) in H as (H3 & _ & H); [|done..].
  apply (split_first (N.eqb bar)) in H as (H4 & _ & H); [|done..].
  apply refs_bytes_inj in H as [H5 H]; [|done..].
  rewrite !fmt_u64_bytes in H. apply fmt_u64_inj in H.
  repeat split; try done. by rewrite <- (sort_by_perm ref_name_cmp), H5, sort_by_perm.
Qed.

(** ** What is granted *)

(** The signature is the MAC of the payload. *)
Definition authentic (secret : list N) req : Prop :=
  hex_decode req.(signature) = Ok (hmac_sha256 secret (hook_payload req)).

(** At most thirty seconds old and five seconds ahead. *)
Definition fresh (clock : N) req : Prop :=
  (clock ≤ req.(timestamp) + 30 ∧ req.(timestamp) ≤ clock + 5)%N.

(** The repository key, the owner of a managed agent, or a member of the
    channel with its stored role. *)
Inductive pusher_role (state : AppState) (community : Uuid) (owner_bytes pusher_bytes : list N)
    (event : StoredEvent) req : MemberRole → Prop :=
| role_of_key :
    req.(pusher_pubkey) = hex_encode event.(event_pubkey) →
    pusher_role state community owner_bytes pusher_bytes event req Owner
| role_of_agent_owner :
    req.(pusher_pubkey) ≠ hex_encode event.(event_pubkey) →
    state.(is_agent_owner) community owner_bytes pusher_bytes = Ok true →
    pusher_role state community owner_bytes pusher_bytes event req Owner
| role_of_member channel name role :
    req.(pusher_pubkey) ≠ hex_encode event.(event_pubkey) →
    state.(is_agent_owner) community owner_bytes pusher_bytes = Ok false →
    bound_channel event.(event_tags) = Some channel →
    state.(get_member_role) community channel pusher_bytes = Ok (Some name) →
    MemberRole_from_str name = Ok role →
    pusher_role state community owner_bytes pusher_bytes event req role.

(** The channel the repository names, if any, is not archived. *)
Definition channel_open (state : AppState) (community : Uuid) (event : StoredEvent) : Prop :=
  ∀ channel, bound_channel event.(event_tags) = Some channel →
  ∃ ch, state.(get_channel) community channel = Ok ch ∧ ch.(archived_at) = None.

(** The announcement of the repository by its owner in the community. *)
Definition announced (state : AppState) (community : Uuid) (owner_bytes : list N) req
    (event : StoredEvent) : Prop :=
  ∃ events, state.(query_events)
    {| query_community := community; query_kinds := [30617%N]; query_pubkey := owner_bytes;
       query_d_tag := req.(repo_id); query_global_only := true; query_limit := 1 |} = Ok events
  ∧ last events = Some event.

Definition key_bytes (text : Text) (b : list N) : Prop := hex_decode text = Ok b ∧ length b = 32.

(** Everything a 200 stands for. *)
Definition grant (state : AppState) req : Prop :=
  ∃ community owner_bytes pusher_bytes event parsed role,
    check_structure req = Ok community
    ∧ authentic state.(git_hook_hmac_secret) req
    ∧ fresh state.(now) req
    ∧ key_bytes req.(repo_owner) owner_bytes
    ∧ key_bytes req.(pusher_pubkey) pusher_bytes
    ∧ announced state community owner_bytes req event
    ∧ channel_open state community event
    ∧ parse_protection_tags event.(event_tags) = Ok parsed
    ∧ pusher_role state community owner_bytes pusher_bytes event req role
    ∧ Forall (λ r, update_allowed (classified r) (git_role role) parsed.(rules)) req.(ref_updates).

Lemma verify_hmac_true secret req : verify_hmac secret req = true ↔ authentic secret req.
Proof.
  unfold verify_hmac, authentic, compute_hmac. destruct (hex_decode (signature req)) as [b|e].
  - rewrite bool_decide_eq_true. naive_solver.
  - naive_solver.
Qed.

Lemma check_timestamp_Ok clock req u : check_timestamp clock req = Ok u ↔ fresh clock req.
Proof.
  unfold check_timestamp, fresh, MAX_CALLBACK_AGE_SECS. destruct u.
  rewrite !seq_Ok, !reject_if_Ok, !N.ltb_ge. split; [intros (? & ? & _)|intros [? ?]; repeat split]; lia.
Qed.

Lemma decode_key_Ok text msg b : decode_key text msg = Ok b ↔ key_bytes text b.
Proof.
  unfold decode_key, key_bytes, len. destruct (hex_decode text) as [b'|]; [|naive_solver].
  destruct (N.eqb_spec (N.of_nat (length b')) 32) as [E|E].
  - split; [intros [= ->]; split; [done|lia]|by intros [[= ->] _]].
  - split; [done|]. intros [[= ->] ?]. lia.
Qed.

Lemma find_repo_Ok state community owner_bytes req event :
  find_repo state community owner_bytes req = Ok event ↔
  announced state community owner_bytes req event.
Proof.
  unfold find_repo, announced. destruct (query_events _ _) as [events|].
  - split.
    + destruct (last events) eqn:E; [|done]. intros [= <-]. by exists events.
    + intros (events' & [= <-] & ->). done.
  - by split; [|intros (? & ? & _)].
Qed.

Lemma check_archived_Ok state community event u :
  check_archived state community (bound_channel event.(event_tags)) = Ok u ↔
  channel_open state community event.
Proof.
  unfold check_archived, channel_open. destruct u.
  destruct (bound_channel _) as [channel|]; [|done].
  destruct (get_channel state community channel) as [ch|] eqn:E.
  - destruct (archived_at ch) eqn:Ea; simpl; split.
    + done.
    + intros H. destruct (H channel eq_refl) as (ch' & Hc & Hn). congruence.
    + intros _ c [= <-]. by exists ch.
    + done.
  - split; [done|]. intros H. destruct (H channel eq_refl) as (ch' & Hc & _). congruence.
Qed.

Lemma resolve_role_Ok state community owner_bytes event req role :
  resolve_role state community (bound_channel event.(event_tags)) owner_bytes event req = Ok role ↔
  ∃ pusher_bytes, key_bytes req.(pusher_pubkey) pusher_bytes
    ∧ pusher_role state community owner_bytes pusher_bytes event req role.
Proof.
  unfold resolve_role. rewrite rbind_Ok. setoid_rewrite decode_key_Ok.
  apply exist_proper. intros b. apply and_iff_compat_l.
  destruct (decide (pusher_pubkey req = hex_encode (event_pubkey event))) as [E|E].
  - rewrite bool_decide_true by done. simpl. split; [intros [= <-]; by constructor|].
    by inversion 1.
  - rewrite bool_decide_false by done. simpl.
    destruct (is_agent_owner _ _ _ _) as [[]|e] eqn:Ea; simpl.
    + split; [intros [= <-]; by constructor 2|]. inversion 1; congruence.
    + destruct (bound_channel _) as [channel|] eqn:Ec.
      * destruct (get_member_role _ _ _ _) as [[name|]|] eqn:Em; rewrite ?map_err_Ok.
        -- split; [intros Hr; by econstructor|]. inversion 1; congruence.
        -- split; [done|]. inversion 1; congruence.
        -- split; [done|]. inversion 1; congruence.
      * split; [done|]. inversion 1; congruence.
    + split; [done|]. inversion 1; congruence.
Qed.

Lemma hook_context_Ok state req rules role :
  hook_context state req = Ok (rules, role) ↔
  ∃ community owner_bytes pusher_bytes event parsed role',
    check_structure req = Ok community
    ∧ authentic state.(git_hook_hmac_secret) req
    ∧ fresh state.(now) req
    ∧ key_bytes req.(repo_owner) owner_bytes
    ∧ key_bytes req.(pusher_pubkey) pusher_bytes
    ∧ announced state community owner_bytes req event
    ∧ channel_open state community event
    ∧ parse_protection_tags event.(event_tags) = Ok parsed
    ∧ pusher_role state community owner_bytes pusher_bytes event req role'
    ∧ rules = parsed.(GitPerms.rules) ∧ role = git_role role'.
Proof.
  unfold hook_context. rewrite rbind_Ok. setoid_rewrite seq_Ok.
  setoid_rewrite reject_if_Ok. setoid_rewrite negb_false_iff. setoid_rewrite verify_hmac_true.
  setoid_rewrite seq_Ok. setoid_rewrite check_timestamp_Ok.
  setoid_rewrite rbind_Ok. setoid_rewrite decode_key_Ok.
  setoid_rewrite rbind_Ok. setoid_rewrite find_repo_Ok.
  setoid_rewrite rbind_Ok. setoid_rewrite map_err_Ok.
  setoid_rewrite seq_Ok. setoid_rewrite check_archived_Ok.
  setoid_rewrite rbind_Ok. setoid_rewrite resolve_role_Ok. split.
  - intros (c & Hs & Ha & Hf & ob & Ho & ev & He & pr & Hp & Hc & r & (pb & Hk & Hr) & [= <- <-]).
    exists c, ob, pb, ev, pr, r. repeat (split; [done|]). done.
  - intros (c & ob & pb & ev & pr & r & Hs & Ha & Hf & Ho & Hk & He & Hc & Hp & Hr & -> & ->).
    exists c. repeat (split; [done|]). exists ob. split; [done|]. exists ev. split; [done|].
    exists pr. repeat (split; [done|]). exists r. split; [|done]. by exists pb.
Qed.

Lemma grant_context state req :
  grant state req → ∃ rules role, hook_context state req = Ok (rules, role)
    ∧ Forall (λ r, update_allowed (classified r) role rules) req.(ref_updates).
Proof.
  intros (c & ob & pb & ev & pr & r & Hs & Ha & Hf & Ho & Hk & He & Hc & Hp & Hr & Hu).
  eexists _, _. split; [|exact Hu]. apply hook_context_Ok.
  exists c, ob, pb, ev, pr, r. repeat (split; [done|]). done.
Qed.

Lemma push_response_status v : (push_response v).(status) = OK ↔ v = Ok tt.
Proof. destruct v as [[]|]; simpl; naive_solver. Qed.

(** ** Every early return is a refusal *)

Definition refusing {A} (c : result A Response) : Prop :=
  ∀ response, c = Err response → response.(status) = FORBIDDEN.

Lemma refusing_Ok {A} (a : A) : refusing (Ok a).
Proof. done. Qed.

Lemma refusing_forbid {A} msg : refusing (@Err A _ (forbid msg)).
Proof. by intros r [= <-]. Qed.

Lemma refusing_bind {A B} (c : result A Response) (k : A → result B Response) :
  refusing c → (∀ a, refusing (k a)) → refusing (rbind c k).
Proof. intros Hc Hk r [H|(a & _ & H)]%rbind_Err; [by apply Hc|by eapply Hk]. Qed.

Lemma refusing_reject c msg : refusing (reject_if c (forbid msg)).
Proof. by intros r [_ <-]%reject_if_Err. Qed.

Lemma refusing_ok_or {A} (o : option A) msg : refusing (ok_or o (forbid msg)).
Proof. by intros r [_ <-]%ok_or_Err. Qed.

Lemma refusing_map_err {A E} (c : result A E) msg : refusing (map_err (λ _, forbid msg) c).
Proof. by intros r (e & _ & ->)%map_err_Err. Qed.

Lemma refusing_for_each {A} (f : A → result unit Response) xs :
  (∀ x, refusing (f x)) → refusing (for_each f xs).
Proof. intros Hf r (x & _ & H)%for_each_Err. by eapply Hf. Qed.

#[local] Create HintDb refusing.
#[local] Hint Resolve refusing_Ok refusing_forbid refusing_bind refusing_reject refusing_ok_or
  refusing_map_err refusing_for_each : refusing.

Ltac refuse :=
  repeat first
    [ match goal with |- ∀ _, _ => intro end
    | solve [auto with refusing]
    | apply refusing_bind
    | apply refusing_for_each
    | match goal with |- refusing (match ?x with _ => _ end) => destruct x end ].

Lemma hook_context_refusing state req : refusing (hook_context state req).
Proof.
  unfold hook_context, resolve_role, check_structure, check_ref_update, check_timestamp,
    decode_key, find_repo, check_archived.
  refuse.
Qed.

(** The handler never panics, and answers 200 or 403. *)
Lemma hook_policy_check_total state req :
  ∃ response, hook_policy_check state req = Some response
    ∧ (response.(status) = OK ∨ response.(status) = FORBIDDEN)
    ∧ (response.(status) = OK ↔ grant state req).
Proof.
  unfold hook_policy_check. destruct (hook_context state req) as [[rules role]|r] eqn:H.
  - apply hook_context_Ok in H
      as (c & ob & pb & ev & pr & role' & Hs & Ha & Hf & Ho & Hk & He & Hc & Hp & Hr & -> & ->).
    pose proof (proj1 (parse_protection_tags_ok _ _ Hp)) as Hw.
    destruct (evaluate_push_total (classified <$> ref_updates req) (git_role role') _ Hw) as [v Hv].
    rewrite Hv. eexists. split; [done|]. split; [destruct v; auto|].
    rewrite push_response_status.
    assert (Hiff : v = Ok tt ↔ Forall (λ r, update_allowed (classified r) (git_role role')
      (GitPerms.rules pr)) (ref_updates req)).
    { pose proof (evaluate_push_Ok (classified <$> ref_updates req) (git_role role') _ Hw) as Hi.
      rewrite Hv, Forall_fmap in Hi. rewrite <- Hi. split; [by intros ->|by intros [= ->]]. }
    rewrite Hiff. split.
    + intros Hu. exists c, ob, pb, ev, pr, role'. repeat (split; [done|]). done.
    + intros G. apply grant_context in G as (rules & role & Hctx & Hu).
      assert (Hctx' : hook_context state req = Ok (GitPerms.rules pr, git_role role')).
      { apply hook_context_Ok. exists c, ob, pb, ev, pr, role'. repeat (split; [done|]). done. }
      rewrite Hctx' in Hctx. injection Hctx as <- <-. done.
  - pose proof (hook_context_refusing state req r H) as Hr. exists r. rewrite Hr.
    split; [done|]. split; [by right|]. split; [done|].
    intros G. apply grant_context in G as (rules & role & Hctx & _). congruence.
Qed.

End hook.
