(* ===== verification/GitTheorems.v ===== *)
(** * Git permissions: the properties

    What a push policy decides, what the signature of a hook callback covers and
    when the callback is granted, with applications to a sample repository. *)

From stdpp Require Import prelude strings.
From S2P Require Import Prelude Text TextOps Platform Reference.
From S2P Require Import GitPerms GitFacts GitPolicy GitHook.

(** ** Patterns and policies *)

(** C36. Segment-wise matching decides the pattern language: a parsed pattern,
    whatever ref it is given, does not reach its [unreachable!()] arm and
    answers as the reference matcher on the texts, in which an asterisk stands
    for one segment and a final double asterisk for one or more. *)
Theorem ref_pattern_language t p r :
  RefPattern_parse t = Ok p →
  p.(raw) = t ∧ RefPattern_matches p r = Some (glob (split_char slash t) (split_char slash r)).
Proof.
  intros H. split; [by apply RefPattern_parse_Ok in H as [? _]|by apply parsed_matches].
Qed.

(** C20. With the rules of a repository a push is judged without a panic; it is
    allowed exactly when for each update the built-in default and every rule
    that applies to the ref allow it on their own, and otherwise the denials are
    those of the refused updates, in their order. *)
Theorem git_push_policy tags parsed updates role :
  parse_protection_tags tags = Ok parsed →
  ∃ verdict, evaluate_push updates role parsed.(rules) = Some verdict
    ∧ (verdict = Ok tt ↔ Forall (λ u, update_allowed u role parsed.(rules)) updates)
    ∧ ∀ ds, verdict = Err ds → denials_for role parsed.(rules) updates ds ∧ ds ≠ [].
Proof.
  intros [Hw _]%parse_protection_tags_ok.
  destruct (evaluate_push_total updates role _ Hw) as [v Hv]. exists v. split; [done|]. split.
  - pose proof (evaluate_push_Ok updates role _ Hw) as Hi. rewrite Hv in Hi. naive_solver.
  - intros ds ->. by apply evaluate_push_Err.
Qed.

(** Rules only restrict: a push that is allowed stays allowed for a role
    that is at least as high, with any part of its updates, when rules are
    removed or put in another order; so no [buzz-protect] tag ever permits what
    would be refused without it. *)
Theorem git_rules_only_restrict tags tags' parsed parsed' updates updates' role role' :
  parse_protection_tags tags = Ok parsed → parse_protection_tags tags' = Ok parsed' →
  parsed'.(rules) ⊆ parsed.(rules) → updates' ⊆ updates →
  (permission_level role ≤ permission_level role')%N →
  evaluate_push updates role parsed.(rules) = Some (Ok tt) →
  evaluate_push updates' role' parsed'.(rules) = Some (Ok tt).
Proof.
  intros [Hw _]%parse_protection_tags_ok [Hw' _]%parse_protection_tags_ok Hr Hu Hl.
  rewrite !evaluate_push_Ok, !Forall_forall by done. intros H u Hin.
  eapply update_allowed_mono; [exact Hl|exact Hr|]. auto.
Qed.

(** ** The hook callback *)

Section hook.
Context `{P : Platform} `{HX : !HexLaws} `{D : !GitDeps} `{L : !GitDepsLaws}.

(** C28. The signature covers the request: a structurally valid callback that
    carries the signature generated for another valid one has the same
    repository, owner, community, pusher and time and the same ref updates up
    to their order; otherwise two different payloads with the same MAC are at
    hand. *)
Theorem hook_signature_binds secret req req' c c' :
  request_valid req → request_valid req' →
  check_structure req = Ok c → check_structure req' = Ok c' →
  Forall (λ x, x < 256)%N (compute_hmac secret req) →
  req'.(signature) = generate_hook_hmac secret req.(repo_id) req.(repo_owner) req.(community_id)
    req.(pusher_pubkey) req.(ref_updates) req.(timestamp) →
  verify_hmac secret req' = true →
  same_request req req'
  ∨ (hook_payload req ≠ hook_payload req'
     ∧ hmac_sha256 secret (hook_payload req) = hmac_sha256 secret (hook_payload req')).
Proof.
  intros Hv Hv' Hs Hs' Hb Hsig Ha%verify_hmac_true. unfold authentic in Ha.
  unfold generate_hook_hmac in Hsig. rewrite Hsig, hex_decode_encode in Ha by done.
  injection Ha as Ha. unfold compute_hmac in Ha.
  change (hmac_sha256 secret (hook_payload req) = hmac_sha256 secret (hook_payload req')) in Ha.
  destruct (decide (hook_payload req = hook_payload req')) as [E|E]; [left|by right].
  eapply hook_payload_inj; eauto using check_structure_ok.
Qed.

End hook.

(** C14. The callback fails closed: the handler always answers, with 200 or
    403, and 200 exactly when the request is well formed, authentic and fresh,
    the owner announced the repository in that community, its channel is not
    archived, its rules parse, the pusher has a role (the repository key, the
    owner of the managed agent or a channel member, bots counting as members),
    and the policy allows every update for that role. *)
Theorem hook_grants_exactly `{P : Platform} `{D : !GitDeps} state req :
  ∃ response, hook_policy_check state req = Some response
    ∧ (response.(status) = OK ∨ response.(status) = FORBIDDEN)
    ∧ (response.(status) = OK ↔ grant state req).
Proof. apply hook_policy_check_total. Qed.

(** ** A sample repository *)

Definition sample_tags : list (list Text) :=
  [ [lit "d"; lit "repo"];
    [lit "buzz-protect"; lit "refs/heads/main"; lit "push:admin"; lit "no-force-push"];
    [lit "buzz-protect"; lit "refs/heads/release/**"; lit "no-delete"];
    [lit "buzz-channel"; lit "00000000-0000-4000-8000-000000000001"] ].

Definition sample_protection : ParsedProtection :=
  match parse_protection_tags sample_tags with
  | Ok parsed => parsed
  | Err _ => mkParsedProtection [] []
  end.

Definition oid (c : N) : Text := replicate 40 c.

Definition update_of (name : string) (old new : Text) (ff : bool) : HookRefUpdate := {|
  hook_old_oid := old; hook_new_oid := new; hook_ref_name := lit name; hook_is_ancestor := ff;
|}.

Definition sample_updates : list HookRefUpdate :=
  [ update_of "refs/heads/topic" (oid 48) (oid 97) false;
    update_of "refs/heads/release/1.2" (oid 97) (oid 98) true ].

(** A final double asterisk is accepted by the parser. *)
Example double_star_accepted :
  RefPattern_parse (lit "refs/heads/**")
  = Ok {| raw := lit "refs/heads/**";
          segments := [Literal (lit "refs"); Literal (lit "heads"); RecursiveWildcard] |}.
Proof. vm_compute. reflexivity. Qed.

Lemma ref_pattern_language_witness :
  ∃ p, RefPattern_matches p (lit "refs/heads/release/1.2") = Some true.
Proof.
  destruct (RefPattern_parse (lit "refs/*/release/**")) as [p|e] eqn:H.
  - exists p. exact (proj2 (ref_pattern_language _ p (lit "refs/heads/release/1.2") H)).
  - vm_compute in H. discriminate H.
Defined.

Lemma git_push_policy_witness :
  ∃ verdict, evaluate_push (classified <$> sample_updates) Member sample_protection.(rules)
    = Some verdict.
Proof.
  assert (H : parse_protection_tags sample_tags = Ok sample_protection) by (vm_compute; reflexivity).
  destruct (git_push_policy sample_tags _ (classified <$> sample_updates) Member H) as (v & Hv & _).
  exists v. exact Hv.
Defined.

Lemma git_rules_only_restrict_witness :
  evaluate_push (classified <$> sample_updates) Admin sample_protection.(rules) = Some (Ok tt).
Proof.
  assert (H : parse_protection_tags sample_tags = Ok sample_protection) by (vm_compute; reflexivity).
  apply (git_rules_only_restrict sample_tags sample_tags sample_protection sample_protection
    (classified <$> sample_updates) (classified <$> sample_updates) Member Admin); try done.
Defined.

(** The repository key is the 32 bytes [1], the pusher [2] is a bot in the
    channel. *)
Definition key (c : N) : Text := hex_encode (replicate 32 c).

#[global] Instance reference_git : GitDeps := {|
  hmac_sha256 := λ key message, cheap_digest (key ++ message);
  Uuid_parse_str := λ t,
    if forallb is_uuid_char t
    then match hex_decode (List.filter (λ c, negb (c =? 45)%N) t) with
         | Ok b => Bytes_of 16 b
         | Err _ => None
         end
    else None;
|}.

#[global] Instance reference_git_laws : GitDepsLaws.
Proof.
  split. intros t u. cbn. destruct (forallb is_uuid_char t) eqn:H; [|done]. intros _.
  apply Forall_forall. intros c Hc%list_elem_of_In. by rewrite forallb_forall in H; apply H.
Qed.

Definition sample_secret : list N := lit "secret".

Definition sample_unsigned : HookCallbackRequest := {|
  repo_id := lit "repo"; repo_owner := key 1;
  community_id := lit "00000000-0000-4000-8000-000000000009";
  pusher_pubkey := key 2; ref_updates := sample_updates; timestamp := 1000; signature := [];
|}.

(** The refs of the signed request are in another order. *)
Definition sample_request : HookCallbackRequest := {|
  repo_id := lit "repo"; repo_owner := key 1;
  community_id := lit "00000000-0000-4000-8000-000000000009";
  pusher_pubkey := key 2; ref_updates := reverse sample_updates; timestamp := 1000;
  signature := generate_hook_hmac sample_secret (lit "repo") (key 1)
    (lit "00000000-0000-4000-8000-000000000009") (key 2) sample_updates 1000;
|}.

Definition sample_state : AppState := {|
  git_hook_hmac_secret := sample_secret;
  now := 1010;
  query_events := λ _, Ok [{| event_pubkey := replicate 32 1%N; event_tags := sample_tags |}];
  get_channel := λ _ _, Ok {| archived_at := None |};
  is_agent_owner := λ _ _ _, Ok false;
  get_member_role := λ _ _ _, Ok (Some (lit "bot"));
|}.

Example sample_granted :
  status <$> hook_policy_check sample_state sample_request = Some OK.
Proof. vm_compute. reflexivity. Qed.

Lemma hook_signature_binds_witness :
  same_request sample_unsigned sample_request.
Proof.
  destruct (check_structure sample_unsigned) as [c|] eqn:E; [|vm_compute in E; discriminate E].
  destruct (check_structure sample_request) as [c'|] eqn:E'; [|vm_compute in E'; discriminate E'].
  destruct (hook_signature_binds sample_secret sample_unsigned sample_request c c') as [R|[R _]].
  - split; by_evaluation.
  - split; by_evaluation.
  - exact E.
  - exact E'.
  - by_evaluation.
  - reflexivity.
  - vm_compute. reflexivity.
  - exact R.
  - exfalso. apply R. vm_compute. reflexivity.
Defined.
