(* ===== verification/Conformance.v ===== *)
(** * Trace conformance

    Models [buzz-conformance/src]: the trace schema ([lib.rs]), the check of one
    step against the tenant model ([transitions.rs]) and the replay of a
    scenario ([checker.rs]).  The human-readable detail of an error is kept as
    the values it prints. *)

From stdpp Require Import prelude strings gmap sets.
From S2P Require Import Prelude Text Platform.

Definition SCHEMA_VERSION : N := 1.

Section schema.
Context `{P : Platform}.

Record CommunityLabel : Type := mkCommunityLabel { community_uuid : Uuid }.
Record ChannelLabel : Type := mkChannelLabel { channel_uuid : Uuid }.
Record OpaqueId : Type := mkOpaqueId { opaque_id : Text }.
Record HostLabel : Type := mkHostLabel { host_label : Text }.
Record ActorLabel : Type := mkActorLabel { actor_label : Text }.

#[global] Instance CommunityLabel_eq_dec : EqDecision CommunityLabel.
Proof. solve_decision. Defined.
#[global] Instance ChannelLabel_eq_dec : EqDecision ChannelLabel.
Proof. solve_decision. Defined.
#[global] Instance HostLabel_eq_dec : EqDecision HostLabel.
Proof. solve_decision. Defined.
#[global] Instance ActorLabel_eq_dec : EqDecision ActorLabel.
Proof. solve_decision. Defined.

Inductive Verdict : Type :=
| Allow
| Deny.

Inductive SanitizedReason : Type :=
| Restricted
| Invalid
| ServerError.

Record AbstractState : Type := mkAbstractState {
  resolved_community : CommunityLabel;
  bound_host : HostLabel;
  actor : ActorLabel;
}.

Inductive TraceAction : Type :=
| WriteInsert (msg_id : OpaqueId) (channel : ChannelLabel)
    (claimed_community : option CommunityLabel)
| WriteInsertGlobal (msg_id : OpaqueId) (claimed_community : option CommunityLabel)
| WriteDuplicate (msg_id : OpaqueId) (channel : ChannelLabel)
    (claimed_community : option CommunityLabel)
| SanitizedError (reason : SanitizedReason)
| AuthCheck (channel : ChannelLabel) (claimed_community : option CommunityLabel)
    (verdict : Verdict)
| ReadMessageRows (channel : option ChannelLabel) (row_communities : list CommunityLabel)
| ReadByIdRows (channel : option ChannelLabel) (row_communities : list CommunityLabel)
| ReadHostFeedRows (row_communities : list CommunityLabel)
| ImplBug (kind : Text).

Definition TraceAction_kind (action : TraceAction) : Text :=
  lit match action with
      | WriteInsert _ _ _ => "write_insert"
      | WriteInsertGlobal _ _ => "write_insert_global"
      | WriteDuplicate _ _ _ => "write_duplicate"
      | SanitizedError _ => "sanitized_error"
      | AuthCheck _ _ _ => "auth_check"
      | ReadMessageRows _ _ => "read_message_rows"
      | ReadByIdRows _ _ => "read_by_id_rows"
      | ReadHostFeedRows _ => "read_host_feed_rows"
      | ImplBug _ => "impl_bug"
      end.

Definition is_critical (_ : TraceAction) : bool := true.

Record TraceStep : Type := mkTraceStep {
  schema_version : N;
  action : TraceAction;
  state_after : AbstractState;
}.

Definition TraceStep_new (action : TraceAction) (state_after : AbstractState) : TraceStep := {|
  schema_version := SCHEMA_VERSION;
  action := action;
  state_after := state_after;
|}.

(** ** One step ([transitions.rs]) *)

(** What the detail of an error prints. *)
Inductive Detail : Type :=
| SchemaVersion (trace_version checker_version : N)
| CommunityChanged (bootstrap step : CommunityLabel)
| HostChanged (bootstrap step : HostLabel)
| ActorChanged (bootstrap step : ActorLabel)
| ForeignClaim (claimed resolved : CommunityLabel)
| ForeignRow (row resolved : CommunityLabel)
| DropGuard (kind : Text)
| NoTrace
| NeverEmitted (actions : list Text).

Inductive TransitionError : Type :=
| IllegalTransition (step_index : nat) (detail : Detail)
| StateMismatch (step_index : nat) (detail : Detail)
| NonInterference (step_index : nat) (detail : Detail)
| CoverageBreach (detail : Detail).

Record ModelState : Type := mkModelState {
  model_community : CommunityLabel;
  model_host : HostLabel;
  model_actor : ActorLabel;
}.

Definition bootstrap (first : AbstractState) : ModelState := {|
  model_community := first.(resolved_community);
  model_host := first.(bound_host);
  model_actor := first.(actor);
|}.

Definition check_row_labels (step_index : nat) (model : ModelState)
    (row_communities : list CommunityLabel) : result unit TransitionError :=
  match List.find (λ c, negb (bool_decide (c = model.(model_community)))) row_communities with
  | Some foreign =>
      Err (NonInterference step_index (ForeignRow foreign model.(model_community)))
  | None => Ok tt
  end.

Definition check_step (step_index : nat) (model : ModelState) (step : TraceStep)
  : result unit TransitionError :=
  reject_if (negb (bool_decide (step.(state_after).(resolved_community) = model.(model_community))))
    (StateMismatch step_index
       (CommunityChanged model.(model_community) step.(state_after).(resolved_community))) ?;
  reject_if (negb (bool_decide (step.(state_after).(bound_host) = model.(model_host))))
    (StateMismatch step_index (HostChanged model.(model_host) step.(state_after).(bound_host))) ?;
  reject_if (negb (bool_decide (step.(state_after).(actor) = model.(model_actor))))
    (StateMismatch step_index (ActorChanged model.(model_actor) step.(state_after).(actor))) ?;
  match step.(action) with
  | WriteInsert _ _ _ => Ok tt
  | WriteInsertGlobal _ _ => Ok tt
  | WriteDuplicate _ _ _ => Ok tt
  | SanitizedError reason =>
      match reason with Restricted | Invalid | ServerError => Ok tt end
  | AuthCheck _ claimed_community verdict =>
      match verdict, claimed_community with
      | Allow, Some c =>
          reject_if (negb (bool_decide (c = model.(model_community))))
            (IllegalTransition step_index (ForeignClaim c model.(model_community)))
      | _, _ => Ok tt
      end
  | ReadMessageRows _ row_communities | ReadByIdRows _ row_communities =>
      check_row_labels step_index model row_communities
  | ReadHostFeedRows row_communities => check_row_labels step_index model row_communities
  | ImplBug kind => Err (CoverageBreach (DropGuard kind))
  end.

Definition action_channel (action : TraceAction) : option ChannelLabel :=
  match action with
  | WriteInsert _ channel _ => Some channel
  | WriteDuplicate _ channel _ => Some channel
  | AuthCheck channel _ _ => Some channel
  | ReadMessageRows channel _ => channel
  | ReadByIdRows channel _ => channel
  | WriteInsertGlobal _ _ | ReadHostFeedRows _ | SanitizedError _ | ImplBug _ => None
  end.

(** ** A scenario ([checker.rs]) *)

Record Scenario : Type := mkScenario {
  trace : list TraceStep;
  required_critical_actions : gset Text;
}.

Definition Scenario_unstructured (trace : list TraceStep) : Scenario := {|
  trace := trace;
  required_critical_actions := ∅;
|}.

Definition Scenario_require (self : Scenario) (kind : Text) : Scenario := {|
  trace := self.(trace);
  required_critical_actions := {[ kind ]} ∪ self.(required_critical_actions);
|}.

Definition check_version (i : nat) (step : TraceStep) : result unit TransitionError :=
  reject_if (negb (step.(schema_version) =? SCHEMA_VERSION)%N)
    (IllegalTransition i (SchemaVersion step.(schema_version) SCHEMA_VERSION)).

(** [for (i, step) in scenario.trace.iter().enumerate()] *)
Fixpoint check_steps (i : nat) (model : ModelState) (steps : list TraceStep)
  : result unit TransitionError :=
  match steps with
  | [] => Ok tt
  | step :: rest =>
      check_version i step ?;
      check_step i model step ?;
      check_steps (S i) model rest
  end.

Definition check_trace (scenario : Scenario) : result unit TransitionError :=
  match scenario.(trace) with
  | [] => Err (CoverageBreach NoTrace)
  | first :: _ =>
      check_version 0 first ?;
      let model := bootstrap first.(state_after) in
      check_steps 0 model scenario.(trace) ?;
      let seen : gset Text :=
        list_to_set ((λ step, TraceAction_kind step.(action)) <$> scenario.(trace)) in
      let missing := filter (λ k, k ∉ seen) (elements scenario.(required_critical_actions)) in
      reject_if (negb (is_empty missing))
        (CoverageBreach (NeverEmitted
           (sort_by (λ a b, slice_cmp (str_as_bytes a) (str_as_bytes b)) missing))) ?;
      Ok tt
  end.

End schema.
