(* ===== verification/ConformanceTheorems.v ===== *)
(** * Trace conformance: the properties

    The replay checker accepts exactly the conforming scenarios and reports the
    first step that does not conform. *)

From stdpp Require Import prelude strings gmap sets.
From S2P Require Import Prelude Text Platform Reference Conformance.

Section theorems.
Context `{P : Platform}.
Implicit Types (step : TraceStep) (s : AbstractState).

(** The observation of a step, judged against the tenant of the request: every
    row belongs to it, an Allow was not claimed for another community, and
    the seam emitted an action. *)
Definition observation_ok (c : CommunityLabel) (a : TraceAction) : Prop :=
  match a with
  | ReadMessageRows _ rows | ReadByIdRows _ rows | ReadHostFeedRows rows => Forall (eq c) rows
  | AuthCheck _ (Some claimed) Allow => claimed = c
  | ImplBug _ => False
  | _ => True
  end.

(** The step belongs to the request [s] and its observation is confined. *)
Definition step_ok s step : Prop :=
  step.(schema_version) = SCHEMA_VERSION ∧ step.(state_after) = s
  ∧ observation_ok s.(resolved_community) step.(action).

(** All steps belong to one request and are confined to its tenant, and the
    required actions were observed. *)
Definition conforms (sc : Scenario) : Prop :=
  ∃ s, sc.(trace) ≠ [] ∧ Forall (step_ok s) sc.(trace)
  ∧ ∀ k, k ∈ sc.(required_critical_actions) →
      ∃ step, step ∈ sc.(trace) ∧ TraceAction_kind step.(action) = k.

Lemma check_row_labels_Ok i m rows u :
  check_row_labels i m rows = Ok u ↔ Forall (eq m.(model_community)) rows.
Proof.
  destruct u. unfold check_row_labels. induction rows as [|c rows IH]; simpl; [done|].
  rewrite Forall_cons, <- IH. destruct (decide (c = model_community m)) as [E|E].
  - rewrite bool_decide_true by done. naive_solver.
  - rewrite bool_decide_false by done. naive_solver.
Qed.

Lemma check_step_Ok i s step u :
  check_step i (bootstrap s) step = Ok u ↔
  step.(state_after) = s ∧ observation_ok s.(resolved_community) step.(action).
Proof.
  destruct u, s as [c h a]. unfold check_step, bootstrap. cbn.
  rewrite !seq_Ok, !reject_if_Ok, !bool_decide_negb_false.
  assert (Hs : state_after step = mkAbstractState c h a ↔
    resolved_community (state_after step) = c ∧ bound_host (state_after step) = h
    ∧ actor (state_after step) = a).
  { destruct (state_after step). simpl. naive_solver. }
  rewrite Hs. destruct (action step) as [| | |[]|? [] []| | | |]; cbn;
    rewrite ?check_row_labels_Ok, ?reject_if_Ok, ?bool_decide_negb_false; cbn; intuition done.
Qed.

Lemma check_version_Ok i step u :
  check_version i step = Ok u ↔ step.(schema_version) = SCHEMA_VERSION.
Proof. unfold check_version. by rewrite reject_if_Ok, negb_false_iff, N.eqb_eq. Qed.

Lemma check_steps_Ok i s steps u :
  check_steps i (bootstrap s) steps = Ok u ↔ Forall (step_ok s) steps.
Proof.
  destruct u. revert i. induction steps as [|step rest IH]; intros i; simpl; [done|].
  rewrite !seq_Ok, check_version_Ok, check_step_Ok, IH, Forall_cons. unfold step_ok. tauto.
Qed.

(** The index an error names. *)
Definition error_index (e : TransitionError) : option nat :=
  match e with
  | IllegalTransition i _ | StateMismatch i _ | NonInterference i _ => Some i
  | CoverageBreach _ => None
  end.

Lemma check_step_index i m step e :
  check_step i m step = Err e → error_index e = Some i ∨ error_index e = None.
Proof.
  unfold check_step. intros H.
  repeat (apply rbind_Err in H as [[_ <-]%reject_if_Err|(? & _ & H)]; [by left|]).
  destruct (action step) as [| | |[]|? [] []| | | |]; simplify_eq; try (by left); try (by right).
  - by apply reject_if_Err in H as [_ <-]; left.
  - unfold check_row_labels in H. case_match; simplify_eq. by left.
  - unfold check_row_labels in H. case_match; simplify_eq. by left.
  - unfold check_row_labels in H. case_match; simplify_eq. by left.
Qed.

(** The error of a replay is about its first step that does not conform. *)
Lemma check_steps_first i s steps e :
  check_steps i (bootstrap s) steps = Err e →
  ∃ pre step post, steps = pre ++ step :: post ∧ Forall (step_ok s) pre ∧ ¬ step_ok s step
    ∧ (error_index e = Some (i + length pre) ∨ error_index e = None).
Proof.
  revert i. induction steps as [|step rest IH]; intros i; simpl; [done|].
  intros [H|(? & Hv & [H|(? & Hs & H)]%rbind_Err)]%rbind_Err.
  - exists [], step, rest. repeat split; [constructor| |].
    + intros [Hv _]. apply (check_version_Ok i step tt) in Hv. congruence.
    + left. apply reject_if_Err in H as [_ <-]. simpl. f_equal. lia.
  - exists [], step, rest. repeat split; [constructor| |].
    + intros (_ & Hst). apply (check_step_Ok i s step tt) in Hst. congruence.
    + rewrite Nat.add_0_r. by apply check_step_index in H.
  - apply IH in H as (pre & st & post & -> & Hp & Hn & Hi).
    exists (step :: pre), st, post. repeat split; [|done|].
    + constructor; [|done]. apply check_version_Ok in Hv. by apply check_step_Ok in Hs as [? ?].
    + simpl. rewrite Nat.add_succ_r. done.
Qed.

Lemma missing_nil sc :
  filter (λ k, k ∉ (list_to_set ((λ step, TraceAction_kind step.(action)) <$> sc.(trace)) : gset Text))
    (elements sc.(required_critical_actions)) = [] ↔
  ∀ k, k ∈ sc.(required_critical_actions) →
    ∃ step, step ∈ sc.(trace) ∧ TraceAction_kind step.(action) = k.
Proof.
  split.
  - intros H k Hk. destruct (decide (k ∈ (list_to_set ((λ step, TraceAction_kind step.(action))
      <$> sc.(trace)) : gset Text))) as [Hin|Hin].
    + apply elem_of_list_to_set, list_elem_of_fmap in Hin as (step & -> & Hs). eauto.
    + exfalso. apply (not_elem_of_nil k). rewrite <- H. apply list_elem_of_filter.
      split; [done|by apply elem_of_elements].
  - intros H. apply elem_of_nil_inv. intros k [Hn Hk%elem_of_elements]%list_elem_of_filter.
    destruct (H k Hk) as (step & Hs & <-). apply Hn, elem_of_list_to_set, list_elem_of_fmap. eauto.
Qed.

(** C38. The replay checker decides conformance and fails at the first breach:
    it accepts a scenario exactly when its trace is not empty, all steps have
    the schema version, carry the state of one request and are confined to
    its tenant (rows, Allow verdicts and coverage guard), and every required
    action occurs; an error that names a step names the first that breaks
    these rules. *)
Theorem conformance_decides sc :
  (check_trace sc = Ok tt ↔ conforms sc)
  ∧ ∀ e i, check_trace sc = Err e → error_index e = Some i →
      ∃ first pre step post, head sc.(trace) = Some first ∧ sc.(trace) = pre ++ step :: post
        ∧ length pre = i ∧ Forall (step_ok first.(state_after)) pre
        ∧ ¬ step_ok first.(state_after) step.
Proof.
  destruct sc as [[|first rest] req].
  { split; [|by intros e i [= <-]]. split; [done|]. by intros (s & ? & _). }
  unfold check_trace. cbn [trace head]. split.
  - rewrite !seq_Ok, check_version_Ok, check_steps_Ok, reject_if_Ok, negb_false_iff.
    pose proof (missing_nil (mkScenario (first :: rest) req)) as Hm. cbn [trace required_critical_actions] in *.
    assert (He : ∀ {A} (l : list A), is_empty l = true ↔ l = []) by (by intros ? []).
    rewrite He, Hm. unfold conforms. cbn [trace required_critical_actions]. split.
    + intros (_ & Hs & Hr & _). by exists (state_after first).
    + intros (s & _ & Hs & Hr). pose proof Hs as [(Hv & <- & _) _]%Forall_cons. done.
  - intros e i H Hi. exists first.
    apply rbind_Err in H as [H|(? & _ & [H|(? & _ & H)]%rbind_Err)].
    + apply reject_if_Err in H as [Hv <-]. injection Hi as <-.
      exists [], first, rest. repeat split; [constructor|].
      intros [Hv' _]. apply (check_version_Ok 0 first tt), reject_if_Ok in Hv'. congruence.
    + apply check_steps_first in H as (pre & step & post & -> & Hp & Hn & Hx).
      exists pre, step, post. repeat split; try done.
      destruct Hx as [Hx|Hx]; rewrite Hx in Hi; [by injection Hi|done].
    + apply rbind_Err in H as [[_ <-]%reject_if_Err|(? & _ & H)]; done.
Qed.

End theorems.
