(* ===== verification/CrossDomain.v ===== *)
(** * Documents and Context bindings together

    A Context binding refers to a Document by id.  The two components share
    the Community lock: attaching reads whether the Context Document is active,
    and deleting a Document reads whether an active binding protects it
    ([buzz-db/src/project_context.rs] and [project_document.rs],
    [load_current]).  [DocumentRegistry] is what the Context side relies on; the
    Document store implements it, and the theorem that bindings never dangle is
    proved against the interface. *)

From S2P Require Import Prelude Text Platform.
From S2P Require DocumentModel DocumentReducer.
From S2P Require Import ContextCoordinate ContextModel ContextReducer.
From S2P Require Import ContextFacts ContextSpec ContextStore.
From S2P Require Import DocumentFacts DocumentSpec DocumentStore DocumentHistory.
From stdpp Require Import prelude strings gmap fin_maps relations.

(** ** The interface *)

(** A registry of Documents: an invariant of its states, the liveness of an
    id, and events that are refused or lead to a next state, given whether a
    reference blocks the deletion of the event's target. *)
Class DocumentRegistry `{P : Platform} (St Ev : Type) : Type := {
  reg_inv : St → Prop;
  reg_live : St → Uuid → bool;
  reg_target : Ev → Uuid;
  reg_submit : St → Ev → bool → option St;
  reg_submit_inv : ∀ s ev b s', reg_inv s → reg_submit s ev b = Some s' → reg_inv s';
  (** A live Document stays live unless it is the target of an event whose
      deletion was not blocked. *)
  reg_live_kept : ∀ s ev b s' d, reg_inv s → reg_submit s ev b = Some s' →
    reg_live s d = true → (reg_target ev = d → b = true) → reg_live s' d = true;
}.

(** ** Both components under one lock *)

Section world.
Context `{P : Platform} `{HU : !UuidLaws} {St Ev : Type} `{!DocumentRegistry St Ev}.

Record World : Type := {
  world_documents : St;
  world_context : CtxStore;
}.

(** Whether an active binding protects the Document. *)
Definition bound (s : CtxStore) (d : Uuid) : bool := opt_is_some (s.(ctx_owners) !! d).

(** The submission with the liveness of its Document as the store reads it. *)
Definition with_liveness (x : CtxSubmission) (live : bool) : CtxSubmission := {|
  csub_actor := x.(csub_actor);
  csub_event := x.(csub_event);
  csub_command := x.(csub_command);
  csub_clock := x.(csub_clock);
  csub_coordinates_active := x.(csub_coordinates_active);
  csub_document_active := live;
|}.

(** One transaction of either component.  [other] stands for the remaining
    deletion blockers, which belong to Project View. *)
Inductive world_step (w : World) : World → Prop :=
| step_document ev other s' :
    reg_submit w.(world_documents) ev (other || bound w.(world_context) (reg_target ev)) = Some s' →
    world_step w {| world_documents := s'; world_context := w.(world_context) |}
| step_context x c' receipt :
    ctx_submit w.(world_context)
      (with_liveness x (reg_live w.(world_documents) (csub_document x))) = Ok (c', receipt) →
    world_step w {| world_documents := w.(world_documents); world_context := c' |}.

Record world_inv (w : World) : Prop := {
  world_registry : reg_inv w.(world_documents);
  world_ctx : ctx_inv w.(world_context);
  world_bound : ∀ d k, w.(world_context).(ctx_owners) !! d = Some k →
    reg_live w.(world_documents) d = true;
}.

(** A Document that is bound after a Context transaction was bound before, or
    was attached while live. *)
Lemma ctx_submit_owners s x s' receipt d k :
  ctx_submit s x = Ok (s', receipt) → s'.(ctx_owners) !! d = Some k →
  s.(ctx_owners) !! d = Some k ∨ (d = csub_document x ∧ x.(csub_document_active) = true).
Proof.
  intros [[_ ->]|(_ & Ha & -> & _)]%ctx_submit_Ok Hd; [by left|].
  rewrite ctx_write_owners in Hd. pose proof (ctx_acc_operation _ _ _ _ _ Ha) as Hop.
  unfold ctx_accepts_operation in Hop.
  destruct (ProjectContextCommand_operation (csub_command x)).
  - apply lookup_insert_Some in Hd as [[<- _]|[_ Hd]]; [right|by left].
    split; [done|]. by destruct Hop as (_ & ? & _).
  - apply lookup_delete_Some in Hd as [_ Hd]. by left.
Qed.

Lemma world_step_inv w w' : world_inv w → world_step w w' → world_inv w'.
Proof.
  intros [Hreg Hctx Hb] [ev other s' Hs|x c' receipt Hs]; split; simpl; try done.
  - by eapply reg_submit_inv.
  - intros d k Hd. eapply reg_live_kept; [done|done|by eapply Hb|].
    intros <-. unfold bound. rewrite Hd. apply orb_true_r.
  - by eapply ctx_submit_inv.
  - intros d k Hd. destruct (ctx_submit_owners _ _ _ _ _ _ Hs Hd) as [Hold|[-> Hlive]];
      [by eapply Hb|done].
Qed.

Lemma world_rtc_inv w w' : world_inv w → rtc world_step w w' → world_inv w'.
Proof. intros Hw Hr. induction Hr; [done|]. by eauto using world_step_inv. Qed.

End world.
Arguments World {P} St.

(** ** The Document store implements the interface *)

Section instance.
Context `{P : Platform}.

Definition with_blocked (x : Submission) (b : bool) : Submission := {|
  sub_actor := x.(sub_actor);
  sub_event := x.(sub_event);
  sub_command := x.(sub_command);
  sub_clock := x.(sub_clock);
  sub_blocked := b;
|}.

(** Whether the current row of the id is active. *)
Definition document_live (s : DocStore) (d : Uuid) : bool :=
  is_some_and is_active (s.(store_documents) !! d).

Lemma submit_live_kept s x s' receipt d :
  store_inv s → submit s x = Ok (s', receipt) → document_live s d = true →
  (sub_target x = d → x.(sub_blocked) = true) → document_live s' d = true.
Proof.
  intros Hinv [[_ ->]|(_ & Ha & -> & _)]%submit_Ok Hlive Hb; [done|].
  unfold document_live in *. simpl. fold (sub_target x).
  destruct (decide (sub_target x = d)) as [<-|Hne]; [|by rewrite lookup_insert_ne].
  rewrite lookup_insert_eq. simpl. unfold is_active. simpl.
  pose proof (accepts_target _ _ _ _ Ha) as Hreq. unfold accepts_request in Hreq.
  unfold DocumentModel.ProjectDocumentCommand_operation.
  destruct (DocumentModel.request (sub_command x)); try done.
  destruct Hreq as (c & _ & _ & _ & _ & Hblocked & _). simpl in Hblocked.
  rewrite Hb in Hblocked; done.
Qed.

#[global] Program Instance document_registry : DocumentRegistry DocStore Submission := {|
  reg_inv := store_inv;
  reg_live := document_live;
  reg_target := sub_target;
  reg_submit := λ s x b, match submit s (with_blocked x b) with Ok (s', _) => Some s' | Err _ => None end;
|}.
Next Obligation.
  simpl. intros s x b s' Hinv. destruct (submit s (with_blocked x b)) as [[s2 r]|] eqn:Hs; [|done].
  intros [= <-]. by eapply submit_inv.
Qed.
Next Obligation.
  simpl. intros s x b s' d Hinv. destruct (submit s (with_blocked x b)) as [[s2 r]|] eqn:Hs; [|done].
  intros [= <-] Hlive Hb. by eapply submit_live_kept.
Qed.

End instance.
