(* ===== verification/CrossTheorems.v ===== *)
(** * Documents and Context bindings together: the properties

    What holds of every interleaving of Document and Context transactions, with
    applications to a sample world. *)

From S2P Require Import Prelude Text Platform Reference.
From S2P Require DocumentModel DocumentReducer.
From S2P Require Import ContextCoordinate ContextModel ContextReducer.
From S2P Require Import ContextFacts ContextSpec ContextStore.
From S2P Require Import DocumentFacts DocumentSpec DocumentStore DocumentHistory CrossDomain.
From S2P Require Import DocumentTheorems ContextTheorems.
From stdpp Require Import prelude strings gmap fin_maps relations.

Section theorems.
Context `{P : Platform} `{HU : !UuidLaws}.

(** Worlds reached from two empty catalogs. *)
Definition world_reachable (w : World DocStore) : Prop :=
  ∃ project generation at0 dcatalog ccatalog,
    DocumentModel.DocumentCatalog_empty project generation at0 = Ok dcatalog
    ∧ ProjectContextCatalog_empty project generation at0 = Ok ccatalog
    ∧ rtc world_step
        {| world_documents := bootstrap dcatalog; world_context := ctx_bootstrap ccatalog |} w.

Lemma world_reachable_inv w : world_reachable w → world_inv w.
Proof.
  intros (project & generation & at0 & dc & cc & Hd & Hc & Hr). eapply world_rtc_inv; [|done].
  split; simpl.
  - by eapply bootstrap_inv.
  - by eapply ctx_bootstrap_inv.
  - intros d k. by rewrite lookup_empty.
Qed.

(** C2. Context bindings never dangle: in every reachable world, whatever the
    interleaving of Document and Context commands, a bound Document exists, is
    active, and is a member of the edge it is bound to. *)
Theorem bindings_never_dangle w d k :
  world_reachable w → w.(world_context).(ctx_owners) !! d = Some k →
  (∃ c, w.(world_documents).(store_documents) !! d = Some c
     ∧ c.(DocumentModel.document).(DocumentModel.state) = DocumentModel.DocumentState.Active)
  ∧ ∃ e, w.(world_context).(ctx_edges) !! k = Some e ∧ d ∈ e.(context_document_ids).
Proof.
  intros [_ Hctx Hb]%world_reachable_inv Hd. split; [|by apply (cinv_owner _ Hctx)].
  specialize (Hb _ _ Hd). simpl in Hb. unfold document_live in Hb.
  destruct (store_documents (world_documents w) !! d) as [c|]; [|done].
  exists c. split; [done|]. simpl in Hb. unfold is_active in Hb. by bool_props.
Qed.

(** Deleting a bound Document, even with the right revision, is refused
    with [StillReferenced]; the binding has to be detached first. *)
Theorem delete_bound_refused w d k c x other :
  world_reachable w → w.(world_context).(ctx_owners) !! d = Some k →
  w.(world_documents).(store_documents) !! d = Some c →
  w.(world_documents).(store_receipts) !! x.(sub_event) = None →
  command_wf x.(sub_command) →
  DocumentModel.request x.(sub_command) = DocumentModel.DocumentCommandRequest.Delete d →
  DocumentModel.expected_document_revision x.(sub_command) = rev_of c →
  (rev_of c < DocumentModel.MAX_SAFE_REVISION)%N →
  submit w.(world_documents) (with_blocked x (other || bound w.(world_context) (sub_target x)))
  = Err (DocumentModel.DocumentError.StillReferenced d).
Proof.
  intros [Hdoc _ Hb]%world_reachable_inv Hd Hc Hnew Hwf Hreq Hexp Hmax. simpl in Hdoc.
  assert (Ht : sub_target x = d).
  { unfold sub_target, DocumentModel.ProjectDocumentCommand_document_id. by rewrite Hreq. }
  assert (Hblock : bound w.(world_context) (sub_target x) = true).
  { unfold bound. by rewrite Ht, Hd. }
  specialize (Hb _ _ Hd). simpl in Hb. unfold document_live in Hb. rewrite Hc in Hb.
  set (y := with_blocked x _). unfold submit. change (sub_event y) with (sub_event x). rewrite Hnew.
  apply rbind_Err. left. change (sub_target y) with (sub_target x). rewrite Ht, Hc.
  apply reduce_refusal.
  - apply (inv_catalog _ Hdoc).
  - done.
  - apply context_time.
  - simpl. by rewrite Hexp.
  - intros o [= <-]. destruct (inv_row _ Hdoc _ _ Hc) as (Hv & Hid & _).
    split; [done|]. by rewrite Hid, <- Ht.
  - unfold refusal. change (sub_command y) with (sub_command x). rewrite Hreq, Hexp, N.eqb_refl.
    simpl in Hb |- *. rewrite Hb. simpl. rewrite Hblock, orb_true_r.
    unfold DocumentModel.ProjectDocumentCommand_document_id. by rewrite Hreq.
Qed.

End theorems.

(** ** A sample world: a Document is created and then bound *)

Definition world_catalog : DocumentModel.DocumentCatalog := {|
  DocumentModel.project_id := golden_project;
  DocumentModel.catalog_revision := 0;
  DocumentModel.active_document_count := 0;
  DocumentModel.projection_generation := 1;
  DocumentModel.initialized_at := 100;
  DocumentModel.updated_at := 100;
|}.

Definition bound_id : Uuid := ref_uuid 9.

Definition world_create : Submission :=
  sample 1 0 (DocumentModel.DocumentCommandRequest.Create bound_id (lit "Why") None (lit "text")).
Definition world_delete : Submission :=
  sample 2 1 (DocumentModel.DocumentCommandRequest.Delete bound_id).

Definition world_d0 : DocStore := bootstrap world_catalog.
Definition world_d1 : DocStore := after_submit world_d0 (with_blocked world_create false).

Definition sample_world : World DocStore :=
  {| world_documents := world_d1; world_context := csample_s1 |}.

Lemma sample_world_reachable : world_reachable sample_world.
Proof.
  exists golden_project, 1%N, 100%Z, world_catalog, csample_catalog.
  split; [by_evaluation|]. split; [by_evaluation|].
  apply (rtc_l _ _ {| world_documents := world_d1; world_context := csample_s0 |}).
  - apply (step_document {| world_documents := world_d0; world_context := csample_s0 |}
      world_create false world_d1).
    assert (Hs : submit world_d0 (with_blocked world_create false)
      = Ok (world_d1, sample_receipt world_d0 (with_blocked world_create false))).
    { apply (sample_submit world_d0 (with_blocked world_create false)).
      vm_compute. reflexivity. }
    cbn [reg_submit document_registry world_documents world_context reg_target].
    change (false || bound csample_s0 (sub_target world_create)) with false.
    rewrite Hs. reflexivity.
  - apply rtc_once.
    apply (step_context {| world_documents := world_d1; world_context := csample_s0 |}
      csample_attach csample_s1 (csample_receipt csample_s0 csample_attach)).
    assert (Hl : reg_live world_d1 (csub_document csample_attach) = true) by (vm_compute; reflexivity).
    cbn [world_documents world_context]. rewrite Hl.
    change (with_liveness csample_attach true) with csample_attach.
    apply (csample_submit csample_s0 csample_attach). vm_compute. reflexivity.
Qed.

Lemma sample_world_owner : sample_world.(world_context).(ctx_owners) !! bound_id = Some golden_key.
Proof. by_evaluation. Qed.

Definition bound_row : DocumentModel.CurrentDocument :=
  default (sample_current world_d0) (store_documents world_d1 !! bound_id).

Lemma bound_row_lookup : world_d1.(store_documents) !! bound_id = Some bound_row.
Proof.
  assert (H : opt_is_some (store_documents world_d1 !! bound_id) = true) by (vm_compute; reflexivity).
  unfold bound_row. destruct (store_documents world_d1 !! bound_id); [reflexivity|discriminate H].
Qed.

Lemma bindings_never_dangle_witness :
  ∃ c, world_d1.(store_documents) !! bound_id = Some c
  ∧ c.(DocumentModel.document).(DocumentModel.state) = DocumentModel.DocumentState.Active.
Proof.
  exact (proj1 (bindings_never_dangle sample_world bound_id golden_key sample_world_reachable
    sample_world_owner)).
Defined.

Lemma delete_bound_refused_witness :
  submit world_d1 (with_blocked world_delete (false || bound csample_s1 (sub_target world_delete)))
  = Err (DocumentModel.DocumentError.StillReferenced bound_id).
Proof.
  apply (delete_bound_refused sample_world bound_id golden_key bound_row world_delete false).
  - exact sample_world_reachable.
  - exact sample_world_owner.
  - exact bound_row_lookup.
  - apply (sample_fresh world_d1 world_delete). vm_compute. reflexivity.
  - apply (command_validate_Ok _ tt). by_evaluation.
  - reflexivity.
  - by_evaluation.
  - by_evaluation.
Defined.
