(* ===== verification/RoleGovernance.v ===== *)
(** * Role continuity: schema versions, change sources and Role governance

    Models [buzz-project-view/src/v2.rs].  [RoleLevel] itself is in
    [ViewContract]; the arrays [[u8; 32]] are lists of bytes. *)

From stdpp Require Import prelude strings.
From S2P Require Import Prelude Text TextOps Platform ViewContract.

(** [b"..\0"] *)
Definition nul_terminated (s : string) : list N := lit s ++ [0%N].

Definition CHANGE_ID_DOMAIN : list N := nul_terminated "buzz-project-view-v2:change-id".
Definition REQUEST_HASH_DOMAIN : list N := nul_terminated "buzz-project-view-v2:request".
Definition IDEMPOTENCY_HASH_DOMAIN : list N := nul_terminated "buzz-project-view-v2:idempotency-key".

(** ** Schema versions *)

Module SchemaVersion.
Inductive SchemaVersion : Type :=
| V1
| V2
| V3.
End SchemaVersion.
Abbreviation SchemaVersion := SchemaVersion.SchemaVersion.

Definition SchemaVersion_as_u16 (self : SchemaVersion) : N :=
  match self with
  | SchemaVersion.V1 => 1
  | SchemaVersion.V2 => 2
  | SchemaVersion.V3 => 3
  end%N.

Inductive UnsupportedSchemaVersion : Type :=
| mkUnsupportedSchemaVersion (value : N).

Definition SchemaVersion_try_from (value : N) : result SchemaVersion UnsupportedSchemaVersion :=
  if (value =? 1)%N then Ok SchemaVersion.V1
  else if (value =? 2)%N then Ok SchemaVersion.V2
  else if (value =? 3)%N then Ok SchemaVersion.V3
  else Err (mkUnsupportedSchemaVersion value).

(** ** Change sources *)

(** A positive [i64]. *)
Record AuditSequence : Type := mkAuditSequence { sequence : Z }.

Inductive ChangeSourceError : Type :=
| InvalidAuditSequence.

Module ChangeSource.
Inductive ChangeSource : Type :=
| NostrEvent (event_id : list N)
| Nip98Request (auth_event_id request_hash : list N)
| Operator (audit_seq : AuditSequence) (idempotency_key_hash : list N)
| System (audit_seq : AuditSequence) (idempotency_key_hash : list N).
End ChangeSource.
Abbreviation ChangeSource := ChangeSource.ChangeSource.

Definition required_audit_sequence (value : Z) : result AuditSequence ChangeSourceError :=
  ok_or (if (negb (value =? 0) && (0 <? value))%Z then Some (mkAuditSequence value) else None)
    InvalidAuditSequence.

Definition ChangeSource_operator (audit_seq : Z) (idempotency_key_hash : list N)
  : result ChangeSource ChangeSourceError :=
  let? audit_seq := required_audit_sequence audit_seq in
  Ok (ChangeSource.Operator audit_seq idempotency_key_hash).

Definition ChangeSource_system (audit_seq : Z) (idempotency_key_hash : list N)
  : result ChangeSource ChangeSourceError :=
  let? audit_seq := required_audit_sequence audit_seq in
  Ok (ChangeSource.System audit_seq idempotency_key_hash).

Definition source_type (self : ChangeSource) : string :=
  match self with
  | ChangeSource.NostrEvent _ => "nostr_event"
  | ChangeSource.Nip98Request _ _ => "nip98_request"
  | ChangeSource.Operator _ _ => "operator"
  | ChangeSource.System _ _ => "system"
  end.

Section digests.
Context `{P : Platform}.

Definition digest_parts (parts : list (list N)) : list N := sha256 (concat parts).

Definition digest_audited_source (source_type : list N) (audit_seq : AuditSequence)
    (idempotency_key_hash : list N) : list N :=
  digest_parts [CHANGE_ID_DOMAIN; source_type; i64_to_be_bytes audit_seq.(sequence);
                idempotency_key_hash].

Definition change_id (self : ChangeSource) : list N :=
  match self with
  | ChangeSource.NostrEvent event_id => event_id
  | ChangeSource.Nip98Request auth_event_id request_hash =>
      digest_parts [CHANGE_ID_DOMAIN; nul_terminated "nip98_request"; auth_event_id; request_hash]
  | ChangeSource.Operator audit_seq idempotency_key_hash =>
      digest_audited_source (nul_terminated "operator") audit_seq idempotency_key_hash
  | ChangeSource.System audit_seq idempotency_key_hash =>
      digest_audited_source (nul_terminated "system") audit_seq idempotency_key_hash
  end.

Definition canonical_request_hash (canonical_request : list N) : list N :=
  digest_parts [REQUEST_HASH_DOMAIN; canonical_request].

Definition idempotency_key_hash (idempotency_key : list N) : list N :=
  digest_parts [IDEMPOTENCY_HASH_DOMAIN; idempotency_key].

End digests.

(** ** Role governance *)

Module RoleGovernorAuthority.
Inductive RoleGovernorAuthority : Type :=
| Owner
| ActiveLeader
| Member.
End RoleGovernorAuthority.
Abbreviation RoleGovernorAuthority := RoleGovernorAuthority.RoleGovernorAuthority.

Definition RoleLevel_as_str (self : RoleLevel) : string :=
  match self with
  | RoleLevel.Admin => "admin"
  | RoleLevel.Member => "member"
  end.

Record RoleGovernanceState : Type := mkRoleGovernanceState {
  gov_level : RoleLevel;
  gov_active : bool;
}.

Inductive RoleGovernanceError : Type :=
| GovernanceNotAuthorized
| GovernanceOwnerRequired.

(** [matches!(level, RoleLevel::Admin)] and [matches!(authority, ..)] *)
Definition level_is_admin (level : RoleLevel) : bool :=
  match level with RoleLevel.Admin => true | RoleLevel.Member => false end.

Definition authority_is_owner (authority : RoleGovernorAuthority) : bool :=
  match authority with RoleGovernorAuthority.Owner => true | _ => false end.

Definition authority_is_member (authority : RoleGovernorAuthority) : bool :=
  match authority with RoleGovernorAuthority.Member => true | _ => false end.

Definition transition_requires_owner (self next : RoleGovernanceState) : bool :=
  level_is_admin self.(gov_level) || level_is_admin next.(gov_level).

Definition authorize_role_governance_transition (current next : RoleGovernanceState)
    (authority : RoleGovernorAuthority) : result unit RoleGovernanceError :=
  reject_if (authority_is_member authority) GovernanceNotAuthorized ?;
  reject_if (transition_requires_owner current next && negb (authority_is_owner authority))
    GovernanceOwnerRequired ?;
  Ok tt.

Definition authorize_role_creation (level : RoleLevel) (authority : RoleGovernorAuthority)
  : result unit RoleGovernanceError :=
  reject_if (authority_is_member authority) GovernanceNotAuthorized ?;
  reject_if (level_is_admin level && negb (authority_is_owner authority))
    GovernanceOwnerRequired ?;
  Ok tt.
