(* ===== verification/RoleModel.v ===== *)
(** * Role continuity: rows and errors

    Models the types of [buzz-project-view/src/v2/role_continuity.rs]:
    membership facts, Role slots, Proposals, Assignments, Work responsibilities,
    Commitments, Checkpoints, Handoffs and the domain errors.  Fields that
    several structs share carry a prefix. *)

From stdpp Require Import prelude strings.
From S2P Require Import Prelude Text Platform ViewModel ViewContract RoleGovernance.

Definition MAX_REASON_BYTES : N := 4096.
Definition MAX_CONTINUITY_SUMMARY_BYTES : N := 8192.
Definition MAX_CONTINUITY_ITEM_BYTES : N := 2048.
Definition MAX_CONTINUITY_LABEL_BYTES : N := 256.
Definition MAX_CONTINUITY_ITEMS : N := 64.
Definition MAX_CONTINUITY_REFERENCES : N := 128.
Definition MAX_PROPOSAL_LIFETIME_DAYS : Z := 30.

(** ** Enumerations *)

Module CommunityMemberRole.
Inductive CommunityMemberRole : Type :=
| Owner
| Admin
| Member.

#[global] Instance CommunityMemberRole_eq_dec : EqDecision CommunityMemberRole.
Proof. solve_decision. Defined.
End CommunityMemberRole.
Abbreviation CommunityMemberRole := CommunityMemberRole.CommunityMemberRole.

Definition CommunityMemberRole_as_str (self : CommunityMemberRole) : string :=
  match self with
  | CommunityMemberRole.Owner => "owner"
  | CommunityMemberRole.Admin => "admin"
  | CommunityMemberRole.Member => "member"
  end.

Module ProposalType.
Inductive ProposalType : Type :=
| Request
| Offer.

#[global] Instance ProposalType_eq_dec : EqDecision ProposalType.
Proof. solve_decision. Defined.
End ProposalType.
Abbreviation ProposalType := ProposalType.ProposalType.

Definition ProposalType_as_str (self : ProposalType) : string :=
  match self with
  | ProposalType.Request => "request"
  | ProposalType.Offer => "offer"
  end.

Module ProposalStatus.
Inductive ProposalStatus : Type :=
| Open
| Consumed
| Rejected
| Withdrawn
| Expired.

#[global] Instance ProposalStatus_eq_dec : EqDecision ProposalStatus.
Proof. solve_decision. Defined.
End ProposalStatus.
Abbreviation ProposalStatus := ProposalStatus.ProposalStatus.

Definition ProposalStatus_as_str (self : ProposalStatus) : string :=
  match self with
  | ProposalStatus.Open => "open"
  | ProposalStatus.Consumed => "consumed"
  | ProposalStatus.Rejected => "rejected"
  | ProposalStatus.Withdrawn => "withdrawn"
  | ProposalStatus.Expired => "expired"
  end.

Module AssignmentEndReason.
Inductive AssignmentEndReason : Type :=
| Revoked
| Replaced
| Unrecoverable
| MembershipEnded
| RoleDeactivated.

#[global] Instance AssignmentEndReason_eq_dec : EqDecision AssignmentEndReason.
Proof. solve_decision. Defined.
End AssignmentEndReason.
Abbreviation AssignmentEndReason := AssignmentEndReason.AssignmentEndReason.

Definition AssignmentEndReason_as_str (self : AssignmentEndReason) : string :=
  match self with
  | AssignmentEndReason.Revoked => "revoked"
  | AssignmentEndReason.Replaced => "replaced"
  | AssignmentEndReason.Unrecoverable => "unrecoverable"
  | AssignmentEndReason.MembershipEnded => "membership_ended"
  | AssignmentEndReason.RoleDeactivated => "role_deactivated"
  end.

Module CommitmentEndReason.
Inductive CommitmentEndReason : Type :=
| Released
| Replaced
| AssignmentEnded
| WorkClosed.

#[global] Instance CommitmentEndReason_eq_dec : EqDecision CommitmentEndReason.
Proof. solve_decision. Defined.
End CommitmentEndReason.
Abbreviation CommitmentEndReason := CommitmentEndReason.CommitmentEndReason.

Definition CommitmentEndReason_as_str (self : CommitmentEndReason) : string :=
  match self with
  | CommitmentEndReason.Released => "released"
  | CommitmentEndReason.Replaced => "replaced"
  | CommitmentEndReason.AssignmentEnded => "assignment_ended"
  | CommitmentEndReason.WorkClosed => "work_closed"
  end.

Module HandoffCause.
Inductive HandoffCause : Type :=
| Planned
| Revoked
| Replaced
| MembershipEnded
| Unrecoverable
| RoleDeactivated
| Other.

#[global] Instance HandoffCause_eq_dec : EqDecision HandoffCause.
Proof. solve_decision. Defined.
End HandoffCause.
Abbreviation HandoffCause := HandoffCause.HandoffCause.

Definition HandoffCause_as_str (self : HandoffCause) : string :=
  match self with
  | HandoffCause.Planned => "planned"
  | HandoffCause.Revoked => "revoked"
  | HandoffCause.Replaced => "replaced"
  | HandoffCause.MembershipEnded => "membership_ended"
  | HandoffCause.Unrecoverable => "unrecoverable"
  | HandoffCause.RoleDeactivated => "role_deactivated"
  | HandoffCause.Other => "other"
  end.

Definition HandoffCause_from (value : AssignmentEndReason) : HandoffCause :=
  match value with
  | AssignmentEndReason.Revoked => HandoffCause.Revoked
  | AssignmentEndReason.Replaced => HandoffCause.Replaced
  | AssignmentEndReason.Unrecoverable => HandoffCause.Unrecoverable
  | AssignmentEndReason.MembershipEnded => HandoffCause.MembershipEnded
  | AssignmentEndReason.RoleDeactivated => HandoffCause.RoleDeactivated
  end.

(** [matches!(cause, HandoffCause::Planned | HandoffCause::Other)] *)
Definition member_authored_cause (cause : HandoffCause) : bool :=
  match cause with
  | HandoffCause.Planned | HandoffCause.Other => true
  | _ => false
  end.

Module RoleContinuityEntity.
Inductive RoleContinuityEntity : Type :=
| Role
| RoleAssignmentProposal
| RoleAssignment
| WorkCommitment
| RoleCheckpoint
| RoleHandoff.

#[global] Instance RoleContinuityEntity_eq_dec : EqDecision RoleContinuityEntity.
Proof. solve_decision. Defined.
End RoleContinuityEntity.
Abbreviation RoleContinuityEntity := RoleContinuityEntity.RoleContinuityEntity.

Definition RoleContinuityEntity_as_str (self : RoleContinuityEntity) : string :=
  match self with
  | RoleContinuityEntity.Role => "role"
  | RoleContinuityEntity.RoleAssignmentProposal => "role_assignment_proposal"
  | RoleContinuityEntity.RoleAssignment => "role_assignment"
  | RoleContinuityEntity.WorkCommitment => "work_commitment"
  | RoleContinuityEntity.RoleCheckpoint => "role_checkpoint"
  | RoleContinuityEntity.RoleHandoff => "role_handoff"
  end.

(** ** Errors *)

Module RoleContinuityError.
Inductive RoleContinuityError : Type :=
| UnsupportedSchema
| InvalidCommand (message : Text)
| RevisionConflict (expected current : N)
| RevisionOverflow
| RoleNotFound
| RoleInactive
| CandidateIneligible
| ProposalNotFound
| ProposalNotOpen
| ProposalExpired
| ProposalNotExpired
| InvalidProposalDeadline
| DuplicateProposal
| CandidateRequired
| CreatorRequired
| AlreadyConfirmed
| AssignmentNotFound
| AssignmentEnded
| ActingAssignmentRequired
| ActingAssignmentInvalid
| AssigneeRequired
| WorkNotFound
| WorkClosed
| ResponsibilityRequired
| ResponsibilityUnchanged
| ActiveCommitmentConflict
| WorkRoleMismatch
| CommitmentNotFound
| CommitmentEnded
| CommitmentAssigneeRequired
| CommitmentFenceConflict
| CheckpointNotFound
| CheckpointBaselineInvalid
| CheckpointSupersedesInvalid
| HandoffTargetInvalid
| HandoffCheckpointInvalid
| HandoffCauseInvalid
| ReferenceNotFound
| NotAuthorized
| OwnerRequired
| SelfEndForbidden
| PeerLeaderForbidden
| ManagedLeaderTargetUnknown
| CompoundFenceConflict
| IdCollision
| MissingGeneratedId
| AlreadyReported
| InvalidState (message : Text).
End RoleContinuityError.
Abbreviation RoleContinuityError := RoleContinuityError.RoleContinuityError.

Abbreviation RoleResult A := (result A RoleContinuityError).

Definition RoleContinuityError_code (self : RoleContinuityError) : string :=
  match self with
  | RoleContinuityError.UnsupportedSchema => "schema"
  | RoleContinuityError.InvalidCommand _ => "command"
  | RoleContinuityError.RevisionConflict _ _ | RoleContinuityError.CompoundFenceConflict => "revision"
  | RoleContinuityError.RevisionOverflow => "revision_overflow"
  | RoleContinuityError.RoleNotFound => "role_not_found"
  | RoleContinuityError.RoleInactive => "role_inactive"
  | RoleContinuityError.CandidateIneligible => "candidate_ineligible"
  | RoleContinuityError.ProposalNotFound => "proposal_not_found"
  | RoleContinuityError.ProposalNotOpen => "proposal_not_open"
  | RoleContinuityError.ProposalExpired => "proposal_expired"
  | RoleContinuityError.ProposalNotExpired => "proposal_not_expired"
  | RoleContinuityError.InvalidProposalDeadline => "proposal_deadline"
  | RoleContinuityError.DuplicateProposal => "proposal_exists"
  | RoleContinuityError.CandidateRequired => "candidate_required"
  | RoleContinuityError.CreatorRequired => "creator_required"
  | RoleContinuityError.AlreadyConfirmed => "already_confirmed"
  | RoleContinuityError.AssignmentNotFound => "assignment_not_found"
  | RoleContinuityError.AssignmentEnded => "assignment_ended"
  | RoleContinuityError.ActingAssignmentRequired => "acting_assignment_required"
  | RoleContinuityError.ActingAssignmentInvalid => "acting_assignment"
  | RoleContinuityError.AssigneeRequired => "assignee_required"
  | RoleContinuityError.WorkNotFound => "work_not_found"
  | RoleContinuityError.WorkClosed => "work_closed"
  | RoleContinuityError.ResponsibilityRequired => "responsibility_required"
  | RoleContinuityError.ResponsibilityUnchanged => "responsibility_unchanged"
  | RoleContinuityError.ActiveCommitmentConflict => "commitment_active"
  | RoleContinuityError.WorkRoleMismatch => "work_role_mismatch"
  | RoleContinuityError.CommitmentNotFound => "commitment_not_found"
  | RoleContinuityError.CommitmentEnded => "commitment_ended"
  | RoleContinuityError.CommitmentAssigneeRequired => "commitment_assignee_required"
  | RoleContinuityError.CommitmentFenceConflict => "commitment_fence"
  | RoleContinuityError.CheckpointNotFound => "checkpoint_not_found"
  | RoleContinuityError.CheckpointBaselineInvalid => "checkpoint_baseline"
  | RoleContinuityError.CheckpointSupersedesInvalid => "checkpoint_supersedes"
  | RoleContinuityError.HandoffTargetInvalid => "handoff_target"
  | RoleContinuityError.HandoffCheckpointInvalid => "handoff_checkpoint"
  | RoleContinuityError.HandoffCauseInvalid => "handoff_cause"
  | RoleContinuityError.ReferenceNotFound => "reference_not_found"
  | RoleContinuityError.NotAuthorized => "authorization"
  | RoleContinuityError.OwnerRequired => "owner_required"
  | RoleContinuityError.SelfEndForbidden => "self_end"
  | RoleContinuityError.PeerLeaderForbidden => "peer_leader"
  | RoleContinuityError.ManagedLeaderTargetUnknown => "target_identity"
  | RoleContinuityError.IdCollision => "id_collision"
  | RoleContinuityError.MissingGeneratedId => "generated_id"
  | RoleContinuityError.AlreadyReported => "already_reported"
  | RoleContinuityError.InvalidState _ => "state"
  end.

(** ** Rows *)

Section rows.
Context `{P : Platform}.

Record MemberGovernance : Type := mkMemberGovernance {
  pubkey : PublicKey;
  community_role : option CommunityMemberRole;
  eligible : bool;
  managed_agent_owner : option PublicKey;
}.

#[global] Instance MemberGovernance_eq_dec : EqDecision MemberGovernance.
Proof. solve_decision. Defined.

Definition is_owner (self : MemberGovernance) : bool :=
  match self.(community_role) with
  | Some CommunityMemberRole.Owner => true
  | _ => false
  end.

Definition is_managed_agent (self : MemberGovernance) : bool :=
  opt_is_some self.(managed_agent_owner).

Record RoleSlot : Type := mkRoleSlot {
  slot_role_id : Uuid;
  slot_level : RoleLevel;
  slot_active : bool;
}.

#[global] Instance RoleSlot_eq_dec : EqDecision RoleSlot.
Proof. solve_decision. Defined.

Record RoleDefinition : Type := mkRoleDefinition {
  def_role_id : Uuid;
  def_name : Text;
  def_purpose : Text;
  def_responsibilities : list Text;
  def_boundaries : list Text;
  def_level : RoleLevel;
  def_active : bool;
  def_object_revision : N;
  def_project_revision : N;
  def_created_at : DateTime;
  def_updated_at : DateTime;
  def_created_by : PublicKey;
  def_updated_by : PublicKey;
}.

#[global] Instance RoleDefinition_eq_dec : EqDecision RoleDefinition.
Proof. solve_decision. Defined.

Record RoleAssignmentProposal : Type := mkRoleAssignmentProposal {
  prop_proposal_id : Uuid;
  prop_role_id : Uuid;
  prop_candidate_pubkey : PublicKey;
  prop_type : ProposalType;
  prop_candidate_accepted_at : option DateTime;
  prop_authorized_by : option PublicKey;
  prop_authorized_at : option DateTime;
  prop_expected_target_assignment_id : option Uuid;
  prop_expected_candidate_assignment_id : option Uuid;
  prop_expires_at : DateTime;
  prop_status : ProposalStatus;
  prop_reason : option Text;
  prop_created_by : PublicKey;
  prop_created_at : DateTime;
  prop_resolved_at : option DateTime;
  prop_entity_revision : N;
  prop_project_revision : N;
}.

#[global] Instance RoleAssignmentProposal_eq_dec : EqDecision RoleAssignmentProposal.
Proof. solve_decision. Defined.

Definition effective_status (self : RoleAssignmentProposal) (canonical_time : DateTime)
  : ProposalStatus :=
  if bool_decide (self.(prop_status) = ProposalStatus.Open)
     && (self.(prop_expires_at) <=? canonical_time)%Z
  then ProposalStatus.Expired else self.(prop_status).

Record RoleAssignment : Type := mkRoleAssignment {
  asg_assignment_id : Uuid;
  asg_role_id : Uuid;
  asg_member_pubkey : PublicKey;
  asg_proposal_id : Uuid;
  asg_started_at : DateTime;
  asg_started_by : PublicKey;
  asg_replacement_requested_at : option DateTime;
  asg_replacement_request_reason : option Text;
  asg_unable_reported_at : option DateTime;
  asg_unable_report_reason : option Text;
  asg_ended_at : option DateTime;
  asg_ended_by : option PublicKey;
  asg_ended_reason : option AssignmentEndReason;
  asg_replaced_by_assignment_id : option Uuid;
  asg_entity_revision : N;
  asg_project_revision : N;
}.

#[global] Instance RoleAssignment_eq_dec : EqDecision RoleAssignment.
Proof. solve_decision. Defined.

Definition RoleAssignment_is_active (self : RoleAssignment) : bool :=
  negb (opt_is_some self.(asg_ended_at)).

Record WorkResponsibility : Type := mkWorkResponsibility {
  work_work_id : Uuid;
  work_status : option WorkStatus;
  work_responsible_role_id : option Uuid;
  work_object_revision : N;
  work_project_revision : N;
  work_updated_at : DateTime;
  work_updated_by : PublicKey;
}.

#[global] Instance WorkResponsibility_eq_dec : EqDecision WorkResponsibility.
Proof. solve_decision. Defined.

Definition WorkResponsibility_is_open (self : WorkResponsibility) : bool :=
  match self.(work_status) with
  | Some (WorkStatus.Pending | WorkStatus.InProgress | WorkStatus.Paused | WorkStatus.Submitted) => true
  | _ => false
  end.

Record WorkCommitment : Type := mkWorkCommitment {
  com_commitment_id : Uuid;
  com_work_id : Uuid;
  com_assignment_id : Uuid;
  com_member_pubkey : PublicKey;
  com_started_at : DateTime;
  com_started_by : PublicKey;
  com_ended_at : option DateTime;
  com_ended_by : option PublicKey;
  com_ended_reason : option CommitmentEndReason;
  com_entity_revision : N;
  com_project_revision : N;
}.

#[global] Instance WorkCommitment_eq_dec : EqDecision WorkCommitment.
Proof. solve_decision. Defined.

Definition WorkCommitment_is_active (self : WorkCommitment) : bool :=
  negb (opt_is_some self.(com_ended_at)).

Inductive RoleContinuityReference : Type :=
| RefObject (object_id : Uuid) (label : option Text)
| RefAssignment (assignment_id : Uuid) (label : option Text)
| RefCommitment (commitment_id : Uuid) (label : option Text)
| RefNostrEvent (event_id : EventId) (label : option Text).

#[global] Instance RoleContinuityReference_eq_dec : EqDecision RoleContinuityReference.
Proof. solve_decision. Defined.

Definition reference_label (self : RoleContinuityReference) : option Text :=
  match self with
  | RefObject _ label | RefAssignment _ label | RefCommitment _ label | RefNostrEvent _ label => label
  end.

Record RoleCheckpointContent : Type := mkRoleCheckpointContent {
  chk_summary : Text;
  chk_current_focus : list Text;
  chk_progress : list Text;
  chk_blockers : list Text;
  chk_risks : list Text;
  chk_open_questions : list Text;
  chk_next_steps : list Text;
  chk_references : list RoleContinuityReference;
}.

#[global] Instance RoleCheckpointContent_eq_dec : EqDecision RoleCheckpointContent.
Proof. solve_decision. Defined.

Record RoleCheckpoint : Type := mkRoleCheckpoint {
  chk_checkpoint_id : Uuid;
  chk_role_id : Uuid;
  chk_assignment_id : Uuid;
  chk_based_on_project_revision : N;
  chk_content : RoleCheckpointContent;
  chk_supersedes_checkpoint_id : option Uuid;
  chk_created_by : PublicKey;
  chk_created_at : DateTime;
  chk_entity_revision : N;
  chk_project_revision : N;
}.

#[global] Instance RoleCheckpoint_eq_dec : EqDecision RoleCheckpoint.
Proof. solve_decision. Defined.

Record RoleHandoffContent : Type := mkRoleHandoffContent {
  hof_summary : option Text;
  hof_unresolved_items : list Text;
  hof_references : list RoleContinuityReference;
}.

#[global] Instance RoleHandoffContent_eq_dec : EqDecision RoleHandoffContent.
Proof. solve_decision. Defined.

Record RoleHandoff : Type := mkRoleHandoff {
  hof_handoff_id : Uuid;
  hof_role_id : Uuid;
  hof_from_assignment_id : Uuid;
  hof_to_assignment_id : option Uuid;
  hof_checkpoint_id : option Uuid;
  hof_affected_commitment_ids : list Uuid;
  hof_content : RoleHandoffContent;
  hof_cause : HandoffCause;
  hof_system_generated : bool;
  hof_created_by : option PublicKey;
  hof_created_at : DateTime;
  hof_entity_revision : N;
  hof_project_revision : N;
}.

#[global] Instance RoleHandoff_eq_dec : EqDecision RoleHandoff.
Proof. solve_decision. Defined.

Inductive RoleContinuityChange : Type :=
| ChangeRole (role : RoleDefinition)
| ChangeProposal (proposal : RoleAssignmentProposal)
| ChangeAssignment (assignment : RoleAssignment)
| ChangeCommitment (commitment : WorkCommitment)
| ChangeCheckpoint (checkpoint : RoleCheckpoint)
| ChangeHandoff (handoff : RoleHandoff).

#[global] Instance RoleContinuityChange_eq_dec : EqDecision RoleContinuityChange.
Proof. solve_decision. Defined.

Definition entity_type (self : RoleContinuityChange) : RoleContinuityEntity :=
  match self with
  | ChangeRole _ => RoleContinuityEntity.Role
  | ChangeProposal _ => RoleContinuityEntity.RoleAssignmentProposal
  | ChangeAssignment _ => RoleContinuityEntity.RoleAssignment
  | ChangeCommitment _ => RoleContinuityEntity.WorkCommitment
  | ChangeCheckpoint _ => RoleContinuityEntity.RoleCheckpoint
  | ChangeHandoff _ => RoleContinuityEntity.RoleHandoff
  end.

Definition entity_id (self : RoleContinuityChange) : Uuid :=
  match self with
  | ChangeRole role => role.(def_role_id)
  | ChangeProposal proposal => proposal.(prop_proposal_id)
  | ChangeAssignment assignment => assignment.(asg_assignment_id)
  | ChangeCommitment commitment => commitment.(com_commitment_id)
  | ChangeCheckpoint checkpoint => checkpoint.(chk_checkpoint_id)
  | ChangeHandoff handoff => handoff.(hof_handoff_id)
  end.

Definition entity_revision (self : RoleContinuityChange) : N :=
  match self with
  | ChangeRole role => role.(def_object_revision)
  | ChangeProposal proposal => proposal.(prop_entity_revision)
  | ChangeAssignment assignment => assignment.(asg_entity_revision)
  | ChangeCommitment commitment => commitment.(com_entity_revision)
  | ChangeCheckpoint checkpoint => checkpoint.(chk_entity_revision)
  | ChangeHandoff handoff => handoff.(hof_entity_revision)
  end.

End rows.
