(* ===== verification/RoleCommand.v ===== *)
(** * Role continuity: commands

    Models the commands of [buzz-project-view/src/v2/role_continuity.rs], their
    submission rules and content limits, and the schema 3 envelope of
    [v3/role_continuity.rs]. *)

From stdpp Require Import prelude strings.
From S2P Require Import Prelude Text Platform ViewModel ViewContract RoleGovernance.
From S2P Require Import RoleModel.

(** [SchemaVersion::V2.as_u16()] *)
Abbreviation SCHEMA_V2 := (SchemaVersion_as_u16 SchemaVersion.V2).

Section commands.
Context `{P : Platform}.

Inductive RoleCommandRequest : Type :=
| RequestRole (proposal_id role_id : Uuid) (expires_at : DateTime) (reason : option Text)
| OfferRole (proposal_id role_id : Uuid) (candidate_pubkey : PublicKey) (expires_at : DateTime)
    (reason : option Text)
| AcceptProposal (proposal_id : Uuid)
| RejectProposal (proposal_id : Uuid) (reason : option Text)
| WithdrawProposal (proposal_id : Uuid) (reason : option Text)
| ExpireProposal (proposal_id : Uuid)
| AuthorizeProposal (proposal_id : Uuid)
| EndAssignment (assignment_id : Uuid) (reason : option Text)
| RequestReplacement (assignment_id : Uuid) (reason : option Text)
| ReportUnableToContinue (assignment_id : Uuid) (reason : option Text)
| SetWorkResponsibility (work_id : Uuid) (responsible_role_id : option Uuid)
| AcceptWork (commitment_id work_id : Uuid)
| EndCommitment (commitment_id : Uuid) (reason : option Text)
| ReplaceCommitment (commitment_id work_id expected_commitment_id : Uuid)
| AppendCheckpoint (checkpoint_id : Uuid) (based_on_project_revision : N)
    (content : RoleCheckpointContent) (supersedes_checkpoint_id : option Uuid)
| AppendHandoff (handoff_id : Uuid) (to_assignment_id checkpoint_id : option Uuid)
    (content : RoleHandoffContent) (cause : HandoffCause).

Inductive RoleActorIntent : Type :=
| CommunityIdentity
| CandidateOrGovernor
| Governor
| RoleBearing.

#[global] Instance RoleActorIntent_eq_dec : EqDecision RoleActorIntent.
Proof. solve_decision. Defined.

Definition actor_intent (self : RoleCommandRequest) : RoleActorIntent :=
  match self with
  | RequestRole _ _ _ _ | AcceptProposal _ | WithdrawProposal _ _ | ExpireProposal _ =>
      CommunityIdentity
  | RejectProposal _ _ => CandidateOrGovernor
  | OfferRole _ _ _ _ _ | AuthorizeProposal _ | EndAssignment _ _ | SetWorkResponsibility _ _ =>
      Governor
  | RequestReplacement _ _ | ReportUnableToContinue _ _ | AcceptWork _ _ | EndCommitment _ _
  | ReplaceCommitment _ _ _ | AppendCheckpoint _ _ _ _ | AppendHandoff _ _ _ _ _ => RoleBearing
  end.

Definition RoleCommandRequest_operation (self : RoleCommandRequest) : string :=
  match self with
  | RequestRole _ _ _ _ => "request_role"
  | OfferRole _ _ _ _ _ => "offer_role"
  | AcceptProposal _ => "accept_proposal"
  | RejectProposal _ _ => "reject_proposal"
  | WithdrawProposal _ _ => "withdraw_proposal"
  | ExpireProposal _ => "expire_proposal"
  | AuthorizeProposal _ => "authorize_proposal"
  | EndAssignment _ _ => "end_assignment"
  | RequestReplacement _ _ => "request_replacement"
  | ReportUnableToContinue _ _ => "report_unable_to_continue"
  | SetWorkResponsibility _ _ => "set_work_responsibility"
  | AcceptWork _ _ => "accept_work"
  | EndCommitment _ _ => "end_commitment"
  | ReplaceCommitment _ _ _ => "replace_commitment"
  | AppendCheckpoint _ _ _ _ => "append_checkpoint"
  | AppendHandoff _ _ _ _ _ => "append_handoff"
  end.

Record RoleCommand : Type := mkRoleCommand {
  cmd_schema_version : N;
  cmd_expected_project_revision : N;
  cmd_acting_assignment_id : option Uuid;
  cmd_runtime_fence : option RuntimeFence;
  cmd_request : RoleCommandRequest;
}.

Definition RoleCommand_new (expected_project_revision : N) (acting_assignment_id : option Uuid)
    (request : RoleCommandRequest) : RoleCommand := {|
  cmd_schema_version := SCHEMA_V2;
  cmd_expected_project_revision := expected_project_revision;
  cmd_acting_assignment_id := acting_assignment_id;
  cmd_runtime_fence := None;
  cmd_request := request;
|}.

Definition RoleCommand_with_runtime_fence (self : RoleCommand) (runtime_fence : RuntimeFence)
  : RoleCommand := {|
  cmd_schema_version := self.(cmd_schema_version);
  cmd_expected_project_revision := self.(cmd_expected_project_revision);
  cmd_acting_assignment_id := self.(cmd_acting_assignment_id);
  cmd_runtime_fence := Some runtime_fence;
  cmd_request := self.(cmd_request);
|}.

Definition RoleCommand_operation (self : RoleCommand) : string :=
  RoleCommandRequest_operation self.(cmd_request).

(** ** Content rules *)

Definition require_id (id : Uuid) (field : string) : RoleResult unit :=
  reject_if (Uuid_is_nil id)
    (RoleContinuityError.InvalidCommand (lit field ++ lit " cannot be nil")).

(** [if let Some(id) = id { require_id(id, field)?; }] *)
Definition require_optional_id (id : option Uuid) (field : string) : RoleResult unit :=
  match id with
  | Some id => require_id id field
  | None => Ok tt
  end.

Definition validate_optional_reason (reason : option Text) : RoleResult unit :=
  match reason with
  | Some reason =>
      reject_if (is_empty (trim reason) || (MAX_REASON_BYTES <? str_len reason)%N)
        (RoleContinuityError.InvalidCommand
           (lit "reason must contain 1..=" ++ fmt_u64 MAX_REASON_BYTES ++ lit " bytes"))
  | None => Ok tt
  end.

Definition validate_required_text (value : Text) (field : string) (max_bytes : N)
  : RoleResult unit :=
  reject_if (is_empty (trim value) || (max_bytes <? str_len value)%N)
    (RoleContinuityError.InvalidCommand
       (lit field ++ lit " must contain 1..=" ++ fmt_u64 max_bytes ++ lit " bytes")).

Definition validate_continuity_items (field : string) (items : list Text) : RoleResult unit :=
  reject_if (MAX_CONTINUITY_ITEMS <? len items)%N
    (RoleContinuityError.InvalidCommand
       (lit field ++ lit " cannot contain more than " ++ fmt_u64 MAX_CONTINUITY_ITEMS
        ++ lit " items")) ?;
  for_each (λ item, validate_required_text item field MAX_CONTINUITY_ITEM_BYTES) items.

(** One iteration of [validate_reference_shape]. *)
Definition validate_one_reference (reference : RoleContinuityReference) : RoleResult unit :=
  match reference with
  | RefObject object_id _ => require_id object_id "reference.object_id"
  | RefAssignment assignment_id _ => require_id assignment_id "reference.assignment_id"
  | RefCommitment commitment_id _ => require_id commitment_id "reference.commitment_id"
  | RefNostrEvent event_id _ =>
      reject_if (bool_decide (EventId_to_bytes event_id = replicate 32 0%N))
        (RoleContinuityError.InvalidCommand (lit "reference.event_id cannot be all zeroes"))
  end ?;
  match reference_label reference with
  | Some label => validate_required_text label "reference.label" MAX_CONTINUITY_LABEL_BYTES
  | None => Ok tt
  end.

Definition validate_reference_shape (references : list RoleContinuityReference) : RoleResult unit :=
  reject_if (MAX_CONTINUITY_REFERENCES <? len references)%N
    (RoleContinuityError.InvalidCommand
       (lit "references cannot contain more than " ++ fmt_u64 MAX_CONTINUITY_REFERENCES
        ++ lit " items")) ?;
  for_each validate_one_reference references.

Definition validate_checkpoint_content (content : RoleCheckpointContent) : RoleResult unit :=
  validate_required_text content.(chk_summary) "checkpoint.summary" MAX_CONTINUITY_SUMMARY_BYTES ?;
  for_each (λ '(field, items), validate_continuity_items field items)
    [ ("checkpoint.current_focus", content.(chk_current_focus));
      ("checkpoint.progress", content.(chk_progress));
      ("checkpoint.blockers", content.(chk_blockers));
      ("checkpoint.risks", content.(chk_risks));
      ("checkpoint.open_questions", content.(chk_open_questions));
      ("checkpoint.next_steps", content.(chk_next_steps)) ] ?;
  validate_reference_shape content.(chk_references).

Definition validate_handoff_content (content : RoleHandoffContent) : RoleResult unit :=
  match content.(hof_summary) with
  | Some summary => validate_required_text summary "handoff.summary" MAX_CONTINUITY_SUMMARY_BYTES
  | None => Ok tt
  end ?;
  validate_continuity_items "handoff.unresolved_items" content.(hof_unresolved_items) ?;
  validate_reference_shape content.(hof_references).

(** ** Submission *)

(** The request half of [RoleCommand::validate_for_submission]. *)
Definition validate_request (expected_project_revision : N) (request : RoleCommandRequest)
  : RoleResult unit :=
  match request with
  | RequestRole proposal_id role_id _ reason
  | OfferRole proposal_id role_id _ _ reason =>
      require_id proposal_id "proposal_id" ?;
      require_id role_id "role_id" ?;
      validate_optional_reason reason
  | AcceptProposal proposal_id | AuthorizeProposal proposal_id | ExpireProposal proposal_id =>
      require_id proposal_id "proposal_id"
  | RejectProposal proposal_id reason | WithdrawProposal proposal_id reason =>
      require_id proposal_id "proposal_id" ?;
      validate_optional_reason reason
  | EndAssignment assignment_id reason
  | RequestReplacement assignment_id reason
  | ReportUnableToContinue assignment_id reason =>
      require_id assignment_id "assignment_id" ?;
      validate_optional_reason reason
  | SetWorkResponsibility work_id responsible_role_id =>
      require_id work_id "work_id" ?;
      require_optional_id responsible_role_id "responsible_role_id"
  | AcceptWork commitment_id work_id =>
      require_id commitment_id "commitment_id" ?;
      require_id work_id "work_id"
  | EndCommitment commitment_id reason =>
      require_id commitment_id "commitment_id" ?;
      validate_optional_reason reason
  | ReplaceCommitment commitment_id work_id expected_commitment_id =>
      require_id commitment_id "commitment_id" ?;
      require_id work_id "work_id" ?;
      require_id expected_commitment_id "expected_commitment_id" ?;
      reject_if (bool_decide (commitment_id = expected_commitment_id))
        (RoleContinuityError.InvalidCommand
           (lit "replacement Commitment must use a new identifier"))
  | AppendCheckpoint checkpoint_id based_on_project_revision content supersedes_checkpoint_id =>
      require_id checkpoint_id "checkpoint_id" ?;
      reject_if ((based_on_project_revision =? 0)
                 || (expected_project_revision <? based_on_project_revision))%N
        (RoleContinuityError.InvalidCommand
           (lit "based_on_project_revision must be within the signed Project baseline")) ?;
      match supersedes_checkpoint_id with
      | Some supersedes_checkpoint_id =>
          require_id supersedes_checkpoint_id "supersedes_checkpoint_id" ?;
          reject_if (bool_decide (supersedes_checkpoint_id = checkpoint_id))
            (RoleContinuityError.InvalidCommand (lit "a Checkpoint cannot supersede itself"))
      | None => Ok tt
      end ?;
      validate_checkpoint_content content
  | AppendHandoff handoff_id to_assignment_id checkpoint_id content cause =>
      require_id handoff_id "handoff_id" ?;
      require_optional_id to_assignment_id "to_assignment_id" ?;
      require_optional_id checkpoint_id "checkpoint_id" ?;
      reject_if (negb (member_authored_cause cause))
        (RoleContinuityError.InvalidCommand
           (lit "member-authored Handoff cause must be planned or other")) ?;
      validate_handoff_content content
  end.

Definition RoleCommand_validate_for_submission (self : RoleCommand) : RoleResult unit :=
  reject_if (negb (self.(cmd_schema_version) =? SCHEMA_V2)%N)
    RoleContinuityError.UnsupportedSchema ?;
  reject_if ((self.(cmd_expected_project_revision) =? 0)
             || (MAX_SAFE_REVISION <? self.(cmd_expected_project_revision)))%N
    (RoleContinuityError.InvalidCommand
       (lit "expected_project_revision must be in the JavaScript-safe positive range")) ?;
  reject_if (is_some_and Uuid_is_nil self.(cmd_acting_assignment_id))
    (RoleContinuityError.InvalidCommand (lit "acting_assignment_id cannot be nil")) ?;
  match self.(cmd_runtime_fence) with
  | Some runtime_fence =>
      map_err RoleContinuityError.InvalidCommand (RuntimeFence_validate runtime_fence) ?;
      reject_if (negb (opt_is_some self.(cmd_acting_assignment_id)))
        (RoleContinuityError.InvalidCommand (lit "runtime_fence requires acting_assignment_id"))
  | None => Ok tt
  end ?;
  validate_request self.(cmd_expected_project_revision) self.(cmd_request) ?;
  Ok tt.

(** [RoleCommand::from_json], over the derived deserializer. *)
Definition RoleCommand_from_json (from_str : Text → result RoleCommand Text) (json : Text)
  : RoleResult RoleCommand :=
  let? command := map_err RoleContinuityError.InvalidCommand (from_str json) in
  RoleCommand_validate_for_submission command ?;
  Ok command.

(** ** The schema 3 envelope *)

Record RoleCommandV3 : Type := mkRoleCommandV3 {
  cmd3_schema_version : N;
  cmd3_expected_project_revision : N;
  cmd3_acting_assignment_id : option Uuid;
  cmd3_runtime_fence : option RuntimeFence;
  cmd3_request : RoleCommandRequest;
}.

Definition RoleCommandV3_new (expected_project_revision : N) (acting_assignment_id : option Uuid)
    (request : RoleCommandRequest) : RoleCommandV3 := {|
  cmd3_schema_version := PROJECT_VIEW_V3_SCHEMA_VERSION;
  cmd3_expected_project_revision := expected_project_revision;
  cmd3_acting_assignment_id := acting_assignment_id;
  cmd3_runtime_fence := None;
  cmd3_request := request;
|}.

Definition RoleCommandV3_with_runtime_fence (self : RoleCommandV3) (runtime_fence : RuntimeFence)
  : RoleCommandV3 := {|
  cmd3_schema_version := self.(cmd3_schema_version);
  cmd3_expected_project_revision := self.(cmd3_expected_project_revision);
  cmd3_acting_assignment_id := self.(cmd3_acting_assignment_id);
  cmd3_runtime_fence := Some runtime_fence;
  cmd3_request := self.(cmd3_request);
|}.

Definition as_v2_reducer_command (self : RoleCommandV3) : RoleCommand := {|
  cmd_schema_version := SCHEMA_V2;
  cmd_expected_project_revision := self.(cmd3_expected_project_revision);
  cmd_acting_assignment_id := self.(cmd3_acting_assignment_id);
  cmd_runtime_fence := self.(cmd3_runtime_fence);
  cmd_request := self.(cmd3_request);
|}.

Definition RoleCommandV3_validate_for_submission (self : RoleCommandV3) : RoleResult unit :=
  reject_if (negb (self.(cmd3_schema_version) =? PROJECT_VIEW_V3_SCHEMA_VERSION)%N)
    RoleContinuityError.UnsupportedSchema ?;
  reject_if ((self.(cmd3_expected_project_revision) =? 0)
             || (MAX_SAFE_REVISION <? self.(cmd3_expected_project_revision)))%N
    (RoleContinuityError.InvalidCommand
       (lit "expected_project_revision must be in the JavaScript-safe positive range")) ?;
  RoleCommand_validate_for_submission (as_v2_reducer_command self).

Definition RoleCommandV3_operation (self : RoleCommandV3) : string :=
  RoleCommandRequest_operation self.(cmd3_request).

Definition RoleCommandV3_from_json (from_str : Text → result RoleCommandV3 Text) (json : Text)
  : RoleResult RoleCommandV3 :=
  let? command := map_err RoleContinuityError.InvalidCommand (from_str json) in
  RoleCommandV3_validate_for_submission command ?;
  Ok command.

End commands.
