(* ===== verification/RoleState.v ===== *)
(** * Role continuity: the state, its queries and its authorization rules

    Models [RoleContinuityState] of [buzz-project-view/src/v2/role_continuity.rs]:
    the lookups over active rows, the fences and authorization rules, and the
    edits that the reducer of [RoleReducer] composes.  Every edit returns the
    next state; a [BTreeMap] is a finite map that is iterated in the order of
    its keys. *)

From stdpp Require Import prelude strings gmap fin_maps.
From S2P Require Import Prelude Text Platform ViewModel ViewContract.
From S2P Require Import RoleGovernance RoleModel RoleCommand.

(** [Duration::days(n)]; instants are counted in nanoseconds. *)
Definition duration_days (n : Z) : Z := (n * 86400000000000)%Z.

#[global] Instance RoleContinuityEntity_countable : Countable RoleContinuityEntity.
Proof.
  refine (inj_countable' (λ e, match e with
    | RoleContinuityEntity.Role => 0
    | RoleContinuityEntity.RoleAssignmentProposal => 1
    | RoleContinuityEntity.RoleAssignment => 2
    | RoleContinuityEntity.WorkCommitment => 3
    | RoleContinuityEntity.RoleCheckpoint => 4
    | RoleContinuityEntity.RoleHandoff => 5
    end%nat) (λ n, match n with
    | 0 => RoleContinuityEntity.Role
    | 1 => RoleContinuityEntity.RoleAssignmentProposal
    | 2 => RoleContinuityEntity.RoleAssignment
    | 3 => RoleContinuityEntity.WorkCommitment
    | 4 => RoleContinuityEntity.RoleCheckpoint
    | _ => RoleContinuityEntity.RoleHandoff
    end%nat) _).
  by intros [].
Defined.

(** [slice::dedup] *)
Fixpoint dedup {A} `{EqDecision A} (l : list A) : list A :=
  match l with
  | x :: ((y :: _) as rest) => if decide (x = y) then dedup rest else x :: dedup rest
  | _ => l
  end.

Section state.
Context `{P : Platform}.

Record RoleContinuityState : Type := mkRoleContinuityState {
  st_project_revision : N;
  st_referenceable_objects : gset Uuid;
  st_roles : gmap Uuid RoleSlot;
  st_works : gmap Uuid WorkResponsibility;
  st_members : gmap PublicKey MemberGovernance;
  st_proposals : gmap Uuid RoleAssignmentProposal;
  st_assignments : gmap Uuid RoleAssignment;
  st_commitments : gmap Uuid WorkCommitment;
  st_checkpoints : gmap Uuid RoleCheckpoint;
  st_handoffs : gmap Uuid RoleHandoff;
}.

Implicit Types (self : RoleContinuityState).

(** Writing one field of [self]. *)
Definition set_project_revision self v : RoleContinuityState :=
  mkRoleContinuityState v self.(st_referenceable_objects) self.(st_roles) self.(st_works)
    self.(st_members) self.(st_proposals) self.(st_assignments) self.(st_commitments)
    self.(st_checkpoints) self.(st_handoffs).
Definition set_works self v : RoleContinuityState :=
  mkRoleContinuityState self.(st_project_revision) self.(st_referenceable_objects) self.(st_roles) v
    self.(st_members) self.(st_proposals) self.(st_assignments) self.(st_commitments)
    self.(st_checkpoints) self.(st_handoffs).
Definition set_members self v : RoleContinuityState :=
  mkRoleContinuityState self.(st_project_revision) self.(st_referenceable_objects) self.(st_roles)
    self.(st_works) v self.(st_proposals) self.(st_assignments) self.(st_commitments)
    self.(st_checkpoints) self.(st_handoffs).
Definition set_proposals self v : RoleContinuityState :=
  mkRoleContinuityState self.(st_project_revision) self.(st_referenceable_objects) self.(st_roles)
    self.(st_works) self.(st_members) v self.(st_assignments) self.(st_commitments)
    self.(st_checkpoints) self.(st_handoffs).
Definition set_assignments self v : RoleContinuityState :=
  mkRoleContinuityState self.(st_project_revision) self.(st_referenceable_objects) self.(st_roles)
    self.(st_works) self.(st_members) self.(st_proposals) v self.(st_commitments)
    self.(st_checkpoints) self.(st_handoffs).
Definition set_commitments self v : RoleContinuityState :=
  mkRoleContinuityState self.(st_project_revision) self.(st_referenceable_objects) self.(st_roles)
    self.(st_works) self.(st_members) self.(st_proposals) self.(st_assignments) v
    self.(st_checkpoints) self.(st_handoffs).
Definition set_checkpoints self v : RoleContinuityState :=
  mkRoleContinuityState self.(st_project_revision) self.(st_referenceable_objects) self.(st_roles)
    self.(st_works) self.(st_members) self.(st_proposals) self.(st_assignments)
    self.(st_commitments) v self.(st_handoffs).
Definition set_handoffs self v : RoleContinuityState :=
  mkRoleContinuityState self.(st_project_revision) self.(st_referenceable_objects) self.(st_roles)
    self.(st_works) self.(st_members) self.(st_proposals) self.(st_assignments)
    self.(st_commitments) self.(st_checkpoints) v.

(** ** Lookups *)

(** [self.members.get(&key).filter(|member| member.eligible)] *)
Definition eligible_member self (key : PublicKey) : option MemberGovernance :=
  option_filter eligible (self.(st_members) !! key).

Definition open_proposal self (proposal_id : Uuid) (canonical_time : DateTime)
  : RoleResult RoleAssignmentProposal :=
  let? proposal := ok_or (self.(st_proposals) !! proposal_id) RoleContinuityError.ProposalNotFound in
  reject_if (negb (bool_decide (proposal.(prop_status) = ProposalStatus.Open)))
    RoleContinuityError.ProposalNotOpen ?;
  reject_if (proposal.(prop_expires_at) <=? canonical_time)%Z RoleContinuityError.ProposalExpired ?;
  Ok proposal.

Definition active_assignment self (assignment_id : Uuid) : RoleResult RoleAssignment :=
  let? assignment :=
    ok_or (self.(st_assignments) !! assignment_id) RoleContinuityError.AssignmentNotFound in
  if RoleAssignment_is_active assignment then Ok assignment
  else Err RoleContinuityError.AssignmentEnded.

Definition active_assignment_for_role self (role_id : Uuid) : option Uuid :=
  asg_assignment_id <$>
    List.find (λ a, bool_decide (a.(asg_role_id) = role_id) && RoleAssignment_is_active a)
      (btree_values self.(st_assignments)).

Definition active_assignment_for_member self (member : PublicKey) : option Uuid :=
  asg_assignment_id <$>
    List.find (λ a, bool_decide (a.(asg_member_pubkey) = member) && RoleAssignment_is_active a)
      (btree_values self.(st_assignments)).

Definition active_commitment self (commitment_id : Uuid) : RoleResult WorkCommitment :=
  let? commitment :=
    ok_or (self.(st_commitments) !! commitment_id) RoleContinuityError.CommitmentNotFound in
  if WorkCommitment_is_active commitment then Ok commitment
  else Err RoleContinuityError.CommitmentEnded.

Definition active_commitment_for_work self (work_id : Uuid) : option Uuid :=
  com_commitment_id <$>
    List.find (λ c, bool_decide (c.(com_work_id) = work_id) && WorkCommitment_is_active c)
      (btree_values self.(st_commitments)).

Definition latest_checkpoint_for_assignment self (assignment_id : Uuid) : option Uuid :=
  chk_checkpoint_id <$>
    max_by (λ left right, then_with (N.compare left.(chk_project_revision) right.(chk_project_revision))
                            (Uuid_cmp left.(chk_checkpoint_id) right.(chk_checkpoint_id)))
      (List.filter (λ c, bool_decide (c.(chk_assignment_id) = assignment_id))
         (btree_values self.(st_checkpoints))).

Definition desired_member_role self (member_pubkey : PublicKey) : RoleResult CommunityMemberRole :=
  let? member := ok_or (self.(st_members) !! member_pubkey) RoleContinuityError.CandidateIneligible in
  if is_owner member then Ok CommunityMemberRole.Owner
  else
    let role :=
      assignment_id ← active_assignment_for_member self member_pubkey;
      assignment ← self.(st_assignments) !! assignment_id;
      self.(st_roles) !! assignment.(asg_role_id) in
    Ok match slot_level <$> role with
       | Some RoleLevel.Admin => CommunityMemberRole.Admin
       | Some RoleLevel.Member | None => CommunityMemberRole.Member
       end.

(** One iteration of [validate_references]. *)
Definition validate_reference self (reference : RoleContinuityReference) : RoleResult unit :=
  match reference with
  | RefObject object_id _ =>
      reject_if (negb (bool_decide (object_id ∈ self.(st_referenceable_objects))))
        RoleContinuityError.ReferenceNotFound
  | RefAssignment assignment_id _ =>
      reject_if (negb (opt_is_some (self.(st_assignments) !! assignment_id)))
        RoleContinuityError.ReferenceNotFound
  | RefCommitment commitment_id _ =>
      reject_if (negb (opt_is_some (self.(st_commitments) !! commitment_id)))
        RoleContinuityError.ReferenceNotFound
  | RefNostrEvent _ _ => Ok tt
  end.

Definition validate_references self (references : list RoleContinuityReference) : RoleResult unit :=
  for_each (validate_reference self) references.

(** ** Fences and authorization *)

Definition validate_actor_fence self (command : RoleCommand) (actor : PublicKey) : RoleResult unit :=
  let? member := ok_or (eligible_member self actor) RoleContinuityError.CandidateIneligible in
  match command.(cmd_acting_assignment_id) with
  | Some assignment_id =>
      let? assignment := ok_or (self.(st_assignments) !! assignment_id)
        RoleContinuityError.ActingAssignmentInvalid in
      reject_if (negb (RoleAssignment_is_active assignment)
                 || negb (bool_decide (assignment.(asg_member_pubkey) = actor)))
        RoleContinuityError.ActingAssignmentInvalid
  | None => Ok tt
  end ?;
  let active := active_assignment_for_member self actor in
  let intent := actor_intent command.(cmd_request) in
  reject_if (bool_decide (intent = RoleBearing)
             && negb (opt_is_some command.(cmd_acting_assignment_id)))
    RoleContinuityError.ActingAssignmentRequired ?;
  reject_if (is_managed_agent member && opt_is_some active
             && negb (opt_is_some command.(cmd_acting_assignment_id))
             && (bool_decide (intent = Governor) || bool_decide (intent = RoleBearing)))
    RoleContinuityError.ActingAssignmentRequired ?;
  Ok tt.

(** One iteration over the Assignments a move ends. *)
Definition authorize_ended self (actor : PublicKey) (actor_member : MemberGovernance)
    (assignment_id : Uuid) : RoleResult unit :=
  let? assignment := active_assignment self assignment_id in
  reject_if (bool_decide (assignment.(asg_member_pubkey) = actor))
    RoleContinuityError.SelfEndForbidden ?;
  let? role := ok_or (self.(st_roles) !! assignment.(asg_role_id)) RoleContinuityError.RoleNotFound in
  reject_if (bool_decide (role.(slot_level) = RoleLevel.Admin))
    RoleContinuityError.PeerLeaderForbidden ?;
  reject_if (is_managed_agent actor_member
             && negb (is_some_and is_managed_agent
                        (self.(st_members) !! assignment.(asg_member_pubkey))))
    RoleContinuityError.ManagedLeaderTargetUnknown ?;
  Ok tt.

(** [[a, b].into_iter().flatten()] *)
Definition flatten2 {A} (a b : option A) : list A := option_list a ++ option_list b.

Definition authorize_complete_move self (proposal : RoleAssignmentProposal) (actor : PublicKey)
  : RoleResult unit :=
  let? actor_member := ok_or (eligible_member self actor) RoleContinuityError.NotAuthorized in
  if is_owner actor_member then Ok tt
  else
    let? acting_assignment :=
      ok_or (id ← active_assignment_for_member self actor; self.(st_assignments) !! id)
        RoleContinuityError.NotAuthorized in
    let? acting_role := ok_or (self.(st_roles) !! acting_assignment.(asg_role_id))
      RoleContinuityError.RoleNotFound in
    reject_if (negb (bool_decide (acting_role.(slot_level) = RoleLevel.Admin))
               || negb (bool_decide (actor_member.(community_role) = Some CommunityMemberRole.Admin)))
      RoleContinuityError.NotAuthorized ?;
    let? target_role := ok_or (self.(st_roles) !! proposal.(prop_role_id))
      RoleContinuityError.RoleNotFound in
    reject_if (bool_decide (target_role.(slot_level) = RoleLevel.Admin))
      RoleContinuityError.OwnerRequired ?;
    for_each (authorize_ended self actor actor_member)
      (flatten2 proposal.(prop_expected_target_assignment_id)
                proposal.(prop_expected_candidate_assignment_id)) ?;
    Ok tt.

Definition authorize_assignment_end self (actor : PublicKey) (target : RoleAssignment)
  : RoleResult unit :=
  reject_if (bool_decide (actor = target.(asg_member_pubkey))) RoleContinuityError.SelfEndForbidden ?;
  let? actor_member := ok_or (eligible_member self actor) RoleContinuityError.NotAuthorized in
  if is_owner actor_member then Ok tt
  else
    let? target_member := ok_or (self.(st_members) !! target.(asg_member_pubkey))
      RoleContinuityError.CandidateIneligible in
    if decide (target_member.(managed_agent_owner) = Some actor) then Ok tt
    else
      let? actor_assignment :=
        ok_or (id ← active_assignment_for_member self actor; self.(st_assignments) !! id)
          RoleContinuityError.NotAuthorized in
      let? actor_role := ok_or (self.(st_roles) !! actor_assignment.(asg_role_id))
        RoleContinuityError.RoleNotFound in
      let? target_role := ok_or (self.(st_roles) !! target.(asg_role_id))
        RoleContinuityError.RoleNotFound in
      reject_if (negb (bool_decide (actor_role.(slot_level) = RoleLevel.Admin))
                 || negb (bool_decide (actor_member.(community_role) = Some CommunityMemberRole.Admin)))
        RoleContinuityError.NotAuthorized ?;
      reject_if (bool_decide (target_role.(slot_level) = RoleLevel.Admin))
        RoleContinuityError.PeerLeaderForbidden ?;
      reject_if (is_managed_agent actor_member && negb (is_managed_agent target_member))
        RoleContinuityError.ManagedLeaderTargetUnknown ?;
      Ok tt.

Definition assignment_end_requires_role_authority self (actor : PublicKey) (target : RoleAssignment)
  : RoleResult bool :=
  let? actor_member := ok_or (eligible_member self actor) RoleContinuityError.NotAuthorized in
  if is_owner actor_member then Ok false
  else
    let? target_member := ok_or (self.(st_members) !! target.(asg_member_pubkey))
      RoleContinuityError.CandidateIneligible in
    Ok (negb (bool_decide (target_member.(managed_agent_owner) = Some actor))).

Definition require_governor_fence self (command : RoleCommand) (actor : PublicKey) : RoleResult unit :=
  let? member := ok_or (eligible_member self actor) RoleContinuityError.NotAuthorized in
  if is_owner member then Ok tt
  else
    let? active := ok_or (active_assignment_for_member self actor)
      RoleContinuityError.ActingAssignmentRequired in
    reject_if (negb (bool_decide (command.(cmd_acting_assignment_id) = Some active)))
      (if opt_is_some command.(cmd_acting_assignment_id)
       then RoleContinuityError.ActingAssignmentInvalid
       else RoleContinuityError.ActingAssignmentRequired) ?;
    let? assignment := ok_or (self.(st_assignments) !! active)
      RoleContinuityError.ActingAssignmentInvalid in
    let? role := ok_or (self.(st_roles) !! assignment.(asg_role_id)) RoleContinuityError.RoleNotFound in
    reject_if (negb (bool_decide (member.(community_role) = Some CommunityMemberRole.Admin))
               || negb (bool_decide (role.(slot_level) = RoleLevel.Admin)))
      RoleContinuityError.NotAuthorized ?;
    Ok tt.

Definition require_current_governor_for_role self (command : RoleCommand) (actor : PublicKey)
    (target_role_id : Uuid) (target_member : option PublicKey) : RoleResult unit :=
  require_governor_fence self command actor ?;
  let? actor_member := ok_or (eligible_member self actor) RoleContinuityError.NotAuthorized in
  if is_owner actor_member then Ok tt
  else
    let? target_role := ok_or (self.(st_roles) !! target_role_id) RoleContinuityError.RoleNotFound in
    reject_if (negb target_role.(slot_active)) RoleContinuityError.RoleInactive ?;
    reject_if (bool_decide (target_role.(slot_level) = RoleLevel.Admin))
      RoleContinuityError.OwnerRequired ?;
    reject_if (is_managed_agent actor_member
               && is_some_and (λ target, negb (is_some_and is_managed_agent
                                                 (self.(st_members) !! target))) target_member)
      RoleContinuityError.ManagedLeaderTargetUnknown ?;
    Ok tt.

Definition validate_compound_fence self (proposal : RoleAssignmentProposal) : RoleResult unit :=
  reject_if (negb (bool_decide (active_assignment_for_role self proposal.(prop_role_id)
                                = proposal.(prop_expected_target_assignment_id))))
    RoleContinuityError.CompoundFenceConflict ?;
  let candidate_assignment :=
    option_filter (λ id, negb (bool_decide (Some id = proposal.(prop_expected_target_assignment_id))))
      (active_assignment_for_member self proposal.(prop_candidate_pubkey)) in
  reject_if (negb (bool_decide (candidate_assignment
                                = proposal.(prop_expected_candidate_assignment_id))))
    RoleContinuityError.CompoundFenceConflict ?;
  ok_or (eligible_member self proposal.(prop_candidate_pubkey))
    RoleContinuityError.CandidateIneligible ?;
  Ok tt.

Definition require_assignee_action self (command : RoleCommand) (actor : PublicKey)
    (assignment_id : Uuid) : RoleResult unit :=
  reject_if (negb (bool_decide (command.(cmd_acting_assignment_id) = Some assignment_id)))
    RoleContinuityError.ActingAssignmentInvalid ?;
  let? assignment := active_assignment self assignment_id in
  reject_if (negb (bool_decide (assignment.(asg_member_pubkey) = actor)))
    RoleContinuityError.AssigneeRequired ?;
  Ok tt.

End state.
