(* ===== verification/RoleReducer.v ===== *)
(** * Role continuity: edits, validation and the reducer

    Models the mutating half of [RoleContinuityState]
    ([buzz-project-view/src/v2/role_continuity.rs]): the edits, the aggregate
    validation, [reduce], [reduce_unrecoverable_assignment], snapshot loading
    and replay authorization, with the schema 3 entry points of
    [v3/role_continuity.rs]. *)

From stdpp Require Import prelude strings gmap fin_maps.
From S2P Require Import Prelude Text Platform ViewModel ViewContract.
From S2P Require Import RoleGovernance RoleModel RoleCommand RoleState.

Section edits.
Context `{P : Platform}.
Implicit Types (self : RoleContinuityState).

(** [checked_add(1).filter(|revision| *revision <= MAX_SAFE_REVISION)] *)
Definition bump (revision : N) : RoleResult N :=
  ok_or (option_filter (λ r, r <=? MAX_SAFE_REVISION)%N (u64_checked_add revision 1))
    RoleContinuityError.RevisionOverflow.

(** The entity revision after a touch. *)
Definition touched (entity_revision project_revision next_revision : N) : RoleResult N :=
  if (project_revision =? next_revision)%N then Ok entity_revision else bump entity_revision.

(** ** Rows *)

(** Overwriting the mutable fields of a row. *)
Definition prop_update (p : RoleAssignmentProposal) (accepted_at : option DateTime)
    (authorized_by : option PublicKey) (authorized_at : option DateTime) (status : ProposalStatus)
    (reason : option Text) (resolved_at : option DateTime) (entity_revision project_revision : N)
  : RoleAssignmentProposal :=
  mkRoleAssignmentProposal p.(prop_proposal_id) p.(prop_role_id) p.(prop_candidate_pubkey)
    p.(prop_type) accepted_at authorized_by authorized_at p.(prop_expected_target_assignment_id)
    p.(prop_expected_candidate_assignment_id) p.(prop_expires_at) status reason
    p.(prop_created_by) p.(prop_created_at) resolved_at entity_revision project_revision.

Definition asg_update (a : RoleAssignment) (replacement_requested_at : option DateTime)
    (replacement_request_reason : option Text) (unable_reported_at : option DateTime)
    (unable_report_reason : option Text) (ended_at : option DateTime)
    (ended_by : option PublicKey) (ended_reason : option AssignmentEndReason)
    (replaced_by_assignment_id : option Uuid) (entity_revision project_revision : N)
  : RoleAssignment :=
  mkRoleAssignment a.(asg_assignment_id) a.(asg_role_id) a.(asg_member_pubkey) a.(asg_proposal_id)
    a.(asg_started_at) a.(asg_started_by) replacement_requested_at replacement_request_reason
    unable_reported_at unable_report_reason ended_at ended_by ended_reason
    replaced_by_assignment_id entity_revision project_revision.

Definition com_update (c : WorkCommitment) (ended_at : option DateTime)
    (ended_by : option PublicKey) (ended_reason : option CommitmentEndReason)
    (entity_revision project_revision : N) : WorkCommitment :=
  mkWorkCommitment c.(com_commitment_id) c.(com_work_id) c.(com_assignment_id)
    c.(com_member_pubkey) c.(com_started_at) c.(com_started_by) ended_at ended_by ended_reason
    entity_revision project_revision.

Definition touch_proposal (p : RoleAssignmentProposal) (next_revision : N)
  : RoleResult RoleAssignmentProposal :=
  let? revision := touched p.(prop_entity_revision) p.(prop_project_revision) next_revision in
  Ok (prop_update p p.(prop_candidate_accepted_at) p.(prop_authorized_by) p.(prop_authorized_at)
        p.(prop_status) p.(prop_reason) p.(prop_resolved_at) revision next_revision).

Definition resolve_proposal (p : RoleAssignmentProposal) (status : ProposalStatus)
    (reason : option Text) (canonical_time : DateTime) (next_revision : N)
  : RoleResult RoleAssignmentProposal :=
  touch_proposal
    (prop_update p p.(prop_candidate_accepted_at) p.(prop_authorized_by) p.(prop_authorized_at)
       status reason (Some canonical_time) p.(prop_entity_revision) p.(prop_project_revision))
    next_revision.

Definition touch_assignment (a : RoleAssignment) (next_revision : N) : RoleResult RoleAssignment :=
  let? revision := touched a.(asg_entity_revision) a.(asg_project_revision) next_revision in
  Ok (asg_update a a.(asg_replacement_requested_at) a.(asg_replacement_request_reason)
        a.(asg_unable_reported_at) a.(asg_unable_report_reason) a.(asg_ended_at) a.(asg_ended_by)
        a.(asg_ended_reason) a.(asg_replaced_by_assignment_id) revision next_revision).

Definition touch_commitment (c : WorkCommitment) (next_revision : N) : RoleResult WorkCommitment :=
  let? revision := touched c.(com_entity_revision) c.(com_project_revision) next_revision in
  Ok (com_update c c.(com_ended_at) c.(com_ended_by) c.(com_ended_reason) revision next_revision).

Definition touch_work (w : WorkResponsibility) (actor : PublicKey) (canonical_time : DateTime)
    (next_revision : N) : RoleResult WorkResponsibility :=
  let? revision := bump w.(work_object_revision) in
  Ok (mkWorkResponsibility w.(work_work_id) w.(work_status) w.(work_responsible_role_id) revision
        next_revision canonical_time actor).

(** ** Edits of the state *)

(** [resolve_proposal(self.proposals.get_mut(..).ok_or(..)?, ..)] *)
Definition resolve_in self (proposal_id : Uuid) (status : ProposalStatus) (reason : option Text)
    (canonical_time : DateTime) (next_revision : N) : RoleResult RoleContinuityState :=
  let? proposal := ok_or (self.(st_proposals) !! proposal_id) RoleContinuityError.ProposalNotFound in
  let? proposal := resolve_proposal proposal status reason canonical_time next_revision in
  Ok (set_proposals self (<[proposal_id := proposal]> self.(st_proposals))).

Definition end_commitment self (commitment_id : Uuid) (actor : PublicKey)
    (reason : CommitmentEndReason) (canonical_time : DateTime) (next_revision : N)
  : RoleResult RoleContinuityState :=
  let? commitment := active_commitment self commitment_id in
  let? commitment :=
    touch_commitment
      (com_update commitment (Some canonical_time) (Some actor) (Some reason)
         commitment.(com_entity_revision) commitment.(com_project_revision)) next_revision in
  Ok (set_commitments self (<[commitment_id := commitment]> self.(st_commitments))).

(** The active Commitments of an Assignment, as [end_assignment] collects them. *)
Definition commitments_of self (assignment_id : Uuid) : list Uuid :=
  com_commitment_id <$>
    List.filter (λ c, bool_decide (c.(com_assignment_id) = assignment_id)
                      && WorkCommitment_is_active c)
      (btree_values self.(st_commitments)).

Definition end_assignment self (assignment_id : Uuid) (actor : PublicKey)
    (reason : AssignmentEndReason) (replaced_by_assignment_id : option Uuid)
    (canonical_time : DateTime) (next_revision : N)
  : RoleResult (RoleContinuityState * list Uuid) :=
  let? assignment := active_assignment self assignment_id in
  let? assignment :=
    touch_assignment
      (asg_update assignment assignment.(asg_replacement_requested_at)
         assignment.(asg_replacement_request_reason) assignment.(asg_unable_reported_at)
         assignment.(asg_unable_report_reason) (Some canonical_time) (Some actor) (Some reason)
         replaced_by_assignment_id assignment.(asg_entity_revision)
         assignment.(asg_project_revision)) next_revision in
  let self := set_assignments self (<[assignment_id := assignment]> self.(st_assignments)) in
  let commitment_ids := commitments_of self assignment_id in
  let? self :=
    try_fold (λ self commitment_id,
                end_commitment self commitment_id actor CommitmentEndReason.AssignmentEnded
                  canonical_time next_revision) self commitment_ids in
  Ok (self, commitment_ids).

Definition create_proposal self (proposal_id role_id : Uuid) (candidate : PublicKey)
    (proposal_type : ProposalType) (expires_at : DateTime) (reason : option Text)
    (actor : PublicKey) (canonical_time : DateTime) (next_revision : N)
    (authorizer : option PublicKey) : RoleResult RoleContinuityState :=
  reject_if (opt_is_some (self.(st_proposals) !! proposal_id)) RoleContinuityError.IdCollision ?;
  let? role := ok_or (self.(st_roles) !! role_id) RoleContinuityError.RoleNotFound in
  reject_if (negb role.(slot_active)) RoleContinuityError.RoleInactive ?;
  reject_if ((expires_at <=? canonical_time)
             || (canonical_time + duration_days MAX_PROPOSAL_LIFETIME_DAYS <? expires_at))%Z
    RoleContinuityError.InvalidProposalDeadline ?;
  ok_or (eligible_member self candidate) RoleContinuityError.CandidateIneligible ?;
  reject_if
    (existsb (λ p, bool_decide (p.(prop_status) = ProposalStatus.Open)
                   && bool_decide (p.(prop_role_id) = role_id)
                   && bool_decide (p.(prop_candidate_pubkey) = candidate)
                   && (canonical_time <? p.(prop_expires_at))%Z)
       (btree_values self.(st_proposals))) RoleContinuityError.DuplicateProposal ?;
  let target_assignment := active_assignment_for_role self role_id in
  let candidate_assignment :=
    option_filter (λ id, negb (bool_decide (Some id = target_assignment)))
      (active_assignment_for_member self candidate) in
  let proposal :=
    mkRoleAssignmentProposal proposal_id role_id candidate proposal_type
      (if decide (proposal_type = ProposalType.Request) then Some canonical_time else None)
      authorizer ((λ _, canonical_time) <$> authorizer) target_assignment candidate_assignment
      expires_at ProposalStatus.Open reason actor canonical_time None 1 next_revision in
  (if opt_is_some authorizer then authorize_complete_move self proposal actor else Ok tt) ?;
  Ok (set_proposals self (<[proposal_id := proposal]> self.(st_proposals))).

Definition create_commitment self (commitment_id work_id assignment_id : Uuid) (actor : PublicKey)
    (canonical_time : DateTime) (next_revision : N) : RoleResult RoleContinuityState :=
  reject_if (opt_is_some (self.(st_commitments) !! commitment_id)) RoleContinuityError.IdCollision ?;
  reject_if (opt_is_some (active_commitment_for_work self work_id))
    RoleContinuityError.ActiveCommitmentConflict ?;
  let? assignment := active_assignment self assignment_id in
  reject_if (negb (bool_decide (assignment.(asg_member_pubkey) = actor)))
    RoleContinuityError.CommitmentAssigneeRequired ?;
  let? work := ok_or (option_filter (λ w, opt_is_some w.(work_status)) (self.(st_works) !! work_id))
    RoleContinuityError.WorkNotFound in
  reject_if (negb (WorkResponsibility_is_open work)) RoleContinuityError.WorkClosed ?;
  let? responsible_role_id := ok_or work.(work_responsible_role_id)
    RoleContinuityError.ResponsibilityRequired in
  reject_if (negb (bool_decide (responsible_role_id = assignment.(asg_role_id))))
    RoleContinuityError.WorkRoleMismatch ?;
  Ok (set_commitments self
        (<[commitment_id :=
             mkWorkCommitment commitment_id work_id assignment_id actor canonical_time actor
               None None None 1 next_revision]> self.(st_commitments))).

Definition append_checkpoint self (checkpoint_id assignment_id : Uuid)
    (based_on_project_revision : N) (content : RoleCheckpointContent)
    (supersedes_checkpoint_id : option Uuid) (actor : PublicKey) (canonical_time : DateTime)
    (next_revision : N) : RoleResult RoleContinuityState :=
  reject_if (opt_is_some (self.(st_checkpoints) !! checkpoint_id)) RoleContinuityError.IdCollision ?;
  validate_checkpoint_content content ?;
  let? assignment := active_assignment self assignment_id in
  reject_if (negb (bool_decide (assignment.(asg_member_pubkey) = actor)))
    RoleContinuityError.AssigneeRequired ?;
  reject_if ((based_on_project_revision =? 0)
             || (self.(st_project_revision) <? based_on_project_revision))%N
    RoleContinuityError.CheckpointBaselineInvalid ?;
  match supersedes_checkpoint_id with
  | Some superseded_id =>
      let? superseded := ok_or (self.(st_checkpoints) !! superseded_id)
        RoleContinuityError.CheckpointNotFound in
      reject_if (negb (bool_decide (superseded.(chk_role_id) = assignment.(asg_role_id)))
                 || negb (bool_decide (superseded.(chk_assignment_id) = assignment_id))
                 || negb (bool_decide (superseded.(chk_created_by) = actor)))
        RoleContinuityError.CheckpointSupersedesInvalid
  | None => Ok tt
  end ?;
  validate_references self content.(chk_references) ?;
  Ok (set_checkpoints self
        (<[checkpoint_id :=
             mkRoleCheckpoint checkpoint_id assignment.(asg_role_id) assignment_id
               based_on_project_revision content supersedes_checkpoint_id actor canonical_time 1
               next_revision]> self.(st_checkpoints))).

Definition append_handoff self (handoff_id from_assignment_id : Uuid)
    (to_assignment_id checkpoint_id : option Uuid) (content : RoleHandoffContent)
    (cause : HandoffCause) (actor : PublicKey) (canonical_time : DateTime) (next_revision : N)
  : RoleResult RoleContinuityState :=
  reject_if (opt_is_some (self.(st_handoffs) !! handoff_id)) RoleContinuityError.IdCollision ?;
  reject_if (negb (member_authored_cause cause)) RoleContinuityError.HandoffCauseInvalid ?;
  validate_handoff_content content ?;
  let? from_assignment := active_assignment self from_assignment_id in
  reject_if (negb (bool_decide (from_assignment.(asg_member_pubkey) = actor)))
    RoleContinuityError.AssigneeRequired ?;
  match to_assignment_id with
  | Some to_assignment_id =>
      let? to_assignment := ok_or (self.(st_assignments) !! to_assignment_id)
        RoleContinuityError.AssignmentNotFound in
      reject_if (negb (bool_decide (to_assignment.(asg_role_id) = from_assignment.(asg_role_id))))
        RoleContinuityError.HandoffTargetInvalid
  | None => Ok tt
  end ?;
  match checkpoint_id with
  | Some checkpoint_id =>
      let? checkpoint := ok_or (self.(st_checkpoints) !! checkpoint_id)
        RoleContinuityError.CheckpointNotFound in
      reject_if (negb (bool_decide (checkpoint.(chk_role_id) = from_assignment.(asg_role_id)))
                 || negb (bool_decide (checkpoint.(chk_assignment_id) = from_assignment_id)))
        RoleContinuityError.HandoffCheckpointInvalid
  | None => Ok tt
  end ?;
  validate_references self content.(hof_references) ?;
  Ok (set_handoffs self
        (<[handoff_id :=
             mkRoleHandoff handoff_id from_assignment.(asg_role_id) from_assignment_id
               to_assignment_id checkpoint_id [] content cause false (Some actor) canonical_time 1
               next_revision]> self.(st_handoffs))).

Abbreviation MembershipRoles := (gmap PublicKey CommunityMemberRole).
Abbreviation AffectedCommitments := (gmap Uuid (list Uuid)).

Definition record_desired_member_role self (member_pubkey : PublicKey)
    (membership_roles : MembershipRoles) : RoleResult (RoleContinuityState * MembershipRoles) :=
  let? role := desired_member_role self member_pubkey in
  let? member := ok_or (self.(st_members) !! member_pubkey) RoleContinuityError.CandidateIneligible in
  let member :=
    mkMemberGovernance member.(pubkey) (Some role) member.(eligible) member.(managed_agent_owner) in
  Ok (set_members self (<[member_pubkey := member]> self.(st_members)),
      <[member_pubkey := role]> membership_roles).

(** The references and open items of a system Handoff, one interrupted
    Commitment after the other. *)
Definition interrupted self (commitment_ids : list Uuid) : list RoleContinuityReference * list Text :=
  foldl
    (λ acc commitment_id,
       let '(references, unresolved_items) := acc in
       let references :=
         references ++ [RefCommitment commitment_id (Some (lit "interrupted Commitment"))] in
       match self.(st_commitments) !! commitment_id with
       | Some commitment =>
           (references ++ [RefObject commitment.(com_work_id)
                             (Some (lit "Work waiting for continuation"))],
            unresolved_items ++ [lit "Work " ++ Uuid_display commitment.(com_work_id)
                                 ++ lit " requires explicit successor acceptance"])
       | None => (references, unresolved_items)
       end) ([], []) commitment_ids.

(** [RoleHandoffContent { summary: Some(if unresolved_items.is_empty() .. ), .. }] *)
Definition interrupted_content self (commitment_ids : list Uuid) (done_summary open_summary : string)
  : RoleHandoffContent :=
  let '(references, unresolved_items) := interrupted self commitment_ids in
  mkRoleHandoffContent
    (Some (lit (if is_empty unresolved_items then done_summary else open_summary)))
    unresolved_items references.

Record GeneratedRoleContinuityIds : Type := mkGeneratedRoleContinuityIds {
  gen_assignment_id : Uuid;
  gen_handoff_ids : list Uuid;
}.

(** The state and the two maps that the reducer threads through its edits. *)
Record Progress : Type := mkProgress {
  pg_state : RoleContinuityState;
  pg_membership_roles : MembershipRoles;
  pg_affected_commitments : AffectedCommitments;
}.

(** One iteration over the Assignments that a completed move ends. *)
Definition replace_assignment (proposal : RoleAssignmentProposal) (authorizer : PublicKey)
    (generated_assignment_id : Uuid) (canonical_time : DateTime) (next_revision : N)
    (progress : Progress) (ids : Uuid * Uuid) : RoleResult Progress :=
  let '(assignment_id, handoff_id) := ids in
  let self := progress.(pg_state) in
  let? old := active_assignment self assignment_id in
  let checkpoint_id := latest_checkpoint_for_assignment self old.(asg_assignment_id) in
  let? ended :=
    end_assignment self assignment_id authorizer AssignmentEndReason.Replaced
      (Some generated_assignment_id) canonical_time next_revision in
  let '(self, commitment_ids) := ended in
  let to_assignment_id :=
    if decide (old.(asg_role_id) = proposal.(prop_role_id)) then Some generated_assignment_id
    else None in
  let content :=
    interrupted_content self commitment_ids
      "Assignment replaced; continue from the retained Project state."
      "Assignment replaced; unfinished Work is waiting for continuation." in
  let self :=
    set_handoffs self
      (<[handoff_id :=
           mkRoleHandoff handoff_id old.(asg_role_id) old.(asg_assignment_id) to_assignment_id
             checkpoint_id commitment_ids content HandoffCause.Replaced true None canonical_time 1
             next_revision]> self.(st_handoffs)) in
  let? recorded :=
    record_desired_member_role self old.(asg_member_pubkey) progress.(pg_membership_roles) in
  let '(self, membership_roles) := recorded in
  Ok (mkProgress self membership_roles
        (<[assignment_id := commitment_ids]> progress.(pg_affected_commitments))).

Definition complete_proposal_if_ready (progress : Progress) (proposal_id : Uuid)
    (canonical_time : DateTime) (next_revision : N) (generated_ids : GeneratedRoleContinuityIds)
  : RoleResult Progress :=
  let self := progress.(pg_state) in
  let? proposal := open_proposal self proposal_id canonical_time in
  match proposal.(prop_candidate_accepted_at), proposal.(prop_authorized_by) with
  | Some _, Some authorizer =>
      authorize_complete_move self proposal authorizer ?;
      validate_compound_fence self proposal ?;
      require_id generated_ids.(gen_assignment_id) "generated assignment_id" ?;
      reject_if (opt_is_some (self.(st_assignments) !! generated_ids.(gen_assignment_id)))
        RoleContinuityError.IdCollision ?;
      let ended_ids :=
        dedup (sort_by Uuid_cmp
                 (flatten2 proposal.(prop_expected_target_assignment_id)
                           proposal.(prop_expected_candidate_assignment_id))) in
      reject_if (len generated_ids.(gen_handoff_ids) <? len ended_ids)%N
        RoleContinuityError.MissingGeneratedId ?;
      let handoff_ids := take (length ended_ids) generated_ids.(gen_handoff_ids) in
      reject_if (negb (bool_decide (NoDup handoff_ids))
                 || existsb (λ id, Uuid_is_nil id || opt_is_some (self.(st_handoffs) !! id))
                      handoff_ids) RoleContinuityError.IdCollision ?;
      let? progress :=
        try_fold (replace_assignment proposal authorizer generated_ids.(gen_assignment_id)
                    canonical_time next_revision) progress (zip ended_ids handoff_ids) in
      let self := progress.(pg_state) in
      let self :=
        set_assignments self
          (<[generated_ids.(gen_assignment_id) :=
               mkRoleAssignment generated_ids.(gen_assignment_id) proposal.(prop_role_id)
                 proposal.(prop_candidate_pubkey) proposal_id canonical_time authorizer
                 None None None None None None None None 1 next_revision]>
             self.(st_assignments)) in
      let? current :=
        ok_or (self.(st_proposals) !! proposal_id) RoleContinuityError.ProposalNotFound in
      let? current :=
        touch_proposal
          (prop_update current current.(prop_candidate_accepted_at) current.(prop_authorized_by)
             current.(prop_authorized_at) ProposalStatus.Consumed current.(prop_reason)
             (Some canonical_time) current.(prop_entity_revision) current.(prop_project_revision))
          next_revision in
      let self := set_proposals self (<[proposal_id := current]> self.(st_proposals)) in
      let? recorded :=
        record_desired_member_role self proposal.(prop_candidate_pubkey)
          progress.(pg_membership_roles) in
      let '(self, membership_roles) := recorded in
      Ok (mkProgress self membership_roles progress.(pg_affected_commitments))
  | _, _ => Ok progress
  end.

End edits.

(** ** Validation of a state *)

Section validation.
Context `{P : Platform}.
Implicit Types (self : RoleContinuityState).

Abbreviation MembershipRoles := (gmap PublicKey CommunityMemberRole).
Abbreviation AffectedCommitments := (gmap Uuid (list Uuid)).

Definition invalid_state (message : string) : RoleContinuityError :=
  RoleContinuityError.InvalidState (lit message).

(** One iteration over the Assignments; the accumulator has the Roles and the
    Members with an active Assignment so far. *)
Definition validate_assignment self (acc : gset Uuid * gset PublicKey) (assignment : RoleAssignment)
  : RoleResult (gset Uuid * gset PublicKey) :=
  let '(active_roles, active_members) := acc in
  let? role := ok_or (self.(st_roles) !! assignment.(asg_role_id)) RoleContinuityError.RoleNotFound in
  if RoleAssignment_is_active assignment then
    reject_if (negb role.(slot_active)) RoleContinuityError.RoleInactive ?;
    reject_if (bool_decide (assignment.(asg_role_id) ∈ active_roles))
      (invalid_state "a Role has multiple active Assignments") ?;
    reject_if (bool_decide (assignment.(asg_member_pubkey) ∈ active_members))
      (invalid_state "a Member has multiple active Assignments") ?;
    let? member :=
      ok_or (option_filter (λ m, m.(eligible) && opt_is_some m.(community_role))
               (self.(st_members) !! assignment.(asg_member_pubkey)))
        RoleContinuityError.CandidateIneligible in
    reject_if (negb (is_owner member)
               && negb (bool_decide (CommunityMemberRole_as_str <$> member.(community_role)
                                     = Some (RoleLevel_as_str role.(slot_level)))))
      (invalid_state "active Assignment and Community role disagree") ?;
    Ok ({[ assignment.(asg_role_id) ]} ∪ active_roles,
        {[ assignment.(asg_member_pubkey) ]} ∪ active_members)
  else
    reject_if (negb (opt_is_some assignment.(asg_ended_by))
               || negb (opt_is_some assignment.(asg_ended_reason)))
      (invalid_state "ended Assignment is missing terminal attribution") ?;
    Ok acc.

Definition validate_work self (work : WorkResponsibility) : RoleResult unit :=
  match work.(work_responsible_role_id) with
  | Some role_id =>
      let? role := ok_or (self.(st_roles) !! role_id) RoleContinuityError.RoleNotFound in
      reject_if (negb (opt_is_some work.(work_status)) || negb role.(slot_active))
        (invalid_state "responsible Work must be active and reference an active Role")
  | None => Ok tt
  end.

(** One iteration over the Commitments; the accumulator has the Work with an
    active Commitment so far. *)
Definition validate_commitment self (active_work : gset Uuid) (commitment : WorkCommitment)
  : RoleResult (gset Uuid) :=
  let? assignment := ok_or (self.(st_assignments) !! commitment.(com_assignment_id))
    RoleContinuityError.AssignmentNotFound in
  let? work := ok_or (self.(st_works) !! commitment.(com_work_id))
    RoleContinuityError.WorkNotFound in
  reject_if (negb (bool_decide (commitment.(com_member_pubkey) = assignment.(asg_member_pubkey))))
    (invalid_state "Commitment Member differs from its Assignment") ?;
  if WorkCommitment_is_active commitment then
    reject_if (negb (RoleAssignment_is_active assignment))
      (invalid_state "ended Assignment retains an active Commitment") ?;
    reject_if (negb (WorkResponsibility_is_open work)) RoleContinuityError.WorkClosed ?;
    reject_if (negb (bool_decide (work.(work_responsible_role_id) = Some assignment.(asg_role_id))))
      RoleContinuityError.WorkRoleMismatch ?;
    reject_if (bool_decide (commitment.(com_work_id) ∈ active_work))
      (invalid_state "a Work has multiple active Commitments") ?;
    Ok ({[ commitment.(com_work_id) ]} ∪ active_work)
  else
    reject_if (negb (opt_is_some commitment.(com_ended_by))
               || negb (opt_is_some commitment.(com_ended_reason)))
      (invalid_state "ended Commitment is missing terminal attribution") ?;
    Ok active_work.

Definition validate_checkpoint self (checkpoint : RoleCheckpoint) : RoleResult unit :=
  reject_if (negb (checkpoint.(chk_entity_revision) =? 1)
             || (self.(st_project_revision) <? checkpoint.(chk_project_revision))
             || (checkpoint.(chk_based_on_project_revision) =? 0)
             || (checkpoint.(chk_project_revision) <=? checkpoint.(chk_based_on_project_revision)))%N
    (invalid_state "Checkpoint revisions are invalid") ?;
  let? assignment := ok_or (self.(st_assignments) !! checkpoint.(chk_assignment_id))
    RoleContinuityError.AssignmentNotFound in
  reject_if (negb (bool_decide (assignment.(asg_role_id) = checkpoint.(chk_role_id)))
             || negb (bool_decide (assignment.(asg_member_pubkey) = checkpoint.(chk_created_by))))
    (invalid_state "Checkpoint attribution disagrees with its Assignment") ?;
  validate_checkpoint_content checkpoint.(chk_content) ?;
  validate_references self checkpoint.(chk_content).(chk_references) ?;
  match checkpoint.(chk_supersedes_checkpoint_id) with
  | Some superseded_id =>
      let? superseded := ok_or (self.(st_checkpoints) !! superseded_id)
        RoleContinuityError.CheckpointNotFound in
      reject_if (bool_decide (superseded.(chk_checkpoint_id) = checkpoint.(chk_checkpoint_id))
                 || negb (bool_decide (superseded.(chk_role_id) = checkpoint.(chk_role_id)))
                 || negb (bool_decide (superseded.(chk_assignment_id) = checkpoint.(chk_assignment_id)))
                 || (checkpoint.(chk_created_at) <? superseded.(chk_created_at))%Z)
        RoleContinuityError.CheckpointSupersedesInvalid
  | None => Ok tt
  end.

Definition validate_affected self (handoff : RoleHandoff) (commitment_id : Uuid) : RoleResult unit :=
  let? commitment := ok_or (self.(st_commitments) !! commitment_id)
    RoleContinuityError.CommitmentNotFound in
  reject_if (negb (bool_decide (commitment.(com_assignment_id) = handoff.(hof_from_assignment_id))))
    (invalid_state "Handoff Commitment belongs to another Assignment").

Definition validate_handoff self (handoff : RoleHandoff) : RoleResult unit :=
  reject_if (negb (handoff.(hof_entity_revision) =? 1)
             || (self.(st_project_revision) <? handoff.(hof_project_revision)))%N
    (invalid_state "Handoff revisions are invalid") ?;
  let? from_assignment := ok_or (self.(st_assignments) !! handoff.(hof_from_assignment_id))
    RoleContinuityError.AssignmentNotFound in
  reject_if (negb (bool_decide (from_assignment.(asg_role_id) = handoff.(hof_role_id))))
    RoleContinuityError.HandoffTargetInvalid ?;
  match handoff.(hof_to_assignment_id) with
  | Some to_assignment_id =>
      let? to_assignment := ok_or (self.(st_assignments) !! to_assignment_id)
        RoleContinuityError.AssignmentNotFound in
      reject_if (negb (bool_decide (to_assignment.(asg_role_id) = handoff.(hof_role_id))))
        RoleContinuityError.HandoffTargetInvalid
  | None => Ok tt
  end ?;
  match handoff.(hof_checkpoint_id) with
  | Some checkpoint_id =>
      let? checkpoint := ok_or (self.(st_checkpoints) !! checkpoint_id)
        RoleContinuityError.CheckpointNotFound in
      reject_if (negb (bool_decide (checkpoint.(chk_role_id) = handoff.(hof_role_id)))
                 || negb (bool_decide (checkpoint.(chk_assignment_id)
                                       = handoff.(hof_from_assignment_id))))
        RoleContinuityError.HandoffCheckpointInvalid
  | None => Ok tt
  end ?;
  for_each (validate_affected self handoff) handoff.(hof_affected_commitment_ids) ?;
  validate_handoff_content handoff.(hof_content) ?;
  validate_references self handoff.(hof_content).(hof_references) ?;
  match handoff.(hof_system_generated), handoff.(hof_created_by) with
  | true, None => Ok tt
  | false, Some created_by =>
      if decide (created_by = from_assignment.(asg_member_pubkey)) then
        reject_if (negb (member_authored_cause handoff.(hof_cause)))
          RoleContinuityError.HandoffCauseInvalid
      else Err (invalid_state "Handoff author shape is invalid")
  | _, _ => Err (invalid_state "Handoff author shape is invalid")
  end.

(** [RoleContinuityState::validate] *)
Definition validate_role_state self : RoleResult unit :=
  reject_if ((self.(st_project_revision) =? 0) || (MAX_SAFE_REVISION <? self.(st_project_revision)))%N
    (invalid_state "v2 Role continuity requires an initialized safe project revision") ?;
  try_fold (validate_assignment self) (∅, ∅) (btree_values self.(st_assignments)) ?;
  for_each (validate_work self) (btree_values self.(st_works)) ?;
  try_fold (validate_commitment self) ∅ (btree_values self.(st_commitments)) ?;
  for_each (validate_checkpoint self) (btree_values self.(st_checkpoints)) ?;
  for_each (validate_handoff self) (btree_values self.(st_handoffs)) ?;
  Ok tt.

(** ** Snapshots *)

Definition collect_unique {K V} `{Countable K} (key : V → K) (entity : string) (values : list V)
  : RoleResult (gmap K V) :=
  try_fold (λ map value,
              reject_if (opt_is_some (map !! key value))
                (RoleContinuityError.InvalidState
                   (lit "duplicate " ++ lit entity ++ lit " identifier")) ?;
              Ok (<[key value := value]> map)) ∅ values.

Definition from_complete_snapshot (project_revision : N) (roles : list RoleSlot)
    (works : list WorkResponsibility) (members : list MemberGovernance)
    (proposals : list RoleAssignmentProposal) (assignments : list RoleAssignment)
    (commitments : list WorkCommitment) (checkpoints : list RoleCheckpoint)
    (handoffs : list RoleHandoff) (referenceable_object_ids : list Uuid)
  : RoleResult RoleContinuityState :=
  let? roles := collect_unique slot_role_id "Role" roles in
  let? works := collect_unique work_work_id "Work" works in
  let referenceable_objects : gset Uuid :=
    list_to_set referenceable_object_ids ∪ dom roles ∪ dom works in
  let? members := collect_unique pubkey "Member" members in
  let? proposals := collect_unique prop_proposal_id "Proposal" proposals in
  let? assignments := collect_unique asg_assignment_id "Assignment" assignments in
  let? commitments := collect_unique com_commitment_id "Commitment" commitments in
  let? checkpoints := collect_unique chk_checkpoint_id "Checkpoint" checkpoints in
  let? handoffs := collect_unique hof_handoff_id "Handoff" handoffs in
  let state :=
    mkRoleContinuityState project_revision referenceable_objects roles works members proposals
      assignments commitments checkpoints handoffs in
  validate_role_state state ?;
  Ok state.

Definition from_snapshot (project_revision : N) (roles : list RoleSlot)
    (members : list MemberGovernance) (proposals : list RoleAssignmentProposal)
    (assignments : list RoleAssignment) (handoffs : list RoleHandoff)
  : RoleResult RoleContinuityState :=
  from_complete_snapshot project_revision roles [] members proposals assignments [] [] handoffs [].

(** ** Changes *)

Definition entity_key (change : RoleContinuityChange) : RoleContinuityEntity * Uuid :=
  (entity_type change, entity_id change).

Definition entity_map self : gmap (RoleContinuityEntity * Uuid) RoleContinuityChange :=
  foldl (λ entities change, <[entity_key change := change]> entities) ∅
    ((ChangeProposal <$> btree_values self.(st_proposals))
     ++ (ChangeAssignment <$> btree_values self.(st_assignments))
     ++ (ChangeCommitment <$> btree_values self.(st_commitments))
     ++ (ChangeCheckpoint <$> btree_values self.(st_checkpoints))
     ++ (ChangeHandoff <$> btree_values self.(st_handoffs))).

(** The derived order of [RoleContinuityEntity]. *)
Definition entity_index (e : RoleContinuityEntity) : N :=
  match e with
  | RoleContinuityEntity.Role => 0
  | RoleContinuityEntity.RoleAssignmentProposal => 1
  | RoleContinuityEntity.RoleAssignment => 2
  | RoleContinuityEntity.WorkCommitment => 3
  | RoleContinuityEntity.RoleCheckpoint => 4
  | RoleContinuityEntity.RoleHandoff => 5
  end.

Definition entity_key_cmp (a b : RoleContinuityEntity * Uuid) : comparison :=
  then_with (N.compare (entity_index a.1) (entity_index b.1)) (Uuid_cmp a.2 b.2).

Definition changed_entities (before after : gmap (RoleContinuityEntity * Uuid) RoleContinuityChange)
  : list RoleContinuityChange :=
  omap (λ '(key, value), if decide (before !! key = Some value) then None else Some value)
    (sort_by (λ a b, entity_key_cmp a.1 b.1) (map_to_list after)).

Definition changed_works (before after : gmap Uuid WorkResponsibility) : list WorkResponsibility :=
  omap (λ '(work_id, work), if decide (before !! work_id = Some work) then None else Some work)
    (btree_iter after).

Record RoleContinuityOutcome : Type := mkRoleContinuityOutcome {
  out_project_revision : N;
  out_changes : list RoleContinuityChange;
  out_work_changes : list WorkResponsibility;
  out_membership_roles : MembershipRoles;
  out_ended_commitments : AffectedCommitments;
}.

(** ** The reducer *)

(** The three edits of a request that sets fields of its own Assignment or
    Proposal. *)
Definition accept_proposal self (proposal_id : Uuid) (actor : PublicKey) (canonical_time : DateTime)
    (next_revision : N) : RoleResult RoleContinuityState :=
  let? proposal := open_proposal self proposal_id canonical_time in
  reject_if (negb (bool_decide (proposal.(prop_candidate_pubkey) = actor)))
    RoleContinuityError.CandidateRequired ?;
  reject_if (opt_is_some proposal.(prop_candidate_accepted_at)) RoleContinuityError.AlreadyConfirmed ?;
  match proposal.(prop_authorized_by) with
  | Some authorizer => authorize_complete_move self proposal authorizer
  | None => Ok tt
  end ?;
  let? proposal :=
    touch_proposal
      (prop_update proposal (Some canonical_time) proposal.(prop_authorized_by)
         proposal.(prop_authorized_at) proposal.(prop_status) proposal.(prop_reason)
         proposal.(prop_resolved_at) proposal.(prop_entity_revision)
         proposal.(prop_project_revision)) next_revision in
  Ok (set_proposals self (<[proposal_id := proposal]> self.(st_proposals))).

Definition authorize_proposal self (command : RoleCommand) (proposal_id : Uuid) (actor : PublicKey)
    (canonical_time : DateTime) (next_revision : N) : RoleResult RoleContinuityState :=
  require_governor_fence self command actor ?;
  let? proposal := open_proposal self proposal_id canonical_time in
  authorize_complete_move self proposal actor ?;
  reject_if (opt_is_some proposal.(prop_authorized_at)) RoleContinuityError.AlreadyConfirmed ?;
  let? proposal :=
    touch_proposal
      (prop_update proposal proposal.(prop_candidate_accepted_at) (Some actor) (Some canonical_time)
         proposal.(prop_status) proposal.(prop_reason) proposal.(prop_resolved_at)
         proposal.(prop_entity_revision) proposal.(prop_project_revision)) next_revision in
  Ok (set_proposals self (<[proposal_id := proposal]> self.(st_proposals))).

Definition report_assignment self (command : RoleCommand) (assignment_id : Uuid) (actor : PublicKey)
    (reported : RoleAssignment → option DateTime) (write : RoleAssignment → RoleAssignment)
    (next_revision : N) : RoleResult RoleContinuityState :=
  require_assignee_action self command actor assignment_id ?;
  let? assignment :=
    ok_or (self.(st_assignments) !! assignment_id) RoleContinuityError.AssignmentNotFound in
  reject_if (opt_is_some (reported assignment)) RoleContinuityError.AlreadyReported ?;
  let? assignment := touch_assignment (write assignment) next_revision in
  Ok (set_assignments self (<[assignment_id := assignment]> self.(st_assignments))).

Definition set_work_responsibility self (command : RoleCommand) (work_id : Uuid)
    (responsible_role_id : option Uuid) (actor : PublicKey) (canonical_time : DateTime)
    (next_revision : N) : RoleResult RoleContinuityState :=
  require_governor_fence self command actor ?;
  reject_if (opt_is_some (active_commitment_for_work self work_id))
    RoleContinuityError.ActiveCommitmentConflict ?;
  match responsible_role_id with
  | Some role_id =>
      let? role := ok_or (self.(st_roles) !! role_id) RoleContinuityError.RoleNotFound in
      reject_if (negb role.(slot_active)) RoleContinuityError.RoleInactive
  | None => Ok tt
  end ?;
  let? work := ok_or (option_filter (λ w, opt_is_some w.(work_status)) (self.(st_works) !! work_id))
    RoleContinuityError.WorkNotFound in
  reject_if (bool_decide (work.(work_responsible_role_id) = responsible_role_id))
    RoleContinuityError.ResponsibilityUnchanged ?;
  let? work :=
    touch_work
      (mkWorkResponsibility work.(work_work_id) work.(work_status) responsible_role_id
         work.(work_object_revision) work.(work_project_revision) work.(work_updated_at)
         work.(work_updated_by)) actor canonical_time next_revision in
  Ok (set_works self (<[work_id := work]> self.(st_works))).

(** The Assignment a Role-bearing command acts from. *)
Definition acting_assignment self (command : RoleCommand) (actor : PublicKey) : RoleResult Uuid :=
  let? assignment_id :=
    ok_or command.(cmd_acting_assignment_id) RoleContinuityError.ActingAssignmentRequired in
  require_assignee_action self command actor assignment_id ?;
  Ok assignment_id.

(** The match of [reduce] on the request. *)
Definition apply_request self (command : RoleCommand) (actor : PublicKey)
    (canonical_time : DateTime) (next_revision : N) (generated_ids : GeneratedRoleContinuityIds)
  : RoleResult Progress :=
  let unchanged state := mkProgress state ∅ ∅ in
  match command.(cmd_request) with
  | RequestRole proposal_id role_id expires_at reason =>
      let? next :=
        create_proposal self proposal_id role_id actor ProposalType.Request expires_at reason actor
          canonical_time next_revision None in
      Ok (unchanged next)
  | OfferRole proposal_id role_id candidate_pubkey expires_at reason =>
      require_governor_fence self command actor ?;
      let? next :=
        create_proposal self proposal_id role_id candidate_pubkey ProposalType.Offer expires_at
          reason actor canonical_time next_revision (Some actor) in
      complete_proposal_if_ready (unchanged next) proposal_id canonical_time next_revision
        generated_ids
  | AcceptProposal proposal_id =>
      let? next := accept_proposal self proposal_id actor canonical_time next_revision in
      complete_proposal_if_ready (unchanged next) proposal_id canonical_time next_revision
        generated_ids
  | AuthorizeProposal proposal_id =>
      let? next := authorize_proposal self command proposal_id actor canonical_time next_revision in
      complete_proposal_if_ready (unchanged next) proposal_id canonical_time next_revision
        generated_ids
  | RejectProposal proposal_id reason =>
      let? proposal := open_proposal self proposal_id canonical_time in
      (if decide (proposal.(prop_candidate_pubkey) = actor) then Ok tt
       else require_governor_fence self command actor ?;
            authorize_complete_move self proposal actor) ?;
      let? next :=
        resolve_in self proposal_id ProposalStatus.Rejected reason canonical_time next_revision in
      Ok (unchanged next)
  | WithdrawProposal proposal_id reason =>
      let? proposal := open_proposal self proposal_id canonical_time in
      reject_if (negb (bool_decide (proposal.(prop_created_by) = actor)))
        RoleContinuityError.CreatorRequired ?;
      let? next :=
        resolve_in self proposal_id ProposalStatus.Withdrawn reason canonical_time next_revision in
      Ok (unchanged next)
  | ExpireProposal proposal_id =>
      let? proposal :=
        ok_or (self.(st_proposals) !! proposal_id) RoleContinuityError.ProposalNotFound in
      reject_if (negb (bool_decide (proposal.(prop_status) = ProposalStatus.Open)))
        RoleContinuityError.ProposalNotOpen ?;
      reject_if (canonical_time <? proposal.(prop_expires_at))%Z
        RoleContinuityError.ProposalNotExpired ?;
      let? next :=
        resolve_in self proposal_id ProposalStatus.Expired None canonical_time next_revision in
      Ok (unchanged next)
  | EndAssignment assignment_id _ =>
      let? assignment := active_assignment self assignment_id in
      authorize_assignment_end self actor assignment ?;
      let? fenced := assignment_end_requires_role_authority self actor assignment in
      (if fenced : bool then require_governor_fence self command actor else Ok tt) ?;
      let? ended :=
        end_assignment self assignment_id actor AssignmentEndReason.Revoked None canonical_time
          next_revision in
      let '(next, commitment_ids) := ended in
      let? recorded := record_desired_member_role next assignment.(asg_member_pubkey) ∅ in
      let '(next, membership_roles) := recorded in
      Ok (mkProgress next membership_roles {[ assignment_id := commitment_ids ]})
  | RequestReplacement assignment_id reason =>
      let? next :=
        report_assignment self command assignment_id actor asg_replacement_requested_at
          (λ a, asg_update a (Some canonical_time) reason a.(asg_unable_reported_at)
                  a.(asg_unable_report_reason) a.(asg_ended_at) a.(asg_ended_by)
                  a.(asg_ended_reason) a.(asg_replaced_by_assignment_id) a.(asg_entity_revision)
                  a.(asg_project_revision)) next_revision in
      Ok (unchanged next)
  | ReportUnableToContinue assignment_id reason =>
      let? next :=
        report_assignment self command assignment_id actor asg_unable_reported_at
          (λ a, asg_update a a.(asg_replacement_requested_at) a.(asg_replacement_request_reason)
                  (Some canonical_time) reason a.(asg_ended_at) a.(asg_ended_by)
                  a.(asg_ended_reason) a.(asg_replaced_by_assignment_id) a.(asg_entity_revision)
                  a.(asg_project_revision)) next_revision in
      Ok (unchanged next)
  | SetWorkResponsibility work_id responsible_role_id =>
      let? next :=
        set_work_responsibility self command work_id responsible_role_id actor canonical_time
          next_revision in
      Ok (unchanged next)
  | AcceptWork commitment_id work_id =>
      let? assignment_id := acting_assignment self command actor in
      let? next :=
        create_commitment self commitment_id work_id assignment_id actor canonical_time
          next_revision in
      Ok (unchanged next)
  | EndCommitment commitment_id _ =>
      let? assignment_id := acting_assignment self command actor in
      let? commitment := active_commitment self commitment_id in
      reject_if (negb (bool_decide (commitment.(com_assignment_id) = assignment_id))
                 || negb (bool_decide (commitment.(com_member_pubkey) = actor)))
        RoleContinuityError.CommitmentAssigneeRequired ?;
      let? next :=
        end_commitment self commitment_id actor CommitmentEndReason.Released canonical_time
          next_revision in
      Ok (unchanged next)
  | ReplaceCommitment commitment_id work_id expected_commitment_id =>
      let? assignment_id := acting_assignment self command actor in
      let? current := active_commitment self expected_commitment_id in
      reject_if (negb (bool_decide (current.(com_work_id) = work_id))
                 || negb (bool_decide (current.(com_assignment_id) = assignment_id))
                 || negb (bool_decide (current.(com_member_pubkey) = actor)))
        RoleContinuityError.CommitmentFenceConflict ?;
      let? next :=
        end_commitment self expected_commitment_id actor CommitmentEndReason.Replaced canonical_time
          next_revision in
      let? next :=
        create_commitment next commitment_id work_id assignment_id actor canonical_time
          next_revision in
      Ok (unchanged next)
  | AppendCheckpoint checkpoint_id based_on_project_revision content supersedes_checkpoint_id =>
      let? assignment_id := acting_assignment self command actor in
      let? next :=
        append_checkpoint self checkpoint_id assignment_id based_on_project_revision content
          supersedes_checkpoint_id actor canonical_time next_revision in
      Ok (unchanged next)
  | AppendHandoff handoff_id to_assignment_id checkpoint_id content cause =>
      let? assignment_id := acting_assignment self command actor in
      let? next :=
        append_handoff self handoff_id assignment_id to_assignment_id checkpoint_id content cause
          actor canonical_time next_revision in
      Ok (unchanged next)
  end.

(** [RoleContinuityState::reduce] *)
Definition reduce_role self (command : RoleCommand) (actor : PublicKey) (canonical_time : DateTime)
    (generated_ids : GeneratedRoleContinuityIds)
  : RoleResult (RoleContinuityState * RoleContinuityOutcome) :=
  RoleCommand_validate_for_submission command ?;
  reject_if (negb (command.(cmd_expected_project_revision) =? self.(st_project_revision))%N)
    (RoleContinuityError.RevisionConflict command.(cmd_expected_project_revision)
       self.(st_project_revision)) ?;
  let? next_revision := bump self.(st_project_revision) in
  validate_actor_fence self command actor ?;
  let? progress := apply_request self command actor canonical_time next_revision generated_ids in
  let next := set_project_revision progress.(pg_state) next_revision in
  validate_role_state next ?;
  let changes := changed_entities (entity_map self) (entity_map next) in
  let work_changes := changed_works self.(st_works) next.(st_works) in
  reject_if (is_empty changes && is_empty work_changes)
    (invalid_state "accepted command produced no canonical change") ?;
  Ok (next, mkRoleContinuityOutcome next_revision changes work_changes
              progress.(pg_membership_roles) progress.(pg_affected_commitments)).

Definition reduce_unrecoverable_assignment self (assignment_id : Uuid) (system_actor : PublicKey)
    (canonical_time : DateTime) (handoff_id : Uuid)
  : RoleResult (RoleContinuityState * RoleContinuityOutcome) :=
  require_id assignment_id "assignment_id" ?;
  require_id handoff_id "handoff_id" ?;
  reject_if (opt_is_some (self.(st_handoffs) !! handoff_id)) RoleContinuityError.IdCollision ?;
  let? assignment := active_assignment self assignment_id in
  let? member :=
    ok_or (option_filter (λ m, m.(eligible) && is_managed_agent m)
             (self.(st_members) !! assignment.(asg_member_pubkey)))
      RoleContinuityError.CandidateIneligible in
  reject_if (is_owner member) RoleContinuityError.NotAuthorized ?;
  let? next_revision := bump self.(st_project_revision) in
  let checkpoint_id := latest_checkpoint_for_assignment self assignment_id in
  let? ended :=
    end_assignment self assignment_id system_actor AssignmentEndReason.Unrecoverable None
      canonical_time next_revision in
  let '(next, commitment_ids) := ended in
  let content :=
    interrupted_content next commitment_ids
      "Trusted runtime recovery was exhausted; continue from retained Project state."
      "Trusted runtime recovery was exhausted; unfinished Work is waiting for continuation." in
  let next :=
    set_handoffs next
      (<[handoff_id :=
           mkRoleHandoff handoff_id assignment.(asg_role_id) assignment_id None checkpoint_id
             commitment_ids content HandoffCause.Unrecoverable true None canonical_time 1
             next_revision]> next.(st_handoffs)) in
  let? recorded := record_desired_member_role next assignment.(asg_member_pubkey) ∅ in
  let '(next, membership_roles) := recorded in
  let next := set_project_revision next next_revision in
  validate_role_state next ?;
  let changes := changed_entities (entity_map self) (entity_map next) in
  reject_if (is_empty changes)
    (invalid_state "unrecoverable system action produced no canonical change") ?;
  Ok (next, mkRoleContinuityOutcome next_revision changes [] membership_roles
              {[ assignment_id := commitment_ids ]}).

(** ** Replay *)

Definition validate_actor_for_replay self (command : RoleCommand) (actor : PublicKey)
  : RoleResult unit :=
  RoleCommand_validate_for_submission command ?;
  validate_actor_fence self command actor ?;
  match command.(cmd_request) with
  | OfferRole _ role_id candidate_pubkey _ _ =>
      require_current_governor_for_role self command actor role_id (Some candidate_pubkey)
  | AuthorizeProposal proposal_id =>
      let? proposal :=
        ok_or (self.(st_proposals) !! proposal_id) RoleContinuityError.ProposalNotFound in
      require_current_governor_for_role self command actor proposal.(prop_role_id)
        (Some proposal.(prop_candidate_pubkey))
  | RejectProposal proposal_id _ =>
      let? proposal :=
        ok_or (self.(st_proposals) !! proposal_id) RoleContinuityError.ProposalNotFound in
      if decide (proposal.(prop_candidate_pubkey) = actor) then Ok tt
      else require_current_governor_for_role self command actor proposal.(prop_role_id)
             (Some proposal.(prop_candidate_pubkey))
  | EndAssignment assignment_id _ =>
      let? assignment :=
        ok_or (self.(st_assignments) !! assignment_id) RoleContinuityError.AssignmentNotFound in
      authorize_assignment_end self actor assignment ?;
      let? fenced := assignment_end_requires_role_authority self actor assignment in
      (if fenced : bool then require_governor_fence self command actor else Ok tt)
  | SetWorkResponsibility _ _ => require_governor_fence self command actor
  | _ => Ok tt
  end.

(** ** The schema 3 entry points *)

Definition reduce_role_command_v3 (state : RoleContinuityState) (command : RoleCommandV3)
    (actor : PublicKey) (canonical_time : DateTime) (generated_ids : GeneratedRoleContinuityIds)
  : RoleResult (RoleContinuityState * RoleContinuityOutcome) :=
  RoleCommandV3_validate_for_submission command ?;
  reduce_role state (as_v2_reducer_command command) actor canonical_time generated_ids.

Definition validate_role_actor_for_v3_replay (state : RoleContinuityState) (command : RoleCommandV3)
    (actor : PublicKey) : RoleResult unit :=
  RoleCommandV3_validate_for_submission command ?;
  validate_actor_for_replay state (as_v2_reducer_command command) actor.

End validation.
