(* ===== verification/RoleFacts.v ===== *)
(** * Role continuity: what a valid state is

    The aggregate check [validate_role_state] walks the rows with accumulators
    and early returns; here it is proved to decide a statement about rows. *)

From Stdlib Require Import List.
From stdpp Require Import prelude strings gmap fin_maps.
From S2P Require Import Prelude Text Platform ViewModel ViewContract.
From S2P Require Import RoleGovernance RoleModel RoleCommand RoleState RoleReducer.

(** ** Loops that look for two conflicting rows *)

(** A loop that checks each element and its compatibility with those already
    seen, which the accumulator represents, checks every pair. *)
Lemma try_fold_pairs {A B E} (f : B → A → result B E) (ok : A → Prop) (compatible : A → A → Prop)
    (represents : list A → B → Prop) :
  (∀ seen acc x, represents seen acc →
     is_Ok (f acc x) ↔ ok x ∧ Forall (λ y, compatible y x) seen) →
  (∀ seen acc x acc', represents seen acc → f acc x = Ok acc' → represents (x :: seen) acc') →
  ∀ xs seen acc, represents seen acc →
    is_Ok (try_fold f acc xs) ↔
    Forall ok xs ∧ ForallOrdPairs compatible xs ∧ Forall (λ x, Forall (λ y, compatible y x) seen) xs.
Proof.
  intros Hcheck Hstep xs. induction xs as [|x xs IH]; intros seen acc Hacc; simpl.
  - split; [intros _; repeat constructor|by eexists].
  - rewrite !Forall_cons. pose proof (Hcheck seen acc x Hacc) as Hx.
    destruct (f acc x) as [acc'|e] eqn:Hf; simpl.
    + apply proj1 in Hx. destruct Hx as [Hok Hseen]; [by eexists|].
      rewrite (IH (x :: seen) acc' (Hstep _ _ _ _ Hacc Hf)). split.
      * intros (Hxs & Hpairs & Hall). setoid_rewrite Forall_cons in Hall.
        apply Forall_and in Hall as [Hx Hall]. split_and!; [done..|by constructor|done|done].
      * intros ((_ & Hxs) & Hpairs & _ & Hall). inversion_clear Hpairs. split_and!; [done..|].
        setoid_rewrite Forall_cons. by apply Forall_and.
    + split; [by intros [? ?]|]. intros ((Hok & _) & _ & Hseen & _).
      by destruct (proj2 Hx (conj Hok Hseen)).
Qed.

(** Pairs of a list without duplicates, whatever their order. *)
Lemma ForallOrdPairs_NoDup {A} (R : A → A → Prop) (l : list A) :
  (∀ x y, R x y → R y x) → NoDup l →
  ForallOrdPairs R l ↔ ∀ x y, x ∈ l → y ∈ l → x ≠ y → R x y.
Proof.
  intros Hsym Hl. induction Hl as [|x l Hx Hl IH].
  - split; [by intros _ x y ?%elem_of_nil|constructor].
  - split.
    + intros Hpairs. inversion_clear Hpairs as [|? ? Hx' Hl']. pose proof (proj1 IH Hl') as IH'.
      rewrite Forall_forall in Hx'. intros y z [->|Hy]%elem_of_cons [->|Hz]%elem_of_cons Hne; eauto.
      done.
    + intros Hall. constructor.
      * apply Forall_forall. intros y Hy. apply Hall; [by constructor|by constructor|].
        by intros ->.
      * apply IH. intros y z Hy Hz. apply Hall; by constructor.
Qed.

Section loops.
Context `{P : Platform}.

Lemma Forall_btree_values {V} (Q : V → Prop) (m : gmap Uuid V) :
  Forall Q (btree_values m) ↔ ∀ k v, m !! k = Some v → Q v.
Proof.
  unfold btree_values. rewrite Forall_fmap, (Forall_btree_iter (Q ∘ snd)). done.
Qed.

Lemma btree_iter_NoDup {V} (m : gmap Uuid V) : NoDup (btree_iter m).
Proof. rewrite btree_iter_perm. apply NoDup_map_to_list. Qed.

(** The pairs of rows a loop over the values of a map compares. *)
Lemma btree_values_pairs {V} (R : V → V → Prop) (m : gmap Uuid V) :
  (∀ v w, R v w → R w v) →
  ForallOrdPairs R (btree_values m) ↔
  ∀ i j v w, m !! i = Some v → m !! j = Some w → i ≠ j → R v w.
Proof.
  intros Hsym. unfold btree_values.
  assert (ForallOrdPairs R (btree_iter m).*2 ↔ ForallOrdPairs (λ p q, R p.2 q.2) (btree_iter m)) as ->.
  { induction (btree_iter m) as [|p l IH]; simpl; [split; constructor|].
    split; inversion_clear 1; constructor; try apply IH; try done; by apply Forall_fmap. }
  rewrite ForallOrdPairs_NoDup; [|intros p q; apply Hsym|apply btree_iter_NoDup].
  setoid_rewrite btree_iter_perm. split.
  - intros H i j v w Hi Hj Hne. apply (H (i, v) (j, w)); [by apply elem_of_map_to_list..|].
    by intros [= -> ->].
  - intros H [i v] [j w] Hi%elem_of_map_to_list Hj%elem_of_map_to_list Hne.
    destruct (decide (i = j)) as [->|]; [|by eapply H]. by simplify_map_eq.
Qed.

End loops.

(** ** Valid states *)

Section valid.
Context `{P : Platform}.
Implicit Types (self : RoleContinuityState).

(** The Community role that a Role of a level carries. *)
Definition level_role (level : RoleLevel) : CommunityMemberRole :=
  match level with
  | RoleLevel.Admin => CommunityMemberRole.Admin
  | RoleLevel.Member => CommunityMemberRole.Member
  end.

(** An active Assignment: its Role is active, and its Member is an eligible
    Community member whose Community role is Owner or that of the Role. *)
Definition seated self (a : RoleAssignment) (role : RoleSlot) : Prop :=
  slot_active role = true ∧
  ∃ m, st_members self !! asg_member_pubkey a = Some m ∧ eligible m = true ∧
       (community_role m = Some CommunityMemberRole.Owner
        ∨ community_role m = Some (level_role (slot_level role))).

Definition assignment_ok self (a : RoleAssignment) : Prop :=
  ∃ role, st_roles self !! asg_role_id a = Some role ∧
    if RoleAssignment_is_active a then seated self a role
    else is_Some (asg_ended_by a) ∧ is_Some (asg_ended_reason a).

(** Two active Assignments are of different Roles and different Members. *)
Definition seats_apart (a b : RoleAssignment) : Prop :=
  RoleAssignment_is_active a = true → RoleAssignment_is_active b = true →
  asg_role_id a ≠ asg_role_id b ∧ asg_member_pubkey a ≠ asg_member_pubkey b.

Definition work_ok self (w : WorkResponsibility) : Prop :=
  ∀ role_id, work_responsible_role_id w = Some role_id →
    ∃ role, st_roles self !! role_id = Some role ∧ slot_active role = true ∧ is_Some (work_status w).

(** A Commitment belongs to the Member of its Assignment; an active one has an
    active Assignment to the Role responsible for open Work. *)
Definition commitment_ok self (c : WorkCommitment) : Prop :=
  ∃ a w, st_assignments self !! com_assignment_id c = Some a ∧
    st_works self !! com_work_id c = Some w ∧
    com_member_pubkey c = asg_member_pubkey a ∧
    if WorkCommitment_is_active c then
      RoleAssignment_is_active a = true ∧ WorkResponsibility_is_open w = true ∧
      work_responsible_role_id w = Some (asg_role_id a)
    else is_Some (com_ended_by c) ∧ is_Some (com_ended_reason c).

(** Two active Commitments are to different Work. *)
Definition commitments_apart (c d : WorkCommitment) : Prop :=
  WorkCommitment_is_active c = true → WorkCommitment_is_active d = true →
  com_work_id c ≠ com_work_id d.

Definition reference_ok self (reference : RoleContinuityReference) : Prop :=
  match reference with
  | RefObject object_id _ => object_id ∈ st_referenceable_objects self
  | RefAssignment assignment_id _ => is_Some (st_assignments self !! assignment_id)
  | RefCommitment commitment_id _ => is_Some (st_commitments self !! commitment_id)
  | RefNostrEvent _ _ => True
  end.

(** A Checkpoint is by the Member of its Assignment, from a baseline before it,
    and replaces an earlier Checkpoint of the same Assignment. *)
Definition checkpoint_ok self (k : RoleCheckpoint) : Prop :=
  chk_entity_revision k = 1%N ∧
  (0 < chk_based_on_project_revision k < chk_project_revision k)%N ∧
  (chk_project_revision k ≤ st_project_revision self)%N ∧
  (∃ a, st_assignments self !! chk_assignment_id k = Some a ∧
     asg_role_id a = chk_role_id k ∧ asg_member_pubkey a = chk_created_by k) ∧
  validate_checkpoint_content (chk_content k) = Ok tt ∧
  Forall (reference_ok self) (chk_references (chk_content k)) ∧
  (∀ id, chk_supersedes_checkpoint_id k = Some id →
     ∃ old, st_checkpoints self !! id = Some old ∧ chk_checkpoint_id old ≠ chk_checkpoint_id k ∧
       chk_role_id old = chk_role_id k ∧ chk_assignment_id old = chk_assignment_id k ∧
       (chk_created_at old ≤ chk_created_at k)%Z).

(** A Handoff goes from an Assignment of its Role to one of the same Role, with
    a Checkpoint and Commitments of the former; it has an author, who is that
    Assignment's Member, exactly when the system did not write it. *)
Definition handoff_ok self (h : RoleHandoff) : Prop :=
  hof_entity_revision h = 1%N ∧ (hof_project_revision h ≤ st_project_revision self)%N ∧
  ∃ from, st_assignments self !! hof_from_assignment_id h = Some from ∧
  asg_role_id from = hof_role_id h ∧
  (∀ id, hof_to_assignment_id h = Some id →
     ∃ to, st_assignments self !! id = Some to ∧ asg_role_id to = hof_role_id h) ∧
  (∀ id, hof_checkpoint_id h = Some id →
     ∃ k, st_checkpoints self !! id = Some k ∧ chk_role_id k = hof_role_id h ∧
       chk_assignment_id k = hof_from_assignment_id h) ∧
  Forall (λ id, ∃ c, st_commitments self !! id = Some c ∧
                  com_assignment_id c = hof_from_assignment_id h) (hof_affected_commitment_ids h) ∧
  validate_handoff_content (hof_content h) = Ok tt ∧
  Forall (reference_ok self) (hof_references (hof_content h)) ∧
  if hof_system_generated h then hof_created_by h = None
  else hof_created_by h = Some (asg_member_pubkey from) ∧ member_authored_cause (hof_cause h) = true.

Record role_valid self : Prop := mkRoleValid {
  rv_revision : (0 < st_project_revision self ≤ MAX_SAFE_REVISION)%N;
  rv_assignments : map_Forall (λ _, assignment_ok self) (st_assignments self);
  rv_seats : ∀ i j a b, st_assignments self !! i = Some a → st_assignments self !! j = Some b →
    i ≠ j → seats_apart a b;
  rv_works : map_Forall (λ _, work_ok self) (st_works self);
  rv_commitments : map_Forall (λ _, commitment_ok self) (st_commitments self);
  rv_work_once : ∀ i j c d, st_commitments self !! i = Some c → st_commitments self !! j = Some d →
    i ≠ j → commitments_apart c d;
  rv_checkpoints : map_Forall (λ _, checkpoint_ok self) (st_checkpoints self);
  rv_handoffs : map_Forall (λ _, handoff_ok self) (st_handoffs self);
}.

(** ** Each check decides its statement *)

Lemma lookup_Ok {A B} (o : option A) (e : RoleContinuityError) (k : A → RoleResult B) b :
  (let? x := ok_or o e in k x) = Ok b ↔ ∃ x, o = Some x ∧ k x = Ok b.
Proof. rewrite rbind_Ok. by setoid_rewrite ok_or_Ok. Qed.

Lemma guard_Ok {B} c (e : RoleContinuityError) (k : RoleResult B) b :
  (reject_if c e ?; k) = Ok b ↔ c = false ∧ k = Ok b.
Proof. by rewrite seq_Ok, reject_if_Ok. Qed.

(** [if let Some(x) = o { f(x)?; }] *)
Lemma optional_Ok {A} (o : option A) (f : A → RoleResult unit) :
  match o with Some x => f x | None => Ok tt end = Ok tt ↔ ∀ x, o = Some x → f x = Ok tt.
Proof. destruct o; naive_solver. Qed.

Lemma opt_is_some_true {A} (o : option A) : opt_is_some o = true ↔ is_Some o.
Proof. destruct o; simpl; split; [by eexists|done|done|by intros []]. Qed.

Lemma opt_is_some_false {A} (o : option A) : opt_is_some o = false ↔ o = None.
Proof. by destruct o. Qed.

Lemma is_owner_true m : is_owner m = true ↔ community_role m = Some CommunityMemberRole.Owner.
Proof. unfold is_owner. destruct (community_role m) as [[]|]; naive_solver. Qed.

(** The Community role test of the aggregate check. *)
Lemma community_role_agrees m role :
  negb (is_owner m) && negb (bool_decide (CommunityMemberRole_as_str <$> community_role m
                                          = Some (RoleLevel_as_str (slot_level role)))) = false ↔
  community_role m = Some CommunityMemberRole.Owner
  ∨ community_role m = Some (level_role (slot_level role)).
Proof.
  rewrite andb_false_iff, !negb_false_iff, bool_decide_eq_true, is_owner_true.
  destruct (community_role m) as [[]|], (slot_level role); simpl; naive_solver.
Qed.

Lemma validate_work_Ok self w : validate_work self w = Ok tt ↔ work_ok self w.
Proof.
  unfold validate_work, work_ok. destruct (work_responsible_role_id w) as [id|]; [|naive_solver].
  rewrite lookup_Ok. setoid_rewrite reject_if_Ok.
  setoid_rewrite orb_false_iff. setoid_rewrite negb_false_iff. setoid_rewrite opt_is_some_true.
  naive_solver.
Qed.

Lemma validate_references_Ok self references :
  validate_references self references = Ok tt ↔ Forall (reference_ok self) references.
Proof.
  unfold validate_references. rewrite for_each_Ok. apply Forall_iff.
  intros ref. destruct ref; simpl; rewrite ?reject_if_Ok, ?negb_false_iff, ?bool_decide_eq_true,
    ?opt_is_some_true; done.
Qed.

#[local] Opaque validate_checkpoint_content validate_handoff_content validate_references.

Lemma validate_checkpoint_Ok self k : validate_checkpoint self k = Ok tt ↔ checkpoint_ok self k.
Proof.
  unfold validate_checkpoint, checkpoint_ok. rewrite guard_Ok, lookup_Ok.
  setoid_rewrite guard_Ok. repeat setoid_rewrite seq_Ok. setoid_rewrite validate_references_Ok.
  rewrite !orb_false_iff, negb_false_iff, N.eqb_eq, N.ltb_ge, N.eqb_neq, N.leb_gt.
  setoid_rewrite orb_false_iff. setoid_rewrite bool_decide_negb_false.
  setoid_rewrite optional_Ok. setoid_rewrite lookup_Ok. setoid_rewrite reject_if_Ok.
  repeat setoid_rewrite orb_false_iff. setoid_rewrite bool_decide_negb_false.
  setoid_rewrite bool_decide_eq_false. setoid_rewrite Z.ltb_ge. split.
  - intros ((((? & ?) & ?) & ?) & a & Ha & (? & ?) & ? & ? & Hold). split_and!; try done; try lia; [eauto|].
    intros id Hid. destruct (Hold id Hid) as (old & ? & ((? & ?) & ?) & ?). eauto 10.
  - intros (? & (? & ?) & ? & (a & Ha & ? & ?) & ? & ? & Hold). split_and!; try done; try lia.
    exists a. split_and!; try done.
    intros id Hid. destruct (Hold id Hid) as (old & ? & ? & ? & ? & ?). eauto 10.
Qed.

(** The author shape of a Handoff. *)
Lemma handoff_author_Ok (h : RoleHandoff) (member : PublicKey) :
  match hof_system_generated h, hof_created_by h with
  | true, None => Ok tt
  | false, Some created_by =>
      if decide (created_by = member) then
        reject_if (negb (member_authored_cause (hof_cause h))) RoleContinuityError.HandoffCauseInvalid
      else Err (invalid_state "Handoff author shape is invalid")
  | _, _ => Err (invalid_state "Handoff author shape is invalid")
  end = Ok tt ↔
  if hof_system_generated h then hof_created_by h = None
  else hof_created_by h = Some member ∧ member_authored_cause (hof_cause h) = true.
Proof.
  destruct (hof_system_generated h), (hof_created_by h) as [by_|]; try naive_solver.
  case_decide; [|naive_solver]. rewrite reject_if_Ok, negb_false_iff. naive_solver.
Qed.

Lemma validate_affected_Ok self h id :
  validate_affected self h id = Ok tt ↔
  ∃ c, st_commitments self !! id = Some c ∧ com_assignment_id c = hof_from_assignment_id h.
Proof.
  unfold validate_affected. rewrite lookup_Ok. setoid_rewrite reject_if_Ok.
  by setoid_rewrite bool_decide_negb_false.
Qed.

#[local] Opaque validate_affected.

Lemma validate_handoff_Ok self h : validate_handoff self h = Ok tt ↔ handoff_ok self h.
Proof.
  unfold validate_handoff, handoff_ok. rewrite guard_Ok, lookup_Ok.
  rewrite orb_false_iff, negb_false_iff, N.eqb_eq, N.ltb_ge.
  setoid_rewrite guard_Ok. repeat setoid_rewrite seq_Ok. setoid_rewrite handoff_author_Ok.
  setoid_rewrite validate_references_Ok. setoid_rewrite for_each_Ok.
  setoid_rewrite validate_affected_Ok. repeat setoid_rewrite optional_Ok.
  repeat setoid_rewrite lookup_Ok. repeat setoid_rewrite reject_if_Ok.
  setoid_rewrite orb_false_iff. repeat setoid_rewrite bool_decide_negb_false.
  split.
  - intros ((? & ?) & from & ?). eauto.
  - intros (? & ? & from & ?). eauto.
Qed.

(** One more row seen. *)
Lemma seen_cons {A K} (active : A → bool) (key : A → K) (k : K) (x : A) (seen : list A) :
  (∃ y, y ∈ x :: seen ∧ active y = true ∧ key y = k) ↔
  (active x = true ∧ key x = k) ∨ ∃ y, y ∈ seen ∧ active y = true ∧ key y = k.
Proof. setoid_rewrite elem_of_cons. naive_solver. Qed.

(** The accumulator of the loop over the Assignments. *)
Definition seats_seen (seen : list RoleAssignment) (acc : gset Uuid * gset PublicKey) : Prop :=
  (∀ r, r ∈ acc.1 ↔ ∃ a, a ∈ seen ∧ RoleAssignment_is_active a = true ∧ asg_role_id a = r) ∧
  (∀ m, m ∈ acc.2 ↔ ∃ a, a ∈ seen ∧ RoleAssignment_is_active a = true ∧ asg_member_pubkey a = m).

Lemma seats_seen_apart seen acc a :
  seats_seen seen acc → RoleAssignment_is_active a = true →
  (asg_role_id a ∉ acc.1) ∧ (asg_member_pubkey a ∉ acc.2) ↔ Forall (λ b, seats_apart b a) seen.
Proof.
  intros [Hr Hm] Ha. rewrite Hr, Hm, Forall_forall. unfold seats_apart. split.
  - intros [Hnr Hnm] b Hb Hact _. split; intros Heq; [apply Hnr|apply Hnm]; eauto.
  - intros Hall. split; intros (b & Hb & Hact & Heq); destruct (Hall b Hb Hact Ha); done.
Qed.

Lemma validate_assignment_Ok self seen acc a acc' :
  seats_seen seen acc →
  validate_assignment self acc a = Ok acc' ↔
  assignment_ok self a ∧ Forall (λ b, seats_apart b a) seen ∧
  acc' = (if RoleAssignment_is_active a
          then ({[ asg_role_id a ]} ∪ acc.1, {[ asg_member_pubkey a ]} ∪ acc.2) else acc).
Proof.
  intros Hseen. destruct acc as [roles members]. unfold validate_assignment, assignment_ok, seated.
  rewrite lookup_Ok. destruct (RoleAssignment_is_active a) eqn:Ha.
  - rewrite <- (seats_seen_apart _ _ _ Hseen Ha). simpl. repeat setoid_rewrite guard_Ok.
    setoid_rewrite lookup_Ok. setoid_rewrite guard_Ok. setoid_rewrite community_role_agrees.
    setoid_rewrite option_filter_Some. setoid_rewrite andb_true_iff.
    setoid_rewrite opt_is_some_true. setoid_rewrite negb_false_iff.
    setoid_rewrite bool_decide_eq_false. split.
    + intros (role & ? & ? & ? & ? & m & (? & ? & ?) & ? & [= <-]). eauto 15.
    + intros ((role & ? & ? & m & ? & ? & Hagree) & (? & ?) & ->).
      exists role. split_and!; try done. exists m. split_and!; try done.
      destruct Hagree as [-> | ->]; eauto.
  - setoid_rewrite guard_Ok. setoid_rewrite orb_false_iff. repeat setoid_rewrite negb_false_iff.
    repeat setoid_rewrite opt_is_some_true. split.
    + intros (role & ? & (? & ?) & [= <-]). split_and!; [eauto| |done].
      apply Forall_true. intros b _ Hact. congruence.
    + intros ((role & ? & ? & ?) & _ & ->). eauto 10.
Qed.

Lemma seats_seen_step self seen acc a acc' :
  seats_seen seen acc → validate_assignment self acc a = Ok acc' → seats_seen (a :: seen) acc'.
Proof.
  intros Hseen (_ & _ & ->)%(validate_assignment_Ok _ _ _ _ _ Hseen). destruct Hseen as [Hr Hm].
  split; intros x; rewrite (seen_cons RoleAssignment_is_active _ x a seen), <- ?Hr, <- ?Hm;
    destruct (RoleAssignment_is_active a); set_solver.
Qed.

Lemma validate_assignments_Ok self :
  is_Ok (try_fold (validate_assignment self) (∅, ∅) (btree_values (st_assignments self))) ↔
  map_Forall (λ _, assignment_ok self) (st_assignments self) ∧
  (∀ i j a b, st_assignments self !! i = Some a → st_assignments self !! j = Some b →
     i ≠ j → seats_apart a b).
Proof.
  rewrite (try_fold_pairs _ (assignment_ok self) seats_apart seats_seen).
  - rewrite Forall_btree_values, btree_values_pairs
      by (intros a b H Hb Ha; destruct (H Ha Hb); auto).
    split; [by intros (? & ? & _)|]. intros (? & ?). split_and!; [done..|].
    by apply Forall_true.
  - intros seen acc a Hseen. unfold is_Ok. setoid_rewrite (validate_assignment_Ok _ _ _ _ _ Hseen).
    naive_solver.
  - intros seen acc a acc'. apply seats_seen_step.
  - split; intros x; split; [set_solver|intros (? & ?%elem_of_nil & _)|set_solver|
      intros (? & ?%elem_of_nil & _)]; done.
Qed.

(** The accumulator of the loop over the Commitments. *)
Definition work_seen (seen : list WorkCommitment) (acc : gset Uuid) : Prop :=
  ∀ w, w ∈ acc ↔ ∃ c, c ∈ seen ∧ WorkCommitment_is_active c = true ∧ com_work_id c = w.

Lemma work_seen_apart seen acc c :
  work_seen seen acc → WorkCommitment_is_active c = true →
  com_work_id c ∉ acc ↔ Forall (λ d, commitments_apart d c) seen.
Proof.
  intros Hw Hc. rewrite (Hw _), Forall_forall. unfold commitments_apart. split.
  - intros Hn d Hd Hact _ Heq. apply Hn. eauto.
  - intros Hall (d & Hd & Hact & Heq). by destruct (Hall d Hd Hact Hc).
Qed.

Lemma validate_commitment_Ok self seen acc c acc' :
  work_seen seen acc →
  validate_commitment self acc c = Ok acc' ↔
  commitment_ok self c ∧ Forall (λ d, commitments_apart d c) seen ∧
  acc' = (if WorkCommitment_is_active c then {[ com_work_id c ]} ∪ acc else acc).
Proof.
  intros Hseen. unfold validate_commitment, commitment_ok.
  rewrite lookup_Ok. setoid_rewrite lookup_Ok. setoid_rewrite guard_Ok.
  setoid_rewrite bool_decide_negb_false. destruct (WorkCommitment_is_active c) eqn:Hc.
  - rewrite <- (work_seen_apart _ _ _ Hseen Hc). repeat setoid_rewrite guard_Ok.
    repeat setoid_rewrite negb_false_iff. setoid_rewrite bool_decide_eq_true.
    setoid_rewrite bool_decide_eq_false. split.
    + intros (a & ? & w & ? & ? & ? & ? & ? & ? & [= <-]). eauto 15.
    + intros ((a & w & ? & ? & ? & ? & ? & ?) & ? & ->). eauto 15.
  - setoid_rewrite guard_Ok. setoid_rewrite orb_false_iff. repeat setoid_rewrite negb_false_iff.
    repeat setoid_rewrite opt_is_some_true. split.
    + intros (a & ? & w & ? & ? & (? & ?) & [= <-]). split_and!; [eauto 10| |done].
      apply Forall_true. intros d _ Hact. congruence.
    + intros ((a & w & ? & ? & ? & ? & ?) & _ & ->). eauto 15.
Qed.

Lemma validate_commitments_Ok self :
  is_Ok (try_fold (validate_commitment self) ∅ (btree_values (st_commitments self))) ↔
  map_Forall (λ _, commitment_ok self) (st_commitments self) ∧
  (∀ i j c d, st_commitments self !! i = Some c → st_commitments self !! j = Some d →
     i ≠ j → commitments_apart c d).
Proof.
  rewrite (try_fold_pairs _ (commitment_ok self) commitments_apart work_seen).
  - rewrite Forall_btree_values, btree_values_pairs
      by (intros c d H Hd Hc; apply not_eq_sym; auto).
    split; [by intros (? & ? & _)|]. intros (? & ?). split_and!; [done..|].
    by apply Forall_true.
  - intros seen acc c Hseen. unfold is_Ok. setoid_rewrite (validate_commitment_Ok _ _ _ _ _ Hseen).
    naive_solver.
  - intros seen acc c acc' Hseen (_ & _ & ->)%(validate_commitment_Ok _ _ _ _ _ Hseen) x.
    rewrite (seen_cons WorkCommitment_is_active _ x c seen), <- (Hseen x).
    destruct (WorkCommitment_is_active c); set_solver.
  - intros x. split; [set_solver|]. by intros (? & ?%elem_of_nil & _).
Qed.

(** [is_Ok] of a checking loop. *)
Lemma is_Ok_seq {A B} (c : RoleResult A) (k : RoleResult B) b :
  (c ?; k) = Ok b ↔ is_Ok c ∧ k = Ok b.
Proof. rewrite rbind_Ok. unfold is_Ok. naive_solver. Qed.

Lemma is_Ok_for_each {A} (f : A → RoleResult unit) xs :
  is_Ok (for_each f xs) ↔ Forall (λ x, f x = Ok tt) xs.
Proof. unfold is_Ok. setoid_rewrite for_each_Ok. naive_solver. Qed.

(** The aggregate check decides [role_valid]. *)
Lemma validate_role_state_Ok self : validate_role_state self = Ok tt ↔ role_valid self.
Proof.
  unfold validate_role_state. rewrite guard_Ok, !is_Ok_seq, validate_assignments_Ok,
    validate_commitments_Ok, !is_Ok_for_each, !Forall_btree_values, orb_false_iff, N.eqb_neq, N.ltb_ge.
  setoid_rewrite validate_work_Ok. setoid_rewrite validate_checkpoint_Ok.
  setoid_rewrite validate_handoff_Ok. split.
  - intros ((? & ?) & (? & ?) & ? & (? & ?) & ? & ? & _). split; try done; lia.
  - intros []. split_and!; try done; lia.
Qed.

End valid.
