(* ===== verification/RoleEdits.v ===== *)
(** * Role continuity: the edits in closed form

    Each edit of the reducer succeeds exactly under conditions on the rows it
    looks up, and its result is the state with one or two maps replaced.  The
    identifiers of the rows are the keys of the maps, as snapshot loading
    establishes. *)

From stdpp Require Import prelude strings gmap fin_maps.
From S2P Require Import Prelude Text Platform ViewModel ViewContract.
From S2P Require Import RoleGovernance RoleModel RoleCommand RoleState RoleReducer RoleFacts.

(** Rows stored under their identifiers. *)
Definition keyed {K V} `{Countable K} (key : V → K) (m : gmap K V) : Prop :=
  ∀ k v, m !! k = Some v → key v = k.

Lemma keyed_empty {K V} `{Countable K} (key : V → K) : keyed key (∅ : gmap K V).
Proof. intros k v. by rewrite lookup_empty. Qed.

Lemma keyed_insert {K V} `{Countable K} (key : V → K) (m : gmap K V) k v :
  keyed key m → key v = k → keyed key (<[k := v]> m).
Proof. intros Hm Hv j w [[<- <-]|[_ Hj]]%lookup_insert_Some; eauto. Qed.

Lemma keyed_fmap {K V} `{Countable K} (key : V → K) (m : gmap K V) (f : V → V) :
  (∀ v, key (f v) = key v) → keyed key m → keyed key (f <$> m).
Proof. intros Hf Hm k v (w & <- & Hw)%lookup_fmap_Some. rewrite Hf. eauto. Qed.

Section edits.
Context `{P : Platform}.
Implicit Types (self : RoleContinuityState).

(** The identifiers are the keys, and Roles and Work can be referred to. *)
Record role_keyed self : Prop := mkRoleKeyed {
  rk_roles : keyed slot_role_id (st_roles self);
  rk_works : keyed work_work_id (st_works self);
  rk_members : keyed pubkey (st_members self);
  rk_proposals : keyed prop_proposal_id (st_proposals self);
  rk_assignments : keyed asg_assignment_id (st_assignments self);
  rk_commitments : keyed com_commitment_id (st_commitments self);
  rk_checkpoints : keyed chk_checkpoint_id (st_checkpoints self);
  rk_handoffs : keyed hof_handoff_id (st_handoffs self);
  rk_objects : dom (st_roles self) ∪ dom (st_works self) ⊆ st_referenceable_objects self;
}.

(** ** Revisions *)

(** The entity revision after a touch, when there is room. *)
Definition bumped (revision project_revision next_revision : N) : N :=
  if (project_revision =? next_revision)%N then revision else (revision + 1)%N.

Definition room (revision project_revision next_revision : N) : Prop :=
  project_revision = next_revision ∨ (revision < MAX_SAFE_REVISION)%N.

Lemma bump_Ok revision r :
  bump revision = Ok r ↔ r = (revision + 1)%N ∧ (revision < MAX_SAFE_REVISION)%N.
Proof.
  unfold bump. rewrite ok_or_Ok, option_filter_Some, u64_checked_add_Some, N.leb_le.
  unfold MAX_SAFE_REVISION, u64_max. split; [intros ((-> & ?) & ?)|intros (-> & ?)]; lia.
Qed.

Lemma touched_Ok revision project_revision next_revision r :
  touched revision project_revision next_revision = Ok r ↔
  r = bumped revision project_revision next_revision ∧ room revision project_revision next_revision.
Proof.
  unfold touched, bumped, room. destruct (N.eqb_spec project_revision next_revision).
  - naive_solver.
  - rewrite bump_Ok. naive_solver.
Qed.

(** ** Rows *)

Definition closed_commitment (actor : PublicKey) (reason : CommitmentEndReason) (t : DateTime)
    (next : N) (c : WorkCommitment) : WorkCommitment :=
  com_update c (Some t) (Some actor) (Some reason)
    (bumped (com_entity_revision c) (com_project_revision c) next) next.

Definition closed_assignment (actor : PublicKey) (reason : AssignmentEndReason)
    (replaced_by : option Uuid) (t : DateTime) (next : N) (a : RoleAssignment) : RoleAssignment :=
  asg_update a (asg_replacement_requested_at a) (asg_replacement_request_reason a)
    (asg_unable_reported_at a) (asg_unable_report_reason a) (Some t) (Some actor) (Some reason)
    replaced_by (bumped (asg_entity_revision a) (asg_project_revision a) next) next.

Definition commitment_room (next : N) (c : WorkCommitment) : Prop :=
  room (com_entity_revision c) (com_project_revision c) next.
Definition assignment_room (next : N) (a : RoleAssignment) : Prop :=
  room (asg_entity_revision a) (asg_project_revision a) next.
Definition proposal_room (next : N) (p : RoleAssignmentProposal) : Prop :=
  room (prop_entity_revision p) (prop_project_revision p) next.

Lemma touch_commitment_Ok c next c' :
  touch_commitment c next = Ok c' ↔
  commitment_room next c ∧
  c' = com_update c (com_ended_at c) (com_ended_by c) (com_ended_reason c)
         (bumped (com_entity_revision c) (com_project_revision c) next) next.
Proof.
  unfold touch_commitment, commitment_room. rewrite rbind_Ok. setoid_rewrite touched_Ok. naive_solver.
Qed.

Lemma touch_assignment_Ok a next a' :
  touch_assignment a next = Ok a' ↔
  assignment_room next a ∧
  a' = asg_update a (asg_replacement_requested_at a) (asg_replacement_request_reason a)
         (asg_unable_reported_at a) (asg_unable_report_reason a) (asg_ended_at a) (asg_ended_by a)
         (asg_ended_reason a) (asg_replaced_by_assignment_id a)
         (bumped (asg_entity_revision a) (asg_project_revision a) next) next.
Proof.
  unfold touch_assignment, assignment_room. rewrite rbind_Ok. setoid_rewrite touched_Ok. naive_solver.
Qed.

Lemma touch_proposal_Ok p next p' :
  touch_proposal p next = Ok p' ↔
  proposal_room next p ∧
  p' = prop_update p (prop_candidate_accepted_at p) (prop_authorized_by p) (prop_authorized_at p)
         (prop_status p) (prop_reason p) (prop_resolved_at p)
         (bumped (prop_entity_revision p) (prop_project_revision p) next) next.
Proof.
  unfold touch_proposal, proposal_room. rewrite rbind_Ok. setoid_rewrite touched_Ok. naive_solver.
Qed.

(** ** Lookups *)

Lemma active_assignment_Ok self id a :
  active_assignment self id = Ok a ↔
  st_assignments self !! id = Some a ∧ RoleAssignment_is_active a = true.
Proof.
  unfold active_assignment. rewrite lookup_Ok. split.
  - intros (b & Hb & H). destruct (RoleAssignment_is_active b) eqn:Hb2; naive_solver.
  - intros (Ha & Hact). exists a. by rewrite Hact.
Qed.

Lemma active_commitment_Ok self id c :
  active_commitment self id = Ok c ↔
  st_commitments self !! id = Some c ∧ WorkCommitment_is_active c = true.
Proof.
  unfold active_commitment. rewrite lookup_Ok. split.
  - intros (b & Hb & H). destruct (WorkCommitment_is_active b) eqn:Hb2; naive_solver.
  - intros (Hc & Hact). exists c. by rewrite Hact.
Qed.

Lemma open_proposal_Ok self id t p :
  open_proposal self id t = Ok p ↔
  st_proposals self !! id = Some p ∧ prop_status p = ProposalStatus.Open ∧ (t < prop_expires_at p)%Z.
Proof.
  unfold open_proposal. rewrite lookup_Ok. repeat setoid_rewrite guard_Ok.
  setoid_rewrite bool_decide_negb_false. setoid_rewrite Z.leb_gt. naive_solver.
Qed.

(** Searching the values of a map of rows for an active one. *)
Lemma find_key_Some {V} (key : V → Uuid) (p : V → bool) (m : gmap Uuid V) id :
  keyed key m → key <$> List.find p (btree_values m) = Some id →
  ∃ v, m !! id = Some v ∧ p v = true.
Proof.
  intros Hm (v & [Hin Hp]%find_some & ->)%fmap_Some.
  apply list_elem_of_In, elem_of_btree_values in Hin as [k Hk]. rewrite (Hm _ _ Hk). eauto.
Qed.

Lemma find_key_None {V} (key : V → Uuid) (p : V → bool) (m : gmap Uuid V) k v :
  key <$> List.find p (btree_values m) = None → m !! k = Some v → p v = false.
Proof.
  intros Hf%fmap_None Hk. eapply find_none; [exact Hf|].
  apply list_elem_of_In, elem_of_btree_values. eauto.
Qed.

Lemma active_assignment_for_member_Some self member id :
  role_keyed self → active_assignment_for_member self member = Some id →
  ∃ a, st_assignments self !! id = Some a ∧ RoleAssignment_is_active a = true ∧
       asg_member_pubkey a = member.
Proof.
  intros Hk (a & Ha & [Hm Hact]%andb_true_iff)%(find_key_Some _ _ _ _ (rk_assignments _ Hk)).
  apply bool_decide_eq_true in Hm. eauto.
Qed.

Lemma active_assignment_for_role_Some self role_id id :
  role_keyed self → active_assignment_for_role self role_id = Some id →
  ∃ a, st_assignments self !! id = Some a ∧ RoleAssignment_is_active a = true ∧
       asg_role_id a = role_id.
Proof.
  intros Hk (a & Ha & [Hm Hact]%andb_true_iff)%(find_key_Some _ _ _ _ (rk_assignments _ Hk)).
  apply bool_decide_eq_true in Hm. eauto.
Qed.

(** ** Ending a Commitment and an Assignment *)

Lemma end_commitment_Ok self id actor reason t next self' :
  end_commitment self id actor reason t next = Ok self' ↔
  ∃ c, st_commitments self !! id = Some c ∧ WorkCommitment_is_active c = true ∧
    commitment_room next c ∧
    self' = set_commitments self
              (<[id := closed_commitment actor reason t next c]> (st_commitments self)).
Proof.
  unfold end_commitment. rewrite rbind_Ok. setoid_rewrite active_commitment_Ok.
  setoid_rewrite rbind_Ok. setoid_rewrite touch_commitment_Ok. split.
  - intros (c & [Hc Hact] & c' & [Hroom ->] & [= <-]). exists c. by split_and!.
  - intros (c & Hc & Hact & Hroom & ->). exists c. split; [done|]. eexists. by split_and!.
Qed.

(** Applying a function to the rows with the given keys, and to no other. *)
Definition update_keys {V} (f : V → V) (ids : list Uuid) (m : gmap Uuid V) : gmap Uuid V :=
  map_imap (λ id v, Some (if bool_decide (id ∈ ids) then f v else v)) m.

Lemma lookup_update_keys {V} (f : V → V) ids (m : gmap Uuid V) k :
  update_keys f ids m !! k = (λ v, if bool_decide (k ∈ ids) then f v else v) <$> m !! k.
Proof. unfold update_keys. rewrite map_lookup_imap. by destruct (m !! k). Qed.

Lemma update_keys_nil {V} (f : V → V) (m : gmap Uuid V) : update_keys f [] m = m.
Proof.
  apply map_eq. intros k. rewrite lookup_update_keys, bool_decide_eq_false_2 by apply not_elem_of_nil.
  by destruct (m !! k).
Qed.

Lemma update_keys_cons {V} (f : V → V) id ids (m : gmap Uuid V) v :
  id ∉ ids → m !! id = Some v → update_keys f ids (<[id := f v]> m) = update_keys f (id :: ids) m.
Proof.
  intros Hid Hv. apply map_eq. intros k. rewrite !lookup_update_keys.
  destruct (decide (k = id)) as [->|Hne].
  - rewrite lookup_insert_eq, Hv. simpl.
    by rewrite (bool_decide_eq_false_2 _ Hid), (bool_decide_eq_true_2 _ (list_elem_of_here _ _)).
  - rewrite lookup_insert_ne by done. rewrite (bool_decide_ext (k ∈ id :: ids) (k ∈ ids)); [done|].
    rewrite elem_of_cons. naive_solver.
Qed.

(** Closing a list of Commitments one after the other. *)
Lemma end_commitments_Ok actor reason t next ids self self' :
  NoDup ids →
  try_fold (λ self id, end_commitment self id actor reason t next) self ids = Ok self' ↔
  (∀ id, id ∈ ids → ∃ c, st_commitments self !! id = Some c ∧
     WorkCommitment_is_active c = true ∧ commitment_room next c) ∧
  self' = set_commitments self
            (update_keys (closed_commitment actor reason t next) ids (st_commitments self)).
Proof.
  intros Hids. revert self. induction Hids as [|id ids Hid _ IH]; intros self; simpl.
  - rewrite update_keys_nil. split.
    + intros [= <-]. split; [by intros ? ?%elem_of_nil|]. by destruct self.
    + intros [_ ->]. by destruct self.
  - rewrite rbind_Ok. setoid_rewrite end_commitment_Ok. setoid_rewrite IH. clear IH. split.
    + intros (mid & (c & Hc & Hact & Hroom & ->) & Hall & ->). simpl in *. split.
      * intros k [->|Hk]%elem_of_cons; [eauto|]. destruct (Hall k Hk) as (d & Hd & ?).
        rewrite lookup_insert_ne in Hd by (by intros ->). eauto.
      * by rewrite update_keys_cons.
    + intros [Hall ->]. destruct (Hall id (list_elem_of_here _ _)) as (c & Hc & Hact & Hroom).
      eexists. split; [by exists c; split_and!|]. simpl. split.
      * intros k Hk. rewrite lookup_insert_ne by (by intros ->). apply Hall. by constructor.
      * by rewrite update_keys_cons.
Qed.

(** The active Commitments of an Assignment. *)
Definition held_by (assignment_id : Uuid) (c : WorkCommitment) : bool :=
  bool_decide (com_assignment_id c = assignment_id) && WorkCommitment_is_active c.

Lemma elem_of_commitments_of self assignment_id id :
  keyed com_commitment_id (st_commitments self) →
  id ∈ commitments_of self assignment_id ↔
  ∃ c, st_commitments self !! id = Some c ∧ held_by assignment_id c = true.
Proof.
  intros Hk. unfold commitments_of. rewrite list_elem_of_fmap.
  setoid_rewrite list_elem_of_In. setoid_rewrite filter_In. setoid_rewrite <- list_elem_of_In.
  setoid_rewrite elem_of_btree_values. split.
  - intros (c & -> & [k Hc] & Hheld). rewrite (Hk _ _ Hc). eauto.
  - intros (c & Hc & Hheld). exists c. rewrite (Hk _ _ Hc). eauto.
Qed.

Lemma commitments_of_NoDup self assignment_id :
  keyed com_commitment_id (st_commitments self) → NoDup (commitments_of self assignment_id).
Proof.
  intros Hk. unfold commitments_of.
  assert (Hvalues : NoDup (com_commitment_id <$> btree_values (st_commitments self))).
  { unfold btree_values. rewrite <- list_fmap_compose.
    rewrite (Forall_fmap_ext_1 _ fst (btree_iter (st_commitments self))).
    - rewrite btree_iter_perm. apply NoDup_fst_map_to_list.
    - rewrite Forall_btree_iter. intros k c. apply Hk. }
  induction (btree_values (st_commitments self)) as [|c l IH]; [constructor|].
  apply NoDup_cons in Hvalues as [Hc Hl]. simpl. case_match; [|by apply IH].
  simpl. constructor; [|by apply IH]. contradict Hc. apply list_elem_of_fmap in Hc as (d & -> & Hd).
  apply list_elem_of_In, filter_In in Hd as [Hd _]. apply list_elem_of_fmap. exists d.
  by rewrite list_elem_of_In.
Qed.

(** The commitments after the ones of an Assignment are closed. *)
Definition release (close : WorkCommitment → WorkCommitment) (assignment_id : Uuid)
    (m : gmap Uuid WorkCommitment) : gmap Uuid WorkCommitment :=
  (λ c, if held_by assignment_id c then close c else c) <$> m.

Lemma update_keys_release self close assignment_id :
  keyed com_commitment_id (st_commitments self) →
  update_keys close (commitments_of self assignment_id) (st_commitments self) =
  release close assignment_id (st_commitments self).
Proof.
  intros Hk. apply map_eq. intros k. rewrite lookup_update_keys. unfold release. rewrite lookup_fmap.
  destruct (st_commitments self !! k) as [c|] eqn:Hc; [|done]. simpl. f_equal.
  destruct (held_by assignment_id c) eqn:Hheld.
  - rewrite bool_decide_eq_true_2; [done|]. rewrite elem_of_commitments_of by done. eauto.
  - rewrite bool_decide_eq_false_2; [done|]. rewrite elem_of_commitments_of by done.
    intros (d & Hd & ?). congruence.
Qed.

(** The state after an Assignment and its active Commitments are closed. *)
Definition ended_state self (id : Uuid) (actor : PublicKey) (reason : AssignmentEndReason)
    (replaced_by : option Uuid) (t : DateTime) (next : N) (a : RoleAssignment) : RoleContinuityState :=
  set_commitments
    (set_assignments self
       (<[id := closed_assignment actor reason replaced_by t next a]> (st_assignments self)))
    (release (closed_commitment actor CommitmentEndReason.AssignmentEnded t next) id
       (st_commitments self)).

Lemma end_assignment_Ok self id actor reason replaced_by t next self' ids :
  role_keyed self →
  end_assignment self id actor reason replaced_by t next = Ok (self', ids) ↔
  ids = commitments_of self id ∧
  ∃ a, st_assignments self !! id = Some a ∧ RoleAssignment_is_active a = true ∧
    assignment_room next a ∧
    (∀ k c, st_commitments self !! k = Some c → held_by id c = true → commitment_room next c) ∧
    self' = ended_state self id actor reason replaced_by t next a.
Proof.
  intros Hk. pose proof (rk_commitments _ Hk) as Hc.
  unfold end_assignment, ended_state. rewrite rbind_Ok. setoid_rewrite active_assignment_Ok.
  setoid_rewrite rbind_Ok. setoid_rewrite touch_assignment_Ok. setoid_rewrite rbind_Ok.
  setoid_rewrite end_commitments_Ok; [|by apply commitments_of_NoDup].
  assert (Hof : ∀ m, commitments_of (set_assignments self m) id = commitments_of self id) by done.
  split.
  - intros (a & [Ha Hact] & a' & [Hroom ->] & mid & [Hall ->] & [= <- <-]). split; [done|].
    exists a. split_and!; try done.
    + intros k c Hkc Hheld. destruct (Hall k) as (d & Hd & ? & ?).
      * rewrite elem_of_commitments_of by done. eauto.
      * simpl in *. naive_solver.
    + rewrite Hof. simpl. by rewrite (update_keys_release self).
  - intros (-> & a & Ha & Hact & Hroom & Hall & ->). exists a. split; [done|].
    eexists. split; [by split|]. eexists. split; [split|].
    + intros k (c & Hkc & Hheld)%elem_of_commitments_of; [|done]. exists c.
      split_and!; eauto. by apply andb_true_iff in Hheld as [_ ?].
    + done.
    + rewrite Hof. simpl. by rewrite (update_keys_release self).
Qed.

End edits.

(** Take a successful edit apart, down to the rows it looked up. *)
Ltac role_inv :=
  ok_inv; bool_props;
  repeat match goal with
  | H : opt_is_some _ = false |- _ => apply opt_is_some_false in H
  | H : opt_is_some _ = true |- _ => apply opt_is_some_true in H
  | H : option_filter _ _ = Some _ |- _ => apply option_filter_Some in H as [? ?]
  | H : active_assignment _ _ = Ok _ |- _ => apply active_assignment_Ok in H as [? ?]
  | H : active_commitment _ _ = Ok _ |- _ => apply active_commitment_Ok in H as [? ?]
  | H : open_proposal _ _ _ = Ok _ |- _ => apply open_proposal_Ok in H as (? & ? & ?)
  | H : touch_proposal _ _ = Ok _ |- _ => apply touch_proposal_Ok in H as [? ->]
  | H : touch_assignment _ _ = Ok _ |- _ => apply touch_assignment_Ok in H as [? ->]
  end.
