(* ===== verification/RoleHistory.v ===== *)
(** * Role continuity: how rows evolve

    One command moves rows forward only: ended, resolved and appended rows
    never change, identities never change, every row a command changes gets one
    revision, and nothing disappears.  Each edit is shown to respect that
    relation, and the reducer composes edits. *)

From stdpp Require Import prelude strings gmap fin_maps.
From S2P Require Import Prelude Text Platform ViewModel ViewContract.
From S2P Require Import RoleGovernance RoleModel RoleCommand RoleState RoleReducer RoleFacts RoleEdits.

(** ** Maps that only grow and advance *)

Definition map_step {K V} `{Countable K} (R : V → V → Prop) (fresh : K → V → Prop)
    (m m' : gmap K V)
  : Prop :=
  ∀ k, match m !! k, m' !! k with
       | Some v, Some v' => R v v'
       | None, Some v' => fresh k v'
       | Some _, None => False
       | None, None => True
       end.

Section map_step.
Context {K V} `{Countable K} (R : V → V → Prop) (fresh : K → V → Prop).
Context `{!PreOrder R} (fresh_step : ∀ k v w, fresh k v → R v w → fresh k w).
Implicit Types (m : gmap K V).

Lemma map_step_refl m : map_step R fresh m m.
Proof. intros k. by destruct (m !! k). Qed.

Lemma map_step_trans m1 m2 m3 :
  map_step R fresh m1 m2 → map_step R fresh m2 m3 → map_step R fresh m1 m3.
Proof using All.
  intros H12 H23 k. specialize (H12 k). specialize (H23 k).
  destruct (m1 !! k), (m2 !! k), (m3 !! k); try done; [by etrans|eauto].
Qed.

Lemma map_step_insert m k v' :
  match m !! k with Some v => R v v' | None => fresh k v' end → map_step R fresh m (<[k := v']> m).
Proof using PreOrder0.
  intros Hk j. destruct (decide (j = k)) as [->|Hne].
  - rewrite lookup_insert_eq. by destruct (m !! k).
  - rewrite lookup_insert_ne by done. by destruct (m !! j).
Qed.

Lemma map_step_update m k v v' :
  m !! k = Some v → R v v' → map_step R fresh m (<[k := v']> m).
Proof using PreOrder0. intros Hk Hv. apply map_step_insert. by rewrite Hk. Qed.

Lemma map_step_add m k v' : m !! k = None → fresh k v' → map_step R fresh m (<[k := v']> m).
Proof using PreOrder0. intros Hk Hv. apply map_step_insert. by rewrite Hk. Qed.

Lemma map_step_fmap m (f : V → V) :
  (∀ k v, m !! k = Some v → R v (f v)) → map_step R fresh m (f <$> m).
Proof. intros Hf k. rewrite lookup_fmap. specialize (Hf k). destruct (m !! k); simpl; auto. Qed.

Lemma map_step_lookup m m' k v :
  map_step R fresh m m' → m !! k = Some v → ∃ v', m' !! k = Some v' ∧ R v v'.
Proof. intros Hm Hk. specialize (Hm k). rewrite Hk in Hm. destruct (m' !! k); [eauto|done]. Qed.

End map_step.

(** ** One revision per command *)

(** A row that a command with revision [next] may change: only while it is
    live, within [same], and with one more entity revision. *)
Definition stepped {A} (revision project_revision : A → N) (live : A → Prop) (same : A → A → Prop)
    (next : N) (x y : A) : Prop :=
  y = x ∨ (live x ∧ same x y ∧ project_revision y = next ∧
           revision y = bumped (revision x) (project_revision x) next).

Lemma bumped_same revision next : bumped revision next next = revision.
Proof. unfold bumped. by rewrite N.eqb_refl. Qed.

#[export] Instance stepped_preorder {A} revision project_revision live (same : A → A → Prop) next :
  Transitive same → PreOrder (stepped revision project_revision live same next).
Proof.
  intros Htrans. split; [by left|].
  intros x y z [->|(Hx & Hxy & Hpy & Hry)] [->|(Hy & Hyz & Hpz & Hrz)]; [by left|by right..|].
  right. split_and!; [done|by etrans|done|]. by rewrite Hrz, Hpy, bumped_same, Hry.
Qed.

(** A field that is written at most once. *)
Definition kept {A} (o o' : option A) : Prop := ∀ x, o = Some x → o' = Some x.

#[export] Instance kept_preorder {A} : PreOrder (@kept A).
Proof. split; [by intros o x|]. intros o1 o2 o3 H12 H23 x Hx. auto. Qed.

Lemma kept_none {A} (o : option A) : kept None o.
Proof. by intros x. Qed.

Section rows.
Context `{P : Platform}.

Definition prop_same (p q : RoleAssignmentProposal) : Prop :=
  prop_proposal_id q = prop_proposal_id p ∧ prop_role_id q = prop_role_id p ∧
  prop_candidate_pubkey q = prop_candidate_pubkey p ∧ prop_type q = prop_type p ∧
  prop_expected_target_assignment_id q = prop_expected_target_assignment_id p ∧
  prop_expected_candidate_assignment_id q = prop_expected_candidate_assignment_id p ∧
  prop_expires_at q = prop_expires_at p ∧ prop_created_by q = prop_created_by p ∧
  prop_created_at q = prop_created_at p ∧
  kept (prop_candidate_accepted_at p) (prop_candidate_accepted_at q) ∧
  kept (prop_authorized_at p) (prop_authorized_at q).

Definition asg_same (a b : RoleAssignment) : Prop :=
  asg_assignment_id b = asg_assignment_id a ∧ asg_role_id b = asg_role_id a ∧
  asg_member_pubkey b = asg_member_pubkey a ∧ asg_proposal_id b = asg_proposal_id a ∧
  asg_started_at b = asg_started_at a ∧ asg_started_by b = asg_started_by a ∧
  kept (asg_replacement_requested_at a) (asg_replacement_requested_at b) ∧
  kept (asg_unable_reported_at a) (asg_unable_reported_at b).

Definition com_same (c d : WorkCommitment) : Prop :=
  com_commitment_id d = com_commitment_id c ∧ com_work_id d = com_work_id c ∧
  com_assignment_id d = com_assignment_id c ∧ com_member_pubkey d = com_member_pubkey c ∧
  com_started_at d = com_started_at c ∧ com_started_by d = com_started_by c.

#[export] Instance prop_same_trans : Transitive prop_same.
Proof. unfold prop_same. intros p q r ? ?. destruct_and!. split_and!; try congruence; by etrans. Qed.
#[export] Instance asg_same_trans : Transitive asg_same.
Proof. unfold asg_same. intros p q r ? ?. destruct_and!. split_and!; try congruence; by etrans. Qed.
#[export] Instance com_same_trans : Transitive com_same.
Proof. unfold com_same. intros p q r ? ?. destruct_and!. split_and!; congruence. Qed.

Definition prop_step : N → RoleAssignmentProposal → RoleAssignmentProposal → Prop :=
  stepped prop_entity_revision prop_project_revision (λ p, prop_status p = ProposalStatus.Open) prop_same.
Definition asg_step : N → RoleAssignment → RoleAssignment → Prop :=
  stepped asg_entity_revision asg_project_revision (λ a, RoleAssignment_is_active a = true) asg_same.
Definition com_step : N → WorkCommitment → WorkCommitment → Prop :=
  stepped com_entity_revision com_project_revision (λ c, WorkCommitment_is_active c = true) com_same.

(** The first revision of a row. *)
Definition first_revision {A} (key : A → Uuid) (revision project_revision : A → N) (next : N)
    (id : Uuid) (x : A) : Prop :=
  key x = id ∧ revision x = 1%N ∧ project_revision x = next.

Lemma first_revision_stepped {A} key revision project_revision live same next id (x y : A) :
  (∀ x y, same x y → key y = key x) →
  first_revision key revision project_revision next id x →
  stepped revision project_revision live same next x y →
  first_revision key revision project_revision next id y.
Proof.
  intros Hkey (Hk & Hr & Hp) [->|(_ & Hsame & Hpy & Hry)]; [done|].
  split_and!; [by rewrite (Hkey _ _ Hsame)| |done]. by rewrite Hry, Hp, bumped_same, Hr.
Qed.

(** Work keeps its identity and status; a change raises its revision. *)
Definition work_step (w w' : WorkResponsibility) : Prop :=
  w' = w ∨ (work_work_id w' = work_work_id w ∧ work_status w' = work_status w ∧
            (work_object_revision w < work_object_revision w')%N).

#[export] Instance work_step_preorder : PreOrder work_step.
Proof.
  split; [by left|]. intros w1 w2 w3 [->|(?&?&?)] [->|(?&?&?)]; [by left|by right..|].
  right. split_and!; [congruence..|lia].
Qed.

(** Only the Community role of a Member changes, and owners stay owners. *)
Definition member_step (m m' : MemberGovernance) : Prop :=
  pubkey m' = pubkey m ∧ eligible m' = eligible m ∧
  managed_agent_owner m' = managed_agent_owner m ∧ is_owner m' = is_owner m.

#[export] Instance member_step_preorder : PreOrder member_step.
Proof.
  unfold member_step. split; [by intros m|].
  intros m1 m2 m3 ? ?. destruct_and!. split_and!; congruence.
Qed.

Definition prop_first := first_revision prop_proposal_id prop_entity_revision prop_project_revision.
Definition asg_first := first_revision asg_assignment_id asg_entity_revision asg_project_revision.
Definition com_first := first_revision com_commitment_id com_entity_revision com_project_revision.
Definition chk_first := first_revision chk_checkpoint_id chk_entity_revision chk_project_revision.
Definition hof_first := first_revision hof_handoff_id hof_entity_revision hof_project_revision.

Record role_step (next : N) (st st' : RoleContinuityState) : Prop := mkRoleStep {
  rs_objects : st_referenceable_objects st' = st_referenceable_objects st;
  rs_roles : st_roles st' = st_roles st;
  rs_works : map_step work_step (λ _ _, False) (st_works st) (st_works st');
  rs_members : map_step member_step (λ _ _, False) (st_members st) (st_members st');
  rs_proposals : map_step (prop_step next) (prop_first next)
    (st_proposals st) (st_proposals st');
  rs_assignments : map_step (asg_step next) (asg_first next)
    (st_assignments st) (st_assignments st');
  rs_commitments : map_step (com_step next) (com_first next)
    (st_commitments st) (st_commitments st');
  rs_checkpoints : map_step eq (chk_first next)
    (st_checkpoints st) (st_checkpoints st');
  rs_handoffs : map_step eq (hof_first next)
    (st_handoffs st) (st_handoffs st');
}.

#[export] Instance role_step_preorder next : PreOrder (role_step next).
Proof.
  split.
  - intros st. split; try done; apply map_step_refl; apply _.
  - intros s1 s2 s3 [] []. split; try congruence;
      (eapply map_step_trans; [apply _| |eassumption|eassumption]); intros k v w;
      try (apply first_revision_stepped; intros x y Hsame; apply Hsame); naive_solver.
Qed.

(** ** Identifiers stay the keys *)

Lemma keyed_step {V} (key : V → Uuid) (R : V → V → Prop) fresh (m m' : gmap Uuid V) :
  (∀ v w, R v w → key w = key v) → (∀ k v, fresh k v → key v = k) →
  map_step R fresh m m' → keyed key m → keyed key m'.
Proof.
  intros HR Hfresh Hm Hkey k v Hk. specialize (Hm k). rewrite Hk in Hm.
  destruct (m !! k) as [w|] eqn:Hw; [|by apply Hfresh]. rewrite (HR _ _ Hm). by apply Hkey.
Qed.

Lemma role_step_keyed next st st' : role_step next st st' → role_keyed st → role_keyed st'.
Proof.
  intros Hs Hk. split.
  - rewrite (rs_roles _ _ _ Hs). apply Hk.
  - eapply keyed_step; [| |exact (rs_works _ _ _ Hs)|exact (rk_works _ Hk)]; [|done]. intros v w [->|(? & _)]; congruence.
  - intros k v Hv. pose proof (rs_members _ _ _ Hs k) as Hm. rewrite Hv in Hm.
    destruct (st_members st !! k) as [w|] eqn:Hw; [|done].
    destruct Hm as (-> & _). by apply (rk_members _ Hk).
  - eapply keyed_step; [| |exact (rs_proposals _ _ _ Hs)|exact (rk_proposals _ Hk)]; [|by intros k v (? & _)]. intros v w [->|(_ & Hsame & _)]; [done|apply Hsame].
  - eapply keyed_step; [| |exact (rs_assignments _ _ _ Hs)|exact (rk_assignments _ Hk)]; [|by intros k v (? & _)]. intros v w [->|(_ & Hsame & _)]; [done|apply Hsame].
  - eapply keyed_step; [| |exact (rs_commitments _ _ _ Hs)|exact (rk_commitments _ Hk)]; [|by intros k v (? & _)]. intros v w [->|(_ & Hsame & _)]; [done|apply Hsame].
  - eapply keyed_step; [| |exact (rs_checkpoints _ _ _ Hs)|exact (rk_checkpoints _ Hk)]; [|by intros k v (? & _)]. by intros v w <-.
  - eapply keyed_step; [| |exact (rs_handoffs _ _ _ Hs)|exact (rk_handoffs _ Hk)]; [|by intros k v (? & _)]. by intros v w <-.
  - rewrite (rs_roles _ _ _ Hs), (rs_objects _ _ _ Hs). etrans; [|exact (rk_objects _ Hk)].
    apply union_mono_l. intros k [w Hw]%elem_of_dom. pose proof (rs_works _ _ _ Hs k) as Hm.
    rewrite Hw in Hm. apply elem_of_dom. by destruct (st_works st !! k).
Qed.

End rows.
