(* ===== verification/RoleSteps.v ===== *)
(** * Role continuity: every edit moves the state forward

    What each edit of the reducer requires and writes, and that it respects
    [role_step]; the reducer then does, request by request. *)

From stdpp Require Import prelude strings gmap fin_maps.
From S2P Require Import Prelude Text Platform ViewModel ViewContract.
From S2P Require Import RoleGovernance RoleModel RoleCommand RoleState RoleReducer RoleFacts RoleEdits.
From S2P Require Import RoleHistory.

Section steps.
Context `{P : Platform}.
Implicit Types (self : RoleContinuityState).

(** ** Writing one map *)

Ltac step_one := split; try done; try (apply map_step_refl; apply _).

Lemma step_proposals next self m :
  map_step (prop_step next) (prop_first next) (st_proposals self) m →
  role_step next self (set_proposals self m).
Proof. intros Hm. step_one. Qed.

Lemma step_assignments next self m :
  map_step (asg_step next) (asg_first next) (st_assignments self) m →
  role_step next self (set_assignments self m).
Proof. intros Hm. step_one. Qed.

Lemma step_commitments next self m :
  map_step (com_step next) (com_first next) (st_commitments self) m →
  role_step next self (set_commitments self m).
Proof. intros Hm. step_one. Qed.

Lemma step_checkpoints next self id k :
  st_checkpoints self !! id = None → chk_first next id k →
  role_step next self (set_checkpoints self (<[id := k]> (st_checkpoints self))).
Proof. intros Hid Hk. step_one. by apply map_step_add; [apply _|..]. Qed.

Lemma step_handoffs next self id h :
  st_handoffs self !! id = None → hof_first next id h →
  role_step next self (set_handoffs self (<[id := h]> (st_handoffs self))).
Proof. intros Hid Hh. step_one. by apply map_step_add; [apply _|..]. Qed.

Lemma step_works next self m :
  map_step work_step (λ _ _, False) (st_works self) m → role_step next self (set_works self m).
Proof. intros Hm. step_one. Qed.

Lemma step_members next self m :
  map_step member_step (λ _ _, False) (st_members self) m → role_step next self (set_members self m).
Proof. intros Hm. step_one. Qed.

(** ** Proposals *)

Definition accepted_proposal (t : DateTime) (next : N) (p : RoleAssignmentProposal) :=
  prop_update p (Some t) (prop_authorized_by p) (prop_authorized_at p) (prop_status p) (prop_reason p)
    (prop_resolved_at p) (bumped (prop_entity_revision p) (prop_project_revision p) next) next.

Definition authorized_proposal (actor : PublicKey) (t : DateTime) (next : N) (p : RoleAssignmentProposal) :=
  prop_update p (prop_candidate_accepted_at p) (Some actor) (Some t) (prop_status p) (prop_reason p)
    (prop_resolved_at p) (bumped (prop_entity_revision p) (prop_project_revision p) next) next.

Definition resolved_proposal (status : ProposalStatus) (reason : option Text) (t : DateTime) (next : N)
    (p : RoleAssignmentProposal) :=
  prop_update p (prop_candidate_accepted_at p) (prop_authorized_by p) (prop_authorized_at p) status
    reason (Some t) (bumped (prop_entity_revision p) (prop_project_revision p) next) next.

Definition new_proposal self (proposal_id role_id : Uuid) (candidate : PublicKey)
    (proposal_type : ProposalType) (expires_at : DateTime) (reason : option Text) (actor : PublicKey)
    (t : DateTime) (next : N) (authorizer : option PublicKey) : RoleAssignmentProposal :=
  mkRoleAssignmentProposal proposal_id role_id candidate proposal_type
    (if decide (proposal_type = ProposalType.Request) then Some t else None)
    authorizer ((λ _, t) <$> authorizer) (active_assignment_for_role self role_id)
    (option_filter (λ id, negb (bool_decide (Some id = active_assignment_for_role self role_id)))
       (active_assignment_for_member self candidate))
    expires_at ProposalStatus.Open reason actor t None 1 next.

Lemma create_proposal_Ok self id role_id candidate type expires_at reason actor t next authorizer self' :
  create_proposal self id role_id candidate type expires_at reason actor t next authorizer = Ok self' →
  let p := new_proposal self id role_id candidate type expires_at reason actor t next authorizer in
  st_proposals self !! id = None ∧
  (t < expires_at ≤ t + duration_days MAX_PROPOSAL_LIFETIME_DAYS)%Z ∧
  (∃ m, st_members self !! candidate = Some m ∧ eligible m = true) ∧
  (is_Some authorizer → authorize_complete_move self p actor = Ok tt) ∧
  self' = set_proposals self (<[id := p]> (st_proposals self)).
Proof.
  intros H p. unfold create_proposal, eligible_member in H. role_inv. split_and!; [done|lia|lia|eauto| |done].
  intros [by_ ->]. done.
Qed.

Lemma resolve_in_Ok self id status reason t next self' :
  resolve_in self id status reason t next = Ok self' →
  ∃ p, st_proposals self !! id = Some p ∧
       self' = set_proposals self
                 (<[id := resolved_proposal status reason t next p]> (st_proposals self)).
Proof.
  unfold resolve_in, resolve_proposal. intros H. role_inv. subst. eauto.
Qed.

Lemma accept_proposal_Ok self id actor t next self' :
  accept_proposal self id actor t next = Ok self' →
  ∃ p, st_proposals self !! id = Some p ∧ prop_status p = ProposalStatus.Open ∧
       (t < prop_expires_at p)%Z ∧ prop_candidate_pubkey p = actor ∧
       prop_candidate_accepted_at p = None ∧
       self' = set_proposals self (<[id := accepted_proposal t next p]> (st_proposals self)).
Proof.
  unfold accept_proposal. intros H. role_inv. subst. eauto 10.
Qed.

Lemma authorize_proposal_Ok self command id actor t next self' :
  authorize_proposal self command id actor t next = Ok self' →
  require_governor_fence self command actor = Ok tt ∧
  ∃ p, st_proposals self !! id = Some p ∧ prop_status p = ProposalStatus.Open ∧
       (t < prop_expires_at p)%Z ∧ prop_authorized_at p = None ∧
       authorize_complete_move self p actor = Ok tt ∧
       self' = set_proposals self (<[id := authorized_proposal actor t next p]> (st_proposals self)).
Proof.
  unfold authorize_proposal. intros H. role_inv. subst. eauto 10.
Qed.

(** A change of an open Proposal. *)
Lemma step_proposal next self id p p' :
  st_proposals self !! id = Some p → prop_status p = ProposalStatus.Open → prop_same p p' →
  prop_project_revision p' = next →
  prop_entity_revision p' = bumped (prop_entity_revision p) (prop_project_revision p) next →
  role_step next self (set_proposals self (<[id := p']> (st_proposals self))).
Proof.
  intros Hp Hopen Hsame Hnext Hrev. apply step_proposals.
  eapply map_step_update; [apply _|exact Hp|]. right. by split_and!.
Qed.

Lemma create_proposal_step self id role_id candidate type expires_at reason actor t next authorizer self' :
  create_proposal self id role_id candidate type expires_at reason actor t next authorizer = Ok self' →
  role_step next self self'.
Proof.
  intros (Hid & _ & _ & _ & ->)%create_proposal_Ok. apply step_proposals.
  apply map_step_add; [apply _|done|]. by split_and!.
Qed.

Lemma resolve_in_step self id status reason t next self' :
  (∀ p, st_proposals self !! id = Some p → prop_status p = ProposalStatus.Open) →
  resolve_in self id status reason t next = Ok self' → role_step next self self'.
Proof.
  intros Hopen (p & Hp & ->)%resolve_in_Ok. by eapply step_proposal; eauto; split_and!.
Qed.

Lemma accept_proposal_step self id actor t next self' :
  accept_proposal self id actor t next = Ok self' → role_step next self self'.
Proof.
  intros (p & Hp & Hopen & _ & _ & Hnone & ->)%accept_proposal_Ok.
  eapply step_proposal; eauto. split_and!; try done. simpl. rewrite Hnone. apply kept_none.
Qed.

Lemma authorize_proposal_step self command id actor t next self' :
  authorize_proposal self command id actor t next = Ok self' → role_step next self self'.
Proof.
  intros (_ & p & Hp & Hopen & _ & Hnone & _ & ->)%authorize_proposal_Ok.
  eapply step_proposal; eauto. split_and!; try done. simpl. rewrite Hnone. apply kept_none.
Qed.

(** ** Assignments, Commitments and history rows *)

Lemma closed_commitment_step actor reason t next c :
  WorkCommitment_is_active c = true → com_step next c (closed_commitment actor reason t next c).
Proof. intros Hact. right. by split_and!. Qed.

Lemma end_commitment_step self id actor reason t next self' :
  end_commitment self id actor reason t next = Ok self' → role_step next self self'.
Proof.
  intros (c & Hc & Hact & _ & ->)%end_commitment_Ok. apply step_commitments.
  eapply map_step_update; [apply _|exact Hc|]. by apply closed_commitment_step.
Qed.

Lemma create_commitment_Ok self id work_id assignment_id actor t next self' :
  create_commitment self id work_id assignment_id actor t next = Ok self' →
  st_commitments self !! id = None ∧ active_commitment_for_work self work_id = None ∧
  self' = set_commitments self
            (<[id := mkWorkCommitment id work_id assignment_id actor t actor None None None 1 next]>
               (st_commitments self)).
Proof.
  intros H. unfold create_commitment in H. role_inv. by split_and!.
Qed.

Lemma create_commitment_step self id work_id assignment_id actor t next self' :
  create_commitment self id work_id assignment_id actor t next = Ok self' →
  role_step next self self'.
Proof.
  intros (Hid & _ & ->)%create_commitment_Ok. apply step_commitments.
  apply map_step_add; [apply _|done|]. by split_and!.
Qed.

Lemma append_checkpoint_Ok self id assignment_id based content supersedes actor t next self' :
  append_checkpoint self id assignment_id based content supersedes actor t next = Ok self' →
  st_checkpoints self !! id = None ∧
  ∃ a, st_assignments self !! assignment_id = Some a ∧ RoleAssignment_is_active a = true ∧
    asg_member_pubkey a = actor ∧
    self' = set_checkpoints self
              (<[id := mkRoleCheckpoint id (asg_role_id a) assignment_id based content supersedes
                         actor t 1 next]> (st_checkpoints self)).
Proof.
  intros H. unfold append_checkpoint in H. role_inv. eauto 10.
Qed.

Lemma append_handoff_Ok self id from to checkpoint content cause actor t next self' :
  append_handoff self id from to checkpoint content cause actor t next = Ok self' →
  st_handoffs self !! id = None ∧
  ∃ a, st_assignments self !! from = Some a ∧ RoleAssignment_is_active a = true ∧
    asg_member_pubkey a = actor ∧
    self' = set_handoffs self
              (<[id := mkRoleHandoff id (asg_role_id a) from to checkpoint [] content cause false
                         (Some actor) t 1 next]> (st_handoffs self)).
Proof.
  intros H. unfold append_handoff in H. role_inv. eauto 10.
Qed.

Lemma append_checkpoint_step self id assignment_id based content supersedes actor t next self' :
  append_checkpoint self id assignment_id based content supersedes actor t next = Ok self' →
  role_step next self self'.
Proof.
  intros (Hid & a & _ & _ & _ & ->)%append_checkpoint_Ok. apply step_checkpoints; [done|]. by split_and!.
Qed.

Lemma append_handoff_step self id from to checkpoint content cause actor t next self' :
  append_handoff self id from to checkpoint content cause actor t next = Ok self' →
  role_step next self self'.
Proof.
  intros (Hid & a & _ & _ & _ & ->)%append_handoff_Ok. apply step_handoffs; [done|]. by split_and!.
Qed.

(** ** Members *)

Definition with_role (m : MemberGovernance) (role : CommunityMemberRole) : MemberGovernance :=
  mkMemberGovernance (pubkey m) (Some role) (eligible m) (managed_agent_owner m).

Lemma desired_member_role_owner self member m role :
  st_members self !! member = Some m → desired_member_role self member = Ok role →
  is_owner m = bool_decide (role = CommunityMemberRole.Owner).
Proof.
  intros Hm H. unfold desired_member_role in H. rewrite Hm in H. simpl in H.
  destruct (is_owner m); [by injection H as <-|]. injection H as <-.
  case_match; [case_match|]; done.
Qed.

Lemma record_desired_member_role_Ok self member roles self' roles' :
  record_desired_member_role self member roles = Ok (self', roles') →
  ∃ m role, st_members self !! member = Some m ∧ desired_member_role self member = Ok role ∧
    self' = set_members self (<[member := with_role m role]> (st_members self)) ∧
    roles' = <[member := role]> roles.
Proof.
  intros H. unfold record_desired_member_role in H. ok_inv. simplify_eq. eauto 10.
Qed.

Lemma with_role_step self member m role :
  st_members self !! member = Some m → desired_member_role self member = Ok role →
  member_step m (with_role m role).
Proof.
  intros Hm Hrole. split_and!; try done.
  rewrite (desired_member_role_owner _ _ _ _ Hm Hrole). by destruct role.
Qed.

Lemma step_member next self member m role :
  st_members self !! member = Some m → desired_member_role self member = Ok role →
  role_step next self (set_members self (<[member := with_role m role]> (st_members self))).
Proof.
  intros Hm Hrole. apply step_members. eapply map_step_update; [apply _|exact Hm|].
  by eapply with_role_step.
Qed.

Lemma record_desired_member_role_step next self member roles self' roles' :
  record_desired_member_role self member roles = Ok (self', roles') → role_step next self self'.
Proof.
  intros (m & role & Hm & Hrole & -> & _)%record_desired_member_role_Ok. by apply step_member.
Qed.

End steps.
