(* ===== verification/RoleMoves.v ===== *)
(** * Role continuity: completed moves and every request

    Completing a Proposal ends the Assignments it replaces, one after the other,
    starts the new one and consumes the Proposal; with it, every request of the
    reducer respects [role_step]. *)

From stdpp Require Import prelude strings gmap fin_maps.
From S2P Require Import Prelude Text Platform ViewModel ViewContract.
From S2P Require Import RoleGovernance RoleModel RoleCommand RoleState RoleReducer RoleFacts RoleEdits.
From S2P Require Import RoleHistory.

From S2P Require Import RoleSteps.

Create HintDb role_steps discriminated.

Section moves.
Context `{P : Platform}.
Implicit Types (self : RoleContinuityState).

(** ** A completed move *)

(** The Handoff that the system writes for a replaced Assignment. *)
Definition replacement_handoff self (handoff_id : Uuid) (a : RoleAssignment) (to checkpoint : option Uuid)
    (commitment_ids : list Uuid) (t : DateTime) (next : N) : RoleHandoff :=
  mkRoleHandoff handoff_id (asg_role_id a) (asg_assignment_id a) to checkpoint commitment_ids
    (interrupted_content self commitment_ids
       "Assignment replaced; continue from the retained Project state."
       "Assignment replaced; unfinished Work is waiting for continuation.")
    HandoffCause.Replaced true None t 1 next.

Lemma replace_assignment_Ok proposal authorizer gid t next progress id hid progress' :
  role_keyed (pg_state progress) →
  replace_assignment proposal authorizer gid t next progress (id, hid) = Ok progress' →
  let self := pg_state progress in
  ∃ a m role, st_assignments self !! id = Some a ∧ RoleAssignment_is_active a = true ∧
    st_members self !! asg_member_pubkey a = Some m ∧
    let ended := ended_state self id authorizer AssignmentEndReason.Replaced (Some gid) t next a in
    let handed :=
      set_handoffs ended
        (<[hid := replacement_handoff ended hid a
                    (if decide (asg_role_id a = prop_role_id proposal) then Some gid else None)
                    (latest_checkpoint_for_assignment self id) (commitments_of self id) t next]>
           (st_handoffs self)) in
    desired_member_role handed (asg_member_pubkey a) = Ok role ∧
    progress' = mkProgress
      (set_members handed (<[asg_member_pubkey a := with_role m role]> (st_members self)))
      (<[asg_member_pubkey a := role]> (pg_membership_roles progress))
      (<[id := commitments_of self id]> (pg_affected_commitments progress)).
Proof.
  intros Hk H self. unfold replace_assignment in H. fold self in H, Hk. role_inv.
  destruct x0 as [ended ids]. role_inv. destruct x0 as [recorded roles]. role_inv. subst progress'.
  match goal with H : end_assignment _ _ _ _ _ _ _ = Ok _ |- _ =>
    apply end_assignment_Ok in H as (-> & a' & Ha' & _ & _ & _ & ->); [|done] end.
  match goal with H : record_desired_member_role _ _ _ = Ok _ |- _ =>
    apply record_desired_member_role_Ok in H as (m & role & Hm & Hrole & -> & ->) end.
  assert (a' = x) as -> by congruence. exists x, m, role. unfold replacement_handoff.
  rewrite (rk_assignments _ Hk id x) in Hrole |- * by done. by split_and!.
Qed.

Lemma ended_state_step self id actor reason replaced_by t next a :
  st_assignments self !! id = Some a → RoleAssignment_is_active a = true →
  role_step next self (ended_state self id actor reason replaced_by t next a).
Proof.
  intros Ha Hact. etrans; [apply (step_assignments next self)|apply step_commitments].
  - eapply map_step_update; [apply _|exact Ha|]. right. by split_and!.
  - apply map_step_fmap. intros k c Hc. destruct (held_by id c) eqn:Hheld; [|by left].
    apply closed_commitment_step. by apply andb_true_iff in Hheld as [_ ?].
Qed.

Lemma replace_assignment_step proposal authorizer gid t next progress id hid progress' :
  role_keyed (pg_state progress) → st_handoffs (pg_state progress) !! hid = None →
  replace_assignment proposal authorizer gid t next progress (id, hid) = Ok progress' →
  role_step next (pg_state progress) (pg_state progress').
Proof.
  intros Hk Hhid H. apply replace_assignment_Ok in H as (a & m & role & Ha & Hact & Hm & Hrole & ->); [|done].
  set (ended := ended_state _ _ _ _ _ _ _ _) in Hrole |- *. set (handed := set_handoffs _ _) in Hrole |- *.
  trans ended; [by apply ended_state_step|].
  trans handed; [|exact (step_member next handed _ m role Hm Hrole)].
  apply (step_handoffs next ended hid); [done|by split_and!].
Qed.

(** What one iteration over the replaced Assignments does, all of them do. *)
Lemma replace_loop_rel (R : relation Progress) `{!PreOrder R} proposal authorizer gid t next ids
    progress progress' :
  (∀ progress id hid progress', (id, hid) ∈ ids → role_keyed (pg_state progress) →
     st_handoffs (pg_state progress) !! hid = None →
     replace_assignment proposal authorizer gid t next progress (id, hid) = Ok progress' →
     R progress progress') →
  role_keyed (pg_state progress) → NoDup ids.*2 →
  (∀ hid, hid ∈ ids.*2 → st_handoffs (pg_state progress) !! hid = None) →
  try_fold (replace_assignment proposal authorizer gid t next) progress ids = Ok progress' →
  R progress progress'.
Proof.
  intros Hone. revert progress. induction ids as [|[id hid] ids IH]; intros progress Hk Hnd Hfresh H; simpl in *.
  { by injection H as <-. }
  apply rbind_Ok in H as (mid & Hmid & H). apply NoDup_cons in Hnd as [Hhid Hnd].
  assert (Hfree : st_handoffs (pg_state progress) !! hid = None) by (apply Hfresh; by left).
  trans mid; [by eapply Hone; [left|..]|]. apply IH; [|by eapply role_step_keyed, Hk;
    eapply replace_assignment_step|done| |done].
  - intros p id' hid' p' Hin. apply Hone. by right.
  - intros h Hh. apply replace_assignment_Ok in Hmid as (a & m & role & _ & _ & _ & _ & ->); [|done].
    simpl. rewrite lookup_insert_ne by (by intros ->). apply Hfresh. by right.
Qed.

(** ** Completing a Proposal *)

(** A Proposal that both its candidate and a governor confirmed becomes an
    Assignment: the Assignments it replaces end, the new one starts and the
    Proposal is consumed. *)
Definition new_assignment (id proposal_id : Uuid) (p : RoleAssignmentProposal) (authorizer : PublicKey)
    (t : DateTime) (next : N) : RoleAssignment :=
  mkRoleAssignment id (prop_role_id p) (prop_candidate_pubkey p) proposal_id t authorizer
    None None None None None None None None 1 next.

Definition replaced_ids (p : RoleAssignmentProposal) : list Uuid :=
  dedup (sort_by Uuid_cmp (flatten2 (prop_expected_target_assignment_id p)
                                    (prop_expected_candidate_assignment_id p))).

Record completed (progress : Progress) (id : Uuid) (t : DateTime) (next : N)
    (ids : GeneratedRoleContinuityIds) (p : RoleAssignmentProposal) (authorizer : PublicKey)
    (mid progress' : Progress) : Prop := mkCompleted {
  cp_proposal : st_proposals (pg_state progress) !! id = Some p;
  cp_open : prop_status p = ProposalStatus.Open;
  cp_unexpired : (t < prop_expires_at p)%Z;
  cp_accepted : is_Some (prop_candidate_accepted_at p);
  cp_authorized : prop_authorized_by p = Some authorizer;
  cp_authority : authorize_complete_move (pg_state progress) p authorizer = Ok tt;
  cp_fence : validate_compound_fence (pg_state progress) p = Ok tt;
  cp_fresh : st_assignments (pg_state progress) !! gen_assignment_id ids = None;
  cp_handoffs : NoDup (zip (replaced_ids p) (take (length (replaced_ids p)) (gen_handoff_ids ids))).*2;
  cp_handoffs_fresh : ∀ hid, hid ∈ (zip (replaced_ids p)
      (take (length (replaced_ids p)) (gen_handoff_ids ids))).*2 →
    st_handoffs (pg_state progress) !! hid = None;
  cp_loop : try_fold (replace_assignment p authorizer (gen_assignment_id ids) t next) progress
    (zip (replaced_ids p) (take (length (replaced_ids p)) (gen_handoff_ids ids))) = Ok mid;
  cp_result : let self := set_assignments (pg_state mid)
      (<[gen_assignment_id ids := new_assignment (gen_assignment_id ids) id p authorizer t next]>
         (st_assignments (pg_state mid))) in
    ∃ current m role, st_proposals (pg_state mid) !! id = Some current ∧
      let self := set_proposals self
        (<[id := resolved_proposal ProposalStatus.Consumed (prop_reason current) t next current]>
           (st_proposals (pg_state mid))) in
      st_members (pg_state mid) !! prop_candidate_pubkey p = Some m ∧
      desired_member_role self (prop_candidate_pubkey p) = Ok role ∧
      progress' = mkProgress
        (set_members self (<[prop_candidate_pubkey p := with_role m role]> (st_members (pg_state mid))))
        (<[prop_candidate_pubkey p := role]> (pg_membership_roles mid))
        (pg_affected_commitments mid);
}.

Lemma take_zip_snd {A B} (l : list A) (k : list B) :
  length l ≤ length k → (zip l (take (length l) k)).*2 = take (length l) k.
Proof. intros H. apply snd_zip. rewrite length_take. lia. Qed.

Lemma complete_proposal_Ok progress id t next ids progress' :
  complete_proposal_if_ready progress id t next ids = Ok progress' →
  (progress' = progress ∧
   ∃ p, st_proposals (pg_state progress) !! id = Some p ∧
        (prop_candidate_accepted_at p = None ∨ prop_authorized_by p = None)) ∨
  ∃ p authorizer mid, completed progress id t next ids p authorizer mid progress'.
Proof.
  intros H. unfold complete_proposal_if_ready in H. role_inv. rename x into p.
  destruct (prop_candidate_accepted_at p) as [at_|] eqn:Hat; [|injection H0 as <-; left; eauto].
  destruct (prop_authorized_by p) as [authorizer|] eqn:Hby; [|injection H0 as <-; left; eauto].
  right. fold (replaced_ids p) in H0. role_inv.
  match goal with H : record_desired_member_role _ _ _ = Ok ?r, H' : _ = Ok progress' |- _ =>
    destruct r; injection H' as <-;
    apply record_desired_member_role_Ok in H as (m & role & Hm & Hrole & -> & ->) end.
  match goal with H : existsb _ _ = false |- _ =>
    apply existsb_false in H; rewrite Forall_forall in H; rename H into Hfresh end.
  match goal with H : try_fold _ _ _ = Ok ?mid |- _ => exists p, authorizer, mid end.
  unfold len in *.
  assert (Hzip : (zip (replaced_ids p) (take (length (replaced_ids p)) (gen_handoff_ids ids))).*2
                 = take (length (replaced_ids p)) (gen_handoff_ids ids)) by (apply take_zip_snd; lia).
  split; rewrite ?Hzip; try done.
  - intros hid Hhid. specialize (Hfresh hid Hhid). simpl in Hfresh. by role_inv.
  - eexists _, m, role. by split_and!.
Qed.

(** The maps that replacing Assignments does not touch. *)
Definition untouched (x y : Progress) : Prop :=
  st_proposals (pg_state y) = st_proposals (pg_state x) ∧
  st_works (pg_state y) = st_works (pg_state x) ∧
  st_checkpoints (pg_state y) = st_checkpoints (pg_state x).

#[local] Instance untouched_preorder : PreOrder untouched.
Proof.
  unfold untouched. split; [by intros x|]. intros x y z (?&?&?) (?&?&?). split_and!; congruence.
Qed.

#[local] Instance progress_step_preorder next :
  PreOrder (λ x y, role_step next (pg_state x) (pg_state y)).
Proof. split; [by intros x|]. intros x y z. apply transitivity. Qed.

Section completed.
Context (progress : Progress) (id : Uuid) (t : DateTime) (next : N) (ids : GeneratedRoleContinuityIds).
Context (p : RoleAssignmentProposal) (authorizer : PublicKey) (mid progress' : Progress).
Context (Hk : role_keyed (pg_state progress)).
Context (Hcp : completed progress id t next ids p authorizer mid progress').

(** What every replacement does, the whole loop does. *)
Lemma completed_rel (R : relation Progress) `{!PreOrder R} :
  (∀ x i h y, i ∈ replaced_ids p → role_keyed (pg_state x) → st_handoffs (pg_state x) !! h = None →
     replace_assignment p authorizer (gen_assignment_id ids) t next x (i, h) = Ok y → R x y) →
  R progress mid.
Proof using All.
  intros Hone. destruct Hcp. eapply (replace_loop_rel R); [|done..].
  intros x i h y Hin. apply Hone. by eapply elem_of_zip_l.
Qed.

Lemma completed_mid_step : role_step next (pg_state progress) (pg_state mid).
Proof using All.
  apply (completed_rel (λ x y, role_step next (pg_state x) (pg_state y))).
  intros x i h y _. apply replace_assignment_step.
Qed.

Lemma completed_mid_untouched : untouched progress mid.
Proof using All.
  apply completed_rel; [apply _|].
  intros x i h y _ Hx _ (a & m & role & _ & _ & _ & _ & ->)%replace_assignment_Ok; done.
Qed.

(** Between two states of the loop, an Assignment is the same or it was one of
    the replaced ones, active, and is closed by the authorizer. *)
Definition replaced_only (x y : Progress) : Prop :=
  ∀ k, st_assignments (pg_state y) !! k = st_assignments (pg_state x) !! k ∨
    (k ∈ replaced_ids p ∧ ∃ a, st_assignments (pg_state x) !! k = Some a ∧
       RoleAssignment_is_active a = true ∧
       st_assignments (pg_state y) !! k =
         Some (closed_assignment authorizer AssignmentEndReason.Replaced
                 (Some (gen_assignment_id ids)) t next a)).

#[local] Instance replaced_only_preorder : PreOrder replaced_only.
Proof.
  split; [by left|]. intros x y z Hxy Hyz k.
  destruct (Hxy k) as [Hk1|(Hin & a & Ha & Hact & Hy)], (Hyz k) as [Hk2|(Hin' & b & Hb & Hact' & Hz)].
  - left. congruence.
  - right. split; [done|]. exists b. split_and!; congruence.
  - right. split; [done|]. exists a. split_and!; congruence.
  - rewrite Hy in Hb. by injection Hb as <-.
Qed.

Lemma completed_mid_assignments : replaced_only progress mid.
Proof using All.
  apply completed_rel; [apply _|].
  intros x i h y Hi Hx _ (a & m & role & Ha & Hact & _ & _ & ->)%replace_assignment_Ok; [|done].
  intros k. simpl. destruct (decide (k = i)) as [->|Hne].
  - right. split; [done|]. exists a. by rewrite lookup_insert_eq.
  - left. by rewrite lookup_insert_ne.
Qed.

Lemma completed_mid_fresh : st_assignments (pg_state mid) !! gen_assignment_id ids = None.
Proof using All.
  pose proof (cp_fresh _ _ _ _ _ _ _ _ _ Hcp) as Hfresh.
  destruct (completed_mid_assignments (gen_assignment_id ids)) as [->|(_ & a & Ha & _)]; [done|congruence].
Qed.

Lemma completed_mid_proposal : st_proposals (pg_state mid) !! id = Some p.
Proof using All. destruct completed_mid_untouched as (-> & _). apply Hcp. Qed.

Lemma completed_step : role_step next (pg_state progress) (pg_state progress').
Proof using All.
  pose proof completed_mid_fresh as Hfresh. pose proof completed_mid_proposal as Hp.
  trans (pg_state mid); [apply completed_mid_step|].
  destruct (cp_result _ _ _ _ _ _ _ _ _ Hcp) as (current & m & role & Hcurrent & Hm & Hrole & ->).
  set (asgs := set_assignments _ _) in *. set (props := set_proposals _ _) in *.
  trans asgs; [|trans props]; [| |exact (step_member next props _ m role Hm Hrole)].
  - apply step_assignments, map_step_add; [apply _|done|by split_and!].
  - assert (current = p) as -> by congruence.
    eapply (step_proposal next asgs); [exact Hp|apply Hcp|by split_and!|done..].
Qed.

(** The Assignments after a completed move. *)
Lemma completed_assignments k :
  st_assignments (pg_state progress') !! k = st_assignments (pg_state progress) !! k ∨
  (k = gen_assignment_id ids ∧
   st_assignments (pg_state progress') !! k =
     Some (new_assignment (gen_assignment_id ids) id p authorizer t next)) ∨
  (k ∈ replaced_ids p ∧ ∃ a, st_assignments (pg_state progress) !! k = Some a ∧
     RoleAssignment_is_active a = true ∧
     st_assignments (pg_state progress') !! k =
       Some (closed_assignment authorizer AssignmentEndReason.Replaced
               (Some (gen_assignment_id ids)) t next a)).
Proof using All.
  pose proof completed_mid_assignments as Hmid.
  destruct (cp_result _ _ _ _ _ _ _ _ _ Hcp) as (current & m & role & _ & _ & _ & ->).
  simpl. destruct (decide (k = gen_assignment_id ids)) as [->|Hne].
  - right. left. by rewrite lookup_insert_eq.
  - rewrite lookup_insert_ne by done. destruct (Hmid k) as [?|?]; auto.
Qed.

End completed.

Lemma complete_proposal_step progress id t next ids progress' :
  role_keyed (pg_state progress) →
  complete_proposal_if_ready progress id t next ids = Ok progress' →
  role_step next (pg_state progress) (pg_state progress').
Proof.
  intros Hk [[-> _]|(p & authorizer & mid & Hcp)]%complete_proposal_Ok; [done|].
  by eapply completed_step.
Qed.

(** ** Reports and Work *)

Lemma require_assignee_action_Ok self command actor id :
  require_assignee_action self command actor id = Ok tt →
  cmd_acting_assignment_id command = Some id ∧
  ∃ a, st_assignments self !! id = Some a ∧ RoleAssignment_is_active a = true ∧
       asg_member_pubkey a = actor.
Proof. intros H. unfold require_assignee_action in H. role_inv. eauto. Qed.

Lemma report_assignment_Ok self command id actor reported write next self' :
  report_assignment self command id actor reported write next = Ok self' →
  ∃ a, st_assignments self !! id = Some a ∧ RoleAssignment_is_active a = true ∧
    asg_member_pubkey a = actor ∧ reported a = None ∧
    ∃ a', touch_assignment (write a) next = Ok a' ∧
      self' = set_assignments self (<[id := a']> (st_assignments self)).
Proof.
  intros H. unfold report_assignment in H. ok_inv.
  match goal with H : require_assignee_action _ _ _ _ = Ok _ |- _ =>
    apply require_assignee_action_Ok in H as (_ & a & Ha & Hact & Hm) end.
  match goal with H : _ !! id = Some ?x |- _ => assert (x = a) as -> by congruence end.
  match goal with H : opt_is_some _ = false |- _ => apply opt_is_some_false in H end.
  subst. eauto 10.
Qed.

Lemma set_work_responsibility_Ok self command id responsible actor t next self' :
  set_work_responsibility self command id responsible actor t next = Ok self' →
  require_governor_fence self command actor = Ok tt ∧
  active_commitment_for_work self id = None ∧
  ∃ w, st_works self !! id = Some w ∧ is_Some (work_status w) ∧
    work_responsible_role_id w ≠ responsible ∧
    self' = set_works self
      (<[id := mkWorkResponsibility (work_work_id w) (work_status w) responsible
                 (work_object_revision w + 1) next t actor]> (st_works self)).
Proof.
  intros H. unfold set_work_responsibility, touch_work in H. role_inv.
  match goal with H : bump _ = Ok _ |- _ => apply bump_Ok in H as [-> _] end.
  subst. split_and!; [done..|]. eexists. by split_and!.
Qed.

Lemma acting_assignment_Ok self command actor id :
  acting_assignment self command actor = Ok id →
  cmd_acting_assignment_id command = Some id ∧
  ∃ a, st_assignments self !! id = Some a ∧ RoleAssignment_is_active a = true ∧
       asg_member_pubkey a = actor.
Proof.
  intros H. unfold acting_assignment in H. ok_inv. subst. by apply require_assignee_action_Ok.
Qed.

Lemma step_report next self id a a' :
  st_assignments self !! id = Some a → RoleAssignment_is_active a = true → asg_same a a' →
  asg_project_revision a' = next →
  asg_entity_revision a' = bumped (asg_entity_revision a) (asg_project_revision a) next →
  role_step next self (set_assignments self (<[id := a']> (st_assignments self))).
Proof.
  intros Ha Hact Hsame Hnext Hrev. apply step_assignments.
  eapply map_step_update; [apply _|exact Ha|]. right. by split_and!.
Qed.

Lemma report_assignment_step self command id actor reported write next self' :
  (∀ a, reported a = None → asg_same a (write a) ∧ asg_entity_revision (write a) = asg_entity_revision a ∧
        asg_project_revision (write a) = asg_project_revision a) →
  report_assignment self command id actor reported write next = Ok self' → role_step next self self'.
Proof.
  intros Hwrite (a & Ha & Hact & _ & Hnone & a' & Ha' & ->)%report_assignment_Ok.
  apply touch_assignment_Ok in Ha' as [_ ->]. destruct (Hwrite a Hnone) as (Hsame & Hrev & Hprev).
  eapply step_report; [done..| |done|simpl; congruence]. exact Hsame.
Qed.

Lemma set_work_responsibility_step self command id responsible actor t next self' :
  set_work_responsibility self command id responsible actor t next = Ok self' →
  role_step next self self'.
Proof.
  intros (_ & _ & w & Hw & _ & _ & ->)%set_work_responsibility_Ok. apply step_works.
  eapply map_step_update; [apply _|exact Hw|]. right. split_and!; [done..|simpl; lia].
Qed.

Lemma end_assignment_step self id actor reason replaced_by t next self' ids :
  role_keyed self → end_assignment self id actor reason replaced_by t next = Ok (self', ids) →
  role_step next self self'.
Proof.
  intros Hk (_ & a & Ha & Hact & _ & _ & ->)%end_assignment_Ok; [|done]. by apply ended_state_step.
Qed.

(** An edit followed by the completion of a Proposal. *)
Lemma then_complete_step self mid id t next ids progress' :
  role_keyed self → role_step next self mid →
  complete_proposal_if_ready (mkProgress mid ∅ ∅) id t next ids = Ok progress' →
  role_step next self (pg_state progress').
Proof.
  intros Hk Hmid Hcp. trans mid; [done|].
  eapply (complete_proposal_step (mkProgress mid ∅ ∅)); [|done]. by eapply role_step_keyed.
Qed.

#[local] Hint Resolve create_proposal_step accept_proposal_step authorize_proposal_step
  resolve_in_step end_commitment_step create_commitment_step append_checkpoint_step
  append_handoff_step report_assignment_step set_work_responsibility_step end_assignment_step
  then_complete_step record_desired_member_role_step : role_steps.

(** ** Every request *)

Lemma apply_request_step self command actor t next ids progress :
  role_keyed self → apply_request self command actor t next ids = Ok progress →
  role_step next self (pg_state progress).
Proof.
  intros Hk H. unfold apply_request in H. destruct (cmd_request command); role_inv; subst;
    eauto with role_steps; try (eapply resolve_in_step; [|done]; naive_solver).
  - (* EndAssignment *)
    repeat (match goal with H : (let '(_, _) := ?x in _) = Ok _ |- _ => destruct x end; role_inv).
    subst. etrans; eauto with role_steps.
  - (* RequestReplacement *)
    eapply report_assignment_step; [|done]. intros a Hnone. unfold asg_same.
    rewrite Hnone. by split_and!.
  - (* ReportUnableToContinue *)
    eapply report_assignment_step; [|done]. intros a Hnone. unfold asg_same.
    rewrite Hnone. by split_and!.
  - (* ReplaceCommitment *) etrans; eauto with role_steps.
Qed.

End moves.

(** Replace the results of the edits of a request by what they write. *)
Ltac edit_inv :=
  repeat match goal with
  | H : create_proposal _ _ _ _ _ _ _ _ _ _ _ = Ok _ |- _ =>
      apply create_proposal_Ok in H as (_ & _ & _ & _ & ->)
  | H : resolve_in _ _ _ _ _ _ = Ok _ |- _ => apply resolve_in_Ok in H as (? & _ & ->)
  | H : report_assignment _ _ _ _ _ _ _ = Ok _ |- _ =>
      apply report_assignment_Ok in H as (? & _ & _ & _ & _ & ? & _ & ->)
  | H : set_work_responsibility _ _ _ _ _ _ _ = Ok _ |- _ =>
      apply set_work_responsibility_Ok in H as (_ & _ & ? & _ & _ & _ & ->)
  | H : create_commitment _ _ _ _ _ _ _ = Ok _ |- _ => apply create_commitment_Ok in H as (_ & _ & ->)
  | H : end_commitment _ _ _ _ _ _ = Ok _ |- _ => apply end_commitment_Ok in H as (? & _ & _ & _ & ->)
  | H : append_checkpoint _ _ _ _ _ _ _ _ _ = Ok _ |- _ =>
      apply append_checkpoint_Ok in H as (_ & ? & _ & _ & _ & ->)
  | H : append_handoff _ _ _ _ _ _ _ _ _ _ = Ok _ |- _ =>
      apply append_handoff_Ok in H as (_ & ? & _ & _ & _ & ->)
  | H : (let '(_, _) := ?x in _) = Ok _ |- _ => destruct x; ok_inv
  | H : end_assignment _ _ _ _ _ _ _ = Ok (_, _) |- _ =>
      apply end_assignment_Ok in H as (-> & ? & _ & _ & _ & _ & ->); [|assumption]
  | H : record_desired_member_role _ _ _ = Ok (_, _) |- _ =>
      apply record_desired_member_role_Ok in H as (? & ? & _ & _ & -> & ->)
  end.
