(* ===== verification/RoleReach.v ===== *)
(** * Role continuity: the reducer and reachable states

    What the reducer and the system end of an Assignment require and return, the
    step relation of accepted commands, and loading a snapshot. *)

From stdpp Require Import prelude strings gmap fin_maps.
From S2P Require Import Prelude Text Platform ViewModel ViewContract.
From S2P Require Import RoleGovernance RoleModel RoleCommand RoleState RoleReducer RoleFacts RoleEdits.
From S2P Require Import RoleHistory.

From S2P Require Import RoleSteps RoleMoves.

Section reducer.
Context `{P : Platform}.
Implicit Types (self : RoleContinuityState).

(** The revision of the project is not a row. *)
Lemma role_step_revision next self self' revision :
  role_step next self self' → role_step next self (set_project_revision self' revision).
Proof. by intros []. Qed.

(** ** The reducer *)

Lemma reduce_role_Ok self command actor t ids self' outcome :
  reduce_role self command actor t ids = Ok (self', outcome) →
  let next := (st_project_revision self + 1)%N in
  ∃ progress, RoleCommand_validate_for_submission command = Ok tt ∧
    cmd_expected_project_revision command = st_project_revision self ∧
    validate_actor_fence self command actor = Ok tt ∧
    apply_request self command actor t next ids = Ok progress ∧
    self' = set_project_revision (pg_state progress) next ∧ role_valid self' ∧
    outcome = mkRoleContinuityOutcome next (changed_entities (entity_map self) (entity_map self'))
      (changed_works (st_works self) (st_works self')) (pg_membership_roles progress)
      (pg_affected_commitments progress) ∧
    ¬ (out_changes outcome = [] ∧ out_work_changes outcome = []).
Proof.
  intros H next. unfold reduce_role in H. ok_inv. simplify_eq/=.
  match goal with H : bump _ = Ok _ |- _ => apply bump_Ok in H as [-> _] end.
  match goal with H : validate_role_state _ = Ok _ |- _ => apply validate_role_state_Ok in H end.
  bool_props. eexists. split_and!; try done.
  match goal with H : is_empty _ && is_empty _ = false |- _ => rename H into Hne end.
  simpl. intros [Hc Hw]. by rewrite Hc, Hw in Hne.
Qed.

Lemma reduce_role_step self command actor t ids self' outcome :
  role_keyed self → reduce_role self command actor t ids = Ok (self', outcome) →
  role_step (st_project_revision self + 1) self self'.
Proof.
  intros Hk (progress & _ & _ & _ & Hreq & -> & _)%reduce_role_Ok.
  apply role_step_revision. by eapply apply_request_step.
Qed.

(** The system Handoff of an unrecoverable Assignment. *)
Definition unrecoverable_handoff self (handoff_id assignment_id : Uuid) (a : RoleAssignment)
    (checkpoint : option Uuid) (commitment_ids : list Uuid) (t : DateTime) (next : N) : RoleHandoff :=
  mkRoleHandoff handoff_id (asg_role_id a) assignment_id None checkpoint commitment_ids
    (interrupted_content self commitment_ids
       "Trusted runtime recovery was exhausted; continue from retained Project state."
       "Trusted runtime recovery was exhausted; unfinished Work is waiting for continuation.")
    HandoffCause.Unrecoverable true None t 1 next.

(** The state that the system end of an Assignment proposes, before and after
    the Community role of its Member is written. *)
Definition handed_over self (id : Uuid) (actor : PublicKey) (t : DateTime) (handoff_id : Uuid)
    (a : RoleAssignment) : RoleContinuityState :=
  let next := (st_project_revision self + 1)%N in
  let ended := ended_state self id actor AssignmentEndReason.Unrecoverable None t next a in
  set_handoffs ended
    (<[handoff_id := unrecoverable_handoff ended handoff_id id a
                       (latest_checkpoint_for_assignment self id) (commitments_of self id) t next]>
       (st_handoffs self)).

Definition unrecoverable_state self (id : Uuid) (actor : PublicKey) (t : DateTime) (handoff_id : Uuid)
    (a : RoleAssignment) (m : MemberGovernance) (role : CommunityMemberRole) : RoleContinuityState :=
  set_project_revision
    (set_members (handed_over self id actor t handoff_id a)
       (<[asg_member_pubkey a := with_role m role]> (st_members self)))
    (st_project_revision self + 1).

(** The conditions under which the system may end an Assignment. *)
Record recoverable self (id handoff_id : Uuid) (a : RoleAssignment) (m : MemberGovernance) : Prop :=
mkRecoverable {
  rc_id : Uuid_is_nil id = false;
  rc_handoff : Uuid_is_nil handoff_id = false;
  rc_fresh : st_handoffs self !! handoff_id = None;
  rc_assignment : st_assignments self !! id = Some a;
  rc_active : RoleAssignment_is_active a = true;
  rc_member : st_members self !! asg_member_pubkey a = Some m;
  rc_eligible : eligible m = true;
  rc_managed : is_managed_agent m = true;
  rc_owner : is_owner m = false;
  rc_revision : (st_project_revision self < MAX_SAFE_REVISION)%N;
  rc_room : assignment_room (st_project_revision self + 1) a;
  rc_commitments : ∀ k c, st_commitments self !! k = Some c → held_by id c = true →
    commitment_room (st_project_revision self + 1) c;
}.

Lemma end_assignment_run self id actor reason replaced_by t next a :
  role_keyed self → st_assignments self !! id = Some a → RoleAssignment_is_active a = true →
  assignment_room next a →
  (∀ k c, st_commitments self !! k = Some c → held_by id c = true → commitment_room next c) →
  end_assignment self id actor reason replaced_by t next =
    Ok (ended_state self id actor reason replaced_by t next a, commitments_of self id).
Proof. intros. apply end_assignment_Ok; eauto 10. Qed.

Lemma record_desired_member_role_run self member m role roles :
  st_members self !! member = Some m → desired_member_role self member = Ok role →
  record_desired_member_role self member roles =
    Ok (set_members self (<[member := with_role m role]> (st_members self)), <[member := role]> roles).
Proof. intros Hm Hrole. unfold record_desired_member_role. by rewrite Hrole, Hm. Qed.

(** What the system end of an Assignment requires and returns. *)
Lemma reduce_unrecoverable_Ok self id actor t handoff_id self' outcome :
  role_keyed self →
  reduce_unrecoverable_assignment self id actor t handoff_id = Ok (self', outcome) ↔
  ∃ a m role, recoverable self id handoff_id a m ∧
    desired_member_role (handed_over self id actor t handoff_id a) (asg_member_pubkey a) = Ok role ∧
    self' = unrecoverable_state self id actor t handoff_id a m role ∧ role_valid self' ∧
    outcome = mkRoleContinuityOutcome (st_project_revision self + 1)
      (changed_entities (entity_map self) (entity_map self')) []
      {[ asg_member_pubkey a := role ]} {[ id := commitments_of self id ]} ∧
    out_changes outcome ≠ [].
Proof.
  intros Hk. split.
  - intros H. unfold reduce_unrecoverable_assignment, require_id in H. role_inv.
    match goal with H : bump _ = Ok _ |- _ => apply bump_Ok in H as [-> ?] end.
    match goal with H : end_assignment _ _ _ _ _ _ _ = Ok ?r |- _ => destruct r as [ended ids];
      apply end_assignment_Ok in H as (-> & a' & Ha' & _ & Hroom & Hrooms & ->); [|done] end.
    match goal with H : st_assignments self !! id = Some ?x |- _ =>
      assert (a' = x) as -> by congruence; rename x into a end.
    ok_inv. match goal with H : record_desired_member_role _ _ _ = Ok ?r |- _ => destruct r;
      apply record_desired_member_role_Ok in H as (m & role & Hm & Hrole & -> & ->) end.
    ok_inv. subst. exists a, m, role. change (st_members self !! asg_member_pubkey a = Some m) in Hm.
    match goal with H : st_members self !! _ = Some ?x |- _ =>
      lazymatch x with m => fail | _ => assert (x = m) as -> by congruence end end.
    bool_props. split; [by split|]. do 2 (split; [done|]).
    split; [by apply validate_role_state_Ok|]. split; [done|].
    intros Hc. match goal with H : is_empty ?l = false |- _ => change (l = []) in Hc; by rewrite Hc in H end.
  - intros (a & m & role & [] & Hrole & -> & Hvalid & -> & Hne).
    unfold reduce_unrecoverable_assignment, require_id.
    rewrite rc_id0, rc_handoff0, rc_fresh0. simpl.
    rewrite (proj2 (active_assignment_Ok _ _ _) (conj rc_assignment0 rc_active0)). simpl.
    rewrite rc_member0. simpl. rewrite rc_eligible0, rc_managed0. simpl. rewrite rc_owner0. simpl.
    rewrite (proj2 (bump_Ok _ _) (conj eq_refl rc_revision0)). simpl.
    rewrite (end_assignment_run self id actor _ None t _ a) by done. cbn [rbind].
    match goal with |- context [record_desired_member_role ?X _ _] =>
      change X with (handed_over self id actor t handoff_id a) end.
    rewrite (record_desired_member_role_run (handed_over self id actor t handoff_id a) _ m role ∅
      rc_member0 Hrole). cbn [rbind].
    match goal with |- context [validate_role_state ?X] =>
      change X with (unrecoverable_state self id actor t handoff_id a m role) end.
    rewrite (proj2 (validate_role_state_Ok _) Hvalid). cbn [rbind].
    rewrite (proj2 (reject_if_Ok _ _ tt)); [done|]. simpl in Hne. by destruct (changed_entities _ _).
Qed.

Lemma unrecoverable_state_step self id actor t handoff_id a m role :
  recoverable self id handoff_id a m →
  desired_member_role (handed_over self id actor t handoff_id a) (asg_member_pubkey a) = Ok role →
  role_step (st_project_revision self + 1) self (unrecoverable_state self id actor t handoff_id a m role).
Proof.
  intros [] Hrole. apply role_step_revision. set (handed := handed_over _ _ _ _ _ _) in *.
  trans handed; [|exact (step_member _ handed _ m role rc_member0 Hrole)].
  set (ended := ended_state self id actor AssignmentEndReason.Unrecoverable None t
    (st_project_revision self + 1) a).
  trans ended; [by apply ended_state_step|]. apply (step_handoffs _ ended handoff_id); [done|by split_and!].
Qed.

Lemma reduce_unrecoverable_step self id actor t handoff_id self' outcome :
  role_keyed self → reduce_unrecoverable_assignment self id actor t handoff_id = Ok (self', outcome) →
  role_step (st_project_revision self + 1) self self'.
Proof.
  intros Hk (a & m & role & Hrc & Hrole & -> & _)%reduce_unrecoverable_Ok; [|done].
  by apply unrecoverable_state_step.
Qed.

End reducer.

(** ** Reachable states *)

Section reachable.
Context `{P : Platform}.

(** One accepted command, of a member or of the system. *)
Inductive role_command_step (st st' : RoleContinuityState) : Prop :=
| by_member command actor t ids outcome :
    reduce_role st command actor t ids = Ok (st', outcome) → role_command_step st st'
| by_member_v3 command actor t ids outcome :
    reduce_role_command_v3 st command actor t ids = Ok (st', outcome) → role_command_step st st'
| by_system assignment_id system_actor t handoff_id outcome :
    reduce_unrecoverable_assignment st assignment_id system_actor t handoff_id = Ok (st', outcome) →
    role_command_step st st'.

(** Rows under their identifiers, and every rule of the aggregate check. *)
Definition role_inv_state (st : RoleContinuityState) : Prop := role_keyed st ∧ role_valid st.

Lemma reduce_role_command_v3_Ok st command actor t ids r :
  reduce_role_command_v3 st command actor t ids = Ok r →
  reduce_role st (as_v2_reducer_command command) actor t ids = Ok r.
Proof. unfold reduce_role_command_v3. intros H. by ok_inv. Qed.

Lemma role_command_forward st st' :
  role_keyed st → role_command_step st st' →
  role_step (st_project_revision st + 1) st st' ∧ role_valid st' ∧
  st_project_revision st' = (st_project_revision st + 1)%N.
Proof.
  intros Hk [command actor t ids outcome H|command actor t ids outcome H%reduce_role_command_v3_Ok|
    id actor t hid outcome H].
  - split; [by eapply reduce_role_step|].
    apply reduce_role_Ok in H as (progress & _ & _ & _ & _ & -> & Hv & _). done.
  - split; [by eapply reduce_role_step|].
    apply reduce_role_Ok in H as (progress & _ & _ & _ & _ & -> & Hv & _). done.
  - split; [by eapply reduce_unrecoverable_step|].
    apply reduce_unrecoverable_Ok in H as (a & m & role & _ & _ & -> & Hv & _); done.
Qed.

Lemma role_inv_step st st' : role_inv_state st → role_command_step st st' → role_inv_state st'.
Proof.
  intros [Hk _] Hstep. apply role_command_forward in Hstep as (Hs & Hv & _); [|done].
  split; [by eapply role_step_keyed|done].
Qed.

Lemma role_inv_reachable_from st st' :
  role_inv_state st → rtc role_command_step st st' → role_inv_state st'.
Proof. intros Hst H. induction H as [|x y z Hxy _ IH]; [done|]. apply IH. by eapply role_inv_step. Qed.

(** ** Loading a snapshot *)

(** The loop that collects rows refuses an identifier it has seen. *)
Lemma collect_unique_from {K V} `{Countable K} (key : V → K) e values (acc m : gmap K V) :
  keyed key acc →
  try_fold (λ map value, reject_if (opt_is_some (map !! key value)) e ?;
              Ok (<[key value := value]> map)) acc values = Ok (E := RoleContinuityError) m →
  keyed key m ∧ (∀ k v, m !! k = Some v ↔ acc !! k = Some v ∨ (v ∈ values ∧ key v = k)).
Proof.
  revert acc. induction values as [|v values IH]; intros acc Hacc Hfold; simpl in Hfold.
  { injection Hfold as <-. split; [done|]. intros k v. rewrite elem_of_nil. naive_solver. }
  apply rbind_Ok in Hfold as (acc' & Hacc' & Hfold). ok_inv.
  match goal with H : opt_is_some _ = false |- _ => apply opt_is_some_false in H as Hnone end.
  subst acc'. apply IH in Hfold as (Hk & Hall); [|by apply keyed_insert].
  split; [done|]. intros k w. rewrite Hall, lookup_insert_Some, elem_of_cons. split.
  - intros [[[<- <-]|[? ?]]|[? ?]]; auto.
  - intros [Hw|[[->|Hw] <-]]; auto. left. right. split; [|done]. intros <-. congruence.
Qed.

(** A collected map has exactly the rows given. *)
Lemma collect_unique_Ok {K V} `{Countable K} (key : V → K) entity values m :
  collect_unique key entity values = Ok m →
  keyed key m ∧ (∀ k v, m !! k = Some v ↔ v ∈ values ∧ key v = k).
Proof.
  intros [Hk Hall]%collect_unique_from; [|apply keyed_empty]. split; [done|].
  intros k v. rewrite Hall, lookup_empty. naive_solver.
Qed.

Lemma from_complete_snapshot_inv revision roles works members proposals assignments commitments
    checkpoints handoffs objects st :
  from_complete_snapshot revision roles works members proposals assignments commitments checkpoints
    handoffs objects = Ok st →
  role_inv_state st.
Proof.
  intros H. unfold from_complete_snapshot in H. ok_inv. subst.
  match goal with H : validate_role_state _ = Ok _ |- _ => apply validate_role_state_Ok in H end.
  repeat match goal with H : collect_unique _ _ _ = Ok _ |- _ =>
    apply collect_unique_Ok in H as [? _] end.
  split; [|done]. split; try done. simpl. set_solver.
Qed.

End reachable.
