(* ===== verification/RoleAuth.v ===== *)
(** * Role continuity: who may end and who may start an Assignment

    The authorization rules as statements about members and Roles, and what
    each request may do to Assignments and to the consent recorded in
    Proposals. *)

From stdpp Require Import prelude strings gmap fin_maps.
From S2P Require Import Prelude Text Platform ViewModel ViewContract.
From S2P Require Import RoleGovernance RoleModel RoleCommand RoleState RoleReducer RoleFacts RoleEdits.
From S2P Require Import RoleHistory RoleSteps RoleMoves RoleReach.

Section auth.
Context `{P : Platform}.
Implicit Types (self : RoleContinuityState).

(** A leader: a Community admin with an active Assignment to an admin Role. *)
Definition leads self (m : MemberGovernance) (key : PublicKey) : Prop :=
  community_role m = Some CommunityMemberRole.Admin ∧
  ∃ id a role, active_assignment_for_member self key = Some id ∧ st_assignments self !! id = Some a ∧
    st_roles self !! asg_role_id a = Some role ∧ slot_level role = RoleLevel.Admin.

(** What a leader may end: another member's Assignment to an ordinary Role, and,
    for a managed leader, only that of a managed member. *)
Definition below self (m : MemberGovernance) (key : PublicKey) (a : RoleAssignment) : Prop :=
  asg_member_pubkey a ≠ key ∧
  (∃ role, st_roles self !! asg_role_id a = Some role ∧ slot_level role = RoleLevel.Member) ∧
  (is_managed_agent m = true →
   ∃ target, st_members self !! asg_member_pubkey a = Some target ∧ is_managed_agent target = true).

Definition governs_move self (p : RoleAssignmentProposal) (key : PublicKey) : Prop :=
  ∃ m, st_members self !! key = Some m ∧ eligible m = true ∧
    (is_owner m = true ∨
     (leads self m key ∧
      (∃ role, st_roles self !! prop_role_id p = Some role ∧ slot_level role = RoleLevel.Member) ∧
      ∀ id, Some id = prop_expected_target_assignment_id p
            ∨ Some id = prop_expected_candidate_assignment_id p →
        ∃ a, st_assignments self !! id = Some a ∧ RoleAssignment_is_active a = true ∧ below self m key a)).

Definition may_revoke self (a : RoleAssignment) (key : PublicKey) : Prop :=
  asg_member_pubkey a ≠ key ∧
  ∃ m, st_members self !! key = Some m ∧ eligible m = true ∧
    (is_owner m = true ∨
     (∃ target, st_members self !! asg_member_pubkey a = Some target ∧
        managed_agent_owner target = Some key) ∨
     (leads self m key ∧ below self m key a)).

Lemma not_admin_member level : level ≠ RoleLevel.Admin → level = RoleLevel.Member.
Proof. by destruct level. Qed.

Lemma eligible_member_Some self key m :
  eligible_member self key = Some m ↔ st_members self !! key = Some m ∧ eligible m = true.
Proof. apply option_filter_Some. Qed.

(** A search for the active Assignment of a member, and the row it finds. *)
Lemma acting_Some self key a :
  (id ← active_assignment_for_member self key; st_assignments self !! id) = Some a →
  ∃ id, active_assignment_for_member self key = Some id ∧ st_assignments self !! id = Some a.
Proof. by intros (id & ? & ?)%bind_Some; eauto. Qed.

Lemma is_some_and_true {A} (p : A → bool) o : is_some_and p o = true → ∃ x, o = Some x ∧ p x = true.
Proof. destruct o; simpl; eauto. done. Qed.

(** [!(managed && !target_managed)] *)
Lemma managed_guard b c : b && negb c = false → b = true → c = true.
Proof. by destruct b, c. Qed.

Lemma authorize_ended_Ok self key m id :
  authorize_ended self key m id = Ok tt →
  ∃ a, st_assignments self !! id = Some a ∧ RoleAssignment_is_active a = true ∧ below self m key a.
Proof.
  intros H. unfold authorize_ended in H. role_inv. eexists. split_and!; [done..|].
  split_and!; [done|eauto using not_admin_member|].
  intros Hm. apply is_some_and_true. by eapply managed_guard.
Qed.

Lemma authorize_complete_move_Ok self p key :
  authorize_complete_move self p key = Ok tt → governs_move self p key.
Proof.
  intros H. unfold authorize_complete_move in H. ok_inv. rename x into m.
  match goal with H : eligible_member _ _ = Some _ |- _ => apply eligible_member_Some in H as [Hm He] end.
  exists m. split_and!; [done..|]. destruct (is_owner m) eqn:Ho; [by left|right]. role_inv.
  match goal with H : _ = Some ?a |- _ => apply acting_Some in H as (id & Hid & Ha) end.
  split_and!; [unfold leads; eauto 10|eauto using not_admin_member|].
  match goal with H : for_each _ _ = Ok _ |- _ => apply for_each_Ok in H; rewrite Forall_forall in H;
    rename H into Hall end.
  intros i Hi. apply authorize_ended_Ok, Hall. unfold flatten2. rewrite elem_of_app.
  destruct Hi as [Hi|Hi]; [left|right]; rewrite <- Hi; by apply list_elem_of_here.
Qed.

Lemma authorize_assignment_end_Ok self key a :
  authorize_assignment_end self key a = Ok tt → may_revoke self a key.
Proof.
  intros H. unfold authorize_assignment_end in H. ok_inv. bool_props. split; [congruence|].
  match goal with H : eligible_member _ _ = Some ?m |- _ =>
    apply eligible_member_Some in H as [Hm He]; exists m; rename m into m' end.
  split_and!; [done..|]. destruct (is_owner m') eqn:Ho; [by left|right]. ok_inv.
  case_decide as Howner; [left; eauto|right]. role_inv.
  match goal with H : _ ≫= _ = Some _ |- _ => apply acting_Some in H as (id & Hid & Ha) end.
  split; [unfold leads; eauto 10|]. split_and!; [congruence|eauto using not_admin_member|].
  intros Hmanaged. eexists. split; [done|]. by eapply managed_guard.
Qed.

(** ** Consent *)

(** Why a command may turn a Proposal into an Assignment: the Proposal is open
    and unexpired, a governor of the move authorized it, its candidate accepted
    it, one of the two by this very command, and the Assignments it replaces are
    those it was made for. *)
Record consented self (command : RoleCommand) (actor : PublicKey) (t : DateTime) (proposal_id : Uuid)
    (p : RoleAssignmentProposal) (governor : PublicKey) : Prop := mkConsented {
  cs_proposal : st_proposals self !! proposal_id = Some p;
  cs_open : prop_status p = ProposalStatus.Open;
  cs_unexpired : (t < prop_expires_at p)%Z;
  cs_governor : governs_move self p governor;
  cs_candidate : ∃ m, st_members self !! prop_candidate_pubkey p = Some m ∧ eligible m = true;
  cs_target : active_assignment_for_role self (prop_role_id p) = prop_expected_target_assignment_id p;
  cs_confirmed :
    (cmd_request command = AcceptProposal proposal_id ∧ prop_candidate_pubkey p = actor ∧
     prop_authorized_by p = Some governor) ∨
    (cmd_request command = AuthorizeProposal proposal_id ∧ governor = actor ∧
     is_Some (prop_candidate_accepted_at p));
}.

Lemma validate_compound_fence_Ok self p :
  validate_compound_fence self p = Ok tt →
  active_assignment_for_role self (prop_role_id p) = prop_expected_target_assignment_id p ∧
  ∃ m, st_members self !! prop_candidate_pubkey p = Some m ∧ eligible m = true.
Proof.
  intros H. unfold validate_compound_fence in H. ok_inv. bool_props.
  match goal with H : eligible_member _ _ = Some _ |- _ => apply eligible_member_Some in H end. eauto.
Qed.

(** The Proposal that a completion consumes is the one just confirmed. *)
Lemma completed_accepted self command actor t next ids id p0 p g mid progress' :
  cmd_request command = AcceptProposal id →
  st_proposals self !! id = Some p0 → prop_candidate_pubkey p0 = actor →
  completed (mkProgress (set_proposals self (<[id := accepted_proposal t next p0]> (st_proposals self))) ∅ ∅)
    id t next ids p g mid progress' →
  p = accepted_proposal t next p0 ∧ consented self command actor t id p0 g.
Proof.
  intros Hreq Hp0 Hactor [Hp ? ? ? ? Hauth Hfence]. simpl in Hp. rewrite lookup_insert_eq in Hp.
  injection Hp as <-. split; [done|].
  apply authorize_complete_move_Ok in Hauth. apply validate_compound_fence_Ok in Hfence as [? ?].
  split; try done. by left.
Qed.

Lemma completed_authorized self command actor t next ids id p0 p g mid progress' :
  cmd_request command = AuthorizeProposal id → st_proposals self !! id = Some p0 →
  completed (mkProgress (set_proposals self (<[id := authorized_proposal actor t next p0]> (st_proposals self)))
    ∅ ∅) id t next ids p g mid progress' →
  p = authorized_proposal actor t next p0 ∧ consented self command actor t id p0 g.
Proof.
  intros Hreq Hp0 [Hp ? ? ? Hby Hauth Hfence]. simpl in Hp. rewrite lookup_insert_eq in Hp.
  injection Hp as <-. split; [done|].
  apply authorize_complete_move_Ok in Hauth. apply validate_compound_fence_Ok in Hfence as [? ?].
  injection Hby as <-. split; try done. by right.
Qed.

(** An offer is not accepted yet: it completes nothing. *)
Lemma completed_offer self id role candidate expires reason actor t next authorizer ids p g mid progress' :
  completed (mkProgress (set_proposals self
      (<[id := new_proposal self id role candidate ProposalType.Offer expires reason actor t next authorizer]>
         (st_proposals self))) ∅ ∅) id t next ids p g mid progress' → False.
Proof.
  intros [Hp _ _ Hacc]. simpl in Hp. rewrite lookup_insert_eq in Hp.
  injection Hp as <-. by destruct Hacc.
Qed.

(** ** What a request does to an Assignment *)

Inductive assignment_change self (command : RoleCommand) (actor : PublicKey) (t : DateTime) (next : N)
    (ids : GeneratedRoleContinuityIds) (k : Uuid) : option RoleAssignment → option RoleAssignment → Prop :=
| change_none o : assignment_change self command actor t next ids k o o
| change_report a a' :
    RoleAssignment_is_active a = true → RoleAssignment_is_active a' = true →
    asg_member_pubkey a = actor →
    assignment_change self command actor t next ids k (Some a) (Some a')
| change_revoke a reason :
    cmd_request command = EndAssignment k reason → RoleAssignment_is_active a = true →
    may_revoke self a actor →
    assignment_change self command actor t next ids k (Some a)
      (Some (closed_assignment actor AssignmentEndReason.Revoked None t next a))
| change_replace a proposal_id p governor :
    consented self command actor t proposal_id p governor → RoleAssignment_is_active a = true →
    k ∈ replaced_ids p →
    assignment_change self command actor t next ids k (Some a)
      (Some (closed_assignment governor AssignmentEndReason.Replaced (Some (gen_assignment_id ids)) t next a))
| change_start proposal_id p governor :
    consented self command actor t proposal_id p governor → k = gen_assignment_id ids →
    assignment_change self command actor t next ids k None
      (Some (new_assignment k proposal_id p governor t next)).

(** The Assignments after a completion are changed by consent only. *)
Lemma completed_change self command actor t next ids k mid0 id p0 p g mid progress' :
  completed (mkProgress mid0 ∅ ∅) id t next ids p g mid progress' →
  role_keyed mid0 → st_assignments mid0 = st_assignments self →
  prop_role_id p = prop_role_id p0 → prop_candidate_pubkey p = prop_candidate_pubkey p0 →
  replaced_ids p = replaced_ids p0 → consented self command actor t id p0 g →
  assignment_change self command actor t next ids k (st_assignments self !! k)
    (st_assignments (pg_state progress') !! k).
Proof.
  intros Hcp Hk Hasg Hrole Hcand Hids Hc.
  destruct (completed_assignments (mkProgress mid0 ∅ ∅) _ _ _ _ _ _ _ _ Hk Hcp k)
    as [->|[(-> & ->)|(Hin & a & Ha & Hact & ->)]]; simpl in *.
  - rewrite Hasg. constructor.
  - pose proof (cp_fresh _ _ _ _ _ _ _ _ _ Hcp) as Hfresh. simpl in Hfresh. rewrite Hasg in Hfresh.
    rewrite Hfresh. unfold new_assignment. rewrite Hrole, Hcand.
    by apply (change_start self command actor t next ids (gen_assignment_id ids) id p0 g).
  - rewrite <- Hasg, Ha. eapply change_replace; [done..|]. by rewrite <- Hids.
Qed.

Lemma report_assignment_change self command actor t next ids id reported write self' k :
  (∀ a, asg_ended_at (write a) = asg_ended_at a) →
  report_assignment self command id actor reported write next = Ok self' →
  assignment_change self command actor t next ids k (st_assignments self !! k)
    (st_assignments self' !! k).
Proof.
  intros Hwrite (a & Ha & Hact & Hm & _ & a' & Ha' & ->)%report_assignment_Ok. simpl.
  destruct (decide (k = id)) as [->|Hne]; [|rewrite lookup_insert_ne by done; apply change_none].
  rewrite lookup_insert_eq, Ha. apply touch_assignment_Ok in Ha' as [_ ->].
  apply change_report; [done| |done]. unfold RoleAssignment_is_active in *. simpl. by rewrite Hwrite.
Qed.

Section requests.
Context self (command : RoleCommand) (actor : PublicKey) (t : DateTime) (next : N).
Context (ids : GeneratedRoleContinuityIds) (k : Uuid) (Hk : role_keyed self).

Abbreviation changed after :=
  (assignment_change self command actor t next ids k (st_assignments self !! k)
     (st_assignments after !! k)).

Lemma offer_change id role candidate expires reason mid progress :
  create_proposal self id role candidate ProposalType.Offer expires reason actor t next (Some actor) = Ok mid →
  complete_proposal_if_ready (mkProgress mid ∅ ∅) id t next ids = Ok progress →
  changed (pg_state progress).
Proof.
  intros (_ & _ & _ & _ & ->)%create_proposal_Ok [[-> _]|(p & g & m & Hcp)]%complete_proposal_Ok.
  - constructor.
  - by apply completed_offer in Hcp.
Qed.

Lemma accept_change id mid progress :
  cmd_request command = AcceptProposal id → accept_proposal self id actor t next = Ok mid →
  complete_proposal_if_ready (mkProgress mid ∅ ∅) id t next ids = Ok progress →
  changed (pg_state progress).
Proof using Hk.
  intros Hreq Hacc Hcomp. pose proof (accept_proposal_step _ _ _ _ _ _ Hacc) as Hstep.
  apply accept_proposal_Ok in Hacc as (p0 & Hp0 & _ & _ & Hactor & _ & ->).
  apply complete_proposal_Ok in Hcomp as [[-> _]|(p & g & m & Hcp)]; [constructor|].
  destruct (completed_accepted _ _ _ _ _ _ _ _ _ _ _ _ Hreq Hp0 Hactor Hcp) as [-> Hc].
  eapply completed_change with (p0 := p0); [exact Hcp|by eapply role_step_keyed|done..].
Qed.

Lemma authorize_change id mid progress :
  cmd_request command = AuthorizeProposal id → authorize_proposal self command id actor t next = Ok mid →
  complete_proposal_if_ready (mkProgress mid ∅ ∅) id t next ids = Ok progress →
  changed (pg_state progress).
Proof using Hk.
  intros Hreq Hauth Hcomp. pose proof (authorize_proposal_step _ _ _ _ _ _ _ Hauth) as Hstep.
  apply authorize_proposal_Ok in Hauth as (_ & p0 & Hp0 & _ & _ & _ & _ & ->).
  apply complete_proposal_Ok in Hcomp as [[-> _]|(p & g & m & Hcp)]; [constructor|].
  destruct (completed_authorized _ _ _ _ _ _ _ _ _ _ _ _ Hreq Hp0 Hcp) as [-> Hc].
  eapply completed_change with (p0 := p0); [exact Hcp|by eapply role_step_keyed|done..].
Qed.

Lemma revoke_change id reason a mid ended roles next' roles' :
  cmd_request command = EndAssignment id reason →
  st_assignments self !! id = Some a → authorize_assignment_end self actor a = Ok tt →
  end_assignment self id actor AssignmentEndReason.Revoked None t next = Ok (mid, ended) →
  record_desired_member_role mid (asg_member_pubkey a) roles = Ok (next', roles') →
  changed next'.
Proof using Hk.
  intros Hreq Ha Hauth (_ & b & Hb & Hact & _ & _ & ->)%end_assignment_Ok; [|done].
  intros (m & role & _ & _ & -> & _)%record_desired_member_role_Ok. simpl.
  assert (b = a) as -> by congruence.
  destruct (decide (k = id)) as [->|Hne]; [|rewrite lookup_insert_ne by done; apply change_none].
  rewrite lookup_insert_eq, Ha. eapply change_revoke; [done..|]. by apply authorize_assignment_end_Ok.
Qed.

End requests.

Lemma apply_request_assignment self command actor t next ids k progress :
  role_keyed self → apply_request self command actor t next ids = Ok progress →
  assignment_change self command actor t next ids k (st_assignments self !! k)
    (st_assignments (pg_state progress) !! k).
Proof.
  intros Hk H. unfold apply_request in H. destruct (cmd_request command) eqn:Hreq; role_inv; subst;
    eauto using offer_change, accept_change, authorize_change;
    try (eapply report_assignment_change; [|done]; done);
    try (edit_inv; apply change_none).
  repeat (match goal with H : (let '(_, _) := ?x in _) = Ok _ |- _ => destruct x end; ok_inv).
  subst. by eapply revoke_change.
Qed.

(** ** Consent is personal *)

(** A Proposal's acceptance is older than the command or its candidate's own,
    and its authorization is older or that of a governor of the move. *)
Definition personal self (actor : PublicKey) (t : DateTime) (proposals : gmap Uuid RoleAssignmentProposal)
  : Prop :=
  ∀ id p', proposals !! id = Some p' →
    (∀ x, prop_candidate_accepted_at p' = Some x →
       (∃ p, st_proposals self !! id = Some p ∧ prop_candidate_accepted_at p = Some x)
       ∨ (prop_candidate_pubkey p' = actor ∧ x = t)) ∧
    (∀ g, prop_authorized_by p' = Some g →
       (∃ p, st_proposals self !! id = Some p ∧ prop_authorized_by p = Some g)
       ∨ (g = actor ∧ governs_move self p' actor)).

Lemma personal_refl self actor t : personal self actor t (st_proposals self).
Proof. intros id p' Hp'. split; eauto. Qed.

Lemma personal_insert self actor t m id p' :
  personal self actor t m →
  (∀ x, prop_candidate_accepted_at p' = Some x →
     (∃ p, st_proposals self !! id = Some p ∧ prop_candidate_accepted_at p = Some x)
     ∨ (prop_candidate_pubkey p' = actor ∧ x = t)) →
  (∀ g, prop_authorized_by p' = Some g →
     (∃ p, st_proposals self !! id = Some p ∧ prop_authorized_by p = Some g)
     ∨ (g = actor ∧ governs_move self p' actor)) →
  personal self actor t (<[id := p']> m).
Proof. intros Hm Hacc Hauth k q [[<- <-]|[_ Hk]]%lookup_insert_Some; eauto. Qed.

(** Completing a Proposal records no consent. *)
Lemma personal_complete self actor t progress id next ids progress' :
  role_keyed (pg_state progress) → personal self actor t (st_proposals (pg_state progress)) →
  complete_proposal_if_ready progress id t next ids = Ok progress' →
  personal self actor t (st_proposals (pg_state progress')).
Proof.
  intros Hk Hm [[-> _]|(p & g & mid & Hcp)]%complete_proposal_Ok; [done|].
  pose proof (completed_mid_proposal _ _ _ _ _ _ _ _ _ Hk Hcp) as Hp.
  destruct (completed_mid_untouched _ _ _ _ _ _ _ _ _ Hk Hcp) as (Hsame & _).
  destruct (cp_result _ _ _ _ _ _ _ _ _ Hcp) as (current & m & role & Hcurrent & _ & _ & ->).
  assert (current = p) as -> by congruence. simpl. rewrite Hsame in *.
  destruct (Hm id p Hp) as [Hacc Hauth]. by apply personal_insert.
Qed.

Lemma personal_create self id role candidate type expires reason actor t next authorizer self' :
  create_proposal self id role candidate type expires reason actor t next authorizer = Ok self' →
  (type = ProposalType.Request → candidate = actor) → (∀ g, authorizer = Some g → g = actor) →
  personal self actor t (st_proposals self').
Proof.
  intros (_ & _ & _ & Hauth & ->)%create_proposal_Ok Hreq Hby. apply personal_insert; simpl.
  - apply personal_refl.
  - case_decide; [|done]. intros x [= <-]. right. auto.
  - intros g ->. right. rewrite (Hby g) by done. split; [done|].
    apply authorize_complete_move_Ok, Hauth. by eexists.
Qed.

Lemma personal_accept self id actor t next self' :
  accept_proposal self id actor t next = Ok self' → personal self actor t (st_proposals self').
Proof.
  intros (p & Hp & _ & _ & Hactor & _ & ->)%accept_proposal_Ok. apply personal_insert; simpl.
  - apply personal_refl.
  - intros x [= <-]. by right.
  - intros g Hg. left. eauto.
Qed.

Lemma personal_authorize self command id actor t next self' :
  authorize_proposal self command id actor t next = Ok self' →
  personal self actor t (st_proposals self').
Proof.
  intros (_ & p & Hp & _ & _ & _ & Hauth & ->)%authorize_proposal_Ok. apply personal_insert; simpl.
  - apply personal_refl.
  - intros x Hx. left. eauto.
  - intros g [= <-]. right. split; [done|]. by apply authorize_complete_move_Ok in Hauth.
Qed.

Lemma personal_resolve self actor id status reason t next self' :
  resolve_in self id status reason t next = Ok self' → personal self actor t (st_proposals self').
Proof.
  intros (p & Hp & ->)%resolve_in_Ok. apply personal_insert; [apply personal_refl|simpl; eauto..].
Qed.

Lemma apply_request_personal self command actor t next ids progress :
  role_keyed self → apply_request self command actor t next ids = Ok progress →
  personal self actor t (st_proposals (pg_state progress)).
Proof.
  intros Hk H. unfold apply_request in H. destruct (cmd_request command) eqn:Hreq; ok_inv; subst;
    eauto using personal_resolve; try (edit_inv; subst; exact (personal_refl self _ t)).
  - by eapply personal_create.
  - eapply (personal_complete _ _ _ (mkProgress _ ∅ ∅)); [|eapply personal_create; [done|done|congruence]|done].
    eapply role_step_keyed; [by eapply create_proposal_step|done].
  - eapply (personal_complete _ _ _ (mkProgress _ ∅ ∅)); [|by eapply personal_accept|done].
    eapply role_step_keyed; [by eapply accept_proposal_step|done].
  - eapply (personal_complete _ _ _ (mkProgress _ ∅ ∅)); [|by eapply personal_authorize|done].
    eapply role_step_keyed; [by eapply authorize_proposal_step|done].
Qed.

End auth.
