(* ===== verification/RoleOutcome.v ===== *)
(** * Role continuity: the outcome is exactly what changed

    The reducer returns the rows that a transaction has to write.  Writing them
    over the state the command was applied to gives the state the reducer
    computed. *)

From stdpp Require Import prelude strings gmap fin_maps.
From S2P Require Import Prelude Text Platform ViewModel ViewContract.
From S2P Require Import RoleGovernance RoleModel RoleCommand RoleState RoleReducer RoleFacts RoleEdits.
From S2P Require Import RoleHistory RoleSteps RoleMoves RoleReach.

(** ** Upserting rows *)

Definition upsert_all {K V} `{Countable K} (key : V → K) (rows : list V) (m : gmap K V) : gmap K V :=
  foldl (λ m row, <[key row := row]> m) m rows.

Section upsert.
Context {K V : Type} `{Countable K, EqDecision V} (key : V → K).
Implicit Types (rows : list V) (m : gmap K V).

Lemma upsert_all_snoc rows row m :
  upsert_all key (rows ++ [row]) m = <[key row := row]> (upsert_all key rows m).
Proof. unfold upsert_all. by rewrite foldl_app. Qed.

(** Rows that agree with a map, and every key of the rows. *)
Lemma upsert_all_lookup rows m m' k :
  (∀ v, v ∈ rows → m' !! key v = Some v) →
  upsert_all key rows m !! k = if bool_decide (k ∈ key <$> rows) then m' !! k else m !! k.
Proof.
  induction rows as [|row rows IH] using rev_ind; intros Hrows; [done|].
  rewrite upsert_all_snoc, fmap_app. destruct (decide (k = key row)) as [->|Hne].
  - rewrite lookup_insert_eq, bool_decide_eq_true_2 by (rewrite elem_of_app; right; by left).
    symmetry. apply Hrows. rewrite elem_of_app. right. by left.
  - rewrite lookup_insert_ne by done. rewrite IH by (intros v Hv; apply Hrows; rewrite elem_of_app; auto).
    rewrite (bool_decide_ext (k ∈ (key <$> rows) ++ (key <$> [row])) (k ∈ key <$> rows)); [done|].
    rewrite elem_of_app. simpl. rewrite elem_of_cons, elem_of_nil. naive_solver.
Qed.

(** The rows that differ between two maps turn the first into the second. *)
Lemma upsert_all_delta rows m m' :
  keyed key m' → dom m ⊆ dom m' →
  (∀ v, v ∈ rows ↔ m' !! key v = Some v ∧ m !! key v ≠ Some v) →
  upsert_all key rows m = m'.
Proof.
  intros Hkey Hdom Hrows. apply map_eq. intros k.
  rewrite (upsert_all_lookup rows m m') by (intros v Hv; by apply Hrows).
  case_bool_decide as Hk; [done|].
  destruct (m' !! k) as [v|] eqn:Hv.
  - assert (key v = k) as <- by by apply Hkey.
    destruct (decide (m !! key v = Some v)) as [Heq|Hne]; [congruence|].
    exfalso. by apply Hk, list_elem_of_fmap_2, Hrows.
  - apply not_elem_of_dom in Hv. apply not_elem_of_dom. set_solver.
Qed.

(** Inserting rows with a functional key, from nothing. *)
Lemma upsert_all_empty rows k v :
  (∀ x y, x ∈ rows → y ∈ rows → key x = key y → x = y) →
  upsert_all key rows ∅ !! k = Some v ↔ v ∈ rows ∧ key v = k.
Proof.
  induction rows as [|row rows IH] using rev_ind; intros Hfun.
  - unfold upsert_all. simpl. rewrite lookup_empty, elem_of_nil. naive_solver.
  - rewrite upsert_all_snoc, lookup_insert_Some, IH.
    + rewrite elem_of_app, elem_of_cons, elem_of_nil. split.
      * intros [[<- <-]|(? & ? & ?)]; auto.
      * intros [[Hv|[->|[]]] <-]; [|by left].
        destruct (decide (key row = key v)) as [Heq|]; [left|by right].
        split; [done|]. apply Hfun; [rewrite elem_of_app; right; by left|by rewrite elem_of_app; left|done].
    + intros x y Hx Hy. apply Hfun; rewrite elem_of_app; auto.
Qed.

End upsert.

(** ** Entities *)

Section entities.
Context `{P : Platform}.
Implicit Types (self st : RoleContinuityState).

(** The entity of a state with a given key. *)
Definition entity_at st (key : RoleContinuityEntity * Uuid) : option RoleContinuityChange :=
  match key.1 with
  | RoleContinuityEntity.Role => None
  | RoleContinuityEntity.RoleAssignmentProposal => ChangeProposal <$> st_proposals st !! key.2
  | RoleContinuityEntity.RoleAssignment => ChangeAssignment <$> st_assignments st !! key.2
  | RoleContinuityEntity.WorkCommitment => ChangeCommitment <$> st_commitments st !! key.2
  | RoleContinuityEntity.RoleCheckpoint => ChangeCheckpoint <$> st_checkpoints st !! key.2
  | RoleContinuityEntity.RoleHandoff => ChangeHandoff <$> st_handoffs st !! key.2
  end.

(** The rows of a map, wrapped. *)
Lemma elem_of_wrapped {V} (wrap : V → RoleContinuityChange) (key : V → Uuid) (m : gmap Uuid V) c :
  keyed key m →
  c ∈ wrap <$> btree_values m ↔ ∃ v, m !! key v = Some v ∧ c = wrap v.
Proof.
  intros Hk. rewrite list_elem_of_fmap. setoid_rewrite elem_of_btree_values. split.
  - intros (v & -> & k & Hv). exists v. by rewrite (Hk _ _ Hv).
  - intros (v & Hv & ->). eauto.
Qed.

Lemma entity_at_key st c :
  role_keyed st →
  c ∈ (ChangeProposal <$> btree_values (st_proposals st))
      ++ (ChangeAssignment <$> btree_values (st_assignments st))
      ++ (ChangeCommitment <$> btree_values (st_commitments st))
      ++ (ChangeCheckpoint <$> btree_values (st_checkpoints st))
      ++ (ChangeHandoff <$> btree_values (st_handoffs st)) ↔
  entity_at st (entity_key c) = Some c.
Proof.
  intros []. rewrite !elem_of_app.
  rewrite (elem_of_wrapped _ prop_proposal_id), (elem_of_wrapped _ asg_assignment_id),
    (elem_of_wrapped _ com_commitment_id), (elem_of_wrapped _ chk_checkpoint_id),
    (elem_of_wrapped _ hof_handoff_id) by done.
  destruct c; simpl; unfold entity_at; simpl; rewrite ?fmap_Some; naive_solver.
Qed.

Lemma entity_map_lookup st key c :
  role_keyed st → entity_map st !! key = Some c ↔ entity_at st (entity_key c) = Some c ∧ entity_key c = key.
Proof.
  intros Hk. change (entity_map st) with (upsert_all entity_key
    ((ChangeProposal <$> btree_values (st_proposals st))
     ++ (ChangeAssignment <$> btree_values (st_assignments st))
     ++ (ChangeCommitment <$> btree_values (st_commitments st))
     ++ (ChangeCheckpoint <$> btree_values (st_checkpoints st))
     ++ (ChangeHandoff <$> btree_values (st_handoffs st))) ∅).
  rewrite upsert_all_empty; [by rewrite entity_at_key|].
  intros x y Hx%entity_at_key Hy%entity_at_key Heq; [|done..]. congruence.
Qed.

(** The outcome lists exactly the entities that are new or different. *)
Lemma elem_of_changed_entities st st' c :
  role_keyed st → role_keyed st' →
  c ∈ changed_entities (entity_map st) (entity_map st') ↔
  entity_at st' (entity_key c) = Some c ∧ entity_at st (entity_key c) ≠ Some c.
Proof.
  intros Hk Hk'. unfold changed_entities. rewrite list_elem_of_omap. split.
  - intros ([key d] & Hin & Hd). rewrite sort_by_perm in Hin. apply elem_of_map_to_list in Hin.
    case_decide as Hb; [done|]. injection Hd as <-. rewrite entity_map_lookup in Hin, Hb by done.
    destruct Hin as [Hat Hkey]. split; [done|]. intros Hold. apply Hb. done.
  - intros [Hat Hold]. exists (entity_key c, c). split.
    + rewrite sort_by_perm. apply elem_of_map_to_list. by rewrite entity_map_lookup.
    + rewrite decide_False; [done|]. rewrite entity_map_lookup by done. naive_solver.
Qed.

Lemma elem_of_changed_works (m m' : gmap Uuid WorkResponsibility) w :
  keyed work_work_id m' →
  w ∈ changed_works m m' ↔ m' !! work_work_id w = Some w ∧ m !! work_work_id w ≠ Some w.
Proof.
  intros Hk. unfold changed_works. rewrite list_elem_of_omap. split.
  - intros ([k d] & Hin & Hd). rewrite btree_iter_perm in Hin. apply elem_of_map_to_list in Hin.
    case_decide as Hb; [done|]. injection Hd as <-. by rewrite (Hk _ _ Hin).
  - intros [Hw Hold]. exists (work_work_id w, w). split.
    + rewrite btree_iter_perm. by apply elem_of_map_to_list.
    + by rewrite decide_False.
Qed.

End entities.

(** ** Persisting an outcome *)

Section persist.
Context `{P : Platform}.
Implicit Types (self st : RoleContinuityState).

(** Writing the Community roles of an outcome. *)
Definition apply_membership (roles : gmap PublicKey CommunityMemberRole)
    (members : gmap PublicKey MemberGovernance) : gmap PublicKey MemberGovernance :=
  map_imap (λ key m, Some (from_option (with_role m) m (roles !! key))) members.

Lemma lookup_apply_membership roles members key :
  apply_membership roles members !! key = (λ m, from_option (with_role m) m (roles !! key)) <$> members !! key.
Proof. unfold apply_membership. rewrite map_lookup_imap. by destruct (members !! key). Qed.

Lemma apply_membership_empty members : apply_membership ∅ members = members.
Proof.
  apply map_eq. intros key. rewrite lookup_apply_membership, lookup_empty. by destruct (members !! key).
Qed.

Lemma apply_membership_insert roles members key m role :
  apply_membership roles members !! key = Some m →
  apply_membership (<[key := role]> roles) members
  = <[key := with_role m role]> (apply_membership roles members).
Proof.
  intros Hm. apply map_eq. intros k. rewrite lookup_apply_membership in Hm |- *.
  destruct (decide (k = key)) as [->|Hne].
  - rewrite !lookup_insert_eq. apply fmap_Some in Hm as (x & -> & ->). simpl.
    by destruct (roles !! key).
  - by rewrite !lookup_insert_ne, lookup_apply_membership.
Qed.

(** The rows of an outcome, by entity. *)
Definition as_proposal (c : RoleContinuityChange) : option RoleAssignmentProposal :=
  match c with ChangeProposal p => Some p | _ => None end.
Definition as_assignment (c : RoleContinuityChange) : option RoleAssignment :=
  match c with ChangeAssignment a => Some a | _ => None end.
Definition as_commitment (c : RoleContinuityChange) : option WorkCommitment :=
  match c with ChangeCommitment x => Some x | _ => None end.
Definition as_checkpoint (c : RoleContinuityChange) : option RoleCheckpoint :=
  match c with ChangeCheckpoint x => Some x | _ => None end.
Definition as_handoff (c : RoleContinuityChange) : option RoleHandoff :=
  match c with ChangeHandoff x => Some x | _ => None end.

(** The transaction that the reducer asks for: upsert the changed entities and
    Work, write the Community roles and advance the project revision. *)
Definition persist st (outcome : RoleContinuityOutcome) : RoleContinuityState :=
  mkRoleContinuityState (out_project_revision outcome) (st_referenceable_objects st) (st_roles st)
    (upsert_all work_work_id (out_work_changes outcome) (st_works st))
    (apply_membership (out_membership_roles outcome) (st_members st))
    (upsert_all prop_proposal_id (omap as_proposal (out_changes outcome)) (st_proposals st))
    (upsert_all asg_assignment_id (omap as_assignment (out_changes outcome)) (st_assignments st))
    (upsert_all com_commitment_id (omap as_commitment (out_changes outcome)) (st_commitments st))
    (upsert_all chk_checkpoint_id (omap as_checkpoint (out_changes outcome)) (st_checkpoints st))
    (upsert_all hof_handoff_id (omap as_handoff (out_changes outcome)) (st_handoffs st)).

(** ** Community roles *)

(** The Community roles recorded so far account for the members. *)
Definition accounted (members : gmap PublicKey MemberGovernance) (progress : Progress) : Prop :=
  st_members (pg_state progress) = apply_membership (pg_membership_roles progress) members.

Lemma accounted_record members x y member m role :
  accounted members x → st_members (pg_state x) !! member = Some m →
  st_members (pg_state y) = <[member := with_role m role]> (st_members (pg_state x)) →
  pg_membership_roles y = <[member := role]> (pg_membership_roles x) → accounted members y.
Proof.
  unfold accounted. intros Hx Hm -> ->. rewrite Hx in Hm |- *. by rewrite (apply_membership_insert _ _ _ m).
Qed.

#[local] Instance accounted_preorder members : PreOrder (λ x y, accounted members x → accounted members y).
Proof. split; [by intros x|]. intros x y z Hxy Hyz Hx. auto. Qed.

Lemma accounted_complete members progress id t next ids progress' :
  role_keyed (pg_state progress) → accounted members progress →
  complete_proposal_if_ready progress id t next ids = Ok progress' → accounted members progress'.
Proof.
  intros Hk Hacc [[-> _]|(p & g & mid & Hcp)]%complete_proposal_Ok; [done|].
  assert (Hmid : accounted members mid).
  { revert Hacc. apply (completed_rel _ _ _ _ _ _ _ _ _ Hk Hcp (λ x y, accounted members x → accounted members y)).
    intros x i h y _ Hx _ (a & m & role & _ & _ & Hm & _ & ->)%replace_assignment_Ok; [|done].
    intros Hacc. by eapply accounted_record. }
  destruct (cp_result _ _ _ _ _ _ _ _ _ Hcp) as (current & m & role & _ & Hm & _ & ->).
  by eapply accounted_record.
Qed.

Lemma apply_request_accounted self command actor t next ids progress :
  role_keyed self → apply_request self command actor t next ids = Ok progress →
  accounted (st_members self) progress.
Proof.
  assert (Hstart : accounted (st_members self) (mkProgress self ∅ ∅)).
  { unfold accounted. simpl. by rewrite apply_membership_empty. }
  intros Hk H. unfold apply_request in H. destruct (cmd_request command) eqn:Hreq; ok_inv; subst;
    try (edit_inv; exact Hstart).
  - eapply accounted_complete; [| |eassumption].
    + eapply role_step_keyed; [by eapply create_proposal_step|done].
    + edit_inv. exact Hstart.
  - eapply accounted_complete; [| |eassumption].
    + eapply role_step_keyed; [by eapply accept_proposal_step|done].
    + match goal with H : accept_proposal _ _ _ _ _ = Ok _ |- _ =>
        apply accept_proposal_Ok in H as (p & _ & _ & _ & _ & _ & ->) end. exact Hstart.
  - eapply accounted_complete; [| |eassumption].
    + eapply role_step_keyed; [by eapply authorize_proposal_step|done].
    + match goal with H : authorize_proposal _ _ _ _ _ _ = Ok _ |- _ =>
        apply authorize_proposal_Ok in H as (_ & p & _ & _ & _ & _ & _ & ->) end. exact Hstart.
  - repeat (match goal with H : (let '(_, _) := ?x in _) = Ok _ |- _ => destruct x end; ok_inv). subst.
    match goal with H : end_assignment _ _ _ _ _ _ _ = Ok _ |- _ =>
      apply end_assignment_Ok in H as (_ & a & _ & _ & _ & _ & ->); [|done] end.
    match goal with H : record_desired_member_role _ _ _ = Ok _ |- _ =>
      apply record_desired_member_role_Ok in H as (m & role & Hm & _ & -> & ->) end.
    by eapply (accounted_record _ (mkProgress self ∅ ∅)).
Qed.

(** ** Persisting gives the next state *)

Lemma map_step_dom {K V} `{Countable K} (R : V → V → Prop) fresh (m m' : gmap K V) :
  map_step R fresh m m' → dom m ⊆ dom m'.
Proof.
  intros Hm k [v Hv]%elem_of_dom. specialize (Hm k). rewrite Hv in Hm.
  apply elem_of_dom. by destruct (m' !! k).
Qed.

(** The changed rows of one entity turn its map into the next one. *)
Lemma upsert_changes {V} `{EqDecision V} (as_row : RoleContinuityChange → option V)
    (wrap : V → RoleContinuityChange) (key : V → Uuid) (rows : RoleContinuityState → gmap Uuid V) st st' :
  role_keyed st → role_keyed st' → keyed key (rows st') → dom (rows st) ⊆ dom (rows st') →
  (∀ c v, as_row c = Some v ↔ c = wrap v) →
  (∀ s v, entity_at s (entity_key (wrap v)) = Some (wrap v) ↔ rows s !! key v = Some v) →
  upsert_all key (omap as_row (changed_entities (entity_map st) (entity_map st'))) (rows st) = rows st'.
Proof.
  intros Hk Hk' Hkey Hdom Hrow Hat. apply upsert_all_delta; [done..|]. intros v.
  rewrite list_elem_of_omap. setoid_rewrite Hrow. rewrite <- !Hat, <- elem_of_changed_entities by done.
  naive_solver.
Qed.

Lemma persist_changes next st st' roles ended :
  role_keyed st → role_step next st st' → st_members st' = apply_membership roles (st_members st) →
  persist st (mkRoleContinuityOutcome (st_project_revision st')
                (changed_entities (entity_map st) (entity_map st'))
                (changed_works (st_works st) (st_works st')) roles ended) = st'.
Proof.
  intros Hk Hs Hm. pose proof (role_step_keyed _ _ _ Hs Hk) as Hk'. destruct Hs, Hk' as [] eqn:Heq.
  unfold persist. simpl.
  rewrite (upsert_changes as_proposal ChangeProposal prop_proposal_id st_proposals st st'),
    (upsert_changes as_assignment ChangeAssignment asg_assignment_id st_assignments st st'),
    (upsert_changes as_commitment ChangeCommitment com_commitment_id st_commitments st st'),
    (upsert_changes as_checkpoint ChangeCheckpoint chk_checkpoint_id st_checkpoints st st'),
    (upsert_changes as_handoff ChangeHandoff hof_handoff_id st_handoffs st st'),
    (upsert_all_delta work_work_id _ (st_works st) (st_works st')), <- Hm, <- rs_objects, <- rs_roles;
    try done; try (by eapply map_step_dom); try (by intros []; naive_solver);
    try (intros s v; simpl; unfold entity_at; simpl; rewrite fmap_Some; naive_solver).
  - by destruct st'.
  - intros w. by apply elem_of_changed_works.
Qed.

Lemma reduce_role_persist st command actor t ids st' outcome :
  role_keyed st → reduce_role st command actor t ids = Ok (st', outcome) → persist st outcome = st'.
Proof.
  intros Hk H. pose proof (reduce_role_step _ _ _ _ _ _ _ Hk H) as Hs.
  apply reduce_role_Ok in H as (progress & _ & _ & _ & Hreq & -> & _ & -> & _).
  apply (persist_changes _ _ _ _ _ Hk Hs). exact (apply_request_accounted _ _ _ _ _ _ _ Hk Hreq).
Qed.

Lemma changed_works_same (m : gmap Uuid WorkResponsibility) : changed_works m m = [].
Proof.
  unfold changed_works. pose proof (Forall_btree_iter (λ row, m !! row.1 = Some row.2) m) as [_ Hall].
  specialize (Hall (λ k v Hk, Hk)). induction Hall as [|[k w] l Hw _ IH]; [done|].
  simpl in *. by rewrite decide_True.
Qed.

Lemma reduce_unrecoverable_persist st id actor t handoff_id st' outcome :
  role_keyed st → reduce_unrecoverable_assignment st id actor t handoff_id = Ok (st', outcome) →
  persist st outcome = st'.
Proof.
  intros Hk H. pose proof (reduce_unrecoverable_step _ _ _ _ _ _ _ Hk H) as Hs.
  apply reduce_unrecoverable_Ok in H as (a & m & role & Hrc & _ & -> & _ & -> & _); [|done].
  rewrite <- (changed_works_same (st_works st)). apply (persist_changes _ _ _ _ _ Hk Hs).
  rewrite <- insert_empty, (apply_membership_insert ∅ _ _ m); rewrite apply_membership_empty;
    [done|apply Hrc].
Qed.

End persist.
