(* ===== verification/RoleRecovery.v ===== *)
(** * Role continuity: handing over interrupted Work

    The Handoff that the system writes for the Commitments it ends, when the
    aggregate check accepts it, and that the system end of an Assignment
    succeeds under the stated conditions. *)

From stdpp Require Import prelude strings gmap fin_maps.
From S2P Require Import Prelude Text Platform ViewModel ViewContract RoleGovernance RoleModel.
From S2P Require Import RoleCommand RoleState RoleReducer RoleFacts RoleEdits RoleHistory.
From S2P Require Import RoleSteps RoleMoves RoleReach RoleOutcome RoleAuth.

(** ** Text *)

Lemma str_len_le (s : Text) : (str_len s ≤ 4 * N.of_nat (length s))%N.
Proof.
  induction s as [|c s IH]; [done|]. cbn [str_len foldr length]. fold (str_len s).
  unfold len_utf8. repeat case_match; lia.
Qed.

Lemma str_len_app (s u : Text) : str_len (s ++ u) = (str_len s + str_len u)%N.
Proof.
  induction s as [|c s IH]; [done|]. cbn [app str_len foldr]. fold (str_len s) (str_len (s ++ u)). lia.
Qed.

Section content.
Context `{P : Platform}.
Implicit Types (self : RoleContinuityState).

(** ** The content of a system Handoff *)

(** What one interrupted Commitment adds. *)
Definition interrupted_references self (id : Uuid) : list RoleContinuityReference :=
  RefCommitment id (Some (lit "interrupted Commitment"))
  :: match st_commitments self !! id with
     | Some c => [RefObject (com_work_id c) (Some (lit "Work waiting for continuation"))]
     | None => []
     end.

Definition interrupted_item (work_id : Uuid) : Text :=
  lit "Work " ++ Uuid_display work_id ++ lit " requires explicit successor acceptance".

Lemma interrupted_eq self ids :
  interrupted self ids =
  (concat (interrupted_references self <$> ids),
   omap (λ id, interrupted_item ∘ com_work_id <$> st_commitments self !! id) ids).
Proof.
  unfold interrupted.
  cut (∀ refs items, foldl (λ acc commitment_id,
       let '(references, unresolved_items) := acc in
       let references :=
         references ++ [RefCommitment commitment_id (Some (lit "interrupted Commitment"))] in
       match self.(st_commitments) !! commitment_id with
       | Some commitment =>
           (references ++ [RefObject commitment.(com_work_id)
                             (Some (lit "Work waiting for continuation"))],
            unresolved_items ++ [lit "Work " ++ Uuid_display commitment.(com_work_id)
                                 ++ lit " requires explicit successor acceptance"])
       | None => (references, unresolved_items)
       end) (refs, items) ids =
    (refs ++ concat (interrupted_references self <$> ids),
     items ++ omap (λ id, interrupted_item ∘ com_work_id <$> st_commitments self !! id) ids)).
  { intros H. apply (H [] []). }
  induction ids as [|id ids IH]; intros refs items; simpl; [by rewrite !app_nil_r|].
  unfold interrupted_references at 1. destruct (st_commitments self !! id) as [c|] eqn:Hc; simpl.
  - rewrite IH. unfold interrupted_item. by rewrite <- !(assoc_L (++)).
  - rewrite IH. by rewrite <- !(assoc_L (++)).
Qed.

(** Commitments that exist give one item each, and two references. *)
Lemma interrupted_lengths self ids :
  (∀ id, id ∈ ids → is_Some (st_commitments self !! id)) →
  length (interrupted self ids).1 = 2 * length ids ∧ length (interrupted self ids).2 = length ids.
Proof.
  rewrite interrupted_eq. simpl. induction ids as [|id ids IH]; intros Hall; [done|].
  destruct (Hall id (list_elem_of_here _ _)) as [c Hc].
  destruct IH as [IH1 IH2]; [intros k Hk; apply Hall; by right|].
  assert (Hrefs : length (interrupted_references self id) = 2).
  { unfold interrupted_references. by rewrite Hc. }
  split; [|by simpl; rewrite Hc; simpl; f_equal].
  rewrite fmap_cons. cbn [concat]. rewrite length_app, Hrefs, IH1. simpl. lia.
Qed.

(** The texts of the system are within bounds, whatever the Work. *)
Lemma interrupted_item_ok `{!UuidLaws} field work_id :
  validate_required_text (interrupted_item work_id) field MAX_CONTINUITY_ITEM_BYTES = Ok tt.
Proof.
  unfold validate_required_text. apply reject_if_Ok, orb_false_iff.
  assert (Hclean : ends_clean (interrupted_item work_id)).
  { split; [done|]. unfold interrupted_item. by rewrite !last_app. }
  apply trim_id in Hclean. rewrite Hclean. split; [done|]. apply N.ltb_ge. unfold interrupted_item.
  pose proof (str_len_le (Uuid_display work_id)) as Hd. rewrite Uuid_display_length in Hd.
  rewrite !str_len_app. change (str_len (lit "Work ")) with 5%N.
  change (str_len (lit " requires explicit successor acceptance")) with 39%N.
  unfold MAX_CONTINUITY_ITEM_BYTES. lia.
Qed.

(** Every Commitment of the Assignment is still there once it is ended. *)
Lemma ended_commitments_found self id actor reason replaced_by t next a k :
  keyed com_commitment_id (st_commitments self) → k ∈ commitments_of self id →
  ∃ c, st_commitments (ended_state self id actor reason replaced_by t next a) !! k = Some c ∧
       com_assignment_id c = id ∧ ∃ c0, st_commitments self !! k = Some c0 ∧ com_work_id c = com_work_id c0.
Proof.
  intros Hk (c & Hc & Hheld)%elem_of_commitments_of; [|done]. simpl. unfold release.
  rewrite lookup_fmap, Hc. simpl. rewrite Hheld. eexists. split; [done|]. simpl.
  apply andb_true_iff in Hheld as [Ha _]. apply bool_decide_eq_true in Ha. eauto.
Qed.

(** The content lists every interrupted Commitment. *)
Lemma interrupted_content_items self id actor reason replaced_by t next a done_text open_text :
  keyed com_commitment_id (st_commitments self) →
  length (hof_unresolved_items
    (interrupted_content (ended_state self id actor reason replaced_by t next a)
       (commitments_of self id) done_text open_text)) = length (commitments_of self id).
Proof.
  intros Hk. unfold interrupted_content.
  pose proof (interrupted_lengths (ended_state self id actor reason replaced_by t next a)
    (commitments_of self id)) as [_ Hlen].
  { intros k Hin. destruct (ended_commitments_found self id actor reason replaced_by t next a k Hk Hin)
      as (c & Hc & _). by eexists. }
  by destruct (interrupted _ _) as [refs items].
Qed.

(** A valid Handoff has a bounded number of unresolved items. *)
Lemma handoff_items_bound self h :
  handoff_ok self h → (len (hof_unresolved_items (hof_content h)) ≤ MAX_CONTINUITY_ITEMS)%N.
Proof.
  intros (_ & _ & from & _ & _ & _ & _ & _ & Hcontent & _).
  unfold validate_handoff_content, validate_continuity_items in Hcontent. ok_inv. by bool_props.
Qed.

(** The content that the system writes passes its own rules up to that bound. *)
Lemma interrupted_content_ok `{!UuidLaws} self ids done_text open_text :
  (∀ id, id ∈ ids → Uuid_is_nil id = false ∧
     ∃ c, st_commitments self !! id = Some c ∧ Uuid_is_nil (com_work_id c) = false) →
  (len ids ≤ MAX_CONTINUITY_ITEMS)%N →
  validate_required_text (lit done_text) "handoff.summary" MAX_CONTINUITY_SUMMARY_BYTES = Ok tt →
  validate_required_text (lit open_text) "handoff.summary" MAX_CONTINUITY_SUMMARY_BYTES = Ok tt →
  validate_handoff_content (interrupted_content self ids done_text open_text) = Ok tt.
Proof.
  intros Hall Hlen Hdone Hopen.
  destruct (interrupted_lengths self ids) as [Hrefs Hitems].
  { intros id Hid. destruct (Hall id Hid) as (_ & c & Hc & _). by eexists. }
  unfold interrupted_content. rewrite interrupted_eq in *. cbn [fst snd] in Hrefs, Hitems.
  unfold validate_handoff_content. cbn [hof_summary hof_unresolved_items hof_references].
  unfold len in *. apply seq_Ok. split; [by case_match|]. apply seq_Ok. split.
  - unfold validate_continuity_items, len. rewrite Hitems. apply guard_Ok.
    split; [by apply N.ltb_ge|]. apply for_each_Ok, Forall_forall. intros item Hitem.
    apply list_elem_of_omap in Hitem as (id & _ & (c & _ & ->)%fmap_Some). apply interrupted_item_ok.
  - unfold validate_reference_shape, len. rewrite Hrefs. apply guard_Ok.
    split; [apply N.ltb_ge; unfold MAX_CONTINUITY_REFERENCES, MAX_CONTINUITY_ITEMS in *; lia|].
    apply for_each_Ok, Forall_forall. intros ref Href.
    apply list_elem_of_In, List.in_concat in Href as (refs & Hrs & Href).
    apply list_elem_of_In in Hrs. apply list_elem_of_In in Href.
    apply list_elem_of_fmap in Hrs as (id & -> & Hid).
    destruct (Hall id Hid) as (Hnil & c & Hc & Hwork). unfold interrupted_references in Href. rewrite Hc in Href.
    rewrite !elem_of_cons, elem_of_nil in Href.
    destruct Href as [->|[->|[]]]; unfold validate_one_reference, require_id; by rewrite ?Hnil, ?Hwork.
Qed.

End content.

(** ** Rules that a step forward keeps *)

Section keep.
Context `{P : Platform} (next : N) (st st' : RoleContinuityState).
Context (Hs : role_step next st st').
Context (Hrev : (st_project_revision st ≤ st_project_revision st')%N).

(** The identity of an Assignment, a Commitment and a Checkpoint. *)
Lemma step_assignment_kept id a :
  st_assignments st !! id = Some a →
  ∃ a', st_assignments st' !! id = Some a' ∧ asg_role_id a' = asg_role_id a ∧
        asg_member_pubkey a' = asg_member_pubkey a.
Proof using Hs.
  intros Ha. destruct (map_step_lookup _ _ _ _ _ _ (rs_assignments _ _ _ Hs) Ha)
    as (a' & Ha' & [->|(_ & Hsame & _)]); [eauto|].
  exists a'. split_and!; [done|apply Hsame..].
Qed.

Lemma step_commitment_kept id c :
  st_commitments st !! id = Some c →
  ∃ c', st_commitments st' !! id = Some c' ∧ com_assignment_id c' = com_assignment_id c.
Proof using Hs.
  intros Hc. destruct (map_step_lookup _ _ _ _ _ _ (rs_commitments _ _ _ Hs) Hc)
    as (c' & Hc' & [->|(_ & Hsame & _)]); [eauto|].
  exists c'. split; [done|apply Hsame].
Qed.

Lemma step_checkpoint_kept id k : st_checkpoints st !! id = Some k → st_checkpoints st' !! id = Some k.
Proof using Hs.
  intros Hk. by destruct (map_step_lookup _ _ _ _ _ _ (rs_checkpoints _ _ _ Hs) Hk) as (k' & Hk' & <-).
Qed.

Lemma reference_ok_step ref : reference_ok st ref → reference_ok st' ref.
Proof using Hs.
  destruct ref; simpl; [by rewrite (rs_objects _ _ _ Hs)| | |done].
  - intros [a (a' & Ha' & _)%step_assignment_kept]. by eexists.
  - intros [c (c' & Hc' & _)%step_commitment_kept]. by eexists.
Qed.

Lemma checkpoint_ok_step k : checkpoint_ok st k → checkpoint_ok st' k.
Proof using Hs Hrev.
  intros (? & ? & ? & (a & Ha & ? & ?) & ? & Hrefs & Hold). split_and!; [done|lia|lia|lia| |done| |].
  - destruct (step_assignment_kept _ _ Ha) as (a' & Ha' & Hr & Hm). exists a'. by rewrite Hr, Hm.
  - eapply Forall_impl; [exact Hrefs|]. apply reference_ok_step.
  - intros id (old & Hold' & Hrest)%Hold. exists old. split; [by apply step_checkpoint_kept|done].
Qed.

Lemma handoff_ok_step h : handoff_ok st h → handoff_ok st' h.
Proof using Hs Hrev.
  intros (? & ? & from & Hfrom & Hrole & Hto & Hchk & Haff & ? & Hrefs & Hauthor).
  destruct (step_assignment_kept _ _ Hfrom) as (from' & Hfrom' & Hr & Hm).
  split; [done|]. split; [lia|]. exists from'. split; [done|]. split; [congruence|]. split_and!; [..|done| |].
  - intros id (to & Hto' & Heq)%Hto. destruct (step_assignment_kept _ _ Hto') as (to' & ? & ? & _).
    exists to'. split; congruence.
  - intros id (k & Hk & Hrest)%Hchk. exists k. split; [by apply step_checkpoint_kept|done].
  - eapply Forall_impl; [exact Haff|]. intros id (c & Hc & Heq).
    destruct (step_commitment_kept _ _ Hc) as (c' & Hc' & ?). exists c'. split; congruence.
  - eapply Forall_impl; [exact Hrefs|]. apply reference_ok_step.
  - by rewrite Hm.
Qed.

End keep.

(** ** The system end of an Assignment succeeds *)

(** The greatest element is one of the list. *)
Lemma max_by_elem {A} (cmp : A → A → comparison) (l : list A) x : max_by cmp l = Some x → x ∈ l.
Proof.
  unfold max_by. cut (∀ best, foldl (λ best x, match best with
      | Some b => match cmp b x with Gt => Some b | _ => Some x end | None => Some x end) best l = Some x →
    best = Some x ∨ x ∈ l). { intros H Hx. by destruct (H _ Hx). }
  induction l as [|y l IH]; intros best H; simpl in H; [by left|].
  apply IH in H as [H|H]; [|right; by right].
  destruct best as [b|]; [|right; injection H as ->; by left].
  destruct (cmp b y); [right; injection H as ->; by left..|by left].
Qed.

Section recovery.
Context `{P : Platform} (st : RoleContinuityState) (Hinv : role_inv_state st).
Context (id : Uuid) (actor : PublicKey) (t : DateTime) (handoff_id : Uuid).
Context (a : RoleAssignment) (m : MemberGovernance) (role : CommunityMemberRole).
Context (Hrc : recoverable st id handoff_id a m).

Lemma latest_checkpoint_of k :
  latest_checkpoint_for_assignment st id = Some k →
  ∃ c, st_checkpoints st !! k = Some c ∧ chk_assignment_id c = id.
Proof using Hinv.
  unfold latest_checkpoint_for_assignment. intros (c & Hc%max_by_elem & ->)%fmap_Some.
  apply list_elem_of_In, filter_In in Hc as [Hin Hid]. apply bool_decide_eq_true in Hid.
  apply list_elem_of_In, elem_of_btree_values in Hin as [j Hj].
  exists c. by rewrite (rk_checkpoints _ (proj1 Hinv) _ _ Hj).
Qed.

Abbreviation next := (st_project_revision st + 1)%N.
Abbreviation ended := (ended_state st id actor AssignmentEndReason.Unrecoverable None t next a).
Abbreviation st' := (unrecoverable_state st id actor t handoff_id a m role).

Context (Hrole : desired_member_role (handed_over st id actor t handoff_id a) (asg_member_pubkey a) = Ok role).

Lemma recovered_step : role_step next st st'.
Proof using All. by apply unrecoverable_state_step. Qed.

Lemma recovered_assignment k b :
  st_assignments st' !! k = Some b →
  (k = id ∧ b = closed_assignment actor AssignmentEndReason.Unrecoverable None t next a) ∨
  (id ≠ k ∧ st_assignments st !! k = Some b).
Proof using Type. simpl. intros [[<- <-]|?]%lookup_insert_Some; auto. Qed.

Lemma recovered_assignment_ok k b : st_assignments st' !! k = Some b → assignment_ok st' b.
Proof using All.
  destruct Hinv as [Hk Hv]. destruct Hrc. intros [[-> ->]|[Hne Hb]]%recovered_assignment.
  - destruct (rv_assignments _ Hv _ _ rc_assignment) as (slot & Hslot & _).
    exists slot. split; [done|]. by split; eexists.
  - destruct (rv_assignments _ Hv _ _ Hb) as (slot & Hslot & Hok). exists slot. split; [done|].
    destruct (RoleAssignment_is_active b) eqn:Hact; [|done].
    destruct Hok as (Hactive & m' & Hm' & He & Hagree). split; [done|]. exists m'. split; [|done].
    simpl. rewrite lookup_insert_ne; [done|].
    destruct (rv_seats _ Hv id k a b rc_assignment Hb Hne rc_active Hact) as [_ Hmember]. done.
Qed.

Lemma recovered_seats i j b c :
  st_assignments st' !! i = Some b → st_assignments st' !! j = Some c → i ≠ j → seats_apart b c.
Proof using All.
  destruct Hinv as [Hk Hv].
  intros [[-> ->]|[Hi Hb]]%recovered_assignment [[-> ->]|[Hj Hc]]%recovered_assignment Hne; try done.
  by eapply (rv_seats _ Hv i j).
Qed.

(** A Commitment after the end of the Assignment. *)
Lemma recovered_commitment k c :
  st_commitments st' !! k = Some c →
  ∃ c0, st_commitments st !! k = Some c0 ∧ com_same c0 c ∧
    ((held_by id c0 = true ∧ WorkCommitment_is_active c = false ∧
      is_Some (com_ended_by c) ∧ is_Some (com_ended_reason c)) ∨
     (held_by id c0 = false ∧ c = c0)).
Proof using All.
  simpl. unfold release. intros (c0 & <- & Hc0)%lookup_fmap_Some. exists c0. split; [done|].
  destruct (held_by id c0); [|by split; [|right]]. split; [done|]. left. split_and!; try done; by eexists.
Qed.

Lemma recovered_commitment_ok k c : st_commitments st' !! k = Some c → commitment_ok st' c.
Proof using All.
  intros (c0 & Hc0 & Hsame & Hcase)%recovered_commitment. destruct Hinv as [Hk Hv].
  destruct (rv_commitments _ Hv _ _ Hc0) as (b & w & Hb & Hw & Hmember & Hok).
  destruct Hsame as (_ & Hwid & Haid & Hmid & _).
  destruct (step_assignment_kept _ _ _ recovered_step _ _ Hb) as (b' & Hb' & Hr & Hm).
  exists b', w. rewrite Hwid, Haid. split; [done|]. split; [done|]. split; [congruence|].
  destruct Hcase as [(_ & -> & ?)|(Hheld & ->)]; [done|].
  destruct (WorkCommitment_is_active c0) eqn:Hact; [|done]. destruct Hok as (Hba & Hopen & Hresp).
  unfold held_by in Hheld. rewrite Hact, andb_true_r in Hheld. apply bool_decide_eq_false in Hheld.
  simpl in Hb'. rewrite lookup_insert_ne in Hb' by done. naive_solver congruence.
Qed.

Lemma recovered_work_once i j c d :
  st_commitments st' !! i = Some c → st_commitments st' !! j = Some d → i ≠ j → commitments_apart c d.
Proof using All.
  intros (c0 & Hc0 & _ & Hc)%recovered_commitment (d0 & Hd0 & _ & Hd)%recovered_commitment Hne Hac Had.
  destruct Hc as [(_ & Hc & _)|(_ & ->)]; [congruence|].
  destruct Hd as [(_ & Hd & _)|(_ & ->)]; [congruence|]. by eapply (rv_work_once _ (proj2 Hinv) i j).
Qed.

(** The system Handoff is valid when the ended Commitments fit in it. *)
Context `{!UuidLaws} (Hfit : (len (commitments_of st id) ≤ MAX_CONTINUITY_ITEMS)%N).
Context (Hids : ∀ k c, st_commitments st !! k = Some c → held_by id c = true →
  Uuid_is_nil k = false ∧ Uuid_is_nil (com_work_id c) = false).

Abbreviation handoff :=
  (unrecoverable_handoff ended handoff_id id a (latest_checkpoint_for_assignment st id)
     (commitments_of st id) t next).

Lemma ended_commitment_found k :
  k ∈ commitments_of st id →
  ∃ c, st_commitments ended !! k = Some c ∧ com_assignment_id c = id ∧
       Uuid_is_nil k = false ∧ Uuid_is_nil (com_work_id c) = false ∧ is_Some (st_works st !! com_work_id c).
Proof using All.
  intros Hin. destruct (ended_commitments_found st id actor AssignmentEndReason.Unrecoverable None t next a k
    (rk_commitments _ (proj1 Hinv)) Hin) as (c & Hc & Hid & c0 & Hc0 & Hw).
  apply elem_of_commitments_of in Hin as (c1 & Hc1 & Hheld); [|apply Hinv].
  assert (c1 = c0) as -> by congruence.
  destruct (Hids _ _ Hc0 Hheld) as [? ?].
  destruct (rv_commitments _ (proj2 Hinv) _ _ Hc0) as (b & w & _ & Hwork & _).
  exists c. rewrite Hw. by split_and!; try eexists.
Qed.

Lemma recovered_references : Forall (reference_ok st') (hof_references (hof_content handoff)).
Proof using All.
  simpl. unfold interrupted_content. rewrite interrupted_eq. simpl. apply Forall_forall. intros ref Href.
  apply list_elem_of_In, List.in_concat in Href as (refs & Hrs & Href).
  apply list_elem_of_In in Hrs. apply list_elem_of_In in Href.
  apply list_elem_of_fmap in Hrs as (k & -> & Hin).
  destruct (ended_commitment_found k Hin) as (c & Hc & _ & _ & _ & Hwork).
  unfold interrupted_references in Href. rewrite Hc, !elem_of_cons, elem_of_nil in Href.
  destruct Href as [->|[->|[]]]; simpl; [by eexists|].
  apply (rk_objects _ (proj1 Hinv)), elem_of_union. right. by apply elem_of_dom.
Qed.

Lemma recovered_handoff_ok : handoff_ok st' handoff.
Proof using All.
  destruct Hinv as [Hk Hv]. split; [done|]. split; [simpl; lia|].
  exists (closed_assignment actor AssignmentEndReason.Unrecoverable None t next a).
  split; [by simpl; rewrite lookup_insert_eq|]. do 2 (split; [done|]). split_and!; [..|done].
  - intros k (c & Hc & Hid)%latest_checkpoint_of. exists c. split; [done|]. split; [|done].
    destruct (rv_checkpoints _ Hv _ _ Hc) as (_ & _ & _ & (b & Hb & Hr & _) & _).
    rewrite Hid, (rc_assignment _ _ _ _ _ Hrc) in Hb. injection Hb as <-. done.
  - apply Forall_forall. intros k (c & Hc & Hid & _)%ended_commitment_found. by exists c.
  - apply interrupted_content_ok; [|done|by vm_compute..].
    intros k (c & Hc & _ & ? & ? & _)%ended_commitment_found. eauto.
  - apply recovered_references.
Qed.

Lemma recovered_valid : role_valid st'.
Proof using All.
  destruct Hinv as [Hk Hv]. pose proof recovered_step as Hs.
  assert (Hrev : (st_project_revision st ≤ st_project_revision st')%N) by (simpl; lia).
  split.
  - simpl. destruct Hrc. lia.
  - intros k b. apply recovered_assignment_ok.
  - apply recovered_seats.
  - intros k w Hw. exact (rv_works _ Hv k w Hw).
  - intros k c. apply recovered_commitment_ok.
  - apply recovered_work_once.
  - intros k c Hc. eapply checkpoint_ok_step; [done..|]. by apply (rv_checkpoints _ Hv k).
  - intros k h Hh. simpl in Hh.
    apply lookup_insert_Some in Hh as [[<- <-]|[Hne Hh]]; [apply recovered_handoff_ok|].
    eapply handoff_ok_step; [done..|]. by apply (rv_handoffs _ Hv k).
Qed.

Lemma recovered_changes : changed_entities (entity_map st) (entity_map st') ≠ [].
Proof using All.
  assert (Hin : ChangeHandoff handoff ∈ changed_entities (entity_map st) (entity_map st')).
  { apply elem_of_changed_entities; [apply Hinv|by eapply role_step_keyed; [apply recovered_step|apply Hinv]|].
    simpl. unfold entity_at. simpl. rewrite lookup_insert_eq. split; [done|].
    destruct Hrc. by rewrite rc_fresh. }
  intros Hnil. rewrite Hnil in Hin. by apply elem_of_nil in Hin.
Qed.

End recovery.

Section total.
Context `{P : Platform}.

Lemma desired_member_role_total self key m :
  st_members self !! key = Some m → ∃ role, desired_member_role self key = Ok role.
Proof. intros Hm. unfold desired_member_role. rewrite Hm. simpl. case_match; eauto. Qed.

(** The system end of an Assignment succeeds. *)
Lemma reduce_unrecoverable_total `{!UuidLaws} st id actor t handoff_id a m :
  role_inv_state st → recoverable st id handoff_id a m →
  (len (commitments_of st id) ≤ MAX_CONTINUITY_ITEMS)%N →
  (∀ k c, st_commitments st !! k = Some c → held_by id c = true →
     Uuid_is_nil k = false ∧ Uuid_is_nil (com_work_id c) = false) →
  ∃ role outcome, reduce_unrecoverable_assignment st id actor t handoff_id =
    Ok (unrecoverable_state st id actor t handoff_id a m role, outcome).
Proof.
  intros Hinv Hrc Hfit Hids.
  destruct (desired_member_role_total (handed_over st id actor t handoff_id a) (asg_member_pubkey a) m)
    as [role Hrole]; [apply Hrc|].
  exists role. eexists. apply reduce_unrecoverable_Ok; [apply Hinv|]. exists a, m, role.
  do 3 (split; [done|]). split; [by apply recovered_valid|]. split; [done|]. by apply recovered_changes.
Qed.

End total.

(** * Role continuity: the size of a system Handoff

    Replacing an Assignment and ending an unrecoverable one write a Handoff with
    one unresolved item per interrupted Commitment, which the rules on
    member-authored content bound. *)


Section limits.
Context `{P : Platform}.
Implicit Types (self st : RoleContinuityState).

(** Whether an Assignment is active in a state. *)
Definition active_in st (k : Uuid) : bool := is_some_and RoleAssignment_is_active (st_assignments st !! k).

(** Some Handoff of the state lists as many items as there are Commitments. *)
Definition handed_items st (commitments : list Uuid) : Prop :=
  ∃ hid h l, st_handoffs st !! hid = Some h ∧ NoDup l ∧ (∀ id, id ∈ l ↔ id ∈ commitments) ∧
    length (hof_unresolved_items (hof_content h)) = length l.

(** What replacing Assignments does to Commitments and Handoffs. *)
Record handing (x y : Progress) : Prop := mkHanding {
  hd_handoffs : st_handoffs (pg_state x) ⊆ st_handoffs (pg_state y);
  hd_active : ∀ k, active_in (pg_state y) k = true → active_in (pg_state x) k = true;
  hd_commitments : ∀ k id, active_in (pg_state y) k = true →
    id ∈ commitments_of (pg_state y) k ↔ id ∈ commitments_of (pg_state x) k;
  hd_ended : ∀ k, active_in (pg_state x) k = true → active_in (pg_state y) k = false →
    handed_items (pg_state y) (commitments_of (pg_state x) k);
}.

#[local] Instance handing_preorder : PreOrder handing.
Proof.
  split.
  - intros x. split; [done|done|done|]. intros k H1 H2. congruence.
  - intros x y z Hxy Hyz. split.
    + etrans; [apply Hxy|apply Hyz].
    + intros k Hz. by apply Hxy, Hyz.
    + intros k id Hz. rewrite (hd_commitments _ _ Hyz) by done. apply Hxy. by apply Hyz.
    + intros k Hx Hz. destruct (active_in (pg_state y) k) eqn:Hy.
      * destruct (hd_ended _ _ Hyz k Hy Hz) as (hid & h & l & Hh & Hl & Hin & Hlen).
        exists hid, h, l. split_and!; try done. intros id. rewrite Hin. by apply Hxy.
      * destruct (hd_ended _ _ Hxy k Hx Hy) as (hid & h & l & Hh & Hrest).
        exists hid, h, l. split; [|done]. by eapply lookup_weaken; [|apply Hyz].
Qed.

(** Ending an Assignment does not touch the Commitments of another. *)
Lemma ended_state_others self id actor reason replaced_by t next a k c :
  k ≠ id → keyed com_commitment_id (st_commitments self) →
  c ∈ commitments_of (ended_state self id actor reason replaced_by t next a) k ↔ c ∈ commitments_of self k.
Proof.
  intros Hne Hk. rewrite !elem_of_commitments_of; [|done|].
  - simpl. unfold release. rewrite lookup_fmap. split.
    + intros (d & (d0 & Hd0 & ->)%fmap_Some & Hheld). exists d0. split; [done|].
      cbv beta in Hheld. revert Hheld. destruct (held_by id d0); [|done]. unfold held_by. simpl. by rewrite andb_false_r.
    + intros (d & Hd & Hheld). rewrite Hd. exists d. split; [|done]. simpl. f_equal.
      destruct (held_by id d) eqn:Hid; [|done]. unfold held_by in *. bool_props. congruence.
  - apply keyed_fmap; [|done]. intros v. by case_match.
Qed.

Lemma replace_assignment_handing proposal authorizer gid t next x i h y :
  role_keyed (pg_state x) → st_handoffs (pg_state x) !! h = None →
  replace_assignment proposal authorizer gid t next x (i, h) = Ok y → handing x y.
Proof.
  intros Hk Hh (a & m & role & Ha & Hact & _ & _ & ->)%replace_assignment_Ok; [|done].
  set (ended := ended_state _ _ _ _ _ _ _ _). set (y := mkProgress _ _ _).
  assert (Hended : active_in (pg_state y) i = false).
  { unfold active_in. simpl. by rewrite lookup_insert_eq. }
  assert (Hother : ∀ k, k ≠ i → active_in (pg_state y) k = active_in (pg_state x) k).
  { intros k Hne. unfold active_in. simpl. by rewrite lookup_insert_ne. }
  split.
  - by apply insert_subseteq.
  - intros k Hy. rewrite <- Hother; [done|]. intros ->. congruence.
  - intros k id Hy. apply (ended_state_others (pg_state x)); [|apply Hk]. intros ->. congruence.
  - intros k Hx Hy. destruct (decide (k = i)) as [->|Hne]; [|rewrite Hother in Hy by done; congruence].
    eexists h, _, (commitments_of (pg_state x) i). split; [apply lookup_insert_eq|].
    split_and!; [|done|].
    + apply commitments_of_NoDup, Hk.
    + apply interrupted_content_items, Hk.
Qed.

(** A state with such a Handoff is valid only up to the bound on items. *)
Lemma handed_items_bound st commitments :
  role_valid st → handed_items st commitments → NoDup commitments →
  (len commitments ≤ MAX_CONTINUITY_ITEMS)%N.
Proof.
  intros Hv (hid & h & l & Hh & Hl & Hin & Hlen) Hnd.
  pose proof (handoff_items_bound _ _ (rv_handoffs _ Hv _ _ Hh)) as Hbound.
  unfold len in *. rewrite Hlen in Hbound.
  by rewrite <- (Permutation_length (NoDup_Permutation _ _ Hl Hnd Hin)).
Qed.

(** A command that completes a Proposal is the completion of a state that
    differs in its Proposals only. *)
Lemma consented_completes self command actor t next ids progress id p g :
  consented self command actor t id p g → apply_request self command actor t next ids = Ok progress →
  ∃ proposals, role_keyed self → role_keyed (set_proposals self proposals) ∧
    complete_proposal_if_ready (mkProgress (set_proposals self proposals) ∅ ∅) id t next ids = Ok progress.
Proof.
  intros [_ _ _ _ _ _ [(Hreq & _)|(Hreq & _)]] H; unfold apply_request in H; rewrite Hreq in H; ok_inv.
  - match goal with H : accept_proposal _ _ _ _ _ = Ok _ |- _ =>
      pose proof (accept_proposal_step _ _ _ _ _ _ H) as Hs;
      apply accept_proposal_Ok in H as (q & _ & _ & _ & _ & _ & ->) end.
    eexists. intros Hk. split; [by eapply role_step_keyed|done].
  - match goal with H : authorize_proposal _ _ _ _ _ _ = Ok _ |- _ =>
      pose proof (authorize_proposal_step _ _ _ _ _ _ _ H) as Hs;
      apply authorize_proposal_Ok in H as (_ & q & _ & _ & _ & _ & _ & ->) end.
    eexists. intros Hk. split; [by eapply role_step_keyed|done].
Qed.

Lemma completed_handing progress id t next ids progress' k :
  role_keyed (pg_state progress) →
  complete_proposal_if_ready progress id t next ids = Ok progress' →
  active_in (pg_state progress) k = true → active_in (pg_state progress') k = false →
  handed_items (pg_state progress') (commitments_of (pg_state progress) k).
Proof.
  intros Hk [[-> _]|(p & g & mid & Hcp)]%complete_proposal_Ok Hx Hy; [congruence|].
  assert (Hmid : handing progress mid).
  { apply (completed_rel _ _ _ _ _ _ _ _ _ Hk Hcp handing).
    intros x i h y _. apply replace_assignment_handing. }
  pose proof (completed_mid_fresh _ _ _ _ _ _ _ _ _ Hk Hcp) as Hfresh.
  destruct (cp_result _ _ _ _ _ _ _ _ _ Hcp) as (current & m & role & _ & _ & _ & ->).
  destruct (hd_ended _ _ Hmid k Hx) as (hid & h & l & Hh & Hrest); [|by exists hid, h, l].
  revert Hy. unfold active_in. simpl. destruct (decide (k = gen_assignment_id ids)) as [->|Hne].
  - by rewrite lookup_insert_eq.
  - by rewrite lookup_insert_ne.
Qed.

(** Replacing an Assignment succeeds only up to the bound. *)
Lemma replaced_bound st command actor t ids st' outcome k a a' :
  role_keyed st → reduce_role st command actor t ids = Ok (st', outcome) →
  st_assignments st !! k = Some a → RoleAssignment_is_active a = true →
  st_assignments st' !! k = Some a' → asg_ended_reason a' = Some AssignmentEndReason.Replaced →
  RoleAssignment_is_active a' = false →
  (len (commitments_of st k) ≤ MAX_CONTINUITY_ITEMS)%N.
Proof.
  intros Hk (progress & _ & _ & _ & Hreq & -> & Hv & _)%reduce_role_Ok Ha Hact Ha' Hreason Hend.
  eapply handed_items_bound; [exact Hv| |apply commitments_of_NoDup, Hk].
  pose proof (apply_request_assignment _ _ _ _ _ _ k _ Hk Hreq) as Hchange.
  simpl in Ha'. rewrite Ha, Ha' in Hchange.
  assert (∃ id p g, consented st command actor t id p g) as (id & p & g & Hc).
  { inversion Hchange; subst; try congruence; [|by eauto]. done. }
  destruct (consented_completes _ _ _ _ _ _ _ _ _ _ Hc Hreq) as (proposals & Hcompletes).
  destruct (Hcompletes Hk) as [Hk' Hcomp].
  eapply (completed_handing (mkProgress (set_proposals st proposals) ∅ ∅)); [done..| |].
  - unfold active_in. simpl. by rewrite Ha.
  - unfold active_in. by rewrite Ha'.
Qed.

(** Ending an unrecoverable Assignment succeeds only up to the bound. *)
Lemma unrecoverable_bound st id actor t handoff_id st' outcome :
  role_keyed st → reduce_unrecoverable_assignment st id actor t handoff_id = Ok (st', outcome) →
  (len (commitments_of st id) ≤ MAX_CONTINUITY_ITEMS)%N.
Proof.
  intros Hk (a & m & role & _ & _ & -> & Hv & _)%reduce_unrecoverable_Ok; [|done].
  pose proof (handoff_items_bound _ _ (rv_handoffs _ Hv handoff_id _ (lookup_insert_eq _ _ _))) as Hbound.
  revert Hbound. unfold len. simpl. by rewrite interrupted_content_items by apply Hk.
Qed.

End limits.
