(* ===== verification/RoleTheorems.v ===== *)
(** * Role continuity: the properties

    Who holds a Role, who may change that, what the record keeps, what the
    outcome of a command tells the store, and when the system can end an
    Assignment. *)

From stdpp Require Import prelude strings gmap fin_maps.
From S2P Require Import Prelude Text TextOps Platform Reference ViewModel ViewContract.
From S2P Require Import RoleGovernance RoleModel RoleCommand RoleState RoleReducer RoleFacts RoleEdits.
From S2P Require Import RoleHistory RoleSteps RoleMoves RoleReach RoleAuth RoleOutcome RoleRecovery.
From S2P Require Import AuditTamper.

Section properties.
Context `{P : Platform}.
Implicit Types (st : RoleContinuityState).

(** ** Reachable states *)

(** The aggregate check of a Role continuity state, with its loops,
    accumulators and early returns, accepts a state exactly when the state
    satisfies the stated rules on Assignments, Work, Commitments, Checkpoints
    and Handoffs. *)
Theorem role_validate_decides st : validate_role_state st = Ok tt ↔ role_valid st.
Proof. apply validate_role_state_Ok. Qed.

(** C7. In every state that commands of members and of the system reach from a
    loaded snapshot, a Role and a Member have at most one active Assignment,
    each of an active Role to an eligible member whose Community role is Owner
    or that of the Role; a piece of Work has at most one active Commitment, of
    the Member of an active Assignment to the Role responsible for that open
    Work; and the project revision stays in the safe range. *)
Theorem role_rules_hold revision roles works members proposals assignments commitments checkpoints
    handoffs objects st st' :
  from_complete_snapshot revision roles works members proposals assignments commitments checkpoints
    handoffs objects = Ok st →
  rtc role_command_step st st' →
  (∀ i j a b, st_assignments st' !! i = Some a → st_assignments st' !! j = Some b →
     RoleAssignment_is_active a = true → RoleAssignment_is_active b = true →
     asg_role_id a = asg_role_id b ∨ asg_member_pubkey a = asg_member_pubkey b → i = j) ∧
  (∀ i a, st_assignments st' !! i = Some a → RoleAssignment_is_active a = true →
     ∃ slot m, st_roles st' !! asg_role_id a = Some slot ∧ slot_active slot = true ∧
       st_members st' !! asg_member_pubkey a = Some m ∧ eligible m = true ∧
       (community_role m = Some CommunityMemberRole.Owner
        ∨ community_role m = Some (level_role (slot_level slot)))) ∧
  (∀ i c, st_commitments st' !! i = Some c → WorkCommitment_is_active c = true →
     ∃ a w, st_assignments st' !! com_assignment_id c = Some a ∧ RoleAssignment_is_active a = true ∧
       asg_member_pubkey a = com_member_pubkey c ∧ st_works st' !! com_work_id c = Some w ∧
       WorkResponsibility_is_open w = true ∧ work_responsible_role_id w = Some (asg_role_id a)) ∧
  (∀ i j c d, st_commitments st' !! i = Some c → st_commitments st' !! j = Some d →
     WorkCommitment_is_active c = true → WorkCommitment_is_active d = true →
     com_work_id c = com_work_id d → i = j) ∧
  (st_project_revision st' ≤ MAX_SAFE_REVISION)%N.
Proof.
  intros Hload Hrun. apply from_complete_snapshot_inv in Hload.
  destruct (role_inv_reachable_from _ _ Hload Hrun) as [_ Hv]. split_and!.
  - intros i j a b Ha Hb Hact Hact' Heq. destruct (decide (i = j)) as [|Hne]; [done|].
    destruct (rv_seats _ Hv i j a b Ha Hb Hne Hact Hact'). naive_solver.
  - intros i a Ha Hact. destruct (rv_assignments _ Hv i a Ha) as (slot & Hslot & Hok). rewrite Hact in Hok.
    destruct Hok as (? & m & ?). naive_solver.
  - intros i c Hc Hact. destruct (rv_commitments _ Hv i c Hc) as (a & w & ? & ? & ? & Hok).
    rewrite Hact in Hok. naive_solver.
  - intros i j c d Hc Hd Hact Hact' Heq. destruct (decide (i = j)) as [|Hne]; [done|].
    by destruct (rv_work_once _ Hv i j c d Hc Hd Hne Hact Hact').
  - apply Hv.
Qed.

(** ** History *)

(** A row of an earlier state: itself, or still live then, with the same
    identity and a revision that is no smaller. *)
Definition later {A} (revision : A → N) (live : A → bool) (same : A → A → Prop) (x y : A) : Prop :=
  y = x ∨ (live x = true ∧ same x y ∧ (revision x ≤ revision y)%N).

#[local] Instance later_preorder {A} revision live (same : A → A → Prop) :
  Transitive same → PreOrder (later revision live same).
Proof.
  intros Htrans. split; [by left|].
  intros x y z [->|(Hx & Hxy & Hr)] [->|(Hy & Hyz & Hr')]; [by left|by right..|].
  right. split_and!; [done|by etrans|lia].
Qed.

Definition is_open_proposal (p : RoleAssignmentProposal) : bool :=
  bool_decide (prop_status p = ProposalStatus.Open).

Lemma bumped_le revision project_revision next : (revision ≤ bumped revision project_revision next)%N.
Proof. unfold bumped. case_match; lia. Qed.

Lemma stepped_later {A} revision project_revision (live : A → Prop) (liveb : A → bool) same next (x y : A) :
  (∀ x, live x → liveb x = true) →
  stepped revision project_revision live same next x y → later revision liveb same x y.
Proof.
  intros Hlive [->|(Hx & Hsame & _ & Hr)]; [by left|]. right. split_and!; [auto|done|].
  rewrite Hr. apply bumped_le.
Qed.

(** The rows of two states, compared. *)
Record kept_history st st' : Prop := mkKeptHistory {
  kh_roles : st_roles st' = st_roles st;
  kh_checkpoints : st_checkpoints st ⊆ st_checkpoints st';
  kh_handoffs : st_handoffs st ⊆ st_handoffs st';
  kh_proposals : ∀ k p, st_proposals st !! k = Some p → ∃ p', st_proposals st' !! k = Some p' ∧
    later prop_entity_revision is_open_proposal prop_same p p';
  kh_assignments : ∀ k a, st_assignments st !! k = Some a → ∃ a', st_assignments st' !! k = Some a' ∧
    later asg_entity_revision RoleAssignment_is_active asg_same a a';
  kh_commitments : ∀ k c, st_commitments st !! k = Some c → ∃ c', st_commitments st' !! k = Some c' ∧
    later com_entity_revision WorkCommitment_is_active com_same c c';
}.

Lemma kept_history_step next st st' : role_step next st st' → kept_history st st'.
Proof.
  intros Hs. split.
  - apply Hs.
  - apply map_subseteq_spec. intros k v Hk.
    by destruct (map_step_lookup _ _ _ _ _ _ (rs_checkpoints _ _ _ Hs) Hk) as (w & ? & <-).
  - apply map_subseteq_spec. intros k v Hk.
    by destruct (map_step_lookup _ _ _ _ _ _ (rs_handoffs _ _ _ Hs) Hk) as (w & ? & <-).
  - intros k v Hk. destruct (map_step_lookup _ _ _ _ _ _ (rs_proposals _ _ _ Hs) Hk) as (w & Hw & Hstep).
    exists w. split; [done|]. eapply stepped_later; [|exact Hstep]. intros x. apply bool_decide_eq_true_2.
  - intros k v Hk. destruct (map_step_lookup _ _ _ _ _ _ (rs_assignments _ _ _ Hs) Hk) as (w & Hw & Hstep).
    exists w. split; [done|]. by eapply stepped_later; [|exact Hstep].
  - intros k v Hk. destruct (map_step_lookup _ _ _ _ _ _ (rs_commitments _ _ _ Hs) Hk) as (w & Hw & Hstep).
    exists w. split; [done|]. by eapply stepped_later; [|exact Hstep].
Qed.

#[local] Instance kept_history_preorder : PreOrder kept_history.
Proof.
  split.
  - intros st. split; try done; intros k v Hk; exists v; (split; [done|by left]).
  - intros s1 s2 s3 H12 H23. split.
    + by rewrite (kh_roles _ _ H23), (kh_roles _ _ H12).
    + etrans; [apply H12|apply H23].
    + etrans; [apply H12|apply H23].
    + intros k v (w & Hw & Hvw)%(kh_proposals _ _ H12). apply (kh_proposals _ _ H23) in Hw as (u & Hu & Hwu).
      exists u. split; [done|by etrans].
    + intros k v (w & Hw & Hvw)%(kh_assignments _ _ H12). apply (kh_assignments _ _ H23) in Hw as (u & Hu & Hwu).
      exists u. split; [done|by etrans].
    + intros k v (w & Hw & Hvw)%(kh_commitments _ _ H12). apply (kh_commitments _ _ H23) in Hw as (u & Hu & Hwu).
      exists u. split; [done|by etrans].
Qed.

(** C23. History is kept along every run of commands: Checkpoints and Handoffs
    are append-only; a resolved Proposal, an ended Assignment and an ended
    Commitment never change again; no row disappears, the identity of a row and
    the consents and reports recorded in it never change, and revisions never
    decrease. *)
Theorem role_history_kept st st' :
  role_inv_state st → rtc role_command_step st st' →
  kept_history st st' ∧ (st_project_revision st ≤ st_project_revision st')%N.
Proof.
  intros Hinv Hrun. induction Hrun as [st|st mid st' Hstep _ IH]; [done|].
  destruct (role_command_forward _ _ (proj1 Hinv) Hstep) as (Hs & _ & Hrev).
  destruct IH as [Hkept Hle]; [by eapply role_inv_step|]. split; [|lia].
  trans mid; [by eapply kept_history_step|done].
Qed.

(** What a command may do to one row: nothing; create it with revision one; or,
    while it is live, change it with exactly one more revision.  A changed row
    carries the project revision of the command. *)
Definition one_revision {A} (revision project_revision : A → N) (live : A → bool) (current : N)
    (before after : option A) : Prop :=
  match before, after with
  | Some x, Some y => y = x ∨ (live x = true ∧ project_revision y = (current + 1)%N ∧
      ((project_revision x ≤ current)%N → revision y = (revision x + 1)%N))
  | None, Some y => revision y = 1%N ∧ project_revision y = (current + 1)%N
  | None, None => True
  | Some _, None => False
  end.

Lemma map_step_one_revision {A} key revision project_revision (live : A → Prop) (liveb : A → bool) same
    (m m' : gmap Uuid A) current k :
  (∀ x, live x → liveb x = true) →
  map_step (stepped revision project_revision live same (current + 1))
    (first_revision key revision project_revision (current + 1)) m m' →
  one_revision revision project_revision liveb current (m !! k) (m' !! k).
Proof.
  intros Hlive Hm. specialize (Hm k). unfold one_revision.
  destruct (m !! k) as [x|], (m' !! k) as [y|]; try done; [|by destruct Hm as (_ & ? & ?)].
  destruct Hm as [->|(Hx & _ & Hp & Hr)]; [by left|right]. split_and!; [auto|done|]. intros Hle.
  rewrite Hr. unfold bumped. by rewrite (proj2 (N.eqb_neq _ _)) by lia.
Qed.

(** Optimistic concurrency: an accepted command names the current project
    revision and raises it by one, so of two commands made for the same revision
    at most one is accepted on a run; every Proposal, Assignment and Commitment
    it changes was live and gets exactly one more revision, every new row starts
    at one, and all of them carry the new project revision. *)
Theorem role_one_revision st command actor t ids st' outcome :
  role_inv_state st → reduce_role st command actor t ids = Ok (st', outcome) →
  cmd_expected_project_revision command = st_project_revision st ∧
  st_project_revision st' = (st_project_revision st + 1)%N ∧
  out_project_revision outcome = st_project_revision st' ∧
  ∀ k,
    one_revision prop_entity_revision prop_project_revision is_open_proposal (st_project_revision st)
      (st_proposals st !! k) (st_proposals st' !! k) ∧
    one_revision asg_entity_revision asg_project_revision RoleAssignment_is_active (st_project_revision st)
      (st_assignments st !! k) (st_assignments st' !! k) ∧
    one_revision com_entity_revision com_project_revision WorkCommitment_is_active (st_project_revision st)
      (st_commitments st !! k) (st_commitments st' !! k).
Proof.
  intros [Hk _] H. pose proof (reduce_role_step _ _ _ _ _ _ _ Hk H) as Hs.
  apply reduce_role_Ok in H as (progress & _ & Hexp & _ & _ & Hst & _ & Hout & _).
  split; [done|]. split; [by rewrite Hst|]. split; [by rewrite Hout, Hst|]. intros k.
  split_and!; (eapply map_step_one_revision; [|apply Hs]); [|done..].
  intros p. apply bool_decide_eq_true_2.
Qed.

(** ** Authority *)

Lemma elem_of_dedup {A} `{EqDecision A} (x : A) l : x ∈ dedup l ↔ x ∈ l.
Proof.
  induction l as [|y [|z l] IH]; [done|done|]. cbn [dedup].
  case_decide as Heq; [subst|]; rewrite !elem_of_cons in *; naive_solver.
Qed.

Lemma elem_of_replaced_ids p k :
  k ∈ replaced_ids p ↔
  Some k = prop_expected_target_assignment_id p ∨ Some k = prop_expected_candidate_assignment_id p.
Proof.
  unfold replaced_ids. rewrite elem_of_dedup, sort_by_perm. unfold flatten2.
  destruct (prop_expected_target_assignment_id p), (prop_expected_candidate_assignment_id p); simpl;
    rewrite ?elem_of_cons, ?elem_of_nil; naive_solver.
Qed.

(** Who may end an Assignment: an owner; otherwise not its own Member, but the
    owner of the managed agent that holds it, or a leader above it. *)
Definition may_end st (a : RoleAssignment) (key : PublicKey) : Prop :=
  ∃ m, st_members st !! key = Some m ∧ eligible m = true ∧
    (is_owner m = true ∨
     (asg_member_pubkey a ≠ key ∧
      ((∃ target, st_members st !! asg_member_pubkey a = Some target ∧
          managed_agent_owner target = Some key) ∨
       (leads st m key ∧ below st m key a)))).

Lemma may_revoke_end st a key : may_revoke st a key → may_end st a key.
Proof. intros (Hne & m & Hm & He & Hcase). exists m. naive_solver. Qed.

Lemma governs_end st p key k a :
  governs_move st p key → k ∈ replaced_ids p → st_assignments st !! k = Some a → may_end st a key.
Proof.
  intros (m & Hm & He & [Ho|(Hleads & _ & Hall)]) Hk Ha; exists m; (split; [done|split; [done|]]); [by left|].
  right. destruct (Hall k) as (b & Hb & _ & Hbelow); [by apply elem_of_replaced_ids|].
  assert (b = a) as -> by congruence. split; [apply Hbelow|by right].
Qed.

(** C9. An Assignment that a command ends is ended at the command's time either
    by its actor, as a revocation, or by the governor who authorized a consented
    Proposal that replaces it; in both cases by an eligible member who is an
    owner, or who is not the Member of the Assignment and owns the managed agent
    that holds it or leads, with an active admin Assignment of their own, over an
    Assignment to an ordinary Role. *)
Theorem role_end_authorized st command actor t ids st' outcome k a a' :
  role_inv_state st → reduce_role st command actor t ids = Ok (st', outcome) →
  st_assignments st !! k = Some a → RoleAssignment_is_active a = true →
  st_assignments st' !! k = Some a' → RoleAssignment_is_active a' = false →
  ∃ key, asg_ended_by a' = Some key ∧ asg_ended_at a' = Some t ∧ may_end st a key ∧
    ((asg_ended_reason a' = Some AssignmentEndReason.Revoked ∧ key = actor ∧ asg_member_pubkey a ≠ actor) ∨
     (asg_ended_reason a' = Some AssignmentEndReason.Replaced ∧
      asg_replaced_by_assignment_id a' = Some (gen_assignment_id ids) ∧
      ∃ id p, consented st command actor t id p key ∧ k ∈ replaced_ids p)).
Proof.
  intros [Hk _] (progress & _ & _ & _ & Hreq & -> & _)%reduce_role_Ok Ha Hact Ha' Hend.
  pose proof (apply_request_assignment _ _ _ _ _ _ k _ Hk Hreq) as Hchange.
  simpl in Ha'. rewrite Ha, Ha' in Hchange.
  inversion Hchange as [|?? _ Hact'|? reason _ _ Hrevoke|? id p g Hc _ Hin|]; subst; try congruence.
  - exists actor. split; [done|]. split; [done|]. split; [by apply may_revoke_end|]. left.
    split_and!; try done. apply Hrevoke.
  - exists g. split; [done|]. split; [done|]. split; [by eapply governs_end; [apply Hc|..]|]. right.
    split_and!; try done. eauto.
Qed.

(** C6. Dual consent: an Assignment that a command starts has the identifier
    generated for it and comes from a Proposal that was open, unexpired and
    aimed at the Role's current holder, was accepted by its candidate, who
    becomes the Member, and was authorized by a governor with current authority
    over the move, one of the two consents being this very command; the Proposal
    is consumed, and an admin Role is only ever granted by an owner. *)
Theorem role_started_by_consent st command actor t ids st' outcome k a :
  role_inv_state st → reduce_role st command actor t ids = Ok (st', outcome) →
  st_assignments st !! k = None → st_assignments st' !! k = Some a →
  k = gen_assignment_id ids ∧ RoleAssignment_is_active a = true ∧
  ∃ p p', consented st command actor t (asg_proposal_id a) p (asg_started_by a) ∧
    asg_member_pubkey a = prop_candidate_pubkey p ∧ asg_role_id a = prop_role_id p ∧
    st_proposals st' !! asg_proposal_id a = Some p' ∧ prop_status p' = ProposalStatus.Consumed ∧
    (∀ slot, st_roles st !! asg_role_id a = Some slot → slot_level slot = RoleLevel.Admin →
       ∃ m, st_members st !! asg_started_by a = Some m ∧ is_owner m = true).
Proof.
  intros [Hk _] (progress & _ & _ & _ & Hreq & -> & _)%reduce_role_Ok Hnone Ha.
  pose proof (apply_request_assignment _ _ _ _ _ _ k _ Hk Hreq) as Hchange.
  simpl in Ha. rewrite Hnone, Ha in Hchange. inversion Hchange as [| | | |id p g Hc Hid]; subst.
  split; [done|]. split; [done|].
  destruct (consented_completes _ _ _ _ _ _ _ _ _ _ Hc Hreq) as (proposals & Hcompletes).
  destruct (Hcompletes Hk) as [Hk' [[-> _]|(q & g' & mid & Hcp)]%complete_proposal_Ok]; [simpl in Ha; congruence|].
  destruct (cp_result _ _ _ _ _ _ _ _ _ Hcp) as (current & m & role & _ & _ & _ & ->).
  exists p. eexists. split; [done|]. do 2 (split; [done|]).
  split; [apply lookup_insert_eq|]. split; [done|]. intros slot Hslot Hadmin.
  destruct (cs_governor _ _ _ _ _ _ _ Hc) as (n & Hn & _ & [Ho|(_ & (slot' & Hslot' & Hmember) & _)]); [eauto|].
  simpl in Hslot. congruence.
Qed.

(** Consent is personal: in the Proposals after a command, an acceptance
    was there before or is recorded now by the candidate's own command, and an
    authorization was there before or is the actor's own, who governs the
    move. *)
Theorem role_consent_personal st command actor t ids st' outcome id p' :
  role_inv_state st → reduce_role st command actor t ids = Ok (st', outcome) →
  st_proposals st' !! id = Some p' →
  (∀ x, prop_candidate_accepted_at p' = Some x →
     (∃ p, st_proposals st !! id = Some p ∧ prop_candidate_accepted_at p = Some x)
     ∨ (prop_candidate_pubkey p' = actor ∧ x = t)) ∧
  (∀ g, prop_authorized_by p' = Some g →
     (∃ p, st_proposals st !! id = Some p ∧ prop_authorized_by p = Some g)
     ∨ (g = actor ∧ governs_move st p' actor)).
Proof.
  intros [Hk _] (progress & _ & _ & _ & Hreq & -> & _)%reduce_role_Ok.
  exact (apply_request_personal _ _ _ _ _ _ _ Hk Hreq id p').
Qed.

(** ** What the store writes *)

(** C13. The outcome is sufficient and exact, for every command of a member and
    for the system end of an Assignment: upserting its changed entities and Work,
    writing its Community roles and its project revision over the state before
    the command gives exactly the state after it, and the entities listed are
    exactly those that are new or different. *)
Theorem role_outcome_persists st st' outcome :
  role_inv_state st →
  (∃ command actor t ids, reduce_role st command actor t ids = Ok (st', outcome)) ∨
  (∃ id actor t handoff_id, reduce_unrecoverable_assignment st id actor t handoff_id = Ok (st', outcome)) →
  persist st outcome = st' ∧
  (∀ c, c ∈ out_changes outcome ↔
     entity_at st' (entity_key c) = Some c ∧ entity_at st (entity_key c) ≠ Some c) ∧
  (∀ w, w ∈ out_work_changes outcome ↔
     st_works st' !! work_work_id w = Some w ∧ st_works st !! work_work_id w ≠ Some w).
Proof.
  intros [Hk _] [(command & actor & t & ids & H)|(id & actor & t & handoff_id & H)].
  - split; [by eapply reduce_role_persist|].
    pose proof (role_step_keyed _ _ _ (reduce_role_step _ _ _ _ _ _ _ Hk H) Hk) as Hk'.
    apply reduce_role_Ok in H as (progress & _ & _ & _ & _ & _ & _ & -> & _).
    split; intros c; [by apply elem_of_changed_entities|by apply elem_of_changed_works, Hk'].
  - split; [by eapply reduce_unrecoverable_persist|].
    pose proof (role_step_keyed _ _ _ (reduce_unrecoverable_step _ _ _ _ _ _ _ Hk H) Hk) as Hk'.
    apply reduce_unrecoverable_Ok in H as (a & m & role & _ & _ & Hst & _ & -> & _); [|done].
    split; intros c; [by apply elem_of_changed_entities|]. rewrite Hst. simpl. rewrite elem_of_nil. naive_solver.
Qed.

(** ** Recovery *)

(** C17. Within the limits of a Handoff the system can end the active Assignment
    of an eligible managed agent that is not an owner: in a valid state, with a
    fresh Handoff identifier, room in the revisions of the project, the Assignment
    and its Commitments, at most 64 active Commitments of the Assignment, and no
    nil identifier among those involved, [reduce_unrecoverable_assignment]
    succeeds; the Assignment ends as unrecoverable, all its Commitments end, and no
    other Commitment and no Work changes. *)
Theorem role_recovery_total `{!UuidLaws} st id actor t handoff_id a m :
  role_inv_state st → recoverable st id handoff_id a m →
  (len (commitments_of st id) ≤ MAX_CONTINUITY_ITEMS)%N →
  (∀ k c, st_commitments st !! k = Some c → held_by id c = true →
     Uuid_is_nil k = false ∧ Uuid_is_nil (com_work_id c) = false) →
  ∃ st' outcome, reduce_unrecoverable_assignment st id actor t handoff_id = Ok (st', outcome) ∧
    (∃ a', st_assignments st' !! id = Some a' ∧ asg_ended_at a' = Some t ∧ asg_ended_by a' = Some actor ∧
       asg_ended_reason a' = Some AssignmentEndReason.Unrecoverable) ∧
    (∀ k c, st_commitments st !! k = Some c →
       if held_by id c then ∃ c', st_commitments st' !! k = Some c' ∧ com_ended_at c' = Some t ∧
         com_ended_reason c' = Some CommitmentEndReason.AssignmentEnded
       else st_commitments st' !! k = Some c) ∧
    st_works st' = st_works st.
Proof.
  intros Hinv Hrc Hfit Hids.
  destruct (reduce_unrecoverable_total st id actor t handoff_id a m Hinv Hrc Hfit Hids) as (role & outcome & Hrun).
  eexists _, outcome. split; [exact Hrun|]. split; [|split; [|done]].
  - eexists. split; [apply lookup_insert_eq|done].
  - intros k c Hc. simpl. unfold release. rewrite lookup_fmap, Hc. simpl.
    destruct (held_by id c); [|done]. by eexists.
Qed.

(** C22. Only up to a bound: an Assignment that is replaced, or ended as
    unrecoverable, has at most 64 active Commitments.  Beyond that, the Handoff
    the system writes breaks the limit on unresolved items and the command is
    refused, although nothing limits how many Commitments a Member takes on. *)
Theorem role_handoff_limit st k :
  role_inv_state st → (MAX_CONTINUITY_ITEMS < len (commitments_of st k))%N →
  (∀ actor t handoff_id r, reduce_unrecoverable_assignment st k actor t handoff_id ≠ Ok r) ∧
  (∀ command actor t ids st' outcome a a',
     reduce_role st command actor t ids = Ok (st', outcome) →
     st_assignments st !! k = Some a → RoleAssignment_is_active a = true →
     st_assignments st' !! k = Some a' → RoleAssignment_is_active a' = false →
     asg_ended_reason a' ≠ Some AssignmentEndReason.Replaced).
Proof.
  intros [Hk _] Hmany. split.
  - intros actor t handoff_id [st' outcome] H%unrecoverable_bound; [lia|done].
  - intros command actor t ids st' outcome a a' H Ha Hact Ha' Hend Hreason.
    assert (len (commitments_of st k) ≤ MAX_CONTINUITY_ITEMS)%N by (by eapply replaced_bound). lia.
Qed.

(** ** Change identifiers *)

(** What the types of a source give: hashes of 32 bytes and a positive [i64]
    sequence. *)
Definition source_wf (s : ChangeSource) : Prop :=
  match s with
  | ChangeSource.NostrEvent event_id => length event_id = 32
  | ChangeSource.Nip98Request auth_event_id request_hash =>
      length auth_event_id = 32 ∧ length request_hash = 32
  | ChangeSource.Operator audit_seq hash | ChangeSource.System audit_seq hash =>
      (0 < sequence audit_seq < 2 ^ 63)%Z ∧ length hash = 32
  end.

Definition is_event (s : ChangeSource) : bool :=
  match s with ChangeSource.NostrEvent _ => true | _ => false end.

(** The bytes that the identifier of a source other than an event hashes. *)
Definition source_bytes (s : ChangeSource) : list N :=
  match s with
  | ChangeSource.NostrEvent event_id => event_id
  | ChangeSource.Nip98Request auth_event_id request_hash =>
      CHANGE_ID_DOMAIN ++ nul_terminated "nip98_request" ++ auth_event_id ++ request_hash
  | ChangeSource.Operator audit_seq hash =>
      CHANGE_ID_DOMAIN ++ nul_terminated "operator" ++ i64_to_be_bytes (sequence audit_seq) ++ hash
  | ChangeSource.System audit_seq hash =>
      CHANGE_ID_DOMAIN ++ nul_terminated "system" ++ i64_to_be_bytes (sequence audit_seq) ++ hash
  end.

Lemma change_id_bytes s :
  change_id s = if is_event s then source_bytes s else sha256 (source_bytes s).
Proof.
  destruct s; simpl; unfold digest_audited_source, digest_parts; simpl; by rewrite ?app_nil_r.
Qed.

Lemma audited_bytes_inj (q q' : AuditSequence) (h h' : list N) :
  (0 < sequence q < 2 ^ 63)%Z → (0 < sequence q' < 2 ^ 63)%Z →
  i64_to_be_bytes (sequence q) ++ h = i64_to_be_bytes (sequence q') ++ h' → q = q' ∧ h = h'.
Proof.
  destruct q as [q], q' as [q']. cbn [sequence]. intros Hq Hq' H.
  apply app_inj_1 in H as [Hs ->]; [|unfold i64_to_be_bytes; by rewrite !length_be_bytes].
  apply i64_bytes_inj in Hs as ->; [done|lia..].
Qed.

Lemma source_bytes_inj s s' :
  source_wf s → source_wf s' → is_event s = is_event s' → source_bytes s = source_bytes s' → s = s'.
Proof.
  intros Hs Hs' He H. pose proof (f_equal length H) as Hlen.
  destruct s, s'; try done; cbn [source_bytes source_wf] in *; rewrite ?length_app in Hlen;
    unfold i64_to_be_bytes in Hlen; rewrite ?length_be_bytes in Hlen; simpl length in Hlen;
    try lia; try by rewrite H.
  - apply app_inv_head, app_inv_head, app_inj_1 in H as [-> ->]; [done|lia].
  - apply app_inv_head, app_inv_head, audited_bytes_inj in H as [-> ->]; [done|lia..].
  - apply app_inv_head, app_inv_head, audited_bytes_inj in H as [-> ->]; [done|lia..].
Qed.

(** The change identifier names its source: two sources that are not event
    ids, or two that are, with the same identifier are the same source, or a
    SHA-256 collision is at hand.  The type tags, the fixed widths and the
    positive sequence keep the hashed bytes of the three other kinds apart. *)
Theorem change_id_separates s s' :
  source_wf s → source_wf s' → is_event s = is_event s' → change_id s = change_id s' →
  s = s' ∨ sha256_collision.
Proof.
  intros Hs Hs' He. rewrite !change_id_bytes, He. destruct (is_event s') eqn:He'; intros H.
  - left. apply source_bytes_inj; congruence.
  - destruct (decide (source_bytes s = source_bytes s')) as [Heq|Hne]; [|right; by exists (source_bytes s), (source_bytes s')].
    left. apply source_bytes_inj; congruence.
Qed.

End properties.

(** ** A small community

    An owner, a leader with the admin Role and a managed agent with an ordinary
    one, who works on two things; a newcomer holds the leader's offer of the
    agent's Role. *)

Definition rid (seed : N) : @Uuid reference_platform := ref_uuid seed.
Definition person (n : N) : @PublicKey reference_platform := n.

Definition owner_key := person 1.
Definition lead_key := person 2.
Definition agent_key := person 3.
Definition newcomer_key := person 4.

Definition sample_member (key : N) (role : option CommunityMemberRole) (owner : option PublicKey)
  : @MemberGovernance reference_platform :=
  {| pubkey := person key; community_role := role; eligible := true; managed_agent_owner := owner |}.

Definition sample_members : list MemberGovernance := [
  sample_member 1 (Some CommunityMemberRole.Owner) None;
  sample_member 2 (Some CommunityMemberRole.Admin) None;
  sample_member 3 (Some CommunityMemberRole.Member) (Some owner_key);
  sample_member 4 None None ].

Definition sample_roles : list RoleSlot := [
  {| slot_role_id := rid 10; slot_level := RoleLevel.Admin; slot_active := true |};
  {| slot_role_id := rid 11; slot_level := RoleLevel.Member; slot_active := true |} ].

Definition sample_work (seed : N) : WorkResponsibility := {|
  work_work_id := rid seed;
  work_status := Some WorkStatus.InProgress;
  work_responsible_role_id := Some (rid 11);
  work_object_revision := 1;
  work_project_revision := 2;
  work_updated_at := 10%Z;
  work_updated_by := owner_key;
|}.

Definition sample_assignment (seed role : N) (member : PublicKey) : RoleAssignment := {|
  asg_assignment_id := rid seed;
  asg_role_id := rid role;
  asg_member_pubkey := member;
  asg_proposal_id := rid (seed + 20);
  asg_started_at := 10%Z;
  asg_started_by := owner_key;
  asg_replacement_requested_at := None;
  asg_replacement_request_reason := None;
  asg_unable_reported_at := None;
  asg_unable_report_reason := None;
  asg_ended_at := None;
  asg_ended_by := None;
  asg_ended_reason := None;
  asg_replaced_by_assignment_id := None;
  asg_entity_revision := 1;
  asg_project_revision := 3;
|}.

Definition sample_commitment (seed work : N) : WorkCommitment := {|
  com_commitment_id := rid seed;
  com_work_id := rid work;
  com_assignment_id := rid 31;
  com_member_pubkey := agent_key;
  com_started_at := 20%Z;
  com_started_by := agent_key;
  com_ended_at := None;
  com_ended_by := None;
  com_ended_reason := None;
  com_entity_revision := 1;
  com_project_revision := 4;
|}.

Definition sample_offer : RoleAssignmentProposal := {|
  prop_proposal_id := rid 60;
  prop_role_id := rid 11;
  prop_candidate_pubkey := newcomer_key;
  prop_type := ProposalType.Offer;
  prop_candidate_accepted_at := None;
  prop_authorized_by := Some lead_key;
  prop_authorized_at := Some 50%Z;
  prop_expected_target_assignment_id := Some (rid 31);
  prop_expected_candidate_assignment_id := None;
  prop_expires_at := 1000%Z;
  prop_status := ProposalStatus.Open;
  prop_reason := None;
  prop_created_by := lead_key;
  prop_created_at := 50%Z;
  prop_resolved_at := None;
  prop_entity_revision := 1;
  prop_project_revision := 5;
|}.

Definition load_sample (works : list WorkResponsibility) (commitments : list WorkCommitment) :=
  from_complete_snapshot 5 sample_roles works sample_members [sample_offer]
    [sample_assignment 30 10 lead_key; sample_assignment 31 11 agent_key] commitments [] [] [].

Definition blank_role_state : RoleContinuityState := mkRoleContinuityState 0 ∅ ∅ ∅ ∅ ∅ ∅ ∅ ∅ ∅.

Definition loaded (works : list WorkResponsibility) (commitments : list WorkCommitment)
  : RoleContinuityState :=
  match load_sample works commitments with Ok st => st | Err _ => blank_role_state end.

Definition load_ok (works : list WorkResponsibility) (commitments : list WorkCommitment) : bool :=
  match load_sample works commitments with Ok _ => true | Err _ => false end.

Lemma loaded_Ok works commitments :
  load_ok works commitments = true → load_sample works commitments = Ok (loaded works commitments).
Proof. unfold load_ok, loaded. by destruct (load_sample works commitments). Qed.

Definition two_works : list WorkResponsibility := [sample_work 20; sample_work 21].
Definition two_commitments : list WorkCommitment := [sample_commitment 40 20; sample_commitment 41 21].

Definition role_s0 : RoleContinuityState := loaded two_works two_commitments.

Lemma role_load0 : load_sample two_works two_commitments = Ok role_s0.
Proof. apply loaded_Ok. vm_compute. reflexivity. Qed.

Lemma role_inv0 : role_inv_state role_s0.
Proof. exact (from_complete_snapshot_inv _ _ _ _ _ _ _ _ _ _ _ role_load0). Qed.

Definition sample_ids : GeneratedRoleContinuityIds := {|
  gen_assignment_id := rid 61; gen_handoff_ids := [rid 70; rid 71] |}.

Definition role_run st command actor t := reduce_role st command actor t sample_ids.

Definition role_after st command actor t : RoleContinuityState :=
  match role_run st command actor t with Ok (st', _) => st' | Err _ => blank_role_state end.

Definition role_outcome st command actor t : RoleContinuityOutcome :=
  match role_run st command actor t with
  | Ok (_, outcome) => outcome
  | Err _ => mkRoleContinuityOutcome 0 [] [] ∅ ∅
  end.

Definition role_ok st command actor t : bool :=
  match role_run st command actor t with Ok _ => true | Err _ => false end.

Lemma role_run_Ok st command actor t :
  role_ok st command actor t = true →
  role_run st command actor t = Ok (role_after st command actor t, role_outcome st command actor t).
Proof. unfold role_ok, role_after, role_outcome. by destruct (role_run st command actor t) as [[]|]. Qed.

(** The newcomer accepts; then the leader revokes. *)
Definition accept_offer : RoleCommand := RoleCommand_new 5 None (AcceptProposal (rid 60)).
Definition revoke_newcomer : RoleCommand := RoleCommand_new 6 (Some (rid 30)) (EndAssignment (rid 61) None).

Definition role_s1 : RoleContinuityState := role_after role_s0 accept_offer newcomer_key 100%Z.
Definition role_s2 : RoleContinuityState := role_after role_s1 revoke_newcomer lead_key 200%Z.

Lemma role_run1 : role_ok role_s0 accept_offer newcomer_key 100%Z = true.
Proof. vm_compute. reflexivity. Qed.
Lemma role_run2 : role_ok role_s1 revoke_newcomer lead_key 200%Z = true.
Proof. vm_compute. reflexivity. Qed.

Lemma role_run_step st command actor t :
  role_ok st command actor t = true → role_command_step st (role_after st command actor t).
Proof. intros H%role_run_Ok. by eapply by_member. Qed.

Lemma role_reach2 : rtc role_command_step role_s0 role_s2.
Proof.
  eapply rtc_l; [exact (role_run_step _ _ _ _ role_run1)|].
  exact (rtc_once _ _ (role_run_step _ _ _ _ role_run2)).
Qed.

Definition assignment_row st (seed : N) : RoleAssignment :=
  default (sample_assignment 0 0 owner_key) (st_assignments st !! rid seed).

Definition offer_row st : RoleAssignmentProposal := default sample_offer (st_proposals st !! rid 60).

Definition has_assignment st (seed : N) : bool := opt_is_some (st_assignments st !! rid seed).

Lemma assignment_row_Some st seed :
  has_assignment st seed = true → st_assignments st !! rid seed = Some (assignment_row st seed).
Proof. unfold has_assignment, assignment_row. by destruct (st_assignments st !! rid seed). Qed.

Lemma agent_assigned0 : st_assignments role_s0 !! rid 31 = Some (assignment_row role_s0 31).
Proof. apply assignment_row_Some. vm_compute. reflexivity. Qed.
Lemma agent_assigned1 : st_assignments role_s1 !! rid 31 = Some (assignment_row role_s1 31).
Proof. apply assignment_row_Some. vm_compute. reflexivity. Qed.
Lemma newcomer_assigned1 : st_assignments role_s1 !! rid 61 = Some (assignment_row role_s1 61).
Proof. apply assignment_row_Some. vm_compute. reflexivity. Qed.

(** ** Applications *)

Lemma role_rules_hold_witness : (st_project_revision role_s2 ≤ MAX_SAFE_REVISION)%N ∧
  ∀ i a, st_assignments role_s2 !! i = Some a → RoleAssignment_is_active a = true →
    ∃ slot m, st_roles role_s2 !! asg_role_id a = Some slot ∧ slot_active slot = true ∧
      st_members role_s2 !! asg_member_pubkey a = Some m ∧ eligible m = true ∧
      (community_role m = Some CommunityMemberRole.Owner
       ∨ community_role m = Some (level_role (slot_level slot))).
Proof.
  pose proof (role_rules_hold _ _ _ _ _ _ _ _ _ _ _ _ role_load0 role_reach2) as (_ & H & _ & _ & Hr).
  exact (conj Hr H).
Defined.

Lemma role_history_kept_witness :
  kept_history role_s0 role_s2 ∧ (st_project_revision role_s0 ≤ st_project_revision role_s2)%N.
Proof. exact (role_history_kept _ _ role_inv0 role_reach2). Defined.

Lemma role_one_revision_witness :
  st_project_revision role_s1 = (st_project_revision role_s0 + 1)%N.
Proof.
  exact (proj1 (proj2 (role_one_revision _ _ _ _ _ _ _ role_inv0 (role_run_Ok _ _ _ _ role_run1)))).
Defined.

Lemma role_end_authorized_witness :
  ∃ key, asg_ended_by (assignment_row role_s1 31) = Some key ∧ may_end role_s0 (assignment_row role_s0 31) key.
Proof.
  destruct (role_end_authorized _ _ _ _ _ _ _ (rid 31) (assignment_row role_s0 31) (assignment_row role_s1 31)
    role_inv0 (role_run_Ok _ _ _ _ role_run1)
    agent_assigned0 ltac:(vm_compute; reflexivity) agent_assigned1 ltac:(vm_compute; reflexivity))
    as (key & Hkey & _ & Hmay & _).
  exists key. exact (conj Hkey Hmay).
Defined.

Lemma role_started_by_consent_witness :
  ∃ p, consented role_s0 accept_offer newcomer_key 100%Z (rid 60) p lead_key.
Proof.
  destruct (role_started_by_consent _ _ _ _ _ _ _ (rid 61) (assignment_row role_s1 61)
    role_inv0 (role_run_Ok _ _ _ _ role_run1) ltac:(by_evaluation)
    newcomer_assigned1) as (_ & _ & p & _ & H & _).
  exists p.
  assert (asg_proposal_id (assignment_row role_s1 61) = rid 60) as <- by by_evaluation.
  assert (asg_started_by (assignment_row role_s1 61) = lead_key) as <- by by_evaluation.
  exact H.
Defined.

Lemma role_consent_personal_witness : prop_candidate_pubkey (offer_row role_s1) = newcomer_key.
Proof.
  destruct (role_consent_personal _ _ _ _ _ _ _ (rid 60) (offer_row role_s1)
    role_inv0 (role_run_Ok _ _ _ _ role_run1) ltac:(by_evaluation)) as [Haccept _].
  destruct (Haccept 100%Z ltac:(by_evaluation)) as [(p & Hp & Hacc)|[H _]]; [|exact H].
  assert (st_proposals role_s0 !! rid 60 = Some sample_offer) as Hs by by_evaluation.
  rewrite Hs in Hp. injection Hp as <-. discriminate Hacc.
Defined.

Lemma role_outcome_persists_witness :
  persist role_s0 (role_outcome role_s0 accept_offer newcomer_key 100%Z) = role_s1.
Proof.
  refine (proj1 (role_outcome_persists _ _ _ role_inv0 (or_introl _))).
  exists accept_offer, newcomer_key, 100%Z, sample_ids. exact (role_run_Ok _ _ _ _ role_run1).
Defined.

Definition agent_row st : MemberGovernance :=
  default (sample_member 0 None None) (st_members st !! agent_key).

Lemma role_s0_commitments k c :
  st_commitments role_s0 !! k = Some c → k = rid 40 ∧ c = sample_commitment 40 20
    ∨ k = rid 41 ∧ c = sample_commitment 41 21.
Proof.
  assert (st_commitments role_s0 = {[ rid 40 := sample_commitment 40 20; rid 41 := sample_commitment 41 21 ]})
    as -> by by_evaluation.
  rewrite lookup_insert_Some, lookup_singleton_Some. naive_solver.
Qed.

Lemma role_s0_recoverable :
  recoverable role_s0 (rid 31) (rid 70) (assignment_row role_s0 31) (agent_row role_s0).
Proof.
  split; try by_evaluation.
Qed.

Lemma role_recovery_total_witness :
  ∃ st' outcome, reduce_unrecoverable_assignment role_s0 (rid 31) owner_key 300%Z (rid 70) = Ok (st', outcome) ∧
    st_works st' = st_works role_s0.
Proof.
  destruct (role_recovery_total role_s0 (rid 31) owner_key 300%Z (rid 70) _ _ role_inv0 role_s0_recoverable)
    as (st' & outcome & Hrun & _ & _ & Hworks).
  - by_evaluation.
  - intros k c Hc _. destruct (role_s0_commitments _ _ Hc) as [[-> ->]|[-> ->]]; split; vm_compute; reflexivity.
  - exists st', outcome. exact (conj Hrun Hworks).
Defined.

(** The same community with sixty-five things to do. *)
Definition seeds (first : N) : list N := (λ i, (first + N.of_nat i)%N) <$> seq 0 65.

Definition many_works : list WorkResponsibility := sample_work <$> seeds 100.
Definition many_commitments : list WorkCommitment :=
  (λ i, sample_commitment (170 + i) (100 + i)) <$> seeds 0.

Definition role_busy : RoleContinuityState := loaded many_works many_commitments.

Lemma role_busy_inv : role_inv_state role_busy.
Proof.
  assert (load_ok many_works many_commitments = true) as H by (vm_compute; reflexivity).
  exact (from_complete_snapshot_inv _ _ _ _ _ _ _ _ _ _ _ (loaded_Ok _ _ H)).
Qed.

Lemma role_handoff_limit_witness :
  len (commitments_of role_busy (rid 31)) = 65%N ∧
  ∀ r, reduce_unrecoverable_assignment role_busy (rid 31) owner_key 300%Z (rid 70) ≠ Ok r.
Proof.
  split; [vm_compute; reflexivity|].
  exact (proj1 (role_handoff_limit role_busy (rid 31) role_busy_inv ltac:(vm_compute; reflexivity))
           owner_key 300%Z (rid 70)).
Defined.

Lemma change_id_separates_witness :
  ∃ s, ChangeSource_operator 7 (replicate 32 1%N) = Ok s ∧
    (s = ChangeSource.Operator (mkAuditSequence 7) (replicate 32 1%N) ∨ sha256_collision).
Proof.
  exists (ChangeSource.Operator (mkAuditSequence 7) (replicate 32 1%N)). split; [reflexivity|].
  apply change_id_separates; [simpl; split; [lia|reflexivity]..|reflexivity|reflexivity].
Defined.
