(* ===== verification/Ordering.v ===== *)
(** * Sorting, deduplicating and selecting by a comparison

    The comparisons of the code ([then_with] chains over fields) are total
    preorders.  For such a comparison a sorted list, the first element of each
    group and the greatest element are determined by the elements alone, as soon
    as the comparison tells different elements apart. *)

From Stdlib Require Import Permutation Sorted.
From stdpp Require Import prelude.
From S2P Require Import Prelude.

(** A total preorder given by its comparison function. *)
Class PreCmp {A} (cmp : A → A → comparison) : Prop := {
  pre_sym : ∀ a b, cmp b a = CompOpp (cmp a b);
  pre_trans : ∀ a b c, cmp a b ≠ Gt → cmp b c ≠ Gt → cmp a c ≠ Gt;
}.

Arguments pre_sym {A} cmp {_}.
Arguments pre_trans {A} cmp {_}.

#[export] Instance total_pre {A} (cmp : A → A → comparison) `{!TotalCmp cmp} : PreCmp cmp | 10.
Proof.
  split; [apply (cmp_sym cmp)|]. intros a b c Hab Hbc.
  destruct (cmp a b) eqn:E; [|clear Hab|done].
  - by apply (cmp_eq cmp) in E as ->.
  - destruct (cmp b c) eqn:E'; [|clear Hbc|done].
    + apply (cmp_eq cmp) in E' as <-. by rewrite E.
    + by rewrite (cmp_lt_trans cmp _ _ _ E E').
Qed.

#[export] Instance N_compare_total : TotalCmp N.compare.
Proof.
  split.
  - apply N.compare_eq_iff.
  - intros a b. apply N.compare_antisym.
  - intros a b c. rewrite !N.compare_lt_iff. lia.
Qed.

Section pre.
Context {A} (cmp : A → A → comparison) `{!PreCmp cmp}.

Lemma pre_refl a : cmp a a = Eq.
Proof. pose proof (pre_sym cmp a a) as H. by destruct (cmp a a). Qed.

Lemma pre_eq_sym a b : cmp a b = Eq → cmp b a = Eq.
Proof. intros H. by rewrite (pre_sym cmp a b), H. Qed.

Lemma pre_gt_lt a b : cmp a b = Gt ↔ cmp b a = Lt.
Proof. rewrite (pre_sym cmp a b). by destruct (cmp a b). Qed.

Lemma pre_lt_trans a b c : cmp a b = Lt → cmp b c ≠ Gt → cmp a c = Lt.
Proof.
  intros Hab Hbc. destruct (cmp a c) eqn:E; [|done|].
  - apply pre_eq_sym in E. exfalso. apply (pre_trans cmp b c a Hbc); [by rewrite E|by apply pre_gt_lt].
  - apply pre_gt_lt in E. exfalso. apply (pre_trans cmp b c a Hbc); [by rewrite E|by apply pre_gt_lt].
Qed.

Lemma pre_eq_trans a b c : cmp a b = Eq → cmp b c = Eq → cmp a c = Eq.
Proof.
  intros Hab Hbc. destruct (cmp a c) eqn:E; [done| |].
  - apply pre_eq_sym in Hbc. pose proof (pre_lt_trans a c b E ltac:(by rewrite Hbc)). congruence.
  - apply pre_gt_lt in E. apply pre_eq_sym in Hab.
    pose proof (pre_trans cmp a b c ltac:(rewrite (pre_eq_sym _ _ Hab); done) ltac:(by rewrite Hbc)) as H.
    apply pre_gt_lt in E. congruence.
Qed.

Lemma pre_eq_lt a b c : cmp a b = Eq → cmp b c = Lt → cmp a c = Lt.
Proof.
  intros Hab Hbc. destruct (cmp a c) eqn:E; [|done|].
  - apply pre_eq_sym in Hab. pose proof (pre_eq_trans b a c Hab E). congruence.
  - apply pre_gt_lt in E. pose proof (pre_lt_trans c a b E ltac:(by rewrite Hab)) as H.
    apply pre_gt_lt in H. congruence.
Qed.

End pre.

#[export] Instance pre_then {A} (cmp cmp' : A → A → comparison) :
  PreCmp cmp → PreCmp cmp' → PreCmp (λ a b, then_with (cmp a b) (cmp' a b)).
Proof.
  intros H H'. split.
  - intros a b. rewrite (pre_sym cmp a b), (pre_sym cmp' a b). by destruct (cmp a b).
  - intros a b c Hab Hbc. destruct (cmp a b) eqn:E; simpl in Hab; [| |done].
    + destruct (cmp b c) eqn:E'; simpl in Hbc; [| |done].
      * rewrite (pre_eq_trans cmp _ _ _ E E'). simpl. by eapply (pre_trans cmp').
      * by rewrite (pre_eq_lt cmp _ _ _ E E').
    + destruct (cmp b c) eqn:E'; simpl in Hbc; [| |done];
        by rewrite (pre_lt_trans cmp _ _ _ E) by (by rewrite E').
Qed.

#[export] Instance pre_on {A B} (f : A → B) (cmp : B → B → comparison) :
  PreCmp cmp → PreCmp (λ a b, cmp (f a) (f b)) | 5.
Proof. intros H. split; [intros a b; apply (pre_sym cmp)|intros a b c; apply (pre_trans cmp)]. Qed.

#[export] Instance pre_flip_on {A B} (f : A → B) (cmp : B → B → comparison) :
  PreCmp cmp → PreCmp (λ a b, cmp (f b) (f a)) | 5.
Proof.
  intros H. split; [intros a b; apply (pre_sym cmp)|].
  intros a b c Hab Hbc. by apply (pre_trans cmp _ (f b)).
Qed.

(** ** Sorting *)

(** Not decreasing for a comparison. *)
Abbreviation WeaklySorted cmp := (StronglySorted (λ a b, cmp a b ≠ Gt)).

Section sort.
Context {A} (cmp : A → A → comparison) `{!PreCmp cmp}.

Lemma sort_by_weak l : WeaklySorted cmp (sort_by cmp l).
Proof.
  induction l as [|x l IH]; [constructor|].
  change (sort_by cmp (x :: l)) with (sort_insert cmp x (sort_by cmp l)).
  revert IH. generalize (sort_by cmp l). clear l. intros s Hs.
  induction Hs as [|y s Hs IH Hy]; simpl; [repeat constructor|].
  destruct (cmp x y) eqn:E.
  1,2: constructor; [by constructor|]; constructor; [by rewrite E|];
    eapply Forall_impl; [exact Hy|]; intros z Hz; simpl in *; apply (pre_trans cmp _ y); [by rewrite E|done].
  constructor; [done|]. rewrite (sort_insert_perm cmp). constructor; [|done].
  apply (pre_gt_lt cmp) in E. by rewrite E.
Qed.

(** The comparison tells the elements of the list apart. *)
Definition distinguishes (l : list A) : Prop := ∀ a b, a ∈ l → b ∈ l → cmp a b = Eq → a = b.

Lemma distinguishes_perm l k : Permutation l k → distinguishes l → distinguishes k.
Proof. intros Hp H a b Ha Hb. apply H; by rewrite Hp. Qed.

Lemma weakly_sorted_unique l k :
  WeaklySorted cmp l → WeaklySorted cmp k → Permutation l k → distinguishes l → l = k.
Proof.
  intros Hl. revert k. induction Hl as [|x l Hl IH Hx]; intros k Hk Hp Hd.
  - by apply Permutation_nil in Hp.
  - destruct Hk as [|y k Hk Hy]; [by apply Permutation_sym, Permutation_nil in Hp|].
    assert (x = y) as ->.
    { rewrite Forall_forall in Hx, Hy.
      assert (Hyin : y ∈ x :: l) by (rewrite Hp; constructor).
      assert (Hxin : x ∈ y :: k) by (rewrite <- Hp; constructor).
      apply Hd; [constructor|done|].
      apply elem_of_cons in Hxin as [->|Hxin]; [by apply pre_refl|].
      apply elem_of_cons in Hyin as [->|Hyin]; [by apply pre_refl|].
      pose proof (Hx _ Hyin) as Hxy. pose proof (Hy _ Hxin) as Hyx. simpl in *.
      rewrite (pre_sym cmp x y) in Hyx. by destruct (cmp x y). }
    f_equal. apply IH; [done|by apply Permutation_cons_inv in Hp|].
    intros a b Ha Hb. apply Hd; by constructor.
Qed.

Lemma sort_by_order l k : Permutation l k → distinguishes l → sort_by cmp l = sort_by cmp k.
Proof.
  intros Hp Hd. apply weakly_sorted_unique; [apply sort_by_weak..|by rewrite !(sort_by_perm cmp)|].
  eapply distinguishes_perm; [|exact Hd]. by rewrite (sort_by_perm cmp).
Qed.

Lemma sort_by_fixpoint l : WeaklySorted cmp l → distinguishes l → sort_by cmp l = l.
Proof.
  intros Hw Hd. apply weakly_sorted_unique; [apply sort_by_weak|done|apply sort_by_perm|].
  eapply distinguishes_perm; [|exact Hd]. by rewrite (sort_by_perm cmp).
Qed.

(** ** The greatest element *)

Lemma max_by_from l (b : A) :
  ∃ x, foldl (λ best x, match best with
                        | Some b => match cmp b x with Gt => Some b | _ => Some x end
                        | None => Some x
                        end) (Some b) l = Some x ∧ x ∈ b :: l ∧ ∀ y, y ∈ b :: l → cmp y x ≠ Gt.
Proof.
  revert b. induction l as [|z l IH]; intros b; simpl.
  - exists b. split; [done|]. split; [constructor|].
    intros y [->|[]%elem_of_nil]%elem_of_cons. by rewrite (pre_refl cmp).
  - destruct (cmp b z) eqn:E.
    1,2: destruct (IH z) as (x & -> & Hx & Hmax); exists x; split; [done|]; split; [by constructor|];
      intros y [->|Hy]%elem_of_cons; [|by apply Hmax];
      apply (pre_trans cmp _ z); [by rewrite E|apply Hmax; constructor].
    destruct (IH b) as (x & -> & Hx & Hmax). exists x. split; [done|].
    split; [apply elem_of_cons in Hx as [->|Hx]; [constructor|by do 2 constructor]|].
    intros y [->|[->|Hy]%elem_of_cons]%elem_of_cons.
    + apply Hmax. constructor.
    + apply (pre_trans cmp _ b); [apply (pre_gt_lt cmp) in E; by rewrite E|apply Hmax; constructor].
    + apply Hmax. by constructor.
Qed.

Lemma max_by_None l : max_by cmp l = None ↔ l = [].
Proof.
  split; [|by intros ->]. destruct l as [|b l]; [done|]. unfold max_by. simpl.
  destruct (max_by_from l b) as (x & -> & _). done.
Qed.

Lemma max_by_Some l x : max_by cmp l = Some x → x ∈ l ∧ ∀ y, y ∈ l → cmp y x ≠ Gt.
Proof.
  destruct l as [|b l]; [done|]. unfold max_by. simpl.
  destruct (max_by_from l b) as (x' & -> & ?). by intros [= ->].
Qed.

(** The greatest element does not depend on the order. *)
Lemma max_by_order l k : Permutation l k → distinguishes l → max_by cmp l = max_by cmp k.
Proof.
  intros Hp Hd. destruct (max_by cmp l) as [x|] eqn:El.
  - apply max_by_Some in El as [Hx Hmax]. destruct (max_by cmp k) as [y|] eqn:Ek.
    + apply max_by_Some in Ek as [Hy Hmax']. rewrite <- Hp in Hy. f_equal. apply Hd; [done..|].
      specialize (Hmax y Hy). specialize (Hmax' x ltac:(by rewrite <- Hp)).
      rewrite (pre_sym cmp x y) in Hmax. by destruct (cmp x y).
    + apply max_by_None in Ek as ->. apply Permutation_sym, Permutation_nil in Hp as ->. by apply elem_of_nil in Hx.
  - apply max_by_None in El as ->. by apply Permutation_nil in Hp as ->.
Qed.

(** ** One element per group *)

Context {K} `{EqDecision K} (group : A → K).
Context (groups_contiguous :
  ∀ a b c, cmp a b ≠ Gt → cmp b c ≠ Gt → group a = group c → group b = group a).

Abbreviation same := (λ x kept : A, bool_decide (group x = group kept)).

(** A first element of its group in a list. *)
Definition first_of (l : list A) (x : A) : Prop :=
  x ∈ l ∧ ∀ y, y ∈ l → group y = group x → cmp x y ≠ Gt.

Lemma dedup_after_spec kept l :
  WeaklySorted cmp (kept :: l) →
  (∀ x, x ∈ dedup_after same kept l → group x ≠ group kept ∧ first_of (kept :: l) x) ∧
  (∀ y, y ∈ l → group y = group kept ∨ ∃ x, x ∈ dedup_after same kept l ∧ group x = group y) ∧
  NoDup (group <$> dedup_after same kept l).
Proof using groups_contiguous PreCmp0.
  revert kept. induction l as [|h l IH]; intros kept Hs; simpl.
  - split_and!; [by intros ? ?%elem_of_nil|by intros ? ?%elem_of_nil|constructor].
  - apply StronglySorted_inv in Hs as [Hs Hk]. pose proof Hk as [Hkh Hkl]%Forall_cons. simpl in Hkh.
    case_bool_decide as Hg.
    + apply StronglySorted_inv in Hs as [Hs _].
      destruct (IH kept) as (Hin & Hcov & Hnd); [by constructor|]. split_and!; [| |done].
      * intros x Hx. destruct (Hin x Hx) as (Hne & Hxl & Hfirst). split; [done|]. split.
        { apply elem_of_cons in Hxl as [->|Hxl]; [constructor|by do 2 constructor]. }
        intros y [->|[->|Hy]%elem_of_cons]%elem_of_cons Hyx; [apply Hfirst; [constructor|done]|congruence|].
        apply Hfirst; [by constructor|done].
      * intros y [->|Hy]%elem_of_cons; [by left|by apply Hcov].
    + destruct (IH h Hs) as (Hin & Hcov & Hnd). split_and!.
      * intros x [->|Hx]%elem_of_cons.
        { split; [done|]. split; [by do 2 constructor|].
          intros y [->|[->|Hy]%elem_of_cons]%elem_of_cons Hyx; [congruence|by rewrite (pre_refl cmp)|].
          apply StronglySorted_inv in Hs as [_ Hh]. rewrite Forall_forall in Hh. by apply Hh. }
        destruct (Hin x Hx) as (Hne & Hxl & Hfirst).
        assert (group x ≠ group kept) as Hxk.
        { intros Heq. apply Hg. apply (groups_contiguous kept h x); [done| |congruence].
          apply StronglySorted_inv in Hs as [_ Hh]. rewrite Forall_forall in Hh.
          apply elem_of_cons in Hxl as [->|Hxl]; [congruence|by apply Hh]. }
        split; [done|]. split; [by constructor|].
        intros y [->|Hy]%elem_of_cons Hyx; [congruence|by apply Hfirst].
      * intros y [->|Hy]%elem_of_cons; [right; exists h; split; [constructor|done]|].
        destruct (decide (group y = group h)) as [Heq|Hne].
        { right. exists h. split; [constructor|done]. }
        destruct (Hcov y Hy) as [|(x & ? & ?)]; [done|]. right. exists x. split; [by constructor|done].
      * simpl. constructor; [|done]. intros (x & Hx & Hin')%list_elem_of_fmap.
        destruct (Hin x Hin') as (Hne & _). congruence.
Qed.

Lemma elem_of_dedup_by l x :
  WeaklySorted cmp l → distinguishes l → x ∈ dedup_by same l ↔ first_of l x.
Proof using groups_contiguous PreCmp0.
  destruct l as [|k l]; intros Hs Hd; simpl.
  { split; [by intros ?%elem_of_nil|by intros [?%elem_of_nil _]]. }
  destruct (dedup_after_spec k l Hs) as (Hin & Hcov & _). split.
  - intros [->|Hx]%elem_of_cons; [|by apply Hin]. split; [constructor|].
    intros y [->|Hy]%elem_of_cons _; [by rewrite (pre_refl cmp)|].
    apply StronglySorted_inv in Hs as [_ Hk]. rewrite Forall_forall in Hk. by apply Hk.
  - intros [Hx Hfirst].
    assert (∀ z, first_of (k :: l) z → group z = group x → x = z) as Huniq.
    { intros z [Hz Hzf] Hg. apply Hd; [done..|]. specialize (Hfirst z Hz Hg). specialize (Hzf x Hx ltac:(done)).
      rewrite (pre_sym cmp x z) in Hzf. by destruct (cmp x z). }
    assert (first_of (k :: l) k) as Hkf.
    { split; [constructor|]. intros y [->|Hy]%elem_of_cons _; [by rewrite (pre_refl cmp)|].
      apply StronglySorted_inv in Hs as [_ Hk]. rewrite Forall_forall in Hk. by apply Hk. }
    apply elem_of_cons in Hx as [->|Hx]; [constructor|].
    destruct (Hcov x Hx) as [Hg|(z & Hz & Hg)]; [rewrite (Huniq k); [constructor|done|done]|].
    rewrite (Huniq z); [by constructor|by apply Hin|done].
Qed.

Lemma dedup_by_groups l : WeaklySorted cmp l → NoDup (group <$> dedup_by same l).
Proof using groups_contiguous PreCmp0.
  destruct l as [|k l]; intros Hs; simpl; [constructor|].
  destruct (dedup_after_spec k l Hs) as (Hin & _ & Hnd). constructor; [|done].
  intros (x & Hx & Hin')%list_elem_of_fmap. destruct (Hin x Hin') as (Hne & _). congruence.
Qed.

End sort.

Arguments distinguishes {A} cmp l.
Arguments first_of {A} cmp {K} group l x.
