(* ===== verification/SemanticModel.v ===== *)
(** * Semantic query: fixed-point scores

    Models [buzz-semantic-query/src/score.rs] except [Score::from_cosine_distance],
    which quantizes a binary64 distance.  A [Score] is a [u32]; intermediate
    products are [u128] in the code and exceed no width here, and the casts back
    to [u32] are written out. *)

From stdpp Require Import prelude strings countable.
From S2P Require Import Prelude Text Platform ContextCoordinate TextOps ContextModel.

(** ** Casts and checked arithmetic *)

(** [x as u32] *)
Definition as_u32 (x : N) : N := (x mod 4294967296)%N.

Definition u128_max : N := 340282366920938463463374607431768211455%N.

(** [u128::checked_add] and [u128::checked_mul] *)
Definition u128_checked_add (a b : N) : option N :=
  if (a + b <=? u128_max)%N then Some (a + b)%N else None.
Definition u128_checked_mul (a b : N) : option N :=
  if (a * b <=? u128_max)%N then Some (a * b)%N else None.

(** ** Scores *)

Definition SCORE_SCALE : N := 1000000.

Record Score : Type := mkScore { raw : N }.

#[global] Instance Score_eq_dec : EqDecision Score.
Proof. solve_decision. Defined.

Definition Score_cmp (a b : Score) : comparison := N.compare (raw a) (raw b).
Definition Score_max (a b : Score) : Score := if (raw a <=? raw b)%N then b else a.

Inductive ScoreError : Type :=
| OutOfRange (value : N)
| NonFiniteDistance
| ArithmeticOverflow.

#[global] Instance ScoreError_eq_dec : EqDecision ScoreError.
Proof. solve_decision. Defined.

Definition Score_ZERO : Score := mkScore 0.
Definition Score_ONE : Score := mkScore SCORE_SCALE.

Definition W_CANDIDATE_PROBLEM : Score := mkScore 750000.
Definition W_CANDIDATE_ENVIRONMENT : Score := mkScore 200000.
Definition W_CANDIDATE_ANCHOR : Score := mkScore 50000.
Definition W_DOCUMENT_PROBLEM : Score := mkScore 700000.
Definition W_DOCUMENT_ENVIRONMENT : Score := mkScore 200000.
Definition W_DOCUMENT_COHERENCE : Score := mkScore 100000.
Definition W_SECOND_ENVIRONMENT : Score := mkScore 250000.
Definition W_ROOT_RELEVANCE : Score := mkScore 850000.
Definition W_ROOT_DIVERSITY : Score := mkScore 150000.
Definition DISCOUNT_FACTOR : Score := mkScore 850000.
Definition BASE_ENTRY_FLOOR : Score := mkScore 550000.
Definition RELATION_FLOOR : Score := mkScore 500000.
Definition TARGET_FLOOR : Score := mkScore 500000.
Definition TRANSITION_FLOOR : Score := mkScore 500000.
Definition HOP_PENALTY : Score := mkScore 25000.

Definition Score_new (value : N) : result Score ScoreError :=
  if (SCORE_SCALE <? value)%N then Err (OutOfRange value) else Ok (mkScore value).

(** [SCORE_SCALE - self.0], which does not underflow for a valid score. *)
Definition complement (self : Score) : Score := mkScore (SCORE_SCALE - raw self).

Definition round_div (numerator denominator : N) : N :=
  ((numerator + denominator / 2) / denominator)%N.

Definition mul_score (left right : Score) : Score :=
  let numerator := (raw left * raw right)%N in
  mkScore (as_u32 (round_div numerator SCORE_SCALE)).

(** [iter.sum()] *)
Definition sum_list (l : list N) : N := foldr N.add 0%N l.

Definition weighted_score (terms : list (Score * Score)) : Score :=
  let sum := sum_list ((λ '(weight, score), raw (mul_score weight score)) <$> terms) in
  mkScore (as_u32 (N.min sum SCORE_SCALE)).

Definition harmonic_score (left right : Score) : Score :=
  if bool_decide (left = Score_ZERO) || bool_decide (right = Score_ZERO) then Score_ZERO
  else
    let numerator := (2 * raw left * raw right)%N in
    let denominator := (raw left + raw right)%N in
    mkScore (as_u32 (round_div numerator denominator)).

Module AnchorGain.
Inductive AnchorGain : Type :=
| None
| SameHyperedge
| ExplicitInitial.

#[global] Instance AnchorGain_eq_dec : EqDecision AnchorGain.
Proof. solve_decision. Defined.
End AnchorGain.
Abbreviation AnchorGain := AnchorGain.AnchorGain.

Definition AnchorGain_score (self : AnchorGain) : Score :=
  match self with
  | AnchorGain.None => Score_ZERO
  | AnchorGain.SameHyperedge => mkScore 500000
  | AnchorGain.ExplicitInitial => Score_ONE
  end.

(** [u32::saturating_sub] *)
Definition saturating_sub (a b : Score) : Score := mkScore (raw a - raw b).

Definition candidate_score (problem environment : Score) (anchor : AnchorGain) : Score :=
  weighted_score [ (W_CANDIDATE_PROBLEM, problem);
                   (W_CANDIDATE_ENVIRONMENT, environment);
                   (W_CANDIDATE_ANCHOR, AnchorGain_score anchor) ].

Definition document_score (problem environment : Score) (local_coherence : option Score) : Score :=
  match local_coherence with
  | Some coherence =>
      weighted_score [ (W_DOCUMENT_PROBLEM, problem);
                       (W_DOCUMENT_ENVIRONMENT, environment);
                       (W_DOCUMENT_COHERENCE, coherence) ]
  | None =>
      let numerator := (7 * raw problem + 2 * raw environment)%N in
      mkScore (as_u32 (round_div numerator 9))
  end.

Definition target_coordinate_score (problem environment relation_document_coherence : Score)
  : Score :=
  weighted_score [ (W_DOCUMENT_PROBLEM, problem);
                   (W_DOCUMENT_ENVIRONMENT, environment);
                   (W_DOCUMENT_COHERENCE, relation_document_coherence) ].

Definition root_diversity_priority (relevance redundancy : Score) : Score :=
  weighted_score [ (W_ROOT_RELEVANCE, relevance);
                   (W_ROOT_DIVERSITY, complement redundancy) ].

(** ** Conditioned evidence *)

Section evidence.
Context `{P : Platform}.

Definition context_kind_weight (coordinate : ProjectContextCoordinate) : Score :=
  match coordinate with
  | ProjectContextCoordinate.ProjectViewObject ProjectViewObjectType.Work _ => Score_ONE
  | ProjectContextCoordinate.ProjectViewObject
      (ProjectViewObjectType.Issue | ProjectViewObjectType.Requirement) _ => mkScore 900000
  | ProjectContextCoordinate.ProjectViewObject ProjectViewObjectType.Role _ => mkScore 600000
  | _ => mkScore 500000
  end.

Record ConditionedEvidence : Type := mkConditionedEvidence {
  ev_context_coordinate : ProjectContextCoordinate;
  ev_context_kind_weight : Score;
  ev_conditioned_score : Score;
  ev_raw_gain : Score;
  ev_weighted_gain : Score;
}.

#[global] Instance ConditionedEvidence_eq_dec : EqDecision ConditionedEvidence.
Proof. solve_decision. Defined.

Definition ConditionedEvidence_new (context_coordinate : ProjectContextCoordinate)
    (problem_score conditioned_score : Score) : ConditionedEvidence :=
  let context_kind_weight := context_kind_weight context_coordinate in
  let raw_gain := saturating_sub conditioned_score problem_score in
  let weighted_gain := mul_score context_kind_weight raw_gain in
  {| ev_context_coordinate := context_coordinate;
     ev_context_kind_weight := context_kind_weight;
     ev_conditioned_score := conditioned_score;
     ev_raw_gain := raw_gain;
     ev_weighted_gain := weighted_gain |}.

Record EnvironmentScoreExplanation : Type := mkEnvironmentScoreExplanation {
  env_conditioned_evidence : list ConditionedEvidence;
  env_highest_gain : Score;
  env_second_highest_gain : Score;
  env_environment_gain : Score;
}.

(** Coordinate ascending, then gain and conditioned score descending. *)
Definition evidence_cmp (left right : ConditionedEvidence) : comparison :=
  then_with (ProjectContextCoordinate_cmp left.(ev_context_coordinate) right.(ev_context_coordinate))
    (then_with (Score_cmp right.(ev_weighted_gain) left.(ev_weighted_gain))
               (Score_cmp right.(ev_conditioned_score) left.(ev_conditioned_score))).

(** Gain descending, then Coordinate ascending. *)
Definition gain_cmp (left right : ConditionedEvidence) : comparison :=
  then_with (Score_cmp right.(ev_weighted_gain) left.(ev_weighted_gain))
    (ProjectContextCoordinate_cmp left.(ev_context_coordinate) right.(ev_context_coordinate)).

Definition gain_of (item : option ConditionedEvidence) : Score :=
  match item with Some item => item.(ev_weighted_gain) | None => Score_ZERO end.

Definition environment_gain (evidence : list ConditionedEvidence) : EnvironmentScoreExplanation :=
  let evidence := sort_by evidence_cmp evidence in
  let evidence :=
    dedup_by (λ right left, bool_decide (right.(ev_context_coordinate) = left.(ev_context_coordinate)))
      evidence in
  let evidence := sort_by gain_cmp evidence in
  let highest_gain := gain_of (evidence !! 0) in
  let second_highest_gain := gain_of (evidence !! 1) in
  let environment_gain :=
    mkScore (as_u32 (N.min (u64_saturating_add (raw highest_gain)
                              (raw (mul_score W_SECOND_ENVIRONMENT second_highest_gain)))
                       SCORE_SCALE)) in
  {| env_conditioned_evidence := evidence;
     env_highest_gain := highest_gain;
     env_second_highest_gain := second_highest_gain;
     env_environment_gain := environment_gain |}.

End evidence.

(** ** Paths *)

Record PathScoreExplanation : Type := mkPathScoreExplanation {
  ps_root_score : option Score;
  ps_transition_scores : list Score;
  ps_discount_weights : list Score;
  ps_weighted_path_quality : option Score;
  ps_hop_penalty : Score;
  ps_final_score : option Score;
}.

#[global] Instance PathScoreExplanation_eq_dec : EqDecision PathScoreExplanation.
Proof. solve_decision. Defined.

(** The loop that pushes one weight per transition. *)
Fixpoint discounts (weight : Score) (transition_scores : list Score) : list Score :=
  match transition_scores with
  | [] => []
  | _ :: rest => weight :: discounts (mul_score weight DISCOUNT_FACTOR) rest
  end.

(** One iteration over the weighted transitions: numerator and denominator. *)
Definition add_transition (acc : N * N) (item : Score * Score) : result (N * N) ScoreError :=
  let '(numerator, denominator) := acc in
  let '(transition, discount) := item in
  let? numerator := ok_or (u128_checked_add numerator (raw transition * raw discount))
    ArithmeticOverflow in
  let? denominator := ok_or (u128_checked_add denominator (raw discount)) ArithmeticOverflow in
  Ok (numerator, denominator).

Definition path_score (root_score : option Score) (transition_scores : list Score)
  : result PathScoreExplanation ScoreError :=
  let discount_weights := discounts Score_ONE transition_scores in
  let? totals :=
    match root_score with
    | Some root =>
        let? numerator := ok_or (u128_checked_add 0 (raw root * SCORE_SCALE)) ArithmeticOverflow in
        let? denominator := ok_or (u128_checked_add 0 SCORE_SCALE) ArithmeticOverflow in
        Ok (numerator, denominator)
    | None => Ok (0, 0)%N
    end in
  let? totals := try_fold add_transition totals (zip transition_scores discount_weights) in
  let '(numerator, denominator) := totals in
  let weighted_path_quality :=
    if (denominator =? 0)%N then None
    else Some (mkScore (as_u32 (round_div numerator denominator))) in
  let hop_count := len transition_scores in
  let? penalty := ok_or (u128_checked_mul hop_count (raw HOP_PENALTY)) ArithmeticOverflow in
  let hop_penalty := mkScore (as_u32 (N.min penalty SCORE_SCALE)) in
  let final_score := (λ quality, saturating_sub quality hop_penalty) <$> weighted_path_quality in
  Ok {| ps_root_score := root_score;
        ps_transition_scores := transition_scores;
        ps_discount_weights := discount_weights;
        ps_weighted_path_quality := weighted_path_quality;
        ps_hop_penalty := hop_penalty;
        ps_final_score := final_score |}.

(** * Semantic query: source identities

    Models the part of [buzz-semantic/src/model.rs] that graph queries use:
    digests, source kinds and identities, currentness bases and lifecycle
    classes. *)


(** ** Digests *)

(** Thirty-two bytes. *)
Record Digest32 : Type := mkDigest32 { digest_bytes : list N }.

#[global] Instance Digest32_eq_dec : EqDecision Digest32.
Proof. solve_decision. Defined.

#[global] Instance Digest32_countable : Countable Digest32.
Proof. by apply (inj_countable' digest_bytes mkDigest32); intros []. Defined.

(** [(n as u64).to_be_bytes()] of a length *)
Definition len_to_be_bytes {A} (l : list A) : list N := be_bytes 8 (Z.of_N (len l)).

Section digest.
Context `{P : Platform}.

(** [Digest32::hash_domain] *)
Definition hash_domain (domain : list N) (parts : list (list N)) : Digest32 :=
  mkDigest32 (sha256 (len_to_be_bytes domain ++ domain
                      ++ concat ((λ part, len_to_be_bytes part ++ part) <$> parts))).

Definition Digest32_to_hex (self : Digest32) : Text := hex_encode self.(digest_bytes).

End digest.

(** ** Errors *)

Module SemanticError.
Inductive SemanticError : Type :=
| NilIdentity (field : string)
| BlankText (field : string)
| NulText (field : string)
| SourceBasisMismatch
| IneligibleSource
| InvalidRevision (field : string)
| InvalidModelContract (reason : string)
| EmbeddingDimensionMismatch (expected observed : N)
| NonFiniteEmbedding (index : N)
| ZeroNormEmbedding
| Serialization
| EncoderInputDigestMismatch
| ExternalProviderBoundary
| ProviderTransport
| ProviderRateLimited (retry_after_seconds : option N)
| ProviderRetryable (status : N)
| ProviderRejected (status : N)
| ProviderResponse.
End SemanticError.
Abbreviation SemanticError := SemanticError.SemanticError.

Definition SemanticError_to_string (self : SemanticError) : Text :=
  match self with
  | SemanticError.NilIdentity field => lit "semantic " ++ lit field ++ lit " must not be nil"
  | SemanticError.BlankText field => lit "semantic " ++ lit field ++ lit " must not be blank"
  | SemanticError.NulText field => lit "semantic " ++ lit field ++ lit " must not contain NUL"
  | SemanticError.SourceBasisMismatch =>
      lit "semantic source identity and basis families do not match"
  | SemanticError.IneligibleSource => lit "semantic source is ineligible for overview extraction"
  | SemanticError.InvalidRevision field => lit "semantic " ++ lit field ++ lit " must be positive"
  | SemanticError.InvalidModelContract reason =>
      lit "invalid semantic model contract: " ++ lit reason
  | SemanticError.EmbeddingDimensionMismatch expected observed =>
      lit "embedding dimension mismatch: expected " ++ fmt_u64 expected ++ lit ", observed "
      ++ fmt_u64 observed
  | SemanticError.NonFiniteEmbedding index =>
      lit "embedding contains a non-finite value at index " ++ fmt_u64 index
  | SemanticError.ZeroNormEmbedding => lit "embedding must have non-zero L2 norm"
  | SemanticError.Serialization => lit "semantic contract serialization failed"
  | SemanticError.EncoderInputDigestMismatch => lit "semantic encoder input digest mismatch"
  | SemanticError.ExternalProviderBoundary =>
      lit "semantic unit kind is not approved for the external provider boundary"
  | SemanticError.ProviderTransport => lit "semantic provider transport failed"
  | SemanticError.ProviderRateLimited _ => lit "semantic provider rate limited the request"
  | SemanticError.ProviderRetryable status =>
      lit "semantic provider returned retryable status " ++ fmt_u64 status
  | SemanticError.ProviderRejected status =>
      lit "semantic provider rejected request with status " ++ fmt_u64 status
  | SemanticError.ProviderResponse =>
      lit "semantic provider response violated the generation contract"
  end.

(** ** Sources *)

Module ProjectViewSemanticType.
Inductive ProjectViewSemanticType : Type :=
| ProjectProfile
| Goal
| Role
| Plan
| Stage
| Requirement
| Issue
| Work
| Resource.

#[global] Instance ProjectViewSemanticType_eq_dec : EqDecision ProjectViewSemanticType.
Proof. solve_decision. Defined.
End ProjectViewSemanticType.
Abbreviation ProjectViewSemanticType := ProjectViewSemanticType.ProjectViewSemanticType.

Module SemanticSourceKind.
Inductive SemanticSourceKind : Type :=
| ProjectView (subtype : ProjectViewSemanticType)
| ProjectDocument
| Meeting.

#[global] Instance SemanticSourceKind_eq_dec : EqDecision SemanticSourceKind.
Proof. solve_decision. Defined.
End SemanticSourceKind.
Abbreviation SemanticSourceKind := SemanticSourceKind.SemanticSourceKind.

Module SemanticLifecycleClass.
Inductive SemanticLifecycleClass : Type :=
| Active
| Finalizing
| Terminal
| Tombstone
| Deleted.

#[global] Instance SemanticLifecycleClass_eq_dec : EqDecision SemanticLifecycleClass.
Proof. solve_decision. Defined.
End SemanticLifecycleClass.
Abbreviation SemanticLifecycleClass := SemanticLifecycleClass.SemanticLifecycleClass.

Module SemanticCoverage.
Inductive SemanticCoverage : Type :=
| TitleOnly
| TitleAndSummary.

#[global] Instance SemanticCoverage_eq_dec : EqDecision SemanticCoverage.
Proof. solve_decision. Defined.
End SemanticCoverage.
Abbreviation SemanticCoverage := SemanticCoverage.SemanticCoverage.

Record ProjectViewSourceBasis : Type := mkProjectViewSourceBasis {
  pvb_schema_version : N;
  pvb_object_revision : N;
  pvb_source_change_id : Digest32;
}.

#[global] Instance ProjectViewSourceBasis_eq_dec : EqDecision ProjectViewSourceBasis.
Proof. solve_decision. Defined.

Record ProjectDocumentSourceBasis : Type := mkProjectDocumentSourceBasis {
  pdb_document_revision : N;
  pdb_source_change_id : Digest32;
}.

#[global] Instance ProjectDocumentSourceBasis_eq_dec : EqDecision ProjectDocumentSourceBasis.
Proof. solve_decision. Defined.

Record MeetingSourceBasis : Type := mkMeetingSourceBasis {
  mtb_create_event_id : Digest32;
  mtb_end_event_id : option Digest32;
}.

#[global] Instance MeetingSourceBasis_eq_dec : EqDecision MeetingSourceBasis.
Proof. solve_decision. Defined.

Module SemanticSourceBasis.
Inductive SemanticSourceBasis : Type :=
| ProjectView (basis : ProjectViewSourceBasis)
| ProjectDocument (basis : ProjectDocumentSourceBasis)
| Meeting (basis : MeetingSourceBasis).

#[global] Instance SemanticSourceBasis_eq_dec : EqDecision SemanticSourceBasis.
Proof. solve_decision. Defined.
End SemanticSourceBasis.
Abbreviation SemanticSourceBasis := SemanticSourceBasis.SemanticSourceBasis.

Section identity.
Context `{P : Platform}.

Record SemanticSourceIdentity : Type := mkSemanticSourceIdentity {
  src_community_id : Uuid;
  src_kind : SemanticSourceKind;
  src_source_id : Uuid;
}.

#[global] Instance SemanticSourceIdentity_eq_dec : EqDecision SemanticSourceIdentity.
Proof. solve_decision. Defined.

Definition SemanticSourceIdentity_validate (self : SemanticSourceIdentity)
  : result unit SemanticError :=
  reject_if (Uuid_is_nil self.(src_community_id)) (SemanticError.NilIdentity "community_id") ?;
  reject_if (Uuid_is_nil self.(src_source_id)) (SemanticError.NilIdentity "source_id") ?;
  Ok tt.

End identity.

(** [SemanticSourceBasis::validate_for] *)
Definition SemanticSourceBasis_validate_for (self : SemanticSourceBasis) (kind : SemanticSourceKind)
  : result unit SemanticError :=
  match self, kind with
  | SemanticSourceBasis.ProjectView basis, SemanticSourceKind.ProjectView _ =>
      reject_if (basis.(pvb_schema_version) =? 0)%N (SemanticError.InvalidRevision "schema_version") ?;
      reject_if (basis.(pvb_object_revision) =? 0)%N (SemanticError.InvalidRevision "object_revision") ?;
      Ok tt
  | SemanticSourceBasis.ProjectDocument basis, SemanticSourceKind.ProjectDocument =>
      reject_if (basis.(pdb_document_revision) =? 0)%N
        (SemanticError.InvalidRevision "document_revision") ?;
      Ok tt
  | SemanticSourceBasis.Meeting _, SemanticSourceKind.Meeting => Ok tt
  | _, _ => Err SemanticError.SourceBasisMismatch
  end.

(** * Semantic query: the request

    Models [buzz-semantic-query/src/contract.rs]: the budget and its hard caps,
    the request and its canonical form, and the errors of the crate. *)


(** ** Limits *)

Definition MAX_QUERY_REQUEST_BYTES : N := 65536.
Definition MAX_PROBLEM_BYTES : N := 16384.
Definition MAX_INITIAL_COORDINATES : N := 16.
Definition MAX_CONTEXT_COORDINATES : N := 8.
Definition MAX_QUERY_CHANNELS : N := (1 + MAX_CONTEXT_COORDINATES)%N.
Definition MAX_PROVIDER_QUERY_INPUT_BYTES : N := 65536.
Definition MAX_RECALL_PER_CHANNEL : N := 256.
Definition MAX_SEMANTIC_ROOTS : N := 16.
Definition MAX_HOPS_PER_PATH : N := 6.
Definition MAX_BEAM_WIDTH : N := 32.
Definition MAX_EXPANDED_COORDINATES : N := 512.
Definition MAX_INCIDENT_EDGES_MATERIALIZED : N := 1024.
Definition MAX_RELATION_OPTIONS_MATERIALIZED : N := 2048.
Definition MAX_TARGET_OPTIONS_MATERIALIZED : N := 4096.
Definition MAX_PATHS : N := 64.
Definition MAX_WALL_TIME_MS : N := 180000.
Definition MAX_RESPONSE_BYTES : N := 262144.
Definition MAX_TRUNCATION_SAMPLES : N := 32.

(** ** Errors *)

Module SemanticGraphQueryError.
Inductive SemanticGraphQueryError : Type :=
| RequestTooLarge (observed maximum : N)
| InvalidJson (reason : Text)
| InvalidUuid (field : string)
| BlankProblem
| NulText (field : string)
| ProblemTooLarge (observed maximum : N)
| TooManyCoordinates (field : string) (observed maximum : N)
| InvalidCoordinate (field : string) (reason : Text)
| BudgetOutOfRange (field : string) (value hard_cap : N)
| ProviderInputTooLarge (observed maximum : N)
| InvalidScore (reason : Text)
| InvalidState (reason : Text)
| Serialization
| ProviderTransport
| ProviderRateLimited (retry_after_seconds : option N)
| ProviderRetryable (status : N)
| ProviderRejected (status : N)
| ProviderResponse.

#[global] Instance SemanticGraphQueryError_eq_dec : EqDecision SemanticGraphQueryError.
Proof. solve_decision. Defined.
End SemanticGraphQueryError.
Abbreviation SemanticGraphQueryError := SemanticGraphQueryError.SemanticGraphQueryError.
Abbreviation QueryContractResult T := (result T SemanticGraphQueryError).

Definition SemanticGraphQueryError_to_string (self : SemanticGraphQueryError) : Text :=
  match self with
  | SemanticGraphQueryError.RequestTooLarge observed maximum =>
      lit "semantic graph query request is " ++ fmt_u64 observed ++ lit " bytes; maximum is "
      ++ fmt_u64 maximum
  | SemanticGraphQueryError.InvalidJson reason =>
      lit "invalid semantic graph query JSON: " ++ reason
  | SemanticGraphQueryError.InvalidUuid field =>
      lit "semantic graph query " ++ lit field ++ lit " must be UUIDv4"
  | SemanticGraphQueryError.BlankProblem => lit "semantic graph query problem must not be blank"
  | SemanticGraphQueryError.NulText field =>
      lit "semantic graph query " ++ lit field ++ lit " must not contain NUL"
  | SemanticGraphQueryError.ProblemTooLarge observed maximum =>
      lit "semantic graph query problem is " ++ fmt_u64 observed ++ lit " bytes; maximum is "
      ++ fmt_u64 maximum
  | SemanticGraphQueryError.TooManyCoordinates field observed maximum =>
      lit "semantic graph query " ++ lit field ++ lit " has " ++ fmt_u64 observed
      ++ lit " entries; maximum is " ++ fmt_u64 maximum
  | SemanticGraphQueryError.InvalidCoordinate field reason =>
      lit "invalid semantic graph query " ++ lit field ++ lit ": " ++ reason
  | SemanticGraphQueryError.BudgetOutOfRange field value hard_cap =>
      lit "semantic graph query " ++ lit field ++ lit "=" ++ fmt_u64 value
      ++ lit " is outside 1..=" ++ fmt_u64 hard_cap
  | SemanticGraphQueryError.ProviderInputTooLarge observed maximum =>
      lit "semantic graph query Provider input is " ++ fmt_u64 observed
      ++ lit " bytes; maximum is " ++ fmt_u64 maximum
  | SemanticGraphQueryError.InvalidScore reason =>
      lit "invalid semantic graph query score: " ++ reason
  | SemanticGraphQueryError.InvalidState reason =>
      lit "invalid semantic graph query state: " ++ reason
  | SemanticGraphQueryError.Serialization =>
      lit "semantic graph query contract serialization failed"
  | SemanticGraphQueryError.ProviderTransport =>
      lit "semantic graph query Provider transport failed"
  | SemanticGraphQueryError.ProviderRateLimited _ =>
      lit "semantic graph query Provider rate limited the request"
  | SemanticGraphQueryError.ProviderRetryable status =>
      lit "semantic graph query Provider returned retryable status " ++ fmt_u64 status
  | SemanticGraphQueryError.ProviderRejected status =>
      lit "semantic graph query Provider rejected request with status " ++ fmt_u64 status
  | SemanticGraphQueryError.ProviderResponse =>
      lit "semantic graph query Provider response violated its closed contract"
  end.

Definition ScoreError_to_string (self : ScoreError) : Text :=
  match self with
  | OutOfRange value => lit "score " ++ fmt_u64 value ++ lit " exceeds " ++ fmt_u64 SCORE_SCALE
  | NonFiniteDistance => lit "cosine distance must be finite"
  | ArithmeticOverflow => lit "fixed-point score arithmetic overflow"
  end.

(** [SemanticGraphQueryError::InvalidState(message.to_owned())] *)
Definition query_state_error (message : string) : SemanticGraphQueryError :=
  SemanticGraphQueryError.InvalidState (lit message).

(** ** Lifecycle filter and budget *)

Module LifecycleFilter.
Inductive LifecycleFilter : Type :=
| AllCurrent
| NonTerminal
| TerminalOnly.

#[global] Instance LifecycleFilter_eq_dec : EqDecision LifecycleFilter.
Proof. solve_decision. Defined.
End LifecycleFilter.
Abbreviation LifecycleFilter := LifecycleFilter.LifecycleFilter.

Record SemanticGraphQueryBudget : Type := mkSemanticGraphQueryBudget {
  max_recall_per_channel : N;
  max_semantic_roots : N;
  max_hops_per_path : N;
  beam_width : N;
  max_expanded_coordinates : N;
  max_incident_edges_materialized : N;
  max_relation_options_materialized : N;
  max_target_options_materialized : N;
  max_paths : N;
  max_wall_time_ms : N;
  max_response_bytes : N;
}.

#[global] Instance SemanticGraphQueryBudget_eq_dec : EqDecision SemanticGraphQueryBudget.
Proof. solve_decision. Defined.

Definition DEFAULT_QUERY_BUDGET : SemanticGraphQueryBudget := {|
  max_recall_per_channel := 64;
  max_semantic_roots := 6;
  max_hops_per_path := 3;
  beam_width := 8;
  max_expanded_coordinates := 64;
  max_incident_edges_materialized := 96;
  max_relation_options_materialized := 128;
  max_target_options_materialized := 192;
  max_paths := 12;
  max_wall_time_ms := 180000;
  max_response_bytes := 131072;
|}%N.

Definition validate_cap (field : string) (value hard_cap : N) : QueryContractResult unit :=
  reject_if ((value =? 0) || (hard_cap <? value))%N
    (SemanticGraphQueryError.BudgetOutOfRange field value hard_cap) ?;
  Ok tt.

Definition SemanticGraphQueryBudget_validate (self : SemanticGraphQueryBudget)
  : QueryContractResult unit :=
  validate_cap "max_recall_per_channel" self.(max_recall_per_channel) MAX_RECALL_PER_CHANNEL ?;
  validate_cap "max_semantic_roots" self.(max_semantic_roots) MAX_SEMANTIC_ROOTS ?;
  validate_cap "max_hops_per_path" self.(max_hops_per_path) MAX_HOPS_PER_PATH ?;
  validate_cap "beam_width" self.(beam_width) MAX_BEAM_WIDTH ?;
  validate_cap "max_expanded_coordinates" self.(max_expanded_coordinates) MAX_EXPANDED_COORDINATES ?;
  validate_cap "max_incident_edges_materialized" self.(max_incident_edges_materialized)
    MAX_INCIDENT_EDGES_MATERIALIZED ?;
  validate_cap "max_relation_options_materialized" self.(max_relation_options_materialized)
    MAX_RELATION_OPTIONS_MATERIALIZED ?;
  validate_cap "max_target_options_materialized" self.(max_target_options_materialized)
    MAX_TARGET_OPTIONS_MATERIALIZED ?;
  validate_cap "max_paths" self.(max_paths) MAX_PATHS ?;
  validate_cap "max_wall_time_ms" self.(max_wall_time_ms) MAX_WALL_TIME_MS ?;
  validate_cap "max_response_bytes" self.(max_response_bytes) MAX_RESPONSE_BYTES ?;
  Ok tt.

(** ** Requests *)

(** [value.as_bytes().contains(&0)] *)
Definition has_nul_byte (value : Text) : bool := existsb (N.eqb 0) (str_as_bytes value).

Section query.
Context `{P : Platform}.

Definition ProjectContextError_to_string (self : ProjectContextError) : Text :=
  match self with
  | ProjectContextError.InvalidJson reason => lit "invalid Project Context JSON: " ++ reason
  | ProjectContextError.ContentTooLarge max actual =>
      lit "Project Context command exceeds " ++ fmt_u64 max ++ lit " UTF-8 bytes (got "
      ++ fmt_u64 actual ++ lit ")"
  | ProjectContextError.JsonTooDeep max actual =>
      lit "Project Context JSON nesting exceeds " ++ fmt_u64 max ++ lit " (got " ++ fmt_u64 actual
      ++ lit ")"
  | ProjectContextError.UnsupportedSchemaVersion got supported =>
      lit "unsupported Project Context schema version " ++ fmt_u64 got
      ++ lit "; supported version is " ++ fmt_u64 supported
  | ProjectContextError.InvalidCoordinate reason =>
      lit "invalid Project Context coordinate: " ++ reason
  | ProjectContextError.DuplicateCoordinate => lit "duplicate Project Context coordinate"
  | ProjectContextError.TooFewCoordinates minimum actual =>
      lit "Project Context edge requires at least " ++ fmt_u64 minimum ++ lit " coordinates (got "
      ++ fmt_u64 actual ++ lit ")"
  | ProjectContextError.NonCanonicalCoordinates =>
      lit "Project Context coordinates are not in canonical order"
  | ProjectContextError.InvalidDocumentId document_id =>
      lit "context document id " ++ Uuid_display document_id ++ lit " must be an RFC 4122 UUID v4"
  | ProjectContextError.InvalidEdgeKey reason => lit "invalid Project Context edge key: " ++ reason
  | ProjectContextError.InvalidRevision reason =>
      lit "invalid Project Context revision or count: " ++ reason
  | ProjectContextError.InvalidRuntimeFence reason =>
      lit "invalid managed runtime fence: " ++ reason
  | ProjectContextError.InvalidProjection reason =>
      lit "invalid Project Context projection: " ++ reason
  | ProjectContextError.ProjectionTooLarge max actual =>
      lit "Project Context projection exceeds " ++ fmt_u64 max ++ lit " UTF-8 bytes (got "
      ++ fmt_u64 actual ++ lit ")"
  | ProjectContextError.RevisionConflict expected actual =>
      lit "Project Context revision conflict: expected " ++ fmt_u64 expected ++ lit ", current "
      ++ fmt_u64 actual
  | ProjectContextError.InactiveCoordinate =>
      lit "Project Context attach contains an inactive coordinate"
  | ProjectContextError.InactiveContextDocument document_id =>
      lit "Project Context document " ++ Uuid_display document_id ++ lit " is not active"
  | ProjectContextError.DocumentAlreadyBound document_id edge_key =>
      lit "Project Context document " ++ Uuid_display document_id
      ++ lit " is already bound to edge " ++ EdgeKey_to_hex edge_key
  | ProjectContextError.NoChange =>
      lit "Project Context attach does not change the active binding"
  | ProjectContextError.BindingNotFound document_id =>
      lit "Project Context document " ++ Uuid_display document_id ++ lit " is not actively bound"
  | ProjectContextError.BindingEdgeMismatch document_id actual_edge_key =>
      lit "Project Context document " ++ Uuid_display document_id
      ++ lit " is bound to another edge " ++ EdgeKey_to_hex actual_edge_key
  | ProjectContextError.RevisionExhausted => lit "Project Context revision space is exhausted"
  | ProjectContextError.InvalidCanonicalState reason =>
      lit "invalid canonical Project Context state: " ++ reason
  end.

Record SemanticGraphQuery : Type := mkSemanticGraphQuery {
  qry_request_id : Uuid;
  qry_project_id : Uuid;
  qry_problem : Text;
  qry_initial_coordinates : list ProjectContextCoordinate;
  qry_context_coordinates : list ProjectContextCoordinate;
  qry_lifecycle_filter : LifecycleFilter;
  qry_budget : SemanticGraphQueryBudget;
}.

#[global] Instance SemanticGraphQuery_eq_dec : EqDecision SemanticGraphQuery.
Proof. solve_decision. Defined.

(** [validate_uuid_v4] of this crate, which does not look at the variant. *)
Definition query_validate_uuid_v4 (value : Uuid) (field : string) : QueryContractResult unit :=
  reject_if (Uuid_is_nil value || negb (Uuid_get_version_num value =? 4)%N)
    (SemanticGraphQueryError.InvalidUuid field) ?;
  Ok tt.

Definition canonicalize_query_coordinates (project_id : Uuid) (field : string)
    (coordinates : list ProjectContextCoordinate)
  : QueryContractResult (list ProjectContextCoordinate) :=
  for_each (λ coordinate,
              map_err (λ error, SemanticGraphQueryError.InvalidCoordinate field
                                  (ProjectContextError_to_string error))
                (ProjectContextCoordinate_validate_for_project coordinate project_id)) coordinates ?;
  let coordinates := sort_by ProjectContextCoordinate_cmp coordinates in
  Ok (dedup_by (λ a b, bool_decide (a = b)) coordinates).

Definition validate_and_canonicalize (self : SemanticGraphQuery)
  : QueryContractResult SemanticGraphQuery :=
  query_validate_uuid_v4 self.(qry_request_id) "request_id" ?;
  query_validate_uuid_v4 self.(qry_project_id) "project_id" ?;
  let problem := trim self.(qry_problem) in
  reject_if (is_empty problem) SemanticGraphQueryError.BlankProblem ?;
  reject_if (has_nul_byte problem) (SemanticGraphQueryError.NulText "problem") ?;
  reject_if (MAX_PROBLEM_BYTES <? str_len problem)%N
    (SemanticGraphQueryError.ProblemTooLarge (str_len problem) MAX_PROBLEM_BYTES) ?;
  reject_if (MAX_INITIAL_COORDINATES <? len self.(qry_initial_coordinates))%N
    (SemanticGraphQueryError.TooManyCoordinates "initial_coordinates"
       (len self.(qry_initial_coordinates)) MAX_INITIAL_COORDINATES) ?;
  reject_if (MAX_CONTEXT_COORDINATES <? len self.(qry_context_coordinates))%N
    (SemanticGraphQueryError.TooManyCoordinates "context_coordinates"
       (len self.(qry_context_coordinates)) MAX_CONTEXT_COORDINATES) ?;
  let? initial_coordinates :=
    canonicalize_query_coordinates self.(qry_project_id) "initial_coordinates"
      self.(qry_initial_coordinates) in
  let? context_coordinates :=
    canonicalize_query_coordinates self.(qry_project_id) "context_coordinates"
      self.(qry_context_coordinates) in
  SemanticGraphQueryBudget_validate self.(qry_budget) ?;
  Ok {| qry_request_id := self.(qry_request_id);
        qry_project_id := self.(qry_project_id);
        qry_problem := problem;
        qry_initial_coordinates := initial_coordinates;
        qry_context_coordinates := context_coordinates;
        qry_lifecycle_filter := self.(qry_lifecycle_filter);
        qry_budget := self.(qry_budget) |}.

(** [SemanticGraphQuery::parse_json], over the derived deserializer. *)
Definition SemanticGraphQuery_parse_json (from_slice : list N → result SemanticGraphQuery Text)
    (bytes : list N) : QueryContractResult SemanticGraphQuery :=
  reject_if (MAX_QUERY_REQUEST_BYTES <? len bytes)%N
    (SemanticGraphQueryError.RequestTooLarge (len bytes) MAX_QUERY_REQUEST_BYTES) ?;
  let? query := map_err SemanticGraphQueryError.InvalidJson (from_slice bytes) in
  validate_and_canonicalize query.

End query.
