(* ===== verification/SemanticResult.v ===== *)
(** * Semantic query: the result

    Models the types of [buzz-semantic-query/src/result.rs].  Fields that several
    structs share carry a prefix. *)

From stdpp Require Import prelude strings countable.
From S2P Require Import Prelude Text Platform ContextCoordinate.
From S2P Require Import SemanticModel.

(** ** Sets of Coordinates *)

#[global] Instance ProjectViewObjectType_countable : Countable ProjectViewObjectType.
Proof.
  refine (inj_countable' object_type_rank (λ n, match n with
    | 0 => ProjectViewObjectType.ProjectProfile
    | 1 => ProjectViewObjectType.Goal
    | 2 => ProjectViewObjectType.Role
    | 3 => ProjectViewObjectType.Plan
    | 4 => ProjectViewObjectType.Stage
    | 5 => ProjectViewObjectType.Requirement
    | 6 => ProjectViewObjectType.Issue
    | 7 => ProjectViewObjectType.Work
    | _ => ProjectViewObjectType.Resource
    end%N) _).
  by intros [].
Defined.

#[global] Instance ProjectContextCoordinate_countable `{P : Platform} : Countable ProjectContextCoordinate.
Proof.
  refine (inj_countable' (λ c, match c with
    | ProjectContextCoordinate.ProjectViewObject object_type id => inl (object_type, id)
    | ProjectContextCoordinate.Document id => inr (inl id)
    | ProjectContextCoordinate.Meeting id => inr (inr id)
    end) (λ s, match s with
    | inl (object_type, id) => ProjectContextCoordinate.ProjectViewObject object_type id
    | inr (inl id) => ProjectContextCoordinate.Document id
    | inr (inr id) => ProjectContextCoordinate.Meeting id
    end) _).
  by intros [].
Defined.

(** ** Invariants and errors *)

Module SemanticGraphResultInvariant.
Inductive SemanticGraphResultInvariant : Type :=
| CoveragePartition
| CoverageBounds
| Completion
| RootContract
| RootPreview
| DuplicateRoot
| MissingPathRoot
| DuplicatePath
| ReturnedCounts
| RequestContract
| RequestIdentity
| ContractDigest
| InputObservations
| QueryChannels
| RootEvidence
| BudgetAutomaticRoots
| BudgetSelectedRoots
| BudgetNeutralCandidates
| BudgetConditionedCandidates
| BudgetExpandedCoordinates
| BudgetIncidentEdges
| BudgetRelationOptions
| BudgetTargetOptions
| BudgetPathsRetained
| BudgetReturnedPaths
| BudgetPathHops
| PathIdentity
| PathEntrypoint
| PathContiguity
| PathRepeatedEdge
| PathRepeatedCoordinate
| EnteredCoordinateMembership
| MissingEnteredCoordinate
| ContinuedCoordinateMembership
| HopContract
| HopPreview
| HopProvenance
| PathScore.

#[global] Instance SemanticGraphResultInvariant_eq_dec : EqDecision SemanticGraphResultInvariant.
Proof. solve_decision. Defined.
End SemanticGraphResultInvariant.
Abbreviation SemanticGraphResultInvariant := SemanticGraphResultInvariant.SemanticGraphResultInvariant.

Definition SemanticGraphResultInvariant_as_str (self : SemanticGraphResultInvariant) : string :=
  match self with
  | SemanticGraphResultInvariant.CoveragePartition => "coverage_partition"
  | SemanticGraphResultInvariant.CoverageBounds => "coverage_bounds"
  | SemanticGraphResultInvariant.Completion => "completion"
  | SemanticGraphResultInvariant.RootContract => "root_contract"
  | SemanticGraphResultInvariant.RootPreview => "root_preview"
  | SemanticGraphResultInvariant.DuplicateRoot => "duplicate_root"
  | SemanticGraphResultInvariant.MissingPathRoot => "missing_path_root"
  | SemanticGraphResultInvariant.DuplicatePath => "duplicate_path"
  | SemanticGraphResultInvariant.ReturnedCounts => "returned_counts"
  | SemanticGraphResultInvariant.RequestContract => "request_contract"
  | SemanticGraphResultInvariant.RequestIdentity => "request_identity"
  | SemanticGraphResultInvariant.ContractDigest => "contract_digest"
  | SemanticGraphResultInvariant.InputObservations => "input_observations"
  | SemanticGraphResultInvariant.QueryChannels => "query_channels"
  | SemanticGraphResultInvariant.RootEvidence => "root_evidence"
  | SemanticGraphResultInvariant.BudgetAutomaticRoots => "budget_automatic_roots"
  | SemanticGraphResultInvariant.BudgetSelectedRoots => "budget_selected_roots"
  | SemanticGraphResultInvariant.BudgetNeutralCandidates => "budget_neutral_candidates"
  | SemanticGraphResultInvariant.BudgetConditionedCandidates => "budget_conditioned_candidates"
  | SemanticGraphResultInvariant.BudgetExpandedCoordinates => "budget_expanded_coordinates"
  | SemanticGraphResultInvariant.BudgetIncidentEdges => "budget_incident_edges"
  | SemanticGraphResultInvariant.BudgetRelationOptions => "budget_relation_options"
  | SemanticGraphResultInvariant.BudgetTargetOptions => "budget_target_options"
  | SemanticGraphResultInvariant.BudgetPathsRetained => "budget_paths_retained"
  | SemanticGraphResultInvariant.BudgetReturnedPaths => "budget_returned_paths"
  | SemanticGraphResultInvariant.BudgetPathHops => "budget_path_hops"
  | SemanticGraphResultInvariant.PathIdentity => "path_identity"
  | SemanticGraphResultInvariant.PathEntrypoint => "path_entrypoint"
  | SemanticGraphResultInvariant.PathContiguity => "path_contiguity"
  | SemanticGraphResultInvariant.PathRepeatedEdge => "path_repeated_edge"
  | SemanticGraphResultInvariant.PathRepeatedCoordinate => "path_repeated_coordinate"
  | SemanticGraphResultInvariant.EnteredCoordinateMembership => "entered_coordinate_membership"
  | SemanticGraphResultInvariant.MissingEnteredCoordinate => "missing_entered_coordinate"
  | SemanticGraphResultInvariant.ContinuedCoordinateMembership => "continued_coordinate_membership"
  | SemanticGraphResultInvariant.HopContract => "hop_contract"
  | SemanticGraphResultInvariant.HopPreview => "hop_preview"
  | SemanticGraphResultInvariant.HopProvenance => "hop_provenance"
  | SemanticGraphResultInvariant.PathScore => "path_score"
  end.

Record SemanticGraphResultValidationError : Type := mkValidationError {
  err_invariant : SemanticGraphResultInvariant;
  err_detail : Text;
}.

Abbreviation ValidationResult A := (result A SemanticGraphResultValidationError).

(** [SemanticGraphResultValidationError::new] *)
Definition validation_error (invariant : SemanticGraphResultInvariant) (detail : string)
  : SemanticGraphResultValidationError := mkValidationError invariant (lit detail).

Definition from_contract (invariant : SemanticGraphResultInvariant) (error : SemanticGraphQueryError)
  : SemanticGraphResultValidationError :=
  mkValidationError invariant (SemanticGraphQueryError_to_string error).

Definition into_contract_error (self : SemanticGraphResultValidationError) : SemanticGraphQueryError :=
  SemanticGraphQueryError.InvalidState self.(err_detail).

(** ** Closed enumerations *)

Module OmittedInitialCoordinateReason.
Inductive OmittedInitialCoordinateReason : Type :=
| SourceNotFound
| SourceDeleted
| SourceTombstoned
| SourceIneligible.

#[global] Instance OmittedInitialCoordinateReason_eq_dec : EqDecision OmittedInitialCoordinateReason.
Proof. solve_decision. Defined.
End OmittedInitialCoordinateReason.
Abbreviation OmittedInitialCoordinateReason := OmittedInitialCoordinateReason.OmittedInitialCoordinateReason.

Module OmittedContextCoordinateReason.
Inductive OmittedContextCoordinateReason : Type :=
| SourceNotFound
| SourceIneligible
| SemanticHeadMissing
| SemanticHeadBuilding
| SemanticHeadFailed
| ConditionedInputUnsupported.

#[global] Instance OmittedContextCoordinateReason_eq_dec : EqDecision OmittedContextCoordinateReason.
Proof. solve_decision. Defined.
End OmittedContextCoordinateReason.
Abbreviation OmittedContextCoordinateReason := OmittedContextCoordinateReason.OmittedContextCoordinateReason.

Module SummaryOmittedReason.
Inductive SummaryOmittedReason : Type :=
| ResponseBudget.

#[global] Instance SummaryOmittedReason_eq_dec : EqDecision SummaryOmittedReason.
Proof. solve_decision. Defined.
End SummaryOmittedReason.
Abbreviation SummaryOmittedReason := SummaryOmittedReason.SummaryOmittedReason.

Module SemanticScoreRole.
Inductive SemanticScoreRole : Type :=
| Candidate
| RelationRoot
| RelationDocument
| TargetCoordinate
| Transition.

#[global] Instance SemanticScoreRole_eq_dec : EqDecision SemanticScoreRole.
Proof. solve_decision. Defined.
End SemanticScoreRole.
Abbreviation SemanticScoreRole := SemanticScoreRole.SemanticScoreRole.

Module ScorePenaltyKind.
Inductive ScorePenaltyKind : Type :=
| Hop.

#[global] Instance ScorePenaltyKind_eq_dec : EqDecision ScorePenaltyKind.
Proof. solve_decision. Defined.
End ScorePenaltyKind.
Abbreviation ScorePenaltyKind := ScorePenaltyKind.ScorePenaltyKind.

Module BranchStopReason.
Inductive BranchStopReason : Type :=
| FrontierExhausted
| BelowRelevanceThreshold
| CycleOrDuplicate
| MaxHopsReached
| HyperedgeTooLarge
| GlobalBudgetExhausted
| WallTimeExhausted.

#[global] Instance BranchStopReason_eq_dec : EqDecision BranchStopReason.
Proof. solve_decision. Defined.
End BranchStopReason.
Abbreviation BranchStopReason := BranchStopReason.BranchStopReason.

Definition BranchStopReason_precedence (self : BranchStopReason) : N :=
  match self with
  | BranchStopReason.WallTimeExhausted => 0
  | BranchStopReason.GlobalBudgetExhausted => 1
  | BranchStopReason.HyperedgeTooLarge => 2
  | BranchStopReason.MaxHopsReached => 3
  | BranchStopReason.CycleOrDuplicate => 4
  | BranchStopReason.BelowRelevanceThreshold => 5
  | BranchStopReason.FrontierExhausted => 6
  end%N.

Module CompletionReason.
Inductive CompletionReason : Type :=
| FrontierExhausted
| BudgetExhausted
| WallTimeExhausted.

#[global] Instance CompletionReason_eq_dec : EqDecision CompletionReason.
Proof. solve_decision. Defined.
End CompletionReason.
Abbreviation CompletionReason := CompletionReason.CompletionReason.

Module ExhaustedDimension.
Inductive ExhaustedDimension : Type :=
| RecallPerChannel
| SemanticRoots
| HopsPerPath
| BeamWidth
| ExpandedCoordinates
| IncidentEdgesMaterialized
| RelationOptionsMaterialized
| TargetOptionsMaterialized
| Paths
| ResponseBytes.

#[global] Instance ExhaustedDimension_eq_dec : EqDecision ExhaustedDimension.
Proof. solve_decision. Defined.
End ExhaustedDimension.
Abbreviation ExhaustedDimension := ExhaustedDimension.ExhaustedDimension.

(** The derived [Ord]: declaration order. *)
Definition ExhaustedDimension_index (self : ExhaustedDimension) : N :=
  match self with
  | ExhaustedDimension.RecallPerChannel => 0
  | ExhaustedDimension.SemanticRoots => 1
  | ExhaustedDimension.HopsPerPath => 2
  | ExhaustedDimension.BeamWidth => 3
  | ExhaustedDimension.ExpandedCoordinates => 4
  | ExhaustedDimension.IncidentEdgesMaterialized => 5
  | ExhaustedDimension.RelationOptionsMaterialized => 6
  | ExhaustedDimension.TargetOptionsMaterialized => 7
  | ExhaustedDimension.Paths => 8
  | ExhaustedDimension.ResponseBytes => 9
  end%N.

(** ** Counters *)

Record EmbeddingCoverageCounts : Type := mkEmbeddingCoverageCounts {
  cov_current : N;
  cov_missing : N;
  cov_building : N;
  cov_failed : N;
  cov_unsupported : N;
  cov_non_queryable_zero_vector : N;
}.

#[global] Instance EmbeddingCoverageCounts_eq_dec : EqDecision EmbeddingCoverageCounts.
Proof. solve_decision. Defined.

Record OmittedContextChannelCounts : Type := mkOmittedContextChannelCounts {
  omc_source_not_found : N;
  omc_source_ineligible : N;
  omc_semantic_head_missing : N;
  omc_semantic_head_building : N;
  omc_semantic_head_failed : N;
  omc_conditioned_input_unsupported : N;
}.

#[global] Instance OmittedContextChannelCounts_eq_dec : EqDecision OmittedContextChannelCounts.
Proof. solve_decision. Defined.

Definition OmittedContextChannelCounts_default : OmittedContextChannelCounts :=
  mkOmittedContextChannelCounts 0 0 0 0 0 0.

Record OmittedForResponseBudgetCounts : Type := mkOmittedForResponseBudgetCounts {
  omr_automatic_roots : N;
  omr_paths : N;
  omr_summaries : N;
}.

#[global] Instance OmittedForResponseBudgetCounts_eq_dec : EqDecision OmittedForResponseBudgetCounts.
Proof. solve_decision. Defined.

Record TruncationCountsByDimension : Type := mkTruncationCountsByDimension {
  trc_recall_per_channel : N;
  trc_semantic_roots : N;
  trc_hops_per_path : N;
  trc_beam_width : N;
  trc_expanded_coordinates : N;
  trc_incident_edges_materialized : N;
  trc_relation_options_materialized : N;
  trc_target_options_materialized : N;
  trc_paths : N;
  trc_response_bytes : N;
}.

#[global] Instance TruncationCountsByDimension_eq_dec : EqDecision TruncationCountsByDimension.
Proof. solve_decision. Defined.

Record DegradedModeCounts : Type := mkDegradedModeCounts {
  dgr_relation_embedding_missing : N;
  dgr_target_embedding_missing : N;
  dgr_index_coverage_partial : N;
  dgr_summary_omitted_for_response_budget : N;
  dgr_hyperedge_too_large : N;
}.

#[global] Instance DegradedModeCounts_eq_dec : EqDecision DegradedModeCounts.
Proof. solve_decision. Defined.

(** ** Provenance and previews *)

Record SemanticSourcePreview : Type := mkSemanticSourcePreview {
  prv_title : Text;
  prv_summary : option Text;
  prv_summary_omitted_reason : option SummaryOmittedReason;
}.

#[global] Instance SemanticSourcePreview_eq_dec : EqDecision SemanticSourcePreview.
Proof. solve_decision. Defined.

Record CanonicalSourceProvenance : Type := mkCanonicalSourceProvenance {
  cpr_source_basis : SemanticSourceBasis;
  cpr_source_invalidation_epoch : N;
  cpr_source_snapshot_digest : Digest32;
  cpr_summary_coverage : SemanticCoverage;
}.

#[global] Instance CanonicalSourceProvenance_eq_dec : EqDecision CanonicalSourceProvenance.
Proof. solve_decision. Defined.

Record ProjectContextEdgeProvenance : Type := mkProjectContextEdgeProvenance {
  epr_last_context_revision : N;
  epr_source_change_id : Digest32;
}.

#[global] Instance ProjectContextEdgeProvenance_eq_dec : EqDecision ProjectContextEdgeProvenance.
Proof. solve_decision. Defined.

Record ProjectContextBindingProvenance : Type := mkProjectContextBindingProvenance {
  bpr_binding_context_revision : N;
  bpr_source_change_id : Digest32;
  bpr_projection_event_id : Digest32;
}.

#[global] Instance ProjectContextBindingProvenance_eq_dec : EqDecision ProjectContextBindingProvenance.
Proof. solve_decision. Defined.

Record CurrentGraphMembershipObservation : Type := mkCurrentGraphMembershipObservation {
  gmo_context_revision : N;
  gmo_incident_edge_keys : list EdgeKey;
}.

#[global] Instance CurrentGraphMembershipObservation_eq_dec : EqDecision CurrentGraphMembershipObservation.
Proof. solve_decision. Defined.

Record ScorePenalty : Type := mkScorePenalty {
  pen_kind : ScorePenaltyKind;
  pen_amount : Score;
}.

#[global] Instance ScorePenalty_eq_dec : EqDecision ScorePenalty.
Proof. solve_decision. Defined.

Section result.
Context `{P : Platform}.

Record SemanticProvenance : Type := mkSemanticProvenance {
  spr_generation_id : Uuid;
  spr_unit_key : Text;
  spr_source_snapshot_digest : Digest32;
  spr_source_generation_contract_digest : Digest32;
  spr_embedding_space_fence : Digest32;
}.

#[global] Instance SemanticProvenance_eq_dec : EqDecision SemanticProvenance.
Proof. solve_decision. Defined.

Record SemanticHeadProvenance : Type := mkSemanticHeadProvenance {
  hpr_generation_id : Uuid;
  hpr_unit_key : Text;
  hpr_snapshot_digest : Digest32;
}.

#[global] Instance SemanticHeadProvenance_eq_dec : EqDecision SemanticHeadProvenance.
Proof. solve_decision. Defined.

Inductive SemanticHeadState : Type :=
| HeadCurrent (provenance : SemanticHeadProvenance)
| HeadMissing
| HeadBuilding
| HeadFailed
| HeadUnsupported.

Record ContextDocumentBindingObservation : Type := mkContextDocumentBindingObservation {
  bnd_document_id : Uuid;
  bnd_provenance : ProjectContextBindingProvenance;
}.

#[global] Instance ContextDocumentBindingObservation_eq_dec : EqDecision ContextDocumentBindingObservation.
Proof. solve_decision. Defined.

Record SemanticGraphQueryObservations : Type := mkSemanticGraphQueryObservations {
  obs_semantic_generation_id : Uuid;
  obs_source_generation_contract_digest : Digest32;
  obs_embedding_space_fence : Digest32;
  obs_query_contract_digest : Digest32;
  obs_ranking_contract_digest : Digest32;
  obs_budget_profile_digest : Digest32;
  obs_extractor_version : Text;
  obs_project_context_revision : N;
  obs_snapshot_observed_at : DateTime;
}.

(** ** Input observations *)

Record AcceptedInitialCoordinateObservation : Type := mkAcceptedInitialCoordinateObservation {
  aio_coordinate : ProjectContextCoordinate;
  aio_graph_membership : CurrentGraphMembershipObservation;
  aio_source_basis : SemanticSourceBasis;
  aio_semantic_state : SemanticHeadState;
}.

Record OmittedInitialCoordinateObservation : Type := mkOmittedInitialCoordinateObservation {
  oio_coordinate : ProjectContextCoordinate;
  oio_graph_membership : CurrentGraphMembershipObservation;
  oio_reason : OmittedInitialCoordinateReason;
}.

Record AcceptedContextCoordinateObservation : Type := mkAcceptedContextCoordinateObservation {
  aco_coordinate : ProjectContextCoordinate;
  aco_source_basis : SemanticSourceBasis;
  aco_lifecycle : SemanticLifecycleClass;
  aco_semantic_head : SemanticHeadProvenance;
}.

Record OmittedContextCoordinateObservation : Type := mkOmittedContextCoordinateObservation {
  oco_coordinate : ProjectContextCoordinate;
  oco_reason : OmittedContextCoordinateReason;
}.

Record SemanticGraphQueryInputObservations : Type := mkSemanticGraphQueryInputObservations {
  inp_accepted_initial_coordinates : list AcceptedInitialCoordinateObservation;
  inp_initial_not_in_graph : list ProjectContextCoordinate;
  inp_omitted_initial_coordinates : list OmittedInitialCoordinateObservation;
  inp_accepted_context_coordinates : list AcceptedContextCoordinateObservation;
  inp_omitted_context_coordinates : list OmittedContextCoordinateObservation;
}.

(** ** Roots, hops and paths *)

Inductive RootDiscoveryChannel : Type :=
| ExplicitInitial
| ProblemNeutral
| ContextConditioned (context_coordinate : ProjectContextCoordinate).

#[global] Instance RootDiscoveryChannel_eq_dec : EqDecision RootDiscoveryChannel.
Proof. solve_decision. Defined.

Inductive RootStructuralEntrypoint : Type :=
| EntryCoordinate (coordinate : ProjectContextCoordinate)
| EntryContextDocument (edge_key : EdgeKey) (document_id : Uuid)
    (edge_provenance : ProjectContextEdgeProvenance)
    (binding_provenance : ProjectContextBindingProvenance).

#[global] Instance RootStructuralEntrypoint_eq_dec : EqDecision RootStructuralEntrypoint.
Proof. solve_decision. Defined.

Record ScoreExplanation : Type := mkScoreExplanation {
  exp_score_role : SemanticScoreRole;
  exp_problem_score : Score;
  exp_conditioned_evidence : list ConditionedEvidence;
  exp_highest_gain : Score;
  exp_second_highest_gain : Score;
  exp_environment_gain : Score;
  exp_anchor_gain : AnchorGain;
  exp_local_coherence : option Score;
  exp_document_score : option Score;
  exp_target_coordinate_score : option Score;
  exp_transition_score : option Score;
  exp_penalties : list ScorePenalty;
  exp_final_score : Score;
}.

#[global] Instance ScoreExplanation_eq_dec : EqDecision ScoreExplanation.
Proof. solve_decision. Defined.

Record SeedOutcome : Type := mkSeedOutcome {
  sdo_structural_entrypoint : RootStructuralEntrypoint;
  sdo_produced_path_count : N;
  sdo_zero_hop_stop_reason : option BranchStopReason;
}.

#[global] Instance SeedOutcome_eq_dec : EqDecision SeedOutcome.
Proof. solve_decision. Defined.

Record SemanticRoot : Type := mkSemanticRoot {
  root_root_id : Digest32;
  root_discovery_channels : list RootDiscoveryChannel;
  root_structural_entrypoints : list RootStructuralEntrypoint;
  root_source : SemanticSourceIdentity;
  root_preview : SemanticSourcePreview;
  root_lifecycle : SemanticLifecycleClass;
  root_source_status : option Text;
  root_canonical_provenance : CanonicalSourceProvenance;
  root_semantic_provenance : option SemanticProvenance;
  root_semantic_score : option Score;
  root_score_explanation : option ScoreExplanation;
  root_seed_outcomes : list SeedOutcome;
}.

Record SemanticEdgeObservation : Type := mkSemanticEdgeObservation {
  edge_edge_key : EdgeKey;
  edge_complete_coordinates : list ProjectContextCoordinate;
  edge_provenance : ProjectContextEdgeProvenance;
  edge_current_context_document_bindings : list ContextDocumentBindingObservation;
}.

#[global] Instance SemanticEdgeObservation_eq_dec : EqDecision SemanticEdgeObservation.
Proof. solve_decision. Defined.

Record SemanticRelationDocument : Type := mkSemanticRelationDocument {
  rel_document_id : Uuid;
  rel_binding_provenance : ProjectContextBindingProvenance;
  rel_preview : SemanticSourcePreview;
  rel_canonical_provenance : CanonicalSourceProvenance;
  rel_semantic_provenance : SemanticProvenance;
  rel_document_score : Score;
  rel_score_explanation : ScoreExplanation;
}.

#[global] Instance SemanticRelationDocument_eq_dec : EqDecision SemanticRelationDocument.
Proof. solve_decision. Defined.

Record SemanticContinuedCoordinate : Type := mkSemanticContinuedCoordinate {
  con_coordinate : ProjectContextCoordinate;
  con_preview : SemanticSourcePreview;
  con_lifecycle : SemanticLifecycleClass;
  con_canonical_provenance : CanonicalSourceProvenance;
  con_semantic_provenance : SemanticProvenance;
  con_target_score : Score;
  con_score_explanation : ScoreExplanation;
}.

#[global] Instance SemanticContinuedCoordinate_eq_dec : EqDecision SemanticContinuedCoordinate.
Proof. solve_decision. Defined.

Record SemanticHyperedgeHop : Type := mkSemanticHyperedgeHop {
  hop_ordinal : N;
  hop_entered_from_coordinate : option ProjectContextCoordinate;
  hop_edge : SemanticEdgeObservation;
  hop_selected_relation_document : SemanticRelationDocument;
  hop_continued_to_coordinate : SemanticContinuedCoordinate;
  hop_transition_score : Score;
}.

#[global] Instance SemanticHyperedgeHop_eq_dec : EqDecision SemanticHyperedgeHop.
Proof. solve_decision. Defined.

Record SemanticPath : Type := mkSemanticPath {
  path_path_id : Digest32;
  path_root_id : Digest32;
  path_hops : list SemanticHyperedgeHop;
  path_terminal_coordinate : ProjectContextCoordinate;
  path_path_score : Score;
  path_path_score_explanation : PathScoreExplanation;
  path_branch_stop_reason : BranchStopReason;
}.

Record TruncationSample : Type := mkTruncationSample {
  smp_root_id : Digest32;
  smp_path_id : option Digest32;
  smp_structural_entrypoint : RootStructuralEntrypoint;
  smp_dimension : ExhaustedDimension;
}.

Record SemanticGraphQueryCoverage : Type := mkSemanticGraphQueryCoverage {
  cvg_authorized_graph_sources : N;
  cvg_current_indexed_graph_sources : N;
  cvg_title_only_sources : N;
  cvg_embedding_coverage : EmbeddingCoverageCounts;
  cvg_query_channels_requested : N;
  cvg_query_channels_executed : N;
  cvg_omitted_context_channel_counts_by_reason : OmittedContextChannelCounts;
  cvg_neutral_candidates_considered : N;
  cvg_conditioned_candidates_considered : N;
  cvg_roots_selected : N;
  cvg_roots_returned : N;
  cvg_expanded_coordinates : N;
  cvg_incident_edges_materialized : N;
  cvg_relation_options_materialized : N;
  cvg_target_options_materialized : N;
  cvg_paths_generated : N;
  cvg_paths_retained : N;
  cvg_paths_returned : N;
  cvg_omitted_for_response_budget : OmittedForResponseBudgetCounts;
  cvg_truncation_counts_by_dimension : TruncationCountsByDimension;
  cvg_truncation_samples : list TruncationSample;
  cvg_degraded_mode_counts : DegradedModeCounts;
}.

Record SemanticGraphQueryResult : Type := mkSemanticGraphQueryResult {
  res_request_id : Uuid;
  res_project_id : Uuid;
  res_request_binding_digest : Digest32;
  res_observations : SemanticGraphQueryObservations;
  res_input_observations : SemanticGraphQueryInputObservations;
  res_roots : list SemanticRoot;
  res_paths : list SemanticPath;
  res_coverage : SemanticGraphQueryCoverage;
  res_completion_reason : CompletionReason;
  res_exhausted_dimensions : list ExhaustedDimension;
}.

End result.
