(* ===== verification/SemanticVerify.v ===== *)
(** * Semantic query: verification of results

    Models the functions of [buzz-semantic-query/src/result.rs]: identities of
    roots and paths, and the validators that a completed result passes before it
    is signed and again when the caller receives it.  The postcard serializer is
    a parameter, one function per serialized type. *)

From stdpp Require Import prelude strings gmap fin_maps.
From S2P Require Import Prelude Text TextOps Platform ContextCoordinate ContextModel.
From S2P Require Import SemanticModel SemanticResult.

(** [iter.enumerate()] *)
Definition enumerate {A} (l : list A) : list (N * A) := imap (λ i x, (N.of_nat i, x)) l.

(** [left >= right], from the comparison of the two *)
Definition cmp_ge (c : comparison) : bool := match c with Lt => false | _ => true end.

Section parameters.
Context `{P : Platform}.

(** What [derive_path_id] serializes of a hop. *)
Definition HopProvenance : Type :=
  N * option ProjectContextCoordinate * EdgeKey * list ProjectContextCoordinate
  * ProjectContextEdgeProvenance * list ContextDocumentBindingObservation * Uuid
  * ProjectContextBindingProvenance * CanonicalSourceProvenance * SemanticProvenance
  * ProjectContextCoordinate * SemanticLifecycleClass * CanonicalSourceProvenance
  * SemanticProvenance.

(** [postcard::to_stdvec] *)
Class Postcard : Type := {
  postcard_root : Uuid * SemanticSourceIdentity * list (list N) → option (list N);
  postcard_path : Digest32 * list HopProvenance → option (list N);
  postcard_ranking : string * N * list N * list N * list N * list string → option (list N);
  postcard_budget : string * SemanticGraphQueryBudget * list N * list N * list string → option (list N);
}.

End parameters.

Section verify.
Context `{P : Platform} `{HP : !Postcard}.

(** ** Contract digests *)

Definition QUERY_CONTRACT_DESCRIPTOR : Text :=
  lit "serializer=semantic-graph-query-json" ++ [10%N]
  ++ lit "problem=semantic-graph-query.problem" ++ [10%N]
  ++ lit "conditioned=semantic-graph-query.conditioned-context" ++ [10%N]
  ++ lit "field-order=contract,problem,context_overview" ++ [10%N]
  ++ lit "escape=quote-backslash-short-c0-other-c0-lower-hex" ++ [10%N]
  ++ lit "unicode=raw-utf8-no-normalization" ++ [10%N]
  ++ lit "max-provider-input-bytes=65536".

Definition query_contract_digest : Digest32 :=
  hash_domain (lit "buzz.semantic-graph-query-contract") [str_as_bytes QUERY_CONTRACT_DESCRIPTOR].

Definition ranking_contract_digest : QueryContractResult Digest32 :=
  let? canonical :=
    ok_or (postcard_ranking
             ("semantic-graph-score", SCORE_SCALE,
              raw <$> [W_CANDIDATE_PROBLEM; W_CANDIDATE_ENVIRONMENT; W_CANDIDATE_ANCHOR;
                       W_DOCUMENT_PROBLEM; W_DOCUMENT_ENVIRONMENT; W_DOCUMENT_COHERENCE;
                       W_SECOND_ENVIRONMENT; W_ROOT_RELEVANCE; W_ROOT_DIVERSITY; DISCOUNT_FACTOR],
              raw <$> [HOP_PENALTY; BASE_ENTRY_FLOOR; RELATION_FLOOR; TARGET_FLOOR; TRANSITION_FLOOR],
              [1000000; 900000; 900000; 600000; 500000]%N,
              ["round=term-mul-half-up;sum-saturate;db-floor-half-up";
               "environment=highest-plus-quarter-second-canonical-coordinate-dedup";
               "document-missing-local=round-once-seven-problem-plus-two-environment-over-nine";
               "transition=zero-absorbing-harmonic";
               "path=renormalized-recursive-discount-minus-hop-penalty";
               "root-neutral=ceil-half-pin-highest-problem-then-mmr";
               "root-mixed=mmr-candidate-score";
               "tie=source-identity-edge-key-document-id-coordinate-provenance";
               "frontier=fair-first-wave-then-global-best-first-per-state-beam"]))
      SemanticGraphQueryError.Serialization in
  Ok (hash_domain (lit "buzz.semantic-graph-ranking") [canonical]).

Definition budget_profile_digest : QueryContractResult Digest32 :=
  let? canonical :=
    ok_or (postcard_budget
             ("semantic-graph-budget", DEFAULT_QUERY_BUDGET,
              [MAX_RECALL_PER_CHANNEL; MAX_SEMANTIC_ROOTS; MAX_HOPS_PER_PATH; MAX_BEAM_WIDTH;
               MAX_EXPANDED_COORDINATES; MAX_INCIDENT_EDGES_MATERIALIZED;
               MAX_RELATION_OPTIONS_MATERIALIZED; MAX_TARGET_OPTIONS_MATERIALIZED; MAX_PATHS],
              [MAX_WALL_TIME_MS; MAX_RESPONSE_BYTES; 65536; MAX_TRUNCATION_SAMPLES; 5000; 1000]%N,
              ["counts=recall_unique_source;roots_unique_automatic_source;hops_complete;beam_successor;expanded_path_provenance;edges_global_edge_key;relations_u_edge_document;targets_u_edge_document_v;paths_stopped;response_event_array";
               "exhausted=k-plus-one-except-hop-conservative";
               "materialize=relation-then-edge-then-target-then-complete-hop";
               "packing=envelope-explicit-roots-automatic-roots-paths-whole-summary-whole-edge";
               "deadline=one-monotonic-absolute-minus-response-tail-minus-snapshot-close-reserve"]))
      SemanticGraphQueryError.Serialization in
  Ok (hash_domain (lit "buzz.semantic-graph-budget") [canonical]).

(** ** Identities *)

Definition coordinate_identity (coordinate : ProjectContextCoordinate) : Text :=
  match coordinate with
  | ProjectContextCoordinate.ProjectViewObject object_type object_id =>
      lit "pv:" ++ lit (ProjectViewObjectType_as_str object_type) ++ lit ":" ++ Uuid_display object_id
  | ProjectContextCoordinate.Document document_id => lit "document:" ++ Uuid_display document_id
  | ProjectContextCoordinate.Meeting meeting_id => lit "meeting:" ++ Uuid_display meeting_id
  end.

Definition root_entrypoint_identity (entrypoint : RootStructuralEntrypoint) : list N :=
  match entrypoint with
  | EntryCoordinate coordinate => 0%N :: str_as_bytes (coordinate_identity coordinate)
  | EntryContextDocument edge_key document_id _ _ =>
      1%N :: edge_key.(edge_key_bytes) ++ Uuid_as_bytes document_id
  end.

Definition derive_root_id (project_id : Uuid) (source : SemanticSourceIdentity)
    (entrypoints : list RootStructuralEntrypoint) : QueryContractResult Digest32 :=
  let identities := root_entrypoint_identity <$> entrypoints in
  let identities := sort_by slice_cmp identities in
  let identities := dedup_by (λ a b, bool_decide (a = b)) identities in
  let? canonical := ok_or (postcard_root (project_id, source, identities))
    SemanticGraphQueryError.Serialization in
  Ok (hash_domain (lit "buzz.semantic-graph-root") [canonical]).

Definition hop_provenance (hop : SemanticHyperedgeHop) : HopProvenance :=
  (hop.(hop_ordinal),
   hop.(hop_entered_from_coordinate),
   hop.(hop_edge).(edge_edge_key),
   hop.(hop_edge).(edge_complete_coordinates),
   hop.(hop_edge).(edge_provenance),
   hop.(hop_edge).(edge_current_context_document_bindings),
   hop.(hop_selected_relation_document).(rel_document_id),
   hop.(hop_selected_relation_document).(rel_binding_provenance),
   hop.(hop_selected_relation_document).(rel_canonical_provenance),
   hop.(hop_selected_relation_document).(rel_semantic_provenance),
   hop.(hop_continued_to_coordinate).(con_coordinate),
   hop.(hop_continued_to_coordinate).(con_lifecycle),
   hop.(hop_continued_to_coordinate).(con_canonical_provenance),
   hop.(hop_continued_to_coordinate).(con_semantic_provenance)).

Definition derive_path_id (root_id : Digest32) (hops : list SemanticHyperedgeHop)
  : QueryContractResult Digest32 :=
  let? canonical := ok_or (postcard_path (root_id, hop_provenance <$> hops))
    SemanticGraphQueryError.Serialization in
  Ok (hash_domain (lit "buzz.semantic-graph-path") [canonical]).

(** ** Matching *)

Definition semantic_project_view_type (object_type : ProjectViewObjectType) : ProjectViewSemanticType :=
  match object_type with
  | ProjectViewObjectType.ProjectProfile => ProjectViewSemanticType.ProjectProfile
  | ProjectViewObjectType.Goal => ProjectViewSemanticType.Goal
  | ProjectViewObjectType.Role => ProjectViewSemanticType.Role
  | ProjectViewObjectType.Plan => ProjectViewSemanticType.Plan
  | ProjectViewObjectType.Stage => ProjectViewSemanticType.Stage
  | ProjectViewObjectType.Requirement => ProjectViewSemanticType.Requirement
  | ProjectViewObjectType.Issue => ProjectViewSemanticType.Issue
  | ProjectViewObjectType.Work => ProjectViewSemanticType.Work
  | ProjectViewObjectType.Resource => ProjectViewSemanticType.Resource
  end.

Definition source_matches_coordinate (source : SemanticSourceIdentity)
    (coordinate : ProjectContextCoordinate) : bool :=
  match source.(src_kind), coordinate with
  | SemanticSourceKind.ProjectView source_type,
    ProjectContextCoordinate.ProjectViewObject object_type object_id =>
      bool_decide (source_type = semantic_project_view_type object_type)
      && bool_decide (source.(src_source_id) = object_id)
  | SemanticSourceKind.ProjectDocument, ProjectContextCoordinate.Document document_id =>
      bool_decide (source.(src_source_id) = document_id)
  | SemanticSourceKind.Meeting, ProjectContextCoordinate.Meeting meeting_id =>
      bool_decide (source.(src_source_id) = meeting_id)
  | _, _ => false
  end.

Definition source_matches_entrypoint (source : SemanticSourceIdentity)
    (entrypoint : RootStructuralEntrypoint) : bool :=
  match entrypoint with
  | EntryCoordinate coordinate => source_matches_coordinate source coordinate
  | EntryContextDocument _ document_id _ _ =>
      bool_decide (source.(src_kind) = SemanticSourceKind.ProjectDocument)
      && bool_decide (source.(src_source_id) = document_id)
  end.

Definition basis_matches_source_kind (basis : SemanticSourceBasis) (kind : SemanticSourceKind) : bool :=
  match basis, kind with
  | SemanticSourceBasis.ProjectView _, SemanticSourceKind.ProjectView _
  | SemanticSourceBasis.ProjectDocument _, SemanticSourceKind.ProjectDocument
  | SemanticSourceBasis.Meeting _, SemanticSourceKind.Meeting => true
  | _, _ => false
  end.

Definition basis_matches_coordinate (basis : SemanticSourceBasis)
    (coordinate : ProjectContextCoordinate) : bool :=
  match basis, coordinate with
  | SemanticSourceBasis.ProjectView _, ProjectContextCoordinate.ProjectViewObject _ _
  | SemanticSourceBasis.ProjectDocument _, ProjectContextCoordinate.Document _
  | SemanticSourceBasis.Meeting _, ProjectContextCoordinate.Meeting _ => true
  | _, _ => false
  end.

(** [matches!(lifecycle, Tombstone | Deleted)] *)
Definition ineligible_lifecycle (lifecycle : SemanticLifecycleClass) : bool :=
  match lifecycle with
  | SemanticLifecycleClass.Tombstone | SemanticLifecycleClass.Deleted => true
  | _ => false
  end.

Definition lifecycle_matches (filter : LifecycleFilter) (lifecycle : SemanticLifecycleClass) : bool :=
  match filter, lifecycle with
  | LifecycleFilter.AllCurrent,
    (SemanticLifecycleClass.Active | SemanticLifecycleClass.Finalizing
     | SemanticLifecycleClass.Terminal) => true
  | LifecycleFilter.NonTerminal,
    (SemanticLifecycleClass.Active | SemanticLifecycleClass.Finalizing) => true
  | LifecycleFilter.TerminalOnly, SemanticLifecycleClass.Terminal => true
  | _, _ => false
  end.

Definition path_starts_at_entrypoint (first_hop : SemanticHyperedgeHop)
    (entrypoint : RootStructuralEntrypoint) : bool :=
  match entrypoint with
  | EntryCoordinate coordinate =>
      bool_decide (first_hop.(hop_entered_from_coordinate) = Some coordinate)
  | EntryContextDocument edge_key document_id edge_provenance binding_provenance =>
      negb (opt_is_some first_hop.(hop_entered_from_coordinate))
      && bool_decide (first_hop.(hop_edge).(edge_edge_key) = edge_key)
      && bool_decide (first_hop.(hop_edge).(SemanticResult.edge_provenance) = edge_provenance)
      && bool_decide (first_hop.(hop_selected_relation_document).(rel_document_id) = document_id)
      && bool_decide (first_hop.(hop_selected_relation_document).(rel_binding_provenance)
                      = binding_provenance)
  end.

(** ** Local rules *)

Definition validate_preview (preview : SemanticSourcePreview) : QueryContractResult unit :=
  reject_if (is_empty (trim preview.(prv_title))
             || has_nul_byte preview.(prv_title)
             || is_some_and has_nul_byte preview.(prv_summary)
             || (opt_is_some preview.(prv_summary) && opt_is_some preview.(prv_summary_omitted_reason)))
    (query_state_error "source preview title/summary omission state is invalid") ?;
  Ok tt.

Definition validate_semantic_provenance (canonical : CanonicalSourceProvenance)
    (semantic : option SemanticProvenance) (observations : SemanticGraphQueryObservations)
  : QueryContractResult unit :=
  match semantic with
  | Some semantic =>
      reject_if (negb (bool_decide (semantic.(spr_generation_id)
                                    = observations.(obs_semantic_generation_id)))
                 || negb (bool_decide (semantic.(spr_source_snapshot_digest)
                                       = canonical.(cpr_source_snapshot_digest)))
                 || negb (bool_decide (semantic.(spr_source_generation_contract_digest)
                                       = observations.(obs_source_generation_contract_digest)))
                 || negb (bool_decide (semantic.(spr_embedding_space_fence)
                                       = observations.(obs_embedding_space_fence)))
                 || negb (bool_decide (semantic.(spr_unit_key) = lit "overview")))
        (query_state_error "semantic provenance does not match canonical or query observations")
  | None => Ok tt
  end ?;
  Ok tt.

Definition ScoreExplanation_validate (self : ScoreExplanation) : QueryContractResult unit :=
  reject_if (existsb (λ evidence,
                        negb (bool_decide (evidence
                                           = ConditionedEvidence_new evidence.(ev_context_coordinate)
                                               self.(exp_problem_score)
                                               evidence.(ev_conditioned_score))))
               self.(exp_conditioned_evidence))
    (query_state_error "conditioned score evidence is internally inconsistent") ?;
  let environment := environment_gain self.(exp_conditioned_evidence) in
  reject_if (negb (bool_decide (self.(exp_conditioned_evidence)
                                = environment.(env_conditioned_evidence)))
             || negb (bool_decide (self.(exp_highest_gain) = environment.(env_highest_gain)))
             || negb (bool_decide (self.(exp_second_highest_gain)
                                   = environment.(env_second_highest_gain)))
             || negb (bool_decide (self.(exp_environment_gain) = environment.(env_environment_gain)))
             || negb (is_empty self.(exp_penalties)))
    (query_state_error "environment score evidence or penalties are inconsistent") ?;
  let? expected :=
    match self.(exp_score_role) with
    | SemanticScoreRole.Candidate | SemanticScoreRole.RelationRoot =>
        Ok (candidate_score self.(exp_problem_score) self.(exp_environment_gain)
              self.(exp_anchor_gain))
    | SemanticScoreRole.RelationDocument =>
        Ok (document_score self.(exp_problem_score) self.(exp_environment_gain)
              self.(exp_local_coherence))
    | SemanticScoreRole.TargetCoordinate =>
        let? coherence := ok_or self.(exp_local_coherence)
          (query_state_error "target score explanation lacks relation coherence") in
        Ok (target_coordinate_score self.(exp_problem_score) self.(exp_environment_gain) coherence)
    | SemanticScoreRole.Transition =>
        let? document := ok_or self.(exp_document_score)
          (query_state_error "transition explanation lacks document score") in
        let? target := ok_or self.(exp_target_coordinate_score)
          (query_state_error "transition explanation lacks target score") in
        Ok (harmonic_score document target)
    end in
  reject_if (negb (bool_decide (expected = self.(exp_final_score))))
    (query_state_error "score explanation does not recompute final score") ?;
  Ok tt.

Definition SemanticGraphQueryCoverage_classified (self : SemanticGraphQueryCoverage) : N :=
  let c := self.(cvg_embedding_coverage) in
  u64_saturating_add (u64_saturating_add (u64_saturating_add (u64_saturating_add (u64_saturating_add
    c.(cov_current) c.(cov_missing)) c.(cov_building)) c.(cov_failed)) c.(cov_unsupported))
    c.(cov_non_queryable_zero_vector).

(** The two conditions that [validate] and [validate_detailed] test. *)
Definition coverage_not_partition (self : SemanticGraphQueryCoverage) : bool :=
  negb (SemanticGraphQueryCoverage_classified self =? self.(cvg_authorized_graph_sources))%N
  || negb (self.(cvg_embedding_coverage).(cov_current) =? self.(cvg_current_indexed_graph_sources))%N.

Definition coverage_not_monotonic (self : SemanticGraphQueryCoverage) : bool :=
  ((self.(cvg_current_indexed_graph_sources) <? self.(cvg_title_only_sources))
   || (self.(cvg_paths_generated) <? self.(cvg_paths_retained))
   || (self.(cvg_paths_retained) <? self.(cvg_paths_returned))
   || (self.(cvg_roots_selected) <? self.(cvg_roots_returned))
   || (self.(cvg_query_channels_requested) <? self.(cvg_query_channels_executed))
   || (MAX_TRUNCATION_SAMPLES <? len self.(cvg_truncation_samples)))%N.

Definition SemanticGraphQueryCoverage_validate (self : SemanticGraphQueryCoverage)
  : QueryContractResult unit :=
  reject_if (coverage_not_partition self)
    (query_state_error "embedding coverage does not partition authorized graph sources") ?;
  reject_if (coverage_not_monotonic self)
    (query_state_error "semantic query coverage counters violate monotonic bounds") ?;
  Ok tt.

(** ** Roots *)

Definition SemanticRoot_validate (self : SemanticRoot) (project_id : Uuid)
    (observations : SemanticGraphQueryObservations) : QueryContractResult unit :=
  let inconsistent :=
    query_state_error "root identity or structural outcome set is inconsistent" in
  let entrypoint_identities := root_entrypoint_identity <$> self.(root_structural_entrypoints) in
  reject_if (is_empty self.(root_structural_entrypoints)
             || negb (len self.(root_seed_outcomes) =? len self.(root_structural_entrypoints))%N
             || windows2_any (λ a b, cmp_ge (slice_cmp a b)) entrypoint_identities
             || existsb (λ '(entrypoint, outcome),
                           negb (bool_decide (entrypoint = outcome.(sdo_structural_entrypoint)))
                           || negb (Bool.eqb (outcome.(sdo_produced_path_count) =? 0)%N
                                      (opt_is_some outcome.(sdo_zero_hop_stop_reason))))
                  (zip self.(root_structural_entrypoints) self.(root_seed_outcomes)))
    inconsistent ?;
  let? derived := derive_root_id project_id self.(root_source) self.(root_structural_entrypoints) in
  reject_if (negb (bool_decide (derived = self.(root_root_id)))) inconsistent ?;
  map_err (λ error, SemanticGraphQueryError.InvalidState (SemanticError_to_string error))
    (SemanticSourceIdentity_validate self.(root_source)) ?;
  reject_if (negb (bool_decide (self.(root_source).(src_community_id) = project_id))
             || negb (basis_matches_source_kind self.(root_canonical_provenance).(cpr_source_basis)
                        self.(root_source).(src_kind))
             || existsb (λ entrypoint, negb (source_matches_entrypoint self.(root_source) entrypoint))
                  self.(root_structural_entrypoints))
    (query_state_error "root source does not match its Project or structural entrypoint") ?;
  reject_if (negb (Bool.eqb (opt_is_some self.(root_semantic_score))
                     (opt_is_some self.(root_score_explanation)))
             || negb (Bool.eqb (opt_is_some self.(root_semantic_score))
                        (opt_is_some self.(root_semantic_provenance))))
    (query_state_error "root semantic score, provenance, and explanation must agree") ?;
  match self.(root_semantic_score), self.(root_score_explanation) with
  | Some score, Some explanation =>
      ScoreExplanation_validate explanation ?;
      reject_if (negb (bool_decide (score = explanation.(exp_final_score))))
        (query_state_error "root score differs from explanation")
  | _, _ => Ok tt
  end ?;
  validate_semantic_provenance self.(root_canonical_provenance) self.(root_semantic_provenance)
    observations ?;
  validate_preview self.(root_preview).

(** ** Hops *)

Definition SemanticHyperedgeHop_validate (self : SemanticHyperedgeHop) (project_id : Uuid)
  : QueryContractResult unit :=
  let edge := self.(hop_edge) in
  let document := self.(hop_selected_relation_document) in
  let continued := self.(hop_continued_to_coordinate) in
  let? expected_edge :=
    map_err (λ error, SemanticGraphQueryError.InvalidState (ProjectContextError_to_string error))
      (EdgeKey_derive project_id edge.(edge_complete_coordinates)) in
  reject_if (negb (bool_decide (expected_edge = edge.(edge_edge_key)))
             || windows2_any (λ a b, cmp_ge (Uuid_cmp a.(bnd_document_id) b.(bnd_document_id)))
                  edge.(edge_current_context_document_bindings))
    (query_state_error "returned Hyperedge identity or binding order is invalid") ?;
  reject_if (ineligible_lifecycle continued.(con_lifecycle))
    (query_state_error "continued target Coordinate has an ineligible lifecycle") ?;
  reject_if (negb (basis_matches_source_kind document.(rel_canonical_provenance).(cpr_source_basis)
                     SemanticSourceKind.ProjectDocument)
             || negb (basis_matches_coordinate
                        continued.(con_canonical_provenance).(cpr_source_basis)
                        continued.(con_coordinate)))
    (query_state_error "hop source basis does not match its Document or target Coordinate") ?;
  let binding :=
    List.find (λ binding, bool_decide (binding.(bnd_document_id) = document.(rel_document_id)))
      edge.(edge_current_context_document_bindings) in
  reject_if (negb (bool_decide (bnd_provenance <$> binding = Some document.(rel_binding_provenance)))
             || negb (bool_decide (self.(hop_transition_score)
                                   = harmonic_score document.(rel_document_score)
                                       continued.(con_target_score))))
    (query_state_error "selected binding or transition score is inconsistent") ?;
  let expected_document_role :=
    if opt_is_some self.(hop_entered_from_coordinate) then SemanticScoreRole.RelationDocument
    else SemanticScoreRole.RelationRoot in
  reject_if (negb (bool_decide (document.(rel_score_explanation).(exp_score_role)
                                = expected_document_role))
             || negb (bool_decide (document.(rel_score_explanation).(exp_final_score)
                                   = document.(rel_document_score)))
             || is_some_and (λ score, negb (bool_decide (score = document.(rel_document_score))))
                  document.(rel_score_explanation).(exp_document_score)
             || negb (bool_decide (continued.(con_score_explanation).(exp_score_role)
                                   = SemanticScoreRole.TargetCoordinate))
             || negb (bool_decide (continued.(con_score_explanation).(exp_final_score)
                                   = continued.(con_target_score)))
             || is_some_and (λ score, negb (bool_decide (score = continued.(con_target_score))))
                  continued.(con_score_explanation).(exp_target_coordinate_score))
    (query_state_error "hop score roles or duplicated score fields are inconsistent") ?;
  ScoreExplanation_validate document.(rel_score_explanation) ?;
  ScoreExplanation_validate continued.(con_score_explanation) ?;
  validate_preview document.(rel_preview) ?;
  validate_preview continued.(con_preview).

Definition validate_provenance (self : SemanticHyperedgeHop)
    (observations : SemanticGraphQueryObservations) : QueryContractResult unit :=
  validate_semantic_provenance self.(hop_selected_relation_document).(rel_canonical_provenance)
    (Some self.(hop_selected_relation_document).(rel_semantic_provenance)) observations ?;
  validate_semantic_provenance self.(hop_continued_to_coordinate).(con_canonical_provenance)
    (Some self.(hop_continued_to_coordinate).(con_semantic_provenance)) observations.

(** ** Paths *)

(** The variables of the loop over the hops. *)
Record Walk : Type := mkWalk {
  visited_edges : gset EdgeKey;
  visited_coordinates : gset ProjectContextCoordinate;
  previous_coordinate : option ProjectContextCoordinate;
}.

(** One iteration: the hop on its own, then against the path so far. *)
Definition validate_hop (project_id : Uuid) (observations : SemanticGraphQueryObservations)
    (walk : Walk) (item : N * SemanticHyperedgeHop) : ValidationResult Walk :=
  let '(index, hop) := item in
  map_err (from_contract SemanticGraphResultInvariant.HopPreview)
    (validate_preview hop.(hop_selected_relation_document).(rel_preview)) ?;
  map_err (from_contract SemanticGraphResultInvariant.HopPreview)
    (validate_preview hop.(hop_continued_to_coordinate).(con_preview)) ?;
  map_err (from_contract SemanticGraphResultInvariant.HopContract)
    (SemanticHyperedgeHop_validate hop project_id) ?;
  map_err (from_contract SemanticGraphResultInvariant.HopProvenance)
    (validate_provenance hop observations) ?;
  reject_if ((0 <? index)%N
             && negb (bool_decide (hop.(hop_entered_from_coordinate) = walk.(previous_coordinate))))
    (validation_error SemanticGraphResultInvariant.PathContiguity
       "path hops are not Coordinate-contiguous") ?;
  reject_if (bool_decide (hop.(hop_edge).(edge_edge_key) ∈ walk.(visited_edges)))
    (validation_error SemanticGraphResultInvariant.PathRepeatedEdge "path repeats a Hyperedge") ?;
  let? coordinates :=
    match hop.(hop_entered_from_coordinate) with
    | Some entered =>
        reject_if (negb (bool_decide (entered ∈ hop.(hop_edge).(edge_complete_coordinates))))
          (validation_error SemanticGraphResultInvariant.EnteredCoordinateMembership
             "entered Coordinate is not a member of the complete Hyperedge") ?;
        if (index =? 0)%N then
          reject_if (bool_decide (entered ∈ walk.(visited_coordinates)))
            (validation_error SemanticGraphResultInvariant.PathRepeatedCoordinate
               "path repeats a Coordinate") ?;
          Ok ({[ entered ]} ∪ walk.(visited_coordinates))
        else Ok walk.(visited_coordinates)
    | None =>
        reject_if (0 <? index)%N
          (validation_error SemanticGraphResultInvariant.MissingEnteredCoordinate
             "only a relation-Document root may omit entered Coordinate") ?;
        Ok walk.(visited_coordinates)
    end in
  let continued := hop.(hop_continued_to_coordinate).(con_coordinate) in
  reject_if (negb (bool_decide (continued ∈ hop.(hop_edge).(edge_complete_coordinates)))
             || bool_decide (hop.(hop_entered_from_coordinate) = Some continued)
             || bool_decide (continued ∈ coordinates))
    (validation_error SemanticGraphResultInvariant.ContinuedCoordinateMembership
       "continued Coordinate is not a distinct unvisited Hyperedge member") ?;
  Ok {| visited_edges := {[ hop.(hop_edge).(edge_edge_key) ]} ∪ walk.(visited_edges);
        visited_coordinates := {[ continued ]} ∪ coordinates;
        previous_coordinate := Some continued |}.

Definition SemanticPath_validate_detailed (self : SemanticPath) (project_id : Uuid)
    (root : SemanticRoot) (observations : SemanticGraphQueryObservations) : ValidationResult unit :=
  let inconsistent :=
    validation_error SemanticGraphResultInvariant.PathIdentity
      "path identity, ordinal, terminal, or score is inconsistent" in
  reject_if (is_empty self.(path_hops)
             || existsb (λ '(index, hop), negb (hop.(hop_ordinal) =? index + 1)%N)
                  (enumerate self.(path_hops))
             || match last self.(path_hops) with
                | None => true
                | Some hop => negb (bool_decide (hop.(hop_continued_to_coordinate).(con_coordinate)
                                                 = self.(path_terminal_coordinate)))
                end) inconsistent ?;
  let? derived :=
    map_err (from_contract SemanticGraphResultInvariant.PathIdentity)
      (derive_path_id self.(path_root_id) self.(path_hops)) in
  reject_if (negb (bool_decide (derived = self.(path_path_id)))
             || negb (bool_decide (self.(path_path_score_explanation).(ps_final_score)
                                   = Some self.(path_path_score)))) inconsistent ?;
  let? first_hop :=
    ok_or (head self.(path_hops))
      (validation_error SemanticGraphResultInvariant.PathIdentity "path has no first hop") in
  reject_if (negb (existsb (path_starts_at_entrypoint first_hop) root.(root_structural_entrypoints)))
    (validation_error SemanticGraphResultInvariant.PathEntrypoint
       "path does not start at one of its root structural entrypoints") ?;
  try_fold (validate_hop project_id observations) (mkWalk ∅ ∅ None) (enumerate self.(path_hops)) ?;
  let transition_scores := hop_transition_score <$> self.(path_hops) in
  let? expected_explanation :=
    map_err (λ error, mkValidationError SemanticGraphResultInvariant.PathScore
                        (ScoreError_to_string error))
      (path_score root.(root_semantic_score) transition_scores) in
  reject_if (negb (bool_decide (self.(path_path_score_explanation) = expected_explanation)))
    (validation_error SemanticGraphResultInvariant.PathScore
       "path score explanation does not match its root and ordered transitions") ?;
  Ok tt.

(** ** The forest *)

(** One iteration over the roots: the roots seen so far, by identity. *)
Definition validate_root (self : SemanticGraphQueryResult) (roots_by_id : gmap Digest32 SemanticRoot)
    (root : SemanticRoot) : ValidationResult (gmap Digest32 SemanticRoot) :=
  map_err (from_contract SemanticGraphResultInvariant.RootPreview)
    (validate_preview root.(root_preview)) ?;
  map_err (from_contract SemanticGraphResultInvariant.RootContract)
    (SemanticRoot_validate root self.(res_project_id) self.(res_observations)) ?;
  reject_if (opt_is_some (roots_by_id !! root.(root_root_id)))
    (validation_error SemanticGraphResultInvariant.DuplicateRoot "duplicate returned root id") ?;
  Ok (<[root.(root_root_id) := root]> roots_by_id).

(** One iteration over the paths: the identities seen so far. *)
Definition validate_path (self : SemanticGraphQueryResult) (roots_by_id : gmap Digest32 SemanticRoot)
    (path_ids : gset Digest32) (path : SemanticPath) : ValidationResult (gset Digest32) :=
  let? root := ok_or (roots_by_id !! path.(path_root_id))
    (validation_error SemanticGraphResultInvariant.MissingPathRoot "path references a missing root") in
  SemanticPath_validate_detailed path self.(res_project_id) root self.(res_observations) ?;
  reject_if (bool_decide (path.(path_path_id) ∈ path_ids))
    (validation_error SemanticGraphResultInvariant.DuplicatePath "duplicate path id") ?;
  Ok ({[ path.(path_path_id) ]} ∪ path_ids).

Definition validate_detailed (self : SemanticGraphQueryResult) : ValidationResult unit :=
  reject_if (coverage_not_partition self.(res_coverage))
    (validation_error SemanticGraphResultInvariant.CoveragePartition
       "embedding coverage does not partition authorized graph sources") ?;
  reject_if (coverage_not_monotonic self.(res_coverage))
    (validation_error SemanticGraphResultInvariant.CoverageBounds
       "semantic query coverage counters violate monotonic bounds") ?;
  reject_if (windows2_any (λ a b, cmp_ge (N.compare (ExhaustedDimension_index a)
                                            (ExhaustedDimension_index b)))
               self.(res_exhausted_dimensions))
    (validation_error SemanticGraphResultInvariant.Completion
       "exhausted dimensions must be strictly canonical") ?;
  match self.(res_completion_reason) with
  | CompletionReason.BudgetExhausted =>
      reject_if (is_empty self.(res_exhausted_dimensions))
        (validation_error SemanticGraphResultInvariant.Completion
           "budget exhaustion requires an exhausted dimension")
  | CompletionReason.FrontierExhausted | CompletionReason.WallTimeExhausted =>
      reject_if (negb (is_empty self.(res_exhausted_dimensions)))
        (validation_error SemanticGraphResultInvariant.Completion
           "non-budget completion must not report exhausted dimensions")
  end ?;
  let? roots_by_id := try_fold (validate_root self) ∅ self.(res_roots) in
  try_fold (validate_path self roots_by_id) ∅ self.(res_paths) ?;
  reject_if (negb (self.(res_coverage).(cvg_roots_returned) =? len self.(res_roots))
             || negb (self.(res_coverage).(cvg_paths_returned) =? len self.(res_paths)))%N
    (validation_error SemanticGraphResultInvariant.ReturnedCounts
       "returned root/path coverage does not match payload") ?;
  Ok tt.

(** [SemanticGraphQueryResult::validate] *)
Definition SemanticGraphQueryResult_validate (self : SemanticGraphQueryResult)
  : QueryContractResult unit := map_err into_contract_error (validate_detailed self).

End verify.

(** * Semantic query: a result against its request

    Models the request-aware half of [buzz-semantic-query/src/result.rs]
    ([validate_for_request] and its four parts): a signed result must partition
    the caller's Coordinates, carry only evidence of accepted ones, respect the
    lifecycle filter and stay within the caller's budget. *)


Section request.
Context `{P : Platform} `{HP : !Postcard}.

(** ** Input observations *)

Definition validate_coordinate_order (coordinates : list ProjectContextCoordinate) (field : string)
  : QueryContractResult unit :=
  try_fold (λ previous coordinate,
              reject_if (is_some_and (λ previous,
                                        cmp_ge (ProjectContextCoordinate_cmp previous coordinate))
                           previous)
                (SemanticGraphQueryError.InvalidState
                   (lit field ++ lit " must be strictly canonical")) ?;
              Ok (Some coordinate)) None coordinates ?;
  Ok tt.

Definition require_unique_coordinate (observed : gset ProjectContextCoordinate)
    (coordinate : ProjectContextCoordinate) (field : string)
  : QueryContractResult (gset ProjectContextCoordinate) :=
  reject_if (bool_decide (coordinate ∈ observed))
    (SemanticGraphQueryError.InvalidState (lit field ++ lit " Coordinate observations overlap")) ?;
  Ok ({[ coordinate ]} ∪ observed).

Definition validate_graph_membership (membership : CurrentGraphMembershipObservation)
    (project_context_revision : N) : QueryContractResult unit :=
  reject_if (negb (membership.(gmo_context_revision) =? project_context_revision)%N
             || is_empty membership.(gmo_incident_edge_keys)
             || windows2_any (λ a b, cmp_ge (slice_cmp a.(edge_key_bytes) b.(edge_key_bytes)))
                  membership.(gmo_incident_edge_keys))
    (query_state_error
       "initial graph membership is empty, non-canonical, or from another snapshot") ?;
  Ok tt.

Definition validate_input_head (head : SemanticHeadProvenance) (semantic_generation_id : Uuid)
  : QueryContractResult unit :=
  reject_if (negb (bool_decide (head.(hpr_generation_id) = semantic_generation_id))
             || negb (bool_decide (head.(hpr_unit_key) = lit "overview")))
    (query_state_error "input semantic head does not match the observed generation contract") ?;
  Ok tt.

(** One iteration over the accepted initial Coordinates. *)
Definition observe_accepted_initial (self : SemanticGraphQueryResult)
    (observed : gset ProjectContextCoordinate) (observation : AcceptedInitialCoordinateObservation)
  : QueryContractResult (gset ProjectContextCoordinate) :=
  let? observed := require_unique_coordinate observed observation.(aio_coordinate) "initial" in
  reject_if (negb (basis_matches_coordinate observation.(aio_source_basis)
                     observation.(aio_coordinate)))
    (query_state_error "accepted initial source basis does not match its Coordinate") ?;
  validate_graph_membership observation.(aio_graph_membership)
    self.(res_observations).(obs_project_context_revision) ?;
  match observation.(aio_semantic_state) with
  | HeadCurrent head =>
      validate_input_head head self.(res_observations).(obs_semantic_generation_id)
  | _ => Ok tt
  end ?;
  Ok observed.

Definition observe_omitted_initial (self : SemanticGraphQueryResult)
    (observed : gset ProjectContextCoordinate) (observation : OmittedInitialCoordinateObservation)
  : QueryContractResult (gset ProjectContextCoordinate) :=
  let? observed := require_unique_coordinate observed observation.(oio_coordinate) "initial" in
  validate_graph_membership observation.(oio_graph_membership)
    self.(res_observations).(obs_project_context_revision) ?;
  Ok observed.

Definition observe_accepted_context (self : SemanticGraphQueryResult)
    (observed : gset ProjectContextCoordinate) (observation : AcceptedContextCoordinateObservation)
  : QueryContractResult (gset ProjectContextCoordinate) :=
  let? observed := require_unique_coordinate observed observation.(aco_coordinate) "context" in
  reject_if (negb (basis_matches_coordinate observation.(aco_source_basis)
                     observation.(aco_coordinate)))
    (query_state_error "accepted context source basis does not match its Coordinate") ?;
  validate_input_head observation.(aco_semantic_head)
    self.(res_observations).(obs_semantic_generation_id) ?;
  reject_if (ineligible_lifecycle observation.(aco_lifecycle))
    (query_state_error "ineligible lifecycle cannot be an accepted context Coordinate") ?;
  Ok observed.

Definition validate_input_observations_for_request (self : SemanticGraphQueryResult)
    (request : SemanticGraphQuery) : QueryContractResult unit :=
  let input := self.(res_input_observations) in
  validate_coordinate_order (aio_coordinate <$> input.(inp_accepted_initial_coordinates))
    "accepted initial Coordinate observations" ?;
  validate_coordinate_order input.(inp_initial_not_in_graph)
    "not-in-graph initial Coordinate observations" ?;
  validate_coordinate_order (oio_coordinate <$> input.(inp_omitted_initial_coordinates))
    "omitted initial Coordinate observations" ?;
  validate_coordinate_order (aco_coordinate <$> input.(inp_accepted_context_coordinates))
    "accepted context Coordinate observations" ?;
  validate_coordinate_order (oco_coordinate <$> input.(inp_omitted_context_coordinates))
    "omitted context Coordinate observations" ?;
  let? observed_initial :=
    try_fold (observe_accepted_initial self) ∅ input.(inp_accepted_initial_coordinates) in
  let? observed_initial :=
    try_fold (λ observed coordinate, require_unique_coordinate observed coordinate "initial")
      observed_initial input.(inp_initial_not_in_graph) in
  let? observed_initial :=
    try_fold (observe_omitted_initial self) observed_initial
      input.(inp_omitted_initial_coordinates) in
  reject_if (negb (bool_decide (observed_initial
                                = list_to_set request.(qry_initial_coordinates))))
    (query_state_error "initial Coordinate observations do not exactly partition the request") ?;
  let? observed_context :=
    try_fold (observe_accepted_context self) ∅ input.(inp_accepted_context_coordinates) in
  let? observed_context :=
    try_fold (λ observed observation,
                require_unique_coordinate observed observation.(oco_coordinate) "context")
      observed_context input.(inp_omitted_context_coordinates) in
  reject_if (negb (bool_decide (observed_context
                                = list_to_set request.(qry_context_coordinates))))
    (query_state_error "context Coordinate observations do not exactly partition the request") ?;
  Ok tt.

(** ** Query channels *)

(** One iteration over the omitted context Coordinates. *)
Definition count_omitted (omitted : OmittedContextChannelCounts)
    (observation : OmittedContextCoordinateObservation) : OmittedContextChannelCounts :=
  let '(mkOmittedContextChannelCounts a b c d e f) := omitted in
  match observation.(oco_reason) with
  | OmittedContextCoordinateReason.SourceNotFound => mkOmittedContextChannelCounts (a + 1) b c d e f
  | OmittedContextCoordinateReason.SourceIneligible => mkOmittedContextChannelCounts a (b + 1) c d e f
  | OmittedContextCoordinateReason.SemanticHeadMissing =>
      mkOmittedContextChannelCounts a b (c + 1) d e f
  | OmittedContextCoordinateReason.SemanticHeadBuilding =>
      mkOmittedContextChannelCounts a b c (d + 1) e f
  | OmittedContextCoordinateReason.SemanticHeadFailed =>
      mkOmittedContextChannelCounts a b c d (e + 1) f
  | OmittedContextCoordinateReason.ConditionedInputUnsupported =>
      mkOmittedContextChannelCounts a b c d e (f + 1)
  end%N.

Definition validate_query_channels_for_request (self : SemanticGraphQueryResult)
    (request : SemanticGraphQuery) : QueryContractResult unit :=
  let? requested := ok_or (u64_checked_add 1 (len request.(qry_context_coordinates)))
    SemanticGraphQueryError.Serialization in
  let? executed :=
    ok_or (u64_checked_add 1 (len self.(res_input_observations).(inp_accepted_context_coordinates)))
      SemanticGraphQueryError.Serialization in
  reject_if (negb (self.(res_coverage).(cvg_query_channels_requested) =? requested)
             || negb (self.(res_coverage).(cvg_query_channels_executed) =? executed))%N
    (query_state_error "semantic query channel counts do not match the request observations") ?;
  let omitted :=
    foldl count_omitted OmittedContextChannelCounts_default
      self.(res_input_observations).(inp_omitted_context_coordinates) in
  reject_if (negb (bool_decide (self.(res_coverage).(cvg_omitted_context_channel_counts_by_reason)
                                = omitted)))
    (query_state_error "omitted context channel counts do not match input observations") ?;
  Ok tt.

(** ** Root evidence *)

(** [discovery_channel_key] and its comparison, with [None] first. *)
Definition discovery_channel_key (channel : RootDiscoveryChannel)
  : N * option ProjectContextCoordinate :=
  match channel with
  | ExplicitInitial => (0%N, None)
  | ProblemNeutral => (1%N, None)
  | ContextConditioned context_coordinate => (2%N, Some context_coordinate)
  end.

Definition compare_discovery_channels (left right : RootDiscoveryChannel) : comparison :=
  let left := discovery_channel_key left in
  let right := discovery_channel_key right in
  then_with (N.compare left.1 right.1)
    match left.2, right.2 with
    | None, None => Eq
    | None, Some _ => Lt
    | Some _, None => Gt
    | Some a, Some b => ProjectContextCoordinate_cmp a b
    end.

Definition is_explicit_root (root : SemanticRoot) : bool :=
  bool_decide (ExplicitInitial ∈ root.(root_discovery_channels)).

(** [matches!(channel, ProblemNeutral | ContextConditioned { .. })] *)
Definition is_semantic_channel (channel : RootDiscoveryChannel) : bool :=
  match channel with ExplicitInitial => false | _ => true end.

Definition is_coordinate_entrypoint (entrypoint : RootStructuralEntrypoint) : bool :=
  match entrypoint with EntryCoordinate _ => true | _ => false end.

(** The entrypoint is a Coordinate that satisfies [p]. *)
Definition coordinate_entrypoint_such (p : ProjectContextCoordinate → bool)
    (entrypoint : RootStructuralEntrypoint) : bool :=
  match entrypoint with EntryCoordinate coordinate => p coordinate | _ => false end.

(** Some evidence of the explanation comes from a Coordinate outside [accepted]. *)
Definition foreign_evidence (accepted : gset ProjectContextCoordinate)
    (explanation : ScoreExplanation) : bool :=
  existsb (λ evidence, negb (bool_decide (evidence.(ev_context_coordinate) ∈ accepted)))
    explanation.(exp_conditioned_evidence).

(** One iteration over the roots. *)
Definition validate_root_evidence (request : SemanticGraphQuery)
    (accepted_initial accepted_context : gset ProjectContextCoordinate) (root : SemanticRoot)
  : QueryContractResult unit :=
  reject_if (ineligible_lifecycle root.(root_lifecycle))
    (query_state_error "ineligible lifecycle cannot be returned as a semantic root") ?;
  reject_if (is_empty root.(root_discovery_channels)
             || windows2_any (λ a b, cmp_ge (compare_discovery_channels a b))
                  root.(root_discovery_channels))
    (query_state_error "root discovery channels must be non-empty, unique, and canonical") ?;
  let is_explicit := is_explicit_root root in
  let has_semantic_discovery := existsb is_semantic_channel root.(root_discovery_channels) in
  reject_if (has_semantic_discovery && negb (opt_is_some root.(root_semantic_score)))
    (query_state_error "semantic root discovery lacks score and provenance") ?;
  let matching_explicit_entrypoints :=
    len (List.filter (coordinate_entrypoint_such (λ c, bool_decide (c ∈ accepted_initial)))
           root.(root_structural_entrypoints)) in
  reject_if (negb (Bool.eqb is_explicit (matching_explicit_entrypoints =? 1)%N))
    (query_state_error "explicit root discovery does not match one accepted initial Coordinate") ?;
  for_each (λ channel,
              match channel with
              | ContextConditioned context_coordinate =>
                  reject_if (negb (bool_decide (context_coordinate ∈ accepted_context)))
                    (query_state_error
                       "conditioned root discovery references an unaccepted context Coordinate")
              | _ => Ok tt
              end) root.(root_discovery_channels) ?;
  reject_if (negb is_explicit
             && existsb is_coordinate_entrypoint root.(root_structural_entrypoints)
             && negb (lifecycle_matches request.(qry_lifecycle_filter) root.(root_lifecycle)))
    (query_state_error "automatic Coordinate root violates the requested lifecycle filter") ?;
  reject_if (is_some_and (foreign_evidence accepted_context) root.(root_score_explanation))
    (query_state_error "root score evidence references an unaccepted context Coordinate") ?;
  Ok tt.

Definition validate_explicit_root_provenance (observation : AcceptedInitialCoordinateObservation)
    (root : SemanticRoot) : QueryContractResult unit :=
  reject_if (negb (bool_decide (root.(root_canonical_provenance).(cpr_source_basis)
                                = observation.(aio_source_basis))))
    (query_state_error
       "explicit root canonical basis differs from its accepted initial observation") ?;
  match observation.(aio_semantic_state), root.(root_semantic_provenance) with
  | HeadCurrent head, Some provenance =>
      if bool_decide (provenance.(spr_generation_id) = head.(hpr_generation_id))
         && bool_decide (provenance.(spr_unit_key) = head.(hpr_unit_key))
         && bool_decide (provenance.(spr_source_snapshot_digest) = head.(hpr_snapshot_digest))
      then Ok tt
      else Err (query_state_error
                  "explicit root semantic provenance differs from its current initial head")
  | HeadCurrent _, None =>
      Err (query_state_error
             "explicit root semantic provenance differs from its current initial head")
  | _, None => Ok tt
  | _, Some _ =>
      Err (query_state_error
             "embedding-less explicit initial unexpectedly has semantic root provenance")
  end.

(** The roots returned for an accepted initial Coordinate. *)
Definition matching_roots (self : SemanticGraphQueryResult) (coordinate : ProjectContextCoordinate)
  : list SemanticRoot :=
  List.filter (λ root,
                 is_explicit_root root
                 && existsb (coordinate_entrypoint_such (λ c, bool_decide (c = coordinate)))
                      root.(root_structural_entrypoints)) self.(res_roots).

(** One iteration over the accepted initial Coordinates. *)
Definition validate_explicit_root (self : SemanticGraphQueryResult)
    (coordinate : ProjectContextCoordinate) : QueryContractResult unit :=
  match matching_roots self coordinate with
  | [root] =>
      let? observation :=
        ok_or (List.find (λ observation, bool_decide (observation.(aio_coordinate) = coordinate))
                 self.(res_input_observations).(inp_accepted_initial_coordinates))
          (query_state_error "explicit root lacks its accepted initial observation") in
      validate_explicit_root_provenance observation root
  | _ =>
      Err (query_state_error
             "accepted initial Coordinate does not have exactly one returned explicit root")
  end.

(** One iteration over the hops of the paths. *)
Definition validate_hop_evidence (request : SemanticGraphQuery)
    (accepted_context : gset ProjectContextCoordinate) (hop : SemanticHyperedgeHop)
  : QueryContractResult unit :=
  reject_if (negb (lifecycle_matches request.(qry_lifecycle_filter)
                     hop.(hop_continued_to_coordinate).(con_lifecycle)))
    (query_state_error "continued target Coordinate violates the requested lifecycle filter") ?;
  for_each (λ explanation,
              reject_if (foreign_evidence accepted_context explanation)
                (query_state_error
                   "path score evidence references an unaccepted context Coordinate"))
    [ hop.(hop_selected_relation_document).(rel_score_explanation);
      hop.(hop_continued_to_coordinate).(con_score_explanation) ].

(** [for coordinate in &accepted_initial] goes through the set in Coordinate
    order. *)
Definition validate_root_evidence_for_request (self : SemanticGraphQueryResult)
    (request : SemanticGraphQuery) : QueryContractResult unit :=
  let accepted_initial : gset ProjectContextCoordinate :=
    list_to_set (aio_coordinate <$>
                   self.(res_input_observations).(inp_accepted_initial_coordinates)) in
  let accepted_context : gset ProjectContextCoordinate :=
    list_to_set (aco_coordinate <$>
                   self.(res_input_observations).(inp_accepted_context_coordinates)) in
  for_each (validate_root_evidence request accepted_initial accepted_context) self.(res_roots) ?;
  for_each (validate_explicit_root self)
    (sort_by ProjectContextCoordinate_cmp (elements accepted_initial)) ?;
  for_each (λ path, for_each (validate_hop_evidence request accepted_context) path.(path_hops))
    self.(res_paths) ?;
  Ok tt.

(** ** Budget *)

Definition validate_budget_for_request (self : SemanticGraphQueryResult)
    (request : SemanticGraphQuery) : ValidationResult unit :=
  let budget := request.(qry_budget) in
  let coverage := self.(res_coverage) in
  let explicit_roots := len (List.filter is_explicit_root self.(res_roots)) in
  let automatic_roots := (len self.(res_roots) - explicit_roots)%N in
  let maximum_selected_roots :=
    (len self.(res_input_observations).(inp_accepted_initial_coordinates)
     + budget.(max_semantic_roots))%N in
  let maximum_conditioned_candidates :=
    (len self.(res_input_observations).(inp_accepted_context_coordinates)
     * budget.(max_recall_per_channel))%N in
  reject_if (budget.(max_semantic_roots) <? automatic_roots)%N
    (validation_error SemanticGraphResultInvariant.BudgetAutomaticRoots
       "automatic roots exceed the caller-requested budget") ?;
  reject_if (maximum_selected_roots <? coverage.(cvg_roots_selected))%N
    (validation_error SemanticGraphResultInvariant.BudgetSelectedRoots
       "selected roots exceed the caller-requested budget") ?;
  reject_if (budget.(max_recall_per_channel) <? coverage.(cvg_neutral_candidates_considered))%N
    (validation_error SemanticGraphResultInvariant.BudgetNeutralCandidates
       "neutral candidates exceed the caller-requested budget") ?;
  reject_if (maximum_conditioned_candidates <? coverage.(cvg_conditioned_candidates_considered))%N
    (validation_error SemanticGraphResultInvariant.BudgetConditionedCandidates
       "conditioned candidates exceed the caller-requested budget") ?;
  reject_if (budget.(max_expanded_coordinates) <? coverage.(cvg_expanded_coordinates))%N
    (validation_error SemanticGraphResultInvariant.BudgetExpandedCoordinates
       "expanded Coordinates exceed the caller-requested budget") ?;
  reject_if (budget.(max_incident_edges_materialized) <? coverage.(cvg_incident_edges_materialized))%N
    (validation_error SemanticGraphResultInvariant.BudgetIncidentEdges
       "incident Hyperedges exceed the caller-requested budget") ?;
  reject_if (budget.(max_relation_options_materialized)
             <? coverage.(cvg_relation_options_materialized))%N
    (validation_error SemanticGraphResultInvariant.BudgetRelationOptions
       "relation options exceed the caller-requested budget") ?;
  reject_if (budget.(max_target_options_materialized) <? coverage.(cvg_target_options_materialized))%N
    (validation_error SemanticGraphResultInvariant.BudgetTargetOptions
       "target options exceed the caller-requested budget") ?;
  reject_if (budget.(max_paths) <? coverage.(cvg_paths_retained))%N
    (validation_error SemanticGraphResultInvariant.BudgetPathsRetained
       "retained-path accounting exceeds the caller-requested budget") ?;
  reject_if (budget.(max_paths) <? len self.(res_paths))%N
    (validation_error SemanticGraphResultInvariant.BudgetReturnedPaths
       "returned path payload exceeds the caller-requested budget") ?;
  reject_if (existsb (λ path, budget.(max_hops_per_path) <? len path.(path_hops))%N self.(res_paths))
    (validation_error SemanticGraphResultInvariant.BudgetPathHops
       "a returned path exceeds the caller-requested hop budget") ?;
  Ok tt.

(** ** The whole check *)

Definition validate_for_request_detailed (self : SemanticGraphQueryResult)
    (request : SemanticGraphQuery) : ValidationResult unit :=
  let? request :=
    map_err (from_contract SemanticGraphResultInvariant.RequestContract)
      (validate_and_canonicalize request) in
  validate_detailed self ?;
  reject_if (negb (bool_decide (self.(res_request_id) = request.(qry_request_id)))
             || negb (bool_decide (self.(res_project_id) = request.(qry_project_id))))
    (validation_error SemanticGraphResultInvariant.RequestIdentity
       "semantic result does not belong to the canonical request") ?;
  let? expected_ranking_digest :=
    map_err (from_contract SemanticGraphResultInvariant.ContractDigest) ranking_contract_digest in
  let? expected_budget_digest :=
    map_err (from_contract SemanticGraphResultInvariant.ContractDigest) budget_profile_digest in
  reject_if (negb (bool_decide (self.(res_observations).(obs_query_contract_digest)
                                = query_contract_digest))
             || negb (bool_decide (self.(res_observations).(obs_ranking_contract_digest)
                                   = expected_ranking_digest))
             || negb (bool_decide (self.(res_observations).(obs_budget_profile_digest)
                                   = expected_budget_digest)))
    (validation_error SemanticGraphResultInvariant.ContractDigest
       "semantic result compiled contract digests do not match this verifier") ?;
  map_err (from_contract SemanticGraphResultInvariant.InputObservations)
    (validate_input_observations_for_request self request) ?;
  map_err (from_contract SemanticGraphResultInvariant.QueryChannels)
    (validate_query_channels_for_request self request) ?;
  map_err (from_contract SemanticGraphResultInvariant.RootEvidence)
    (validate_root_evidence_for_request self request) ?;
  validate_budget_for_request self request.

Definition validate_for_request (self : SemanticGraphQueryResult) (request : SemanticGraphQuery)
  : QueryContractResult unit :=
  map_err into_contract_error (validate_for_request_detailed self request).

End request.
