(* ===== verification/SemanticFrontier.v ===== *)
(** * Semantic query: automatic roots

    Models [buzz-semantic-query/src/root.rs].  A [while] loop that pushes one
    root per iteration is a recursion on fuel; [limit] iterations are enough,
    because every iteration lengthens a list that the condition bounds. *)

From stdpp Require Import prelude strings gmap fin_maps.
From S2P Require Import Prelude Text Platform SemanticModel TextOps ContextCoordinate.
From S2P Require Import ContextModel SemanticResult SemanticVerify.

Definition project_view_kind_rank (kind : ProjectViewSemanticType) : N :=
  match kind with
  | ProjectViewSemanticType.ProjectProfile => 0
  | ProjectViewSemanticType.Goal => 1
  | ProjectViewSemanticType.Role => 2
  | ProjectViewSemanticType.Plan => 3
  | ProjectViewSemanticType.Stage => 4
  | ProjectViewSemanticType.Requirement => 5
  | ProjectViewSemanticType.Issue => 6
  | ProjectViewSemanticType.Work => 7
  | ProjectViewSemanticType.Resource => 8
  end%N.

Definition source_kind_rank (kind : SemanticSourceKind) : N * N :=
  match kind with
  | SemanticSourceKind.ProjectView subtype => (0, project_view_kind_rank subtype)
  | SemanticSourceKind.ProjectDocument => (1, 0)
  | SemanticSourceKind.Meeting => (2, 0)
  end%N.

(** [<(u8, u8) as Ord>::cmp] *)
Definition rank_cmp (a b : N * N) : comparison :=
  then_with (N.compare a.1 b.1) (N.compare a.2 b.2).

Module AutomaticRootLane.
Inductive AutomaticRootLane : Type :=
| ProblemNeutral
| Mixed.

#[global] Instance AutomaticRootLane_eq_dec : EqDecision AutomaticRootLane.
Proof. solve_decision. Defined.
End AutomaticRootLane.
Abbreviation AutomaticRootLane := AutomaticRootLane.AutomaticRootLane.

Section roots.
Context `{P : Platform}.

Record RootPairRedundancy : Type := mkRootPairRedundancy {
  other_source : SemanticSourceIdentity;
  similarity : Score;
}.

#[global] Instance RootPairRedundancy_eq_dec : EqDecision RootPairRedundancy.
Proof. solve_decision. Defined.

Record RootSelectionCandidate : Type := mkRootSelectionCandidate {
  cand_source : SemanticSourceIdentity;
  cand_problem_score : Score;
  cand_candidate_score : Score;
  cand_discovered_problem_neutral : bool;
  cand_redundancy_to : list RootPairRedundancy;
}.

#[global] Instance RootSelectionCandidate_eq_dec : EqDecision RootSelectionCandidate.
Proof. solve_decision. Defined.

Record SelectedAutomaticRoot : Type := mkSelectedAutomaticRoot {
  sel_source : SemanticSourceIdentity;
  sel_lane : AutomaticRootLane;
  sel_relevance_score : Score;
  sel_selection_priority : Score;
}.

#[global] Instance SelectedAutomaticRoot_eq_dec : EqDecision SelectedAutomaticRoot.
Proof. solve_decision. Defined.

Definition compare_sources (left right : SemanticSourceIdentity) : comparison :=
  then_with (slice_cmp (Uuid_as_bytes left.(src_community_id)) (Uuid_as_bytes right.(src_community_id)))
    (then_with (rank_cmp (source_kind_rank left.(src_kind)) (source_kind_rank right.(src_kind)))
       (slice_cmp (Uuid_as_bytes left.(src_source_id)) (Uuid_as_bytes right.(src_source_id)))).

(** The closure that turns a candidate into a selectable root. *)
Definition prioritized (selected : list SelectedAutomaticRoot) (lane : AutomaticRootLane)
    (candidate : RootSelectionCandidate) : SelectedAutomaticRoot :=
  let relevance :=
    match lane with
    | AutomaticRootLane.ProblemNeutral => candidate.(cand_problem_score)
    | AutomaticRootLane.Mixed => candidate.(cand_candidate_score)
    end in
  let redundancy :=
    default Score_ZERO
      (max_by Score_cmp
         (omap (λ item,
                  similarity <$>
                    List.find (λ pair, bool_decide (pair.(other_source) = item.(sel_source)))
                      candidate.(cand_redundancy_to)) selected)) in
  {| sel_source := candidate.(cand_source);
     sel_lane := lane;
     sel_relevance_score := relevance;
     sel_selection_priority := root_diversity_priority relevance redundancy |}.

Definition selected_cmp (left right : SelectedAutomaticRoot) : comparison :=
  then_with (Score_cmp left.(sel_selection_priority) right.(sel_selection_priority))
    (then_with (Score_cmp left.(sel_relevance_score) right.(sel_relevance_score))
       (compare_sources right.(sel_source) left.(sel_source))).

Definition best_candidate (candidates : list RootSelectionCandidate)
    (selected : list SelectedAutomaticRoot) (lane : AutomaticRootLane) : option SelectedAutomaticRoot :=
  max_by selected_cmp
    (prioritized selected lane <$>
       List.filter (λ candidate,
                      negb (existsb (λ item, bool_decide (item.(sel_source) = candidate.(cand_source)))
                              selected)
                      && (bool_decide (lane = AutomaticRootLane.Mixed)
                          || candidate.(cand_discovered_problem_neutral))) candidates).

(** [while selected.len() < bound { let Some(next) = pick else { break }; push }] *)
Fixpoint fill (fuel : nat) (bound : N)
    (pick : list SelectedAutomaticRoot → option SelectedAutomaticRoot)
    (selected : list SelectedAutomaticRoot) : list SelectedAutomaticRoot :=
  match fuel with
  | O => selected
  | S fuel =>
      if (len selected <? bound)%N then
        match pick selected with
        | Some next => fill fuel bound pick (selected ++ [next])
        | None => selected
        end
      else selected
  end.

Definition pinned_cmp (left right : RootSelectionCandidate) : comparison :=
  then_with (Score_cmp left.(cand_problem_score) right.(cand_problem_score))
    (compare_sources right.(cand_source) left.(cand_source)).

(** [select_automatic_roots], with the fuel of its two loops. *)
Definition select_automatic_roots_fuel (fuel : nat) (candidates : list RootSelectionCandidate)
    (max_semantic_roots : N) : QueryContractResult (list SelectedAutomaticRoot) :=
  let candidates :=
    List.filter (λ candidate, raw BASE_ENTRY_FLOOR <=? raw candidate.(cand_problem_score))%N candidates in
  let candidates :=
    sort_by (λ left right, compare_sources left.(cand_source) right.(cand_source)) candidates in
  reject_if (windows2_any (λ a b, bool_decide (a.(cand_source) = b.(cand_source))) candidates)
    (query_state_error "automatic root candidates must be unique by source") ?;
  if (max_semantic_roots =? 0)%N then Ok []
  else
    let limit := max_semantic_roots in
    let neutral_reserved := ((limit + 1) / 2)%N in
    let pinned := max_by pinned_cmp (List.filter cand_discovered_problem_neutral candidates) in
    let selected :=
      match pinned with
      | Some pinned =>
          [ {| sel_source := pinned.(cand_source);
               sel_lane := AutomaticRootLane.ProblemNeutral;
               sel_relevance_score := pinned.(cand_problem_score);
               sel_selection_priority := pinned.(cand_problem_score) |} ]
      | None => []
      end in
    let selected :=
      fill fuel (N.min neutral_reserved limit)
        (λ selected, best_candidate candidates selected AutomaticRootLane.ProblemNeutral) selected in
    let selected :=
      fill fuel limit
        (λ selected, best_candidate candidates selected AutomaticRootLane.Mixed) selected in
    Ok selected.

Definition select_automatic_roots (candidates : list RootSelectionCandidate) (max_semantic_roots : N)
  : QueryContractResult (list SelectedAutomaticRoot) :=
  select_automatic_roots_fuel (N.to_nat max_semantic_roots) candidates max_semantic_roots.

End roots.

(** * Semantic query: the traversal frontier

    Models [buzz-semantic-query/src/frontier.rs] except its continuation types,
    which carry no code: path prefixes and their extension by one hop, the
    materialization counters and the per-state beam. *)


(** [u16::try_from(value).ok()] *)
Definition u16_try_from (n : N) : option N := if (n <=? 65535)%N then Some n else None.

(** [Iterator::min_by_key]: the first of the least elements. *)
Definition min_by_key {A} (key : A → N) (l : list A) : option A :=
  foldl (λ best x, match best with
                   | Some b => if (key x <? key b)%N then Some x else Some b
                   | None => Some x
                   end) None l.

(** [WasAdmitted] is the variant of that name without its prefix, renamed because it is a keyword here. *)
Module CounterAdmission.
Inductive CounterAdmission : Type :=
| Reused
| WasAdmitted
| Exhausted.

#[global] Instance CounterAdmission_eq_dec : EqDecision CounterAdmission.
Proof. solve_decision. Defined.
End CounterAdmission.
Abbreviation CounterAdmission := CounterAdmission.CounterAdmission.

Section frontier.
Context `{P : Platform}.

(** ** Path prefixes *)

Record FrontierPathState : Type := mkFrontierPathState {
  fps_root_id : Digest32;
  fps_structural_entrypoint : RootStructuralEntrypoint;
  fps_hops : list SemanticHyperedgeHop;
  fps_current_coordinate : option ProjectContextCoordinate;
  fps_visited_coordinates : gset ProjectContextCoordinate;
  fps_visited_edges : gset EdgeKey;
  fps_root_score : option Score;
  fps_path_score : option Score;
}.

Definition FrontierPathState_seed (root_id : Digest32)
    (structural_entrypoint : RootStructuralEntrypoint) (root_score : option Score)
  : FrontierPathState :=
  let current_coordinate :=
    match structural_entrypoint with
    | EntryCoordinate coordinate => Some coordinate
    | EntryContextDocument _ _ _ _ => None
    end in
  {| fps_root_id := root_id;
     fps_structural_entrypoint := structural_entrypoint;
     fps_hops := [];
     fps_current_coordinate := current_coordinate;
     fps_visited_coordinates := list_to_set (option_list current_coordinate);
     fps_visited_edges := ∅;
     fps_root_score := root_score;
     fps_path_score := root_score |}.

(** [hop.ordinal = ordinal] *)
Definition set_ordinal (hop : SemanticHyperedgeHop) (ordinal : N) : SemanticHyperedgeHop :=
  mkSemanticHyperedgeHop ordinal hop.(hop_entered_from_coordinate) hop.(hop_edge)
    hop.(hop_selected_relation_document) hop.(hop_continued_to_coordinate)
    hop.(hop_transition_score).

Definition append_hop (self : FrontierPathState) (hop : SemanticHyperedgeHop)
  : QueryContractResult FrontierPathState :=
  let target := hop.(hop_continued_to_coordinate).(con_coordinate) in
  reject_if (negb (bool_decide (hop.(hop_entered_from_coordinate) = self.(fps_current_coordinate))))
    (query_state_error "frontier successor is not Coordinate-contiguous") ?;
  (if is_empty self.(fps_hops) then
     reject_if (negb (path_starts_at_entrypoint hop self.(fps_structural_entrypoint)))
       (query_state_error "frontier successor does not start at its structural entrypoint")
   else Ok tt) ?;
  reject_if (is_some_and (λ entered,
                            negb (bool_decide (entered ∈ hop.(hop_edge).(edge_complete_coordinates))))
               hop.(hop_entered_from_coordinate))
    (query_state_error "frontier entered Coordinate is not a complete Hyperedge member") ?;
  reject_if (negb (bool_decide (target ∈ hop.(hop_edge).(edge_complete_coordinates)))
             || bool_decide (hop.(hop_entered_from_coordinate) = Some target))
    (query_state_error "frontier target Coordinate is not a distinct complete Hyperedge member") ?;
  reject_if (bool_decide (hop.(hop_edge).(edge_edge_key) ∈ self.(fps_visited_edges))
             || bool_decide (target ∈ self.(fps_visited_coordinates)))
    (query_state_error "frontier successor repeats a path Coordinate or Edge") ?;
  let? ordinal :=
    ok_or (value ← u64_checked_add (len self.(fps_hops)) 1; u16_try_from value)
      (query_state_error "hop ordinal overflow") in
  let hop := set_ordinal hop ordinal in
  let hops := self.(fps_hops) ++ [hop] in
  let transitions := hop_transition_score <$> hops in
  let? explanation :=
    map_err (λ error, SemanticGraphQueryError.InvalidScore (ScoreError_to_string error))
      (path_score self.(fps_root_score) transitions) in
  Ok {| fps_root_id := self.(fps_root_id);
        fps_structural_entrypoint := self.(fps_structural_entrypoint);
        fps_hops := hops;
        fps_current_coordinate := Some target;
        fps_visited_coordinates := {[ target ]} ∪ self.(fps_visited_coordinates);
        fps_visited_edges := {[ hop.(hop_edge).(edge_edge_key) ]} ∪ self.(fps_visited_edges);
        fps_root_score := self.(fps_root_score);
        fps_path_score := explanation.(ps_final_score) |}.

Definition scheduling_priority (self : FrontierPathState) : Score :=
  default Score_ZERO self.(fps_path_score).

(** ** Keys *)

Definition append_coordinate_key (output : list N) (coordinate : ProjectContextCoordinate) : list N :=
  match coordinate with
  | ProjectContextCoordinate.ProjectViewObject object_type object_id =>
      output ++ [0%N] ++ lit (ProjectViewObjectType_as_str object_type) ++ [0%N]
      ++ Uuid_as_bytes object_id
  | ProjectContextCoordinate.Document document_id => output ++ [1%N] ++ Uuid_as_bytes document_id
  | ProjectContextCoordinate.Meeting meeting_id => output ++ [2%N] ++ Uuid_as_bytes meeting_id
  end.

Definition structural_entrypoint_key (entrypoint : RootStructuralEntrypoint) : list N :=
  match entrypoint with
  | EntryCoordinate coordinate => append_coordinate_key [0%N] coordinate
  | EntryContextDocument edge_key document_id _ _ =>
      [1%N] ++ edge_key.(edge_key_bytes) ++ Uuid_as_bytes document_id
  end.

(** One iteration over the hops. *)
Definition append_hop_key (key : list N) (hop : SemanticHyperedgeHop) : list N :=
  append_coordinate_key
    (key ++ hop.(hop_edge).(edge_edge_key).(edge_key_bytes)
     ++ Uuid_as_bytes hop.(hop_selected_relation_document).(rel_document_id))
    hop.(hop_continued_to_coordinate).(con_coordinate).

Definition provenance_key (self : FrontierPathState) : list N :=
  foldl append_hop_key (structural_entrypoint_key self.(fps_structural_entrypoint)) self.(fps_hops).

(** ** Materialization counters *)

(** [ExpandedCoordinateKey], [RelationOptionKey] and [TargetOptionKey] *)
Definition ExpandedCoordinateKey : Type := list N * ProjectContextCoordinate.
Definition RelationOptionKey : Type := option ProjectContextCoordinate * EdgeKey * Uuid.
Definition TargetOptionKey : Type :=
  option ProjectContextCoordinate * EdgeKey * Uuid * ProjectContextCoordinate.

#[global] Instance ExpandedCoordinateKey_eq_dec : EqDecision ExpandedCoordinateKey.
Proof. unfold ExpandedCoordinateKey. apply _. Defined.
#[global] Instance ExpandedCoordinateKey_countable : Countable ExpandedCoordinateKey.
Proof. unfold ExpandedCoordinateKey. apply prod_countable. Defined.
#[global] Instance RelationOptionKey_eq_dec : EqDecision RelationOptionKey.
Proof. unfold RelationOptionKey. apply _. Defined.
#[global] Instance RelationOptionKey_countable : Countable RelationOptionKey.
Proof. unfold RelationOptionKey. apply prod_countable. Defined.
#[global] Instance TargetOptionKey_eq_dec : EqDecision TargetOptionKey.
Proof. unfold TargetOptionKey. apply _. Defined.
#[global] Instance TargetOptionKey_countable : Countable TargetOptionKey.
Proof. unfold TargetOptionKey. apply prod_countable. Defined.

Record TraversalMaterializationCounters : Type := mkCounters {
  expanded_coordinates : gset ExpandedCoordinateKey;
  incident_edges : gset EdgeKey;
  relation_options : gset RelationOptionKey;
  target_options : gset TargetOptionKey;
}.

Definition TraversalMaterializationCounters_default : TraversalMaterializationCounters :=
  mkCounters ∅ ∅ ∅ ∅.

Definition admit_unique {T} `{Countable T} (set : gset T) (key : T) (cap : N)
  : gset T * CounterAdmission :=
  if bool_decide (key ∈ set) then (set, CounterAdmission.Reused)
  else if (cap <=? N.of_nat (size set))%N then (set, CounterAdmission.Exhausted)
  else ({[ key ]} ∪ set, CounterAdmission.WasAdmitted).

Definition admit_expanded_coordinate (self : TraversalMaterializationCounters)
    (state : FrontierPathState) (coordinate : ProjectContextCoordinate)
    (budget : SemanticGraphQueryBudget) : TraversalMaterializationCounters * CounterAdmission :=
  let '(set, admission) :=
    admit_unique self.(expanded_coordinates) (provenance_key state, coordinate)
      budget.(SemanticModel.max_expanded_coordinates) in
  (mkCounters set self.(incident_edges) self.(relation_options) self.(target_options), admission).

Definition admit_incident_edge (self : TraversalMaterializationCounters) (edge_key : EdgeKey)
    (budget : SemanticGraphQueryBudget) : TraversalMaterializationCounters * CounterAdmission :=
  let '(set, admission) :=
    admit_unique self.(incident_edges) edge_key budget.(max_incident_edges_materialized) in
  (mkCounters self.(expanded_coordinates) set self.(relation_options) self.(target_options),
   admission).

Definition admit_relation_option (self : TraversalMaterializationCounters)
    (entered_from : option ProjectContextCoordinate) (edge_key : EdgeKey) (document_id : Uuid)
    (budget : SemanticGraphQueryBudget) : TraversalMaterializationCounters * CounterAdmission :=
  let '(set, admission) :=
    admit_unique self.(relation_options) (entered_from, edge_key, document_id)
      budget.(max_relation_options_materialized) in
  (mkCounters self.(expanded_coordinates) self.(incident_edges) set self.(target_options), admission).

Definition admit_target_option (self : TraversalMaterializationCounters)
    (entered_from : option ProjectContextCoordinate) (edge_key : EdgeKey) (document_id : Uuid)
    (target : ProjectContextCoordinate) (budget : SemanticGraphQueryBudget)
  : TraversalMaterializationCounters * CounterAdmission :=
  let '(set, admission) :=
    admit_unique self.(target_options) (entered_from, edge_key, document_id, target)
      budget.(max_target_options_materialized) in
  (mkCounters self.(expanded_coordinates) self.(incident_edges) self.(relation_options) set, admission).

(** ** The beam *)

Record BoundedSuccessorAccumulator : Type := mkAccumulator {
  acc_beam_width : N;
  acc_successors : list FrontierPathState;
  acc_observed_suppressed_successor : bool;
}.

Definition BoundedSuccessorAccumulator_new (beam_width : N)
  : QueryContractResult BoundedSuccessorAccumulator :=
  reject_if ((beam_width =? 0) || (MAX_BEAM_WIDTH <? beam_width))%N
    (query_state_error "successor accumulator beam width is outside the closed cap") ?;
  Ok {| acc_beam_width := beam_width;
        acc_successors := [];
        acc_observed_suppressed_successor := false |}.

Definition compare_path_states (left right : FrontierPathState) : comparison :=
  then_with (Score_cmp (scheduling_priority right) (scheduling_priority left))
    (slice_cmp (provenance_key left) (provenance_key right)).

(** [Vec::pop], which drops the last element *)
Definition pop {A} (l : list A) : list A := take (length l - 1) l.

Definition BoundedSuccessorAccumulator_admit (self : BoundedSuccessorAccumulator)
    (successor : FrontierPathState) : BoundedSuccessorAccumulator * bool :=
  let supplied_key := provenance_key successor in
  let successors := sort_by compare_path_states (self.(acc_successors) ++ [successor]) in
  let '(successors, suppressed) :=
    if (self.(acc_beam_width) <? len successors)%N then (pop successors, true)
    else (successors, self.(acc_observed_suppressed_successor)) in
  (mkAccumulator self.(acc_beam_width) successors suppressed,
   existsb (λ state, bool_decide (provenance_key state = supplied_key)) successors).

Definition into_successors (self : BoundedSuccessorAccumulator) : list FrontierPathState :=
  self.(acc_successors).

(** ** Scheduling *)

(** [usize::div_ceil] *)
Definition first_wave_slice (remaining_budget remaining_seeds : N) : N :=
  if (remaining_seeds =? 0)%N then 0%N
  else ((remaining_budget + (remaining_seeds - 1)) / remaining_seeds)%N.

Definition highest_precedence_stop (reasons : list BranchStopReason) : option BranchStopReason :=
  min_by_key BranchStopReason_precedence reasons.

End frontier.
