(* ===== verification/SemanticScoreFacts.v ===== *)
(** * Semantic query: what the scores compute

    Fixed-point scores stay between zero and one, so the casts to [u32] are
    exact; products, weighted sums and the harmonic mean are monotone and lie
    where the exact values do; a path score is total and is a weighted mean. *)

From stdpp Require Import prelude strings.
From S2P Require Import Prelude Text Platform ContextCoordinate SemanticModel.

Local Open Scope N_scope.

(** ** Rounded division *)

Lemma round_div_le n d b : 0 < d → n ≤ b * d → round_div n d ≤ b.
Proof.
  intros Hd Hn. unfold round_div. assert (d / 2 < d) by (apply N.div_lt; lia).
  generalize dependent (d / 2). intros h Hh.
  enough ((n + h) / d < b + 1) by lia. apply N.Div0.div_lt_upper_bound. nia.
Qed.

Lemma round_div_ge n d a : 0 < d → a * d ≤ n → a ≤ round_div n d.
Proof.
  intros Hd Hn. unfold round_div. generalize (d / 2). intros h. apply N.div_le_lower_bound; nia.
Qed.

Lemma round_div_mono n n' d : 0 < d → n ≤ n' → round_div n d ≤ round_div n' d.
Proof. intros Hd Hn. unfold round_div. apply N.Div0.div_le_mono. lia. Qed.

(** The rounded quotient is within half a unit of the exact one. *)
Lemma round_div_near n d :
  0 < d → 2 * n < 2 * (d * round_div n d) + d ∧ 2 * (d * round_div n d) ≤ 2 * n + d.
Proof.
  intros Hd. unfold round_div. pose proof (N.div_mod (n + d / 2) d ltac:(lia)) as E.
  pose proof (N.mod_lt (n + d / 2) d ltac:(lia)) as Hr.
  pose proof (N.div_mod d 2 ltac:(lia)) as E2. pose proof (N.mod_lt d 2 ltac:(lia)) as Hr2.
  generalize dependent ((n + d / 2) mod d). generalize dependent (d * ((n + d / 2) / d)).
  generalize dependent (d mod 2). generalize dependent (d / 2). intros. lia.
Qed.

Lemma as_u32_id x : x < 4294967296 → as_u32 x = x.
Proof. apply N.mod_small. Qed.

(** ** Valid scores *)

Definition score_ok (s : Score) : Prop := raw s ≤ SCORE_SCALE.

#[global] Instance score_ok_dec s : Decision (score_ok s).
Proof. unfold score_ok. apply _. Defined.

Lemma Score_new_Ok v s : Score_new v = Ok s ↔ score_ok s ∧ s = mkScore v.
Proof.
  unfold Score_new, score_ok. destruct (N.ltb_spec SCORE_SCALE v); split; try done.
  - intros [? ->]. simpl in *. lia.
  - by intros [= <-].
  - by intros [_ ->].
Qed.

Lemma scale_bound s : score_ok s → raw s < 4294967296.
Proof. unfold score_ok, SCORE_SCALE. lia. Qed.

Lemma score_inj a b : raw a = raw b → a = b.
Proof. destruct a, b. simpl. by intros ->. Qed.

Lemma mul_score_raw a b :
  score_ok a → score_ok b → raw (mul_score a b) = round_div (raw a * raw b) SCORE_SCALE.
Proof.
  unfold score_ok. intros Ha Hb. unfold mul_score. cbn [raw]. apply as_u32_id.
  assert (round_div (raw a * raw b) SCORE_SCALE ≤ SCORE_SCALE); [|unfold SCORE_SCALE in *; lia].
  apply round_div_le; [done|]. nia.
Qed.

Lemma mul_score_ok a b : score_ok a → score_ok b → score_ok (mul_score a b).
Proof.
  intros Ha Hb. unfold score_ok. rewrite mul_score_raw by done.
  apply round_div_le; [done|]. unfold score_ok in *. nia.
Qed.

Lemma mul_score_mono a b b' :
  score_ok a → score_ok b → score_ok b' → raw b ≤ raw b' → raw (mul_score a b) ≤ raw (mul_score a b').
Proof.
  intros Ha Hb Hb' Hle. rewrite !mul_score_raw by done. apply round_div_mono; [done|]. nia.
Qed.

(** Multiplying by a score does not increase. *)
Lemma mul_score_le a b : score_ok a → score_ok b → raw (mul_score a b) ≤ raw a.
Proof.
  intros Ha Hb. rewrite mul_score_raw by done. apply round_div_le; [done|].
  unfold score_ok in Hb. nia.
Qed.

Definition term_ok (t : Score * Score) : Prop := score_ok t.1 ∧ score_ok t.2.

Lemma weighted_score_raw terms :
  raw (weighted_score terms)
  = N.min (sum_list ((λ '(w, s), raw (mul_score w s)) <$> terms)) SCORE_SCALE.
Proof.
  unfold weighted_score. cbn [raw]. apply as_u32_id. unfold SCORE_SCALE. lia.
Qed.

Lemma weighted_score_ok terms : score_ok (weighted_score terms).
Proof. unfold score_ok. rewrite weighted_score_raw. lia. Qed.

(** Componentwise larger scores under the same weights. *)
Lemma weighted_score_mono terms terms' :
  Forall2 (λ t t', t.1 = t'.1 ∧ term_ok t ∧ term_ok t' ∧ raw t.2 ≤ raw t'.2) terms terms' →
  raw (weighted_score terms) ≤ raw (weighted_score terms').
Proof.
  intros H. rewrite !weighted_score_raw. apply N.min_le_compat_r.
  induction H as [|[w s] [w' s'] ts ts' (Hw & [Hok ?] & [? ?] & Hle) _ IH]; [done|]. simpl in *. subst w'.
  pose proof (mul_score_mono w s s' ltac:(done) ltac:(done) ltac:(done) Hle).
  apply N.add_le_mono; [done|exact IH].
Qed.

Lemma harmonic_score_raw a b :
  score_ok a → score_ok b →
  raw (harmonic_score a b)
  = if decide (raw a = 0 ∨ raw b = 0) then 0 else round_div (2 * raw a * raw b) (raw a + raw b).
Proof.
  intros Ha Hb. unfold harmonic_score.
  assert (∀ s, bool_decide (s = Score_ZERO) = bool_decide (raw s = 0)) as Hz.
  { intros s. apply bool_decide_ext. split; [by intros ->|]. intros H. by apply score_inj. }
  rewrite !Hz. case_decide as Hc.
  - destruct Hc as [Hc|Hc]; rewrite (bool_decide_eq_true_2 _ Hc); [done|]. by rewrite orb_true_r.
  - rewrite !bool_decide_eq_false_2 by tauto. cbn [orb raw]. apply as_u32_id.
    assert (round_div (2 * raw a * raw b) (raw a + raw b) ≤ SCORE_SCALE); [|unfold SCORE_SCALE in *; lia].
    unfold score_ok in *. apply round_div_le; nia.
Qed.

Lemma harmonic_score_comm a b : score_ok a → score_ok b → harmonic_score a b = harmonic_score b a.
Proof.
  intros Ha Hb. apply score_inj. rewrite !harmonic_score_raw by done.
  destruct (decide (raw a = 0 ∨ raw b = 0)), (decide (raw b = 0 ∨ raw a = 0)); try tauto.
  f_equal; lia.
Qed.

(** The harmonic mean lies between its arguments, unless one of them is zero. *)
Lemma harmonic_score_between a b :
  score_ok a → score_ok b → raw a ≠ 0 → raw b ≠ 0 →
  N.min (raw a) (raw b) ≤ raw (harmonic_score a b) ≤ N.max (raw a) (raw b).
Proof.
  intros Ha Hb Hza Hzb. rewrite harmonic_score_raw by done. rewrite decide_False by tauto.
  split.
  - apply round_div_ge; [lia|]. destruct (N.min_spec (raw a) (raw b)) as [[? ->]|[? ->]]; nia.
  - apply round_div_le; [lia|]. destruct (N.max_spec (raw a) (raw b)) as [[? ->]|[? ->]]; nia.
Qed.

Lemma harmonic_score_ok a b : score_ok a → score_ok b → score_ok (harmonic_score a b).
Proof.
  intros Ha Hb. destruct (decide (raw a = 0 ∨ raw b = 0)) as [Hz|Hz].
  - unfold score_ok. rewrite harmonic_score_raw by done. rewrite decide_True by done. done.
  - pose proof (harmonic_score_between a b Ha Hb ltac:(tauto) ltac:(tauto)). unfold score_ok in *. lia.
Qed.

Lemma document_score_ok p e c : score_ok p → score_ok e → score_ok (document_score p e c).
Proof.
  intros Hp He. destruct c; [apply weighted_score_ok|]. unfold score_ok, document_score in *. cbn [raw].
  assert (round_div (7 * raw p + 2 * raw e) 9 ≤ SCORE_SCALE) as Hle by (apply round_div_le; lia).
  rewrite as_u32_id; [done|unfold SCORE_SCALE in *; lia].
Qed.

Lemma anchor_ok a : score_ok (AnchorGain_score a).
Proof. by destruct a. Qed.

(** ** Discounts *)

Lemma length_discounts w ts : length (discounts w ts) = length ts.
Proof. revert w. induction ts as [|t ts IH]; intros w; simpl; [done|]. by rewrite IH. Qed.

(** The weight never reaches zero: half-up rounding keeps three millionths. *)
Lemma mul_discount_pos w : score_ok w → 3 ≤ raw w → 3 ≤ raw (mul_score w DISCOUNT_FACTOR).
Proof.
  intros Hw H3. rewrite mul_score_raw by done. unfold round_div, SCORE_SCALE, DISCOUNT_FACTOR. cbn [raw].
  apply N.div_le_lower_bound; [done|]. change (1000000 / 2) with 500000. lia.
Qed.

Lemma discounts_ok w ts :
  score_ok w → 3 ≤ raw w → Forall (λ d, score_ok d ∧ 3 ≤ raw d ∧ raw d ≤ raw w) (discounts w ts).
Proof.
  revert w. induction ts as [|t ts IH]; intros w Hw H3; simpl; [constructor|].
  constructor; [done|]. eapply Forall_impl; [apply IH|].
  - by apply mul_score_ok.
  - by apply mul_discount_pos.
  - intros d (? & ? & Hd). pose proof (mul_score_le w DISCOUNT_FACTOR Hw ltac:(done)). simpl. split_and!; [done..|lia].
Qed.

(** ** Totals of a path *)

Definition products (ts ds : list Score) : N := sum_list (zip_with (λ t d, raw t * raw d) ts ds).
Definition weights (ds : list Score) : N := sum_list (raw <$> ds).

Lemma weights_cons d ds : weights (d :: ds) = raw d + weights ds.
Proof. done. Qed.
Lemma products_cons t ts d ds : products (t :: ts) (d :: ds) = raw t * raw d + products ts ds.
Proof. done. Qed.

Lemma weights_le ds : Forall score_ok ds → weights ds ≤ len ds * SCORE_SCALE.
Proof.
  induction 1 as [|d ds Hd _ IH]; [done|]. rewrite weights_cons.
  assert (len (d :: ds) = 1 + len ds) as -> by (unfold len; simpl length; lia).
  unfold score_ok in Hd. lia.
Qed.

Lemma products_le ts ds b :
  length ts = length ds → Forall (λ t, raw t ≤ b) ts → products ts ds ≤ b * weights ds.
Proof.
  intros Hl H. revert ds Hl.
  induction H as [|t ts Ht _ IH]; intros [|d ds] Hl; try discriminate Hl; [apply N.le_0_l|].
  injection Hl as Hl. specialize (IH ds Hl). rewrite products_cons, weights_cons. nia.
Qed.

Lemma products_ge ts ds a :
  length ts = length ds → Forall (λ t, a ≤ raw t) ts → a * weights ds ≤ products ts ds.
Proof.
  intros Hl H. revert ds Hl.
  induction H as [|t ts Ht _ IH]; intros [|d ds] Hl; try discriminate Hl; [by rewrite N.mul_0_r|].
  injection Hl as Hl. specialize (IH ds Hl). rewrite products_cons, weights_cons. nia.
Qed.

Lemma products_mono ts ts' ds :
  Forall2 (λ t t', raw t ≤ raw t') ts ts' → products ts ds ≤ products ts' ds.
Proof.
  intros H. revert ds. induction H as [|t t' ts ts' Ht _ IH]; intros [|d ds]; try apply N.le_0_l.
  specialize (IH ds). rewrite !products_cons. nia.
Qed.

(** The loop adds the products and the weights, as long as they fit. *)
Lemma add_transitions ts ds n d :
  length ts = length ds →
  n + products ts ds ≤ u128_max → d + weights ds ≤ u128_max →
  try_fold add_transition (n, d) (zip ts ds) = Ok (n + products ts ds, d + weights ds).
Proof.
  revert ds n d. induction ts as [|t ts IH]; intros [|w ds] n d Hl Hn Hd; try discriminate Hl.
  - unfold products, weights, sum_list. simpl. by rewrite !N.add_0_r.
  - injection Hl as Hl. rewrite products_cons, weights_cons in *. cbn [zip zip_with try_fold add_transition].
    unfold u128_checked_add. rewrite !(proj2 (N.leb_le _ _)) by lia. cbn [ok_or rbind].
    rewrite IH by (done || lia). f_equal. f_equal; lia.
Qed.

(** The number of elements of a Rust slice. *)
Definition slice_len {A} (l : list A) : Prop := len l ≤ u64_max.

Definition root_part (root : option Score) : N * N :=
  match root with Some r => (raw r * SCORE_SCALE, SCORE_SCALE) | None => (0, 0) end.

Definition path_quality (root : option Score) (ts : list Score) : option Score :=
  let ds := discounts Score_ONE ts in
  if decide (root = None ∧ ts = []) then None
  else Some (mkScore (round_div ((root_part root).1 + products ts ds) ((root_part root).2 + weights ds))).

Definition path_penalty (ts : list Score) : Score :=
  mkScore (N.min (len ts * raw HOP_PENALTY) SCORE_SCALE).

Definition root_ok (root : option Score) : Prop := ∀ r, root = Some r → score_ok r.

Lemma path_denominator root ts :
  (root_part root).2 + weights (discounts Score_ONE ts) = 0 ↔ root = None ∧ ts = [].
Proof.
  unfold weights, sum_list. destruct root as [r|]; simpl; [split; [unfold SCORE_SCALE; lia|by intros []]|].
  destruct ts as [|t ts]; simpl; [done|]. split; [unfold SCORE_SCALE; lia|by intros []].
Qed.

(** All components between [a] and [b]. *)
Definition components_within (a b : N) (root : option Score) (ts : list Score) : Prop :=
  (∀ r, root = Some r → a ≤ raw r ≤ b) ∧ Forall (λ t, a ≤ raw t ≤ b) ts.

(** A weighted mean lies between its components. *)
Lemma path_quality_between a b root ts q :
  components_within a b root ts → path_quality root ts = Some q → a ≤ raw q ≤ b.
Proof.
  intros [Hr Ht]. unfold path_quality. case_decide as Hc; [done|]. intros [= <-]. cbn [raw].
  pose proof (path_denominator root ts) as Hd.
  assert (0 < (root_part root).2 + weights (discounts Score_ONE ts)) by (destruct (N.eq_0_gt_0_cases ((root_part root).2 + weights (discounts Score_ONE ts))); [tauto|lia]).
  pose proof (length_discounts Score_ONE ts) as Hl.
  pose proof (products_le ts (discounts Score_ONE ts) b ltac:(done)
    ltac:(eapply Forall_impl; [exact Ht|naive_solver])).
  pose proof (products_ge ts (discounts Score_ONE ts) a ltac:(done)
    ltac:(eapply Forall_impl; [exact Ht|naive_solver])).
  assert (a * (root_part root).2 ≤ (root_part root).1 ≤ b * (root_part root).2).
  { destruct root as [r|]; simpl; [|lia]. specialize (Hr r eq_refl). nia. }
  split; [apply round_div_ge|apply round_div_le]; nia.
Qed.

Lemma components_ok root ts :
  root_ok root → Forall score_ok ts → components_within 0 SCORE_SCALE root ts.
Proof.
  intros Hr Ht. split; [intros r Hroot; split; [lia|by apply Hr]|].
  eapply Forall_impl; [exact Ht|]. intros t Hok. split; [lia|exact Hok].
Qed.

(** The totals of a path stay far below the width of the accumulators. *)
Lemma path_totals_fit root ts :
  root_ok root → Forall score_ok ts → slice_len ts →
  let ds := discounts Score_ONE ts in
  (root_part root).1 + products ts ds ≤ u128_max ∧ (root_part root).2 + weights ds ≤ u128_max.
Proof.
  intros Hroot Hts Hlen ds. pose proof (length_discounts Score_ONE ts) as Hl. fold ds in Hl.
  assert (weights ds ≤ u64_max * SCORE_SCALE) as Hw.
  { pose proof (discounts_ok Score_ONE ts ltac:(done) ltac:(unfold Score_ONE, SCORE_SCALE; simpl; lia)) as Hd.
    assert (Forall score_ok ds) as Hok by (eapply Forall_impl; [exact Hd|naive_solver]).
    pose proof (weights_le ds Hok). unfold slice_len, len in *. rewrite Hl in *. nia. }
  assert (products ts ds ≤ SCORE_SCALE * weights ds) as Hp by (by apply products_le).
  assert ((root_part root).1 ≤ SCORE_SCALE * SCORE_SCALE ∧ (root_part root).2 ≤ SCORE_SCALE) as Hr.
  { destruct root as [r|]; simpl; [|lia]. specialize (Hroot r eq_refl). unfold score_ok in Hroot. nia. }
  unfold SCORE_SCALE, u64_max, u128_max in *. lia.
Qed.

Lemma root_totals root :
  root_ok root →
  match root with
  | Some root =>
      let? numerator := ok_or (u128_checked_add 0 (raw root * SCORE_SCALE)) ArithmeticOverflow in
      let? denominator := ok_or (u128_checked_add 0 SCORE_SCALE) ArithmeticOverflow in
      Ok (numerator, denominator)
  | None => Ok (0, 0)
  end = Ok (root_part root).
Proof.
  destruct root as [r|]; [|done]. intros Hr. specialize (Hr r eq_refl).
  unfold u128_checked_add, score_ok, SCORE_SCALE, u128_max in *.
  rewrite !(proj2 (N.leb_le _ _)) by lia. done.
Qed.

Lemma path_quality_cast root ts :
  root_ok root → Forall score_ok ts →
  let ds := discounts Score_ONE ts in
  let d := (root_part root).2 + weights ds in
  (if d =? 0 then None
   else Some (mkScore (as_u32 (round_div ((root_part root).1 + products ts ds) d)))) = path_quality root ts.
Proof.
  intros Hroot Hts ds d. pose proof (path_denominator root ts) as Hd. fold ds d in Hd.
  destruct (path_quality root ts) as [q|] eqn:Hq.
  - pose proof (path_quality_between 0 SCORE_SCALE root ts q (components_ok _ _ Hroot Hts) Hq) as [_ Hle].
    unfold path_quality in Hq. case_decide; [done|]. fold ds d in Hq. injection Hq as <-. cbn [raw] in Hle.
    rewrite (proj2 (N.eqb_neq _ _)) by tauto. do 2 f_equal. apply as_u32_id. unfold SCORE_SCALE in Hle. lia.
  - unfold path_quality in Hq. case_decide; [|done]. by rewrite (proj2 (N.eqb_eq _ _)) by tauto.
Qed.

(** [path_score] is total: it computes the weighted mean and the penalty. *)
Lemma path_score_Ok root ts :
  root_ok root → Forall score_ok ts → slice_len ts →
  path_score root ts = Ok {|
    ps_root_score := root;
    ps_transition_scores := ts;
    ps_discount_weights := discounts Score_ONE ts;
    ps_weighted_path_quality := path_quality root ts;
    ps_hop_penalty := path_penalty ts;
    ps_final_score := (λ q, saturating_sub q (path_penalty ts)) <$> path_quality root ts |}.
Proof.
  intros Hroot Hts Hlen. destruct (path_totals_fit root ts Hroot Hts Hlen) as [Hn Hd].
  unfold path_score. rewrite root_totals by done. cbn [rbind].
  rewrite (surjective_pairing (root_part root)), add_transitions by (done || by rewrite length_discounts).
  cbn [rbind]. rewrite path_quality_cast by done.
  unfold u128_checked_mul, slice_len in *.
  rewrite (proj2 (N.leb_le _ _)) by (unfold HOP_PENALTY, u64_max, u128_max in *; simpl; lia). cbn [ok_or rbind].
  unfold path_penalty. rewrite as_u32_id by (unfold SCORE_SCALE; lia). done.
Qed.
