(* ===== verification/SemanticRootFacts.v ===== *)
(** * Semantic query: the environment gain

    The evidence that [environment_gain] keeps is the strongest item of each
    Coordinate, in a canonical order, so it depends on the set of evidence
    alone. *)

From Stdlib Require Import Permutation Sorted.
From stdpp Require Import prelude strings relations.
From S2P Require Import Prelude Ordering Text Platform ContextCoordinate ContextModel.
From S2P Require Import ContextProjection ContextFacts SemanticModel SemanticScoreFacts.
From S2P Require Import SemanticFrontier.

#[export] Instance Score_cmp_total : TotalCmp Score_cmp.
Proof.
  unfold Score_cmp. split.
  - intros a b. rewrite N.compare_eq_iff. split; [apply score_inj|by intros ->].
  - intros a b. apply N.compare_antisym.
  - intros a b c. rewrite !N.compare_lt_iff. lia.
Qed.

Section evidence.
Context `{P : Platform} `{HU : !UuidLaws}.
Implicit Types (x y z : ConditionedEvidence) (l e : list ConditionedEvidence).

(** Evidence made by [ConditionedEvidence::new] for one problem score. *)
Definition consistent (problem : Score) x : Prop :=
  x = ConditionedEvidence_new x.(ev_context_coordinate) problem x.(ev_conditioned_score).

#[global] Instance evidence_cmp_pre : PreCmp evidence_cmp.
Proof using HU.
  apply pre_then; [apply (pre_on ev_context_coordinate)|apply pre_then]; [apply _| |].
  - apply (pre_flip_on ev_weighted_gain), _.
  - apply (pre_flip_on ev_conditioned_score), _.
Qed.

#[global] Instance gain_cmp_pre : PreCmp gain_cmp.
Proof using HU.
  apply pre_then; [apply (pre_flip_on ev_weighted_gain), _|apply (pre_on ev_context_coordinate), _].
Qed.

Lemma evidence_cmp_le x y :
  evidence_cmp x y ≠ Gt → ProjectContextCoordinate_cmp (ev_context_coordinate x) (ev_context_coordinate y) ≠ Gt.
Proof. unfold evidence_cmp. intros H Hc. rewrite Hc in H. by apply H. Qed.

(** At one Coordinate, the earlier item has the greater gain. *)
Lemma evidence_cmp_gain x y :
  evidence_cmp x y ≠ Gt → ev_context_coordinate x = ev_context_coordinate y →
  (raw (ev_weighted_gain y) ≤ raw (ev_weighted_gain x))%N.
Proof using HU.
  unfold evidence_cmp. intros H Hc. rewrite Hc, (cmp_refl ProjectContextCoordinate_cmp) in H. simpl in H.
  unfold Score_cmp in H. destruct (N.compare_spec (raw (ev_weighted_gain y)) (raw (ev_weighted_gain x)));
    [lia|lia|done].
Qed.

Lemma coordinates_contiguous x y z :
  evidence_cmp x y ≠ Gt → evidence_cmp y z ≠ Gt → ev_context_coordinate x = ev_context_coordinate z →
  ev_context_coordinate y = ev_context_coordinate x.
Proof using HU.
  intros Hxy%evidence_cmp_le Hyz%evidence_cmp_le Hc. rewrite <- Hc in Hyz.
  rewrite (cmp_sym ProjectContextCoordinate_cmp (ev_context_coordinate x)) in Hyz.
  symmetry. apply (cmp_eq ProjectContextCoordinate_cmp).
  by destruct (ProjectContextCoordinate_cmp (ev_context_coordinate x) (ev_context_coordinate y)).
Qed.

Lemma evidence_distinguishes problem l : Forall (consistent problem) l → distinguishes evidence_cmp l.
Proof using HU.
  intros Hl x y Hx Hy H. rewrite Forall_forall in Hl. rewrite (Hl x Hx), (Hl y Hy).
  unfold evidence_cmp, then_with in H.
  destruct (ProjectContextCoordinate_cmp (ev_context_coordinate x) (ev_context_coordinate y)) eqn:E; try done.
  apply (cmp_eq ProjectContextCoordinate_cmp) in E as ->.
  destruct (Score_cmp (ev_weighted_gain y) (ev_weighted_gain x)); try done.
  by apply (cmp_eq Score_cmp) in H as ->.
Qed.

(** ** What is kept *)

Abbreviation kept l := (env_conditioned_evidence (environment_gain l)).
Abbreviation strongest l := (first_of evidence_cmp ev_context_coordinate l).

Lemma strongest_perm l l' x : (∀ y, y ∈ l ↔ y ∈ l') → strongest l x ↔ strongest l' x.
Proof. intros H. unfold first_of. setoid_rewrite H. done. Qed.

Lemma elem_of_kept problem l x : Forall (consistent problem) l → x ∈ kept l ↔ strongest l x.
Proof using HU.
  intros Hl. simpl. rewrite (sort_by_perm gain_cmp).
  rewrite (elem_of_dedup_by evidence_cmp ev_context_coordinate coordinates_contiguous).
  - apply strongest_perm. intros y. by rewrite (sort_by_perm evidence_cmp).
  - apply (sort_by_weak evidence_cmp).
  - eapply distinguishes_perm; [symmetry; apply (sort_by_perm evidence_cmp)|by eapply evidence_distinguishes].
Qed.

Lemma kept_coordinates l : NoDup (ev_context_coordinate <$> kept l).
Proof using HU.
  simpl. rewrite (sort_by_perm gain_cmp).
  apply (dedup_by_groups evidence_cmp ev_context_coordinate coordinates_contiguous), (sort_by_weak evidence_cmp).
Qed.

Lemma kept_sorted l : WeaklySorted gain_cmp (kept l).
Proof using HU. apply (sort_by_weak gain_cmp). Qed.

Lemma kept_unique l x y :
  x ∈ kept l → y ∈ kept l → ev_context_coordinate x = ev_context_coordinate y → x = y.
Proof using HU.
  intros [i Hx]%list_elem_of_lookup [j Hy]%list_elem_of_lookup Hc.
  pose proof (kept_coordinates l) as Hd. rewrite NoDup_alt in Hd.
  assert (i = j) as ->; [|by simplify_eq].
  eapply Hd; rewrite list_lookup_fmap, ?Hx, ?Hy; [done|]. simpl. by f_equal.
Qed.

Lemma kept_distinguishes l : distinguishes gain_cmp (kept l).
Proof using HU.
  intros x y Hx Hy H. apply (kept_unique l); [done..|]. unfold gain_cmp, then_with in H.
  destruct (Score_cmp (ev_weighted_gain y) (ev_weighted_gain x)); try done.
  by apply (cmp_eq ProjectContextCoordinate_cmp) in H.
Qed.

(** Every item is represented by one that is at least as strong. *)
Lemma kept_covers problem l y :
  Forall (consistent problem) l → y ∈ l →
  ∃ x, x ∈ kept l ∧ ev_context_coordinate x = ev_context_coordinate y ∧
    (raw (ev_weighted_gain y) ≤ raw (ev_weighted_gain x))%N.
Proof using HU.
  intros Hl Hy.
  set (mine := filter (λ z, ev_context_coordinate z = ev_context_coordinate y) l).
  destruct (max_by (λ a b, evidence_cmp b a) mine) as [x|] eqn:Hx.
  - apply (max_by_Some _ (PreCmp0 := pre_flip_on (λ z, z) evidence_cmp _)) in Hx as [Hx Hmax].
    unfold mine in Hx. apply list_elem_of_filter in Hx as [Hc Hx]. exists x. split_and!; [|done|].
    + eapply elem_of_kept; [done|]. split; [done|]. intros z Hz Hzc. apply Hmax.
      unfold mine. apply list_elem_of_filter. split; [congruence|done].
    + apply evidence_cmp_gain; [|done]. apply Hmax. by apply list_elem_of_filter.
  - apply (max_by_None _ (PreCmp0 := pre_flip_on (λ z, z) evidence_cmp _)) in Hx.
    assert (y ∈ mine) as Hmem by (by apply list_elem_of_filter). rewrite Hx in Hmem. by apply elem_of_nil in Hmem.
Qed.

Lemma kept_determined l l' : (∀ x, x ∈ kept l ↔ x ∈ kept l') → kept l = kept l'.
Proof using HU.
  intros H. apply (weakly_sorted_unique gain_cmp); [apply kept_sorted..| |apply kept_distinguishes].
  apply NoDup_Permutation; [..|done]; eapply NoDup_fmap_1; apply kept_coordinates.
Qed.

(** The explanation is a function of what is kept. *)
Lemma environment_gain_kept l l' : kept l = kept l' → environment_gain l = environment_gain l'.
Proof.
  unfold environment_gain. cbn [env_conditioned_evidence]. intros ->. done.
Qed.

Lemma environment_gain_set problem l l' :
  Forall (consistent problem) l → (∀ x, x ∈ l ↔ x ∈ l') → environment_gain l = environment_gain l'.
Proof using HU.
  intros Hl Hm. apply environment_gain_kept, kept_determined. intros x.
  rewrite (elem_of_kept problem) by done. rewrite (elem_of_kept problem); [by apply strongest_perm|].
  apply Forall_forall. intros y Hy. rewrite Forall_forall in Hl. apply Hl. by apply Hm.
Qed.

Lemma kept_consistent problem l : Forall (consistent problem) l → Forall (consistent problem) (kept l).
Proof using HU.
  intros Hl. apply Forall_forall. intros x Hx. apply (elem_of_kept problem) in Hx as [Hx _]; [|done].
  rewrite Forall_forall in Hl. by apply Hl.
Qed.

Lemma environment_gain_idemp problem l :
  Forall (consistent problem) l → environment_gain (kept l) = environment_gain l.
Proof using HU.
  intros Hl. apply environment_gain_kept, kept_determined. intros x.
  rewrite (elem_of_kept problem) by (by apply kept_consistent). split; [by intros [? _]|].
  intros Hx. split; [done|]. intros y Hy Hc. rewrite (kept_unique l y x) by done.
  by rewrite (pre_refl evidence_cmp).
Qed.

(** ** The two strongest gains *)

Lemma kept_head_gain l x rest y :
  kept l = x :: rest → y ∈ rest → (raw (ev_weighted_gain y) ≤ raw (ev_weighted_gain x))%N.
Proof using HU.
  intros He Hy. pose proof (kept_sorted l) as Hs. rewrite He in Hs.
  apply StronglySorted_inv in Hs as [_ Hx]. rewrite Forall_forall in Hx. specialize (Hx y Hy). simpl in Hx.
  unfold gain_cmp, Score_cmp in Hx.
  destruct (N.compare_spec (raw (ev_weighted_gain y)) (raw (ev_weighted_gain x))); simpl in Hx; [lia|lia|done].
Qed.

Lemma kept_second_gain l x y rest z :
  kept l = x :: y :: rest → z ∈ rest → (raw (ev_weighted_gain z) ≤ raw (ev_weighted_gain y))%N.
Proof using HU.
  intros He Hz. pose proof (kept_sorted l) as Hs. rewrite He in Hs.
  apply StronglySorted_inv in Hs as [Hs _]. apply StronglySorted_inv in Hs as [_ Hy].
  rewrite Forall_forall in Hy. specialize (Hy z Hz). simpl in Hy. unfold gain_cmp, Score_cmp in Hy.
  destruct (N.compare_spec (raw (ev_weighted_gain z)) (raw (ev_weighted_gain y))); simpl in Hy; [lia|lia|done].
Qed.

(** The gains of the explanation are the greatest gain of all, and the greatest
    gain of another Coordinate, or zero. *)
Lemma top_two problem l x rest :
  Forall (consistent problem) l → kept l = x :: rest →
  x ∈ l ∧ env_highest_gain (environment_gain l) = ev_weighted_gain x ∧
  (∀ y, y ∈ l → (raw (ev_weighted_gain y) ≤ raw (ev_weighted_gain x))%N) ∧
  (∀ y, y ∈ l → ev_context_coordinate y ≠ ev_context_coordinate x →
     (raw (ev_weighted_gain y) ≤ raw (env_second_highest_gain (environment_gain l)))%N) ∧
  (env_second_highest_gain (environment_gain l) = Score_ZERO ∨
   ∃ y, y ∈ l ∧ ev_context_coordinate y ≠ ev_context_coordinate x ∧
     env_second_highest_gain (environment_gain l) = ev_weighted_gain y).
Proof using HU.
  intros Hl He.
  assert (env_highest_gain (environment_gain l) = gain_of (kept l !! 0)) as -> by done.
  assert (env_second_highest_gain (environment_gain l) = gain_of (kept l !! 1)) as -> by done.
  assert (∀ z, z ∈ kept l → z ∈ l) as Hsub by (intros z Hz; by eapply (elem_of_kept problem) in Hz as [? _]).
  assert (∀ y, y ∈ l → ∃ z, z ∈ x :: rest ∧ ev_context_coordinate z = ev_context_coordinate y ∧
    (raw (ev_weighted_gain y) ≤ raw (ev_weighted_gain z))%N) as Hcov.
  { intros y Hy. rewrite <- He. by apply (kept_covers problem). }
  pose proof (kept_coordinates l) as Hd. rewrite He in *. simpl in Hd. apply NoDup_cons in Hd as [Hxd _].
  split_and!; [apply Hsub; constructor|done| | |].
  - intros y (z & [->|Hz]%elem_of_cons & _ & Hle)%Hcov; [done|].
    pose proof (kept_head_gain l x rest z He Hz). lia.
  - intros y (z & [->|Hz]%elem_of_cons & Hc & Hle)%Hcov Hne; [congruence|].
    destruct rest as [|w rest]; [by apply elem_of_nil in Hz|]. simpl.
    apply elem_of_cons in Hz as [->|Hz]; [done|]. pose proof (kept_second_gain l x w rest z He Hz). lia.
  - destruct rest as [|w rest]; [by left|right]. exists w. split_and!; [apply Hsub; do 2 constructor| |done].
    intros Hc. apply Hxd. rewrite <- Hc. constructor.
Qed.

End evidence.

(** * Semantic query: facts on the selection of roots

    The selection loops as a step relation, the order on sources, and what the
    best candidate is. *)


(** ** Loops that push *)

Section loop.
Context `{P : Platform}.
Context (bound : N) (pick : list SelectedAutomaticRoot → option SelectedAutomaticRoot).
Implicit Types s r : list SelectedAutomaticRoot.

(** One iteration of the loop. *)
Definition push_step s r : Prop :=
  (len s < bound)%N ∧ ∃ next, pick s = Some next ∧ r = s ++ [next].

Lemma push_step_det s r r' : push_step s r → push_step s r' → r = r'.
Proof. intros (_ & n & Hn & ->) (_ & n' & Hn' & ->). congruence. Qed.

(** The loop ends, however it starts. *)
Lemma push_step_sn s : sn push_step s.
Proof.
  remember (N.to_nat (bound - len s)) as n eqn:Hn. revert s Hn.
  induction n as [n IH] using lt_wf_ind. intros s ->. constructor. intros r (Hlt & next & _ & ->).
  eapply IH; [|done]. unfold len in *. rewrite length_app. simpl. lia.
Qed.

Lemma push_steps_length s r : rtc push_step s r → (len r ≤ N.max (len s) bound)%N.
Proof.
  induction 1 as [s|s r t (Hlt & next & _ & ->) _ IH]; [lia|].
  unfold len in *. rewrite length_app in IH. simpl in IH. lia.
Qed.

Lemma push_steps_prefix s r : rtc push_step s r → s `prefix_of` r.
Proof.
  induction 1 as [s|s r t (_ & next & _ & ->) _ IH]; [done|]. etrans; [|exact IH]. by apply prefix_app_r.
Qed.

Lemma push_steps_inv (I : list SelectedAutomaticRoot → Prop) s r :
  (∀ s next, I s → pick s = Some next → I (s ++ [next])) → rtc push_step s r → I s → I r.
Proof. intros Hstep. induction 1 as [|s r t (_ & next & Hp & ->) _ IH]; auto. Qed.

Lemma push_nf s : nf push_step s ↔ (bound ≤ len s)%N ∨ pick s = None.
Proof.
  split.
  - intros Hnf. destruct (pick s) as [next|] eqn:Hp; [|by right]. left.
    destruct (N.le_gt_cases bound (len s)) as [|Hlt]; [done|]. exfalso. apply Hnf. exists (s ++ [next]). split; [done|eauto].
  - intros H [r (Hlt & next & Hp & _)]. destruct H; [lia|congruence].
Qed.

(** The recursion on fuel takes the steps of the loop. *)
Lemma fill_steps fuel s : rtc push_step s (fill fuel bound pick s).
Proof.
  revert s. induction fuel as [|fuel IH]; intros s; simpl; [done|].
  destruct (N.ltb_spec (len s) bound) as [Hlt|]; [|done]. destruct (pick s) as [next|] eqn:Hp; [|done].
  eapply rtc_l; [|apply IH]. split; [done|eauto].
Qed.

(** With as much fuel as the bound it stops where the loop stops. *)
Lemma fill_nf fuel s : (bound ≤ len s + N.of_nat fuel)%N → nf push_step (fill fuel bound pick s).
Proof.
  revert s. induction fuel as [|fuel IH]; intros s Hf; simpl; [apply push_nf; left; lia|].
  destruct (N.ltb_spec (len s) bound) as [Hlt|]; [|apply push_nf; by left].
  destruct (pick s) as [next|] eqn:Hp; [|apply push_nf; by right].
  apply IH. unfold len in *. rewrite length_app. simpl. lia.
Qed.

Lemma push_steps_det s r r' :
  rtc push_step s r → nf push_step r → rtc push_step s r' → nf push_step r' → r = r'.
Proof.
  induction 1 as [s|s t r Hst _ IH]; intros Hnf Hr' Hnf'.
  - by apply rtc_nf in Hr'.
  - destruct Hr' as [s|s t' r' Hst' Hr']; [exfalso; apply Hnf'; by eexists|].
    rewrite (push_step_det _ _ _ Hst Hst') in *. auto.
Qed.

Lemma fill_fuel fuel fuel' s :
  (bound ≤ len s + N.of_nat fuel)%N → (bound ≤ len s + N.of_nat fuel')%N →
  fill fuel bound pick s = fill fuel' bound pick s.
Proof. intros H H'. eapply push_steps_det; eauto using fill_steps, fill_nf. Qed.

End loop.

(** ** The order on sources *)

Lemma pre_total {A} (cmp : A → A → comparison) :
  PreCmp cmp → (∀ a b, cmp a b = Eq → a = b) → TotalCmp cmp.
Proof.
  intros Hp He. split; [|apply (pre_sym cmp)|].
  - intros a b. split; [apply He|intros ->; apply (pre_refl cmp)].
  - intros a b c Hab Hbc. apply (pre_lt_trans cmp _ b); [done|by rewrite Hbc].
Qed.

Lemma windows2_any_fmap {A B} (f : A → B) (p : B → B → bool) l :
  windows2_any (λ a b, p (f a) (f b)) l = windows2_any p (f <$> l).
Proof.
  induction l as [|a l IH]; [done|]. destruct l as [|b l]; [done|].
  change (p (f a) (f b) || windows2_any (λ a b, p (f a) (f b)) (b :: l)
          = p (f a) (f b) || windows2_any p (f <$> b :: l)). by rewrite IH.
Qed.

#[export] Instance rank_cmp_total : TotalCmp rank_cmp.
Proof.
  apply pre_total.
  - apply pre_then; [apply (pre_on fst)|apply (pre_on snd)]; apply _.
  - intros [a a'] [b b'] H. unfold rank_cmp, then_with in H. simpl in H.
    destruct (N.compare_spec a b); [|done..]. apply N.compare_eq_iff in H. congruence.
Qed.

Lemma source_kind_rank_inj k k' : source_kind_rank k = source_kind_rank k' → k = k'.
Proof. destruct k as [[]| |], k' as [[]| |]; done. Qed.

Section roots.
Context `{P : Platform} `{HU : !UuidLaws}.
Implicit Types (cs : list RootSelectionCandidate) (s : list SelectedAutomaticRoot).

#[global] Instance compare_sources_total : TotalCmp compare_sources.
Proof using HU.
  apply pre_total.
  - apply pre_then; [|apply pre_then].
    + apply (pre_on (λ x, Uuid_as_bytes (src_community_id x))), _.
    + apply (pre_on (λ x, source_kind_rank (src_kind x))), _.
    + apply (pre_on (λ x, Uuid_as_bytes (src_source_id x))), _.
  - intros [c k i] [c' k' i'] H. unfold compare_sources, then_with in H. simpl in H.
    destruct (slice_cmp (Uuid_as_bytes c) _) eqn:Ec; [|done..].
    destruct (rank_cmp (source_kind_rank k) _) eqn:Ek; [|done..].
    apply (cmp_eq slice_cmp), Uuid_as_bytes_inj in Ec, H.
    apply (cmp_eq rank_cmp), source_kind_rank_inj in Ek. by subst.
Qed.

#[global] Instance selected_cmp_pre : PreCmp selected_cmp.
Proof using HU.
  apply pre_then; [apply (pre_on sel_selection_priority), _|].
  apply pre_then; [apply (pre_on sel_relevance_score), _|apply (pre_flip_on sel_source), _].
Qed.

#[global] Instance pinned_cmp_pre : PreCmp pinned_cmp.
Proof using HU.
  apply pre_then; [apply (pre_on cand_problem_score), _|apply (pre_flip_on cand_source), _].
Qed.

(** ** Candidates *)

Definition eligible cs : list RootSelectionCandidate :=
  List.filter (λ c, raw BASE_ENTRY_FLOOR <=? raw c.(cand_problem_score))%N cs.

Abbreviation source_order := (λ a b, compare_sources (cand_source a) (cand_source b)).
Definition pool cs : list RootSelectionCandidate := sort_by source_order (eligible cs).

Lemma elem_of_eligible cs c : c ∈ eligible cs ↔ c ∈ cs ∧ (raw BASE_ENTRY_FLOOR ≤ raw (cand_problem_score c))%N.
Proof.
  unfold eligible. rewrite !list_elem_of_In, filter_In, N.leb_le. done.
Qed.

Lemma elem_of_pool cs c : c ∈ pool cs ↔ c ∈ cs ∧ (raw BASE_ENTRY_FLOOR ≤ raw (cand_problem_score c))%N.
Proof. unfold pool. rewrite (sort_by_perm source_order). apply elem_of_eligible. Qed.

Definition unique_sources cs : Prop := NoDup (cand_source <$> eligible cs).

Lemma pool_duplicates cs :
  windows2_any (λ a b, bool_decide (a.(cand_source) = b.(cand_source))) (pool cs) = false ↔ unique_sources cs.
Proof using HU.
  pose proof (windows2_any_fmap cand_source (λ a b, bool_decide (a = b)) (pool cs)) as E. cbn beta in E.
  rewrite E. unfold pool.
  rewrite (sort_by_key cand_source compare_sources). apply (windows2_any_eq_sort compare_sources).
Qed.

Lemma unique_source cs c c' :
  unique_sources cs → c ∈ pool cs → c' ∈ pool cs → cand_source c = cand_source c' → c = c'.
Proof.
  unfold unique_sources. intros Hd Hc Hc' He. unfold pool in *. rewrite (sort_by_perm source_order) in Hc, Hc'.
  apply list_elem_of_lookup in Hc as [i Hi], Hc' as [j Hj]. rewrite NoDup_alt in Hd.
  assert (i = j) as ->; [|congruence].
  eapply Hd; rewrite list_lookup_fmap, ?Hi, ?Hj; [done|]. simpl. by f_equal.
Qed.

Lemma eligible_perm cs cs' : Permutation cs cs' → Permutation (eligible cs) (eligible cs').
Proof.
  induction 1 as [|c cs cs' _ IH|c d cs|cs cs' cs'' _ IH _ IH']; simpl.
  - done.
  - by destruct (_ <=? _)%N; rewrite ?IH.
  - destruct (_ <=? _)%N, (_ <=? _)%N; try done. apply perm_swap.
  - by rewrite IH.
Qed.

Lemma unique_perm cs cs' : Permutation cs cs' → unique_sources cs ↔ unique_sources cs'.
Proof. intros Hp%eligible_perm. unfold unique_sources. by rewrite Hp. Qed.

Lemma pool_perm cs cs' : Permutation cs cs' → unique_sources cs → pool cs = pool cs'.
Proof using HU.
  intros Hp Hd. apply (sort_by_order source_order); [by apply eligible_perm|].
  intros a b Ha Hb He%(cmp_eq compare_sources). apply (unique_source cs); [done|..|done];
    unfold pool; by rewrite (sort_by_perm source_order).
Qed.

(** ** The best candidate *)

Abbreviation pick cs lane := (λ s, best_candidate (pool cs) s lane).

Definition open_to s (lane : AutomaticRootLane) (c : RootSelectionCandidate) : Prop :=
  (cand_source c ∉ (sel_source <$> s)) ∧ (lane = AutomaticRootLane.Mixed ∨ cand_discovered_problem_neutral c = true).

Lemma elem_of_open cs s lane c :
  In c (List.filter (λ candidate,
           negb (existsb (λ item, bool_decide (item.(sel_source) = candidate.(cand_source))) s)
           && (bool_decide (lane = AutomaticRootLane.Mixed) || candidate.(cand_discovered_problem_neutral)))
         (pool cs)) ↔ c ∈ pool cs ∧ open_to s lane c.
Proof.
  rewrite filter_In, andb_true_iff, negb_true_iff, orb_true_iff, bool_decide_eq_true, list_elem_of_In.
  unfold open_to. rewrite <- not_true_iff_false, existsb_exists. split; intros (Hc & Hn & Hl); split_and!; try done.
  - intros (x & Hx & Hin)%list_elem_of_fmap. apply Hn. exists x. rewrite bool_decide_eq_true, <- list_elem_of_In. done.
  - intros (x & Hin & Hx%bool_decide_eq_true). apply Hn. rewrite <- Hx. apply list_elem_of_fmap_2.
    by apply list_elem_of_In.
Qed.

Lemma best_candidate_Some cs s lane next :
  pick cs lane s = Some next →
  ∃ c, c ∈ pool cs ∧ open_to s lane c ∧ next = prioritized s lane c ∧
    ∀ c', c' ∈ pool cs → open_to s lane c' → selected_cmp (prioritized s lane c') next ≠ Gt.
Proof using HU.
  unfold best_candidate. intros (Hin & Hmax)%(max_by_Some selected_cmp).
  apply list_elem_of_fmap in Hin as (c & -> & Hin). apply list_elem_of_In, elem_of_open in Hin as [Hc Ho].
  exists c. split_and!; [done..|]. intros c' Hc' Ho'. apply Hmax, list_elem_of_fmap_2, list_elem_of_In, elem_of_open. done.
Qed.

Lemma best_candidate_None cs s lane :
  pick cs lane s = None → ∀ c, c ∈ pool cs → ¬ open_to s lane c.
Proof using HU.
  unfold best_candidate. intros H%(max_by_None selected_cmp) c Hc Ho.
  apply fmap_nil_inv in H. eapply in_nil. rewrite <- H. by apply elem_of_open.
Qed.

(** ** Whole selections *)

Definition pinned cs : option RootSelectionCandidate :=
  max_by pinned_cmp (List.filter cand_discovered_problem_neutral (pool cs)).

Definition pinned_root (c : RootSelectionCandidate) : SelectedAutomaticRoot :=
  {| sel_source := cand_source c; sel_lane := AutomaticRootLane.ProblemNeutral;
     sel_relevance_score := cand_problem_score c; sel_selection_priority := cand_problem_score c |}.

Definition neutral_reserved (limit : N) : N := ((limit + 1) / 2)%N.

Lemma neutral_reserved_le limit : limit ≠ 0%N → (1 ≤ neutral_reserved limit ≤ limit)%N.
Proof.
  intros. unfold neutral_reserved. pose proof (N.div_mod (limit + 1) 2 ltac:(lia)).
  pose proof (N.mod_lt (limit + 1) 2 ltac:(lia)).
  generalize dependent ((limit + 1) mod 2)%N. generalize dependent ((limit + 1) / 2)%N. intros. lia.
Qed.

Abbreviation neutral_step cs limit :=
  (push_step (neutral_reserved limit) (pick cs AutomaticRootLane.ProblemNeutral)).
Abbreviation mixed_step cs limit := (push_step limit (pick cs AutomaticRootLane.Mixed)).

(** A run of the two loops to their ends: the roots after the first and after
    the second. *)
Definition selection_run cs (limit : N) (middle roots : list SelectedAutomaticRoot) : Prop :=
  rtc (neutral_step cs limit) (option_list (pinned_root <$> pinned cs)) middle ∧ nf (neutral_step cs limit) middle ∧
  rtc (mixed_step cs limit) middle roots ∧ nf (mixed_step cs limit) roots.

Lemma select_automatic_roots_run fuel cs limit :
  unique_sources cs → limit ≠ 0%N → (N.to_nat limit ≤ fuel)%nat →
  ∃ middle roots, select_automatic_roots_fuel fuel cs limit = Ok roots ∧ selection_run cs limit middle roots.
Proof using HU.
  intros Hd Hl Hf. unfold select_automatic_roots_fuel. fold (eligible cs) (pool cs).
  rewrite (proj2 (pool_duplicates cs) Hd). cbn [reject_if rbind].
  rewrite (proj2 (N.eqb_neq _ _) Hl). fold (neutral_reserved limit) (pinned cs).
  pose proof (neutral_reserved_le limit Hl) as Hr. rewrite (N.min_l (neutral_reserved limit)) by lia.
  replace (match pinned cs with Some p => [_] | None => [] end) with (option_list (pinned_root <$> pinned cs))
    by (by destruct (pinned cs)).
  set (start := option_list _). set (middle := fill fuel (neutral_reserved limit) _ start).
  exists middle. eexists. split; [done|]. split_and!; [apply fill_steps|apply fill_nf; lia|apply fill_steps|apply fill_nf; lia].
Qed.

Lemma selection_run_det cs limit middle roots middle' roots' :
  selection_run cs limit middle roots → selection_run cs limit middle' roots' → roots = roots'.
Proof.
  intros (H1 & H2 & H3 & H4) (H1' & H2' & H3' & H4').
  assert (middle = middle') as <- by (by eapply push_steps_det).
  by eapply push_steps_det.
Qed.

(** What the loops keep: a root stands for an open candidate. *)
Definition root_of cs (x : SelectedAutomaticRoot) : Prop :=
  ∃ c, c ∈ pool cs ∧ sel_source x = cand_source c ∧
    match sel_lane x with
    | AutomaticRootLane.ProblemNeutral =>
        cand_discovered_problem_neutral c = true ∧ sel_relevance_score x = cand_problem_score c
    | AutomaticRootLane.Mixed => sel_relevance_score x = cand_candidate_score c
    end.

Definition roots_ok cs s : Prop := NoDup (sel_source <$> s) ∧ Forall (root_of cs) s.

Lemma roots_ok_push cs lane s next : roots_ok cs s → pick cs lane s = Some next → roots_ok cs (s ++ [next]).
Proof using HU.
  intros [Hn Hf] (c & Hc & [Ho Hlane] & -> & _)%best_candidate_Some. split.
  - rewrite fmap_app. apply NoDup_app. split_and!; [done| |apply NoDup_singleton].
    intros x Hx ->%list_elem_of_singleton. simpl in *. done.
  - apply Forall_app. split; [done|]. constructor; [|constructor]. exists c. split_and!; [done..|].
    simpl. destruct lane; [|done]. by destruct Hlane.
Qed.

Lemma pinned_Some cs c :
  pinned cs = Some c → c ∈ pool cs ∧ cand_discovered_problem_neutral c = true ∧
    ∀ c', c' ∈ pool cs → cand_discovered_problem_neutral c' = true →
      (raw (cand_problem_score c') ≤ raw (cand_problem_score c))%N.
Proof using HU.
  intros ([Hin Hc]%list_elem_of_In%filter_In & Hmax)%(max_by_Some pinned_cmp).
  split_and!; [by apply list_elem_of_In|done|]. intros c' Hc' Hn'.
  specialize (Hmax c' ltac:(apply list_elem_of_In, filter_In; split; [by apply list_elem_of_In|done])).
  unfold pinned_cmp, Score_cmp in Hmax. destruct (N.compare_spec (raw (cand_problem_score c')) (raw (cand_problem_score c)));
    simpl in Hmax; [lia|lia|done].
Qed.

Lemma pinned_None cs c : pinned cs = None → c ∈ pool cs → cand_discovered_problem_neutral c = false.
Proof using HU.
  intros H%(max_by_None pinned_cmp) Hc. apply not_true_iff_false. intros Hn. eapply in_nil.
  rewrite <- H. apply filter_In. split; [by apply list_elem_of_In|done].
Qed.

Lemma roots_ok_pinned cs : roots_ok cs (option_list (pinned_root <$> pinned cs)).
Proof using HU.
  destruct (pinned cs) as [c|] eqn:Hp; simpl; [|split; constructor].
  apply pinned_Some in Hp as (Hc & Hn & _). split; [apply NoDup_singleton|].
  constructor; [|constructor]. by exists c.
Qed.

Lemma neutral_lanes cs limit s r :
  rtc (neutral_step cs limit) s r →
  Forall (λ x, sel_lane x = AutomaticRootLane.ProblemNeutral) s →
  Forall (λ x, sel_lane x = AutomaticRootLane.ProblemNeutral) r.
Proof using HU.
  intros Hr. apply (push_steps_inv _ _ _ _ _) with (2 := Hr). intros s' next Hs (c & _ & _ & -> & _)%best_candidate_Some.
  apply Forall_app. split; [done|]. by constructor.
Qed.

Lemma selection_run_ok cs limit middle roots : selection_run cs limit middle roots → roots_ok cs roots.
Proof using HU.
  intros (H1 & _ & H3 & _). eapply push_steps_inv; [intros s next; apply (roots_ok_push _ AutomaticRootLane.Mixed)|exact H3|].
  eapply push_steps_inv; [intros s next; apply (roots_ok_push _ AutomaticRootLane.ProblemNeutral)|exact H1|].
  apply roots_ok_pinned.
Qed.

End roots.
