(* ===== verification/SemanticPathFacts.v ===== *)
(** * Semantic query: simple paths

    A reference definition of the paths that the loop of
    [SemanticPath::validate_detailed] accepts, and the same conditions for the
    prefixes that [FrontierPathState::append_hop] builds. *)

From Stdlib Require Import Permutation Sorted.
From stdpp Require Import prelude strings gmap fin_maps.
From S2P Require Import Prelude Text TextOps Platform ContextCoordinate ContextModel.
From S2P Require Import SemanticModel SemanticResult SemanticVerify SemanticFrontier.
From S2P Require Import SemanticScoreFacts Ordering SemanticRootFacts.

(** ** Loops *)

Lemma try_fold_app {A B E} (f : B → A → result B E) acc xs ys :
  try_fold f acc (xs ++ ys) = rbind (try_fold f acc xs) (λ acc, try_fold f acc ys).
Proof. revert acc. induction xs as [|x xs IH]; intros acc; simpl; [done|]. destruct (f acc x); simpl; auto. Qed.

Lemma enumerate_app {A} (l : list A) x : enumerate (l ++ [x]) = enumerate l ++ [(len l, x)].
Proof. unfold enumerate, len. rewrite imap_app. simpl. by rewrite Nat.add_0_r. Qed.

Lemma len_app {A} (l : list A) x : len (l ++ [x]) = (len l + 1)%N.
Proof. unfold len. rewrite length_app. simpl. lia. Qed.

Lemma orb3_false (a b c : bool) : a || b || c = false ↔ a = false ∧ b = false ∧ c = false.
Proof. rewrite !orb_false_iff. tauto. Qed.

Section paths.
Context `{P : Platform} `{HP : !Postcard}.
Implicit Types (h : SemanticHyperedgeHop) (hops : list SemanticHyperedgeHop).

Abbreviation target h := (con_coordinate (hop_continued_to_coordinate h)).
Abbreviation edge_of h := (edge_edge_key (hop_edge h)).
Abbreviation members h := (edge_complete_coordinates (hop_edge h)).

(** ** The reference definition *)

Definition path_edges hops : list EdgeKey := (λ h, edge_of h) <$> hops.

(** The Coordinates of a path: where it enters its first Hyperedge, if it does so
    by a Coordinate, then every Coordinate it continues to. *)
Definition path_coordinates hops : list ProjectContextCoordinate :=
  option_list (head hops ≫= hop_entered_from_coordinate) ++ ((λ h, target h) <$> hops).

(** Contiguous, without a repeated Hyperedge or Coordinate, and inside the
    Hyperedges it crosses. *)
Record simple_path hops : Prop := mkSimplePath {
  simple_contiguous : ∀ i h h', hops !! i = Some h → hops !! S i = Some h' →
    hop_entered_from_coordinate h' = Some (target h);
  simple_edges : NoDup (path_edges hops);
  simple_coordinates : NoDup (path_coordinates hops);
  simple_members : ∀ h, h ∈ hops →
    target h ∈ members h ∧ ∀ entered, hop_entered_from_coordinate h = Some entered → entered ∈ members h;
}.

(** What one more hop needs. *)
Record extends hops h : Prop := mkExtends {
  ext_contiguous : hops ≠ [] → hop_entered_from_coordinate h = (λ l, target l) <$> last hops;
  ext_edge : edge_of h ∉ path_edges hops;
  ext_coordinate : target h ∉ path_coordinates hops;
  ext_distinct : hop_entered_from_coordinate h ≠ Some (target h);
  ext_target : target h ∈ members h;
  ext_entered : ∀ entered, hop_entered_from_coordinate h = Some entered → entered ∈ members h;
}.

Lemma path_coordinates_snoc hops h :
  path_coordinates (hops ++ [h])
  = (if decide (hops = []) then option_list (hop_entered_from_coordinate h) else path_coordinates hops)
    ++ [target h].
Proof.
  unfold path_coordinates. rewrite fmap_app. destruct hops as [|h' hops]; simpl; [done|].
  destruct (hop_entered_from_coordinate h'); done.
Qed.

Lemma last_target_in hops l : last hops = Some l → target l ∈ path_coordinates hops.
Proof.
  intros Hl. unfold path_coordinates. apply elem_of_app. right. apply (list_elem_of_fmap_2 (λ h, target h)).
  by apply last_Some_elem_of.
Qed.

Lemma simple_path_nil : simple_path [].
Proof. split; [done|constructor|constructor|by intros ? ?%elem_of_nil]. Qed.

Lemma path_edges_snoc hops h : NoDup (path_edges (hops ++ [h])) ↔ NoDup (path_edges hops) ∧ edge_of h ∉ path_edges hops.
Proof.
  unfold path_edges. rewrite fmap_app. simpl. rewrite NoDup_app. split.
  - intros (? & Hn & _). split; [done|]. intros Hin. apply (Hn _ Hin). constructor.
  - intros [? Hn]. split_and!; [done| |apply NoDup_singleton]. by intros x Hx ->%list_elem_of_singleton.
Qed.

Lemma coordinates_snoc_NoDup hops h :
  NoDup (path_coordinates (hops ++ [h])) ↔
  if decide (hops = []) then hop_entered_from_coordinate h ≠ Some (target h)
  else NoDup (path_coordinates hops) ∧ target h ∉ path_coordinates hops.
Proof.
  rewrite path_coordinates_snoc, NoDup_app. case_decide.
  - destruct (hop_entered_from_coordinate h) as [e|]; simpl.
    + split; [|intros Hne; split_and!; [apply NoDup_singleton| |apply NoDup_singleton]].
      * intros (_ & Hn & _) [= He]. apply (Hn e); rewrite He; constructor.
      * intros x ->%list_elem_of_singleton [= ->]%list_elem_of_singleton. done.
    + split; [done|]. intros _. split_and!; [constructor|by intros ? ?%elem_of_nil|apply NoDup_singleton].
  - split.
    + intros (? & Hn & _). split; [done|]. intros Hin. apply (Hn _ Hin). constructor.
    + intros [? Hn]. split_and!; [done| |apply NoDup_singleton]. by intros x Hx ->%list_elem_of_singleton.
Qed.

Lemma simple_path_snoc hops h : simple_path (hops ++ [h]) ↔ simple_path hops ∧ extends hops h.
Proof.
  split.
  - intros [Hc He Hd Hm]. apply path_edges_snoc in He as [He Hne]. apply coordinates_snoc_NoDup in Hd.
    assert (Hcont : hops ≠ [] → hop_entered_from_coordinate h = (λ l, target l) <$> last hops).
    { intros Hn. destruct (last hops) as [l|] eqn:Hl; [|by apply last_None in Hl].
      rewrite last_lookup in Hl. simpl. apply (Hc (pred (length hops))).
      - rewrite lookup_app_l; [done|]. apply lookup_lt_Some in Hl. lia.
      - destruct hops as [|h' hops]; [done|]. rewrite lookup_app_r by (simpl; lia). simpl. by rewrite Nat.sub_diag. }
    split; split; try done.
    + intros i a b Ha Hb. apply (Hc i); [by apply lookup_app_l_Some|by apply lookup_app_l_Some].
    + case_decide as Hn; [subst hops; constructor|by apply Hd].
    + intros x Hx. apply Hm. apply elem_of_app. by left.
    + case_decide as Hn; [subst hops; by intros ?%elem_of_nil|by apply Hd].
    + case_decide as Hn; [done|]. rewrite Hcont by done. destruct (last hops) as [l|] eqn:Hl; [|done].
      simpl. intros [= Heq]. destruct Hd as [_ Hd]. apply Hd. rewrite <- Heq. by apply last_target_in.
    + apply (proj1 (Hm h ltac:(apply elem_of_app; right; constructor))).
    + apply (proj2 (Hm h ltac:(apply elem_of_app; right; constructor))).
  - intros [[Hc He Hd Hm] [Xc Xe Xd Xn Xt Xm]]. split.
    + intros i a b Ha Hb. destruct (decide (S i < length hops)%nat) as [Hlt|Hge].
      { rewrite lookup_app_l in Ha, Hb by lia. by apply (Hc i). }
      pose proof (lookup_lt_Some _ _ _ Hb) as Hb'. rewrite length_app in Hb'. simpl in Hb'.
      assert (S i = length hops) as Hi by lia. rewrite lookup_app_l in Ha by lia.
      rewrite lookup_app_r in Hb by lia. rewrite Hi, Nat.sub_diag in Hb. injection Hb as <-.
      rewrite Xc by (intros ->; simpl in Hi; lia). rewrite last_lookup, <- Hi. simpl. by rewrite Ha.
    + by apply path_edges_snoc.
    + apply coordinates_snoc_NoDup. by case_decide.
    + intros x [Hx| ->%list_elem_of_singleton]%elem_of_app; [by apply Hm|done].
Qed.

(** ** The loop of the validator *)

(** The hop on its own. *)
Definition hop_ok (project_id : Uuid) (observations : SemanticGraphQueryObservations) h : Prop :=
  SemanticHyperedgeHop_validate h project_id = Ok tt ∧ validate_provenance h observations = Ok tt.

Lemma hop_validate_previews h project_id :
  SemanticHyperedgeHop_validate h project_id = Ok tt →
  validate_preview h.(hop_selected_relation_document).(rel_preview) = Ok tt ∧
  validate_preview h.(hop_continued_to_coordinate).(con_preview) = Ok tt.
Proof. unfold SemanticHyperedgeHop_validate. intros H. ok_inv. done. Qed.

Definition walk_of hops : Walk := {|
  visited_edges := list_to_set (path_edges hops);
  visited_coordinates := list_to_set (path_coordinates hops);
  previous_coordinate := (λ l, target l) <$> last hops;
|}.

Lemma len_zero hops : (len hops =? 0)%N = bool_decide (hops = []).
Proof. by destruct hops. Qed.
Lemma len_pos hops : (0 <? len hops)%N = negb (bool_decide (hops = [])).
Proof. by destruct hops. Qed.

Lemma walk_of_snoc hops h :
  walk_of (hops ++ [h]) = {|
    visited_edges := {[ edge_of h ]} ∪ list_to_set (path_edges hops);
    visited_coordinates := {[ target h ]} ∪ list_to_set
      (if decide (hops = []) then option_list (hop_entered_from_coordinate h) else path_coordinates hops);
    previous_coordinate := Some (target h) |}.
Proof.
  unfold walk_of. rewrite last_snoc, path_coordinates_snoc. unfold path_edges. rewrite fmap_app. simpl.
  f_equal; rewrite list_to_set_app_L; simpl; set_solver.
Qed.

(** The Coordinates visited before the hop continues. *)
Definition entering hops h : gset ProjectContextCoordinate :=
  list_to_set (if decide (hops = []) then option_list (hop_entered_from_coordinate h) else path_coordinates hops).

Lemma entering_step hops h coordinates :
  (hops ≠ [] → hop_entered_from_coordinate h = (λ l, target l) <$> last hops) →
  match hop_entered_from_coordinate h with
  | Some entered =>
      reject_if (negb (bool_decide (entered ∈ members h)))
        (validation_error SemanticGraphResultInvariant.EnteredCoordinateMembership
           "entered Coordinate is not a member of the complete Hyperedge") ?;
      if (len hops =? 0)%N then
        reject_if (bool_decide (entered ∈ (walk_of hops).(visited_coordinates)))
          (validation_error SemanticGraphResultInvariant.PathRepeatedCoordinate
             "path repeats a Coordinate") ?;
        Ok ({[ entered ]} ∪ (walk_of hops).(visited_coordinates))
      else Ok (walk_of hops).(visited_coordinates)
  | None =>
      reject_if (0 <? len hops)%N
        (validation_error SemanticGraphResultInvariant.MissingEnteredCoordinate
           "only a relation-Document root may omit entered Coordinate") ?;
      Ok (walk_of hops).(visited_coordinates)
  end = Ok coordinates ↔
  (∀ entered, hop_entered_from_coordinate h = Some entered → entered ∈ members h) ∧ coordinates = entering hops h.
Proof.
  intros Hc. unfold entering. rewrite len_zero, len_pos. case_decide as Hn.
  - rewrite (bool_decide_eq_true_2 _ Hn). subst hops. simpl. destruct (hop_entered_from_coordinate h) as [e|]; simpl.
    + rewrite seq_Ok, reject_if_Ok, bool_decide_negb_false.
      split; [intros [Hm [= <-]]|intros [Hm ->]]; (split; [naive_solver|]); [set_solver|f_equal; set_solver].
    + split; [by intros [= <-]|by intros [_ ->]].
  - rewrite (bool_decide_eq_false_2 _ Hn). simpl. specialize (Hc Hn).
    destruct (last hops) as [l|] eqn:Hl; [|by apply last_None in Hl]. simpl in Hc. rewrite Hc.
    rewrite seq_Ok, reject_if_Ok, bool_decide_negb_false. naive_solver.
Qed.

Lemma entering_target hops h :
  (hops ≠ [] → hop_entered_from_coordinate h = (λ l, target l) <$> last hops) →
  (bool_decide (hop_entered_from_coordinate h = Some (target h)) || bool_decide (target h ∈ entering hops h)) = false ↔
  (target h ∉ path_coordinates hops) ∧ hop_entered_from_coordinate h ≠ Some (target h).
Proof.
  intros Hc. unfold entering. rewrite orb_false_iff, !bool_decide_eq_false, elem_of_list_to_set. case_decide as Hn.
  - subst hops. destruct (hop_entered_from_coordinate h) as [e|]; simpl; set_solver.
  - naive_solver.
Qed.

Lemma validate_hop_step project_id observations hops h w :
  validate_hop project_id observations (walk_of hops) (len hops, h) = Ok w ↔
  hop_ok project_id observations h ∧ extends hops h ∧ w = walk_of (hops ++ [h]).
Proof.
  unfold validate_hop. rewrite !seq_Ok, !map_err_Ok, !reject_if_Ok, !rbind_Ok, walk_of_snoc.
  rewrite andb_false_iff, bool_decide_negb_false, bool_decide_eq_false.
  assert (Hcase : ((0 <? len hops)%N = false ∨ hop_entered_from_coordinate h = previous_coordinate (walk_of hops)) ↔
    (hops ≠ [] → hop_entered_from_coordinate h = (λ l, target l) <$> last hops)).
  { rewrite len_pos, negb_false_iff, bool_decide_eq_true. simpl. destruct (decide (hops = [])); tauto. }
  rewrite Hcase. fold (entering hops h). split.
  - intros (_ & _ & Hv & Hp & Hc & He & coords & Hx & Hy). apply entering_step in Hx as [Hm ->]; [|done].
    rewrite seq_Ok, reject_if_Ok, orb3_false, bool_decide_negb_false in Hy. destruct Hy as [(Ht & Hd) [= <-]].
    apply orb_false_iff, entering_target in Hd as [Hd Hn]; [|done].
    split_and!; [done|split; try done|done]. simpl in He. by rewrite elem_of_list_to_set in He.
  - intros ([Hv Hp] & [Xc Xe Xd Xn Xt Xm] & ->). destruct (hop_validate_previews h project_id Hv).
    split_and!; [done..| |].
    { simpl. by rewrite elem_of_list_to_set. }
    exists (entering hops h). split; [by apply entering_step|].
    rewrite seq_Ok, reject_if_Ok, orb3_false, bool_decide_negb_false. split; [|done]. split; [done|].
    by apply orb_false_iff, entering_target.
Qed.

(** The loop accepts exactly the simple paths of valid hops. *)
Lemma validate_hops_spec project_id observations hops w :
  try_fold (validate_hop project_id observations) (mkWalk ∅ ∅ None) (enumerate hops) = Ok w ↔
  Forall (hop_ok project_id observations) hops ∧ simple_path hops ∧ w = walk_of hops.
Proof.
  revert w. induction hops as [|h hops IH] using rev_ind; intros w.
  - split; [intros [= <-]; split_and!; [constructor|apply simple_path_nil|done]|by intros (_ & _ & ->)].
  - rewrite enumerate_app, try_fold_app, rbind_Ok, Forall_app, Forall_singleton, simple_path_snoc. split.
    + intros (w' & (Hf & Hs & ->)%IH & Hl). simpl in Hl. rewrite rbind_Ok in Hl. destruct Hl as (w'' & Hl & [= <-]).
      apply validate_hop_step in Hl as (? & ? & ->). done.
    + intros ([? ?] & [? ?] & ->). exists (walk_of hops). split; [by apply IH|]. simpl. rewrite rbind_Ok.
      eexists. split; [by apply validate_hop_step|done].
Qed.

(** ** Whole paths *)

Abbreviation transitions hops := (hop_transition_score <$> hops).

Definition numbered hops : Prop := ∀ i h, hops !! i = Some h → hop_ordinal h = (N.of_nat i + 1)%N.

(** The paths that belong under a root. *)
Record valid_path (project_id : Uuid) (observations : SemanticGraphQueryObservations) (root : SemanticRoot)
    (path : SemanticPath) : Prop := mkValidPath {
  vp_hops : Forall (hop_ok project_id observations) (path_hops path);
  vp_simple : simple_path (path_hops path);
  vp_numbered : numbered (path_hops path);
  vp_terminal : (λ l, target l) <$> last (path_hops path) = Some (path_terminal_coordinate path);
  vp_start : ∃ first entrypoint, head (path_hops path) = Some first ∧
    entrypoint ∈ root_structural_entrypoints root ∧ path_starts_at_entrypoint first entrypoint = true;
  vp_identity : derive_path_id (path_root_id path) (path_hops path) = Ok (path_path_id path);
  vp_score : path_score (root_semantic_score root) (transitions (path_hops path))
    = Ok (path_path_score_explanation path);
  vp_final : ps_final_score (path_path_score_explanation path) = Some (path_path_score path);
}.

Lemma numbered_spec hops :
  existsb (λ '(index, hop), negb (hop.(hop_ordinal) =? index + 1)%N) (enumerate hops) = false ↔ numbered hops.
Proof.
  rewrite <- not_true_iff_false, existsb_exists. unfold numbered, enumerate. split.
  - intros Hn i h Hi. destruct (N.eqb_spec (hop_ordinal h) (N.of_nat i + 1)) as [|Hne]; [done|].
    exfalso. apply Hn. exists (N.of_nat i, h). rewrite <- list_elem_of_In. split.
    + apply elem_of_lookup_imap. eauto.
    + by apply negb_true_iff, N.eqb_neq.
  - intros Hn ([k h] & Hin & Hk). rewrite <- list_elem_of_In in Hin.
    apply elem_of_lookup_imap in Hin as (i & h' & [= -> ->] & Hi). rewrite (Hn i h' Hi), N.eqb_refl in Hk. done.
Qed.

Lemma existsb_elem {A} (p : A → bool) l : existsb p l = true ↔ ∃ x, x ∈ l ∧ p x = true.
Proof. rewrite existsb_exists. by setoid_rewrite list_elem_of_In. Qed.

Lemma validate_path_spec path project_id root observations :
  SemanticPath_validate_detailed path project_id root observations = Ok tt ↔
  valid_path project_id observations root path.
Proof.
  unfold SemanticPath_validate_detailed. rewrite !seq_Ok, !reject_if_Ok, orb3_false, numbered_spec, rbind_Ok. split.
  - intros ((_ & Hn & Hl) & id & Hid & H). ok_inv.
    match goal with H : _ || _ = false |- _ => apply orb_false_iff in H as [Hd%bool_decide_negb_false Hf%bool_decide_negb_false] end.
    match goal with H : try_fold _ _ _ = Ok _ |- _ => apply validate_hops_spec in H as (? & ? & _) end.
    match goal with H : negb (existsb _ _) = false |- _ => apply negb_false_iff, existsb_elem in H as (e & ? & ?) end.
    repeat match goal with H : negb (bool_decide _) = false |- _ => apply bool_decide_negb_false in H end.
    destruct (last (path_hops path)) as [l|] eqn:Hlast; [|done]. apply bool_decide_negb_false in Hl.
    split; try done; [by rewrite Hlast, <- Hl|naive_solver|congruence|congruence].
  - intros [Hh Hs Hn Ht (f & e & Hf & He & Hst) Hi Hps Hfs].
    destruct (last (path_hops path)) as [l|] eqn:Hlast; [|done]. injection Ht as Ht.
    split_and!; [by destruct (path_hops path)|done|by apply bool_decide_negb_false|].
    exists (path_path_id path). rewrite map_err_Ok. split; [done|].
    rewrite seq_Ok, reject_if_Ok, orb_false_iff, !bool_decide_negb_false, rbind_Ok. split; [done|].
    exists f. rewrite ok_or_Ok, seq_Ok, reject_if_Ok, negb_false_iff, existsb_elem, rbind_Ok.
    split_and!; [done|by exists e|]. exists (walk_of (path_hops path)). split; [by apply validate_hops_spec|].
    rewrite rbind_Ok. exists (path_path_score_explanation path). rewrite Hps. split; [done|].
    by rewrite seq_Ok, reject_if_Ok, bool_decide_negb_false.
Qed.

End paths.

(** * Semantic query: facts on the frontier

    The invariant of path prefixes, which [append_hop] keeps; the beam as a
    prefix of the sorted successors; the counters. *)


Section frontier.
Context `{P : Platform} `{HP : !Postcard}.
Implicit Types (h : SemanticHyperedgeHop) (st : FrontierPathState).

Abbreviation target h := (con_coordinate (hop_continued_to_coordinate h)).

Definition entry_coordinate (entrypoint : RootStructuralEntrypoint) : option ProjectContextCoordinate :=
  match entrypoint with EntryCoordinate coordinate => Some coordinate | _ => None end.

(** What the fields of a prefix say of its hops, each of which satisfies [Q]. *)
Record frontier_ok (Q : SemanticHyperedgeHop → Prop) st : Prop := mkFrontierOk {
  fo_hops : Forall Q (fps_hops st);
  fo_simple : simple_path (fps_hops st);
  fo_numbered : numbered (fps_hops st);
  fo_start : ∀ first, head (fps_hops st) = Some first →
    path_starts_at_entrypoint first (fps_structural_entrypoint st) = true;
  fo_current : fps_current_coordinate st
    = match last (fps_hops st) with
      | Some l => Some (target l)
      | None => entry_coordinate (fps_structural_entrypoint st)
      end;
  fo_coordinates : fps_visited_coordinates st
    = list_to_set (if decide (fps_hops st = []) then option_list (entry_coordinate (fps_structural_entrypoint st))
                   else path_coordinates (fps_hops st));
  fo_edges : fps_visited_edges st = list_to_set (path_edges (fps_hops st));
  fo_score : fps_hops st ≠ [] → ∃ explanation,
    path_score (fps_root_score st) (hop_transition_score <$> fps_hops st) = Ok explanation ∧
    fps_path_score st = ps_final_score explanation;
}.

Lemma seed_ok Q root_id entrypoint score :
  frontier_ok Q (FrontierPathState_seed root_id entrypoint score).
Proof.
  split; simpl; try done. apply simple_path_nil.
Qed.

Lemma numbered_snoc (hops : list SemanticHyperedgeHop) h :
  numbered hops → hop_ordinal h = (len hops + 1)%N → numbered (hops ++ [h]).
Proof.
  intros Hn Ho i x [Hx|[Hge Hx]]%lookup_app_Some; [by apply Hn|].
  apply list_lookup_singleton_Some in Hx as [Hi <-]. unfold len in Ho. rewrite Ho.
  do 2 f_equal. lia.
Qed.

(** A successful extension, in one statement. *)
Lemma append_hop_Ok st h st' :
  append_hop st h = Ok st' →
  let hop := set_ordinal h (len (fps_hops st) + 1) in
  hop_entered_from_coordinate h = fps_current_coordinate st ∧
  (fps_hops st = [] → path_starts_at_entrypoint h (fps_structural_entrypoint st) = true) ∧
  (∀ entered, hop_entered_from_coordinate h = Some entered → entered ∈ edge_complete_coordinates (hop_edge h)) ∧
  target h ∈ edge_complete_coordinates (hop_edge h) ∧ hop_entered_from_coordinate h ≠ Some (target h) ∧
  (edge_edge_key (hop_edge h) ∉ fps_visited_edges st) ∧ (target h ∉ fps_visited_coordinates st) ∧
  ∃ explanation, path_score (fps_root_score st) (hop_transition_score <$> fps_hops st ++ [hop]) = Ok explanation ∧
    st' = {| fps_root_id := fps_root_id st;
             fps_structural_entrypoint := fps_structural_entrypoint st;
             fps_hops := fps_hops st ++ [hop];
             fps_current_coordinate := Some (target h);
             fps_visited_coordinates := {[ target h ]} ∪ fps_visited_coordinates st;
             fps_visited_edges := {[ edge_edge_key (hop_edge h) ]} ∪ fps_visited_edges st;
             fps_root_score := fps_root_score st;
             fps_path_score := ps_final_score explanation |}.
Proof.
  unfold append_hop. intros H. ok_inv.
  repeat match goal with H : negb (bool_decide _) = false |- _ => apply bool_decide_negb_false in H end.
  match goal with H : negb (bool_decide _) || _ = false |- _ =>
    apply orb_false_iff in H as [?%bool_decide_negb_false ?%bool_decide_eq_false] end.
  match goal with H : bool_decide _ || _ = false |- _ =>
    apply orb_false_iff in H as [?%bool_decide_eq_false ?%bool_decide_eq_false] end.
  match goal with H : _ ≫= _ = Some _ |- _ =>
    apply bind_Some in H as (n & [-> _]%u64_checked_add_Some & Hu) end.
  unfold u16_try_from in Hu. destruct (_ <=? 65535)%N; [injection Hu as <-|done].
  split_and!; try done.
  - intros Hn. rewrite Hn in *. simpl in *. ok_inv. by apply negb_false_iff.
  - intros entered He. rewrite He in *. simpl in *. by match goal with H : negb (bool_decide (_ ∈ _)) = false |- _ => apply bool_decide_negb_false in H end.
  - eexists. split; [done|by symmetry].
Qed.

Lemma append_hop_ok (Q : SemanticHyperedgeHop → Prop) st h st' :
  frontier_ok Q st → Q (set_ordinal h (len (fps_hops st) + 1)) → append_hop st h = Ok st' →
  frontier_ok Q st' ∧ fps_root_id st' = fps_root_id st ∧
  fps_structural_entrypoint st' = fps_structural_entrypoint st ∧ fps_root_score st' = fps_root_score st ∧
  len (fps_hops st') = (len (fps_hops st) + 1)%N.
Proof.
  intros [Fh Fs Fn Fst Fc Fco Fe Fsc] Hh (Hent & Hstart & Hmem & Htm & Hne & Hed & Hco & expl & Hps & ->)%append_hop_Ok.
  split_and!; try done; [|simpl; apply len_app].
  assert (extends (fps_hops st) h) as Hext.
  { split; try done.
    - intros Hn. rewrite Hent, Fc. destruct (last (fps_hops st)) eqn:Hl; [done|by apply last_None in Hl].
    - rewrite Fe in Hed. by rewrite elem_of_list_to_set in Hed.
    - rewrite Fco in Hco. rewrite elem_of_list_to_set in Hco. case_decide as Hn; [rewrite Hn; by intros ?%elem_of_nil|done]. }
  split; simpl.
  - apply Forall_app. split; [done|]. constructor; [exact Hh|constructor].
  - apply simple_path_snoc. split; [done|]. destruct Hext. by split.
  - by apply numbered_snoc.
  - intros first Hf. destruct (fps_hops st) as [|h0 hops]; simpl in *; [injection Hf as <-; by apply Hstart|by apply Fst].
  - by rewrite last_snoc.
  - rewrite decide_False by (by destruct (fps_hops st)). rewrite path_coordinates_snoc, list_to_set_app_L, Fco. simpl.
    case_decide as Hn; [|set_solver]. rewrite Hn in Fc. simpl in Fc. rewrite Hent, Fc. set_solver.
  - rewrite Fe. unfold path_edges. rewrite fmap_app, list_to_set_app_L. simpl. set_solver.
  - intros _. eauto.
Qed.

(** ** The beam *)

#[global] Instance compare_path_states_pre : PreCmp compare_path_states.
Proof. apply pre_then; [apply (pre_flip_on scheduling_priority), _|apply (pre_on provenance_key), _]. Qed.

Definition distinct_keys (xs : list FrontierPathState) : Prop :=
  ∀ a b, a ∈ xs → b ∈ xs → provenance_key a = provenance_key b → a = b.

Lemma distinct_keys_distinguishes xs : distinct_keys xs → distinguishes compare_path_states xs.
Proof.
  intros Hd a b Ha Hb H. apply Hd; [done..|]. unfold compare_path_states, then_with in H.
  destruct (Score_cmp _ _); try done. by apply (cmp_eq slice_cmp) in H.
Qed.

(** Several successors in turn. *)
Definition admit_all (acc : BoundedSuccessorAccumulator) (xs : list FrontierPathState) : BoundedSuccessorAccumulator :=
  foldl (λ acc x, (BoundedSuccessorAccumulator_admit acc x).1) acc xs.

Lemma pop_take {A} n (l : list A) :
  (length l ≤ S n)%nat → (if (N.of_nat n <? len l)%N then pop l else l) = take n l.
Proof.
  intros Hl. unfold len, pop. destruct (N.ltb_spec (N.of_nat n) (N.of_nat (length l))).
  - assert (length l - 1 = n)%nat as -> by lia. done.
  - rewrite take_ge; [done|lia].
Qed.

Lemma sort_insert_take {A} (cmp : A → A → comparison) n x s :
  take n (sort_insert cmp x (take n s)) = take n (sort_insert cmp x s).
Proof.
  revert n. induction s as [|y s IH]; intros n; [by rewrite take_nil|].
  destruct n as [|n]; [done|]. simpl. destruct (cmp x y); simpl; [f_equal|f_equal|f_equal; apply IH].
  1,2: destruct n as [|n]; simpl; [done|]; f_equal; rewrite take_take; f_equal; lia.
Qed.

Lemma take_sorted {A} (R : A → A → Prop) n l : StronglySorted R l → StronglySorted R (take n l).
Proof.
  intros H. revert n. induction H as [|x l _ IH Hx]; intros [|n]; simpl; try constructor; [apply IH|].
  by apply Forall_take.
Qed.

Lemma sort_by_snoc_take {A} (cmp : A → A → comparison) `{!PreCmp cmp} n xs x :
  distinguishes cmp (xs ++ [x]) →
  take n (sort_by cmp (take n (sort_by cmp xs) ++ [x])) = take n (sort_by cmp (xs ++ [x])).
Proof.
  intros Hd.
  assert (∀ l, (∀ y, y ∈ l → y ∈ xs) → sort_by cmp (l ++ [x]) = sort_insert cmp x (sort_by cmp l)) as Hs.
  { intros l Hl. change (sort_insert cmp x (sort_by cmp l)) with (sort_by cmp (x :: l)).
    apply (sort_by_order cmp); [by rewrite Permutation_app_comm|]. intros a b Ha Hb. apply Hd; set_solver. }
  assert (∀ y, y ∈ take n (sort_by cmp xs) → y ∈ xs) as Hsub.
  { intros y Hy. rewrite <- (sort_by_perm cmp xs). rewrite <- (take_drop n (sort_by cmp xs)). apply elem_of_app. by left. }
  rewrite (Hs xs) by done. rewrite Hs by done. rewrite (sort_by_fixpoint cmp (take n (sort_by cmp xs))).
  - apply sort_insert_take.
  - by apply take_sorted, (sort_by_weak cmp).
  - intros a b Ha Hb. apply Hd; apply elem_of_app; left; by apply Hsub.
Qed.

Lemma admit_step acc x n :
  acc_beam_width acc = N.of_nat n → (length (acc_successors acc) ≤ n)%nat →
  let l := sort_by compare_path_states (acc_successors acc ++ [x]) in
  BoundedSuccessorAccumulator_admit acc x
  = (mkAccumulator (acc_beam_width acc) (take n l)
       ((acc_beam_width acc <? len (acc_successors acc) + 1)%N || acc_observed_suppressed_successor acc),
     existsb (λ state, bool_decide (provenance_key state = provenance_key x)) (take n l)).
Proof.
  intros Hw Hl l. unfold BoundedSuccessorAccumulator_admit. fold l.
  assert (length l = length (acc_successors acc) + 1)%nat as Hlen.
  { unfold l. rewrite (Permutation_length (sort_by_perm compare_path_states _)), length_app. done. }
  assert (len l = len (acc_successors acc) + 1)%N as Hlen' by (unfold len; lia).
  rewrite <- (pop_take n l), <- Hw, <- Hlen' by lia. by destruct (acc_beam_width acc <? len l)%N.
Qed.

(** After any admissions the accumulator holds the best ones in order. *)
Lemma admit_all_spec n xs acc :
  BoundedSuccessorAccumulator_new (N.of_nat n) = Ok acc → distinct_keys xs →
  admit_all acc xs = mkAccumulator (N.of_nat n) (take n (sort_by compare_path_states xs)) (N.of_nat n <? len xs)%N.
Proof.
  intros Hnew. unfold BoundedSuccessorAccumulator_new in Hnew. ok_inv. subst acc.
  induction xs as [|x xs IH] using rev_ind; intros Hd.
  { simpl. rewrite take_nil. f_equal. by destruct n. }
  unfold admit_all. rewrite foldl_snoc. fold (admit_all (mkAccumulator (N.of_nat n) [] false) xs).
  rewrite IH by (intros a b Ha Hb; apply Hd; apply elem_of_app; by left).
  rewrite (admit_step _ _ n) by (simpl; rewrite ?length_take; lia). cbn [fst acc_beam_width acc_successors acc_observed_suppressed_successor].
  rewrite (sort_by_snoc_take compare_path_states) by (by apply distinct_keys_distinguishes). f_equal.
  unfold len. rewrite length_take, length_app, (Permutation_length (sort_by_perm compare_path_states _)). simpl.
  destruct (N.ltb_spec (N.of_nat n) (N.of_nat (length xs + 1))), (N.ltb_spec (N.of_nat n) (N.of_nat (length xs)));
    rewrite ?orb_true_r, ?orb_false_r; try lia; [|]; apply N.ltb_lt || apply N.ltb_ge; lia.
Qed.

(** ** Counters *)

Lemma admit_unique_spec {T} `{Countable T} (set : gset T) key cap set' admission :
  admit_unique set key cap = (set', admission) →
  match admission with
  | CounterAdmission.Reused => key ∈ set ∧ set' = set
  | CounterAdmission.Exhausted => (key ∉ set) ∧ (cap ≤ N.of_nat (size set))%N ∧ set' = set
  | CounterAdmission.WasAdmitted => (key ∉ set) ∧ set' = {[ key ]} ∪ set ∧ (N.of_nat (size set') ≤ cap)%N
  end.
Proof.
  unfold admit_unique. case_bool_decide; [by intros [= <- <-]|].
  destruct (N.leb_spec cap (N.of_nat (size set))); intros [= <- <-]; [done|].
  split_and!; [done..|]. rewrite size_union by set_solver. rewrite size_singleton. lia.
Qed.

End frontier.
