(* ===== verification/SemanticRequestFacts.v ===== *)
(** * Semantic query: facts on requests and results

    The canonical form of a request, a reference definition of the forests that
    [validate_detailed] accepts, and what [validate_for_request] adds. *)

From Stdlib Require Import Permutation Sorted.
From stdpp Require Import prelude strings gmap fin_maps.
From S2P Require Import Prelude Ordering Text TextOps Platform ContextCoordinate ContextModel.
From S2P Require Import ContextProjection ContextFacts.
From S2P Require Import SemanticModel SemanticResult SemanticVerify.
From S2P Require Import SemanticScoreFacts SemanticRootFacts SemanticPathFacts.

(** ** Trimming *)

Lemma trim_start_idemp s : trim_start (trim_start s) = trim_start s.
Proof. induction s as [|c s IH]; simpl; [done|]. destruct (is_whitespace c) eqn:Hc; [done|]. simpl. by rewrite Hc. Qed.

Lemma trim_idemp s : trim (trim s) = trim s.
Proof.
  apply trim_id. unfold trim. set (u := trim_start s). set (r := reverse u). split.
  - rewrite head_reverse. destruct (trim_start_suffix r) as (p & Hp & _).
    assert (Hu : is_some_and is_whitespace (head u) = false) by (apply trim_start_id, trim_start_idemp).
    rewrite <- (reverse_involutive u) in Hu. fold r in Hu. rewrite head_reverse in Hu. rewrite Hp in Hu.
    rewrite last_app in Hu. destruct (trim_start r) as [|c t]; [done|].
    by destruct (last (c :: t)) eqn:E; [|by apply last_None in E].
  - rewrite last_reverse. apply trim_start_id, trim_start_idemp.
Qed.

(** ** Sorted lists without duplicates *)

Lemma dedup_after_sublist {A} (same : A → A → bool) kept l : sublist (dedup_after same kept l) l.
Proof.
  revert kept. induction l as [|x l IH]; intros kept; simpl; [done|].
  destruct (same x kept); [by apply sublist_cons|by apply sublist_skip].
Qed.

Lemma dedup_by_sublist {A} (same : A → A → bool) l : sublist (dedup_by same l) l.
Proof. destruct l as [|x l]; simpl; [done|]. apply sublist_skip, dedup_after_sublist. Qed.

Lemma sublist_sorted {A} (R : A → A → Prop) l k : sublist l k → StronglySorted R k → StronglySorted R l.
Proof.
  induction 1 as [|x l k Hs IH|x l k Hs IH]; [done| |]; intros [Hk Hx]%StronglySorted_inv; [|auto].
  constructor; [auto|]. rewrite Forall_forall in Hx |- *. intros y Hy. apply Hx. by eapply elem_of_sublist.
Qed.

Section canonical.
Context {A} (cmp : A → A → comparison) `{!TotalCmp cmp} `{EqDecision A}.

Lemma weakly_strictly l : WeaklySorted cmp l → NoDup l → StrictlySorted cmp l.
Proof.
  induction 1 as [|x l Hl IH Hx]; intros Hd; [constructor|]. apply NoDup_cons in Hd as [Hn Hd].
  constructor; [auto|]. rewrite Forall_forall in Hx |- *. intros y Hy. specialize (Hx y Hy).
  destruct (cmp x y) eqn:E; [|done|done]. apply (cmp_eq cmp) in E as ->. done.
Qed.

(** [sort] followed by [dedup] *)
Definition canonical (l : list A) : list A := dedup_by (λ a b, bool_decide (a = b)) (sort_by cmp l).

Lemma canonical_dedup (l : list A) : dedup_by (λ a b, bool_decide (a = b)) l = dedup_by (λ a b, bool_decide (id a = id b)) l.
Proof. done. Qed.

Lemma elem_of_canonical l x : x ∈ canonical l ↔ x ∈ l.
Proof using TotalCmp0.
  unfold canonical. rewrite canonical_dedup, (elem_of_dedup_by cmp id).
  - unfold first_of. rewrite (sort_by_perm cmp). split; [by intros []|]. intros Hx. split; [done|].
    intros y _ [= ->]. by rewrite (pre_refl cmp).
  - intros a b c Hab Hbc [= <-]. simpl. rewrite (cmp_sym cmp a b) in Hbc. symmetry. apply (cmp_eq cmp).
    by destruct (cmp a b).
  - apply (sort_by_weak cmp).
  - intros a b _ _. apply (cmp_eq cmp).
Qed.

Lemma canonical_sorted l : StrictlySorted cmp (canonical l).
Proof using TotalCmp0.
  apply weakly_strictly.
  - eapply sublist_sorted; [apply dedup_by_sublist|apply (sort_by_weak cmp)].
  - unfold canonical. rewrite canonical_dedup, <- (list_fmap_id (dedup_by _ _)).
    apply (dedup_by_groups cmp id); [|apply (sort_by_weak cmp)].
    intros a b c Hab Hbc [= <-]. simpl. rewrite (cmp_sym cmp a b) in Hbc. symmetry. apply (cmp_eq cmp).
    by destruct (cmp a b).
Qed.

Lemma canonical_NoDup l : NoDup (canonical l).
Proof using TotalCmp0. eapply StrictlySorted_NoDup; [|apply canonical_sorted]. apply _. Qed.

(** The canonical form is determined by the elements. *)
Lemma canonical_set l k : (∀ x, x ∈ l ↔ x ∈ k) → canonical l = canonical k.
Proof using TotalCmp0.
  intros H. apply (StrictlySorted_unique cmp); [apply canonical_sorted..|].
  apply NoDup_Permutation; [apply canonical_NoDup..|]. intros x. by rewrite !elem_of_canonical.
Qed.

Lemma canonical_idemp l : canonical (canonical l) = canonical l.
Proof using TotalCmp0. apply canonical_set. apply elem_of_canonical. Qed.

Lemma length_canonical l : length (canonical l) ≤ length l.
Proof.
  unfold canonical. etrans; [apply sublist_length, dedup_by_sublist|].
  by rewrite (Permutation_length (sort_by_perm cmp l)).
Qed.

End canonical.

Section request.
Context `{P : Platform} `{HU : !UuidLaws} `{HP : !Postcard}.
Implicit Types (q : SemanticGraphQuery) (res : SemanticGraphQueryResult).

(** ** The canonical request *)

Abbreviation coordinates_of l := (canonical ProjectContextCoordinate_cmp l).

Lemma canonicalize_coordinates_Ok project_id field l k :
  canonicalize_query_coordinates project_id field l = Ok k ↔
  Forall (coordinate_in project_id) l ∧ k = coordinates_of l.
Proof.
  unfold canonicalize_query_coordinates. rewrite seq_Ok, for_each_Ok. fold (coordinates_of l).
  assert (Forall (λ c, map_err (λ error, SemanticGraphQueryError.InvalidCoordinate field
             (ProjectContextError_to_string error)) (ProjectContextCoordinate_validate_for_project c project_id) = Ok tt) l
          ↔ Forall (coordinate_in project_id) l) as ->.
  { apply Forall_iff. intros c. rewrite map_err_Ok. apply coordinate_validate_for_project_Ok. }
  naive_solver.
Qed.

Definition canonical_request q : SemanticGraphQuery := {|
  qry_request_id := qry_request_id q;
  qry_project_id := qry_project_id q;
  qry_problem := trim (qry_problem q);
  qry_initial_coordinates := coordinates_of (qry_initial_coordinates q);
  qry_context_coordinates := coordinates_of (qry_context_coordinates q);
  qry_lifecycle_filter := qry_lifecycle_filter q;
  qry_budget := qry_budget q;
|}.

(** What a request needs, apart from the number of its Coordinates. *)
Record request_ok q : Prop := mkRequestOk {
  rq_request_id : query_validate_uuid_v4 (qry_request_id q) "request_id" = Ok tt;
  rq_project_id : query_validate_uuid_v4 (qry_project_id q) "project_id" = Ok tt;
  rq_problem : trim (qry_problem q) ≠ [];
  rq_nul : has_nul_byte (trim (qry_problem q)) = false;
  rq_problem_size : (str_len (trim (qry_problem q)) ≤ MAX_PROBLEM_BYTES)%N;
  rq_initial : Forall (coordinate_in (qry_project_id q)) (qry_initial_coordinates q);
  rq_context : Forall (coordinate_in (qry_project_id q)) (qry_context_coordinates q);
  rq_budget : SemanticGraphQueryBudget_validate (qry_budget q) = Ok tt;
}.

Definition few_coordinates q : Prop :=
  (len (qry_initial_coordinates q) ≤ MAX_INITIAL_COORDINATES)%N ∧
  (len (qry_context_coordinates q) ≤ MAX_CONTEXT_COORDINATES)%N.

Lemma validate_and_canonicalize_Ok q q' :
  validate_and_canonicalize q = Ok q' ↔ request_ok q ∧ few_coordinates q ∧ q' = canonical_request q.
Proof.
  unfold validate_and_canonicalize, few_coordinates. rewrite !seq_Ok, !reject_if_Ok, !N.ltb_ge, rbind_Ok.
  assert (∀ t : Text, is_empty t = false ↔ t ≠ []) as -> by (by intros []). split.
  - intros (? & ? & ? & ? & ? & ? & ? & k & Hk & Hr). apply canonicalize_coordinates_Ok in Hk as [? ->].
    rewrite rbind_Ok in Hr. destruct Hr as (k & Hk & Hr). apply canonicalize_coordinates_Ok in Hk as [? ->].
    rewrite seq_Ok in Hr. destruct Hr as [? [= <-]]. by split_and!.
  - intros ([] & [? ?] & ->). split_and!; try done.
    eexists. split; [by apply canonicalize_coordinates_Ok|]. rewrite rbind_Ok.
    eexists. split; [by apply canonicalize_coordinates_Ok|]. by rewrite seq_Ok.
Qed.

Lemma coordinates_of_in project_id l :
  Forall (coordinate_in project_id) l → Forall (coordinate_in project_id) (coordinates_of l).
Proof using HU.
  rewrite !Forall_forall. intros H c Hc. apply H. by rewrite (elem_of_canonical ProjectContextCoordinate_cmp) in Hc.
Qed.

Lemma canonical_request_ok q :
  request_ok q → few_coordinates q → request_ok (canonical_request q) ∧ few_coordinates (canonical_request q).
Proof using HU.
  intros [] [Hi Hc]. split.
  - split; simpl; rewrite ?trim_idemp; auto using coordinates_of_in.
  - pose proof (length_canonical ProjectContextCoordinate_cmp (qry_initial_coordinates q)).
    pose proof (length_canonical ProjectContextCoordinate_cmp (qry_context_coordinates q)).
    unfold few_coordinates, len in *. simpl. lia.
Qed.

Lemma canonical_request_idemp q : canonical_request (canonical_request q) = canonical_request q.
Proof using HU.
  unfold canonical_request. simpl. by rewrite trim_idemp, !(canonical_idemp ProjectContextCoordinate_cmp).
Qed.

(** ** Forests *)

Definition root_valid res (root : SemanticRoot) : Prop :=
  SemanticRoot_validate root (res_project_id res) (res_observations res) = Ok tt.

Lemma root_validate_preview root project_id observations :
  SemanticRoot_validate root project_id observations = Ok tt → validate_preview (root_preview root) = Ok tt.
Proof. unfold SemanticRoot_validate. intros H. ok_inv. done. Qed.

Definition roots_map (roots : list SemanticRoot) : gmap Digest32 SemanticRoot :=
  list_to_map ((λ r, (root_root_id r, r)) <$> reverse roots).

Lemma roots_map_snoc roots r : roots_map (roots ++ [r]) = <[root_root_id r := r]> (roots_map roots).
Proof. unfold roots_map. by rewrite reverse_app. Qed.

Lemma roots_map_None roots id : roots_map roots !! id = None ↔ id ∉ (root_root_id <$> roots).
Proof.
  unfold roots_map. rewrite <- not_elem_of_list_to_map. rewrite <- list_fmap_compose, fmap_reverse. simpl.
  by rewrite elem_of_reverse.
Qed.

Lemma roots_map_Some roots id r :
  NoDup (root_root_id <$> roots) → roots_map roots !! id = Some r ↔ r ∈ roots ∧ root_root_id r = id.
Proof.
  intros Hd. unfold roots_map. rewrite <- elem_of_list_to_map.
  - rewrite list_elem_of_fmap. setoid_rewrite elem_of_reverse. naive_solver.
  - rewrite <- list_fmap_compose, fmap_reverse. simpl. by rewrite (reverse_Permutation (root_root_id <$> roots)).
Qed.

Lemma NoDup_snoc {A} (l : list A) x : NoDup (l ++ [x]) ↔ NoDup l ∧ x ∉ l.
Proof.
  rewrite NoDup_app. split.
  - intros (? & Hn & _). split; [done|]. intros Hx. apply (Hn _ Hx). constructor.
  - intros [? Hn]. split_and!; [done| |apply NoDup_singleton]. by intros y Hy ->%list_elem_of_singleton.
Qed.

Lemma validate_roots_Ok res roots m :
  try_fold (validate_root res) ∅ roots = Ok m ↔
  Forall (root_valid res) roots ∧ NoDup (root_root_id <$> roots) ∧ m = roots_map roots.
Proof.
  revert m. induction roots as [|r roots IH] using rev_ind; intros m.
  { split; [intros [= <-]; split_and!; [constructor|constructor|done]|by intros (_ & _ & ->)]. }
  rewrite try_fold_app, rbind_Ok, Forall_app, Forall_singleton, fmap_app, roots_map_snoc. setoid_rewrite IH. simpl.
  rewrite NoDup_snoc, <- roots_map_None. unfold validate_root. split.
  - intros (m' & (Hvs & Hnd & ->) & Hlast). ok_inv. subst m. split_and!; try done.
    by destruct (roots_map roots !! root_root_id r).
  - intros ([? Hr] & [? Hn] & ->). exists (roots_map roots). split; [done|].
    rewrite (root_validate_preview _ _ _ Hr), Hr, Hn. done.
Qed.

(** A path under its root. *)
Definition path_in res (path : SemanticPath) : Prop :=
  ∃ root, root ∈ res_roots res ∧ root_root_id root = path_root_id path ∧
    valid_path (res_project_id res) (res_observations res) root path.

Lemma validate_paths_Ok res paths ids :
  NoDup (root_root_id <$> res_roots res) →
  try_fold (validate_path res (roots_map (res_roots res))) ∅ paths = Ok ids ↔
  Forall (path_in res) paths ∧ NoDup (path_path_id <$> paths) ∧ ids = list_to_set (path_path_id <$> paths).
Proof.
  intros Hd. revert ids. induction paths as [|p paths IH] using rev_ind; intros ids.
  { split; [intros [= <-]; split_and!; [constructor|constructor|done]|by intros (_ & _ & ->)]. }
  rewrite try_fold_app, rbind_Ok, Forall_app, Forall_singleton, fmap_app. setoid_rewrite IH. simpl.
  rewrite NoDup_snoc, list_to_set_app_L. unfold validate_path. split.
  - intros (m' & (Hvs & Hnd & ->) & Hlast). ok_inv.
    match goal with H : roots_map _ !! _ = Some ?r |- _ => apply roots_map_Some in H as [? ?]; [|done] end.
    match goal with H : SemanticPath_validate_detailed _ _ _ _ = _ |- _ => apply validate_path_spec in H end.
    match goal with H : bool_decide _ = false |- _ => apply bool_decide_eq_false in H; rewrite elem_of_list_to_set in H end.
    subst ids. split_and!; try done; [by eexists|simpl; set_solver].
  - intros ([? (r & Hr & Hid & Hv)] & [? Hn] & ->). eexists. split; [done|].
    rewrite (proj2 (roots_map_Some _ _ r Hd)) by done. simpl.
    rewrite (proj2 (validate_path_spec _ _ _ _)) by done. simpl.
    rewrite bool_decide_eq_false_2 by (by rewrite elem_of_list_to_set). simpl. f_equal. set_solver.
Qed.

(** The forests that a completed result may carry. *)
Record valid_forest res : Prop := mkValidForest {
  vf_partition : coverage_not_partition (res_coverage res) = false;
  vf_monotonic : coverage_not_monotonic (res_coverage res) = false;
  vf_dimensions : windows2_any (λ a b, cmp_ge (N.compare (ExhaustedDimension_index a) (ExhaustedDimension_index b)))
    (res_exhausted_dimensions res) = false;
  vf_completion : res_completion_reason res = CompletionReason.BudgetExhausted ↔ res_exhausted_dimensions res ≠ [];
  vf_roots : Forall (root_valid res) (res_roots res);
  vf_root_ids : NoDup (root_root_id <$> res_roots res);
  vf_paths : Forall (path_in res) (res_paths res);
  vf_path_ids : NoDup (path_path_id <$> res_paths res);
  vf_roots_returned : cvg_roots_returned (res_coverage res) = len (res_roots res);
  vf_paths_returned : cvg_paths_returned (res_coverage res) = len (res_paths res);
}.

Lemma completion_Ok res :
  match res_completion_reason res with
  | CompletionReason.BudgetExhausted =>
      reject_if (is_empty (res_exhausted_dimensions res))
        (validation_error SemanticGraphResultInvariant.Completion
           "budget exhaustion requires an exhausted dimension")
  | CompletionReason.FrontierExhausted | CompletionReason.WallTimeExhausted =>
      reject_if (negb (is_empty (res_exhausted_dimensions res)))
        (validation_error SemanticGraphResultInvariant.Completion
           "non-budget completion must not report exhausted dimensions")
  end = Ok tt ↔
  (res_completion_reason res = CompletionReason.BudgetExhausted ↔ res_exhausted_dimensions res ≠ []).
Proof. destruct (res_completion_reason res), (res_exhausted_dimensions res); simpl; naive_solver. Qed.

Lemma validate_detailed_spec res : validate_detailed res = Ok tt ↔ valid_forest res.
Proof.
  unfold validate_detailed. rewrite !seq_Ok, completion_Ok, !reject_if_Ok, rbind_Ok. setoid_rewrite validate_roots_Ok.
  split.
  - intros (? & ? & ? & ? & m & (Hr & Hd & ->) & Hp). ok_inv.
    match goal with H : try_fold _ _ _ = Ok _ |- _ => apply validate_paths_Ok in H as (? & ? & _); [|done] end.
    match goal with H : _ || _ = false |- _ => apply orb_false_iff in H as [?%negb_false_iff ?%negb_false_iff] end.
    split; try done; by apply N.eqb_eq.
  - intros [?? ? ? ? ? ? ? ? ?]. split_and!; try done. exists (roots_map (res_roots res)). split; [done|].
    rewrite rbind_Ok. eexists. split; [by apply validate_paths_Ok|].
    rewrite seq_Ok, reject_if_Ok, orb_false_iff, !negb_false_iff, !N.eqb_eq. done.
Qed.

(** ** Observations of the input *)

Lemma observe_fold {A E} (f : gset ProjectContextCoordinate → A → result (gset ProjectContextCoordinate) E)
    (key : A → ProjectContextCoordinate) xs acc acc' :
  (∀ acc x acc', f acc x = Ok acc' → (key x ∉ acc) ∧ acc' = {[ key x ]} ∪ acc) →
  try_fold f acc xs = Ok acc' →
  NoDup (key <$> xs) ∧ (∀ c, c ∈ (key <$> xs) → c ∉ acc) ∧ acc' = list_to_set (key <$> xs) ∪ acc.
Proof.
  intros Hf. revert acc. induction xs as [|x xs IH]; intros acc; simpl.
  - intros [= <-]. split_and!; [constructor|by intros ? ?%elem_of_nil|set_solver].
  - intros H. apply rbind_Ok in H as (acc1 & [Hx ->]%Hf & (Hd & Hn & ->)%IH). split_and!.
    + apply NoDup_cons. split; [|done]. intros Hin. specialize (Hn _ Hin). set_solver.
    + intros c [->|Hc]%elem_of_cons; [done|]. specialize (Hn c Hc). set_solver.
    + set_solver.
Qed.

Lemma require_unique_Ok observed c field observed' :
  require_unique_coordinate observed c field = Ok observed' → (c ∉ observed) ∧ observed' = {[ c ]} ∪ observed.
Proof. unfold require_unique_coordinate. intros H. ok_inv. by rewrite bool_decide_eq_false in H. Qed.

Lemma observe_accepted_initial_Ok res acc x acc' :
  observe_accepted_initial res acc x = Ok acc' → (aio_coordinate x ∉ acc) ∧ acc' = {[ aio_coordinate x ]} ∪ acc.
Proof. unfold observe_accepted_initial. intros H. ok_inv. subst. by eapply require_unique_Ok. Qed.

Lemma observe_omitted_initial_Ok res acc x acc' :
  observe_omitted_initial res acc x = Ok acc' → (oio_coordinate x ∉ acc) ∧ acc' = {[ oio_coordinate x ]} ∪ acc.
Proof. unfold observe_omitted_initial. intros H. ok_inv. subst. by eapply require_unique_Ok. Qed.

Lemma observe_accepted_context_Ok res acc x acc' :
  observe_accepted_context res acc x = Ok acc' → (aco_coordinate x ∉ acc) ∧ acc' = {[ aco_coordinate x ]} ∪ acc.
Proof. unfold observe_accepted_context. intros H. ok_inv. subst. by eapply require_unique_Ok. Qed.

Lemma partition2 {A} `{Countable A} (l a b : list A) :
  NoDup l → NoDup a → NoDup b → (∀ c, c ∈ b → c ∉ list_to_set (C := gset A) a ∪ ∅) →
  list_to_set b ∪ (list_to_set a ∪ ∅) = list_to_set (C := gset A) l → Permutation l (a ++ b).
Proof.
  intros Hl Ha Hb Hd Hs. apply NoDup_Permutation; [done| |].
  - apply NoDup_app. split_and!; [done| |done]. intros c Hc Hc'. specialize (Hd c Hc'). set_solver.
  - intros c. rewrite elem_of_app, <- (elem_of_list_to_set (C := gset A) c l), <- Hs. set_solver.
Qed.

Lemma partition3 {A} `{Countable A} (l a b d : list A) :
  NoDup l → NoDup a → NoDup (id <$> b) → NoDup d →
  (∀ c, c ∈ (id <$> b) → c ∉ list_to_set (C := gset A) a ∪ ∅) →
  (∀ c, c ∈ d → c ∉ list_to_set (C := gset A) (id <$> b) ∪ (list_to_set a ∪ ∅)) →
  list_to_set d ∪ (list_to_set (id <$> b) ∪ (list_to_set a ∪ ∅)) = list_to_set (C := gset A) l →
  Permutation l (a ++ b ++ d).
Proof.
  rewrite list_fmap_id. intros Hl Ha Hb Hd Hab Habd Hs. rewrite app_assoc.
  assert (list_to_set (C := gset A) (a ++ b) = list_to_set b ∪ (list_to_set a ∪ ∅)) as E by set_solver.
  rewrite <- E in Habd, Hs. apply partition2; [done| |done| |].
  - apply NoDup_app. split_and!; [done| |done]. intros c Hc Hc'. specialize (Hab c Hc'). set_solver.
  - intros c Hc. specialize (Habd c Hc). set_solver.
  - set_solver.
Qed.

(** The observations name every Coordinate of a canonical request once. *)
Lemma input_observations_partition res q :
  NoDup (qry_initial_coordinates q) → NoDup (qry_context_coordinates q) →
  validate_input_observations_for_request res q = Ok tt →
  let input := res_input_observations res in
  Permutation (qry_initial_coordinates q)
    ((aio_coordinate <$> inp_accepted_initial_coordinates input) ++ inp_initial_not_in_graph input
     ++ (oio_coordinate <$> inp_omitted_initial_coordinates input)) ∧
  Permutation (qry_context_coordinates q)
    ((aco_coordinate <$> inp_accepted_context_coordinates input)
     ++ (oco_coordinate <$> inp_omitted_context_coordinates input)).
Proof.
  intros Hdi Hdc. unfold validate_input_observations_for_request. intros H. simpl. ok_inv.
  repeat match goal with H : negb (bool_decide _) = false |- _ => apply bool_decide_negb_false in H end.
  match goal with H : try_fold (observe_accepted_initial _) _ _ = _ |- _ =>
    apply (observe_fold _ aio_coordinate) in H as (Ha & _ & ->); [|apply observe_accepted_initial_Ok] end.
  match goal with H : try_fold _ _ (inp_initial_not_in_graph _) = _ |- _ =>
    apply (observe_fold _ id) in H as (Hb & Hb' & ->); [|intros acc x acc'; apply require_unique_Ok] end.
  match goal with H : try_fold (observe_omitted_initial _) _ _ = _ |- _ =>
    apply (observe_fold _ oio_coordinate) in H as (Hc & Hc' & ->); [|apply observe_omitted_initial_Ok] end.
  match goal with H : try_fold (observe_accepted_context _) _ _ = _ |- _ =>
    apply (observe_fold _ aco_coordinate) in H as (Hd & _ & ->); [|apply observe_accepted_context_Ok] end.
  match goal with H : try_fold _ _ (inp_omitted_context_coordinates _) = _ |- _ =>
    apply (observe_fold _ oco_coordinate) in H as (He & He' & ->); [|intros acc x acc'; apply require_unique_Ok] end.
  split; [eapply partition3|eapply partition2]; eauto.
Qed.

End request.
