(* ===== verification/SemanticTraversal.v ===== *)
(** * Semantic traversal: data and pure functions

    Models the data and the pure functions of
    [buzz-relay/src/semantic_graph_traversal.rs]: work items, quanta, the
    accounting of exhausted budget dimensions, stopped paths, their ranking and
    retention, and the checks on rows that the database returns.  The types of
    those rows are the ones of [buzz-db/src/semantic_query.rs]; of the generation
    record of a ticket the model keeps the two fields that traversal reads.
    [DbError] is a parameter. *)

From stdpp Require Import countable prelude strings gmap fin_maps.
From S2P Require Import Prelude Text Platform ContextCoordinate ContextModel.
From S2P Require Import SemanticModel SemanticResult SemanticVerify SemanticFrontier.

(** ** Countable keys *)

#[global] Instance ExhaustedDimension_countable : Countable ExhaustedDimension.
Proof.
  refine (inj_countable' ExhaustedDimension_index (λ n, match n with
    | 0 => ExhaustedDimension.RecallPerChannel
    | 1 => ExhaustedDimension.SemanticRoots
    | 2 => ExhaustedDimension.HopsPerPath
    | 3 => ExhaustedDimension.BeamWidth
    | 4 => ExhaustedDimension.ExpandedCoordinates
    | 5 => ExhaustedDimension.IncidentEdgesMaterialized
    | 6 => ExhaustedDimension.RelationOptionsMaterialized
    | 7 => ExhaustedDimension.TargetOptionsMaterialized
    | 8 => ExhaustedDimension.Paths
    | _ => ExhaustedDimension.ResponseBytes
    end%N) _).
  by intros [].
Defined.

#[global] Instance SemanticSourceKind_countable : Countable SemanticSourceKind.
Proof.
  refine (inj_countable' source_kind_rank (λ '(a, b), match a, b with
    | 0, 0 => SemanticSourceKind.ProjectView ProjectViewSemanticType.ProjectProfile
    | 0, 1 => SemanticSourceKind.ProjectView ProjectViewSemanticType.Goal
    | 0, 2 => SemanticSourceKind.ProjectView ProjectViewSemanticType.Role
    | 0, 3 => SemanticSourceKind.ProjectView ProjectViewSemanticType.Plan
    | 0, 4 => SemanticSourceKind.ProjectView ProjectViewSemanticType.Stage
    | 0, 5 => SemanticSourceKind.ProjectView ProjectViewSemanticType.Requirement
    | 0, 6 => SemanticSourceKind.ProjectView ProjectViewSemanticType.Issue
    | 0, 7 => SemanticSourceKind.ProjectView ProjectViewSemanticType.Work
    | 0, _ => SemanticSourceKind.ProjectView ProjectViewSemanticType.Resource
    | 1, _ => SemanticSourceKind.ProjectDocument
    | _, _ => SemanticSourceKind.Meeting
    end%N) _).
  by intros [[]| |].
Defined.

#[global] Instance SemanticSourceIdentity_countable `{P : Platform} : Countable SemanticSourceIdentity.
Proof.
  refine (inj_countable' (λ s, (src_community_id s, src_kind s, src_source_id s))
            (λ '(c, k, i), mkSemanticSourceIdentity c k i) _).
  by intros [].
Defined.

(** ** Rows of the database *)

Module SemanticTraversalSourceOmissionReason.
Inductive SemanticTraversalSourceOmissionReason : Type :=
| SourceNotFound
| SourceTombstoned
| SourceDeleted
| SourceIneligible
| LifecycleFiltered
| SemanticHeadMissing
| SemanticHeadBuilding
| SemanticHeadFailed
| SemanticHeadUnsupported
| SourceNotReadable.
End SemanticTraversalSourceOmissionReason.
Abbreviation SemanticTraversalSourceOmissionReason :=
  SemanticTraversalSourceOmissionReason.SemanticTraversalSourceOmissionReason.

Section rows.
Context `{P : Platform}.

Record SemanticCurrentHead : Type := mkSemanticCurrentHead {
  head_invalidation_epoch : N;
  head_snapshot_digest : Digest32;
  head_source_basis : SemanticSourceBasis;
  head_unit_set_id : Uuid;
  head_unit_key : Text;
  head_semantic_text_digest : Digest32;
  head_summary_coverage : SemanticCoverage;
}.

#[global] Instance SemanticCurrentHead_eq_dec : EqDecision SemanticCurrentHead.
Proof. solve_decision. Defined.

Record SemanticContextDocumentBinding : Type := mkSemanticContextDocumentBinding {
  cdb_edge_key : EdgeKey;
  cdb_edge_last_context_revision : N;
  cdb_edge_source_change_id : Digest32;
  cdb_binding_context_revision : N;
  cdb_binding_source_change_id : Digest32;
  cdb_binding_projection_event_id : Digest32;
}.

#[global] Instance SemanticContextDocumentBinding_eq_dec : EqDecision SemanticContextDocumentBinding.
Proof. solve_decision. Defined.

Record SemanticGraphStructuralRoles : Type := mkSemanticGraphStructuralRoles {
  rol_coordinate : bool;
  rol_coordinate_entry_eligible : bool;
  rol_coordinate_incident_edge_keys : list EdgeKey;
  rol_context_document_bindings : list SemanticContextDocumentBinding;
}.

#[global] Instance SemanticGraphStructuralRoles_eq_dec : EqDecision SemanticGraphStructuralRoles.
Proof. solve_decision. Defined.

Record QueryCompatibilityFences : Type := mkQueryCompatibilityFences {
  qcf_source_generation_contract_digest : Digest32;
  qcf_embedding_space_fence : Digest32;
  qcf_query_contract_digest : Digest32;
}.

#[global] Instance QueryCompatibilityFences_eq_dec : EqDecision QueryCompatibilityFences.
Proof. solve_decision. Defined.

(** [generation.generation_id] and [generation.extractor_version] are flattened. *)
Record SemanticGraphQueryTicket : Type := mkSemanticGraphQueryTicket {
  tkt_community_id : Uuid;
  tkt_generation_id : Uuid;
  tkt_extractor_version : Text;
  tkt_query_fences : QueryCompatibilityFences;
  tkt_projection_generation : N;
  tkt_project_context_revision : N;
  tkt_observed_at : DateTime;
}.

Record SemanticGraphSnapshotBinding : Type := mkSemanticGraphSnapshotBinding {
  snb_community_id : Uuid;
  snb_generation_id : Uuid;
  snb_query_fences : QueryCompatibilityFences;
  snb_extractor_version : Text;
  snb_project_context_revision : N;
  snb_observed_at : DateTime;
}.

Record SemanticCanonicalSourceSnapshot : Type := mkSemanticCanonicalSourceSnapshot {
  cns_source : SemanticSourceIdentity;
  cns_source_invalidation_epoch : N;
  cns_source_basis : SemanticSourceBasis;
  cns_source_snapshot_digest : Digest32;
  cns_lifecycle : SemanticLifecycleClass;
  cns_source_status : option Text;
  cns_title : Text;
  cns_summary : option Text;
}.

Record SemanticHydratedCurrentSource : Type := mkSemanticHydratedCurrentSource {
  hyd_canonical : SemanticCanonicalSourceSnapshot;
  hyd_semantic_head : SemanticCurrentHead;
}.

Record SemanticCanonicalHydrationBatch : Type := mkSemanticCanonicalHydrationBatch {
  hdb_snapshot : SemanticGraphSnapshotBinding;
  hdb_sources : list SemanticHydratedCurrentSource;
}.

Record SemanticExactSourceScore : Type := mkSemanticExactSourceScore {
  ess_channel_id : Digest32;
  ess_source : SemanticSourceIdentity;
  ess_head : SemanticCurrentHead;
  ess_lifecycle : SemanticLifecycleClass;
  ess_source_status : option Text;
  ess_roles : SemanticGraphStructuralRoles;
  ess_score : Score;
  ess_channel_rank : N;
}.

Record SemanticCurrentSourcePairDistance : Type := mkSemanticCurrentSourcePairDistance {
  spd_left : SemanticSourceIdentity;
  spd_right : SemanticSourceIdentity;
  spd_left_head : SemanticCurrentHead;
  spd_right_head : SemanticCurrentHead;
  spd_score : Score;
}.

Record SemanticTraversalConditionedChannel : Type := mkSemanticTraversalConditionedChannel {
  cch_channel_id : Digest32;
  cch_context_coordinate : ProjectContextCoordinate;
}.

Record SemanticHyperedgeExpectation : Type := mkSemanticHyperedgeExpectation {
  hex_edge_key : EdgeKey;
  hex_edge_provenance : ProjectContextEdgeProvenance;
  hex_required_binding : option ContextDocumentBindingObservation;
}.

Inductive SemanticHyperedgeReadOutcome : Type :=
| ReadCurrent (edge : SemanticEdgeObservation)
| ReadChanged
| ReadTooLarge (identity_bytes : N).

Record SemanticRelationOptionOmission : Type := mkSemanticRelationOptionOmission {
  roo_edge_key : EdgeKey;
  roo_document_id : Uuid;
  roo_reason : SemanticTraversalSourceOmissionReason;
}.

Record SemanticTargetOptionOmission : Type := mkSemanticTargetOptionOmission {
  too_coordinate : ProjectContextCoordinate;
  too_reason : SemanticTraversalSourceOmissionReason;
}.

Record SemanticRankedRelationOption : Type := mkSemanticRankedRelationOption {
  rro_edge_key : EdgeKey;
  rro_edge_provenance : ProjectContextEdgeProvenance;
  rro_document_id : Uuid;
  rro_binding_provenance : ProjectContextBindingProvenance;
  rro_channel_scores : list SemanticExactSourceScore;
  rro_local_coherence : option SemanticCurrentSourcePairDistance;
  rro_document_score : Score;
}.

Inductive SemanticTraversalSliceExhaustion : Type := SliceExhausted | SliceTruncated.

Record SemanticIncidentRelationRankBatch : Type := mkSemanticIncidentRelationRankBatch {
  irb_snapshot : SemanticGraphSnapshotBinding;
  irb_options : list SemanticRankedRelationOption;
  irb_omitted : list SemanticRelationOptionOmission;
  irb_below_relation_floor : N;
  irb_exhaustion : SemanticTraversalSliceExhaustion;
}.

Inductive SemanticIncidentRelationRankOutcome : Type :=
| RelationsRanked (batch : SemanticIncidentRelationRankBatch)
| RelationSetTooLarge (observed_at_least : N).

Record SemanticRankedTargetOption : Type := mkSemanticRankedTargetOption {
  rto_coordinate : ProjectContextCoordinate;
  rto_channel_scores : list SemanticExactSourceScore;
  rto_relation_document_coherence : SemanticCurrentSourcePairDistance;
  rto_target_score : Score;
  rto_transition_score : Score;
}.

Record SemanticEdgeTargetRankBatch : Type := mkSemanticEdgeTargetRankBatch {
  etb_snapshot : SemanticGraphSnapshotBinding;
  etb_edge : SemanticEdgeObservation;
  etb_options : list SemanticRankedTargetOption;
  etb_omitted : list SemanticTargetOptionOmission;
  etb_below_target_floor : N;
  etb_below_transition_floor : N;
  etb_exhaustion : SemanticTraversalSliceExhaustion;
}.

Inductive SemanticEdgeTargetRankOutcome : Type :=
| TargetsRanked (batch : SemanticEdgeTargetRankBatch)
| TargetsHyperedgeChanged
| TargetsHyperedgeTooLarge (identity_bytes : N)
| TargetSetTooLarge (observed_at_least : N).

Record RelationRankCursor : Type := mkRelationRankCursor {
  rrc_document_score : Score;
  rrc_edge_key : EdgeKey;
  rrc_document_id : Uuid;
}.

Record TargetRankCursor : Type := mkTargetRankCursor {
  tgc_transition_score : Score;
  tgc_target_coordinate : ProjectContextCoordinate;
}.

(** One selected source root with its entrypoints. *)
Record SemanticGraphSelectedRoot : Type := mkSemanticGraphSelectedRoot {
  sgr_root_id : Digest32;
  sgr_source : SemanticSourceIdentity;
  sgr_discovery_channels : list RootDiscoveryChannel;
  sgr_structural_entrypoints : list RootStructuralEntrypoint;
  sgr_preview : SemanticSourcePreview;
  sgr_lifecycle : SemanticLifecycleClass;
  sgr_source_status : option Text;
  sgr_canonical_provenance : CanonicalSourceProvenance;
  sgr_semantic_provenance : option SemanticProvenance;
  sgr_semantic_head : option SemanticCurrentHead;
  sgr_semantic_score : option Score;
  sgr_score_explanation : option ScoreExplanation;
  sgr_automatic_lane : option AutomaticRootLane;
}.

Record QueryChannelBinding : Type := mkQueryChannelBinding {
  qcb_channel_id : Digest32;
  qcb_context_coordinate : option ProjectContextCoordinate;
}.

End rows.

(** ** Errors *)

Module SemanticGraphRootQueryError.
Inductive SemanticGraphRootQueryError (DbError : Type) : Type :=
| QueryDisabled
| InvalidProject
| ProcessBusy
| TraversalBusy
| QueryEncoderUnavailable
| QueryProviderBusy
| QueryFleetUnavailable
| SemanticGenerationChanged
| ContextSourceChanged
| AuthorizationChanged
| QueryDeadlineExceeded
| Database (error : DbError)
| Contract (error : SemanticGraphQueryError).

Arguments QueryDisabled {DbError}.
Arguments InvalidProject {DbError}.
Arguments ProcessBusy {DbError}.
Arguments TraversalBusy {DbError}.
Arguments QueryEncoderUnavailable {DbError}.
Arguments QueryProviderBusy {DbError}.
Arguments QueryFleetUnavailable {DbError}.
Arguments SemanticGenerationChanged {DbError}.
Arguments ContextSourceChanged {DbError}.
Arguments AuthorizationChanged {DbError}.
Arguments QueryDeadlineExceeded {DbError}.
Arguments Database {DbError}.
Arguments Contract {DbError}.
End SemanticGraphRootQueryError.

(** [buzz_db::DbError] and its constructor for invalid rows. *)
Class DbErrors : Type := {
  DbError : Type;
  DbError_InvalidData : Text → DbError;
}.

Abbreviation SemanticGraphRootQueryError := SemanticGraphRootQueryError.SemanticGraphRootQueryError.
Abbreviation TraversalResult A := (result A (SemanticGraphRootQueryError DbError)).

Definition invalid_state `{DbErrors} (reason : string) : SemanticGraphRootQueryError DbError :=
  SemanticGraphRootQueryError.Contract (query_state_error reason).

(** [?] on a [QueryContractResult] and on a [buzz_db::Result] *)
Definition from_query `{DbErrors} {A} (c : QueryContractResult A) : TraversalResult A :=
  map_err SemanticGraphRootQueryError.Contract c.
Definition from_db `{DbErrors} {A} (c : result A DbError) : TraversalResult A :=
  map_err SemanticGraphRootQueryError.Database c.

(** ** Work *)

(** [SeedId { root_index, entrypoint_index }] *)
Definition SeedId : Type := N * N.

Record StopObservations : Type := mkStopObservations {
  sto_below_relevance : bool;
  sto_cycle_or_duplicate : bool;
  sto_hyperedge_too_large : bool;
}.

Definition StopObservations_default : StopObservations := mkStopObservations false false false.

Definition StopObservations_reason (self : StopObservations) : BranchStopReason :=
  let reasons :=
    (if self.(sto_hyperedge_too_large) then [BranchStopReason.HyperedgeTooLarge] else [])
    ++ (if self.(sto_cycle_or_duplicate) then [BranchStopReason.CycleOrDuplicate] else [])
    ++ (if self.(sto_below_relevance) then [BranchStopReason.BelowRelevanceThreshold] else [])
    ++ [BranchStopReason.FrontierExhausted] in
  default BranchStopReason.FrontierExhausted (highest_precedence_stop reasons).

(** [self.field |= value] and [self.field = true] *)
Definition or_below_relevance (value : bool) (self : StopObservations) : StopObservations :=
  mkStopObservations (self.(sto_below_relevance) || value) self.(sto_cycle_or_duplicate)
    self.(sto_hyperedge_too_large).
Definition set_cycle_or_duplicate (self : StopObservations) : StopObservations :=
  mkStopObservations self.(sto_below_relevance) true self.(sto_hyperedge_too_large).
Definition set_hyperedge_too_large (self : StopObservations) : StopObservations :=
  mkStopObservations self.(sto_below_relevance) self.(sto_cycle_or_duplicate) true.

Record Quantum : Type := mkQuantum {
  qnt_expanded_coordinates : N;
  qnt_incident_edges : N;
  qnt_relation_options : N;
  qnt_target_options : N;
}.

Definition Quantum_global_step : Quantum := mkQuantum 1 1 1 1.

Inductive CoordinateExpansionAdmission : Type :=
| ExpansionAdmitted
| ExpansionDeferred
| ExpansionGlobalExhausted.

(** The counters after the call, and the answer. *)
Definition admit_coordinate_expansion (expanded cap quantum : N)
  : N * N * CoordinateExpansionAdmission :=
  if (cap <=? expanded)%N then (expanded, quantum, ExpansionGlobalExhausted)
  else if (quantum =? 0)%N then (expanded, quantum, ExpansionDeferred)
  else (expanded + 1, quantum - 1, ExpansionAdmitted)%N.

Inductive Admission : Type :=
| KeyReused
| KeyAdmitted
| KeyDeferred
| KeyGlobalExhausted.

Definition admit_new_key {T} `{Countable T} (set : gset T) (key : T) (cap quantum : N)
  : gset T * N * Admission :=
  if bool_decide (key ∈ set) then (set, quantum, KeyReused)
  else if (cap <=? N.of_nat (size set))%N then (set, quantum, KeyGlobalExhausted)
  else if (quantum =? 0)%N then (set, quantum, KeyDeferred)
  else ({[ key ]} ∪ set, quantum - 1, KeyAdmitted)%N.

Section traversal.
Context `{P : Platform} `{HP : !Postcard} `{HD : DbErrors}.

(** [RelationMaterializationKey], [TargetMaterializationKey] and the omission keys *)
Definition RelationMaterializationKey : Type := option ProjectContextCoordinate * EdgeKey * Uuid.
Definition TargetMaterializationKey : Type :=
  option ProjectContextCoordinate * EdgeKey * Uuid * ProjectContextCoordinate.
Definition RelationOmissionKey : Type := EdgeKey * Uuid * N.
Definition TargetOmissionKey : Type := EdgeKey * Uuid * ProjectContextCoordinate * N.

#[global] Instance RelationMaterializationKey_eq_dec : EqDecision RelationMaterializationKey.
Proof. unfold RelationMaterializationKey. apply _. Defined.
#[global] Instance RelationMaterializationKey_countable : Countable RelationMaterializationKey.
Proof. unfold RelationMaterializationKey. apply prod_countable. Defined.
#[global] Instance TargetMaterializationKey_eq_dec : EqDecision TargetMaterializationKey.
Proof. unfold TargetMaterializationKey. apply _. Defined.
#[global] Instance TargetMaterializationKey_countable : Countable TargetMaterializationKey.
Proof. unfold TargetMaterializationKey. apply prod_countable. Defined.
#[global] Instance RelationOmissionKey_eq_dec : EqDecision RelationOmissionKey.
Proof. unfold RelationOmissionKey. apply _. Defined.
#[global] Instance RelationOmissionKey_countable : Countable RelationOmissionKey.
Proof. unfold RelationOmissionKey. apply prod_countable. Defined.
#[global] Instance TargetOmissionKey_eq_dec : EqDecision TargetOmissionKey.
Proof. unfold TargetOmissionKey. apply _. Defined.
#[global] Instance TargetOmissionKey_countable : Countable TargetOmissionKey.
Proof. unfold TargetOmissionKey. apply prod_countable. Defined.

Record MaterializationState : Type := mkMaterializationState {
  mat_expanded_coordinates : N;
  mat_edges : gset EdgeKey;
  mat_relations : gset RelationMaterializationKey;
  mat_targets : gset TargetMaterializationKey;
}.

Definition MaterializationState_default : MaterializationState := mkMaterializationState 0 ∅ ∅ ∅.

Definition Quantum_first_wave (materialization : MaterializationState)
    (budget : SemanticGraphQueryBudget) (remaining_seeds : N) : Quantum := {|
  qnt_expanded_coordinates :=
    first_wave_slice (budget.(max_expanded_coordinates) - materialization.(mat_expanded_coordinates))
      remaining_seeds;
  qnt_incident_edges :=
    first_wave_slice (budget.(max_incident_edges_materialized)
                      - N.of_nat (size materialization.(mat_edges))) remaining_seeds;
  qnt_relation_options :=
    first_wave_slice (budget.(max_relation_options_materialized)
                      - N.of_nat (size materialization.(mat_relations))) remaining_seeds;
  qnt_target_options :=
    first_wave_slice (budget.(max_target_options_materialized)
                      - N.of_nat (size materialization.(mat_targets))) remaining_seeds;
|}%N.

Record TargetWork : Type := mkTargetWork {
  twk_entered_from : option ProjectContextCoordinate;
  twk_relation_admitted : bool;
  twk_expectation : SemanticHyperedgeExpectation;
  twk_edge : option SemanticEdgeObservation;
  twk_document : SemanticRelationDocument;
  twk_document_head : SemanticCurrentHead;
  twk_after : option TargetRankCursor;
  twk_exhausted : bool;
}.

Record ExpansionWork : Type := mkExpansionWork {
  wrk_seed_id : SeedId;
  wrk_seed_order : list N;
  wrk_path : FrontierPathState;
  wrk_incident_started : bool;
  wrk_incident_exhausted : bool;
  wrk_incident_after : option RelationRankCursor;
  wrk_pending_relations : list SemanticRankedRelationOption;
  wrk_pending_targets : list TargetWork;
  wrk_accumulator : option BoundedSuccessorAccumulator;
  wrk_qualifying_successors_seen : N;
  wrk_stop : StopObservations;
}.

Definition ExpansionWork_coordinate (seed_id : SeedId) (seed_order : list N)
    (path : FrontierPathState) (beam_width : N) : TraversalResult ExpansionWork :=
  let? accumulator := from_query (BoundedSuccessorAccumulator_new beam_width) in
  Ok {| wrk_seed_id := seed_id;
        wrk_seed_order := seed_order;
        wrk_path := path;
        wrk_incident_started := false;
        wrk_incident_exhausted := false;
        wrk_incident_after := None;
        wrk_pending_relations := [];
        wrk_pending_targets := [];
        wrk_accumulator := Some accumulator;
        wrk_qualifying_successors_seen := 0;
        wrk_stop := StopObservations_default |}.

Definition ExpansionWork_relation_root (seed_id : SeedId) (seed_order : list N)
    (path : FrontierPathState) (target : TargetWork) (beam_width : N) : TraversalResult ExpansionWork :=
  let? accumulator := from_query (BoundedSuccessorAccumulator_new beam_width) in
  Ok {| wrk_seed_id := seed_id;
        wrk_seed_order := seed_order;
        wrk_path := path;
        wrk_incident_started := true;
        wrk_incident_exhausted := true;
        wrk_incident_after := None;
        wrk_pending_relations := [];
        wrk_pending_targets := [target];
        wrk_accumulator := Some accumulator;
        wrk_qualifying_successors_seen := 0;
        wrk_stop := StopObservations_default |}.

Definition stop_reason (self : ExpansionWork) : BranchStopReason :=
  StopObservations_reason self.(wrk_stop).

(** ** Exhaustion *)

Record ExhaustionState : Type := mkExhaustionState {
  exh_dimensions : gset ExhaustedDimension;
  exh_counts : TruncationCountsByDimension;
  exh_samples : list TruncationSample;
  exh_global_stop : bool;
}.

Definition TruncationCountsByDimension_default : TruncationCountsByDimension :=
  mkTruncationCountsByDimension 0 0 0 0 0 0 0 0 0 0.

Definition ExhaustionState_default : ExhaustionState :=
  mkExhaustionState ∅ TruncationCountsByDimension_default [] false.

(** [*target = target.saturating_add(count)] on the field of a dimension
    ([truncation_count_mut] and the [match] of [record]) *)
Definition add_dimension_count (counts : TruncationCountsByDimension) (dimension : ExhaustedDimension)
    (count : N) : TruncationCountsByDimension :=
  let '(mkTruncationCountsByDimension a b c d e f g h i j) := counts in
  match dimension with
  | ExhaustedDimension.RecallPerChannel =>
      mkTruncationCountsByDimension (u64_saturating_add a count) b c d e f g h i j
  | ExhaustedDimension.SemanticRoots =>
      mkTruncationCountsByDimension a (u64_saturating_add b count) c d e f g h i j
  | ExhaustedDimension.HopsPerPath =>
      mkTruncationCountsByDimension a b (u64_saturating_add c count) d e f g h i j
  | ExhaustedDimension.BeamWidth =>
      mkTruncationCountsByDimension a b c (u64_saturating_add d count) e f g h i j
  | ExhaustedDimension.ExpandedCoordinates =>
      mkTruncationCountsByDimension a b c d (u64_saturating_add e count) f g h i j
  | ExhaustedDimension.IncidentEdgesMaterialized =>
      mkTruncationCountsByDimension a b c d e (u64_saturating_add f count) g h i j
  | ExhaustedDimension.RelationOptionsMaterialized =>
      mkTruncationCountsByDimension a b c d e f (u64_saturating_add g count) h i j
  | ExhaustedDimension.TargetOptionsMaterialized =>
      mkTruncationCountsByDimension a b c d e f g (u64_saturating_add h count) i j
  | ExhaustedDimension.Paths =>
      mkTruncationCountsByDimension a b c d e f g h (u64_saturating_add i count) j
  | ExhaustedDimension.ResponseBytes =>
      mkTruncationCountsByDimension a b c d e f g h i (u64_saturating_add j count)
  end.

Definition add_count (self : ExhaustionState) (dimension : ExhaustedDimension) (count : N)
  : ExhaustionState :=
  mkExhaustionState ({[ dimension ]} ∪ self.(exh_dimensions))
    (add_dimension_count self.(exh_counts) dimension count) self.(exh_samples)
    self.(exh_global_stop).

Definition push_sample (self : ExhaustionState) (sample : TruncationSample) : ExhaustionState :=
  mkExhaustionState self.(exh_dimensions) self.(exh_counts) (self.(exh_samples) ++ [sample])
    self.(exh_global_stop).

(** [self.global_stop = true] *)
Definition stop_globally (self : ExhaustionState) : ExhaustionState :=
  mkExhaustionState self.(exh_dimensions) self.(exh_counts) self.(exh_samples) true.

Definition record_state (self : ExhaustionState) (dimension : ExhaustedDimension) (count : N)
    (state : FrontierPathState) : TraversalResult ExhaustionState :=
  let self := add_count self dimension count in
  if (len self.(exh_samples) <? MAX_TRUNCATION_SAMPLES)%N then
    let? path_id :=
      if is_empty state.(fps_hops) then Ok None
      else
        let? id := from_query (derive_path_id state.(fps_root_id) state.(fps_hops)) in
        Ok (Some id) in
    Ok (push_sample self
          {| smp_root_id := state.(fps_root_id);
             smp_path_id := path_id;
             smp_structural_entrypoint := state.(fps_structural_entrypoint);
             smp_dimension := dimension |})
  else Ok self.

(** [ExhaustionState::record], which does the same for the path of a work item. *)
Definition record (self : ExhaustionState) (dimension : ExhaustedDimension) (count : N)
    (work : ExpansionWork) : TraversalResult ExhaustionState :=
  record_state self dimension count work.(wrk_path).

(** ** Stopped paths *)

Record StoppedPath : Type := mkStoppedPath {
  stp_seed_id : SeedId;
  stp_state : FrontierPathState;
  stp_reason : BranchStopReason;
}.

Definition StoppedPath_from_state (seed_id : SeedId) (state : FrontierPathState)
    (reason : BranchStopReason) : TraversalResult StoppedPath :=
  reject_if (is_empty state.(fps_hops)) (invalid_state "zero-hop state cannot become a SemanticPath") ?;
  Ok (mkStoppedPath seed_id state reason).

Definition StoppedPath_from_work (work : ExpansionWork) : TraversalResult StoppedPath :=
  reject_if (is_empty work.(wrk_path).(fps_hops))
    (invalid_state "zero-hop state cannot become a SemanticPath") ?;
  let reason := stop_reason work in
  Ok (mkStoppedPath work.(wrk_seed_id) work.(wrk_path) reason).

Record RankedStoppedPath : Type := mkRankedStoppedPath {
  rsp_seed_id : SeedId;
  rsp_structural_entrypoint : RootStructuralEntrypoint;
  rsp_path : SemanticPath;
}.

Definition into_semantic_path (self : StoppedPath) : TraversalResult RankedStoppedPath :=
  let state := self.(stp_state) in
  let hops : list SemanticHyperedgeHop := state.(fps_hops) in
  let? terminal_coordinate :=
    ok_or ((λ hop, hop.(hop_continued_to_coordinate).(con_coordinate)) <$> last hops)
      (invalid_state "stopped traversal path has no hop") in
  let transitions := hop_transition_score <$> hops in
  let? path_score_explanation :=
    map_err (λ error, SemanticGraphRootQueryError.Contract
                        (SemanticGraphQueryError.InvalidScore (ScoreError_to_string error)))
      (path_score state.(fps_root_score) transitions) in
  let? final_score :=
    ok_or path_score_explanation.(ps_final_score)
      (invalid_state "non-empty traversal path has no score") in
  reject_if (negb (bool_decide (state.(fps_path_score) = Some final_score)))
    (invalid_state "stopped traversal path score disagrees with its prefix") ?;
  let? path_id := from_query (derive_path_id state.(fps_root_id) hops) in
  Ok {| rsp_seed_id := self.(stp_seed_id);
        rsp_structural_entrypoint := state.(fps_structural_entrypoint);
        rsp_path := {| path_path_id := path_id;
                       path_root_id := state.(fps_root_id);
                       path_hops := hops;
                       path_terminal_coordinate := terminal_coordinate;
                       path_path_score := final_score;
                       path_path_score_explanation := path_score_explanation;
                       path_branch_stop_reason := self.(stp_reason) |} |}.

(** One iteration of the loop of [record_path_limit]. *)
Definition push_path_sample (self : ExhaustionState) (candidate : RankedStoppedPath) : ExhaustionState :=
  if (MAX_TRUNCATION_SAMPLES <=? len self.(exh_samples))%N then self
  else push_sample self
         {| smp_root_id := candidate.(rsp_path).(path_root_id);
            smp_path_id := Some candidate.(rsp_path).(path_path_id);
            smp_structural_entrypoint := candidate.(rsp_structural_entrypoint);
            smp_dimension := ExhaustedDimension.Paths |}.

(** After the [break] the samples are full, so the remaining iterations do
    nothing. *)
Definition record_path_limit (self : ExhaustionState) (count : N)
    (suppressed : list RankedStoppedPath) : TraversalResult ExhaustionState :=
  Ok (foldl push_path_sample (add_count self ExhaustedDimension.Paths count) suppressed).

(** [Digest32]'s derived order *)
Definition Digest32_cmp (a b : Digest32) : comparison := slice_cmp a.(digest_bytes) b.(digest_bytes).

Definition compare_semantic_paths (left right : RankedStoppedPath) : comparison :=
  then_with (Score_cmp right.(rsp_path).(path_path_score) left.(rsp_path).(path_path_score))
    (Digest32_cmp left.(rsp_path).(path_path_id) right.(rsp_path).(path_path_id)).

Record RetainedPaths : Type := mkRetainedPaths {
  ret_paths : list SemanticPath;
  ret_paths_generated : N;
  ret_paths_retained : N;
  ret_produced_by_seed : gmap SeedId N;
}.

(** One iteration of the fold that counts the paths of each seed; a [u32]. *)
Definition count_seed (counts : gmap SeedId N) (candidate : RankedStoppedPath) : gmap SeedId N :=
  <[candidate.(rsp_seed_id) :=
      N.min (default 0%N (counts !! candidate.(rsp_seed_id)) + 1) 4294967295]> counts.

(** [retain] with at most two paths to one terminal Coordinate. *)
Fixpoint retain_endpoints (endpoints : gmap ProjectContextCoordinate N)
    (candidates : list RankedStoppedPath) : list RankedStoppedPath :=
  match candidates with
  | [] => []
  | candidate :: rest =>
      let terminal := candidate.(rsp_path).(path_terminal_coordinate) in
      let count := default 0%N (endpoints !! terminal) in
      if (2 <=? count)%N then retain_endpoints (<[terminal := count]> endpoints) rest
      else candidate :: retain_endpoints (<[terminal := (count + 1)%N]> endpoints) rest
  end.

Definition retain_ranked_paths (candidates : list RankedStoppedPath) (retained_limit : N)
    (exhaustion : ExhaustionState) : TraversalResult (RetainedPaths * ExhaustionState) :=
  let candidates := sort_by compare_semantic_paths candidates in
  let candidates :=
    dedup_by (λ left right, bool_decide (left.(rsp_path).(path_path_id)
                                         = right.(rsp_path).(path_path_id))) candidates in
  let paths_generated := len candidates in
  let produced_by_seed := foldl count_seed ∅ candidates in
  let candidates := retain_endpoints ∅ candidates in
  let? (candidates, exhaustion) :=
    if (retained_limit <? len candidates)%N then
      let suppressed := (len candidates - retained_limit)%N in
      let? exhaustion :=
        record_path_limit exhaustion suppressed (drop (N.to_nat retained_limit) candidates) in
      Ok (take (N.to_nat retained_limit) candidates, exhaustion)
    else Ok (candidates, exhaustion) in
  Ok ({| ret_paths := rsp_path <$> candidates;
         ret_paths_generated := paths_generated;
         ret_paths_retained := len candidates;
         ret_produced_by_seed := produced_by_seed |}, exhaustion).

(** ** Publishing successors *)

(** One iteration of [publish_successors]: the queue, the stopped paths and the
    exhaustion. *)
Definition publish_successor (seed_id : SeedId) (seed_order : list N) (budget : SemanticGraphQueryBudget)
    (acc : list ExpansionWork * list StoppedPath * ExhaustionState) (successor : FrontierPathState)
  : TraversalResult (list ExpansionWork * list StoppedPath * ExhaustionState) :=
  let '(queue, stopped, exhaustion) := acc in
  if (budget.(max_hops_per_path) <=? len successor.(fps_hops))%N then
    let? exhaustion := record_state exhaustion ExhaustedDimension.HopsPerPath 1 successor in
    let? path := StoppedPath_from_state seed_id successor BranchStopReason.MaxHopsReached in
    Ok (queue, stopped ++ [path], exhaustion)
  else
    let? work := ExpansionWork_coordinate seed_id seed_order successor budget.(beam_width) in
    Ok (queue ++ [work], stopped, exhaustion).

Definition publish_successors (successors : list FrontierPathState) (seed_id : SeedId)
    (seed_order : list N) (budget : SemanticGraphQueryBudget) (queue : list ExpansionWork)
    (stopped : list StoppedPath) (exhaustion : ExhaustionState)
  : TraversalResult (list ExpansionWork * list StoppedPath * ExhaustionState) :=
  try_fold (publish_successor seed_id seed_order budget) (queue, stopped, exhaustion) successors.

(** One iteration over the successors of cut-off work. *)
Definition stop_successor (seed_id : SeedId) (reason : BranchStopReason)
    (budget : SemanticGraphQueryBudget) (acc : list StoppedPath * ExhaustionState)
    (successor : FrontierPathState) : TraversalResult (list StoppedPath * ExhaustionState) :=
  let '(stopped, exhaustion) := acc in
  let? exhaustion :=
    if (budget.(max_hops_per_path) <=? len successor.(fps_hops))%N
    then record_state exhaustion ExhaustedDimension.HopsPerPath 1 successor
    else Ok exhaustion in
  let? path := StoppedPath_from_state seed_id successor reason in
  Ok (stopped ++ [path], exhaustion).

Definition finish_cutoff_work (work : ExpansionWork) (reason : BranchStopReason)
    (budget : SemanticGraphQueryBudget) (exhaustion : ExhaustionState) (stopped : list StoppedPath)
    (zero_hop : gmap SeedId BranchStopReason)
  : TraversalResult (ExhaustionState * list StoppedPath * gmap SeedId BranchStopReason) :=
  let? accumulator := ok_or work.(wrk_accumulator)
    (invalid_state "cutoff traversal work lost its successor accumulator") in
  let successors := into_successors accumulator in
  let beam_suppressed := (work.(wrk_qualifying_successors_seen) - len successors)%N in
  let? exhaustion :=
    if (0 <? beam_suppressed)%N
    then record exhaustion ExhaustedDimension.BeamWidth beam_suppressed work
    else Ok exhaustion in
  if is_empty successors then
    if is_empty work.(wrk_path).(fps_hops) then
      Ok (exhaustion, stopped, <[work.(wrk_seed_id) := reason]> zero_hop)
    else
      let? path := StoppedPath_from_state work.(wrk_seed_id) work.(wrk_path) reason in
      Ok (exhaustion, stopped ++ [path], zero_hop)
  else
    let? (stopped, exhaustion) :=
      try_fold (stop_successor work.(wrk_seed_id) reason budget) (stopped, exhaustion) successors in
    Ok (exhaustion, stopped, zero_hop).

(** ** Keys and orders *)

Definition append_entrypoint_key (output : list N) (entrypoint : RootStructuralEntrypoint) : list N :=
  match entrypoint with
  | EntryCoordinate coordinate => append_coordinate_key (output ++ [0%N]) coordinate
  | EntryContextDocument edge_key document_id _ _ =>
      output ++ [1%N] ++ edge_key.(edge_key_bytes) ++ Uuid_as_bytes document_id
  end.

Definition entrypoint_key (entrypoint : RootStructuralEntrypoint) : list N :=
  append_entrypoint_key [] entrypoint.

Definition seed_order_key (source : SemanticSourceIdentity) (entrypoint : RootStructuralEntrypoint)
  : list N :=
  let key := Uuid_as_bytes source.(src_community_id) in
  let key :=
    match source.(src_kind) with
    | SemanticSourceKind.ProjectView kind => key ++ [0%N; project_view_kind_rank kind]
    | SemanticSourceKind.ProjectDocument => key ++ [1; 0]%N
    | SemanticSourceKind.Meeting => key ++ [2; 0]%N
    end in
  append_entrypoint_key (key ++ Uuid_as_bytes source.(src_source_id)) entrypoint.

(** [u32::to_be_bytes] *)
Definition u32_to_be_bytes (x : N) : list N :=
  [(x / 16777216) mod 256; (x / 65536) mod 256; (x / 256) mod 256; x mod 256]%N.

Definition work_continuation_key (work : ExpansionWork) : list N :=
  let key := foldl append_hop_key [] work.(wrk_path).(fps_hops) in
  let key :=
    match work.(wrk_incident_after) with
    | Some cursor =>
        key ++ [0%N] ++ u32_to_be_bytes (raw cursor.(rrc_document_score))
        ++ cursor.(rrc_edge_key).(edge_key_bytes) ++ Uuid_as_bytes cursor.(rrc_document_id)
    | None => key
    end in
  match head work.(wrk_pending_targets) with
  | Some target =>
      let key :=
        key ++ [1%N] ++ target.(twk_expectation).(hex_edge_key).(edge_key_bytes)
        ++ Uuid_as_bytes target.(twk_document).(rel_document_id) in
      match target.(twk_after) with
      | Some cursor =>
          append_coordinate_key (key ++ u32_to_be_bytes (raw cursor.(tgc_transition_score)))
            cursor.(tgc_target_coordinate)
      | None => key
      end
  | None => key
  end.

Definition compare_work (left right : ExpansionWork) : comparison :=
  then_with (Score_cmp (scheduling_priority right.(wrk_path)) (scheduling_priority left.(wrk_path)))
    (then_with (slice_cmp left.(wrk_seed_order) right.(wrk_seed_order))
       (slice_cmp (work_continuation_key left) (work_continuation_key right))).

(** ** Samples and coverage *)

(** The derived order on [Option<Digest32>] *)
Definition option_digest_cmp (a b : option Digest32) : comparison :=
  match a, b with
  | None, None => Eq
  | None, Some _ => Lt
  | Some _, None => Gt
  | Some a, Some b => Digest32_cmp a b
  end.

Definition sample_cmp (left right : TruncationSample) : comparison :=
  then_with (N.compare (ExhaustedDimension_index left.(smp_dimension))
               (ExhaustedDimension_index right.(smp_dimension)))
    (then_with (Digest32_cmp left.(smp_root_id) right.(smp_root_id))
       (then_with (option_digest_cmp left.(smp_path_id) right.(smp_path_id))
          (slice_cmp (entrypoint_key left.(smp_structural_entrypoint))
             (entrypoint_key right.(smp_structural_entrypoint))))).

Definition same_sample (left right : TruncationSample) : bool :=
  bool_decide (left.(smp_dimension) = right.(smp_dimension))
  && bool_decide (left.(smp_root_id) = right.(smp_root_id))
  && bool_decide (left.(smp_path_id) = right.(smp_path_id))
  && bool_decide (left.(smp_structural_entrypoint) = right.(smp_structural_entrypoint)).

Definition canonicalize_truncation_samples (samples : list TruncationSample) : list TruncationSample :=
  take (N.to_nat MAX_TRUNCATION_SAMPLES) (dedup_by same_sample (sort_by sample_cmp samples)).

Definition add_truncation_counts (target added : TruncationCountsByDimension)
  : TruncationCountsByDimension := {|
  trc_recall_per_channel :=
    u64_saturating_add target.(trc_recall_per_channel) added.(trc_recall_per_channel);
  trc_semantic_roots := u64_saturating_add target.(trc_semantic_roots) added.(trc_semantic_roots);
  trc_hops_per_path := u64_saturating_add target.(trc_hops_per_path) added.(trc_hops_per_path);
  trc_beam_width := u64_saturating_add target.(trc_beam_width) added.(trc_beam_width);
  trc_expanded_coordinates :=
    u64_saturating_add target.(trc_expanded_coordinates) added.(trc_expanded_coordinates);
  trc_incident_edges_materialized :=
    u64_saturating_add target.(trc_incident_edges_materialized)
      added.(trc_incident_edges_materialized);
  trc_relation_options_materialized :=
    u64_saturating_add target.(trc_relation_options_materialized)
      added.(trc_relation_options_materialized);
  trc_target_options_materialized :=
    u64_saturating_add target.(trc_target_options_materialized)
      added.(trc_target_options_materialized);
  trc_paths := u64_saturating_add target.(trc_paths) added.(trc_paths);
  trc_response_bytes := u64_saturating_add target.(trc_response_bytes) added.(trc_response_bytes);
|}.

Record SearchOutput : Type := mkSearchOutput {
  out_roots : list SemanticRoot;
  out_paths : list SemanticPath;
  out_expanded_coordinates : N;
  out_incident_edges_materialized : N;
  out_relation_options_materialized : N;
  out_target_options_materialized : N;
  out_paths_generated : N;
  out_paths_retained : N;
  out_relation_embedding_missing : N;
  out_target_embedding_missing : N;
  out_hyperedge_too_large : N;
  out_truncation_counts : TruncationCountsByDimension;
  out_truncation_samples : list TruncationSample;
  out_exhausted_dimensions : list ExhaustedDimension;
  out_wall_time_exhausted : bool;
}.

Definition apply_search_coverage (coverage : SemanticGraphQueryCoverage) (search : SearchOutput)
  : SemanticGraphQueryCoverage := {|
  cvg_authorized_graph_sources := coverage.(cvg_authorized_graph_sources);
  cvg_current_indexed_graph_sources := coverage.(cvg_current_indexed_graph_sources);
  cvg_title_only_sources := coverage.(cvg_title_only_sources);
  cvg_embedding_coverage := coverage.(cvg_embedding_coverage);
  cvg_query_channels_requested := coverage.(cvg_query_channels_requested);
  cvg_query_channels_executed := coverage.(cvg_query_channels_executed);
  cvg_omitted_context_channel_counts_by_reason :=
    coverage.(cvg_omitted_context_channel_counts_by_reason);
  cvg_neutral_candidates_considered := coverage.(cvg_neutral_candidates_considered);
  cvg_conditioned_candidates_considered := coverage.(cvg_conditioned_candidates_considered);
  cvg_roots_selected := coverage.(cvg_roots_selected);
  cvg_roots_returned := coverage.(cvg_roots_returned);
  cvg_expanded_coordinates := search.(out_expanded_coordinates);
  cvg_incident_edges_materialized := search.(out_incident_edges_materialized);
  cvg_relation_options_materialized := search.(out_relation_options_materialized);
  cvg_target_options_materialized := search.(out_target_options_materialized);
  cvg_paths_generated := search.(out_paths_generated);
  cvg_paths_retained := search.(out_paths_retained);
  cvg_paths_returned := coverage.(cvg_paths_returned);
  cvg_omitted_for_response_budget := coverage.(cvg_omitted_for_response_budget);
  cvg_truncation_counts_by_dimension :=
    add_truncation_counts coverage.(cvg_truncation_counts_by_dimension)
      search.(out_truncation_counts);
  cvg_truncation_samples :=
    canonicalize_truncation_samples
      (coverage.(cvg_truncation_samples) ++ search.(out_truncation_samples));
  cvg_degraded_mode_counts := {|
    dgr_relation_embedding_missing := search.(out_relation_embedding_missing);
    dgr_target_embedding_missing := search.(out_target_embedding_missing);
    dgr_index_coverage_partial := coverage.(cvg_degraded_mode_counts).(dgr_index_coverage_partial);
    dgr_summary_omitted_for_response_budget :=
      coverage.(cvg_degraded_mode_counts).(dgr_summary_omitted_for_response_budget);
    dgr_hyperedge_too_large := search.(out_hyperedge_too_large) |};
|}.

(** [exhausted_dimensions.sort_unstable()], by the derived order *)
Definition dimension_cmp (a b : ExhaustedDimension) : comparison :=
  N.compare (ExhaustedDimension_index a) (ExhaustedDimension_index b).

(** The dimensions and the reason that [complete_semantic_graph_traversal_inner]
    reports after the search. *)
Definition completion (exhausted_dimensions : list ExhaustedDimension) (search : SearchOutput)
  : list ExhaustedDimension * CompletionReason :=
  let exhausted_dimensions :=
    dedup_by (λ a b, bool_decide (a = b))
      (sort_by dimension_cmp (exhausted_dimensions ++ search.(out_exhausted_dimensions))) in
  if search.(out_wall_time_exhausted) then ([], CompletionReason.WallTimeExhausted)
  else if is_empty exhausted_dimensions then (exhausted_dimensions, CompletionReason.FrontierExhausted)
  else (exhausted_dimensions, CompletionReason.BudgetExhausted).

(** ** Channels and scores *)

Record TraversalChannels : Type := mkTraversalChannels {
  tch_problem_channel_id : Digest32;
  tch_conditioned : list SemanticTraversalConditionedChannel;
}.

Definition TraversalChannels_from_bindings (bindings : list QueryChannelBinding)
  : TraversalResult TraversalChannels :=
  match List.filter (λ binding, negb (opt_is_some binding.(qcb_context_coordinate))) bindings with
  | [problem] =>
      Ok {| tch_problem_channel_id := problem.(qcb_channel_id);
            tch_conditioned :=
              omap (λ binding,
                      (λ context_coordinate,
                         mkSemanticTraversalConditionedChannel binding.(qcb_channel_id)
                           context_coordinate) <$> binding.(qcb_context_coordinate)) bindings |}
  | _ => Err (invalid_state "traversal channel binding must contain exactly one Q0")
  end.

Record SemanticScoreParts : Type := mkSemanticScoreParts {
  prt_representative : SemanticExactSourceScore;
  prt_problem_score : Score;
  prt_conditioned_evidence : list ConditionedEvidence;
  prt_highest_gain : Score;
  prt_second_highest_gain : Score;
  prt_environment_gain : Score;
}.

(** [rows.iter().find(|row| row.channel_id == channel_id)] *)
Definition find_row (channel_id : Digest32) (rows : list SemanticExactSourceScore)
  : option SemanticExactSourceScore :=
  List.find (λ row, bool_decide (row.(ess_channel_id) = channel_id)) rows.

(** One iteration over the rows: the channels seen so far. *)
Definition check_row (representative : SemanticExactSourceScore) (seen : gset Digest32)
    (row : SemanticExactSourceScore) : TraversalResult (gset Digest32) :=
  reject_if (bool_decide (row.(ess_channel_id) ∈ seen)
             || negb (bool_decide (row.(ess_source) = representative.(ess_source)))
             || negb (bool_decide (row.(ess_head) = representative.(ess_head)))
             || negb (bool_decide (row.(ess_lifecycle) = representative.(ess_lifecycle)))
             || negb (bool_decide (row.(ess_source_status) = representative.(ess_source_status)))
             || negb (bool_decide (row.(ess_roles) = representative.(ess_roles))))
    (invalid_state "traversal source score matrix has conflicting rows") ?;
  Ok ({[ row.(ess_channel_id) ]} ∪ seen).

Definition channel_evidence (rows : list SemanticExactSourceScore)
    (representative : SemanticExactSourceScore) (channel : SemanticTraversalConditionedChannel)
  : TraversalResult ConditionedEvidence :=
  let? score := ok_or (ess_score <$> find_row channel.(cch_channel_id) rows)
    (invalid_state "traversal source score matrix lacks one Qi") in
  Ok (ConditionedEvidence_new channel.(cch_context_coordinate) representative.(ess_score) score).

Definition semantic_score_parts (rows : list SemanticExactSourceScore) (channels : TraversalChannels)
    (community_id : Uuid) : TraversalResult SemanticScoreParts :=
  reject_if (negb (len rows =? 1 + len channels.(tch_conditioned))%N)
    (invalid_state "traversal source score matrix has an incomplete channel set") ?;
  let? representative := ok_or (find_row channels.(tch_problem_channel_id) rows)
    (invalid_state "traversal source score matrix lacks Q0") in
  reject_if (negb (bool_decide (representative.(ess_source).(src_community_id) = community_id)))
    (invalid_state "traversal source score escaped its Community") ?;
  try_fold (check_row representative) ∅ rows ?;
  let? conditioned_evidence :=
    collect_results (channel_evidence rows representative) channels.(tch_conditioned) in
  let environment := environment_gain conditioned_evidence in
  let? problem_score :=
    ok_or (ess_score <$> find_row channels.(tch_problem_channel_id) rows)
      (invalid_state "traversal source score matrix lost Q0") in
  Ok {| prt_representative := representative;
        prt_problem_score := problem_score;
        prt_conditioned_evidence := environment.(env_conditioned_evidence);
        prt_highest_gain := environment.(env_highest_gain);
        prt_second_highest_gain := environment.(env_second_highest_gain);
        prt_environment_gain := environment.(env_environment_gain) |}.

Definition project_document_source (community_id document_id : Uuid) : SemanticSourceIdentity :=
  mkSemanticSourceIdentity community_id SemanticSourceKind.ProjectDocument document_id.

(** [semantic_source_identity_for_coordinate] of [buzz-db] *)
Definition semantic_source_identity_for_coordinate (community_id : Uuid)
    (coordinate : ProjectContextCoordinate) : result SemanticSourceIdentity DbError :=
  map_err (λ error, DbError_InvalidData (lit "invalid semantic query Coordinate: "
                                         ++ ProjectContextError_to_string error))
    (ProjectContextCoordinate_validate_for_project coordinate community_id) ?;
  let (kind, source_id) :=
    match coordinate with
    | ProjectContextCoordinate.ProjectViewObject object_type object_id =>
        (SemanticSourceKind.ProjectView (semantic_project_view_type object_type), object_id)
    | ProjectContextCoordinate.Document document_id => (SemanticSourceKind.ProjectDocument, document_id)
    | ProjectContextCoordinate.Meeting meeting_id => (SemanticSourceKind.Meeting, meeting_id)
    end in
  let identity := mkSemanticSourceIdentity community_id kind source_id in
  map_err (λ error, DbError_InvalidData (lit "invalid semantic Coordinate source identity: "
                                         ++ SemanticError_to_string error))
    (SemanticSourceIdentity_validate identity) ?;
  Ok identity.

Definition validate_relation_coherence (work : ExpansionWork) (document : SemanticExactSourceScore)
    (coherence : option SemanticCurrentSourcePairDistance) (community_id : Uuid) : TraversalResult unit :=
  let? entered := ok_or work.(wrk_path).(fps_current_coordinate)
    (invalid_state "Coordinate relation rank lost its entered Coordinate") in
  let? entered_source := from_db (semantic_source_identity_for_coordinate community_id entered) in
  let conflict :=
    Err (invalid_state "ranked relation coherence has conflicting source provenance") in
  match coherence with
  | Some coherence =>
      if bool_decide (coherence.(spd_left) = document.(ess_source))
         && bool_decide (coherence.(spd_left_head) = document.(ess_head))
         && bool_decide (coherence.(spd_right) = entered_source)
      then Ok tt else conflict
  | None =>
      if negb (opt_is_some work.(wrk_path).(fps_root_score)) && is_empty work.(wrk_path).(fps_hops)
      then Ok tt else conflict
  end.

Definition validate_target_coherence (target : TargetWork) (coordinate : SemanticExactSourceScore)
    (coherence : SemanticCurrentSourcePairDistance) (community_id : Uuid) : TraversalResult unit :=
  let relation_source := project_document_source community_id target.(twk_document).(rel_document_id) in
  reject_if (negb (bool_decide (coherence.(spd_left) = relation_source))
             || negb (bool_decide (coherence.(spd_left_head) = target.(twk_document_head)))
             || negb (bool_decide (coherence.(spd_right) = coordinate.(ess_source)))
             || negb (bool_decide (coherence.(spd_right_head) = coordinate.(ess_head))))
    (invalid_state "ranked target coherence has conflicting source provenance") ?;
  Ok tt.

Definition relation_score_explanation (parts : SemanticScoreParts)
    (relation : SemanticRankedRelationOption) : ScoreExplanation := {|
  exp_score_role := SemanticScoreRole.RelationDocument;
  exp_problem_score := parts.(prt_problem_score);
  exp_conditioned_evidence := parts.(prt_conditioned_evidence);
  exp_highest_gain := parts.(prt_highest_gain);
  exp_second_highest_gain := parts.(prt_second_highest_gain);
  exp_environment_gain := parts.(prt_environment_gain);
  exp_anchor_gain := AnchorGain.None;
  exp_local_coherence := spd_score <$> relation.(rro_local_coherence);
  exp_document_score := Some relation.(rro_document_score);
  exp_target_coordinate_score := None;
  exp_transition_score := None;
  exp_penalties := [];
  exp_final_score := relation.(rro_document_score);
|}.

Definition target_score_explanation (parts : SemanticScoreParts)
    (target : SemanticRankedTargetOption) : ScoreExplanation := {|
  exp_score_role := SemanticScoreRole.TargetCoordinate;
  exp_problem_score := parts.(prt_problem_score);
  exp_conditioned_evidence := parts.(prt_conditioned_evidence);
  exp_highest_gain := parts.(prt_highest_gain);
  exp_second_highest_gain := parts.(prt_second_highest_gain);
  exp_environment_gain := parts.(prt_environment_gain);
  exp_anchor_gain := AnchorGain.None;
  exp_local_coherence := Some target.(rto_relation_document_coherence).(spd_score);
  exp_document_score := None;
  exp_target_coordinate_score := Some target.(rto_target_score);
  exp_transition_score := None;
  exp_penalties := [];
  exp_final_score := target.(rto_target_score);
|}.

Definition preview (hydrated : SemanticHydratedCurrentSource) : SemanticSourcePreview := {|
  prv_title := hydrated.(hyd_canonical).(cns_title);
  prv_summary := hydrated.(hyd_canonical).(cns_summary);
  prv_summary_omitted_reason := None;
|}.

Definition canonical_provenance (hydrated : SemanticHydratedCurrentSource) : CanonicalSourceProvenance := {|
  cpr_source_basis := hydrated.(hyd_canonical).(cns_source_basis);
  cpr_source_invalidation_epoch := hydrated.(hyd_canonical).(cns_source_invalidation_epoch);
  cpr_source_snapshot_digest := hydrated.(hyd_canonical).(cns_source_snapshot_digest);
  cpr_summary_coverage := hydrated.(hyd_semantic_head).(head_summary_coverage);
|}.

Definition semantic_provenance (ticket : SemanticGraphQueryTicket) (score : SemanticExactSourceScore)
  : SemanticProvenance := {|
  spr_generation_id := ticket.(tkt_generation_id);
  spr_unit_key := score.(ess_head).(head_unit_key);
  spr_source_snapshot_digest := score.(ess_head).(head_snapshot_digest);
  spr_source_generation_contract_digest :=
    ticket.(tkt_query_fences).(qcf_source_generation_contract_digest);
  spr_embedding_space_fence := ticket.(tkt_query_fences).(qcf_embedding_space_fence);
|}.

Definition validate_snapshot (ticket : SemanticGraphQueryTicket)
    (snapshot : SemanticGraphSnapshotBinding) : TraversalResult unit :=
  reject_if (negb (bool_decide (snapshot.(snb_community_id) = ticket.(tkt_community_id)))
             || negb (bool_decide (snapshot.(snb_generation_id) = ticket.(tkt_generation_id)))
             || negb (bool_decide (snapshot.(snb_query_fences) = ticket.(tkt_query_fences)))
             || negb (bool_decide (snapshot.(snb_extractor_version) = ticket.(tkt_extractor_version)))
             || negb (snapshot.(snb_project_context_revision)
                      =? ticket.(tkt_project_context_revision))%N
             || negb (bool_decide (snapshot.(snb_observed_at) = ticket.(tkt_observed_at))))
    (invalid_state "traversal DB result escaped its repeatable-read snapshot") ?;
  Ok tt.

Definition validate_cached_edge (edge : SemanticEdgeObservation)
    (expectation : SemanticHyperedgeExpectation) : TraversalResult unit :=
  reject_if (negb (bool_decide (edge.(edge_edge_key) = expectation.(hex_edge_key)))
             || negb (bool_decide (edge.(edge_provenance) = expectation.(hex_edge_provenance)))
             || is_some_and (λ binding,
                               negb (bool_decide (binding
                                       ∈ edge.(edge_current_context_document_bindings))))
                  expectation.(hex_required_binding))
    (invalid_state "cached Hyperedge does not satisfy its exact expectation") ?;
  Ok tt.

Definition omission_reason_rank (reason : SemanticTraversalSourceOmissionReason) : N :=
  match reason with
  | SemanticTraversalSourceOmissionReason.SourceNotFound => 0
  | SemanticTraversalSourceOmissionReason.SourceTombstoned => 1
  | SemanticTraversalSourceOmissionReason.SourceDeleted => 2
  | SemanticTraversalSourceOmissionReason.SourceIneligible => 3
  | SemanticTraversalSourceOmissionReason.LifecycleFiltered => 4
  | SemanticTraversalSourceOmissionReason.SemanticHeadMissing => 5
  | SemanticTraversalSourceOmissionReason.SemanticHeadBuilding => 6
  | SemanticTraversalSourceOmissionReason.SemanticHeadFailed => 7
  | SemanticTraversalSourceOmissionReason.SemanticHeadUnsupported => 8
  | SemanticTraversalSourceOmissionReason.SourceNotReadable => 9
  end%N.

Definition is_embedding_omission_rank (rank : N) : bool := (5 <=? rank)%N && (rank <=? 8)%N.

(** The cursor after an option, and the option when neither its Coordinate nor
    its Hyperedge was visited. *)
Definition classify_ranked_target (path : FrontierPathState) (edge_key : EdgeKey)
    (option : SemanticRankedTargetOption) : TargetRankCursor * Datatypes.option SemanticRankedTargetOption :=
  (mkTargetRankCursor option.(rto_transition_score) option.(rto_coordinate),
   if negb (bool_decide (option.(rto_coordinate) ∈ path.(fps_visited_coordinates)))
      && negb (bool_decide (edge_key ∈ path.(fps_visited_edges)))
   then Some option else None).

(** ** Seeds *)

(** [explanation.score_role = RelationRoot] *)
Definition as_relation_root (explanation : ScoreExplanation) : ScoreExplanation :=
  mkScoreExplanation SemanticScoreRole.RelationRoot explanation.(exp_problem_score)
    explanation.(exp_conditioned_evidence) explanation.(exp_highest_gain)
    explanation.(exp_second_highest_gain) explanation.(exp_environment_gain)
    explanation.(exp_anchor_gain) explanation.(exp_local_coherence) explanation.(exp_document_score)
    explanation.(exp_target_coordinate_score) explanation.(exp_transition_score)
    explanation.(exp_penalties) explanation.(exp_final_score).

(** One iteration over the entrypoints of a root. *)
Definition build_seed (beam_width : N) (root_index : N) (root : SemanticGraphSelectedRoot)
    (item : N * RootStructuralEntrypoint) : TraversalResult ExpansionWork :=
  let '(entrypoint_index, entrypoint) := item in
  let seed_id := (root_index, entrypoint_index) in
  let seed_order := seed_order_key root.(sgr_source) entrypoint in
  let path := FrontierPathState_seed root.(sgr_root_id) entrypoint root.(sgr_semantic_score) in
  match entrypoint with
  | EntryCoordinate _ => ExpansionWork_coordinate seed_id seed_order path beam_width
  | EntryContextDocument edge_key document_id edge_provenance binding_provenance =>
      reject_if (negb (bool_decide (root.(sgr_source).(src_kind) = SemanticSourceKind.ProjectDocument))
                 || negb (bool_decide (root.(sgr_source).(src_source_id) = document_id)))
        (invalid_state "relation root source does not match its Document entrypoint") ?;
      let? semantic_head := ok_or root.(sgr_semantic_head)
        (invalid_state "relation root lacks an exact semantic head") in
      let? semantic_provenance := ok_or root.(sgr_semantic_provenance)
        (invalid_state "relation root lacks semantic provenance") in
      let? document_score := ok_or root.(sgr_semantic_score)
        (invalid_state "relation root lacks its semantic score") in
      reject_if (raw document_score <? raw RELATION_FLOOR)%N
        (invalid_state "relation root is below the relation floor") ?;
      let? explanation := ok_or root.(sgr_score_explanation)
        (invalid_state "relation root lacks its score explanation") in
      let explanation := as_relation_root explanation in
      from_query (ScoreExplanation_validate explanation) ?;
      let binding := mkContextDocumentBindingObservation document_id binding_provenance in
      let target := {|
        twk_entered_from := None;
        twk_relation_admitted := false;
        twk_expectation := {| hex_edge_key := edge_key;
                              hex_edge_provenance := edge_provenance;
                              hex_required_binding := Some binding |};
        twk_edge := None;
        twk_document := {| rel_document_id := document_id;
                           rel_binding_provenance := binding_provenance;
                           rel_preview := root.(sgr_preview);
                           rel_canonical_provenance := root.(sgr_canonical_provenance);
                           rel_semantic_provenance := semantic_provenance;
                           rel_document_score := document_score;
                           rel_score_explanation := explanation |};
        twk_document_head := semantic_head;
        twk_after := None;
        twk_exhausted := false |} in
      ExpansionWork_relation_root seed_id seed_order path target beam_width
  end.

Definition build_seed_work (roots : list SemanticGraphSelectedRoot) (beam_width : N)
  : TraversalResult (list ExpansionWork) :=
  try_fold (λ seeds '(root_index, root),
              let? works := collect_results (build_seed beam_width root_index root)
                              (enumerate root.(sgr_structural_entrypoints)) in
              Ok (seeds ++ works)) [] (enumerate roots).

End traversal.
