(* ===== verification/SemanticEngine.v ===== *)
(** * Semantic traversal: the engine

    Models [TraversalEngine] of [buzz-relay/src/semantic_graph_traversal.rs]: the
    search of the Hyperedges around the selected roots under a budget and a
    deadline.

    The database and the clock are the interface [TraversalBackend], the trait
    of the same name plus [Instant::now() >= work_deadline] and the [timeout_at]
    around every call, whose expiry is [None].  The query vectors, which the
    engine only hands on, are part of the backend.  [&mut] arguments are threaded:
    [Step] holds the engine, the work item and the quantum.  The two unbounded
    loops, [advance] and the loop of [search], are recursions on fuel, and
    [None] means that the fuel ran out; the metrics calls are left out. *)

From stdpp Require Import prelude strings gmap fin_maps.
From S2P Require Import Prelude Text Platform ContextCoordinate ContextModel.
From S2P Require Import SemanticModel SemanticResult SemanticVerify SemanticFrontier SemanticTraversal.

(** ** Computations that may run out of fuel *)

Definition run_bind {A B E} (c : option (result A E)) (k : A → option (result B E))
  : option (result B E) :=
  match c with
  | Some (Ok a) => k a
  | Some (Err e) => Some (Err e)
  | None => None
  end.

Declare Scope run_scope.
Delimit Scope run_scope with run.
Notation "'run' x ':=' c 'in' k" := (run_bind c (λ x, k))
  (at level 10, x pattern, c at level 200, k at level 200) : run_scope.
Open Scope run_scope.

(** ** The backend *)

Section interface.
Context `{P : Platform} `{HD : DbErrors}.

Record SemanticIncidentRelationRankRequest : Type := mkRelationRankRequest {
  rrq_entered_from : ProjectContextCoordinate;
  rrq_channels : TraversalChannels;
  rrq_after : option RelationRankCursor;
  rrq_limit : N;
}.

Record SemanticEdgeTargetRankRequest : Type := mkTargetRankRequest {
  trq_hyperedge : SemanticEdgeObservation;
  trq_relation_document_id : Uuid;
  trq_relation_document_head : SemanticCurrentHead;
  trq_document_score : Score;
  trq_lifecycle_filter : LifecycleFilter;
  trq_channels : TraversalChannels;
  trq_after : option TargetRankCursor;
  trq_limit : N;
}.

Class TraversalBackend : Type := {
  Backend : Type;
  past_deadline : Backend → bool * Backend;
  load_hyperedge : SemanticHyperedgeExpectation → Backend →
    result (option SemanticHyperedgeReadOutcome) DbError * Backend;
  rank_relations : SemanticIncidentRelationRankRequest → Backend →
    result (option SemanticIncidentRelationRankOutcome) DbError * Backend;
  rank_targets : SemanticEdgeTargetRankRequest → Backend →
    result (option SemanticEdgeTargetRankOutcome) DbError * Backend;
  hydrate : list SemanticExactSourceScore → Backend →
    result (option SemanticCanonicalHydrationBatch) DbError * Backend;
}.

End interface.

Inductive UnitAdvance : Type :=
| UnitDone
| UnitDeferred
| UnitGlobalStop (reason : BranchStopReason).

Section engine.
Context `{P : Platform} `{HP : !Postcard} `{HD : DbErrors} `{HB : !TraversalBackend}.

(** The fields of the engine that do not change. *)
Context (ticket : SemanticGraphQueryTicket) (channels : TraversalChannels)
  (lifecycle_filter : LifecycleFilter) (budget : SemanticGraphQueryBudget).

Record TraversalEngine : Type := mkTraversalEngine {
  eng_backend : Backend;
  eng_materialization : MaterializationState;
  eng_hydrated : gmap SemanticSourceIdentity SemanticHydratedCurrentSource;
  eng_edge_cache : gmap EdgeKey SemanticEdgeObservation;
  eng_relation_omissions : gset RelationOmissionKey;
  eng_target_omissions : gset TargetOmissionKey;
  eng_oversized_edges : gset EdgeKey;
  eng_exhaustion : ExhaustionState;
  eng_wall_time_exhausted : bool;
}.

Inductive RelationAdvance : Type :=
| RelationReady (target : TargetWork)
| RelationSkipped
| RelationGlobalStop (reason : BranchStopReason).

Inductive AdvanceOutcome : Type :=
| AdvanceSealed (successors : list FrontierPathState)
| AdvanceDeferred
| AdvanceGlobalStop (reason : BranchStopReason).

Definition TraversalEngine_new (query_vectors_is_empty : bool) (backend : Backend)
  : TraversalResult TraversalEngine :=
  reject_if query_vectors_is_empty (invalid_state "traversal requires the Q0 query vector") ?;
  Ok (mkTraversalEngine backend MaterializationState_default ∅ ∅ ∅ ∅ ∅ ExhaustionState_default false).

(** *** Assignments to fields *)

Definition set_backend (e : TraversalEngine) (b : Backend) : TraversalEngine :=
  mkTraversalEngine b e.(eng_materialization) e.(eng_hydrated) e.(eng_edge_cache)
    e.(eng_relation_omissions) e.(eng_target_omissions) e.(eng_oversized_edges) e.(eng_exhaustion)
    e.(eng_wall_time_exhausted).
Definition set_materialization (e : TraversalEngine) (m : MaterializationState) : TraversalEngine :=
  mkTraversalEngine e.(eng_backend) m e.(eng_hydrated) e.(eng_edge_cache)
    e.(eng_relation_omissions) e.(eng_target_omissions) e.(eng_oversized_edges) e.(eng_exhaustion)
    e.(eng_wall_time_exhausted).
Definition set_hydrated (e : TraversalEngine)
    (h : gmap SemanticSourceIdentity SemanticHydratedCurrentSource) : TraversalEngine :=
  mkTraversalEngine e.(eng_backend) e.(eng_materialization) h e.(eng_edge_cache)
    e.(eng_relation_omissions) e.(eng_target_omissions) e.(eng_oversized_edges) e.(eng_exhaustion)
    e.(eng_wall_time_exhausted).
Definition set_edge_cache (e : TraversalEngine) (c : gmap EdgeKey SemanticEdgeObservation)
  : TraversalEngine :=
  mkTraversalEngine e.(eng_backend) e.(eng_materialization) e.(eng_hydrated) c
    e.(eng_relation_omissions) e.(eng_target_omissions) e.(eng_oversized_edges) e.(eng_exhaustion)
    e.(eng_wall_time_exhausted).
Definition set_omissions (e : TraversalEngine) (r : gset RelationOmissionKey)
    (t : gset TargetOmissionKey) : TraversalEngine :=
  mkTraversalEngine e.(eng_backend) e.(eng_materialization) e.(eng_hydrated) e.(eng_edge_cache)
    r t e.(eng_oversized_edges) e.(eng_exhaustion) e.(eng_wall_time_exhausted).
Definition insert_oversized (e : TraversalEngine) (k : EdgeKey) : TraversalEngine :=
  mkTraversalEngine e.(eng_backend) e.(eng_materialization) e.(eng_hydrated) e.(eng_edge_cache)
    e.(eng_relation_omissions) e.(eng_target_omissions) ({[ k ]} ∪ e.(eng_oversized_edges))
    e.(eng_exhaustion) e.(eng_wall_time_exhausted).
Definition set_exhaustion (e : TraversalEngine) (x : ExhaustionState) : TraversalEngine :=
  mkTraversalEngine e.(eng_backend) e.(eng_materialization) e.(eng_hydrated) e.(eng_edge_cache)
    e.(eng_relation_omissions) e.(eng_target_omissions) e.(eng_oversized_edges) x
    e.(eng_wall_time_exhausted).
Definition exhaust_wall_time (e : TraversalEngine) : TraversalEngine :=
  mkTraversalEngine e.(eng_backend) e.(eng_materialization) e.(eng_hydrated) e.(eng_edge_cache)
    e.(eng_relation_omissions) e.(eng_target_omissions) e.(eng_oversized_edges) e.(eng_exhaustion)
    true.

Definition set_stop (w : ExpansionWork) (f : StopObservations → StopObservations) : ExpansionWork :=
  mkExpansionWork w.(wrk_seed_id) w.(wrk_seed_order) w.(wrk_path) w.(wrk_incident_started)
    w.(wrk_incident_exhausted) w.(wrk_incident_after) w.(wrk_pending_relations)
    w.(wrk_pending_targets) w.(wrk_accumulator) w.(wrk_qualifying_successors_seen) (f w.(wrk_stop)).
Definition set_incident (w : ExpansionWork) (started exhausted : bool)
    (after : option RelationRankCursor) : ExpansionWork :=
  mkExpansionWork w.(wrk_seed_id) w.(wrk_seed_order) w.(wrk_path) started exhausted after
    w.(wrk_pending_relations) w.(wrk_pending_targets) w.(wrk_accumulator)
    w.(wrk_qualifying_successors_seen) w.(wrk_stop).
Definition set_pending (w : ExpansionWork) (relations : list SemanticRankedRelationOption)
    (targets : list TargetWork) : ExpansionWork :=
  mkExpansionWork w.(wrk_seed_id) w.(wrk_seed_order) w.(wrk_path) w.(wrk_incident_started)
    w.(wrk_incident_exhausted) w.(wrk_incident_after) relations targets w.(wrk_accumulator)
    w.(wrk_qualifying_successors_seen) w.(wrk_stop).
Definition set_accumulator (w : ExpansionWork) (a : option BoundedSuccessorAccumulator) (seen : N)
  : ExpansionWork :=
  mkExpansionWork w.(wrk_seed_id) w.(wrk_seed_order) w.(wrk_path) w.(wrk_incident_started)
    w.(wrk_incident_exhausted) w.(wrk_incident_after) w.(wrk_pending_relations)
    w.(wrk_pending_targets) a seen w.(wrk_stop).

Definition set_target (t : TargetWork) (admitted : bool) (edge : option SemanticEdgeObservation)
    (after : option TargetRankCursor) (exhausted : bool) : TargetWork :=
  mkTargetWork t.(twk_entered_from) admitted t.(twk_expectation) edge t.(twk_document)
    t.(twk_document_head) after exhausted.

(** The [&mut] arguments of one call. *)
Record Step : Type := mkStep {
  st_engine : TraversalEngine;
  st_work : ExpansionWork;
  st_quantum : Quantum;
}.

(** *** Calls *)

Definition read_clock (e : TraversalEngine) : bool * TraversalEngine :=
  let '(past, b) := past_deadline e.(eng_backend) in (past, set_backend e b).

(** [run_db_before(self.work_deadline, future)] *)
Definition run_db_before {T} (op : Backend → result (option T) DbError * Backend)
    (e : TraversalEngine) : TraversalResult (option T * TraversalEngine) :=
  let '(past, e) := read_clock e in
  if past then Ok (None, e)
  else
    let '(answer, b) := op e.(eng_backend) in
    let? answer := from_db answer in
    Ok (answer, set_backend e b).

Definition record_global_exhaustion (e : TraversalEngine) (dimension : ExhaustedDimension) (count : N)
    (work : ExpansionWork) : TraversalResult TraversalEngine :=
  let? exhaustion := record (stop_globally e.(eng_exhaustion)) dimension count work in
  Ok (set_exhaustion e exhaustion).

(** [record_global_exhaustion(..)?; return Ok(GlobalStop(GlobalBudgetExhausted))] *)
Definition exhausted_globally (s : Step) (dimension : ExhaustedDimension) (count : N)
  : TraversalResult (UnitAdvance * Step) :=
  let? e := record_global_exhaustion s.(st_engine) dimension count s.(st_work) in
  Ok (UnitGlobalStop BranchStopReason.GlobalBudgetExhausted, mkStep e s.(st_work) s.(st_quantum)).

Definition observe_relation_omissions (e : TraversalEngine)
    (omissions : list SemanticRelationOptionOmission) : TraversalEngine :=
  set_omissions e
    (foldl (λ keys omission,
              {[ (omission.(roo_edge_key), omission.(roo_document_id),
                  omission_reason_rank omission.(roo_reason)) ]} ∪ keys)
       e.(eng_relation_omissions) omissions)
    e.(eng_target_omissions).

Definition observe_target_omissions (e : TraversalEngine) (edge_key : EdgeKey) (document_id : Uuid)
    (omissions : list SemanticTargetOptionOmission) : TraversalEngine :=
  set_omissions e e.(eng_relation_omissions)
    (foldl (λ keys omission,
              {[ (edge_key, document_id, omission.(too_coordinate),
                  omission_reason_rank omission.(too_reason)) ]} ∪ keys)
       e.(eng_target_omissions) omissions).

Definition hydrate_source (e : TraversalEngine) (score : SemanticExactSourceScore)
  : TraversalResult (option SemanticHydratedCurrentSource * TraversalEngine) :=
  match e.(eng_hydrated) !! score.(ess_source) with
  | Some cached =>
      reject_if (negb (bool_decide (cached.(hyd_semantic_head) = score.(ess_head))))
        (invalid_state "traversal hydration cache disagrees with exact source head") ?;
      Ok (Some cached, e)
  | None =>
      let? (batch, e) := run_db_before (hydrate [score]) e in
      match batch with
      | None => Ok (None, e)
      | Some batch =>
          validate_snapshot ticket batch.(hdb_snapshot) ?;
          let? hydrated :=
            ok_or (option_filter
                     (λ hydrated,
                        bool_decide (hydrated.(hyd_canonical).(cns_source) = score.(ess_source))
                        && bool_decide (hydrated.(hyd_semantic_head) = score.(ess_head)))
                     (head batch.(hdb_sources)))
              (invalid_state "traversal hydration result is incomplete") in
          Ok (Some hydrated, set_hydrated e (<[score.(ess_source) := hydrated]> e.(eng_hydrated)))
      end
  end.

(** *** Relations *)

(** One iteration over the options of a relation slice: an early return, or the
    next cursor. *)
Definition admit_relation (coordinate : ProjectContextCoordinate)
    (option : SemanticRankedRelationOption) (last_cursor : Datatypes.option RelationRankCursor) (s : Step)
  : TraversalResult (Datatypes.option UnitAdvance * Datatypes.option RelationRankCursor * Step) :=
  let e := s.(st_engine) in
  let work := s.(st_work) in
  let quantum := s.(st_quantum) in
  let m := e.(eng_materialization) in
  let key := (Some coordinate, option.(rro_edge_key), option.(rro_document_id)) in
  let accept m quantum :=
    let last_cursor :=
      Some (mkRelationRankCursor option.(rro_document_score) option.(rro_edge_key)
              option.(rro_document_id)) in
    Ok (None, last_cursor,
        mkStep (set_materialization e m)
          (set_pending work (work.(wrk_pending_relations) ++ [option]) work.(wrk_pending_targets))
          quantum) in
  if bool_decide (key ∈ m.(mat_relations)) then accept m quantum
  else if (budget.(max_relation_options_materialized) <=? N.of_nat (size m.(mat_relations)))%N then
    let? (stop, s) := exhausted_globally s ExhaustedDimension.RelationOptionsMaterialized 1 in
    Ok (Some stop, last_cursor, s)
  else if (quantum.(qnt_relation_options) =? 0)%N then
    let work := set_incident work work.(wrk_incident_started) work.(wrk_incident_exhausted) last_cursor in
    Ok (Some UnitDeferred, last_cursor, mkStep e work quantum)
  else
    accept
      (mkMaterializationState m.(mat_expanded_coordinates) m.(mat_edges)
         ({[ key ]} ∪ m.(mat_relations)) m.(mat_targets))
      (mkQuantum quantum.(qnt_expanded_coordinates) quantum.(qnt_incident_edges)
         (quantum.(qnt_relation_options) - 1) quantum.(qnt_target_options))%N.

Fixpoint admit_relations (coordinate : ProjectContextCoordinate)
    (options : list SemanticRankedRelationOption) (last_cursor : option RelationRankCursor) (s : Step)
  : TraversalResult (option UnitAdvance * option RelationRankCursor * Step) :=
  match options with
  | [] => Ok (None, last_cursor, s)
  | option :: options =>
      let? (stop, last_cursor, s) := admit_relation coordinate option last_cursor s in
      match stop with
      | Some stop => Ok (Some stop, last_cursor, s)
      | None => admit_relations coordinate options last_cursor s
      end
  end.

(** The slice of a request: [quantum.min(remaining).max(1).min(u16::MAX)]. *)
Definition slice_limit (quantum remaining : N) : N :=
  N.min (N.max (N.min quantum remaining) 1) 65535.

(** The part of [advance_incident] before the request. *)
Definition start_incident (s : Step) : TraversalResult (option UnitAdvance * Step) :=
  let e := s.(st_engine) in
  let work := s.(st_work) in
  let quantum := s.(st_quantum) in
  if work.(wrk_incident_started) then Ok (None, s)
  else
    let m := e.(eng_materialization) in
    let '(expanded, remaining, admission) :=
      admit_coordinate_expansion m.(mat_expanded_coordinates) budget.(max_expanded_coordinates)
        quantum.(qnt_expanded_coordinates) in
    let e :=
      set_materialization e
        (mkMaterializationState expanded m.(mat_edges) m.(mat_relations) m.(mat_targets)) in
    let quantum :=
      mkQuantum remaining quantum.(qnt_incident_edges) quantum.(qnt_relation_options)
        quantum.(qnt_target_options) in
    match admission with
    | ExpansionGlobalExhausted =>
        let? (stop, s) := exhausted_globally (mkStep e work quantum) ExhaustedDimension.ExpandedCoordinates 1 in
        Ok (Some stop, s)
    | ExpansionDeferred => Ok (Some UnitDeferred, mkStep e work quantum)
    | ExpansionAdmitted =>
        let work := set_incident work true work.(wrk_incident_exhausted) work.(wrk_incident_after) in
        Ok (None, mkStep e work quantum)
    end.

(** The part of [advance_incident] after the slice is ranked. *)
Definition take_relations (coordinate : ProjectContextCoordinate)
    (batch : SemanticIncidentRelationRankBatch) (s : Step) : TraversalResult (UnitAdvance * Step) :=
  validate_snapshot ticket batch.(irb_snapshot) ?;
  let e := observe_relation_omissions s.(st_engine) batch.(irb_omitted) in
  let work := set_stop s.(st_work) (or_below_relevance (0 <? batch.(irb_below_relation_floor))%N) in
  let? (stop, last_cursor, s) :=
    admit_relations coordinate batch.(irb_options) work.(wrk_incident_after)
      (mkStep e work s.(st_quantum)) in
  match stop with
  | Some stop => Ok (stop, s)
  | None =>
      let work := s.(st_work) in
      let work := set_incident work work.(wrk_incident_started) work.(wrk_incident_exhausted) last_cursor in
      let s := mkStep s.(st_engine) work s.(st_quantum) in
      match batch.(irb_exhaustion) with
      | SliceExhausted =>
          Ok (UnitDone,
              mkStep s.(st_engine)
                (set_incident work work.(wrk_incident_started) true work.(wrk_incident_after))
                s.(st_quantum))
      | SliceTruncated =>
          if (budget.(max_relation_options_materialized)
              <=? N.of_nat (size s.(st_engine).(eng_materialization).(mat_relations)))%N then
            exhausted_globally s ExhaustedDimension.RelationOptionsMaterialized 1
          else if (s.(st_quantum).(qnt_relation_options) =? 0)%N then Ok (UnitDeferred, s)
          else Ok (UnitDone, s)
      end
  end.

Definition advance_incident (s : Step) : TraversalResult (UnitAdvance * Step) :=
  let? coordinate := ok_or s.(st_work).(wrk_path).(fps_current_coordinate)
    (invalid_state "Coordinate incident work lacks a Coordinate") in
  let? (stop, s) := start_incident s in
  match stop with
  | Some stop => Ok (stop, s)
  | None =>
      let global_remaining :=
        (budget.(max_relation_options_materialized)
         - N.of_nat (size s.(st_engine).(eng_materialization).(mat_relations)))%N in
      if (s.(st_quantum).(qnt_relation_options) =? 0)%N && (0 <? global_remaining)%N then
        Ok (UnitDeferred, s)
      else
        let? limit :=
          ok_or (u16_try_from (slice_limit s.(st_quantum).(qnt_relation_options) global_remaining))
            (invalid_state "relation traversal slice exceeds u16") in
        let request :=
          mkRelationRankRequest coordinate channels s.(st_work).(wrk_incident_after) limit in
        let? (outcome, e) := run_db_before (rank_relations request) s.(st_engine) in
        match outcome with
        | None =>
            Ok (UnitGlobalStop BranchStopReason.WallTimeExhausted,
                mkStep (exhaust_wall_time e) s.(st_work) s.(st_quantum))
        | Some (RelationsRanked batch) =>
            take_relations coordinate batch (mkStep e s.(st_work) s.(st_quantum))
        | Some (RelationSetTooLarge observed_at_least) =>
            exhausted_globally (mkStep e s.(st_work) s.(st_quantum))
              ExhaustedDimension.RelationOptionsMaterialized observed_at_least
        end
  end.

Definition advance_relation (s : Step) (relation : SemanticRankedRelationOption)
  : TraversalResult (RelationAdvance * Step) :=
  let work := s.(st_work) in
  if bool_decide (relation.(rro_edge_key) ∈ work.(wrk_path).(fps_visited_edges)) then
    Ok (RelationSkipped, mkStep s.(st_engine) (set_stop work set_cycle_or_duplicate) s.(st_quantum))
  else
    let? parts :=
      semantic_score_parts relation.(rro_channel_scores) channels ticket.(tkt_community_id) in
    let expected_document_source :=
      project_document_source ticket.(tkt_community_id) relation.(rro_document_id) in
    reject_if (negb (bool_decide (parts.(prt_representative).(ess_source) = expected_document_source)))
      (invalid_state "ranked relation score belongs to a different Document") ?;
    validate_relation_coherence work parts.(prt_representative) relation.(rro_local_coherence)
      ticket.(tkt_community_id) ?;
    let observed_coherence := spd_score <$> relation.(rro_local_coherence) in
    let recomputed :=
      document_score parts.(prt_problem_score) parts.(prt_environment_gain) observed_coherence in
    reject_if (negb (bool_decide (recomputed = relation.(rro_document_score)))
               || (raw recomputed <? raw RELATION_FLOOR)%N)
      (invalid_state "ranked relation score does not recompute above its floor") ?;
    let? (hydrated, e) := hydrate_source s.(st_engine) parts.(prt_representative) in
    match hydrated with
    | None =>
        Ok (RelationGlobalStop BranchStopReason.WallTimeExhausted,
            mkStep (exhaust_wall_time e) work s.(st_quantum))
    | Some hydrated =>
        let document := {|
          rel_document_id := relation.(rro_document_id);
          rel_binding_provenance := relation.(rro_binding_provenance);
          rel_preview := preview hydrated;
          rel_canonical_provenance := canonical_provenance hydrated;
          rel_semantic_provenance := semantic_provenance ticket parts.(prt_representative);
          rel_document_score := relation.(rro_document_score);
          rel_score_explanation := relation_score_explanation parts relation |} in
        from_query (ScoreExplanation_validate document.(rel_score_explanation)) ?;
        let required_binding :=
          mkContextDocumentBindingObservation relation.(rro_document_id)
            relation.(rro_binding_provenance) in
        Ok (RelationReady {|
              twk_entered_from := work.(wrk_path).(fps_current_coordinate);
              twk_relation_admitted := true;
              twk_expectation := {| hex_edge_key := relation.(rro_edge_key);
                                    hex_edge_provenance := relation.(rro_edge_provenance);
                                    hex_required_binding := Some required_binding |};
              twk_edge := None;
              twk_document := document;
              twk_document_head := parts.(prt_representative).(ess_head);
              twk_after := None;
              twk_exhausted := false |},
            mkStep e work s.(st_quantum))
    end.

(** *** Targets *)

(** The part of [advance_targets] that admits the relation: an early return, or
    [None] once [target.relation_admitted] holds. *)
Definition admit_target_relation (s : Step) (target : TargetWork)
  : TraversalResult (option UnitAdvance * TargetWork * Step) :=
  if target.(twk_relation_admitted) then Ok (None, target, s)
  else
    let e := s.(st_engine) in
    let m := e.(eng_materialization) in
    let q := s.(st_quantum) in
    let key := (target.(twk_entered_from), target.(twk_expectation).(hex_edge_key),
                target.(twk_document).(rel_document_id)) in
    let '(relations, remaining, admission) :=
      admit_new_key m.(mat_relations) key budget.(max_relation_options_materialized)
        q.(qnt_relation_options) in
    let e :=
      set_materialization e
        (mkMaterializationState m.(mat_expanded_coordinates) m.(mat_edges) relations m.(mat_targets)) in
    let q :=
      mkQuantum q.(qnt_expanded_coordinates) q.(qnt_incident_edges) remaining q.(qnt_target_options) in
    let s := mkStep e s.(st_work) q in
    match admission with
    | KeyReused | KeyAdmitted =>
        Ok (None, set_target target true target.(twk_edge) target.(twk_after) target.(twk_exhausted), s)
    | KeyDeferred => Ok (Some UnitDeferred, target, s)
    | KeyGlobalExhausted =>
        let? (stop, s) := exhausted_globally s ExhaustedDimension.RelationOptionsMaterialized 1 in
        Ok (Some stop, target, s)
    end.

(** [work.stop.hyperedge_too_large = true] and its two companions *)
Definition hyperedge_too_large (s : Step) (target : TargetWork)
  : UnitAdvance * TargetWork * Step :=
  (UnitDone,
   set_target target target.(twk_relation_admitted) target.(twk_edge) target.(twk_after) true,
   mkStep (insert_oversized s.(st_engine) target.(twk_expectation).(hex_edge_key))
     (set_stop s.(st_work) set_hyperedge_too_large) s.(st_quantum)).

(** The part of [advance_targets] that loads the Hyperedge. *)
Definition load_target_edge (s : Step) (target : TargetWork)
  : TraversalResult (option UnitAdvance * TargetWork * Step) :=
  let e := s.(st_engine) in
  let m := e.(eng_materialization) in
  let q := s.(st_quantum) in
  let with_edge edge :=
    set_target target target.(twk_relation_admitted) (Some edge) target.(twk_after)
      target.(twk_exhausted) in
  match target.(twk_edge) with
  | Some _ => Ok (None, target, s)
  | None =>
      match e.(eng_edge_cache) !! target.(twk_expectation).(hex_edge_key) with
      | Some cached =>
          validate_cached_edge cached target.(twk_expectation) ?;
          Ok (None, with_edge cached, s)
      | None =>
          if (budget.(max_incident_edges_materialized) <=? N.of_nat (size m.(mat_edges)))%N then
            let? (stop, s) := exhausted_globally s ExhaustedDimension.IncidentEdgesMaterialized 1 in
            Ok (Some stop, target, s)
          else if (q.(qnt_incident_edges) =? 0)%N then Ok (Some UnitDeferred, target, s)
          else
            let? (outcome, e) := run_db_before (load_hyperedge target.(twk_expectation)) e in
            match outcome with
            | None =>
                Ok (Some (UnitGlobalStop BranchStopReason.WallTimeExhausted), target,
                    mkStep (exhaust_wall_time e) s.(st_work) q)
            | Some (ReadCurrent edge) =>
                validate_cached_edge edge target.(twk_expectation) ?;
                let e :=
                  set_materialization e
                    (mkMaterializationState m.(mat_expanded_coordinates)
                       ({[ edge.(edge_edge_key) ]} ∪ m.(mat_edges)) m.(mat_relations) m.(mat_targets)) in
                let q :=
                  mkQuantum q.(qnt_expanded_coordinates) (q.(qnt_incident_edges) - 1)
                    q.(qnt_relation_options) q.(qnt_target_options) in
                let e := set_edge_cache e (<[edge.(edge_edge_key) := edge]> e.(eng_edge_cache)) in
                Ok (None, with_edge edge, mkStep e s.(st_work) q)
            | Some ReadChanged =>
                Err (invalid_state "Hyperedge changed inside one repeatable-read snapshot")
            | Some (ReadTooLarge _) =>
                let '(stop, target, s) := hyperedge_too_large (mkStep e s.(st_work) q) target in
                Ok (Some stop, target, s)
            end
      end
  end.

(** The state of the loop over the options of a target slice: [admitted],
    [last_cursor] and the [&mut] arguments. *)
Record TargetScan : Type := mkTargetScan {
  tsc_admitted : list SemanticRankedTargetOption;
  tsc_last_cursor : option TargetRankCursor;
  tsc_step : Step;
}.

(** One iteration: an early return with the target it leaves, or the next state. *)
Definition admit_target (edge : SemanticEdgeObservation) (target : TargetWork)
    (option : SemanticRankedTargetOption) (scan : TargetScan)
  : TraversalResult (Datatypes.option (UnitAdvance * TargetWork) * TargetScan) :=
  let s := scan.(tsc_step) in
  let e := s.(st_engine) in
  let m := e.(eng_materialization) in
  let q := s.(st_quantum) in
  let key := (target.(twk_entered_from), edge.(edge_edge_key), target.(twk_document).(rel_document_id),
              option.(rto_coordinate)) in
  let accept m q :=
    let work := s.(st_work) in
    let '(cursor, option) := classify_ranked_target work.(wrk_path) edge.(edge_edge_key) option in
    match option with
    | Some option =>
        Ok (None, mkTargetScan (scan.(tsc_admitted) ++ [option]) (Some cursor)
                    (mkStep (set_materialization e m) work q))
    | None =>
        Ok (None, mkTargetScan scan.(tsc_admitted) (Some cursor)
                    (mkStep (set_materialization e m) (set_stop work set_cycle_or_duplicate) q))
    end in
  if bool_decide (key ∈ m.(mat_targets)) then accept m q
  else if (budget.(max_target_options_materialized) <=? N.of_nat (size m.(mat_targets)))%N then
    let? (stop, s) := exhausted_globally s ExhaustedDimension.TargetOptionsMaterialized 1 in
    Ok (Some (stop, target), mkTargetScan scan.(tsc_admitted) scan.(tsc_last_cursor) s)
  else if (q.(qnt_target_options) =? 0)%N then
    let target :=
      set_target target target.(twk_relation_admitted) target.(twk_edge) scan.(tsc_last_cursor)
        target.(twk_exhausted) in
    Ok (Some (UnitDeferred, target), scan)
  else
    accept
      (mkMaterializationState m.(mat_expanded_coordinates) m.(mat_edges) m.(mat_relations)
         ({[ key ]} ∪ m.(mat_targets)))
      (mkQuantum q.(qnt_expanded_coordinates) q.(qnt_incident_edges) q.(qnt_relation_options)
         (q.(qnt_target_options) - 1))%N.

Fixpoint admit_targets (edge : SemanticEdgeObservation) (target : TargetWork)
    (options : list SemanticRankedTargetOption) (scan : TargetScan)
  : TraversalResult (option (UnitAdvance * TargetWork) * TargetScan) :=
  match options with
  | [] => Ok (None, scan)
  | option :: options =>
      let? (stop, scan) := admit_target edge target option scan in
      match stop with
      | Some stop => Ok (Some stop, scan)
      | None => admit_targets edge target options scan
      end
  end.

Definition build_successor (e : TraversalEngine) (work : ExpansionWork) (target : TargetWork)
    (edge : SemanticEdgeObservation) (option : SemanticRankedTargetOption)
  : TraversalResult (Datatypes.option FrontierPathState * TraversalEngine) :=
  let? parts :=
    semantic_score_parts option.(rto_channel_scores) channels ticket.(tkt_community_id) in
  let? expected_target :=
    from_db (semantic_source_identity_for_coordinate ticket.(tkt_community_id)
               option.(rto_coordinate)) in
  reject_if (negb (bool_decide (parts.(prt_representative).(ess_source) = expected_target)))
    (invalid_state "ranked target score belongs to a different Coordinate") ?;
  validate_target_coherence target parts.(prt_representative)
    option.(rto_relation_document_coherence) ticket.(tkt_community_id) ?;
  let recomputed_target :=
    target_coordinate_score parts.(prt_problem_score) parts.(prt_environment_gain)
      option.(rto_relation_document_coherence).(spd_score) in
  let recomputed_transition :=
    harmonic_score target.(twk_document).(rel_document_score) recomputed_target in
  reject_if (negb (bool_decide (recomputed_target = option.(rto_target_score)))
             || negb (bool_decide (recomputed_transition = option.(rto_transition_score)))
             || (raw option.(rto_target_score) <? raw TARGET_FLOOR)%N
             || (raw option.(rto_transition_score) <? raw TRANSITION_FLOOR)%N)
    (invalid_state "ranked target or transition score does not recompute above its floor") ?;
  let? (hydrated, e) := hydrate_source e parts.(prt_representative) in
  match hydrated with
  | None => Ok (None, e)
  | Some hydrated =>
      let explanation := target_score_explanation parts option in
      from_query (ScoreExplanation_validate explanation) ?;
      let continued := {|
        con_coordinate := option.(rto_coordinate);
        con_preview := preview hydrated;
        con_lifecycle := hydrated.(hyd_canonical).(cns_lifecycle);
        con_canonical_provenance := canonical_provenance hydrated;
        con_semantic_provenance := semantic_provenance ticket parts.(prt_representative);
        con_target_score := option.(rto_target_score);
        con_score_explanation := explanation |} in
      let hop := {|
        hop_ordinal := 0;
        hop_entered_from_coordinate := target.(twk_entered_from);
        hop_edge := edge;
        hop_selected_relation_document := target.(twk_document);
        hop_continued_to_coordinate := continued;
        hop_transition_score := option.(rto_transition_score) |} in
      let? successor := from_query (append_hop work.(wrk_path) hop) in
      Ok (Some successor, e)
  end.

(** The loop over the admitted options. *)
Fixpoint build_successors (edge : SemanticEdgeObservation) (target : TargetWork)
    (admitted : list SemanticRankedTargetOption) (s : Step)
  : TraversalResult (option UnitAdvance * Step) :=
  match admitted with
  | [] => Ok (None, s)
  | option :: admitted =>
      let? (successor, e) := build_successor s.(st_engine) s.(st_work) target edge option in
      match successor with
      | None =>
          Ok (Some (UnitGlobalStop BranchStopReason.WallTimeExhausted),
              mkStep (exhaust_wall_time e) s.(st_work) s.(st_quantum))
      | Some successor =>
          let? accumulator := ok_or s.(st_work).(wrk_accumulator)
            (invalid_state "active work lost its successor accumulator") in
          let '(accumulator, _) := BoundedSuccessorAccumulator_admit accumulator successor in
          let work :=
            set_accumulator s.(st_work) (Some accumulator)
              (s.(st_work).(wrk_qualifying_successors_seen) + 1) in
          build_successors edge target admitted (mkStep e work s.(st_quantum))
      end
  end.

(** The part of [advance_targets] after the slice is ranked. *)
Definition take_targets (edge : SemanticEdgeObservation) (target : TargetWork)
    (batch : SemanticEdgeTargetRankBatch) (s : Step)
  : TraversalResult (UnitAdvance * TargetWork * Step) :=
  validate_snapshot ticket batch.(etb_snapshot) ?;
  reject_if (negb (bool_decide (batch.(etb_edge) = edge)))
    (invalid_state "target rank returned a different complete Hyperedge") ?;
  let e :=
    observe_target_omissions s.(st_engine) edge.(edge_edge_key) target.(twk_document).(rel_document_id)
      batch.(etb_omitted) in
  let work :=
    set_stop s.(st_work)
      (or_below_relevance ((0 <? batch.(etb_below_target_floor))
                           || (0 <? batch.(etb_below_transition_floor)))%N) in
  let? (stop, scan) :=
    admit_targets edge target batch.(etb_options)
      (mkTargetScan [] target.(twk_after) (mkStep e work s.(st_quantum))) in
  match stop with
  | Some (stop, target) => Ok (stop, target, scan.(tsc_step))
  | None =>
      let target :=
        set_target target target.(twk_relation_admitted) target.(twk_edge) scan.(tsc_last_cursor)
          target.(twk_exhausted) in
      let? (stop, s) := build_successors edge target scan.(tsc_admitted) scan.(tsc_step) in
      match stop with
      | Some stop => Ok (stop, target, s)
      | None =>
          match batch.(etb_exhaustion) with
          | SliceExhausted =>
              Ok (UnitDone,
                  set_target target target.(twk_relation_admitted) target.(twk_edge)
                    target.(twk_after) true, s)
          | SliceTruncated =>
              if (budget.(max_target_options_materialized)
                  <=? N.of_nat (size s.(st_engine).(eng_materialization).(mat_targets)))%N then
                let? (stop, s) := exhausted_globally s ExhaustedDimension.TargetOptionsMaterialized 1 in
                Ok (stop, target, s)
              else if (s.(st_quantum).(qnt_target_options) =? 0)%N then Ok (UnitDeferred, target, s)
              else Ok (UnitDone, target, s)
          end
      end
  end.

(** The part of [advance_targets] that ranks one slice. *)
Definition rank_target_slice (s : Step) (target : TargetWork)
  : TraversalResult (UnitAdvance * TargetWork * Step) :=
  let global_remaining :=
    (budget.(max_target_options_materialized)
     - N.of_nat (size s.(st_engine).(eng_materialization).(mat_targets)))%N in
  if (s.(st_quantum).(qnt_target_options) =? 0)%N && (0 <? global_remaining)%N then
    Ok (UnitDeferred, target, s)
  else
    let? limit :=
      ok_or (u16_try_from (slice_limit s.(st_quantum).(qnt_target_options) global_remaining))
        (invalid_state "target traversal slice exceeds u16") in
    let? edge := ok_or target.(twk_edge)
      (invalid_state "target traversal lost its complete Hyperedge") in
    let request := {|
      trq_hyperedge := edge;
      trq_relation_document_id := target.(twk_document).(rel_document_id);
      trq_relation_document_head := target.(twk_document_head);
      trq_document_score := target.(twk_document).(rel_document_score);
      trq_lifecycle_filter := lifecycle_filter;
      trq_channels := channels;
      trq_after := target.(twk_after);
      trq_limit := limit |} in
    let? (outcome, e) := run_db_before (rank_targets request) s.(st_engine) in
    let s := mkStep e s.(st_work) s.(st_quantum) in
    match outcome with
    | None =>
        Ok (UnitGlobalStop BranchStopReason.WallTimeExhausted, target,
            mkStep (exhaust_wall_time e) s.(st_work) s.(st_quantum))
    | Some (TargetsRanked batch) => take_targets edge target batch s
    | Some TargetsHyperedgeChanged =>
        Err (invalid_state "target Hyperedge changed inside one repeatable-read snapshot")
    | Some (TargetsHyperedgeTooLarge _) => Ok (hyperedge_too_large s target)
    | Some (TargetSetTooLarge observed_at_least) =>
        let? (stop, s) :=
          exhausted_globally s ExhaustedDimension.TargetOptionsMaterialized observed_at_least in
        Ok (stop, target, s)
    end.

Definition advance_targets (s : Step) (target : TargetWork)
  : TraversalResult (UnitAdvance * TargetWork * Step) :=
  let? (stop, target, s) := admit_target_relation s target in
  match stop with
  | Some stop => Ok (stop, target, s)
  | None =>
      let? (stop, target, s) := load_target_edge s target in
      match stop with
      | Some stop => Ok (stop, target, s)
      | None => if target.(twk_exhausted) then Ok (UnitDone, target, s) else rank_target_slice s target
      end
  end.

(** *** The loop of one work item *)

(** The work is complete: its successors leave the accumulator. *)
Definition seal (s : Step) : TraversalResult (AdvanceOutcome * Step) :=
  let work := s.(st_work) in
  let? accumulator := ok_or work.(wrk_accumulator)
    (invalid_state "sealed traversal work lost its successor accumulator") in
  let work := set_accumulator work None work.(wrk_qualifying_successors_seen) in
  let successors := into_successors accumulator in
  let suppressed := (work.(wrk_qualifying_successors_seen) - len successors)%N in
  let? exhaustion :=
    if (0 <? suppressed)%N
    then record s.(st_engine).(eng_exhaustion) ExhaustedDimension.BeamWidth suppressed work
    else Ok s.(st_engine).(eng_exhaustion) in
  Ok (AdvanceSealed successors,
      mkStep (set_exhaustion s.(st_engine) exhaustion) work s.(st_quantum)).

(** One iteration of the loop of [advance]: [inl] continues, [inr] returns. *)
Definition advance_once (s : Step) : TraversalResult (Step + AdvanceOutcome * Step) :=
  let '(past, e) := read_clock s.(st_engine) in
  let s := mkStep e s.(st_work) s.(st_quantum) in
  if past then
    Ok (inr (AdvanceGlobalStop BranchStopReason.WallTimeExhausted,
             mkStep (exhaust_wall_time e) s.(st_work) s.(st_quantum)))
  else if e.(eng_exhaustion).(exh_global_stop) then
    Ok (inr (AdvanceGlobalStop BranchStopReason.GlobalBudgetExhausted, s))
  else
    let work := s.(st_work) in
    match work.(wrk_pending_targets) with
    | target :: pending =>
        let s := mkStep e (set_pending work work.(wrk_pending_relations) pending) s.(st_quantum) in
        let? (unit, target, s) := advance_targets s target in
        let work := s.(st_work) in
        let push_front :=
          mkStep s.(st_engine)
            (set_pending work work.(wrk_pending_relations) (target :: work.(wrk_pending_targets)))
            s.(st_quantum) in
        match unit with
        | UnitDone => Ok (inl s)
        | UnitDeferred => Ok (inr (AdvanceDeferred, push_front))
        | UnitGlobalStop reason => Ok (inr (AdvanceGlobalStop reason, push_front))
        end
    | [] =>
        match work.(wrk_pending_relations) with
        | relation :: pending =>
            let s := mkStep e (set_pending work pending []) s.(st_quantum) in
            let? (advance, s) := advance_relation s relation in
            let work := s.(st_work) in
            match advance with
            | RelationReady target =>
                Ok (inl (mkStep s.(st_engine)
                           (set_pending work work.(wrk_pending_relations)
                              (work.(wrk_pending_targets) ++ [target])) s.(st_quantum)))
            | RelationSkipped => Ok (inl s)
            | RelationGlobalStop reason => Ok (inr (AdvanceGlobalStop reason, s))
            end
        | [] =>
            if negb work.(wrk_incident_exhausted) then
              let? (unit, s) := advance_incident s in
              match unit with
              | UnitDone => Ok (inl s)
              | UnitDeferred => Ok (inr (AdvanceDeferred, s))
              | UnitGlobalStop reason => Ok (inr (AdvanceGlobalStop reason, s))
              end
            else
              let? (outcome, s) := seal s in
              Ok (inr (outcome, s))
        end
    end.

Fixpoint advance (fuel : nat) (s : Step) : option (TraversalResult (AdvanceOutcome * Step)) :=
  match fuel with
  | O => None
  | S fuel =>
      run next := Some (advance_once s) in
      match next with
      | inl s => advance fuel s
      | inr returned => Some (Ok returned)
      end
  end.

(** *** The search *)

(** The local variables of [search]. *)
Record Search : Type := mkSearch {
  sch_engine : TraversalEngine;
  sch_queue : list ExpansionWork;
  sch_deferred : list ExpansionWork;
  sch_stopped : list StoppedPath;
  sch_zero_hop : gmap SeedId BranchStopReason;
}.

(** [finish_cutoff_work(..)?] *)
Definition cut_off (reason : BranchStopReason) (search : Search) (work : ExpansionWork)
  : TraversalResult Search :=
  let? (exhaustion, stopped, zero_hop) :=
    finish_cutoff_work work reason budget search.(sch_engine).(eng_exhaustion) search.(sch_stopped)
      search.(sch_zero_hop) in
  Ok (mkSearch (set_exhaustion search.(sch_engine) exhaustion) search.(sch_queue)
        search.(sch_deferred) stopped zero_hop).

(** [publish_successors(..)?] *)
Definition publish (successors : list FrontierPathState) (work : ExpansionWork) (search : Search)
  : TraversalResult Search :=
  let? (queue, stopped, exhaustion) :=
    publish_successors successors work.(wrk_seed_id) work.(wrk_seed_order) budget search.(sch_queue)
      search.(sch_stopped) search.(sch_engine).(eng_exhaustion) in
  Ok (mkSearch (set_exhaustion search.(sch_engine) exhaustion) queue search.(sch_deferred) stopped
        search.(sch_zero_hop)).

Definition insert_zero_hop (work : ExpansionWork) (search : Search) : Search :=
  mkSearch search.(sch_engine) search.(sch_queue) search.(sch_deferred) search.(sch_stopped)
    (<[work.(wrk_seed_id) := stop_reason work]> search.(sch_zero_hop)).

Definition with_engine (search : Search) (e : TraversalEngine) : Search :=
  mkSearch e search.(sch_queue) search.(sch_deferred) search.(sch_stopped) search.(sch_zero_hop).

(** One iteration of the first wave. *)
Definition first_wave_step (fuel : nat) (seed_count ordinal : N) (work : ExpansionWork)
    (search : Search) : option (TraversalResult Search) :=
  let remaining_seeds := (seed_count - ordinal)%N in
  let quantum :=
    Quantum_first_wave search.(sch_engine).(eng_materialization) budget remaining_seeds in
  run (outcome, s) := advance fuel (mkStep search.(sch_engine) work quantum) in
  let work := s.(st_work) in
  let search := with_engine search s.(st_engine) in
  Some match outcome with
    | AdvanceSealed successors =>
        let? search := publish successors work search in
        Ok (if is_empty successors then insert_zero_hop work search else search)
    | AdvanceDeferred =>
        Ok (mkSearch search.(sch_engine) search.(sch_queue) (search.(sch_deferred) ++ [work])
              search.(sch_stopped) search.(sch_zero_hop))
    | AdvanceGlobalStop reason => cut_off reason search work
    end.

Fixpoint first_wave (fuel : nat) (seed_count ordinal : N) (seeds : list ExpansionWork)
    (search : Search) : option (TraversalResult Search) :=
  match seeds with
  | [] => Some (Ok search)
  | work :: seeds =>
      run search := first_wave_step fuel seed_count ordinal work search in
      first_wave fuel seed_count (ordinal + 1) seeds search
  end.

(** One iteration of the [while] loop on the sorted queue [work :: queue]. *)
Definition global_step (fuel : nat) (work : ExpansionWork) (search : Search)
  : option (TraversalResult Search) :=
  run (outcome, s) := advance fuel (mkStep search.(sch_engine) work Quantum_global_step) in
  let work := s.(st_work) in
  let search := with_engine search s.(st_engine) in
  Some match outcome with
    | AdvanceSealed successors =>
        let? search := publish successors work search in
        if is_empty successors then
          if is_empty work.(wrk_path).(fps_hops) then Ok (insert_zero_hop work search)
          else
            let? path := StoppedPath_from_work work in
            Ok (mkSearch search.(sch_engine) search.(sch_queue) search.(sch_deferred)
                  (search.(sch_stopped) ++ [path]) search.(sch_zero_hop))
        else Ok search
    | AdvanceDeferred =>
        Ok (mkSearch search.(sch_engine) (search.(sch_queue) ++ [work]) search.(sch_deferred)
              search.(sch_stopped) search.(sch_zero_hop))
    | AdvanceGlobalStop reason => cut_off reason search work
    end.

Fixpoint global_loop (fuel : nat) (search : Search) : option (TraversalResult Search) :=
  match fuel with
  | O => None
  | S fuel' =>
      if search.(sch_engine).(eng_wall_time_exhausted)
         || search.(sch_engine).(eng_exhaustion).(exh_global_stop)
      then Some (Ok search)
      else
        match sort_by compare_work search.(sch_queue) with
        | [] => Some (Ok search)
        | work :: queue =>
            run search :=
              global_step fuel work
                (mkSearch search.(sch_engine) queue search.(sch_deferred) search.(sch_stopped)
                   search.(sch_zero_hop)) in
            global_loop fuel' search
        end
  end.

Definition cutoff_reason (e : TraversalEngine) : option BranchStopReason :=
  if e.(eng_wall_time_exhausted) then Some BranchStopReason.WallTimeExhausted
  else if e.(eng_exhaustion).(exh_global_stop) then Some BranchStopReason.GlobalBudgetExhausted
  else None.

(** *** The output *)

Definition seed_outcome (produced_by_seed : gmap SeedId N) (zero_hop : gmap SeedId BranchStopReason)
    (root_index : N) (item : N * RootStructuralEntrypoint) : SeedOutcome :=
  let '(entrypoint_index, entrypoint) := item in
  let seed_id : SeedId := (root_index, entrypoint_index) in
  let produced_path_count := default 0%N (produced_by_seed !! seed_id) in
  {| sdo_structural_entrypoint := entrypoint;
     sdo_produced_path_count := produced_path_count;
     sdo_zero_hop_stop_reason :=
       if (produced_path_count =? 0)%N
       then Some (default BranchStopReason.FrontierExhausted (zero_hop !! seed_id))
       else None |}.

Definition finished_root (produced_by_seed : gmap SeedId N) (zero_hop : gmap SeedId BranchStopReason)
    (item : N * SemanticGraphSelectedRoot) : SemanticRoot :=
  let '(root_index, root) := item in
  {| root_root_id := root.(sgr_root_id);
     root_discovery_channels := root.(sgr_discovery_channels);
     root_structural_entrypoints := root.(sgr_structural_entrypoints);
     root_source := root.(sgr_source);
     root_preview := root.(sgr_preview);
     root_lifecycle := root.(sgr_lifecycle);
     root_source_status := root.(sgr_source_status);
     root_canonical_provenance := root.(sgr_canonical_provenance);
     root_semantic_provenance := root.(sgr_semantic_provenance);
     root_semantic_score := root.(sgr_semantic_score);
     root_score_explanation := root.(sgr_score_explanation);
     root_seed_outcomes :=
       seed_outcome produced_by_seed zero_hop root_index
       <$> enumerate root.(sgr_structural_entrypoints) |}.

Definition finish (self : TraversalEngine) (selected_roots : list SemanticGraphSelectedRoot)
    (stopped : list StoppedPath) (zero_hop : gmap SeedId BranchStopReason)
  : TraversalResult SearchOutput :=
  let? candidates := collect_results into_semantic_path stopped in
  let? (retained, exhaustion) :=
    retain_ranked_paths candidates budget.(max_paths) self.(eng_exhaustion) in
  let m := self.(eng_materialization) in
  Ok {| out_roots := finished_root retained.(ret_produced_by_seed) zero_hop <$> enumerate selected_roots;
        out_paths := retained.(ret_paths);
        out_expanded_coordinates := m.(mat_expanded_coordinates);
        out_incident_edges_materialized := N.of_nat (size m.(mat_edges));
        out_relation_options_materialized := N.of_nat (size m.(mat_relations));
        out_target_options_materialized := N.of_nat (size m.(mat_targets));
        out_paths_generated := retained.(ret_paths_generated);
        out_paths_retained := retained.(ret_paths_retained);
        out_relation_embedding_missing :=
          len (List.filter (λ omission, is_embedding_omission_rank omission.2)
                 (elements self.(eng_relation_omissions)));
        out_target_embedding_missing :=
          len (List.filter (λ omission, is_embedding_omission_rank omission.2)
                 (elements self.(eng_target_omissions)));
        out_hyperedge_too_large := N.of_nat (size self.(eng_oversized_edges));
        out_truncation_counts := exhaustion.(exh_counts);
        out_truncation_samples := canonicalize_truncation_samples exhaustion.(exh_samples);
        out_exhausted_dimensions := sort_by dimension_cmp (elements exhaustion.(exh_dimensions));
        out_wall_time_exhausted := self.(eng_wall_time_exhausted) |}.

Definition seed_cmp (left right : ExpansionWork) : comparison :=
  slice_cmp left.(wrk_seed_order) right.(wrk_seed_order).

Definition search (fuel : nat) (self : TraversalEngine) (roots : list SemanticGraphSelectedRoot)
  : option (TraversalResult SearchOutput) :=
  run seeds := Some (build_seed_work roots budget.(beam_width)) in
  let seeds := sort_by seed_cmp seeds in
  run state := first_wave fuel (len seeds) 0 seeds (mkSearch self [] [] [] ∅) in
  run state :=
    global_loop fuel
      (mkSearch state.(sch_engine) (state.(sch_queue) ++ state.(sch_deferred)) []
         state.(sch_stopped) state.(sch_zero_hop)) in
  run state :=
    Some match cutoff_reason state.(sch_engine) with
      | Some reason => try_fold (cut_off reason) state state.(sch_queue)
      | None => Ok state
      end in
  Some (finish state.(sch_engine) roots state.(sch_stopped) state.(sch_zero_hop)).

End engine.
