(* ===== verification/SemanticEngineFacts.v ===== *)
(** * Semantic traversal: invariants of the engine

    What [TraversalEngine] keeps whatever the backend answers: the materialized
    keys stay within the budget, every work item and every stopped path carries a
    simple path of checked hops below one of the roots, and the successors fit
    the beam.  Then the clock: when it reaches the deadline, the loops end.  Last,
    the iteration that reads a slice of targets which are mostly known. *)

From Stdlib Require Import Permutation Sorted.
From stdpp Require Import prelude strings gmap fin_maps.
From S2P Require Import Prelude Text Platform ContextCoordinate ContextModel.
From S2P Require Import SemanticModel SemanticResult SemanticVerify SemanticFrontier.
From S2P Require Import SemanticScoreFacts Ordering SemanticRootFacts SemanticPathFacts SemanticRequestFacts.
From S2P Require Import SemanticTraversal SemanticEngine.

(** ** Postconditions of fallible calls *)

Definition returns {A E} (Φ : A → Prop) (r : result A E) : Prop :=
  match r with Ok a => Φ a | Err _ => True end.

Lemma returns_Ok {A E} (Φ : A → Prop) (r : result A E) a : returns Φ r → r = Ok a → Φ a.
Proof. by intros H ->. Qed.

Lemma returns_bind {A B E} (Ψ : A → Prop) (Φ : B → Prop) (r : result A E) (k : A → result B E) :
  returns Ψ r → (∀ a, r = Ok a → Ψ a → returns Φ (k a)) → returns Φ (rbind r k).
Proof. destruct r; simpl; eauto. Qed.

Lemma returns_then {A B E} (Φ : B → Prop) (r : result A E) (k : A → result B E) :
  (∀ a, r = Ok a → returns Φ (k a)) → returns Φ (rbind r k).
Proof. destruct r; simpl; eauto. Qed.

Lemma returns_reject {A E} (Φ : A → Prop) b (e : E) k :
  (b = false → returns Φ k) → returns Φ (reject_if b e ?; k).
Proof. destruct b; simpl; eauto. Qed.

Lemma returns_ok_or {A B E} (Φ : B → Prop) (o : option A) (e : E) (k : A → result B E) :
  (∀ a, o = Some a → returns Φ (k a)) → returns Φ (rbind (ok_or o e) k).
Proof. destruct o; simpl; eauto. Qed.

Lemma returns_mono {A E} (Φ Ψ : A → Prop) (r : result A E) :
  returns Φ r → (∀ a, Φ a → Ψ a) → returns Ψ r.
Proof. destruct r; simpl; eauto. Qed.

Lemma returns_fold {A B E} (f : B → A → result B E) (I : B → Prop) acc xs :
  I acc → (∀ acc x, x ∈ xs → I acc → returns I (f acc x)) → returns I (try_fold f acc xs).
Proof.
  revert acc. induction xs as [|x xs IH]; intros acc Hacc Hf; simpl; [done|].
  eapply returns_bind; [apply Hf; [left|done]|]. intros acc' _ Hacc'. apply IH; [done|].
  intros; apply Hf; [by right|done].
Qed.

(** One step through a call: tests of [reject_if], binds, conditionals and
    matches; a bind whose call has a postcondition in the context of hints is
    left to [returns_bind]. *)
Create HintDb engine discriminated.

Ltac step1 :=
  match goal with
  | |- returns _ (reject_if _ _ ?; _) => apply returns_reject; intros ?
  | |- returns _ (rbind (ok_or _ _) _) => apply returns_ok_or; intros ? ?
  | |- returns _ (rbind (match ?x with _ => _ end) _) => destruct x eqn:?
  | |- returns _ (rbind _ _) =>
      first [ eapply returns_bind; [solve [eauto 3 with engine]|]; intros ? ? ?
            | apply returns_then; intros ? ? ]
  | |- returns _ (let '(_, _) := ?x in _) => destruct x eqn:?
  | |- returns _ (match ?x with _ => _ end) => destruct x eqn:?
  | H : _ * _ |- _ => destruct H
  end.

Ltac steps := repeat (step1; cbn beta iota zeta in *).

Section facts.
Context `{P : Platform} `{HP : !Postcard} `{HD : DbErrors} `{HB : !TraversalBackend}.
Context (ticket : SemanticGraphQueryTicket) (channels : TraversalChannels)
  (lifecycle_filter : LifecycleFilter) (budget : SemanticGraphQueryBudget)
  (roots : list SemanticGraphSelectedRoot).

(** ** The invariant *)

(** The caps of the budget. *)
Record within (m : MaterializationState) : Prop := mkWithin {
  wi_expanded : (mat_expanded_coordinates m ≤ max_expanded_coordinates budget)%N;
  wi_edges : (N.of_nat (size (mat_edges m)) ≤ max_incident_edges_materialized budget)%N;
  wi_relations : (N.of_nat (size (mat_relations m)) ≤ max_relation_options_materialized budget)%N;
  wi_targets : (N.of_nat (size (mat_targets m)) ≤ max_target_options_materialized budget)%N;
}.

(** The relation Document of a hop that enters by [entered]. *)
Record document_ok (entered : option ProjectContextCoordinate) (document : SemanticRelationDocument)
  : Prop := mkDocumentOk {
  do_floor : (raw RELATION_FLOOR ≤ raw (rel_document_score document))%N;
  do_explained : ScoreExplanation_validate (rel_score_explanation document) = Ok tt;
  do_role : exp_score_role (rel_score_explanation document)
    = (if opt_is_some entered then SemanticScoreRole.RelationDocument else SemanticScoreRole.RelationRoot);
  do_final : is_Some entered →
    exp_final_score (rel_score_explanation document) = rel_document_score document;
}.

(** What the engine checked of a hop. *)
Record checked_hop (h : SemanticHyperedgeHop) : Prop := mkCheckedHop {
  ch_document : document_ok (hop_entered_from_coordinate h) (hop_selected_relation_document h);
  ch_bound : mkContextDocumentBindingObservation (rel_document_id (hop_selected_relation_document h))
      (rel_binding_provenance (hop_selected_relation_document h))
    ∈ edge_current_context_document_bindings (hop_edge h);
  ch_target_floor : (raw TARGET_FLOOR ≤ raw (con_target_score (hop_continued_to_coordinate h)))%N;
  ch_transition_floor : (raw TRANSITION_FLOOR ≤ raw (hop_transition_score h))%N;
  ch_transition : hop_transition_score h
    = harmonic_score (rel_document_score (hop_selected_relation_document h))
        (con_target_score (hop_continued_to_coordinate h));
  ch_explained : ScoreExplanation_validate (con_score_explanation (hop_continued_to_coordinate h)) = Ok tt;
  ch_role : exp_score_role (con_score_explanation (hop_continued_to_coordinate h))
    = SemanticScoreRole.TargetCoordinate;
  ch_final : exp_final_score (con_score_explanation (hop_continued_to_coordinate h))
    = con_target_score (hop_continued_to_coordinate h);
}.

(** The root and the entrypoint of a seed. *)
Definition seeded (seed : SeedId) (st : FrontierPathState) : Prop :=
  ∃ root, roots !! N.to_nat seed.1 = Some root ∧
    sgr_structural_entrypoints root !! N.to_nat seed.2 = Some (fps_structural_entrypoint st) ∧
    fps_root_id st = sgr_root_id root ∧ fps_root_score st = sgr_semantic_score root.

Definition path_ok (seed : SeedId) (st : FrontierPathState) : Prop :=
  frontier_ok checked_hop st ∧ seeded seed st.

Definition binding_of (document : SemanticRelationDocument) : ContextDocumentBindingObservation :=
  mkContextDocumentBindingObservation (rel_document_id document) (rel_binding_provenance document).

Record target_ok (st : FrontierPathState) (t : TargetWork) : Prop := mkTargetOk {
  to_entered : twk_entered_from t = fps_current_coordinate st;
  to_binding : hex_required_binding (twk_expectation t) = Some (binding_of (twk_document t));
  to_edge : ∀ edge, twk_edge t = Some edge →
    binding_of (twk_document t) ∈ edge_current_context_document_bindings edge;
  to_document : document_ok (twk_entered_from t) (twk_document t);
}.

Record accumulator_ok (seed : SeedId) (st : FrontierPathState) (acc : BoundedSuccessorAccumulator)
  : Prop := mkAccumulatorOk {
  ao_width : acc_beam_width acc = beam_width budget;
  ao_fits : (len (acc_successors acc) ≤ beam_width budget)%N;
  ao_paths : Forall (λ x, path_ok seed x ∧ len (fps_hops x) = (len (fps_hops st) + 1)%N)
    (acc_successors acc);
}.

Record work_ok (w : ExpansionWork) : Prop := mkWorkOk {
  wo_path : path_ok (wrk_seed_id w) (wrk_path w);
  wo_room : (len (fps_hops (wrk_path w)) < max_hops_per_path budget)%N;
  wo_targets : Forall (target_ok (wrk_path w)) (wrk_pending_targets w);
  wo_accumulator : ∀ acc, wrk_accumulator w = Some acc → accumulator_ok (wrk_seed_id w) (wrk_path w) acc;
}.

Definition engine_ok (e : TraversalEngine) : Prop := within (eng_materialization e).
Definition step_ok (s : Step) : Prop := engine_ok (st_engine s) ∧ work_ok (st_work s).

(** ** Materialization *)

Lemma size_insert `{Countable A} (k : A) (X : gset A) (cap : N) :
  (N.of_nat (size X) < cap → N.of_nat (size ({[ k ]} ∪ X)) ≤ cap)%N.
Proof.
  intros Hc. pose proof (size_union_alt ({[ k ]} : gset A) X) as Hs. rewrite size_singleton in Hs.
  pose proof (subseteq_size (X ∖ {[ k ]}) X ltac:(set_solver)). lia.
Qed.

Lemma admit_coordinate_expansion_le expanded cap quantum expanded' quantum' admission :
  admit_coordinate_expansion expanded cap quantum = (expanded', quantum', admission) →
  (expanded ≤ cap → expanded' ≤ cap)%N.
Proof.
  unfold admit_coordinate_expansion. destruct (N.leb_spec cap expanded); [by intros [= <- <- <-]|].
  destruct (quantum =? 0)%N; intros [= <- <- <-]; lia.
Qed.

Lemma admit_new_key_le `{Countable T} (set : gset T) key cap quantum set' quantum' admission :
  admit_new_key set key cap quantum = (set', quantum', admission) →
  (N.of_nat (size set) ≤ cap → N.of_nat (size set') ≤ cap)%N.
Proof.
  unfold admit_new_key. case_bool_decide; [by intros [= <- <- <-]|].
  destruct (N.leb_spec cap (N.of_nat (size set))); [by intros [= <- <- <-]|].
  destruct (quantum =? 0)%N; intros [= <- <- <-]; [done|]. intros _. by apply size_insert.
Qed.

(** ** Calls *)

(** Nothing that the invariant speaks of changes. *)
Definition frame (e e' : TraversalEngine) : Prop := eng_materialization e' = eng_materialization e.

Lemma read_clock_eq (e : TraversalEngine) :
  read_clock e = ((past_deadline (eng_backend e)).1, set_backend e (past_deadline (eng_backend e)).2).
Proof. unfold read_clock. by destruct (past_deadline _). Qed.

Lemma run_db_before_frame {T} (op : Backend → result (option T) DbError * Backend) e :
  returns (λ '(_, e'), frame e e') (run_db_before op e).
Proof. unfold run_db_before. rewrite read_clock_eq. steps; done. Qed.

Lemma hydrate_source_frame e score : returns (λ '(_, e'), frame e e') (hydrate_source ticket e score).
Proof.
  unfold hydrate_source. steps; try done.
  all: match goal with H : run_db_before _ _ = Ok _ |- _ =>
         apply (returns_Ok _ _ _ (run_db_before_frame _ _) H) end.
Qed.

Lemma exhausted_globally_frame s dimension count :
  returns (λ '(_, s'), frame (st_engine s) (st_engine s') ∧ st_work s' = st_work s)
    (exhausted_globally s dimension count).
Proof. unfold exhausted_globally, record_global_exhaustion. steps; ok_inv; subst; done. Qed.

#[local] Hint Resolve run_db_before_frame hydrate_source_frame exhausted_globally_frame : engine.

Lemma work_ok_stop w f : work_ok w → work_ok (set_stop w f).
Proof. by intros []. Qed.
Lemma work_ok_incident w started exhausted after : work_ok w → work_ok (set_incident w started exhausted after).
Proof. by intros []. Qed.
Lemma work_ok_pending w relations targets :
  work_ok w → Forall (target_ok (wrk_path w)) targets → work_ok (set_pending w relations targets).
Proof. by intros [] ?. Qed.
Lemma work_ok_accumulator w acc seen :
  work_ok w → (∀ a, acc = Some a → accumulator_ok (wrk_seed_id w) (wrk_path w) a) →
  work_ok (set_accumulator w acc seen).
Proof. by intros [] ?. Qed.
#[local] Hint Resolve work_ok_stop work_ok_incident work_ok_pending wo_targets : engine.

Lemma set_relations_within m k :
  within m → (N.of_nat (size (mat_relations m)) < max_relation_options_materialized budget)%N →
  within (mkMaterializationState (mat_expanded_coordinates m) (mat_edges m)
            ({[ k ]} ∪ mat_relations m) (mat_targets m)).
Proof. intros [] ?. split; try done. by apply size_insert. Qed.
Lemma set_targets_within m k :
  within m → (N.of_nat (size (mat_targets m)) < max_target_options_materialized budget)%N →
  within (mkMaterializationState (mat_expanded_coordinates m) (mat_edges m) (mat_relations m)
            ({[ k ]} ∪ mat_targets m)).
Proof. intros [] ?. split; try done. by apply size_insert. Qed.
Lemma set_edges_within m k :
  within m → (N.of_nat (size (mat_edges m)) < max_incident_edges_materialized budget)%N →
  within (mkMaterializationState (mat_expanded_coordinates m) ({[ k ]} ∪ mat_edges m) (mat_relations m)
            (mat_targets m)).
Proof. intros [] ?. split; try done. by apply size_insert. Qed.
Lemma set_expanded_within m n :
  within m → (n ≤ max_expanded_coordinates budget)%N →
  within (mkMaterializationState n (mat_edges m) (mat_relations m) (mat_targets m)).
Proof. by intros [] ?. Qed.
#[local] Hint Resolve set_expanded_within set_relations_within set_targets_within set_edges_within : engine.

Lemma step_ok_frame s s' :
  step_ok s → frame (st_engine s) (st_engine s') ∧ st_work s' = st_work s → step_ok s'.
Proof. unfold step_ok, engine_ok, frame. by intros [? ?] [-> ->]. Qed.
#[local] Hint Resolve step_ok_frame : engine.

Lemma exhausted_globally_ok s dimension count :
  step_ok s → returns (λ '(_, s'), step_ok s') (exhausted_globally s dimension count).
Proof.
  intros Hs. eapply returns_mono; [apply exhausted_globally_frame|]. intros [_ s']. by apply step_ok_frame.
Qed.

Ltac finish :=
  try apply exhausted_globally_ok;
  unfold step_ok, engine_ok, frame in *; simpl in *;
  repeat match goal with
  | H : _ ∧ _ |- _ => destruct H
  | H : eng_materialization _ = _ |- _ => rewrite H in *; clear H
  | H : st_work _ = _ |- _ => rewrite H in *; clear H
  | H : (_ <=? _)%N = false |- _ => apply N.leb_gt in H
  end;
  repeat (apply conj); eauto 6 with engine.

(** ** Relations *)

Lemma admit_relation_ok coordinate option last_cursor s :
  step_ok s → returns (λ '(_, _, s'), step_ok s') (admit_relation budget coordinate option last_cursor s).
Proof. intros Hs. unfold admit_relation. steps; finish. Qed.

Lemma admit_relations_ok coordinate options last_cursor s :
  step_ok s → returns (λ '(_, _, s'), step_ok s') (admit_relations budget coordinate options last_cursor s).
Proof.
  revert last_cursor s. induction options as [|option options IH]; intros last_cursor s Hs; simpl; [done|].
  eapply returns_bind; [by apply admit_relation_ok|]. intros [[stop cursor] s'] _ Hs'. destruct stop; [done|]. by apply IH.
Qed.

Lemma start_incident_ok s : step_ok s → returns (λ '(_, s'), step_ok s') (start_incident budget s).
Proof.
  intros [He Hw]. unfold start_incident. steps; try done.
  all: match goal with H : admit_coordinate_expansion _ _ _ = _ |- _ => apply admit_coordinate_expansion_le in H;
         [|by apply wi_expanded] end.
  all: finish.
Qed.
#[local] Hint Resolve admit_relations_ok start_incident_ok : engine.

Lemma take_relations_ok coordinate batch s :
  step_ok s → returns (λ '(_, s'), step_ok s') (take_relations ticket budget coordinate batch s).
Proof.
  intros [He Hw]. unfold take_relations. apply returns_then. intros _ _.
  eapply returns_bind; [apply admit_relations_ok; finish|]. intros [[stop cursor] s'] _ Hs'. steps; finish.
Qed.

Lemma advance_incident_ok s : step_ok s → returns (λ '(_, s'), step_ok s') (advance_incident ticket channels budget s).
Proof.
  intros Hs. unfold advance_incident. steps; try done.
  all: try apply take_relations_ok; finish.
Qed.

Lemma validate_relation_coherence_entered work document coherence community_id :
  validate_relation_coherence work document coherence community_id = Ok tt →
  is_Some (fps_current_coordinate (wrk_path work)).
Proof. unfold validate_relation_coherence. intros H. ok_inv. eauto. Qed.

Lemma advance_relation_ok s relation :
  step_ok s →
  returns (λ '(advance, s'), step_ok s' ∧
             ∀ target, advance = RelationReady target → target_ok (wrk_path (st_work s')) target)
    (advance_relation ticket channels s relation).
Proof.
  intros Hs. unfold advance_relation. steps; try (finish; done).
  split; [finish|]. intros target [= <-]. simpl.
  match goal with H : validate_relation_coherence _ _ _ _ = Ok ?u |- _ =>
    destruct u; apply validate_relation_coherence_entered in H as [entered Hent] end.
  match goal with H : negb _ || _ = false |- _ =>
    apply orb_false_iff in H as [Hsc%bool_decide_negb_false Hfl%N.ltb_ge] end.
  unfold from_query in *. ok_inv. split; simpl; try done. rewrite Hent. split; simpl; try done. by rewrite <- Hsc.
Qed.

(** ** Targets *)

Lemma target_ok_set st t admitted edge after exhausted :
  target_ok st t →
  (∀ e, edge = Some e → binding_of (twk_document t) ∈ edge_current_context_document_bindings e) →
  target_ok st (set_target t admitted edge after exhausted).
Proof. by intros [] ?. Qed.

Lemma validate_cached_edge_bound edge t u st :
  target_ok st t → validate_cached_edge edge (twk_expectation t) = Ok u →
  binding_of (twk_document t) ∈ edge_current_context_document_bindings edge.
Proof.
  intros [_ Hb _ _] H. unfold validate_cached_edge in H. rewrite Hb in H. ok_inv. simpl in *.
  match goal with H : _ || _ = false |- _ => apply orb_false_iff in H as [_ H%bool_decide_negb_false] end. done.
Qed.

(** What [advance_targets] and its parts keep. *)
Definition targets_ok (s : Step) (t : TargetWork) : Prop := step_ok s ∧ target_ok (wrk_path (st_work s)) t.

Lemma exhausted_targets_ok s t dimension count {A} (k : UnitAdvance → A) :
  targets_ok s t →
  returns (λ '(_, t', s'), targets_ok s' t')
    (let? (stop, s) := exhausted_globally s dimension count in Ok (k stop, t, s)).
Proof.
  intros [Hs Ht]. eapply returns_bind; [apply exhausted_globally_frame|]. intros [stop s'] _ Hf. simpl.
  split; [by eapply step_ok_frame|]. destruct Hf as [_ ->]. done.
Qed.

Lemma admit_target_relation_ok s t :
  targets_ok s t → returns (λ '(_, t', s'), targets_ok s' t') (admit_target_relation budget s t).
Proof.
  intros [[He Hw] Ht]. unfold admit_target_relation. destruct (twk_relation_admitted t); [done|].
  destruct (admit_new_key _ _ _ _) as [[relations remaining] admission] eqn:Ha.
  apply admit_new_key_le in Ha; [|by apply wi_relations].
  assert (within (mkMaterializationState (mat_expanded_coordinates (eng_materialization (st_engine s)))
            (mat_edges (eng_materialization (st_engine s))) relations
            (mat_targets (eng_materialization (st_engine s))))) as Hin by (destruct He; by split).
  destruct admission; try (apply exhausted_targets_ok); split; try (by split); simpl; try done.
  all: apply target_ok_set; [done|apply Ht].
Qed.

Lemma load_target_edge_ok s t :
  targets_ok s t → returns (λ '(_, t', s'), targets_ok s' t') (load_target_edge budget s t).
Proof.
  intros Hst. pose proof Hst as [[He Hw] Ht]. unfold load_target_edge. destruct (twk_edge t) eqn:Hedge; [done|].
  destruct (eng_edge_cache _ !! _) as [cached|].
  { apply returns_then. intros u Hu. split; [done|]. apply target_ok_set; [done|]. intros e [= <-].
    by eapply validate_cached_edge_bound. }
  destruct (N.leb_spec (max_incident_edges_materialized budget) (N.of_nat (size (mat_edges (eng_materialization (st_engine s)))))).
  { by apply (exhausted_targets_ok s t). }
  destruct (_ =? 0)%N; [done|].
  eapply returns_bind; [apply run_db_before_frame|]. intros [outcome e] _ Hf.
  destruct outcome as [[edge| |]|]; simpl; try done; try (split; [finish|done]).
  - apply returns_then. intros u Hu. split; [finish|]. apply target_ok_set; [done|]. intros ? [= <-].
    by eapply validate_cached_edge_bound.
  - split; [finish|]. apply target_ok_set; [done|]. simpl. congruence.
Qed.

Lemma admit_target_ok edge t option scan :
  targets_ok (tsc_step scan) t →
  returns (λ '(stop, scan'), targets_ok (tsc_step scan') t ∧
             ∀ unit t', stop = Some (unit, t') → target_ok (wrk_path (st_work (tsc_step scan'))) t')
    (admit_target budget edge t option scan).
Proof.
  intros Hst. pose proof Hst as [[He Hw] Ht]. unfold admit_target, classify_ranked_target.
  destruct (bool_decide (_ ∈ mat_targets _)).
  { destruct (_ && _); (split; [split; [finish|done]|done]). }
  destruct (N.leb_spec (max_target_options_materialized budget)
    (N.of_nat (size (mat_targets (eng_materialization (st_engine (tsc_step scan))))))) as [Hle|Hlt].
  - eapply returns_bind; [apply exhausted_globally_frame|]. intros [stop s'] _ Hf. simpl.
    assert (targets_ok s' t) as Hs'.
    { split; [eapply step_ok_frame; [by split|done]|]. by destruct Hf as [_ ->]. }
    split; [done|]. intros ? ? [= <- <-]. apply Hs'.
  - destruct (_ =? 0)%N.
    + split; [done|]. intros ? ? [= <- <-]. apply target_ok_set; [done|apply Ht].
    + destruct (_ && _); (split; [split; [finish|done]|done]).
Qed.

Lemma admit_targets_ok edge t options scan :
  targets_ok (tsc_step scan) t →
  returns (λ '(stop, scan'), targets_ok (tsc_step scan') t ∧
             ∀ unit t', stop = Some (unit, t') → target_ok (wrk_path (st_work (tsc_step scan'))) t')
    (admit_targets budget edge t options scan).
Proof.
  revert scan. induction options as [|option options IH]; intros scan Hs; simpl; [by split|].
  eapply returns_bind; [by apply admit_target_ok|]. intros [[stop|] scan'] _ [Hs' Hstop]; [by split|]. by apply IH.
Qed.

Lemma build_successor_ok e w t edge option :
  path_ok (wrk_seed_id w) (wrk_path w) → target_ok (wrk_path w) t →
  binding_of (twk_document t) ∈ edge_current_context_document_bindings edge →
  returns (λ '(successor, e'), frame e e' ∧ ∀ x, successor = Some x →
             path_ok (wrk_seed_id w) x ∧ len (fps_hops x) = (len (fps_hops (wrk_path w)) + 1)%N)
    (build_successor ticket channels e w t edge option).
Proof.
  intros [Hf Hseed] [Tent Tb Te Td] Hbound. unfold build_successor. do 4 step1.
  all: repeat step1; cbn zeta; try (split; [done|]; done).
  match goal with H : _ || _ = false |- _ =>
    rewrite !orb_false_iff, !bool_decide_negb_false, !N.ltb_ge in H; destruct H as [[[Hts Htr] Htf] Htrf] end.
  unfold from_query in *.
  match goal with H : map_err _ (append_hop _ _) = Ok _ |- _ => apply map_err_Ok in H; rename H into Happ end.
  match goal with H : map_err _ (ScoreExplanation_validate _) = Ok ?u |- _ =>
    destruct u; apply map_err_Ok in H; rename H into Hexp end.
  split; [done|]. intros x [= <-].
  eapply append_hop_ok in Happ as (Hok & Hid & Hentry & Hscore & Hlen); [|done|].
  - split; [|done]. split; [done|]. destruct Hseed as (root & ? & ? & ? & ?). exists root.
    rewrite Hid, Hentry, Hscore. done.
  - split; simpl; try done. by rewrite <- Htr, Hts.
Qed.

Lemma admit_accumulator_ok seed st acc x :
  accumulator_ok seed st acc → path_ok seed x → len (fps_hops x) = (len (fps_hops st) + 1)%N →
  accumulator_ok seed st (BoundedSuccessorAccumulator_admit acc x).1.
Proof.
  intros [Hw Hl Hp] Hx Hlen. rewrite (admit_step acc x (N.to_nat (beam_width budget))).
  - split; simpl; [done| |].
    + unfold len. rewrite length_take. lia.
    + apply Forall_take. rewrite (sort_by_perm compare_path_states), Forall_app, Forall_singleton. done.
  - rewrite Hw. lia.
  - unfold len in Hl. lia.
Qed.

Lemma build_successors_ok edge t admitted s :
  targets_ok s t → binding_of (twk_document t) ∈ edge_current_context_document_bindings edge →
  returns (λ '(_, s'), targets_ok s' t) (build_successors ticket channels edge t admitted s).
Proof.
  intros Hst Hb. revert s Hst. induction admitted as [|option admitted IH]; intros s [[He Hw] Ht]; simpl; [done|].
  eapply returns_bind; [apply build_successor_ok; [by destruct Hw|done..]|].
  intros [[x|] e] _ [Hf Hx]; simpl; [|split; [finish|done]].
  apply returns_ok_or. intros acc Hacc. destruct (Hx x eq_refl) as [Hpx Hlx].
  pose proof (admit_accumulator_ok _ _ _ x (wo_accumulator _ Hw _ Hacc) Hpx Hlx) as Hacc'.
  destruct (BoundedSuccessorAccumulator_admit acc x) as [acc' kept]. apply IH. split; [|done].
  split; [unfold engine_ok; simpl; by rewrite Hf|]. simpl. apply work_ok_accumulator; [done|].
  by intros a [= <-].
Qed.

Lemma take_targets_ok edge t batch s :
  targets_ok s t → twk_edge t = Some edge →
  returns (λ '(_, t', s'), targets_ok s' t') (take_targets ticket channels budget edge t batch s).
Proof.
  intros [[He Hw] Ht] Hedge. unfold take_targets. apply returns_then. intros _ _. apply returns_reject. intros _.
  eapply returns_bind; [apply admit_targets_ok; split; [finish|done]|].
  intros [[[stop t']|] scan] _ [Hs Hstop]; simpl; [split; [apply Hs|by eapply Hstop]|].
  set (t1 := set_target _ _ _ _ _).
  assert (targets_ok (tsc_step scan) t1) as Ht1.
  { destruct Hs. split; [done|]. apply target_ok_set; [done|apply Ht]. }
  eapply returns_bind; [apply build_successors_ok; [exact Ht1|by apply (to_edge _ _ Ht)]|].
  intros [[stop|] s'] _ Hs'; [done|]. destruct (etb_exhaustion batch); simpl.
  - destruct Hs' as [? Ht']. split; [done|]. apply target_ok_set; [done|apply Ht'].
  - destruct (_ <=? _)%N; [by apply (exhausted_targets_ok s' t1 _ _ id)|]. by destruct (_ =? 0)%N.
Qed.

Lemma rank_target_slice_ok s t :
  targets_ok s t →
  returns (λ '(_, t', s'), targets_ok s' t') (rank_target_slice ticket channels lifecycle_filter budget s t).
Proof.
  intros [[He Hw] Ht]. unfold rank_target_slice. destruct (_ && _); [done|].
  apply returns_ok_or. intros limit _. apply returns_ok_or. intros edge Hedge.
  eapply returns_bind; [apply run_db_before_frame|]. intros [outcome e] _ Hf. cbn zeta.
  assert (targets_ok (mkStep e (st_work s) (st_quantum s)) t) as Hs by (split; [finish|done]).
  destruct outcome as [[batch| |n|n]|]; simpl; try done.
  - by apply take_targets_ok.
  - destruct Hs as [[? ?] Ht']. split; [finish|]. simpl. apply target_ok_set; [done|apply Ht'].
  - by apply (exhausted_targets_ok _ t _ _ id).
Qed.

Lemma advance_targets_ok s t :
  targets_ok s t →
  returns (λ '(_, t', s'), targets_ok s' t') (advance_targets ticket channels lifecycle_filter budget s t).
Proof.
  intros Hst. unfold advance_targets.
  eapply returns_bind; [by apply admit_target_relation_ok|]. intros [[[stop|] t1] s1] _ H1; [done|].
  eapply returns_bind; [by apply load_target_edge_ok|]. intros [[[stop|] t2] s2] _ H2; [done|].
  destruct (twk_exhausted t2); [done|]. by apply rank_target_slice_ok.
Qed.

(** ** The loop of one work item *)

Definition outcome_ok (outcome : AdvanceOutcome) (s : Step) : Prop :=
  step_ok s ∧ ∀ successors, outcome = AdvanceSealed successors →
    Forall (λ x, path_ok (wrk_seed_id (st_work s)) x ∧ (len (fps_hops x) ≤ max_hops_per_path budget)%N) successors.

Lemma seal_ok s : step_ok s → returns (λ '(outcome, s'), outcome_ok outcome s') (seal s).
Proof.
  intros [He Hw]. unfold seal. apply returns_ok_or. intros acc Hacc. apply returns_then. intros exhaustion _.
  split; [split; [done|by apply work_ok_accumulator]|]. intros successors [= <-]. simpl.
  destruct (wo_accumulator _ Hw _ Hacc) as [_ _ Hp]. eapply Forall_impl; [exact Hp|]. simpl.
  intros x [? ->]. split; [done|]. pose proof (wo_room _ Hw). lia.
Qed.

(** What one iteration answers. *)
Definition once_ok (next : Step + AdvanceOutcome * Step) : Prop :=
  match next with inl s => step_ok s | inr (outcome, s) => outcome_ok outcome s end.

Lemma deferred_ok s : step_ok s → outcome_ok AdvanceDeferred s.
Proof. by split. Qed.
Lemma global_stop_ok s reason : step_ok s → outcome_ok (AdvanceGlobalStop reason) s.
Proof. by split. Qed.
#[local] Hint Resolve deferred_ok global_stop_ok : engine.

Lemma advance_once_ok s :
  step_ok s → returns once_ok (advance_once ticket channels lifecycle_filter budget s).
Proof.
  intros [He Hw]. unfold advance_once. rewrite read_clock_eq.
  destruct (past_deadline _).1; [apply global_stop_ok; finish|]. simpl.
  destruct (exh_global_stop _); [apply global_stop_ok; finish|].
  pose proof (wo_targets _ Hw) as Hts. destruct (wrk_pending_targets (st_work s)) as [|t pending] eqn:Hp.
  - destruct (wrk_pending_relations (st_work s)) as [|relation relations].
    + destruct (negb _); simpl.
      * eapply returns_bind; [apply advance_incident_ok; finish|]. intros [[| |reason] s'] _ Hs'; simpl; auto with engine.
      * eapply returns_bind; [apply seal_ok; finish|]. by intros [outcome s'] _ Hs'.
    + eapply returns_bind; [apply advance_relation_ok; finish|].
      intros [[t| |reason] s'] _ [Hs' Ht]; simpl; auto with engine. destruct Hs' as [? Hw']. split; [done|].
      apply work_ok_pending; [done|]. apply Forall_app. split; [by apply wo_targets|]. by constructor; [apply Ht|].
  - apply Forall_cons_1 in Hts as [Ht Hts].
    eapply returns_bind; [apply advance_targets_ok; split; [finish|done]|].
    intros [[unit t'] s'] _ [[He' Hw'] Ht'].
    assert (step_ok (mkStep (st_engine s') (set_pending (st_work s') (wrk_pending_relations (st_work s'))
              (t' :: wrk_pending_targets (st_work s'))) (st_quantum s'))).
    { split; [done|]. apply work_ok_pending; [done|]. constructor; [done|by apply wo_targets]. }
    destruct unit; simpl; auto with engine. by split.
Qed.

Lemma advance_ok fuel s outcome s' :
  step_ok s → advance ticket channels lifecycle_filter budget fuel s = Some (Ok (outcome, s')) → outcome_ok outcome s'.
Proof.
  revert s. induction fuel as [|fuel IH]; intros s Hs; simpl; [done|].
  pose proof (advance_once_ok s Hs) as Ho. destruct (advance_once _ _ _ _ s) as [[s1|[o s1]]|]; simpl in *; [|by intros [= <- <-]|done].
  by apply IH.
Qed.

(** ** The search *)

Definition stopped_ok (p : StoppedPath) : Prop :=
  path_ok (stp_seed_id p) (stp_state p) ∧ fps_hops (stp_state p) ≠ [] ∧
  (len (fps_hops (stp_state p)) ≤ max_hops_per_path budget)%N.

Record search_ok (search : Search) : Prop := mkSearchOk {
  so_engine : engine_ok (sch_engine search);
  so_queue : Forall work_ok (sch_queue search);
  so_deferred : Forall work_ok (sch_deferred search);
  so_stopped : Forall stopped_ok (sch_stopped search);
}.

Lemma from_state_ok seed st reason p :
  StoppedPath_from_state seed st reason = Ok p → path_ok seed st →
  (len (fps_hops st) ≤ max_hops_per_path budget)%N → stopped_ok p.
Proof. unfold StoppedPath_from_state. intros H ? ?. ok_inv. subst p. split; [done|]. split; [simpl; by destruct (fps_hops st)|done]. Qed.

Lemma coordinate_work_ok seed order st w :
  ExpansionWork_coordinate seed order st (beam_width budget) = Ok w → path_ok seed st →
  (len (fps_hops st) < max_hops_per_path budget)%N → work_ok w.
Proof.
  unfold ExpansionWork_coordinate, from_query, BoundedSuccessorAccumulator_new. intros H ? ?. ok_inv. subst.
  split; simpl; [done..|constructor|]. intros acc [= <-]. split; simpl; [done|apply N.le_0_l|constructor].
Qed.

Lemma publish_ok successors w search :
  search_ok search →
  Forall (λ x, path_ok (wrk_seed_id w) x ∧ (len (fps_hops x) ≤ max_hops_per_path budget)%N) successors →
  returns search_ok (publish budget successors w search).
Proof.
  intros [He Hq Hd Hst] Hx. unfold publish, publish_successors.
  eapply returns_bind; [eapply (returns_fold _ (λ '(queue, stopped, _), Forall work_ok queue ∧ Forall stopped_ok stopped)); [done|]|].
  - intros [[queue stopped] exhaustion] x Hin [Hq' Hs']. rewrite Forall_forall in Hx. destruct (Hx x Hin) as [Hp Hl].
    unfold publish_successor. destruct (N.leb_spec (max_hops_per_path budget) (len (fps_hops x))).
    + apply returns_then. intros ? _. apply returns_then. intros p Hp'. split; [done|]. apply Forall_app. split; [done|].
      constructor; [by eapply from_state_ok|constructor].
    + apply returns_then. intros w' Hw'. split; [|done]. apply Forall_app. split; [done|].
      constructor; [by eapply coordinate_work_ok|constructor].
  - intros [[queue stopped] exhaustion] _ [? ?]. by split.
Qed.

Lemma cut_off_ok reason search w : search_ok search → work_ok w → returns search_ok (cut_off budget reason search w).
Proof.
  intros [He Hq Hd Hst] Hw. unfold cut_off.
  eapply (returns_bind (λ '(_, stopped, _), Forall stopped_ok stopped)); [|intros [[x st] z] _ Hs; by split].
  unfold finish_cutoff_work. apply returns_ok_or. intros acc Hacc. apply returns_then. intros exhaustion _.
  pose proof (wo_room _ Hw) as Hroom. destruct (is_empty (into_successors acc)).
  - destruct (is_empty (fps_hops _)); [done|]. apply returns_then. intros p Hp. apply Forall_app. split; [done|].
    constructor; [|constructor]. eapply from_state_ok; [done|apply Hw|lia].
  - eapply returns_bind; [eapply (returns_fold _ (λ '(stopped, _), Forall stopped_ok stopped)); [done|]|by intros []].
    intros [stopped exh] x Hin Hs. unfold stop_successor. apply returns_then. intros ? _. apply returns_then. intros p Hp.
    apply Forall_app. split; [done|]. constructor; [|constructor].
    destruct (wo_accumulator _ Hw _ Hacc) as [_ _ Ha]. rewrite Forall_forall in Ha. destruct (Ha x Hin) as [? Hl].
    eapply from_state_ok; [done..|lia].
Qed.

Lemma insert_zero_hop_ok w search : search_ok search → search_ok (insert_zero_hop w search).
Proof. by intros []. Qed.

Lemma first_wave_step_ok fuel n i w search search' :
  search_ok search → work_ok w →
  first_wave_step ticket channels lifecycle_filter budget fuel n i w search = Some (Ok search') → search_ok search'.
Proof.
  intros Hs Hw. unfold first_wave_step. destruct (advance _ _ _ _ _ _) as [[[outcome s]|]|] eqn:Ha; simpl; try done.
  apply advance_ok in Ha as [[He Hw'] Hsucc]; [|split; [by destruct Hs|done]]. intros [= H]. revert H.
  assert (search_ok (with_engine search (st_engine s))) as Hs' by (destruct Hs; by split).
  apply returns_Ok. destruct outcome as [successors| |reason].
  - eapply returns_bind; [by apply publish_ok, Hsucc|]. intros x _ Hx. simpl. destruct (is_empty successors); [by apply insert_zero_hop_ok|done].
  - destruct Hs'. split; simpl; try done. by apply Forall_app; split; [|constructor].
  - by apply cut_off_ok.
Qed.

Lemma global_step_ok fuel w search search' :
  search_ok search → work_ok w →
  global_step ticket channels lifecycle_filter budget fuel w search = Some (Ok search') → search_ok search'.
Proof.
  intros Hs Hw. unfold global_step. destruct (advance _ _ _ _ _ _) as [[[outcome s]|]|] eqn:Ha; simpl; try done.
  apply advance_ok in Ha as [[He Hw'] Hsucc]; [|split; [by destruct Hs|done]]. intros [= H]. revert H.
  assert (search_ok (with_engine search (st_engine s))) as Hs' by (destruct Hs; by split).
  apply returns_Ok. destruct outcome as [successors| |reason].
  - eapply returns_bind; [by apply publish_ok, Hsucc|]. intros x _ Hx. destruct (is_empty successors); [|done].
    destruct (is_empty (fps_hops _)); [by apply insert_zero_hop_ok|]. apply returns_then. intros p Hp.
    destruct Hx. split; simpl; try done. apply Forall_app. split; [done|]. constructor; [|constructor].
    unfold StoppedPath_from_work in Hp. ok_inv. subst p. pose proof (wo_room _ Hw').
    split; [apply Hw'|]. split; [simpl; by destruct (fps_hops _)|simpl; lia].
  - destruct Hs'. split; simpl; try done. by apply Forall_app; split; [|constructor].
  - by apply cut_off_ok.
Qed.

Lemma first_wave_ok fuel n i seeds search search' :
  search_ok search → Forall work_ok seeds →
  first_wave ticket channels lifecycle_filter budget fuel n i seeds search = Some (Ok search') → search_ok search'.
Proof.
  intros Hs Hw. revert i search Hs. induction Hw as [|w seeds Hw _ IH]; intros i search Hs; simpl; [by intros [= <-]|].
  destruct (first_wave_step _ _ _ _ _ _ _ _ _) as [[s1|]|] eqn:H1; simpl; try done.
  apply first_wave_step_ok in H1; [|done..]. by apply IH.
Qed.

Lemma global_loop_ok fuel search search' :
  search_ok search →
  global_loop ticket channels lifecycle_filter budget fuel search = Some (Ok search') → search_ok search'.
Proof.
  revert search. induction fuel as [|fuel IH]; intros search Hs; simpl; [done|].
  destruct (_ || _); [by intros [= <-]|]. destruct (sort_by compare_work (sch_queue search)) as [|w queue] eqn:Hq; [by intros [= <-]|].
  destruct Hs as [He Hqs Hd Hst]. rewrite <- (sort_by_perm compare_work), Hq in Hqs. apply Forall_cons_1 in Hqs as [Hw Hqs].
  destruct (global_step _ _ _ _ _ _ _) as [[s1|]|] eqn:H1; simpl; try done.
  apply global_step_ok in H1; [by apply IH|by split|done].
Qed.

(** ** Seeds *)

Lemma seed_path_ok i j root entrypoint :
  roots !! i = Some root → sgr_structural_entrypoints root !! j = Some entrypoint →
  path_ok (N.of_nat i, N.of_nat j)
    (FrontierPathState_seed (sgr_root_id root) entrypoint (sgr_semantic_score root)).
Proof.
  intros Hi Hj. split; [apply seed_ok|]. exists root. simpl. rewrite !Nat2N.id. done.
Qed.

Lemma build_seed_ok i j root entrypoint :
  (0 < max_hops_per_path budget)%N →
  roots !! i = Some root → sgr_structural_entrypoints root !! j = Some entrypoint →
  returns work_ok (build_seed (beam_width budget) (N.of_nat i) root (N.of_nat j, entrypoint)).
Proof.
  intros Hm Hi Hj. pose proof (seed_path_ok i j root entrypoint Hi Hj) as Hp. unfold build_seed.
  destruct entrypoint as [coordinate|edge_key document_id edge_provenance binding_provenance].
  - destruct (ExpansionWork_coordinate _ _ _ _) as [w|] eqn:Hw; [|done]. by eapply coordinate_work_ok.
  - do 6 step1. apply returns_then. intros [] Hv. unfold from_query in Hv. ok_inv.
    unfold ExpansionWork_relation_root, from_query, BoundedSuccessorAccumulator_new. apply returns_then.
    intros acc Hacc. ok_inv. subst acc. split; simpl; [done..| |].
    + constructor; [|constructor]. split; simpl; try done. split; simpl; try done.
      by apply N.ltb_ge.
    + intros acc [= <-]. split; simpl; [done|apply N.le_0_l|constructor].
Qed.

Lemma enumerate_lookup {A} (l : list A) i x : (i, x) ∈ enumerate l ↔ ∃ n, i = N.of_nat n ∧ l !! n = Some x.
Proof.
  unfold enumerate. rewrite elem_of_lookup_imap. split.
  - intros (n & y & [= -> ->] & H). eauto.
  - intros (n & -> & H). eauto.
Qed.

Lemma build_seed_work_ok :
  (0 < max_hops_per_path budget)%N →
  returns (Forall work_ok) (build_seed_work roots (beam_width budget)).
Proof.
  intros Hm. apply returns_fold; [constructor|].
  intros seeds [i root] (n & -> & Hn)%enumerate_lookup Hs. apply returns_then. intros works Hw.
  apply Forall_app. split; [done|]. apply collect_results_Ok in Hw. apply Forall_forall. intros w Hin.
  apply list_elem_of_lookup in Hin as [k Hk]. destruct (Forall2_lookup_r _ _ _ _ _ Hw Hk) as ([j entry] & Hj & Hb).
  assert ((j, entry) ∈ enumerate (sgr_structural_entrypoints root)) as (m & -> & He)%enumerate_lookup
    by (by eapply list_elem_of_lookup_2).
  by eapply (returns_Ok _ _ _ (build_seed_ok n m root entry Hm Hn He)).
Qed.

(** ** The output *)

(** A path of the output, below a root of the search. *)
Record found_path (path : SemanticPath) : Prop := mkFoundPath {
  fp_hops : Forall checked_hop (path_hops path);
  fp_length : (1 ≤ len (path_hops path) ≤ max_hops_per_path budget)%N;
  fp_simple : simple_path (path_hops path);
  fp_numbered : numbered (path_hops path);
  fp_terminal : (λ l, con_coordinate (hop_continued_to_coordinate l)) <$> last (path_hops path)
    = Some (path_terminal_coordinate path);
  fp_identity : derive_path_id (path_root_id path) (path_hops path) = Ok (path_path_id path);
  fp_final : ps_final_score (path_path_score_explanation path) = Some (path_path_score path);
  fp_root : ∃ root, root ∈ roots ∧ path_root_id path = sgr_root_id root ∧
    path_score (sgr_semantic_score root) (hop_transition_score <$> path_hops path)
      = Ok (path_path_score_explanation path) ∧
    ∃ first entrypoint, head (path_hops path) = Some first ∧
      entrypoint ∈ sgr_structural_entrypoints root ∧ path_starts_at_entrypoint first entrypoint = true;
}.

Lemma into_semantic_path_ok p : stopped_ok p → returns (λ r, found_path (rsp_path r)) (into_semantic_path p).
Proof.
  intros ([Hf (root & Hr & Hent & Hid & Hsc)] & Hne & Hlen). unfold into_semantic_path.
  apply returns_ok_or. intros terminal Ht. apply returns_then. intros explanation He. apply map_err_Ok in He.
  apply returns_ok_or. intros final Hfin. apply returns_reject. intros _.
  apply returns_then. intros id Hi. unfold from_query in Hi. apply map_err_Ok in Hi.
  destruct Hf as [Fh Fs Fn Fst Fc Fco Fe Fsc]. simpl. split; simpl; try done.
  - split; [|done]. destruct (fps_hops (stp_state p)); [done|]. unfold len. simpl. lia.
  - exists root. split_and!; [by eapply list_elem_of_lookup_2|done|by rewrite <- Hsc|].
    destruct (fps_hops (stp_state p)) as [|first hops] eqn:Hh; [done|]. exists first, (fps_structural_entrypoint (stp_state p)).
    split_and!; [done|by eapply list_elem_of_lookup_2|by apply Fst].
Qed.

(** ** Retention *)

Abbreviation terminal r := (path_terminal_coordinate (rsp_path r)).

Lemma retain_endpoints_sublist endpoints candidates : sublist (retain_endpoints endpoints candidates) candidates.
Proof.
  revert endpoints. induction candidates as [|c candidates IH]; intros endpoints; simpl; [done|].
  destruct (2 <=? _)%N; [apply sublist_cons, IH|apply sublist_skip, IH].
Qed.

Lemma retain_endpoints_count endpoints candidates x :
  (∀ y, default 0%N (endpoints !! y) ≤ 2)%N →
  (N.of_nat (length (filter (λ r, terminal r = x) (retain_endpoints endpoints candidates)))
   + default 0 (endpoints !! x) ≤ 2)%N.
Proof.
  revert endpoints. induction candidates as [|c candidates IH]; intros endpoints He; simpl; [apply He|].
  destruct (N.leb_spec 2 (default 0 (endpoints !! terminal c))%N) as [Hge|Hlt].
  - specialize (IH (<[terminal c := default 0%N (endpoints !! terminal c)]> endpoints)).
    destruct (decide (terminal c = x)) as [<-|Hne].
    + rewrite lookup_insert_eq in IH. simpl in IH. apply IH. intros y.
      destruct (decide (terminal c = y)) as [<-|]; [rewrite lookup_insert_eq; apply He|rewrite lookup_insert_ne by done; apply He].
    + rewrite lookup_insert_ne in IH by done. apply IH. intros y.
      destruct (decide (terminal c = y)) as [<-|]; [rewrite lookup_insert_eq; apply He|rewrite lookup_insert_ne by done; apply He].
  - specialize (IH (<[terminal c := (default 0%N (endpoints !! terminal c) + 1)%N]> endpoints)).
    assert (∀ y, default 0%N (<[terminal c := (default 0%N (endpoints !! terminal c) + 1)%N]> endpoints !! y) ≤ 2)%N as He'.
    { intros y. destruct (decide (terminal c = y)) as [<-|]; [rewrite lookup_insert_eq; simpl; lia|rewrite lookup_insert_ne by done; apply He]. }
    specialize (IH He'). rewrite filter_cons. destruct (decide (terminal c = x)) as [<-|Hne].
    + rewrite lookup_insert_eq in IH. simpl in *. lia.
    + by rewrite lookup_insert_ne in IH by done.
Qed.

Lemma filter_take_length {A} (Q : A → Prop) `{!∀ x, Decision (Q x)} n (l : list A) :
  length (filter Q (take n l)) ≤ length (filter Q l).
Proof. rewrite <- (take_drop n l) at 2. rewrite filter_app, length_app. lia. Qed.

(** The retained paths are ranked, bounded, and at most two end at a Coordinate. *)
Record retained (limit : N) (candidates : list RankedStoppedPath) (r : RetainedPaths) : Prop := mkRetained {
  rt_paths : ∃ kept, ret_paths r = rsp_path <$> kept ∧ sublist kept (sort_by compare_semantic_paths candidates) ∧
    ret_paths_retained r = len kept;
  rt_limit : (ret_paths_retained r ≤ limit)%N;
  rt_generated : (ret_paths_retained r ≤ ret_paths_generated r)%N;
  rt_endpoints : ∀ x, length (filter (λ path, path_terminal_coordinate path = x) (ret_paths r)) ≤ 2;
}.

Lemma filter_terminal_fmap x (kept : list RankedStoppedPath) :
  length (filter (λ path, path_terminal_coordinate path = x) (rsp_path <$> kept))
  = length (filter (λ r, terminal r = x) kept).
Proof.
  induction kept as [|r kept IH]; [done|]. rewrite fmap_cons, !filter_cons.
  destruct (decide (terminal r = x)); simpl; auto.
Qed.

Lemma retain_ranked_paths_ok candidates limit exhaustion :
  returns (λ '(r, _), retained limit candidates r) (retain_ranked_paths candidates limit exhaustion).
Proof.
  unfold retain_ranked_paths. set (ranked := dedup_by _ _).
  set (diverse := retain_endpoints _ _).
  assert (sublist diverse (sort_by compare_semantic_paths candidates)) as Hsub.
  { unfold diverse. etrans; [apply retain_endpoints_sublist|]. apply dedup_by_sublist. }
  assert (len diverse ≤ len ranked)%N as Hlen.
  { unfold len. pose proof (sublist_length _ _ (retain_endpoints_sublist ∅ ranked)). unfold diverse. lia. }
  assert (∀ x, length (filter (λ r, terminal r = x) diverse) ≤ 2) as Hends.
  { intros x. pose proof (retain_endpoints_count ∅ ranked x) as Hc. unfold diverse. rewrite lookup_empty in Hc. simpl in Hc.
    specialize (Hc ltac:(intros y; rewrite lookup_empty; simpl; lia)). lia. }
  destruct (N.ltb_spec limit (len diverse)) as [Hlt|Hge]; simpl.
  - split; simpl.
    + exists (take (N.to_nat limit) diverse). split_and!; [done| |done]. etrans; [|exact Hsub].
      apply sublist_take.
    + unfold len. rewrite length_take. lia.
    + unfold len in *. rewrite length_take. lia.
    + intros x. rewrite filter_terminal_fmap. etrans; [apply filter_take_length|apply Hends].
  - split; simpl; [exists diverse; done|done|done|]. intros x. rewrite filter_terminal_fmap. apply Hends.
Qed.

(** ** The whole search *)

(** Better paths first. *)
Definition ranked_paths (paths : list SemanticPath) : Prop :=
  ∀ i j p q, i < j → paths !! i = Some p → paths !! j = Some q →
    (raw (path_path_score q) ≤ raw (path_path_score p))%N.

Record search_result (out : SearchOutput) : Prop := mkSearchResult {
  sr_paths : Forall found_path (out_paths out);
  sr_limit : (len (out_paths out) ≤ max_paths budget)%N;
  sr_retained : out_paths_retained out = len (out_paths out);
  sr_generated : (out_paths_retained out ≤ out_paths_generated out)%N;
  sr_endpoints : ∀ x, length (filter (λ path, path_terminal_coordinate path = x) (out_paths out)) ≤ 2;
  sr_ranked : ranked_paths (out_paths out);
  sr_expanded : (out_expanded_coordinates out ≤ max_expanded_coordinates budget)%N;
  sr_edges : (out_incident_edges_materialized out ≤ max_incident_edges_materialized budget)%N;
  sr_relations : (out_relation_options_materialized out ≤ max_relation_options_materialized budget)%N;
  sr_targets : (out_target_options_materialized out ≤ max_target_options_materialized budget)%N;
  sr_samples : (len (out_truncation_samples out) ≤ MAX_TRUNCATION_SAMPLES)%N;
}.

#[local] Instance compare_semantic_paths_pre : PreCmp compare_semantic_paths.
Proof.
  apply pre_then; [apply (pre_flip_on (λ r, path_path_score (rsp_path r))), _|].
  apply (pre_on (λ r, digest_bytes (path_path_id (rsp_path r)))), _.
Qed.

Lemma strongly_sorted_lookup {A} (R : A → A → Prop) l i j a b :
  StronglySorted R l → i < j → l !! i = Some a → l !! j = Some b → R a b.
Proof.
  intros Hs. revert i j. induction Hs as [|x l _ IH Hx]; intros [|i] [|j] Hij Ha Hb; try done; [lia| |lia|].
  - simplify_eq/=. rewrite Forall_forall in Hx. apply Hx. by eapply list_elem_of_lookup_2.
  - apply (IH i j); [lia|done..].
Qed.

Lemma sorted_ranked kept candidates :
  sublist kept (sort_by compare_semantic_paths candidates) → ranked_paths (rsp_path <$> kept).
Proof.
  intros Hs i j p q Hij Hp Hq. rewrite list_lookup_fmap in Hp, Hq.
  apply fmap_Some in Hp as (a & Ha & ->). apply fmap_Some in Hq as (b & Hb & ->).
  assert (compare_semantic_paths a b ≠ Gt) as Hc.
  { eapply (strongly_sorted_lookup (λ a b, compare_semantic_paths a b ≠ Gt)); [|exact Hij|done..]. eapply sublist_sorted; [exact Hs|]. apply (sort_by_weak compare_semantic_paths). }
  unfold compare_semantic_paths, then_with, Score_cmp in Hc.
  destruct (N.compare_spec (raw (path_path_score (rsp_path b))) (raw (path_path_score (rsp_path a)))); [lia|lia|done].
Qed.

Lemma finish_ok e stopped zero_hop :
  engine_ok e → Forall stopped_ok stopped → returns search_result (finish budget e roots stopped zero_hop).
Proof.
  intros [] Hst. unfold finish. apply returns_then. intros candidates Hc. apply collect_results_Ok in Hc.
  eapply returns_bind; [apply retain_ranked_paths_ok|].
  intros [r exhaustion] _ [(kept & Hk & Hsub & Hn) Hl Hg He]. split; simpl; try done.
  - rewrite Hk. apply Forall_fmap. apply Forall_forall. intros c Hin.
    assert (c ∈ candidates) as Hcand by (rewrite <- (sort_by_perm compare_semantic_paths); by eapply elem_of_sublist).
    apply list_elem_of_lookup in Hcand as [i Hi]. destruct (Forall2_lookup_r _ _ _ _ _ Hc Hi) as (p & Hp & Hx).
    rewrite Forall_forall in Hst.
    apply (returns_Ok _ _ _ (into_semantic_path_ok p (Hst p ltac:(by eapply list_elem_of_lookup_2))) Hx).
  - rewrite Hk. unfold len in *. rewrite length_fmap. lia.
  - rewrite Hk. unfold len in *. by rewrite length_fmap.
  - rewrite Hk. by eapply sorted_ranked.
  - unfold canonicalize_truncation_samples, len. rewrite length_take. lia.
Qed.

Lemma search_found fuel e out :
  (0 < max_hops_per_path budget)%N → engine_ok e →
  search ticket channels lifecycle_filter budget fuel e roots = Some (Ok out) → search_result out.
Proof.
  intros Hm He. unfold search. pose proof (build_seed_work_ok Hm) as Hseeds.
  destruct (build_seed_work _ _) as [seeds|]; simpl in *; [|done].
  destruct (first_wave _ _ _ _ _ _ _ _ _) as [[s1|]|] eqn:H1; simpl; try done.
  apply first_wave_ok in H1 as [? ? ? ?]; [|by split|by rewrite (sort_by_perm seed_cmp)].
  destruct (global_loop _ _ _ _ _ _) as [[s2|]|] eqn:H2; simpl; try done.
  apply global_loop_ok in H2 as [? Hq ? ?]; [|split; simpl; try done; by apply Forall_app].
  intros Hout.
  assert (returns search_ok (match cutoff_reason (sch_engine s2) with
    | Some reason => try_fold (cut_off budget reason) s2 (sch_queue s2) | None => Ok s2 end)) as H3.
  { destruct (cutoff_reason _) as [reason|]; [|by split]. apply returns_fold; [by split|].
    intros s w Hw Hs. apply cut_off_ok; [done|]. rewrite Forall_forall in Hq. by apply Hq. }
  destruct (match cutoff_reason (sch_engine s2) with
    | Some reason => try_fold (cut_off budget reason) s2 (sch_queue s2) | None => Ok s2 end) as [s3|]; simpl in *; [|done]. injection Hout as Hout.
  destruct H3. eapply (returns_Ok _ _ _ (finish_ok _ _ _ _ _) Hout).
  Unshelve. all: done.
Qed.

End facts.

(** ** The clock *)

(** A backend whose clock reaches the deadline: at most [time_left] more reads
    see a time before it, and no call turns the clock back. *)
Class DeadlineClock `{P : Platform} `{HD : DbErrors} `{HB : !TraversalBackend} : Type := {
  time_left : Backend → nat;
  clock_read : ∀ b, (past_deadline b).1 = false → time_left (past_deadline b).2 < time_left b;
  clock_past : ∀ b, time_left (past_deadline b).2 ≤ time_left b;
  clock_load : ∀ x b, time_left (load_hyperedge x b).2 ≤ time_left b;
  clock_relations : ∀ x b, time_left (rank_relations x b).2 ≤ time_left b;
  clock_targets : ∀ x b, time_left (rank_targets x b).2 ≤ time_left b;
  clock_hydrate : ∀ x b, time_left (hydrate x b).2 ≤ time_left b;
}.

Section clock.
Context `{P : Platform} `{HP : !Postcard} `{HD : DbErrors} `{HB : !TraversalBackend} `{HC : !DeadlineClock}.
Context (ticket : SemanticGraphQueryTicket) (channels : TraversalChannels)
  (lifecycle_filter : LifecycleFilter) (budget : SemanticGraphQueryBudget).

Abbreviation left_of e := (time_left (eng_backend e)).
Abbreviation left_in s := (time_left (eng_backend (st_engine s))).

(** [done] closes the comparisons of clocks. *)
#[local] Hint Extern 0 (_ ≤ _)%nat => solve [simpl in *; lia] : core.
#[local] Hint Extern 0 (returns _ (Ok _)) => solve [simpl in *; lia] : core.

Lemma run_db_before_later {T} (op : Backend → result (option T) DbError * Backend) e :
  (∀ b, time_left (op b).2 ≤ time_left b) →
  returns (λ '(_, e'), left_of e' ≤ left_of e) (run_db_before op e).
Proof.
  intros Hop. unfold run_db_before. rewrite read_clock_eq. pose proof (clock_past (eng_backend e)) as Hp.
  destruct (past_deadline (eng_backend e)).1; simpl; [done|].
  specialize (Hop (past_deadline (eng_backend e)).2). destruct (op _) as [answer b]. simpl in *.
  apply returns_then. intros ? _. simpl. lia.
Qed.

Lemma hydrate_source_later e score : returns (λ '(_, e'), left_of e' ≤ left_of e) (hydrate_source ticket e score).
Proof.
  unfold hydrate_source. destruct (eng_hydrated e !! _); [steps; simpl; lia|].
  eapply returns_bind; [apply run_db_before_later, clock_hydrate|]. intros [[batch|] e'] _ Hle; [|done].
  steps. done.
Qed.

Lemma exhausted_globally_later s dimension count :
  returns (λ '(_, s'), left_in s' ≤ left_in s) (exhausted_globally s dimension count).
Proof. unfold exhausted_globally, record_global_exhaustion. steps; ok_inv; subst; simpl; lia. Qed.

Ltac later := try (eapply returns_mono; [apply exhausted_globally_later|intros []]); simpl in *; try done; try lia.

Lemma admit_relation_later coordinate option cursor s :
  returns (λ '(_, _, s'), left_in s' ≤ left_in s) (admit_relation budget coordinate option cursor s).
Proof.
  unfold admit_relation. destruct (bool_decide _); [done|]. destruct (_ <=? _)%N; [|by destruct (_ =? 0)%N].
  eapply returns_bind; [apply exhausted_globally_later|]. by intros [].
Qed.

Lemma admit_relations_later coordinate options cursor s :
  returns (λ '(_, _, s'), left_in s' ≤ left_in s) (admit_relations budget coordinate options cursor s).
Proof.
  revert cursor s. induction options as [|option options IH]; intros cursor s; simpl; [done|].
  eapply returns_bind; [apply admit_relation_later|]. intros [[[stop|] cursor'] s'] _ Hs; [done|].
  eapply returns_mono; [apply IH|]. intros [[? ?] ?]. simpl. lia.
Qed.

Lemma start_incident_later s : returns (λ '(_, s'), left_in s' ≤ left_in s) (start_incident budget s).
Proof.
  unfold start_incident. destruct (wrk_incident_started _); [done|].
  destruct (admit_coordinate_expansion _ _ _) as [[? ?] []]; simpl; try done.
  eapply returns_bind; [apply exhausted_globally_later|]. by intros [].
Qed.

Lemma advance_incident_later s :
  returns (λ '(_, s'), left_in s' ≤ left_in s) (advance_incident ticket channels budget s).
Proof.
  unfold advance_incident. apply returns_ok_or. intros coordinate _.
  eapply returns_bind; [apply start_incident_later|]. intros [[stop|] s1] _ H1; [done|]. cbn zeta.
  destruct (_ && _); [done|]. apply returns_ok_or. intros limit _.
  eapply returns_bind; [apply run_db_before_later, clock_relations|].
  intros [[[batch|n]|] e] _ He; later. unfold take_relations. apply returns_then. intros _ _.
  eapply returns_bind; [apply admit_relations_later|]. intros [[[stop|] cursor] s2] _ H2; later.
  destruct (irb_exhaustion batch); later. destruct (_ <=? _)%N; later. destruct (_ =? 0)%N; later.
Qed.

Lemma advance_relation_later s relation :
  returns (λ '(_, s'), left_in s' ≤ left_in s) (advance_relation ticket channels s relation).
Proof.
  unfold advance_relation. destruct (bool_decide _); [done|]. apply returns_then. intros parts _.
  apply returns_reject. intros _. apply returns_then. intros _ _. apply returns_reject. intros _.
  eapply returns_bind; [apply hydrate_source_later|]. intros [[hydrated|] e] _ He; [|done].
  apply returns_then. intros _ _. done.
Qed.

Lemma admit_targets_later edge t options scan :
  returns (λ '(_, scan'), left_in (tsc_step scan') ≤ left_in (tsc_step scan)) (admit_targets budget edge t options scan).
Proof.
  revert scan. induction options as [|option options IH]; intros scan; simpl; [done|].
  eapply (returns_bind (λ '(_, scan'), left_in (tsc_step scan') ≤ left_in (tsc_step scan))).
  - unfold admit_target, classify_ranked_target. destruct (bool_decide (_ ∈ mat_targets _)); [by destruct (_ && _)|].
    destruct (_ <=? _)%N; [|destruct (_ =? 0)%N; [done|by destruct (_ && _)]].
    eapply returns_bind; [apply exhausted_globally_later|]. by intros [].
  - intros [[stop|] scan'] _ H; [done|]. eapply returns_mono; [apply IH|]. intros []. lia.
Qed.

Lemma build_successors_later edge t admitted s :
  returns (λ '(_, s'), left_in s' ≤ left_in s) (build_successors ticket channels edge t admitted s).
Proof.
  revert s. induction admitted as [|option admitted IH]; intros s; simpl; [done|].
  eapply (returns_bind (λ '(_, e), left_of e ≤ left_in s)).
  - unfold build_successor. do 5 (first [apply returns_reject; intros _|apply returns_then; intros ? _]).
    eapply returns_bind; [apply hydrate_source_later|]. intros [[hydrated|] e] _ He; [|done].
    apply returns_then. intros _ _. apply returns_then. by intros ? _.
  - intros [[x|] e] _ He; [|done]. apply returns_ok_or. intros acc _.
    destruct (BoundedSuccessorAccumulator_admit acc x). eapply returns_mono; [apply IH|]. intros []. simpl. lia.
Qed.

Lemma exhausted_targets_later s (t : TargetWork) dimension count {A} (k : UnitAdvance → A) n :
  left_in s ≤ n →
  returns (λ '(_, _, s'), left_in s' ≤ n)
    (let? (stop, s) := exhausted_globally s dimension count in Ok (k stop, t, s)).
Proof. intros Hn. eapply returns_bind; [apply exhausted_globally_later|]. intros [] _ ?. simpl. lia. Qed.

Lemma rank_target_slice_later s t :
  returns (λ '(_, _, s'), left_in s' ≤ left_in s) (rank_target_slice ticket channels lifecycle_filter budget s t).
Proof.
  unfold rank_target_slice. destruct (_ && _); [done|]. apply returns_ok_or. intros limit _.
  apply returns_ok_or. intros edge _. eapply returns_bind; [apply run_db_before_later, clock_targets|].
  intros [[[batch| |n|n]|] e] _ He; simpl; try done; [|by apply (exhausted_targets_later _ t _ _ id)].
  unfold take_targets. apply returns_then. intros _ _. apply returns_reject. intros _.
  eapply returns_bind; [apply admit_targets_later|]. intros [[[stop t']|] scan] _ H1; simpl in *; [lia|].
  eapply returns_bind; [apply build_successors_later|]. intros [[stop|] s2] _ H2; simpl; [lia|].
  destruct (etb_exhaustion batch); simpl; [lia|].
  destruct (_ <=? _)%N; [apply (exhausted_targets_later _ _ _ _ id); lia|]. destruct (_ =? 0)%N; simpl; lia.
Qed.

Lemma advance_targets_later s t :
  returns (λ '(_, _, s'), left_in s' ≤ left_in s) (advance_targets ticket channels lifecycle_filter budget s t).
Proof.
  unfold advance_targets. eapply (returns_bind (λ '(_, _, s'), left_in s' ≤ left_in s)).
  { unfold admit_target_relation. destruct (twk_relation_admitted t); [done|].
    destruct (admit_new_key _ _ _ _) as [[? ?] []]; simpl; try done. by apply (exhausted_targets_later _ t _ _ Some). }
  intros [[[stop|] t1] s1] _ H1; [done|].
  eapply (returns_bind (λ '(_, _, s'), left_in s' ≤ left_in s1)).
  { unfold load_target_edge. destruct (twk_edge t1); [done|]. destruct (eng_edge_cache _ !! _).
    { apply returns_then. by intros _ _. }
    destruct (_ <=? _)%N; [by apply (exhausted_targets_later _ t1 _ _ Some)|]. destruct (_ =? 0)%N; [done|].
    eapply returns_bind; [apply run_db_before_later, clock_load|]. intros [[[edge| |n]|] e] _ He; simpl; try done.
    apply returns_then. by intros _ _. }
  intros [[[stop|] t2] s2] _ H2; simpl; [lia|]. destruct (twk_exhausted t2); [simpl; lia|].
  eapply returns_mono; [apply rank_target_slice_later|]. intros [[? ?] ?]. lia.
Qed.

(** One iteration spends one read of the clock, or stops for it. *)
Lemma advance_once_later s :
  returns (λ next : Step + AdvanceOutcome * Step, match next with
    | inl s' => left_in s' < left_in s
    | inr (_, s') => eng_wall_time_exhausted (st_engine s') = true ∧ left_in s' ≤ left_in s
                     ∨ left_in s' < left_in s
    end) (advance_once ticket channels lifecycle_filter budget s).
Proof.
  unfold advance_once. rewrite read_clock_eq. pose proof (clock_past (eng_backend (st_engine s))) as Hp.
  pose proof (clock_read (eng_backend (st_engine s))) as Hr.
  destruct (past_deadline _).1; [by left|]. specialize (Hr eq_refl). simpl.
  destruct (exh_global_stop _); [by right|]. destruct (wrk_pending_targets _) as [|t pending].
  - destruct (wrk_pending_relations _) as [|relation relations].
    + destruct (negb _).
      * eapply returns_bind; [apply advance_incident_later|]. intros [[] s'] _ H; simpl in *; lia.
      * unfold seal. apply returns_then. intros [o s'] H. ok_inv. simplify_eq/=. by right.
    + eapply returns_bind; [apply advance_relation_later|]. intros [[] s'] _ H; simpl in *; lia.
  - eapply returns_bind; [apply advance_targets_later|]. intros [[[] t'] s'] _ H; simpl in *; lia.
Qed.

(** ** Termination *)

Lemma advance_enough fuel s :
  left_in s < fuel → is_Some (advance ticket channels lifecycle_filter budget fuel s).
Proof.
  revert s. induction fuel as [|fuel IH]; intros s Hlt; [lia|]. simpl. pose proof (advance_once_later s) as Ho.
  destruct (advance_once _ _ _ _ s) as [[s'|[o s']]|]; simpl in *; [|by eexists..]. apply IH. lia.
Qed.

Lemma advance_later fuel s o s' :
  advance ticket channels lifecycle_filter budget fuel s = Some (Ok (o, s')) →
  left_in s' ≤ left_in s ∧ (eng_wall_time_exhausted (st_engine s') = true ∨ left_in s' < left_in s).
Proof.
  revert s. induction fuel as [|fuel IH]; intros s; [done|]. simpl. pose proof (advance_once_later s) as Ho.
  destruct (advance_once _ _ _ _ s) as [[s1|[o1 s1]]|]; simpl in *; [|intros [= <- <-]; naive_solver lia|done].
  intros H%IH. lia.
Qed.

Lemma publish_engine successors w search search' :
  publish budget successors w search = Ok search' →
  left_of (sch_engine search') = left_of (sch_engine search) ∧
  eng_wall_time_exhausted (sch_engine search') = eng_wall_time_exhausted (sch_engine search).
Proof. unfold publish. intros H. ok_inv. repeat case_match. ok_inv. by subst. Qed.

Lemma cut_off_engine reason search w search' :
  cut_off budget reason search w = Ok search' →
  left_of (sch_engine search') = left_of (sch_engine search) ∧
  eng_wall_time_exhausted (sch_engine search') = eng_wall_time_exhausted (sch_engine search).
Proof. unfold cut_off. intros H. ok_inv. repeat case_match. ok_inv. by subst. Qed.

Lemma first_wave_enough fuel n i seeds search :
  left_of (sch_engine search) < fuel →
  ∃ r, first_wave ticket channels lifecycle_filter budget fuel n i seeds search = Some r ∧
    returns (λ search', left_of (sch_engine search') ≤ left_of (sch_engine search)) r.
Proof.
  revert i search. induction seeds as [|w seeds IH]; intros i search Hlt; simpl; [by eexists|].
  unfold first_wave_step. set (s := mkStep (sch_engine search) w _).
  destruct (advance_enough fuel s Hlt) as [r Ha]. rewrite Ha. destruct r as [[o s']|]; simpl; [|by eexists].
  apply advance_later in Ha as [Ha _]. simpl in Ha.
  assert (∀ r : TraversalResult Search, returns (λ x, left_of (sch_engine x) ≤ left_of (sch_engine search)) r →
    ∃ r', run_bind (Some r) (λ x, first_wave ticket channels lifecycle_filter budget fuel n (i + 1) seeds x) = Some r' ∧
      returns (λ x, left_of (sch_engine x) ≤ left_of (sch_engine search)) r') as Hgo.
  { intros [x|] Hx; simpl in *; [|by eexists]. destruct (IH (i + 1)%N x ltac:(lia)) as (r' & Hr & Hr').
    exists r'. split; [done|]. eapply returns_mono; [done|]. simpl. lia. }
  apply Hgo. destruct o as [successors| |reason]; simpl; [|done|].
  - apply returns_then. intros x [Hx _]%publish_engine. simpl in *. destruct (is_empty successors); simpl; lia.
  - destruct (cut_off _ _ _ _) as [x|] eqn:Hx; [|done]. apply cut_off_engine in Hx as [Hx _]. simpl in *. lia.
Qed.

(** The reads that the loop on the queue can still make. *)
Definition turns_left (search : Search) : nat :=
  if eng_wall_time_exhausted (sch_engine search) then 0 else S (left_of (sch_engine search)).

Lemma global_step_later fuel w search :
  eng_wall_time_exhausted (sch_engine search) = false → turns_left search ≤ fuel →
  ∃ r, global_step ticket channels lifecycle_filter budget fuel w search = Some r ∧
    returns (λ search', turns_left search' < turns_left search) r.
Proof.
  intros Hwall Hlt. unfold turns_left in *. rewrite Hwall in *. unfold global_step. set (s := mkStep _ _ _).
  destruct (advance_enough fuel s Hlt) as [r Ha]. rewrite Ha. destruct r as [[o s']|]; simpl; [|by eexists].
  apply advance_later in Ha as [Ha Hw]. simpl in Ha, Hw. eexists. split; [done|].
  assert (∀ e, left_of e = left_in s' → eng_wall_time_exhausted e = eng_wall_time_exhausted (st_engine s') →
    (if eng_wall_time_exhausted e then 0 else S (left_of e)) < S (left_of (sch_engine search))) as Hgo.
  { intros e -> ->. destruct (eng_wall_time_exhausted (st_engine s')); [lia|]. destruct Hw; [done|lia]. }
  destruct o as [successors| |reason]; simpl.
  - apply returns_then. intros x [Hx Hx']%publish_engine. destruct (is_empty successors); [|by apply Hgo].
    destruct (is_empty (fps_hops _)); [by apply Hgo|]. apply returns_then. intros p _. by apply Hgo.
  - by apply Hgo.
  - destruct (cut_off _ _ _ _) as [x|] eqn:Hx; [|done]. apply cut_off_engine in Hx as [Hx Hx']. by apply Hgo.
Qed.

Lemma global_loop_enough fuel search :
  turns_left search < fuel → is_Some (global_loop ticket channels lifecycle_filter budget fuel search).
Proof.
  revert search. induction fuel as [|fuel IH]; intros search Hlt; [lia|]. simpl.
  destruct (eng_wall_time_exhausted (sch_engine search)) eqn:Hwall; [by eexists|]. simpl.
  destruct (exh_global_stop _); [by eexists|]. destruct (sort_by _ _) as [|w queue]; [by eexists|].
  set (search' := mkSearch _ _ _ _ _).
  destruct (global_step_later (S fuel) w search' Hwall) as (r & Hr & Hr').
  { unfold turns_left, search' in *. simpl in *. lia. }
  rewrite Hr. destruct r as [x|]; simpl in *; [|by eexists]. apply IH.
  change (turns_left search') with (turns_left search) in Hr'. lia.
Qed.

(** The search returns whatever the backend answers. *)
Lemma search_enough fuel e roots :
  left_of e + 1 < fuel → is_Some (search ticket channels lifecycle_filter budget fuel e roots).
Proof.
  intros Hlt. unfold search. destruct (build_seed_work _ _) as [seeds|]; simpl; [|by eexists].
  destruct (first_wave_enough fuel (len (sort_by seed_cmp seeds)) 0 (sort_by seed_cmp seeds)
              (mkSearch e [] [] [] ∅)) as (r & Hr & Hle); [simpl; lia|].
  rewrite Hr. destruct r as [s1|]; simpl in *; [|by eexists]. set (s1' := mkSearch _ _ _ _ _).
  destruct (global_loop_enough fuel s1') as [r2 Hr2].
  { unfold turns_left, s1'. simpl. destruct (eng_wall_time_exhausted _); lia. }
  rewrite Hr2. destruct r2 as [s2|]; simpl; [|by eexists].
  destruct (match cutoff_reason (sch_engine s2) with
    | Some reason => try_fold (cut_off budget reason) s2 (sch_queue s2) | None => Ok s2 end); simpl; by eexists.
Qed.

End clock.

(** ** Fuel *)

Section fuel.
Context `{P : Platform} `{HP : !Postcard} `{HD : DbErrors} `{HB : !TraversalBackend}.
Context (ticket : SemanticGraphQueryTicket) (channels : TraversalChannels)
  (lifecycle_filter : LifecycleFilter) (budget : SemanticGraphQueryBudget).

(** [d] is the result of [c] once [c] has one. *)
Definition refines {A} (c d : option A) : Prop := ∀ r, c = Some r → d = Some r.

Lemma refines_run {A B E} (c d : option (result A E)) (k l : A → option (result B E)) :
  refines c d → (∀ a, refines (k a) (l a)) → refines (run_bind c k) (run_bind d l).
Proof.
  intros Hc Hk r. destruct c as [[a|e]|]; simpl; [| |done].
  - rewrite (Hc _ eq_refl). apply Hk.
  - by rewrite (Hc _ eq_refl).
Qed.

Lemma refines_refl {A} (c : option A) : refines c c.
Proof. by intros r. Qed.
#[local] Hint Resolve refines_refl : core.

Lemma advance_refines n m s :
  n ≤ m → refines (advance ticket channels lifecycle_filter budget n s)
            (advance ticket channels lifecycle_filter budget m s).
Proof.
  revert m s. induction n as [|n IH]; intros m s Hle; [done|]. destruct m as [|m]; [lia|]. cbn [advance].
  apply refines_run; [done|]. intros [s'|]; [apply IH; lia|done].
Qed.

Lemma first_wave_refines n m count i seeds search :
  n ≤ m → refines (first_wave ticket channels lifecycle_filter budget n count i seeds search)
            (first_wave ticket channels lifecycle_filter budget m count i seeds search).
Proof.
  intros Hle. revert i search. induction seeds as [|w seeds IH]; intros i search; [done|]. cbn [first_wave].
  apply refines_run; [|intros; apply IH]. apply refines_run; [by apply advance_refines|]. by intros [].
Qed.

Lemma global_loop_refines n m search :
  n ≤ m → refines (global_loop ticket channels lifecycle_filter budget n search)
            (global_loop ticket channels lifecycle_filter budget m search).
Proof.
  revert m search. induction n as [|n IH]; intros m search Hle; [done|]. destruct m as [|m]; [lia|]. cbn [global_loop].
  destruct (_ || _); [done|]. destruct (sort_by _ _) as [|w queue]; [done|].
  apply refines_run; [|intros; apply IH; lia]. apply refines_run; [apply advance_refines; lia|]. by intros [].
Qed.

Lemma search_refines n m e roots :
  n ≤ m → refines (search ticket channels lifecycle_filter budget n e roots)
            (search ticket channels lifecycle_filter budget m e roots).
Proof.
  intros Hle. unfold search. apply refines_run; [done|]. intros seeds.
  apply refines_run; [by apply first_wave_refines|]. intros s1.
  apply refines_run; [by apply global_loop_refines|]. intros s2. by apply refines_run.
Qed.

End fuel.

(** ** A slice of known targets

    What one iteration does with a truncated slice that brings fewer new targets
    than the quantum has left. *)

Section slices.
Context `{P : Platform} `{HP : !Postcard} `{HD : DbErrors} `{HB : !TraversalBackend}.
Context (ticket : SemanticGraphQueryTicket) (channels : TraversalChannels)
  (lifecycle_filter : LifecycleFilter) (budget : SemanticGraphQueryBudget).

(** The key under which an option of the target counts as materialized. *)
Definition target_key (edge : SemanticEdgeObservation) (t : TargetWork)
    (o : SemanticRankedTargetOption) : TargetMaterializationKey :=
  (twk_entered_from t, edge_edge_key edge, rel_document_id (twk_document t), rto_coordinate o).

(** The options that no path has materialized before. *)
Definition new_targets (edge : SemanticEdgeObservation) (t : TargetWork) (m : MaterializationState)
    (options : list SemanticRankedTargetOption) : list SemanticRankedTargetOption :=
  List.filter (λ o, negb (bool_decide (target_key edge t o ∈ mat_targets m))) options.

Definition visited (path : FrontierPathState) (edge : SemanticEdgeObservation)
    (o : SemanticRankedTargetOption) : Prop :=
  rto_coordinate o ∈ fps_visited_coordinates path ∨ edge_edge_key edge ∈ fps_visited_edges path.

(** The request of [advance_targets]. *)
Definition slice_request (s : Step) (t : TargetWork) (edge : SemanticEdgeObservation)
  : SemanticEdgeTargetRankRequest := {|
  trq_hyperedge := edge;
  trq_relation_document_id := rel_document_id (twk_document t);
  trq_relation_document_head := twk_document_head t;
  trq_document_score := rel_document_score (twk_document t);
  trq_lifecycle_filter := lifecycle_filter;
  trq_channels := channels;
  trq_after := twk_after t;
  trq_limit := slice_limit (qnt_target_options (st_quantum s))
    (max_target_options_materialized budget
     - N.of_nat (size (mat_targets (eng_materialization (st_engine s))))) |}.

(** The target has its Hyperedge, or finds it in the cache of the engine. *)
Definition edge_known (s : Step) (t : TargetWork) (edge : SemanticEdgeObservation) : Prop :=
  twk_edge t = Some edge ∨
  twk_edge t = None ∧ eng_edge_cache (st_engine s) !! hex_edge_key (twk_expectation t) = Some edge ∧
    validate_cached_edge edge (twk_expectation t) = Ok tt.

(** The next iteration ranks [batch] for the first pending target: its relation
    is admitted and its Hyperedge known, it is not exhausted, nothing has stopped
    the search, and the clock is before the deadline both times it is read. *)
Record slice_read (s : Step) (t : TargetWork) (pending : list TargetWork)
    (batch : SemanticEdgeTargetRankBatch) : Prop := mkSliceRead {
  sr_pending : wrk_pending_targets (st_work s) = t :: pending;
  sr_related : twk_relation_admitted t = true;
  sr_edge : edge_known s t (etb_edge batch);
  sr_open : twk_exhausted t = false;
  sr_running : exh_global_stop (eng_exhaustion (st_engine s)) = false;
  sr_snapshot : validate_snapshot ticket (etb_snapshot batch) = Ok tt;
  sr_answer : ∃ b1 b2 b3, past_deadline (eng_backend (st_engine s)) = (false, b1) ∧
    past_deadline b1 = (false, b2) ∧
    rank_targets (slice_request s t (etb_edge batch)) b2 = (Ok (Some (TargetsRanked batch)), b3);
}.

(** What the iteration leaves alone. *)
Record kept (s s' : Step) : Prop := mkKept {
  kp_targets : wrk_pending_targets (st_work s') = wrk_pending_targets (st_work s);
  kp_relations : wrk_pending_relations (st_work s') = wrk_pending_relations (st_work s);
  kp_path : wrk_path (st_work s') = wrk_path (st_work s);
  kp_exhaustion : eng_exhaustion (st_engine s') = eng_exhaustion (st_engine s);
}.

#[local] Instance kept_preorder : PreOrder kept.
Proof. split; [by intros s|]. intros s1 s2 s3 [] []. split; congruence. Qed.

(** Neither the cap nor the quantum is used up by [n] more targets. *)
Definition roomy (n : N) (s : Step) : Prop :=
  (n < qnt_target_options (st_quantum s))%N ∧
  (N.of_nat (size (mat_targets (eng_materialization (st_engine s)))) + n
   < max_target_options_materialized budget)%N.

Lemma new_targets_insert edge t m k options :
  (len (new_targets edge t (mkMaterializationState (mat_expanded_coordinates m) (mat_edges m)
     (mat_relations m) ({[ k ]} ∪ mat_targets m)) options) ≤ len (new_targets edge t m options))%N.
Proof.
  unfold len, new_targets. simpl. induction options as [|o options IH]; simpl; [lia|].
  repeat case_bool_decide; simpl; try lia. set_solver.
Qed.

Lemma size_insert_new `{Countable A} (k : A) (X : gset A) : k ∉ X → size ({[ k ]} ∪ X) = S (size X).
Proof. intros Hk. rewrite size_union, size_singleton; [done|set_solver]. Qed.

Lemma visited_dropped path edge o :
  visited path edge o →
  negb (bool_decide (rto_coordinate o ∈ fps_visited_coordinates path))
  && negb (bool_decide (edge_edge_key edge ∈ fps_visited_edges path)) = false.
Proof. intros [Hc|He]; repeat case_bool_decide; done. Qed.

(** One option: the loop goes on. *)
Lemma admit_target_roomy edge t o options scan :
  let s := tsc_step scan in
  roomy (len (new_targets edge t (eng_materialization (st_engine s)) (o :: options))) s →
  ∃ scan', admit_target budget edge t o scan = Ok (None, scan') ∧ kept s (tsc_step scan') ∧
    wrk_accumulator (st_work (tsc_step scan')) = wrk_accumulator (st_work s) ∧
    roomy (len (new_targets edge t (eng_materialization (st_engine (tsc_step scan'))) options))
      (tsc_step scan') ∧
    (visited (wrk_path (st_work s)) edge o → tsc_admitted scan' = tsc_admitted scan).
Proof.
  intros s [Hq Hm]. unfold admit_target, classify_ranked_target. fold s. cbn zeta.
  change (twk_entered_from t, edge_edge_key edge, rel_document_id (twk_document t), rto_coordinate o)
    with (target_key edge t o).
  unfold new_targets in Hq, Hm. cbn [List.filter] in Hq, Hm.
  set (m := eng_materialization (st_engine s)) in *.
  destruct (bool_decide (_ ∈ mat_targets m)) eqn:Hk;
    [apply bool_decide_eq_true_1 in Hk|apply bool_decide_eq_false_1 in Hk]; cbn [negb] in Hq, Hm.
  - destruct (_ && _) eqn:Hv; eexists; (split; [done|]); (split; [done|]); (split; [done|]);
      (split; [done|]); [|done]. intros Hvis%visited_dropped. congruence.
  - unfold len in Hq, Hm. cbn [length] in Hq, Hm.
    destruct (N.leb_spec (max_target_options_materialized budget) (N.of_nat (size (mat_targets m)))); [lia|].
    destruct (N.eqb_spec (qnt_target_options (st_quantum s)) 0); [lia|].
    pose proof (new_targets_insert edge t m (target_key edge t o) options) as Hn.
    assert (roomy (len (new_targets edge t (mkMaterializationState (mat_expanded_coordinates m) (mat_edges m)
       (mat_relations m) ({[ target_key edge t o ]} ∪ mat_targets m)) options)) (mkStep (set_materialization
       (st_engine s) (mkMaterializationState (mat_expanded_coordinates m) (mat_edges m) (mat_relations m)
       ({[ target_key edge t o ]} ∪ mat_targets m))) (st_work s) (mkQuantum (qnt_expanded_coordinates (st_quantum s))
       (qnt_incident_edges (st_quantum s)) (qnt_relation_options (st_quantum s))
       (qnt_target_options (st_quantum s) - 1)))) as Hroom.
    { unfold roomy. cbn [st_quantum st_engine set_materialization eng_materialization mat_targets qnt_target_options].
      rewrite (size_insert_new (target_key edge t o) (mat_targets m) Hk). unfold len, new_targets in *. lia. }
    destruct (_ && _) eqn:Hv; eexists; (split; [done|]); (split; [done|]); (split; [done|]);
      (split; [exact Hroom|]); [|done]. intros Hvis%visited_dropped. congruence.
Qed.

(** The loop: it reads the whole slice. *)
Lemma admit_targets_roomy edge t options scan :
  let s := tsc_step scan in
  roomy (len (new_targets edge t (eng_materialization (st_engine s)) options)) s →
  ∃ scan', admit_targets budget edge t options scan = Ok (None, scan') ∧ kept s (tsc_step scan') ∧
    wrk_accumulator (st_work (tsc_step scan')) = wrk_accumulator (st_work s) ∧ roomy 0 (tsc_step scan') ∧
    (Forall (visited (wrk_path (st_work s)) edge) options → tsc_admitted scan' = tsc_admitted scan).
Proof.
  revert scan. induction options as [|o options IH]; intros scan s Hr; [by exists scan|].
  destruct (admit_target_roomy edge t o options scan Hr) as (scan1 & Ho & Hk1 & Ha1 & Hr1 & Hv1).
  destruct (IH scan1 Hr1) as (scan2 & Hos & Hk2 & Ha2 & Hr2 & Hv2). exists scan2. cbn [admit_targets].
  rewrite Ho. cbn [rbind]. rewrite Hos. split; [done|]. split; [by etrans|]. split; [by rewrite Ha2|]. split; [done|].
  intros [Hov Hosv]%Forall_cons. rewrite Hv2, Hv1; [done..|]. by rewrite (kp_path _ _ Hk1).
Qed.

(** *** The successors of a slice *)

(** Reads of the database change neither the materialization nor the account of
    what was exhausted. *)
Definition reads (e e' : TraversalEngine) : Prop :=
  eng_materialization e' = eng_materialization e ∧ eng_exhaustion e' = eng_exhaustion e.

Lemma run_db_before_reads {T} (op : Backend → result (option T) DbError * Backend) e :
  returns (λ '(_, e'), reads e e') (run_db_before op e).
Proof. unfold run_db_before. rewrite read_clock_eq. steps; done. Qed.

Lemma hydrate_source_reads e score : returns (λ '(_, e'), reads e e') (hydrate_source ticket e score).
Proof.
  unfold hydrate_source. steps; try done.
  all: match goal with H : run_db_before _ _ = Ok _ |- _ =>
         apply (returns_Ok _ _ _ (run_db_before_reads _ _) H) end.
Qed.
#[local] Hint Resolve hydrate_source_reads : engine.

Lemma build_successor_reads e w t edge option :
  returns (λ '(_, e'), reads e e') (build_successor ticket channels e w t edge option).
Proof. unfold build_successor. steps; done. Qed.

Lemma build_successors_kept edge t admitted s n :
  roomy n s →
  returns (λ '(stop, s'), kept s s' ∧ roomy n s' ∧
             ∀ unit, stop = Some unit → unit = UnitGlobalStop BranchStopReason.WallTimeExhausted)
    (build_successors ticket channels edge t admitted s).
Proof.
  revert s. induction admitted as [|o admitted IH]; intros s Hr; simpl; [done|].
  eapply returns_bind; [apply build_successor_reads|]. intros [[x|] e] _ [Hm He]; simpl.
  - apply returns_ok_or. intros acc Hacc. destruct (BoundedSuccessorAccumulator_admit acc x) as [acc' kept'].
    eapply returns_mono; [apply IH|].
    + unfold roomy in *. simpl. by rewrite Hm.
    + intros [stop s'] ([] & ? & ?). simpl in *. split_and!; [|done|done]. split; simpl; congruence.
  - split; [by split|]. split; [unfold roomy in *; simpl; by rewrite Hm|]. by intros unit [= <-].
Qed.

(** *** The iteration *)

Lemma take_targets_truncated t batch s :
  validate_snapshot ticket (etb_snapshot batch) = Ok tt → etb_exhaustion batch = SliceTruncated →
  roomy (len (new_targets (etb_edge batch) t (eng_materialization (st_engine s)) (etb_options batch))) s →
  returns (λ '(unit, _, s'), kept s s' ∧
             (unit = UnitDone ∨ unit = UnitGlobalStop BranchStopReason.WallTimeExhausted))
    (take_targets ticket channels budget (etb_edge batch) t batch s) ∧
  (Forall (visited (wrk_path (st_work s)) (etb_edge batch)) (etb_options batch) →
   ∃ t' s', take_targets ticket channels budget (etb_edge batch) t batch s = Ok (UnitDone, t', s') ∧
     kept s s' ∧ wrk_accumulator (st_work s') = wrk_accumulator (st_work s)).
Proof.
  intros Hsn Ht Hr. unfold take_targets. rewrite Hsn, bool_decide_true by done. cbn [rbind negb reject_if].
  cbn zeta. set (s0 := mkStep _ (set_stop _ _) _).
  assert (kept s s0) as Hs0 by done.
  destruct (admit_targets_roomy (etb_edge batch) t (etb_options batch) (mkTargetScan [] (twk_after t) s0) Hr)
    as (scan & -> & Hk & Ha & Hr' & Hv).
  cbn [rbind]. rewrite Ht. set (t' := set_target _ _ _ _ _). simpl in Hk, Ha, Hv.
  assert (∀ s', roomy 0 s' → (max_target_options_materialized budget <=?
    N.of_nat (size (mat_targets (eng_materialization (st_engine s')))))%N = false ∧
    (qnt_target_options (st_quantum s') =? 0)%N = false) as Hgo.
  { intros s' [H1 H2]. rewrite N.leb_gt, N.eqb_neq. lia. }
  split.
  - eapply returns_bind; [by apply build_successors_kept|]. intros [[stop|] s'] _ (Hk' & Hr'' & Hstop).
    + split; [by etrans; [|etrans]|]. right. by apply Hstop.
    + destruct (Hgo s' Hr'') as [-> ->]. split; [by etrans; [|etrans]|by left].
  - intros Hvis. rewrite Hv by done. cbn [build_successors rbind]. destruct (Hgo _ Hr') as [-> ->].
    eexists t', _. split_and!; [done|by etrans|done].
Qed.

Lemma u16_try_from_slice q r : u16_try_from (slice_limit q r) = Some (slice_limit q r).
Proof. unfold u16_try_from. by rewrite (proj2 (N.leb_le _ _)) by (unfold slice_limit; lia). Qed.

Definition with_edge (t : TargetWork) (edge : SemanticEdgeObservation) : TargetWork :=
  set_target t (twk_relation_admitted t) (Some edge) (twk_after t) (twk_exhausted t).

Lemma load_known_edge s t edge :
  edge_known s t edge → load_target_edge budget s t = Ok (None, with_edge t edge, s).
Proof.
  unfold load_target_edge. intros [Hedge|(Hedge & Hc & Hv)]; rewrite Hedge.
  - by destruct t; simpl in Hedge; subst.
  - by rewrite Hc, Hv.
Qed.

(** The iteration is what [take_targets] makes of the slice. *)
Lemma advance_once_slice s t pending batch :
  slice_read s t pending batch → (0 < qnt_target_options (st_quantum s))%N →
  ∃ b, let s0 := mkStep (set_backend (st_engine s) b)
         (set_pending (st_work s) (wrk_pending_relations (st_work s)) pending) (st_quantum s) in
  advance_once ticket channels lifecycle_filter budget s =
  let? (unit, target, s) :=
    take_targets ticket channels budget (etb_edge batch) (with_edge t (etb_edge batch)) batch s0 in
  let work := st_work s in
  let push_front := mkStep (st_engine s)
    (set_pending work (wrk_pending_relations work) (target :: wrk_pending_targets work)) (st_quantum s) in
  match unit with
  | UnitDone => Ok (inl s)
  | UnitDeferred => Ok (inr (AdvanceDeferred, push_front))
  | UnitGlobalStop reason => Ok (inr (AdvanceGlobalStop reason, push_front))
  end.
Proof.
  intros [Hp Hrel Hedge Hopen Hrun _ (b1 & b2 & b3 & Hb1 & Hb2 & Hb3)] Hq. exists b3. cbn zeta.
  unfold advance_once. rewrite read_clock_eq, Hb1. cbn [fst snd]. cbn zeta. simpl eng_exhaustion.
  cbn [st_work st_engine st_quantum]. rewrite Hrun, Hp.
  unfold advance_targets, admit_target_relation. rewrite Hrel. cbn [rbind].
  rewrite (load_known_edge _ _ (etb_edge batch)) by exact Hedge. cbn [rbind]. simpl twk_exhausted. rewrite Hopen.
  unfold rank_target_slice. simpl st_quantum. rewrite (proj2 (N.eqb_neq _ _)) by lia. cbn [andb].
  rewrite u16_try_from_slice. cbn [ok_or rbind with_edge set_target twk_edge].
  unfold run_db_before. rewrite read_clock_eq. simpl eng_backend. rewrite Hb2. cbn [fst snd]. cbn zeta.
  simpl eng_backend. unfold slice_request in Hb3. simpl. rewrite Hb3. done.
Qed.

(** A truncated slice that uses up neither the quantum nor the cap is the last one
    that the path reads of this target. *)
Lemma truncated_slice_drops s t pending batch :
  slice_read s t pending batch → etb_exhaustion batch = SliceTruncated →
  roomy (len (new_targets (etb_edge batch) t (eng_materialization (st_engine s)) (etb_options batch))) s →
  let left s' :=
    wrk_pending_targets (st_work s') = pending ∧
    wrk_pending_relations (st_work s') = wrk_pending_relations (st_work s) ∧
    eng_exhaustion (st_engine s') = eng_exhaustion (st_engine s) in
  returns (λ r, match r with
    | inl s' => left s'
    | inr (outcome, _) => outcome = AdvanceGlobalStop BranchStopReason.WallTimeExhausted
    end) (advance_once ticket channels lifecycle_filter budget s) ∧
  (Forall (visited (wrk_path (st_work s)) (etb_edge batch)) (etb_options batch) →
   ∃ s', advance_once ticket channels lifecycle_filter budget s = Ok (inl s') ∧ left s' ∧
     wrk_accumulator (st_work s') = wrk_accumulator (st_work s)).
Proof.
  intros Hread Htr Hroom left. destruct (advance_once_slice s t pending batch Hread) as [b ->];
    [destruct Hroom; lia|].
  set (s0 := mkStep _ _ _).
  destruct (take_targets_truncated (with_edge t (etb_edge batch)) batch s0 (sr_snapshot _ _ _ _ Hread) Htr Hroom)
    as [Hret Hvis].
  split.
  - eapply returns_bind; [exact Hret|]. intros [[unit t'] s'] _ [[Ht Hr _ He] [->| ->]]; [|done]. by split_and!.
  - intros (t' & s' & -> & [Ht Hr _ He] & Ha)%Hvis. exists s'. by split_and!.
Qed.

End slices.
