(* ===== verification/SemanticTheorems.v ===== *)
(** * Semantic query: the properties

    The theorems about scores, requests, roots, the beam, results and the
    traversal engine, each followed by an application at a concrete input. *)

From Stdlib Require Import Permutation Sorted.
From stdpp Require Import countable prelude strings gmap fin_maps relations.
From S2P Require Import Prelude Text TextOps Platform Reference ContextCoordinate ContextModel ContextFacts.
From S2P Require Import SemanticModel SemanticResult SemanticVerify SemanticFrontier.
From S2P Require Import SemanticScoreFacts Ordering SemanticRootFacts SemanticPathFacts SemanticRequestFacts.
From S2P Require Import SemanticTraversal SemanticEngine SemanticEngineFacts.

(** ** Scores *)

(** C27. [path_score] never overflows and never fails: for a root score and
    transition scores of the fixed-point range and any number of hops that a slice
    can hold it returns an explanation.  The final score is absent only for the
    empty path without a root score; otherwise it is the weighted quality, which
    lies between the worst and the best component, less the penalty for the
    hops, and it never leaves the range. *)
Theorem path_score_total root ts :
  root_ok root → Forall score_ok ts → slice_len ts →
  ∃ explanation, path_score root ts = Ok explanation ∧
    (ps_final_score explanation = None ↔ root = None ∧ ts = []) ∧
    ∀ final, ps_final_score explanation = Some final →
      score_ok final ∧ ∃ quality, ps_weighted_path_quality explanation = Some quality ∧
        raw final = (raw quality - N.min (len ts * raw HOP_PENALTY) SCORE_SCALE)%N ∧
        ∀ a b, components_within a b root ts → (a ≤ raw quality ≤ b)%N.
Proof.
  intros Hr Ht Hl. eexists. split; [by apply path_score_Ok|]. simpl. split.
  - unfold path_quality. case_decide; simpl; split; try done; tauto.
  - intros final Hf. apply fmap_Some in Hf as (q & Hq & ->).
    pose proof (path_quality_between _ _ _ _ _ (components_ok root ts Hr Ht) Hq) as [_ Hok].
    assert (raw (saturating_sub q (path_penalty ts)) = (raw q - N.min (len ts * raw HOP_PENALTY) SCORE_SCALE)%N) as E by done.
    split; [unfold score_ok; rewrite E; lia|]. exists q. split_and!; [done|done|].
    intros a b Hab. by apply (path_quality_between a b root ts q).
Qed.

Lemma path_score_total_witness :
  ∃ explanation, path_score (Some (mkScore 800000)) [mkScore 600000; mkScore 700000] = Ok explanation.
Proof.
  destruct (path_score_total (Some (mkScore 800000)) [mkScore 600000; mkScore 700000]) as (e & He & _).
  - intros r [= <-]. vm_compute. discriminate.
  - repeat constructor; vm_compute; discriminate.
  - vm_compute. discriminate.
  - exists e. exact He.
Defined.

(** ** Requests *)

Section requests.
Context `{P : Platform} `{HU : !UuidLaws}.

(** The same question, asked with the Coordinates in another order or repeated. *)
Record same_question (q p : SemanticGraphQuery) : Prop := mkSameQuestion {
  sq_request : qry_request_id p = qry_request_id q;
  sq_project : qry_project_id p = qry_project_id q;
  sq_problem : trim (qry_problem p) = trim (qry_problem q);
  sq_initial : ∀ c, c ∈ qry_initial_coordinates p ↔ c ∈ qry_initial_coordinates q;
  sq_context : ∀ c, c ∈ qry_context_coordinates p ↔ c ∈ qry_context_coordinates q;
  sq_filter : qry_lifecycle_filter p = qry_lifecycle_filter q;
  sq_budget : qry_budget p = qry_budget q;
}.

(** [validate_and_canonicalize] computes a normal form: its result is
    accepted and is its own canonical form, its Coordinate lists are strictly
    sorted, and every request that asks the same question within the limits on
    the lists canonicalizes to the same value. *)
Theorem request_normal_form q q' :
  validate_and_canonicalize q = Ok q' →
  validate_and_canonicalize q' = Ok q' ∧
  StrictlySorted ProjectContextCoordinate_cmp (qry_initial_coordinates q') ∧
  StrictlySorted ProjectContextCoordinate_cmp (qry_context_coordinates q') ∧
  ∀ p, same_question q p → few_coordinates p → validate_and_canonicalize p = Ok q'.
Proof using HU.
  intros (Hok & Hfew & ->)%validate_and_canonicalize_Ok. destruct (canonical_request_ok q Hok Hfew) as [Hok' Hfew'].
  split_and!; [|apply (canonical_sorted ProjectContextCoordinate_cmp)..|].
  - apply validate_and_canonicalize_Ok. by rewrite canonical_request_idemp.
  - intros p [H1 H2 H3 H4 H5 H6 H7] Hfp. apply validate_and_canonicalize_Ok. split_and!; [|done|].
    + destruct Hok as [? ? ? ? ? Hi Hc ?]. rewrite Forall_forall in Hi, Hc.
      split; rewrite ?H1, ?H2, ?H3, ?H7; try done; apply Forall_forall; intros c Hin;
        [apply Hi, H4|apply Hc, H5]; done.
    + unfold canonical_request. rewrite H1, H2, H3, H6, H7. f_equal;
        by apply (canonical_set ProjectContextCoordinate_cmp).
Qed.

End requests.

(** ** Roots *)

Section root_theorems.
Context `{P : Platform} `{HU : !UuidLaws}.

(** What a selection of at most [limit] automatic roots promises. *)
Record selection (cs : list RootSelectionCandidate) (limit : N) (roots : list SelectedAutomaticRoot)
  : Prop := mkSelection {
  sln_limit : (len roots ≤ limit)%N;
  sln_sources : NoDup (sel_source <$> roots);
  sln_candidates : Forall (root_of cs) roots;
  sln_pinned : limit ≠ 0%N → ∀ c, pinned cs = Some c → head roots = Some (pinned_root c);
  sln_reserved : ∃ neutral rest, roots = neutral ++ rest ∧
    Forall (λ x, sel_lane x = AutomaticRootLane.ProblemNeutral) neutral ∧
    (len neutral = neutral_reserved limit ∨
     ∀ c, c ∈ pool cs → cand_discovered_problem_neutral c = true → cand_source c ∈ sel_source <$> neutral);
  sln_maximal : len roots = limit ∨ ∀ c, c ∈ pool cs → cand_source c ∈ sel_source <$> roots;
}.

Lemma start_len cs limit :
  limit ≠ 0%N → (len (option_list (pinned_root <$> pinned cs)) ≤ neutral_reserved limit)%N.
Proof. intros Hl. pose proof (neutral_reserved_le limit Hl). destruct (pinned cs); unfold len; simpl; lia. Qed.

Lemma not_open cs s lane :
  best_candidate (pool cs) s lane = None → ∀ c, c ∈ pool cs →
  lane = AutomaticRootLane.Mixed ∨ cand_discovered_problem_neutral c = true → cand_source c ∈ (sel_source <$> s).
Proof using HU.
  intros Hb c Hc Hl. destruct (decide (cand_source c ∈ (sel_source <$> s))) as [|Hn]; [done|].
  exfalso. by apply (best_candidate_None cs s lane Hb c Hc).
Qed.

Lemma run_selection cs limit middle roots :
  limit ≠ 0%N → selection_run cs limit middle roots → selection cs limit roots.
Proof using HU.
  intros Hl Hrun. pose proof (selection_run_ok _ _ _ _ Hrun) as [Hd Hf]. destruct Hrun as (H1 & N1 & H2 & N2).
  pose proof (neutral_reserved_le limit Hl) as Hr. pose proof (start_len cs limit Hl) as Hs.
  pose proof (push_steps_length _ _ _ _ H1) as L1. pose proof (push_steps_length _ _ _ _ H2) as L2.
  pose proof (push_steps_prefix _ _ _ _ H1) as [k1 E1]. pose proof (push_steps_prefix _ _ _ _ H2) as [k2 E2].
  split; [lia|done|done| | |].
  - intros _ c Hc. rewrite E2, E1, Hc. done.
  - exists middle, k2. split_and!; [done| |].
    + eapply neutral_lanes; [exact H1|]. destruct (pinned cs); simpl; [by constructor|constructor].
    + apply push_nf in N1 as [Hge|Hn]; [left; lia|right]. intros c Hc Hneutral. eapply not_open; eauto.
  - apply push_nf in N2 as [Hge|Hn]; [left; lia|right]. intros c Hc. eapply not_open; eauto.
Qed.

Lemma select_duplicates fuel cs limit :
  ¬ unique_sources cs →
  select_automatic_roots_fuel fuel cs limit
  = Err (query_state_error "automatic root candidates must be unique by source").
Proof using HU.
  intros Hn. unfold select_automatic_roots_fuel. fold (eligible cs) (pool cs).
  destruct (windows2_any _ (pool cs)) eqn:Hw; [done|]. by apply pool_duplicates in Hw.
Qed.

Lemma select_zero fuel cs : unique_sources cs → select_automatic_roots_fuel fuel cs 0 = Ok [].
Proof using HU.
  intros Hd. unfold select_automatic_roots_fuel. fold (eligible cs) (pool cs).
  by rewrite (proj2 (pool_duplicates cs) Hd).
Qed.

Lemma empty_selection cs : selection cs 0 [].
Proof.
  split; simpl; [done|apply NoDup_nil_2|constructor|done| |by left].
  exists [], []. split_and!; [done|constructor|by left].
Qed.

Lemma run_perm cs cs' limit middle roots :
  Permutation cs cs' → unique_sources cs → selection_run cs' limit middle roots → selection_run cs limit middle roots.
Proof using HU. intros Hp Hd. unfold selection_run, pinned. by rewrite (pool_perm cs cs' Hp Hd). Qed.

(** C15. The two loops of [select_automatic_roots] end, with as many iterations
    as roots are asked for: every larger fuel gives the same answer.  The answer is an error
    exactly when two candidates above the entry floor have the same source.
    Otherwise it is a list of at most [limit] different candidates above the
    floor that starts with the best problem-neutral one, reserves half of the
    places for problem-neutral candidates and leaves a place free only when every
    candidate is selected; the order of the candidates does not matter. *)
Theorem root_selection cs limit :
  (∀ fuel, (N.to_nat limit ≤ fuel)%nat →
     select_automatic_roots_fuel fuel cs limit = select_automatic_roots cs limit) ∧
  (¬ unique_sources cs → ∃ e, select_automatic_roots cs limit = Err e) ∧
  (unique_sources cs → ∃ roots, select_automatic_roots cs limit = Ok roots ∧ selection cs limit roots ∧
     ∀ cs', Permutation cs cs' → select_automatic_roots cs' limit = Ok roots).
Proof using HU.
  unfold select_automatic_roots. split_and!.
  - intros fuel Hf. destruct (decide (NoDup (cand_source <$> eligible cs))) as [Hd|Hn]; [|by rewrite !select_duplicates].
    destruct (decide (limit = 0%N)) as [->|Hz]; [by rewrite !select_zero|].
    destruct (select_automatic_roots_run fuel cs limit Hd Hz Hf) as (m & r & -> & Hr).
    destruct (select_automatic_roots_run (N.to_nat limit) cs limit Hd Hz ltac:(lia)) as (m' & r' & -> & Hr').
    f_equal. by eapply selection_run_det.
  - intros Hn. eexists. by apply select_duplicates.
  - intros Hd. assert (∀ cs', Permutation cs cs' → unique_sources cs') as Hd' by (intros cs' Hp; by apply (unique_perm cs cs')).
    destruct (decide (limit = 0%N)) as [->|Hz].
    + exists []. split_and!; [by apply select_zero|apply empty_selection|]. intros. apply select_zero. auto.
    + destruct (select_automatic_roots_run (N.to_nat limit) cs limit Hd Hz ltac:(lia)) as (m & r & He & Hr).
      exists r. split_and!; [done|by eapply run_selection|]. intros cs' Hp.
      destruct (select_automatic_roots_run (N.to_nat limit) cs' limit (Hd' cs' Hp) Hz ltac:(lia)) as (m' & r' & -> & Hr').
      f_equal. apply (run_perm cs) in Hr'; [|done..]. symmetry. by eapply selection_run_det.
Qed.

End root_theorems.

(** ** The beam *)

Section beam.
Context `{P : Platform}.

(** C21. The accumulator, which re-sorts and drops one state per admission, is
    the naive beam: after any sequence of admissions it holds the best
    [beam_width] of the successors in order, it reports a suppressed successor
    exactly when there were more, and the order of arrival does not matter. *)
Theorem beam_keeps_best width acc xs ys :
  BoundedSuccessorAccumulator_new width = Ok acc → distinct_keys xs → Permutation xs ys →
  into_successors (admit_all acc xs) = take (N.to_nat width) (sort_by compare_path_states xs) ∧
  acc_observed_suppressed_successor (admit_all acc xs) = (width <? len xs)%N ∧
  admit_all acc ys = admit_all acc xs.
Proof.
  intros Hnew Hd Hp. rewrite <- (N2Nat.id width) in Hnew.
  assert (distinct_keys ys) as Hd' by (intros a b Ha Hb; apply Hd; by rewrite Hp).
  rewrite (admit_all_spec _ ys _ Hnew Hd'), (admit_all_spec _ xs _ Hnew Hd), N2Nat.id. split_and!; [done..|].
  unfold len. rewrite (Permutation_length Hp). f_equal.
  by rewrite (sort_by_order compare_path_states ys xs) by (done || by apply distinct_keys_distinguishes).
Qed.

End beam.

(** ** Results *)

Section results.
Context `{P : Platform} `{HU : !UuidLaws} `{HP : !Postcard}.

(** C18. [validate_detailed] accepts exactly the valid forests: roots that are
    valid on their own and have different identities, paths with different
    identities, each below the root it names and made of valid hops that are
    contiguous, never repeat a Hyperedge or a Coordinate, stay inside the
    Hyperedges they cross and recompute the identity and the score, coverage
    counters that add up, and a completion reason that names exhausted dimensions
    exactly when the budget ran out. *)
Theorem result_check_decides res : validate_detailed res = Ok tt ↔ valid_forest res.
Proof. apply validate_detailed_spec. Qed.

(** The evidence of an explanation comes from the context Coordinates [accepted]. *)
Definition evidence_from (accepted : list ProjectContextCoordinate) (explanation : ScoreExplanation) : Prop :=
  ∀ evidence, evidence ∈ exp_conditioned_evidence explanation → ev_context_coordinate evidence ∈ accepted.

Lemma foreign_evidence_false (accepted : list ProjectContextCoordinate) explanation :
  foreign_evidence (list_to_set accepted) explanation = false → evidence_from accepted explanation.
Proof.
  intros Hf evidence Hin. apply not_true_iff_false in Hf. destruct (decide (ev_context_coordinate evidence ∈ accepted)) as [|Hn]; [done|].
  exfalso. apply Hf. apply existsb_elem. exists evidence. split; [done|].
  rewrite negb_true_iff, bool_decide_eq_false, elem_of_list_to_set. done.
Qed.

(** What a result that belongs to a request says of it. *)
Record answers (res : SemanticGraphQueryResult) (q : SemanticGraphQuery) : Prop := mkAnswers {
  ans_request : res_request_id res = qry_request_id q ∧ res_project_id res = qry_project_id q;
  ans_forest : valid_forest res;
  ans_initial : Permutation (canonical ProjectContextCoordinate_cmp (qry_initial_coordinates q))
    ((aio_coordinate <$> inp_accepted_initial_coordinates (res_input_observations res))
     ++ inp_initial_not_in_graph (res_input_observations res)
     ++ (oio_coordinate <$> inp_omitted_initial_coordinates (res_input_observations res)));
  ans_context : Permutation (canonical ProjectContextCoordinate_cmp (qry_context_coordinates q))
    ((aco_coordinate <$> inp_accepted_context_coordinates (res_input_observations res))
     ++ (oco_coordinate <$> inp_omitted_context_coordinates (res_input_observations res)));
  ans_root_evidence : ∀ root explanation, root ∈ res_roots res → root_score_explanation root = Some explanation →
    evidence_from (aco_coordinate <$> inp_accepted_context_coordinates (res_input_observations res)) explanation;
  ans_hops : ∀ path hop, path ∈ res_paths res → hop ∈ path_hops path →
    lifecycle_matches (qry_lifecycle_filter q) (con_lifecycle (hop_continued_to_coordinate hop)) = true ∧
    evidence_from (aco_coordinate <$> inp_accepted_context_coordinates (res_input_observations res))
      (rel_score_explanation (hop_selected_relation_document hop)) ∧
    evidence_from (aco_coordinate <$> inp_accepted_context_coordinates (res_input_observations res))
      (con_score_explanation (hop_continued_to_coordinate hop));
  ans_explicit : ∀ coordinate, coordinate ∈ aio_coordinate <$> inp_accepted_initial_coordinates (res_input_observations res) →
    ∃ root, matching_roots res coordinate = [root];
  ans_paths : (len (res_paths res) ≤ max_paths (qry_budget q))%N ∧
    ∀ path, path ∈ res_paths res → (len (path_hops path) ≤ max_hops_per_path (qry_budget q))%N;
}.

Lemma root_evidence_answers res q :
  validate_root_evidence_for_request res q = Ok tt →
  let accepted := aco_coordinate <$> inp_accepted_context_coordinates (res_input_observations res) in
  (∀ root explanation, root ∈ res_roots res → root_score_explanation root = Some explanation →
     evidence_from accepted explanation) ∧
  (∀ path hop, path ∈ res_paths res → hop ∈ path_hops path →
     lifecycle_matches (qry_lifecycle_filter q) (con_lifecycle (hop_continued_to_coordinate hop)) = true ∧
     evidence_from accepted (rel_score_explanation (hop_selected_relation_document hop)) ∧
     evidence_from accepted (con_score_explanation (hop_continued_to_coordinate hop))) ∧
  (∀ coordinate, coordinate ∈ aio_coordinate <$> inp_accepted_initial_coordinates (res_input_observations res) →
     ∃ root, matching_roots res coordinate = [root]).
Proof.
  intros H accepted. unfold validate_root_evidence_for_request in H. rewrite !seq_Ok, !for_each_Ok, !Forall_forall in H.
  destruct H as (Hr & He & Hp & _). split_and!.
  - intros root explanation Hin Hex. specialize (Hr root Hin). unfold validate_root_evidence in Hr. ok_inv.
    rewrite Hex in *. simpl in *. by apply foreign_evidence_false.
  - intros path hop Hin Hh. specialize (Hp path Hin). rewrite for_each_Ok, Forall_forall in Hp.
    specialize (Hp hop Hh). unfold validate_hop_evidence in Hp. rewrite seq_Ok, reject_if_Ok, negb_false_iff, for_each_Ok in Hp.
    destruct Hp as [? Hf]. rewrite !Forall_cons, !reject_if_Ok in Hf. destruct Hf as (? & ? & _).
    split_and!; [done|by apply foreign_evidence_false..].
  - intros coordinate Hin. assert (validate_explicit_root res coordinate = Ok tt) as Hex.
    { apply He. rewrite (sort_by_perm ProjectContextCoordinate_cmp), elem_of_elements, elem_of_list_to_set. done. }
    unfold validate_explicit_root in Hex. destruct (matching_roots res coordinate) as [|root [|]]; eauto; done.
Qed.

(** C12. A result that [validate_for_request] accepts answers that request: it
    carries its identifiers and a valid forest; the observations name every
    distinct initial and every distinct context Coordinate of the request exactly
    once, as accepted, omitted or outside the graph; every accepted initial
    Coordinate has exactly one explicit root; all score evidence comes from
    accepted context Coordinates, every continued Coordinate passes the lifecycle
    filter, and the paths and their hops are within the budget. *)
Theorem result_answers_request res q : validate_for_request res q = Ok tt → answers res q.
Proof using HU.
  unfold validate_for_request, validate_for_request_detailed. intros H. ok_inv.
  match goal with H : validate_and_canonicalize q = Ok _ |- _ =>
    apply validate_and_canonicalize_Ok in H as (_ & _ & ->) end.
  match goal with H : negb (bool_decide (res_request_id _ = _)) || _ = false |- _ =>
    apply orb_false_iff in H as [Hid%bool_decide_negb_false Hpr%bool_decide_negb_false] end.
  match goal with H : validate_input_observations_for_request _ _ = Ok _ |- _ =>
    apply input_observations_partition in H as [Hi Hc]; [|apply (canonical_NoDup ProjectContextCoordinate_cmp)..] end.
  match goal with H : validate_root_evidence_for_request _ _ = Ok _ |- _ =>
    apply root_evidence_answers in H as (Hre & Hh & Hx) end.
  match goal with H : validate_budget_for_request _ _ = Ok _ |- _ => unfold validate_budget_for_request in H; ok_inv end.
  split; try done; [by apply validate_detailed_spec|].
  repeat match goal with H : (_ <? _)%N = false |- _ => apply N.ltb_ge in H end.
  split; [done|]. intros path Hin. apply N.le_ngt. intros Hlt.
  match goal with H : existsb _ _ = false |- _ => apply not_true_iff_false in H; apply H end.
  apply existsb_elem. exists path. split; [done|]. by apply N.ltb_lt.
Qed.

End results.

(** ** The traversal engine *)

Section engine_theorems.
Context `{P : Platform} `{HP : !Postcard} `{HD : DbErrors} `{HB : !TraversalBackend}.
Context (ticket : SemanticGraphQueryTicket) (channels : TraversalChannels)
  (lifecycle_filter : LifecycleFilter) (budget : SemanticGraphQueryBudget)
  (roots : list SemanticGraphSelectedRoot).

Lemma new_engine_ok no_vectors backend e : TraversalEngine_new no_vectors backend = Ok e → engine_ok budget e.
Proof. unfold TraversalEngine_new. intros H. ok_inv. subst e. split; simpl; rewrite ?size_empty; apply N.le_0_l. Qed.

(** C4. Whatever the database answers, a search that succeeds returns at most
    [max_paths] paths, ranked by score, at most two of them to one Coordinate;
    every path has between one and [max_hops_per_path] hops, is contiguous, starts
    at an entrypoint of the root it names, repeats neither a Hyperedge nor a
    Coordinate and carries the identity and the score that its hops recompute to;
    on every hop the relation Document is bound to the Hyperedge and all scores
    pass their floors and recompute; and the counters of materialized work are
    within the budget. *)
Theorem search_sound fuel no_vectors backend e out :
  (0 < max_hops_per_path budget)%N → TraversalEngine_new no_vectors backend = Ok e →
  search ticket channels lifecycle_filter budget fuel e roots = Some (Ok out) →
  search_result budget roots out.
Proof. intros Hm He. apply search_found; [done|]. by eapply new_engine_ok. Qed.

(** C8. The search ends by its deadline, whatever the database answers: when
    the clock can be read at most [time_left] more times before the deadline,
    two iterations more than that are enough for every loop, the search returns an
    answer, and more iterations do not change it. *)
Theorem search_terminates `{HC : !DeadlineClock} fuel no_vectors backend e :
  TraversalEngine_new no_vectors backend = Ok e → time_left backend + 2 ≤ fuel →
  ∃ answer, ∀ fuel', fuel ≤ fuel' →
    search ticket channels lifecycle_filter budget fuel' e roots = Some answer.
Proof.
  intros He Hf. assert (eng_backend e = backend) as Hb by (unfold TraversalEngine_new in He; ok_inv; by subst e).
  destruct (search_enough ticket channels lifecycle_filter budget fuel e roots) as [answer Ha]; [rewrite Hb; lia|].
  exists answer. intros fuel' Hle. by eapply search_refines.
Qed.

(** C40. A truncated slice of mostly known targets ends the work on its
    Hyperedge, whatever the database answers.  Suppose the next iteration of a work
    item reads a slice for its first pending target, the database says that more
    targets follow (the slice is truncated), and the slice brings fewer targets
    that no path materialized before than the quantum has left and than the budget
    has room for.  Then the iteration never defers the target to a later turn: if it
    goes on, the target is gone from the pending work, the other pending work is as
    before and nothing is recorded as exhausted; the only other outcomes are an
    error and the end of the wall time.  When the path has visited every Coordinate
    of the slice, or its Hyperedge, it does go on, and no successor is added. *)
Theorem known_slice_drops_target s t pending batch :
  slice_read ticket channels lifecycle_filter budget s t pending batch →
  etb_exhaustion batch = SliceTruncated →
  let known := mat_targets (eng_materialization (st_engine s)) in
  let new := len (new_targets (etb_edge batch) t (eng_materialization (st_engine s)) (etb_options batch)) in
  (new < qnt_target_options (st_quantum s))%N →
  (N.of_nat (size known) + new < max_target_options_materialized budget)%N →
  let dropped s' :=
    wrk_pending_targets (st_work s') = pending ∧
    wrk_pending_relations (st_work s') = wrk_pending_relations (st_work s) ∧
    eng_exhaustion (st_engine s') = eng_exhaustion (st_engine s) in
  match advance_once ticket channels lifecycle_filter budget s with
  | Ok (inl s') => dropped s'
  | Ok (inr (outcome, _)) => outcome = AdvanceGlobalStop BranchStopReason.WallTimeExhausted
  | Err _ => True
  end ∧
  (Forall (visited (wrk_path (st_work s)) (etb_edge batch)) (etb_options batch) →
   ∃ s', advance_once ticket channels lifecycle_filter budget s = Ok (inl s') ∧ dropped s' ∧
     wrk_accumulator (st_work s') = wrk_accumulator (st_work s)).
Proof.
  intros Hread Htr known new Hq Hm dropped.
  destruct (truncated_slice_drops _ _ _ _ s t pending batch Hread Htr (conj Hq Hm)) as [Hret Hvis].
  split; [|exact Hvis]. by destruct (advance_once _ _ _ _ s) as [[s'|[outcome s']]|].
Qed.

End engine_theorems.

(** ** Sample requests, roots and results *)

(** A serialization of hops that tells the sample paths apart. *)
Definition sample_hop (h : HopProvenance) : list N :=
  let '(ordinal, _, key, _, _, _, _, _, _, _, coordinate, _, _, _) := h in
  ordinal :: edge_key_bytes key ++ append_identity_bytes coordinate [].

#[local] Instance sample_postcard : Postcard := {|
  postcard_root _ := Some [];
  postcard_path p := Some (digest_bytes p.1 ++ concat (sample_hop <$> p.2));
  postcard_ranking _ := Some [];
  postcard_budget _ := Some [];
|}.

#[local] Instance sample_errors : DbErrors := {| DbError := Text; DbError_InvalidData := λ t, t |}.

Definition sem_doc (n : N) : ProjectContextCoordinate := ProjectContextCoordinate.Document (ref_uuid n).
Definition sem_project : Uuid := ref_uuid 1.
Definition sem_digest (n : N) : Digest32 := mkDigest32 (replicate 32 n).
Definition sem_score : Score := mkScore 800000.

Definition sem_budget : SemanticGraphQueryBudget := {|
  max_recall_per_channel := 8; max_semantic_roots := 4; max_hops_per_path := 3; beam_width := 4;
  max_expanded_coordinates := 16; max_incident_edges_materialized := 16;
  max_relation_options_materialized := 32; max_target_options_materialized := 32; max_paths := 8;
  max_wall_time_ms := 1000; max_response_bytes := 65536 |}%N.

Definition sem_query : SemanticGraphQuery := {|
  qry_request_id := ref_uuid 2;
  qry_project_id := sem_project;
  qry_problem := lit " why ";
  qry_initial_coordinates := [sem_doc 4; sem_doc 3; sem_doc 4];
  qry_context_coordinates := [sem_doc 6; sem_doc 5];
  qry_lifecycle_filter := LifecycleFilter.AllCurrent;
  qry_budget := sem_budget |}.

Definition sem_query_permuted : SemanticGraphQuery := {|
  qry_request_id := ref_uuid 2;
  qry_project_id := sem_project;
  qry_problem := lit "why";
  qry_initial_coordinates := [sem_doc 3; sem_doc 4];
  qry_context_coordinates := [sem_doc 5; sem_doc 6; sem_doc 6];
  qry_lifecycle_filter := LifecycleFilter.AllCurrent;
  qry_budget := sem_budget |}.

(** ** A sample graph

    Coordinates 10 to 13 and the Hyperedges {10, 11}, {10, 11, 13} and {11, 12},
    each with one relation Document; every score is the same.  The backend pages
    through the Hyperedges of a Coordinate and the members of a Hyperedge in this
    order, and its state counts the reads of the clock that are left. *)

Definition sem_head (n : N) : SemanticCurrentHead := {|
  head_invalidation_epoch := 1;
  head_snapshot_digest := sem_digest n;
  head_source_basis := SemanticSourceBasis.ProjectDocument (mkProjectDocumentSourceBasis 1 (sem_digest n));
  head_unit_set_id := ref_uuid 99;
  head_unit_key := lit "overview";
  head_semantic_text_digest := sem_digest n;
  head_summary_coverage := SemanticCoverage.TitleOnly |}.

Definition sem_source (n : N) : SemanticSourceIdentity := project_document_source sem_project (ref_uuid n).
Definition sem_channels : TraversalChannels := mkTraversalChannels (sem_digest 200) [].

Definition sem_row (n : N) : SemanticExactSourceScore := {|
  ess_channel_id := sem_digest 200;
  ess_source := sem_source n;
  ess_head := sem_head n;
  ess_lifecycle := SemanticLifecycleClass.Active;
  ess_source_status := None;
  ess_roles := mkSemanticGraphStructuralRoles true true [] [];
  ess_score := sem_score;
  ess_channel_rank := 1 |}.

Definition sem_edge_provenance : ProjectContextEdgeProvenance := mkProjectContextEdgeProvenance 1 (sem_digest 1).
Definition sem_binding_provenance : ProjectContextBindingProvenance :=
  mkProjectContextBindingProvenance 1 (sem_digest 1) (sem_digest 1).

Definition sem_key (members : list N) : EdgeKey :=
  match EdgeKey_derive sem_project (sem_doc <$> members) with Ok k => k | Err _ => {| edge_key_bytes := [] |} end.

(** The Documents and the members of the Hyperedges. *)
Definition sem_edges : list (N * list N) := [(21, [10; 11]); (22, [10; 11; 13]); (23, [11; 12])]%N.

Definition sem_edge (x : N * list N) : SemanticEdgeObservation := {|
  edge_edge_key := sem_key x.2;
  edge_complete_coordinates := sem_doc <$> x.2;
  edge_provenance := sem_edge_provenance;
  edge_current_context_document_bindings :=
    [mkContextDocumentBindingObservation (ref_uuid x.1) sem_binding_provenance] |}.

Definition sem_pair (n m : N) : SemanticCurrentSourcePairDistance := {|
  spd_left := sem_source n; spd_right := sem_source m;
  spd_left_head := sem_head n; spd_right_head := sem_head m; spd_score := sem_score |}.

Definition sem_parts : Score := env_environment_gain (environment_gain []).

Definition sem_relation (entered : N) (x : N * list N) : SemanticRankedRelationOption := {|
  rro_edge_key := sem_key x.2;
  rro_edge_provenance := sem_edge_provenance;
  rro_document_id := ref_uuid x.1;
  rro_binding_provenance := sem_binding_provenance;
  rro_channel_scores := [sem_row x.1];
  rro_local_coherence := Some (sem_pair x.1 entered);
  rro_document_score := document_score sem_score sem_parts (Some sem_score) |}.

Definition sem_target (document : N) (document_score : Score) (n : N) : SemanticRankedTargetOption :=
  let target_score := target_coordinate_score sem_score sem_parts sem_score in {|
  rto_coordinate := sem_doc n;
  rto_channel_scores := [sem_row n];
  rto_relation_document_coherence := sem_pair document n;
  rto_target_score := target_score;
  rto_transition_score := harmonic_score document_score target_score |}.

(** The elements after the one that satisfies [p]. *)
Fixpoint after {A} (p : A → bool) (l : list A) : list A :=
  match l with [] => [] | x :: l => if p x then l else after p l end.

Definition page {A} (limit : N) (l : list A) : list A * SemanticTraversalSliceExhaustion :=
  (take (N.to_nat limit) l, if (limit <? len l)%N then SliceTruncated else SliceExhausted).

Definition sem_number (c : ProjectContextCoordinate) : N :=
  default 0%N (List.find (λ n, bool_decide (sem_doc n = c)) [10; 11; 12; 13]%N).

Definition sem_ticket : SemanticGraphQueryTicket := {|
  tkt_community_id := sem_project; tkt_generation_id := ref_uuid 98; tkt_extractor_version := lit "v1";
  tkt_query_fences := mkQueryCompatibilityFences (sem_digest 3) (sem_digest 4) (sem_digest 5);
  tkt_projection_generation := 1; tkt_project_context_revision := 1; tkt_observed_at := 0%Z |}.

Definition sem_snapshot : SemanticGraphSnapshotBinding := {|
  snb_community_id := sem_project; snb_generation_id := ref_uuid 98;
  snb_query_fences := tkt_query_fences sem_ticket; snb_extractor_version := lit "v1";
  snb_project_context_revision := 1; snb_observed_at := 0%Z |}.

Definition sem_hydrated (score : SemanticExactSourceScore) : SemanticHydratedCurrentSource := {|
  hyd_canonical := {|
    cns_source := ess_source score; cns_source_invalidation_epoch := 1;
    cns_source_basis := head_source_basis (ess_head score);
    cns_source_snapshot_digest := head_snapshot_digest (ess_head score);
    cns_lifecycle := ess_lifecycle score; cns_source_status := None;
    cns_title := lit "title"; cns_summary := None |};
  hyd_semantic_head := ess_head score |}.

Definition sem_rank_relations (request : SemanticIncidentRelationRankRequest)
  : SemanticIncidentRelationRankOutcome :=
  let entered := sem_number (rrq_entered_from request) in
  let options := sem_relation entered <$> List.filter (λ x, bool_decide (entered ∈ x.2)) sem_edges in
  let options := match rrq_after request with
    | Some cursor => after (λ option, bool_decide (rro_edge_key option = rrc_edge_key cursor)) options
    | None => options
    end in
  let '(options, exhaustion) := page (rrq_limit request) options in
  RelationsRanked (mkSemanticIncidentRelationRankBatch sem_snapshot options [] 0 exhaustion).

Definition sem_rank_targets (request : SemanticEdgeTargetRankRequest) : SemanticEdgeTargetRankOutcome :=
  match List.find (λ x, bool_decide (sem_key x.2 = edge_edge_key (trq_hyperedge request))) sem_edges with
  | None => TargetsHyperedgeChanged
  | Some (document, members) =>
      let options := sem_target document (trq_document_score request) <$> members in
      let options := match trq_after request with
        | Some cursor => after (λ option, bool_decide (rto_coordinate option = tgc_target_coordinate cursor)) options
        | None => options
        end in
      let '(options, exhaustion) := page (trq_limit request) options in
      TargetsRanked (mkSemanticEdgeTargetRankBatch sem_snapshot (trq_hyperedge request) options [] 0 0 exhaustion)
  end.

#[local] Instance sem_backend : TraversalBackend := {|
  Backend := nat;
  past_deadline n := (bool_decide (n = O), pred n);
  load_hyperedge expectation n :=
    (Ok (ReadCurrent <$> (sem_edge <$> List.find (λ x, bool_decide (sem_key x.2 = hex_edge_key expectation)) sem_edges)), n);
  rank_relations request n := (Ok (Some (sem_rank_relations request)), n);
  rank_targets request n := (Ok (Some (sem_rank_targets request)), n);
  hydrate scores n :=
    (Ok (Some (mkSemanticCanonicalHydrationBatch sem_snapshot (sem_hydrated <$> scores))), n);
|}.

#[local] Instance sem_clock : DeadlineClock.
Proof.
  refine {| time_left := (id : Backend → nat) |}; try (intros; simpl; unfold id; lia).
  intros b. simpl. unfold id. destruct b; [done|]. simpl. lia.
Defined.

Definition sem_root : SemanticGraphSelectedRoot := {|
  sgr_root_id := match derive_root_id sem_project (sem_source 10) [EntryCoordinate (sem_doc 10)] with
    | Ok id => id | Err _ => sem_digest 0 end;
  sgr_source := sem_source 10;
  sgr_discovery_channels := [ExplicitInitial];
  sgr_structural_entrypoints := [EntryCoordinate (sem_doc 10)];
  sgr_preview := mkSemanticSourcePreview (lit "title") None None;
  sgr_lifecycle := SemanticLifecycleClass.Active;
  sgr_source_status := None;
  sgr_canonical_provenance := canonical_provenance (sem_hydrated (sem_row 10));
  sgr_semantic_provenance := None;
  sgr_semantic_head := None;
  sgr_semantic_score := None;
  sgr_score_explanation := None;
  sgr_automatic_lane := None |}.

Definition sem_reads : @Backend _ _ sem_backend := 1000.

Definition sem_engine : TraversalResult TraversalEngine := TraversalEngine_new false sem_reads.

Definition sem_search : option (TraversalResult SearchOutput) :=
  match sem_engine with
  | Ok e => search sem_ticket sem_channels LifecycleFilter.AllCurrent sem_budget 1002 e [sem_root]
  | Err _ => None
  end.

(** The Documents and the Coordinates along a path. *)
Definition path_summary (path : SemanticPath) : list (N * N) :=
  (λ h, (nth 15 (Uuid_as_bytes (rel_document_id (hop_selected_relation_document h))) 0%N,
         sem_number (con_coordinate (hop_continued_to_coordinate h)))) <$> path_hops path.

(** ** Applications *)

Definition sem_canonical : SemanticGraphQuery :=
  match validate_and_canonicalize sem_query with Ok q => q | Err _ => sem_query end.

Lemma request_normal_form_witness :
  validate_and_canonicalize sem_query = Ok sem_canonical ∧
  validate_and_canonicalize sem_query_permuted = Ok sem_canonical.
Proof.
  assert (H : validate_and_canonicalize sem_query = Ok sem_canonical) by (vm_compute; reflexivity).
  split; [exact H|]. destruct (request_normal_form sem_query sem_canonical H) as (_ & _ & _ & Hp). apply Hp.
  - split; try reflexivity; intros c; simpl; rewrite !elem_of_cons, elem_of_nil; tauto.
  - split; vm_compute; discriminate.
Defined.

Definition sem_candidate (n score : N) (neutral : bool) : RootSelectionCandidate := {|
  cand_source := sem_source n; cand_problem_score := mkScore score; cand_candidate_score := mkScore score;
  cand_discovered_problem_neutral := neutral; cand_redundancy_to := [] |}.

Definition sem_candidates : list RootSelectionCandidate :=
  [sem_candidate 10 700000 false; sem_candidate 11 800000 true; sem_candidate 12 900000 false].

Lemma root_selection_witness :
  ∃ roots, select_automatic_roots sem_candidates 2 = Ok roots ∧ selection sem_candidates 2 roots.
Proof.
  destruct (root_selection sem_candidates 2) as (_ & _ & H).
  assert (Hu : unique_sources sem_candidates) by by_evaluation.
  destruct (H Hu) as (roots & He & Hs & _). exists roots. split; [exact He|exact Hs].
Defined.

Definition sem_state (n score : N) : FrontierPathState :=
  FrontierPathState_seed (sem_digest n) (EntryCoordinate (sem_doc n)) (Some (mkScore score)).

Lemma beam_keeps_best_witness :
  ∃ acc, BoundedSuccessorAccumulator_new 2 = Ok acc ∧
    into_successors (admit_all acc [sem_state 10 500000; sem_state 11 700000; sem_state 12 600000])
    = take 2 (sort_by compare_path_states [sem_state 10 500000; sem_state 11 700000; sem_state 12 600000]).
Proof.
  exists (mkAccumulator 2 [] false). split; [reflexivity|].
  apply (beam_keeps_best 2 (mkAccumulator 2 [] false) _
    [sem_state 10 500000; sem_state 11 700000; sem_state 12 600000]); [reflexivity| |reflexivity].
  intros a b Ha Hb. rewrite !elem_of_cons, elem_of_nil in Ha, Hb.
  destruct Ha as [->|[->|[->|[]]]], Hb as [->|[->|[->|[]]]]; try reflexivity; intros H; vm_compute in H; discriminate H.
Defined.

Lemma search_sound_witness :
  ∃ e out, TraversalEngine_new false sem_reads = Ok e ∧
    search sem_ticket sem_channels LifecycleFilter.AllCurrent sem_budget 1002 e [sem_root] = Some (Ok out) ∧
    length (out_paths out) = 4 ∧ search_result sem_budget [sem_root] out.
Proof.
  assert (H : match sem_search with Some (Ok out) => bool_decide (length (out_paths out) = 4) | _ => false end = true)
    by (vm_compute; reflexivity).
  unfold sem_search in H. simpl in H. eexists. destruct (search _ _ _ _ _ _ _) as [[out|]|] eqn:Hs; [|discriminate H..].
  exists out. split; [reflexivity|]. split; [exact Hs|]. split; [exact (bool_decide_eq_true_1 _ H)|].
  refine (search_sound sem_ticket sem_channels LifecycleFilter.AllCurrent sem_budget [sem_root] 1002 false
    sem_reads _ out _ _ Hs); reflexivity.
Defined.

Lemma search_terminates_witness :
  ∃ e answer, TraversalEngine_new false sem_reads = Ok e ∧ ∀ fuel', 1002 ≤ fuel' →
    search sem_ticket sem_channels LifecycleFilter.AllCurrent sem_budget fuel' e [sem_root] = Some answer.
Proof.
  assert (Hf : time_left sem_reads + 2 ≤ 1002) by (apply Nat.leb_le; vm_compute; reflexivity).
  eexists.
  destruct (search_terminates sem_ticket sem_channels LifecycleFilter.AllCurrent sem_budget [sem_root] 1002 false
    sem_reads _ eq_refl Hf) as [answer Ha].
  exists answer. split; [reflexivity|exact Ha].
Defined.

(** *** The output of the sample search as a result *)

Definition sem_request : SemanticGraphQuery := {|
  qry_request_id := ref_uuid 2;
  qry_project_id := sem_project;
  qry_problem := lit "why";
  qry_initial_coordinates := [sem_doc 10; sem_doc 3];
  qry_context_coordinates := [sem_doc 5];
  qry_lifecycle_filter := LifecycleFilter.AllCurrent;
  qry_budget := sem_budget |}.

Definition digest_of (r : QueryContractResult Digest32) : Digest32 :=
  match r with Ok d => d | Err _ => sem_digest 0 end.

Definition sem_coverage (out : SearchOutput) : SemanticGraphQueryCoverage :=
  apply_search_coverage {|
    cvg_authorized_graph_sources := 4; cvg_current_indexed_graph_sources := 4; cvg_title_only_sources := 4;
    cvg_embedding_coverage := mkEmbeddingCoverageCounts 4 0 0 0 0 0;
    cvg_query_channels_requested := 2; cvg_query_channels_executed := 1;
    cvg_omitted_context_channel_counts_by_reason := mkOmittedContextChannelCounts 1 0 0 0 0 0;
    cvg_neutral_candidates_considered := 0; cvg_conditioned_candidates_considered := 0;
    cvg_roots_selected := 1; cvg_roots_returned := 1;
    cvg_expanded_coordinates := 0; cvg_incident_edges_materialized := 0;
    cvg_relation_options_materialized := 0; cvg_target_options_materialized := 0;
    cvg_paths_generated := 0; cvg_paths_retained := 0; cvg_paths_returned := len (out_paths out);
    cvg_omitted_for_response_budget := mkOmittedForResponseBudgetCounts 0 0 0;
    cvg_truncation_counts_by_dimension := TruncationCountsByDimension_default;
    cvg_truncation_samples := [];
    cvg_degraded_mode_counts := mkDegradedModeCounts 0 0 0 0 0 |}%N out.

Definition sem_result (out : SearchOutput) : SemanticGraphQueryResult := {|
  res_request_id := ref_uuid 2;
  res_project_id := sem_project;
  res_request_binding_digest := sem_digest 9;
  res_observations := {|
    obs_semantic_generation_id := ref_uuid 98;
    obs_source_generation_contract_digest := sem_digest 3;
    obs_embedding_space_fence := sem_digest 4;
    obs_query_contract_digest := query_contract_digest;
    obs_ranking_contract_digest := digest_of ranking_contract_digest;
    obs_budget_profile_digest := digest_of budget_profile_digest;
    obs_extractor_version := lit "v1";
    obs_project_context_revision := 1;
    obs_snapshot_observed_at := 0%Z |};
  res_input_observations := {|
    inp_accepted_initial_coordinates := [{|
      aio_coordinate := sem_doc 10;
      aio_graph_membership := mkCurrentGraphMembershipObservation 1 [sem_key [10; 11]%N];
      aio_source_basis := head_source_basis (sem_head 10);
      aio_semantic_state := HeadMissing |}];
    inp_initial_not_in_graph := [sem_doc 3];
    inp_omitted_initial_coordinates := [];
    inp_accepted_context_coordinates := [];
    inp_omitted_context_coordinates :=
      [mkOmittedContextCoordinateObservation (sem_doc 5) OmittedContextCoordinateReason.SourceNotFound] |};
  res_roots := out_roots out;
  res_paths := out_paths out;
  res_coverage := sem_coverage out;
  res_completion_reason := (completion [] out).2;
  res_exhausted_dimensions := (completion [] out).1 |}.

(** What the sample search returned. *)
Definition on_output (p : SearchOutput → bool) : bool :=
  match sem_search with Some (Ok out) => p out | _ => false end.

Lemma on_output_true p : on_output p = true → ∃ out, sem_search = Some (Ok out) ∧ p out = true.
Proof. unfold on_output. destruct sem_search as [[out|]|]; [|done..]. intros H. by exists out. Qed.

Lemma result_check_decides_witness :
  ∃ out, sem_search = Some (Ok out) ∧ valid_forest (sem_result out).
Proof.
  destruct (on_output_true (λ out, match validate_detailed (sem_result out) with
    | Ok _ => true | Err _ => false end)) as (out & Hs & Hv); [vm_compute; reflexivity|].
  exists out. split; [exact Hs|]. apply (result_check_decides (sem_result out)).
  destruct (validate_detailed (sem_result out)) as [[]|]; [reflexivity|discriminate Hv].
Defined.

Lemma result_answers_request_witness :
  ∃ out, sem_search = Some (Ok out) ∧ answers (sem_result out) sem_request.
Proof.
  destruct (on_output_true (λ out, match validate_for_request (sem_result out) sem_request with
    | Ok _ => true | Err _ => false end)) as (out & Hs & Hv); [vm_compute; reflexivity|].
  exists out. split; [exact Hs|]. apply (result_answers_request (sem_result out) sem_request).
  destruct (validate_for_request (sem_result out) sem_request) as [[]|]; [reflexivity|discriminate Hv].
Defined.

(** *** A page of known targets *)

(** The target over Document 23 of a path at Coordinate 11, after another path has
    loaded its Hyperedge and materialized Coordinate 11 on it. *)
Definition sem_known_target : TargetWork := {|
  twk_entered_from := Some (sem_doc 11);
  twk_relation_admitted := true;
  twk_expectation := mkSemanticHyperedgeExpectation (sem_key [11; 12]%N) sem_edge_provenance
    (Some (mkContextDocumentBindingObservation (ref_uuid 23) sem_binding_provenance));
  twk_edge := None;
  twk_document := {|
    rel_document_id := ref_uuid 23;
    rel_binding_provenance := sem_binding_provenance;
    rel_preview := mkSemanticSourcePreview (lit "title") None None;
    rel_canonical_provenance := canonical_provenance (sem_hydrated (sem_row 23));
    rel_semantic_provenance := semantic_provenance sem_ticket (sem_row 23);
    rel_document_score := document_score sem_score sem_parts (Some sem_score);
    rel_score_explanation := {|
      exp_score_role := SemanticScoreRole.RelationDocument;
      exp_problem_score := sem_score; exp_conditioned_evidence := [];
      exp_highest_gain := mkScore 0; exp_second_highest_gain := mkScore 0; exp_environment_gain := sem_parts;
      exp_anchor_gain := AnchorGain.None; exp_local_coherence := Some sem_score;
      exp_document_score := Some (document_score sem_score sem_parts (Some sem_score));
      exp_target_coordinate_score := None; exp_transition_score := None; exp_penalties := [];
      exp_final_score := document_score sem_score sem_parts (Some sem_score) |} |};
  twk_document_head := sem_head 23;
  twk_after := None;
  twk_exhausted := false |}.

Definition sem_known_edge : SemanticEdgeObservation := sem_edge (23, [11; 12])%N.

Definition sem_known_step : Step := {|
  st_engine := mkTraversalEngine sem_reads
    (mkMaterializationState 2 {[ sem_key [11; 12]%N ]} ∅
       {[ (Some (sem_doc 11), sem_key [11; 12]%N, ref_uuid 23, sem_doc 11) ]})
    ∅ {[ sem_key [11; 12]%N := sem_known_edge ]} ∅ ∅ ∅ ExhaustionState_default false;
  st_work := mkExpansionWork (0, 0)%N [] (sem_state 11 800000) true true None [] [sem_known_target]
    (Some (mkAccumulator 4 [] false)) 0 StopObservations_default;
  st_quantum := mkQuantum 1 1 1 1 |}.

Definition sem_known_batch : SemanticEdgeTargetRankBatch :=
  mkSemanticEdgeTargetRankBatch sem_snapshot sem_known_edge
    [sem_target 23 (document_score sem_score sem_parts (Some sem_score)) 11] [] 0 0 SliceTruncated.

Lemma known_slice_drops_target_witness :
  ∃ s', advance_once sem_ticket sem_channels LifecycleFilter.AllCurrent sem_budget sem_known_step = Ok (inl s') ∧
    wrk_pending_targets (st_work s') = [].
Proof.
  assert (Hread : slice_read sem_ticket sem_channels LifecycleFilter.AllCurrent sem_budget sem_known_step
    sem_known_target [] sem_known_batch).
  { split; try reflexivity.
    - right. split; [reflexivity|]. split; vm_compute; reflexivity.
    - eexists _, _, _. split; [reflexivity|]. split; [reflexivity|]. vm_compute. reflexivity. }
  destruct (known_slice_drops_target sem_ticket sem_channels LifecycleFilter.AllCurrent sem_budget sem_known_step
    sem_known_target [] sem_known_batch Hread eq_refl) as [_ Hv].
  - vm_compute. reflexivity.
  - vm_compute. reflexivity.
  - destruct Hv as (s' & Hs & (Hp & _) & _); [|exists s'; split; [exact Hs|exact Hp]].
    apply Forall_cons. split; [left; by_evaluation|apply Forall_nil; exact I].
Defined.

(** The state of the first path of the sample output, extended by the last hop of
    its fourth path. *)
Definition continued (out : SearchOutput) : TraversalResult FrontierPathState :=
  let seed := FrontierPathState_seed (sgr_root_id sem_root) (EntryCoordinate (sem_doc 10)) None in
  let? first := ok_or (out_paths out !! 0 ≫= λ p, head (path_hops p)) (invalid_state "") in
  let? hop := ok_or (out_paths out !! 3 ≫= λ p, last (path_hops p)) (invalid_state "") in
  let? state := from_query (append_hop seed first) in
  from_query (append_hop state hop).

(** What this costs a whole search: in the sample graph the path over Document 22
    to Coordinate 11 stops there, although the hop over Document 23 to Coordinate
    12 extends it, and the search reports that it exhausted the frontier. *)
Example sample_search_misses_path :
  ∃ out, sem_search = Some (Ok out) ∧
    path_summary <$> out_paths out
      = [[(22, 11)]; [(22, 13)]; [(21, 11); (22, 13)]; [(21, 11); (23, 12)]]%N ∧
    (∃ state, continued out = Ok state) ∧
    completion [] out = ([], CompletionReason.FrontierExhausted).
Proof.
  destruct (on_output_true (λ out,
    bool_decide (path_summary <$> out_paths out
      = [[(22, 11)]; [(22, 13)]; [(21, 11); (22, 13)]; [(21, 11); (23, 12)]]%N)
    && match continued out with Ok _ => true | Err _ => false end
    && bool_decide ((completion [] out).1 = [])
    && match (completion [] out).2 with CompletionReason.FrontierExhausted => true | _ => false end))
    as (out & Hs & Hp); [vm_compute; reflexivity|].
  rewrite !andb_true_iff, !bool_decide_eq_true in Hp. destruct Hp as [[[H1 H2] H3] H4].
  exists out. split_and!; [done|done| |].
  - destruct (continued out) as [state|]; [by exists state|done].
  - destruct (completion [] out) as [dimensions reason]. simpl in *. subst. by destruct reason.
Qed.
